(* ===== verification/_CoqProject ===== *)
-Q . S2P
Prelude.v
MmNumber.v
Effects.v
Serialization.v
DexFee.v
Swap.v
Demo.v
SwapEnv.v
MakerSwap.v
MakerSwapProps.v
MakerSwapSafety.v
MakerSwapEnds.v
MakerTheorems.v
TakerSwap.v
TakerSwapProps.v
TakerSwapSafety.v
TakerSwapEnds.v
TakerTheorems.v
Negotiation.v
SwapContext.v
Ordermatch.v
OrdermatchNode.v
OrdermatchProps.v
OrdermatchInv.v
OrderSwap.v
OrderTheorems.v
Orderbook.v
OrderbookProps.v
TrieStore.v
TrieStoreProps.v
OrderbookNode.v
OrderbookSync.v
OrderbookFetch.v
BestOrders.v
DemoBook.v
OrderbookTheorems.v
StateMachine.v
SwapV2.v
MakerSwapV2.v
TakerSwapV2.v
SwapV2Env.v
MakerV2Props.v
TakerV2Props.v
MakerV2Safety.v
TakerV2Safety.v
MakerV2Ends.v
TakerV2Ends.v
SwapV2Context.v
SwapV2Start.v
DemoV2.v
MakerV2Theorems.v
TakerV2Theorems.v
SwapV2Theorems.v
SwapWatcher.v
SwapWatcherProps.v
SwapWatcherTheorems.v
Opcode.v
Keys.v
Script.v
ScriptProps.v
Transaction.v
TransactionProps.v
Sign.v
ScriptEngine.v
HtlcScripts.v
UtxoHtlc.v
F64.v
UtxoValidate.v
UtxoFee.v
UtxoV2.v
UtxoTxBuilder.v
UtxoBuilderProps.v
RecentlySpent.v
UtxoSend.v
UtxoSpendProps.v
UtxoReadProps.v
UtxoV2Props.v
DemoUtxo.v
UtxoTheorems.v
UtxoBuilderTheorems.v
