(* ===== verification/Prelude.v ===== *)
(** * Komodo DeFi Framework: verification library

    A model of the trading core of the Komodo DeFi Framework, a node that
    trades coins of different chains by atomic swaps, with the theorems that
    make it correct.  Paths are under [src/mm2src].

    ** The program and the model

    A node keeps its own maker and taker orders and matches them with those of
    other nodes by four messages (request, reserved, connect, connected).  A
    match starts a swap on each side.  A legacy swap is a state machine on each
    side: the two negotiate lock times, hashes and keys, the taker pays a fee,
    both pay into hash time locked contracts, the maker reveals the secret by
    spending the taker's payment, the taker spends the maker's; what fails is
    refunded.  Every step is saved as an event, and a restarted node rebuilds
    the swap from its events.  A swap of the second protocol (TPU) is run by a
    library of storable state machines: the taker first sends a funding that it
    can reclaim with a secret of its own, the maker answers with its payment and
    a signed spend of the funding, which the taker turns into its payment; then
    the secrets are exchanged as before.

    - [Prelude] : results, machine integers, byte lists, tactics.
    - [MmNumber] : the amounts of [mm2_number]; a number is a rational.
    - [Effects] : programs whose calls to the outside are answered by an
      environment, their runs, traces and logic.
    - [Serialization] : streams, readers, compact integers, lists and byte
      strings of [mm2_bitcoin/serialization].
    - [DexFee] : the fee of a trade ([coins/lp_coins.rs], [DexFee]).
    - [Swap] : what both sides share ([lp_swap.rs], [check_balance.rs], the
      argument types of [lp_coins.rs]); [Demo] is a concrete environment and
      [SwapEnv] says what a fair environment and a settled swap are.
    - [MakerSwap], [TakerSwap] : the two machines ([maker_swap.rs],
      [taker_swap.rs], [taker_restart.rs]): the record of the swap, the events
      with [apply_event], one handler per command, [swap_loop] (the loop of
      [run_maker_swap] and [run_taker_swap]), saving and loading, recovery.
      [MakerSwapProps], [MakerSwapSafety], [MakerSwapEnds] and their taker
      counterparts hold the lemmas; [MakerTheorems], [TakerTheorems] the
      properties.
    - [Negotiation] : the two sides together; [SwapContext] : message stores,
      locked amounts and lock times.
    - [Ordermatch] : orders, builders and matching ([lp_ordermatch.rs]);
      [OrdermatchNode] : the state of a node's orders and its handlers, and
      [run], the runs of a node; [OrderSwap] : what a match starts;
      [OrdermatchProps], [OrdermatchInv] : the invariant [node_ok] and its
      preservation; [OrderTheorems] : the properties.
    - [Orderbook] : the orders of all makers that a node knows of, with the
      requests about them ([lp_ordermatch.rs], [best_orders.rs],
      [orderbook_depth.rs]); [TrieStore] : the tries of them that nodes compare,
      their history of changes, and the messages that synchronise them;
      [OrderbookNode] : both in one node with the batches that wait for its
      worker, [book_step] and [reachable].  The tries and their database are the
      typeclasses [TrieLib] and [TrieLaws], the order in which a hash map is
      walked [HashOrder].  [OrderbookProps], [TrieStoreProps], [OrderbookSync],
      [OrderbookFetch] and [BestOrders] hold the lemmas, [DemoBook] two
      concrete nodes, [OrderbookTheorems] the properties.
    - [StateMachine] : the crate [mm2_state_machine]: the traits as the
      typeclass [StorableStateMachine], [run], [kickstart]; then, for every
      such machine, [history] (any number of sessions, each cut anywhere),
      [session] (what may run next) and the rules for safety, stored paths,
      ends and calls.
    - [SwapV2] : what the two machines of the second protocol share
      ([swap_v2_common.rs], [komodefi.swap_v2.pb.rs], the message stores of
      [lp_swap.rs], the traits of [lp_coins.rs] as the record [CoinV2]);
      [MakerSwapV2], [TakerSwapV2] : the machines ([maker_swap_v2.rs],
      [taker_swap_v2.rs]): states, events, one handler per state, recreation
      from the database; each is an instance of the typeclass.
    - [SwapV2Env] : fair environments and the logic of the shared programs;
      [MakerV2Props], [MakerV2Safety], [MakerV2Ends] and their taker
      counterparts hold the lemmas; [SwapV2Context] : the node's context and
      the message stores; [SwapV2Start] : what a match starts, and the
      negotiation; [DemoV2] : a concrete environment; [MakerV2Theorems],
      [TakerV2Theorems], [SwapV2Theorems] : the properties.
    - [SwapWatcher] : the node that helps with the swaps of others
      ([swap_watcher.rs]): the states and their handlers, the machine, the lock
      per taker fee and the watchers a node runs; [SwapWatcherProps] : its
      logic and its end; [SwapWatcherTheorems] : the properties.
    - [Opcode], [Keys], [Script], [Transaction], [Sign] : the crates of
      [mm2_bitcoin] under the coins: opcodes, numbers, builder and parser of
      scripts ([script/src]), keys and hashes ([keys/src], [crypto/src]),
      transactions ([chain/src/transaction.rs]), the digests that are signed,
      their check and signing ([script/src/sign.rs], [verify.rs],
      [coins/utxo_signer]); hash functions, Blake2b and secp256k1 are the
      typeclasses [BitCrypto], [Blake2b] and [Secp256k1].  [ScriptProps] and
      [TransactionProps] hold the lemmas.
    - [ScriptEngine] : the interface of the network: what the documentation of
      the script language says of the opcodes that the swaps use;
      [HtlcScripts] : the scripts of the payments and [policy], what they
      promise; [F64] : double precision numbers.
    - [UtxoHtlc], [UtxoValidate], [UtxoFee], [UtxoV2] : the swap payments of
      UTXO coins ([coins/utxo/utxo_common.rs]): spends, refunds and preimages
      for watchers; the outputs of a payment, its validation, finding a spend
      and its secret; the check of a fee; the payments of the second protocol.
      The answers of the wallet and of the chain are the records [Net] and
      [Chain].  [UtxoSpendProps], [UtxoReadProps] and [UtxoV2Props] hold the
      lemmas, [DemoUtxo] a concrete network and two wallets, [UtxoTheorems] the
      properties.
    - [UtxoTxBuilder], [RecentlySpent], [UtxoSend] : the transactions of a UTXO
      wallet ([coins/utxo.rs], [utxo_common.rs]): fee rates, the interest of KMD
      and [build], the loop that chooses inputs, adds the change and updates the
      fee; the cache of spent outputs, and the order and maturity of the outputs
      offered to a build; the sends of the legacy protocol and the fees a trade
      is told.  The answers of the node are the records [BuildNet] and
      [SendNet].  [F64] shows which arithmetic of sizes is exact;
      [UtxoBuilderProps] holds the lemmas of the loop, [UtxoBuilderTheorems] the
      properties.

    A Rust [Result] is [result]; a panic is [None] of an option or the outcome
    of a program; a machine integer is a [Z], wrapped where an operation of the
    source can leave the width; a [HashMap] is a [gmap], and where the source
    iterates one the order is a parameter.  An awaited call of a swap handler
    to a coin, the network, the clock or the database is a [Call] of [Swap]
    with an arbitrary answer, for the second protocol a [CallV2] of [SwapV2],
    which includes those of [Swap], for a watcher a [WatcherCall].  The order handlers take what they ask of the
    outside as an argument ([Env]) and return their outward actions; a handler
    works under the lock of the order it changes and is one step of [node_step].

    ** What the theorems show

    - Money safety of the legacy swap, for every behaviour of the environment
      and any crashes and restarts: [maker_money_safety], [taker_money_safety];
      recovery of funds: [maker_recover_safe], [taker_recover_safe].
    - Each handler refines an abstract machine ([maker_handler_refines],
      [taker_handler_refines]); restarts continue where the swap was, with the
      exceptions they name ([maker_restart_consistent], [maker_restore_live_state],
      [taker_restart_command], [taker_restart_discovers],
      [taker_restart_panics]).
    - In a fair environment sessions end ([maker_session_ends],
      [taker_session_ends]) and a session that ends has settled the payment
      it sent ([maker_session_outcome], [taker_session_outcome]).
    - The negotiation agrees and leaves each side its time
      ([negotiation_agrees], [negotiation_window]).
    - Order matching: a node never sells an amount twice, starts at most one
      swap per match, watches the balance of every order, answers with fair
      terms that the taker accepts, connects to the cheapest maker, and both
      sides start the same swap ([no_overselling], [swaps_started_once],
      [orders_are_watched], [reserved_is_accepted], [taker_connects_to_cheapest],
      [match_starts_same_swap], [taker_order_as_maker]); two ways in which
      messages get lost ([reserved_messages_lost]).
    - The order book: its indexes are exact ([book_indexes_exact]) and the best
      orders are the cheapest ([best_orders_cheapest]); the tries mirror the
      book once the worker is done ([tries_mirror_book]); any request for a
      maker's orders is answered correctly ([sync_answer_correct]); one
      keep-alive brings a node up to date ([keep_alive_synchronises]), and so
      does fetching a whole book ([whole_book_fetched], [whole_book_refused]).
      They hold for items that keep to [universe]: a uuid belongs to one maker
      and pair, and no two sets of orders have the same root;
      [created_takes_over] and [stale_announcement_incomplete] show what
      happens outside.
    - The second protocol: money safety for every behaviour of the environment,
      crashes and recreations ([maker_v2_money_safety],
      [taker_v2_money_safety]); the stored events follow the declared
      transitions, a session that ends well has settled what it sent, and it
      leaves nothing in the node's context ([maker_v2_path], [taker_v2_path]);
      sessions end in a fair environment ([v2_sessions_end]), but one wait of
      the maker ends late ([maker_v2_preimage_wait]); recreation is exact up to
      the swap contracts ([v2_restart]); the two sides agree
      ([v2_negotiation_agrees]); a swap reads the newest message of its
      counterparty ([v2_poll_newest]).
    - The watcher: what it may do with the money and why it stops
      ([watcher_money_safety], [watcher_stops]); a node runs one per taker fee
      while it is younger than its lock ([one_watcher_per_fee],
      [lock_expires_early]); it means the same payments and times as the taker
      ([watcher_agrees_with_taker]).
    - The payments of UTXO coins: who may spend one ([htlc_spend_needs],
      [htlc_policy]); the network accepts the spends and refunds that the wallet
      makes ([payment_spend_accepted], [payment_refund_accepted]) and those that
      two sides sign ([funding_spend_composes], [payment_spend_composes]); what
      one side pays the other validates ([sent_payment_is_valid]); the secret
      reaches the other side ([secret_extracted]), unless it is pushed in an
      unusual way ([secret_push_hidden]); where the code fails: refunds after
      2038 ([refund_after_2038]), underpaid outputs with a watcher reward
      ([underpaid_payment_valid]).  They speak of any network that satisfies
      [ScriptEngine], and of second scripts with the same hash where a collision
      would help.
    - The transactions of a UTXO wallet: a built transaction balances and pays
      the fee of its signed size ([built_transaction_pays]), and the loop of the
      builder ends ([build_returns]); the cache hides every output a send has
      spent, and nothing else ([cache_offers]), so that the sends of a wallet
      never conflict, whatever the node still lists ([sends_never_conflict]).
    - Fees, volumes, locked amounts and lock times: [dex_fee_correct],
      [max_taker_vol_exact], [locked_amount_split], [atomic_locktime_agreed].
    - The serialization round-trips within its bounds: [transaction_roundtrip], [list_roundtrip],
      [bytes_roundtrip_bound], [parse_compact_int_reader], [read_iter_concat].

    ** Bounds and fuel

    [swap_loop] and the message and retry loops take fuel.  A maker session
    executes at most twelve commands and a taker session at most thirteen,
    because commands only move forward; [maker_session_ends] and
    [taker_session_ends] give the fuel that is enough in a fair environment,
    and the safety theorems hold for every fuel.  A state of the second protocol
    is entered at most once, because every transition lowers a rank;
    [enough_fuel] of [SwapV2Env] bounds its loops by the last point in time that
    they wait for.  Following a history of changes takes the size of the history
    as fuel, which is enough because its entries can be ranked ([history_ok],
    [follow_history_ends]).  A build runs for two rounds more than there are
    inputs to choose from ([build_fuel]), because every round that does not end
    it takes one input more ([build_returns]); the cache needs two rounds of
    replacement ([CACHE_ROUNDS]), because what replaces a spent output is itself
    not spent ([cache_offers]).  The readers of
    [Serialization] recurse on the announced length, which is bounded.

    ** Not modelled

    Of the coins only the swap payments of UTXO coins and the transactions of
    their wallets are modelled, not their balances, history, withdrawals,
    activation and wallets with many addresses, which page through the answers
    of servers.  Ethereum, Tendermint, Zcash, Lightning, Sia and
    Solana are written against the libraries and node clients of those chains;
    the swaps are proved for every answer of theirs.  Block headers and proofs of
    inclusion, peer-to-peer transport, databases, storage files, the encoding of
    messages and signatures (parameters), RPC wrappers, activation tasks,
    hardware wallets, metrics and the common runtime are input and output around the core. *)

From Stdlib Require Export ZArith Lia Bool.
From stdpp Require Export base tactics list numbers option strings pretty.

#[export] Set Default Goal Selector "!".

(** ** Results

    The [Result<A, E>] of the source, with the [?] operator as a bind. *)

Inductive result (E A : Type) : Type :=
| Ok (a : A)
| Err (e : E).
Arguments Ok {E A} a.
Arguments Err {E A} e.

Definition result_bind {E A B} (r : result E A) (k : A -> result E B) : result E B :=
  match r with
  | Ok a => k a
  | Err e => Err e
  end.

Definition result_map {E A B} (f : A -> B) (r : result E A) : result E B :=
  match r with
  | Ok a => Ok (f a)
  | Err e => Err e
  end.

Definition map_err {E F A} (f : E -> F) (r : result E A) : result F A :=
  match r with
  | Ok a => Ok a
  | Err e => Err (f e)
  end.

Definition ok_or {E A} (o : option A) (e : E) : result E A :=
  match o with
  | Some a => Ok a
  | None => Err e
  end.

Definition is_ok {E A} (r : result E A) : bool :=
  match r with
  | Ok _ => true
  | Err _ => false
  end.

Declare Scope result_scope.
Delimit Scope result_scope with result.
Notation "'let?' x ':=' r 'in' k" := (result_bind r (fun x => k))
  (at level 10, x pattern, r at level 100, k at level 200) : result_scope.

Lemma result_bind_ok {E A B} (r : result E A) (k : A -> result E B) b :
  result_bind r k = Ok b <-> exists a, r = Ok a /\ k a = Ok b.
Proof.
  destruct r; simpl; split.
  - eauto.
  - intros (x & [= ->] & ?). done.
  - done.
  - intros (x & ? & ?). done.
Qed.

Lemma result_bind_err {E A B} (r : result E A) (k : A -> result E B) e :
  result_bind r k = Err e <-> r = Err e \/ exists a, r = Ok a /\ k a = Err e.
Proof.
  destruct r; simpl; split.
  - eauto.
  - intros [?|(x & [= ->] & ?)]; done.
  - intros [= ->]. auto.
  - intros [[= ->]|(x & ? & ?)]; done.
Qed.

#[export] Instance result_eq_dec {E A} `{EqDecision E} `{EqDecision A} :
  EqDecision (result E A).
Proof. solve_decision. Defined.

(** ** Machine integers

    A [w]-bit unsigned integer is a [Z] in [0, 2^w); an operation of the
    source that can leave the range is followed by [wrap w], because the
    profiles of the workspace build without overflow checks. *)

Open Scope Z_scope.

Definition wrap (w z : Z) : Z := z mod 2 ^ w.
Definition is_uint (w z : Z) : Prop := 0 <= z < 2 ^ w.
Definition is_uintb (w z : Z) : bool := (0 <=? z) && (z <? 2 ^ w).

Notation is_u8 := (is_uint 8).
Notation is_u32 := (is_uint 32).
Notation is_u64 := (is_uint 64).

(** [saturating_sub], [checked_sub] of an unsigned integer. *)
Definition saturating_sub (a b : Z) : Z := Z.max 0 (a - b).
Definition checked_sub (a b : Z) : option Z := if b <=? a then Some (a - b) else None.

Lemma is_uintb_spec w z : is_uintb w z = true <-> is_uint w z.
Proof. unfold is_uintb, is_uint. lia. Qed.

Lemma wrap_range w z : 0 <= w -> is_uint w (wrap w z).
Proof. intros. apply Z.mod_pos_bound. lia. Qed.

Lemma wrap_id w z : is_uint w z -> wrap w z = z.
Proof. apply Z.mod_small. Qed.

(** A checked and a wrapped sum that agree have the same summand. *)
Lemma wrap_add_inj w a b c :
  is_uint w a -> is_uint w b -> is_uint w c -> wrap w (a + b) = a + c -> b = c.
Proof.
  unfold is_uint, wrap. intros Ha Hb Hc Hw.
  rewrite Z.mod_eq in Hw by lia.
  assert (0 <= (a + b) / 2 ^ w) by (apply Z.div_pos; lia).
  destruct (decide ((a + b) / 2 ^ w = 0)) as [E|]; [rewrite E in Hw; lia|]. nia.
Qed.

Lemma is_uint_weaken v w z : 0 <= v <= w -> is_uint v z -> is_uint w z.
Proof.
  unfold is_uint. intros ? [??]; split; [done|].
  eapply Z.lt_le_trans; [done|]. apply Z.pow_le_mono_r; lia.
Qed.

#[export] Instance is_uint_dec w z : Decision (is_uint w z).
Proof. unfold is_uint. apply _. Defined.

(** ** Bits of an integer below a power of two *)

Lemma land_small_shift r k q : 0 <= k -> 0 <= r < 2 ^ k -> Z.land r (q * 2 ^ k) = 0.
Proof.
  intros Hk Hr. apply Z.bits_inj'. intros n Hn. rewrite Z.land_spec, Z.bits_0.
  destruct (decide (n < k)).
  - rewrite Z.mul_pow2_bits_low by lia. apply andb_false_r.
  - destruct (decide (r = 0)) as [->|]; [by rewrite Z.bits_0|].
    assert (Z.log2 r < k) by (apply Z.log2_lt_pow2; lia).
    by rewrite (Z.bits_above_log2 r) by lia.
Qed.

Lemma lor_small_shift r k q :
  0 <= k -> 0 <= r < 2 ^ k -> Z.lor r (q * 2 ^ k) = r + q * 2 ^ k.
Proof.
  intros Hk Hr. pose proof (land_small_shift r k q Hk Hr).
  by rewrite Z.add_nocarry_lxor, Z.lxor_lor.
Qed.

(** ** Bytes, least significant first *)

Notation byte_list := (list Z).
Notation bytes_ok := (Forall (is_uint 8)).

Fixpoint le_split (n : nat) (z : Z) : list Z :=
  match n with
  | O => []
  | S n => z mod 256 :: le_split n (z / 256)
  end.

Fixpoint le_combine (bs : list Z) : Z :=
  match bs with
  | [] => 0
  | b :: bs => b + 256 * le_combine bs
  end.

Lemma le_split_length n z : length (le_split n z) = n.
Proof. revert z; induction n; simpl; auto. Qed.

Lemma le_split_ok n z : bytes_ok (le_split n z).
Proof.
  revert z; induction n; simpl; constructor; auto.
  apply Z.mod_pos_bound; lia.
Qed.

Lemma pow_256_S n : 256 ^ Z.of_nat (S n) = 256 * 256 ^ Z.of_nat n.
Proof. rewrite Nat2Z.inj_succ, Z.pow_succ_r; lia. Qed.

Lemma le_combine_split n z :
  0 <= z < 256 ^ Z.of_nat n -> le_combine (le_split n z) = z.
Proof.
  revert z; induction n as [|n IH]; intros z Hz; [simpl in *; lia|].
  rewrite pow_256_S in Hz. cbn [le_split le_combine].
  rewrite IH; [|split; [apply Z.div_pos; lia|apply Z.div_lt_upper_bound; lia]].
  pose proof (Z.div_mod z 256). lia.
Qed.

Lemma le_combine_range bs :
  bytes_ok bs -> 0 <= le_combine bs < 256 ^ Z.of_nat (length bs).
Proof.
  induction 1 as [|b bs Hb _ IH]; [simpl; lia|].
  cbn [length le_combine]. rewrite pow_256_S.
  unfold is_uint in Hb. change (2 ^ 8) with 256 in Hb. nia.
Qed.

Lemma le_split_combine bs : bytes_ok bs -> le_split (length bs) (le_combine bs) = bs.
Proof.
  induction 1 as [|b bs Hb _ IH]; [done|].
  unfold is_uint in Hb. change (2 ^ 8) with 256 in Hb. cbn [length le_combine le_split].
  f_equal.
  - rewrite Z.mul_comm, Z.mod_add by lia. apply Z.mod_small; lia.
  - rewrite (Z.mul_comm 256), Z.div_add, (Z.div_small b) by lia. done.
Qed.

Lemma le_combine_app_zeros bs k : le_combine (bs ++ replicate k 0) = le_combine bs.
Proof.
  induction bs as [|b bs IH]; cbn [app le_combine]; [|by rewrite IH].
  induction k as [|k IH]; [done|]. cbn [replicate app le_combine]. lia.
Qed.

(** ** Lists *)

Lemma take_app_exact {A} (l k : list A) n : length l = n -> take n (l ++ k) = l.
Proof. intros <-. by rewrite take_app_length. Qed.

Lemma drop_app_exact {A} (l k : list A) n : length l = n -> drop n (l ++ k) = k.
Proof. intros <-. by rewrite drop_app_length. Qed.

(** What is known of a history is known of the longer ones. *)
Lemma elem_of_longer {A} (x : A) h h' : x ∈ h -> h `prefix_of` h' -> x ∈ h'.
Proof. intros Hx [k ->]. apply elem_of_app. by left. Qed.

Lemma elem_of_snoc {A} (x y : A) h : x ∈ h ++ [y] <-> x ∈ h \/ x = y.
Proof. rewrite elem_of_app, list_elem_of_singleton. done. Qed.

(** ** Automation *)

Create HintDb kdf.

#[export] Hint Resolve le_split_ok wrap_range : kdf.
#[export] Hint Rewrite @take_app_length @drop_app_length le_split_length : kdf.

(** Membership in an explicit list, also with unknowns in the element. *)
Ltac in_list := repeat (setoid_rewrite elem_of_app || setoid_rewrite elem_of_cons); eauto 12.

(** Case analysis on every boolean test and match of the goal. *)
Ltac case_matches := repeat (case_match; simplify_eq/=).

(** Splits the binds of a hypothesis that a computation returned [Ok]. *)
Ltac inv_ok :=
  repeat match goal with
  | H : result_bind _ _ = Ok _ |- _ =>
      apply result_bind_ok in H; destruct H as (? & ? & H)
  | H : Ok _ = Ok _ |- _ => injection H as H; subst
  | H : Err _ = Ok _ |- _ => discriminate H
  | H : Ok _ = Err _ |- _ => discriminate H
  end.

(** Turns boolean comparisons into propositions for [lia]. *)
Ltac bool_lia :=
  repeat match goal with
  | H : (_ && _)%bool = true |- _ => apply andb_true_iff in H; destruct H
  | H : (_ || _)%bool = false |- _ => apply orb_false_iff in H; destruct H
  | H : negb _ = true |- _ => apply negb_true_iff in H
  | H : negb _ = false |- _ => apply negb_false_iff in H
  end; lia.
