(* ===== verification/MmNumber.v ===== *)
(** * Amounts (mm2src/mm2_number)

    [MmNumber] is an arbitrary-precision rational; it is [Q] here, compared
    up to [Qeq].  A [BigDecimal] amount is a rational too, and becomes an
    [MmNumber] exactly; the way back divides with the bigdecimal crate, which
    rounds, and is the parameter [to_decimal]. *)

From Stdlib Require Export QArith Qminmax Qround Lqa.
From S2P Require Import Prelude.

Open Scope Z_scope.

Definition MmNumber : Type := Q.
Definition BigDecimal : Type := Q.

#[export] Instance MmNumber_eq_dec : EqDecision MmNumber.
Proof. unfold EqDecision, Decision, MmNumber. decide equality; [apply Pos.eq_dec|apply Z.eq_dec]. Defined.

Declare Scope num_scope.
Delimit Scope num_scope with num.
Notation "a + b" := (Qplus a b) : num_scope.
Notation "a - b" := (Qminus a b) : num_scope.
Notation "a * b" := (Qmult a b) : num_scope.
Notation "a / b" := (Qdiv a b) : num_scope.
Notation "a <=? b" := (Qle_bool a b) : num_scope.
Notation "a >=? b" := (Qle_bool b a) : num_scope.
Notation "a <? b" := (negb (Qle_bool b a)) : num_scope.
Notation "a >? b" := (negb (Qle_bool a b)) : num_scope.
Notation "a =? b" := (Qeq_bool a b) : num_scope.

(** The conversion [MmNumber] to [BigDecimal]; the crate rounds a quotient
    that has too many digits and leaves an integer alone. *)
Class DecimalConv := {
  to_decimal : MmNumber -> BigDecimal;
  to_decimal_int : forall z, to_decimal (inject_Z z) == inject_Z z }.

Definition exact_decimal : DecimalConv := {|
  to_decimal := fun q => q;
  to_decimal_int := fun z => Qeq_refl _ |}.

(** [(n as f64 * m).ceil() as u64] for the locktime multipliers of the coins
    (2.0, and 1.5 for lightning), exact below 2^52. *)
Definition mul_ceil (n : Z) (m : Q) : Z := Qceiling (inject_Z n * m)%Q.

Lemma mul_ceil_half n m : 0 <= n -> (3 # 2 <= m)%Q -> n + n / 2 <= mul_ceil n m.
Proof.
  intros Hn Hm. unfold mul_ceil.
  assert (inject_Z (n + n / 2) <= inject_Z n * m)%Q as Hle.
  { apply Qle_trans with (inject_Z n * (3 # 2))%Q.
    - unfold Qle, inject_Z. cbn [Qnum Qden Qmult]. rewrite Pos2Z.inj_mul. pose proof (Z.mul_div_le n 2 eq_refl). lia.
    - rewrite (Qmult_comm _ m), (Qmult_comm _ (3 # 2)).
      apply Qmult_le_compat_r; [done|]. unfold Qle, inject_Z. cbn [Qnum Qden]. lia. }
  apply Qceiling_resp_le in Hle. by rewrite Qceiling_Z in Hle.
Qed.

Lemma Qle_bool_true a b : Qle_bool a b = true <-> (a <= b)%Q.
Proof. apply Qle_bool_iff. Qed.

Lemma Qle_bool_false a b : Qle_bool a b = false <-> (b < a)%Q.
Proof.
  rewrite <- not_true_iff_false, Qle_bool_iff. split; intros H.
  - by apply Qnot_le_lt.
  - by apply Qlt_not_le.
Qed.

(** Turns the boolean comparisons of the context into hypotheses of [lra]. *)
Ltac qbool :=
  repeat match goal with
  | H : negb _ = true |- _ => apply negb_true_iff in H
  | H : negb _ = false |- _ => apply negb_false_iff in H
  | H : (_ && _)%bool = true |- _ => apply andb_true_iff in H; destruct H
  | H : (_ || _)%bool = false |- _ => apply orb_false_iff in H; destruct H
  | H : Qle_bool _ _ = true |- _ => apply Qle_bool_true in H
  | H : Qle_bool _ _ = false |- _ => apply Qle_bool_false in H
  | H : Qeq_bool _ _ = true |- _ => apply Qeq_bool_iff in H
  end.

Ltac q_lra := qbool; lra.
