(* ===== verification/Effects.v ===== *)
(** * Programs with effects

    The handlers of the swap state machines are async functions that call
    coins, the clock, the P2P network and the database.  Such a handler is a
    tree [prog]: a call and, for every answer, what the handler does next.
    [runs] are its complete executions, [traces] the executions cut at an
    arbitrary point (the node may stop at any time, also while a call is in
    flight), [no_panic] that no answer leads to a panic. *)

From S2P Require Import Prelude.

Section Effects.
  Context {Call : Type} {answer : Call -> Type}.

(** [OutOfFuel] marks the places where a polling loop of the source would
    go on asking; it is neither a result nor a panic. *)
Inductive prog (A : Type) : Type :=
| Ret (a : A)
| Panic
| OutOfFuel
| Vis (c : Call) (k : answer c -> prog A).

Fixpoint prog_bind {A B} (p : prog A) (f : A -> prog B) : prog B :=
  match p with
  | Ret _ a => f a
  | Panic _ => Panic B
  | OutOfFuel _ => OutOfFuel B
  | Vis _ c k => Vis B c (fun x => prog_bind (k x) f)
  end.

Definition call (c : Call) : prog (answer c) := Vis _ c (fun x => Ret _ x).

(** One observation: the call and its answer, [None] when the process
    stopped before the answer came back. *)
Definition Obs : Type := { c : Call & option (answer c) }.
Definition asked (c : Call) (x : answer c) : Obs := existT c (Some x).
Definition pending (c : Call) : Obs := existT c None.
Definition obs_call (o : Obs) : Call := projT1 o.

Fixpoint runs {A} (p : prog A) (tr : list Obs) (a : A) : Prop :=
  match p with
  | Ret _ b => tr = [] /\ a = b
  | Panic _ | OutOfFuel _ => False
  | Vis _ c k => exists x tr', tr = asked c x :: tr' /\ runs (k x) tr' a
  end.

Fixpoint traces {A} (p : prog A) (tr : list Obs) : Prop :=
  match p with
  | Ret _ _ | Panic _ | OutOfFuel _ => tr = []
  | Vis _ c k =>
      tr = [] \/ tr = [pending c] \/
      exists x tr', tr = asked c x :: tr' /\ traces (k x) tr'
  end.

(** No panic as long as the answers stay in [ok]. *)
Fixpoint no_panic {A} (ok : forall c, answer c -> Prop) (p : prog A) : Prop :=
  match p with
  | Ret _ _ | OutOfFuel _ => True
  | Panic _ => False
  | Vis _ c k => forall x, ok c x -> no_panic ok (k x)
  end.

(** The program asks finitely often and never waits for fuel. *)
Fixpoint finishes {A} (p : prog A) : Prop :=
  match p with
  | Ret _ _ | Panic _ => True
  | OutOfFuel _ => False
  | Vis _ c k => forall x, finishes (k x)
  end.

(** Execution against an oracle that sees what has been observed so far,
    for evaluating a program in a concrete environment. *)
Fixpoint exec {A} (o : list Obs -> forall c, answer c) (hist : list Obs)
  (p : prog A) : option A * list Obs :=
  match p with
  | Ret _ a => (Some a, [])
  | Panic _ | OutOfFuel _ => (None, [])
  | Vis _ c k =>
      let x := o hist c in
      let '(r, tr) := exec o (hist ++ [asked c x]) (k x) in
      (r, asked c x :: tr)
  end.

(** In an environment whose answers stay in [env], the program ends with a
    result: it does not panic, and the fuel of its loops is enough. *)
Fixpoint returns {A} (env : list Obs -> forall c, answer c -> Prop) (h : list Obs)
  (p : prog A) : Prop :=
  match p with
  | Ret _ _ => True
  | Panic _ | OutOfFuel _ => False
  | Vis _ c k => forall x, env h c x -> returns env (h ++ [asked c x]) (k x)
  end.

(** The answers of a trace are answers of the environment. *)
Fixpoint answers_in (env : list Obs -> forall c, answer c -> Prop) (h tr : list Obs) : Prop :=
  match tr with
  | [] => True
  | existT c x :: tr =>
      match x with
      | Some x => env h c x /\ answers_in env (h ++ [asked c x]) tr
      | None => False
      end
  end.

(** Every call the program can make satisfies [P]. *)
Fixpoint only {A} (P : Call -> Prop) (p : prog A) : Prop :=
  match p with
  | Ret _ _ | Panic _ | OutOfFuel _ => True
  | Vis _ c k => P c /\ forall x, only P (k x)
  end.

Lemma only_bind {A B} P (p : prog A) (f : A -> prog B) :
  only P p -> (forall a, only P (f a)) -> only P (prog_bind p f).
Proof. induction p as [a| | |c k IH]; simpl; naive_solver. Qed.

Lemma only_weaken {A} (P Q : Call -> Prop) (p : prog A) :
  (forall c, P c -> Q c) -> only P p -> only Q p.
Proof. intros HPQ. induction p as [a| | |c k IH]; simpl; naive_solver. Qed.

Lemma only_traces {A} P (p : prog A) tr :
  only P p -> traces p tr -> Forall (fun o => P (obs_call o)) tr.
Proof.
  revert tr; induction p as [a| | |c k IH]; simpl; intros tr Ho Ht;
    try (by subst).
  destruct Ho as [Hc Hk]. destruct Ht as [->|[->|(x & tr' & -> & Ht)]];
    [constructor|by repeat constructor|constructor; [done|by eapply IH]].
Qed.

(** Every call the program makes after the history [h] satisfies [G]. *)
Fixpoint guarded {A} (G : list Obs -> Call -> Prop) (h : list Obs) (p : prog A) : Prop :=
  match p with
  | Ret _ _ | Panic _ | OutOfFuel _ => True
  | Vis _ c k => G h c /\ forall x, guarded G (h ++ [asked c x]) (k x)
  end.

(** All calls of a trace satisfy [G] where they were made. *)
Definition safe (G : list Obs -> Call -> Prop) (h : list Obs) : Prop :=
  forall h1 o h2, h = h1 ++ o :: h2 -> G h1 (obs_call o).

Lemma only_guarded {A} P G h (p : prog A) :
  (forall h c, P c -> G h c) -> only P p -> guarded G h p.
Proof.
  intros HPG. revert h; induction p as [a| | |c k IH]; simpl; try done.
  intros h [Hc Hk]. split; [auto|]. intros x. apply IH, Hk.
Qed.

Lemma safe_nil G : safe G [].
Proof. intros [|? ?] ? ?; done. Qed.

Lemma safe_app_inv G h1 h2 : safe G (h1 ++ h2) -> safe G h1.
Proof. intros Hs a o b ->. apply (Hs a o (b ++ h2)). by rewrite <- app_assoc. Qed.

Lemma safe_snoc G h o : safe G h -> G h (obs_call o) -> safe G (h ++ [o]).
Proof.
  intros Hs Ho a o' b Heq. destruct (decide (b = [])) as [->|Hb].
  - by apply app_inj_tail in Heq as [-> ->].
  - destruct (exists_last Hb) as (b' & z & ->).
    rewrite app_comm_cons, app_assoc in Heq. apply app_inj_tail in Heq as [-> _].
    by eapply Hs.
Qed.

Lemma safe_app_forall G h tr :
  safe G h -> (forall h', Forall (fun o => G h' (obs_call o)) tr) -> safe G (h ++ tr).
Proof.
  revert h; induction tr as [|o tr IH]; intros h Hs Ht; [by rewrite app_nil_r|].
  rewrite (app_assoc h [o] tr : h ++ o :: tr = _). apply IH.
  - apply safe_snoc; [done|]. specialize (Ht h). by inversion Ht.
  - intros h'. specialize (Ht h'). by inversion Ht.
Qed.

Lemma guarded_safe {A} G (p : prog A) h tr :
  guarded G h p -> safe G h -> traces p tr -> safe G (h ++ tr).
Proof.
  revert h tr; induction p as [a| | |c k IH]; simpl; intros h tr Hg Hs Ht;
    try (by subst; rewrite app_nil_r).
  destruct Hg as [Hc Hk]. destruct Ht as [->|[->|(x & tr' & -> & Ht)]].
  - by rewrite app_nil_r.
  - by apply safe_snoc.
  - rewrite (app_assoc h [asked c x] tr' : h ++ asked c x :: tr' = _).
    apply (IH x); [apply Hk|by apply safe_snoc|done].
Qed.

Lemma runs_bind {A B} (p : prog A) (f : A -> prog B) tr b :
  runs (prog_bind p f) tr b <->
  exists a tr1 tr2, tr = tr1 ++ tr2 /\ runs p tr1 a /\ runs (f a) tr2 b.
Proof.
  revert tr; induction p as [a| | |c k IH]; intros tr; simpl.
  - split; [intros; exists a, [], tr; auto|].
    intros (a' & tr1 & tr2 & -> & [-> ->] & H). done.
  - split; [done|]. intros (a & tr1 & tr2 & _ & [] & _).
  - split; [done|]. intros (a & tr1 & tr2 & _ & [] & _).
  - split.
    + intros (x & tr' & -> & H). apply IH in H as (a & tr1 & tr2 & -> & Hp & Hf).
      exists a, (asked c x :: tr1), tr2. eauto 10.
    + intros (a & tr1 & tr2 & -> & (x & tr' & -> & Hp) & Hf).
      exists x, (tr' ++ tr2). split; [done|]. apply IH. eauto 10.
Qed.

Lemma runs_call {B} (c : Call) (f : answer c -> prog B) tr b :
  runs (prog_bind (call c) f) tr b ->
  exists x tr', tr = asked c x :: tr' /\ runs (f x) tr' b.
Proof. done. Qed.

Lemma traces_bind {A B} (p : prog A) (f : A -> prog B) tr :
  traces (prog_bind p f) tr ->
  traces p tr \/ exists a tr1 tr2, tr = tr1 ++ tr2 /\ runs p tr1 a /\ traces (f a) tr2.
Proof.
  revert tr; induction p as [a| | |c k IH]; intros tr; simpl; try tauto.
  - intros H. right. exists a, [], tr. auto.
  - intros [->|[->|(x & tr' & -> & H)]]; [tauto|tauto|].
    apply IH in H as [H|(a & tr1 & tr2 & -> & Hp & Hf)]; [left; eauto 10|].
    right. exists a, (asked c x :: tr1), tr2. eauto 10.
Qed.

Lemma traces_nil {A} (p : prog A) : traces p [].
Proof. destruct p; simpl; auto. Qed.

Lemma traces_prefix {A} (p : prog A) t1 t2 : traces p (t1 ++ t2) -> traces p t1.
Proof.
  revert t1; induction p as [a| | |c k IH]; intros t1; cbn [traces];
    try (by intros [-> _]%app_eq_nil).
  intros [[-> _]%app_eq_nil|[Ht|(x & tr' & Heq & Ht)]]; [auto|..];
    (destruct t1 as [|o t1]; [auto|]).
  - injection Ht as -> [-> _]%app_eq_nil. auto.
  - injection Heq as -> <-. right. right. exists x, t1. split; [done|]. by eapply IH.
Qed.

Lemma runs_traces {A} (p : prog A) tr a : runs p tr a -> traces p tr.
Proof.
  revert tr; induction p as [b| | |c k IH]; intros tr; simpl; try tauto.
  intros (x & tr' & -> & H). eauto 10.
Qed.

Lemma only_runs {A} P (p : prog A) tr a :
  only P p -> runs p tr a -> Forall (fun o => P (obs_call o)) tr.
Proof. intros Ho Hr. by eapply only_traces; [done|eapply runs_traces]. Qed.

Lemma no_panic_bind {A B} ok (p : prog A) (f : A -> prog B) :
  no_panic ok p -> (forall tr a, runs p tr a -> no_panic ok (f a)) ->
  no_panic ok (prog_bind p f).
Proof.
  induction p as [a| | |c k IH]; simpl; intros Hp Hf; try done.
  - by apply (Hf []).
  - intros x Hx. apply IH; [auto|]. intros tr a Hr. eapply Hf. eauto.
Qed.

Lemma guarded_bind {A B} G h (p : prog A) (f : A -> prog B) :
  guarded G h p -> (forall tr a, runs p tr a -> guarded G (h ++ tr) (f a)) ->
  guarded G h (prog_bind p f).
Proof.
  revert h; induction p as [a| | |c k IH]; simpl; intros h Hp Hf; try done.
  - specialize (Hf [] a). rewrite app_nil_r in Hf. by apply Hf.
  - destruct Hp as [Hc Hk]. split; [done|]. intros x. apply IH; [apply Hk|].
    intros tr a Hr. rewrite <- app_assoc. apply Hf. eauto.
Qed.

Lemma exec_runs {A} o (p : prog A) hist a tr : exec o hist p = (Some a, tr) -> runs p tr a.
Proof.
  revert hist tr; induction p as [b| | |c k IH]; simpl; intros hist tr Hx; try done.
  - by injection Hx as -> <-.
  - destruct (exec _ _ _) as [r t] eqn:Hk. injection Hx as -> <-. eauto.
Qed.

Lemma exec_fst {A} o (p : prog A) hist a :
  (exec o hist p).1 = Some a -> runs p (exec o hist p).2 a.
Proof. intros Ha. apply (exec_runs o p hist). destruct (exec o hist p). by simpl in *; subst. Qed.

Lemma exec_traces {A} o (p : prog A) hist : traces p (exec o hist p).2.
Proof.
  revert hist; induction p as [b| | |c k IH]; simpl; intros hist; try done.
  specialize (IH (o hist c) (hist ++ [asked c (o hist c)])).
  destruct (exec _ _ _) as [r t]. simpl in *. eauto 10.
Qed.

Lemma returns_bind {A B} env h (p : prog A) (f : A -> prog B) :
  returns env h p ->
  (forall tr a, runs p tr a -> answers_in env h tr -> returns env (h ++ tr) (f a)) ->
  returns env h (prog_bind p f).
Proof.
  revert h; induction p as [a| | |c k IH]; simpl; intros h Hp Hf; try done.
  - specialize (Hf [] a). rewrite app_nil_r in Hf. by apply Hf.
  - intros x Hx. apply IH; [auto|]. intros tr a Hr Hin. rewrite <- app_assoc.
    apply Hf; [eauto|]. simpl. auto.
Qed.

(** A program that returns has a run in every inhabited environment. *)
Lemma returns_runs {A} env h (p : prog A) (o : list Obs -> forall c, answer c) :
  (forall h c, env h c (o h c)) -> returns env h p -> exists tr a, runs p tr a.
Proof.
  intros Ho. revert h; induction p as [a| | |c k IH]; simpl; intros h Hp; try done.
  - by exists [], a.
  - destruct (IH (o h c) (h ++ [asked c (o h c)])) as (tr & a & Hr); [auto|]. eauto 10.
Qed.

Lemma finishes_bind {A B} (p : prog A) (f : A -> prog B) :
  finishes p -> (forall tr a, runs p tr a -> finishes (f a)) ->
  finishes (prog_bind p f).
Proof.
  induction p as [a| | |c k IH]; simpl; intros Hp Hf; try done.
  - by apply (Hf []).
  - intros x. apply IH; [auto|]. intros tr a Hr. eapply Hf. eauto.
Qed.
End Effects.

Arguments prog {Call} answer A.
Arguments Ret {Call answer A} a.
Arguments Panic {Call answer A}.
Arguments OutOfFuel {Call answer A}.
Arguments Vis {Call answer A} c k.
Arguments call {Call answer} c.
Arguments Obs {Call} answer.
Arguments asked {Call answer} c x.
Arguments pending {Call answer} c.

(** One step of a symbolic execution of a hypothesis about [runs]. *)
Ltac run_step H :=
  lazymatch type of H with
  | runs (Ret _) _ _ => let E := fresh "Ha" in destruct H as [-> E]; simplify_eq
  | runs Panic _ _ => destruct H
  | runs OutOfFuel _ _ => destruct H
  | runs (prog_bind (call _) _) _ _ =>
      let x := fresh "x" in let tr := fresh "tr" in
      apply runs_call in H as (x & tr & -> & H); cbn beta in H
  | runs (prog_bind (Ret _) _) _ _ => cbn [prog_bind] in H
  | runs (prog_bind (match ?x with _ => _ end) _) _ _ => let E := fresh "E" in destruct x eqn:E
  | runs (prog_bind _ _) _ _ =>
      let a := fresh "a" in let t1 := fresh "t" in let t2 := fresh "t" in
      let Hp := fresh "Hp" in
      apply runs_bind in H as (a & t1 & t2 & -> & Hp & H)
  | runs (call _) _ _ => destruct H as (? & ? & -> & -> & ->)
  | runs (match ?x with _ => _ end) _ _ => let E := fresh "E" in destruct x eqn:E
  end; try done.

Ltac run_all H := repeat (run_step H).

Declare Scope prog_scope.
Delimit Scope prog_scope with prog.
Notation "x <- p ; k" := (prog_bind p (fun x => k))
  (at level 100, p at next level, right associativity) : prog_scope.
Notation "'do' p ; k" := (prog_bind p (fun _ => k))
  (at level 100, p at next level, right associativity) : prog_scope.

(** [unwrap] and [expect]. *)
Definition unwrap {Call} {answer : Call -> Type} {A} (o : option A) : prog answer A :=
  match o with
  | Some a => Ret a
  | None => Panic
  end.
