(* ===== verification/Serialization.v ===== *)
(** * Bitcoin wire serialization (mm2src/mm2_bitcoin/serialization/src)

    [stream.rs], [reader.rs], [compact_integer.rs], [impls.rs] and [list.rs]:
    the growing [Stream], the [Reader] with its peeked byte, the
    variable-length [CompactInteger], the impls for the integers, hashes,
    [Bytes] and lists, and the streaming iterator.  The crate's two traits are
    the classes [Serializable] and [Deserializable]; [Codec] is what the
    rest of the program relies on: whatever was written is read back.  The
    third-party crate byteorder is the class [ByteOrder]. *)

From S2P Require Import Prelude.

(** ** Interface of the byteorder crate

    [write_le n z] is what [write_uN::<LittleEndian>] appends for an
    [8 * n]-bit [z], [read_le bs] is what [read_uN::<LittleEndian>] makes of
    the [n] bytes it has read. *)

Class ByteOrder := {
  write_le : nat -> Z -> list Z;
  read_le : list Z -> Z;
  write_le_spec : forall n z, 0 <= z < 256 ^ Z.of_nat n -> write_le n z = le_split n z;
  read_le_spec : forall bs, bytes_ok bs -> read_le bs = le_combine bs }.

Definition std_byteorder : ByteOrder := {|
  write_le := le_split;
  read_le := le_combine;
  write_le_spec := fun _ _ _ => eq_refl;
  read_le_spec := fun _ _ => eq_refl |}.

(** ** Errors and chain variants (reader.rs) *)

Inductive Error : Type :=
| MalformedData
| UnexpectedEnd
| UnreadData
| Custom (s : string).

Inductive ChainVariant : Type :=
| BTC | Qtum | LBC | Standard | PPC | RICK | MORTY | RVN | PIVX.

#[export] Instance ChainVariant_eq_dec : EqDecision ChainVariant.
Proof. solve_decision. Defined.

Definition is_btc (c : ChainVariant) : bool :=
  match c with BTC => true | _ => false end.
Definition is_qtum (c : ChainVariant) : bool :=
  match c with Qtum => true | _ => false end.
Definition is_lbc (c : ChainVariant) : bool :=
  match c with LBC => true | _ => false end.
Definition is_ppc (c : ChainVariant) : bool :=
  match c with PPC => true | _ => false end.
Definition is_kmd_assetchain (c : ChainVariant) : bool :=
  match c with RICK | MORTY => true | _ => false end.
Definition is_rvn (c : ChainVariant) : bool :=
  match c with RVN => true | _ => false end.
Definition is_pivx (c : ChainVariant) : bool :=
  match c with PIVX => true | _ => false end.

Definition chain_variant_try_from (value : string) : result string ChainVariant :=
  if decide (value = "BTC"%string) then Ok BTC
  else if decide (value = "QTUM"%string) then Ok Qtum
  else if decide (value = "LBC"%string) then Ok LBC
  else if decide (value = "PPC"%string) then Ok PPC
  else if decide (value = "RICK"%string) then Ok RICK
  else if decide (value = "MORTY"%string) then Ok MORTY
  else if decide (value = "RVN"%string) then Ok RVN
  else if decide (value = "PIVX"%string) then Ok PIVX
  else Err ("Unknown chain variant: " ++ value)%string.

(** ** The stream being written (stream.rs) *)

Definition SERIALIZE_TRANSACTION_WITNESS : Z := 0x40000000.

Record Stream : Type := mkStream { st_buffer : list Z; st_flags : Z }.

Definition stream_new : Stream := mkStream [] 0.
Definition stream_with_flags (flags : Z) : Stream := mkStream [] flags.

Definition include_transaction_witness (s : Stream) : bool :=
  negb (Z.land (st_flags s) SERIALIZE_TRANSACTION_WITNESS =? 0).

Definition append_slice (bytes : list Z) (s : Stream) : Stream :=
  mkStream (st_buffer s ++ bytes) (st_flags s).

Definition out (s : Stream) : list Z := st_buffer s.

Class Serializable (A : Type) := {
  ser : A -> Stream -> Stream;
  serialized_size : A -> nat }.

(** [Stream::append] *)
Definition append {A} `{Serializable A} (t : A) (s : Stream) : Stream := ser t s.

Definition serialize {A} `{Serializable A} (t : A) : list Z :=
  out (append t stream_new).

Definition serialize_with_flags {A} `{Serializable A} (t : A) (flags : Z) : list Z :=
  out (append t (stream_with_flags flags)).

(** The default bodies of [serialized_size] and [serialized_size_with_flags]. *)
Definition serialized_size_default {A} (w : A -> Stream -> Stream) (t : A) : nat :=
  length (out (w t stream_new)).

Definition serialized_size_with_flags {A} `{Serializable A} (t : A) (flags : Z) : nat :=
  length (serialize_with_flags t flags).

(** ** The reader over a byte slice (reader.rs) *)

Record Reader : Type := mkReader {
  rd_buffer : list Z;
  rd_peeked : option Z;
  rd_chain : ChainVariant }.

Definition reader_new (bs : list Z) : Reader := mkReader bs None Standard.
Definition reader_new_with_chain_variant (bs : list Z) (c : ChainVariant) : Reader :=
  mkReader bs None c.
Definition from_read := reader_new.
Definition from_read_with_chain_variant := reader_new_with_chain_variant.

(** [io::Read::read] of the reader into a buffer of [n] bytes: the bytes
    stored and the new reader; the slice below hands out what it has. *)
Definition io_read (n : nat) (r : Reader) : list Z * Reader :=
  match rd_peeked r, n with
  | None, _ =>
      (take n (rd_buffer r), mkReader (drop n (rd_buffer r)) None (rd_chain r))
  | Some peeked, O => ([], r)
  | Some peeked, S m =>
      (peeked :: take m (rd_buffer r),
       mkReader (drop m (rd_buffer r)) None (rd_chain r))
  end.

(** The standard library's [read_exact]: reads until the buffer is full and
    fails when a read returns nothing.  Each round fills at least one byte,
    so [n] rounds are enough. *)
Fixpoint read_exact (fuel n : nat) (r : Reader) : option (list Z) * Reader :=
  match n, fuel with
  | O, _ => (Some [], r)
  | _, O => (None, r)
  | _, S fuel =>
      match io_read n r with
      | ([], r') => (None, r')
      | (got, r') =>
          let '(rest, r'') := read_exact fuel (n - length got) r' in
          (option_map (app got) rest, r'')
      end
  end.

Definition parser (A : Type) : Type := Reader -> result Error A * Reader.

Definition p_ret {A} (a : A) : parser A := fun r => (Ok a, r).
Definition p_err {A} (e : Error) : parser A := fun r => (Err e, r).
Definition p_bind {A B} (p : parser A) (k : A -> parser B) : parser B :=
  fun r => match p r with
           | (Ok a, r') => k a r'
           | (Err e, r') => (Err e, r')
           end.

Declare Scope parser_scope.
Delimit Scope parser_scope with parser.
Notation "x '<~' p ';' k" := (p_bind p (fun x => k))
  (at level 100, p at next level, right associativity) : parser_scope.
Local Open Scope parser_scope.

Definition read_slice (n : nat) : parser (list Z) := fun r =>
  let '(o, r') := read_exact n n r in (ok_or o UnexpectedEnd, r').

Class Deserializable (A : Type) := { deser : parser A }.

(** [Reader::read::<A>()] *)
Definition read (A : Type) `{Deserializable A} : parser A := deser.

Fixpoint read_n {A} `{Deserializable A} (n : nat) : parser (list A) :=
  match n with
  | O => p_ret []
  | S n => a <~ read A; l <~ read_n n; p_ret (a :: l)
  end.

Definition is_finished (r : Reader) : bool * Reader :=
  match rd_peeked r with
  | Some _ => (false, r)
  | None =>
      match read_slice 1 r with
      | (Ok bs, r') => (false, mkReader (rd_buffer r') (head bs) (rd_chain r'))
      | (Err _, r') => (true, r')
      end
  end.

Definition deserialize (A : Type) `{Deserializable A} (bs : list Z) : result Error A :=
  match read A (from_read bs) with
  | (Ok a, r) => if fst (is_finished r) then Ok a else Err UnreadData
  | (Err e, _) => Err e
  end.

(** [ReadIterator::next]; [read_iter] is what [collect] drives, stopping at
    the first error as [Result: FromIterator] does. *)
Definition read_iterator_next {A} `{Deserializable A} (r : Reader)
  : option (result Error A) * Reader :=
  let '(fin, r') := is_finished r in
  if fin then (None, r')
  else let '(x, r'') := read A r' in (Some x, r'').

Fixpoint read_iter {A} `{Deserializable A} (fuel : nat) (r : Reader)
  : option (result Error (list A)) :=
  match fuel with
  | O => None
  | S fuel =>
      match read_iterator_next r with
      | (None, _) => Some (Ok [])
      | (Some (Err e), _) => Some (Err e)
      | (Some (Ok a), r') =>
          match read_iter fuel r' with
          | Some (Ok l) => Some (Ok (a :: l))
          | other => other
          end
      end
  end.

(** ** Integers, booleans, hashes (impls.rs)

    [uint n] is the unsigned integer of [n] bytes, [sint n] the signed one,
    [hash n] the fixed array of [n] bytes of the primitives crate. *)

Record uint (n : nat) : Type := mk_uint { uint_val : Z }.
Arguments uint_val {n} _.
Record sint (n : nat) : Type := mk_sint { sint_val : Z }.
Arguments sint_val {n} _.
Record hash (n : nat) : Type := mk_hash { hash_bytes : list Z }.
Arguments hash_bytes {n} _.
Record Bytes : Type := mk_Bytes { bytes_val : list Z }.
Record CompactInteger : Type := mk_CompactInteger { ci_val : Z }.
Record List (A : Type) : Type := mk_List { list_val : list A }.
Arguments mk_List {A} _.
Arguments list_val {A} _.

Definition to_signed (w z : Z) : Z := if z <? 2 ^ (w - 1) then z else z - 2 ^ w.

(** *** Compact integers (compact_integer.rs) *)

Definition ci_serialized_length (c : CompactInteger) : nat :=
  if ci_val c <=? 0xfc then 1
  else if ci_val c <=? 0xffff then 3
  else if ci_val c <=? 0xffffffff then 5
  else 9.

Definition data_length (flag : Z) : nat :=
  if flag =? 0xfd then 2
  else if flag =? 0xfe then 4
  else if flag =? 0xff then 8
  else 0.

(** [usize] is 64 bits wide on the targets of the program. *)
Definition as_usize (c : CompactInteger) : Z := ci_val c.

Inductive CompactIntegerError : Type :=
| ParseError (s : string).

(** [num_bytes[..length].copy_from_slice(..)] on eight zero bytes, then
    [u64::from_le_bytes]. *)
Definition parse_compact_int (buf : list Z) : result CompactIntegerError CompactInteger :=
  match buf with
  | [] => Err (ParseError "Empty buffer!")
  | b0 :: rest =>
      let length' := data_length b0 in
      if (length' =? 0)%nat then Ok (mk_CompactInteger b0)
      else if (length buf <? 1 + length')%nat then Err (ParseError "Insufficient bytes!")
      else
        let num_bytes := take length' rest ++ replicate (8 - length') 0 in
        Ok (mk_CompactInteger (le_combine num_bytes))
  end.

Section Impls.
  Context `{ByteOrder}.

#[export] Instance uint_ser n : Serializable (uint n) := {|
  ser t := append_slice (write_le n (uint_val t));
  serialized_size _ := n |}.

#[export] Instance uint_deser n : Deserializable (uint n) := {|
  deser := bs <~ read_slice n; p_ret (mk_uint n (read_le bs)) |}.

#[export] Instance sint_ser n : Serializable (sint n) := {|
  ser t := append_slice (write_le n (wrap (8 * Z.of_nat n) (sint_val t)));
  serialized_size _ := n |}.

#[export] Instance sint_deser n : Deserializable (sint n) := {|
  deser := bs <~ read_slice n;
           p_ret (mk_sint n (to_signed (8 * Z.of_nat n) (read_le bs))) |}.

#[export] Instance bool_ser : Serializable bool := {|
  ser t := append_slice (write_le 1 (Z.b2z t));
  serialized_size _ := 1%nat |}.

#[export] Instance bool_deser : Deserializable bool := {|
  deser := v <~ read (uint 1);
           if uint_val v =? 0 then p_ret false
           else if uint_val v =? 1 then p_ret true
           else p_err MalformedData |}.

#[export] Instance hash_ser n : Serializable (hash n) := {|
  ser t := append_slice (hash_bytes t);
  serialized_size _ := n |}.

#[export] Instance hash_deser n : Deserializable (hash n) := {|
  deser := bs <~ read_slice n; p_ret (mk_hash n bs) |}.

#[export] Instance CompactInteger_ser : Serializable CompactInteger := {|
  ser c s :=
    let v := ci_val c in
    if v <=? 0xfc then append (mk_uint 1 v) s
    else if v <=? 0xffff then append (mk_uint 2 v) (append (mk_uint 1 0xfd) s)
    else if v <=? 0xffffffff then append (mk_uint 4 v) (append (mk_uint 1 0xfe) s)
    else append (mk_uint 8 v) (append (mk_uint 1 0xff) s);
  serialized_size := ci_serialized_length |}.

#[export] Instance CompactInteger_deser : Deserializable CompactInteger := {|
  deser :=
    i <~ read (uint 1);
    let b := uint_val i in
    if b <=? 0xfc then p_ret (mk_CompactInteger b)
    else if b =? 0xfd then v <~ read (uint 2); p_ret (mk_CompactInteger (uint_val v))
    else if b =? 0xfe then v <~ read (uint 4); p_ret (mk_CompactInteger (uint_val v))
    else v <~ read (uint 8); p_ret (mk_CompactInteger (uint_val v)) |}.

Definition ci_of_len (n : nat) : CompactInteger := mk_CompactInteger (Z.of_nat n).

(** [Bytes] and [String] (the bytes of its UTF-8 encoding) write alike. *)
#[export] Instance Bytes_ser : Serializable Bytes := {|
  ser b s := append_slice (bytes_val b) (append (ci_of_len (length (bytes_val b))) s);
  serialized_size b :=
    (ci_serialized_length (ci_of_len (length (bytes_val b))) + length (bytes_val b))%nat |}.

#[export] Instance Bytes_deser : Deserializable Bytes := {|
  deser :=
    len <~ read CompactInteger;
    if ci_val len >? 65536 then p_err MalformedData
    else bs <~ read_slice (Z.to_nat (as_usize len)); p_ret (mk_Bytes bs) |}.

Definition append_list {A} `{Serializable A} (t : list A) (s : Stream) : Stream :=
  foldl (fun s i => ser i s) (append (ci_of_len (length t)) s) t.

Definition serialize_list {A} `{Serializable A} (t : list A) : list Z :=
  out (append_list t stream_new).

Definition serialized_list_size {A} `{Serializable A} (t : list A) : nat :=
  (serialized_size (ci_of_len (length t)) + sum_list_with serialized_size t)%nat.

Definition serialized_list_size_with_flags {A} `{Serializable A} (t : list A) (flags : Z) : nat :=
  (serialized_size (ci_of_len (length t)) +
     sum_list_with (fun i => serialized_size_with_flags i flags) t)%nat.

Definition read_list {A} `{Deserializable A} : parser (list A) :=
  len <~ read CompactInteger; read_n (Z.to_nat (as_usize len)).

Definition read_list_max {A} `{Deserializable A} (max : Z) : parser (list A) :=
  len <~ read CompactInteger;
  if as_usize len >? max then p_err MalformedData
  else read_n (Z.to_nat (as_usize len)).

#[export] Instance List_ser {A} `{Serializable A} : Serializable (List A) := {|
  ser t := append_list (list_val t);
  serialized_size := serialized_size_default (fun t => append_list (list_val t)) |}.

#[export] Instance List_deser {A} `{Deserializable A} : Deserializable (List A) := {|
  deser := l <~ read_list; p_ret (mk_List l) |}.

End Impls.

(** ** What a reader still holds *)

Definition contents (r : Reader) : list Z := option_list (rd_peeked r) ++ rd_buffer r.

Lemma contents_new bs c : contents (mkReader bs None c) = bs.
Proof. done. Qed.

Lemma io_read_spec n r :
  fst (io_read n r) = take n (contents r) /\
  contents (snd (io_read n r)) = drop n (contents r) /\
  rd_chain (snd (io_read n r)) = rd_chain r.
Proof. by destruct r as [buf [p|] c], n. Qed.

Lemma read_exact_spec fuel n r :
  (n <= fuel)%nat ->
  fst (read_exact fuel n r) =
    (if decide (n <= length (contents r))%nat then Some (take n (contents r)) else None) /\
  contents (snd (read_exact fuel n r)) = drop n (contents r) /\
  rd_chain (snd (read_exact fuel n r)) = rd_chain r.
Proof.
  revert n r; induction fuel as [|fuel IH]; intros [|n] r Hn; try (simpl; lia).
  1,2: by rewrite decide_True by lia; rewrite take_0, drop_0.
  cbn [read_exact]. pose proof (io_read_spec (S n) r) as (Hf & Hc & Hch).
  destruct (io_read (S n) r) as [got r'] eqn:E. simpl in Hf, Hc, Hch.
  assert (length got = S n `min` length (contents r))%nat as Hl
    by (rewrite Hf; apply length_take).
  destruct got as [|b got].
  { cbn [length] in Hl. rewrite decide_False by lia. cbn [fst snd]. auto. }
  specialize (IH (S n - length (b :: got))%nat r'). cbn [length] in Hl.
  destruct IH as (IH1 & IH2 & IH3); [simpl; lia|].
  destruct (read_exact fuel (S n - length (b :: got)) r') as [rest r''].
  cbn [fst snd] in *. subst rest. rewrite IH2, IH3, Hc, Hch.
  rewrite length_drop, drop_drop. cbn [length].
  split; [|split; [|done]].
  - destruct (decide (S n <= length (contents r))%nat).
    + rewrite decide_True by lia. cbn [option_map].
      replace (S n - S (length got))%nat with 0%nat by lia.
      by rewrite take_0, app_nil_r, Hf.
    + by rewrite decide_False by lia.
  - destruct (decide (S n <= length (contents r))%nat).
    + f_equal. lia.
    + by rewrite !drop_ge by lia.
Qed.

Lemma read_slice_ok n r :
  (n <= length (contents r))%nat ->
  exists r', read_slice n r = (Ok (take n (contents r)), r') /\
    contents r' = drop n (contents r) /\ rd_chain r' = rd_chain r.
Proof.
  intros Hn. pose proof (read_exact_spec n n r (le_n n)) as (H1 & H2 & H3).
  unfold read_slice. destruct (read_exact n n r) as [o r']. simpl in *.
  rewrite decide_True in H1 by done. subst o. eauto.
Qed.

Lemma read_slice_err n r :
  (length (contents r) < n)%nat ->
  exists r', read_slice n r = (Err UnexpectedEnd, r') /\ contents r' = [].
Proof.
  intros Hn. pose proof (read_exact_spec n n r (le_n n)) as (H1 & H2 & H3).
  unfold read_slice. destruct (read_exact n n r) as [o r']. simpl in *.
  rewrite decide_False in H1 by lia. subst o. rewrite drop_ge in H2 by lia. eauto.
Qed.

(** [is_finished] peeks without losing a byte. *)
Lemma is_finished_spec r :
  fst (is_finished r) = bool_decide (contents r = []) /\
  contents (snd (is_finished r)) = contents r /\
  rd_chain (snd (is_finished r)) = rd_chain r.
Proof.
  unfold is_finished. destruct r as [[|b buf] [p|] c]; simpl; done.
Qed.

Lemma read_slice_app n r bs rest :
  contents r = bs ++ rest -> length bs = n ->
  exists r', read_slice n r = (Ok bs, r') /\ contents r' = rest /\ rd_chain r' = rd_chain r.
Proof.
  intros Hc Hl. destruct (read_slice_ok n r) as (r' & H1 & H2 & H3).
  { rewrite Hc, length_app. lia. }
  exists r'. rewrite H1, H2, H3, Hc, take_app_exact, drop_app_exact by done. done.
Qed.

(** ** The codec interface

    What a type promises to the structures built from it: it only appends to
    the stream, the size hint is exact, and reading after writing gives the
    value back and leaves the rest of the input. *)

Class Codec (A : Type) `{Serializable A} `{Deserializable A} := {
  valid : A -> Prop;
  codec_append : forall a s, ser a s = append_slice (serialize a) s;
  codec_read : forall a r rest, valid a -> contents r = serialize a ++ rest ->
    exists r', read A r = (Ok a, r') /\ contents r' = rest /\ rd_chain r' = rd_chain r;
  codec_size : forall a, valid a -> serialized_size a = length (serialize a) }.

Lemma append_slice_app b1 b2 s :
  append_slice b2 (append_slice b1 s) = append_slice (b1 ++ b2) s.
Proof. unfold append_slice; simpl. by rewrite app_assoc. Qed.

Lemma p_bind_ok {A B} (p : parser A) (k : A -> parser B) r a r' :
  p r = (Ok a, r') -> p_bind p k r = k a r'.
Proof. unfold p_bind. by intros ->. Qed.

Lemma p_bind_err {A B} (p : parser A) (k : A -> parser B) r e r' :
  p r = (Err e, r') -> p_bind p k r = (Err e, r').
Proof. unfold p_bind. by intros ->. Qed.

(** Runs the first parser of a goal whose [codec_read] fact is known. *)
Ltac step_read lem :=
  let r' := fresh "r" in let Hr := fresh "Hr" in
  let Hc := fresh "Hc" in let Hch := fresh "Hch" in
  destruct lem as (r' & Hr & Hc & Hch);
  [first [done | simpl; unfold is_uint in *; simpl in *; lia] .. |rewrite (p_bind_ok _ _ _ _ _ Hr)].

Lemma codec_deserialize `{Codec A} (a : A) :
  valid a -> deserialize A (serialize a) = Ok a.
Proof.
  intros Hv. destruct (codec_read a (from_read (serialize a)) []) as (r' & Hr & Hc & _); [done| |].
  { unfold from_read, reader_new. by rewrite contents_new, app_nil_r. }
  unfold deserialize. rewrite Hr.
  destruct (is_finished_spec r') as (Hf & _). rewrite Hf.
  by rewrite bool_decide_eq_true_2.
Qed.

Section Codecs.
  Context `{ByteOrder}.

Lemma write_le_length n z : 0 <= z < 256 ^ Z.of_nat n -> length (write_le n z) = n.
Proof. intros. by rewrite write_le_spec, le_split_length. Qed.

Lemma read_write_le n z : 0 <= z < 256 ^ Z.of_nat n -> read_le (write_le n z) = z.
Proof.
  intros. rewrite write_le_spec, read_le_spec by auto with kdf. by apply le_combine_split.
Qed.

#[export, program] Instance uint_codec n : Codec (uint n) := {|
  valid t := 0 <= uint_val t < 256 ^ Z.of_nat n |}.
Next Obligation. done. Qed.
Next Obligation.
  intros n [z] r rest Hv Hc. simpl in *.
  destruct (read_slice_app n r (write_le n z) rest) as (r' & Hr & ? & ?); [done|..].
  { by apply write_le_length. }
  exists r'. unfold read; simpl. rewrite (p_bind_ok _ _ _ _ _ Hr).
  unfold p_ret. by rewrite read_write_le.
Qed.
Next Obligation. intros n [z] Hv. simpl in *. symmetry. by apply write_le_length. Qed.

#[export, program] Instance hash_codec n : Codec (hash n) := {|
  valid t := length (hash_bytes t) = n |}.
Next Obligation. done. Qed.
Next Obligation.
  intros n [bs] r rest Hv Hc. simpl in *.
  destruct (read_slice_app n r bs rest) as (r' & Hr & ? & ?); [done|done|].
  exists r'. unfold read; simpl. by rewrite (p_bind_ok _ _ _ _ _ Hr).
Qed.
Next Obligation. intros n [z] Hv. by simpl in *. Qed.

#[export, program] Instance CompactInteger_codec : Codec CompactInteger := {|
  valid t := is_u64 (ci_val t) |}.
Next Obligation.
  intros [v] s. unfold serialize, append, out, ser; simpl.
  case_matches; unfold ser; simpl; unfold append_slice, stream_new; simpl;
    by rewrite ?app_assoc.
Qed.
Next Obligation.
  intros [v] r rest Hv Hc. unfold is_uint in Hv; simpl in *.
  unfold serialize, append, out, ser in Hc; simpl in Hc.
  unfold read, deser; simpl.
  repeat match type of Hc with context [if ?b then _ else _] => destruct b eqn:? end;
    unfold append, ser in Hc; simpl in Hc; rewrite <- ?app_assoc in Hc.
  - step_read (codec_read (mk_uint 1 v) r rest).
    simpl. rewrite Heqb. eexists; eauto.
  - step_read (codec_read (mk_uint 1 0xfd) r (serialize (mk_uint 2 v) ++ rest)).
    simpl. step_read (codec_read (mk_uint 2 v) r0 rest).
    simpl. rewrite Hch in Hch0. eexists; eauto.
  - step_read (codec_read (mk_uint 1 0xfe) r (serialize (mk_uint 4 v) ++ rest)).
    simpl. step_read (codec_read (mk_uint 4 v) r0 rest).
    simpl. rewrite Hch in Hch0. eexists; eauto.
  - step_read (codec_read (mk_uint 1 0xff) r (serialize (mk_uint 8 v) ++ rest)).
    simpl. step_read (codec_read (mk_uint 8 v) r0 rest).
    simpl. rewrite Hch in Hch0. eexists; eauto.
Qed.
Next Obligation.
  intros [v] Hv. unfold is_uint in Hv; simpl in *.
  unfold ci_serialized_length, serialize, append, out, ser; simpl.
  case_matches; unfold append, ser; simpl; rewrite ?length_app, !write_le_length by lia; done.
Qed.

Lemma ser_Bytes bs s :
  ser (mk_Bytes bs) s = append_slice bs (ser (ci_of_len (length bs)) s).
Proof. done. Qed.

Lemma serialize_Bytes bs :
  serialize (mk_Bytes bs) = serialize (ci_of_len (length bs)) ++ bs.
Proof.
  unfold serialize at 1, append. by rewrite ser_Bytes, codec_append.
Qed.

Lemma ci_of_len_valid n : Z.of_nat n < 2 ^ 64 -> valid (ci_of_len n).
Proof. simpl. unfold is_uint. lia. Qed.

Lemma read_Bytes_len n r rest :
  Z.of_nat n < 2 ^ 64 -> contents r = serialize (ci_of_len n) ++ rest ->
  exists r', contents r' = rest /\ rd_chain r' = rd_chain r /\
    read Bytes r = (if Z.of_nat n >? 65536 then p_err MalformedData
                    else bs <~ read_slice n; p_ret (mk_Bytes bs)) r'.
Proof.
  intros Hn Hc. unfold read, deser; cbn [Bytes_deser].
  step_read (codec_read (ci_of_len n) r rest (ci_of_len_valid n Hn)).
  exists r0. unfold as_usize, ci_of_len; cbn [ci_val]. by rewrite Nat2Z.id.
Qed.

#[export, program] Instance Bytes_codec : Codec Bytes := {|
  valid b := Z.of_nat (length (bytes_val b)) <= 65536 |}.
Next Obligation.
  intros [bs] s. by rewrite serialize_Bytes, ser_Bytes, codec_append, append_slice_app.
Qed.
Next Obligation.
  intros [bs] r rest Hv Hc. rewrite serialize_Bytes, <- app_assoc in Hc.
  cbn [bytes_val] in Hv.
  destruct (read_Bytes_len (length bs) r (bs ++ rest)) as (r0 & Hc0 & Hch & ->); [lia|done|].
  destruct (_ >? _) eqn:E; [lia|].
  destruct (read_slice_app (length bs) r0 bs rest) as (r1 & Hr1 & Hc1 & Hch1); [done|done|].
  rewrite (p_bind_ok _ _ _ _ _ Hr1). exists r1. by rewrite Hch1, Hch.
Qed.
Next Obligation.
  intros [bs] Hv. cbn [bytes_val] in Hv. rewrite serialize_Bytes, length_app.
  rewrite <- codec_size by (apply ci_of_len_valid; lia). done.
Qed.

Lemma append_list_spec `{Codec A} (l : list A) s :
  append_list l s =
    append_slice (serialize (ci_of_len (length l)) ++ concat (map serialize l)) s.
Proof.
  unfold append_list, append at 1. rewrite codec_append, <- append_slice_app.
  generalize (append_slice (serialize (ci_of_len (length l))) s) as s0.
  induction l as [|a l IH]; intros s0; simpl.
  - unfold append_slice. rewrite app_nil_r. by destruct s0.
  - by rewrite IH, codec_append, append_slice_app.
Qed.

Lemma read_n_app `{Codec A} (l : list A) r rest :
  Forall valid l -> contents r = concat (map serialize l) ++ rest ->
  exists r', read_n (length l) r = (Ok l, r') /\ contents r' = rest /\ rd_chain r' = rd_chain r.
Proof.
  intros Hl; revert r; induction Hl as [|a l Ha Hl IH]; intros r Hc; simpl in *.
  { exists r. auto. }
  rewrite <- app_assoc in Hc.
  step_read (codec_read a r (concat (map serialize l) ++ rest)).
  destruct (IH r0) as (r1 & Hr1 & Hc1 & Hch1); [done|].
  rewrite (p_bind_ok _ _ _ _ _ Hr1). exists r1. by rewrite Hch1, Hch.
Qed.

Lemma read_list_app `{Codec A} (l : list A) r rest :
  Z.of_nat (length l) < 2 ^ 64 -> Forall valid l ->
  contents r = serialize_list l ++ rest ->
  exists r', read_list r = (Ok l, r') /\ contents r' = rest /\ rd_chain r' = rd_chain r.
Proof.
  intros Hlen Hl Hc. unfold serialize_list, out in Hc. rewrite append_list_spec in Hc.
  simpl in Hc. rewrite <- app_assoc in Hc. unfold read_list.
  step_read (codec_read (ci_of_len (length l)) r (concat (map serialize l) ++ rest)).
  unfold as_usize, ci_of_len; cbn [ci_val]. rewrite Nat2Z.id.
  destruct (read_n_app l r0 rest Hl Hc0) as (r1 & Hr1 & Hc1 & Hch1).
  exists r1. by rewrite Hr1, Hch1, Hch.
Qed.

#[export, program] Instance List_codec `{Codec A} : Codec (List A) := {|
  valid t := Z.of_nat (length (list_val t)) < 2 ^ 64 /\ Forall valid (list_val t) |}.
Next Obligation.
  intros A ??? [l] s. unfold serialize, append, out, ser; simpl.
  by rewrite !append_list_spec.
Qed.
Next Obligation.
  intros A ??? [l] r rest [Hlen Hl] Hc. unfold read, deser; simpl in *.
  destruct (read_list_app l r rest Hlen Hl) as (r' & Hr & ? & ?); [done|].
  exists r'. by rewrite (p_bind_ok _ _ _ _ _ Hr).
Qed.
Next Obligation. done. Qed.

End Codecs.

(** ** Properties of the codec *)

Section Properties.
  Context `{ByteOrder}.

(** A list of values of any type with a codec is read back from what
    [append_list] writes, element for element, and all input is consumed. *)
Theorem list_roundtrip `{Codec A} (l : list A) :
  Z.of_nat (length l) < 2 ^ 64 -> Forall valid l ->
  deserialize (List A) (serialize (mk_List l)) = Ok (mk_List l).
Proof. intros. by apply codec_deserialize. Qed.

(** A byte string is read back when it has at most 65536 bytes; a longer
    one is written in full but refused by the reader as malformed. *)
Theorem bytes_roundtrip_bound (bs : list Z) :
  Z.of_nat (length bs) < 2 ^ 64 ->
  deserialize Bytes (serialize (mk_Bytes bs)) =
    if decide (Z.of_nat (length bs) <= 65536) then Ok (mk_Bytes bs) else Err MalformedData.
Proof.
  intros Hlen. destruct (decide _) as [Hle|Hgt]; [by apply codec_deserialize|].
  unfold deserialize.
  destruct (read_Bytes_len (length bs) (from_read (serialize (mk_Bytes bs))) bs)
    as (r' & Hc & _ & ->); [done|by rewrite serialize_Bytes|].
  destruct (_ >? _) eqn:E; [done|lia].
Qed.

Lemma read_uint_ok n r :
  (n <= length (contents r))%nat -> bytes_ok (contents r) ->
  exists r', read (uint n) r = (Ok (mk_uint n (le_combine (take n (contents r)))), r') /\
    contents r' = drop n (contents r) /\ bytes_ok (contents r').
Proof.
  intros Hn Hok. destruct (read_slice_ok n r Hn) as (r' & Hr & Hc & _).
  exists r'. unfold read; simpl. rewrite (p_bind_ok _ _ _ _ _ Hr), Hc. unfold p_ret.
  rewrite read_le_spec by (by apply Forall_take). auto using Forall_drop.
Qed.

Lemma read_uint_err n r :
  (length (contents r) < n)%nat ->
  exists r', read (uint n) r = (Err UnexpectedEnd, r').
Proof.
  intros Hn. destruct (read_slice_err n r Hn) as (r' & Hr & _).
  exists r'. unfold read; simpl. by apply p_bind_err.
Qed.

(** The wide form of a compact integer, behind its flag byte. *)
Lemma read_wide n r :
  (0 < n)%nat -> bytes_ok (contents r) ->
  if (length (contents r) <? n)%nat
  then exists r', (v <~ read (uint n); p_ret (mk_CompactInteger (uint_val v))) r =
                  (Err UnexpectedEnd, r')
  else exists r', (v <~ read (uint n); p_ret (mk_CompactInteger (uint_val v))) r =
                  (Ok (mk_CompactInteger (le_combine (take n (contents r)))), r') /\
                  contents r' = drop n (contents r).
Proof.
  intros Hn Hok. destruct (Nat.ltb_spec (length (contents r)) n) as [Hlt|Hge].
  - destruct (read_uint_err n r Hlt) as (r' & Hr). exists r'. by apply p_bind_err.
  - destruct (read_uint_ok n r Hge Hok) as (r' & Hr & Hc & _). exists r'.
    by rewrite (p_bind_ok _ _ _ _ _ Hr).
Qed.

(** [parse_compact_int], used on the raw vectors of an SPV proof, agrees
    with the stream reader: it returns the number the reader returns, and
    fails exactly where the reader runs out of input. *)
Theorem parse_compact_int_reader (buf : list Z) :
  bytes_ok buf ->
  match parse_compact_int buf with
  | Ok c => exists r', read CompactInteger (reader_new buf) = (Ok c, r') /\
      contents r' = drop (1 + data_length (nth 0 buf 0)) buf
  | Err _ => fst (read CompactInteger (reader_new buf)) = Err UnexpectedEnd
  end.
Proof.
  intros Hok. destruct buf as [|b0 rest]; [done|].
  assert (is_u8 b0) as Hb by (by inversion Hok).
  assert (bytes_ok rest) as Hrest by (by inversion Hok).
  destruct (read_uint_ok 1 (reader_new (b0 :: rest))) as (r1 & Hr1 & Hc1 & _);
    [simpl; lia|done|].
  unfold reader_new in Hc1; rewrite contents_new in Hc1; cbn [drop] in Hc1; rewrite drop_0 in Hc1.
  unfold read at 1 2, deser; cbn [CompactInteger_deser].
  rewrite (p_bind_ok _ _ _ _ _ Hr1). cbn [uint_val].
  unfold reader_new; rewrite contents_new. cbn [take le_combine].
  rewrite Z.mul_0_r, Z.add_0_r. clear Hr1.
  assert (forall n, (0 < n)%nat -> (n <= 8)%nat -> data_length b0 = n ->
    match parse_compact_int (b0 :: rest) with
    | Ok c => exists r', (v <~ read (uint n); p_ret (mk_CompactInteger (uint_val v))) r1 = (Ok c, r') /\
        contents r' = drop (1 + data_length b0) (b0 :: rest)
    | Err _ => fst ((v <~ read (uint n); p_ret (mk_CompactInteger (uint_val v))) r1) = Err UnexpectedEnd
    end) as Hwide.
  { intros n Hn Hn8 Hd. unfold parse_compact_int. rewrite Hd.
    rewrite (proj2 (Nat.eqb_neq n 0)) by lia.
    pose proof (read_wide n r1 Hn) as Hw. rewrite Hc1 in Hw. specialize (Hw Hrest).
    cbn [length]. change (1 + n)%nat with (S n).
    replace (S (length rest) <? S n)%nat with (length rest <? n)%nat by done.
    destruct (length rest <? n)%nat.
    - destruct Hw as (r' & ->). done.
    - destruct Hw as (r' & -> & Hc). exists r'. by rewrite le_combine_app_zeros. }
  unfold is_uint in Hb. cbn [nth] in *.
  destruct (b0 <=? 0xfc) eqn:E1.
  { unfold parse_compact_int, data_length.
    rewrite !(proj2 (Z.eqb_neq b0 _)) by lia. exists r1. by rewrite Hc1. }
  destruct (b0 =? 0xfd) eqn:E2; [|destruct (b0 =? 0xfe) eqn:E3].
  - apply (Hwide 2%nat); [lia..|]. unfold data_length. by rewrite E2.
  - apply (Hwide 4%nat); [lia..|]. unfold data_length. by rewrite E2, E3.
  - apply (Hwide 8%nat); [lia..|]. unfold data_length. rewrite E2, E3.
    by rewrite (proj2 (Z.eqb_eq b0 0xff)) by lia.
Qed.

(** The streaming iterator over a concatenation of encodings yields the
    values in order and then ends; one more round than values is enough. *)
Theorem read_iter_concat `{Codec A} (l : list A) (fuel : nat) :
  Forall valid l -> (forall a, serialize a <> []) -> (length l < fuel)%nat ->
  read_iter fuel (from_read (concat (map serialize l))) = Some (Ok l).
Proof.
  intros Hl Hne. unfold from_read, reader_new.
  generalize (contents_new (concat (map serialize l)) Standard).
  generalize (mkReader (concat (map serialize l)) None Standard) as r.
  revert fuel. induction Hl as [|a l Ha Hl IH]; intros [|fuel] r Hc Hf; try (simpl in Hf; lia).
  - simpl in *. unfold read_iterator_next.
    destruct (is_finished r) as [fin r'] eqn:E.
    pose proof (is_finished_spec r) as (Hfin & _). rewrite E, Hc in Hfin. simpl in Hfin.
    by subst fin.
  - cbn [map concat] in Hc. cbn [read_iter]. unfold read_iterator_next.
    destruct (is_finished r) as [fin r'] eqn:E.
    pose proof (is_finished_spec r) as (Hfin & Hc' & _).
    rewrite E, Hc in Hfin, Hc'. cbn [fst snd] in *.
    rewrite bool_decide_eq_false_2 in Hfin; [|intros [? _]%app_nil; by eapply Hne]. subst fin.
    destruct (codec_read a r' (concat (map serialize l))) as (r1 & Hr1 & Hc1 & _); [done..|].
    rewrite Hr1. rewrite IH; [done|done|simpl in Hf; lia].
Qed.

End Properties.

(** ** The theorems at concrete inputs *)

Lemma list_roundtrip_witness :
  @deserialize (List (uint 2)) (@List_deser std_byteorder _ (@uint_deser std_byteorder 2))
    (@serialize (List (uint 2)) (@List_ser std_byteorder _ (@uint_ser std_byteorder 2))
       (mk_List [mk_uint 2 258; mk_uint 2 65535])) =
  Ok (mk_List [mk_uint 2 258; mk_uint 2 65535]).
Proof.
  apply (@list_roundtrip std_byteorder (uint 2) _ _ (@uint_codec std_byteorder 2)).
  - simpl; lia.
  - repeat constructor; simpl; lia.
Defined.

Lemma bytes_roundtrip_bound_witness :
  @deserialize Bytes (@Bytes_deser std_byteorder)
    (@serialize Bytes (@Bytes_ser std_byteorder) (mk_Bytes [1; 2; 3])) =
  Ok (mk_Bytes [1; 2; 3]).
Proof. apply (@bytes_roundtrip_bound std_byteorder [1; 2; 3]). simpl; lia. Defined.

Lemma parse_compact_int_reader_witness :
  exists r', @read CompactInteger (@CompactInteger_deser std_byteorder)
               (reader_new [0xfd; 1; 2; 9]) = (Ok (mk_CompactInteger 513), r') /\
             contents r' = [9].
Proof.
  apply (@parse_compact_int_reader std_byteorder [0xfd; 1; 2; 9]).
  repeat constructor; unfold is_uint; lia.
Defined.

Lemma read_iter_concat_witness :
  @read_iter (uint 1) (@uint_deser std_byteorder 1) 4
    (from_read (concat (map (@serialize _ (@uint_ser std_byteorder 1))
       [mk_uint 1 7; mk_uint 1 8; mk_uint 1 9]))) =
  Some (Ok [mk_uint 1 7; mk_uint 1 8; mk_uint 1 9]).
Proof.
  apply (@read_iter_concat (uint 1) _ _ (@uint_codec std_byteorder 1)).
  - repeat constructor; simpl; lia.
  - done.
  - simpl; lia.
Defined.
