(* ===== verification/DexFee.v ===== *)
(** * The DEX fee (mm2src/coins/lp_coins.rs, [DexFee])

    How much a taker pays for a trade, which part of it goes to the fee
    address and which part is burned, as a function of the traded amount and
    of what the taker coin allows. *)

From S2P Require Import Prelude MmNumber.

Inductive DexFeeBurnDestination : Type :=
| KmdOpReturn
| PreBurnAccount.

Inductive DexFee : Type :=
| NoFee
| Standard (amount : MmNumber)
| WithBurn (fee_amount burn_amount : MmNumber) (burn_destination : DexFeeBurnDestination).

(** What the fee computation asks of the taker coin. *)
Record FeeCoin : Type := mkFeeCoin {
  fc_ticker : string;
  fc_min_tx_amount : MmNumber;
  fc_is_privacy : bool;
  fc_burn_pubkey : list Z;
  fc_should_burn_directly : bool;
  fc_should_burn_dex_fee : bool }.

Open Scope num_scope.

(** [DEX_FEE_SHARE], the string "0.75". *)
Definition DEX_FEE_SHARE : MmNumber := 75 # 100.

Definition fee_discount_tickers : list string := ["GLEEC"%string].

Definition dex_fee_rate (base rel : string) : MmNumber :=
  if decide (base ∈ fee_discount_tickers) then 1 # 100
  else if decide (rel ∈ fee_discount_tickers) then 1 # 100
  else 2 # 100.

Definition calc_dex_fee_for_op_return (dex_fee min_tx_amount : MmNumber) : DexFee :=
  if dex_fee <=? min_tx_amount then Standard min_tx_amount
  else
    let new_fee := dex_fee * DEX_FEE_SHARE in
    if new_fee >=? min_tx_amount
    then WithBurn new_fee (dex_fee - new_fee) KmdOpReturn
    else WithBurn min_tx_amount (dex_fee - min_tx_amount) KmdOpReturn.

Definition calc_dex_fee_for_burn_account (dex_fee min_tx_amount : MmNumber) : DexFee :=
  if dex_fee <=? min_tx_amount then Standard min_tx_amount
  else
    let new_fee := dex_fee * DEX_FEE_SHARE in
    let burn_amount := dex_fee - new_fee in
    if ((new_fee >=? min_tx_amount) && (burn_amount >=? min_tx_amount))%bool
    then WithBurn new_fee burn_amount PreBurnAccount
    else
      let burn_amount := dex_fee - min_tx_amount in
      if ((new_fee <? min_tx_amount) && (burn_amount >=? min_tx_amount))%bool
      then WithBurn min_tx_amount burn_amount PreBurnAccount
      else Standard dex_fee.

Definition new_from_taker_coin (taker_coin : FeeCoin) (maker_ticker : string)
  (trade_amount : MmNumber) : DexFee :=
  let rate := dex_fee_rate (fc_ticker taker_coin) maker_ticker in
  let dex_fee := trade_amount * rate in
  let min_tx_amount := fc_min_tx_amount taker_coin in
  if fc_should_burn_directly taker_coin then calc_dex_fee_for_op_return dex_fee min_tx_amount
  else if fc_should_burn_dex_fee taker_coin then calc_dex_fee_for_burn_account dex_fee min_tx_amount
  else if dex_fee <=? min_tx_amount then Standard min_tx_amount
  else Standard dex_fee.

Definition new_with_taker_pubkey (taker_coin : FeeCoin) (maker_ticker : string)
  (trade_amount : MmNumber) (taker_pubkey : list Z) : DexFee :=
  if (negb (fc_is_privacy taker_coin) &&
      bool_decide (fc_burn_pubkey taker_coin = taker_pubkey))%bool
  then NoFee
  else new_from_taker_coin taker_coin maker_ticker trade_amount.

Definition fee_amount (f : DexFee) : MmNumber :=
  match f with
  | NoFee => 0 # 1
  | Standard t => t
  | WithBurn fee _ _ => fee
  end.

Definition burn_amount (f : DexFee) : option MmNumber :=
  match f with
  | Standard _ | NoFee => None
  | WithBurn _ burn _ => Some burn
  end.

Definition total_spend_amount (f : DexFee) : MmNumber :=
  match f with
  | NoFee => 0 # 1
  | Standard t => t
  | WithBurn fee burn _ => fee + burn
  end.

(** ** What the fee has to satisfy

    [fee_spec dex_fee min f]: the taker pays the rate on the amount, but at
    least the coin's minimal transaction amount; the fee output is never
    below that minimum, no more than a quarter is burned, and an output of
    the pre-burn account is not dust either. *)
Definition fee_spec (dex_fee min_tx : MmNumber) (f : DexFee) : Prop :=
  (total_spend_amount f == Qmax dex_fee min_tx)%Q /\
  (min_tx <= fee_amount f)%Q /\
  match f with
  | WithBurn fee burn dest =>
      (0 < burn <= (25 # 100) * dex_fee)%Q /\
      (dest = PreBurnAccount -> min_tx <= burn)%Q
  | _ => True
  end.

Lemma qmax_left a b : (b <= a)%Q -> (Qmax a b == a)%Q.
Proof. apply Q.max_l. Qed.

Lemma qmax_right a b : (a <= b)%Q -> (Qmax a b == b)%Q.
Proof. apply Q.max_r. Qed.

Lemma burn_split dex_fee min_tx fee dest :
  (min_tx < dex_fee)%Q -> (min_tx <= fee)%Q -> (fee < dex_fee)%Q ->
  (dex_fee * DEX_FEE_SHARE <= fee)%Q ->
  (dest = PreBurnAccount -> min_tx <= dex_fee - fee)%Q ->
  fee_spec dex_fee min_tx (WithBurn fee (dex_fee - fee) dest).
Proof.
  unfold DEX_FEE_SHARE. intros. split; [|split; [done|split; [split; lra|done]]].
  simpl. rewrite qmax_left by lra. lra.
Qed.

Lemma standard_min dex_fee min_tx :
  (dex_fee <= min_tx)%Q -> fee_spec dex_fee min_tx (Standard min_tx).
Proof.
  intros. split; [|split; [simpl; lra|done]]. simpl. by rewrite qmax_right.
Qed.

Lemma standard_max dex_fee min_tx :
  (min_tx < dex_fee)%Q -> fee_spec dex_fee min_tx (Standard dex_fee).
Proof.
  intros. split; [|split; [simpl; lra|done]]. simpl. rewrite qmax_left by lra. lra.
Qed.

Lemma op_return_spec dex_fee min_tx :
  (0 <= min_tx)%Q -> fee_spec dex_fee min_tx (calc_dex_fee_for_op_return dex_fee min_tx).
Proof.
  intros Hmin. unfold calc_dex_fee_for_op_return.
  repeat case_match; qbool; [by apply standard_min|..]; apply burn_split;
    unfold DEX_FEE_SHARE in *; try done; lra.
Qed.

Lemma burn_account_spec dex_fee min_tx :
  (0 <= min_tx)%Q -> fee_spec dex_fee min_tx (calc_dex_fee_for_burn_account dex_fee min_tx).
Proof.
  intros Hmin. unfold calc_dex_fee_for_burn_account.
  repeat case_match; qbool;
    first [by apply standard_min | by apply standard_max
          | apply burn_split; unfold DEX_FEE_SHARE in *; intros; lra].
Qed.

Lemma dex_fee_rate_values base rel :
  dex_fee_rate base rel = (1 # 100) \/ dex_fee_rate base rel = (2 # 100).
Proof. unfold dex_fee_rate. repeat case_decide; auto. Qed.

Lemma new_from_taker_coin_spec coin maker_ticker amount :
  (0 <= fc_min_tx_amount coin)%Q ->
  fee_spec (amount * dex_fee_rate (fc_ticker coin) maker_ticker) (fc_min_tx_amount coin)
    (new_from_taker_coin coin maker_ticker amount).
Proof.
  intros Hmin. unfold new_from_taker_coin.
  destruct (fc_should_burn_directly coin); [by apply op_return_spec|].
  destruct (fc_should_burn_dex_fee coin); [by apply burn_account_spec|].
  case_match; qbool; [by apply standard_min|by apply standard_max].
Qed.

(** The fee grows with the traded amount. *)
Lemma total_spend_mono coin maker_ticker a b :
  (0 <= fc_min_tx_amount coin)%Q -> (a <= b)%Q ->
  (total_spend_amount (new_from_taker_coin coin maker_ticker a) <=
   total_spend_amount (new_from_taker_coin coin maker_ticker b))%Q.
Proof.
  intros Hmin Hab.
  destruct (new_from_taker_coin_spec coin maker_ticker a Hmin) as (Ha & _).
  destruct (new_from_taker_coin_spec coin maker_ticker b Hmin) as (Hb & _).
  rewrite Ha, Hb. apply Q.max_le_compat_r.
  destruct (dex_fee_rate_values (fc_ticker coin) maker_ticker) as [-> | ->]; lra.
Qed.

(** C40: whatever the coin's burn policy, the fee for a trade is the rate on
    the amount raised to the minimal transaction amount, its fee output is
    never dust, at most 25% of it is burned, an output to the pre-burn account
    is never dust, and trading more never costs less; only a taker that is the
    burn key of a transparent coin pays nothing. *)
Theorem dex_fee_correct (coin : FeeCoin) (maker_ticker : string) (amount : MmNumber)
  (taker_pubkey : list Z) :
  (0 <= fc_min_tx_amount coin)%Q ->
  let fee := new_with_taker_pubkey coin maker_ticker amount taker_pubkey in
  if (negb (fc_is_privacy coin) && bool_decide (fc_burn_pubkey coin = taker_pubkey))%bool
  then fee = NoFee
  else fee_spec (amount * dex_fee_rate (fc_ticker coin) maker_ticker) (fc_min_tx_amount coin) fee /\
       (forall more, (amount <= more)%Q ->
        (total_spend_amount fee <=
         total_spend_amount (new_with_taker_pubkey coin maker_ticker more taker_pubkey))%Q).
Proof.
  intros Hmin. unfold new_with_taker_pubkey. simpl. destruct (_ && _)%bool; [done|].
  split; [by apply new_from_taker_coin_spec|]. intros. by apply total_spend_mono.
Qed.

Lemma dex_fee_correct_witness :
  let fee := new_with_taker_pubkey (mkFeeCoin "KMD" (1 # 1000) false [2%Z] true true) "BTC" (100 # 1) [3%Z] in
  fee_spec ((100 # 1) * (2 # 100))%Q (1 # 1000) fee /\
  (forall more, ((100 # 1) <= more)%Q -> (total_spend_amount fee <= total_spend_amount
     (new_with_taker_pubkey (mkFeeCoin "KMD" (1 # 1000) false [2%Z] true true) "BTC" more [3%Z]))%Q).
Proof.
  apply (dex_fee_correct (mkFeeCoin "KMD" (1 # 1000) false [2%Z] true true) "BTC" (100 # 1) [3%Z]).
  simpl. lra.
Defined.
