(* ===== verification/Swap.v ===== *)
(** * What maker and taker swaps share

    [mm2_main/src/lp_swap.rs] (P2P messages and their store, locktimes,
    locked amounts), [lp_swap/check_balance.rs], the negotiation messages,
    the argument structures of [coins/lp_coins.rs], and the calls a swap
    handler makes to the outside: coins (the trait [SwapOps], whose pure
    methods are the record [Coin]), clock, network, database. *)

From stdpp Require Export gmap.
From S2P Require Import Prelude MmNumber DexFee Effects.

Open Scope Z_scope.

Notation bytes := (list Z).
Notation Uuid := (list Z).
Notation H256 := (list Z).
Notation H264 := (list Z).

Definition H256_default : H256 := replicate 32 0.
Definition H264_default : H264 := replicate 33 0.

(** ** Errors: the format string with its arguments, not rendered; the source
    location that [ERRL!] adds is left out. *)

Inductive CheckBalanceError : Type :=
| NotSufficientBalance (coin : string) (available required : BigDecimal)
    (locked_by_swaps : option BigDecimal)
| NotSufficientBaseCoinBalance (coin : string) (available required : BigDecimal)
    (locked_by_swaps : option BigDecimal)
| VolumeTooLow (coin : string) (volume threshold : BigDecimal)
| Transport (s : string)
| InternalError (s : string).

Definition not_sufficient_balance (e : CheckBalanceError) : bool :=
  match e with
  | NotSufficientBalance _ _ _ _ | NotSufficientBaseCoinBalance _ _ _ _ => true
  | _ => false
  end.

(** [coins::BalanceError]; the last three carry their rendered text. *)
Inductive BalanceError : Type :=
| BalanceTransport (s : string)
| BalanceInvalidResponse (s : string)
| BalanceInternal (s : string)
| BalanceUnexpectedDerivationMethod (text : string)
| BalanceWalletStorageError (text : string)
| BalanceNoSuchCoin (text : string).

Definition check_balance_from_balance_err (e : BalanceError) : CheckBalanceError :=
  match e with
  | BalanceTransport t | BalanceInvalidResponse t => Transport t
  | BalanceUnexpectedDerivationMethod t | BalanceWalletStorageError t => InternalError t
  | BalanceInternal internal => InternalError internal
  | BalanceNoSuchCoin t => InternalError t
  end.

(** [coins::TradePreimageError]; [PreimageNoSuchCoin] carries its rendered text. *)
Inductive TradePreimageError : Type :=
| PreimageNotSufficientBalance (coin : string) (available required : BigDecimal)
| AmountIsTooSmall (amount threshold : BigDecimal)
| PreimageTransport (s : string)
| PreimageInternalError (s : string)
| PreimageNoSuchCoin (text : string)
| PreimageProtocolNotSupported (s : string).

Definition from_trade_preimage_error (e : TradePreimageError) (ticker : string)
  : CheckBalanceError :=
  match e with
  | PreimageNotSufficientBalance coin available required =>
      if bool_decide (coin = ticker)
      then NotSufficientBalance coin available required None
      else NotSufficientBaseCoinBalance coin available required None
  | AmountIsTooSmall amount threshold => VolumeTooLow ticker amount threshold
  | PreimageTransport transport => Transport transport
  | PreimageInternalError internal | PreimageProtocolNotSupported internal =>
      InternalError internal
  | PreimageNoSuchCoin text => InternalError text
  end.

Inductive ErrArg : Type :=
| ArgStr (s : string)
| ArgNum (n : Z)
| ArgOptNum (n : option Z)
| ArgBytes (b : bytes)
| ArgBalance (e : CheckBalanceError)
| ArgPreimage (e : TradePreimageError)
| ArgErr (fmt : string) (args : list ErrArg).

Record SwapError : Type := mkSwapError { error : string; error_args : list ErrArg }.

Definition err (fmt : string) (args : list ErrArg) : SwapError := mkSwapError fmt args.
Definition arg_err (e : SwapError) : ErrArg := ArgErr (error e) (error_args e).
Definition err_str (e : string) : SwapError := mkSwapError e [].

(** ** Coins and transactions *)

Inductive Side : Type := MakerSide | TakerSide.

#[export] Instance Side_eq_dec : EqDecision Side.
Proof. solve_decision. Defined.

(** [TransactionEnum]; lightning payments are not sent to the tx helper. *)
Record Tx : Type := mkTx { tx_hex : bytes; tx_hash : bytes; tx_is_lightning : bool }.

Definition supports_tx_helper (t : Tx) : bool := negb (tx_is_lightning t).

Record TransactionIdentifier : Type := mkTxIdent { ti_tx_hex : bytes; ti_tx_hash : bytes }.

Definition tx_ident (t : Tx) : TransactionIdentifier := mkTxIdent (tx_hex t) (tx_hash t).

Inductive TransactionErr : Type :=
| TxRecoverable (t : Tx) (s : string)
| Plain (s : string)
| TxProtocolNotSupported (s : string)
| TxInternalError (s : string).

Definition get_tx (e : TransactionErr) : option Tx :=
  match e with TxRecoverable t _ => Some t | _ => None end.

Definition get_plain_text_format (e : TransactionErr) : string :=
  match e with
  | TxRecoverable _ s => s
  | Plain s | TxProtocolNotSupported s | TxInternalError s => s
  end.

Inductive FoundSwapTxSpend : Type := Spent (t : Tx) | Refunded (t : Tx).
Inductive CanRefundHtlc : Type := CanRefundNow | HaveToWait (seconds : Z).

(** The invoice of a lightning payment is a value of the lightning crates. *)
Inductive PaymentInstructions : Type :=
| Lightning (invoice : bytes)
| WatcherRewardInstr (amount : BigDecimal).

Record WatcherReward : Type := mkWatcherReward {
  wr_amount : BigDecimal;
  wr_is_exact_amount : bool;
  wr_reward_target : nat;
  wr_send_contract_reward_on_spend : bool }.

Record PaymentInstructionArgs : Type := mkPaymentInstructionArgs {
  pia_secret_hash : bytes;
  pia_amount : BigDecimal;
  pia_maker_lock_duration : Z;
  pia_expires_in : Z;
  pia_watcher_reward : bool;
  pia_wait_until : Z }.

Inductive MmCoinEnum : Type :=
| UtxoCoinVariant | QtumCoinVariant | Qrc20CoinVariant | EthCoinVariant | ZCoinVariant
| BchVariant | SlpTokenVariant | TendermintVariant | TendermintTokenVariant
| LightningCoinVariant | SiaCoinVariant | SolanaCoinVariant | SolanaTokenVariant.

(** The methods of a coin that only look at the coin and their arguments. *)
Record Coin : Type := mkCoin {
  coin_variant : MmCoinEnum;
  fee_coin : FeeCoin;
  swap_contract_address : option bytes;
  fallback_swap_contract : option bytes;
  maker_locktime_multiplier : Q;
  is_auto_refundable : bool;
  requires_notarization : bool;
  is_supported_by_watchers : bool;
  is_eth : bool;
  derive_htlc_pubkey : bytes -> H264;
  negotiate_swap_contract_addr : option bytes -> result string (option bytes);
  validate_other_pubkey : bytes -> result string unit;
  tx_enum_from_bytes : bytes -> result string Tx;
  validate_maker_payment_instructions :
    bytes -> PaymentInstructionArgs -> result string PaymentInstructions;
  validate_taker_payment_instructions :
    bytes -> PaymentInstructionArgs -> result string PaymentInstructions }.

Definition ticker (c : Coin) : string := fc_ticker (fee_coin c).

Inductive SecretHashAlgo : Type := DHASH160 | SHA256.

#[export] Instance SecretHashAlgo_eq_dec : EqDecision SecretHashAlgo.
Proof. solve_decision. Defined.

(** The hashes of the bitcrypto dependencies (sha2, ripemd160 crates). *)
Class SecretHasher := {
  sha256 : bytes -> bytes;
  dhash160 : bytes -> bytes;
  sha256_length : forall b, length (sha256 b) = 32%nat;
  dhash160_length : forall b, length (dhash160 b) = 20%nat }.

Definition hash_secret `{SecretHasher} (a : SecretHashAlgo) (secret : bytes) : bytes :=
  match a with
  | DHASH160 => dhash160 secret
  | SHA256 => sha256 secret
  end.

Definition detect_secret_hash_algo (maker_coin taker_coin : Coin) : SecretHashAlgo :=
  match coin_variant maker_coin, coin_variant taker_coin with
  | (TendermintVariant | TendermintTokenVariant | LightningCoinVariant), _ => SHA256
  | _, (TendermintVariant | TendermintTokenVariant) => SHA256
  | _, SiaCoinVariant => SHA256
  | SiaCoinVariant, _ => SHA256
  | _, _ => DHASH160
  end.

Record TradeFee : Type := mkTradeFee {
  tf_coin : string;
  tf_amount : MmNumber;
  tf_paid_from_trading_vol : bool }.

Record SavedTradeFee : Type := mkSavedTradeFee {
  stf_coin : string;
  stf_amount : BigDecimal;
  stf_paid_from_trading_vol : bool }.

Definition trade_fee_from_saved (f : SavedTradeFee) : TradeFee :=
  mkTradeFee (stf_coin f) (stf_amount f) (stf_paid_from_trading_vol f).

Definition saved_from_trade_fee `{DecimalConv} (f : TradeFee) : SavedTradeFee :=
  mkSavedTradeFee (tf_coin f) (to_decimal (tf_amount f)) (tf_paid_from_trading_vol f).

Inductive FeeApproxStage : Type :=
| WithoutApprox | OrderIssue | OrderIssueMax | StartSwap | WatcherPreimage
| TradePreimage | TradePreimageMax.

Inductive TradePreimageValue : Type :=
| Exact (v : BigDecimal)
| UpperBound (v : BigDecimal).

Record SwapConfirmationsSettings : Type := mkConfSettings {
  maker_coin_confs : Z;
  maker_coin_nota : bool;
  taker_coin_confs : Z;
  taker_coin_nota : bool }.

Definition settings_require_notarization (s : SwapConfirmationsSettings) : bool :=
  maker_coin_nota s || taker_coin_nota s.

(** *** Arguments of the coin operations *)

Record CheckIfMyPaymentSentArgs : Type := mkCheckSent {
  cs_time_lock : Z;
  cs_other_pub : bytes;
  cs_secret_hash : bytes;
  cs_search_from_block : Z;
  cs_swap_contract_address : option bytes;
  cs_swap_unique_data : bytes;
  cs_amount : BigDecimal;
  cs_payment_instructions : option PaymentInstructions }.

Record SendPaymentArgs : Type := mkSendPayment {
  sp_time_lock_duration : Z;
  sp_time_lock : Z;
  sp_other_pubkey : bytes;
  sp_secret_hash : bytes;
  sp_amount : BigDecimal;
  sp_swap_contract_address : option bytes;
  sp_swap_unique_data : bytes;
  sp_payment_instructions : option PaymentInstructions;
  sp_watcher_reward : option WatcherReward;
  sp_wait_for_confirmation_until : Z }.

Record SpendPaymentArgs : Type := mkSpendPayment {
  spend_other_payment_tx : bytes;
  spend_time_lock : Z;
  spend_other_pubkey : bytes;
  spend_secret : bytes;
  spend_secret_hash : bytes;
  spend_swap_contract_address : option bytes;
  spend_swap_unique_data : bytes;
  spend_watcher_reward : bool }.

Record RefundPaymentArgs : Type := mkRefundPayment {
  rf_payment_tx : bytes;
  rf_time_lock : Z;
  rf_other_pubkey : bytes;
  rf_maker_secret_hash : bytes;
  rf_swap_contract_address : option bytes;
  rf_swap_unique_data : bytes;
  rf_watcher_reward : bool }.

Record ValidatePaymentInput : Type := mkValidatePayment {
  vp_payment_tx : bytes;
  vp_time_lock_duration : Z;
  vp_time_lock : Z;
  vp_other_pub : bytes;
  vp_secret_hash : bytes;
  vp_amount : BigDecimal;
  vp_swap_contract_address : option bytes;
  vp_try_spv_proof_until : Z;
  vp_confirmations : Z;
  vp_unique_swap_data : bytes;
  vp_watcher_reward : option WatcherReward }.

Record ConfirmPaymentInput : Type := mkConfirm {
  cp_payment_tx : bytes;
  cp_confirmations : Z;
  cp_requires_nota : bool;
  cp_wait_until : Z;
  cp_check_every : Z }.

Record SearchForSwapTxSpendInput : Type := mkSearch {
  se_time_lock : Z;
  se_other_pub : bytes;
  se_secret_hash : bytes;
  se_tx : bytes;
  se_search_from_block : Z;
  se_swap_contract_address : option bytes;
  se_swap_unique_data : bytes }.

Record ValidateFeeArgs : Type := mkValidateFee {
  vf_fee_tx : Tx;
  vf_expected_sender : bytes;
  vf_dex_fee : DexFee;
  vf_min_block_number : Z;
  vf_uuid : bytes }.

Record WaitForHTLCTxSpendArgs : Type := mkWaitSpend {
  ws_tx_bytes : bytes;
  ws_secret_hash : bytes;
  ws_wait_until : Z;
  ws_from_block : Z;
  ws_swap_contract_address : option bytes;
  ws_check_every : Q;
  ws_watcher_reward : bool }.

(** Arguments of [create_maker_payment_spend_preimage], which takes no swap
    contract, and of [create_taker_payment_refund_preimage]. *)
Record PreimageArgs : Type := mkPreimage {
  pre_payment_tx : bytes;
  pre_time_lock : Z;
  pre_maker_pub : bytes;
  pre_secret_hash : bytes;
  pre_swap_contract_address : option bytes;
  pre_swap_unique_data : bytes }.

Inductive WatcherSpendType : Type := TakerPaymentRefund | MakerPaymentSpend.

Record ValidateWatcherSpendInput : Type := mkValidateWatcherSpend {
  vw_payment_tx : bytes;
  vw_maker_pub : bytes;
  vw_swap_contract_address : option bytes;
  vw_time_lock : Z;
  vw_secret_hash : bytes;
  vw_amount : BigDecimal;
  vw_watcher_reward : option WatcherReward;
  vw_spend_type : WatcherSpendType }.

(** ** Negotiation and payment messages *)

Record NegotiationDataV1 : Type := mkV1 {
  v1_started_at : Z;
  v1_payment_locktime : Z;
  v1_secret_hash : bytes;
  v1_persistent_pubkey : H264 }.

Record NegotiationDataV2 : Type := mkV2 {
  v2_started_at : Z;
  v2_payment_locktime : Z;
  v2_secret_hash : bytes;
  v2_persistent_pubkey : H264;
  v2_maker_coin_swap_contract : bytes;
  v2_taker_coin_swap_contract : bytes }.

Record NegotiationDataV3 : Type := mkV3 {
  v3_started_at : Z;
  v3_payment_locktime : Z;
  v3_secret_hash : bytes;
  v3_maker_coin_swap_contract : bytes;
  v3_taker_coin_swap_contract : bytes;
  v3_maker_coin_htlc_pub : H264;
  v3_taker_coin_htlc_pub : H264 }.

Inductive NegotiationDataMsg : Type :=
| NegV1 (v : NegotiationDataV1)
| NegV2 (v : NegotiationDataV2)
| NegV3 (v : NegotiationDataV3).

Definition started_at (m : NegotiationDataMsg) : Z :=
  match m with
  | NegV1 v => v1_started_at v | NegV2 v => v2_started_at v | NegV3 v => v3_started_at v
  end.

Definition payment_locktime (m : NegotiationDataMsg) : Z :=
  match m with
  | NegV1 v => v1_payment_locktime v
  | NegV2 v => v2_payment_locktime v
  | NegV3 v => v3_payment_locktime v
  end.

Definition secret_hash (m : NegotiationDataMsg) : bytes :=
  match m with
  | NegV1 v => v1_secret_hash v | NegV2 v => v2_secret_hash v | NegV3 v => v3_secret_hash v
  end.

Definition maker_coin_htlc_pub (m : NegotiationDataMsg) : H264 :=
  match m with
  | NegV1 v => v1_persistent_pubkey v
  | NegV2 v => v2_persistent_pubkey v
  | NegV3 v => v3_maker_coin_htlc_pub v
  end.

Definition taker_coin_htlc_pub (m : NegotiationDataMsg) : H264 :=
  match m with
  | NegV1 v => v1_persistent_pubkey v
  | NegV2 v => v2_persistent_pubkey v
  | NegV3 v => v3_taker_coin_htlc_pub v
  end.

Definition maker_coin_swap_contract (m : NegotiationDataMsg) : option bytes :=
  match m with
  | NegV1 _ => None
  | NegV2 v => Some (v2_maker_coin_swap_contract v)
  | NegV3 v => Some (v3_maker_coin_swap_contract v)
  end.

Definition taker_coin_swap_contract (m : NegotiationDataMsg) : option bytes :=
  match m with
  | NegV1 _ => None
  | NegV2 v => Some (v2_taker_coin_swap_contract v)
  | NegV3 v => Some (v3_taker_coin_swap_contract v)
  end.

Record PaymentWithInstructions : Type := mkPWI {
  pwi_data : bytes;
  next_step_instructions : bytes }.

Inductive SwapTxDataMsg : Type :=
| Regular (data : bytes)
| WithInstructions (p : PaymentWithInstructions).

Definition tx_data (m : SwapTxDataMsg) : bytes :=
  match m with Regular d => d | WithInstructions p => pwi_data p end.

Definition instructions (m : SwapTxDataMsg) : option bytes :=
  match m with
  | Regular _ => None
  | WithInstructions p => Some (next_step_instructions p)
  end.

Definition swap_tx_data_new (data : bytes) (i : option bytes) : SwapTxDataMsg :=
  match i with
  | Some next => WithInstructions (mkPWI data next)
  | None => Regular data
  end.

Inductive SwapMsg : Type :=
| Negotiation (d : NegotiationDataMsg)
| NegotiationReply (d : NegotiationDataMsg)
| Negotiated (b : bool)
| TakerFee (d : SwapTxDataMsg)
| MakerPayment (d : SwapTxDataMsg)
| TakerPayment (b : bytes).

Record SwapMsgStore : Type := mkStore {
  negotiation : option NegotiationDataMsg;
  negotiation_reply : option NegotiationDataMsg;
  negotiated : option bool;
  taker_fee_msg : option SwapTxDataMsg;
  maker_payment_msg : option SwapTxDataMsg;
  taker_payment_msg : option bytes;
  accept_only_from : H256 }.

Definition SwapMsgStore_new (from : H256) : SwapMsgStore :=
  mkStore None None None None None None from.

Definition swap_msg_to_store (m : SwapMsg) (s : SwapMsgStore) : SwapMsgStore :=
  let '(mkStore n nr nd tf mp tp from) := s in
  match m with
  | Negotiation d => mkStore (Some d) nr nd tf mp tp from
  | NegotiationReply d => mkStore n (Some d) nd tf mp tp from
  | Negotiated b => mkStore n nr (Some b) tf mp tp from
  | TakerFee d => mkStore n nr nd (Some d) mp tp from
  | MakerPayment d => mkStore n nr nd tf (Some d) tp from
  | TakerPayment b => mkStore n nr nd tf mp (Some b) from
  end.

(** The getter closures that [recv_swap_msg] is called with. *)
Inductive MsgKind : Type :=
| KNegotiation | KNegotiationReply | KNegotiated | KTakerFee | KMakerPayment | KTakerPayment.

Definition msg_type (k : MsgKind) : Type :=
  match k with
  | KNegotiation | KNegotiationReply => NegotiationDataMsg
  | KNegotiated => bool
  | KTakerFee | KMakerPayment => SwapTxDataMsg
  | KTakerPayment => bytes
  end.

Definition store_take (k : MsgKind) (s : SwapMsgStore) : option (msg_type k) * SwapMsgStore :=
  let '(mkStore n nr nd tf mp tp from) := s in
  match k with
  | KNegotiation => (n, mkStore None nr nd tf mp tp from)
  | KNegotiationReply => (nr, mkStore n None nd tf mp tp from)
  | KNegotiated => (nd, mkStore n nr None tf mp tp from)
  | KTakerFee => (tf, mkStore n nr nd None mp tp from)
  | KMakerPayment => (mp, mkStore n nr nd tf None tp from)
  | KTakerPayment => (tp, mkStore n nr nd tf mp None from)
  end.

(** [process_swap_msg] once the signed message has been decoded to a
    [SwapMsg] and its signer; a swap that is not running drops it. *)
Definition process_swap_msg (uuid : Uuid) (msg : SwapMsg) (sender : H256)
  (msgs : gmap Uuid SwapMsgStore) : gmap Uuid SwapMsgStore :=
  match msgs !! uuid with
  | Some msg_store =>
      if bool_decide (accept_only_from msg_store = sender)
      then <[uuid := swap_msg_to_store msg msg_store]> msgs
      else msgs
  | None => msgs
  end.

(** What one poll of [recv_swap_msg] does to the shared stores. *)
Definition poll_msg (uuid : Uuid) (k : MsgKind) (msgs : gmap Uuid SwapMsgStore)
  : option (msg_type k) * gmap Uuid SwapMsgStore :=
  match msgs !! uuid with
  | Some msg_store =>
      let '(m, msg_store') := store_take k msg_store in (m, <[uuid := msg_store']> msgs)
  | None => (None, msgs)
  end.

Definition init_msg_store (uuid : Uuid) (from : H256) (msgs : gmap Uuid SwapMsgStore)
  : gmap Uuid SwapMsgStore := <[uuid := SwapMsgStore_new from]> msgs.

(** ** Time limits

    All times are [u64] seconds; the release profile wraps on overflow. *)

Definition MAX_TIME_GAP_FOR_CONNECTED_PEER : Z := 20.
Definition MAX_STARTED_AT_DIFF : Z := MAX_TIME_GAP_FOR_CONNECTED_PEER * 3.
Definition BASIC_COMM_TIMEOUT : Z := 90.
Definition NEGOTIATION_TIMEOUT_SEC : Z := 90.
Definition WAIT_CONFIRM_INTERVAL_SEC : Z := 15.
Definition TAKER_FEE_VALIDATION_ATTEMPTS : nat := 6.
Definition TAKER_FEE_VALIDATION_RETRY_DELAY_SECS : Q := 10 # 1.
Definition PAYMENT_LOCKTIME : Z := 3600 * 2 + 300 * 2.

Definition get_payment_locktime : Z := PAYMENT_LOCKTIME.

Definition taker_payment_spend_duration (locktime : Z) : Z := wrap 64 (locktime * 4) / 5.
Definition taker_payment_spend_deadline (swap_started_at locktime : Z) : Z :=
  wrap 64 (swap_started_at + taker_payment_spend_duration locktime).
Definition wait_for_maker_payment_conf_duration (locktime : Z) : Z := wrap 64 (locktime * 2) / 5.
Definition wait_for_maker_payment_conf_until (swap_started_at locktime : Z) : Z :=
  wrap 64 (swap_started_at + wait_for_maker_payment_conf_duration locktime).

(** [u64::abs_diff], [u64::checked_add] *)
Definition abs_diff (a b : Z) : Z := Z.abs (a - b).
Definition checked_add (a b : Z) : option Z := if a + b <? 2 ^ 64 then Some (a + b) else None.

Definition coin_with_4x_locktime (t : string) : bool :=
  bool_decide (t = "BCH"%string) || bool_decide (t = "BTG"%string) ||
  bool_decide (t = "SBTC"%string).

(** [str::contains] *)
Fixpoint str_contains (pat s : string) : bool :=
  String.prefix pat s ||
  match s with
  | EmptyString => false
  | String _ s' => str_contains pat s'
  end.

Inductive AtomicLocktimeVersion : Type :=
| V1
| V2 (my_conf_settings other_conf_settings : SwapConfirmationsSettings).

Definition lp_atomic_locktime_v1 (maker_coin taker_coin : string) : Z :=
  if bool_decide (maker_coin = "BTC"%string) || bool_decide (taker_coin = "BTC"%string)
  then get_payment_locktime * 10
  else if coin_with_4x_locktime maker_coin || coin_with_4x_locktime taker_coin
  then get_payment_locktime * 4
  else get_payment_locktime.

Definition lp_atomic_locktime_v2 (maker_coin taker_coin : string)
  (my_conf_settings other_conf_settings : SwapConfirmationsSettings) : Z :=
  if str_contains "-lightning" taker_coin then get_payment_locktime * 12
  else if bool_decide (maker_coin = "BTC"%string) || bool_decide (taker_coin = "BTC"%string)
       || coin_with_4x_locktime maker_coin || coin_with_4x_locktime taker_coin
       || settings_require_notarization my_conf_settings
       || settings_require_notarization other_conf_settings
  then get_payment_locktime * 4
  else get_payment_locktime.

Definition lp_atomic_locktime (maker_coin taker_coin : string) (version : AtomicLocktimeVersion) : Z :=
  match version with
  | V1 => lp_atomic_locktime_v1 maker_coin taker_coin
  | V2 my other => lp_atomic_locktime_v2 maker_coin taker_coin my other
  end.

(** ** Amounts locked by running swaps *)

Record LockedAmount : Type := mkLockedAmount {
  la_coin : string;
  la_amount : MmNumber;
  la_trade_fee : option TradeFee }.

(** What the trait [AtomicSwap] shows of a running swap. *)
Record RunningSwap : Type := mkRunningSwap {
  rs_uuid : Uuid;
  rs_locked_amount : list LockedAmount;
  rs_maker_coin : string;
  rs_taker_coin : string }.

Record LockedAmountInfo : Type := mkLockedAmountInfo {
  lai_swap_uuid : Uuid;
  lai_locked_amount : LockedAmount }.

Record ActiveSwapV2Info : Type := mkActiveSwapV2Info {
  av_maker_coin : string;
  av_taker_coin : string;
  av_swap_type : Z }.

Record SwapsContext : Type := mkSwapsContext {
  running_swaps : gmap Uuid RunningSwap;
  active_swaps_v2_infos : gmap Uuid ActiveSwapV2Info;
  locked_amounts : gmap string (list LockedAmountInfo) }.

Definition map_values {K A} `{Countable K} (m : gmap K A) : list A := (map_to_list m).*2.

Definition fee_locks (coin : string) (f : option TradeFee) : MmNumber :=
  match f with
  | Some trade_fee =>
      if bool_decide (tf_coin trade_fee = coin) && negb (tf_paid_from_trading_vol trade_fee)
      then tf_amount trade_fee
      else 0 # 1
  | None => 0 # 1
  end.

(** The closure folded over the locked amounts of all running swaps. *)
Definition add_locked (coin : string) (total_amount : MmNumber) (locked : LockedAmount) : MmNumber :=
  let total_amount :=
    if bool_decide (la_coin locked = coin) then (total_amount + la_amount locked)%num
    else total_amount in
  (total_amount + fee_locks coin (la_trade_fee locked))%num.

(** The closure folded over [locked_amounts], whose entries are per coin. *)
Definition add_locked_v2 (coin : string) (total_amount : MmNumber) (locked : LockedAmountInfo)
  : MmNumber :=
  let total_amount := (total_amount + la_amount (lai_locked_amount locked))%num in
  (total_amount + fee_locks coin (la_trade_fee (lai_locked_amount locked)))%num.

Definition get_locked_amount (ctx : SwapsContext) (coin : string) : MmNumber :=
  let locked := foldl (add_locked coin) (0 # 1)
                  (map_values (running_swaps ctx) ≫= rs_locked_amount) in
  match locked_amounts ctx !! coin with
  | Some locked_for_coin =>
      (locked + foldl (add_locked_v2 coin) (0 # 1) locked_for_coin)%num
  | None => locked
  end.

Definition get_locked_amount_by_other_swaps (ctx : SwapsContext) (except_uuid : Uuid)
  (coin : string) : MmNumber :=
  foldl (add_locked coin) (0 # 1)
    (filter (fun swap => rs_uuid swap <> except_uuid) (map_values (running_swaps ctx))
       ≫= rs_locked_amount).

Definition clear_running_swaps (ctx : SwapsContext) : SwapsContext :=
  mkSwapsContext empty (active_swaps_v2_infos ctx) (locked_amounts ctx).

Definition active_swaps_using_coins (ctx : SwapsContext) (coins : gset string) : list Uuid :=
  map rs_uuid (filter (fun swap => rs_maker_coin swap ∈ coins \/ rs_taker_coin swap ∈ coins)
                 (map_values (running_swaps ctx))) ++
  map fst (filter (fun p => av_maker_coin p.2 ∈ coins \/ av_taker_coin p.2 ∈ coins)
             (map_to_list (active_swaps_v2_infos ctx))).

Definition LEGACY_SWAP_TYPE : Z := 0.

Definition active_swaps (ctx : SwapsContext) : list (Uuid * Z) :=
  map (fun p => (p.1, LEGACY_SWAP_TYPE)) (map_to_list (running_swaps ctx)) ++
  map (fun p => (p.1, av_swap_type p.2)) (map_to_list (active_swaps_v2_infos ctx)).

(** ** Watcher messages *)

Record TakerSwapWatcherData : Type := mkWatcherData {
  wd_uuid : Uuid;
  wd_secret_hash : bytes;
  wd_maker_payment_spend_preimage : bytes;
  wd_taker_payment_refund_preimage : bytes;
  wd_swap_started_at : Z;
  wd_lock_duration : Z;
  wd_taker_coin : string;
  wd_taker_fee_hash : bytes;
  wd_taker_payment_hash : bytes;
  wd_taker_coin_start_block : Z;
  wd_taker_payment_confirmations : Z;
  wd_taker_payment_requires_nota : option bool;
  wd_maker_coin : string;
  wd_maker_pub : bytes;
  wd_maker_payment_hash : bytes;
  wd_maker_coin_start_block : Z }.

(** ** The calls of a swap handler

    [s] tells the coin an operation is called on.  The argument [E] is the
    event type of the swap (maker or taker). *)

Inductive Call (E : Type) : Type :=
(* clock, environment, context *)
| now_sec
| now_ms
| sleep (secs : Q)
| env_is_set (name : string)
| disable_watchers_globally
| swaps_context
(* network *)
| take_msg (uuid : Uuid) (k : MsgKind)
| broadcast_swap_msg_every (m : SwapMsg) (interval_sec : Q)
| broadcast_swap_message (m : SwapMsg)
| broadcast_tx (s : Side) (t : Tx)
| broadcast_watcher_message (d : TakerSwapWatcherData)
| broadcast_watcher_message_every (d : TakerSwapWatcherData) (interval_sec : Q)
(* coins *)
| get_sender_trade_fee (s : Side) (v : TradePreimageValue) (stage : FeeApproxStage)
| get_receiver_trade_fee (s : Side) (stage : FeeApproxStage)
| get_fee_to_send_taker_fee (s : Side) (fee : DexFee) (stage : FeeApproxStage)
| my_spendable_balance (s : Side)
| platform_coin_balance (s : Side)
| current_block (s : Side)
| maker_payment_instructions (s : Side) (a : PaymentInstructionArgs)
| taker_payment_instructions (s : Side) (a : PaymentInstructionArgs)
| send_taker_fee (fee : DexFee) (uuid : Uuid) (expire_at : Z)
| validate_fee (a : ValidateFeeArgs)
| get_maker_watcher_reward (amount : option BigDecimal) (wait_until : Z)
| get_taker_watcher_reward (coin_amount other_coin_amount reward_amount : option BigDecimal)
    (wait_until : Z)
| check_if_my_payment_sent (s : Side) (a : CheckIfMyPaymentSentArgs)
| send_maker_payment (a : SendPaymentArgs)
| send_taker_payment (a : SendPaymentArgs)
| wait_for_confirmations (s : Side) (a : ConfirmPaymentInput)
| validate_maker_payment (a : ValidatePaymentInput)
| validate_taker_payment (a : ValidatePaymentInput)
| wait_for_htlc_tx_spend (a : WaitForHTLCTxSpendArgs)
| extract_secret (s : Side) (secret_hash spend_tx : bytes)
| send_maker_spends_taker_payment (a : SpendPaymentArgs)
| send_taker_spends_maker_payment (a : SpendPaymentArgs)
| create_watcher_preimages (m t : PreimageArgs)
| on_payment_refund_start (s : Side) (payment : bytes)
| on_payment_refund_success (s : Side) (payment : bytes)
| wait_for_htlc_refund (s : Side) (payment : bytes) (locktime : Z)
| can_refund_htlc (s : Side) (locktime : Z)
| send_maker_refunds_payment (a : RefundPaymentArgs)
| send_taker_refunds_payment (a : RefundPaymentArgs)
| search_for_swap_tx_spend_my (s : Side) (a : SearchForSwapTxSpendInput)
| search_for_swap_tx_spend_other (s : Side) (a : SearchForSwapTxSpendInput)
| taker_validates_payment_spend_or_refund (s : Side) (a : ValidateWatcherSpendInput)
(* bookkeeping of the run loop *)
| dispatch_status (e : E)
| ban_pubkey (k : H256) (e : E)
| stream_status (e : E)
| save_event (timestamp : Z) (e : E)
| save_swap (new_events : list (Z * E))
| mark_swap_as_finished (uuid : Uuid)
| broadcast_my_swap_status (uuid : Uuid).

Definition answer {E} (c : Call E) : Type :=
  match c with
  | now_sec _ | now_ms _ => Z
  | env_is_set _ _ | disable_watchers_globally _ => bool
  | swaps_context _ => SwapsContext
  | take_msg _ _ k => option (msg_type k)
  | sleep _ _ | broadcast_swap_msg_every _ _ _ | broadcast_swap_message _ _
  | broadcast_tx _ _ _ | broadcast_watcher_message _ _
  | broadcast_watcher_message_every _ _ _
  | dispatch_status _ _ | ban_pubkey _ _ _ | stream_status _ _ => unit
  | get_sender_trade_fee _ _ _ _ | get_receiver_trade_fee _ _ _
  | get_fee_to_send_taker_fee _ _ _ _ => result TradePreimageError TradeFee
  | my_spendable_balance _ _ | platform_coin_balance _ _ => result BalanceError BigDecimal
  | current_block _ _ => result string Z
  | maker_payment_instructions _ _ _ | taker_payment_instructions _ _ _ =>
      result string (option bytes)
  | send_taker_fee _ _ _ _ => result TransactionErr Tx
  | validate_fee _ _ => result string unit
  | get_maker_watcher_reward _ _ _ => result string (option WatcherReward)
  | get_taker_watcher_reward _ _ _ _ _ => result string WatcherReward
  | check_if_my_payment_sent _ _ _ => result string (option Tx)
  | send_maker_payment _ _ | send_taker_payment _ _ => result TransactionErr Tx
  | wait_for_confirmations _ _ _ => result string unit
  | validate_maker_payment _ _ | validate_taker_payment _ _ => result string unit
  | wait_for_htlc_tx_spend _ _ => result TransactionErr Tx
  | extract_secret _ _ _ _ => result string bytes
  | send_maker_spends_taker_payment _ _ | send_taker_spends_maker_payment _ _ =>
      result TransactionErr Tx
  | create_watcher_preimages _ _ _ => result TransactionErr (Tx * Tx)
  | on_payment_refund_start _ _ _ | on_payment_refund_success _ _ _ => result string unit
  | wait_for_htlc_refund _ _ _ _ => result string unit
  | can_refund_htlc _ _ _ => result string CanRefundHtlc
  | send_maker_refunds_payment _ _ | send_taker_refunds_payment _ _ => result TransactionErr Tx
  | search_for_swap_tx_spend_my _ _ _ | search_for_swap_tx_spend_other _ _ _ =>
      result string (option FoundSwapTxSpend)
  | taker_validates_payment_spend_or_refund _ _ _ => result string unit
  | save_event _ _ _ | save_swap _ _ => result string unit
  | mark_swap_as_finished _ _ | broadcast_my_swap_status _ _ => result string unit
  end.

Arguments now_sec {E}.
Arguments now_ms {E}.
Arguments sleep {E} _.
Arguments env_is_set {E} _.
Arguments disable_watchers_globally {E}.
Arguments swaps_context {E}.
Arguments take_msg {E} _ _.
Arguments broadcast_swap_msg_every {E} _ _.
Arguments broadcast_swap_message {E} _.
Arguments broadcast_tx {E} _ _.
Arguments broadcast_watcher_message {E} _.
Arguments broadcast_watcher_message_every {E} _ _.
Arguments get_sender_trade_fee {E} _ _ _.
Arguments get_receiver_trade_fee {E} _ _.
Arguments get_fee_to_send_taker_fee {E} _ _ _.
Arguments my_spendable_balance {E} _.
Arguments platform_coin_balance {E} _.
Arguments current_block {E} _.
Arguments maker_payment_instructions {E} _ _.
Arguments taker_payment_instructions {E} _ _.
Arguments send_taker_fee {E} _ _ _.
Arguments validate_fee {E} _.
Arguments get_maker_watcher_reward {E} _ _.
Arguments get_taker_watcher_reward {E} _ _ _ _.
Arguments check_if_my_payment_sent {E} _ _.
Arguments send_maker_payment {E} _.
Arguments send_taker_payment {E} _.
Arguments wait_for_confirmations {E} _ _.
Arguments validate_maker_payment {E} _.
Arguments validate_taker_payment {E} _.
Arguments wait_for_htlc_tx_spend {E} _.
Arguments extract_secret {E} _ _ _.
Arguments send_maker_spends_taker_payment {E} _.
Arguments send_taker_spends_maker_payment {E} _.
Arguments create_watcher_preimages {E} _ _.
Arguments on_payment_refund_start {E} _ _.
Arguments on_payment_refund_success {E} _ _.
Arguments wait_for_htlc_refund {E} _ _ _.
Arguments can_refund_htlc {E} _ _.
Arguments send_maker_refunds_payment {E} _.
Arguments send_taker_refunds_payment {E} _.
Arguments search_for_swap_tx_spend_my {E} _ _.
Arguments search_for_swap_tx_spend_other {E} _ _.
Arguments taker_validates_payment_spend_or_refund {E} _ _.
Arguments dispatch_status {E} _.
Arguments ban_pubkey {E} _ _.
Arguments stream_status {E} _.
Arguments save_event {E} _ _.
Arguments save_swap {E} _.
Arguments mark_swap_as_finished {E} _.
Arguments broadcast_my_swap_status {E} _.

Section Common.
  Context {E : Type}.
  Notation M := (prog (@answer E)).
  Local Open Scope prog_scope.

Definition broadcast_p2p_tx_msg (s : Side) (t : Tx) : M unit :=
  if supports_tx_helper t then call (broadcast_tx s t) else Ret tt.

(** The broadcast of a transaction that came with an error. *)
Definition broadcast_recovered_tx (s : Side) (e : TransactionErr) : M unit :=
  match get_tx e with
  | Some t => broadcast_p2p_tx_msg s t
  | None => Ret tt
  end.

Fixpoint recv_loop (fuel : nat) (uuid : Uuid) (k : MsgKind) (started timeout wait_until : Z)
  : M (result SwapError (msg_type k)) :=
  match fuel with
  | O => OutOfFuel
  | S fuel =>
      do call (sleep (1 # 1));
      m <- call (take_msg uuid k);
      match m with
      | Some msg => Ret (Ok msg)
      | None =>
          now <- call now_sec;
          if now >? wait_until
          then Ret (Err (err "Timeout ({} > {})" [ArgNum (wrap 64 (now - started)); ArgNum timeout]))
          else recv_loop fuel uuid k started timeout wait_until
      end
  end.

Definition recv_swap_msg (fuel : nat) (uuid : Uuid) (k : MsgKind) (timeout : Z)
  : M (result SwapError (msg_type k)) :=
  started <- call now_sec;
  let timeout := wrap 64 (BASIC_COMM_TIMEOUT + timeout) in
  let wait_until := wrap 64 (started + timeout) in
  recv_loop fuel uuid k started timeout wait_until.

(** The loop that waits until an HTLC can be refunded. *)
Fixpoint wait_can_refund (fuel : nat) (s : Side) (locktime : Z) : M unit :=
  match fuel with
  | O => OutOfFuel
  | S fuel =>
      r <- call (can_refund_htlc s locktime);
      match r with
      | Ok CanRefundNow => Ret tt
      | Ok (HaveToWait to_sleep) =>
          do call (sleep (inject_Z to_sleep)); wait_can_refund fuel s locktime
      | Err _ => do call (sleep (30 # 1)); wait_can_refund fuel s locktime
      end
  end.

(** *** Balance checks (check_balance.rs) *)

Context `{DecimalConv}.

Definition read_locked (swap_uuid : option Uuid) (coin : string) : M MmNumber :=
  ctx <- call swaps_context;
  Ret (match swap_uuid with
       | Some u => get_locked_amount_by_other_swaps ctx u coin
       | None => get_locked_amount ctx coin
       end).

Definition check_platform_coin_balance_for_swap (balance : MmNumber) (trade_fee : TradeFee)
  (swap_uuid : option Uuid) : M (result CheckBalanceError unit) :=
  let required := tf_amount trade_fee in
  locked <- read_locked swap_uuid (tf_coin trade_fee);
  let available := (balance - locked)%num in
  Ret (if (available <? required)%num
       then Err (NotSufficientBaseCoinBalance (tf_coin trade_fee) (to_decimal available)
                   (to_decimal required) (Some (to_decimal locked)))
       else Ok tt).

Record TakerFeeAdditionalInfo : Type := mkTakerFeeInfo {
  tfi_dex_fee : MmNumber;
  tfi_fee_to_send_dex_fee : TradeFee }.

Definition check_my_coin_balance_for_swap (s : Side) (coin : string) (swap_uuid : option Uuid)
  (volume : MmNumber) (trade_fee : TradeFee) (taker_fee : option TakerFeeAdditionalInfo)
  : M (result CheckBalanceError BigDecimal) :=
  b <- call (my_spendable_balance s);
  match b with
  | Err e => Ret (Err (check_balance_from_balance_err e))
  | Ok balance =>
      locked <- read_locked swap_uuid coin;
      let fees :=
        match taker_fee with
        | Some i =>
            if bool_decide (tf_coin (tfi_fee_to_send_dex_fee i) = tf_coin trade_fee)
            then Ok (tfi_dex_fee i,
                     mkTradeFee (tf_coin trade_fee)
                       (tf_amount trade_fee + tf_amount (tfi_fee_to_send_dex_fee i))%num
                       (tf_paid_from_trading_vol trade_fee))
            else Err (InternalError
              "trade_fee {:?} and fee_to_send_dex_fee {:?} coins are expected to be the same")
        | None => Ok (0 # 1, trade_fee)
        end in
      match fees with
      | Err e => Ret (Err e)
      | Ok (dex_fee, trade_fee) =>
          total_trade_fee <-
            (if bool_decide (coin = tf_coin trade_fee) then Ret (Ok (tf_amount trade_fee))
             else
               p <- call (platform_coin_balance s);
               match p with
               | Err e => Ret (Err (check_balance_from_balance_err e))
               | Ok platform_balance =>
                   r <- check_platform_coin_balance_for_swap platform_balance trade_fee swap_uuid;
                   Ret (result_map (fun _ => 0 # 1) r)
               end);
          match total_trade_fee with
          | Err e => Ret (Err e)
          | Ok total_trade_fee =>
              let required := (volume + total_trade_fee + dex_fee)%num in
              let available := (balance - locked)%num in
              Ret (if (available <? required)%num
                   then Err (NotSufficientBalance coin (to_decimal available)
                               (to_decimal required) (Some (to_decimal locked)))
                   else Ok balance)
          end
      end
  end.

Definition check_other_coin_balance_for_swap (s : Side) (coin : string) (swap_uuid : option Uuid)
  (trade_fee : TradeFee) : M (result CheckBalanceError unit) :=
  if tf_paid_from_trading_vol trade_fee then Ret (Ok tt)
  else
    b <- call (my_spendable_balance s);
    match b with
    | Err e => Ret (Err (check_balance_from_balance_err e))
    | Ok balance =>
        locked <- read_locked swap_uuid coin;
        if bool_decide (coin = tf_coin trade_fee)
        then
          let available := (balance - locked)%num in
          let required := tf_amount trade_fee in
          Ret (if (available <? required)%num
               then Err (NotSufficientBalance coin (to_decimal available)
                           (to_decimal required) (Some (to_decimal locked)))
               else Ok tt)
        else
          p <- call (platform_coin_balance s);
          match p with
          | Err e => Ret (Err (check_balance_from_balance_err e))
          | Ok platform_balance =>
              check_platform_coin_balance_for_swap platform_balance trade_fee swap_uuid
          end
    end.

End Common.

(** ** Facts about the shared programs *)

Section Facts.
  Context {E : Type}.

(** The calls of the polling loops. *)
Definition polling (c : Call E) : Prop :=
  match c with
  | now_sec | sleep _ | take_msg _ _ | can_refund_htlc _ _ => True
  | _ => False
  end.

(** The calls that ask for balances. *)
Definition balance_query (c : Call E) : Prop :=
  match c with
  | swaps_context | my_spendable_balance _ | platform_coin_balance _ => True
  | _ => False
  end.

Definition tx_helper_call (c : Call E) : Prop :=
  match c with broadcast_tx _ _ => True | _ => False end.

Lemma recv_loop_only fuel uuid k a b c : only polling (recv_loop (E:=E) fuel uuid k a b c).
Proof.
  induction fuel as [|fuel IH]; [done|]. simpl. split; [done|]. intros _. split; [done|].
  intros [m|]; [done|]. simpl. split; [done|]. intros now. by case_match.
Qed.

Lemma recv_swap_msg_only fuel uuid k t : only polling (recv_swap_msg (E:=E) fuel uuid k t).
Proof. simpl. split; [done|]. intros. apply recv_loop_only. Qed.

Lemma recv_loop_no_panic ok fuel uuid k a b c :
  no_panic ok (recv_loop (E:=E) fuel uuid k a b c).
Proof.
  induction fuel as [|fuel IH]; [done|]. simpl. intros _ _ [m|] _; [done|].
  simpl. intros now _. by case_match.
Qed.

Lemma recv_swap_msg_no_panic ok fuel uuid k t :
  no_panic ok (recv_swap_msg (E:=E) fuel uuid k t).
Proof. simpl. intros. apply recv_loop_no_panic. Qed.

Lemma recv_loop_ok fuel uuid k a b c tr m :
  runs (recv_loop (E:=E) fuel uuid k a b c) tr (Ok m) ->
  asked (take_msg uuid k) (Some m) ∈ tr.
Proof.
  revert tr; induction fuel as [|fuel IH]; intros tr; [done|]. simpl.
  intros (x & tr1 & -> & y & tr2 & -> & H). right. destruct y as [m'|].
  - destruct H as [-> [= ->]]. left.
  - right. simpl in H. destruct H as (now & tr3 & -> & H). right.
    case_match; [destruct H; done|by apply IH].
Qed.

Lemma recv_swap_msg_ok fuel uuid k t tr m :
  runs (recv_swap_msg (E:=E) fuel uuid k t) tr (Ok m) ->
  asked (take_msg uuid k) (Some m) ∈ tr.
Proof. simpl. intros (x & tr' & -> & H). right. by eapply recv_loop_ok. Qed.

Lemma wait_can_refund_only fuel s l : only polling (wait_can_refund (E:=E) fuel s l).
Proof.
  induction fuel as [|fuel IH]; [done|]. simpl. split; [done|].
  intros [[|n]|e]; simpl; auto.
Qed.

Lemma wait_can_refund_no_panic ok fuel s l : no_panic ok (wait_can_refund (E:=E) fuel s l).
Proof.
  induction fuel as [|fuel IH]; [done|]. simpl. intros [[|n]|e] _; simpl; auto.
Qed.

Lemma wait_can_refund_ok fuel s l tr u :
  runs (wait_can_refund (E:=E) fuel s l) tr u ->
  asked (can_refund_htlc s l) (Ok CanRefundNow) ∈ tr.
Proof.
  revert tr; induction fuel as [|fuel IH]; intros tr; [done|]. simpl.
  intros ([[|n]|e] & tr' & -> & H).
  - left.
  - destruct H as (y & tr2 & -> & H). right; right. by apply IH.
  - destruct H as (y & tr2 & -> & H). right; right. by apply IH.
Qed.

(** A refund becomes possible at the [n]th query: [n] rounds are enough. *)
Lemma wait_can_refund_finishes s l (answers : nat -> result string CanRefundHtlc) n :
  answers n = Ok CanRefundNow ->
  exists tr, runs (wait_can_refund (E:=E) (S n) s l) tr tt.
Proof.
  revert answers; induction n as [|n IH]; intros answers Hn.
  - eexists. simpl. exists (Ok CanRefundNow), []. done.
  - destruct (IH (fun i => answers (S i))) as (tr & Htr); [done|].
    destruct (answers 0%nat) as [[|w]|e] eqn:H0.
    + eexists. cbn [wait_can_refund]. simpl. exists (Ok CanRefundNow), []. done.
    + eexists. cbn [wait_can_refund]. simpl. exists (Ok (HaveToWait w)). eexists. split; [done|].
      exists tt. eexists. split; [done|]. exact Htr.
    + eexists. cbn [wait_can_refund]. simpl. exists (Err e). eexists. split; [done|].
      exists tt. eexists. split; [done|]. exact Htr.
Qed.

Lemma broadcast_p2p_only s t : only tx_helper_call (broadcast_p2p_tx_msg (E:=E) s t).
Proof. unfold broadcast_p2p_tx_msg. by case_match. Qed.

Lemma broadcast_recovered_only s e : only tx_helper_call (broadcast_recovered_tx (E:=E) s e).
Proof. unfold broadcast_recovered_tx. case_match; [apply broadcast_p2p_only|done]. Qed.

Lemma read_locked_only u c : only balance_query (read_locked (E:=E) u c).
Proof. done. Qed.

Context `{DecimalConv}.

Lemma check_platform_only b f u :
  only balance_query (check_platform_coin_balance_for_swap (E:=E) b f u).
Proof. done. Qed.

Lemma check_my_coin_only s c u v f i :
  only balance_query (check_my_coin_balance_for_swap (E:=E) s c u v f i).
Proof.
  simpl. split; [done|]. intros [b|e]; [|done]. simpl. split; [done|]. intros ctx.
  destruct (match i with Some _ => _ | None => _ end) as [[dex tf]|e]; [|done].
  simpl. case_match; [done|]. simpl. split; [done|]. intros [p|e]; [|done].
  simpl. split; [done|]. intros ctx'. by case_match.
Qed.

Lemma check_other_coin_only s c u f :
  only balance_query (check_other_coin_balance_for_swap (E:=E) s c u f).
Proof.
  unfold check_other_coin_balance_for_swap. case_match; [done|]. simpl. split; [done|].
  intros [b|e]; [|done]. simpl. split; [done|]. intros ctx.
  case_match; [done|]. simpl. split; [done|]. by intros [p|e].
Qed.

End Facts.

(** ** Saved events of a trace *)

Section Saved.
  Context {E : Type}.
  Notation Obs := (Obs (@answer E)).

(** The events a call writes to the database, in one write. *)
Definition writes (c : Call E) : list E :=
  match c with
  | save_event _ e => [e]
  | save_swap es => es.*2
  | _ => []
  end.

Definition not_save (c : Call E) : Prop := writes c = [].

(** The answer says that the database has the events. *)
Definition write_ok (c : Call E) : option (answer c) -> bool :=
  match c return option (answer c) -> bool with
  | save_event _ _ | save_swap _ => fun x => match x with Some (Ok _) => true | _ => false end
  | _ => fun _ => false
  end.

(** The events an observation saved for certain, and the events it may have
    saved: the process stopped, or the database failed, during the call. *)
Definition saved_obs (o : Obs) : list E :=
  let '(existT c x) := o in if write_ok c x then writes c else [].

Definition maybe_saved_obs (o : Obs) : list E :=
  let '(existT c x) := o in if write_ok c x then [] else writes c.

Definition saved_of (tr : list Obs) : list E := tr ≫= saved_obs.

(** The events of a session that are in the database afterwards. *)
Definition persisted (tr : list Obs) (evs : list E) : Prop :=
  evs = saved_of tr \/
  exists o, last tr = Some o /\ evs = saved_of tr ++ maybe_saved_obs o.

(** The node tried to save the event. *)
Definition attempted (e : E) (tr : list Obs) : Prop :=
  exists c x, existT c x ∈ tr /\ e ∈ writes c.

Definition save_ok (c : Call E) : answer c -> Prop :=
  match c return answer c -> Prop with
  | save_event _ _ | save_swap _ => fun x => is_ok x = true
  | _ => fun _ => True
  end.

Lemma saved_of_app t1 t2 : saved_of (t1 ++ t2) = saved_of t1 ++ saved_of t2.
Proof. apply bind_app. Qed.

Lemma not_save_saved_of (tr : list Obs) :
  Forall (fun o => not_save (obs_call o)) tr -> saved_of tr = [].
Proof.
  induction 1 as [|[c x] tr Hc _ IH]; [done|]. unfold saved_of in *. cbn [mbind list_bind].
  unfold not_save in Hc. simpl in *. rewrite IH, Hc. by case_match.
Qed.

Lemma not_save_maybe (o : Obs) : not_save (obs_call o) -> maybe_saved_obs o = [].
Proof. destruct o as [c x]. unfold not_save. simpl. intros ->. by case_match. Qed.

Lemma not_save_last (tr : list Obs) o :
  Forall (fun o => not_save (obs_call o)) tr -> last tr = Some o -> maybe_saved_obs o = [].
Proof.
  intros Htr Hl%last_Some_elem_of. rewrite Forall_forall in Htr. by apply not_save_maybe, Htr.
Qed.

Lemma persisted_not_save (tr : list Obs) evs :
  Forall (fun o => not_save (obs_call o)) tr -> persisted tr evs -> evs = [].
Proof.
  intros Htr [->|(o & Hl & ->)]; rewrite not_save_saved_of by done; [done|].
  by eapply not_save_last.
Qed.

Lemma persisted_app t1 t2 evs :
  Forall (fun o => not_save (obs_call o)) t1 -> persisted (t1 ++ t2) evs -> persisted t2 evs.
Proof.
  intros H1 [->|(o & Hl & ->)].
  - left. by rewrite saved_of_app, not_save_saved_of.
  - rewrite saved_of_app, (not_save_saved_of t1) by done. rewrite last_app in Hl.
    destruct (last t2) eqn:E2; [right; by simplify_eq; exists o|].
    left. rewrite (not_save_last t1 o) by done. by rewrite app_nil_r.
Qed.

Lemma persisted_nil (evs : list E) : persisted [] evs -> evs = [].
Proof. intros [->|(o & Hl & _)]; done. Qed.

Lemma persisted_write (o : Obs) (tr : list Obs) evs :
  persisted (o :: tr) evs -> write_ok (projT1 o) (projT2 o) = true ->
  exists evs', evs = writes (obs_call o) ++ evs' /\ persisted tr evs'.
Proof.
  intros Hp Hw. assert (saved_obs o = writes (obs_call o)) as Ho.
  { destruct o as [c x]. unfold saved_obs. simpl in *. by rewrite Hw. }
  destruct Hp as [->|(o' & Hl & ->)]; unfold saved_of; cbn [mbind list_bind];
    rewrite Ho, <- ?app_assoc.
  - eexists; split; [done|by left].
  - eexists; split; [done|]. destruct tr as [|o1 tr].
    + left. simpl in Hl. injection Hl as <-. destruct o as [c x]. simpl in *. by rewrite Hw.
    + right. exists o'. by rewrite last_cons_cons in Hl.
Qed.

Lemma persisted_one (o : Obs) evs :
  persisted [o] evs -> evs = [] \/ evs = writes (obs_call o).
Proof.
  destruct o as [c x]. intros [->|(o' & [= <-] & ->)]; unfold saved_of; simpl;
    rewrite app_nil_r; case_match; simpl; rewrite ?app_nil_r; auto.
Qed.

Lemma persisted_cons_ok ts e u (tr : list Obs) evs :
  persisted (asked (save_event ts e) (Ok u) :: tr) evs ->
  exists evs', evs = e :: evs' /\ persisted tr evs'.
Proof. intros Hp. by apply persisted_write in Hp. Qed.

Lemma attempted_app e (t1 t2 : list Obs) :
  attempted e (t1 ++ t2) <-> attempted e t1 \/ attempted e t2.
Proof. unfold attempted. setoid_rewrite elem_of_app. naive_solver. Qed.

Lemma attempted_mono e (h h' : list Obs) : h ⊆ h' -> attempted e h -> attempted e h'.
Proof. intros Hs (c & x & ? & ?). exists c, x. auto. Qed.

Lemma attempted_save ts e x (tr : list Obs) :
  existT (save_event ts e) x ∈ tr -> attempted e tr.
Proof. intros Hin. exists (save_event ts e), x. split; [done|left]. Qed.

Lemma saved_of_attempted e (tr : list Obs) : e ∈ saved_of tr -> attempted e tr.
Proof.
  intros ([c x] & He & Hin)%list_elem_of_bind. unfold saved_obs in He.
  case_match; [by exists c, x|by apply elem_of_nil in He].
Qed.

(** All writes of [tr] succeeded. *)
Definition writes_ok (tr : list Obs) : Prop :=
  Forall (fun o => not_save (obs_call o) \/ write_ok (projT1 o) (projT2 o) = true) tr.

Lemma persisted_writes_ok (tr t : list Obs) evs :
  writes_ok tr -> persisted (tr ++ t) evs ->
  exists evs', evs = saved_of tr ++ evs' /\ persisted t evs'.
Proof.
  intros Hok. revert evs; induction Hok as [|o tr Ho _ IH]; intros evs Hp; [by exists evs|].
  destruct Ho as [Hn|Hw].
  - apply (persisted_app [o]) in Hp; [|by repeat constructor].
    change (saved_of (o :: tr)) with (saved_of ([o] ++ tr)).
    rewrite saved_of_app, (not_save_saved_of [o]) by by repeat constructor. by apply IH.
  - apply persisted_write in Hp as (e1 & -> & Hp); [|done].
    apply IH in Hp as (e2 & -> & Hp). exists e2. split; [|done].
    unfold saved_of. cbn [mbind list_bind]. destruct o as [c x]. simpl in *. rewrite Hw.
    by rewrite app_assoc.
Qed.

End Saved.
