(* ===== verification/Demo.v ===== *)
(** * A concrete environment

    The parameters of the swap model instantiated by simple functions, for
    the theorems that exhibit a run: a hash that pads, a coin that accepts
    everything, and [happy], the answers of an environment in which nothing
    goes wrong and the clock shows [now]. *)

From S2P Require Import Prelude MmNumber DexFee Effects Swap.

Open Scope Z_scope.

Lemma pad_length n b : length (take n (b ++ replicate n 0)) = n.
Proof. rewrite length_take, length_app, length_replicate. lia. Qed.

Definition demo_hasher : SecretHasher := {|
  sha256 := fun b => take 32 (b ++ replicate 32 0);
  dhash160 := fun b => take 20 (b ++ replicate 20 0);
  sha256_length := pad_length 32;
  dhash160_length := pad_length 20 |}.

Definition demo_coin (name : string) : Coin := {|
  coin_variant := UtxoCoinVariant;
  fee_coin := mkFeeCoin name (1 # 100000) false [2] false false;
  swap_contract_address := None;
  fallback_swap_contract := None;
  maker_locktime_multiplier := 2;
  is_auto_refundable := false;
  requires_notarization := false;
  is_supported_by_watchers := false;
  is_eth := false;
  derive_htlc_pubkey := fun _ => replicate 33 7;
  negotiate_swap_contract_addr := fun _ => Ok None;
  validate_other_pubkey := fun _ => Ok tt;
  tx_enum_from_bytes := fun b => Ok (mkTx b (take 4 b) false);
  validate_maker_payment_instructions := fun _ _ => Err "no instructions"%string;
  validate_taker_payment_instructions := fun _ _ => Err "no instructions"%string |}.

Definition demo_conf : SwapConfirmationsSettings := mkConfSettings 1 false 1 false.

Definition demo_fee : TradeFee := mkTradeFee "KMD" (1 # 1000) false.

Definition demo_negotiation (started lock : Z) : NegotiationDataMsg :=
  NegV2 (mkV2 started lock (replicate 20 5) (replicate 33 3) [] []).

Section Happy.
  Context {E : Type}.

Definition demo_msg (taker_lock : Z) (now : Z) (k : MsgKind) : msg_type k :=
  match k with
  | KNegotiation => demo_negotiation now (now + 2 * taker_lock)
  | KNegotiationReply => demo_negotiation now (now + taker_lock)
  | KNegotiated => true
  | KTakerFee => Regular [1; 2; 3; 4; 5]
  | KMakerPayment => Regular [6; 7; 8; 9; 10]
  | KTakerPayment => [11; 12; 13; 14; 15]
  end.

Definition demo_tx (n : Z) : Tx := mkTx [n; n; n] [n] false.

Definition happy (now : Z) (c : Call E) : answer c :=
  match c return answer c with
  | now_sec => now
  | now_ms => now * 1000
  | env_is_set _ => false
  | disable_watchers_globally => true
  | swaps_context => mkSwapsContext empty empty empty
  | take_msg _ k => Some (demo_msg 7800 now k)
  | get_sender_trade_fee _ _ _ => Ok demo_fee
  | get_receiver_trade_fee _ _ => Ok demo_fee
  | get_fee_to_send_taker_fee _ _ _ => Ok demo_fee
  | my_spendable_balance _ => Ok (1000 # 1)%Q
  | platform_coin_balance _ => Ok (1000 # 1)%Q
  | current_block _ => Ok 100
  | maker_payment_instructions _ _ => Ok None
  | taker_payment_instructions _ _ => Ok None
  | send_taker_fee _ _ _ => Ok (demo_tx 1)
  | validate_fee _ => Ok tt
  | get_maker_watcher_reward _ _ => Ok None
  | get_taker_watcher_reward _ _ _ _ => Err "no reward"%string
  | check_if_my_payment_sent _ _ => Ok None
  | send_maker_payment _ => Ok (demo_tx 2)
  | send_taker_payment _ => Ok (demo_tx 3)
  | wait_for_confirmations _ _ => Ok tt
  | validate_maker_payment _ => Ok tt
  | validate_taker_payment _ => Ok tt
  | wait_for_htlc_tx_spend _ => Ok (demo_tx 4)
  | extract_secret _ _ _ => Ok (replicate 32 9)
  | send_maker_spends_taker_payment _ => Ok (demo_tx 5)
  | send_taker_spends_maker_payment _ => Ok (demo_tx 6)
  | create_watcher_preimages _ _ => Ok (demo_tx 7, demo_tx 8)
  | on_payment_refund_start _ _ => Ok tt
  | on_payment_refund_success _ _ => Ok tt
  | wait_for_htlc_refund _ _ _ => Ok tt
  | can_refund_htlc _ _ => Ok CanRefundNow
  | send_maker_refunds_payment _ => Ok (demo_tx 9)
  | send_taker_refunds_payment _ => Ok (demo_tx 10)
  | search_for_swap_tx_spend_my _ _ => Ok None
  | search_for_swap_tx_spend_other _ _ => Ok None
  | taker_validates_payment_spend_or_refund _ _ => Ok tt
  | save_event _ _ | save_swap _ => Ok tt
  | mark_swap_as_finished _ => Ok tt
  | broadcast_my_swap_status _ => Ok tt
  | sleep _ | broadcast_swap_msg_every _ _ | broadcast_swap_message _
  | broadcast_tx _ _ | broadcast_watcher_message _ | broadcast_watcher_message_every _ _
  | dispatch_status _ | ban_pubkey _ _ | stream_status _ => tt
  end.

End Happy.
