(* ===== verification/SwapEnv.v ===== *)
(** * Environments of a swap

    What both sides of a swap need of the programs over [Call]: tactics that
    walk through a handler, and [fair] environments, in which the clock
    advances at least as fast as the loops sleep, the database saves, and a
    refund becomes possible after finitely many queries. *)

From S2P Require Import Prelude MmNumber DexFee Effects Swap.

Open Scope Z_scope.

(** ** Walking through a handler *)

Section Walk.
  Context {E : Type}.
  Notation M := (prog (@answer E)).

Lemma unwrap_only {A} P (o : option A) : only P (unwrap o : M A).
Proof. by destruct o. Qed.

Lemma unwrap_runs {A} (o : option A) tr a :
  runs (unwrap o : M A) tr a -> o = Some a /\ tr = [].
Proof. destruct o; simpl; [by intros [-> ->]|done]. Qed.

(** The calls of the shared programs: polling, balances, the tx helper. *)
Definition shared_call (c : Call E) : Prop := polling c \/ balance_query c \/ tx_helper_call c.

Lemma shared_recv fuel u k t : only shared_call (recv_swap_msg (E:=E) fuel u k t).
Proof. eapply only_weaken; [|apply recv_swap_msg_only]. by left. Qed.
Lemma shared_refund fuel s l : only shared_call (wait_can_refund (E:=E) fuel s l).
Proof. eapply only_weaken; [|apply wait_can_refund_only]. by left. Qed.
Lemma shared_broadcast s t : only shared_call (broadcast_p2p_tx_msg (E:=E) s t).
Proof. eapply only_weaken; [|apply broadcast_p2p_only]. by right; right. Qed.
Lemma shared_recovered s e : only shared_call (broadcast_recovered_tx (E:=E) s e).
Proof. eapply only_weaken; [|apply broadcast_recovered_only]. by right; right. Qed.

(** No payment has been sent in [h]. *)
Definition is_payment (c : Call E) : Prop :=
  match c with send_maker_payment _ | send_taker_payment _ => True | _ => False end.

(** The last look for an earlier payment found none, for the same HTLC, and
    no payment has been sent since. *)
Definition checked_unsent (s : Side) (h : list (Obs (@answer E))) (a : SendPaymentArgs) : Prop :=
  exists h1 c h2, h = h1 ++ asked (check_if_my_payment_sent s c) (Ok None) :: h2 /\
    cs_time_lock c = sp_time_lock a /\ cs_other_pub c = sp_other_pubkey a /\
    cs_secret_hash c = sp_secret_hash a /\ cs_amount c = sp_amount a /\
    Forall (fun o => ~ is_payment (obs_call o)) h2.

End Walk.

(** Walks through a program of which every call satisfies the property by
    computation; other programs are left as goals. *)
Ltac walk_only :=
  repeat lazymatch goal with
  | |- only _ (Ret _) => exact I
  | |- only _ Panic => exact I
  | |- only _ (call _) => split; [done|by intros]
  | |- only _ (prog_bind (call ?c) _) => apply only_bind; [split; [done|by intros]|intros ?]
  | |- only _ (recv_swap_msg _ _ _ _) =>
      eapply only_weaken; [|apply shared_recv]; by intros [] [|[|]]
  | |- only _ (wait_can_refund _ _ _) =>
      eapply only_weaken; [|apply shared_refund]; by intros [] [|[|]]
  | |- only _ (broadcast_p2p_tx_msg _ _) =>
      eapply only_weaken; [|apply shared_broadcast]; by intros [] [|[|]]
  | |- only _ (broadcast_recovered_tx _ _) =>
      eapply only_weaken; [|apply shared_recovered]; by intros [] [|[|]]
  | |- only _ (unwrap _) => apply unwrap_only
  | |- only _ (prog_bind _ _) => apply only_bind; [|intros ?]
  | |- only _ (match ?x with _ => _ end) => destruct x
  end.

(** ** Fair environments *)

(** The least value the clock can show next: the last value shown plus the
    seconds slept since. *)
Definition clock_step {E} (t : Z) (o : Obs (@answer E)) : Z :=
  match o with
  | existT c x =>
      match c return option (answer c) -> Z with
      | now_sec => fun x => default t x
      | sleep q => fun _ => t + Qfloor q
      | _ => fun _ => t
      end x
  end.

Definition clock_floor {E} (h : list (Obs (@answer E))) : Z := foldl clock_step 0 h.

Definition asks_refund {E} (o : Obs (@answer E)) : bool :=
  match obs_call o with can_refund_htlc _ _ => true | _ => false end.

Definition refund_asks {E} (h : list (Obs (@answer E))) : nat := length (List.filter asks_refund h).

Lemma clock_floor_snoc {E} (h : list (Obs (@answer E))) o : clock_floor (h ++ [o]) = clock_step (clock_floor h) o.
Proof. unfold clock_floor. by rewrite foldl_app. Qed.

Lemma refund_asks_snoc {E} (h : list (Obs (@answer E))) o :
  refund_asks (h ++ [o]) = (refund_asks h + if asks_refund o then 1 else 0)%nat.
Proof.
  unfold refund_asks. rewrite List.filter_app, length_app. simpl. by destruct (asks_refund o).
Qed.

Section Fair.
  Context {E : Type}.
  Variable fuel : nat.
  (** A bound on the lock duration, and the number of queries after which the
      coin allows the refund. *)
  Variable L : Z.
  Variable N : nat.

Definition fair (h : list (Obs (@answer E))) (c : Call E) : answer c -> Prop :=
  match c return answer c -> Prop with
  | now_sec => fun x => Z.max 0 (clock_floor h) <= x < 2 ^ 62
  | can_refund_htlc _ _ => fun x => (N <= refund_asks h)%nat -> x = Ok CanRefundNow
  | save_event _ _ | save_swap _ => fun x => is_ok x = true
  | _ => fun _ => True
  end.

(** One round of the message loop takes a second. *)
Definition enough_fuel : Prop := 0 <= L < 2 ^ 61 /\ L + 700 < Z.of_nat fuel /\ (N < fuel)%nat.

Lemma recv_loop_returns n h u k started timeout wait_until :
  wait_until - clock_floor h < Z.of_nat n -> (0 < n)%nat ->
  returns fair h (recv_loop (E:=E) n u k started timeout wait_until).
Proof.
  revert h; induction n as [|n IH]; intros h Hn Hp; [lia|].
  cbn [recv_loop]. intros [] _ m _. cbn [prog_bind]. destruct m as [m|]; [done|].
  intros now Hnow. cbn [prog_bind]. cbn [fair] in Hnow. rewrite !clock_floor_snoc in Hnow.
  cbn in Hnow. destruct (now >? wait_until) eqn:Hw; [done|].
  change (1 / 1) with 1 in Hnow. apply IH; [rewrite !clock_floor_snoc; cbn|]; lia.
Qed.

Lemma recv_swap_msg_returns h u k timeout :
  0 <= timeout -> timeout + 91 < Z.of_nat fuel -> timeout < 2 ^ 61 ->
  returns fair h (recv_swap_msg (E:=E) fuel u k timeout).
Proof.
  intros Ht Hf Hb started Hs. cbn [prog_bind]. cbn in Hs.
  apply recv_loop_returns; [|lia]. rewrite clock_floor_snoc. cbn.
  unfold BASIC_COMM_TIMEOUT. rewrite (wrap_id _ (90 + timeout)) by (unfold is_uint; lia).
  rewrite wrap_id by (unfold is_uint; lia). lia.
Qed.

Lemma wait_can_refund_returns n h s l :
  (N - refund_asks h < n)%nat -> returns fair h (wait_can_refund (E:=E) n s l).
Proof.
  revert h; induction n as [|n IH]; intros h Hn; [lia|].
  cbn [wait_can_refund]. intros r Hr. cbn [prog_bind]. cbn [fair] in Hr.
  destruct r as [[|w]|e]; [done|..]; intros [] _; apply IH;
    rewrite !refund_asks_snoc; cbn;
    (destruct (decide (N <= refund_asks h)%nat) as [Hle|Hle]; [by specialize (Hr Hle)|lia]).
Qed.

Lemma returns_call {B} h (c : Call E) (f : answer c -> prog answer B) :
  (forall x, fair h c x -> returns fair (h ++ [asked c x]) (f x)) ->
  returns fair h (prog_bind (call c) f).
Proof. done. Qed.

Lemma broadcast_p2p_returns h s t : returns fair h (broadcast_p2p_tx_msg (E:=E) s t).
Proof. unfold broadcast_p2p_tx_msg. by case_match. Qed.

Lemma broadcast_recovered_returns h s e : returns fair h (broadcast_recovered_tx (E:=E) s e).
Proof. unfold broadcast_recovered_tx. case_match; [apply broadcast_p2p_returns|done]. Qed.

Lemma wait_duration_bound d :
  0 <= d <= L -> enough_fuel -> 0 <= wrap 64 (d * 3) / 5 <= L.
Proof.
  intros Hd (HL & _). rewrite wrap_id by (unfold is_uint; lia).
  split; [apply Z.div_pos; lia|]. apply Z.div_le_upper_bound; lia.
Qed.

End Fair.

(** Walks through a program; [tac] discharges the side conditions of loops. *)
Ltac walk_returns tac :=
  repeat lazymatch goal with
  | |- returns _ _ (Ret _) => exact I
  | |- returns _ _ (call _) => intros ? ?; exact I
  | |- returns _ _ (prog_bind (Ret _) _) => cbn [prog_bind]
  | |- returns _ _ (prog_bind (call _) _) => apply returns_call; intros ? ?
  | |- returns _ _ (recv_swap_msg _ _ _ _) => apply recv_swap_msg_returns; tac
  | |- returns _ _ (broadcast_p2p_tx_msg _ _) => apply broadcast_p2p_returns
  | |- returns _ _ (broadcast_recovered_tx _ _) => apply broadcast_recovered_returns
  | |- returns _ _ (wait_can_refund _ _ _) => apply wait_can_refund_returns; tac
  | |- returns _ _ (prog_bind _ _) => apply returns_bind; [|intros ? ? ? ?]
  | |- returns _ _ (match ?x with _ => _ end) => destruct x
  end.
