(* ===== verification/MakerSwap.v ===== *)
(** * The maker's side of a legacy atomic swap (lp_swap/maker_swap.rs)

    [MakerSwap] with its mutable part and its saved data, the events that
    change it ([apply_event]), one handler per [MakerSwapCommand], the run
    loop that saves every event before the next command, restoring a swap from
    its saved events, recovering funds, and the amounts it locks.  Handlers are
    programs over the calls of Swap.v; [fuel] bounds the rounds of the
    polling loops (waiting for a message, waiting until a refund is allowed). *)

From S2P Require Import Prelude MmNumber DexFee Effects Swap.

Open Scope Z_scope.

(** ** Data *)

Record TakerNegotiationData : Type := mkTND {
  taker_payment_locktime : Z;
  tnd_taker_pubkey : H264;
  maker_coin_swap_contract_addr : option bytes;
  taker_coin_swap_contract_addr : option bytes;
  maker_coin_htlc_pubkey : option H264;
  taker_coin_htlc_pubkey : option H264 }.

Definition neg_other_maker_coin_htlc_pub (d : TakerNegotiationData) : H264 :=
  default (tnd_taker_pubkey d) (maker_coin_htlc_pubkey d).

Definition neg_other_taker_coin_htlc_pub (d : TakerNegotiationData) : H264 :=
  default (tnd_taker_pubkey d) (taker_coin_htlc_pubkey d).

Record MakerSwapData : Type := mkData {
  d_taker_coin : string;
  d_maker_coin : string;
  d_taker_pubkey : H256;
  d_secret : H256;
  d_secret_hash : option bytes;
  d_my_persistent_pub : H264;
  d_lock_duration : Z;
  d_maker_amount : BigDecimal;
  d_taker_amount : BigDecimal;
  d_maker_payment_confirmations : Z;
  d_maker_payment_requires_nota : option bool;
  d_taker_payment_confirmations : Z;
  d_taker_payment_requires_nota : option bool;
  d_maker_payment_lock : Z;
  d_uuid : Uuid;
  d_started_at : Z;
  d_maker_coin_start_block : Z;
  d_taker_coin_start_block : Z;
  d_maker_payment_trade_fee : option SavedTradeFee;
  d_taker_payment_spend_trade_fee : option SavedTradeFee;
  d_maker_coin_swap_contract_address : option bytes;
  d_taker_coin_swap_contract_address : option bytes;
  d_maker_coin_htlc_pubkey : option H264;
  d_taker_coin_htlc_pubkey : option H264;
  d_p2p_privkey : option bytes }.

Definition set_d_maker_coin_swap_contract_address (x : option bytes) (d : MakerSwapData) : MakerSwapData :=
  mkData (d_taker_coin d) (d_maker_coin d) (d_taker_pubkey d) (d_secret d)
    (d_secret_hash d) (d_my_persistent_pub d) (d_lock_duration d)
    (d_maker_amount d) (d_taker_amount d) (d_maker_payment_confirmations d)
    (d_maker_payment_requires_nota d) (d_taker_payment_confirmations d)
    (d_taker_payment_requires_nota d) (d_maker_payment_lock d) (d_uuid d)
    (d_started_at d) (d_maker_coin_start_block d) (d_taker_coin_start_block d)
    (d_maker_payment_trade_fee d) (d_taker_payment_spend_trade_fee d) x
    (d_taker_coin_swap_contract_address d) (d_maker_coin_htlc_pubkey d)
    (d_taker_coin_htlc_pubkey d) (d_p2p_privkey d).

Definition set_d_taker_coin_swap_contract_address (x : option bytes) (d : MakerSwapData) : MakerSwapData :=
  mkData (d_taker_coin d) (d_maker_coin d) (d_taker_pubkey d) (d_secret d)
    (d_secret_hash d) (d_my_persistent_pub d) (d_lock_duration d)
    (d_maker_amount d) (d_taker_amount d) (d_maker_payment_confirmations d)
    (d_maker_payment_requires_nota d) (d_taker_payment_confirmations d)
    (d_taker_payment_requires_nota d) (d_maker_payment_lock d) (d_uuid d)
    (d_started_at d) (d_maker_coin_start_block d) (d_taker_coin_start_block d)
    (d_maker_payment_trade_fee d) (d_taker_payment_spend_trade_fee d)
    (d_maker_coin_swap_contract_address d) x (d_maker_coin_htlc_pubkey d)
    (d_taker_coin_htlc_pubkey d) (d_p2p_privkey d).

Definition MakerSwapData_default : MakerSwapData :=
  mkData "" "" H256_default H256_default None H264_default 0 (0 # 1) (0 # 1) 0 None 0 None 0
    (replicate 16 0) 0 0 0 None None None None None None None.

Record MakerSwapMut : Type := mkMut {
  data : MakerSwapData;
  other_maker_coin_htlc_pub : H264;
  other_taker_coin_htlc_pub : H264;
  taker_fee : option TransactionIdentifier;
  maker_payment : option TransactionIdentifier;
  taker_payment : option TransactionIdentifier;
  taker_payment_spend : option TransactionIdentifier;
  taker_payment_spend_confirmed : bool;
  maker_payment_refund : option TransactionIdentifier;
  payment_instructions : option PaymentInstructions;
  watcher_reward : bool }.

Definition set_data (x : MakerSwapData) (m : MakerSwapMut) : MakerSwapMut :=
  mkMut x (other_maker_coin_htlc_pub m) (other_taker_coin_htlc_pub m) (taker_fee m)
    (maker_payment m) (taker_payment m) (taker_payment_spend m)
    (taker_payment_spend_confirmed m) (maker_payment_refund m)
    (payment_instructions m) (watcher_reward m).

Definition set_other_maker_coin_htlc_pub (x : H264) (m : MakerSwapMut) : MakerSwapMut :=
  mkMut (data m) x (other_taker_coin_htlc_pub m) (taker_fee m) (maker_payment m)
    (taker_payment m) (taker_payment_spend m) (taker_payment_spend_confirmed m)
    (maker_payment_refund m) (payment_instructions m) (watcher_reward m).

Definition set_other_taker_coin_htlc_pub (x : H264) (m : MakerSwapMut) : MakerSwapMut :=
  mkMut (data m) (other_maker_coin_htlc_pub m) x (taker_fee m) (maker_payment m)
    (taker_payment m) (taker_payment_spend m) (taker_payment_spend_confirmed m)
    (maker_payment_refund m) (payment_instructions m) (watcher_reward m).

Definition set_taker_fee (x : option TransactionIdentifier) (m : MakerSwapMut) : MakerSwapMut :=
  mkMut (data m) (other_maker_coin_htlc_pub m) (other_taker_coin_htlc_pub m) x
    (maker_payment m) (taker_payment m) (taker_payment_spend m)
    (taker_payment_spend_confirmed m) (maker_payment_refund m)
    (payment_instructions m) (watcher_reward m).

Definition set_maker_payment (x : option TransactionIdentifier) (m : MakerSwapMut) : MakerSwapMut :=
  mkMut (data m) (other_maker_coin_htlc_pub m) (other_taker_coin_htlc_pub m)
    (taker_fee m) x (taker_payment m) (taker_payment_spend m)
    (taker_payment_spend_confirmed m) (maker_payment_refund m)
    (payment_instructions m) (watcher_reward m).

Definition set_taker_payment (x : option TransactionIdentifier) (m : MakerSwapMut) : MakerSwapMut :=
  mkMut (data m) (other_maker_coin_htlc_pub m) (other_taker_coin_htlc_pub m)
    (taker_fee m) (maker_payment m) x (taker_payment_spend m)
    (taker_payment_spend_confirmed m) (maker_payment_refund m)
    (payment_instructions m) (watcher_reward m).

Definition set_taker_payment_spend (x : option TransactionIdentifier) (m : MakerSwapMut) : MakerSwapMut :=
  mkMut (data m) (other_maker_coin_htlc_pub m) (other_taker_coin_htlc_pub m)
    (taker_fee m) (maker_payment m) (taker_payment m) x
    (taker_payment_spend_confirmed m) (maker_payment_refund m)
    (payment_instructions m) (watcher_reward m).

Definition set_taker_payment_spend_confirmed (x : bool) (m : MakerSwapMut) : MakerSwapMut :=
  mkMut (data m) (other_maker_coin_htlc_pub m) (other_taker_coin_htlc_pub m)
    (taker_fee m) (maker_payment m) (taker_payment m) (taker_payment_spend m) x
    (maker_payment_refund m) (payment_instructions m) (watcher_reward m).

Definition set_maker_payment_refund (x : option TransactionIdentifier) (m : MakerSwapMut) : MakerSwapMut :=
  mkMut (data m) (other_maker_coin_htlc_pub m) (other_taker_coin_htlc_pub m)
    (taker_fee m) (maker_payment m) (taker_payment m) (taker_payment_spend m)
    (taker_payment_spend_confirmed m) x (payment_instructions m)
    (watcher_reward m).

Definition set_payment_instructions (x : option PaymentInstructions) (m : MakerSwapMut) : MakerSwapMut :=
  mkMut (data m) (other_maker_coin_htlc_pub m) (other_taker_coin_htlc_pub m)
    (taker_fee m) (maker_payment m) (taker_payment m) (taker_payment_spend m)
    (taker_payment_spend_confirmed m) (maker_payment_refund m) x
    (watcher_reward m).

Definition set_watcher_reward (x : bool) (m : MakerSwapMut) : MakerSwapMut :=
  mkMut (data m) (other_maker_coin_htlc_pub m) (other_taker_coin_htlc_pub m)
    (taker_fee m) (maker_payment m) (taker_payment m) (taker_payment_spend m)
    (taker_payment_spend_confirmed m) (maker_payment_refund m)
    (payment_instructions m) x.

Record MakerSwap : Type := mkSwap {
  maker_coin : Coin;
  taker_coin : Coin;
  maker_amount : BigDecimal;
  taker_amount : BigDecimal;
  my_persistent_pub : H264;
  taker_pubkey : H256;
  uuid : Uuid;
  my_order_uuid : option Uuid;
  taker_payment_lock : Z;
  taker_payment_confirmed : bool;
  errors : list SwapError;
  finished_at : Z;
  mutable : MakerSwapMut;
  conf_settings : SwapConfirmationsSettings;
  payment_locktime : Z;
  p2p_privkey : option bytes;
  secret : H256;
  secret_hash_algo : SecretHashAlgo }.

Definition set_taker_payment_lock (x : Z) (s : MakerSwap) : MakerSwap :=
  mkSwap (maker_coin s) (taker_coin s) (maker_amount s) (taker_amount s)
    (my_persistent_pub s) (taker_pubkey s) (uuid s) (my_order_uuid s) x
    (taker_payment_confirmed s) (errors s) (finished_at s) (mutable s)
    (conf_settings s) (payment_locktime s) (p2p_privkey s) (secret s)
    (secret_hash_algo s).

Definition set_taker_payment_confirmed (x : bool) (s : MakerSwap) : MakerSwap :=
  mkSwap (maker_coin s) (taker_coin s) (maker_amount s) (taker_amount s)
    (my_persistent_pub s) (taker_pubkey s) (uuid s) (my_order_uuid s)
    (taker_payment_lock s) x (errors s) (finished_at s) (mutable s)
    (conf_settings s) (payment_locktime s) (p2p_privkey s) (secret s)
    (secret_hash_algo s).

Definition set_errors (x : list SwapError) (s : MakerSwap) : MakerSwap :=
  mkSwap (maker_coin s) (taker_coin s) (maker_amount s) (taker_amount s)
    (my_persistent_pub s) (taker_pubkey s) (uuid s) (my_order_uuid s)
    (taker_payment_lock s) (taker_payment_confirmed s) x (finished_at s)
    (mutable s) (conf_settings s) (payment_locktime s) (p2p_privkey s)
    (secret s) (secret_hash_algo s).

Definition set_finished_at (x : Z) (s : MakerSwap) : MakerSwap :=
  mkSwap (maker_coin s) (taker_coin s) (maker_amount s) (taker_amount s)
    (my_persistent_pub s) (taker_pubkey s) (uuid s) (my_order_uuid s)
    (taker_payment_lock s) (taker_payment_confirmed s) (errors s) x (mutable s)
    (conf_settings s) (payment_locktime s) (p2p_privkey s) (secret s)
    (secret_hash_algo s).

Definition set_mutable (x : MakerSwapMut) (s : MakerSwap) : MakerSwap :=
  mkSwap (maker_coin s) (taker_coin s) (maker_amount s) (taker_amount s)
    (my_persistent_pub s) (taker_pubkey s) (uuid s) (my_order_uuid s)
    (taker_payment_lock s) (taker_payment_confirmed s) (errors s)
    (finished_at s) x (conf_settings s) (payment_locktime s) (p2p_privkey s)
    (secret s) (secret_hash_algo s).

Inductive MakerSwapCommand : Type :=
| Start
| Negotiate
| WaitForTakerFee
| SendPayment
| WaitForTakerPayment
| ValidateTakerPayment
| SpendTakerPayment
| ConfirmTakerPaymentSpend
| PrepareForMakerPaymentRefund
| RefundMakerPayment
| FinalizeMakerPaymentRefund
| Finish.

#[export] Instance MakerSwapCommand_eq_dec : EqDecision MakerSwapCommand.
Proof. solve_decision. Defined.

Inductive MakerSwapEvent : Type :=
| Started (d : MakerSwapData)
| StartFailed (e : SwapError)
| Negotiated (d : TakerNegotiationData)
| NegotiateFailed (e : SwapError)
| MakerPaymentInstructionsReceived (i : option PaymentInstructions)
| TakerFeeValidated (t : TransactionIdentifier)
| TakerFeeValidateFailed (e : SwapError)
| MakerPaymentSent (t : TransactionIdentifier)
| MakerPaymentTransactionFailed (e : SwapError)
| MakerPaymentDataSendFailed (e : SwapError)
| MakerPaymentWaitConfirmFailed (e : SwapError)
| TakerPaymentReceived (t : TransactionIdentifier)
| TakerPaymentWaitConfirmStarted
| TakerPaymentValidatedAndConfirmed
| TakerPaymentValidateFailed (e : SwapError)
| TakerPaymentWaitConfirmFailed (e : SwapError)
| TakerPaymentSpent (t : TransactionIdentifier)
| TakerPaymentSpendFailed (e : SwapError)
| TakerPaymentSpendConfirmStarted
| TakerPaymentSpendConfirmed
| TakerPaymentSpendConfirmFailed (e : SwapError)
| MakerPaymentWaitRefundStarted (wait_until : Z)
| MakerPaymentRefundStarted
| MakerPaymentRefunded (t : option TransactionIdentifier)
| MakerPaymentRefundFailed (e : SwapError)
| MakerPaymentRefundFinished
| Finished.

(** ** Classification of events *)

(** The variant name, which is how serde tags a saved event. *)
Definition event_name (e : MakerSwapEvent) : string :=
  match e with
  | Started _ => "Started"
  | StartFailed _ => "StartFailed"
  | Negotiated _ => "Negotiated"
  | NegotiateFailed _ => "NegotiateFailed"
  | MakerPaymentInstructionsReceived _ => "MakerPaymentInstructionsReceived"
  | TakerFeeValidated _ => "TakerFeeValidated"
  | TakerFeeValidateFailed _ => "TakerFeeValidateFailed"
  | MakerPaymentSent _ => "MakerPaymentSent"
  | MakerPaymentTransactionFailed _ => "MakerPaymentTransactionFailed"
  | MakerPaymentDataSendFailed _ => "MakerPaymentDataSendFailed"
  | MakerPaymentWaitConfirmFailed _ => "MakerPaymentWaitConfirmFailed"
  | TakerPaymentReceived _ => "TakerPaymentReceived"
  | TakerPaymentWaitConfirmStarted => "TakerPaymentWaitConfirmStarted"
  | TakerPaymentValidatedAndConfirmed => "TakerPaymentValidatedAndConfirmed"
  | TakerPaymentValidateFailed _ => "TakerPaymentValidateFailed"
  | TakerPaymentWaitConfirmFailed _ => "TakerPaymentWaitConfirmFailed"
  | TakerPaymentSpent _ => "TakerPaymentSpent"
  | TakerPaymentSpendFailed _ => "TakerPaymentSpendFailed"
  | TakerPaymentSpendConfirmStarted => "TakerPaymentSpendConfirmStarted"
  | TakerPaymentSpendConfirmed => "TakerPaymentSpendConfirmed"
  | TakerPaymentSpendConfirmFailed _ => "TakerPaymentSpendConfirmFailed"
  | MakerPaymentWaitRefundStarted _ => "MakerPaymentWaitRefundStarted"
  | MakerPaymentRefundStarted => "MakerPaymentRefundStarted"
  | MakerPaymentRefunded _ => "MakerPaymentRefunded"
  | MakerPaymentRefundFailed _ => "MakerPaymentRefundFailed"
  | MakerPaymentRefundFinished => "MakerPaymentRefundFinished"
  | Finished => "Finished"
  end.

Definition MAKER_SUCCESS_EVENTS : list string :=
  ["Started"; "Negotiated"; "MakerPaymentInstructionsReceived"; "TakerFeeValidated";
   "MakerPaymentSent"; "TakerPaymentReceived"; "TakerPaymentWaitConfirmStarted";
   "TakerPaymentValidatedAndConfirmed"; "TakerPaymentSpent";
   "TakerPaymentSpendConfirmStarted"; "TakerPaymentSpendConfirmed"; "Finished"].

Definition MAKER_ERROR_EVENTS : list string :=
  ["StartFailed"; "NegotiateFailed"; "TakerFeeValidateFailed";
   "MakerPaymentTransactionFailed"; "MakerPaymentDataSendFailed";
   "MakerPaymentWaitConfirmFailed"; "TakerPaymentValidateFailed";
   "TakerPaymentWaitConfirmFailed"; "TakerPaymentSpendFailed";
   "TakerPaymentSpendConfirmFailed"; "MakerPaymentWaitRefundStarted";
   "MakerPaymentRefundStarted"; "MakerPaymentRefunded"; "MakerPaymentRefundFailed";
   "MakerPaymentRefundFinished"].

Definition status_str (e : MakerSwapEvent) : string :=
  match e with
  | Started _ => "Started..."
  | StartFailed _ => "Start failed..."
  | Negotiated _ => "Negotiated..."
  | NegotiateFailed _ => "Negotiate failed..."
  | MakerPaymentInstructionsReceived _ => "Maker payment instructions received..."
  | TakerFeeValidated _ => "Taker fee validated..."
  | TakerFeeValidateFailed _ => "Taker fee validate failed..."
  | MakerPaymentSent _ => "Maker payment sent..."
  | MakerPaymentTransactionFailed _ => "Maker payment failed..."
  | MakerPaymentDataSendFailed _ => "Maker payment failed..."
  | MakerPaymentWaitConfirmFailed _ => "Maker payment wait for confirmation failed..."
  | TakerPaymentReceived _ => "Taker payment received..."
  | TakerPaymentWaitConfirmStarted => "Taker payment wait confirm started..."
  | TakerPaymentValidatedAndConfirmed => "Taker payment validated and confirmed..."
  | TakerPaymentValidateFailed _ => "Taker payment validate failed..."
  | TakerPaymentWaitConfirmFailed _ => "Taker payment wait for confirmation failed..."
  | TakerPaymentSpent _ => "Taker payment spent..."
  | TakerPaymentSpendFailed _ => "Taker payment spend failed..."
  | TakerPaymentSpendConfirmStarted => "Taker payment spend confirm started..."
  | TakerPaymentSpendConfirmed => "Taker payment spend confirmed..."
  | TakerPaymentSpendConfirmFailed _ => "Taker payment spend confirm failed..."
  | MakerPaymentWaitRefundStarted wait_until =>
      "Maker payment wait refund till " +:+ pretty wait_until +:+ " started..."
  | MakerPaymentRefundStarted => "Maker payment refund started..."
  | MakerPaymentRefunded _ => "Maker payment refunded..."
  | MakerPaymentRefundFailed _ => "Maker payment refund failed..."
  | MakerPaymentRefundFinished => "Maker payment refund finished..."
  | Finished => "Finished"
  end.

Definition should_ban_taker (e : MakerSwapEvent) : bool :=
  match e with
  | TakerFeeValidateFailed _ | TakerPaymentValidateFailed _ => true
  | _ => false
  end.

Definition is_success (e : MakerSwapEvent) : bool :=
  match e with
  | Started _ | Negotiated _ | MakerPaymentInstructionsReceived _ | TakerFeeValidated _
  | MakerPaymentSent _ | TakerPaymentReceived _ | TakerPaymentWaitConfirmStarted
  | TakerPaymentValidatedAndConfirmed | TakerPaymentSpent _
  | TakerPaymentSpendConfirmStarted | TakerPaymentSpendConfirmed | Finished => true
  | _ => false
  end.

Definition is_error (e : MakerSwapEvent) : bool := negb (is_success e).

(** [MakerSavedEvent::get_command]: where a restored swap continues. *)
Definition get_command (e : MakerSwapEvent) : option MakerSwapCommand :=
  match e with
  | Started _ => Some Negotiate
  | StartFailed _ => Some Finish
  | Negotiated _ => Some WaitForTakerFee
  | MakerPaymentInstructionsReceived _ => Some WaitForTakerFee
  | NegotiateFailed _ => Some Finish
  | TakerFeeValidated _ => Some SendPayment
  | TakerFeeValidateFailed _ => Some Finish
  | MakerPaymentSent _ => Some WaitForTakerPayment
  | MakerPaymentTransactionFailed _ => Some Finish
  | MakerPaymentDataSendFailed _ => Some PrepareForMakerPaymentRefund
  | MakerPaymentWaitConfirmFailed _ => Some PrepareForMakerPaymentRefund
  | TakerPaymentReceived _ => Some ValidateTakerPayment
  | TakerPaymentWaitConfirmStarted => Some ValidateTakerPayment
  | TakerPaymentValidatedAndConfirmed => Some SpendTakerPayment
  | TakerPaymentValidateFailed _ => Some PrepareForMakerPaymentRefund
  | TakerPaymentWaitConfirmFailed _ => Some PrepareForMakerPaymentRefund
  | TakerPaymentSpent _ => Some ConfirmTakerPaymentSpend
  | TakerPaymentSpendFailed _ => Some PrepareForMakerPaymentRefund
  | TakerPaymentSpendConfirmStarted => Some ConfirmTakerPaymentSpend
  | TakerPaymentSpendConfirmed => Some Finish
  | TakerPaymentSpendConfirmFailed _ => Some PrepareForMakerPaymentRefund
  | MakerPaymentWaitRefundStarted _ => Some PrepareForMakerPaymentRefund
  | MakerPaymentRefundStarted => Some RefundMakerPayment
  | MakerPaymentRefunded _ => Some FinalizeMakerPaymentRefund
  | MakerPaymentRefundFailed _ => Some Finish
  | MakerPaymentRefundFinished => Some Finish
  | Finished => None
  end.

(** ** Accessors of the swap *)

Section Accessors.
  Context `{SecretHasher}.

(** [self.r().data] *)
Definition swap_data (s : MakerSwap) : MakerSwapData := data (mutable s).

Definition maker_secret_hash (s : MakerSwap) : bytes :=
  match d_secret_hash (swap_data s) with
  | Some b => b
  | None => hash_secret (secret_hash_algo s) (secret s)
  end.

Definition unique_swap_data (s : MakerSwap) : bytes := maker_secret_hash s.

Definition my_maker_coin_htlc_pub (s : MakerSwap) : H264 :=
  default (my_persistent_pub s) (d_maker_coin_htlc_pubkey (swap_data s)).

Definition my_taker_coin_htlc_pub (s : MakerSwap) : H264 :=
  default (my_persistent_pub s) (d_taker_coin_htlc_pubkey (swap_data s)).

Definition wait_refund_until (s : MakerSwap) : Z :=
  wrap 64 (d_maker_payment_lock (swap_data s) + 3700).

Definition watcher_reward_amount (s : MakerSwap) : option BigDecimal :=
  match payment_instructions (mutable s) with
  | Some (WatcherRewardInstr reward) => Some reward
  | _ => None
  end.

(** ** Events *)

Definition upd (f : MakerSwapMut -> MakerSwapMut) (s : MakerSwap) : MakerSwap :=
  set_mutable (f (mutable s)) s.

Definition push_error (e : SwapError) (s : MakerSwap) : MakerSwap :=
  set_errors (errors s ++ [e]) s.

(** [now] is what [now_sec()] returns when [Finished] is applied. *)
Definition apply_event (now : Z) (event : MakerSwapEvent) (s : MakerSwap) : MakerSwap :=
  match event with
  | Started d => upd (set_data d) s
  | StartFailed e => push_error e s
  | Negotiated d =>
      let s := set_taker_payment_lock (taker_payment_locktime d) s in
      let s := upd (set_other_maker_coin_htlc_pub (neg_other_maker_coin_htlc_pub d)) s in
      let s := upd (set_other_taker_coin_htlc_pub (neg_other_taker_coin_htlc_pub d)) s in
      let s := if maker_coin_swap_contract_addr d is Some _
               then upd (fun m => set_data (set_d_maker_coin_swap_contract_address
                                   (maker_coin_swap_contract_addr d) (data m)) m) s
               else s in
      if taker_coin_swap_contract_addr d is Some _
      then upd (fun m => set_data (set_d_taker_coin_swap_contract_address
                          (taker_coin_swap_contract_addr d) (data m)) m) s
      else s
  | NegotiateFailed e => push_error e s
  | MakerPaymentInstructionsReceived i => upd (set_payment_instructions i) s
  | TakerFeeValidated t => upd (set_taker_fee (Some t)) s
  | TakerFeeValidateFailed e => push_error e s
  | MakerPaymentSent t => upd (set_maker_payment (Some t)) s
  | MakerPaymentTransactionFailed e => push_error e s
  | MakerPaymentDataSendFailed e => push_error e s
  | MakerPaymentWaitConfirmFailed e => push_error e s
  | TakerPaymentReceived t => upd (set_taker_payment (Some t)) s
  | TakerPaymentWaitConfirmStarted => s
  | TakerPaymentValidatedAndConfirmed => set_taker_payment_confirmed true s
  | TakerPaymentValidateFailed e => push_error e s
  | TakerPaymentWaitConfirmFailed e => push_error e s
  | TakerPaymentSpent t => upd (set_taker_payment_spend (Some t)) s
  | TakerPaymentSpendFailed e => push_error e s
  | TakerPaymentSpendConfirmStarted => s
  | TakerPaymentSpendConfirmed => upd (set_taker_payment_spend_confirmed true) s
  | TakerPaymentSpendConfirmFailed e => push_error e s
  | MakerPaymentWaitRefundStarted _ => s
  | MakerPaymentRefundStarted => s
  | MakerPaymentRefunded t => upd (set_maker_payment_refund t) s
  | MakerPaymentRefundFailed e => push_error e s
  | MakerPaymentRefundFinished => s
  | Finished => set_finished_at now s
  end.

Definition MakerSwap_new (taker_pubkey : H256) (maker_amount taker_amount : BigDecimal)
  (my_persistent_pub : H264) (uuid : Uuid) (my_order_uuid : option Uuid)
  (conf_settings : SwapConfirmationsSettings) (maker_coin taker_coin : Coin)
  (payment_locktime : Z) (p2p_privkey : option bytes) (secret : H256) : MakerSwap :=
  mkSwap maker_coin taker_coin maker_amount taker_amount my_persistent_pub taker_pubkey uuid
    my_order_uuid 0 false [] 0
    (mkMut MakerSwapData_default H264_default H264_default None None None None false None None
       false)
    conf_settings payment_locktime p2p_privkey secret
    (detect_secret_hash_algo maker_coin taker_coin).

Definition get_my_negotiation_data (s : MakerSwap) : NegotiationDataMsg :=
  let d := swap_data s in
  let secret_hash := maker_secret_hash s in
  let maker_coin_swap_contract := default [] (swap_contract_address (maker_coin s)) in
  let taker_coin_swap_contract := default [] (swap_contract_address (taker_coin s)) in
  let equal := bool_decide (d_maker_coin_htlc_pubkey d = d_taker_coin_htlc_pubkey d) in
  let same_as_persistent :=
    bool_decide (d_maker_coin_htlc_pubkey d = Some (d_my_persistent_pub d)) in
  if equal && same_as_persistent
  then NegV2 (mkV2 (d_started_at d) (d_maker_payment_lock d) secret_hash
                (d_my_persistent_pub d) maker_coin_swap_contract taker_coin_swap_contract)
  else NegV3 (mkV3 (d_started_at d) (d_maker_payment_lock d) secret_hash
                maker_coin_swap_contract taker_coin_swap_contract
                (my_maker_coin_htlc_pub s) (my_taker_coin_htlc_pub s)).

(** [AtomicSwap::locked_amount] *)
Definition locked_amount (s : MakerSwap) : list LockedAmount :=
  (if maker_payment (mutable s) is Some _ then []
   else [mkLockedAmount (ticker (maker_coin s)) (maker_amount s)
           (trade_fee_from_saved <$> d_maker_payment_trade_fee (swap_data s))]) ++
  (if taker_payment_spend (mutable s) is Some _ then []
   else [mkLockedAmount (ticker (taker_coin s)) (0 # 1)
           (trade_fee_from_saved <$> d_taker_payment_spend_trade_fee (swap_data s))]).

Definition running_swap (s : MakerSwap) : RunningSwap :=
  mkRunningSwap (uuid s) (locked_amount s) (ticker (maker_coin s)) (ticker (taker_coin s)).

End Accessors.

(** ** The command handlers *)

Notation M := (prog (@answer MakerSwapEvent)).

(** What a handler returns: the next command and the events to apply. *)
Definition outcome : Type := option MakerSwapCommand * list MakerSwapEvent.

Definition finish_with (e : MakerSwapEvent) : outcome := (Some Finish, [e]).

Section Handlers.
  Context `{SecretHasher} `{DecimalConv}.
  Variable fuel : nat.
  Local Open Scope prog_scope.

Definition refund_after (s : MakerSwap) (e : MakerSwapEvent) : outcome :=
  (Some PrepareForMakerPaymentRefund,
   [e; MakerPaymentWaitRefundStarted (wait_refund_until s)]).

Record MakerSwapPreparedParams : Type := mkPrepared {
  pp_maker_payment_trade_fee : TradeFee;
  pp_taker_payment_spend_trade_fee : TradeFee }.

(** [get_sender_trade_fee] and [get_receiver_trade_fee] when no fees are prepared. *)
Definition maker_trade_fees (my_coin other_coin : string) (volume : MmNumber)
  (stage : FeeApproxStage) : M (result CheckBalanceError MakerSwapPreparedParams) :=
  f1 <- call (get_sender_trade_fee MakerSide (Exact (to_decimal volume)) stage);
  match f1 with
  | Err e => Ret (Err (from_trade_preimage_error e my_coin))
  | Ok maker_payment_trade_fee =>
      f2 <- call (get_receiver_trade_fee TakerSide stage);
      match f2 with
      | Err e => Ret (Err (from_trade_preimage_error e other_coin))
      | Ok taker_payment_spend_trade_fee =>
          Ret (Ok (mkPrepared maker_payment_trade_fee taker_payment_spend_trade_fee))
      end
  end.

Definition check_balance_for_maker_swap (my_coin other_coin : string) (volume : MmNumber)
  (swap_uuid : option Uuid) (prepared_params : option MakerSwapPreparedParams)
  (stage : FeeApproxStage) : M (result CheckBalanceError BigDecimal) :=
  params <- (match prepared_params with
             | Some p => Ret (Ok p)
             | None => maker_trade_fees my_coin other_coin volume stage
             end);
  match params with
  | Err e => Ret (Err e)
  | Ok p =>
      b <- check_my_coin_balance_for_swap MakerSide my_coin swap_uuid volume
             (pp_maker_payment_trade_fee p) None;
      match b with
      | Err e => Ret (Err e)
      | Ok balance =>
          o <- check_other_coin_balance_for_swap TakerSide other_coin swap_uuid
                 (pp_taker_payment_spend_trade_fee p);
          Ret (result_map (fun _ => balance) o)
      end
  end.

Definition started_data (s : MakerSwap) (started_at : Z)
  (maker_payment_trade_fee taker_payment_spend_trade_fee : TradeFee)
  (maker_coin_start_block taker_coin_start_block : Z) : MakerSwapData :=
  let unique_data := unique_swap_data s in
  {| d_taker_coin := ticker (taker_coin s);
     d_maker_coin := ticker (maker_coin s);
     d_taker_pubkey := taker_pubkey s;
     d_secret := secret s;
     d_secret_hash := Some (maker_secret_hash s);
     d_my_persistent_pub := my_persistent_pub s;
     d_lock_duration := payment_locktime s;
     d_maker_amount := maker_amount s;
     d_taker_amount := taker_amount s;
     d_maker_payment_confirmations := maker_coin_confs (conf_settings s);
     d_maker_payment_requires_nota := Some (maker_coin_nota (conf_settings s));
     d_taker_payment_confirmations := taker_coin_confs (conf_settings s);
     d_taker_payment_requires_nota := Some (taker_coin_nota (conf_settings s));
     d_maker_payment_lock :=
       wrap 64 (started_at +
                mul_ceil (payment_locktime s) (maker_locktime_multiplier (taker_coin s)));
     d_uuid := uuid s;
     d_started_at := started_at;
     d_maker_coin_start_block := maker_coin_start_block;
     d_taker_coin_start_block := taker_coin_start_block;
     d_maker_payment_trade_fee := Some (saved_from_trade_fee maker_payment_trade_fee);
     d_taker_payment_spend_trade_fee := Some (saved_from_trade_fee taker_payment_spend_trade_fee);
     d_maker_coin_swap_contract_address := swap_contract_address (maker_coin s);
     d_taker_coin_swap_contract_address := swap_contract_address (taker_coin s);
     d_maker_coin_htlc_pubkey := Some (derive_htlc_pubkey (maker_coin s) unique_data);
     d_taker_coin_htlc_pubkey := Some (derive_htlc_pubkey (taker_coin s) unique_data);
     d_p2p_privkey := p2p_privkey s |}.

(** [start] is the only handler that also writes to the swap directly. *)
Definition start (s : MakerSwap) : M (MakerSwap * outcome) :=
  let fail fmt arg := Ret (s, finish_with (StartFailed (err fmt [arg]))) in
  f1 <- call (get_sender_trade_fee MakerSide (Exact (maker_amount s)) StartSwap);
  match f1 with
  | Err e => fail "!maker_coin.get_sender_trade_fee {}"%string (ArgPreimage e)
  | Ok maker_payment_trade_fee =>
  f2 <- call (get_receiver_trade_fee TakerSide StartSwap);
  match f2 with
  | Err e => fail "!taker_coin.get_receiver_trade_fee {}"%string (ArgPreimage e)
  | Ok taker_payment_spend_trade_fee =>
  b <- check_balance_for_maker_swap (ticker (maker_coin s)) (ticker (taker_coin s))
         (maker_amount s) (Some (uuid s))
         (Some (mkPrepared maker_payment_trade_fee taker_payment_spend_trade_fee)) StartSwap;
  match b with
  | Err e => fail "!check_balance_for_maker_swap {}"%string (ArgBalance e)
  | Ok _ =>
  started_at <- call now_sec;
  b1 <- call (current_block MakerSide);
  match b1 with
  | Err e => fail "!maker_coin.current_block {}"%string (ArgStr e)
  | Ok maker_coin_start_block =>
  b2 <- call (current_block TakerSide);
  match b2 with
  | Err e => fail "!taker_coin.current_block {}"%string (ArgStr e)
  | Ok taker_coin_start_block =>
  use_reward <- call (env_is_set "USE_WATCHER_REWARD");
  let data := started_data s started_at maker_payment_trade_fee taker_payment_spend_trade_fee
                maker_coin_start_block taker_coin_start_block in
  Ret (upd (set_watcher_reward use_reward) s, (Some Negotiate, [Started data]))
  end end end end end.

(** [broadcast_negotiated_false] and the failure of the negotiation. *)
Definition broadcast_negotiated_false : M unit := call (broadcast_swap_message (Swap.Negotiated false)).

Definition negotiate_failed (e : SwapError) : M outcome :=
  do broadcast_negotiated_false;
  Ret (finish_with (NegotiateFailed e)).

(** The checks on the taker's negotiation data, in the order of the source. *)
Definition check_taker_data (s : MakerSwap) (taker_data : NegotiationDataMsg)
  : result SwapError TakerNegotiationData :=
  (let d := swap_data s in
  let time_dif := abs_diff (d_started_at d) (started_at taker_data) in
  let? _ := (if time_dif >? MAX_STARTED_AT_DIFF
             then Err (err "The time difference between you and the taker cannot be longer than 60 seconds. Current difference: {}. Please make sure that your system clock is synced to the correct time before starting another swap!" [ArgNum time_dif])
             else Ok tt) in
  let expected_lock_time := checked_add (started_at taker_data) (d_lock_duration d) in
  let? _ := (if bool_decide (Some (Swap.payment_locktime taker_data) = expected_lock_time) then Ok tt
             else Err (err "taker_data.payment_locktime {:?} not equal to expected {:?}"
                         [ArgNum (Swap.payment_locktime taker_data); ArgOptNum expected_lock_time])) in
  let? maker_coin_swap_contract_addr :=
    map_err (fun e => err "!maker_coin.negotiate_swap_contract_addr {}" [ArgStr e])
      (negotiate_swap_contract_addr (maker_coin s) (maker_coin_swap_contract taker_data)) in
  let? taker_coin_swap_contract_addr :=
    map_err (fun e => err "!taker_coin.negotiate_swap_contract_addr {}" [ArgStr e])
      (negotiate_swap_contract_addr (taker_coin s) (taker_coin_swap_contract taker_data)) in
  let? _ := map_err (fun e => err "!taker_data.maker_coin_htlc_pub {}" [ArgStr e])
              (validate_other_pubkey (maker_coin s) (maker_coin_htlc_pub taker_data)) in
  let? _ := map_err (fun e => err "!taker_data.taker_coin_htlc_pub {}" [ArgStr e])
              (validate_other_pubkey (taker_coin s) (taker_coin_htlc_pub taker_data)) in
  Ok (mkTND (Swap.payment_locktime taker_data) H264_default
        maker_coin_swap_contract_addr taker_coin_swap_contract_addr
        (Some (maker_coin_htlc_pub taker_data)) (Some (taker_coin_htlc_pub taker_data))))%result.

Definition negotiate (s : MakerSwap) : M outcome :=
  do call (broadcast_swap_msg_every (Swap.Negotiation (get_my_negotiation_data s)) (90 # 6));
  r <- recv_swap_msg fuel (uuid s) KNegotiationReply NEGOTIATION_TIMEOUT_SEC;
  match r with
  | Err e => negotiate_failed (err "{:?}" [arg_err e])
  | Ok taker_data =>
      match check_taker_data s taker_data with
      | Err e => negotiate_failed e
      | Ok d => Ret (Some WaitForTakerFee, [Negotiated d])
      end
  end.

(** [attempts] counts the retries still allowed. *)
Fixpoint validate_fee_loop (attempts : nat) (a : ValidateFeeArgs) : M (result string unit) :=
  r <- call (validate_fee a);
  match r with
  | Ok _ => Ret (Ok tt)
  | Err e =>
      match attempts with
      | O => Ret (Err e)
      | S attempts =>
          do call (sleep TAKER_FEE_VALIDATION_RETRY_DELAY_SECS);
          validate_fee_loop attempts a
      end
  end.

Definition fee_validate_failed (e : SwapError) : M outcome :=
  Ret (finish_with (TakerFeeValidateFailed e)).

(** The rest of [wait_taker_fee] once the fee message has been received. *)
Definition check_taker_fee (s : MakerSwap) (payload : SwapTxDataMsg)
  (instructions : option PaymentInstructions) : M outcome :=
  let d := swap_data s in
  let dex_fee := new_with_taker_pubkey (fee_coin (taker_coin s)) (d_maker_coin d)
                   (taker_amount s) (other_taker_coin_htlc_pub (mutable s)) in
  let received := MakerPaymentInstructionsReceived instructions in
  match dex_fee with
  | NoFee => Ret (Some SendPayment, [received; TakerFeeValidated (mkTxIdent [] [])])
  | _ =>
      match tx_enum_from_bytes (taker_coin s) (tx_data payload) with
      | Err e => fee_validate_failed (err "{:?}" [ArgStr e])
      | Ok taker_fee =>
          r <- validate_fee_loop TAKER_FEE_VALIDATION_ATTEMPTS
                 (mkValidateFee taker_fee (other_taker_coin_htlc_pub (mutable s)) dex_fee
                    (d_taker_coin_start_block d) (uuid s));
          match r with
          | Err e => fee_validate_failed (err "{}" [ArgStr e])
          | Ok _ => Ret (Some SendPayment, [received; TakerFeeValidated (tx_ident taker_fee)])
          end
      end
  end.

Definition TAKER_FEE_RECV_TIMEOUT_SEC : Z := 600.

Definition wait_taker_fee (s : MakerSwap) : M outcome :=
  let d := swap_data s in
  do call (broadcast_swap_msg_every (Swap.Negotiated true) (600 # 6));
  r <- recv_swap_msg fuel (uuid s) KTakerFee TAKER_FEE_RECV_TIMEOUT_SEC;
  match r with
  | Err e => fee_validate_failed (err "{}" [arg_err e])
  | Ok payload =>
      match instructions payload with
      | None => check_taker_fee s payload None
      | Some i =>
          let maker_lock_duration :=
            mul_ceil (d_lock_duration d) (maker_locktime_multiplier (taker_coin s)) in
          match validate_maker_payment_instructions (maker_coin s) i
                  (mkPaymentInstructionArgs (maker_secret_hash s) (maker_amount s)
                     maker_lock_duration 0 false 0) with
          | Err e => fee_validate_failed (err_str e)
          | Ok instructions => check_taker_fee s payload (Some instructions)
          end
      end
  end.

Definition setup_watcher_reward (s : MakerSwap) (wait_maker_payment_until : Z)
  : M (result string (option WatcherReward)) :=
  if watcher_reward (mutable s)
  then call (get_maker_watcher_reward (watcher_reward_amount s) wait_maker_payment_until)
  else Ret (Ok None).

Definition check_sent_args (s : MakerSwap) : CheckIfMyPaymentSentArgs :=
  let d := swap_data s in
  mkCheckSent (d_maker_payment_lock d) (other_maker_coin_htlc_pub (mutable s))
    (maker_secret_hash s) (d_maker_coin_start_block d)
    (d_maker_coin_swap_contract_address d) (unique_swap_data s) (maker_amount s)
    (payment_instructions (mutable s)).

Definition payment_failed (e : SwapError) : M outcome :=
  Ret (finish_with (MakerPaymentTransactionFailed e)).

Definition maker_payment_sent (t : Tx) : M outcome :=
  Ret (Some WaitForTakerPayment, [MakerPaymentSent (tx_ident t)]).

(** [started_at + lock_duration / 3], after which no payment is sent. *)
Definition payment_deadline (s : MakerSwap) : Z :=
  wrap 64 (d_started_at (swap_data s) + d_lock_duration (swap_data s) / 3).

Definition send_payment_args (s : MakerSwap) (reward : option WatcherReward) : SendPaymentArgs :=
  let d := swap_data s in
  mkSendPayment (d_lock_duration d) (d_maker_payment_lock d)
    (other_maker_coin_htlc_pub (mutable s)) (maker_secret_hash s) (maker_amount s)
    (d_maker_coin_swap_contract_address d) (unique_swap_data s)
    (payment_instructions (mutable s)) reward
    (wait_for_maker_payment_conf_until (d_started_at d) (d_lock_duration d)).

Definition handle_maker_payment (s : MakerSwap) : M outcome :=
  let d := swap_data s in
  let wait_maker_payment_until :=
    wait_for_maker_payment_conf_until (d_started_at d) (d_lock_duration d) in
  existing <- call (check_if_my_payment_sent MakerSide (check_sent_args s));
  match existing with
  | Err e => payment_failed (err "{}" [ArgStr e])
  | Ok maybe_existing_payment =>
      timed_out <- (match maybe_existing_payment with
                    | Some _ => Ret None
                    | None =>
                        now <- call now_sec;
                        Ret (if now >? payment_deadline s
                             then Some (err "Timeout {} > {}" [ArgNum now; ArgNum (payment_deadline s)])
                             else None)
                    end);
      match timed_out with
      | Some e => payment_failed e
      | None =>
          reward <- setup_watcher_reward s wait_maker_payment_until;
          match reward with
          | Err e => payment_failed (err_str e)
          | Ok watcher_reward =>
              match maybe_existing_payment with
              | Some tx => maker_payment_sent tx
              | None =>
                  r <- call (send_maker_payment (send_payment_args s watcher_reward));
                  match r with
                  | Ok t => maker_payment_sent t
                  | Err e => payment_failed (err "{}" [ArgStr (get_plain_text_format e)])
                  end
              end
          end
      end
  end.

(** [get_my_payment_data]; panics when there is no maker payment. *)
Definition get_my_payment_data (s : MakerSwap) : M (result string SwapTxDataMsg) :=
  p <- unwrap (maker_payment (mutable s));
  let expires_in := taker_payment_spend_duration (d_lock_duration (swap_data s)) in
  r <- call (taker_payment_instructions TakerSide
         (mkPaymentInstructionArgs (hash_secret SHA256 (secret s)) (taker_amount s)
            0 expires_in false 0));
  Ret (result_map (swap_tx_data_new (ti_tx_hex p)) r).

Definition confirm_maker_payment_input (s : MakerSwap) (p : TransactionIdentifier)
  : ConfirmPaymentInput :=
  let d := swap_data s in
  mkConfirm (ti_tx_hex p) (d_maker_payment_confirmations d)
    (default false (d_maker_payment_requires_nota d))
    (wait_for_maker_payment_conf_until (d_started_at d) (d_lock_duration d))
    WAIT_CONFIRM_INTERVAL_SEC.

Definition wait_for_taker_payment (s : MakerSwap) : M outcome :=
  let d := swap_data s in
  m <- get_my_payment_data s;
  match m with
  | Err e => Ret (refund_after s (MakerPaymentDataSendFailed (err_str e)))
  | Ok payment_data_msg =>
  do call (broadcast_swap_msg_every (Swap.MakerPayment payment_data_msg) (15 # 1));
  p <- unwrap (maker_payment (mutable s));
  c <- call (wait_for_confirmations MakerSide (confirm_maker_payment_input s p));
  match c with
  | Err e =>
      Ret (refund_after s (MakerPaymentWaitConfirmFailed
             (err "!wait for maker payment confirmations: {}" [ArgStr e])))
  | Ok _ =>
  let wait_duration := wrap 64 (d_lock_duration d * 3) / 5 in
  r <- recv_swap_msg fuel (uuid s) KTakerPayment wait_duration;
  match r with
  | Err e => Ret (refund_after s (TakerPaymentValidateFailed e))
  | Ok payload =>
      match tx_enum_from_bytes (taker_coin s) payload with
      | Err e =>
          Ret (refund_after s (TakerPaymentValidateFailed
                 (err "!taker_coin.tx_enum_from_bytes: {:?}" [ArgStr e])))
      | Ok taker_payment =>
          Ret (Some ValidateTakerPayment,
               [TakerPaymentReceived (tx_ident taker_payment); TakerPaymentWaitConfirmStarted])
      end
  end end end.

Definition wait_taker_payment_until (s : MakerSwap) : Z :=
  taker_payment_spend_deadline (d_started_at (swap_data s)) (d_lock_duration (swap_data s)).

Definition confirm_taker_payment_input (s : MakerSwap) (p : TransactionIdentifier)
  : ConfirmPaymentInput :=
  let d := swap_data s in
  mkConfirm (ti_tx_hex p) (d_taker_payment_confirmations d)
    (default false (d_taker_payment_requires_nota d))
    (wait_taker_payment_until s) WAIT_CONFIRM_INTERVAL_SEC.

Definition validate_input (s : MakerSwap) (p : TransactionIdentifier)
  (watcher_reward : option WatcherReward) : ValidatePaymentInput :=
  let d := swap_data s in
  mkValidatePayment (ti_tx_hex p) (d_lock_duration d) (taker_payment_lock s)
    (other_taker_coin_htlc_pub (mutable s)) (maker_secret_hash s) (taker_amount s)
    (d_taker_coin_swap_contract_address d) (wait_taker_payment_until s)
    (d_taker_payment_confirmations d) (unique_swap_data s) watcher_reward.

Definition handle_validate_taker_payment (s : MakerSwap) : M outcome :=
  p <- unwrap (taker_payment (mutable s));
  c <- call (wait_for_confirmations TakerSide (confirm_taker_payment_input s p));
  match c with
  | Err e =>
      Ret (refund_after s (TakerPaymentWaitConfirmFailed
             (err "!taker_coin.wait_for_confirmations: {}" [ArgStr e])))
  | Ok _ =>
  reward <- (if watcher_reward (mutable s)
             then r <- call (get_taker_watcher_reward (Some (taker_amount s))
                               (Some (maker_amount s)) (watcher_reward_amount s)
                               (wait_taker_payment_until s));
                  Ret (result_map Some r)
             else Ret (Ok None));
  match reward with
  | Err e => payment_failed (err_str e)
  | Ok watcher_reward =>
  v <- call (validate_taker_payment (validate_input s p watcher_reward));
  match v with
  | Err e =>
      Ret (refund_after s (TakerPaymentValidateFailed
             (err "!taker_coin.validate_taker_payment: {}" [ArgStr e])))
  | Ok _ => Ret (Some SpendTakerPayment, [TakerPaymentValidatedAndConfirmed])
  end end end.

Definition spend_taker_payment_args (s : MakerSwap) (p : TransactionIdentifier) : SpendPaymentArgs :=
  let d := swap_data s in
  mkSpendPayment (ti_tx_hex p) (taker_payment_lock s) (other_taker_coin_htlc_pub (mutable s))
    (d_secret d) (maker_secret_hash s) (d_taker_coin_swap_contract_address d)
    (unique_swap_data s) (watcher_reward (mutable s)).

Definition spend_taker_payment (s : MakerSwap) : M outcome :=
  let timeout := wait_taker_payment_until s in
  now <- call now_sec;
  if now >? timeout
  then Ret (refund_after s (TakerPaymentSpendFailed
              (err "Timeout {} > {}" [ArgNum now; ArgNum timeout])))
  else
  p <- unwrap (taker_payment (mutable s));
  r <- call (send_maker_spends_taker_payment (spend_taker_payment_args s p));
  match r with
  | Err e =>
      do broadcast_recovered_tx TakerSide e;
      Ret (refund_after s (TakerPaymentSpendFailed
             (err "!taker_coin.send_maker_spends_taker_payment: {}"
                [ArgStr (get_plain_text_format e)])))
  | Ok transaction =>
      do broadcast_p2p_tx_msg TakerSide transaction;
      Ret (Some ConfirmTakerPaymentSpend,
           [TakerPaymentSpent (tx_ident transaction); TakerPaymentSpendConfirmStarted])
  end.

Definition confirm_taker_payment_spend (s : MakerSwap) : M outcome :=
  let d := swap_data s in
  p <- unwrap (taker_payment_spend (mutable s));
  c <- call (wait_for_confirmations TakerSide
         (mkConfirm (ti_tx_hex p) (d_taker_payment_confirmations d) false
            (wait_refund_until s) WAIT_CONFIRM_INTERVAL_SEC));
  match c with
  | Err e =>
      Ret (refund_after s (TakerPaymentSpendConfirmFailed
             (err "!wait for taker payment spend confirmations: {}" [ArgStr e])))
  | Ok _ => Ret (Some Finish, [TakerPaymentSpendConfirmed])
  end.

Definition prepare_for_maker_payment_refund (s : MakerSwap) : M outcome :=
  do (match taker_payment (mutable s) with
      | Some payment =>
          do call (on_payment_refund_start TakerSide (ti_tx_hex payment)); Ret tt
      | None => Ret tt
      end);
  Ret (Some RefundMakerPayment, [MakerPaymentRefundStarted]).

Definition refund_args (s : MakerSwap) (payment_tx : bytes) : RefundPaymentArgs :=
  let d := swap_data s in
  mkRefundPayment payment_tx (d_maker_payment_lock d) (other_maker_coin_htlc_pub (mutable s))
    (maker_secret_hash s) (d_maker_coin_swap_contract_address d) (unique_swap_data s)
    (watcher_reward (mutable s)).

Definition refund_maker_payment (s : MakerSwap) : M outcome :=
  p <- unwrap (maker_payment (mutable s));
  let locktime := d_maker_payment_lock (swap_data s) in
  if is_auto_refundable (maker_coin s)
  then
    r <- call (wait_for_htlc_refund MakerSide (ti_tx_hex p) locktime);
    Ret (match r with
         | Ok _ => (Some FinalizeMakerPaymentRefund, [MakerPaymentRefunded None])
         | Err e => finish_with (MakerPaymentRefundFailed
                      (err "!maker_coin.wait_for_htlc_refund: {}" [ArgStr e]))
         end)
  else
    do wait_can_refund fuel MakerSide locktime;
    r <- call (send_maker_refunds_payment (refund_args s (ti_tx_hex p)));
    match r with
    | Err e =>
        do broadcast_recovered_tx MakerSide e;
        Ret (finish_with (MakerPaymentRefundFailed
               (err "!maker_coin.send_maker_refunds_payment: {}"
                  [ArgStr (get_plain_text_format e)])))
    | Ok transaction =>
        do broadcast_p2p_tx_msg MakerSide transaction;
        Ret (Some FinalizeMakerPaymentRefund, [MakerPaymentRefunded (Some (tx_ident transaction))])
    end.

Definition finalize_maker_payment_refund (s : MakerSwap) : M outcome :=
  do (match taker_payment (mutable s) with
      | Some payment =>
          do call (on_payment_refund_success TakerSide (ti_tx_hex payment)); Ret tt
      | None => Ret tt
      end);
  Ret (Some Finish, [MakerPaymentRefundFinished]).

(** Runs a handler that only reads the swap. *)
Definition reading (s : MakerSwap) (p : M outcome) : M (MakerSwap * outcome) :=
  o <- p; Ret (s, o).

Definition handle_command (command : MakerSwapCommand) (s : MakerSwap) : M (MakerSwap * outcome) :=
  match command with
  | Start => start s
  | Negotiate => reading s (negotiate s)
  | WaitForTakerFee => reading s (wait_taker_fee s)
  | SendPayment => reading s (handle_maker_payment s)
  | WaitForTakerPayment => reading s (wait_for_taker_payment s)
  | ValidateTakerPayment => reading s (handle_validate_taker_payment s)
  | SpendTakerPayment => reading s (spend_taker_payment s)
  | ConfirmTakerPaymentSpend => reading s (confirm_taker_payment_spend s)
  | PrepareForMakerPaymentRefund => reading s (prepare_for_maker_payment_refund s)
  | RefundMakerPayment => reading s (refund_maker_payment s)
  | FinalizeMakerPaymentRefund => reading s (finalize_maker_payment_refund s)
  | Finish => Ret (s, (None, [Finished]))
  end.

(** ** The run loop *)

(** What the loop does with one event before it is saved: the time stamp of
    the saved event and the clock that [Finished] reads when it is applied. *)
Definition announce_event (event : MakerSwapEvent) (s : MakerSwap) : M (Z * Z) :=
  timestamp <- call now_ms;
  do call (dispatch_status event);
  do (if should_ban_taker event then call (ban_pubkey (taker_pubkey s) event) else Ret tt);
  now <- (match event with Finished => call now_sec | _ => Ret 0 end);
  do call (stream_status event);
  Ret (timestamp, now).

(** Saving an event must not fail ([expect]). *)
Definition process_event (event : MakerSwapEvent) (s : MakerSwap) : M MakerSwap :=
  t <- announce_event event s;
  let s := apply_event (snd t) event s in
  r <- call (save_event (fst t) event);
  match r with
  | Ok _ => Ret s
  | Err _ => Panic
  end.

Fixpoint process_events (events : list MakerSwapEvent) (s : MakerSwap) : M MakerSwap :=
  match events with
  | [] => Ret s
  | e :: events => s <- process_event e s; process_events events s
  end.

(** One round per command; [rounds] is an upper bound on their number. *)
Fixpoint swap_loop (rounds : nat) (command : MakerSwapCommand) (s : MakerSwap) : M MakerSwap :=
  match rounds with
  | O => OutOfFuel
  | S rounds =>
      r <- handle_command command s;
      let '(s, (next, events)) := r in
      s <- process_events events s;
      match next with
      | Some c => swap_loop rounds c s
      | None =>
          do call (mark_swap_as_finished (uuid s));
          do call (broadcast_my_swap_status (uuid s));
          Ret s
      end
  end.

(** The number of commands: no run executes one of them twice. *)
Definition MAX_ROUNDS : nat := 12.

(** [run_maker_swap] for a new swap, after the swap lock has been taken. *)
Definition run_new_swap (s : MakerSwap) : M MakerSwap := swap_loop MAX_ROUNDS Start s.

End Handlers.

(** ** Saved swaps *)

Record MakerSavedEvent : Type := mkSavedEvent { timestamp : Z; event : MakerSwapEvent }.

Record MakerSavedSwap : Type := mkSavedSwap {
  sv_uuid : Uuid;
  sv_my_order_uuid : option Uuid;
  sv_events : list MakerSavedEvent;
  sv_maker_amount : option BigDecimal;
  sv_maker_coin : option string;
  sv_taker_amount : option BigDecimal;
  sv_taker_coin : option string;
  sv_success_events : list string;
  sv_error_events : list string }.

(** The record [save_my_maker_swap_event] writes back: the loaded swap, or a
    new one, with the event at the end. *)
Definition push_saved_event (loaded : option MakerSavedSwap) (s : MakerSwap)
  (e : MakerSavedEvent) : MakerSavedSwap :=
  let saved :=
    match loaded with
    | Some saved => saved
    | None =>
        mkSavedSwap (uuid s) (my_order_uuid s) [] (Some (maker_amount s))
          (Some (ticker (maker_coin s))) (Some (taker_amount s)) (Some (ticker (taker_coin s)))
          MAKER_SUCCESS_EVENTS MAKER_ERROR_EVENTS
    end in
  mkSavedSwap (sv_uuid saved) (sv_my_order_uuid saved) (sv_events saved ++ [e])
    (sv_maker_amount saved) (sv_maker_coin saved) (sv_taker_amount saved)
    (sv_taker_coin saved) (sv_success_events saved) (sv_error_events saved).

Definition first_started (saved : MakerSavedSwap) (empty_msg : string)
  : result string MakerSwapData :=
  match sv_events saved with
  | e :: _ =>
      match event e with
      | Started d => Ok d
      | _ => Err "First swap event must be Started"%string
      end
  | [] => Err empty_msg
  end.

Definition saved_maker_coin (saved : MakerSavedSwap) : result string string :=
  result_map d_maker_coin (first_started saved "Can't get maker coin, events are empty").

Definition saved_taker_coin (saved : MakerSavedSwap) : result string string :=
  result_map d_taker_coin (first_started saved "Can't get maker coin, events are empty").

Definition saved_swap_data (saved : MakerSavedSwap) : result string MakerSwapData :=
  first_started saved "Can't get swap_data, events are empty".

Definition is_finished (saved : MakerSavedSwap) : bool :=
  match last (sv_events saved) with
  | Some e => match event e with Finished => true | _ => false end
  | None => false
  end.

Record MySwapInfo : Type := mkMySwapInfo {
  my_coin : string;
  other_coin : string;
  my_amount : BigDecimal;
  other_amount : BigDecimal;
  my_started_at : Z }.

Definition get_my_info (saved : MakerSavedSwap) : option MySwapInfo :=
  match first_started saved "" with
  | Ok d => Some (mkMySwapInfo (d_maker_coin d) (d_taker_coin d) (d_maker_amount d)
                    (d_taker_amount d) (d_started_at d))
  | Err _ => None
  end.

(** The events after which funds cannot be recovered by [recover_funds]. *)
Definition unrecoverable_event (e : MakerSwapEvent) : bool :=
  match e with
  | StartFailed _ | NegotiateFailed _ | TakerFeeValidateFailed _
  | TakerPaymentSpendConfirmed | MakerPaymentRefunded _ => true
  | _ => false
  end.

Definition is_recoverable (saved : MakerSavedSwap) : bool :=
  if negb (is_finished saved) then false
  else negb (existsb (fun e => unrecoverable_event (event e)) (sv_events saved)).

Definition saved_finished_at (saved : MakerSavedSwap) : result string Z :=
  match last (sv_events saved) with
  | Some e =>
      match event e with
      | Finished => Ok (timestamp e / 1000)
      | _ => Err "Last swap event must be Finished"%string
      end
  | None => Err "Can't get finished_at, events are empty"%string
  end.

Definition saved_is_success (saved : MakerSavedSwap) : result string bool :=
  if negb (is_finished saved)
  then Err "Can not determine is_success state for not finished swap"%string
  else Ok (negb (existsb (fun e => is_error (event e)) (sv_events saved))).

(** ** Restoring a swap *)

Definition refresh_contracts (maker_coin taker_coin : Coin) (d : MakerSwapData) : MakerSwapData :=
  let d := if d_maker_coin_swap_contract_address d is Some _ then d
           else set_d_maker_coin_swap_contract_address (swap_contract_address maker_coin) d in
  if d_taker_coin_swap_contract_address d is Some _ then d
  else set_d_taker_coin_swap_contract_address (swap_contract_address taker_coin) d.

Definition replay (now : Z) (events : list MakerSwapEvent) (s : MakerSwap) : MakerSwap :=
  foldl (fun s e => apply_event now e s) s events.

(** [my_persistent_pub] is the public key of the crypto context; [now] what
    the clock says when a saved [Finished] is replayed. *)
Definition load_from_saved (my_persistent_pub : H264) (now : Z) (maker_coin taker_coin : Coin)
  (saved : MakerSavedSwap) : result string (MakerSwap * option MakerSwapCommand) :=
  match sv_events saved with
  | [] => Err "Can't restore swap from empty events set"%string
  | first :: rest =>
      match event first with
      | Started d0 =>
          let d := refresh_contracts maker_coin taker_coin d0 in
          let conf_settings :=
            mkConfSettings (d_maker_payment_confirmations d)
              (default (requires_notarization maker_coin) (d_maker_payment_requires_nota d))
              (d_taker_payment_confirmations d)
              (default (requires_notarization taker_coin) (d_taker_payment_requires_nota d)) in
          let swap :=
            MakerSwap_new (d_taker_pubkey d) (d_maker_amount d) (d_taker_amount d)
              my_persistent_pub (sv_uuid saved) (sv_my_order_uuid saved) conf_settings
              maker_coin taker_coin (d_lock_duration d) (d_p2p_privkey d) (d_secret d) in
          let events := Started d :: map event rest in
          let command := from_option (fun e => get_command e) None (last events) in
          Ok (replay now events swap, command)
      | _ => Err "First swap event must be Started"%string
      end
  end.

(** ** Recovering funds *)

Inductive RecoveredSwapAction : Type := RefundedMyPayment | SpentOtherPayment.

Record RecoveredSwap : Type := mkRecovered {
  rec_action : RecoveredSwapAction;
  rec_coin : string;
  rec_transaction : Tx }.

Section Recover.
  Context `{SecretHasher}.
  Local Open Scope prog_scope.

Definition recover_err (e : SwapError) : M (result SwapError RecoveredSwap) := Ret (Err e).

Definition try_spend_taker_payment (s : MakerSwap) (secret_hash : bytes)
  : M (result SwapError Tx) :=
  let d := swap_data s in
  match taker_payment (mutable s) with
  | None => Ret (Err (err_str "No info about taker payment, swap is not recoverable"))
  | Some p =>
      r <- call (search_for_swap_tx_spend_other TakerSide
             (mkSearch (taker_payment_lock s) (other_taker_coin_htlc_pub (mutable s)) secret_hash
                (ti_tx_hex p) (d_taker_coin_start_block d)
                (d_taker_coin_swap_contract_address d) (unique_swap_data s)));
      match r with
      | Ok (Some (Spent tx)) =>
          Ret (Err (err "Taker payment was already spent by {} tx {:02x}"
                      [ArgStr (ticker (taker_coin s)); ArgBytes (tx_hash tx)]))
      | Ok (Some (Refunded tx)) =>
          Ret (Err (err "Taker payment was already refunded by {} tx {:02x}"
                      [ArgStr (ticker (taker_coin s)); ArgBytes (tx_hash tx)]))
      | Err e => Ret (Err (err "Error {} when trying to find taker payment spend" [ArgStr e]))
      | Ok None =>
          r <- call (send_maker_spends_taker_payment (spend_taker_payment_args s p));
          Ret (map_err (fun e => err "{:?}" [ArgStr (get_plain_text_format e)]) r)
      end
  end.

(** The last part of [recover_funds]: the maker payment is still unspent. *)
Definition recover_refund (s : MakerSwap) (payment : bytes) : M (result SwapError RecoveredSwap) :=
  if is_auto_refundable (maker_coin s)
  then recover_err (err_str "Maker payment will be refunded automatically!")
  else
    c <- call (can_refund_htlc MakerSide (d_maker_payment_lock (swap_data s)));
    match c with
    | Err e => recover_err (err_str e)
    | Ok (HaveToWait seconds_to_wait) =>
        now <- call now_sec;
        recover_err (err "Too early to refund, wait until {}"
                       [ArgNum (wrap 64 (now + seconds_to_wait))])
    | Ok CanRefundNow =>
        r <- call (send_maker_refunds_payment (refund_args s payment));
        match r with
        | Err e =>
            do broadcast_recovered_tx MakerSide e;
            recover_err (err "{}" [ArgStr (get_plain_text_format e)])
        | Ok transaction =>
            Ret (Ok (mkRecovered RefundedMyPayment (ticker (maker_coin s)) transaction))
        end
    end.

Definition recover_with_payment (s : MakerSwap) (payment : bytes)
  : M (result SwapError RecoveredSwap) :=
  let d := swap_data s in
  let secret_hash := maker_secret_hash s in
  r <- call (search_for_swap_tx_spend_my MakerSide
         (mkSearch (d_maker_payment_lock d) (other_maker_coin_htlc_pub (mutable s)) secret_hash
            payment (d_maker_coin_start_block d) (d_maker_coin_swap_contract_address d)
            (unique_swap_data s)));
  match r with
  | Ok (Some (Spent _)) =>
      t <- try_spend_taker_payment s secret_hash;
      Ret (result_map (mkRecovered SpentOtherPayment (ticker (taker_coin s))) t)
  | Ok (Some (Refunded tx)) =>
      recover_err (err "Maker payment was already refunded by {} tx {:02x}"
                     [ArgStr (ticker (maker_coin s)); ArgBytes (tx_hash tx)])
  | Err e => recover_err (err "Error {} when trying to find maker payment spend" [ArgStr e])
  | Ok None => recover_refund s payment
  end.

Definition recover_funds (s : MakerSwap) : M (result SwapError RecoveredSwap) :=
  if finished_at s =? 0
  then recover_err (err_str "Swap must be finished before recover funds attempt")
  else if maker_payment_refund (mutable s) is Some _
  then recover_err (err_str "Maker payment is refunded, swap is not recoverable")
  else if (if taker_payment_spend (mutable s) is Some _ then true else false)
          && taker_payment_spend_confirmed (mutable s)
  then recover_err (err_str "Taker payment spend transaction has been sent and confirmed")
  else
    match maker_payment (mutable s) with
    | Some tx => recover_with_payment s (ti_tx_hex tx)
    | None =>
        c <- call (check_if_my_payment_sent MakerSide (check_sent_args s));
        match c with
        | Err e => recover_err (err_str e)
        | Ok None => recover_err (err_str "Maker payment transaction was not found")
        | Ok (Some tx) => recover_with_payment s (tx_hex tx)
        end
    end.

End Recover.
