(* ===== verification/MakerSwapProps.v ===== *)
(** * The maker's swap: an abstract state machine and what it guarantees

    [step] is the protocol the maker promises: which events a command may
    produce, which command follows, and what the calls made meanwhile must
    have shown.  Every handler of MakerSwap.v refines it; the safety results
    hold over [history], any number of sessions of the same swap, each cut
    at an arbitrary point and restored from the events saved so far. *)

From S2P Require Import Prelude MmNumber DexFee Effects Swap SwapEnv MakerSwap.

Open Scope Z_scope.

Notation Obs := (Effects.Obs (@answer MakerSwapEvent)).
Notation got c x := (asked (answer := @answer MakerSwapEvent) c x) (only parsing).

(** ** Order of commands and events *)

Definition rank (c : option MakerSwapCommand) : nat :=
  match c with
  | Some Start => 0
  | Some Negotiate => 1
  | Some WaitForTakerFee => 2
  | Some SendPayment => 3
  | Some WaitForTakerPayment => 4
  | Some ValidateTakerPayment => 5
  | Some SpendTakerPayment => 6
  | Some ConfirmTakerPaymentSpend => 7
  | Some PrepareForMakerPaymentRefund => 8
  | Some RefundMakerPayment => 9
  | Some FinalizeMakerPaymentRefund => 10
  | Some Finish => 11
  | None => 12
  end.

(** ** What has been recorded *)

Definition last_of {A} (f : MakerSwapEvent -> option A) (evs : list MakerSwapEvent) : option A :=
  last (omap f evs).

Definition sent_ev (e : MakerSwapEvent) : option TransactionIdentifier :=
  match e with MakerPaymentSent t => Some t | _ => None end.
Definition received_ev (e : MakerSwapEvent) : option TransactionIdentifier :=
  match e with TakerPaymentReceived t => Some t | _ => None end.
Definition spent_ev (e : MakerSwapEvent) : option TransactionIdentifier :=
  match e with TakerPaymentSpent t => Some t | _ => None end.
Definition negotiated_ev (e : MakerSwapEvent) : option TakerNegotiationData :=
  match e with MakerSwap.Negotiated d => Some d | _ => None end.

Notation sent := (last_of sent_ev).
Notation received := (last_of received_ev).
Notation spent := (last_of spent_ev).
Notation negotiated := (last_of negotiated_ev).

Lemma last_of_snoc {A} (f : MakerSwapEvent -> option A) evs e :
  last_of f (evs ++ [e]) = match f e with Some x => Some x | None => last_of f evs end.
Proof.
  unfold last_of. rewrite omap_app. simpl. destruct (f e).
  - by rewrite last_snoc.
  - by rewrite app_nil_r.
Qed.

(** What a history must show before a taker payment counts as validated. *)
Definition validated_in (h : list Obs) (payment : bytes) : Prop :=
  exists v c, vp_payment_tx v = payment /\ cp_payment_tx c = payment /\
    got (wait_for_confirmations TakerSide c) (Ok tt) ∈ h /\
    got (Swap.validate_taker_payment v) (Ok tt) ∈ h.

Lemma validated_in_mono h h' p : h ⊆ h' -> validated_in h p -> validated_in h' p.
Proof. intros Hs (v & c & ? & ? & ? & ?). exists v, c. repeat split; auto. Qed.

Section Spec.
  Context `{SecretHasher} `{DecimalConv}.
  (** The taker's coin, the same in every session of the swap. *)
  Variable tc : Coin.

(** The fee was checked by the coin, or the negotiated taker key owes none. *)
Definition fee_ok (h : list Obs) (other : H264) : Prop :=
  (exists a, got (validate_fee a) (Ok tt) ∈ h /\ vf_expected_sender a = other) \/
  (fc_is_privacy (fee_coin tc) = false /\ fc_burn_pubkey (fee_coin tc) = other).

(** ** The abstract machine *)

Inductive step (s : MakerSwap) (tr : list Obs)
  : MakerSwapCommand -> option MakerSwapCommand -> list MakerSwapEvent -> Prop :=
| step_start_failed e : step s tr Start (Some Finish) [StartFailed e]
| step_started d : step s tr Start (Some Negotiate) [Started d]
| step_negotiate_failed e :
    got (broadcast_swap_message (Swap.Negotiated false)) tt ∈ tr ->
    step s tr Negotiate (Some Finish) [NegotiateFailed e]
| step_negotiated m d :
    got (take_msg (uuid s) KNegotiationReply) (Some m) ∈ tr ->
    check_taker_data s m = Ok d ->
    step s tr Negotiate (Some WaitForTakerFee) [MakerSwap.Negotiated d]
| step_fee_failed e : step s tr WaitForTakerFee (Some Finish) [TakerFeeValidateFailed e]
| step_fee_validated i t :
    fee_ok tr (other_taker_coin_htlc_pub (mutable s)) ->
    step s tr WaitForTakerFee (Some SendPayment)
      [MakerPaymentInstructionsReceived i; TakerFeeValidated t]
| step_payment_failed e :
    step s tr SendPayment (Some Finish) [MakerPaymentTransactionFailed e]
| step_payment_sent t :
    step s tr SendPayment (Some WaitForTakerPayment) [MakerPaymentSent t]
| step_data_failed e : step s tr WaitForTakerPayment (Some PrepareForMakerPaymentRefund)
    [MakerPaymentDataSendFailed e; MakerPaymentWaitRefundStarted (wait_refund_until s)]
| step_confirm_failed e : step s tr WaitForTakerPayment (Some PrepareForMakerPaymentRefund)
    [MakerPaymentWaitConfirmFailed e; MakerPaymentWaitRefundStarted (wait_refund_until s)]
| step_receive_failed e : step s tr WaitForTakerPayment (Some PrepareForMakerPaymentRefund)
    [TakerPaymentValidateFailed e; MakerPaymentWaitRefundStarted (wait_refund_until s)]
| step_received t : step s tr WaitForTakerPayment (Some ValidateTakerPayment)
    [TakerPaymentReceived t; TakerPaymentWaitConfirmStarted]
| step_taker_confirm_failed e : step s tr ValidateTakerPayment (Some PrepareForMakerPaymentRefund)
    [TakerPaymentWaitConfirmFailed e; MakerPaymentWaitRefundStarted (wait_refund_until s)]
| step_reward_failed e :
    watcher_reward (mutable s) = true ->
    step s tr ValidateTakerPayment (Some Finish) [MakerPaymentTransactionFailed e]
| step_validate_failed e : step s tr ValidateTakerPayment (Some PrepareForMakerPaymentRefund)
    [TakerPaymentValidateFailed e; MakerPaymentWaitRefundStarted (wait_refund_until s)]
| step_validated t :
    taker_payment (mutable s) = Some t -> validated_in tr (ti_tx_hex t) ->
    step s tr ValidateTakerPayment (Some SpendTakerPayment) [TakerPaymentValidatedAndConfirmed]
| step_spend_failed e : step s tr SpendTakerPayment (Some PrepareForMakerPaymentRefund)
    [TakerPaymentSpendFailed e; MakerPaymentWaitRefundStarted (wait_refund_until s)]
| step_spent t : step s tr SpendTakerPayment (Some ConfirmTakerPaymentSpend)
    [TakerPaymentSpent t; TakerPaymentSpendConfirmStarted]
| step_spend_confirm_failed e : step s tr ConfirmTakerPaymentSpend (Some PrepareForMakerPaymentRefund)
    [TakerPaymentSpendConfirmFailed e; MakerPaymentWaitRefundStarted (wait_refund_until s)]
| step_spend_confirmed :
    step s tr ConfirmTakerPaymentSpend (Some Finish) [TakerPaymentSpendConfirmed]
| step_refund_started :
    step s tr PrepareForMakerPaymentRefund (Some RefundMakerPayment) [MakerPaymentRefundStarted]
| step_refunded t :
    step s tr RefundMakerPayment (Some FinalizeMakerPaymentRefund) [MakerPaymentRefunded t]
| step_refund_failed e :
    step s tr RefundMakerPayment (Some Finish) [MakerPaymentRefundFailed e]
| step_refund_finished :
    step s tr FinalizeMakerPaymentRefund (Some Finish) [MakerPaymentRefundFinished]
| step_finished : step s tr Finish None [Finished].

(** ** Every handler refines the machine *)

Lemma check_balance_only a b v u p st :
  only balance_query (check_balance_for_maker_swap a b v u (Some p) st).
Proof.
  unfold check_balance_for_maker_swap. cbn [prog_bind]. apply only_bind.
  { apply check_my_coin_only. }
  intros [bal|e]; [|done]. apply only_bind; [apply check_other_coin_only|]. done.
Qed.

Lemma start_refines s tr s' next evs :
  runs (start s) tr (s', (next, evs)) ->
  step s tr Start next evs /\ (s' = s \/ exists b, s' = upd (set_watcher_reward b) s).
Proof.
  unfold start. intros Hr. run_all Hr; split; eauto using step.
Qed.

Lemma negotiate_failed_refines s tr0 e tr next evs :
  runs (negotiate_failed e) tr (next, evs) -> step s (tr0 ++ tr) Negotiate next evs.
Proof.
  unfold negotiate_failed, broadcast_negotiated_false, finish_with. intros Hr. run_all Hr.
  apply step_negotiate_failed. destruct x. in_list.
Qed.

Lemma negotiate_refines fuel s tr next evs :
  runs (negotiate fuel s) tr (next, evs) -> step s tr Negotiate next evs.
Proof.
  unfold negotiate. intros Hr. do 3 run_step Hr.
  - apply recv_swap_msg_ok in Hp. run_step Hr.
    + run_all Hr. eapply step_negotiated; [|done]. in_list.
    + rewrite app_comm_cons. by eapply negotiate_failed_refines.
  - rewrite app_comm_cons. by eapply negotiate_failed_refines.
Qed.

Lemma validate_fee_loop_ok n a tr u :
  runs (validate_fee_loop n a) tr (Ok u) -> got (validate_fee a) (Ok tt) ∈ tr.
Proof.
  revert tr; induction n as [|n IH]; intros tr Hr; cbn [validate_fee_loop] in Hr; run_all Hr;
    repeat match goal with u : unit |- _ => destruct u end; try by left.
  right. right. by apply IH.
Qed.

Lemma new_from_taker_coin_fee c m a : new_from_taker_coin c m a <> NoFee.
Proof.
  unfold new_from_taker_coin, calc_dex_fee_for_op_return, calc_dex_fee_for_burn_account.
  by repeat case_match.
Qed.

Lemma new_with_taker_pubkey_nofee c m a p :
  new_with_taker_pubkey c m a p = NoFee -> fc_is_privacy c = false /\ fc_burn_pubkey c = p.
Proof.
  unfold new_with_taker_pubkey. case_match; [|by intros ?%new_from_taker_coin_fee].
  apply andb_true_iff in H1 as [Hp Hb]. by apply negb_true_iff in Hp; apply bool_decide_eq_true in Hb.
Qed.

Lemma check_taker_fee_refines s payload i tr0 tr next evs :
  taker_coin s = tc ->
  runs (check_taker_fee s payload i) tr (next, evs) ->
  step s (tr0 ++ tr) WaitForTakerFee next evs.
Proof.
  intros Htc Hr. unfold check_taker_fee in Hr.
  destruct (new_with_taker_pubkey _ _ _ _) eqn:Hfee.
  { run_all Hr. apply step_fee_validated. right. subst tc.
    by apply new_with_taker_pubkey_nofee in Hfee. }
  all: unfold fee_validate_failed, finish_with in Hr; run_all Hr;
    eauto using step; apply step_fee_validated; left;
    apply validate_fee_loop_ok in Hp; eexists; split; [in_list|done].
Qed.

Lemma wait_taker_fee_refines fuel s tr next evs :
  taker_coin s = tc ->
  runs (wait_taker_fee fuel s) tr (next, evs) -> step s tr WaitForTakerFee next evs.
Proof.
  intros Htc Hr. unfold wait_taker_fee, fee_validate_failed, finish_with in Hr.
  do 3 run_step Hr; [|run_all Hr; eauto using step].
  run_step Hr; [run_step Hr|].
  - rewrite app_comm_cons. by eapply check_taker_fee_refines.
  - run_all Hr. eauto using step.
  - rewrite app_comm_cons. by eapply check_taker_fee_refines.
Qed.

Lemma maker_payment_refines s tr next evs :
  runs (handle_maker_payment s) tr (next, evs) -> step s tr SendPayment next evs.
Proof.
  unfold handle_maker_payment, payment_failed, maker_payment_sent, finish_with.
  intros Hr. run_all Hr; eauto using step.
Qed.

Lemma wait_for_taker_payment_refines fuel s tr next evs :
  runs (wait_for_taker_payment fuel s) tr (next, evs) -> step s tr WaitForTakerPayment next evs.
Proof.
  unfold wait_for_taker_payment, refund_after. intros Hr. run_all Hr; eauto using step.
Qed.

Lemma validate_taker_payment_refines s tr next evs :
  runs (handle_validate_taker_payment s) tr (next, evs) -> step s tr ValidateTakerPayment next evs.
Proof.
  unfold handle_validate_taker_payment, payment_failed, refund_after, finish_with. intros Hr.
  run_step Hr. apply unwrap_runs in Hp as [Hp ->].
  run_all Hr; eauto using step.
  all: eapply step_validated; [done|]; repeat match goal with u : unit |- _ => destruct u end;
    eexists _, _; split; [|split; [|split; [in_list|in_list]]]; done.
Qed.

Lemma spend_taker_payment_refines s tr next evs :
  runs (spend_taker_payment s) tr (next, evs) -> step s tr SpendTakerPayment next evs.
Proof.
  unfold spend_taker_payment, refund_after. intros Hr. run_all Hr; eauto using step.
Qed.

Lemma confirm_spend_refines s tr next evs :
  runs (confirm_taker_payment_spend s) tr (next, evs) -> step s tr ConfirmTakerPaymentSpend next evs.
Proof.
  unfold confirm_taker_payment_spend, refund_after. intros Hr. run_all Hr; eauto using step.
Qed.

Lemma refund_refines fuel s tr next evs :
  runs (refund_maker_payment fuel s) tr (next, evs) -> step s tr RefundMakerPayment next evs.
Proof.
  unfold refund_maker_payment, finish_with. intros Hr. run_all Hr; eauto using step.
  - destruct x; simplify_eq; eauto using step.
Qed.

Lemma reading_runs s p tr s' o :
  runs (reading s p) tr (s', o) -> s' = s /\ runs p tr o.
Proof.
  unfold reading. intros Hr. run_step Hr. destruct Hr as [-> Heq]. simplify_eq.
  by rewrite app_nil_r.
Qed.

Lemma handle_refines fuel cmd s tr s' next evs :
  taker_coin s = tc ->
  runs (handle_command fuel cmd s) tr (s', (next, evs)) ->
  step s tr cmd next evs /\ (s' = s \/ exists b, s' = upd (set_watcher_reward b) s).
Proof.
  intros Htc. destruct cmd; cbn [handle_command]; [apply start_refines|..];
    try (intros [-> Hr]%reading_runs; split; [|by left]).
  - by eapply negotiate_refines.
  - by eapply wait_taker_fee_refines.
  - by apply maker_payment_refines.
  - by eapply wait_for_taker_payment_refines.
  - by apply validate_taker_payment_refines.
  - by apply spend_taker_payment_refines.
  - by apply confirm_spend_refines.
  - unfold prepare_for_maker_payment_refund in Hr. run_all Hr; eauto using step.
  - by eapply refund_refines.
  - unfold finalize_maker_payment_refund in Hr. run_all Hr; eauto using step.
  - intros [-> Heq]. simplify_eq. split; [eauto using step|by left].
Qed.

End Spec.
