(* ===== verification/MakerSwapSafety.v ===== *)
(** * Safety of the maker's swap across crashes and restarts

    [good_call] says what must have happened before the three calls that move
    money; [history] is everything a swap does over any number of sessions;
    [Inv] ties the saved events to what the history has shown. *)

From S2P Require Import Prelude MmNumber DexFee Effects Swap SwapEnv MakerSwap MakerSwapProps.

Open Scope Z_scope.

(** ** Calls that move money *)

(** The calls a guarded handler may make at any time: none moves money. *)
Definition quiet (c : Call MakerSwapEvent) : Prop :=
  match c with
  | send_maker_payment _ | send_maker_spends_taker_payment _
  | send_maker_refunds_payment _ | save_event _ _ | save_swap _ => False
  | _ => True
  end.

Section Safety.
  Context `{SecretHasher} `{DecimalConv}.
  Variable tc : Coin.
  Variable fuel : nat.

Definition good_call (h : list Obs) (c : Call MakerSwapEvent) : Prop :=
  match c with
  | send_maker_payment a =>
      (exists d, attempted (MakerSwap.Negotiated d) h /\
                 fee_ok tc h (neg_other_taker_coin_htlc_pub d)) /\
      checked_unsent MakerSide h a
  | send_maker_spends_taker_payment a => validated_in h (spend_other_payment_tx a)
  | send_maker_refunds_payment a =>
      (exists t, attempted (MakerPaymentSent t) h /\ rf_payment_tx a = ti_tx_hex t) /\
      got (can_refund_htlc MakerSide (rf_time_lock a)) (Ok CanRefundNow) ∈ h
  | _ => True
  end.

Notation Safe := (safe good_call).

(** ** Sessions *)

Definition same_coins (s : MakerSwap) : Prop := taker_coin s = tc.

(** The state a swap is created with. *)
Definition is_new (s : MakerSwap) : Prop :=
  exists tp ma ta mp u mo cs mc pl pk sec, s = MakerSwap_new tp ma ta mp u mo cs mc tc pl pk sec.

(** [history h evs]: [h] is all a swap has done so far, [evs] the events in
    the database.  The last session may have been cut anywhere. *)
Inductive history : list Obs -> list MakerSwapEvent -> Prop :=
| history_new s tr evs :
    is_new s -> traces (run_new_swap fuel s) tr -> persisted tr evs -> history tr evs
| history_restart h evs pub now mc saved s cmd tr evs' :
    history h evs -> map event (sv_events saved) = evs ->
    load_from_saved pub now mc tc saved = Ok (s, Some cmd) ->
    traces (swap_loop fuel MAX_ROUNDS cmd s) tr -> persisted tr evs' ->
    history (h ++ tr) (evs ++ evs').

(** ** The swap in memory and the saved events *)

Record Rel (s : MakerSwap) (evs : list MakerSwapEvent) : Prop := {
  rel_coin : taker_coin s = tc;
  rel_sent : maker_payment (mutable s) = sent evs;
  rel_received : taker_payment (mutable s) = received evs;
  rel_spent : taker_payment_spend (mutable s) = spent evs;
  rel_neg : other_taker_coin_htlc_pub (mutable s) =
    default H264_default (neg_other_taker_coin_htlc_pub <$> negotiated evs) }.

Lemma Rel_new s : is_new s -> Rel s [].
Proof. intros (? & ? & ? & ? & ? & ? & ? & ? & ? & ? & ? & ->). by constructor. Qed.

Lemma Rel_apply s evs now e : Rel s evs -> Rel (apply_event now e s) (evs ++ [e]).
Proof.
  intros [H1 H2 H3 H4 H5]. destruct s, mutable.
  constructor; rewrite ?last_of_snoc; destruct e; simpl in *; try done;
    by repeat case_match.
Qed.

Lemma Rel_watcher s evs b : Rel s evs -> Rel (upd (set_watcher_reward b) s) evs.
Proof. intros [H1 H2 H3 H4 H5]. destruct s. by constructor. Qed.

Lemma Rel_replay now l s evs : Rel s evs -> Rel (replay now l s) (evs ++ l).
Proof.
  revert s evs; induction l as [|e l IH]; intros s evs Hr; [by rewrite app_nil_r|].
  simpl. rewrite (app_assoc evs [e] l : evs ++ e :: l = _). by apply IH, Rel_apply.
Qed.

Definition cmd_of (evs : list MakerSwapEvent) : option MakerSwapCommand :=
  match last evs with
  | None => Some Start
  | Some e => get_command e
  end.

Lemma cmd_of_snoc evs e : cmd_of (evs ++ [e]) = get_command e.
Proof. unfold cmd_of. by rewrite last_snoc. Qed.

Lemma load_Rel pub now mc saved s cmd :
  load_from_saved pub now mc tc saved = Ok (s, cmd) ->
  Rel s (map event (sv_events saved)) /\ cmd = cmd_of (map event (sv_events saved)).
Proof.
  unfold load_from_saved. destruct (sv_events saved) as [|first rest]; [done|].
  destruct (event first) as [d| | | | | | | | | | | | | | | | | | | | | | | | | |] eqn:Hf; try done.
  intros [= <- <-]. simpl. rewrite Hf. split.
  - eapply (Rel_replay now (map event rest) _ [Started d]).
    match goal with |- Rel (upd _ ?s0) _ =>
      destruct (Rel_apply s0 [] now (Started (refresh_contracts mc tc d))) as [? ? ? ? ?]
    end; [apply Rel_new; by repeat eexists|by constructor].
  - unfold cmd_of. simpl. destruct (map event rest) using rev_ind; [done|].
    by rewrite !app_comm_cons, !last_snoc.
Qed.

(** ** The invariant *)

(** What the events before a command must include. *)
Record stage_ok (evs : list MakerSwapEvent) (c : option MakerSwapCommand) : Prop := {
  stage_neg : (2 <= rank c <= 3)%nat -> is_Some (negotiated evs);
  stage_sent : (4 <= rank c <= 10)%nat -> is_Some (sent evs);
  stage_received : (5 <= rank c <= 7)%nat -> is_Some (received evs);
  stage_spent : rank c = 7%nat -> is_Some (spent evs) }.

(** How a swap whose payment was sent may end. *)
Definition settled (evs : list MakerSwapEvent) : Prop :=
  TakerPaymentSpendConfirmed ∈ evs \/ (exists t, MakerPaymentRefunded t ∈ evs) \/
  (exists e, MakerPaymentRefundFailed e ∈ evs) \/
  (exists e, MakerPaymentTransactionFailed e ∈ evs).

Record Inv (h : list Obs) (evs : list MakerSwapEvent) : Prop := {
  inv_safe : Safe h;
  inv_attempted : forall e, e ∈ evs -> attempted e h;
  inv_rank : forall e, e ∈ evs -> (rank (get_command e) <= rank (cmd_of evs))%nat;
  inv_stage : forall e, e ∈ evs -> stage_ok evs (get_command e);
  inv_fee : forall t, TakerFeeValidated t ∈ evs -> exists d, negotiated evs = Some d /\
    fee_ok tc h (neg_other_taker_coin_htlc_pub d);
  inv_validated : TakerPaymentValidatedAndConfirmed ∈ evs -> exists t,
    received evs = Some t /\ validated_in h (ti_tx_hex t);
  inv_settled : forall e, e ∈ evs -> (11 <= rank (get_command e))%nat ->
    is_Some (sent evs) -> settled evs;
  inv_finished : Finished ∈ evs -> exists e, e ∈ evs /\ get_command e = Some Finish }.

Lemma fee_ok_mono h h' o : h ⊆ h' -> fee_ok tc h o -> fee_ok tc h' o.
Proof. intros Hs [(a & ? & ?)|?]; [left; exists a; auto|by right]. Qed.

Lemma Inv_nil : Inv [] [].
Proof. constructor; try (intros; exfalso; set_solver). apply safe_nil. Qed.

Lemma Inv_grow h t evs : Inv h evs -> Safe (h ++ t) -> Inv (h ++ t) evs.
Proof.
  assert (h ⊆ h ++ t) as Hs by set_solver.
  intros [H1 H2 H3 H4 H5 H6 H7 H8] Hsafe. constructor; auto.
  - eauto using attempted_mono.
  - intros t' (d & ? & ?)%H5. eauto using fee_ok_mono.
  - intros (t' & ? & ?)%H6. eauto using validated_in_mono.
Qed.

Lemma last_of_is_Some {A} (f : MakerSwapEvent -> option A) evs e :
  is_Some (last_of f evs) -> is_Some (last_of f (evs ++ [e])).
Proof. rewrite last_of_snoc. destruct (f e); eauto. Qed.

Lemma stage_ok_snoc evs e c : stage_ok evs c -> stage_ok (evs ++ [e]) c.
Proof. intros [H1 H2 H3 H4]. constructor; eauto using last_of_is_Some. Qed.

Lemma settled_snoc evs e : settled evs -> settled (evs ++ [e]).
Proof. unfold settled. setoid_rewrite elem_of_app. naive_solver. Qed.

(** Appending an event to the saved ones. *)
Lemma Inv_snoc h evs e :
  Inv h evs -> attempted e h ->
  (rank (cmd_of evs) <= rank (get_command e))%nat ->
  stage_ok (evs ++ [e]) (get_command e) ->
  (forall t, e = TakerFeeValidated t -> exists d, negotiated evs = Some d /\
     fee_ok tc h (neg_other_taker_coin_htlc_pub d)) ->
  (e = TakerPaymentValidatedAndConfirmed -> exists t,
     received evs = Some t /\ validated_in h (ti_tx_hex t)) ->
  (e = Finished -> cmd_of evs = Some Finish) ->
  ((11 <= rank (get_command e))%nat -> is_Some (sent (evs ++ [e])) -> settled (evs ++ [e])) ->
  Inv h (evs ++ [e]).
Proof.
  intros [H1 H2 H3 H4 H5 H6 H7 H8] Hatt Hrank Hstage Hfee Hval Hfin Hset. constructor.
  - done.
  - intros e' [?|He%list_elem_of_singleton]%elem_of_app; [|subst e']; auto.
  - intros e' [He|He%list_elem_of_singleton]%elem_of_app; [|subst e']; rewrite cmd_of_snoc; [|done].
    etrans; [by apply H3|done].
  - intros e' [He|He%list_elem_of_singleton]%elem_of_app; [|subst e']; [|done]. auto using stage_ok_snoc.
  - intros t Ht. rewrite last_of_snoc.
    apply elem_of_app in Ht as [Ht|Ht%list_elem_of_singleton]; [|subst e; by eapply Hfee].
    destruct (negotiated_ev e) eqn:He; [|by eapply H5].
    destruct e; simplify_eq/=. exfalso. specialize (H3 _ Ht). simpl in *. lia.
  - intros Ht. rewrite last_of_snoc.
    apply elem_of_app in Ht as [Ht|Ht%list_elem_of_singleton]; [|subst e; by eapply Hval].
    destruct (received_ev e) eqn:He; [|by eapply H6].
    destruct e; simplify_eq/=. exfalso. specialize (H3 _ Ht). simpl in *. lia.
  - intros e' He' Hr' Hs. apply elem_of_app in He' as [He'|He'%list_elem_of_singleton]; [|subst e'; auto].
    rewrite last_of_snoc in Hs. destruct (sent_ev e) eqn:He.
    + destruct e; simplify_eq/=. specialize (H3 _ He'). simpl in *. lia.
    + apply settled_snoc. eauto.
  - intros [Hf|Hf%list_elem_of_singleton]%elem_of_app.
    + destruct (H8 Hf) as (e' & ? & ?). exists e'. split; [set_solver|done].
    + specialize (Hfin (eq_sym Hf)). unfold cmd_of in Hfin.
      destruct (last evs) as [e'|] eqn:Hl; [|done]. exists e'.
      split; [|done]. apply elem_of_app. left. by apply last_Some_elem_of.
Qed.

Lemma cmd_stage h evs cmd :
  Inv h evs -> cmd_of evs = Some cmd -> cmd <> Start -> stage_ok evs (Some cmd).
Proof.
  intros HI. unfold cmd_of. destruct (last evs) as [e|] eqn:Hl; [|congruence].
  intros <- _. by apply (inv_stage _ _ HI), last_Some_elem_of.
Qed.

Lemma cmd_start evs : cmd_of evs = Some Start -> evs = [].
Proof.
  unfold cmd_of. destruct (last evs) as [e|] eqn:Hl; [by destruct e|].
  by apply last_None in Hl.
Qed.

Lemma stage_ok_start c : (rank c <= 1 \/ 11 <= rank c)%nat -> forall evs, stage_ok evs c.
Proof. intros Hc evs. constructor; intros; lia. Qed.

Lemma prefix_cases (p : list MakerSwapEvent) a b :
  p `prefix_of` [a; b] -> p = [] \/ p = [a] \/ p = [a; b].
Proof.
  intros [k Hk]. destruct p as [|x [|y [|z p]]]; simplify_eq/=; auto.
Qed.

Lemma prefix_one (p : list MakerSwapEvent) a : p `prefix_of` [a] -> p = [] \/ p = [a].
Proof. intros [k Hk]. destruct p as [|x [|y p]]; simplify_eq/=; auto. Qed.

Lemma last_of_in {A} (f : MakerSwapEvent -> option A) evs x :
  last_of f evs = Some x -> exists e, e ∈ evs /\ f e = Some x.
Proof. intros Hl%last_Some_elem_of. by apply list_elem_of_omap in Hl. Qed.

Lemma not_sent_yet h evs : Inv h evs -> (rank (cmd_of evs) <= 3)%nat -> sent evs = None.
Proof.
  intros HI Hr. destruct (sent evs) as [t|] eqn:Ht; [|done].
  apply last_of_in in Ht as (e & He & Hs). apply (inv_rank _ _ HI) in He.
  destruct e; simplify_eq/=. lia.
Qed.

(** The side conditions of [Inv_snoc] for a concrete event. *)
Ltac solve_stage :=
  constructor; simpl; intros; rewrite ?last_of_snoc; simpl; eauto; try lia;
  try match goal with Hi : _ -> is_Some ?x |- is_Some ?x => apply Hi; lia end.

Lemma settled_base h evs cmd :
  Inv h evs -> cmd_of evs = Some cmd -> (10 <= rank (Some cmd))%nat -> is_Some (sent evs) ->
  settled evs.
Proof.
  intros HI Hcmd Hr Hs. unfold cmd_of in Hcmd. destruct (last evs) as [e|] eqn:Hl.
  2: { injection Hcmd as <-. simpl in Hr. lia. }
  apply last_Some_elem_of in Hl. destruct (decide (11 <= rank (get_command e))%nat).
  - by eapply (inv_settled _ _ HI).
  - rewrite Hcmd in *. destruct e; simplify_eq/=; try lia. right. left. eauto.
Qed.

Lemma in_snoc (evs : list MakerSwapEvent) e : e ∈ evs ++ [e].
Proof. apply elem_of_app. right. left. Qed.

(** [Hno]: nothing sent before [SendPayment]; [Hb]: [settled_base]. *)
Ltac solve_settled Hno Hb :=
  let Hr := fresh "Hr" in let Hs := fresh "Hs" in
  simpl; intros Hr Hs; try lia; rewrite ?last_of_snoc in Hs; simpl in Hs;
  first [ by rewrite Hno in Hs by lia; destruct Hs
        | apply settled_snoc, Hb; [lia|done]
        | left; by apply in_snoc
        | right; left; eexists; by apply in_snoc
        | right; right; left; eexists; by apply in_snoc
        | right; right; right; eexists; by apply in_snoc ].

Ltac snoc_inv Hatt :=
  apply Inv_snoc; [|by apply Hatt; rewrite ?elem_of_cons; auto
                  |rewrite ?cmd_of_snoc; simpl; lia|solve_stage|by intros|by intros|by intros|].

(** The invariant survives any prefix of what a machine step may save. *)
Lemma Inv_step h evs s tr cmd next events p :
  Inv h evs -> cmd_of evs = Some cmd -> Rel s evs -> step tc s tr cmd next events ->
  tr ⊆ h -> p `prefix_of` events -> (forall e, e ∈ p -> attempted e h) -> Inv h (evs ++ p).
Proof.
  intros HI Hcmd HR Hstep Htr Hp Hatt.
  assert (stage_ok evs (Some cmd)) as [S1 S2 S3 S4].
  { destruct (decide (cmd = Start)) as [->|Hne]; [apply stage_ok_start; simpl; lia|].
    by eapply cmd_stage. }
  assert (Hno : (rank (Some cmd) <= 3)%nat -> sent evs = None).
  { intros Hr. apply (not_sent_yet h); [done|]. by rewrite Hcmd. }
  pose proof (settled_base h evs cmd HI Hcmd) as Hb.
  assert (Hrk : rank (cmd_of evs) = rank (Some cmd)) by by rewrite Hcmd.
  simpl in *.
  inversion Hstep; subst; simpl in *;
    first [apply prefix_cases in Hp as [->|[->| ->]] | apply prefix_one in Hp as [->| ->]];
    try (by rewrite app_nil_r).
  all: try match goal with |- Inv _ (_ ++ [?a; ?b]) =>
         rewrite (app_assoc evs [a] [b] : evs ++ [a; b] = _) end.
  all: try (snoc_inv Hatt; [done|solve_settled Hno Hb]).
  all: try (snoc_inv Hatt; [snoc_inv Hatt; [done|solve_settled Hno Hb]|solve_settled Hno Hb]).
  - apply Inv_snoc; [snoc_inv Hatt; [done|solve_settled Hno Hb]
                    |by apply Hatt; rewrite !elem_of_cons; auto
                    |rewrite cmd_of_snoc; simpl; lia|solve_stage| |by intros|by intros|solve_settled Hno Hb].
    intros _ _. rewrite last_of_snoc. simpl. destruct S1 as [d Hd]; [lia|]. exists d. split; [done|].
    eapply fee_ok_mono; [done|]. by rewrite (rel_neg _ _ HR), Hd in H1.
  - apply Inv_snoc; [done|by apply Hatt; left|simpl; lia|solve_stage|by intros| |by intros|solve_settled Hno Hb].
    intros _. exists t. rewrite <- (rel_received _ _ HR). split; [done|].
    by eapply validated_in_mono.
Qed.

(** ** The run loop *)

(** No call of the loop or of a polling program moves money. *)
Definition harmless (c : Call MakerSwapEvent) : Prop :=
  match c with save_event _ _ | save_swap _ => True | _ => quiet c end.

Lemma harmless_good h c : harmless c -> good_call h c.
Proof. by destruct c. Qed.

Lemma announce_only e s : only (fun c => quiet c) (announce_event e s).
Proof. by destruct e. Qed.

Lemma quiet_not_save c : quiet c -> not_save c.
Proof. by destruct c. Qed.

Lemma announce_not_save e s tr :
  traces (announce_event e s) tr -> Forall (fun o => not_save (obs_call o)) tr.
Proof. apply only_traces. eapply only_weaken; [apply quiet_not_save|apply announce_only]. Qed.

Lemma process_event_traces e s tr p :
  traces (process_event e s) tr -> persisted tr p ->
  p `prefix_of` [e] /\ forall e', e' ∈ p -> attempted e' tr.
Proof.
  unfold process_event. intros [Ht|(t & t1 & t2 & -> & Hr & Ht)]%traces_bind Hp.
  { apply persisted_not_save in Hp as ->; [|by eapply announce_not_save].
    split; [apply prefix_nil|set_solver]. }
  apply persisted_app in Hp; [|by eapply announce_not_save, runs_traces].
  assert (forall o, obs_call o = save_event t.1 e -> persisted [o] p ->
    p `prefix_of` [e] /\ forall e', e' ∈ p -> attempted e' (t1 ++ [o])) as Hone.
  { intros o Ho [->| ->]%persisted_one; [split; [apply prefix_nil|set_solver]|].
    rewrite Ho. split; [done|]. intros e' ->%list_elem_of_singleton.
    apply attempted_app. right. destruct o as [c x]. simpl in Ho. subst c.
    eapply attempted_save. by left. }
  simpl in Ht. destruct Ht as [->|[->|(x & tr' & -> & Ht)]].
  - apply persisted_nil in Hp as ->. split; [apply prefix_nil|set_solver].
  - by apply Hone.
  - assert (tr' = []) as -> by by destruct x. by apply Hone.
Qed.

Lemma process_event_runs e s tr s' :
  runs (process_event e s) tr s' ->
  exists now ts t1, s' = apply_event now e s /\
    tr = t1 ++ [got (save_event ts e) (Ok tt)] /\
    Forall (fun o => not_save (obs_call o)) t1.
Proof.
  unfold process_event. intros ([ts now] & t1 & t2 & -> & Ha & Hr)%runs_bind.
  simpl in Hr. destruct Hr as ([u|er] & t3 & -> & Hr); [|done]. destruct Hr as [-> ->], u.
  exists now, ts, t1. split; [done|]. split; [done|]. by eapply announce_not_save, runs_traces.
Qed.

Lemma process_events_runs es s tr s' :
  runs (process_events es s) tr s' ->
  (forall e, e ∈ es -> attempted e tr) /\
  (forall evs, Rel s evs -> Rel s' (evs ++ es)) /\
  (forall t p, persisted (tr ++ t) p -> exists p', p = es ++ p' /\ persisted t p').
Proof.
  revert s tr; induction es as [|e es IH]; intros s tr; cbn [process_events].
  { intros [-> ->]. split; [set_solver|]. split; [by intros; rewrite app_nil_r|]. eauto. }
  intros (s1 & t1 & t2 & -> & He & Hr)%runs_bind.
  apply process_event_runs in He as (now & ts & t0 & -> & -> & Hns).
  apply IH in Hr as (IH1 & IH2 & IH3). split; [|split].
  - intros e' [->|He']%elem_of_cons; apply attempted_app; [left|right; auto].
    apply attempted_app. right. eapply attempted_save. by left.
  - intros evs HR. rewrite (app_assoc evs [e] es : evs ++ e :: es = _). by apply IH2, Rel_apply.
  - intros t p Hp. rewrite <- !app_assoc in Hp. apply persisted_app in Hp; [|done].
    simpl in Hp. apply persisted_cons_ok in Hp as (p1 & -> & Hp).
    apply IH3 in Hp as (p2 & -> & Hp). eauto.
Qed.

Lemma process_events_traces es s tr p :
  traces (process_events es s) tr -> persisted tr p ->
  p `prefix_of` es /\ forall e', e' ∈ p -> attempted e' tr.
Proof.
  revert s tr p; induction es as [|e es IH]; intros s tr p; cbn [process_events].
  { intros -> ->%persisted_nil. split; [done|set_solver]. }
  intros [Ht|(s1 & t1 & t2 & -> & He & Ht)]%traces_bind Hp.
  - destruct (process_event_traces _ _ _ _ Ht Hp) as [Hpre Hatt]. split; [|done].
    etrans; [done|]. by exists es.
  - apply process_event_runs in He as (now & ts & t0 & -> & -> & Hns).
    rewrite <- app_assoc in Hp. apply persisted_app in Hp; [|done].
    apply persisted_cons_ok in Hp as (p1 & -> & Hp).
    destruct (IH _ _ _ Ht Hp) as [Hpre Hatt]. split; [by apply prefix_cons|].
    intros e' [->|He']%elem_of_cons; apply attempted_app; [left|right; auto].
    apply attempted_app. right. eapply attempted_save. by left.
Qed.

Lemma process_events_only es s : only harmless (process_events es s).
Proof.
  revert s; induction es as [|e es IH]; intros s; cbn [process_events]; [done|].
  apply only_bind; [|done]. apply only_bind.
  - eapply only_weaken; [|apply announce_only]. by intros [].
  - intros t. split; [done|]. by intros [].
Qed.

(** ** What the handlers may call *)

Lemma validate_fee_loop_only n a : only quiet (validate_fee_loop n a).
Proof. induction n as [|n IH]; cbn [validate_fee_loop]; walk_only. done. Qed.

Lemma check_taker_fee_only s p i : only quiet (check_taker_fee s p i).
Proof.
  unfold check_taker_fee, fee_validate_failed. destruct (new_with_taker_pubkey _ _ _ _);
    walk_only; apply validate_fee_loop_only.
Qed.

Definition critical_command (cmd : MakerSwapCommand) : bool :=
  match cmd with
  | SendPayment | SpendTakerPayment | RefundMakerPayment => true
  | _ => false
  end.

Lemma handle_quiet cmd s :
  critical_command cmd = false -> only quiet (handle_command fuel cmd s).
Proof.
  destruct cmd; intros Hc; try discriminate Hc; cbn [handle_command];
    try (unfold reading; apply only_bind; [|done]).
  - unfold start. walk_only.
    eapply only_weaken; [|apply check_balance_only]. by intros [].
  - unfold negotiate, negotiate_failed, broadcast_negotiated_false. walk_only.
  - unfold wait_taker_fee, fee_validate_failed. walk_only; apply check_taker_fee_only.
  - unfold wait_for_taker_payment, get_my_payment_data. walk_only.
  - unfold handle_validate_taker_payment, payment_failed. walk_only.
  - unfold confirm_taker_payment_spend. walk_only.
  - unfold prepare_for_maker_payment_refund. walk_only.
  - unfold finalize_maker_payment_refund. walk_only.
  - done.
Qed.

Lemma handle_not_save cmd s : only not_save (handle_command fuel cmd s).
Proof.
  destruct (critical_command cmd) eqn:Hc.
  - destruct cmd; try discriminate Hc; cbn [handle_command]; unfold reading;
      (apply only_bind; [|done]).
    + unfold handle_maker_payment, payment_failed, maker_payment_sent, setup_watcher_reward. walk_only.
    + unfold spend_taker_payment. walk_only.
    + unfold refund_maker_payment. walk_only.
  - eapply only_weaken; [apply quiet_not_save|by apply handle_quiet].
Qed.

(** ** The three handlers that move money *)

Lemma cmd_last evs cmd :
  cmd_of evs = Some cmd -> cmd <> Start -> exists e, e ∈ evs /\ get_command e = Some cmd.
Proof.
  unfold cmd_of. destruct (last evs) as [e|] eqn:Hl; [|congruence].
  intros. exists e. split; [by apply last_Some_elem_of|done].
Qed.

Lemma spend_guarded s h evs :
  Inv h evs -> cmd_of evs = Some SpendTakerPayment -> Rel s evs ->
  guarded good_call h (spend_taker_payment s).
Proof.
  intros HI Hcmd HR. apply cmd_last in Hcmd as (e & He & Hc); [|done].
  destruct e; simplify_eq/=. apply (inv_validated _ _ HI) in He as (t & Ht & Hval).
  rewrite <- (rel_received _ _ HR) in Ht.
  unfold spend_taker_payment. rewrite Ht. split; [done|]. intros now. cbn [prog_bind].
  case_match; [done|]. simpl. split.
  - eapply validated_in_mono; [|done]. set_solver.
  - intros x. eapply (only_guarded harmless); [apply harmless_good|].
    destruct x; walk_only.
Qed.

Lemma refund_guarded s h evs :
  Inv h evs -> cmd_of evs = Some RefundMakerPayment -> Rel s evs ->
  guarded good_call h (refund_maker_payment fuel s).
Proof.
  intros HI Hcmd HR. destruct (cmd_stage _ _ _ HI Hcmd) as [_ [t Ht] _ _]; [done|simpl; lia|].
  unfold refund_maker_payment. rewrite (rel_sent _ _ HR), Ht. cbn [unwrap prog_bind].
  destruct (is_auto_refundable _).
  { by apply (only_guarded quiet); [intros ? [] ?|walk_only]. }
  apply guarded_bind.
  { eapply only_guarded; [|apply wait_can_refund_only]. by intros ? []. }
  intros tr u Hr. apply wait_can_refund_ok in Hr. cbn [prog_bind]. split.
  - split; [|simpl; apply elem_of_app; by right].
    apply last_of_in in Ht as (e & He & Hs). destruct e; simplify_eq/=.
    exists t. split; [|done]. apply (inv_attempted _ _ HI) in He.
    eapply attempted_mono; [|done]. set_solver.
  - intros x. eapply (only_guarded harmless); [apply harmless_good|]. destruct x; walk_only.
Qed.

Lemma fee_evidence s h evs :
  Inv h evs -> cmd_of evs = Some SendPayment -> Rel s evs ->
  exists d, attempted (MakerSwap.Negotiated d) h /\
            fee_ok tc h (neg_other_taker_coin_htlc_pub d).
Proof.
  intros HI Hcmd HR. apply cmd_last in Hcmd as (e & He & Hc); [|done].
  destruct e; simplify_eq/=. apply (inv_fee _ _ HI) in He as (d & Hd & Hfee).
  exists d. split; [|done]. apply last_of_in in Hd as (e & He & Hn).
  destruct e; simplify_eq/=. by apply (inv_attempted _ _ HI).
Qed.

Lemma checked_unsent_now h s h2 reward :
  Forall (fun o => ~ is_payment (obs_call o)) h2 ->
  checked_unsent MakerSide (h ++ got (check_if_my_payment_sent MakerSide (check_sent_args s)) (Ok None) :: h2)
    (send_payment_args s reward).
Proof. intros Hq. exists h, (check_sent_args s), h2. repeat split; try done. Qed.

Lemma payment_guarded s h evs :
  Inv h evs -> cmd_of evs = Some SendPayment -> Rel s evs ->
  guarded good_call h (handle_maker_payment s).
Proof.
  intros HI Hcmd HR. destruct (fee_evidence s h evs HI Hcmd HR) as (d & Hd & Hfee).
  unfold handle_maker_payment, payment_failed, maker_payment_sent, setup_watcher_reward.
  split; [done|]. intros [[tx|]|e]; cbn [prog_bind]; [| |done].
  - apply (only_guarded quiet); [by intros ? []|]. walk_only.
  - split; [done|]. intros now. cbn [prog_bind]. case_match; [done|].
    apply guarded_bind; [apply (only_guarded quiet); [by intros ? []|walk_only]|].
    intros tr [reward|e] Hr; [|done]. cbn [prog_bind].
    assert (Forall (fun o => ~ is_payment (obs_call o)) tr) as Hq.
    { case_match; simpl in Hr; [|by destruct Hr as [-> _]].
      destruct Hr as (x & tr' & -> & -> & _). by repeat constructor; intros []. }
    split.
    + split; [exists d; split|].
      * eapply attempted_mono; [|done]. set_solver.
      * eapply fee_ok_mono; [|done]. set_solver.
      * rewrite <- !app_assoc. apply checked_unsent_now. constructor; [by intros []|done].
    + by intros [].
Qed.

Lemma handle_guarded cmd s h evs :
  Inv h evs -> cmd_of evs = Some cmd -> Rel s evs ->
  guarded good_call h (handle_command fuel cmd s).
Proof.
  intros HI Hcmd HR. destruct (critical_command cmd) eqn:Hc.
  - destruct cmd; try discriminate Hc; cbn [handle_command]; unfold reading;
      (apply guarded_bind; [|done]).
    + by eapply payment_guarded.
    + by eapply spend_guarded.
    + by eapply refund_guarded.
  - eapply (only_guarded quiet); [by intros ? []|by apply handle_quiet].
Qed.

(** ** Sessions keep the invariant *)

Lemma step_next s tr cmd next events evs :
  step tc s tr cmd next events -> cmd_of (evs ++ events) = next.
Proof.
  inversion 1; subst; rewrite ?cmd_of_snoc; try done;
    match goal with |- context [evs ++ [?a; ?b]] =>
      rewrite (app_assoc evs [a] [b] : evs ++ [a; b] = _), cmd_of_snoc end; done.
Qed.

Lemma handle_Rel cmd s tr s' next events evs :
  Rel s evs -> runs (handle_command fuel cmd s) tr (s', (next, events)) ->
  step tc s tr cmd next events /\ Rel s' evs.
Proof.
  intros HR Hr. apply (handle_refines tc) in Hr as [Hstep Hs]; [|by apply (rel_coin _ _ HR)].
  split; [done|]. destruct Hs as [->|[b ->]]; [done|by apply Rel_watcher].
Qed.

(** A complete round: the handler returned and all its events were saved. *)
Lemma Inv_round cmd s s1 s2 next events h evs t1 t2 :
  Inv h evs -> cmd_of evs = Some cmd -> Rel s evs ->
  runs (handle_command fuel cmd s) t1 (s1, (next, events)) ->
  runs (process_events events s1) t2 s2 ->
  Inv ((h ++ t1) ++ t2) (evs ++ events) /\ Rel s2 (evs ++ events) /\
  cmd_of (evs ++ events) = next /\ step tc s t1 cmd next events.
Proof.
  intros HI Hcmd HR Hr Hpe. destruct (handle_Rel _ _ _ _ _ _ _ HR Hr) as [Hstep HR1].
  destruct (process_events_runs _ _ _ _ Hpe) as (Hatt & HRel & _).
  assert (Safe (h ++ t1)) as Hs1.
  { eapply guarded_safe; [by eapply (handle_guarded cmd s)|apply (inv_safe _ _ HI)|by eapply runs_traces]. }
  assert (Safe ((h ++ t1) ++ t2)) as Hs2.
  { eapply guarded_safe; [|done|by eapply runs_traces]. eapply only_guarded; [apply harmless_good|].
    apply process_events_only. }
  split; [|split; [by apply HRel|split; [by eapply step_next|done]]].
  eapply (Inv_step _ evs s t1); [|done|done|done| |done|].
  - apply Inv_grow; [by apply Inv_grow|done].
  - set_solver.
  - intros e He. apply attempted_app. right. auto.
Qed.

Lemma Inv_session rounds cmd s h evs tr p :
  Inv h evs -> cmd_of evs = Some cmd -> Rel s evs ->
  traces (swap_loop fuel rounds cmd s) tr -> persisted tr p -> Inv (h ++ tr) (evs ++ p).
Proof.
  revert cmd s h evs tr p; induction rounds as [|n IH]; intros cmd s h evs tr p HI Hcmd HR Ht Hp.
  { simpl in Ht. subst. apply persisted_nil in Hp as ->. by rewrite !app_nil_r. }
  cbn [swap_loop] in Ht. apply traces_bind in Ht as [Ht|([s1 [next events]] & t1 & t2 & -> & Hr & Ht)].
  { apply persisted_not_save in Hp as ->; [|by eapply only_traces; [apply handle_not_save|]].
    rewrite app_nil_r. apply Inv_grow; [done|].
    eapply guarded_safe; [by eapply handle_guarded|apply (inv_safe _ _ HI)|done]. }
  apply persisted_app in Hp; [|by eapply only_runs; [apply handle_not_save|]].
  apply traces_bind in Ht as [Ht|(s2 & t2' & t3 & -> & Hpe & Ht)].
  - destruct (handle_Rel _ _ _ _ _ _ _ HR Hr) as [Hstep HR1].
    destruct (process_events_traces _ _ _ _ Ht Hp) as [Hpre Hatt].
    assert (Safe (h ++ t1)) as Hs1.
    { eapply guarded_safe; [by eapply (handle_guarded cmd s)|apply (inv_safe _ _ HI)|by eapply runs_traces]. }
    assert (Safe ((h ++ t1) ++ t2)) as Hs2.
    { eapply guarded_safe; [|done|done]. eapply only_guarded; [apply harmless_good|].
      apply process_events_only. }
    rewrite app_assoc. eapply (Inv_step _ evs s t1); [|done|done|done| |done|].
    + apply Inv_grow; [by apply Inv_grow|done].
    + set_solver.
    + intros e He. apply attempted_app. right. auto.
  - destruct (Inv_round _ _ _ _ _ _ _ _ _ _ HI Hcmd HR Hr Hpe) as (HI2 & HR2 & Hnext & _).
    apply process_events_runs in Hpe as (_ & _ & Hper).
    apply Hper in Hp as (p' & -> & Hp). rewrite !app_assoc. destruct next as [c|].
    + by eapply IH.
    + assert (Forall (fun o => quiet (obs_call o)) t3) as Hq.
      { eapply only_traces; [|done]. repeat split. }
      apply persisted_not_save in Hp as ->;
        [|eapply Forall_impl; [done|]; intros; by apply quiet_not_save].
      rewrite app_nil_r. apply Inv_grow; [done|]. apply safe_app_forall; [apply (inv_safe _ _ HI2)|].
      intros h'. eapply Forall_impl; [done|]. simpl. intros [c x] Hc. by destruct c.
Qed.

(** A session that runs to its end saves events up to [Finished]. *)
Lemma Inv_run rounds cmd s h evs tr s' :
  Inv h evs -> cmd_of evs = Some cmd -> Rel s evs ->
  runs (swap_loop fuel rounds cmd s) tr s' ->
  Inv (h ++ tr) (evs ++ saved_of tr) /\ Rel s' (evs ++ saved_of tr) /\
  cmd_of (evs ++ saved_of tr) = None.
Proof.
  revert cmd s h evs tr; induction rounds as [|n IH]; intros cmd s h evs tr HI Hcmd HR Hr; [done|].
  cbn [swap_loop] in Hr. apply runs_bind in Hr as ([s1 [next events]] & t1 & t2 & -> & Hh & Hr).
  apply runs_bind in Hr as (s2 & t2' & t3 & -> & Hpe & Hr).
  destruct (Inv_round _ _ _ _ _ _ _ _ _ _ HI Hcmd HR Hh Hpe) as (HI2 & HR2 & Hnext & _).
  assert (saved_of t1 = []) as Ht1.
  { apply not_save_saved_of. by eapply only_runs; [apply handle_not_save|]. }
  assert (saved_of t2' = events) as Ht2.
  { apply process_events_runs in Hpe as (_ & _ & Hper).
    destruct (Hper [] (saved_of (t2' ++ []))) as (p & Hp & ->%persisted_nil); [by left|].
    by rewrite !app_nil_r in Hp. }
  rewrite !saved_of_app, Ht1, Ht2, !app_assoc, app_nil_r. destruct next as [c|].
  - by eapply IH.
  - assert (Forall (fun o => quiet (obs_call o)) t3) as Hq.
    { eapply only_runs; [|done]. repeat split. }
    rewrite (not_save_saved_of t3), app_nil_r;
      [|eapply Forall_impl; [done|]; intros; by apply quiet_not_save].
    split; [|split; [|done]].
    + apply Inv_grow; [done|]. apply safe_app_forall; [apply (inv_safe _ _ HI2)|].
      intros h'. eapply Forall_impl; [done|]. simpl. intros [c x] Hc. by destruct c.
    + run_all Hr.
Qed.

Lemma history_Inv h evs : history h evs -> Inv h evs.
Proof.
  induction 1 as [s tr evs Hnew Ht Hp|h evs pub now mc saved s cmd tr evs' Hh IH Hev Hl Ht Hp].
  - change (Inv ([] ++ tr) ([] ++ evs)). eapply Inv_session; [apply Inv_nil|done| |done|done].
    by apply Rel_new.
  - apply load_Rel in Hl as [HR Hc]. rewrite Hev in HR, Hc. by eapply Inv_session.
Qed.

(** A session about to begin: a new swap, or one restored from its events. *)
Inductive session : list Obs -> list MakerSwapEvent -> MakerSwap -> MakerSwapCommand -> Prop :=
| session_new s : is_new s -> session [] [] s Start
| session_restart h evs pub now mc saved s cmd :
    history h evs -> map event (sv_events saved) = evs ->
    load_from_saved pub now mc tc saved = Ok (s, Some cmd) -> session h evs s cmd.

Lemma session_Inv h evs s cmd :
  session h evs s cmd -> Inv h evs /\ cmd_of evs = Some cmd /\ Rel s evs.
Proof.
  destruct 1 as [s Hnew|h evs pub now mc saved s cmd Hh Hev Hl].
  - split; [apply Inv_nil|]. split; [done|]. by apply Rel_new.
  - apply load_Rel in Hl as [HR Hc]. rewrite Hev in HR, Hc. split; [by apply history_Inv|done].
Qed.

End Safety.
