(* ===== verification/MakerSwapEnds.v ===== *)
(** * The maker's swap comes to an end

    In a [fair] environment (a clock that advances at least as fast as the
    loops sleep, a database that saves, a refund that becomes possible after
    finitely many queries) every session of a swap returns: no handler panics,
    no polling loop runs for ever, and at most twelve commands are executed. *)

From S2P Require Import Prelude MmNumber DexFee Effects Swap SwapEnv MakerSwap MakerSwapProps MakerSwapSafety.

Open Scope Z_scope.

Section Ends.
  Context `{SecretHasher} `{DecimalConv}.
  Variable tc : Coin.
  Variable fuel : nat.
  Variable L : Z.
  Variable N : nat.

Notation fair := (fair N).
Notation enough_fuel := (enough_fuel fuel L N).

Definition lock_bounded (s : MakerSwap) : Prop :=
  0 <= payment_locktime s <= L /\ 0 <= d_lock_duration (swap_data s) <= L.

(** ** Every handler returns *)

Lemma check_balance_returns h a b v u p st :
  returns fair h (check_balance_for_maker_swap a b v u (Some p) st).
Proof.
  unfold check_balance_for_maker_swap, check_my_coin_balance_for_swap,
    check_other_coin_balance_for_swap, check_platform_coin_balance_for_swap, read_locked.
  walk_returns idtac.
Qed.

Lemma start_returns h s : returns fair h (start s).
Proof.
  unfold start. walk_returns idtac. apply check_balance_returns.
Qed.

Lemma validate_fee_loop_returns n h a : returns fair h (validate_fee_loop n a).
Proof. revert h; induction n as [|n IH]; intros h; cbn [validate_fee_loop]; walk_returns idtac. apply IH. Qed.

Lemma check_taker_fee_returns h s p i : returns fair h (check_taker_fee s p i).
Proof.
  unfold check_taker_fee, fee_validate_failed.
  destruct (new_with_taker_pubkey _ _ _ _); walk_returns idtac; apply validate_fee_loop_returns.
Qed.

Lemma handle_returns h cmd s evs :
  enough_fuel -> lock_bounded s -> Rel tc s evs -> stage_ok evs (Some cmd) ->
  returns fair h (handle_command fuel cmd s).
Proof.
  intros Hf Hlock HR [S1 S2 S3 S4]. pose proof (wait_duration_bound _ _ _ _ (proj2 Hlock) Hf) as Hw.
  destruct Hf as (HL & HfL & HfN). simpl in *.
  destruct cmd; cbn [handle_command]; [apply start_returns|..|done];
    unfold reading; apply returns_bind; try done; try (by intros).
  - unfold negotiate, negotiate_failed, broadcast_negotiated_false.
    walk_returns ltac:(unfold NEGOTIATION_TIMEOUT_SEC; lia).
  - unfold wait_taker_fee, fee_validate_failed.
    walk_returns ltac:(unfold TAKER_FEE_RECV_TIMEOUT_SEC; lia); apply check_taker_fee_returns.
  - unfold handle_maker_payment, payment_failed, maker_payment_sent, setup_watcher_reward.
    walk_returns idtac.
  - unfold wait_for_taker_payment, get_my_payment_data. rewrite (rel_sent _ _ _ HR).
    destruct S2 as [t ->]; [lia|]. cbn [unwrap]. walk_returns ltac:(lia).
  - unfold handle_validate_taker_payment, payment_failed. rewrite (rel_received _ _ _ HR).
    destruct S3 as [t ->]; [lia|]. cbn [unwrap]. walk_returns idtac.
  - unfold spend_taker_payment. rewrite (rel_received _ _ _ HR).
    destruct S3 as [t ->]; [lia|]. cbn [unwrap]. walk_returns idtac.
  - unfold confirm_taker_payment_spend. rewrite (rel_spent _ _ _ HR).
    destruct S4 as [t ->]; [lia|]. cbn [unwrap]. walk_returns idtac.
  - unfold prepare_for_maker_payment_refund. walk_returns idtac.
  - unfold refund_maker_payment. rewrite (rel_sent _ _ _ HR).
    destruct S2 as [t ->]; [lia|]. cbn [unwrap]. walk_returns ltac:(lia).
  - unfold finalize_maker_payment_refund. walk_returns idtac.
Qed.

(** ** The lock duration does not change *)

Lemma start_lock s tr s' next evs d :
  runs (start s) tr (s', (next, evs)) -> Started d ∈ evs ->
  d_lock_duration d = payment_locktime s.
Proof.
  unfold start. intros Hr Hd. run_all Hr; set_unfold; destruct Hd as [Hd|Hd]; by simplify_eq.
Qed.

Lemma apply_lock now e s :
  lock_bounded s -> (forall d, e = Started d -> d_lock_duration d = payment_locktime s) ->
  lock_bounded (apply_event now e s) /\ payment_locktime (apply_event now e s) = payment_locktime s.
Proof.
  intros [H1 H2] He. unfold lock_bounded. destruct s, mutable, data. simpl in *.
  destruct e; simpl in *; try done.
  - rewrite He in *; [|done]. split; [by split|done].
  - by repeat case_match.
Qed.

Lemma process_events_lock es s tr s' :
  runs (process_events es s) tr s' -> lock_bounded s ->
  (forall d, Started d ∈ es -> d_lock_duration d = payment_locktime s) -> lock_bounded s'.
Proof.
  revert s tr; induction es as [|e es IH]; intros s tr; cbn [process_events].
  { by intros [-> ->]. }
  intros (s1 & t1 & t2 & -> & He & Hr)%runs_bind Hlock Hd.
  apply process_event_runs in He as (now & ts & t0 & -> & -> & _).
  destruct (apply_lock now e s Hlock) as [Hl Hp]; [intros d ->; apply Hd; left|].
  eapply IH; [done|done|]. intros d Hin. rewrite Hp. apply Hd. by right.
Qed.

Lemma handle_lock cmd s tr s' next evs :
  runs (handle_command fuel cmd s) tr (s', (next, evs)) -> lock_bounded s ->
  lock_bounded s' /\ forall d, Started d ∈ evs -> d_lock_duration d = payment_locktime s'.
Proof.
  intros Hr Hlock. destruct (handle_refines (taker_coin s) _ _ _ _ _ _ _ eq_refl Hr) as [Hstep Hs].
  assert (payment_locktime s' = payment_locktime s /\ lock_bounded s') as [Hp Hl].
  { by destruct Hs as [->|[b ->]]; destruct s, mutable. }
  split; [done|]. intros d Hd. rewrite Hp. inversion Hstep; subst; set_unfold; try naive_solver.
  destruct Hd as [[= ->]|[]]. eapply start_lock; [exact Hr|left].
Qed.

(** ** The run loop returns *)

Lemma announce_returns h e s : returns fair h (announce_event e s).
Proof. destruct e; cbn [announce_event]; unfold announce_event; walk_returns idtac. Qed.

Lemma process_events_returns h es s : returns fair h (process_events es s).
Proof.
  revert h s; induction es as [|e es IH]; intros h s; cbn [process_events]; [done|].
  apply returns_bind; [|by intros; apply IH]. unfold process_event.
  apply returns_bind; [apply announce_returns|]. intros tr t _ _. cbn [prog_bind].
  intros r Hr. cbn [fair] in Hr. by destruct r.
Qed.

Lemma step_rank s tr cmd next evs :
  step tc s tr cmd next evs -> (rank (Some cmd) < rank next <= 12)%nat.
Proof. inversion 1; simpl; lia. Qed.

Lemma Inv_stage_ok h evs cmd : Inv tc h evs -> cmd_of evs = Some cmd -> stage_ok evs (Some cmd).
Proof.
  intros HI Hcmd. destruct (decide (cmd = Start)) as [->|Hne].
  - apply stage_ok_start. simpl. lia.
  - by eapply cmd_stage.
Qed.

Lemma swap_loop_returns rounds hf h cmd s evs :
  enough_fuel -> (12 <= rounds + rank (Some cmd))%nat -> lock_bounded s ->
  Inv tc h evs -> cmd_of evs = Some cmd -> Rel tc s evs ->
  returns fair hf (swap_loop fuel rounds cmd s).
Proof.
  intros Hf. revert hf h cmd s evs.
  induction rounds as [|n IH]; intros hf h cmd s evs Hn Hlock HI Hcmd HR.
  { destruct cmd; simpl in Hn; lia. }
  cbn [swap_loop]. apply returns_bind.
  { eapply handle_returns; [done..|]. by eapply Inv_stage_ok. }
  intros t1 [s1 [next events]] Hr _. apply returns_bind; [apply process_events_returns|].
  intros t2 s2 Hpe _.
  destruct (Inv_round _ _ _ _ _ _ _ _ _ _ _ _ HI Hcmd HR Hr Hpe) as (HI2 & HR2 & Hnext & Hstep).
  destruct (handle_lock _ _ _ _ _ _ Hr Hlock) as [Hl1 Hd].
  apply step_rank in Hstep. destruct next as [c|]; [|by walk_returns idtac].
  eapply IH; [lia|by eapply process_events_lock|done..].
Qed.

End Ends.
