(* ===== verification/MakerTheorems.v ===== *)
(** * What is proved of the maker's swap

    The properties of MakerSwap.v, over every behaviour of the coins, the
    network, the clock and the database, and every way the node can be stopped
    and restarted; and runs in a concrete environment. *)

From S2P Require Import Prelude MmNumber DexFee Effects Swap SwapEnv Demo MakerSwap MakerSwapProps MakerSwapSafety MakerSwapEnds.

Open Scope Z_scope.

(** ** A concrete swap *)

Module Demo.

#[export] Existing Instance demo_hasher.
#[export] Existing Instance exact_decimal.

Definition base : Coin := demo_coin "KMD".
Definition rel : Coin := demo_coin "LTC".

Definition maker : MakerSwap :=
  MakerSwap_new (replicate 32 4) (10 # 1) (20 # 1) (replicate 33 7) (replicate 16 1) None
    demo_conf base rel 7800 None (replicate 32 9).

(** The clock shows what it must after the sleeps of the loops. *)
Definition oracle (h : list Obs) (c : Call MakerSwapEvent) : answer c :=
  match c return answer c with
  | now_sec => Z.max 1000000 (clock_floor h)
  | c => happy 1000000 c
  end.


Definition run := exec oracle [] (run_new_swap 5 maker).

Lemma run_traces : traces (run_new_swap 5 maker) run.2.
Proof. apply exec_traces. Qed.

Lemma maker_is_new : is_new rel maker.
Proof. by repeat eexists. Qed.

(** The first session stops when the maker payment is out but not yet saved;
    the second one restores the swap from the database. *)
Definition first_session : list Obs := take 42 run.2.
Definition first_events : list MakerSwapEvent := saved_of first_session.
Definition saved : MakerSavedSwap :=
  mkSavedSwap (uuid maker) None (map (mkSavedEvent 0) first_events) (Some (10 # 1)) (Some "KMD"%string)
    (Some (20 # 1)) (Some "LTC"%string) MAKER_SUCCESS_EVENTS MAKER_ERROR_EVENTS.
Definition restored : result string (MakerSwap * option MakerSwapCommand) :=
  load_from_saved (replicate 33 7) 1000000 base rel saved.
Definition restored_swap : MakerSwap :=
  match restored with Ok (s, _) => s | Err _ => maker end.

Definition oracle_sent (h : list Obs) (c : Call MakerSwapEvent) : answer c :=
  match c return answer c with
  | Swap.check_if_my_payment_sent _ _ => Ok (Some (demo_tx 2))
  | c => happy 1000000 c
  end.

Definition second_session : list Obs :=
  (exec oracle_sent [] (swap_loop 5 MAX_ROUNDS SendPayment restored_swap)).2.

Lemma first_history : history rel 5 first_session first_events.
Proof.
  apply (history_new rel 5 maker); [apply maker_is_new| |by left].
  apply (traces_prefix _ _ (drop 42 run.2)). unfold first_session.
  rewrite take_drop. apply run_traces.
Qed.

Lemma demo_history : history rel 5 (first_session ++ second_session)
  (first_events ++ saved_of second_session).
Proof.
  eapply (history_restart rel 5 _ _ (replicate 33 7) 1000000 base saved restored_swap SendPayment);
    [apply first_history|by vm_compute|by vm_compute|apply exec_traces|by left].
Qed.

Definition is_call (f : Call MakerSwapEvent -> bool) (h : list Obs) : nat :=
  length (List.filter (fun o => f (obs_call o)) h).

End Demo.

Section Properties.
  Context `{SecretHasher} `{DecimalConv}.

(** C1: whatever the coins, the network, the clock and the database answer,
    and however often the node is stopped and the swap restored from its
    saved events: before the maker sends its payment, the negotiation has been
    saved, the taker fee was validated by the coin against the negotiated
    taker key (or none is due), and the last look for an earlier payment of
    the same HTLC found none with no payment sent since; before the secret is
    revealed by spending the taker payment, this very payment was confirmed
    and validated; and only a payment that was sent is refunded, once the coin
    said that its lock time has passed. *)
Theorem maker_money_safety tc fuel h evs :
  history tc fuel h evs -> safe (good_call tc) h.
Proof. intros HI%history_Inv. apply (inv_safe _ _ _ HI). Qed.

(** C3: in a fair environment (the clock advances by what the loops sleep, the
    database saves, the refund becomes possible after finitely many queries)
    every session, of a new swap or of one restored after a crash, returns:
    no handler panics on a missing transaction, no polling loop waits for ever,
    and at most twelve commands are executed. *)
Theorem maker_session_ends tc fuel L N h evs s cmd :
  session tc fuel h evs s cmd -> lock_bounded L s -> enough_fuel fuel L N ->
  returns (fair N) [] (swap_loop fuel MAX_ROUNDS cmd s).
Proof.
  intros (HI & Hcmd & HR)%session_Inv Hlock Hf.
  eapply swap_loop_returns; [done| |done..]. unfold MAX_ROUNDS. lia.
Qed.



(** A restored swap continues where the live one was: the last event a
    handler returns restores the command the live swap executes next, any
    earlier one restores that command or the same one again, and the commands
    only move forward. *)
Theorem maker_restart_consistent fuel cmd s tr s' next evs :
  runs (handle_command fuel cmd s) tr (s', (next, evs)) ->
  (exists e, last evs = Some e /\ get_command e = next) /\
  Forall (fun e => get_command e = next \/ get_command e = Some cmd) evs /\
  (rank (Some cmd) < rank next)%nat.
Proof.
  intros [Hstep _]%(handle_refines (taker_coin s)); [|done].
  split; [|split; [|apply step_rank in Hstep; lia]]; inversion Hstep; subst;
    try (by eexists); repeat (apply Forall_cons; split); try apply Forall_nil;
    try done; simpl; auto.
Qed.

(** ** Restoring the state *)

Lemma apply_watcher now e b s :
  apply_event now e (upd (set_watcher_reward b) s) =
  upd (set_watcher_reward b) (apply_event now e s).
Proof. destruct s, mutable, data, e; simpl; try done. by repeat case_match. Qed.

Lemma watcher_twice b b' s :
  upd (set_watcher_reward b) (upd (set_watcher_reward b') s) = upd (set_watcher_reward b) s.
Proof. by destruct s, mutable. Qed.

Lemma replay_watcher now es b s :
  replay now es (upd (set_watcher_reward b) s) = upd (set_watcher_reward b) (replay now es s).
Proof.
  revert s; induction es as [|e es IH]; intros s; [done|]. simpl. by rewrite apply_watcher, <- IH.
Qed.

Lemma apply_now now now' e s : e <> Finished -> apply_event now e s = apply_event now' e s.
Proof. by destruct e. Qed.

Lemma process_events_replay now es s tr s' :
  Finished ∉ es -> runs (process_events es s) tr s' -> s' = replay now es s.
Proof.
  revert s tr; induction es as [|e es IH]; intros s tr Hn; cbn [process_events].
  { by intros [_ ->]. }
  intros (s1 & t1 & t2 & -> & He & Hr)%runs_bind.
  apply process_event_runs in He as (now' & ts & t0 & -> & _).
  rewrite (apply_now now' now) in Hr by set_solver. apply IH in Hr as ->; [done|set_solver].
Qed.

Lemma refresh_started s t f1 f2 b1 b2 :
  refresh_contracts (maker_coin s) (taker_coin s) (started_data s t f1 f2 b1 b2) =
  started_data s t f1 f2 b1 b2.
Proof.
  unfold refresh_contracts, started_data. simpl.
  destruct (swap_contract_address (maker_coin s)) eqn:E1; simpl;
    destruct (swap_contract_address (taker_coin s)) eqn:E2; simpl; by rewrite ?E1, ?E2.
Qed.

(** A swap restored from the events it saved is the swap that was running,
    up to the watcher reward flag (which is not saved): for a new maker swap
    with any start data, and any events processed since, [load_from_saved]
    rebuilds the same state and the command of the last event. *)
Theorem maker_restore_live_state taker_pubkey ma ta pub u mo conf mc tc lock p2p sec b
  t f1 f2 b1 b2 evs tr live now saved :
  let s0 := MakerSwap_new taker_pubkey ma ta pub u mo conf mc tc lock p2p sec in
  let started := Started (started_data s0 t f1 f2 b1 b2) in
  Finished ∉ evs ->
  runs (process_events (started :: evs) (upd (set_watcher_reward b) s0)) tr live ->
  map event (sv_events saved) = started :: evs ->
  sv_uuid saved = u -> sv_my_order_uuid saved = mo ->
  load_from_saved pub now mc tc saved =
    Ok (upd (set_watcher_reward false) live, from_option get_command None (last (started :: evs))).
Proof.
  intros s0 started Hfin Hr Hev <- <-.
  apply (process_events_replay now) in Hr as ->; [|set_solver].
  unfold load_from_saved. destruct (sv_events saved) as [|first rest]; [done|].
  injection Hev as Hfirst Hrest. rewrite Hfirst. subst started.
  pose proof (refresh_started s0 t f1 f2 b1 b2) as Hd.
  change (maker_coin s0) with mc in Hd. change (taker_coin s0) with tc in Hd.
  cbn [from_option]. rewrite Hd, Hrest, replay_watcher, watcher_twice, <- replay_watcher.
  by destruct conf.
Qed.

(** ** Recovering funds *)

(** What must have been seen before recovering moves money. *)
Definition recover_call (s : MakerSwap) (h : list Obs) (c : Call MakerSwapEvent) : Prop :=
  match c with
  | send_maker_refunds_payment a =>
      (exists q, got (search_for_swap_tx_spend_my MakerSide q) (Ok None) ∈ h /\
                 se_tx q = rf_payment_tx a) /\
      got (can_refund_htlc MakerSide (rf_time_lock a)) (Ok CanRefundNow) ∈ h /\
      maker_payment_refund (mutable s) = None
  | send_maker_spends_taker_payment a =>
      (exists q tx, got (search_for_swap_tx_spend_my MakerSide q) (Ok (Some (Spent tx))) ∈ h) /\
      (exists q, got (search_for_swap_tx_spend_other TakerSide q) (Ok None) ∈ h /\
                 se_tx q = spend_other_payment_tx a) /\
      ti_tx_hex <$> taker_payment (mutable s) = Some (spend_other_payment_tx a) /\
      (is_Some (taker_payment_spend (mutable s)) -> taker_payment_spend_confirmed (mutable s) = false)
  | send_maker_payment _ | send_taker_payment _ | save_event _ _ => False
  | _ => True
  end.

Ltac walk_guarded :=
  repeat lazymatch goal with
  | |- guarded _ _ (Ret _) => exact I
  | |- guarded _ _ (prog_bind (call _) _) => split; [try exact I|intros ?]; cbn [prog_bind]
  | |- guarded _ _ (match ?x with _ => _ end) => let E := fresh "E" in destruct x eqn:E
  end.

Lemma recover_with_payment_guarded s h p :
  maker_payment_refund (mutable s) = None ->
  (is_Some (taker_payment_spend (mutable s)) -> taker_payment_spend_confirmed (mutable s) = false) ->
  guarded (recover_call s) h (recover_with_payment s p).
Proof.
  intros Hrefund Hspend. unfold recover_with_payment, recover_err. split; [done|].
  intros [[[tx|tx]|]|e]; cbn [prog_bind]; [| |  |done].
  - apply guarded_bind; [|done]. unfold try_spend_taker_payment.
    destruct (taker_payment (mutable s)) as [tp|] eqn:Htp; [|done]. split; [done|].
    intros [[[|]|]|]; cbn [prog_bind]; try done. split; [|by intros].
    cbn [recover_call]. rewrite Htp. split; [|split; [|done]].
    + eexists _, _. in_list.
    + eexists. split; [in_list|done].
  - done.
  - unfold recover_refund, recover_err. destruct (is_auto_refundable _); [done|]. split; [done|].
    intros [[|n]|e]; cbn [prog_bind]; [|by split; [|intros]|done]. split.
    + cbn [recover_call]. split; [|split; [in_list|done]]. eexists. split; [in_list|done].
    + intros [tx|e]; cbn [prog_bind]; [done|]. apply guarded_bind; [|done].
      eapply only_guarded; [|apply broadcast_recovered_only]. by intros ? [].
Qed.

Lemma recover_guarded s : guarded (recover_call s) [] (recover_funds s).
Proof.
  unfold recover_funds, recover_err. destruct (finished_at s =? 0); [done|].
  destruct (maker_payment_refund (mutable s)) eqn:Hr; [done|].
  destruct ((if taker_payment_spend (mutable s) is Some _ then true else false)
            && taker_payment_spend_confirmed (mutable s)) eqn:Hs; [done|].
  assert (is_Some (taker_payment_spend (mutable s)) ->
          taker_payment_spend_confirmed (mutable s) = false) as Hspend.
  { intros [t Ht]. by rewrite Ht in Hs. }
  destruct (maker_payment (mutable s)); [by apply recover_with_payment_guarded|].
  split; [done|]. intros [[tx|]|e]; cbn [prog_bind]; try done.
  by apply recover_with_payment_guarded.
Qed.

(** Recovering the funds of a swap never pays twice.  The maker payment is
    refunded only after a search found it unspent and the coin allowed the
    refund, and never when a refund is recorded; the taker payment is spent only
    when the maker payment was found spent, the taker payment unspent, and its
    spend is not recorded as confirmed.  An unfinished swap touches nothing. *)
Theorem maker_recover_safe s tr :
  traces (recover_funds s) tr ->
  safe (recover_call s) tr /\ (finished_at s = 0 -> tr = []).
Proof.
  intros Ht. split.
  - change tr with ([] ++ tr). eapply guarded_safe; [apply recover_guarded|apply safe_nil|done].
  - intros Hf. unfold recover_funds in Ht. by rewrite Hf in Ht.
Qed.

(** Whatever happened to the swap, when [is_success] of its saved events is
    true, the spend of the taker payment was sent and confirmed, and the taker
    payment had been validated. *)
Theorem maker_success_means_paid tc fuel h saved :
  history tc fuel h (map event (sv_events saved)) ->
  saved_is_success saved = Ok true ->
  TakerPaymentSpendConfirmed ∈ map event (sv_events saved) /\
  attempted TakerPaymentSpendConfirmed h.
Proof.
  intros HI%history_Inv Hs. unfold saved_is_success in Hs.
  destruct (is_finished saved) eqn:Hfin; [|done]. injection Hs as Hs.
  apply negb_true_iff in Hs. unfold is_finished in Hfin.
  destruct (last (sv_events saved)) as [e|] eqn:Hl; [|done].
  destruct (event e) eqn:He; try done.
  assert (Finished ∈ map event (sv_events saved)) as Hf.
  { apply last_Some_elem_of in Hl. apply (list_elem_of_fmap_2 event) in Hl. by rewrite He in Hl. }
  apply (inv_finished _ _ _ HI) in Hf as (e' & Hin & Hc).
  assert (is_error e' = false) as Herr.
  { apply list_elem_of_fmap in Hin as (x & -> & Hx).
    destruct (is_error (event x)) eqn:E; [|done]. rewrite <- Hs. symmetry.
    apply existsb_exists. exists x. split; [by apply list_elem_of_In|done]. }
  assert (e' = TakerPaymentSpendConfirmed) as -> by by destruct e'.
  split; [done|]. by apply (inv_attempted _ _ _ HI).
Qed.

(** The two lists of event names a saved swap shows to the outside split
    the events exactly as [is_success] and [is_error] do. *)
Theorem maker_event_lists e :
  (event_name e ∈ MAKER_SUCCESS_EVENTS <-> is_success e = true) /\
  (event_name e ∈ MAKER_ERROR_EVENTS <-> is_error e = true).
Proof.
  unfold MAKER_SUCCESS_EVENTS, MAKER_ERROR_EVENTS. destruct e; simpl; split; split; intros Hx;
    try done; try (exfalso; set_solver); set_solver.
Qed.

End Properties.

(** ** Witnesses: the concrete swap *)

Section Witnesses.
  Import Demo.

Definition is_send_call (c : Call MakerSwapEvent) : bool :=
  match c with send_maker_payment _ => true | _ => false end.
Definition is_spend_call (c : Call MakerSwapEvent) : bool :=
  match c with send_maker_spends_taker_payment _ => true | _ => false end.
Definition is_refund_call (c : Call MakerSwapEvent) : bool :=
  match c with send_maker_refunds_payment _ => true | _ => false end.

(** Stopped between sending and saving the maker payment, the restored swap
    finds the payment instead of sending it again. *)
Lemma maker_money_safety_witness :
  safe (good_call rel) (first_session ++ second_session) /\
  is_call is_send_call (first_session ++ second_session) = 1%nat /\
  is_call is_spend_call (first_session ++ second_session) = 1%nat.
Proof.
  split; [|by vm_compute].
  apply (maker_money_safety rel 5 _ (first_events ++ saved_of second_session)), demo_history.
Defined.

Lemma demo_session : session rel 5 first_session first_events restored_swap SendPayment.
Proof.
  apply (session_restart rel 5 _ _ (replicate 33 7) 1000000 base saved);
    [apply first_history|by vm_compute|by vm_compute].
Qed.

Lemma new_session fuel : session rel fuel [] [] maker Start.
Proof. apply session_new, maker_is_new. Qed.

Lemma maker_session_ends_witness :
  lock_bounded 7800 maker /\
  returns (fair 3) [] (swap_loop 10000 MAX_ROUNDS Start maker) /\
  exists s', runs (run_new_swap 5 maker) run.2 s'.
Proof.
  split; [vm_compute; repeat split; discriminate|]. split.
  - apply (maker_session_ends rel 10000 7800 3 [] []); [apply new_session|..].
    + vm_compute. repeat split; discriminate.
    + split; [lia|split; [by vm_compute|by apply Nat.ltb_lt; vm_compute]].
  - eexists. apply exec_fst. vm_compute. reflexivity.
Defined.



Lemma maker_restart_consistent_witness :
  exists tr s' evs, runs (handle_command 5 Start maker) tr (s', (Some Negotiate, evs)) /\
    exists e, last evs = Some e /\ get_command e = Some Negotiate.
Proof.
  exists (exec oracle [] (handle_command 5 Start maker)).2.
  eassert (runs (handle_command 5 Start maker) _ (_, (Some Negotiate, _))) as Hr
    by (apply (exec_fst oracle _ []); vm_compute; reflexivity).
  eexists _, _. split; [exact Hr|].
  apply (maker_restart_consistent 5 Start maker _ _ _ _ Hr).
Defined.

Lemma maker_restore_live_state_witness :
  exists live, load_from_saved (replicate 33 7) 0 base rel saved =
    Ok (upd (set_watcher_reward false) live, Some SendPayment).
Proof.
  eassert (runs (process_events (Started (started_data maker 1000000 demo_fee demo_fee 100 100)
    :: skipn 1 first_events) (upd (set_watcher_reward true) maker)) _ _) as Hr
    by (apply (exec_fst oracle _ []); vm_compute; reflexivity).
  eexists.
  refine (maker_restore_live_state _ _ _ (replicate 33 7) _ _ _ base rel _ _ _ true
    1000000 demo_fee demo_fee 100 100 (skipn 1 first_events) _ _ 0 saved _ Hr _ _ _);
    [|by vm_compute..].
  vm_compute. intros Hin. repeat (apply elem_of_cons in Hin as [Hin|Hin]; [discriminate Hin|]).
  by apply elem_of_nil in Hin.
Defined.

(** A swap whose refund failed: recovering finds the payment unspent and
    refunds it. *)
Definition stuck : MakerSwap :=
  replay 1 [MakerPaymentSent (mkTxIdent [2] [2]); MakerPaymentRefundFailed (err_str "x"); Finished]
    maker.

Lemma maker_recover_safe_witness :
  let tr := (exec oracle [] (recover_funds stuck)).2 in
  is_call is_refund_call tr = 1%nat /\ safe (recover_call stuck) tr.
Proof.
  split; [by vm_compute|].
  apply (maker_recover_safe stuck (exec oracle [] (recover_funds stuck)).2), exec_traces.
Defined.

Definition saved_run : MakerSavedSwap :=
  mkSavedSwap (uuid maker) None (map (mkSavedEvent 0) (saved_of run.2)) None None None None [] [].

Lemma maker_success_means_paid_witness :
  saved_is_success saved_run = Ok true /\
  TakerPaymentSpendConfirmed ∈ map event (sv_events saved_run) /\
  attempted TakerPaymentSpendConfirmed run.2.
Proof.
  split; [by vm_compute|].
  apply (maker_success_means_paid rel 5 run.2 saved_run); [|by vm_compute].
  apply (history_new rel 5 maker); [apply maker_is_new|apply run_traces|].
  left. by vm_compute.
Defined.

End Witnesses.
