(* ===== verification/TakerSwap.v ===== *)
(** * The taker's side of a legacy atomic swap (lp_swap/taker_swap.rs, taker_restart.rs)

    [TakerSwap] with its mutable part and its saved data, the events that
    change it ([apply_event]), one handler per [TakerSwapCommand], the run
    loop that saves every event before the next command, restoring a swap from
    its saved events and from what happened on the chains while the node was
    offline, recovering funds, the amounts it locks, and the maximum volume a
    taker can trade.  The conventions are those of MakerSwap.v. *)

From S2P Require Import Prelude MmNumber DexFee Effects Swap.

Open Scope Z_scope.

(** ** Data *)

Record TakerPaymentSpentData : Type := mkSpentData {
  transaction : TransactionIdentifier;
  spent_secret : H256 }.

Record MakerNegotiationData : Type := mkMND {
  maker_payment_locktime : Z;
  mnd_maker_pubkey : H264;
  mnd_secret_hash : bytes;
  maker_coin_swap_contract_addr : option bytes;
  taker_coin_swap_contract_addr : option bytes;
  maker_coin_htlc_pubkey : option H264;
  taker_coin_htlc_pubkey : option H264 }.

Definition neg_other_maker_coin_htlc_pub (d : MakerNegotiationData) : H264 :=
  default (mnd_maker_pubkey d) (maker_coin_htlc_pubkey d).

Definition neg_other_taker_coin_htlc_pub (d : MakerNegotiationData) : H264 :=
  default (mnd_maker_pubkey d) (taker_coin_htlc_pubkey d).

Record TakerSwapData : Type := mkData {
  d_taker_coin : string;
  d_maker_coin : string;
  d_maker_pubkey : H256;
  d_my_persistent_pub : H264;
  d_lock_duration : Z;
  d_maker_amount : BigDecimal;
  d_taker_amount : BigDecimal;
  d_maker_payment_confirmations : Z;
  d_maker_payment_requires_nota : option bool;
  d_taker_payment_confirmations : Z;
  d_taker_payment_requires_nota : option bool;
  d_taker_payment_lock : Z;
  d_uuid : Uuid;
  d_started_at : Z;
  d_maker_payment_wait : Z;
  d_maker_coin_start_block : Z;
  d_taker_coin_start_block : Z;
  d_fee_to_send_taker_fee : option SavedTradeFee;
  d_taker_payment_trade_fee : option SavedTradeFee;
  d_maker_payment_spend_trade_fee : option SavedTradeFee;
  d_maker_coin_swap_contract_address : option bytes;
  d_taker_coin_swap_contract_address : option bytes;
  d_maker_coin_htlc_pubkey : option H264;
  d_taker_coin_htlc_pubkey : option H264;
  d_p2p_privkey : option bytes }.

Definition set_d_maker_coin_swap_contract_address (x : option bytes) (d : TakerSwapData) : TakerSwapData :=
  mkData (d_taker_coin d) (d_maker_coin d) (d_maker_pubkey d) (d_my_persistent_pub d)
    (d_lock_duration d) (d_maker_amount d) (d_taker_amount d)
    (d_maker_payment_confirmations d) (d_maker_payment_requires_nota d)
    (d_taker_payment_confirmations d) (d_taker_payment_requires_nota d)
    (d_taker_payment_lock d) (d_uuid d) (d_started_at d)
    (d_maker_payment_wait d) (d_maker_coin_start_block d)
    (d_taker_coin_start_block d) (d_fee_to_send_taker_fee d)
    (d_taker_payment_trade_fee d) (d_maker_payment_spend_trade_fee d) x
    (d_taker_coin_swap_contract_address d) (d_maker_coin_htlc_pubkey d)
    (d_taker_coin_htlc_pubkey d) (d_p2p_privkey d).

Definition set_d_taker_coin_swap_contract_address (x : option bytes) (d : TakerSwapData) : TakerSwapData :=
  mkData (d_taker_coin d) (d_maker_coin d) (d_maker_pubkey d) (d_my_persistent_pub d)
    (d_lock_duration d) (d_maker_amount d) (d_taker_amount d)
    (d_maker_payment_confirmations d) (d_maker_payment_requires_nota d)
    (d_taker_payment_confirmations d) (d_taker_payment_requires_nota d)
    (d_taker_payment_lock d) (d_uuid d) (d_started_at d)
    (d_maker_payment_wait d) (d_maker_coin_start_block d)
    (d_taker_coin_start_block d) (d_fee_to_send_taker_fee d)
    (d_taker_payment_trade_fee d) (d_maker_payment_spend_trade_fee d)
    (d_maker_coin_swap_contract_address d) x (d_maker_coin_htlc_pubkey d)
    (d_taker_coin_htlc_pubkey d) (d_p2p_privkey d).

Definition TakerSwapData_default : TakerSwapData :=
  mkData "" "" H256_default H264_default 0 (0 # 1) (0 # 1) 0 None 0 None 0
    (replicate 16 0) 0 0 0 0 None None None None None None None None.

Record TakerSwapMut : Type := mkMut {
  data : TakerSwapData;
  other_maker_coin_htlc_pub : H264;
  other_taker_coin_htlc_pub : H264;
  taker_fee : option TransactionIdentifier;
  maker_payment : option TransactionIdentifier;
  taker_payment : option TransactionIdentifier;
  maker_payment_spend : option TransactionIdentifier;
  maker_payment_spend_confirmed : bool;
  taker_payment_spend : option TransactionIdentifier;
  maker_payment_spend_preimage : option bytes;
  taker_payment_refund_preimage : option bytes;
  taker_payment_refund : option TransactionIdentifier;
  secret_hash : bytes;
  secret : H256;
  watcher_reward : bool;
  payment_instructions : option PaymentInstructions }.

Definition set_data (x : TakerSwapData) (m : TakerSwapMut) : TakerSwapMut :=
  mkMut x (other_maker_coin_htlc_pub m) (other_taker_coin_htlc_pub m) (taker_fee m)
    (maker_payment m) (taker_payment m) (maker_payment_spend m)
    (maker_payment_spend_confirmed m) (taker_payment_spend m)
    (maker_payment_spend_preimage m) (taker_payment_refund_preimage m)
    (taker_payment_refund m) (secret_hash m) (secret m) (watcher_reward m)
    (payment_instructions m).

Definition set_other_maker_coin_htlc_pub (x : H264) (m : TakerSwapMut) : TakerSwapMut :=
  mkMut (data m) x (other_taker_coin_htlc_pub m) (taker_fee m) (maker_payment m)
    (taker_payment m) (maker_payment_spend m) (maker_payment_spend_confirmed m)
    (taker_payment_spend m) (maker_payment_spend_preimage m)
    (taker_payment_refund_preimage m) (taker_payment_refund m) (secret_hash m)
    (secret m) (watcher_reward m) (payment_instructions m).

Definition set_other_taker_coin_htlc_pub (x : H264) (m : TakerSwapMut) : TakerSwapMut :=
  mkMut (data m) (other_maker_coin_htlc_pub m) x (taker_fee m) (maker_payment m)
    (taker_payment m) (maker_payment_spend m) (maker_payment_spend_confirmed m)
    (taker_payment_spend m) (maker_payment_spend_preimage m)
    (taker_payment_refund_preimage m) (taker_payment_refund m) (secret_hash m)
    (secret m) (watcher_reward m) (payment_instructions m).

Definition set_taker_fee (x : option TransactionIdentifier) (m : TakerSwapMut) : TakerSwapMut :=
  mkMut (data m) (other_maker_coin_htlc_pub m) (other_taker_coin_htlc_pub m) x
    (maker_payment m) (taker_payment m) (maker_payment_spend m)
    (maker_payment_spend_confirmed m) (taker_payment_spend m)
    (maker_payment_spend_preimage m) (taker_payment_refund_preimage m)
    (taker_payment_refund m) (secret_hash m) (secret m) (watcher_reward m)
    (payment_instructions m).

Definition set_maker_payment (x : option TransactionIdentifier) (m : TakerSwapMut) : TakerSwapMut :=
  mkMut (data m) (other_maker_coin_htlc_pub m) (other_taker_coin_htlc_pub m)
    (taker_fee m) x (taker_payment m) (maker_payment_spend m)
    (maker_payment_spend_confirmed m) (taker_payment_spend m)
    (maker_payment_spend_preimage m) (taker_payment_refund_preimage m)
    (taker_payment_refund m) (secret_hash m) (secret m) (watcher_reward m)
    (payment_instructions m).

Definition set_taker_payment (x : option TransactionIdentifier) (m : TakerSwapMut) : TakerSwapMut :=
  mkMut (data m) (other_maker_coin_htlc_pub m) (other_taker_coin_htlc_pub m)
    (taker_fee m) (maker_payment m) x (maker_payment_spend m)
    (maker_payment_spend_confirmed m) (taker_payment_spend m)
    (maker_payment_spend_preimage m) (taker_payment_refund_preimage m)
    (taker_payment_refund m) (secret_hash m) (secret m) (watcher_reward m)
    (payment_instructions m).

Definition set_maker_payment_spend (x : option TransactionIdentifier) (m : TakerSwapMut) : TakerSwapMut :=
  mkMut (data m) (other_maker_coin_htlc_pub m) (other_taker_coin_htlc_pub m)
    (taker_fee m) (maker_payment m) (taker_payment m) x
    (maker_payment_spend_confirmed m) (taker_payment_spend m)
    (maker_payment_spend_preimage m) (taker_payment_refund_preimage m)
    (taker_payment_refund m) (secret_hash m) (secret m) (watcher_reward m)
    (payment_instructions m).

Definition set_maker_payment_spend_confirmed (x : bool) (m : TakerSwapMut) : TakerSwapMut :=
  mkMut (data m) (other_maker_coin_htlc_pub m) (other_taker_coin_htlc_pub m)
    (taker_fee m) (maker_payment m) (taker_payment m) (maker_payment_spend m) x
    (taker_payment_spend m) (maker_payment_spend_preimage m)
    (taker_payment_refund_preimage m) (taker_payment_refund m) (secret_hash m)
    (secret m) (watcher_reward m) (payment_instructions m).

Definition set_taker_payment_spend (x : option TransactionIdentifier) (m : TakerSwapMut) : TakerSwapMut :=
  mkMut (data m) (other_maker_coin_htlc_pub m) (other_taker_coin_htlc_pub m)
    (taker_fee m) (maker_payment m) (taker_payment m) (maker_payment_spend m)
    (maker_payment_spend_confirmed m) x (maker_payment_spend_preimage m)
    (taker_payment_refund_preimage m) (taker_payment_refund m) (secret_hash m)
    (secret m) (watcher_reward m) (payment_instructions m).

Definition set_maker_payment_spend_preimage (x : option bytes) (m : TakerSwapMut) : TakerSwapMut :=
  mkMut (data m) (other_maker_coin_htlc_pub m) (other_taker_coin_htlc_pub m)
    (taker_fee m) (maker_payment m) (taker_payment m) (maker_payment_spend m)
    (maker_payment_spend_confirmed m) (taker_payment_spend m) x
    (taker_payment_refund_preimage m) (taker_payment_refund m) (secret_hash m)
    (secret m) (watcher_reward m) (payment_instructions m).

Definition set_taker_payment_refund_preimage (x : option bytes) (m : TakerSwapMut) : TakerSwapMut :=
  mkMut (data m) (other_maker_coin_htlc_pub m) (other_taker_coin_htlc_pub m)
    (taker_fee m) (maker_payment m) (taker_payment m) (maker_payment_spend m)
    (maker_payment_spend_confirmed m) (taker_payment_spend m)
    (maker_payment_spend_preimage m) x (taker_payment_refund m) (secret_hash m)
    (secret m) (watcher_reward m) (payment_instructions m).

Definition set_taker_payment_refund (x : option TransactionIdentifier) (m : TakerSwapMut) : TakerSwapMut :=
  mkMut (data m) (other_maker_coin_htlc_pub m) (other_taker_coin_htlc_pub m)
    (taker_fee m) (maker_payment m) (taker_payment m) (maker_payment_spend m)
    (maker_payment_spend_confirmed m) (taker_payment_spend m)
    (maker_payment_spend_preimage m) (taker_payment_refund_preimage m) x
    (secret_hash m) (secret m) (watcher_reward m) (payment_instructions m).

Definition set_secret_hash (x : bytes) (m : TakerSwapMut) : TakerSwapMut :=
  mkMut (data m) (other_maker_coin_htlc_pub m) (other_taker_coin_htlc_pub m)
    (taker_fee m) (maker_payment m) (taker_payment m) (maker_payment_spend m)
    (maker_payment_spend_confirmed m) (taker_payment_spend m)
    (maker_payment_spend_preimage m) (taker_payment_refund_preimage m)
    (taker_payment_refund m) x (secret m) (watcher_reward m)
    (payment_instructions m).

Definition set_secret (x : H256) (m : TakerSwapMut) : TakerSwapMut :=
  mkMut (data m) (other_maker_coin_htlc_pub m) (other_taker_coin_htlc_pub m)
    (taker_fee m) (maker_payment m) (taker_payment m) (maker_payment_spend m)
    (maker_payment_spend_confirmed m) (taker_payment_spend m)
    (maker_payment_spend_preimage m) (taker_payment_refund_preimage m)
    (taker_payment_refund m) (secret_hash m) x (watcher_reward m)
    (payment_instructions m).

Definition set_watcher_reward (x : bool) (m : TakerSwapMut) : TakerSwapMut :=
  mkMut (data m) (other_maker_coin_htlc_pub m) (other_taker_coin_htlc_pub m)
    (taker_fee m) (maker_payment m) (taker_payment m) (maker_payment_spend m)
    (maker_payment_spend_confirmed m) (taker_payment_spend m)
    (maker_payment_spend_preimage m) (taker_payment_refund_preimage m)
    (taker_payment_refund m) (secret_hash m) (secret m) x
    (payment_instructions m).

Definition set_payment_instructions (x : option PaymentInstructions) (m : TakerSwapMut) : TakerSwapMut :=
  mkMut (data m) (other_maker_coin_htlc_pub m) (other_taker_coin_htlc_pub m)
    (taker_fee m) (maker_payment m) (taker_payment m) (maker_payment_spend m)
    (maker_payment_spend_confirmed m) (taker_payment_spend m)
    (maker_payment_spend_preimage m) (taker_payment_refund_preimage m)
    (taker_payment_refund m) (secret_hash m) (secret m) (watcher_reward m) x.

Record TakerSwap : Type := mkSwap {
  maker_coin : Coin;
  taker_coin : Coin;
  maker_amount : BigDecimal;
  taker_amount : BigDecimal;
  my_persistent_pub : H264;
  maker_pubkey : H256;
  uuid : Uuid;
  my_order_uuid : option Uuid;
  maker_payment_lock : Z;
  maker_payment_confirmed : bool;
  errors : list SwapError;
  finished_at : Z;
  mutable : TakerSwapMut;
  conf_settings : SwapConfirmationsSettings;
  payment_locktime : Z;
  p2p_privkey : option bytes }.

Definition set_maker_payment_lock (x : Z) (s : TakerSwap) : TakerSwap :=
  mkSwap (maker_coin s) (taker_coin s) (maker_amount s) (taker_amount s)
    (my_persistent_pub s) (maker_pubkey s) (uuid s) (my_order_uuid s) x
    (maker_payment_confirmed s) (errors s) (finished_at s) (mutable s)
    (conf_settings s) (payment_locktime s) (p2p_privkey s).

Definition set_maker_payment_confirmed (x : bool) (s : TakerSwap) : TakerSwap :=
  mkSwap (maker_coin s) (taker_coin s) (maker_amount s) (taker_amount s)
    (my_persistent_pub s) (maker_pubkey s) (uuid s) (my_order_uuid s)
    (maker_payment_lock s) x (errors s) (finished_at s) (mutable s)
    (conf_settings s) (payment_locktime s) (p2p_privkey s).

Definition set_errors (x : list SwapError) (s : TakerSwap) : TakerSwap :=
  mkSwap (maker_coin s) (taker_coin s) (maker_amount s) (taker_amount s)
    (my_persistent_pub s) (maker_pubkey s) (uuid s) (my_order_uuid s)
    (maker_payment_lock s) (maker_payment_confirmed s) x (finished_at s)
    (mutable s) (conf_settings s) (payment_locktime s) (p2p_privkey s).

Definition set_finished_at (x : Z) (s : TakerSwap) : TakerSwap :=
  mkSwap (maker_coin s) (taker_coin s) (maker_amount s) (taker_amount s)
    (my_persistent_pub s) (maker_pubkey s) (uuid s) (my_order_uuid s)
    (maker_payment_lock s) (maker_payment_confirmed s) (errors s) x (mutable s)
    (conf_settings s) (payment_locktime s) (p2p_privkey s).

Definition set_mutable (x : TakerSwapMut) (s : TakerSwap) : TakerSwap :=
  mkSwap (maker_coin s) (taker_coin s) (maker_amount s) (taker_amount s)
    (my_persistent_pub s) (maker_pubkey s) (uuid s) (my_order_uuid s)
    (maker_payment_lock s) (maker_payment_confirmed s) (errors s)
    (finished_at s) x (conf_settings s) (payment_locktime s) (p2p_privkey s).

Inductive TakerSwapCommand : Type :=
| Start
| Negotiate
| SendTakerFee
| WaitForMakerPayment
| ValidateMakerPayment
| SendTakerPayment
| WaitForTakerPaymentSpend
| SpendMakerPayment
| ConfirmMakerPaymentSpend
| PrepareForTakerPaymentRefund
| RefundTakerPayment
| FinalizeTakerPaymentRefund
| Finish.

#[export] Instance TakerSwapCommand_eq_dec : EqDecision TakerSwapCommand.
Proof. solve_decision. Defined.

Inductive TakerSwapEvent : Type :=
| Started (d : TakerSwapData)
| StartFailed (e : SwapError)
| Negotiated (d : MakerNegotiationData)
| NegotiateFailed (e : SwapError)
| TakerFeeSent (t : TransactionIdentifier)
| TakerFeeSendFailed (e : SwapError)
| TakerPaymentInstructionsReceived (i : option PaymentInstructions)
| MakerPaymentReceived (t : TransactionIdentifier)
| MakerPaymentWaitConfirmStarted
| MakerPaymentValidatedAndConfirmed
| MakerPaymentValidateFailed (e : SwapError)
| MakerPaymentWaitConfirmFailed (e : SwapError)
| TakerPaymentSent (t : TransactionIdentifier)
| WatcherMessageSent (maker_payment_spend taker_payment_refund : option bytes)
| TakerPaymentTransactionFailed (e : SwapError)
| TakerPaymentDataSendFailed (e : SwapError)
| TakerPaymentWaitConfirmFailed (e : SwapError)
| TakerPaymentSpent (d : TakerPaymentSpentData)
| TakerPaymentWaitForSpendFailed (e : SwapError)
| MakerPaymentSpent (t : TransactionIdentifier)
| MakerPaymentSpendConfirmed
| MakerPaymentSpendConfirmFailed (e : SwapError)
| MakerPaymentSpentByWatcher (t : TransactionIdentifier)
| MakerPaymentSpendFailed (e : SwapError)
| TakerPaymentWaitRefundStarted (wait_until : Z)
| TakerPaymentRefundStarted
| TakerPaymentRefunded (t : option TransactionIdentifier)
| TakerPaymentRefundFailed (e : SwapError)
| TakerPaymentRefundFinished
| TakerPaymentRefundedByWatcher (t : option TransactionIdentifier)
| Finished.

(** ** Classification of events *)

(** The variant name, which is how serde tags a saved event. *)
Definition event_name (e : TakerSwapEvent) : string :=
  match e with
  | Started _ => "Started"
  | StartFailed _ => "StartFailed"
  | Negotiated _ => "Negotiated"
  | NegotiateFailed _ => "NegotiateFailed"
  | TakerFeeSent _ => "TakerFeeSent"
  | TakerFeeSendFailed _ => "TakerFeeSendFailed"
  | TakerPaymentInstructionsReceived _ => "TakerPaymentInstructionsReceived"
  | MakerPaymentReceived _ => "MakerPaymentReceived"
  | MakerPaymentWaitConfirmStarted => "MakerPaymentWaitConfirmStarted"
  | MakerPaymentValidatedAndConfirmed => "MakerPaymentValidatedAndConfirmed"
  | MakerPaymentValidateFailed _ => "MakerPaymentValidateFailed"
  | MakerPaymentWaitConfirmFailed _ => "MakerPaymentWaitConfirmFailed"
  | TakerPaymentSent _ => "TakerPaymentSent"
  | WatcherMessageSent _ _ => "WatcherMessageSent"
  | TakerPaymentTransactionFailed _ => "TakerPaymentTransactionFailed"
  | TakerPaymentDataSendFailed _ => "TakerPaymentDataSendFailed"
  | TakerPaymentWaitConfirmFailed _ => "TakerPaymentWaitConfirmFailed"
  | TakerPaymentSpent _ => "TakerPaymentSpent"
  | TakerPaymentWaitForSpendFailed _ => "TakerPaymentWaitForSpendFailed"
  | MakerPaymentSpent _ => "MakerPaymentSpent"
  | MakerPaymentSpendConfirmed => "MakerPaymentSpendConfirmed"
  | MakerPaymentSpendConfirmFailed _ => "MakerPaymentSpendConfirmFailed"
  | MakerPaymentSpentByWatcher _ => "MakerPaymentSpentByWatcher"
  | MakerPaymentSpendFailed _ => "MakerPaymentSpendFailed"
  | TakerPaymentWaitRefundStarted _ => "TakerPaymentWaitRefundStarted"
  | TakerPaymentRefundStarted => "TakerPaymentRefundStarted"
  | TakerPaymentRefunded _ => "TakerPaymentRefunded"
  | TakerPaymentRefundFailed _ => "TakerPaymentRefundFailed"
  | TakerPaymentRefundFinished => "TakerPaymentRefundFinished"
  | TakerPaymentRefundedByWatcher _ => "TakerPaymentRefundedByWatcher"
  | Finished => "Finished"
  end.

Definition TAKER_SUCCESS_EVENTS : list string :=
  ["Started"; "Negotiated"; "TakerFeeSent"; "TakerPaymentInstructionsReceived";
   "MakerPaymentReceived"; "MakerPaymentWaitConfirmStarted";
   "MakerPaymentValidatedAndConfirmed"; "TakerPaymentSent"; "TakerPaymentSpent";
   "MakerPaymentSpent"; "MakerPaymentSpendConfirmed"; "Finished"].

Definition TAKER_USING_WATCHERS_SUCCESS_EVENTS : list string :=
  ["Started"; "Negotiated"; "TakerFeeSent"; "TakerPaymentInstructionsReceived";
   "MakerPaymentReceived"; "MakerPaymentWaitConfirmStarted";
   "MakerPaymentValidatedAndConfirmed"; "TakerPaymentSent"; "WatcherMessageSent";
   "TakerPaymentSpent"; "MakerPaymentSpent"; "MakerPaymentSpentByWatcher";
   "MakerPaymentSpendConfirmed"; "Finished"].

Definition TAKER_ERROR_EVENTS : list string :=
  ["StartFailed"; "NegotiateFailed"; "TakerFeeSendFailed"; "MakerPaymentValidateFailed";
   "MakerPaymentWaitConfirmFailed"; "TakerPaymentTransactionFailed";
   "TakerPaymentWaitConfirmFailed"; "TakerPaymentDataSendFailed";
   "TakerPaymentWaitForSpendFailed"; "MakerPaymentSpendFailed";
   "MakerPaymentSpendConfirmFailed"; "TakerPaymentWaitRefundStarted";
   "TakerPaymentRefundStarted"; "TakerPaymentRefunded"; "TakerPaymentRefundedByWatcher";
   "TakerPaymentRefundFailed"; "TakerPaymentRefundFinished"].

Definition status_str (e : TakerSwapEvent) : string :=
  match e with
  | Started _ => "Started..."
  | StartFailed _ => "Start failed..."
  | Negotiated _ => "Negotiated..."
  | NegotiateFailed _ => "Negotiate failed..."
  | TakerFeeSent _ => "Taker fee sent..."
  | TakerFeeSendFailed _ => "Taker fee send failed..."
  | TakerPaymentInstructionsReceived _ => "Taker payment instructions received..."
  | MakerPaymentReceived _ => "Maker payment received..."
  | MakerPaymentWaitConfirmStarted => "Maker payment wait confirm started..."
  | MakerPaymentValidatedAndConfirmed => "Maker payment validated and confirmed..."
  | MakerPaymentValidateFailed _ => "Maker payment validate failed..."
  | MakerPaymentWaitConfirmFailed _ => "Maker payment wait for confirmation failed..."
  | TakerPaymentSent _ => "Taker payment sent..."
  | WatcherMessageSent _ _ => "Watcher message sent..."
  | TakerPaymentTransactionFailed _ => "Taker payment transaction failed..."
  | TakerPaymentDataSendFailed _ => "Taker payment data send failed..."
  | TakerPaymentWaitConfirmFailed _ => "Taker payment wait for confirmation failed..."
  | TakerPaymentSpent _ => "Taker payment spent..."
  | TakerPaymentWaitForSpendFailed _ => "Taker payment wait for spend failed..."
  | MakerPaymentSpent _ => "Maker payment spent..."
  | MakerPaymentSpendConfirmed => "Maker payment spent confirmed..."
  | MakerPaymentSpendConfirmFailed _ => "Maker payment spend confirm failed..."
  | MakerPaymentSpentByWatcher _ => "Maker payment spent by watcher..."
  | MakerPaymentSpendFailed _ => "Maker payment spend failed..."
  | TakerPaymentWaitRefundStarted wait_until =>
      "Taker payment wait refund till " +:+ pretty wait_until +:+ " started..."
  | TakerPaymentRefundStarted => "Taker payment refund started..."
  | TakerPaymentRefunded _ => "Taker payment refunded..."
  | TakerPaymentRefundFailed _ => "Taker payment refund failed..."
  | TakerPaymentRefundFinished => "Taker payment refund finished..."
  | TakerPaymentRefundedByWatcher _ => "Taker payment refunded by watcher..."
  | Finished => "Finished"
  end.

Definition should_ban_maker (e : TakerSwapEvent) : bool :=
  match e with
  | NegotiateFailed _ | MakerPaymentValidateFailed _ | TakerPaymentWaitForSpendFailed _ => true
  | _ => false
  end.

Definition is_success (e : TakerSwapEvent) : bool :=
  match e with
  | Started _ | Negotiated _ | TakerFeeSent _ | TakerPaymentInstructionsReceived _
  | MakerPaymentReceived _ | MakerPaymentWaitConfirmStarted | WatcherMessageSent _ _
  | MakerPaymentValidatedAndConfirmed | TakerPaymentSent _ | TakerPaymentSpent _
  | MakerPaymentSpent _ | MakerPaymentSpendConfirmed | MakerPaymentSpentByWatcher _
  | Finished => true
  | _ => false
  end.

Definition is_error (e : TakerSwapEvent) : bool := negb (is_success e).

(** [TakerSavedEvent::get_command]: where a restored swap continues. *)
Definition get_command (e : TakerSwapEvent) : option TakerSwapCommand :=
  match e with
  | Started _ => Some Negotiate
  | StartFailed _ => Some Finish
  | Negotiated _ => Some SendTakerFee
  | NegotiateFailed _ => Some Finish
  | TakerFeeSent _ => Some WaitForMakerPayment
  | TakerFeeSendFailed _ => Some Finish
  | TakerPaymentInstructionsReceived _ => Some ValidateMakerPayment
  | MakerPaymentReceived _ => Some ValidateMakerPayment
  | MakerPaymentWaitConfirmStarted => Some ValidateMakerPayment
  | MakerPaymentValidatedAndConfirmed => Some SendTakerPayment
  | MakerPaymentValidateFailed _ => Some Finish
  | MakerPaymentWaitConfirmFailed _ => Some Finish
  | TakerPaymentSent _ => Some WaitForTakerPaymentSpend
  | WatcherMessageSent _ _ => Some WaitForTakerPaymentSpend
  | TakerPaymentTransactionFailed _ => Some Finish
  | TakerPaymentDataSendFailed _ => Some PrepareForTakerPaymentRefund
  | TakerPaymentSpent _ => Some SpendMakerPayment
  | TakerPaymentWaitForSpendFailed _ => Some PrepareForTakerPaymentRefund
  | TakerPaymentWaitConfirmFailed _ => Some PrepareForTakerPaymentRefund
  | MakerPaymentSpent _ => Some ConfirmMakerPaymentSpend
  | MakerPaymentSpendConfirmed => Some Finish
  | MakerPaymentSpendConfirmFailed _ => Some PrepareForTakerPaymentRefund
  | MakerPaymentSpentByWatcher _ => Some ConfirmMakerPaymentSpend
  | MakerPaymentSpendFailed _ => Some PrepareForTakerPaymentRefund
  | TakerPaymentWaitRefundStarted _ => Some PrepareForTakerPaymentRefund
  | TakerPaymentRefundStarted => Some RefundTakerPayment
  | TakerPaymentRefunded _ => Some FinalizeTakerPaymentRefund
  | TakerPaymentRefundFailed _ => Some Finish
  | TakerPaymentRefundFinished => Some Finish
  | TakerPaymentRefundedByWatcher _ => Some Finish
  | Finished => None
  end.

(** ** Accessors of the swap *)

(** [self.r().data] *)
Definition swap_data (s : TakerSwap) : TakerSwapData := data (mutable s).

Definition unique_swap_data (s : TakerSwap) : bytes := uuid s.

Definition my_maker_coin_htlc_pub (s : TakerSwap) : H264 :=
  default (my_persistent_pub s) (d_maker_coin_htlc_pubkey (swap_data s)).

Definition my_taker_coin_htlc_pub (s : TakerSwap) : H264 :=
  default (my_persistent_pub s) (d_taker_coin_htlc_pubkey (swap_data s)).

Definition wait_refund_until (s : TakerSwap) : Z :=
  wrap 64 (d_taker_payment_lock (swap_data s) + 3700).

Definition watcher_reward_amount (s : TakerSwap) : option BigDecimal :=
  match payment_instructions (mutable s) with
  | Some (WatcherRewardInstr reward) => Some reward
  | _ => None
  end.

(** ** Events *)

Definition upd (f : TakerSwapMut -> TakerSwapMut) (s : TakerSwap) : TakerSwap :=
  set_mutable (f (mutable s)) s.

Definition push_error (e : SwapError) (s : TakerSwap) : TakerSwap :=
  set_errors (errors s ++ [e]) s.

(** [now] is what [now_sec()] returns when [Finished] is applied. *)
Definition apply_event (now : Z) (event : TakerSwapEvent) (s : TakerSwap) : TakerSwap :=
  match event with
  | Started d => upd (set_data d) s
  | StartFailed e => push_error e s
  | Negotiated d =>
      let s := set_maker_payment_lock (maker_payment_locktime d) s in
      let s := upd (set_other_maker_coin_htlc_pub (neg_other_maker_coin_htlc_pub d)) s in
      let s := upd (set_other_taker_coin_htlc_pub (neg_other_taker_coin_htlc_pub d)) s in
      let s := upd (set_secret_hash (mnd_secret_hash d)) s in
      let s := if maker_coin_swap_contract_addr d is Some _
               then upd (fun m => set_data (set_d_maker_coin_swap_contract_address
                                   (maker_coin_swap_contract_addr d) (data m)) m) s
               else s in
      if taker_coin_swap_contract_addr d is Some _
      then upd (fun m => set_data (set_d_taker_coin_swap_contract_address
                          (taker_coin_swap_contract_addr d) (data m)) m) s
      else s
  | NegotiateFailed e => push_error e s
  | TakerFeeSent t => upd (set_taker_fee (Some t)) s
  | TakerFeeSendFailed e => push_error e s
  | TakerPaymentInstructionsReceived i => upd (set_payment_instructions i) s
  | MakerPaymentReceived t => upd (set_maker_payment (Some t)) s
  | MakerPaymentWaitConfirmStarted => s
  | MakerPaymentValidatedAndConfirmed => set_maker_payment_confirmed true s
  | MakerPaymentValidateFailed e => push_error e s
  | MakerPaymentWaitConfirmFailed e => push_error e s
  | TakerPaymentSent t => upd (set_taker_payment (Some t)) s
  | WatcherMessageSent maker_payment_spend taker_payment_refund =>
      let s := upd (set_maker_payment_spend_preimage maker_payment_spend) s in
      upd (set_taker_payment_refund_preimage taker_payment_refund) s
  | TakerPaymentTransactionFailed e => push_error e s
  | TakerPaymentDataSendFailed e => push_error e s
  | TakerPaymentWaitConfirmFailed e => push_error e s
  | TakerPaymentSpent d =>
      let s := upd (set_taker_payment_spend (Some (transaction d))) s in
      upd (set_secret (spent_secret d)) s
  | TakerPaymentWaitForSpendFailed e => push_error e s
  | MakerPaymentSpent t => upd (set_maker_payment_spend (Some t)) s
  | MakerPaymentSpendConfirmed => upd (set_maker_payment_spend_confirmed true) s
  | MakerPaymentSpendConfirmFailed e => push_error e s
  | MakerPaymentSpentByWatcher t => upd (set_maker_payment_spend (Some t)) s
  | MakerPaymentSpendFailed e => push_error e s
  | TakerPaymentWaitRefundStarted _ => s
  | TakerPaymentRefundStarted => s
  | TakerPaymentRefunded t => upd (set_taker_payment_refund t) s
  | TakerPaymentRefundFailed e => push_error e s
  | TakerPaymentRefundFinished => s
  | TakerPaymentRefundedByWatcher t => upd (set_taker_payment_refund t) s
  | Finished => set_finished_at now s
  end.

Definition TakerSwap_new (maker_pubkey : H256) (maker_amount taker_amount : BigDecimal)
  (my_persistent_pub : H264) (uuid : Uuid) (my_order_uuid : option Uuid)
  (conf_settings : SwapConfirmationsSettings) (maker_coin taker_coin : Coin)
  (payment_locktime : Z) (p2p_privkey : option bytes) : TakerSwap :=
  mkSwap maker_coin taker_coin maker_amount taker_amount my_persistent_pub maker_pubkey uuid
    my_order_uuid 0 false [] 0
    (mkMut TakerSwapData_default H264_default H264_default None None None None false None
       None None None [] H256_default false None)
    conf_settings payment_locktime p2p_privkey.

Definition get_my_negotiation_data (s : TakerSwap) (secret_hash : bytes)
  (maker_coin_swap_contract taker_coin_swap_contract : bytes) : NegotiationDataMsg :=
  let d := swap_data s in
  let equal := bool_decide (d_maker_coin_htlc_pubkey d = d_taker_coin_htlc_pubkey d) in
  let same_as_persistent :=
    bool_decide (d_maker_coin_htlc_pubkey d = Some (d_my_persistent_pub d)) in
  if equal && same_as_persistent
  then NegV2 (mkV2 (d_started_at d) (d_taker_payment_lock d) secret_hash
                (my_persistent_pub s) maker_coin_swap_contract taker_coin_swap_contract)
  else NegV3 (mkV3 (d_started_at d) (d_taker_payment_lock d) secret_hash
                maker_coin_swap_contract taker_coin_swap_contract
                (my_maker_coin_htlc_pub s) (my_taker_coin_htlc_pub s)).

Definition swap_dex_fee (s : TakerSwap) : DexFee :=
  new_with_taker_pubkey (fee_coin (taker_coin s)) (d_maker_coin (swap_data s))
    (taker_amount s) (my_taker_coin_htlc_pub s).

(** [AtomicSwap::locked_amount] *)
Definition locked_amount (s : TakerSwap) : list LockedAmount :=
  let d := swap_data s in
  (if taker_fee (mutable s) is Some _ then []
   else [mkLockedAmount (ticker (taker_coin s)) (total_spend_amount (swap_dex_fee s))
           (trade_fee_from_saved <$> d_fee_to_send_taker_fee d)]) ++
  (if taker_payment (mutable s) is Some _ then []
   else [mkLockedAmount (ticker (taker_coin s)) (taker_amount s)
           (trade_fee_from_saved <$> d_taker_payment_trade_fee d)]) ++
  (if maker_payment_spend (mutable s) is Some _ then []
   else [mkLockedAmount (ticker (maker_coin s)) (0 # 1)
           (trade_fee_from_saved <$> d_maker_payment_spend_trade_fee d)]).

Definition running_swap (s : TakerSwap) : RunningSwap :=
  mkRunningSwap (uuid s) (locked_amount s) (ticker (maker_coin s)) (ticker (taker_coin s)).

(** ** The command handlers *)

Notation M := (prog (@answer TakerSwapEvent)).

(** What a handler returns: the next command and the events to apply. *)
Definition outcome : Type := option TakerSwapCommand * list TakerSwapEvent.

Definition finish_with (e : TakerSwapEvent) : outcome := (Some Finish, [e]).

Section Handlers.
  Context `{SecretHasher} `{DecimalConv}.
  Variable fuel : nat.
  Local Open Scope prog_scope.

Record TakerSwapPreparedParams : Type := mkPrepared {
  pp_dex_fee : MmNumber;
  pp_fee_to_send_dex_fee : TradeFee;
  pp_taker_payment_trade_fee : TradeFee;
  pp_maker_payment_spend_trade_fee : TradeFee }.

(** The taker key is not known yet, so the dex fee is the largest one. *)
Definition create_taker_swap_default_params (my_coin other_coin : Coin) (volume : MmNumber)
  (stage : FeeApproxStage) : M (result CheckBalanceError TakerSwapPreparedParams) :=
  let dex_fee := new_from_taker_coin (fee_coin my_coin) (ticker other_coin) volume in
  f1 <- call (get_fee_to_send_taker_fee TakerSide dex_fee stage);
  match f1 with
  | Err e => Ret (Err (from_trade_preimage_error e (ticker my_coin)))
  | Ok fee_to_send_dex_fee =>
  f2 <- call (get_sender_trade_fee TakerSide (Exact (to_decimal volume)) stage);
  match f2 with
  | Err e => Ret (Err (from_trade_preimage_error e (ticker my_coin)))
  | Ok taker_payment_trade_fee =>
  f3 <- call (get_receiver_trade_fee MakerSide stage);
  match f3 with
  | Err e => Ret (Err (from_trade_preimage_error e (ticker other_coin)))
  | Ok maker_payment_spend_trade_fee =>
      Ret (Ok (mkPrepared (total_spend_amount dex_fee) fee_to_send_dex_fee
                 taker_payment_trade_fee maker_payment_spend_trade_fee))
  end end end.

Definition check_balance_for_taker_swap (my_coin other_coin : Coin) (volume : MmNumber)
  (swap_uuid : option Uuid) (prepared_params : option TakerSwapPreparedParams)
  (stage : FeeApproxStage) : M (result CheckBalanceError unit) :=
  params <- (match prepared_params with
             | Some p => Ret (Ok p)
             | None => create_taker_swap_default_params my_coin other_coin volume stage
             end);
  match params with
  | Err e => Ret (Err e)
  | Ok p =>
      b <- check_my_coin_balance_for_swap TakerSide (ticker my_coin) swap_uuid volume
             (pp_taker_payment_trade_fee p)
             (Some (mkTakerFeeInfo (pp_dex_fee p) (pp_fee_to_send_dex_fee p)));
      match b with
      | Err e => Ret (Err e)
      | Ok _ =>
          if negb (tf_paid_from_trading_vol (pp_maker_payment_spend_trade_fee p))
          then check_other_coin_balance_for_swap MakerSide (ticker other_coin) swap_uuid
                 (pp_maker_payment_spend_trade_fee p)
          else Ret (Ok tt)
      end
  end.

Definition started_data (s : TakerSwap) (started_at : Z)
  (fee_to_send_dex_fee taker_payment_trade_fee maker_payment_spend_trade_fee : TradeFee)
  (maker_coin_start_block taker_coin_start_block : Z) : TakerSwapData :=
  let unique_data := unique_swap_data s in
  {| d_taker_coin := ticker (taker_coin s);
     d_maker_coin := ticker (maker_coin s);
     d_maker_pubkey := maker_pubkey s;
     d_my_persistent_pub := my_persistent_pub s;
     d_lock_duration := payment_locktime s;
     d_maker_amount := to_decimal (maker_amount s);
     d_taker_amount := to_decimal (taker_amount s);
     d_maker_payment_confirmations := maker_coin_confs (conf_settings s);
     d_maker_payment_requires_nota := Some (maker_coin_nota (conf_settings s));
     d_taker_payment_confirmations := taker_coin_confs (conf_settings s);
     d_taker_payment_requires_nota := Some (taker_coin_nota (conf_settings s));
     d_taker_payment_lock := wrap 64 (started_at + payment_locktime s);
     d_uuid := uuid s;
     d_started_at := started_at;
     d_maker_payment_wait := wait_for_maker_payment_conf_until started_at (payment_locktime s);
     d_maker_coin_start_block := maker_coin_start_block;
     d_taker_coin_start_block := taker_coin_start_block;
     d_fee_to_send_taker_fee := Some (saved_from_trade_fee fee_to_send_dex_fee);
     d_taker_payment_trade_fee := Some (saved_from_trade_fee taker_payment_trade_fee);
     d_maker_payment_spend_trade_fee := Some (saved_from_trade_fee maker_payment_spend_trade_fee);
     d_maker_coin_swap_contract_address := swap_contract_address (maker_coin s);
     d_taker_coin_swap_contract_address := swap_contract_address (taker_coin s);
     d_maker_coin_htlc_pubkey := Some (derive_htlc_pubkey (maker_coin s) unique_data);
     d_taker_coin_htlc_pubkey := Some (derive_htlc_pubkey (taker_coin s) unique_data);
     d_p2p_privkey := p2p_privkey s |}.

(** The fee for sending the dex fee; nothing is asked when none is due. *)
Definition fee_to_send (dex_fee : DexFee) (s : TakerSwap) : M (result TradePreimageError TradeFee) :=
  match dex_fee with
  | NoFee => Ret (Ok (mkTradeFee (ticker (taker_coin s)) (0 # 1) false))
  | _ => call (get_fee_to_send_taker_fee TakerSide dex_fee StartSwap)
  end.

(** [start] is the only handler that also writes to the swap directly.  The
    data are not initialized yet when it computes the dex fee. *)
Definition start (s : TakerSwap) : M (TakerSwap * outcome) :=
  let fail fmt arg := Ret (s, finish_with (StartFailed (err fmt [arg]))) in
  let dex_fee := new_with_taker_pubkey (fee_coin (taker_coin s)) (ticker (maker_coin s))
                   (taker_amount s) (my_taker_coin_htlc_pub s) in
  f1 <- fee_to_send dex_fee s;
  match f1 with
  | Err e => fail "!taker_coin.get_fee_to_send_taker_fee {}"%string (ArgPreimage e)
  | Ok fee_to_send_dex_fee =>
  f2 <- call (get_sender_trade_fee TakerSide (Exact (to_decimal (taker_amount s))) StartSwap);
  match f2 with
  | Err e => fail "!taker_coin.get_sender_trade_fee {}"%string (ArgPreimage e)
  | Ok taker_payment_trade_fee =>
  f3 <- call (get_receiver_trade_fee MakerSide StartSwap);
  match f3 with
  | Err e => fail "!maker_coin.get_receiver_trade_fee {}"%string (ArgPreimage e)
  | Ok maker_payment_spend_trade_fee =>
  b <- check_balance_for_taker_swap (taker_coin s) (maker_coin s) (taker_amount s)
         (Some (uuid s))
         (Some (mkPrepared (total_spend_amount dex_fee) fee_to_send_dex_fee
                  taker_payment_trade_fee maker_payment_spend_trade_fee)) StartSwap;
  match b with
  | Err e => fail "!check_balance_for_taker_swap {}"%string (ArgBalance e)
  | Ok _ =>
  started_at <- call now_sec;
  b1 <- call (current_block MakerSide);
  match b1 with
  | Err e => fail "!maker_coin.current_block {}"%string (ArgStr e)
  | Ok maker_coin_start_block =>
  b2 <- call (current_block TakerSide);
  match b2 with
  | Err e => fail "!taker_coin.current_block {}"%string (ArgStr e)
  | Ok taker_coin_start_block =>
  let data := started_data s started_at fee_to_send_dex_fee taker_payment_trade_fee
                maker_payment_spend_trade_fee maker_coin_start_block taker_coin_start_block in
  use_reward <- call (env_is_set "USE_WATCHER_REWARD");
  Ret (upd (set_watcher_reward use_reward) s, (Some Negotiate, [Started data]))
  end end end end end end.

Definition negotiate_failed (e : SwapError) : outcome := finish_with (NegotiateFailed e).

(** [negotiate_swap_contract_addr] with the fallback contract of the coin. *)
Definition negotiate_addr (c : Coin) (fmt : string) (other : option bytes)
  : result SwapError (option bytes) :=
  match negotiate_swap_contract_addr c other with
  | Ok addr => Ok addr
  | Err e =>
      match fallback_swap_contract c with
      | Some addr => Ok (Some addr)
      | None => Err (err fmt [ArgStr e])
      end
  end.

(** The checks on the maker's negotiation data, in the order of the source. *)
Definition check_maker_data (s : TakerSwap) (maker_data : NegotiationDataMsg)
  : result SwapError MakerNegotiationData :=
  (let d := swap_data s in
  let time_dif := abs_diff (d_started_at d) (started_at maker_data) in
  let? _ := (if time_dif >? MAX_STARTED_AT_DIFF
             then Err (err "The time difference between you and the maker cannot be longer than 60 seconds. Current difference: {}. Please make sure that your system clock is synced to the correct time before starting another swap!" [ArgNum time_dif])
             else Ok tt) in
  let customized_lock_duration :=
    mul_ceil (d_lock_duration d) (maker_locktime_multiplier (taker_coin s)) in
  let expected_lock_time := checked_add (started_at maker_data) customized_lock_duration in
  let? _ := (if bool_decide (Some (Swap.payment_locktime maker_data) = expected_lock_time) then Ok tt
             else Err (err "maker_data.payment_locktime {:?} not equal to expected {:?}"
                         [ArgNum (Swap.payment_locktime maker_data); ArgOptNum expected_lock_time])) in
  let? maker_coin_swap_contract_addr :=
    negotiate_addr (maker_coin s) "!maker_coin.negotiate_swap_contract_addr {}"
      (maker_coin_swap_contract maker_data) in
  let? taker_coin_swap_contract_addr :=
    negotiate_addr (taker_coin s) "!taker_coin.negotiate_swap_contract_addr {}"
      (taker_coin_swap_contract maker_data) in
  let? _ := map_err (fun e => err "!maker_data.maker_coin_htlc_pub {}" [ArgStr e])
              (validate_other_pubkey (maker_coin s) (maker_coin_htlc_pub maker_data)) in
  let? _ := map_err (fun e => err "!maker_data.taker_coin_htlc_pub {}" [ArgStr e])
              (validate_other_pubkey (taker_coin s) (taker_coin_htlc_pub maker_data)) in
  let? _ := (if (length (Swap.secret_hash maker_data) =? 20)%nat
                || (length (Swap.secret_hash maker_data) =? 32)%nat
             then Ok tt
             else Err (err_str "!maker_data.secret_hash: secret_hash validation failed")) in
  Ok (mkMND (Swap.payment_locktime maker_data) H264_default (Swap.secret_hash maker_data)
        maker_coin_swap_contract_addr taker_coin_swap_contract_addr
        (Some (maker_coin_htlc_pub maker_data)) (Some (taker_coin_htlc_pub maker_data))))%result.

Definition NEGOTIATE_TIMEOUT_SEC : Z := 90.

(** The answer sent to the maker once its data have been accepted. *)
Definition reply_to (s : TakerSwap) (d : MakerNegotiationData) : NegotiationDataMsg :=
  get_my_negotiation_data s (mnd_secret_hash d)
    (default [] (maker_coin_swap_contract_addr d)) (default [] (taker_coin_swap_contract_addr d)).

Definition negotiate (s : TakerSwap) : M outcome :=
  r <- recv_swap_msg fuel (uuid s) KNegotiation NEGOTIATE_TIMEOUT_SEC;
  match r with
  | Err e => Ret (negotiate_failed (err "{:?}" [arg_err e]))
  | Ok maker_data =>
  match check_maker_data s maker_data with
  | Err e => Ret (negotiate_failed e)
  | Ok d =>
  do call (broadcast_swap_msg_every (Swap.NegotiationReply (reply_to s d)) (90 # 6));
  n <- recv_swap_msg fuel (uuid s) KNegotiated NEGOTIATE_TIMEOUT_SEC;
  match n with
  | Err e => Ret (negotiate_failed (err "{:?}" [arg_err e]))
  | Ok negotiated =>
      if negb negotiated
      then Ret (negotiate_failed (err_str "Maker sent negotiated = false"))
      else Ret (Some SendTakerFee, [Negotiated d])
  end end end.

Definition fee_send_failed (e : SwapError) : outcome := finish_with (TakerFeeSendFailed e).

(** [started_at + lock_duration / 3], after which no fee is sent. *)
Definition fee_deadline (s : TakerSwap) : Z :=
  wrap 64 (d_started_at (swap_data s) + d_lock_duration (swap_data s) / 3).

Definition handle_send_taker_fee (s : TakerSwap) : M outcome :=
  let expire_at := fee_deadline s in
  now <- call now_sec;
  if now >? expire_at
  then Ret (fee_send_failed (err "Timeout {} > {}" [ArgNum now; ArgNum expire_at]))
  else
  match swap_dex_fee s with
  | NoFee => Ret (Some WaitForMakerPayment, [TakerFeeSent (mkTxIdent [] [])])
  | dex_fee =>
      r <- call (send_taker_fee dex_fee (uuid s) expire_at);
      match r with
      | Err e => Ret (fee_send_failed (err "{}" [ArgStr (get_plain_text_format e)]))
      | Ok transaction => Ret (Some WaitForMakerPayment, [TakerFeeSent (tx_ident transaction)])
      end
  end.

(** [get_taker_fee_data]; panics when there is no taker fee. *)
Definition get_taker_fee_data (s : TakerSwap) : M (result string SwapTxDataMsg) :=
  let d := swap_data s in
  fee <- unwrap (taker_fee (mutable s));
  let maker_lock_duration :=
    mul_ceil (d_lock_duration d) (maker_locktime_multiplier (taker_coin s)) in
  r <- call (maker_payment_instructions MakerSide
         (mkPaymentInstructionArgs (secret_hash (mutable s)) (to_decimal (maker_amount s))
            maker_lock_duration (wait_for_maker_payment_conf_duration (d_lock_duration d))
            (watcher_reward (mutable s) && is_eth (taker_coin s))
            (wait_for_maker_payment_conf_until (d_started_at d) (d_lock_duration d))));
  Ret (result_map (swap_tx_data_new (ti_tx_hex fee)) r).

Definition maker_payment_invalid (e : SwapError) : outcome :=
  finish_with (MakerPaymentValidateFailed e).

Definition MAKER_PAYMENT_WAIT_TIMEOUT_SEC : Z := 600.

(** The instructions a maker payment message carries, checked by the coin. *)
Definition check_instructions (s : TakerSwap) (payload : SwapTxDataMsg)
  : result string (option PaymentInstructions) :=
  match instructions payload with
  | None => Ok None
  | Some i =>
      result_map Some (validate_taker_payment_instructions (taker_coin s) i
        (mkPaymentInstructionArgs (secret_hash (mutable s)) (to_decimal (taker_amount s))
           0 0 false 0))
  end.

Definition wait_for_maker_payment (s : TakerSwap) : M outcome :=
  m <- get_taker_fee_data s;
  match m with
  | Err e => Ret (maker_payment_invalid (err_str e))
  | Ok payment_data_msg =>
  do call (broadcast_swap_msg_every (Swap.TakerFee payment_data_msg) (600 # 6));
  r <- recv_swap_msg fuel (uuid s) KMakerPayment MAKER_PAYMENT_WAIT_TIMEOUT_SEC;
  match r with
  | Err e => Ret (maker_payment_invalid (err "Error waiting for 'maker-payment' data: {}" [arg_err e]))
  | Ok payload =>
  match check_instructions s payload with
  | Err e => Ret (maker_payment_invalid (err_str e))
  | Ok instructions =>
  match tx_enum_from_bytes (maker_coin s) (tx_data payload) with
  | Err e => Ret (maker_payment_invalid (err "Error parsing the 'maker-payment': {:?}" [ArgStr e]))
  | Ok maker_payment =>
      Ret (Some ValidateMakerPayment,
           [TakerPaymentInstructionsReceived instructions;
            MakerPaymentReceived (tx_ident maker_payment); MakerPaymentWaitConfirmStarted])
  end end end end.

Definition validate_input (s : TakerSwap) (p : TransactionIdentifier)
  (watcher_reward : option WatcherReward) : ValidatePaymentInput :=
  let d := swap_data s in
  mkValidatePayment (ti_tx_hex p) (d_lock_duration d) (maker_payment_lock s)
    (other_maker_coin_htlc_pub (mutable s)) (secret_hash (mutable s))
    (to_decimal (maker_amount s)) (d_maker_coin_swap_contract_address d)
    (d_maker_payment_wait d) (d_maker_payment_confirmations d) (unique_swap_data s)
    watcher_reward.

Definition payment_failed (e : SwapError) : outcome :=
  finish_with (TakerPaymentTransactionFailed e).

Definition handle_validate_maker_payment (s : TakerSwap) : M outcome :=
  let d := swap_data s in
  p <- unwrap (maker_payment (mutable s));
  c <- call (wait_for_confirmations MakerSide
         (mkConfirm (ti_tx_hex p) (d_maker_payment_confirmations d)
            (default false (d_maker_payment_requires_nota d)) (d_maker_payment_wait d)
            WAIT_CONFIRM_INTERVAL_SEC));
  match c with
  | Err e =>
      Ret (finish_with (MakerPaymentWaitConfirmFailed
             (err "!wait for maker payment confirmations: {}" [ArgStr e])))
  | Ok _ =>
  reward <- (if watcher_reward (mutable s)
             then call (get_maker_watcher_reward (watcher_reward_amount s) (d_maker_payment_wait d))
             else Ret (Ok None));
  match reward with
  | Err e => Ret (payment_failed (err_str e))
  | Ok watcher_reward =>
  v <- call (validate_maker_payment (validate_input s p watcher_reward));
  match v with
  | Err e => Ret (maker_payment_invalid (err "!validate maker payment: {}" [ArgStr e]))
  | Ok _ => Ret (Some SendTakerPayment, [MakerPaymentValidatedAndConfirmed])
  end end end.

(** Panics when the taker fee or the maker payment is missing. *)
Definition create_watcher_data (s : TakerSwap)
  (taker_payment_hash maker_payment_spend_preimage taker_payment_refund_preimage : bytes)
  : M TakerSwapWatcherData :=
  let d := swap_data s in
  fee <- unwrap (taker_fee (mutable s));
  p <- unwrap (maker_payment (mutable s));
  Ret {| wd_uuid := uuid s;
         wd_secret_hash := secret_hash (mutable s);
         wd_maker_payment_spend_preimage := maker_payment_spend_preimage;
         wd_taker_payment_refund_preimage := taker_payment_refund_preimage;
         wd_swap_started_at := d_started_at d;
         wd_lock_duration := d_lock_duration d;
         wd_taker_coin := d_taker_coin d;
         wd_taker_fee_hash := ti_tx_hash fee;
         wd_taker_payment_hash := taker_payment_hash;
         wd_taker_coin_start_block := d_taker_coin_start_block d;
         wd_taker_payment_confirmations := d_taker_payment_confirmations d;
         wd_taker_payment_requires_nota := d_taker_payment_requires_nota d;
         wd_maker_coin := d_maker_coin d;
         wd_maker_pub := other_maker_coin_htlc_pub (mutable s);
         wd_maker_payment_hash := ti_tx_hash p;
         wd_maker_coin_start_block := d_maker_coin_start_block d |}.

Definition setup_watcher_reward (s : TakerSwap) (taker_payment_lock : Z)
  : M (result string (option WatcherReward)) :=
  if negb (watcher_reward (mutable s)) then Ret (Ok None)
  else
    r <- call (get_taker_watcher_reward (Some (taker_amount s)) (Some (maker_amount s))
                 (watcher_reward_amount s) taker_payment_lock);
    Ret (result_map Some r).

Definition coins_support_watchers (s : TakerSwap) : bool :=
  is_supported_by_watchers (taker_coin s) && is_supported_by_watchers (maker_coin s).

(** [!ctx.disable_watchers_globally() && ..], which asks the context first. *)
Definition watchers_enabled_and_supported (s : TakerSwap) : M bool :=
  disabled <- call disable_watchers_globally;
  Ret (negb disabled && coins_support_watchers s).

Definition maker_spend_preimage_args (s : TakerSwap) (p : TransactionIdentifier) : PreimageArgs :=
  mkPreimage (ti_tx_hex p) (maker_payment_lock s) (other_maker_coin_htlc_pub (mutable s))
    (secret_hash (mutable s)) None (unique_swap_data s).

Definition taker_refund_preimage_args (s : TakerSwap) (t : Tx) : PreimageArgs :=
  mkPreimage (tx_hex t) (d_taker_payment_lock (swap_data s)) (other_taker_coin_htlc_pub (mutable s))
    (secret_hash (mutable s)) (d_taker_coin_swap_contract_address (swap_data s))
    (unique_swap_data s).

Definition process_watcher_logic (s : TakerSwap) (t : Tx) : M (option TakerSwapEvent) :=
  enabled <- watchers_enabled_and_supported s;
  if negb enabled then Ret None
  else
    p <- unwrap (maker_payment (mutable s));
    r <- call (create_watcher_preimages (maker_spend_preimage_args s p)
                 (taker_refund_preimage_args s t));
    match r with
    | Err _ => Ret None
    | Ok (maker_payment_spend, taker_payment_refund) =>
        d <- create_watcher_data s (tx_hash t) (tx_hex maker_payment_spend)
               (tx_hex taker_payment_refund);
        do call (broadcast_watcher_message d);
        Ret (Some (WatcherMessageSent (Some (tx_hex maker_payment_spend))
                     (Some (tx_hex taker_payment_refund))))
    end.

Definition check_sent_args (s : TakerSwap) : CheckIfMyPaymentSentArgs :=
  let d := swap_data s in
  mkCheckSent (d_taker_payment_lock d) (other_taker_coin_htlc_pub (mutable s))
    (secret_hash (mutable s)) (d_taker_coin_start_block d)
    (d_taker_coin_swap_contract_address d) (unique_swap_data s) (to_decimal (taker_amount s))
    (payment_instructions (mutable s)).

Definition send_payment_args (s : TakerSwap) (reward : option WatcherReward) : SendPaymentArgs :=
  let d := swap_data s in
  mkSendPayment (d_lock_duration d) (d_taker_payment_lock d)
    (other_taker_coin_htlc_pub (mutable s)) (secret_hash (mutable s))
    (to_decimal (taker_amount s)) (d_taker_coin_swap_contract_address d) (unique_swap_data s)
    (payment_instructions (mutable s)) reward (d_taker_payment_lock d).

(** [TakerPaymentSent], and the watcher message when there is one. *)
Definition taker_payment_sent (s : TakerSwap) (t : Tx) : M outcome :=
  w <- process_watcher_logic s t;
  Ret (Some WaitForTakerPaymentSpend,
       TakerPaymentSent (tx_ident t) :: match w with Some e => [e] | None => [] end).

Definition handle_send_taker_payment (s : TakerSwap) : M outcome :=
  let d := swap_data s in
  existing <- call (check_if_my_payment_sent TakerSide (check_sent_args s));
  match existing with
  | Err e => Ret (payment_failed (err "{}" [ArgStr e]))
  | Ok maybe_existing_payment =>
  let timeout := d_maker_payment_wait d in
  timed_out <- (match maybe_existing_payment with
                | Some _ => Ret None
                | None =>
                    now <- call now_sec;
                    Ret (if now >? timeout
                         then Some (err "Timeout {} > {}" [ArgNum now; ArgNum timeout])
                         else None)
                end);
  match timed_out with
  | Some e => Ret (payment_failed e)
  | None =>
  reward <- setup_watcher_reward s (d_taker_payment_lock d);
  match reward with
  | Err e => Ret (payment_failed (err "Watcher reward error: {}" [ArgStr e]))
  | Ok watcher_reward =>
  match maybe_existing_payment with
  | Some t => taker_payment_sent s t
  | None =>
      r <- call (send_taker_payment (send_payment_args s watcher_reward));
      match r with
      | Ok t => taker_payment_sent s t
      | Err e => Ret (payment_failed (err "{}" [ArgStr (get_plain_text_format e)]))
      end
  end end end end.

Definition refund_after (s : TakerSwap) (e : TakerSwapEvent) : outcome :=
  (Some PrepareForTakerPaymentRefund,
   [e; TakerPaymentWaitRefundStarted (wait_refund_until s)]).

Definition TAKER_PAYMENT_SPEND_SEARCH_INTERVAL : Q := 10 # 1.

(** Repeats the watcher message while the taker waits. *)
Definition rebroadcast_watcher_message (s : TakerSwap) (p : TransactionIdentifier) : M unit :=
  enabled <- watchers_enabled_and_supported s;
  if negb enabled then Ret tt
  else
    match maker_payment_spend_preimage (mutable s), taker_payment_refund_preimage (mutable s) with
    | Some maker_payment_spend, Some taker_payment_refund =>
        d <- create_watcher_data s (ti_tx_hash p) maker_payment_spend taker_payment_refund;
        call (broadcast_watcher_message_every d (600 # 1))
    | _, _ => Ret tt
    end.

Definition wait_spend_args (s : TakerSwap) (p : TransactionIdentifier) : WaitForHTLCTxSpendArgs :=
  let d := swap_data s in
  mkWaitSpend (ti_tx_hex p) (secret_hash (mutable s)) (d_taker_payment_lock d)
    (d_taker_coin_start_block d) (d_taker_coin_swap_contract_address d)
    TAKER_PAYMENT_SPEND_SEARCH_INTERVAL (watcher_reward (mutable s)).

Definition wait_for_taker_payment_spend (s : TakerSwap) : M outcome :=
  p <- unwrap (taker_payment (mutable s));
  do rebroadcast_watcher_message s p;
  do call (broadcast_swap_msg_every (Swap.TakerPayment (ti_tx_hex p)) (15 # 1));
  r <- call (wait_for_htlc_tx_spend (wait_spend_args s p));
  match r with
  | Err e => Ret (refund_after s (TakerPaymentWaitForSpendFailed
                    (err_str (get_plain_text_format e))))
  | Ok t =>
      x <- call (extract_secret TakerSide (secret_hash (mutable s)) (tx_hex t));
      match x with
      | Err e => Ret (finish_with (TakerPaymentWaitForSpendFailed (err "{}" [ArgStr e])))
      | Ok secret =>
          Ret (Some SpendMakerPayment, [TakerPaymentSpent (mkSpentData (tx_ident t) secret)])
      end
  end.

Definition spend_maker_payment_args (s : TakerSwap) (p : bytes) (secret : H256)
  : SpendPaymentArgs :=
  let d := swap_data s in
  mkSpendPayment p (maker_payment_lock s) (other_maker_coin_htlc_pub (mutable s))
    secret (secret_hash (mutable s)) (d_maker_coin_swap_contract_address d)
    (unique_swap_data s) (watcher_reward (mutable s)).

Definition spend_maker_payment (s : TakerSwap) : M outcome :=
  p <- unwrap (maker_payment (mutable s));
  r <- call (send_taker_spends_maker_payment
         (spend_maker_payment_args s (ti_tx_hex p) (secret (mutable s))));
  match r with
  | Err e =>
      do broadcast_recovered_tx MakerSide e;
      Ret (finish_with (MakerPaymentSpendFailed (err "{}" [ArgStr (get_plain_text_format e)])))
  | Ok t =>
      do broadcast_p2p_tx_msg MakerSide t;
      Ret (Some ConfirmMakerPaymentSpend, [MakerPaymentSpent (tx_ident t)])
  end.

Definition confirm_maker_payment_spend (s : TakerSwap) : M outcome :=
  p <- unwrap (maker_payment_spend (mutable s));
  c <- call (wait_for_confirmations MakerSide
         (mkConfirm (ti_tx_hex p) (d_maker_payment_confirmations (swap_data s)) false
            (wait_refund_until s) WAIT_CONFIRM_INTERVAL_SEC));
  match c with
  | Err e =>
      Ret (refund_after s (MakerPaymentSpendConfirmFailed
             (err "!wait for maker payment spend confirmations: {}" [ArgStr e])))
  | Ok _ => Ret (Some Finish, [MakerPaymentSpendConfirmed])
  end.

Definition prepare_for_taker_payment_refund (s : TakerSwap) : M outcome :=
  p <- unwrap (maker_payment (mutable s));
  do call (on_payment_refund_start MakerSide (ti_tx_hex p));
  Ret (Some RefundTakerPayment, [TakerPaymentRefundStarted]).

Definition refund_args (s : TakerSwap) (payment_tx : bytes) : RefundPaymentArgs :=
  let d := swap_data s in
  mkRefundPayment payment_tx (d_taker_payment_lock d) (other_taker_coin_htlc_pub (mutable s))
    (secret_hash (mutable s)) (d_taker_coin_swap_contract_address d) (unique_swap_data s)
    (watcher_reward (mutable s)).

Definition refund_taker_payment (s : TakerSwap) : M outcome :=
  p <- unwrap (taker_payment (mutable s));
  let locktime := d_taker_payment_lock (swap_data s) in
  if is_auto_refundable (taker_coin s)
  then
    r <- call (wait_for_htlc_refund TakerSide (ti_tx_hex p) locktime);
    Ret (match r with
         | Ok _ => (Some FinalizeTakerPaymentRefund, [TakerPaymentRefunded None])
         | Err e => finish_with (TakerPaymentRefundFailed
                      (err "!taker_coin.wait_for_htlc_refund: {}" [ArgStr e]))
         end)
  else
    do wait_can_refund fuel TakerSide locktime;
    r <- call (send_taker_refunds_payment (refund_args s (ti_tx_hex p)));
    match r with
    | Err e =>
        do broadcast_recovered_tx TakerSide e;
        Ret (finish_with (TakerPaymentRefundFailed
               (err "{:?}" [ArgStr (get_plain_text_format e)])))
    | Ok t =>
        do broadcast_p2p_tx_msg TakerSide t;
        Ret (Some FinalizeTakerPaymentRefund, [TakerPaymentRefunded (Some (tx_ident t))])
    end.

Definition finalize_taker_payment_refund (s : TakerSwap) : M outcome :=
  p <- unwrap (maker_payment (mutable s));
  do call (on_payment_refund_success MakerSide (ti_tx_hex p));
  Ret (Some Finish, [TakerPaymentRefundFinished]).

(** Runs a handler that only reads the swap. *)
Definition reading (s : TakerSwap) (p : M outcome) : M (TakerSwap * outcome) :=
  o <- p; Ret (s, o).

Definition handle_command (command : TakerSwapCommand) (s : TakerSwap) : M (TakerSwap * outcome) :=
  match command with
  | Start => start s
  | Negotiate => reading s (negotiate s)
  | SendTakerFee => reading s (handle_send_taker_fee s)
  | WaitForMakerPayment => reading s (wait_for_maker_payment s)
  | ValidateMakerPayment => reading s (handle_validate_maker_payment s)
  | SendTakerPayment => reading s (handle_send_taker_payment s)
  | WaitForTakerPaymentSpend => reading s (wait_for_taker_payment_spend s)
  | SpendMakerPayment => reading s (spend_maker_payment s)
  | ConfirmMakerPaymentSpend => reading s (confirm_maker_payment_spend s)
  | PrepareForTakerPaymentRefund => reading s (prepare_for_taker_payment_refund s)
  | RefundTakerPayment => reading s (refund_taker_payment s)
  | FinalizeTakerPaymentRefund => reading s (finalize_taker_payment_refund s)
  | Finish => Ret (s, (None, [Finished]))
  end.

(** ** The run loop *)

(** What the loop does with one event before it is saved: the time stamp of
    the saved event and the clock that [Finished] reads when it is applied. *)
Definition announce_event (event : TakerSwapEvent) (s : TakerSwap) : M (Z * Z) :=
  timestamp <- call now_ms;
  do (if should_ban_maker event then call (ban_pubkey (maker_pubkey s) event) else Ret tt);
  now <- (match event with Finished => call now_sec | _ => Ret 0 end);
  do call (stream_status event);
  Ret (timestamp, now).

(** Saving an event must not fail ([expect]). *)
Definition process_event (event : TakerSwapEvent) (s : TakerSwap) : M TakerSwap :=
  t <- announce_event event s;
  let s := apply_event (snd t) event s in
  r <- call (save_event (fst t) event);
  match r with
  | Ok _ => do call (dispatch_status event); Ret s
  | Err _ => Panic
  end.

Fixpoint process_events (events : list TakerSwapEvent) (s : TakerSwap) : M TakerSwap :=
  match events with
  | [] => Ret s
  | e :: events => s <- process_event e s; process_events events s
  end.

(** One round per command; [rounds] is an upper bound on their number. *)
Fixpoint swap_loop (rounds : nat) (command : TakerSwapCommand) (s : TakerSwap) : M TakerSwap :=
  match rounds with
  | O => OutOfFuel
  | S rounds =>
      r <- handle_command command s;
      let '(s, (next, events)) := r in
      s <- process_events events s;
      match next with
      | Some c => swap_loop rounds c s
      | None =>
          do call (mark_swap_as_finished (uuid s));
          do call (broadcast_my_swap_status (uuid s));
          Ret s
      end
  end.

(** The number of commands: no run executes one of them twice. *)
Definition MAX_ROUNDS : nat := 13.

(** [run_taker_swap] for a new swap, after the swap lock has been taken. *)
Definition run_new_swap (s : TakerSwap) : M TakerSwap := swap_loop MAX_ROUNDS Start s.

(** ** Saved swaps *)

Record TakerSavedEvent : Type := mkSavedEvent { timestamp : Z; event : TakerSwapEvent }.

Record TakerSavedSwap : Type := mkSavedSwap {
  sv_uuid : Uuid;
  sv_my_order_uuid : option Uuid;
  sv_events : list TakerSavedEvent;
  sv_maker_amount : option BigDecimal;
  sv_maker_coin : option string;
  sv_taker_amount : option BigDecimal;
  sv_taker_coin : option string;
  sv_success_events : list string;
  sv_error_events : list string }.

(** The record [save_my_taker_swap_event] writes back: the loaded swap, or a
    new one, with the event at the end. *)
Definition push_saved_event (disabled : bool) (loaded : option TakerSavedSwap) (s : TakerSwap)
  (e : TakerSavedEvent) : TakerSavedSwap :=
  let saved :=
    match loaded with
    | Some saved => saved
    | None =>
        mkSavedSwap (uuid s) (my_order_uuid s) [] (Some (to_decimal (maker_amount s)))
          (Some (ticker (maker_coin s))) (Some (to_decimal (taker_amount s)))
          (Some (ticker (taker_coin s)))
          (if negb disabled && coins_support_watchers s
           then TAKER_USING_WATCHERS_SUCCESS_EVENTS else TAKER_SUCCESS_EVENTS)
          TAKER_ERROR_EVENTS
    end in
  mkSavedSwap (sv_uuid saved) (sv_my_order_uuid saved) (sv_events saved ++ [e])
    (sv_maker_amount saved) (sv_maker_coin saved) (sv_taker_amount saved)
    (sv_taker_coin saved) (sv_success_events saved) (sv_error_events saved).

Definition first_started (saved : TakerSavedSwap) (empty_msg : string)
  : result string TakerSwapData :=
  match sv_events saved with
  | e :: _ =>
      match event e with
      | Started d => Ok d
      | _ => Err "First swap event must be Started"%string
      end
  | [] => Err empty_msg
  end.

Definition saved_maker_coin (saved : TakerSavedSwap) : result string string :=
  result_map d_maker_coin (first_started saved "Can't get maker coin, events are empty").

Definition saved_taker_coin (saved : TakerSavedSwap) : result string string :=
  result_map d_taker_coin (first_started saved "Can't get maker coin, events are empty").

Definition saved_swap_data (saved : TakerSavedSwap) : result string TakerSwapData :=
  first_started saved "Can't get swap_data, events are empty".

Definition is_finished (saved : TakerSavedSwap) : bool :=
  match last (sv_events saved) with
  | Some e => match event e with Finished => true | _ => false end
  | None => false
  end.

Record MySwapInfo : Type := mkMySwapInfo {
  my_coin : string;
  other_coin : string;
  my_amount : BigDecimal;
  other_amount : BigDecimal;
  my_started_at : Z }.

Definition get_my_info (saved : TakerSavedSwap) : option MySwapInfo :=
  match first_started saved "" with
  | Ok d => Some (mkMySwapInfo (d_taker_coin d) (d_maker_coin d) (d_taker_amount d)
                    (d_maker_amount d) (d_started_at d))
  | Err _ => None
  end.

(** The events after which funds cannot be recovered by [recover_funds]. *)
Definition unrecoverable_event (e : TakerSwapEvent) : bool :=
  match e with
  | StartFailed _ | NegotiateFailed _ | TakerFeeSendFailed _ | MakerPaymentValidateFailed _
  | TakerPaymentRefunded _ | TakerPaymentRefundedByWatcher _ | MakerPaymentSpendConfirmed
  | MakerPaymentWaitConfirmFailed _ => true
  | _ => false
  end.

Definition is_spend_event (e : TakerSwapEvent) : bool :=
  match e with MakerPaymentSpent _ | MakerPaymentSpentByWatcher _ => true | _ => false end.

Definition is_spend_confirm_failed (e : TakerSwapEvent) : bool :=
  match e with MakerPaymentSpendConfirmFailed _ => true | _ => false end.

Definition is_recoverable (saved : TakerSavedSwap) : bool :=
  if negb (is_finished saved) then false
  else if existsb (fun e => unrecoverable_event (event e)) (sv_events saved) then false
  else existsb (fun e => is_spend_confirm_failed (event e)) (sv_events saved)
       || negb (existsb (fun e => is_spend_event (event e)) (sv_events saved)).

Definition saved_finished_at (saved : TakerSavedSwap) : result string Z :=
  match last (sv_events saved) with
  | Some e =>
      match event e with
      | Finished => Ok (timestamp e / 1000)
      | _ => Err "Last swap event must be Finished"%string
      end
  | None => Err "Can't get finished_at, events are empty"%string
  end.

Definition saved_is_success (saved : TakerSavedSwap) : result string bool :=
  if negb (is_finished saved)
  then Err "Can not determine is_success state for not finished swap"%string
  else Ok (negb (existsb (fun e => is_error (event e)) (sv_events saved))).

Definition watcher_message_sent (saved : TakerSavedSwap) : bool :=
  existsb (fun e => match event e with WatcherMessageSent _ _ => true | _ => false end)
    (sv_events saved).

Definition taker_pubkey (saved : TakerSavedSwap) : result string H264 :=
  result_map d_my_persistent_pub
    (first_started saved "Can't get taker's pubkey while events are empty").

(** ** What happened while the taker was offline (taker_restart.rs)

    [pending] are the events added to the saved swap in memory and not yet
    written; a write puts all of them into the database. *)

Definition restart_err {A} (fmt : string) (args : list ErrArg) : result SwapError A :=
  Err (err fmt args).

Definition check_taker_payment_spend (s : TakerSwap)
  : M (result SwapError (option FoundSwapTxSpend)) :=
  let d := swap_data s in
  match taker_payment (mutable s) with
  | None => Ret (restart_err "No info about taker payment, swap is not recoverable" [])
  | Some p =>
      r <- call (search_for_swap_tx_spend_my TakerSide
             (mkSearch (d_taker_payment_lock d) (other_taker_coin_htlc_pub (mutable s))
                (secret_hash (mutable s)) (ti_tx_hex p) (d_taker_coin_start_block d)
                (d_taker_coin_swap_contract_address d) (unique_swap_data s)));
      Ret (map_err err_str r)
  end.

(** The swap with [TakerPaymentSpent] applied, and the event to be saved. *)
Definition add_taker_payment_spent_event (s : TakerSwap) (t : Tx)
  : M (result SwapError (TakerSwap * (Z * TakerSwapEvent))) :=
  x <- call (extract_secret TakerSide (secret_hash (mutable s)) (tx_hex t));
  match x with
  | Err _ => Ret (restart_err "Could not extract secret from taker payment spend transaction" [])
  | Ok secret =>
      let event := TakerPaymentSpent (mkSpentData (tx_ident t) secret) in
      ts <- call now_ms;
      Ret (Ok (apply_event 0 event s, (ts, event)))
  end.

(** Saves the pending events and the new one. *)
Definition save_new_event (s : TakerSwap) (pending : list (Z * TakerSwapEvent))
  (event : TakerSwapEvent) (command : TakerSwapCommand)
  : M (result SwapError (TakerSwap * TakerSwapCommand)) :=
  ts <- call now_ms;
  let s := apply_event 0 event s in
  r <- call (save_swap (pending ++ [(ts, event)]));
  Ret (match r with
       | Err e => restart_err "{}" [ArgStr e]
       | Ok _ => Ok (s, command)
       end).

Definition maker_spend_search (s : TakerSwap) (p : TransactionIdentifier) : SearchForSwapTxSpendInput :=
  let d := swap_data s in
  mkSearch (maker_payment_lock s) (other_maker_coin_htlc_pub (mutable s))
    (secret_hash (mutable s)) (ti_tx_hex p) (d_maker_coin_start_block d)
    (d_maker_coin_swap_contract_address d) (unique_swap_data s).

Definition check_maker_payment_spend_and_add_event (s : TakerSwap)
  (pending : list (Z * TakerSwapEvent)) : M (result SwapError (TakerSwap * TakerSwapCommand)) :=
  let d := swap_data s in
  match maker_payment (mutable s) with
  | None => Ret (restart_err "No info about maker payment, swap is not recoverable" [])
  | Some p =>
      r <- call (search_for_swap_tx_spend_other MakerSide (maker_spend_search s p));
      match r with
      | Ok (Some (Refunded t)) =>
          Ret (restart_err "Maker has cheated by both spending the taker payment, and refunding the maker payment with transaction {:#?}" [ArgBytes (tx_hash t)])
      | Ok None => Ret (Ok (s, SpendMakerPayment))
      | Err e => Ret (restart_err "Error {} when trying to find maker payment spend" [ArgStr e])
      | Ok (Some (Spent t)) =>
          v <- call (taker_validates_payment_spend_or_refund MakerSide
                 (mkValidateWatcherSpend (tx_hex t) (other_maker_coin_htlc_pub (mutable s))
                    (d_maker_coin_swap_contract_address d) (maker_payment_lock s)
                    (secret_hash (mutable s)) (to_decimal (maker_amount s)) None
                    MakerPaymentSpend));
          match v with
          | Err e => Ret (Err (err_str e))
          | Ok _ => save_new_event s pending (MakerPaymentSpentByWatcher (tx_ident t))
                      ConfirmMakerPaymentSpend
          end
      end
  end.

Definition add_taker_payment_refunded_by_watcher_event (s : TakerSwap) (t : Tx)
  : M (result SwapError (TakerSwap * TakerSwapCommand)) :=
  let d := swap_data s in
  v <- call (taker_validates_payment_spend_or_refund TakerSide
         (mkValidateWatcherSpend (tx_hex t) (other_maker_coin_htlc_pub (mutable s))
            (d_taker_coin_swap_contract_address d) (d_taker_payment_lock d)
            (secret_hash (mutable s)) (to_decimal (taker_amount s)) None TakerPaymentRefund));
  match v with
  | Err e => Ret (Err (err_str e))
  | Ok _ => save_new_event s [] (TakerPaymentRefundedByWatcher (Some (tx_ident t))) Finish
  end.

(** [started_at + (factor * lock_duration) as u64] *)
Definition watcher_refund_time (factor : Q) (s : TakerSwap) : Z :=
  wrap 64 (d_started_at (swap_data s)
           + Qfloor (factor * inject_Z (d_lock_duration (swap_data s)))).

Definition default_watcher_maker_payment_spend_factor : Q := 1.
Definition default_watcher_refund_factor : Q := 15 # 10.

Definition get_command_based_on_maker_or_watcher_activity (s : TakerSwap)
  (command : TakerSwapCommand) : M (result SwapError (TakerSwap * TakerSwapCommand)) :=
  now <- call now_sec;
  if now <? watcher_refund_time default_watcher_maker_payment_spend_factor s
  then Ret (Ok (s, command))
  else
  match command with
  | WaitForTakerPaymentSpend =>
      r <- check_taker_payment_spend s;
      match r with
      | Ok (Some (Spent t)) =>
          a <- add_taker_payment_spent_event s t;
          match a with
          | Err e => Ret (Err e)
          | Ok (s, e) => check_maker_payment_spend_and_add_event s [e]
          end
      | Ok (Some (Refunded t)) => add_taker_payment_refunded_by_watcher_event s t
      | Ok None => Ret (Ok (s, command))
      | Err e => Ret (restart_err "Error {} when trying to find taker payment spend" [arg_err e])
      end
  | SpendMakerPayment => check_maker_payment_spend_and_add_event s []
  | PrepareForTakerPaymentRefund | RefundTakerPayment =>
      now <- call now_sec;
      if now <? watcher_refund_time default_watcher_refund_factor s
      then Ret (Ok (s, command))
      else
      r <- check_taker_payment_spend s;
      match r with
      | Ok (Some (Spent _)) =>
          Ret (restart_err "Taker payment is not expected to be spent at this point" [])
      | Ok (Some (Refunded t)) => add_taker_payment_refunded_by_watcher_event s t
      | Ok None => Ret (Ok (s, command))
      | Err e => Ret (restart_err "Error {} when trying to find taker payment spend" [arg_err e])
      end
  | _ => Ret (Ok (s, command))
  end.

(** ** Restoring a swap *)

Definition refresh_contracts (maker_coin taker_coin : Coin) (d : TakerSwapData) : TakerSwapData :=
  let d := if d_maker_coin_swap_contract_address d is Some _ then d
           else set_d_maker_coin_swap_contract_address (swap_contract_address maker_coin) d in
  if d_taker_coin_swap_contract_address d is Some _ then d
  else set_d_taker_coin_swap_contract_address (swap_contract_address taker_coin) d.

Definition replay (now : Z) (events : list TakerSwapEvent) (s : TakerSwap) : TakerSwap :=
  foldl (fun s e => apply_event now e s) s events.

(** The swap and the command its events alone give. *)
Definition restore (my_persistent_pub : H264) (now : Z) (maker_coin taker_coin : Coin)
  (saved : TakerSavedSwap) : result SwapError (TakerSwap * option TakerSwapCommand) :=
  match sv_events saved with
  | [] => restart_err "Can't restore swap from empty events set" []
  | first :: rest =>
      match event first with
      | Started d0 =>
          let d := refresh_contracts maker_coin taker_coin d0 in
          let conf_settings :=
            mkConfSettings (d_maker_payment_confirmations d)
              (default (requires_notarization maker_coin) (d_maker_payment_requires_nota d))
              (d_taker_payment_confirmations d)
              (default (requires_notarization taker_coin) (d_taker_payment_requires_nota d)) in
          let swap :=
            TakerSwap_new (d_maker_pubkey d) (d_maker_amount d) (d_taker_amount d)
              my_persistent_pub (sv_uuid saved) (Some (sv_uuid saved)) conf_settings
              maker_coin taker_coin (d_lock_duration d) (d_p2p_privkey d) in
          let events := Started d :: map event rest in
          let command := from_option (fun e => get_command e) None (last events) in
          Ok (replay now events swap, command)
      | _ => restart_err "First swap event must be Started" []
      end
  end.

(** [my_persistent_pub] is the public key of the crypto context; [now] what
    the clock says when a saved [Finished] is replayed. *)
Definition load_from_saved (my_persistent_pub : H264) (now : Z) (maker_coin taker_coin : Coin)
  (saved : TakerSavedSwap) : M (result SwapError (TakerSwap * option TakerSwapCommand)) :=
  match restore my_persistent_pub now maker_coin taker_coin saved with
  | Err e => Ret (Err e)
  | Ok (swap, None) => Ret (Ok (swap, None))
  | Ok (swap, Some command) =>
      if is_supported_by_watchers taker_coin && is_supported_by_watchers maker_coin
         && watcher_message_sent saved
      then
        r <- get_command_based_on_maker_or_watcher_activity swap command;
        Ret (result_map (fun p => (fst p, Some (snd p))) r)
      else Ret (Ok (swap, Some command))
  end.

(** [run_taker_swap] for a kick start, after the swap has been loaded. *)
Definition run_kick_start (my_persistent_pub : H264) (now : Z) (maker_coin taker_coin : Coin)
  (saved : TakerSavedSwap) : M (option TakerSwap) :=
  r <- load_from_saved my_persistent_pub now maker_coin taker_coin saved;
  match r with
  | Ok (swap, Some command) => s <- swap_loop MAX_ROUNDS command swap; Ret (Some s)
  | _ => Ret None
  end.

(** ** Recovering funds *)

Inductive RecoveredSwapAction : Type := RefundedMyPayment | SpentOtherPayment.

Record RecoveredSwap : Type := mkRecovered {
  rec_action : RecoveredSwapAction;
  rec_coin : string;
  rec_transaction : Tx }.

Definition recover_err (fmt : string) (args : list ErrArg) : M (result SwapError RecoveredSwap) :=
  Ret (Err (err fmt args)).

(** The macro [check_maker_payment_is_not_spent!]. *)
Definition check_maker_payment_is_not_spent (s : TakerSwap) (p : TransactionIdentifier)
  : M (result SwapError unit) :=
  r <- call (search_for_swap_tx_spend_other MakerSide (maker_spend_search s p));
  Ret (match r with
       | Ok (Some (Spent t)) =>
           Err (err "Maker payment was already spent by {} tx {:02x}"
                  [ArgStr (ticker (maker_coin s)); ArgBytes (tx_hash t)])
       | Ok (Some (Refunded t)) =>
           Err (err "Maker payment was already refunded by {} tx {:02x}"
                  [ArgStr (ticker (maker_coin s)); ArgBytes (tx_hash t)])
       | Err e => Err (err "Error {} when trying to find maker payment spend" [ArgStr e])
       | Ok None => Ok tt
       end).

Definition recover_spend (s : TakerSwap) (p : TransactionIdentifier) (secret : H256)
  : M (result SwapError RecoveredSwap) :=
  r <- call (send_taker_spends_maker_payment (spend_maker_payment_args s (ti_tx_hex p) secret));
  match r with
  | Err e =>
      do broadcast_recovered_tx MakerSide e;
      recover_err "{}" [ArgStr (get_plain_text_format e)]
  | Ok t => Ret (Ok (mkRecovered SpentOtherPayment (ticker (maker_coin s)) t))
  end.

Definition recover_refund (s : TakerSwap) (taker_payment : bytes)
  : M (result SwapError RecoveredSwap) :=
  if is_auto_refundable (taker_coin s)
  then recover_err "Taker payment will be refunded automatically!" []
  else
    c <- call (can_refund_htlc TakerSide (d_taker_payment_lock (swap_data s)));
    match c with
    | Err e => recover_err "{}" [ArgStr e]
    | Ok (HaveToWait seconds_to_wait) =>
        now <- call now_sec;
        recover_err "Too early to refund, wait until {}"
          [ArgNum (wrap 64 (now + seconds_to_wait))]
    | Ok CanRefundNow =>
        r <- call (send_taker_refunds_payment (refund_args s taker_payment));
        match r with
        | Err e =>
            do broadcast_recovered_tx TakerSide e;
            recover_err "{:?}" [ArgStr (get_plain_text_format e)]
        | Ok t => Ret (Ok (mkRecovered RefundedMyPayment (ticker (taker_coin s)) t))
        end
    end.

(** The taker payment is known, from the swap or from the chain. *)
Definition recover_with_payment (s : TakerSwap) (p : TransactionIdentifier)
  (taker_payment : bytes) : M (result SwapError RecoveredSwap) :=
  let d := swap_data s in
  if taker_payment_spend (mutable s) is Some _
  then
    c <- check_maker_payment_is_not_spent s p;
    match c with
    | Err e => Ret (Err e)
    | Ok _ => recover_spend s p (secret (mutable s))
    end
  else
    f <- call (search_for_swap_tx_spend_my TakerSide
           (mkSearch (d_taker_payment_lock d) (other_taker_coin_htlc_pub (mutable s))
              (secret_hash (mutable s)) taker_payment (d_taker_coin_start_block d)
              (d_taker_coin_swap_contract_address d) (unique_swap_data s)));
    match f with
    | Err e => recover_err "{}" [ArgStr e]
    | Ok (Some (Spent t)) =>
        c <- check_maker_payment_is_not_spent s p;
        match c with
        | Err e => Ret (Err e)
        | Ok _ =>
            x <- call (extract_secret TakerSide (secret_hash (mutable s)) (tx_hex t));
            match x with
            | Err e => recover_err "{}" [ArgStr e]
            | Ok secret => recover_spend s p secret
            end
        end
    | Ok (Some (Refunded t)) =>
        recover_err "Taker payment has been refunded already by transaction {:02x}"
          [ArgBytes (tx_hash t)]
    | Ok None => recover_refund s taker_payment
    end.

Definition recover_funds (s : TakerSwap) : M (result SwapError RecoveredSwap) :=
  if finished_at s =? 0
  then recover_err "Swap must be finished before recover funds attempt" []
  else if taker_payment_refund (mutable s) is Some _
  then recover_err "Taker payment is refunded, swap is not recoverable" []
  else if (if maker_payment_spend (mutable s) is Some _ then true else false)
          && maker_payment_spend_confirmed (mutable s)
  then recover_err "Maker payment is spent and confirmed, swap is not recoverable" []
  else
    match maker_payment (mutable s) with
    | None => recover_err "No info about maker payment, swap is not recoverable" []
    | Some p =>
        match taker_payment (mutable s) with
        | Some t => recover_with_payment s p (ti_tx_hex t)
        | None =>
            c <- call (check_if_my_payment_sent TakerSide (check_sent_args s));
            match c with
            | Err e => recover_err "{}" [ArgStr e]
            | Ok None => recover_err "Taker payment is not found, swap is not recoverable" []
            | Ok (Some t) => recover_with_payment s p (tx_hex t)
            end
        end
    end.

(** ** The maximum volume *)

Record MaxTakerVolumeLessThanDust : Type := mkLessThanDust {
  max_vol_found : MmNumber;
  min_tx_amount_needed : MmNumber }.

Definition max_taker_vol_from_available (available : MmNumber) (base rel : string)
  (min_tx_amount : MmNumber) : result MaxTakerVolumeLessThanDust MmNumber :=
  (let dex_fee_rate := dex_fee_rate base rel in
  let threshold_coef := ((1 # 1) + dex_fee_rate) / dex_fee_rate in
  let max_vol :=
    if available >? min_tx_amount * threshold_coef
    then available / ((1 # 1) + dex_fee_rate)
    else available - min_tx_amount in
  if max_vol <=? min_tx_amount
  then Err (mkLessThanDust max_vol min_tx_amount)
  else Ok max_vol)%num.

(** [CheckBalanceError::from_max_taker_vol_error] *)
Definition from_max_taker_vol_error (e : MaxTakerVolumeLessThanDust) (coin : string)
  (locked_by_swaps : BigDecimal) : CheckBalanceError :=
  NotSufficientBalance coin (to_decimal (max_vol_found e)) (to_decimal (min_tx_amount_needed e))
    (Some locked_by_swaps).

Definition calc_max_taker_vol (coin : Coin) (other_coin : string) (stage : FeeApproxStage)
  : M (result CheckBalanceError MmNumber) :=
  let my_coin := ticker coin in
  b <- call (my_spendable_balance TakerSide);
  match b with
  | Err e => Ret (Err (check_balance_from_balance_err e))
  | Ok balance =>
  locked <- read_locked None my_coin;
  let min_tx_amount := fc_min_tx_amount (fee_coin coin) in
  let max_possible := (balance - locked)%num in
  let from_available (available : MmNumber) :=
    map_err (fun e => from_max_taker_vol_error e my_coin (to_decimal locked))
      (max_taker_vol_from_available available my_coin other_coin min_tx_amount) in
  f <- call (get_sender_trade_fee TakerSide (UpperBound (to_decimal max_possible)) stage);
  match f with
  | Err e => Ret (Err (from_trade_preimage_error e my_coin))
  | Ok max_trade_fee =>
      if bool_decide (my_coin = tf_coin max_trade_fee)
      then
        let max_possible_2 := (max_possible - tf_amount max_trade_fee)%num in
        let max_dex_fee := new_from_taker_coin (fee_coin coin) other_coin max_possible_2 in
        g <- call (get_fee_to_send_taker_fee TakerSide max_dex_fee stage);
        match g with
        | Err e => Ret (Err (from_trade_preimage_error e my_coin))
        | Ok max_fee_to_send_taker_fee =>
            Ret (from_available (max_possible_2 - tf_amount max_fee_to_send_taker_fee)%num)
        end
      else Ret (from_available max_possible)
  end end.

End Handlers.
