(* ===== verification/TakerSwapProps.v ===== *)
(** * The taker's swap: an abstract state machine

    [step] is the protocol the taker promises, in the style of
    MakerSwapProps.v: which events a command may produce, which command
    follows, and what the calls made meanwhile must have shown.  Every handler
    of TakerSwap.v refines it. *)

From S2P Require Import Prelude MmNumber DexFee Effects Swap SwapEnv TakerSwap.

Open Scope Z_scope.

Notation Obs := (Effects.Obs (@answer TakerSwapEvent)).
Notation got c x := (asked (answer := @answer TakerSwapEvent) c x) (only parsing).

Definition rank (c : option TakerSwapCommand) : nat :=
  match c with
  | Some Start => 0
  | Some Negotiate => 1
  | Some SendTakerFee => 2
  | Some WaitForMakerPayment => 3
  | Some ValidateMakerPayment => 4
  | Some SendTakerPayment => 5
  | Some WaitForTakerPaymentSpend => 6
  | Some SpendMakerPayment => 7
  | Some ConfirmMakerPaymentSpend => 8
  | Some PrepareForTakerPaymentRefund => 9
  | Some RefundTakerPayment => 10
  | Some FinalizeTakerPaymentRefund => 11
  | Some Finish => 12
  | None => 13
  end.

(** ** What has been recorded *)

Definition last_of {A} (f : TakerSwapEvent -> option A) (evs : list TakerSwapEvent) : option A :=
  last (omap f evs).

Definition fee_ev (e : TakerSwapEvent) : option TransactionIdentifier :=
  match e with TakerFeeSent t => Some t | _ => None end.
Definition received_ev (e : TakerSwapEvent) : option TransactionIdentifier :=
  match e with MakerPaymentReceived t => Some t | _ => None end.
Definition sent_ev (e : TakerSwapEvent) : option TransactionIdentifier :=
  match e with TakerPaymentSent t => Some t | _ => None end.
Definition spend_ev (e : TakerSwapEvent) : option TransactionIdentifier :=
  match e with MakerPaymentSpent t | MakerPaymentSpentByWatcher t => Some t | _ => None end.

Notation fee_of := (last_of fee_ev).
Notation received := (last_of received_ev).
Notation sent := (last_of sent_ev).
Notation spend_of := (last_of spend_ev).

Lemma taker_last_of_snoc {A} (f : TakerSwapEvent -> option A) evs e :
  last_of f (evs ++ [e]) = match f e with Some x => Some x | None => last_of f evs end.
Proof.
  unfold last_of. rewrite omap_app. simpl. destruct (f e).
  - by rewrite last_snoc.
  - by rewrite app_nil_r.
Qed.

Lemma taker_last_of_is_Some {A} (f : TakerSwapEvent -> option A) evs e :
  is_Some (last_of f evs) -> is_Some (last_of f (evs ++ [e])).
Proof. rewrite taker_last_of_snoc. destruct (f e); eauto. Qed.

Lemma taker_last_of_in {A} (f : TakerSwapEvent -> option A) evs x :
  last_of f evs = Some x -> exists e, e ∈ evs /\ f e = Some x.
Proof. intros Hl%last_Some_elem_of. by apply list_elem_of_omap in Hl. Qed.

(** What a history must show before a maker payment counts as validated. *)
Definition validated_in (h : list Obs) (payment : bytes) : Prop :=
  exists v c, vp_payment_tx v = payment /\ cp_payment_tx c = payment /\
    got (wait_for_confirmations MakerSide c) (Ok tt) ∈ h /\
    got (Swap.validate_maker_payment v) (Ok tt) ∈ h.

(** The secret was extracted from a transaction that spends the taker payment. *)
Definition secret_seen (h : list Obs) (x : H256) : Prop :=
  exists sh t, got (extract_secret TakerSide sh (tx_hex t)) (Ok x) ∈ h /\
    ((exists a, got (wait_for_htlc_tx_spend a) (Ok t) ∈ h) \/
     (exists a, got (search_for_swap_tx_spend_my TakerSide a) (Ok (Some (Spent t))) ∈ h)).

Lemma taker_validated_in_mono h h' p : h ⊆ h' -> validated_in h p -> validated_in h' p.
Proof. intros Hs (v & c & ? & ? & ? & ?). exists v, c. repeat split; auto. Qed.

Lemma secret_seen_mono h h' x : h ⊆ h' -> secret_seen h x -> secret_seen h' x.
Proof.
  intros Hs (sh & t & ? & [[a ?]|[a ?]]); exists sh, t; (split; [auto|]); [left|right]; eauto.
Qed.

(** ** The abstract machine *)

Section Spec.
  Context `{SecretHasher} `{DecimalConv}.

Inductive step (s : TakerSwap) (tr : list Obs)
  : TakerSwapCommand -> option TakerSwapCommand -> list TakerSwapEvent -> Prop :=
| step_start_failed e : step s tr Start (Some Finish) [StartFailed e]
| step_started d : step s tr Start (Some Negotiate) [Started d]
| step_negotiate_failed e : step s tr Negotiate (Some Finish) [NegotiateFailed e]
| step_negotiated m d :
    got (take_msg (uuid s) KNegotiation) (Some m) ∈ tr ->
    check_maker_data s m = Ok d ->
    got (broadcast_swap_msg_every (Swap.NegotiationReply (reply_to s d)) (90 # 6)) tt ∈ tr ->
    got (take_msg (uuid s) KNegotiated) (Some true) ∈ tr ->
    step s tr Negotiate (Some SendTakerFee) [TakerSwap.Negotiated d]
| step_fee_failed e : step s tr SendTakerFee (Some Finish) [TakerFeeSendFailed e]
| step_fee_sent t : step s tr SendTakerFee (Some WaitForMakerPayment) [TakerFeeSent t]
| step_receive_failed e :
    step s tr WaitForMakerPayment (Some Finish) [MakerPaymentValidateFailed e]
| step_received i t : step s tr WaitForMakerPayment (Some ValidateMakerPayment)
    [TakerPaymentInstructionsReceived i; MakerPaymentReceived t; MakerPaymentWaitConfirmStarted]
| step_confirm_failed e :
    step s tr ValidateMakerPayment (Some Finish) [MakerPaymentWaitConfirmFailed e]
| step_reward_failed e :
    watcher_reward (mutable s) = true ->
    step s tr ValidateMakerPayment (Some Finish) [TakerPaymentTransactionFailed e]
| step_validate_failed e :
    step s tr ValidateMakerPayment (Some Finish) [MakerPaymentValidateFailed e]
| step_validated t :
    maker_payment (mutable s) = Some t -> validated_in tr (ti_tx_hex t) ->
    step s tr ValidateMakerPayment (Some SendTakerPayment) [MakerPaymentValidatedAndConfirmed]
| step_payment_failed e :
    step s tr SendTakerPayment (Some Finish) [TakerPaymentTransactionFailed e]
| step_payment_sent t :
    step s tr SendTakerPayment (Some WaitForTakerPaymentSpend) [TakerPaymentSent t]
| step_payment_sent_watchers t a b :
    step s tr SendTakerPayment (Some WaitForTakerPaymentSpend)
      [TakerPaymentSent t; WatcherMessageSent a b]
| step_wait_spend_failed e :
    step s tr WaitForTakerPaymentSpend (Some PrepareForTakerPaymentRefund)
      [TakerPaymentWaitForSpendFailed e; TakerPaymentWaitRefundStarted (wait_refund_until s)]
| step_extract_failed e :
    step s tr WaitForTakerPaymentSpend (Some Finish) [TakerPaymentWaitForSpendFailed e]
| step_payment_spent d :
    secret_seen tr (spent_secret d) ->
    step s tr WaitForTakerPaymentSpend (Some SpendMakerPayment) [TakerPaymentSpent d]
| step_spend_failed e : step s tr SpendMakerPayment (Some Finish) [MakerPaymentSpendFailed e]
| step_spent t :
    step s tr SpendMakerPayment (Some ConfirmMakerPaymentSpend) [MakerPaymentSpent t]
| step_spend_confirm_failed e :
    step s tr ConfirmMakerPaymentSpend (Some PrepareForTakerPaymentRefund)
      [MakerPaymentSpendConfirmFailed e; TakerPaymentWaitRefundStarted (wait_refund_until s)]
| step_spend_confirmed :
    step s tr ConfirmMakerPaymentSpend (Some Finish) [MakerPaymentSpendConfirmed]
| step_refund_started :
    step s tr PrepareForTakerPaymentRefund (Some RefundTakerPayment) [TakerPaymentRefundStarted]
| step_refunded t :
    step s tr RefundTakerPayment (Some FinalizeTakerPaymentRefund) [TakerPaymentRefunded t]
| step_refund_failed e :
    step s tr RefundTakerPayment (Some Finish) [TakerPaymentRefundFailed e]
| step_refund_finished :
    step s tr FinalizeTakerPaymentRefund (Some Finish) [TakerPaymentRefundFinished]
| step_finished : step s tr Finish None [Finished].

(** ** Every handler refines the machine *)

Lemma taker_start_refines s tr s' next evs :
  runs (start s) tr (s', (next, evs)) ->
  step s tr Start next evs /\ (s' = s \/ exists b, s' = upd (set_watcher_reward b) s).
Proof. unfold start. intros Hr. run_all Hr; split; eauto using step. Qed.

Lemma taker_negotiate_refines fuel s tr next evs :
  runs (negotiate fuel s) tr (next, evs) -> step s tr Negotiate next evs.
Proof.
  unfold negotiate, negotiate_failed, finish_with. intros Hr. do 2 run_step Hr; [|run_all Hr; eauto using step].
  apply recv_swap_msg_ok in Hp. run_step Hr; [|run_all Hr; eauto using step].
  do 3 run_step Hr; [|run_all Hr; eauto using step].
  apply recv_swap_msg_ok in Hp0. run_all Hr; eauto using step. destruct x.
  match goal with H : context [take_msg _ KNegotiated] |- _ => rename H into Hn end.
  match type of Hn with context [Some ?b] => destruct b; [|done] end.
  eapply step_negotiated; [|done|..]; in_list.
Qed.

Lemma send_taker_fee_refines s tr next evs :
  runs (handle_send_taker_fee s) tr (next, evs) -> step s tr SendTakerFee next evs.
Proof.
  unfold handle_send_taker_fee, fee_send_failed, finish_with. intros Hr.
  run_all Hr; eauto using step.
Qed.

Lemma wait_for_maker_payment_refines fuel s tr next evs :
  runs (wait_for_maker_payment fuel s) tr (next, evs) -> step s tr WaitForMakerPayment next evs.
Proof.
  unfold wait_for_maker_payment, maker_payment_invalid, finish_with. intros Hr.
  run_all Hr; eauto using step.
Qed.

Lemma validate_maker_payment_refines s tr next evs :
  runs (handle_validate_maker_payment s) tr (next, evs) -> step s tr ValidateMakerPayment next evs.
Proof.
  unfold handle_validate_maker_payment, payment_failed, maker_payment_invalid, finish_with.
  intros Hr. run_step Hr. apply unwrap_runs in Hp as [Hp ->]. run_all Hr; eauto using step.
  all: try (run_all Hp0; eauto using step).
  all: eapply step_validated; [done|]; repeat match goal with u : unit |- _ => destruct u end;
    eexists _, _; split; [|split; [|split; [in_list|in_list]]]; done.
Qed.

Lemma process_watcher_logic_event s t tr e :
  runs (process_watcher_logic s t) tr (Some e) -> exists a b, e = WatcherMessageSent a b.
Proof. unfold process_watcher_logic. intros Hr. run_all Hr; eauto. Qed.

Lemma taker_payment_sent_refines s t tr0 tr next evs :
  runs (taker_payment_sent s t) tr (next, evs) -> step s tr0 SendTakerPayment next evs.
Proof.
  unfold taker_payment_sent. intros Hr. run_step Hr. destruct a as [e|].
  - apply process_watcher_logic_event in Hp as (a & b & ->). run_all Hr. eauto using step.
  - run_all Hr. eauto using step.
Qed.

Lemma send_taker_payment_refines s tr next evs :
  runs (handle_send_taker_payment s) tr (next, evs) -> step s tr SendTakerPayment next evs.
Proof.
  unfold handle_send_taker_payment, payment_failed, finish_with. intros Hr.
  repeat lazymatch type of Hr with
  | runs (taker_payment_sent _ _) _ _ => fail
  | _ => run_step Hr
  end; eauto using step.
  all: by eapply taker_payment_sent_refines.
Qed.

Lemma wait_spend_refines s tr next evs :
  runs (wait_for_taker_payment_spend s) tr (next, evs) -> step s tr WaitForTakerPaymentSpend next evs.
Proof.
  unfold wait_for_taker_payment_spend, refund_after, finish_with. intros Hr.
  do 4 run_step Hr; run_all Hr; eauto using step.
  apply step_payment_spent. simpl. eexists _, _. split; [in_list|]. left. eexists. in_list.
Qed.

Lemma spend_maker_payment_refines s tr next evs :
  runs (spend_maker_payment s) tr (next, evs) -> step s tr SpendMakerPayment next evs.
Proof. unfold spend_maker_payment, finish_with. intros Hr. run_all Hr; eauto using step. Qed.

Lemma taker_confirm_spend_refines s tr next evs :
  runs (confirm_maker_payment_spend s) tr (next, evs) -> step s tr ConfirmMakerPaymentSpend next evs.
Proof. unfold confirm_maker_payment_spend, refund_after. intros Hr. run_all Hr; eauto using step. Qed.

Lemma taker_refund_refines fuel s tr next evs :
  runs (refund_taker_payment fuel s) tr (next, evs) -> step s tr RefundTakerPayment next evs.
Proof.
  unfold refund_taker_payment, finish_with. intros Hr. run_all Hr; eauto using step.
  destruct x; simplify_eq; eauto using step.
Qed.

Lemma taker_reading_runs s p tr s' o :
  runs (reading s p) tr (s', o) -> s' = s /\ runs p tr o.
Proof.
  unfold reading. intros Hr. run_step Hr. destruct Hr as [-> Heq]. simplify_eq.
  by rewrite app_nil_r.
Qed.

Lemma taker_handle_refines fuel cmd s tr s' next evs :
  runs (handle_command fuel cmd s) tr (s', (next, evs)) ->
  step s tr cmd next evs /\ (s' = s \/ exists b, s' = upd (set_watcher_reward b) s).
Proof.
  destruct cmd; cbn [handle_command]; [apply taker_start_refines|..];
    try (intros [-> Hr]%taker_reading_runs; split; [|by left]).
  - by eapply taker_negotiate_refines.
  - by apply send_taker_fee_refines.
  - by eapply wait_for_maker_payment_refines.
  - by apply validate_maker_payment_refines.
  - by apply send_taker_payment_refines.
  - by apply wait_spend_refines.
  - by apply spend_maker_payment_refines.
  - by apply taker_confirm_spend_refines.
  - unfold prepare_for_taker_payment_refund in Hr. run_all Hr; eauto using step.
  - by eapply taker_refund_refines.
  - unfold finalize_taker_payment_refund in Hr. run_all Hr; eauto using step.
  - intros [-> Heq]. simplify_eq. split; [eauto using step|by left].
Qed.

End Spec.
