(* ===== verification/TakerSwapSafety.v ===== *)
(** * Safety of the taker's swap across crashes and restarts

    The counterpart of MakerSwapSafety.v.  A restarted taker also looks at what
    the maker or a watcher did meanwhile, so the swap in memory may know more
    than the saved events; [Live] ties the two together. *)

From S2P Require Import Prelude MmNumber DexFee Effects Swap SwapEnv TakerSwap TakerSwapProps.

Open Scope Z_scope.

(** The calls a guarded handler may make at any time: none moves money. *)
Definition quiet (c : Call TakerSwapEvent) : Prop :=
  match c with
  | send_taker_fee _ _ _ | send_taker_payment _ | send_taker_spends_maker_payment _
  | send_taker_refunds_payment _ | save_event _ _ | save_swap _ => False
  | _ => True
  end.

(** No call of the loop or of a restart moves money. *)
Definition harmless (c : Call TakerSwapEvent) : Prop :=
  match c with save_event _ _ | save_swap _ => True | _ => quiet c end.

Lemma taker_quiet_not_save c : quiet c -> not_save c.
Proof. by destruct c. Qed.

Section Safety.
  Context `{SecretHasher} `{DecimalConv}.
  Variable fuel : nat.

Definition good_call (h : list Obs) (c : Call TakerSwapEvent) : Prop :=
  match c with
  | send_taker_fee _ _ _ => exists d, attempted (TakerSwap.Negotiated d) h
  | send_taker_payment a =>
      (exists t, attempted (MakerPaymentReceived t) h /\ validated_in h (ti_tx_hex t)) /\
      checked_unsent TakerSide h a
  | send_taker_spends_maker_payment a => secret_seen h (spend_secret a)
  | send_taker_refunds_payment a =>
      (exists t, attempted (TakerPaymentSent t) h /\ rf_payment_tx a = ti_tx_hex t) /\
      got (can_refund_htlc TakerSide (rf_time_lock a)) (Ok CanRefundNow) ∈ h
  | _ => True
  end.

Notation Safe := (safe good_call).

Lemma taker_harmless_good h c : harmless c -> good_call h c.
Proof. by destruct c. Qed.
Lemma quiet_good h c : quiet c -> good_call h c.
Proof. by destruct c. Qed.

(** ** Sessions *)

(** The state a swap is created with. *)
Definition is_new (s : TakerSwap) : Prop :=
  exists mp ma ta pub u mo cs mc tc pl pk, s = TakerSwap_new mp ma ta pub u mo cs mc tc pl pk.

(** [history h evs]: [h] is all a swap has done so far, [evs] the events in
    the database.  The last session may have been cut anywhere. *)
Inductive history : list Obs -> list TakerSwapEvent -> Prop :=
| history_new s tr evs :
    is_new s -> traces (run_new_swap fuel s) tr -> persisted tr evs -> history tr evs
| history_restart h evs pub now mc tc saved tr evs' :
    history h evs -> map event (sv_events saved) = evs ->
    traces (run_kick_start fuel pub now mc tc saved) tr -> persisted tr evs' ->
    history (h ++ tr) (evs ++ evs').

(** ** The swap in memory and the saved events *)

Record Rel (s : TakerSwap) (evs : list TakerSwapEvent) : Prop := {
  rel_fee : taker_fee (mutable s) = fee_of evs;
  rel_received : maker_payment (mutable s) = received evs;
  rel_sent : taker_payment (mutable s) = sent evs;
  rel_spend : maker_payment_spend (mutable s) = spend_of evs }.

Lemma taker_Rel_new s : is_new s -> Rel s [].
Proof. intros (? & ? & ? & ? & ? & ? & ? & ? & ? & ? & ? & ->). by constructor. Qed.

Lemma taker_Rel_apply s evs now e : Rel s evs -> Rel (apply_event now e s) (evs ++ [e]).
Proof.
  intros [H1 H2 H3 H4]. destruct s, mutable.
  constructor; rewrite ?taker_last_of_snoc; destruct e; simpl in *; try done;
    by repeat case_match.
Qed.

Lemma taker_Rel_watcher s evs b : Rel s evs -> Rel (upd (set_watcher_reward b) s) evs.
Proof. intros [H1 H2 H3 H4]. destruct s. by constructor. Qed.

Lemma Rel_spent_event s evs d now : Rel s evs -> Rel (apply_event now (TakerPaymentSpent d) s) evs.
Proof. intros [H1 H2 H3 H4]. destruct s, mutable. by constructor. Qed.

Lemma taker_Rel_replay now l s evs : Rel s evs -> Rel (replay now l s) (evs ++ l).
Proof.
  revert s evs; induction l as [|e l IH]; intros s evs Hr; [by rewrite app_nil_r|].
  simpl. rewrite (app_assoc evs [e] l : evs ++ e :: l = _). by apply IH, taker_Rel_apply.
Qed.

Definition cmd_of (evs : list TakerSwapEvent) : option TakerSwapCommand :=
  match last evs with
  | None => Some Start
  | Some e => get_command e
  end.

Lemma taker_cmd_of_snoc evs e : cmd_of (evs ++ [e]) = get_command e.
Proof. unfold cmd_of. by rewrite last_snoc. Qed.

(** ** The invariant *)

(** What the events before a command must include. *)
Record stage_ok (evs : list TakerSwapEvent) (c : option TakerSwapCommand) : Prop := {
  stage_fee : (3 <= rank c <= 11)%nat -> is_Some (fee_of evs);
  stage_received : (5 <= rank c <= 11)%nat -> is_Some (received evs);
  stage_sent : (6 <= rank c <= 11)%nat -> is_Some (sent evs);
  stage_spend : rank c = 8%nat -> is_Some (spend_of evs) }.

(** How a swap whose payment was sent may end. *)
Definition settled (evs : list TakerSwapEvent) : Prop :=
  MakerPaymentSpendConfirmed ∈ evs \/ (exists t, TakerPaymentRefunded t ∈ evs) \/
  (exists t, TakerPaymentRefundedByWatcher t ∈ evs) \/
  (exists e, TakerPaymentRefundFailed e ∈ evs) \/
  (exists e, MakerPaymentSpendFailed e ∈ evs) \/
  (exists e, TakerPaymentWaitForSpendFailed e ∈ evs).

(** The events after which the live swap finishes. *)
Definition ends (e : TakerSwapEvent) : Prop :=
  match e with
  | MakerPaymentSpendFailed _ | TakerPaymentWaitForSpendFailed _ => True
  | e => get_command e = Some Finish
  end.

Definition ended (evs : list TakerSwapEvent) : Prop := exists e, e ∈ evs /\ ends e.

Record Inv (h : list Obs) (evs : list TakerSwapEvent) : Prop := {
  inv_safe : Safe h;
  inv_attempted : forall e, e ∈ evs -> attempted e h;
  inv_rank : forall e, e ∈ evs -> (rank (get_command e) <= rank (cmd_of evs))%nat;
  inv_stage : forall e, e ∈ evs -> stage_ok evs (get_command e);
  inv_validated : MakerPaymentValidatedAndConfirmed ∈ evs -> exists t,
    received evs = Some t /\ validated_in h (ti_tx_hex t);
  inv_secret : forall d, TakerPaymentSpent d ∈ evs -> secret_seen h (spent_secret d);
  inv_settled : forall e, e ∈ evs -> (12 <= rank (get_command e))%nat ->
    is_Some (sent evs) -> settled evs;
  inv_finished : Finished ∈ evs -> ended evs }.

(** The swap in memory, about to execute a command. *)
Record Live (h : list Obs) (evs : list TakerSwapEvent) (s : TakerSwap) (cmd : TakerSwapCommand)
  : Prop := {
  live_rel : Rel s evs;
  live_rank : (rank (cmd_of evs) <= rank (Some cmd))%nat;
  live_stage : stage_ok evs (Some cmd);
  live_negotiated : cmd = SendTakerFee -> exists d, attempted (TakerSwap.Negotiated d) h;
  live_validated : cmd = SendTakerPayment -> MakerPaymentValidatedAndConfirmed ∈ evs;
  live_secret : cmd = SpendMakerPayment -> secret_seen h (secret (mutable s));
  live_settled : (11 <= rank (Some cmd))%nat -> is_Some (sent evs) -> settled evs;
  live_ended : cmd = Finish -> ended evs }.

Lemma taker_Inv_nil : Inv [] [].
Proof. constructor; try (intros; exfalso; set_solver). apply safe_nil. Qed.

Lemma taker_Inv_grow h t evs : Inv h evs -> Safe (h ++ t) -> Inv (h ++ t) evs.
Proof.
  assert (h ⊆ h ++ t) as Hs by set_solver.
  intros [H1 H2 H3 H4 H5 H6 H7 H8] Hsafe. constructor; auto.
  - eauto using attempted_mono.
  - intros (t' & ? & ?)%H5. eauto using taker_validated_in_mono.
  - eauto using secret_seen_mono.
Qed.

Lemma taker_stage_ok_snoc evs e c : stage_ok evs c -> stage_ok (evs ++ [e]) c.
Proof. intros [H1 H2 H3 H4]. constructor; eauto using taker_last_of_is_Some. Qed.

Lemma taker_settled_snoc evs e : settled evs -> settled (evs ++ [e]).
Proof. unfold settled. setoid_rewrite elem_of_app. naive_solver. Qed.

Lemma taker_stage_ok_start c : (rank c <= 2 \/ 12 <= rank c)%nat -> forall evs, stage_ok evs c.
Proof. intros Hc evs. constructor; intros; lia. Qed.

Lemma ended_snoc evs e : ended evs -> ended (evs ++ [e]).
Proof. intros (e' & ? & ?). exists e'. split; [set_solver|done]. Qed.

(** Appending an event to the saved ones. *)
Lemma taker_Inv_snoc h evs e :
  Inv h evs -> attempted e h ->
  (rank (cmd_of evs) <= rank (get_command e))%nat ->
  stage_ok (evs ++ [e]) (get_command e) ->
  (e = MakerPaymentValidatedAndConfirmed -> exists t,
     received evs = Some t /\ validated_in h (ti_tx_hex t)) ->
  (forall d, e = TakerPaymentSpent d -> secret_seen h (spent_secret d)) ->
  (e = Finished -> ended evs) ->
  ((12 <= rank (get_command e))%nat -> is_Some (sent (evs ++ [e])) -> settled (evs ++ [e])) ->
  Inv h (evs ++ [e]).
Proof.
  intros [H1 H2 H3 H4 H5 H6 H7 H8] Hatt Hrank Hstage Hval Hsec Hend Hset. constructor.
  - done.
  - intros e' [?|He%list_elem_of_singleton]%elem_of_app; [|subst e']; auto.
  - intros e' [He|He%list_elem_of_singleton]%elem_of_app; [|subst e']; rewrite taker_cmd_of_snoc; [|done].
    etrans; [by apply H3|done].
  - intros e' [He|He%list_elem_of_singleton]%elem_of_app; [|subst e']; [|done]. auto using taker_stage_ok_snoc.
  - intros Ht. rewrite taker_last_of_snoc.
    apply elem_of_app in Ht as [Ht|Ht%list_elem_of_singleton]; [|subst e; by eapply Hval].
    destruct (received_ev e) eqn:He; [|by eapply H5].
    destruct e; simplify_eq/=. exfalso. specialize (H3 _ Ht). simpl in *. lia.
  - intros d [Hd|Hd%list_elem_of_singleton]%elem_of_app; auto.
  - intros e' He' Hr' Hs. apply elem_of_app in He' as [He'|He'%list_elem_of_singleton]; [|subst e'; auto].
    rewrite taker_last_of_snoc in Hs. destruct (sent_ev e) eqn:He.
    + destruct e; simplify_eq/=. specialize (H3 _ He'). simpl in *. lia.
    + apply taker_settled_snoc. eauto.
  - intros Hf. apply ended_snoc. apply elem_of_app in Hf as [Hf|Hf%list_elem_of_singleton]; auto.
Qed.

Lemma taker_not_sent_yet h evs : Inv h evs -> (rank (cmd_of evs) <= 5)%nat -> sent evs = None.
Proof.
  intros HI Hr. destruct (sent evs) as [t|] eqn:Ht; [|done].
  apply taker_last_of_in in Ht as (e & He & Hs). apply (inv_rank _ _ HI) in He.
  destruct e; simplify_eq/=. lia.
Qed.

Lemma taker_in_snoc (evs : list TakerSwapEvent) e : e ∈ evs ++ [e].
Proof. apply elem_of_app. right. left. Qed.

Lemma prefix_cases3 (p : list TakerSwapEvent) a b c :
  p `prefix_of` [a; b; c] -> p = [] \/ p = [a] \/ p = [a; b] \/ p = [a; b; c].
Proof. intros [k Hk]. destruct p as [|x [|y [|z [|w p]]]]; simplify_eq/=; auto. Qed.

Lemma taker_prefix_cases (p : list TakerSwapEvent) a b :
  p `prefix_of` [a; b] -> p = [] \/ p = [a] \/ p = [a; b].
Proof. intros [k Hk]. destruct p as [|x [|y [|z p]]]; simplify_eq/=; auto. Qed.

Lemma taker_prefix_one (p : list TakerSwapEvent) a : p `prefix_of` [a] -> p = [] \/ p = [a].
Proof. intros [k Hk]. destruct p as [|x [|y p]]; simplify_eq/=; auto. Qed.

Lemma settled_refunded h evs :
  Inv h evs -> (11 <= rank (cmd_of evs))%nat -> is_Some (sent evs) -> settled evs.
Proof.
  intros HI Hr Hs. unfold cmd_of in Hr. destruct (last evs) as [e|] eqn:Hl.
  2: { simpl in Hr. lia. }
  apply last_Some_elem_of in Hl. destruct (decide (12 <= rank (get_command e))%nat).
  - by eapply (inv_settled _ _ HI).
  - destruct e; simplify_eq/=; try lia. unfold settled. eauto 10.
Qed.

(** The side conditions of [taker_Inv_snoc] for a concrete event. *)
Ltac solve_stage :=
  constructor; simpl; intros; rewrite ?taker_last_of_snoc; simpl; eauto; try lia;
  try match goal with Hi : _ -> is_Some ?x |- is_Some ?x => apply Hi; lia end.

Ltac in_events := solve [repeat first [by apply taker_in_snoc | apply elem_of_app; left]].

Ltac solve_settled Hno Hfin :=
  let Hr := fresh "Hr" in let Hs := fresh "Hs" in
  simpl; intros Hr Hs; try lia; rewrite ?taker_last_of_snoc in Hs; simpl in Hs;
  first [ by rewrite Hno in Hs by lia; destruct Hs
        | apply taker_settled_snoc, Hfin; [lia|done]
        | by left; in_events
        | right; left; eexists; in_events
        | right; right; left; eexists; in_events
        | right; right; right; left; eexists; in_events
        | right; right; right; right; left; eexists; in_events
        | right; right; right; right; right; eexists; in_events ].

Ltac snoc_inv Hatt :=
  apply taker_Inv_snoc; [|by apply Hatt; rewrite ?elem_of_cons; auto 10
                  |rewrite ?taker_cmd_of_snoc; simpl; lia|solve_stage|by intros| |intros; by auto|].

(** The invariant survives any prefix of what a machine step may save. *)
Lemma taker_Inv_step h evs s tr cmd next events p :
  Inv h evs -> Live h evs s cmd -> step s tr cmd next events ->
  tr ⊆ h -> p `prefix_of` events -> (forall e, e ∈ p -> attempted e h) -> Inv h (evs ++ p).
Proof.
  intros HI [HR Hrk [S1 S2 S3 S4] _ _ _ Hfin Hend] Hstep Htr Hp Hatt.
  assert (Hno : (rank (Some cmd) <= 5)%nat -> sent evs = None).
  { intros Hr. apply (taker_not_sent_yet h); [done|]. lia. }
  simpl in *.
  inversion Hstep; subst; simpl in *;
    first [ apply prefix_cases3 in Hp as [->|[->|[->| ->]]]
          | apply taker_prefix_cases in Hp as [->|[->| ->]] | apply taker_prefix_one in Hp as [->| ->]];
    try (by rewrite app_nil_r).
  all: try match goal with
    | |- Inv _ (_ ++ [?a; ?b; ?c]) =>
        rewrite (app_assoc evs [a; b] [c] : evs ++ [a; b; c] = _), (app_assoc evs [a] [b] : evs ++ [a; b] = _)
    | |- Inv _ (_ ++ [?a; ?b]) => rewrite (app_assoc evs [a] [b] : evs ++ [a; b] = _)
    end.
  all: try (snoc_inv Hatt; [done|by intros|solve_settled Hno Hfin]).
  all: try (snoc_inv Hatt; [snoc_inv Hatt; [done|by intros|solve_settled Hno Hfin]
                           |by intros|solve_settled Hno Hfin]).
  all: try (snoc_inv Hatt; [snoc_inv Hatt; [snoc_inv Hatt; [done|by intros|solve_settled Hno Hfin]
                           |by intros|solve_settled Hno Hfin]|by intros|solve_settled Hno Hfin]).
  - assert (received evs = Some t) as Ht by by rewrite <- (rel_received _ _ HR).
    apply taker_Inv_snoc; [done|by apply Hatt; left|simpl; lia| |by eauto using taker_validated_in_mono
                    |by intros|by intros|solve_settled Hno Hfin].
    constructor; simpl; intros; rewrite ?taker_last_of_snoc; simpl; try lia; [by apply S1; lia|by eexists].
  - apply taker_Inv_snoc; [done|by apply Hatt; left|simpl; lia|solve_stage|by intros
                    |intros ? [= <-]; by eauto using secret_seen_mono|by intros|solve_settled Hno Hfin].
Qed.

Lemma taker_step_rank s tr cmd next events :
  step s tr cmd next events -> (rank (Some cmd) < rank next <= 13)%nat.
Proof. inversion 1; simpl; lia. Qed.

(** All the events of a step have been saved and applied. *)
Lemma Live_step h evs s tr cmd c events s' :
  Inv h (evs ++ events) -> Live h evs s cmd -> step s tr cmd (Some c) events ->
  tr ⊆ h -> Forall (fun e => attempted e h) events -> Rel s' (evs ++ events) ->
  (forall d, last events = Some (TakerPaymentSpent d) -> secret (mutable s') = spent_secret d) ->
  Live h (evs ++ events) s' c.
Proof.
  intros HI [HR Hrk [S1 S2 S3 S4] _ _ _ Hfin Hend] Hstep Htr Hatt HR' Hsec.
  assert (Hstage : forall e, last events = Some e -> get_command e = Some c \/ c = Finish ->
    stage_ok (evs ++ events) (Some c)).
  { intros e Hl [Hc| ->]; [|apply taker_stage_ok_start; simpl; lia]. rewrite <- Hc.
    apply (inv_stage _ _ HI), elem_of_app. right. by apply last_Some_elem_of. }
  assert (Hsettled : forall e, last events = Some e -> (12 <= rank (get_command e))%nat ->
    is_Some (sent (evs ++ events)) -> settled (evs ++ events)).
  { intros e Hl. apply (inv_settled _ _ HI), elem_of_app. right. by apply last_Some_elem_of. }
  assert (Hlast : forall e, last events = Some e -> cmd_of (evs ++ events) = get_command e).
  { intros e Hl. unfold cmd_of. by rewrite last_app, Hl. }
  inversion Hstep; subst; simpl in *;
    (constructor;
     [ done
     | by erewrite Hlast by done; simpl; lia
     | by eapply Hstage; [done|simpl; auto]
     | try (by intros) | try (by intros) | try (by intros)
     | simpl; intros Hr Hs; try lia; try (by eapply Hsettled; [done|simpl; lia|done])
     | first [by intros|intros _; eexists; split; [apply elem_of_app; right; by left|done]] ]).
  all: try (by intros; eexists; inversion Hatt; subst).
  all: try (by intros; apply elem_of_app; right; left).
  all: try (intros _; rewrite (Hsec d) by done; by eapply secret_seen_mono).
  all: unfold settled; setoid_rewrite elem_of_app; setoid_rewrite elem_of_cons; eauto 12.
Qed.

(** ** The run loop *)

Lemma taker_announce_only e s : only (fun c => quiet c) (announce_event e s).
Proof. unfold announce_event. walk_only. Qed.

Lemma taker_announce_not_save e s tr :
  traces (announce_event e s) tr -> Forall (fun o => not_save (obs_call o)) tr.
Proof. apply only_traces. eapply only_weaken; [apply taker_quiet_not_save|apply taker_announce_only]. Qed.

Lemma taker_process_event_runs e s tr s' :
  runs (process_event e s) tr s' ->
  exists now ts t1, s' = apply_event now e s /\
    tr = t1 ++ [got (save_event ts e) (Ok tt); got (dispatch_status e) tt] /\
    Forall (fun o => not_save (obs_call o)) t1.
Proof.
  unfold process_event. intros ([ts now] & t1 & t2 & -> & Ha & Hr)%runs_bind.
  simpl in Hr. destruct Hr as ([u|er] & t3 & -> & Hr); [|done].
  destruct Hr as ([] & t4 & -> & -> & ->), u.
  exists now, ts, t1. split; [done|]. split; [done|]. by eapply taker_announce_not_save, runs_traces.
Qed.

(** A cut that ends in or after the call that writes [es]. *)
Lemma persisted_cut (c : Call TakerSwapEvent) x t1 t2 p :
  Forall (fun o => not_save (obs_call o)) t1 -> Forall (fun o => not_save (obs_call o)) t2 ->
  persisted (t1 ++ existT c x :: t2) p ->
  (p = [] \/ p = writes c) /\ forall e, e ∈ p -> attempted e (t1 ++ existT c x :: t2).
Proof.
  intros H1 H2 Hp%persisted_app; [|done].
  assert (p = [] \/ p = writes c) as Hc.
  { destruct (write_ok c x) eqn:Hw.
    - apply persisted_write in Hp as (p' & -> & Hp); [|done].
      apply persisted_not_save in Hp as ->; [|done]. rewrite app_nil_r. by right.
    - destruct Hp as [->|(o & Hl & ->)].
      + left. unfold saved_of. cbn [mbind list_bind]. simpl. rewrite Hw.
        by apply not_save_saved_of.
      + unfold saved_of. cbn [mbind list_bind]. simpl saved_obs at 1. rewrite Hw. simpl.
        fold (saved_of t2). rewrite not_save_saved_of by done. destruct t2 as [|o' t2].
        * injection Hl as <-. simpl. rewrite Hw. by right.
        * left. rewrite last_cons_cons in Hl. by eapply not_save_last. }
  split; [done|]. destruct Hc as [->| ->]; [set_solver|].
  intros e He. exists c, x. split; [set_solver|done].
Qed.

Lemma taker_process_event_traces e s tr p :
  traces (process_event e s) tr -> persisted tr p ->
  p `prefix_of` [e] /\ forall e', e' ∈ p -> attempted e' tr.
Proof.
  unfold process_event. intros [Ht|(t & t1 & t2 & -> & Hr & Ht)]%traces_bind Hp.
  { apply persisted_not_save in Hp as ->; [|by eapply taker_announce_not_save].
    split; [apply prefix_nil|set_solver]. }
  assert (Forall (fun o => not_save (obs_call o)) t1) as Hns.
  { by eapply taker_announce_not_save, runs_traces. }
  assert (t2 = [] \/ exists x t3, t2 = existT (save_event t.1 e) x :: t3 /\
          Forall (fun o => not_save (obs_call o)) t3) as [->|(x & t3 & -> & H3)].
  { simpl in Ht. destruct Ht as [->|[->|(x & t3 & -> & Ht)]]; [by left|right; by repeat eexists|].
    right. eexists _, _. split; [done|]. destruct x; simpl in Ht.
    - destruct Ht as [->|[->|(y & t4 & -> & ->)]]; by repeat constructor.
    - by subst. }
  - rewrite app_nil_r in Hp |- *. apply persisted_not_save in Hp as ->; [|done].
    split; [apply prefix_nil|set_solver].
  - apply persisted_cut in Hp as [[->| ->] Hatt]; [..|done|done]; (split; [|done]).
    + apply prefix_nil.
    + done.
Qed.

Lemma taker_process_events_runs es s tr s' :
  runs (process_events es s) tr s' ->
  (forall e, e ∈ es -> attempted e tr) /\
  (forall evs, Rel s evs -> Rel s' (evs ++ es)) /\
  (forall t p, persisted (tr ++ t) p -> exists p', p = es ++ p' /\ persisted t p') /\
  (forall d, last es = Some (TakerPaymentSpent d) -> secret (mutable s') = spent_secret d).
Proof.
  revert s tr; induction es as [|e es IH]; intros s tr; cbn [process_events].
  { intros [-> ->]. split; [set_solver|]. split; [by intros; rewrite app_nil_r|]. split; [|done]. eauto. }
  intros (s1 & t1 & t2 & -> & He & Hr)%runs_bind.
  apply taker_process_event_runs in He as (now & ts & t0 & -> & -> & Hns).
  destruct (decide (es = [])) as [->|Hne].
  { cbn [process_events] in Hr. destruct Hr as [-> ->]. split; [|split; [|split]].
    - intros e' ->%list_elem_of_singleton. rewrite app_nil_r. apply attempted_app. right.
      eapply attempted_save. by left.
    - intros evs HR. by apply taker_Rel_apply.
    - intros t p Hp. rewrite app_nil_r, <- app_assoc in Hp. apply persisted_app in Hp; [|done].
      simpl in Hp. apply persisted_cons_ok in Hp as (p1 & -> & Hp). exists p1. split; [done|].
      by apply (persisted_app [_]) in Hp; [|repeat constructor].
    - intros d [= ->]. by destruct s, mutable. }
  apply IH in Hr as (IH1 & IH2 & IH3 & IH4). split; [|split; [|split]].
  - intros e' [->|He']%elem_of_cons; apply attempted_app; [left|right; auto].
    apply attempted_app. right. eapply attempted_save. by left.
  - intros evs HR. rewrite (app_assoc evs [e] es : evs ++ e :: es = _). by apply IH2, taker_Rel_apply.
  - intros t p Hp. rewrite <- !app_assoc in Hp. apply persisted_app in Hp; [|done].
    simpl in Hp. apply persisted_cons_ok in Hp as (p1 & -> & Hp).
    apply (persisted_app [_]) in Hp; [|by repeat constructor].
    apply IH3 in Hp as (p2 & -> & Hp). eauto.
  - intros d Hd. apply IH4. destruct es; [done|]. by rewrite last_cons_cons in Hd.
Qed.

Lemma taker_process_events_traces es s tr p :
  traces (process_events es s) tr -> persisted tr p ->
  p `prefix_of` es /\ forall e', e' ∈ p -> attempted e' tr.
Proof.
  revert s tr p; induction es as [|e es IH]; intros s tr p; cbn [process_events].
  { intros -> ->%persisted_nil. split; [done|set_solver]. }
  intros [Ht|(s1 & t1 & t2 & -> & He & Ht)]%traces_bind Hp.
  - destruct (taker_process_event_traces _ _ _ _ Ht Hp) as [Hpre Hatt]. split; [|done].
    etrans; [done|]. by exists es.
  - apply taker_process_event_runs in He as (now & ts & t0 & -> & -> & Hns).
    rewrite <- app_assoc in Hp. apply persisted_app in Hp; [|done].
    apply persisted_cons_ok in Hp as (p1 & -> & Hp).
    apply (persisted_app [_]) in Hp; [|by repeat constructor].
    destruct (IH _ _ _ Ht Hp) as [Hpre Hatt]. split; [by apply prefix_cons|].
    intros e' [->|He']%elem_of_cons; apply attempted_app; [left|right; auto].
    apply attempted_app. right. eapply attempted_save. by left.
Qed.

Lemma taker_process_events_only es s : only harmless (process_events es s).
Proof.
  revert s; induction es as [|e es IH]; intros s; cbn [process_events]; [done|].
  apply only_bind; [|done]. apply only_bind.
  - eapply only_weaken; [|apply taker_announce_only]. by intros [].
  - intros t. split; [done|]. by intros [].
Qed.

(** ** What the handlers may call *)

Lemma taker_check_balance_only a b v u p st :
  only balance_query (check_balance_for_taker_swap a b v u (Some p) st).
Proof.
  unfold check_balance_for_taker_swap. cbn [prog_bind]. apply only_bind.
  { apply check_my_coin_only. }
  intros [bal|e]; [|done]. case_match; [apply check_other_coin_only|done].
Qed.

Lemma create_watcher_data_only P s a b c : only P (create_watcher_data s a b c).
Proof. unfold create_watcher_data. walk_only. Qed.

Lemma process_watcher_logic_only s t : only quiet (process_watcher_logic s t).
Proof.
  unfold process_watcher_logic, watchers_enabled_and_supported. walk_only.
  apply create_watcher_data_only.
Qed.

Lemma rebroadcast_only s p : only quiet (rebroadcast_watcher_message s p).
Proof.
  unfold rebroadcast_watcher_message, watchers_enabled_and_supported. walk_only.
  apply create_watcher_data_only.
Qed.

Definition critical_command (cmd : TakerSwapCommand) : bool :=
  match cmd with
  | SendTakerFee | SendTakerPayment | SpendMakerPayment | RefundTakerPayment => true
  | _ => false
  end.

Lemma taker_handle_quiet cmd s :
  critical_command cmd = false -> only quiet (handle_command fuel cmd s).
Proof.
  destruct cmd; intros Hc; try discriminate Hc; cbn [handle_command];
    try (unfold reading; apply only_bind; [|done]).
  - unfold start, fee_to_send. walk_only; try done;
      eapply only_weaken; [|apply taker_check_balance_only]; by intros [].
  - unfold negotiate. walk_only.
  - unfold wait_for_maker_payment, get_taker_fee_data. walk_only.
  - unfold handle_validate_maker_payment. walk_only.
  - unfold wait_for_taker_payment_spend. walk_only. apply rebroadcast_only.
  - unfold confirm_maker_payment_spend. walk_only.
  - unfold prepare_for_taker_payment_refund. walk_only.
  - unfold finalize_taker_payment_refund. walk_only.
  - done.
Qed.

Lemma taker_payment_sent_quiet s t : only quiet (taker_payment_sent s t).
Proof. unfold taker_payment_sent. apply only_bind; [apply process_watcher_logic_only|done]. Qed.

Lemma taker_handle_not_save cmd s : only not_save (handle_command fuel cmd s).
Proof.
  destruct (critical_command cmd) eqn:Hc.
  - destruct cmd; try discriminate Hc; cbn [handle_command]; unfold reading;
      (apply only_bind; [|done]).
    + unfold handle_send_taker_fee. walk_only.
    + unfold handle_send_taker_payment, setup_watcher_reward. walk_only;
        (eapply only_weaken; [apply taker_quiet_not_save|apply taker_payment_sent_quiet]).
    + unfold spend_maker_payment. walk_only.
    + unfold refund_taker_payment. walk_only.
  - eapply only_weaken; [apply taker_quiet_not_save|by apply taker_handle_quiet].
Qed.

(** ** The handlers that move money *)

Lemma guarded_quiet {A} h (p : M A) : only quiet p -> guarded good_call h p.
Proof. apply only_guarded, quiet_good. Qed.

Lemma fee_guarded s h evs :
  Live h evs s SendTakerFee -> guarded good_call h (handle_send_taker_fee s).
Proof.
  intros HL. destruct (live_negotiated _ _ _ _ HL) as [d Hd]; [done|].
  unfold handle_send_taker_fee. split; [done|]. intros now. cbn [prog_bind].
  case_match; [done|]. case_match; [done|..]; split; try (by intros []);
    exists d; (eapply attempted_mono; [|done]); set_solver.
Qed.

Lemma taker_spend_guarded s h evs :
  Live h evs s SpendMakerPayment -> guarded good_call h (spend_maker_payment s).
Proof.
  intros HL. unfold spend_maker_payment.
  destruct (maker_payment (mutable s)); [|done]. cbn [unwrap prog_bind]. split.
  - by apply (live_secret _ _ _ _ HL).
  - intros x. apply guarded_quiet. destruct x; walk_only.
Qed.

Lemma taker_refund_guarded s h evs :
  Inv h evs -> Live h evs s RefundTakerPayment -> guarded good_call h (refund_taker_payment fuel s).
Proof.
  intros HI HL. unfold refund_taker_payment. rewrite (rel_sent _ _ (live_rel _ _ _ _ HL)).
  destruct (sent evs) as [t|] eqn:Ht; [|done]. cbn [unwrap prog_bind].
  destruct (is_auto_refundable _); [apply guarded_quiet; walk_only|].
  apply guarded_bind.
  { eapply only_guarded; [|apply wait_can_refund_only]. by intros ? []. }
  intros tr u Hr. apply wait_can_refund_ok in Hr. cbn [prog_bind]. split.
  - split; [|simpl; apply elem_of_app; by right].
    apply taker_last_of_in in Ht as (e & He & Hs). destruct e; simplify_eq/=.
    exists t. split; [|done]. apply (inv_attempted _ _ HI) in He.
    eapply attempted_mono; [|done]. set_solver.
  - intros x. apply guarded_quiet. destruct x; walk_only.
Qed.

Lemma taker_payment_guarded s h evs :
  Inv h evs -> Live h evs s SendTakerPayment -> guarded good_call h (handle_send_taker_payment s).
Proof.
  intros HI HL. pose proof (live_validated _ _ _ _ HL eq_refl) as Hv.
  apply (inv_validated _ _ HI) in Hv as (t & Ht & Hval).
  apply taker_last_of_in in Ht as (e & He & Hs). destruct e; simplify_eq/=.
  apply (inv_attempted _ _ HI) in He.
  unfold handle_send_taker_payment. split; [done|].
  intros [[tx|]|e]; cbn [prog_bind]; [| |done].
  - apply guarded_quiet. unfold setup_watcher_reward. walk_only; apply taker_payment_sent_quiet.
  - split; [done|]. intros now. cbn [prog_bind]. case_match; [done|].
    apply guarded_bind; [apply guarded_quiet; unfold setup_watcher_reward; walk_only|].
    intros tr [reward|e] Hr; [|done].
    assert (Forall (fun o => ~ is_payment (obs_call o)) tr) as Hq.
    { unfold setup_watcher_reward in Hr. case_match; run_all Hr; repeat constructor; by intros []. }
    cbn [prog_bind]. split.
    + split.
      * exists t. split; [eapply attempted_mono; [|done]|eapply taker_validated_in_mono; [|done]]; set_solver.
      * exists h, (check_sent_args s), (got now_sec now :: tr). rewrite <- !app_assoc.
        repeat split; try done. constructor; [by intros []|done].
    + intros [tx|e]; cbn [prog_bind]; [|done]. apply guarded_quiet, taker_payment_sent_quiet.
Qed.

Lemma taker_handle_guarded cmd s h evs :
  Inv h evs -> Live h evs s cmd -> guarded good_call h (handle_command fuel cmd s).
Proof.
  intros HI HL. destruct (critical_command cmd) eqn:Hc.
  - destruct cmd; try discriminate Hc; cbn [handle_command]; unfold reading;
      (apply guarded_bind; [|done]).
    + by eapply fee_guarded.
    + by eapply taker_payment_guarded.
    + by eapply taker_spend_guarded.
    + by eapply taker_refund_guarded.
  - apply guarded_quiet. by apply taker_handle_quiet.
Qed.

(** ** Sessions keep the invariant *)

Lemma safe_handle cmd s h evs tr :
  Inv h evs -> Live h evs s cmd -> traces (handle_command fuel cmd s) tr -> Safe (h ++ tr).
Proof.
  intros HI HL Ht. eapply guarded_safe; [by apply (taker_handle_guarded cmd s h evs)|apply (inv_safe _ _ HI)|done].
Qed.

Lemma safe_events es s h tr : Safe h -> traces (process_events es s) tr -> Safe (h ++ tr).
Proof.
  intros Hs Ht. eapply guarded_safe; [|done|done]. eapply only_guarded; [apply taker_harmless_good|].
  apply taker_process_events_only.
Qed.

Lemma Live_grow h t evs s cmd : Live h evs s cmd -> Live (h ++ t) evs s cmd.
Proof.
  assert (h ⊆ h ++ t) as Hs by set_solver. intros [H1 H2 H3 H4 H5 H6 H7 H8]. constructor; auto.
  - intros (d & Hd)%H4. exists d. by eapply attempted_mono.
  - intros ?%H6. by eapply secret_seen_mono.
Qed.

Lemma taker_handle_Rel cmd s tr s' next events evs :
  Rel s evs -> runs (handle_command fuel cmd s) tr (s', (next, events)) ->
  step s tr cmd next events /\ Rel s' evs.
Proof.
  intros HR Hr. apply taker_handle_refines in Hr as [Hstep Hs].
  split; [done|]. destruct Hs as [->|[b ->]]; [done|by apply taker_Rel_watcher].
Qed.

(** A complete round: the handler returned and all its events were saved. *)
Lemma round cmd s s1 s2 next events h evs t1 t2 :
  Inv h evs -> Live h evs s cmd ->
  runs (handle_command fuel cmd s) t1 (s1, (next, events)) ->
  runs (process_events events s1) t2 s2 ->
  let h' := (h ++ t1) ++ t2 in
  Inv h' (evs ++ events) /\ step s t1 cmd next events /\ Rel s2 (evs ++ events) /\
  (forall c, next = Some c -> Live h' (evs ++ events) s2 c).
Proof.
  intros HI HL Hr Hpe. destruct (taker_handle_Rel _ _ _ _ _ _ _ (live_rel _ _ _ _ HL) Hr) as [Hstep HR1].
  destruct (taker_process_events_runs _ _ _ _ Hpe) as (Hatt & HRel & _ & Hsec).
  assert (Safe ((h ++ t1) ++ t2)) as Hs2.
  { eapply safe_events; [|by eapply runs_traces]. eapply safe_handle; [done|done|by eapply runs_traces]. }
  assert (HL' : Live ((h ++ t1) ++ t2) evs s cmd) by by do 2 apply Live_grow.
  assert (HI' : Inv ((h ++ t1) ++ t2) evs).
  { rewrite <- app_assoc in *. by apply taker_Inv_grow. }
  assert (Hatt' : Forall (fun e => attempted e ((h ++ t1) ++ t2)) events).
  { rewrite Forall_forall. intros e He. apply attempted_app. right. auto. }
  assert (t1 ⊆ (h ++ t1) ++ t2) by set_solver.
  assert (Inv ((h ++ t1) ++ t2) (evs ++ events)) as HI2.
  { eapply taker_Inv_step; try done. rewrite Forall_forall in Hatt'. done. }
  split; [done|]. split; [done|]. split; [by apply HRel|].
  intros c ->. eapply Live_step; try done. by apply HRel.
Qed.

Lemma loop_traces rounds cmd s h evs tr p :
  Inv h evs -> Live h evs s cmd ->
  traces (swap_loop fuel rounds cmd s) tr -> persisted tr p -> Inv (h ++ tr) (evs ++ p).
Proof.
  revert cmd s h evs tr p; induction rounds as [|n IH]; intros cmd s h evs tr p HI HL Ht Hp.
  { simpl in Ht. subst. apply persisted_nil in Hp as ->. by rewrite !app_nil_r. }
  cbn [swap_loop] in Ht. apply traces_bind in Ht as [Ht|([s1 [next events]] & t1 & t2 & -> & Hr & Ht)].
  { apply persisted_not_save in Hp as ->; [|by eapply only_traces; [apply taker_handle_not_save|]].
    rewrite app_nil_r. apply taker_Inv_grow; [done|]. by eapply safe_handle. }
  apply persisted_app in Hp; [|by eapply only_runs; [apply taker_handle_not_save|]].
  apply traces_bind in Ht as [Ht|(s2 & t2' & t3 & -> & Hpe & Ht)].
  - destruct (taker_handle_Rel _ _ _ _ _ _ _ (live_rel _ _ _ _ HL) Hr) as [Hstep HR1].
    destruct (taker_process_events_traces _ _ _ _ Ht Hp) as [Hpre Hatt].
    assert (Safe (h ++ t1 ++ t2)) as Hs.
    { rewrite app_assoc. eapply safe_events; [|done].
      eapply safe_handle; [done|done|by eapply runs_traces]. }
    eapply taker_Inv_step; [by apply taker_Inv_grow|by apply Live_grow|done|set_solver|done|].
    intros e He. apply attempted_app. right. apply attempted_app. right. auto.
  - destruct (round _ _ _ _ _ _ _ _ _ _ HI HL Hr Hpe) as (HI2 & _ & HR2 & HL2).
    apply taker_process_events_runs in Hpe as (_ & _ & Hper & _).
    apply Hper in Hp as (p' & -> & Hp). rewrite !app_assoc. destruct next as [c|].
    + eapply IH; [done|by apply HL2|done|done].
    + assert (Forall (fun o => quiet (obs_call o)) t3) as Hq.
      { eapply only_traces; [|done]. repeat split. }
      apply persisted_not_save in Hp as ->;
        [|eapply Forall_impl; [done|]; intros; by apply taker_quiet_not_save].
      rewrite app_nil_r. apply taker_Inv_grow; [done|]. apply safe_app_forall; [apply (inv_safe _ _ HI2)|].
      intros h'. eapply Forall_impl; [done|]. intros o Ho. by apply quiet_good.
Qed.

(** ** Restoring *)

Lemma restore_facts pub now mc tc saved s cmd h :
  Inv h (map event (sv_events saved)) -> restore pub now mc tc saved = Ok (s, Some cmd) ->
  Live h (map event (sv_events saved)) s cmd /\ cmd_of (map event (sv_events saved)) = Some cmd.
Proof.
  intros HI. unfold restore. destruct (sv_events saved) as [|first rest]; [done|].
  destruct (event first) eqn:Hf; try done. intros [= <- Hcmd]. simpl in *. rewrite Hf in *.
  set (evs := Started d :: map event rest) in *.
  assert (cmd_of evs = Some cmd) as Hc.
  { unfold cmd_of. rewrite <- Hcmd. unfold evs. destruct (map event rest) using rev_ind; [done|].
    by rewrite !app_comm_cons, !last_snoc. }
  split; [|done].
  match goal with |- Live _ _ (replay _ _ (upd _ ?s0)) _ => set (s1 := upd (set_data (refresh_contracts mc tc d)) s0) end.
  assert (Rel s1 [Started d]) as HR1 by by constructor.
  assert (exists e, last evs = Some e) as [e Hl].
  { destruct (last evs) eqn:E; [eauto|]. by apply last_None in E. }
  assert (e ∈ evs) as He by by apply last_Some_elem_of.
  assert (get_command e = Some cmd) as Hce by (unfold cmd_of in Hc; by rewrite Hl in Hc).
  constructor.
  - by apply (taker_Rel_replay now (map event rest) s1 [Started d]).
  - by rewrite Hc.
  - rewrite <- Hce. by apply (inv_stage _ _ HI).
  - intros ->. destruct e; simplify_eq/=. eexists. by apply (inv_attempted _ _ HI).
  - intros ->. by destruct e.
  - intros ->. destruct e as [| | | | | | | | | | | | | | | | |d'| | | | | | | | | | | | |]; simplify_eq/=.
    assert (secret (mutable (replay now (map event rest) s1)) = spent_secret d') as ->.
    { unfold evs in Hl. destruct (map event rest) as [|x l] using rev_ind; [done|].
      rewrite app_comm_cons, last_snoc in Hl. injection Hl as ->.
      unfold replay. by rewrite foldl_app. }
    by apply (inv_secret _ _ HI).
  - intros Hr Hs. eapply settled_refunded; [done| |done]. by rewrite Hc.
  - intros ->. exists e. split; [done|]. by destruct e.
Qed.

(** What a restart may discover on the chains: the events it saves, and the
    swap and the command it continues with. *)
Inductive disc (s : TakerSwap) (tr : list Obs)
  : TakerSwapCommand -> list TakerSwapEvent -> TakerSwap -> TakerSwapCommand -> Prop :=
| disc_nothing cmd : disc s tr cmd [] s cmd
| disc_spent d :
    secret_seen tr (spent_secret d) ->
    disc s tr WaitForTakerPaymentSpend [] (apply_event 0 (TakerPaymentSpent d) s) SpendMakerPayment
| disc_spent_by_watcher d t :
    secret_seen tr (spent_secret d) ->
    disc s tr WaitForTakerPaymentSpend [TakerPaymentSpent d; MakerPaymentSpentByWatcher t]
      (apply_event 0 (MakerPaymentSpentByWatcher t) (apply_event 0 (TakerPaymentSpent d) s))
      ConfirmMakerPaymentSpend
| disc_by_watcher t :
    disc s tr SpendMakerPayment [MakerPaymentSpentByWatcher t]
      (apply_event 0 (MakerPaymentSpentByWatcher t) s) ConfirmMakerPaymentSpend
| disc_refunded cmd t :
    (6 <= rank (Some cmd) <= 10)%nat ->
    disc s tr cmd [TakerPaymentRefundedByWatcher t]
      (apply_event 0 (TakerPaymentRefundedByWatcher t) s) Finish.

(** Restarting makes no other write than the one of [disc], as its last call. *)
Definition restart_call (s : TakerSwap) (cmd : TakerSwapCommand) (h : list Obs)
  (c : Call TakerSwapEvent) : Prop :=
  match c with
  | save_swap es => exists s' cmd', disc s h cmd es.*2 s' cmd'
  | c => quiet c
  end.

Fixpoint save_last {A} (p : M A) : Prop :=
  match p with
  | Ret _ | Panic | OutOfFuel => True
  | Vis c k =>
      match writes c with
      | [] => forall x, save_last (k x)
      | _ => forall x, exists a, k x = Ret a
      end
  end.

Lemma save_last_traces {A} (p : M A) tr :
  save_last p -> traces p tr ->
  Forall (fun o => not_save (obs_call o)) tr \/
  exists t1 c x, tr = t1 ++ [existT c x] /\ Forall (fun o => not_save (obs_call o)) t1.
Proof.
  revert tr; induction p as [a| | |c k IH]; cbn [save_last traces]; intros tr Hs Ht;
    try (subst; by left).
  destruct Ht as [->|[->|(x & tr' & -> & Ht)]]; [by left|right; by exists [], c, None|].
  destruct (writes c) as [|w ws] eqn:Hw.
  - destruct (IH _ _ (Hs x) Ht) as [Hn|(t1 & c' & x' & -> & Hn)]; [left|right].
    + by constructor.
    + exists (got c x :: t1), c', x'. split; [done|by constructor].
  - destruct (Hs x) as [a Ha]. rewrite Ha in Ht. simpl in Ht. subst.
    right. by exists [], c, (Some x).
Qed.

Ltac walk_guarded :=
  repeat lazymatch goal with
  | |- guarded _ _ (Ret _) => exact I
  | |- guarded _ _ (prog_bind (call _) _) => split; [try exact I|intros ?]; cbn [prog_bind]
  | |- guarded _ _ (prog_bind (prog_bind _ _) _) => cbn [prog_bind]
  | |- guarded _ _ (prog_bind (Ret _) _) => cbn [prog_bind]
  | |- guarded _ _ (Vis _ _) => split; [try exact I|intros ?]; cbn [prog_bind]
  | |- guarded _ _ (prog_bind (match ?x with _ => _ end) _) => destruct x
  | |- guarded _ _ (match map_err _ ?x with _ => _ end) => destruct x; cbn [map_err]
  | |- guarded _ _ (match ?x with _ => _ end) => destruct x
  | |- guarded _ _ (prog_bind _ _) => progress cbn [prog_bind call]
  end.

Ltac unfold_restart :=
  unfold get_command_based_on_maker_or_watcher_activity, check_taker_payment_spend,
    add_taker_payment_spent_event, check_maker_payment_spend_and_add_event,
    add_taker_payment_refunded_by_watcher_event, save_new_event, restart_err.

(** Membership at the end of a growing history. *)
Ltac in_hist :=
  solve [repeat first [apply elem_of_app; right; by left | apply elem_of_app; left]].

Lemma restart_guarded s cmd h :
  guarded (restart_call s cmd) h (get_command_based_on_maker_or_watcher_activity s cmd).
Proof.
  unfold_restart. destruct cmd; cbn [prog_bind call]; walk_guarded; cbn [restart_call];
    eexists _, _; simpl; first
    [ eapply disc_refunded; simpl; lia
    | eapply disc_by_watcher
    | eapply disc_spent_by_watcher; eexists _, _; simpl;
      split; [in_hist|right; eexists; in_hist] ].
Qed.

Ltac walk_last :=
  repeat lazymatch goal with
  | |- save_last (Ret _) => exact I
  | |- save_last (Vis _ _) => cbn [save_last writes]; intros ?; cbn [prog_bind call]
  | |- save_last (prog_bind (match ?x with _ => _ end) _) => destruct x; cbn [prog_bind call]
  | |- save_last (match map_err _ ?x with _ => _ end) => destruct x; cbn [map_err]
  | |- save_last (match ?x with _ => _ end) => destruct x; cbn [prog_bind call]
  | |- save_last (prog_bind _ _) => progress cbn [prog_bind call]
  end.

Lemma restart_save_last s cmd :
  save_last (get_command_based_on_maker_or_watcher_activity s cmd).
Proof.
  unfold_restart. destruct cmd; cbn [prog_bind call]; walk_last; simpl; by eexists.
Qed.

Ltac run_every := repeat match goal with Hr : runs _ _ _ |- _ => run_step Hr end.

Lemma restart_runs s cmd tr s' cmd' :
  runs (get_command_based_on_maker_or_watcher_activity s cmd) tr (Ok (s', cmd')) ->
  disc s tr cmd (saved_of tr) s' cmd' /\ writes_ok tr.
Proof.
  unfold_restart. intros Hr. destruct cmd; run_all Hr; run_every;
    repeat match goal with
    | Hm : Ok _ = map_err _ ?x |- _ => destruct x; simplify_eq/=
    | Hm : Ok _ = match ?x with _ => _ end |- _ => destruct x as [[]|]; simplify_eq/=
    end.
  all: split; [|unfold writes_ok; simpl; repeat (apply Forall_cons; split);
                first [exact I|apply Forall_nil; exact I|by left|by right]].
  all: unfold saved_of; simpl; first
    [ apply disc_nothing
    | eapply disc_refunded; simpl; lia
    | eapply disc_by_watcher
    | first [ eapply (disc_spent _ _ (mkSpentData (tx_ident _) _))
            | eapply disc_spent_by_watcher ];
      eexists _, _; simpl; split; [in_list|right; eexists; in_list] ].
Qed.

Lemma restart_only s cmd :
  only harmless (get_command_based_on_maker_or_watcher_activity s cmd).
Proof.
  unfold_restart. walk_only; destruct cmd; walk_only.
Qed.

(** What a restart finds keeps the invariant. *)
Lemma Inv_disc h evs s tr cmd events s' cmd' :
  Inv h evs -> Live h evs s cmd -> cmd_of evs = Some cmd -> disc s tr cmd events s' cmd' ->
  tr ⊆ h -> (forall e, e ∈ events -> attempted e h) ->
  Inv h (evs ++ events) /\ Live h (evs ++ events) s' cmd'.
Proof.
  intros HI HL Hcmd Hd Htr Hatt. destruct HL as [HR Hrk [S1 S2 S3 S4] L1 L2 L3 L4 L5].
  assert (Hno : (rank (Some cmd) <= 5)%nat -> sent evs = None).
  { intros Hr. apply (taker_not_sent_yet h); [done|]. by rewrite Hcmd. }
  assert (Hfin : (11 <= rank (Some cmd))%nat -> is_Some (sent evs) -> settled evs) by done.
  inversion Hd; subst; simpl in *.
  - rewrite app_nil_r. split; [done|]. by constructor.
  - rewrite app_nil_r. split; [done|]. constructor; try done.
    + by apply (Rel_spent_event s _ d 0).
    + simpl. lia.
    + constructor; simpl; intros; try lia; auto with lia.
    + simpl. intros _. by eapply secret_seen_mono.
    + simpl. intros; lia.
  - rewrite (app_assoc evs [TakerPaymentSpent d] [MakerPaymentSpentByWatcher t]
      : evs ++ [_; _] = _).
    assert (Hsec : secret_seen h (spent_secret d)) by by eapply secret_seen_mono.
    assert (Inv h (evs ++ [TakerPaymentSpent d])) as HI1.
    { apply taker_Inv_snoc; [done|by apply Hatt; left|simpl; lia|solve_stage|by intros
                      |by intros ? [= <-]|by intros|solve_settled Hno Hfin]. }
    split.
    + apply taker_Inv_snoc; [done|apply Hatt; set_solver|rewrite taker_cmd_of_snoc; simpl; lia|solve_stage
                      |by intros|by intros|by intros|solve_settled Hno Hfin].
    + constructor; try done.
      * rewrite <- app_assoc. by apply (taker_Rel_replay 0 [TakerPaymentSpent d; MakerPaymentSpentByWatcher t]).
      * by rewrite taker_cmd_of_snoc.
      * solve_stage.
      * simpl. intros; lia.
  - split.
    + apply taker_Inv_snoc; [done|by apply Hatt; left|simpl; lia|solve_stage|by intros|by intros|by intros
                      |solve_settled Hno Hfin].
    + constructor; try done.
      * by apply (taker_Rel_apply s _ 0 (MakerPaymentSpentByWatcher t)).
      * by rewrite taker_cmd_of_snoc.
      * solve_stage.
      * simpl. intros; lia.
  - assert (Hset : settled (evs ++ [TakerPaymentRefundedByWatcher t])).
    { right. right. left. eexists. in_events. }
    split.
    + apply taker_Inv_snoc; [done|by apply Hatt; left|rewrite Hcmd; simpl in *; lia
                      |apply taker_stage_ok_start; simpl; lia|by intros|by intros|by intros|done].
    + constructor; try done.
      * by apply (taker_Rel_apply s _ 0 (TakerPaymentRefundedByWatcher t)).
      * by rewrite taker_cmd_of_snoc.
      * apply taker_stage_ok_start. simpl. lia.
      * intros _. eexists. split; [by apply taker_in_snoc|done].
Qed.

Lemma load_runs pub now mc tc saved h tr s cmd :
  Inv h (map event (sv_events saved)) ->
  runs (load_from_saved pub now mc tc saved) tr (Ok (s, Some cmd)) ->
  Inv (h ++ tr) (map event (sv_events saved) ++ saved_of tr) /\
  Live (h ++ tr) (map event (sv_events saved) ++ saved_of tr) s cmd /\ writes_ok tr.
Proof.
  intros HI Hr. unfold load_from_saved in Hr.
  destruct (restore pub now mc tc saved) as [[s0 [c0|]]|e] eqn:Hrest; run_all Hr.
  - apply restore_facts with (h := h) in Hrest as [HL Hcmd]; [|done].
    destruct a as [[s1 c1]|]; cbn in Ha; simplify_eq. rewrite app_nil_r.
    assert (Safe (h ++ t)) as Hs.
    { eapply (guarded_safe _ (get_command_based_on_maker_or_watcher_activity s0 c0)); [|apply (inv_safe _ _ HI)|by eapply runs_traces].
      eapply only_guarded; [apply taker_harmless_good|apply restart_only]. }
    apply restart_runs in Hp as [Hd Hw]. destruct (Inv_disc (h ++ t) (map event (sv_events saved))
      s0 t c0 (saved_of t) s1 c1) as [HI' HL']; [by apply taker_Inv_grow|by apply Live_grow|done|done
      |set_solver| |done].
    intros e He. apply attempted_app. right. by apply saved_of_attempted.
  - apply restore_facts with (h := h) in Hrest as [HL Hcmd]; [|done].
    rewrite app_nil_r. unfold saved_of. simpl. rewrite app_nil_r. split; [done|split; [done|constructor]].
Qed.

Lemma load_traces pub now mc tc saved h tr p :
  Inv h (map event (sv_events saved)) ->
  traces (load_from_saved pub now mc tc saved) tr -> persisted tr p ->
  Inv (h ++ tr) (map event (sv_events saved) ++ p).
Proof.
  intros HI Ht Hp. unfold load_from_saved in Ht.
  assert (Hnil : tr = [] -> Inv (h ++ tr) (map event (sv_events saved) ++ p)).
  { intros ->. apply persisted_nil in Hp as ->. by rewrite !app_nil_r. }
  destruct (restore pub now mc tc saved) as [[s0 [c0|]]|e] eqn:Hrest; [|by apply Hnil..].
  apply restore_facts with (h := h) in Hrest as [HL Hcmd]; [|done].
  case_match; [|by apply Hnil].
  assert (traces (get_command_based_on_maker_or_watcher_activity s0 c0) tr) as Ht'.
  { apply traces_bind in Ht as [Ht|(a & t1 & t2 & -> & Hr & ->)]; [done|].
    rewrite app_nil_r. by eapply runs_traces. }
  assert (Safe (h ++ tr)) as Hs.
  { eapply guarded_safe; [|apply (inv_safe _ _ HI)|done].
    eapply only_guarded; [apply taker_harmless_good|apply restart_only]. }
  destruct (save_last_traces _ _ (restart_save_last s0 c0) Ht') as [Hn|(t1 & c & x & -> & Hn)].
  { apply persisted_not_save in Hp as ->; [|done]. rewrite app_nil_r. by apply taker_Inv_grow. }
  apply persisted_cut in Hp as [Hp Hatt]; [|done|constructor].
  destruct Hp as [->|Hp]; [rewrite app_nil_r; by apply taker_Inv_grow|].
  pose proof (guarded_safe _ _ _ _ (restart_guarded s0 c0 []) (safe_nil _) Ht') as Hg.
  specialize (Hg t1 (existT c x) [] eq_refl). simpl in Hg. subst p.
  destruct c; simpl in *; try (rewrite app_nil_r; by apply taker_Inv_grow); [done|].
  destruct Hg as (s' & cmd' & Hd). eapply Inv_disc; [by apply taker_Inv_grow|by apply Live_grow|done|done|set_solver|].
  intros e He. apply attempted_app. right. by apply Hatt.
Qed.

Lemma new_Live s : is_new s -> Live [] [] s Start.
Proof.
  intros Hn. constructor; [by apply taker_Rel_new|simpl; lia|apply taker_stage_ok_start; simpl; lia|by intros..| |by intros].
  simpl. lia.
Qed.

Lemma taker_history_Inv h evs : history h evs -> Inv h evs.
Proof.
  induction 1 as [s tr evs Hnew Ht Hp|h evs pub now mc tc saved tr evs' Hh IH Hev Ht Hp].
  - change (Inv ([] ++ tr) ([] ++ evs)). eapply loop_traces; [apply taker_Inv_nil|by apply new_Live|done|done].
  - subst evs. unfold run_kick_start in Ht.
    apply traces_bind in Ht as [Ht|(r & t1 & t2 & -> & Hr & Ht)]; [by eapply load_traces|].
    destruct r as [[s [cmd|]]|e].
    + destruct (load_runs _ _ _ _ _ _ _ _ _ IH Hr) as (HI & HL & Hw).
      apply persisted_writes_ok in Hp as (p & -> & Hp); [|done]. rewrite !app_assoc.
      apply traces_bind in Ht as [Ht|(s' & t3 & t4 & -> & Hl & ->)].
      * by eapply loop_traces.
      * rewrite app_nil_r in *. eapply loop_traces; [done|done|by eapply runs_traces|done].
    + simpl in Ht. subst t2. rewrite app_nil_r in *. eapply load_traces; [done|by eapply runs_traces|done].
    + simpl in Ht. subst t2. rewrite app_nil_r in *. eapply load_traces; [done|by eapply runs_traces|done].
Qed.

(** A session that runs to its end saves events up to [Finished]. *)
Lemma loop_runs rounds cmd s h evs tr s' :
  Inv h evs -> Live h evs s cmd -> runs (swap_loop fuel rounds cmd s) tr s' ->
  Inv (h ++ tr) (evs ++ saved_of tr) /\ Rel s' (evs ++ saved_of tr) /\
  last (evs ++ saved_of tr) = Some Finished.
Proof.
  revert cmd s h evs tr; induction rounds as [|n IH]; intros cmd s h evs tr HI HL Hr; [done|].
  cbn [swap_loop] in Hr. apply runs_bind in Hr as ([s1 [next events]] & t1 & t2 & -> & Hh & Hr).
  apply runs_bind in Hr as (s2 & t2' & t3 & -> & Hpe & Hr).
  destruct (round _ _ _ _ _ _ _ _ _ _ HI HL Hh Hpe) as (HI2 & Hstep & HR2 & HL2).
  assert (saved_of t1 = []) as Ht1.
  { apply not_save_saved_of. by eapply only_runs; [apply taker_handle_not_save|]. }
  assert (saved_of t2' = events) as Ht2.
  { apply taker_process_events_runs in Hpe as (_ & _ & Hper & _).
    destruct (Hper [] (saved_of (t2' ++ []))) as (p & Hp & ->%persisted_nil); [by left|].
    by rewrite !app_nil_r in Hp. }
  rewrite !saved_of_app, Ht1, Ht2, !app_assoc, app_nil_r. destruct next as [c|].
  - eapply IH; [done|by apply HL2|done].
  - assert (Forall (fun o => quiet (obs_call o)) t3) as Hq.
    { eapply only_runs; [|done]. repeat split. }
    rewrite (not_save_saved_of t3), app_nil_r;
      [|eapply Forall_impl; [done|]; intros; by apply taker_quiet_not_save].
    split; [|split].
    + apply taker_Inv_grow; [done|]. apply safe_app_forall; [apply (inv_safe _ _ HI2)|].
      intros h'. eapply Forall_impl; [done|]. intros o Ho. by apply quiet_good.
    + run_all Hr.
    + inversion Hstep; subst. by rewrite last_snoc.
Qed.

(** A session about to execute its first command. *)
Inductive session : list Obs -> list TakerSwapEvent -> TakerSwap -> TakerSwapCommand -> Prop :=
| session_new s : is_new s -> session [] [] s Start
| session_restart h pub now mc tc saved tr s cmd :
    history h (map event (sv_events saved)) ->
    runs (load_from_saved pub now mc tc saved) tr (Ok (s, Some cmd)) ->
    session (h ++ tr) (map event (sv_events saved) ++ saved_of tr) s cmd.

Lemma taker_session_Inv h evs s cmd : session h evs s cmd -> Inv h evs /\ Live h evs s cmd.
Proof.
  destruct 1 as [s Hnew|h pub now mc tc saved tr s cmd Hh Hr].
  - split; [apply taker_Inv_nil|by apply new_Live].
  - apply taker_history_Inv in Hh. by destruct (load_runs _ _ _ _ _ _ _ _ _ Hh Hr) as (? & ? & _).
Qed.

End Safety.
