(* ===== verification/TakerSwapEnds.v ===== *)
(** * The taker's swap comes to an end

    The counterpart of MakerSwapEnds.v: in a [fair] environment every session
    returns, provided it does not start by validating a maker payment that the
    swap does not have ([ready]). *)

From S2P Require Import Prelude MmNumber DexFee Effects Swap SwapEnv TakerSwap TakerSwapProps TakerSwapSafety.

Open Scope Z_scope.

Section Ends.
  Context `{SecretHasher} `{DecimalConv}.
  Variable fuel : nat.
  Variable N : nat.

Notation fair := (fair N).
Notation enough_fuel := (enough_fuel fuel 0 N).

(** The one command a restored swap may lack the data for. *)
Definition ready (s : TakerSwap) (cmd : TakerSwapCommand) : Prop :=
  cmd = ValidateMakerPayment -> is_Some (maker_payment (mutable s)).

Lemma taker_check_balance_returns h a b v u p st :
  returns fair h (check_balance_for_taker_swap a b v u (Some p) st).
Proof.
  unfold check_balance_for_taker_swap, check_my_coin_balance_for_swap,
    check_other_coin_balance_for_swap, check_platform_coin_balance_for_swap, read_locked.
  walk_returns idtac.
Qed.

Lemma taker_start_returns h s : returns fair h (start s).
Proof. unfold start, fee_to_send. walk_returns idtac; try done; apply taker_check_balance_returns. Qed.

Lemma process_watcher_logic_returns h s t :
  is_Some (taker_fee (mutable s)) -> is_Some (maker_payment (mutable s)) ->
  returns fair h (process_watcher_logic s t).
Proof.
  intros [f Hf] [p Hp]. unfold process_watcher_logic, watchers_enabled_and_supported, create_watcher_data.
  rewrite Hf, Hp. cbn [unwrap]. walk_returns idtac.
Qed.

Lemma rebroadcast_returns h s p :
  is_Some (taker_fee (mutable s)) -> is_Some (maker_payment (mutable s)) ->
  returns fair h (rebroadcast_watcher_message s p).
Proof.
  intros [f Hf] [q Hq].
  unfold rebroadcast_watcher_message, watchers_enabled_and_supported, create_watcher_data.
  rewrite Hf, Hq. cbn [unwrap]. walk_returns idtac.
Qed.

Lemma taker_handle_returns h cmd s evs :
  enough_fuel -> ready s cmd -> Rel s evs -> stage_ok evs (Some cmd) ->
  returns fair h (handle_command fuel cmd s).
Proof.
  intros (HL & HfL & HfN) Hready [R1 R2 R3 R4] [S1 S2 S3 S4]. simpl in *.
  rewrite <- R1, <- R2, <- R3, <- R4 in *. clear R1 R2 R3 R4.
  destruct cmd; cbn [handle_command]; [apply taker_start_returns|..|done];
    unfold reading; apply returns_bind; try done; try (by intros).
  - unfold negotiate. walk_returns ltac:(unfold NEGOTIATE_TIMEOUT_SEC; lia).
  - unfold handle_send_taker_fee. walk_returns idtac.
  - unfold wait_for_maker_payment, get_taker_fee_data.
    destruct S1 as [f ->]; [lia|]. cbn [unwrap].
    walk_returns ltac:(unfold MAKER_PAYMENT_WAIT_TIMEOUT_SEC; lia).
  - unfold handle_validate_maker_payment. destruct Hready as [t ->]; [done|]. cbn [unwrap].
    walk_returns idtac.
  - unfold handle_send_taker_payment, setup_watcher_reward, taker_payment_sent.
    walk_returns idtac; apply process_watcher_logic_returns; auto with lia.
  - unfold wait_for_taker_payment_spend. destruct S3 as [t ->]; [lia|]. cbn [unwrap].
    walk_returns idtac. apply rebroadcast_returns; auto with lia.
  - unfold spend_maker_payment. destruct S2 as [t ->]; [lia|]. cbn [unwrap]. walk_returns idtac.
  - unfold confirm_maker_payment_spend. destruct S4 as [t ->]; [lia|]. cbn [unwrap]. walk_returns idtac.
  - unfold prepare_for_taker_payment_refund. destruct S2 as [t ->]; [lia|]. cbn [unwrap].
    walk_returns idtac.
  - unfold refund_taker_payment. destruct S3 as [t ->]; [lia|]. cbn [unwrap].
    walk_returns ltac:(lia).
  - unfold finalize_taker_payment_refund. destruct S2 as [t ->]; [lia|]. cbn [unwrap].
    walk_returns idtac.
Qed.

Lemma taker_process_events_returns h es s : returns fair h (process_events es s).
Proof.
  revert h s; induction es as [|e es IH]; intros h s; cbn [process_events]; [done|].
  apply returns_bind; [|by intros; apply IH]. unfold process_event.
  apply returns_bind; [unfold announce_event; walk_returns idtac|]. intros tr t _ _. cbn [prog_bind].
  intros r Hr. cbn [fair] in Hr. destruct r; [|done]. by intros [] _.
Qed.

(** Live commands are always ready. *)
Lemma step_ready s tr cmd c events s' evs :
  step s tr cmd (Some c) events -> Rel s' (evs ++ events) -> ready s' c.
Proof.
  intros Hstep HR Hc. rewrite (rel_received _ _ HR). inversion Hstep; subst; try done.
  change (is_Some (received (evs ++ [TakerPaymentInstructionsReceived i] ++
    [MakerPaymentReceived t] ++ [MakerPaymentWaitConfirmStarted]))).
  rewrite !app_assoc, !taker_last_of_snoc. by eexists.
Qed.

Lemma taker_swap_loop_returns rounds hf h cmd s evs :
  enough_fuel -> (13 <= rounds + rank (Some cmd))%nat -> ready s cmd ->
  Inv h evs -> Live h evs s cmd -> returns fair hf (swap_loop fuel rounds cmd s).
Proof.
  intros Hf. revert hf h cmd s evs.
  induction rounds as [|n IH]; intros hf h cmd s evs Hn Hready HI HL.
  { destruct cmd; simpl in Hn; lia. }
  cbn [swap_loop]. apply returns_bind.
  { eapply taker_handle_returns; [done|done|apply (live_rel _ _ _ _ HL)|apply (live_stage _ _ _ _ HL)]. }
  intros t1 [s1 [next events]] Hr _. apply returns_bind; [apply taker_process_events_returns|].
  intros t2 s2 Hpe _.
  destruct (round _ _ _ _ _ _ _ _ _ _ _ HI HL Hr Hpe) as (HI2 & Hstep & HR2 & HL2).
  destruct next as [c|]; [|by walk_returns idtac].
  eapply IH; [|by eapply step_ready|done|by apply HL2].
  apply taker_step_rank in Hstep. lia.
Qed.

End Ends.
