(* ===== verification/TakerTheorems.v ===== *)
(** * What is proved of the taker's swap

    The properties of TakerSwap.v, over every behaviour of the coins, the
    network, the clock, the maker, the watchers and the database, and every way
    the node can be stopped and restarted; and runs in a concrete environment. *)

From S2P Require Import Prelude MmNumber DexFee Effects Swap SwapEnv Demo TakerSwap TakerSwapProps TakerSwapSafety TakerSwapEnds.

Open Scope Z_scope.

(** ** A concrete swap *)

Module TakerDemo.

#[export] Existing Instance demo_hasher.
#[export] Existing Instance exact_decimal.

Definition base : Coin := demo_coin "KMD".
Definition rel : Coin := demo_coin "LTC".

Definition taker : TakerSwap :=
  TakerSwap_new (replicate 32 4) (10 # 1) (20 # 1) (replicate 33 7) (replicate 16 1) None
    demo_conf base rel 7800 None.

(** The clock shows what it must after the sleeps of the loops. *)
Definition oracle (h : list Obs) (c : Call TakerSwapEvent) : answer c :=
  match c return answer c with
  | now_sec => Z.max 1000000 (clock_floor h)
  | c => happy 1000000 c
  end.


Definition run := exec oracle [] (run_new_swap 5 taker).

Lemma taker_run_traces : traces (run_new_swap 5 taker) run.2.
Proof. apply exec_traces. Qed.

Lemma taker_is_new : is_new taker.
Proof. by repeat eexists. Qed.

Definition count_calls (f : Call TakerSwapEvent -> bool) (h : list Obs) : nat :=
  length (List.filter (fun o => f (obs_call o)) h).

Definition saved_with (evs : list TakerSwapEvent) : TakerSavedSwap :=
  mkSavedSwap (uuid taker) None (map (mkSavedEvent 0) evs) (Some (10 # 1)) (Some "KMD"%string)
    (Some (20 # 1)) (Some "LTC"%string) TAKER_SUCCESS_EVENTS TAKER_ERROR_EVENTS.

(** The first session stops when the taker payment is out but not yet saved;
    the second one restores the swap from the database. *)
Definition first_session : list Obs := take 60 run.2.
Definition saved : TakerSavedSwap := saved_with (saved_of first_session).

Definition oracle_sent (h : list Obs) (c : Call TakerSwapEvent) : answer c :=
  match c return answer c with
  | Swap.check_if_my_payment_sent _ _ => Ok (Some (demo_tx 3))
  | c => happy 1000000 c
  end.

Definition second_session : list Obs :=
  (exec oracle_sent [] (run_kick_start 5 (replicate 33 7) 1000000 base rel saved)).2.

Lemma cut_history n : history 5 (take n run.2) (saved_of (take n run.2)).
Proof.
  apply (history_new 5 taker); [apply taker_is_new| |by left].
  apply (traces_prefix _ _ (drop n run.2)). rewrite take_drop. apply taker_run_traces.
Qed.

Lemma taker_demo_history : history 5 (first_session ++ second_session)
  (saved_of first_session ++ saved_of second_session).
Proof.
  eapply (history_restart 5 _ _ (replicate 33 7) 1000000 base rel saved);
    [apply cut_history|by vm_compute|apply exec_traces|by left].
Qed.

Lemma taker_new_session fuel : session fuel [] [] taker Start.
Proof. apply session_new, taker_is_new. Qed.

End TakerDemo.

Section Properties.
  Context `{SecretHasher} `{DecimalConv}.

(** C2: whatever the coins, the network, the clock, the maker, the watchers and
    the database do, and however often the node is stopped and the swap
    restored: before the taker pays the dex fee the negotiation has been saved;
    before it sends its payment, the maker payment it has saved was confirmed
    and validated, and the last look for an earlier payment of the same HTLC
    found none with no payment sent since; the maker payment is spent only with a
    secret extracted from a transaction that spends the taker payment; and only
    a payment that was sent is refunded, once the coin said that its lock time
    has passed. *)
Theorem taker_money_safety fuel h evs :
  history fuel h evs -> safe good_call h.
Proof. intros HI%taker_history_Inv. apply (inv_safe _ _ HI). Qed.

(** C4: in a fair environment (the clock advances by what the loops sleep, the
    database saves, the refund becomes possible after finitely many queries)
    every session of the taker, new or restored, returns within thirteen
    commands, if it does not start by validating a maker payment it lacks. *)
Theorem taker_session_ends fuel N h evs s cmd :
  session fuel h evs s cmd -> ready s cmd -> enough_fuel fuel 0 N ->
  returns (fair N) [] (swap_loop fuel MAX_ROUNDS cmd s).
Proof.
  intros [HI HL]%taker_session_Inv Hready Hf.
  eapply taker_swap_loop_returns; [done| |done..]. unfold MAX_ROUNDS. lia.
Qed.


(** Every handler refines the abstract taker machine [step]: for every
    command, whatever is answered, the next command and the events are those
    of a rule of the machine, the calls made carry the evidence the rule asks
    for, and the swap itself is changed at most in the watcher reward flag. *)
Theorem taker_handler_refines fuel cmd s tr s' next evs :
  runs (handle_command fuel cmd s) tr (s', (next, evs)) ->
  step s tr cmd next evs /\ (s' = s \/ exists b, s' = upd (set_watcher_reward b) s).
Proof. apply taker_handle_refines. Qed.

(** The last event of a handler restores the command the live swap executes
    next, with two exceptions: a failed spend of the maker payment, and a secret
    that could not be extracted, finish a live swap but send a restored one to
    the refund of the taker payment.  In every case the commands move forward. *)
Theorem taker_restart_command fuel cmd s tr s' next evs :
  runs (handle_command fuel cmd s) tr (s', (next, evs)) ->
  (rank (Some cmd) < rank next)%nat /\
  exists e, last evs = Some e /\
    (get_command e = next \/
     (next = Some Finish /\ get_command e = Some PrepareForTakerPaymentRefund /\
      ((exists x, e = MakerPaymentSpendFailed x) \/
       (exists x, e = TakerPaymentWaitForSpendFailed x)))).
Proof.
  intros [Hstep _]%taker_handle_refines. split; [apply taker_step_rank in Hstep; lia|].
  inversion Hstep; subst; (eexists; split; [done|]); try (by left); right; eauto 10.
Qed.

(** What a restart adds to the restored swap is exactly what the chains
    show ([disc]): the spend of the taker payment with the secret extracted from
    it, a spend of the maker payment by a watcher, or a refund by a watcher; and
    what it writes to the database are the events of that discovery. *)
Theorem taker_restart_discovers s cmd tr s' cmd' :
  runs (get_command_based_on_maker_or_watcher_activity s cmd) tr (Ok (s', cmd')) ->
  disc s tr cmd (saved_of tr) s' cmd' /\ writes_ok tr.
Proof. apply restart_runs. Qed.

Lemma restore_Rel pub now mc tc saved s cmd :
  restore pub now mc tc saved = Ok (s, cmd) -> Rel s (map event (sv_events saved)).
Proof.
  unfold restore. destruct (sv_events saved) as [|first rest]; [done|].
  destruct (event first) eqn:Hf; try done. intros [= <- _]. simpl. rewrite Hf.
  by apply (taker_Rel_replay now (map event rest) _ [Started d]).
Qed.

(** A node stopped after [TakerPaymentInstructionsReceived] has been saved
    and before [MakerPaymentReceived] is cannot continue the swap: the restored
    swap is sent to the validation of the maker payment, which panics because
    it has none.  No run of the kick start returns. *)
Theorem taker_restart_panics fuel pub now mc tc saved d evs i tr r :
  map event (sv_events saved) = Started d :: evs ++ [TakerPaymentInstructionsReceived i] ->
  received evs = None ->
  ~ runs (run_kick_start fuel pub now mc tc saved) tr r.
Proof.
  intros Hev Hrec Hr. unfold run_kick_start in Hr.
  apply runs_bind in Hr as (a & t1 & t2 & -> & Hl & Hr).
  destruct (restore pub now mc tc saved) as [[s0 c0]|e] eqn:Hrest.
  2: { unfold restore in Hrest. destruct (sv_events saved) as [|first rest]; [done|].
       injection Hev as Hf _. by rewrite Hf in Hrest. }
  assert (c0 = Some ValidateMakerPayment) as ->.
  { unfold restore in Hrest. destruct (sv_events saved) as [|first rest]; [done|].
    injection Hev as Hf Hrest'. rewrite Hf in Hrest. injection Hrest as _ <-.
    by rewrite Hrest', app_comm_cons, last_snoc. }
  assert (maker_payment (mutable s0) = None) as Hnone.
  { rewrite (rel_received _ _ (restore_Rel _ _ _ _ _ _ _ Hrest)), Hev, app_comm_cons, taker_last_of_snoc.
    simpl. unfold last_of. simpl. exact Hrec. }
  assert (a = Ok (s0, Some ValidateMakerPayment)) as ->.
  { unfold load_from_saved in Hl. rewrite Hrest in Hl. destruct (_ && watcher_message_sent saved); [|by destruct Hl as [_ ->]].
    apply runs_bind in Hl as (x & t3 & t4 & _ & Hg & Hl).
    unfold get_command_based_on_maker_or_watcher_activity in Hg. run_all Hg; by run_all Hl. }
  apply runs_bind in Hr as (s1 & t3 & t4 & _ & Hr & _).
  unfold MAX_ROUNDS in Hr. cbn [swap_loop handle_command] in Hr. unfold reading in Hr.
  unfold handle_validate_maker_payment in Hr. rewrite Hnone in Hr. done.
Qed.

(** Whatever happened to the swap, when [is_success] of its saved events is
    true, the spend of the maker payment was confirmed. *)
Theorem taker_success_means_paid fuel h saved :
  history fuel h (map event (sv_events saved)) ->
  saved_is_success saved = Ok true ->
  MakerPaymentSpendConfirmed ∈ map event (sv_events saved) /\
  attempted MakerPaymentSpendConfirmed h.
Proof.
  intros HI%taker_history_Inv Hs. unfold saved_is_success in Hs.
  destruct (is_finished saved) eqn:Hfin; [|done]. injection Hs as Hs.
  apply negb_true_iff in Hs. unfold is_finished in Hfin.
  destruct (last (sv_events saved)) as [e|] eqn:Hl; [|done].
  destruct (event e) eqn:He; try done.
  assert (Finished ∈ map event (sv_events saved)) as Hf.
  { apply last_Some_elem_of in Hl. apply (list_elem_of_fmap_2 event) in Hl. by rewrite He in Hl. }
  apply (inv_finished _ _ HI) in Hf as (e' & Hin & Hc).
  assert (is_error e' = false) as Herr.
  { apply list_elem_of_fmap in Hin as (x & -> & Hx).
    destruct (is_error (event x)) eqn:E; [|done]. rewrite <- Hs. symmetry.
    apply existsb_exists. exists x. split; [by apply list_elem_of_In|done]. }
  assert (e' = MakerPaymentSpendConfirmed) as -> by by destruct e'.
  split; [done|]. by apply (inv_attempted _ _ HI).
Qed.

(** The lists of event names a saved swap shows to the outside split the
    events as [is_success] and [is_error] do; without watchers the list lacks
    exactly the two events that only watchers cause. *)
Theorem taker_event_lists e :
  (event_name e ∈ TAKER_USING_WATCHERS_SUCCESS_EVENTS <-> is_success e = true) /\
  (event_name e ∈ TAKER_ERROR_EVENTS <-> is_error e = true) /\
  (event_name e ∈ TAKER_SUCCESS_EVENTS <->
   is_success e = true /\ (forall a b, e <> WatcherMessageSent a b) /\
   (forall t, e <> MakerPaymentSpentByWatcher t)).
Proof.
  unfold TAKER_USING_WATCHERS_SUCCESS_EVENTS, TAKER_ERROR_EVENTS, TAKER_SUCCESS_EVENTS.
  destruct e; simpl; repeat split; intros;
    repeat match goal with Hx : _ /\ _ |- _ => destruct Hx end;
    try done; try (exfalso; set_solver); try set_solver.
  all: exfalso; naive_solver.
Qed.

(** ** Recovering funds *)

(** What must have been seen before recovering moves money. *)
Definition recover_call (s : TakerSwap) (h : list Obs) (c : Call TakerSwapEvent) : Prop :=
  match c with
  | send_taker_refunds_payment a =>
      (exists q, got (search_for_swap_tx_spend_my TakerSide q) (Ok None) ∈ h /\
                 se_tx q = rf_payment_tx a) /\
      got (can_refund_htlc TakerSide (rf_time_lock a)) (Ok CanRefundNow) ∈ h /\
      taker_payment_refund (mutable s) = None
  | send_taker_spends_maker_payment a =>
      (exists q, got (search_for_swap_tx_spend_other MakerSide q) (Ok None) ∈ h /\
                 se_tx q = spend_other_payment_tx a) /\
      ((is_Some (taker_payment_spend (mutable s)) /\ spend_secret a = secret (mutable s)) \/
       secret_seen h (spend_secret a))
  | send_taker_fee _ _ _ | send_taker_payment _ | save_event _ _ | save_swap _ => False
  | _ => True
  end.

Ltac in_hist :=
  solve [repeat first [apply elem_of_app; right; by left | apply elem_of_app; left]].

Lemma recover_spend_guarded s h p x q :
  got (search_for_swap_tx_spend_other MakerSide q) (Ok None) ∈ h -> se_tx q = ti_tx_hex p ->
  ((is_Some (taker_payment_spend (mutable s)) /\ x = secret (mutable s)) \/ secret_seen h x) ->
  guarded (recover_call s) h (recover_spend s p x).
Proof.
  intros Hq Hp Hx. unfold recover_spend, recover_err. split.
  - cbn [recover_call]. split; [by exists q|done].
  - intros [t|e]; cbn [prog_bind]; [done|]. apply guarded_bind; [|done].
    eapply only_guarded; [|apply broadcast_recovered_only]. by intros ? [].
Qed.

Lemma taker_recover_with_payment_guarded s h p t :
  taker_payment_refund (mutable s) = None ->
  guarded (recover_call s) h (recover_with_payment s p t).
Proof.
  intros Hrefund. unfold recover_with_payment, check_maker_payment_is_not_spent, recover_err.
  destruct (taker_payment_spend (mutable s)) as [ts|] eqn:Hs.
  - cbn [prog_bind call]. split; [done|]. intros [[[]|]|]; cbn [prog_bind]; try done.
    eapply recover_spend_guarded; [in_hist|done|]. left. rewrite Hs. by split.
  - split; [done|]. intros [[[tx|tx]|]|e]; cbn [prog_bind]; try done.
    + cbn [prog_bind call]. split; [done|]. intros [[[]|]|]; cbn [prog_bind]; try done.
      split; [done|]. intros [x|e]; cbn [prog_bind]; [|done].
      eapply recover_spend_guarded; [in_hist|done|]. right.
      eexists _, _. split; [in_hist|]. right. eexists. in_hist.
    + unfold recover_refund, recover_err. destruct (is_auto_refundable _); [done|]. split; [done|].
      intros [[|n]|e]; cbn [prog_bind]; [|by split; [|intros]|done]. split.
      * cbn [recover_call]. split; [|split; [in_hist|done]]. eexists. split; [in_hist|done].
      * intros [x|e]; cbn [prog_bind]; [done|]. apply guarded_bind; [|done].
        eapply only_guarded; [|apply broadcast_recovered_only]. by intros ? [].
Qed.

Lemma taker_recover_guarded s : guarded (recover_call s) [] (recover_funds s).
Proof.
  unfold recover_funds, recover_err. destruct (finished_at s =? 0); [done|].
  destruct (taker_payment_refund (mutable s)) eqn:Hr; [done|].
  destruct (_ && _)%bool; [done|]. destruct (maker_payment (mutable s)); [|done].
  destruct (taker_payment (mutable s)); [by apply taker_recover_with_payment_guarded|].
  split; [done|]. intros [[tx|]|e]; cbn [prog_bind]; try done.
  by apply taker_recover_with_payment_guarded.
Qed.

(** Recovering the funds of a taker swap never pays twice.  The maker
    payment is spent only after a search found it unspent, with a secret that is
    recorded or extracted from a found spend of the taker payment; the taker
    payment is refunded only after a search found it unspent and the coin allowed
    the refund, and never when a refund is recorded.  A swap that is not finished,
    or whose spend is confirmed, touches nothing. *)
Theorem taker_recover_safe s tr :
  traces (recover_funds s) tr ->
  safe (recover_call s) tr /\
  (finished_at s = 0 \/
   (is_Some (maker_payment_spend (mutable s)) /\ maker_payment_spend_confirmed (mutable s) = true) ->
   tr = []).
Proof.
  intros Ht. split.
  - change tr with ([] ++ tr). eapply guarded_safe; [apply taker_recover_guarded|apply safe_nil|done].
  - unfold recover_funds in Ht. intros [Hf|[[x Hx] Hc]]; [by rewrite Hf in Ht|].
    rewrite Hx, Hc in Ht. destruct (finished_at s =? 0); [done|].
    by destruct (taker_payment_refund (mutable s)).
Qed.

(** ** The maximum volume *)

Section Volume.
  Local Open Scope Q_scope.

Definition volume_cost (coin : FeeCoin) (rel : string) (v : Q) : Q :=
  v + total_spend_amount (new_from_taker_coin coin rel v).

Lemma volume_cost_spec coin rel v :
  0 <= fc_min_tx_amount coin ->
  volume_cost coin rel v ==
  v + Qmax (v * dex_fee_rate (fc_ticker coin) rel) (fc_min_tx_amount coin).
Proof.
  intros Hmin. unfold volume_cost.
  destruct (new_from_taker_coin_spec coin rel v Hmin) as (-> & _). reflexivity.
Qed.

Lemma volume_cost_mono coin rel v w :
  0 <= fc_min_tx_amount coin -> v < w -> volume_cost coin rel v < volume_cost coin rel w.
Proof.
  intros Hmin Hvw. unfold volume_cost. apply Qplus_lt_le_compat; [done|].
  apply total_spend_mono; [done|]. by apply Qlt_le_weak.
Qed.

Lemma vol_arith (min rate available : Q) :
  0 < min -> rate == 1 # 100 \/ rate == 2 # 100 ->
  let v := if negb (Qle_bool available (min * (((1 # 1) + rate) / rate)))
           then available / ((1 # 1) + rate) else available - min in
  v + Qmax (v * rate) min == available.
Proof.
  intros Hmin Hrate. simpl. destruct (negb _) eqn:Hc; qbool.
  - assert (available / ((1 # 1) + rate) * ((1 # 1) + rate) == available) as Hd.
    { field. destruct Hrate as [-> | ->]; discriminate. }
    set (v := available / ((1 # 1) + rate)) in *. clearbody v.
    rewrite qmax_left; [lra|]. destruct Hrate as [Hr|Hr]; rewrite Hr in Hc, Hd |- *.
    + assert (((1 # 1) + (1 # 100)) / (1 # 100) == 101 # 1) as He by reflexivity. rewrite He in Hc. lra.
    + assert (((1 # 1) + (2 # 100)) / (2 # 100) == 51 # 1) as He by reflexivity. rewrite He in Hc. lra.
  - rewrite qmax_right; [lra|]. destruct Hrate as [Hr|Hr]; rewrite Hr in Hc |- *.
    + assert (((1 # 1) + (1 # 100)) / (1 # 100) == 101 # 1) as He by reflexivity. rewrite He in Hc. lra.
    + assert (((1 # 1) + (2 # 100)) / (2 # 100) == 51 # 1) as He by reflexivity. rewrite He in Hc. lra.
Qed.

(** The candidate of [max_taker_vol_from_available] uses up what is available. *)
Lemma max_vol_cost coin rel available :
  0 < fc_min_tx_amount coin ->
  let min := fc_min_tx_amount coin in
  let rate := dex_fee_rate (fc_ticker coin) rel in
  volume_cost coin rel
    (if (available >? min * (((1 # 1) + rate) / rate))%num
     then available / ((1 # 1) + rate) else available - min) == available.
Proof.
  intros Hmin min rate. rewrite volume_cost_spec by (apply Qlt_le_weak; done).
  apply vol_arith; [done|]. unfold rate.
  destruct (dex_fee_rate_values (fc_ticker coin) rel) as [-> | ->]; [left|right]; reflexivity.
Qed.

End Volume.

(** The maximum volume is exact: trading it costs, with the dex fee, all
    that is available, so no larger volume can be paid; and when there is no
    result, every volume that can be paid is dust. *)
Theorem max_taker_vol_exact (coin : FeeCoin) (rel : string) (available : MmNumber) :
  (0 < fc_min_tx_amount coin)%Q ->
  match max_taker_vol_from_available available (fc_ticker coin) rel (fc_min_tx_amount coin) with
  | Ok v =>
      (fc_min_tx_amount coin < v)%Q /\ (volume_cost coin rel v == available)%Q /\
      (forall w, volume_cost coin rel w <= available -> w <= v)%Q
  | Err _ => (forall w, volume_cost coin rel w <= available -> w <= fc_min_tx_amount coin)%Q
  end.
Proof.
  intros Hmin. pose proof (max_vol_cost coin rel available Hmin) as Hcost.
  unfold max_taker_vol_from_available. cbv zeta in *.
  set (v := if negb _ then _ else _) in *.
  assert (forall w, volume_cost coin rel w <= available -> w <= v)%Q as Hmax.
  { intros w Hw. destruct (Qlt_le_dec v w) as [Hvw|]; [|done]. exfalso.
    apply (volume_cost_mono coin rel) in Hvw; [|by apply Qlt_le_weak]. lra. }
  destruct (Qle_bool v (fc_min_tx_amount coin)) eqn:Hv; qbool.
  - intros w Hw. apply Hmax in Hw. lra.
  - done.
Qed.

End Properties.

(** ** Witnesses: the concrete swap *)

Section Witnesses.
  Import TakerDemo.

Definition is_send_call (c : Call TakerSwapEvent) : bool :=
  match c with send_taker_payment _ => true | _ => false end.
Definition is_spend_call (c : Call TakerSwapEvent) : bool :=
  match c with send_taker_spends_maker_payment _ => true | _ => false end.
Definition is_refund_call (c : Call TakerSwapEvent) : bool :=
  match c with send_taker_refunds_payment _ => true | _ => false end.

(** Stopped between sending and saving the taker payment, the restored swap
    finds the payment instead of sending it again. *)
Lemma taker_money_safety_witness :
  safe good_call (first_session ++ second_session) /\
  count_calls is_send_call (first_session ++ second_session) = 1%nat /\
  count_calls is_spend_call (first_session ++ second_session) = 1%nat.
Proof.
  split; [|by vm_compute].
  apply (taker_money_safety 5 _ (saved_of first_session ++ saved_of second_session)), taker_demo_history.
Defined.

Lemma taker_session_ends_witness :
  returns (fair 3) [] (swap_loop 1000 MAX_ROUNDS Start taker) /\
  exists s', runs (run_new_swap 5 taker) run.2 s'.
Proof.
  split.
  - apply (taker_session_ends 1000 3 [] []); [apply taker_new_session|done|].
    split; [lia|split; [by vm_compute|by apply Nat.ltb_lt; vm_compute]].
  - eexists. apply exec_fst. vm_compute. reflexivity.
Defined.


Lemma taker_handler_refines_witness :
  exists tr s' evs,
    runs (handle_command 5 Start taker) tr (s', (Some Negotiate, evs)) /\
    step taker tr Start (Some Negotiate) evs.
Proof.
  exists (exec oracle [] (handle_command 5 Start taker)).2.
  eassert (runs (handle_command 5 Start taker) _ (_, (Some Negotiate, _))) as Hr
    by (apply (exec_fst oracle _ []); vm_compute; reflexivity).
  eexists _, _. split; [exact Hr|].
  by apply (taker_handler_refines 5 Start taker _ _ _ _ Hr).
Defined.

(** A taker that lacks nothing, whose spend of the maker payment fails. *)
Definition spending : TakerSwap :=
  replay 0 [MakerPaymentReceived (mkTxIdent [6] [6])] taker.

Definition oracle_nospend (h : list Obs) (c : Call TakerSwapEvent) : answer c :=
  match c return answer c with
  | send_taker_spends_maker_payment _ => Err (Plain "no fee"%string)
  | c => happy 1000000 c
  end.

Lemma taker_restart_command_witness :
  exists tr s' e, runs (handle_command 5 SpendMakerPayment spending) tr (s', (Some Finish, [e])) /\
    get_command e = Some PrepareForTakerPaymentRefund /\
    (rank (Some SpendMakerPayment) < rank (Some Finish))%nat.
Proof.
  exists (exec oracle_nospend [] (handle_command 5 SpendMakerPayment spending)).2.
  eassert (runs (handle_command 5 SpendMakerPayment spending) _ (_, (Some Finish, [_]))) as Hr
    by (apply (exec_fst oracle_nospend _ []); vm_compute; reflexivity).
  eexists _, _. split; [exact Hr|]. split; [done|].
  apply (taker_restart_command 5 SpendMakerPayment spending _ _ _ _ Hr).
Defined.

(** A taker whose payment the maker spent, and whose maker payment a watcher
    spent, while the node was offline. *)
Definition waiting : TakerSwap :=
  replay 0 [MakerPaymentReceived (mkTxIdent [6] [6]); TakerPaymentSent (mkTxIdent [3] [3])] taker.

Definition oracle_offline (h : list Obs) (c : Call TakerSwapEvent) : answer c :=
  match c return answer c with
  | search_for_swap_tx_spend_my _ _ => Ok (Some (Spent (demo_tx 4)))
  | search_for_swap_tx_spend_other _ _ => Ok (Some (Spent (demo_tx 6)))
  | c => happy 1000000 c
  end.

Lemma taker_restart_discovers_witness :
  exists tr s', disc waiting tr WaitForTakerPaymentSpend
    [TakerPaymentSpent (mkSpentData (tx_ident (demo_tx 4)) (replicate 32 9));
     MakerPaymentSpentByWatcher (tx_ident (demo_tx 6))] s' ConfirmMakerPaymentSpend.
Proof.
  set (tr := (exec oracle_offline []
    (get_command_based_on_maker_or_watcher_activity waiting WaitForTakerPaymentSpend)).2).
  eassert (runs (get_command_based_on_maker_or_watcher_activity waiting WaitForTakerPaymentSpend) tr
    (Ok (_, ConfirmMakerPaymentSpend))) as Hr by (apply exec_fst; vm_compute; reflexivity).
  exists tr. eexists.
  destruct (taker_restart_discovers waiting WaitForTakerPaymentSpend tr _ _ Hr) as [Hd _].
  exact Hd.
Defined.

(** The demo swap, stopped right after the instructions were saved. *)
Lemma taker_restart_panics_witness :
  history 5 (take 42 run.2) (saved_of (take 42 run.2)) /\
  forall tr r, ~ runs (run_kick_start 5 (replicate 33 7) 1000000 base rel
                         (saved_with (saved_of (take 42 run.2)))) tr r.
Proof.
  split; [apply cut_history|]. intros tr r.
  eapply (taker_restart_panics 5 _ _ _ _ _ _ (take 2 (skipn 1 (saved_of (take 42 run.2)))));
    vm_compute; reflexivity.
Defined.

Lemma taker_success_means_paid_witness :
  let saved := saved_with (saved_of run.2) in
  saved_is_success saved = Ok true /\
  MakerPaymentSpendConfirmed ∈ map event (sv_events saved) /\
  attempted MakerPaymentSpendConfirmed run.2.
Proof.
  split; [by vm_compute|].
  apply (taker_success_means_paid 5 run.2); [|by vm_compute].
  apply (history_new 5 taker); [apply taker_is_new|apply taker_run_traces|].
  left. by vm_compute.
Defined.

(** A swap that failed to spend the maker payment: recovering finds the taker
    payment unspent and refunds it. *)
Definition stuck : TakerSwap := replay 1 [MakerPaymentSpendFailed (err_str "x"); Finished] waiting.

Lemma taker_recover_safe_witness :
  let tr := (exec oracle [] (recover_funds stuck)).2 in
  count_calls is_refund_call tr = 1%nat /\ safe (recover_call stuck) tr.
Proof.
  split; [by vm_compute|].
  apply (taker_recover_safe stuck (exec oracle [] (recover_funds stuck)).2), exec_traces.
Defined.

Lemma max_taker_vol_exact_witness :
  exists v, max_taker_vol_from_available (51 # 1) "KMD" "BTC" (1 # 1000) = Ok v /\ (v == 50 # 1)%Q /\
    (volume_cost (mkFeeCoin "KMD" (1 # 1000) false [2%Z] true true) "BTC" v == 51 # 1)%Q.
Proof.
  pose proof (max_taker_vol_exact (mkFeeCoin "KMD" (1 # 1000) false [2%Z] true true) "BTC" (51 # 1)
    eq_refl) as Hv.
  change (fc_ticker (mkFeeCoin "KMD" (1 # 1000) false [2%Z] true true)) with "KMD"%string in Hv.
  change (fc_min_tx_amount (mkFeeCoin "KMD" (1 # 1000) false [2%Z] true true)) with (1 # 1000)%Q in Hv.
  destruct (max_taker_vol_from_available (51 # 1) "KMD" "BTC" (1 # 1000)) as [v|e] eqn:Hm.
  - exists v. split; [done|]. split; [|apply Hv]. vm_compute in Hm. by injection Hm as <-.
  - vm_compute in Hm. discriminate Hm.
Defined.

End Witnesses.
