(* ===== verification/Negotiation.v ===== *)
(** * The two sides of a negotiation

    What the checks of the maker (maker_swap.rs, [negotiate]) and of the taker
    (taker_swap.rs, [negotiate]) give together: when each accepts what the
    other sends, both use the same hash locks, keys and lock times, and the
    lock times leave each side the time it needs. *)

From S2P Require Import Prelude MmNumber DexFee Effects Swap Demo.
From S2P Require MakerSwap TakerSwap.

Open Scope Z_scope.

Section Negotiation.
  Context `{SecretHasher} `{DecimalConv}.
  Variables (m0 : MakerSwap.MakerSwap) (t0 : TakerSwap.TakerSwap).
  Variables (maker_started taker_started : Z).
  Variables (maker_blocks taker_blocks : Z * Z) (mf1 mf2 tf1 tf2 tf3 : TradeFee).

(** The two swaps after their [Started] events. *)
Definition maker_started_swap : MakerSwap.MakerSwap :=
  MakerSwap.apply_event 0 (MakerSwap.Started (MakerSwap.started_data m0 maker_started mf1 mf2
    maker_blocks.1 maker_blocks.2)) m0.

Definition taker_started_swap : TakerSwap.TakerSwap :=
  TakerSwap.apply_event 0 (TakerSwap.Started (TakerSwap.started_data t0 taker_started tf1 tf2 tf3
    taker_blocks.1 taker_blocks.2)) t0.

Local Notation m := maker_started_swap.
Local Notation t := taker_started_swap.

(** The messages carry the keys the sender uses. *)
Lemma maker_message_keys :
  maker_coin_htlc_pub (MakerSwap.get_my_negotiation_data m) = MakerSwap.my_maker_coin_htlc_pub m /\
  taker_coin_htlc_pub (MakerSwap.get_my_negotiation_data m) = MakerSwap.my_taker_coin_htlc_pub m.
Proof.
  unfold MakerSwap.get_my_negotiation_data. destruct (_ && _) eqn:Hb; [|done].
  apply andb_true_iff in Hb as [He%bool_decide_eq_true_1 Hp%bool_decide_eq_true_1].
  unfold MakerSwap.my_maker_coin_htlc_pub, MakerSwap.my_taker_coin_htlc_pub.
  by rewrite <- He, Hp.
Qed.

Lemma taker_message_keys sh a b :
  maker_coin_htlc_pub (TakerSwap.get_my_negotiation_data t sh a b) =
    TakerSwap.my_maker_coin_htlc_pub t /\
  taker_coin_htlc_pub (TakerSwap.get_my_negotiation_data t sh a b) =
    TakerSwap.my_taker_coin_htlc_pub t.
Proof.
  unfold TakerSwap.get_my_negotiation_data. destruct (_ && _) eqn:Hb; [|done].
  apply andb_true_iff in Hb as [He%bool_decide_eq_true_1 Hp%bool_decide_eq_true_1].
  unfold TakerSwap.my_maker_coin_htlc_pub, TakerSwap.my_taker_coin_htlc_pub.
  by rewrite <- He, Hp.
Qed.

Lemma maker_message_times :
  started_at (MakerSwap.get_my_negotiation_data m) = maker_started /\
  payment_locktime (MakerSwap.get_my_negotiation_data m) =
    MakerSwap.d_maker_payment_lock (MakerSwap.swap_data m) /\
  secret_hash (MakerSwap.get_my_negotiation_data m) = MakerSwap.maker_secret_hash m.
Proof. unfold MakerSwap.get_my_negotiation_data. by destruct (_ && _). Qed.

Lemma taker_message_times sh a b :
  started_at (TakerSwap.get_my_negotiation_data t sh a b) = taker_started /\
  payment_locktime (TakerSwap.get_my_negotiation_data t sh a b) =
    TakerSwap.d_taker_payment_lock (TakerSwap.swap_data t) /\
  secret_hash (TakerSwap.get_my_negotiation_data t sh a b) = sh.
Proof. unfold TakerSwap.get_my_negotiation_data. by destruct (_ && _). Qed.

Lemma checked_add_some a b c : Some c = checked_add a b -> c = a + b /\ a + b < 2 ^ 64.
Proof. unfold checked_add. case_match; [|done]. intros [= ->]. lia. Qed.

(** What it means that a side accepts. *)
Lemma maker_accepts r d :
  MakerSwap.check_taker_data m r = Ok d ->
  Z.abs (maker_started - started_at r) <= 60 /\
  payment_locktime r = started_at r + MakerSwap.payment_locktime m0 /\
  started_at r + MakerSwap.payment_locktime m0 < 2 ^ 64 /\
  MakerSwap.taker_payment_locktime d = payment_locktime r /\
  MakerSwap.neg_other_maker_coin_htlc_pub d = maker_coin_htlc_pub r /\
  MakerSwap.neg_other_taker_coin_htlc_pub d = taker_coin_htlc_pub r.
Proof.
  unfold MakerSwap.check_taker_data. cbn zeta. intros Hc.
  destruct (_ >? _) eqn:Hd; [done|]. cbn in Hc.
  destruct (bool_decide _) eqn:Hl; [|done].
  apply bool_decide_eq_true_1, checked_add_some in Hl. cbn in Hc, Hl.
  destruct (negotiate_swap_contract_addr _ _); [|done]. cbn in Hc.
  destruct (negotiate_swap_contract_addr _ _); [|done]. cbn in Hc.
  destruct (validate_other_pubkey _ _); [|done]. cbn in Hc.
  destruct (validate_other_pubkey _ _); [|done]. cbn in Hc. injection Hc as <-.
  unfold abs_diff, MAX_STARTED_AT_DIFF, MAX_TIME_GAP_FOR_CONNECTED_PEER in Hd. cbn in Hd |- *.
  repeat split; try done; lia.
Qed.

Lemma taker_accepts q d :
  TakerSwap.check_maker_data t q = Ok d ->
  let lock := mul_ceil (TakerSwap.payment_locktime t0)
                (maker_locktime_multiplier (TakerSwap.taker_coin t0)) in
  Z.abs (taker_started - started_at q) <= 60 /\
  payment_locktime q = started_at q + lock /\
  started_at q + lock < 2 ^ 64 /\
  TakerSwap.maker_payment_locktime d = payment_locktime q /\
  TakerSwap.mnd_secret_hash d = secret_hash q /\
  TakerSwap.neg_other_maker_coin_htlc_pub d = maker_coin_htlc_pub q /\
  TakerSwap.neg_other_taker_coin_htlc_pub d = taker_coin_htlc_pub q.
Proof.
  unfold TakerSwap.check_maker_data. cbn zeta. intros Hc.
  destruct (_ >? _) eqn:Hd; [done|]. cbn [result_bind] in Hc.
  destruct (bool_decide _) eqn:Hl; [|done].
  apply bool_decide_eq_true_1, checked_add_some in Hl. cbn [result_bind] in Hc.
  destruct (TakerSwap.negotiate_addr _ _ _); [|done]. cbn [result_bind] in Hc.
  destruct (TakerSwap.negotiate_addr _ _ _); [|done]. cbn [result_bind] in Hc.
  destruct (validate_other_pubkey _ _); [|done]. cbn [map_err result_bind] in Hc.
  destruct (validate_other_pubkey _ _); [|done]. cbn [map_err result_bind] in Hc.
  destruct (_ || _); [|done]. cbn [result_bind] in Hc. injection Hc as <-.
  unfold abs_diff, MAX_STARTED_AT_DIFF, MAX_TIME_GAP_FOR_CONNECTED_PEER in Hd.
  cbn [TakerSwap.swap_data TakerSwap.apply_event TakerSwap.upd TakerSwap.set_mutable
    TakerSwap.mutable TakerSwap.set_data TakerSwap.data TakerSwap.started_data
    TakerSwap.d_started_at] in Hd.
  repeat split; try done; try apply Hl. cbn in Hd. lia.
Qed.

(** The states after the negotiation. *)
Definition maker_negotiated (d : MakerSwap.TakerNegotiationData) : MakerSwap.MakerSwap :=
  MakerSwap.apply_event 0 (MakerSwap.Negotiated d) m.

Definition taker_negotiated (d : TakerSwap.MakerNegotiationData) : TakerSwap.TakerSwap :=
  TakerSwap.apply_event 0 (TakerSwap.Negotiated d) t.

Lemma maker_negotiated_fields d :
  let m' := maker_negotiated d in
  MakerSwap.taker_payment_lock m' = MakerSwap.taker_payment_locktime d /\
  MakerSwap.other_maker_coin_htlc_pub (MakerSwap.mutable m') =
    MakerSwap.neg_other_maker_coin_htlc_pub d /\
  MakerSwap.other_taker_coin_htlc_pub (MakerSwap.mutable m') =
    MakerSwap.neg_other_taker_coin_htlc_pub d /\
  MakerSwap.maker_secret_hash m' = MakerSwap.maker_secret_hash m /\
  MakerSwap.my_maker_coin_htlc_pub m' = MakerSwap.my_maker_coin_htlc_pub m /\
  MakerSwap.my_taker_coin_htlc_pub m' = MakerSwap.my_taker_coin_htlc_pub m /\
  MakerSwap.d_maker_payment_lock (MakerSwap.swap_data m') =
    MakerSwap.d_maker_payment_lock (MakerSwap.swap_data m) /\
  MakerSwap.d_lock_duration (MakerSwap.swap_data m') = MakerSwap.payment_locktime m0 /\
  MakerSwap.d_started_at (MakerSwap.swap_data m') = maker_started.
Proof.
  cbn. by destruct (MakerSwap.maker_coin_swap_contract_addr d),
    (MakerSwap.taker_coin_swap_contract_addr d).
Qed.

Lemma taker_negotiated_fields d :
  let t' := taker_negotiated d in
  TakerSwap.maker_payment_lock t' = TakerSwap.maker_payment_locktime d /\
  TakerSwap.other_maker_coin_htlc_pub (TakerSwap.mutable t') =
    TakerSwap.neg_other_maker_coin_htlc_pub d /\
  TakerSwap.other_taker_coin_htlc_pub (TakerSwap.mutable t') =
    TakerSwap.neg_other_taker_coin_htlc_pub d /\
  TakerSwap.secret_hash (TakerSwap.mutable t') = TakerSwap.mnd_secret_hash d /\
  TakerSwap.my_maker_coin_htlc_pub t' = TakerSwap.my_maker_coin_htlc_pub t /\
  TakerSwap.my_taker_coin_htlc_pub t' = TakerSwap.my_taker_coin_htlc_pub t /\
  TakerSwap.d_taker_payment_lock (TakerSwap.swap_data t') =
    wrap 64 (taker_started + TakerSwap.payment_locktime t0) /\
  TakerSwap.d_lock_duration (TakerSwap.swap_data t') = TakerSwap.payment_locktime t0.
Proof.
  cbn. by destruct (TakerSwap.maker_coin_swap_contract_addr d),
    (TakerSwap.taker_coin_swap_contract_addr d).
Qed.

Context (maker_seen : TakerSwap.MakerNegotiationData) (taker_seen : MakerSwap.TakerNegotiationData).
Context (taker_ok : TakerSwap.check_maker_data t (MakerSwap.get_my_negotiation_data m) = Ok maker_seen).
Context (maker_ok : MakerSwap.check_taker_data m (TakerSwap.reply_to t maker_seen) = Ok taker_seen).
Context (Hst : is_u64 taker_started) (Hlt : is_u64 (TakerSwap.payment_locktime t0)).
Context (Hlm : is_u64 (MakerSwap.payment_locktime m0)).

Local Notation m' := (maker_negotiated taker_seen).
Local Notation t' := (taker_negotiated maker_seen).

(** The same lock duration on both sides, and no lock time that wraps. *)
Lemma agreed_times :
  MakerSwap.payment_locktime m0 = TakerSwap.payment_locktime t0 /\
  Z.abs (maker_started - taker_started) <= 60 /\
  TakerSwap.d_taker_payment_lock (TakerSwap.swap_data t') =
    taker_started + TakerSwap.payment_locktime t0 /\
  MakerSwap.d_maker_payment_lock (MakerSwap.swap_data m') =
    maker_started + mul_ceil (TakerSwap.payment_locktime t0)
      (maker_locktime_multiplier (TakerSwap.taker_coin t0)).
Proof.
  destruct (taker_accepts _ _ taker_ok) as (_ & Hl & Hb & _).
  destruct (maker_accepts _ _ maker_ok) as (Hd & Hl' & Hb' & _).
  destruct maker_message_times as (Hs & Hp & _). rewrite Hs, Hp in Hl.
  unfold TakerSwap.reply_to in *.
  destruct (taker_message_times (TakerSwap.mnd_secret_hash maker_seen)
    (default [] (TakerSwap.maker_coin_swap_contract_addr maker_seen))
    (default [] (TakerSwap.taker_coin_swap_contract_addr maker_seen))) as (Hs' & Hp' & _).
  rewrite Hs', ?Hp' in *.
  destruct (maker_negotiated_fields taker_seen) as (_ & _ & _ & _ & _ & _ & Hml & _).
  destruct (taker_negotiated_fields maker_seen) as (_ & _ & _ & _ & _ & _ & Htl & _).
  rewrite Hml, Htl, Hl.
  assert (TakerSwap.d_taker_payment_lock (TakerSwap.swap_data t) =
    wrap 64 (taker_started + TakerSwap.payment_locktime t0)) as Hw by done.
  rewrite Hw in Hl'. pose proof (wrap_add_inj _ _ _ _ Hst Hlt Hlm Hl') as E.
  repeat split; try done. by rewrite Hl', E.
Qed.

(** C22: when the taker accepts the maker's negotiation data and the maker the
    taker's answer, the HTLCs match: the payment the maker then sends has the
    lock time, the lock duration, the secret hash and the keys with which the
    taker will validate it, and the payment the taker sends those with which
    the maker will validate it. *)
Theorem negotiation_agrees p reward reward' :
  (let sent := MakerSwap.send_payment_args m' reward in
   let checked := TakerSwap.validate_input t' p reward' in
   sp_time_lock sent = vp_time_lock checked /\
   sp_time_lock_duration sent = vp_time_lock_duration checked /\
   sp_secret_hash sent = vp_secret_hash checked /\
   sp_other_pubkey sent = TakerSwap.my_maker_coin_htlc_pub t' /\
   vp_other_pub checked = MakerSwap.my_maker_coin_htlc_pub m') /\
  (let sent := TakerSwap.send_payment_args t' reward in
   let checked := MakerSwap.validate_input m' p reward' in
   sp_time_lock sent = vp_time_lock checked /\
   sp_time_lock_duration sent = vp_time_lock_duration checked /\
   sp_secret_hash sent = vp_secret_hash checked /\
   sp_other_pubkey sent = MakerSwap.my_taker_coin_htlc_pub m' /\
   vp_other_pub checked = TakerSwap.my_taker_coin_htlc_pub t').
Proof.
  destruct agreed_times as (E & _ & Htl & Hml).
  destruct (taker_accepts _ _ taker_ok) as (_ & Hl & _ & Hpl & Hsh & Hk1 & Hk2).
  destruct (maker_accepts _ _ maker_ok) as (_ & Hl' & _ & Hpl' & Hk3 & Hk4).
  destruct maker_message_times as (Hs & Hp & Hh), maker_message_keys as (Hmk & Htk).
  unfold TakerSwap.reply_to in *.
  destruct (taker_message_times (TakerSwap.mnd_secret_hash maker_seen)
    (default [] (TakerSwap.maker_coin_swap_contract_addr maker_seen))
    (default [] (TakerSwap.taker_coin_swap_contract_addr maker_seen))) as (Hs' & Hp' & _).
  destruct (taker_message_keys (TakerSwap.mnd_secret_hash maker_seen)
    (default [] (TakerSwap.maker_coin_swap_contract_addr maker_seen))
    (default [] (TakerSwap.taker_coin_swap_contract_addr maker_seen))) as (Hmk' & Htk').
  destruct (maker_negotiated_fields taker_seen) as (F1 & F2 & F3 & F4 & F5 & F6 & F7 & F8 & _).
  destruct (taker_negotiated_fields maker_seen) as (G1 & G2 & G3 & G4 & G5 & G6 & G7 & G8).
  split; cbn [sp_time_lock sp_time_lock_duration sp_secret_hash sp_other_pubkey vp_time_lock
    vp_time_lock_duration vp_secret_hash vp_other_pub MakerSwap.send_payment_args
    TakerSwap.send_payment_args MakerSwap.validate_input TakerSwap.validate_input];
    cbv zeta; cbn [sp_time_lock sp_time_lock_duration sp_secret_hash sp_other_pubkey vp_time_lock
    vp_time_lock_duration vp_secret_hash vp_other_pub]; repeat split; try congruence.
Qed.

(** C23: the lock times leave both sides their time.  The maker payment stays
    locked half a lock duration (up to the minute the clocks may differ) longer
    than the taker payment; the deadline after which the maker does not reveal
    the secret comes a fifth of the duration before the taker payment unlocks,
    and seven tenths before the maker payment does. *)
Theorem negotiation_window :
  (3 # 2 <= maker_locktime_multiplier (TakerSwap.taker_coin t0))%Q ->
  is_u64 maker_started ->
  maker_started + 4 * TakerSwap.payment_locktime t0 < 2 ^ 64 ->
  let lock := TakerSwap.payment_locktime t0 in
  let maker_lock := MakerSwap.d_maker_payment_lock (MakerSwap.swap_data m') in
  let taker_lock := TakerSwap.d_taker_payment_lock (TakerSwap.swap_data t') in
  let deadline := MakerSwap.wait_taker_payment_until m' in
  taker_lock + lock / 2 - 60 <= maker_lock /\
  deadline + lock / 5 - 60 <= taker_lock /\
  deadline + lock / 5 + lock / 2 <= maker_lock.
Proof.
  cbv zeta. intros Hm Hms Hb. destruct agreed_times as (E & Hd & -> & ->).
  unfold MakerSwap.wait_taker_payment_until, taker_payment_spend_deadline,
    taker_payment_spend_duration.
  destruct (maker_negotiated_fields taker_seen) as (_ & _ & _ & _ & _ & _ & _ & -> & ->).
  rewrite E. pose proof (mul_ceil_half (TakerSwap.payment_locktime t0) _ (proj1 Hlt) Hm).
  unfold wrap, is_uint in *. set (L := TakerSwap.payment_locktime t0) in *.
  rewrite (Z.mod_small (L * 4)) by lia. assert (0 <= L*4/5 <= L*4) by (split; [apply Z.div_pos; lia|apply Z.div_le_upper_bound; lia]).
  rewrite Z.mod_small by lia. repeat split; Z.to_euclidean_division_equations; lia.
Qed.

End Negotiation.

(** ** Witnesses: two nodes with clocks half a minute apart *)

Section Witnesses.
  #[local] Existing Instance demo_hasher.
  #[local] Existing Instance exact_decimal.

Definition demo_maker : MakerSwap.MakerSwap :=
  MakerSwap.MakerSwap_new (replicate 32 4) (10 # 1) (20 # 1) (replicate 33 7) (replicate 16 1) None
    demo_conf (demo_coin "KMD") (demo_coin "LTC") 7800 None (replicate 32 9).

Definition demo_taker : TakerSwap.TakerSwap :=
  TakerSwap.TakerSwap_new (replicate 32 3) (10 # 1) (20 # 1) (replicate 33 6) (replicate 16 1) None
    demo_conf (demo_coin "KMD") (demo_coin "LTC") 7800 None.

Definition demo_maker_seen : TakerSwap.MakerNegotiationData :=
  TakerSwap.mkMND 1015600 H264_default (replicate 20 9) None None
    (Some (replicate 33 7)) (Some (replicate 33 7)).

Definition demo_taker_seen : MakerSwap.TakerNegotiationData :=
  MakerSwap.mkTND 1007830 H264_default None None (Some (replicate 33 7)) (Some (replicate 33 7)).

Definition demo_maker_negotiated : MakerSwap.MakerSwap :=
  maker_negotiated demo_maker 1000000 (100, 100) demo_fee demo_fee demo_taker_seen.

Definition demo_taker_negotiated : TakerSwap.TakerSwap :=
  taker_negotiated demo_taker 1000030 (100, 100) demo_fee demo_fee demo_fee demo_maker_seen.

Lemma negotiation_agrees_witness :
  let sent := MakerSwap.send_payment_args demo_maker_negotiated None in
  let checked := TakerSwap.validate_input demo_taker_negotiated (mkTxIdent [] []) None in
  sp_time_lock sent = 1015600 /\ vp_time_lock checked = 1015600 /\
  sp_secret_hash sent = vp_secret_hash checked.
Proof.
  destruct (negotiation_agrees demo_maker demo_taker 1000000 1000030 (100, 100) (100, 100)
    demo_fee demo_fee demo_fee demo_fee demo_fee demo_maker_seen demo_taker_seen
    ltac:(by vm_compute) ltac:(by vm_compute) ltac:(by vm_compute) ltac:(by vm_compute) ltac:(by vm_compute)
    (mkTxIdent [] []) None None) as [(E1 & _ & E2 & _) _].
  cbv zeta. split; [reflexivity|]. split; [etransitivity; [symmetry; exact E1|reflexivity]|exact E2].
Defined.

Lemma negotiation_window_witness :
  TakerSwap.d_taker_payment_lock (TakerSwap.swap_data demo_taker_negotiated) + 3900 - 60 <=
  MakerSwap.d_maker_payment_lock (MakerSwap.swap_data demo_maker_negotiated).
Proof.
  apply (negotiation_window demo_maker demo_taker 1000000 1000030 (100, 100) (100, 100)
    demo_fee demo_fee demo_fee demo_fee demo_fee demo_maker_seen demo_taker_seen
    ltac:(by vm_compute) ltac:(by vm_compute) ltac:(by vm_compute) ltac:(by vm_compute) ltac:(by vm_compute));
    by vm_compute.
Defined.

End Witnesses.
