(* ===== verification/SwapContext.v ===== *)
(** * The state running swaps share

    What is proved of the shared parts of lp_swap.rs: the message stores,
    whatever order messages and polls come in, the amounts that running swaps
    lock, and the lock times of [lp_atomic_locktime]. *)

From S2P Require Import Prelude MmNumber Swap.

Open Scope Z_scope.

(** ** The message stores *)

Section Mailbox.

(** What happens to the stores: a message comes in, a swap polls, another swap
    opens its store. *)
Inductive MailOp : Type :=
| Deliver (to : Uuid) (msg : SwapMsg) (sender : H256)
| Poll (by_swap : Uuid) (k : MsgKind)
| Open (swap : Uuid) (from : H256).

Definition mail_step (msgs : gmap Uuid SwapMsgStore) (op : MailOp) : gmap Uuid SwapMsgStore :=
  match op with
  | Deliver u m sender => process_swap_msg u m sender msgs
  | Poll u k => (poll_msg u k msgs).2
  | Open u from => init_msg_store u from msgs
  end.

(** The content of a message for one getter. *)
Definition payload (k : MsgKind) (m : SwapMsg) : option (msg_type k) :=
  match k return option (msg_type k) with
  | KNegotiation => match m with Negotiation d => Some d | _ => None end
  | KNegotiationReply => match m with NegotiationReply d => Some d | _ => None end
  | KNegotiated => match m with Negotiated b => Some b | _ => None end
  | KTakerFee => match m with TakerFee d => Some d | _ => None end
  | KMakerPayment => match m with MakerPayment d => Some d | _ => None end
  | KTakerPayment => match m with TakerPayment b => Some b | _ => None end
  end.

#[export] Instance MsgKind_eq_dec : EqDecision MsgKind.
Proof. solve_decision. Defined.

(** The specification: the newest message of a kind that the agreed sender has
    sent since the last poll, and whom the store listens to. *)
Definition newest (u : Uuid) (k : MsgKind) (acc : H256 * option (msg_type k)) (op : MailOp)
  : H256 * option (msg_type k) :=
  match op with
  | Deliver u' m sender =>
      if bool_decide (u' = u) && bool_decide (sender = acc.1) then
        match payload k m with Some d => (acc.1, Some d) | None => acc end
      else acc
  | Poll u' k' => if bool_decide (u' = u) && bool_decide (k' = k) then (acc.1, None) else acc
  | Open u' from => if bool_decide (u' = u) then (from, None) else acc
  end.

(** The store of a swap shows, for every kind, the specification. *)
Definition shows (u : Uuid) (k : MsgKind) (acc : H256 * option (msg_type k))
  (msgs : gmap Uuid SwapMsgStore) : Prop :=
  exists st, msgs !! u = Some st /\ accept_only_from st = acc.1 /\ (store_take k st).1 = acc.2.

Lemma swap_msg_to_store_from m st :
  accept_only_from (swap_msg_to_store m st) = accept_only_from st.
Proof. by destruct st, m. Qed.

Lemma swap_msg_to_store_take k m st :
  (store_take k (swap_msg_to_store m st)).1 =
    match payload k m with Some d => Some d | None => (store_take k st).1 end.
Proof. by destruct st, m, k. Qed.

Lemma store_take_from k st : accept_only_from (store_take k st).2 = accept_only_from st.
Proof. by destruct st, k. Qed.

Lemma store_take_other k k' st :
  (store_take k (store_take k' st).2).1 =
    if decide (k' = k) then None else (store_take k st).1.
Proof. by destruct st, k, k'. Qed.

Lemma mail_step_shows u k acc msgs op :
  shows u k acc msgs -> shows u k (newest u k acc op) (mail_step msgs op).
Proof.
  intros (st & Hl & Hf & Ht). destruct op as [u' m sender|u' k'|u' from]; cbn.
  - unfold process_swap_msg. case_bool_decide as Hu; cbn.
    + subst u'. rewrite Hl, Hf. rewrite (bool_decide_ext (acc.1 = sender) (sender = acc.1)) by done.
      case_bool_decide; [|by exists st].
      exists (swap_msg_to_store m st). rewrite lookup_insert_eq, swap_msg_to_store_from.
      rewrite swap_msg_to_store_take. by destruct (payload k m).
    + exists st. destruct (msgs !! u'); [|done].
      case_bool_decide; [|done]. by rewrite lookup_insert_ne.
  - unfold poll_msg. case_bool_decide as Hu; cbn.
    + subst u'. rewrite Hl. destruct (store_take k' st) as [x st'] eqn:E. cbn.
      exists st'. rewrite lookup_insert_eq.
      replace st' with (store_take k' st).2 by by rewrite E.
      rewrite store_take_from, store_take_other.
      case_bool_decide; [|destruct (decide (k' = k)); [done|by rewrite Hf]].
      rewrite decide_True by done. by rewrite Hf.
    + exists st. destruct (msgs !! u'); [|done].
      destruct (store_take k' _). cbn. by rewrite lookup_insert_ne.
  - unfold init_msg_store. case_bool_decide as Hu.
    + subst u'. exists (SwapMsgStore_new from). rewrite lookup_insert_eq. by destruct k.
    + exists st. by rewrite lookup_insert_ne.
Qed.

(** A swap that has opened its store reads exactly the other party: after
    any sequence of messages (of any kind, to any swap, from anyone), polls and
    openings of stores, a poll returns the newest message of the asked kind that
    the agreed sender sent to this swap since that kind was last polled, and
    nothing if there is none. *)
Theorem poll_newest msgs u from ops k :
  (poll_msg u k (foldl mail_step (init_msg_store u from msgs) ops)).1 =
    (foldl (newest u k) (from, None) ops).2.
Proof.
  assert (shows u k (foldl (newest u k) (from, None) ops)
    (foldl mail_step (init_msg_store u from msgs) ops)) as (st & Hl & _ & Ht).
  { assert (shows u k (from, None) (init_msg_store u from msgs)) as Hs.
    { exists (SwapMsgStore_new from). unfold init_msg_store.
      rewrite lookup_insert_eq. by destruct k. }
    revert Hs. generalize (init_msg_store u from msgs) (from, @None (msg_type k)).
    induction ops as [|op ops IH]; intros ms acc Hs; [done|].
    cbn. by apply IH, mail_step_shows. }
  unfold poll_msg. rewrite Hl, <- Ht. by destruct (store_take k st).
Qed.

End Mailbox.

(** ** Locked amounts *)

Section Locked.
  Local Open Scope Q_scope.

Fixpoint Qsum (l : list Q) : Q :=
  match l with [] => 0 | x :: l => x + Qsum l end.

Lemma Qsum_app l k : Qsum (l ++ k) == Qsum l + Qsum k.
Proof. induction l as [|x l IH]; cbn [Qsum app]; [ring|]. rewrite IH. ring. Qed.

#[export] Instance Qsum_perm : Proper (Permutation ==> Qeq) Qsum.
Proof. intros l k HP. induction HP; cbn [Qsum]; [done|by rewrite IHHP|ring|by rewrite IHHP1]. Qed.

(** What one entry adds. *)
Definition locks (coin : string) (l : LockedAmount) : Q :=
  (if bool_decide (la_coin l = coin) then la_amount l else 0) + fee_locks coin (la_trade_fee l).

Lemma foldl_add_locked coin l acc :
  foldl (add_locked coin) acc l == acc + Qsum (map (locks coin) l).
Proof.
  revert acc. induction l as [|x l IH]; intros acc; cbn [Qsum foldl map]; [lra|].
  rewrite IH. unfold add_locked, locks. case_bool_decide; lra.
Qed.

(** The running swaps without one of them. *)
Lemma map_values_delete (m : gmap Uuid RunningSwap) u rs :
  m !! u = Some rs -> Permutation (map_values m) (rs :: map_values (delete u m)).
Proof.
  intros Hl. unfold map_values.
  rewrite <- (insert_delete_id m u rs Hl) at 1.
  rewrite map_to_list_insert by apply lookup_delete_eq. done.
Qed.

(** Every swap is registered under its own id ([running_swaps.insert(uuid, swap)]). *)
Definition own_keys (m : gmap Uuid RunningSwap) : Prop := map_Forall (fun u rs => rs_uuid rs = u) m.

Lemma list_filter_id {A} (P : A -> Prop) `{!forall x, Decision (P x)} (l : list A) :
  (forall x, x ∈ l -> P x) -> filter P l = l.
Proof.
  induction l as [|x l IH]; intros Hl; [done|].
  rewrite filter_cons_True by (apply Hl; set_solver). f_equal. apply IH. set_solver.
Qed.

Lemma filter_other m u rs :
  own_keys m -> m !! u = Some rs ->
  Permutation (filter (fun swap => rs_uuid swap <> u) (map_values m)) (map_values (delete u m)).
Proof.
  intros Hw Hl. rewrite (map_values_delete m u rs Hl), filter_cons_False.
  - rewrite list_filter_id; [done|]. unfold map_values. intros x.
    rewrite list_elem_of_fmap. intros ([k y] & -> & Hk%elem_of_map_to_list).
    apply lookup_delete_Some in Hk as [Hne Hk]. apply Hw in Hk. cbn in *. congruence.
  - rewrite (Hw u rs Hl). tauto.
Qed.

Lemma bind_perm (l k : list RunningSwap) coin :
  Permutation l k ->
  Qsum (map (locks coin) (l ≫= rs_locked_amount)) == Qsum (map (locks coin) (k ≫= rs_locked_amount)).
Proof. intros HP. by rewrite HP. Qed.

(** For a running swap, the locked amount of a coin splits into what the
    other running swaps lock, what this swap locks, and what the swaps of the
    second protocol lock; the amount "locked by other swaps", which a swap is
    checked against when it starts, leaves out the last part. *)
Theorem locked_amount_split ctx u rs coin :
  own_keys (running_swaps ctx) -> running_swaps ctx !! u = Some rs ->
  get_locked_amount ctx coin ==
    get_locked_amount_by_other_swaps ctx u coin +
    Qsum (map (locks coin) (rs_locked_amount rs)) +
    (if locked_amounts ctx !! coin is Some l then foldl (add_locked_v2 coin) 0 l else 0).
Proof.
  intros Hw Hl. unfold get_locked_amount, get_locked_amount_by_other_swaps.
  assert (foldl (add_locked coin) 0 (map_values (running_swaps ctx) ≫= rs_locked_amount) ==
    foldl (add_locked coin) 0
      (filter (fun swap => rs_uuid swap <> u) (map_values (running_swaps ctx)) ≫= rs_locked_amount)
    + Qsum (map (locks coin) (rs_locked_amount rs))) as E.
  { rewrite !foldl_add_locked, (bind_perm _ _ coin (filter_other _ _ _ Hw Hl)).
    rewrite (bind_perm _ _ coin (map_values_delete _ _ _ Hl)).
    cbn. rewrite map_app, Qsum_app. lra. }
  destruct (locked_amounts ctx !! coin); rewrite E; lra.
Qed.

Lemma locked_amount_split_witness :
  let rs := mkRunningSwap [1%Z] [mkLockedAmount "KMD" (3 # 1) None] "KMD" "LTC" in
  let ctx := mkSwapsContext {[ [1%Z] := rs ]} empty
               {["KMD"%string := [mkLockedAmountInfo [2%Z] (mkLockedAmount "KMD" (4 # 1) None)]]} in
  get_locked_amount_by_other_swaps ctx [1%Z] "KMD" == 0 /\ get_locked_amount ctx "KMD" == 7 # 1.
Proof.
  cbv zeta. split; [by vm_compute|].
  rewrite (locked_amount_split _ [1%Z]
    (mkRunningSwap [1%Z] [mkLockedAmount "KMD" (3 # 1) None] "KMD" "LTC")).
  - by vm_compute.
  - cbn [running_swaps]. intros k r [<- <-]%lookup_singleton_Some. done.
  - cbn [running_swaps]. by rewrite lookup_singleton_eq.
Defined.

End Locked.

(** ** Lock times *)

(** Both sides of a swap compute the same lock time, whichever of the
    confirmation settings is "mine" and "the other's"; it is the base lock time
    (two hours and ten minutes) times 1, 4, 10 or 12, never shorter than the
    base, and at least four times the base when either side asks for
    notarization. *)
Theorem atomic_locktime_agreed maker_coin taker_coin my other :
  lp_atomic_locktime maker_coin taker_coin (V2 my other) =
    lp_atomic_locktime maker_coin taker_coin (V2 other my) /\
  (forall v, exists k, (k = 1 \/ k = 4 \/ k = 10 \/ k = 12) /\
     lp_atomic_locktime maker_coin taker_coin v = k * 7800) /\
  (settings_require_notarization my = true ->
   4 * 7800 <= lp_atomic_locktime maker_coin taker_coin (V2 my other)).
Proof.
  unfold lp_atomic_locktime, lp_atomic_locktime_v1, lp_atomic_locktime_v2,
    get_payment_locktime, PAYMENT_LOCKTIME.
  split; [|split].
  - destruct (str_contains _ _); [done|].
    destruct (settings_require_notarization my), (settings_require_notarization other);
      by rewrite ?orb_true_r, ?orb_false_r.
  - intros [|a b]; repeat case_match;
      first [by exists 1; lia | by exists 4; lia | by exists 10; lia | by exists 12; lia].
  - intros ->. destruct (str_contains _ _); [lia|]. rewrite orb_true_r. cbn. lia.
Qed.

Lemma atomic_locktime_agreed_witness :
  lp_atomic_locktime "KMD" "LTC" (V2 (mkConfSettings 1 true 1 false) (mkConfSettings 1 false 1 false))
    = 4 * 7800 /\
  4 * 7800 <=
  lp_atomic_locktime "KMD" "LTC" (V2 (mkConfSettings 1 true 1 false) (mkConfSettings 1 false 1 false)).
Proof.
  split; [by vm_compute|].
  by apply (proj2 (proj2 (atomic_locktime_agreed "KMD" "LTC" (mkConfSettings 1 true 1 false)
    (mkConfSettings 1 false 1 false)))).
Defined.
