(* ===== verification/Ordermatch.v ===== *)
(** * Order matching (mm2_main/src/lp_ordermatch.rs)

    Maker and taker orders, the messages of a match, and the handlers that
    change a node's own orders.  A handler is a function from the node's state
    to the next state and the list of its outward actions; what it asks of the
    outside (the clock, the activated coins, the answer of a balance check) is
    an argument.  Logs, status streams and statistics are left out, and so is
    [changes_history] of an order, which is only shown to the user. *)

From S2P Require Import Prelude MmNumber DexFee Swap.

Open Scope Z_scope.

(** ** Orders *)

Inductive TakerAction : Type := Buy | Sell.
Inductive OrderType : Type := FillOrKill | GoodTillCancelled.

Inductive MatchBy : Type :=
| MatchAny
| MatchOrders (uuids : gset Uuid)
| MatchPubkeys (pubkeys : gset H256).

Record OrderConfirmationsSettings : Type := mkOrderConf {
  base_confs : Z;
  base_nota : bool;
  rel_confs : Z;
  rel_nota : bool }.

#[export] Instance OrderConf_eq_dec : EqDecision OrderConfirmationsSettings.
Proof. solve_decision. Defined.

Definition reversed (s : OrderConfirmationsSettings) : OrderConfirmationsSettings :=
  mkOrderConf (rel_confs s) (rel_nota s) (base_confs s) (base_nota s).

Definition legacy_swap_version : Z := 1.
Definition SWAP_VERSION_DEFAULT : Z := 2.
Definition is_legacy (version : Z) : bool := version =? legacy_swap_version.

(** What order matching asks of a coin, besides what swaps do. *)
Record OrderCoin : Type := mkOrderCoin {
  oc_coin : Coin;
  min_trading_vol : MmNumber;
  required_confirmations : Z;
  secret_hash_algo_v2 : SecretHashAlgo;
  coin_protocol_info : option MmNumber -> bytes;
  is_coin_protocol_supported : option bytes -> option MmNumber -> Z -> bool -> bool }.

Definition oc_ticker (c : OrderCoin) : string := ticker (oc_coin c).
Definition oc_is_privacy (c : OrderCoin) : bool := fc_is_privacy (fee_coin (oc_coin c)).
Definition oc_requires_notarization (c : OrderCoin) : bool := requires_notarization (oc_coin c).

(** The field [dest_pub_key] is always the default key and is left out. *)
Record TakerRequest : Type := mkRequest {
  tr_base : string;
  tr_rel : string;
  tr_base_amount : MmNumber;
  tr_rel_amount : MmNumber;
  tr_action : TakerAction;
  tr_uuid : Uuid;
  tr_sender_pubkey : H256;
  tr_match_by : MatchBy;
  tr_conf_settings : option OrderConfirmationsSettings;
  tr_base_protocol_info : option bytes;
  tr_rel_protocol_info : option bytes;
  tr_swap_version : Z }.

Definition can_match_with_maker_pubkey (r : TakerRequest) (maker_pubkey : H256) : bool :=
  match tr_match_by r with
  | MatchPubkeys pubkeys => bool_decide (maker_pubkey ∈ pubkeys)
  | _ => true
  end.

Definition can_match_with_uuid (r : TakerRequest) (uuid : Uuid) : bool :=
  match tr_match_by r with
  | MatchOrders uuids => bool_decide (uuid ∈ uuids)
  | _ => true
  end.

Definition base_protocol_info_for_maker (r : TakerRequest) : option bytes :=
  match tr_action r with Buy => tr_base_protocol_info r | Sell => tr_rel_protocol_info r end.

Definition rel_protocol_info_for_maker (r : TakerRequest) : option bytes :=
  match tr_action r with Buy => tr_rel_protocol_info r | Sell => tr_base_protocol_info r end.

Record MakerReserved : Type := mkReserved {
  rv_base : string;
  rv_rel : string;
  rv_base_amount : MmNumber;
  rv_rel_amount : MmNumber;
  rv_taker_order_uuid : Uuid;
  rv_maker_order_uuid : Uuid;
  rv_sender_pubkey : H256;
  rv_dest_pub_key : H256;
  rv_conf_settings : option OrderConfirmationsSettings;
  rv_base_protocol_info : option bytes;
  rv_rel_protocol_info : option bytes;
  rv_swap_version : Z }.

Definition rv_price (r : MakerReserved) : MmNumber := (rv_rel_amount r / rv_base_amount r)%num.

Record TakerConnect : Type := mkConnect {
  cn_taker_order_uuid : Uuid;
  cn_maker_order_uuid : Uuid;
  cn_sender_pubkey : H256;
  cn_dest_pub_key : H256 }.

Record MakerConnected : Type := mkConnected {
  cd_taker_order_uuid : Uuid;
  cd_maker_order_uuid : Uuid;
  cd_method : string;
  cd_sender_pubkey : H256;
  cd_dest_pub_key : H256 }.

Record MakerMatch : Type := mkMakerMatch {
  mm_request : TakerRequest;
  mm_reserved : MakerReserved;
  mm_connect : option TakerConnect;
  mm_connected : option MakerConnected;
  mm_last_updated : Z }.

Record TakerMatch : Type := mkTakerMatch {
  tm_reserved : MakerReserved;
  tm_connect : TakerConnect;
  tm_connected : option MakerConnected;
  tm_last_updated : Z }.

Record TakerOrder : Type := mkTakerOrder {
  to_created_at : Z;
  to_request : TakerRequest;
  to_matches : gmap Uuid TakerMatch;
  to_min_volume : MmNumber;
  to_order_type : OrderType;
  to_timeout : Z;
  to_save_in_history : bool;
  to_base_orderbook_ticker : option string;
  to_rel_orderbook_ticker : option string;
  to_p2p_privkey : option bytes }.

Record MakerOrder : Type := mkMakerOrder {
  max_base_vol : MmNumber;
  min_base_vol : MmNumber;
  price : MmNumber;
  mo_created_at : Z;
  mo_updated_at : option Z;
  mo_base : string;
  mo_rel : string;
  mo_matches : gmap Uuid MakerMatch;
  started_swaps : list Uuid;
  mo_uuid : Uuid;
  mo_conf_settings : option OrderConfirmationsSettings;
  mo_save_in_history : bool;
  mo_base_orderbook_ticker : option string;
  mo_rel_orderbook_ticker : option string;
  mo_p2p_privkey : option bytes;
  mo_swap_version : Z;
  timeout_in_minutes : option Z }.

#[export] Instance TakerAction_eq_dec : EqDecision TakerAction.
Proof. solve_decision. Defined.

#[export] Instance MatchBy_eq_dec : EqDecision MatchBy.
Proof. solve_decision. Defined.

#[export] Instance TakerRequest_eq_dec : EqDecision TakerRequest.
Proof. solve_decision. Defined.

#[export] Instance MakerReserved_eq_dec : EqDecision MakerReserved.
Proof. solve_decision. Defined.

#[export] Instance TakerConnect_eq_dec : EqDecision TakerConnect.
Proof. solve_decision. Defined.

#[export] Instance MakerConnected_eq_dec : EqDecision MakerConnected.
Proof. solve_decision. Defined.

#[export] Instance MakerMatch_eq_dec : EqDecision MakerMatch.
Proof. solve_decision. Defined.

#[export] Instance MakerOrder_eq_dec : EqDecision MakerOrder.
Proof. solve_decision. Defined.

Definition set_matches (m : gmap Uuid MakerMatch) (o : MakerOrder) : MakerOrder :=
  mkMakerOrder (max_base_vol o) (min_base_vol o) (price o) (mo_created_at o) (mo_updated_at o)
    (mo_base o) (mo_rel o) m (started_swaps o) (mo_uuid o) (mo_conf_settings o)
    (mo_save_in_history o) (mo_base_orderbook_ticker o) (mo_rel_orderbook_ticker o)
    (mo_p2p_privkey o) (mo_swap_version o) (timeout_in_minutes o).

Definition push_started_swap (u : Uuid) (o : MakerOrder) : MakerOrder :=
  mkMakerOrder (max_base_vol o) (min_base_vol o) (price o) (mo_created_at o) (mo_updated_at o)
    (mo_base o) (mo_rel o) (mo_matches o) (started_swaps o ++ [u]) (mo_uuid o)
    (mo_conf_settings o) (mo_save_in_history o) (mo_base_orderbook_ticker o)
    (mo_rel_orderbook_ticker o) (mo_p2p_privkey o) (mo_swap_version o) (timeout_in_minutes o).

Definition set_max_base_vol (v : MmNumber) (o : MakerOrder) : MakerOrder :=
  mkMakerOrder v (min_base_vol o) (price o) (mo_created_at o) (mo_updated_at o)
    (mo_base o) (mo_rel o) (mo_matches o) (started_swaps o) (mo_uuid o)
    (mo_conf_settings o) (mo_save_in_history o) (mo_base_orderbook_ticker o)
    (mo_rel_orderbook_ticker o) (mo_p2p_privkey o) (mo_swap_version o) (timeout_in_minutes o).

Definition set_to_matches (m : gmap Uuid TakerMatch) (o : TakerOrder) : TakerOrder :=
  mkTakerOrder (to_created_at o) (to_request o) m (to_min_volume o) (to_order_type o)
    (to_timeout o) (to_save_in_history o) (to_base_orderbook_ticker o)
    (to_rel_orderbook_ticker o) (to_p2p_privkey o).

(** *** Tickers *)

Definition taker_coin_ticker (o : TakerOrder) : string :=
  match tr_action (to_request o) with Buy => tr_rel (to_request o) | Sell => tr_base (to_request o) end.

Definition maker_coin_ticker (o : TakerOrder) : string :=
  match tr_action (to_request o) with Buy => tr_base (to_request o) | Sell => tr_rel (to_request o) end.

Definition base_orderbook_ticker (o : TakerOrder) : string :=
  default (tr_base (to_request o)) (to_base_orderbook_ticker o).

Definition rel_orderbook_ticker (o : TakerOrder) : string :=
  default (tr_rel (to_request o)) (to_rel_orderbook_ticker o).

Definition taker_orderbook_ticker (o : TakerOrder) : string :=
  match tr_action (to_request o) with
  | Buy => rel_orderbook_ticker o | Sell => base_orderbook_ticker o
  end.

Definition maker_orderbook_ticker (o : TakerOrder) : string :=
  match tr_action (to_request o) with
  | Buy => base_orderbook_ticker o | Sell => rel_orderbook_ticker o
  end.

Definition order_base_orderbook_ticker (o : MakerOrder) : string :=
  default (mo_base o) (mo_base_orderbook_ticker o).

Definition order_rel_orderbook_ticker (o : MakerOrder) : string :=
  default (mo_rel o) (mo_rel_orderbook_ticker o).

(** [base < rel] on [str] compares bytes. *)
Definition alb_ordered_pair (base rel : string) : string :=
  let '(first, second) := if String.ltb base rel then (base, rel) else (rel, base) in
  (first ++ ":" ++ second)%string.

Definition orderbook_topic_from_base_rel (base rel : string) : string :=
  ("orbk/" ++ alb_ordered_pair base rel)%string.

Definition taker_orderbook_topic (o : TakerOrder) : string :=
  orderbook_topic_from_base_rel (base_orderbook_ticker o) (rel_orderbook_ticker o).

Definition maker_orderbook_topic (o : MakerOrder) : string :=
  orderbook_topic_from_base_rel (order_base_orderbook_ticker o) (order_rel_orderbook_ticker o).

(** The request as the makers see it: the broadcast of [From<TakerOrder>] read
    back by [from_new_proto_and_pubkey]. *)
Definition broadcast_request (o : TakerOrder) (sender : H256) : TakerRequest :=
  let r := to_request o in
  mkRequest (base_orderbook_ticker o) (rel_orderbook_ticker o) (tr_base_amount r)
    (tr_rel_amount r) (tr_action r) (tr_uuid r) sender (tr_match_by r) (tr_conf_settings r)
    (tr_base_protocol_info r) (tr_rel_protocol_info r) (tr_swap_version r).

(** What a taker reads of a reserved message that [sender] has signed; a message
    without confirmation settings is not sent. *)
Definition received_reserved (r : MakerReserved) (sender : H256) : MakerReserved :=
  mkReserved (rv_base r) (rv_rel r) (rv_base_amount r) (rv_rel_amount r)
    (rv_taker_order_uuid r) (rv_maker_order_uuid r) sender H256_default (rv_conf_settings r)
    (rv_base_protocol_info r) (rv_rel_protocol_info r) (rv_swap_version r).

(** ** Building orders *)

(** [a < b], [a <= b] and [Ord::max] on numbers. *)
Definition num_lt (a b : MmNumber) : bool := (a <? b)%num.
Definition num_le (a b : MmNumber) : bool := (a <=? b)%num.
Definition num_eq (a b : MmNumber) : bool := (a =? b)%num.
Definition num_max (a b : MmNumber) : MmNumber := if num_le a b then b else a.

Record TakerOrderBuilder : Type := mkTakerBuilder {
  tb_base_coin : OrderCoin;
  tb_rel_coin : OrderCoin;
  tb_base_orderbook_ticker : option string;
  tb_rel_orderbook_ticker : option string;
  tb_base_amount : MmNumber;
  tb_rel_amount : MmNumber;
  tb_sender_pubkey : H256;
  tb_action : TakerAction;
  tb_match_by : MatchBy;
  tb_order_type : OrderType;
  tb_conf_settings : option OrderConfirmationsSettings;
  tb_min_volume : option MmNumber;
  tb_timeout : Z;
  tb_save_in_history : bool;
  tb_swap_version : Z }.

Inductive TakerOrderBuildError : Type :=
| TakerBaseEqualRel
| BaseAmountTooLow (actual threshold : MmNumber)
| RelAmountTooLow (actual threshold : MmNumber)
| MinVolumeTooLow (actual threshold : MmNumber)
| TakerMaxBaseVolBelowMinBaseVol (max min : MmNumber)
| SenderPubkeyIsZero
| ConfsSettingsNotSet.

(** [now], [uuid] and [key] are what [now_ms], [new_uuid] and the random key
    generator return.  The result is [None] where a division by zero panics. *)
Definition taker_build (b : TakerOrderBuilder) (now : Z) (uuid : Uuid) (key : bytes)
  : option (result TakerOrderBuildError TakerOrder) :=
  let min_base_amount := min_trading_vol (tb_base_coin b) in
  let min_rel_amount := min_trading_vol (tb_rel_coin b) in
  if bool_decide (oc_ticker (tb_base_coin b) = oc_ticker (tb_rel_coin b))
  then Some (Err TakerBaseEqualRel)
  else if num_lt (tb_base_amount b) min_base_amount
  then Some (Err (BaseAmountTooLow (tb_base_amount b) min_base_amount))
  else if num_lt (tb_rel_amount b) min_rel_amount
  then Some (Err (RelAmountTooLow (tb_rel_amount b) min_rel_amount))
  else if bool_decide (tb_sender_pubkey b = H256_default)
  then Some (Err SenderPubkeyIsZero)
  else if negb (bool_decide (is_Some (tb_conf_settings b)))
  then Some (Err ConfsSettingsNotSet)
  else if num_eq (tb_base_amount b) (0 # 1) || num_eq (tb_rel_amount b) (0 # 1)
  then None
  else
    let price := (tb_rel_amount b / tb_base_amount b)%num in
    let base_min_by_rel := (min_rel_amount / price)%num in
    let base_min_vol_threshold := num_max min_base_amount base_min_by_rel in
    let min_volume := default base_min_vol_threshold (tb_min_volume b) in
    if num_lt min_volume base_min_vol_threshold
    then Some (Err (MinVolumeTooLow min_volume base_min_vol_threshold))
    else if num_lt (tb_base_amount b) min_volume
    then Some (Err (TakerMaxBaseVolBelowMinBaseVol (tb_base_amount b) min_volume))
    else
      let my_coin := match tb_action b with Buy => tb_rel_coin b | Sell => tb_base_coin b end in
      let base_info :=
        match tb_action b with
        | Buy => coin_protocol_info (tb_base_coin b) (Some (tb_base_amount b))
        | Sell => coin_protocol_info (tb_base_coin b) None
        end in
      let rel_info :=
        match tb_action b with
        | Buy => coin_protocol_info (tb_rel_coin b) None
        | Sell => coin_protocol_info (tb_rel_coin b) (Some (tb_rel_amount b))
        end in
      Some (Ok (mkTakerOrder now
        (mkRequest (oc_ticker (tb_base_coin b)) (oc_ticker (tb_rel_coin b)) (tb_base_amount b)
           (tb_rel_amount b) (tb_action b) uuid (tb_sender_pubkey b) (tb_match_by b)
           (tb_conf_settings b) (Some base_info) (Some rel_info) (tb_swap_version b))
        empty min_volume (tb_order_type b) (tb_timeout b) (tb_save_in_history b)
        (tb_base_orderbook_ticker b) (tb_rel_orderbook_ticker b)
        (if oc_is_privacy my_coin then Some key else None))).

Record MakerOrderBuilder : Type := mkMakerBuilder {
  mb_max_base_vol : MmNumber;
  mb_min_base_vol : option MmNumber;
  mb_price : MmNumber;
  mb_base_coin : OrderCoin;
  mb_rel_coin : OrderCoin;
  mb_base_orderbook_ticker : option string;
  mb_rel_orderbook_ticker : option string;
  mb_conf_settings : option OrderConfirmationsSettings;
  mb_save_in_history : bool;
  mb_swap_version : Z;
  mb_timeout_in_minutes : option Z }.

Inductive MakerOrderBuildError : Type :=
| BaseEqualRel
| MaxBaseVolTooLow (actual threshold : MmNumber)
| MinBaseVolTooLow (actual threshold : MmNumber)
| PriceTooLow (actual threshold : MmNumber)
| RelVolTooLow (actual threshold : MmNumber)
| ConfSettingsNotSet
| MaxBaseVolBelowMinBaseVol (min max : MmNumber).

Definition validate_price (price : MmNumber) : result MakerOrderBuildError unit :=
  let min_price := 0 # 1 in
  if num_le price min_price then Err (PriceTooLow price min_price) else Ok tt.

(** Called with a price that [validate_price] has let through, or with the
    price of an order: the division is by a positive number. *)
Definition validate_and_get_min_vol (min_base_amount min_rel_amount : MmNumber)
  (min_base_vol : option MmNumber) (price : MmNumber) : result MakerOrderBuildError MmNumber :=
  let base_min_by_rel := (min_rel_amount / price)%num in
  let base_min_vol_threshold := num_max min_base_amount base_min_by_rel in
  let actual_min_base_vol := default base_min_vol_threshold min_base_vol in
  if num_lt actual_min_base_vol base_min_vol_threshold
  then Err (MinBaseVolTooLow actual_min_base_vol base_min_vol_threshold)
  else Ok actual_min_base_vol.

Definition validate_max_vol (min_base_amount min_rel_amount max_base_vol : MmNumber)
  (min_base_vol : option MmNumber) (price : MmNumber) : result MakerOrderBuildError unit :=
  (let? _ := match min_base_vol with
             | Some min => if num_lt max_base_vol min
                           then Err (MaxBaseVolBelowMinBaseVol min max_base_vol) else Ok tt
             | None => Ok tt
             end in
   if num_lt max_base_vol min_base_amount
   then Err (MaxBaseVolTooLow max_base_vol min_base_amount)
   else
     let rel_vol := (max_base_vol * price)%num in
     if num_lt rel_vol min_rel_amount then Err (RelVolTooLow rel_vol min_rel_amount)
     else Ok tt)%result.

Definition maker_build (b : MakerOrderBuilder) (now : Z) (uuid : Uuid) (key : bytes)
  : result MakerOrderBuildError MakerOrder :=
  if bool_decide (oc_ticker (mb_base_coin b) = oc_ticker (mb_rel_coin b)) then Err BaseEqualRel
  else if negb (bool_decide (is_Some (mb_conf_settings b))) then Err ConfSettingsNotSet
  else
    let min_base_amount := min_trading_vol (mb_base_coin b) in
    let min_rel_amount := min_trading_vol (mb_rel_coin b) in
    (let? _ := validate_price (mb_price b) in
     let? actual_min_base_vol :=
       validate_and_get_min_vol min_base_amount min_rel_amount (mb_min_base_vol b) (mb_price b) in
     let? _ := validate_max_vol min_base_amount min_rel_amount (mb_max_base_vol b)
                 (mb_min_base_vol b) (mb_price b) in
     Ok (mkMakerOrder (mb_max_base_vol b) actual_min_base_vol (mb_price b) now (Some now)
           (oc_ticker (mb_base_coin b)) (oc_ticker (mb_rel_coin b)) empty [] uuid
           (mb_conf_settings b) (mb_save_in_history b) (mb_base_orderbook_ticker b)
           (mb_rel_orderbook_ticker b)
           (if oc_is_privacy (mb_base_coin b) then Some key else None)
           (mb_swap_version b) (mb_timeout_in_minutes b)))%result.

(** [From<TakerOrder> for MakerOrder]: an unmatched taker order becomes a maker
    order; a "buy" is turned around. *)
Definition maker_order_from_taker (o : TakerOrder) (created_at : Z) : MakerOrder :=
  let r := to_request o in
  match tr_action r with
  | Sell =>
      mkMakerOrder (tr_base_amount r) (to_min_volume o)
        (tr_rel_amount r / tr_base_amount r)%num created_at (Some created_at)
        (tr_base r) (tr_rel r) empty [] (tr_uuid r) (tr_conf_settings r) (to_save_in_history o)
        (to_base_orderbook_ticker o) (to_rel_orderbook_ticker o) (to_p2p_privkey o)
        (tr_swap_version r) None
  | Buy =>
      let price := (tr_base_amount r / tr_rel_amount r)%num in
      mkMakerOrder (tr_rel_amount r) (to_min_volume o / price)%num price created_at
        (Some created_at) (tr_rel r) (tr_base r) empty [] (tr_uuid r)
        (reversed <$> tr_conf_settings r) (to_save_in_history o) (to_rel_orderbook_ticker o)
        (to_base_orderbook_ticker o) (to_p2p_privkey o) (tr_swap_version r) None
  end.

(** ** Matching *)

Definition add_reserved (reserved : MmNumber) (m : MakerMatch) : MmNumber :=
  (reserved + rv_base_amount (mm_reserved m))%num.

Definition reserved_amount (o : MakerOrder) : MmNumber :=
  foldl add_reserved (0 # 1) (map_values (mo_matches o)).

Definition available_amount (o : MakerOrder) : MmNumber :=
  (max_base_vol o - reserved_amount o)%num.

(** A match that neither side has connected yet. *)
Definition is_ongoing (m : MakerMatch) : bool :=
  bool_decide (mm_connected m = None) && bool_decide (mm_connect m = None).


Definition has_ongoing_matches (o : MakerOrder) : bool :=
  existsb is_ongoing (map_values (mo_matches o)).

Definition is_cancellable (o : MakerOrder) : bool := negb (has_ongoing_matches o).

Definition taker_is_cancellable (o : TakerOrder) : bool := bool_decide (to_matches o = empty).

Inductive OrderMatchResult : Type :=
| Matched (base_amount rel_amount : MmNumber)
| NotMatched.

Definition ticker_is (ticker : string) (orderbook_ticker : option string) (other : string) : bool :=
  bool_decide (ticker = other) || bool_decide (orderbook_ticker = Some other).

(** The price of an order is positive (see [order_ok] below), so the division
    by it does not panic. *)
Definition match_with_request (o : MakerOrder) (taker : TakerRequest) : OrderMatchResult :=
  let taker_base_amount := tr_base_amount taker in
  let taker_rel_amount := tr_rel_amount taker in
  if num_le taker_base_amount (0 # 1) || num_le taker_rel_amount (0 # 1) then NotMatched
  else
    match tr_action taker with
    | Buy =>
        let ticker_match :=
          ticker_is (mo_base o) (mo_base_orderbook_ticker o) (tr_base taker) &&
          ticker_is (mo_rel o) (mo_rel_orderbook_ticker o) (tr_rel taker) in
        let taker_price := (taker_rel_amount / taker_base_amount)%num in
        if ticker_match && num_le taker_base_amount (available_amount o)
           && num_le (min_base_vol o) taker_base_amount && num_le (price o) taker_price
        then Matched taker_base_amount (taker_base_amount * price o)%num
        else NotMatched
    | Sell =>
        let ticker_match :=
          ticker_is (mo_base o) (mo_base_orderbook_ticker o) (tr_rel taker) &&
          ticker_is (mo_rel o) (mo_rel_orderbook_ticker o) (tr_base taker) in
        let taker_price := (taker_base_amount / taker_rel_amount)%num in
        let matched_base_amount := (taker_base_amount / price o)%num in
        let matched_rel_amount := taker_base_amount in
        if ticker_match && num_le matched_base_amount (available_amount o)
           && num_le (min_base_vol o) matched_base_amount && num_le (price o) taker_price
        then Matched matched_base_amount matched_rel_amount
        else NotMatched
    end.

Inductive MatchReservedResult : Type :=
| ReservedMatched
| ReservedNotMatched.

Definition match_reserved (o : TakerOrder) (reserved : MakerReserved) : MatchReservedResult :=
  let r := to_request o in
  let allowed :=
    match tr_match_by r with
    | MatchAny => true
    | MatchOrders uuids => bool_decide (rv_maker_order_uuid reserved ∈ uuids)
    | MatchPubkeys pubkeys => bool_decide (rv_sender_pubkey reserved ∈ pubkeys)
    end in
  if negb allowed then ReservedNotMatched
  else
    let my_base_amount := tr_base_amount r in
    let my_rel_amount := tr_rel_amount r in
    let other_base_amount := rv_base_amount reserved in
    let other_rel_amount := rv_rel_amount reserved in
    match tr_action r with
    | Buy =>
        let match_ticker :=
          ticker_is (tr_base r) (to_base_orderbook_ticker o) (rv_base reserved) &&
          ticker_is (tr_rel r) (to_rel_orderbook_ticker o) (rv_rel reserved) in
        if match_ticker && num_eq my_base_amount other_base_amount
           && num_le other_rel_amount my_rel_amount
        then ReservedMatched else ReservedNotMatched
    | Sell =>
        let match_ticker :=
          ticker_is (tr_base r) (to_base_orderbook_ticker o) (rv_rel reserved) &&
          ticker_is (tr_rel r) (to_rel_orderbook_ticker o) (rv_base reserved) in
        if match_ticker && num_eq my_base_amount other_rel_amount
           && num_le my_rel_amount other_base_amount
        then ReservedMatched else ReservedNotMatched
    end.

Definition is_matched (m : MatchReservedResult) : bool :=
  match m with ReservedMatched => true | ReservedNotMatched => false end.

(** ** Confirmation settings of the swap *)

Definition coin_conf_settings (base rel : OrderCoin) : OrderConfirmationsSettings :=
  mkOrderConf (required_confirmations base) (oc_requires_notarization base)
    (required_confirmations rel) (oc_requires_notarization rel).

Definition choose_maker_confs_and_notas (maker_confs : option OrderConfirmationsSettings)
  (taker_req : TakerRequest) (maker_coin taker_coin : OrderCoin) : SwapConfirmationsSettings :=
  let maker_settings := default (coin_conf_settings maker_coin taker_coin) maker_confs in
  let '(confs, nota) :=
    match tr_conf_settings taker_req with
    | Some taker_settings =>
        match tr_action taker_req with
        | Sell =>
            (if rel_confs taker_settings <? base_confs maker_settings
             then rel_confs taker_settings else base_confs maker_settings,
             if negb (rel_nota taker_settings)
             then rel_nota taker_settings else base_nota maker_settings)
        | Buy =>
            (if base_confs taker_settings <? base_confs maker_settings
             then base_confs taker_settings else base_confs maker_settings,
             if negb (base_nota taker_settings)
             then base_nota taker_settings else base_nota maker_settings)
        end
    | None => (base_confs maker_settings, base_nota maker_settings)
    end in
  mkConfSettings confs nota (rel_confs maker_settings) (rel_nota maker_settings).

Definition choose_taker_confs_and_notas (taker_req : TakerRequest)
  (maker_conf_settings : option OrderConfirmationsSettings)
  (maker_coin taker_coin : OrderCoin) : SwapConfirmationsSettings :=
  let '(taker_confs, taker_nota, maker_confs, maker_nota) :=
    match tr_action taker_req with
    | Buy =>
        match tr_conf_settings taker_req with
        | Some s => (rel_confs s, rel_nota s, base_confs s, base_nota s)
        | None => (required_confirmations taker_coin, oc_requires_notarization taker_coin,
                   required_confirmations maker_coin, oc_requires_notarization maker_coin)
        end
    | Sell =>
        match tr_conf_settings taker_req with
        | Some s => (base_confs s, base_nota s, rel_confs s, rel_nota s)
        | None => (required_confirmations taker_coin, oc_requires_notarization taker_coin,
                   required_confirmations maker_coin, oc_requires_notarization maker_coin)
        end
    end in
  let '(taker_confs, taker_nota) :=
    match maker_conf_settings with
    | Some from_maker =>
        (if rel_confs from_maker <? taker_confs then rel_confs from_maker else taker_confs,
         if negb (rel_nota from_maker) then rel_nota from_maker else taker_nota)
    | None => (taker_confs, taker_nota)
    end in
  mkConfSettings maker_confs maker_nota taker_confs taker_nota.
