(* ===== verification/OrdermatchNode.v ===== *)
(** * The ordermatch handlers of a node (mm2_main/src/lp_ordermatch.rs)

    The node's own orders ([MakerOrdersContext], [my_taker_orders],
    [pending_maker_reserved] of [OrdermatchContext]) and the handlers that
    change them: the four messages of a match, the rounds of
    [lp_ordermatch_loop], the balance handler, the update and the cancellation
    of orders.  A handler is a function from the node's state and what the
    outside answers ([Env]) to the next state and the outward actions in their
    order.  A handler works under the lock of the order it changes, so it is
    one step. *)

From Stdlib Require Import Sorting.Sorted.
From S2P Require Import Prelude MmNumber DexFee Swap Ordermatch.

Open Scope Z_scope.

(** ** State *)

(** [orders] is a timed map of a crate: an expired entry stays in it until
    [drop_expired_entries], and [live] of [Env] says whether the map still
    answers for a key. *)
Record MakerOrdersContext : Type := mkMakerCtx {
  orders : gmap Uuid MakerOrder;
  expirable : gmap Uuid Z;
  order_tickers : gmap Uuid string;
  count_by_tickers : gmap string nat;
  balance_loops : gset string }.

Record OrdermatchContext : Type := mkNode {
  maker_orders_ctx : MakerOrdersContext;
  my_taker_orders : gmap Uuid TakerOrder;
  pending_maker_reserved : gmap Uuid (list MakerReserved) }.

Definition MakerOrdersContext_new : MakerOrdersContext :=
  mkMakerCtx empty empty empty empty empty.

Definition OrdermatchContext_new : OrdermatchContext :=
  mkNode MakerOrdersContext_new empty empty.

(** What a handler asks of the outside: the clock, the node's public key (none
    before the crypto context is there), the two coins of a pair when both are
    active, the timed map's answers and whether removing an expired entry of
    it takes the entry away. *)
Record Env : Type := mkEnv {
  now_ms : Z;
  mm2_internal_public_id : option H256;
  find_pair : string -> string -> option (OrderCoin * OrderCoin);
  live : Uuid -> bool;
  purge_expired : bool }.

Inductive MakerOrderCancellationReason : Type :=
| MakerFulfilled | MakerInsufficientBalance | MakerCancelled | MakerExpired.

Inductive TakerOrderCancellationReason : Type :=
| TakerFulfilled | TakerToMaker | TakerTimedOut | TakerCancelled.

(** [MakerOrderUpdated::V2] *)
Record MakerOrderUpdated : Type := mkUpdated {
  up_uuid : Uuid;
  new_price : option MmNumber;
  new_max_volume : option MmNumber;
  new_min_volume : option MmNumber;
  new_conf_settings : option OrderConfirmationsSettings }.

Inductive OrdermatchMessage : Type :=
| MsgTakerRequest (r : TakerRequest)
| MsgMakerReserved (r : MakerReserved)
| MsgTakerConnect (c : TakerConnect)
| MsgMakerConnected (c : MakerConnected)
| MsgMakerOrderCreated (o : MakerOrder)
| MsgMakerOrderUpdated (u : MakerOrderUpdated)
| MsgMakerOrderCancelled (uuid : Uuid).

Inductive Action : Type :=
| Broadcast (topic : string) (msg : OrdermatchMessage) (p2p_privkey : option bytes)
| StartBob (maker_match : MakerMatch) (maker_order : MakerOrder) (taker_p2p_pubkey : H264)
| StartAlice (taker_order : TakerOrder) (taker_match : TakerMatch) (maker_p2p_pubkey : H264)
| SaveNewMakerOrder (o : MakerOrder)
| SaveNewTakerOrder (o : TakerOrder)
| UpdateMakerOrder (o : MakerOrder)
| UpdateTakerOrder (o : TakerOrder)
| DeleteMakerOrder (o : MakerOrder) (reason : MakerOrderCancellationReason)
| DeleteTakerOrder (o : TakerOrder) (reason : TakerOrderCancellationReason).

Definition set_ctx (c : MakerOrdersContext) (s : OrdermatchContext) : OrdermatchContext :=
  mkNode c (my_taker_orders s) (pending_maker_reserved s).

Definition set_takers (t : gmap Uuid TakerOrder) (s : OrdermatchContext) : OrdermatchContext :=
  mkNode (maker_orders_ctx s) t (pending_maker_reserved s).

Definition set_pending (p : gmap Uuid (list MakerReserved)) (s : OrdermatchContext)
  : OrdermatchContext :=
  mkNode (maker_orders_ctx s) (my_taker_orders s) p.

(** A change made under the lock of the order, seen by every holder of it. *)
Definition put_order (uuid : Uuid) (o : MakerOrder) (s : OrdermatchContext) : OrdermatchContext :=
  let c := maker_orders_ctx s in
  set_ctx (mkMakerCtx (<[uuid := o]> (orders c)) (expirable c) (order_tickers c)
             (count_by_tickers c) (balance_loops c)) s.

Definition order_at (s : OrdermatchContext) (uuid : Uuid) : option MakerOrder :=
  orders (maker_orders_ctx s) !! uuid.

(** [PublicKey::unprefixed] *)
Definition unprefixed (pubkey : H264) : H256 := drop 1 pubkey.

(** ** The orders of the node *)

Definition add_order (order : MakerOrder) (c : MakerOrdersContext) : MakerOrdersContext :=
  let ticker := mo_base order in
  let uuid := mo_uuid order in
  mkMakerCtx
    (<[uuid := order]> (orders c))
    (match timeout_in_minutes order with
     | Some t => <[uuid := t * 60]> (expirable c)
     | None => delete uuid (expirable c)
     end)
    (<[uuid := ticker]> (order_tickers c))
    (<[ticker := S (default 0%nat (count_by_tickers c !! ticker))]> (count_by_tickers c))
    ({[ticker]} ∪ balance_loops c).

Definition get_order (env : Env) (uuid : Uuid) (c : MakerOrdersContext) : option MakerOrder :=
  if live env uuid then orders c !! uuid else None.

Definition coin_has_active_maker_orders (ticker : string) (c : MakerOrdersContext) : bool :=
  match count_by_tickers c !! ticker with Some (S _) => true | _ => false end.

Definition stop_balance_loop (ticker : string) (c : MakerOrdersContext) : MakerOrdersContext :=
  mkMakerCtx (orders c) (expirable c) (order_tickers c) (count_by_tickers c)
    (balance_loops c ∖ {[ticker]}).

Definition orders_remove (uuid : Uuid) (c : MakerOrdersContext) : MakerOrdersContext :=
  mkMakerCtx (delete uuid (orders c)) (delete uuid (expirable c)) (order_tickers c)
    (count_by_tickers c) (balance_loops c).

Definition remove_order (env : Env) (uuid : Uuid) (c : MakerOrdersContext)
  : option MakerOrder * MakerOrdersContext :=
  match get_order env uuid c with
  | None => (None, if purge_expired env then orders_remove uuid c else c)
  | Some order =>
      let c := orders_remove uuid c in
      match order_tickers c !! uuid with
      | None => (None, c)
      | Some ticker =>
          let c := mkMakerCtx (orders c) (expirable c) (delete uuid (order_tickers c))
                     (match count_by_tickers c !! ticker with
                      | Some (S n) => <[ticker := n]> (count_by_tickers c)
                      | _ => count_by_tickers c
                      end) (balance_loops c) in
          let c := if coin_has_active_maker_orders ticker c then c
                   else stop_balance_loop ticker c in
          (Some order, c)
      end
  end.

(** [maker_order_cancelled_p2p_notify] and [delete_my_maker_order] of an order
    that [remove_order] has taken out. *)
Definition cancel_actions (o : MakerOrder) (reason : MakerOrderCancellationReason) : list Action :=
  [Broadcast (maker_orderbook_topic o) (MsgMakerOrderCancelled (mo_uuid o)) (mo_p2p_privkey o);
   DeleteMakerOrder o reason].

Definition remove_and_cancel (env : Env) (uuid : Uuid) (order : MakerOrder)
  (reason : MakerOrderCancellationReason) (s : OrdermatchContext)
  : bool * OrdermatchContext * list Action :=
  let '(removed, c) := remove_order env uuid (maker_orders_ctx s) in
  match removed with
  | Some _ => (true, set_ctx c s, cancel_actions order reason)
  | None => (false, set_ctx c s, [])
  end.

(** ** The maker's side of a match *)

Definition ORDER_MATCH_TIMEOUT : Z := 30.

Definition maker_lock_duration (order : MakerOrder) (req : TakerRequest)
  (base_coin rel_coin : OrderCoin) : Z :=
  let my_conf_settings :=
    choose_maker_confs_and_notas (mo_conf_settings order) req base_coin rel_coin in
  let other_conf_settings :=
    choose_taker_confs_and_notas req (mo_conf_settings order) base_coin rel_coin in
  mul_ceil (lp_atomic_locktime (order_base_orderbook_ticker order)
              (order_rel_orderbook_ticker order) (V2 my_conf_settings other_conf_settings))
    (maker_locktime_multiplier (oc_coin rel_coin)).

Definition make_reserved (our_public_id : H256) (req : TakerRequest) (uuid : Uuid)
  (order : MakerOrder) (base_amount rel_amount : MmNumber) (base_coin rel_coin : OrderCoin)
  : MakerReserved :=
  mkReserved (order_base_orderbook_ticker order) (order_rel_orderbook_ticker order)
    base_amount rel_amount (tr_uuid req) uuid our_public_id (tr_sender_pubkey req)
    (Some (default (coin_conf_settings base_coin rel_coin) (mo_conf_settings order)))
    (Some (coin_protocol_info base_coin None))
    (Some (coin_protocol_info rel_coin (Some rel_amount)))
    (mo_swap_version order).

(** The loop of [process_taker_request] over the orders that the request can
    match with, in the order [iter] of the map: the first order that matches
    ends it. *)
Fixpoint request_loop (env : Env) (our_public_id : H256) (req : TakerRequest)
  (iter : list Uuid) (s : OrdermatchContext) : OrdermatchContext * list Action :=
  match iter with
  | [] => (s, [])
  | uuid :: iter =>
      if negb (can_match_with_uuid req uuid) then request_loop env our_public_id req iter s
      else
        match order_at s uuid with
        | None => request_loop env our_public_id req iter s
        | Some order =>
            match match_with_request order req with
            | NotMatched => request_loop env our_public_id req iter s
            | Matched base_amount rel_amount =>
                match find_pair env (mo_base order) (mo_rel order) with
                | None => (s, [])
                | Some (base_coin, rel_coin) =>
                    let lock := maker_lock_duration order req base_coin rel_coin in
                    if bool_decide (mo_matches order !! tr_uuid req = None)
                       && is_coin_protocol_supported base_coin
                            (base_protocol_info_for_maker req) (Some base_amount) lock true
                       && is_coin_protocol_supported rel_coin
                            (rel_protocol_info_for_maker req) None lock true
                    then
                      let reserved := make_reserved our_public_id req uuid order base_amount
                                        rel_amount base_coin rel_coin in
                      let maker_match := mkMakerMatch req reserved None None (now_ms env) in
                      let order' :=
                        set_matches (<[tr_uuid req := maker_match]> (mo_matches order)) order in
                      (put_order uuid order' s,
                       [Broadcast (maker_orderbook_topic order) (MsgMakerReserved reserved)
                          (mo_p2p_privkey order);
                        UpdateMakerOrder order'])
                    else (s, [])
                end
            end
        end
  end.

Definition process_taker_request (env : Env) (from_pubkey : H256) (req : TakerRequest)
  (iter : list Uuid) (s : OrdermatchContext) : OrdermatchContext * list Action :=
  match mm2_internal_public_id env with
  | None => (s, [])
  | Some our_public_id =>
      if bool_decide (our_public_id = from_pubkey) then (s, [])
      else if negb (can_match_with_maker_pubkey req our_public_id) then (s, [])
      else request_loop env our_public_id req iter s
  end.

Definition connect_match (connect : TakerConnect) (connected : MakerConnected) (m : MakerMatch)
  : MakerMatch :=
  mkMakerMatch (mm_request m) (mm_reserved m) (Some connect) (Some connected) (mm_last_updated m).

Definition process_taker_connect (env : Env) (sender_pubkey : H264) (connect_msg : TakerConnect)
  (s : OrdermatchContext) : OrdermatchContext * list Action :=
  match mm2_internal_public_id env with
  | None => (s, [])
  | Some our_public_id =>
      if bool_decide (our_public_id = unprefixed sender_pubkey) then (s, [])
      else
        match get_order env (cn_maker_order_uuid connect_msg) (maker_orders_ctx s) with
        | None => (s, [])
        | Some my_order =>
            match mo_matches my_order !! cn_taker_order_uuid connect_msg with
            | None => (s, [])
            | Some order_match =>
                if negb (bool_decide (tr_sender_pubkey (mm_request order_match)
                                      = unprefixed sender_pubkey))
                then (s, [])
                else if is_ongoing order_match then
                  let connected :=
                    mkConnected (cn_taker_order_uuid connect_msg)
                      (cn_maker_order_uuid connect_msg) "connected" our_public_id
                      (cn_sender_pubkey connect_msg) in
                  let order_match := connect_match connect_msg connected order_match in
                  let my_order :=
                    push_started_swap (tr_uuid (mm_request order_match))
                      (set_matches
                         (<[cn_taker_order_uuid connect_msg := order_match]> (mo_matches my_order))
                         my_order) in
                  let topic := maker_orderbook_topic my_order in
                  (put_order (cn_maker_order_uuid connect_msg) my_order s,
                   [StartBob order_match my_order sender_pubkey;
                    Broadcast topic (MsgMakerConnected connected) (mo_p2p_privkey my_order)] ++
                   (if num_le (min_base_vol my_order) (available_amount my_order)
                    then [Broadcast topic
                            (MsgMakerOrderUpdated
                               (mkUpdated (mo_uuid my_order) None
                                  (Some (available_amount my_order)) None None))
                            (mo_p2p_privkey my_order)]
                    else []) ++
                   [UpdateMakerOrder my_order])
                else (s, [])
            end
        end
  end.

(** ** The taker's side of a match *)

(** [sort_unstable_by_key]: some rearrangement in increasing key order. *)
Class UnstableSort := {
  sort_by_price : list MakerReserved -> list MakerReserved;
  sort_by_price_perm : forall l, Permutation (sort_by_price l) l;
  sort_by_price_sorted : forall l, StronglySorted (fun a b => rv_price a <= rv_price b)%Q
                                     (sort_by_price l) }.

(** [process_maker_reserved] up to its sleep: the message is put with the
    others of its order.  The result says whether this call goes on, to
    [process_pending_reserved] after three seconds.  An order exists only when
    the crypto context does. *)
Definition receive_maker_reserved (env : Env) (from_pubkey : H256) (reserved_msg : MakerReserved)
  (s : OrdermatchContext) : bool * OrdermatchContext :=
  let uuid := rv_taker_order_uuid reserved_msg in
  match my_taker_orders s !! uuid, mm2_internal_public_id env with
  | Some _, Some our_public_id =>
      if bool_decide (our_public_id = from_pubkey) then (false, s)
      else
        let pending := default [] (pending_maker_reserved s !! uuid) ++ [reserved_msg] in
        (negb (1 <? Z.of_nat (length pending)),
         set_pending (<[uuid := pending]> (pending_maker_reserved s)) s)
  | _, _ => (false, s)
  end.

Definition taker_lock_time (order : TakerOrder) (reserved : MakerReserved)
  (base_coin rel_coin : OrderCoin) : Z :=
  let my_conf_settings :=
    choose_maker_confs_and_notas (rv_conf_settings reserved) (to_request order) base_coin rel_coin in
  let other_conf_settings :=
    choose_taker_confs_and_notas (to_request order) (rv_conf_settings reserved) base_coin rel_coin in
  lp_atomic_locktime (maker_orderbook_ticker order) (taker_orderbook_ticker order)
    (V2 my_conf_settings other_conf_settings).

(** The conditions under which a reserved message is connected to. *)
Definition acceptable (order : TakerOrder) (base_coin rel_coin : OrderCoin)
  (reserved : MakerReserved) : bool :=
  let lock_time := taker_lock_time order reserved base_coin rel_coin in
  is_matched (match_reserved order reserved) && bool_decide (to_matches order = empty)
  && is_coin_protocol_supported base_coin (rv_base_protocol_info reserved) None lock_time false
  && is_coin_protocol_supported rel_coin (rv_rel_protocol_info reserved)
       (Some (rv_rel_amount reserved)) lock_time false.

Fixpoint reserved_loop (env : Env) (our_public_id : H256) (uuid : Uuid) (my_order : TakerOrder)
  (base_coin rel_coin : OrderCoin) (messages : list MakerReserved) (s : OrdermatchContext)
  : OrdermatchContext * list Action :=
  match messages with
  | [] => (s, [])
  | reserved_msg :: messages =>
      if acceptable my_order base_coin rel_coin reserved_msg then
        let connect :=
          mkConnect (rv_taker_order_uuid reserved_msg) (rv_maker_order_uuid reserved_msg)
            our_public_id (rv_sender_pubkey reserved_msg) in
        let taker_match := mkTakerMatch reserved_msg connect None (now_ms env) in
        let my_order' :=
          set_to_matches (<[rv_maker_order_uuid reserved_msg := taker_match]>
                            (to_matches my_order)) my_order in
        (set_takers (<[uuid := my_order']> (my_taker_orders s)) s,
         [Broadcast (taker_orderbook_topic my_order) (MsgTakerConnect connect)
            (to_p2p_privkey my_order);
          UpdateTakerOrder my_order'])
      else reserved_loop env our_public_id uuid my_order base_coin rel_coin messages s
  end.

(** The comparison of two prices divides; the keys are computed when there are
    two messages or more. *)
Definition sort_panics (messages : list MakerReserved) : bool :=
  (1 <? Z.of_nat (length messages))
  && existsb (fun r => num_eq (rv_base_amount r) (0 # 1)) messages.

(** [process_maker_reserved] after its sleep; the second result is [true] when
    the task panics. *)
Definition process_pending_reserved `{UnstableSort} (env : Env) (uuid : Uuid)
  (s : OrdermatchContext) : OrdermatchContext * bool * list Action :=
  match mm2_internal_public_id env, my_taker_orders s !! uuid with
  | Some our_public_id, Some my_order =>
      match find_pair env (maker_coin_ticker my_order) (taker_coin_ticker my_order) with
      | None => (s, false, [])
      | Some (base_coin, rel_coin) =>
          match pending_maker_reserved s !! uuid with
          | None => (s, false, [])
          | Some messages =>
              let s := set_pending (delete uuid (pending_maker_reserved s)) s in
              if sort_panics messages then (s, true, [])
              else
                let '(s, actions) :=
                  reserved_loop env our_public_id uuid my_order base_coin rel_coin
                    (sort_by_price messages) s in
                (s, false, actions)
          end
      end
  | _, _ => (s, false, [])
  end.

Definition process_maker_connected (env : Env) (from_pubkey : H264) (connected : MakerConnected)
  (s : OrdermatchContext) : OrdermatchContext * list Action :=
  match mm2_internal_public_id env with
  | None => (s, [])
  | Some our_public_id =>
      if bool_decide (our_public_id = unprefixed from_pubkey) then (s, [])
      else
        match my_taker_orders s !! cd_taker_order_uuid connected with
        | None => (s, [])
        | Some my_order =>
            match to_matches my_order !! cd_maker_order_uuid connected with
            | None => (s, [])
            | Some order_match =>
                if negb (bool_decide (rv_sender_pubkey (tm_reserved order_match)
                                      = unprefixed from_pubkey))
                then (s, [])
                else
                  (set_takers (delete (cd_taker_order_uuid connected) (my_taker_orders s)) s,
                   [StartAlice my_order order_match from_pubkey;
                    DeleteTakerOrder my_order TakerFulfilled])
            end
        end
  end.

(** ** The rounds of [lp_ordermatch_loop] *)

(** [drain] visits the orders in some order [iter]; an order that is kept goes
    to the new map. *)
Fixpoint timed_out_takers (env : Env) (iter : list (Uuid * TakerOrder))
  (c : MakerOrdersContext) (kept : gmap Uuid TakerOrder)
  : MakerOrdersContext * gmap Uuid TakerOrder * list Action :=
  match iter with
  | [] => (c, kept, [])
  | (uuid, order) :: iter =>
      if now_ms env <=? wrap 64 (to_created_at order + wrap 64 (to_timeout order * 1000))
      then timed_out_takers env iter c (<[uuid := order]> kept)
      else if negb (bool_decide (to_matches order = empty))
              || match to_order_type order with GoodTillCancelled => false | _ => true end
      then
        let '(c, kept, actions) := timed_out_takers env iter c kept in
        (c, kept, DeleteTakerOrder order TakerTimedOut :: actions)
      else
        let maker_order := maker_order_from_taker order (now_ms env) in
        let '(c, kept, actions) := timed_out_takers env iter (add_order maker_order c) kept in
        (c, kept,
         [DeleteTakerOrder order TakerToMaker; SaveNewMakerOrder maker_order] ++
         match find_pair env (mo_base maker_order) (mo_rel maker_order) with
         | Some _ => [Broadcast (maker_orderbook_topic maker_order)
                        (MsgMakerOrderCreated maker_order) (mo_p2p_privkey maker_order)]
         | None => []
         end ++ actions)
  end.

Definition handle_timed_out_taker_orders (env : Env) (s : OrdermatchContext)
  : OrdermatchContext * list Action :=
  let '(c, kept, actions) :=
    timed_out_takers env (map_to_list (my_taker_orders s)) (maker_orders_ctx s) empty in
  (set_takers kept (set_ctx c s), actions).

Definition keep_match (now : Z) (m : MakerMatch) : bool :=
  (now <? mm_last_updated m + ORDER_MATCH_TIMEOUT * 1000)
  || bool_decide (is_Some (mm_connected m)).

Definition drop_timed_out_matches (now : Z) (o : MakerOrder) : MakerOrder :=
  set_matches (filter (fun p => keep_match now (snd p) = true) (mo_matches o)) o.

Fixpoint handle_timed_out_maker_matches (env : Env) (iter : list Uuid) (s : OrdermatchContext)
  : OrdermatchContext * list Action :=
  match iter with
  | [] => (s, [])
  | uuid :: iter =>
      match order_at s uuid with
      | None => handle_timed_out_maker_matches env iter s
      | Some order =>
          let order' := drop_timed_out_matches (now_ms env) order in
          let '(s, actions) := handle_timed_out_maker_matches env iter (put_order uuid order' s) in
          (s, (if bool_decide (size (mo_matches order) = size (mo_matches order')) then []
               else [UpdateMakerOrder order']) ++ actions)
      end
  end.

Fixpoint check_balance_for_maker_orders (env : Env) (iter : list Uuid) (s : OrdermatchContext)
  : OrdermatchContext * list Action :=
  match iter with
  | [] => (s, [])
  | uuid :: iter =>
      match order_at s uuid with
      | None => check_balance_for_maker_orders env iter s
      | Some order =>
          if num_le (min_base_vol order) (available_amount order) || has_ongoing_matches order
          then check_balance_for_maker_orders env iter s
          else
            let reason := if bool_decide (mo_matches order = empty)
                          then MakerInsufficientBalance else MakerFulfilled in
            let '(_, s, cancelled) := remove_and_cancel env uuid order reason s in
            let '(s, actions) := check_balance_for_maker_orders env iter s in
            (s, cancelled ++ actions)
      end
  end.

(** [drop_expired_entries] takes the expired orders out of the timed map; the
    loop tells the others about them. *)
Fixpoint drop_expired (expired : list Uuid) (s : OrdermatchContext)
  : OrdermatchContext * list Action :=
  match expired with
  | [] => (s, [])
  | uuid :: expired =>
      match order_at s uuid, expirable (maker_orders_ctx s) !! uuid with
      | Some order, Some _ =>
          let '(s, actions) := drop_expired expired (set_ctx (orders_remove uuid (maker_orders_ctx s)) s) in
          (s, cancel_actions order MakerExpired ++ actions)
      | _, _ => drop_expired expired s
      end
  end.

(** The order of the loop that is missing in the orderbook: [max_vol] is what
    the balance allows, none when the balance is not known.  The result says
    whether the order is to be cancelled. *)
Definition kick_start_order (env : Env) (max_vol : option MmNumber) (uuid : Uuid)
  (s : OrdermatchContext) : bool * OrdermatchContext * list Action :=
  match get_order env uuid (maker_orders_ctx s) with
  | None => (false, s, [])
  | Some order =>
      match find_pair env (mo_base order) (mo_rel order) with
      | None => (false, s, [])
      | Some _ =>
          match max_vol with
          | None => (true, s, [])
          | Some max_vol =>
              let order :=
                if num_lt max_vol (available_amount order)
                then set_max_base_vol (reserved_amount order + max_vol)%num order else order in
              let s := put_order uuid order s in
              if num_lt (available_amount order) (min_base_vol order) then (true, s, [])
              else (false, s,
                    [Broadcast (maker_orderbook_topic order) (MsgMakerOrderCreated order)
                       (mo_p2p_privkey order)])
          end
      end
  end.

(** ** The change of a balance *)

(** [BalanceUpdateOrdermatchHandler::balance_updated] once [calc_max_maker_vol]
    has given the volume that the new balance of [coin] allows (zero when the
    balance does not pay the fees). *)
Fixpoint balance_updated (env : Env) (coin : string) (new_volume : MmNumber) (iter : list Uuid)
  (s : OrdermatchContext) : OrdermatchContext * list Action :=
  match iter with
  | [] => (s, [])
  | uuid :: iter =>
      match order_at s uuid with
      | None => balance_updated env coin new_volume iter s
      | Some order =>
          if negb (bool_decide (mo_base order = coin))
          then balance_updated env coin new_volume iter s
          else
            let '(removed, s, cancelled) :=
              if num_lt new_volume (min_base_vol order)
              then remove_and_cancel env uuid order MakerInsufficientBalance s
              else (false, s, []) in
            let '(s, updated) :=
              if negb removed && num_lt new_volume (available_amount order) then
                let order :=
                  set_max_base_vol (reserved_amount order + new_volume)%num order in
                (if bool_decide (is_Some (order_at s uuid)) then put_order uuid order s else s,
                 [Broadcast (maker_orderbook_topic order)
                    (MsgMakerOrderUpdated
                       (mkUpdated (mo_uuid order) None (Some (available_amount order)) None None))
                    (mo_p2p_privkey order)])
              else (s, []) in
            let '(s, actions) := balance_updated env coin new_volume iter s in
            (s, cancelled ++ updated ++ actions)
      end
  end.

(** ** The update of an order *)

Record MakerOrderUpdateReq : Type := mkUpdateReq {
  ur_uuid : Uuid;
  ur_new_price : option MmNumber;
  ur_max : option bool;
  ur_volume_delta : option MmNumber;
  ur_min_volume : option MmNumber;
  ur_base_confs : option Z;
  ur_base_nota : option bool;
  ur_rel_confs : option Z;
  ur_rel_nota : option bool }.

Inductive UpdateError : Type :=
| NoOrderWithUuid (uuid : Uuid)
| HasOngoingMatches
| PairNotActivated (base rel : string)
| UpdateInvalid (e : MakerOrderBuildError)
| UpdateBalance (e : CheckBalanceError)
| NewVolumeNotPositive (volume : MmNumber)
| NewVolumeNotMoreThanReserved (volume reserved : MmNumber)
| OrderDeleted (uuid : Uuid)
| OrderStateChanged
| UpdateNotSaved.

(** The answers of the balance checks. *)
Record BalanceAnswers : Type := mkAnswers {
  get_max_maker_vol : result CheckBalanceError MmNumber;
  check_other_coin_balance_for_order_issue : result CheckBalanceError unit;
  check_balance_for_order : MmNumber -> result CheckBalanceError unit }.

Definition updated_conf_settings (req : MakerOrderUpdateReq) (s : OrderConfirmationsSettings)
  : OrderConfirmationsSettings :=
  mkOrderConf (default (base_confs s) (ur_base_confs req))
    (default (base_nota s) (ur_base_nota req)) (default (rel_confs s) (ur_rel_confs req))
    (default (rel_nota s) (ur_rel_nota req)).

(** The new volume and what the message says of it. *)
Definition choose_new_volume (req : MakerOrderUpdateReq) (answers : BalanceAnswers)
  (original_volume reserved : MmNumber) : result UpdateError (MmNumber * option MmNumber) :=
  (if default false (ur_max req) then
     let? v := map_err UpdateBalance (get_max_maker_vol answers) in
     let max_volume := (v + reserved)%num in
     let? _ := map_err UpdateBalance (check_other_coin_balance_for_order_issue answers) in
     Ok (max_volume, Some max_volume)
   else
     match ur_volume_delta req with
     | Some delta =>
         let volume := (original_volume + delta)%num in
         if num_le volume (0 # 1) then Err (NewVolumeNotPositive volume)
         else
           let? _ := map_err UpdateBalance (check_balance_for_order answers volume) in
           Ok (volume, Some volume)
     | None => Ok (original_volume, None)
     end)%result.

(** [update_maker_order] up to its second look at the order: the message to
    apply and the volume less the reserved amount; [None] is the panic of
    [conf_settings.unwrap()]. *)
Definition prepare_update (env : Env) (req : MakerOrderUpdateReq) (answers : BalanceAnswers)
  (before : MakerOrder) : option (result UpdateError (MakerOrderUpdated * MmNumber)) :=
  if has_ongoing_matches before then Some (Err HasOngoingMatches)
  else
    match find_pair env (mo_base before) (mo_rel before) with
    | None => Some (Err (PairNotActivated (mo_base before) (mo_rel before)))
    | Some (base_coin, rel_coin) =>
        match mo_conf_settings before with
        | None => None
        | Some original =>
            let reserved := reserved_amount before in
            let min_base_amount := min_trading_vol base_coin in
            let min_rel_amount := min_trading_vol rel_coin in
            Some
              (let? new_price :=
                 match ur_new_price req with
                 | Some p => let? _ := map_err UpdateInvalid (validate_price p) in Ok p
                 | None => Ok (price before)
                 end in
               let? min_volume :=
                 match ur_min_volume req with
                 | Some v =>
                     let? v := map_err UpdateInvalid
                                 (validate_and_get_min_vol min_base_amount min_rel_amount
                                    (Some v) new_price) in
                     Ok (Some v)
                 | None => Ok None
                 end in
               let? volumes := choose_new_volume req answers (max_base_vol before) reserved in
               let '(new_volume, max_volume) := volumes in
               if num_le new_volume reserved
               then Err (NewVolumeNotMoreThanReserved new_volume reserved)
               else
                 let? _ := map_err UpdateInvalid
                             (validate_max_vol min_base_amount min_rel_amount
                                (new_volume - reserved)%num (ur_min_volume req) new_price) in
                 Ok (mkUpdated (ur_uuid req) (ur_new_price req) max_volume min_volume
                       (Some (updated_conf_settings req original)),
                     (new_volume - reserved)%num))%result
        end
    end.

Definition start_update (env : Env) (req : MakerOrderUpdateReq) (answers : BalanceAnswers)
  (s : OrdermatchContext)
  : option (result UpdateError (MakerOrder * (MakerOrderUpdated * MmNumber))) :=
  match get_order env (ur_uuid req) (maker_orders_ctx s) with
  | None => Some (Err (NoOrderWithUuid (ur_uuid req)))
  | Some before => result_map (pair before) <$> prepare_update env req answers before
  end.

Definition apply_updated (now : Z) (msg : MakerOrderUpdated) (o : MakerOrder) : MakerOrder :=
  mkMakerOrder (default (max_base_vol o) (new_max_volume msg))
    (default (min_base_vol o) (new_min_volume msg)) (default (price o) (new_price msg))
    (mo_created_at o) (Some now) (mo_base o) (mo_rel o) (mo_matches o) (started_swaps o)
    (mo_uuid o)
    (match new_conf_settings msg with Some s => Some s | None => mo_conf_settings o end)
    (mo_save_in_history o) (mo_base_orderbook_ticker o) (mo_rel_orderbook_ticker o)
    (mo_p2p_privkey o) (mo_swap_version o) (timeout_in_minutes o).

(** [PartialEq] of two states of an order; numbers are compared by value. *)
Definition with_numbers (max min p : MmNumber) (o : MakerOrder) : MakerOrder :=
  mkMakerOrder max min p (mo_created_at o) (mo_updated_at o) (mo_base o) (mo_rel o)
    (mo_matches o) (started_swaps o) (mo_uuid o) (mo_conf_settings o) (mo_save_in_history o)
    (mo_base_orderbook_ticker o) (mo_rel_orderbook_ticker o) (mo_p2p_privkey o)
    (mo_swap_version o) (timeout_in_minutes o).

Definition same_order (a b : MakerOrder) : bool :=
  num_eq (max_base_vol a) (max_base_vol b) && num_eq (min_base_vol a) (min_base_vol b)
  && num_eq (price a) (price b)
  && bool_decide (with_numbers (0 # 1) (0 # 1) (0 # 1) a = with_numbers (0 # 1) (0 # 1) (0 # 1) b).

(** The rest of [update_maker_order]; [saved] is whether the database took the
    new state. *)
Definition commit_update (env : Env) (req : MakerOrderUpdateReq) (before : MakerOrder)
  (update : MakerOrderUpdated * MmNumber) (saved : bool) (s : OrdermatchContext)
  : result UpdateError MakerOrder * OrdermatchContext * list Action :=
  let '(msg, announced) := update in
  match get_order env (ur_uuid req) (maker_orders_ctx s) with
  | None => (Err (OrderDeleted (ur_uuid req)), s, [])
  | Some order =>
      if negb (same_order order before) then (Err OrderStateChanged, s, [])
      else
        let order := apply_updated (now_ms env) msg order in
        if negb saved
        then (Err UpdateNotSaved, put_order (ur_uuid req) before s, [UpdateMakerOrder order])
        else
          let msg := mkUpdated (up_uuid msg) (new_price msg) (Some announced)
                       (new_min_volume msg) (new_conf_settings msg) in
          (Ok order, put_order (ur_uuid req) order s,
           [UpdateMakerOrder order;
            Broadcast (maker_orderbook_topic order) (MsgMakerOrderUpdated msg)
              (mo_p2p_privkey order)])
  end.

(** ** Cancellation *)

Inductive CancelOrderError : Type :=
| OrderBeingMatched (uuid : Uuid)
| UUIDNotFound (uuid : Uuid).

Definition cancel_order (env : Env) (uuid : Uuid) (s : OrdermatchContext)
  : result CancelOrderError unit * OrdermatchContext * list Action :=
  match get_order env uuid (maker_orders_ctx s) with
  | Some order =>
      if negb (is_cancellable order) then (Err (OrderBeingMatched uuid), s, [])
      else
        let '(_, s, actions) := remove_and_cancel env (mo_uuid order) order MakerCancelled s in
        (Ok tt, s, actions)
  | None =>
      match my_taker_orders s !! uuid with
      | Some order =>
          if negb (taker_is_cancellable order) then (Err (UUIDNotFound uuid), s, [])
          else (Ok tt, set_takers (delete uuid (my_taker_orders s)) s,
                [DeleteTakerOrder order TakerCancelled])
      | None => (Err (UUIDNotFound uuid), s, [])
      end
  end.

(** The orders of a pair go when a new one replaces them, matched or not. *)
Fixpoint cancel_previous_maker_orders (env : Env) (base_to_delete rel_to_delete : string)
  (iter : list Uuid) (s : OrdermatchContext) : OrdermatchContext * list Action :=
  match iter with
  | [] => (s, [])
  | uuid :: iter =>
      match order_at s uuid with
      | Some order =>
          let '(s, cancelled) :=
            if bool_decide (mo_base order = base_to_delete)
               && bool_decide (mo_rel order = rel_to_delete)
            then let '(_, s, cancelled) := remove_and_cancel env uuid order MakerCancelled s in
                 (s, cancelled)
            else (s, []) in
          let '(s, actions) :=
            cancel_previous_maker_orders env base_to_delete rel_to_delete iter s in
          (s, cancelled ++ actions)
      | None => cancel_previous_maker_orders env base_to_delete rel_to_delete iter s
      end
  end.

Inductive CancelBy : Type :=
| CancelAll
| CancelPair (base rel : string)
| CancelCoin (ticker : string).

Definition cancel_selects (by_ : CancelBy) (base rel : string) : bool :=
  match by_ with
  | CancelAll => true
  | CancelPair b r => bool_decide (base = b) && bool_decide (rel = r)
  | CancelCoin t => bool_decide (base = t) || bool_decide (rel = t)
  end.

Fixpoint remove_orders (env : Env) (uuids : list Uuid) (c : MakerOrdersContext)
  : MakerOrdersContext :=
  match uuids with
  | [] => c
  | uuid :: uuids => remove_orders env uuids (snd (remove_order env uuid c))
  end.

Definition cancel_orders_by (env : Env) (cancel_by : CancelBy) (iter : list Uuid)
  (s : OrdermatchContext) : (list Uuid * list Uuid) * OrdermatchContext * list Action :=
  let visited := omap (fun uuid => pair uuid <$> order_at s uuid) iter in
  let selected :=
    List.filter (fun p => cancel_selects cancel_by (mo_base (snd p)) (mo_rel (snd p))) visited in
  let makers := List.filter (fun p => is_cancellable (snd p)) selected in
  let busy := List.filter (fun p => negb (is_cancellable (snd p))) selected in
  let takers_selected :=
    List.filter (fun p => cancel_selects cancel_by (tr_base (to_request (snd p)))
                            (tr_rel (to_request (snd p)))) (map_to_list (my_taker_orders s)) in
  let takers := List.filter (fun p => taker_is_cancellable (snd p)) takers_selected in
  let busy_takers := List.filter (fun p => negb (taker_is_cancellable (snd p))) takers_selected in
  let kept := foldr (fun p t => delete (fst p) t) (my_taker_orders s) takers in
  ((makers.*1 ++ takers.*1, busy.*1 ++ busy_takers.*1),
   set_takers kept (set_ctx (remove_orders env makers.*1 (maker_orders_ctx s)) s),
   (makers.*2 ≫= fun o => cancel_actions o MakerCancelled) ++
   ((fun o => DeleteTakerOrder o TakerCancelled) <$> takers.*2)).

(** ** New orders *)

Inductive IssueError (E : Type) : Type :=
| OrderNotBuilt (e : E)
| NotSubscribed
| OrderNotSaved.
Arguments OrderNotBuilt {E} e.
Arguments NotSubscribed {E}.
Arguments OrderNotSaved {E}.

(** [create_maker_order] from [builder.build()] on.  [subscribed] and [saved]
    are the answers of the network and of the database. *)
Definition create_maker_order (builder : MakerOrderBuilder) (now : Z) (uuid : Uuid) (key : bytes)
  (subscribed saved : bool) (s : OrdermatchContext)
  : result (IssueError MakerOrderBuildError) MakerOrder * OrdermatchContext * list Action :=
  match maker_build builder now uuid key with
  | Err e => (Err (OrderNotBuilt e), s, [])
  | Ok new_order =>
      if negb subscribed then (Err NotSubscribed, s, [])
      else if negb saved then (Err OrderNotSaved, s, [SaveNewMakerOrder new_order])
      else
        (Ok new_order, set_ctx (add_order new_order (maker_orders_ctx s)) s,
         [SaveNewMakerOrder new_order;
          Broadcast (maker_orderbook_topic new_order) (MsgMakerOrderCreated new_order)
            (mo_p2p_privkey new_order)])
  end.

(** [lp_auto_buy] from [order_builder.build()] on; [None] is the panic of the
    builder. *)
Definition lp_auto_buy (builder : TakerOrderBuilder) (now : Z) (uuid : Uuid) (key : bytes)
  (subscribed saved : bool) (s : OrdermatchContext)
  : option (result (IssueError TakerOrderBuildError) TakerOrder * OrdermatchContext * list Action) :=
  match taker_build builder now uuid key with
  | None => None
  | Some (Err e) => Some (Err (OrderNotBuilt e), s, [])
  | Some (Ok order) =>
      if negb subscribed then Some (Err NotSubscribed, s, [])
      else
        let broadcast :=
          Broadcast (taker_orderbook_topic order)
            (MsgTakerRequest (broadcast_request order (tr_sender_pubkey (to_request order))))
            (to_p2p_privkey order) in
        if negb saved then Some (Err OrderNotSaved, s, [broadcast; SaveNewTakerOrder order])
        else
          Some (Ok order,
                set_takers (<[tr_uuid (to_request order) := order]> (my_taker_orders s)) s,
                [broadcast; SaveNewTakerOrder order])
  end.

(** ** Runs of a node *)

(** One step of a node.  The minimum volumes of coins and the volumes that
    balances allow are not negative; the update that is committed was prepared, earlier, for the state [before] of
    the order. *)
Inductive node_step `{UnstableSort} (s : OrdermatchContext) : OrdermatchContext -> list Action -> Prop :=
| StepCreateMaker builder now uuid key subscribed saved r s' acts :
    (0 <= min_trading_vol (mb_base_coin builder))%Q ->
    create_maker_order builder now uuid key subscribed saved s = (r, s', acts) ->
    node_step s s' acts
| StepCreateTaker builder now uuid key subscribed saved r s' acts :
    (0 <= min_trading_vol (tb_base_coin builder))%Q ->
    (0 <= min_trading_vol (tb_rel_coin builder))%Q ->
    lp_auto_buy builder now uuid key subscribed saved s = Some (r, s', acts) ->
    node_step s s' acts
| StepTakerRequest env from req iter s' acts :
    process_taker_request env from req iter s = (s', acts) -> node_step s s' acts
| StepTakerConnect env sender msg s' acts :
    process_taker_connect env sender msg s = (s', acts) -> node_step s s' acts
| StepReceiveReserved env from msg goes_on s' :
    receive_maker_reserved env from msg s = (goes_on, s') -> node_step s s' []
| StepPendingReserved env uuid panics s' acts :
    process_pending_reserved env uuid s = (s', panics, acts) -> node_step s s' acts
| StepMakerConnected env from msg s' acts :
    process_maker_connected env from msg s = (s', acts) -> node_step s s' acts
| StepTimedOutTakers env s' acts :
    handle_timed_out_taker_orders env s = (s', acts) -> node_step s s' acts
| StepTimedOutMatches env iter s' acts :
    handle_timed_out_maker_matches env iter s = (s', acts) -> node_step s s' acts
| StepCheckBalance env iter s' acts :
    check_balance_for_maker_orders env iter s = (s', acts) -> node_step s s' acts
| StepDropExpired expired s' acts :
    drop_expired expired s = (s', acts) -> node_step s s' acts
| StepKickStart env max_vol uuid cancel s' acts :
    (0 <= default (0 # 1) max_vol)%Q ->
    kick_start_order env max_vol uuid s = (cancel, s', acts) -> node_step s s' acts
| StepCancelKicked env uuid order removed s' acts :
    order_at s uuid = Some order ->
    remove_and_cancel env uuid order MakerInsufficientBalance s = (removed, s', acts) ->
    node_step s s' acts
| StepBalanceUpdated env coin new_volume iter s' acts :
    (0 <= new_volume)%Q ->
    balance_updated env coin new_volume iter s = (s', acts) -> node_step s s' acts
| StepCommitUpdate env0 env req answers before update saved r s' acts :
    prepare_update env0 req answers before = Some (Ok update) ->
    commit_update env req before update saved s = (r, s', acts) -> node_step s s' acts
| StepCancelOrder env uuid r s' acts :
    cancel_order env uuid s = (r, s', acts) -> node_step s s' acts
| StepCancelPrevious env base rel iter s' acts :
    cancel_previous_maker_orders env base rel iter s = (s', acts) -> node_step s s' acts
| StepCancelBy env by_ iter r s' acts :
    cancel_orders_by env by_ iter s = (r, s', acts) -> node_step s s' acts.

(** A run from the empty node, with all its actions. *)
Inductive run `{UnstableSort} : OrdermatchContext -> list Action -> Prop :=
| run_new : run OrdermatchContext_new []
| run_step s acts s' new : run s acts -> node_step s s' new -> run s' (acts ++ new).
