(* ===== verification/OrdermatchProps.v ===== *)
(** * Invariants of the order matching

    Helper lemmas about the amounts of orders, the conditions that the orders
    of a node satisfy, and their preservation by every handler. *)

From S2P Require Import Prelude MmNumber DexFee Swap Ordermatch OrdermatchNode.

Open Scope Z_scope.

(** ** Sums over the matches of an order *)

Definition match_amount (m : MakerMatch) : MmNumber := rv_base_amount (mm_reserved m).

Fixpoint amounts (l : list MakerMatch) : MmNumber :=
  match l with
  | [] => 0 # 1
  | m :: l => (match_amount m + amounts l)%num
  end.

Lemma foldl_add_reserved l a : (foldl add_reserved a l == a + amounts l)%Q.
Proof.
  revert a; induction l as [|m l IH]; intros a; cbn [foldl amounts]; [lra|].
  rewrite IH. unfold add_reserved, match_amount. lra.
Qed.

Lemma amounts_perm l k : l ≡ₚ k -> (amounts l == amounts k)%Q.
Proof.
  induction 1; cbn [amounts]; lra.
Qed.

Lemma amounts_app l k : (amounts (l ++ k) == amounts l + amounts k)%Q.
Proof. induction l as [|m l IH]; cbn [app amounts]; lra. Qed.

Definition reserved_in (m : gmap Uuid MakerMatch) : MmNumber := amounts (map_values m).

Lemma reserved_amount_in o : (reserved_amount o == reserved_in (mo_matches o))%Q.
Proof. unfold reserved_amount. rewrite foldl_add_reserved. unfold reserved_in. lra. Qed.

Lemma available_amount_in o :
  (available_amount o == max_base_vol o - reserved_in (mo_matches o))%Q.
Proof. unfold available_amount. rewrite reserved_amount_in. lra. Qed.

Lemma reserved_in_empty : (reserved_in empty == 0)%Q.
Proof. unfold reserved_in, map_values. rewrite map_to_list_empty. simpl. lra. Qed.

Lemma reserved_in_insert (m : gmap Uuid MakerMatch) u x :
  m !! u = None -> (reserved_in (<[u := x]> m) == match_amount x + reserved_in m)%Q.
Proof.
  intros Hu. unfold reserved_in, map_values.
  rewrite (amounts_perm _ ((u, x) :: map_to_list m).*2).
  - cbn. lra.
  - apply fmap_Permutation, map_to_list_insert, Hu.
Qed.

Lemma reserved_in_replace (m : gmap Uuid MakerMatch) u x y :
  m !! u = Some y -> match_amount x = match_amount y ->
  (reserved_in (<[u := x]> m) == reserved_in m)%Q.
Proof.
  intros Hu Hxy. rewrite <- (insert_delete_id m u y Hu) at 2.
  rewrite <- insert_delete_eq, !reserved_in_insert by apply lookup_delete_eq. rewrite Hxy. lra.
Qed.

(** Matches reserve positive amounts. *)
Definition positive_matches (m : gmap Uuid MakerMatch) : Prop :=
  forall u x, m !! u = Some x -> (0 < match_amount x)%Q.

Lemma amounts_nonneg l : Forall (fun m => 0 < match_amount m)%Q l -> (0 <= amounts l)%Q.
Proof. induction 1; cbn [amounts]; lra. Qed.

Lemma positive_values m : positive_matches m -> Forall (fun x => 0 < match_amount x)%Q (map_values m).
Proof.
  intros Hm. unfold map_values. apply Forall_fmap, Forall_forall. intros [u x] Hin.
  apply elem_of_map_to_list in Hin. eapply Hm, Hin.
Qed.

Lemma reserved_in_nonneg m : positive_matches m -> (0 <= reserved_in m)%Q.
Proof. intros. by apply amounts_nonneg, positive_values. Qed.

Lemma reserved_in_subset (m m' : gmap Uuid MakerMatch) :
  positive_matches m -> m' ⊆ m -> (reserved_in m' <= reserved_in m)%Q.
Proof.
  intros Hm Hs. apply map_to_list_submseteq, (fmap_submseteq snd) in Hs.
  apply submseteq_Permutation in Hs as [k Hk].
  assert (Forall (fun x => 0 < match_amount x)%Q k) as Hpos.
  { pose proof (positive_values m Hm) as Hv. unfold map_values in Hv. rewrite Hk in Hv.
    by apply Forall_app in Hv as [_ ?]. }
  apply amounts_nonneg in Hpos.
  unfold reserved_in, map_values. rewrite (amounts_perm _ _ Hk), amounts_app. lra.
Qed.

(** ** The conditions on orders *)

(** A match is stored under the uuid of its request; either nobody has
    connected it or both have. *)
Definition match_ok (u : Uuid) (m : MakerMatch) : Prop :=
  tr_uuid (mm_request m) = u /\ rv_taker_order_uuid (mm_reserved m) = u /\
  (0 < match_amount m)%Q /\ (is_Some (mm_connect m) <-> is_Some (mm_connected m)).

Definition connected_in (m : gmap Uuid MakerMatch) (u : Uuid) : Prop :=
  exists x, m !! u = Some x /\ is_Some (mm_connected x).

Record order_ok (o : MakerOrder) : Prop := {
  ok_price : (0 < price o)%Q;
  ok_matches : map_Forall match_ok (mo_matches o);
  ok_reserved : (reserved_in (mo_matches o) <= max_base_vol o)%Q;
  ok_started_nodup : NoDup (started_swaps o);
  ok_started : forall u, u ∈ started_swaps o <-> connected_in (mo_matches o) u }.

Record taker_ok (u : Uuid) (o : TakerOrder) : Prop := {
  ok_uuid : tr_uuid (to_request o) = u;
  ok_base_amount : (0 < tr_base_amount (to_request o))%Q;
  ok_rel_amount : (0 < tr_rel_amount (to_request o))%Q;
  ok_match_key : forall k m, to_matches o !! k = Some m ->
     rv_maker_order_uuid (tm_reserved m) = k /\ rv_taker_order_uuid (tm_reserved m) = u /\
     match_reserved o (tm_reserved m) = ReservedMatched;
  ok_one_match : (size (to_matches o) <= 1)%nat;
  ok_conf : is_Some (tr_conf_settings (to_request o)) }.

Lemma ok_positive o : order_ok o -> positive_matches (mo_matches o).
Proof. intros [_ Hm _ _ _] u x Hx. apply (Hm u x Hx). Qed.

Lemma ok_reserved_bounds o :
  order_ok o -> (0 <= reserved_amount o)%Q /\ (reserved_amount o <= max_base_vol o)%Q.
Proof.
  intros Ho. rewrite reserved_amount_in. split.
  - by apply reserved_in_nonneg, ok_positive.
  - apply Ho.
Qed.

(** ** Operations on one order *)

Lemma Qdiv_le_iff (a b c : Q) : (0 < b)%Q -> (c <= a / b)%Q <-> (c * b <= a)%Q.
Proof.
  intros Hb. split; intros Hle.
  - assert (a / b * b == a)%Q as E by (field; lra). rewrite <- E. apply Qmult_le_compat_r; lra.
  - apply Qle_shift_div_l; done.
Qed.

Lemma Qdiv_pos (a b : Q) : (0 < a)%Q -> (0 < b)%Q -> (0 < a / b)%Q.
Proof. intros. apply Qlt_shift_div_l; lra. Qed.

Lemma Qdiv_mul (a b : Q) : (0 < b)%Q -> (a == a / b * b)%Q.
Proof. intros. field. lra. Qed.

Lemma matched_terms o r b a :
  match_with_request o r = Matched b a -> (0 < price o)%Q ->
  (a == b * price o)%Q /\ (0 < b)%Q /\ (0 < a)%Q /\
  (min_base_vol o <= b)%Q /\ (b <= available_amount o)%Q /\
  match tr_action r with
  | Buy => b = tr_base_amount r /\ (a <= tr_rel_amount r)%Q
  | Sell => a = tr_base_amount r /\ (tr_rel_amount r <= b)%Q
  end.
Proof.
  unfold match_with_request, num_le. intros Hm Hp.
  destruct (_ || _) eqn:Hz; [done|]. apply orb_false_iff in Hz as [Hb0 Ha0]. qbool.
  destruct (tr_action r).
  - destruct (_ && _) eqn:Hc in Hm; [|done]. injection Hm as <- <-. qbool.
    match goal with H : (price o <= _)%Q |- _ => apply Qdiv_le_iff in H; [|lra] end.
    repeat split; try done; [| ].
    + apply Qmult_lt_0_compat; lra.
    + lra.
  - destruct (_ && _) eqn:Hc in Hm; [|done]. injection Hm as <- <-. qbool.
    match goal with H : (price o <= _)%Q |- _ => apply Qdiv_le_iff in H; [|lra] end.
    repeat split; try done; [by apply Qdiv_mul|by apply Qdiv_pos|].
    apply Qdiv_le_iff; [done|lra].
Qed.

Lemma order_ok_new o :
  (0 < price o)%Q -> (0 <= max_base_vol o)%Q -> mo_matches o = empty -> started_swaps o = [] ->
  order_ok o.
Proof.
  intros Hp Hmax Hm Hs. split; rewrite ?Hm, ?Hs.
  - done.
  - apply map_Forall_empty.
  - rewrite reserved_in_empty. done.
  - constructor.
  - intros u. split; [by intros ?%elem_of_nil|]. intros (x & Hx & _). by rewrite lookup_empty in Hx.
Qed.

(** Matches change, the connected ones stay. *)
Lemma order_ok_matches m o :
  order_ok o -> map_Forall match_ok m -> (reserved_in m <= max_base_vol o)%Q ->
  (forall u, connected_in m u <-> connected_in (mo_matches o) u) ->
  order_ok (set_matches m o).
Proof.
  intros [Hp Hm Hr Hn Hs] Hok Hres Hc. split; try done.
  intros u. cbn. rewrite Hs. by rewrite Hc.
Qed.

Lemma order_ok_reserve o r b a u our bc rc now :
  order_ok o -> match_with_request o r = Matched b a -> mo_matches o !! tr_uuid r = None ->
  order_ok (set_matches (<[tr_uuid r :=
    mkMakerMatch r (make_reserved our r u o b a bc rc) None None now]> (mo_matches o)) o).
Proof.
  intros Ho Hm Hnone. destruct (matched_terms _ _ _ _ Hm (ok_price _ Ho)) as (_ & Hb & _ & _ & Hav & _).
  rewrite available_amount_in in Hav.
  apply order_ok_matches; [done| | |].
  - apply map_Forall_insert_2; [|apply Ho]. split_and!; [done..|by cbn].
  - rewrite reserved_in_insert by done. unfold match_amount. cbn [mm_reserved make_reserved rv_base_amount]. lra.
  - intros v. unfold connected_in. destruct (decide (tr_uuid r = v)) as [<-|Hv].
    + rewrite lookup_insert_eq, Hnone. split; [|by intros (? & ? & _)].
      intros (x & [= <-] & Hx). by destruct Hx.
    + by rewrite lookup_insert_ne.
Qed.

Lemma is_ongoing_spec m : is_ongoing m = true <-> mm_connected m = None /\ mm_connect m = None.
Proof. unfold is_ongoing. by rewrite andb_true_iff, !bool_decide_eq_true. Qed.

Lemma order_ok_connect o u m c cd :
  order_ok o -> mo_matches o !! u = Some m -> is_ongoing m = true ->
  order_ok (push_started_swap u (set_matches (<[u := connect_match c cd m]> (mo_matches o)) o)) /\
  u ∉ started_swaps o.
Proof.
  intros Ho Hu [Hcd Hc]%is_ongoing_spec.
  destruct (ok_matches _ Ho u m Hu) as (Hk & Hk' & Hpos & _).
  assert (u ∉ started_swaps o) as Hni.
  { rewrite (ok_started _ Ho). intros (x & Hx & Hsome). rewrite Hu in Hx. injection Hx as <-.
    rewrite Hcd in Hsome. by destruct Hsome. }
  split; [|done]. split; cbn [price mo_matches max_base_vol started_swaps push_started_swap set_matches].
  - apply Ho.
  - apply map_Forall_insert_2; [|apply Ho]. split_and!; try done; by split; eexists.
  - rewrite (reserved_in_replace _ _ _ m Hu) by done. apply Ho.
  - apply NoDup_app. split_and!; [apply Ho| |apply NoDup_singleton].
    intros x Hx ->%list_elem_of_singleton. done.
  - intros v. rewrite elem_of_app, list_elem_of_singleton, (ok_started _ Ho). unfold connected_in.
    destruct (decide (u = v)) as [<-|Hv].
    + rewrite lookup_insert_eq. split; [intros _|by right].
      eexists; split; [done|]. by eexists.
    + rewrite lookup_insert_ne by done. split; [by intros [? | ->]|by left].
Qed.

Lemma order_ok_timed_out now o : order_ok o -> order_ok (drop_timed_out_matches now o).
Proof.
  intros Ho. apply order_ok_matches; [done| | |].
  - intros u x [Hx _]%map_lookup_filter_Some. apply Ho, Hx.
  - eapply Qle_trans; [|apply Ho]. apply reserved_in_subset; [by apply ok_positive|].
    apply map_filter_subseteq.
  - intros u. unfold connected_in. split; intros (x & Hx & Hs); exists x; (split; [|done]).
    + by apply map_lookup_filter_Some in Hx as [? _].
    + apply map_lookup_filter_Some. split; [done|]. cbn. unfold keep_match.
      rewrite (bool_decide_eq_true_2 _ Hs). apply orb_true_r.
Qed.

Lemma order_ok_max v o :
  order_ok o -> (reserved_amount o <= v)%Q -> order_ok (set_max_base_vol v o).
Proof. intros [Hp Hm Hr Hn Hs] Hv. rewrite reserved_amount_in in Hv. by split. Qed.

(** The terms of an order change, its matches do not. *)
Lemma order_ok_terms o o' :
  order_ok o -> (0 < price o')%Q -> mo_matches o' = mo_matches o ->
  started_swaps o' = started_swaps o -> (reserved_amount o <= max_base_vol o')%Q -> order_ok o'.
Proof.
  intros [Hp Hm Hr Hn Hs] Hp' Em Es Hv. rewrite reserved_amount_in in Hv.
  split; rewrite ?Em, ?Es; done.
Qed.
