(* ===== verification/OrdermatchInv.v ===== *)
(** * The invariant of a node's orders

    [node_ok] is the invariant of the order matching of a node, and [good]
    what every handler keeps: the invariant, and an account of the swaps that
    are started against the orders that were created. *)

From S2P Require Import Prelude MmNumber DexFee Swap Ordermatch OrdermatchNode OrdermatchProps.

Open Scope Z_scope.

(** ** The invariant *)

Definition tickers_of (t : string) (m : gmap Uuid string) : gmap Uuid string :=
  filter (fun p => snd p = t) m.

Record ctx_ok (c : MakerOrdersContext) : Prop := {
  ctx_orders : forall u o, orders c !! u = Some o -> mo_uuid o = u /\ order_ok o;
  ctx_tickers : forall u o, orders c !! u = Some o -> order_tickers c !! u = Some (mo_base o);
  ctx_counts : forall t,
     (size (tickers_of t (order_tickers c)) <= default 0%nat (count_by_tickers c !! t))%nat;
  ctx_loops : forall t n, count_by_tickers c !! t = Some (S n) -> t ∈ balance_loops c }.

Record node_ok (s : OrdermatchContext) : Prop := {
  node_ctx : ctx_ok (maker_orders_ctx s);
  node_takers : forall u o, my_taker_orders s !! u = Some o -> taker_ok u o;
  node_pending : forall u l, pending_maker_reserved s !! u = Some l ->
     Forall (fun r => rv_taker_order_uuid r = u) l }.

Lemma ctx_ok_new : ctx_ok MakerOrdersContext_new.
Proof.
  split; cbn; intros *; by rewrite ?lookup_empty.
Qed.

Lemma node_ok_new : node_ok OrdermatchContext_new.
Proof. split; [apply ctx_ok_new| |]; cbn; intros *; by rewrite lookup_empty. Qed.

Lemma size_tickers_insert (t : string) (u : Uuid) (x : string) (m : gmap Uuid string) :
  (size (tickers_of t (<[u := x]> m)) <= size (tickers_of t m) + if decide (x = t) then 1 else 0)%nat.
Proof.
  unfold tickers_of. destruct (decide (x = t)) as [->|Hx].
  - rewrite map_filter_insert_True by done.
    destruct (filter (fun p => snd p = t) m !! u) eqn:E.
    + rewrite map_size_insert_Some by eauto. lia.
    + rewrite map_size_insert_None by done. lia.
  - rewrite map_filter_insert_False by done. rewrite Nat.add_0_r.
    rewrite map_filter_delete. apply map_subseteq_size, delete_subseteq.
Qed.

Lemma size_tickers_delete (t : string) (u : Uuid) (x : string) (m : gmap Uuid string) :
  m !! u = Some x ->
  (size (tickers_of t (delete u m)) + (if decide (x = t) then 1 else 0) <= size (tickers_of t m))%nat.
Proof.
  intros Hu. unfold tickers_of. rewrite map_filter_delete. destruct (decide (x = t)) as [->|Hx].
  - rewrite map_size_delete_Some.
    + assert (size (filter (fun p => snd p = t) m) <> 0%nat); [|lia].
      intros E%map_size_empty_inv.
      assert (filter (fun p => snd p = t) m !! u = Some t) as Hf by by apply map_lookup_filter_Some.
      by rewrite E, lookup_empty in Hf.
    + exists t. by apply map_lookup_filter_Some.
  - rewrite Nat.add_0_r. apply map_subseteq_size, delete_subseteq.
Qed.

Lemma ctx_ok_add o c : ctx_ok c -> order_ok o -> ctx_ok (add_order o c).
Proof.
  intros [Ho Ht Hc Hl] Hok. split; cbn.
  - intros u o'. rewrite lookup_insert. case_decide as E; [|apply Ho].
    intros [= <-]. by subst.
  - intros u o'. rewrite !lookup_insert. case_decide as E; [|apply Ht]. by intros [= <-].
  - intros t. pose proof (size_tickers_insert t (mo_uuid o) (mo_base o) (order_tickers c)).
    specialize (Hc t). rewrite lookup_insert.
    destruct (decide (mo_base o = t)) as [<-|]; cbn; lia.
  - intros t n. rewrite lookup_insert. case_decide as E; [set_solver|].
    intros Hn%Hl. set_solver.
Qed.

(** The operations that only shrink or change the map of orders. *)
Lemma ctx_ok_orders m e c :
  ctx_ok c ->
  (forall u o, m !! u = Some o ->
     mo_uuid o = u /\ order_ok o /\
     exists o0, orders c !! u = Some o0 /\ mo_base o0 = mo_base o) ->
  ctx_ok (mkMakerCtx m e (order_tickers c) (count_by_tickers c) (balance_loops c)).
Proof.
  intros [Ho Ht Hc Hl] Hm. split; cbn; [| |done..].
  - intros u o (? & ? & _)%Hm. done.
  - intros u o (_ & _ & o0 & H0 & <-)%Hm. by apply Ht.
Qed.

Lemma ctx_ok_orders_remove u c : ctx_ok c -> ctx_ok (orders_remove u c).
Proof.
  intros Hc. apply ctx_ok_orders; [done|]. intros v o [_ Hv]%lookup_delete_Some.
  destruct (ctx_orders _ Hc v o Hv). eauto.
Qed.

(** An order leaves the map with its ticker and its count. *)
Lemma ctx_ok_take u t c :
  ctx_ok c -> orders c !! u = None -> order_tickers c !! u = Some t ->
  ctx_ok (mkMakerCtx (orders c) (expirable c) (delete u (order_tickers c))
            (match count_by_tickers c !! t with
             | Some (S n) => <[t := n]> (count_by_tickers c)
             | _ => count_by_tickers c
             end) (balance_loops c)).
Proof.
  intros [Ho Ht Hc Hl] Hnone Hu. split; cbn; [done| | |].
  - intros v o Hv. rewrite lookup_delete_ne by congruence. by apply Ht.
  - intros t'. pose proof (size_tickers_delete t' u t _ Hu) as Hs. specialize (Hc t').
    destruct (count_by_tickers c !! t) as [[|n]|] eqn:Et; try (etransitivity; [|exact Hc]; lia).
    rewrite lookup_insert. case_decide as E; subst; [|lia].
    rewrite Et in Hc. cbn in *. destruct (decide (t' = t')); [lia|done].
  - intros t' n Hn. destruct (count_by_tickers c !! t) as [[|k]|] eqn:Et; try by eapply Hl.
    rewrite lookup_insert in Hn. case_decide as E; subst; by eapply Hl.
Qed.

Lemma ctx_ok_stop t c :
  ctx_ok c -> coin_has_active_maker_orders t c = false -> ctx_ok (stop_balance_loop t c).
Proof.
  intros [Ho Ht Hc Hl] Hn. split; cbn; try done.
  intros t' n Ht'. unfold coin_has_active_maker_orders in Hn.
  assert (t' <> t) by (intros ->; by rewrite Ht' in Hn). apply Hl in Ht'. set_solver.
Qed.

(** What [remove_order] does to the orders. *)
Lemma remove_order_spec env u c r c' :
  remove_order env u c = (r, c') -> ctx_ok c ->
  ctx_ok c' /\ (orders c' = delete u (orders c) \/ orders c' = orders c) /\
  (is_Some r -> orders c' = delete u (orders c)).
Proof.
  intros Hr Hc. unfold remove_order in Hr.
  destruct (get_order env u c) as [o|] eqn:Eg.
  - cbn zeta in Hr. destruct (order_tickers _ !! u) as [t|] eqn:Et.
    + assert (ctx_ok (orders_remove u c)) as H1 by by apply ctx_ok_orders_remove.
      eapply ctx_ok_take in H1 as H2; [|apply lookup_delete_eq|apply Et].
      injection Hr as <- <-. destruct (coin_has_active_maker_orders t _) eqn:Ea.
      * split; [apply H2|]. cbn. auto.
      * split; [by apply ctx_ok_stop|]. cbn. auto.
    + injection Hr as <- <-. split; [by apply ctx_ok_orders_remove|]. split; [by left|]. by intros [].
  - injection Hr as <- <-. destruct (purge_expired env).
    + split; [by apply ctx_ok_orders_remove|]. split; [by left|]. by intros [].
    + split; [done|]. split; [by right|]. by intros [].
Qed.

(** ** The account of the started swaps *)

Definition starts_bob (o u : Uuid) (a : Action) : bool :=
  match a with
  | StartBob m order _ => bool_decide (mo_uuid order = o) && bool_decide (tr_uuid (mm_request m) = u)
  | _ => false
  end.

Definition starts_alice (u : Uuid) (a : Action) : bool :=
  match a with
  | StartAlice order _ _ => bool_decide (tr_uuid (to_request order) = u)
  | _ => false
  end.

Definition creates_maker (o : Uuid) (a : Action) : bool :=
  match a with SaveNewMakerOrder order => bool_decide (mo_uuid order = o) | _ => false end.

Definition creates_taker (u : Uuid) (a : Action) : bool :=
  match a with
  | SaveNewTakerOrder order => bool_decide (tr_uuid (to_request order) = u)
  | _ => false
  end.

Definition count (p : Action -> bool) (l : list Action) : nat := length (List.filter p l).

Lemma count_app p l k : count p (l ++ k) = (count p l + count p k)%nat.
Proof. unfold count. by rewrite List.filter_app, length_app. Qed.

Lemma count_cons p a l : count p (a :: l) = ((if p a then 1 else 0) + count p l)%nat.
Proof. unfold count. simpl. by destruct (p a). Qed.

(** What is left to start: an order that has not started the swap of a request
    yet, a taker order. *)
Definition left_bob (o u : Uuid) (s : OrdermatchContext) : nat :=
  match order_at s o with
  | Some order => if bool_decide (u ∈ started_swaps order) then 0 else 1
  | None => 0
  end.

Definition left_alice (u : Uuid) (s : OrdermatchContext) : nat :=
  match my_taker_orders s !! u with Some _ => 1 | None => 0 end.

Record good (s s' : OrdermatchContext) (acts : list Action) : Prop := {
  good_node : node_ok s';
  good_bob : forall o u,
    (count (starts_bob o u) acts + left_bob o u s'
     <= left_bob o u s + count (creates_maker o) acts)%nat;
  good_alice : forall u,
    (count (starts_alice u) acts + left_alice u s'
     <= left_alice u s + count (creates_taker u) acts)%nat }.

Lemma good_refl s : node_ok s -> good s s [].
Proof. split; [done| |]; intros *; cbn; lia. Qed.

Lemma good_trans s1 s2 s3 a b : good s1 s2 a -> good s2 s3 b -> good s1 s3 (a ++ b).
Proof.
  intros [_ Hb Ha] [Hn Hb' Ha']. split; [done| |].
  - intros o u. rewrite !count_app. specialize (Hb o u). specialize (Hb' o u). lia.
  - intros u. rewrite !count_app. specialize (Ha u). specialize (Ha' u). lia.
Qed.

(** An action that starts no swap. *)
Definition quiet (a : Action) : Prop :=
  match a with StartBob _ _ _ | StartAlice _ _ _ => False | _ => True end.

Lemma quiet_count acts :
  Forall quiet acts ->
  (forall o u, count (starts_bob o u) acts = 0%nat) /\ (forall u, count (starts_alice u) acts = 0%nat).
Proof.
  induction 1 as [|a l Ha _ [IHb IHa]]; [done|].
  split; intros *; rewrite count_cons, ?IHb, ?IHa; by destruct a.
Qed.

Lemma good_quiet s s' acts :
  node_ok s' -> Forall quiet acts ->
  (forall o u, (left_bob o u s' <= left_bob o u s + count (creates_maker o) acts)%nat) ->
  (forall u, (left_alice u s' <= left_alice u s + count (creates_taker u) acts)%nat) ->
  good s s' acts.
Proof.
  intros Hn Hq Hb Ha. destruct (quiet_count acts Hq) as [Eb Ea].
  split; [done| |].
  - intros o u. rewrite Eb. apply Hb.
  - intros u. rewrite Ea. apply Ha.
Qed.

Lemma node_ok_ctx c s : node_ok s -> ctx_ok c -> node_ok (set_ctx c s).
Proof. intros [_ Ht Hp] Hc. by split. Qed.

(** The orders of the node lose some of their number. *)
Lemma good_shrink c s acts :
  node_ok s -> ctx_ok c -> (forall u o, orders c !! u = Some o -> order_at s u = Some o) ->
  Forall quiet acts -> good s (set_ctx c s) acts.
Proof.
  intros Hs Hc Hsub Hq. apply good_quiet; [by apply node_ok_ctx|done| |].
  - intros o u. unfold left_bob, order_at at 1. cbn.
    destruct (orders c !! o) as [x|] eqn:E; [|lia]. rewrite (Hsub _ _ E). lia.
  - intros u. unfold left_alice. cbn. lia.
Qed.

Lemma order_at_put u o s v :
  order_at (put_order u o s) v = if decide (u = v) then Some o else order_at s v.
Proof. unfold order_at, put_order. cbn. by rewrite lookup_insert. Qed.

Lemma node_ok_put u o o' s :
  node_ok s -> order_at s u = Some o -> order_ok o' -> mo_uuid o' = mo_uuid o ->
  mo_base o' = mo_base o -> node_ok (put_order u o' s).
Proof.
  intros Hs Ho Hok Hu Hb. apply node_ok_ctx; [done|]. destruct Hs as [Hc _ _].
  apply ctx_ok_orders; [done|]. intros v x. rewrite lookup_insert. case_decide as E.
  - subst v. intros [= <-]. destruct (ctx_orders _ Hc u o Ho). split; [congruence|]. eauto.
  - intros Hx. destruct (ctx_orders _ Hc v x Hx). eauto.
Qed.

Lemma good_put u o o' s acts :
  node_ok s -> order_at s u = Some o -> order_ok o' -> mo_uuid o' = mo_uuid o ->
  mo_base o' = mo_base o -> started_swaps o' = started_swaps o -> Forall quiet acts ->
  good s (put_order u o' s) acts.
Proof.
  intros Hs Ho Hok Hu Hb Hst Hq. apply good_quiet; [by eapply node_ok_put|done| |].
  - intros v w. unfold left_bob. rewrite order_at_put. case_decide as E; [|lia].
    subst v. rewrite Ho, Hst. lia.
  - intros v. unfold left_alice. cbn. lia.
Qed.

Lemma node_order s u o : node_ok s -> order_at s u = Some o -> mo_uuid o = u /\ order_ok o.
Proof. intros [Hc _ _]. apply Hc. Qed.

Lemma get_order_at env u s o : get_order env u (maker_orders_ctx s) = Some o -> order_at s u = Some o.
Proof. unfold get_order. by destruct (live env u). Qed.

Lemma good_remove env u o reason s removed s' acts :
  node_ok s -> remove_and_cancel env u o reason s = (removed, s', acts) ->
  good s s' acts /\ (forall v, order_at s' v = if decide (u = v) then order_at s' v else order_at s v) /\
  (removed = true -> order_at s' u = None).
Proof.
  intros Hs Hr. unfold remove_and_cancel in Hr.
  destruct (remove_order env u (maker_orders_ctx s)) as [r c] eqn:Er.
  destruct (remove_order_spec _ _ _ _ _ Er (node_ctx _ Hs)) as (Hc & Hdel & Hsome).
  assert (forall v x, orders c !! v = Some x -> order_at s v = Some x) as Hsub.
  { intros v x Hx. destruct Hdel as [E|E]; rewrite E in Hx; [|done].
    by apply lookup_delete_Some in Hx as [_ ?]. }
  assert (forall v, u <> v -> orders c !! v = order_at s v) as Hother.
  { intros v Hv. unfold order_at. destruct Hdel as [E|E]; rewrite E; [|done].
    by apply lookup_delete_ne. }
  destruct r as [x|]; injection Hr as <- <- <-.
  - split; [apply good_shrink; [done..|repeat constructor]|]. split.
    + intros v. case_decide; [done|]. cbn. by apply Hother.
    + intros _. cbn. unfold order_at. cbn. rewrite Hsome by eauto. apply lookup_delete_eq.
  - split; [apply good_shrink; [done..|constructor]|]. split; [|done].
    intros v. case_decide; [done|]. cbn. by apply Hother.
Qed.

(** ** The handlers *)

Lemma request_loop_good env our req iter s s' acts :
  node_ok s -> request_loop env our req iter s = (s', acts) -> good s s' acts.
Proof.
  intros Hs. induction iter as [|u iter IH]; cbn [request_loop]; intros Hr.
  { injection Hr as <- <-. by apply good_refl. }
  destruct (negb _); [by apply IH|].
  destruct (order_at s u) as [o|] eqn:Ho; [|by apply IH].
  destruct (match_with_request o req) as [b a|] eqn:Hm; [|by apply IH].
  destruct (find_pair _ _ _) as [[bc rc]|]; [|injection Hr as <- <-; by apply good_refl].
  cbn zeta in Hr. destruct (_ && _) eqn:Hc; [|injection Hr as <- <-; by apply good_refl].
  injection Hr as <- <-. apply andb_true_iff in Hc as [[Hnone _]%andb_true_iff _].
  apply bool_decide_eq_true_1 in Hnone. destruct (node_order _ _ _ Hs Ho) as [_ Hok].
  eapply good_put; [done|apply Ho|by apply order_ok_reserve|done..|by repeat constructor].
Qed.

Lemma process_taker_request_good env from req iter s s' acts :
  node_ok s -> process_taker_request env from req iter s = (s', acts) -> good s s' acts.
Proof.
  intros Hs Hr. unfold process_taker_request in Hr. case_matches; try by apply good_refl.
  by eapply request_loop_good.
Qed.

Lemma process_taker_connect_good env sender msg s s' acts :
  node_ok s -> process_taker_connect env sender msg s = (s', acts) -> good s s' acts.
Proof.
  intros Hs Hr. unfold process_taker_connect in Hr. cbn zeta in Hr.
  destruct (mm2_internal_public_id env) as [our|]; [|injection Hr as <- <-; by apply good_refl].
  destruct (bool_decide _); [injection Hr as <- <-; by apply good_refl|].
  destruct (get_order _ _ _) as [o|] eqn:Hg; [|injection Hr as <- <-; by apply good_refl].
  apply get_order_at in Hg. destruct (mo_matches o !! _) as [m|] eqn:Hm; [|injection Hr as <- <-; by apply good_refl].
  destruct (negb _); [injection Hr as <- <-; by apply good_refl|].
  destruct (is_ongoing m) eqn:Hon; [|injection Hr as <- <-; by apply good_refl].
  injection Hr as <- <-. destruct (node_order _ _ _ Hs Hg) as [Hu Hok].
  destruct (ok_matches _ Hok _ _ Hm) as (Hk & _).
  set (u := cn_taker_order_uuid msg) in *. set (ou := cn_maker_order_uuid msg) in *.
  cbn [mm_request connect_match]. rewrite Hk.
  match goal with |- context [connect_match msg ?c m] =>
    destruct (order_ok_connect o u m msg c Hok Hm Hon) as [Hok' Hni] end.
  match goal with |- good _ (put_order _ ?x _) _ => set (o' := x) in * end.
  split.
  - by eapply node_ok_put.
  - intros v w. rewrite count_cons. unfold left_bob at 1. rewrite order_at_put.
    assert (forall l, Forall quiet l -> count (starts_bob v w) l = 0%nat) as Hq
      by (intros l Hl; by apply quiet_count).
    rewrite Hq; [|cbn; destruct (num_le _ _); repeat constructor].
    cbn [starts_bob]. change (mo_uuid o') with (mo_uuid o). cbn [mm_request connect_match].
    rewrite Hu, Hk. unfold left_bob.
    destruct (decide (ou = v)) as [<-|]; [|rewrite bool_decide_eq_false_2 by done; cbn; lia].
    rewrite Hg, bool_decide_eq_true_2 by done. cbn [started_swaps o' push_started_swap set_matches].
    destruct (decide (u = w)) as [<-|Hw].
    + rewrite (bool_decide_eq_true_2 (u = u)) by done.
      rewrite (bool_decide_eq_true_2 (u ∈ _)) by set_solver.
      rewrite bool_decide_eq_false_2 by done. cbn. lia.
    + rewrite (bool_decide_eq_false_2 (u = w)) by done.
      rewrite (bool_decide_ext (w ∈ started_swaps o ++ [u]) (w ∈ started_swaps o)) by set_solver.
      cbn. lia.
  - intros v. rewrite count_cons. cbn [starts_alice].
    assert (forall l, Forall quiet l -> count (starts_alice v) l = 0%nat) as Hq
      by (intros l Hl; by apply quiet_count).
    rewrite Hq; [|cbn; destruct (num_le _ _); repeat constructor]. unfold left_alice. cbn. lia.
Qed.

Lemma receive_maker_reserved_good env from msg b s s' :
  node_ok s -> receive_maker_reserved env from msg s = (b, s') -> good s s' [].
Proof.
  intros Hs Hr. unfold receive_maker_reserved in Hr.
  destruct (my_taker_orders s !! _); [|injection Hr as <- <-; by apply good_refl].
  destruct (mm2_internal_public_id env); [|injection Hr as <- <-; by apply good_refl].
  destruct (bool_decide _); injection Hr as <- <-; [by apply good_refl|].
  apply good_quiet; [|constructor|intros; cbn; unfold left_bob, order_at; cbn; lia|
                      intros; cbn; unfold left_alice; cbn; lia].
  destruct Hs as [Hc Ht Hp]. split; [done|done|]. cbn. intros u k.
  rewrite lookup_insert. case_decide as E; [|apply Hp]. intros [= <-]. apply Forall_app. split.
  - subst u. destruct (pending_maker_reserved s !! _) eqn:El; cbn; [by eapply Hp|constructor].
  - by repeat constructor.
Qed.

(** Taker orders change one at a time. *)
Lemma good_taker_put u o o' s acts :
  node_ok s -> my_taker_orders s !! u = Some o -> taker_ok u o' -> Forall quiet acts ->
  good s (set_takers (<[u := o']> (my_taker_orders s)) s) acts.
Proof.
  intros [Hc Ht Hp] Hu Hok Hq. apply good_quiet; [|done| |].
  - split; [done| |done]. cbn. intros v x. rewrite lookup_insert. case_decide; [|apply Ht].
    intros [= <-]. by subst.
  - intros *. unfold left_bob, order_at. cbn. lia.
  - intros v. unfold left_alice. cbn. rewrite lookup_insert. case_decide; [|lia].
    subst v. rewrite Hu. lia.
Qed.

Lemma acceptable_spec o bc rc r :
  acceptable o bc rc r = true -> to_matches o = empty /\ match_reserved o r = ReservedMatched.
Proof.
  unfold acceptable. cbn zeta. intros [[[Hm He]%andb_true_iff _]%andb_true_iff _]%andb_true_iff.
  apply bool_decide_eq_true_1 in He. split; [done|]. by destruct (match_reserved o r).
Qed.

Lemma taker_ok_reserved u o bc rc r c now :
  taker_ok u o -> acceptable o bc rc r = true -> rv_taker_order_uuid r = u ->
  taker_ok u (set_to_matches (<[rv_maker_order_uuid r := mkTakerMatch r c None now]>
                                (to_matches o)) o).
Proof.
  intros [Hu Hb Hr Hk Hone Hconf] [He Hm]%acceptable_spec Hru.
  split; try done; cbn [to_matches set_to_matches to_request]; rewrite He.
  - intros k m [[<- <-]|[_ Hk']]%lookup_insert_Some; [done|by rewrite lookup_empty in Hk'].
  - rewrite map_size_insert_None by apply lookup_empty. by rewrite map_size_empty.
Qed.

Lemma reserved_loop_good env our uuid o bc rc messages s s' acts :
  node_ok s -> my_taker_orders s !! uuid = Some o ->
  Forall (fun r => rv_taker_order_uuid r = uuid) messages ->
  reserved_loop env our uuid o bc rc messages s = (s', acts) -> good s s' acts.
Proof.
  intros Hs Ho. induction 1 as [|r messages Hr Hall IH]; cbn [reserved_loop]; intros E.
  { injection E as <- <-. by apply good_refl. }
  destruct (acceptable o bc rc r) eqn:Ha; [|by apply IH]. injection E as <- <-.
  eapply good_taker_put; [done|apply Ho| |by repeat constructor].
  by eapply taker_ok_reserved; [apply (node_takers _ Hs)|..].
Qed.

Lemma good_delete_pending u s :
  node_ok s -> good s (set_pending (delete u (pending_maker_reserved s)) s) [].
Proof.
  intros [Hc Ht Hp]. apply good_quiet; [|constructor| |].
  - split; [done|done|]. cbn. intros v l [_ Hl]%lookup_delete_Some. by apply Hp.
  - intros *. unfold left_bob, order_at. cbn. lia.
  - intros *. unfold left_alice. cbn. lia.
Qed.

Lemma process_pending_reserved_good `{UnstableSort} env uuid s s' panics acts :
  node_ok s -> process_pending_reserved env uuid s = (s', panics, acts) -> good s s' acts.
Proof.
  intros Hs Hr. unfold process_pending_reserved in Hr.
  destruct (mm2_internal_public_id env) as [our|]; [|injection Hr as <- <- <-; by apply good_refl].
  destruct (my_taker_orders s !! uuid) as [o|] eqn:Ho; [|injection Hr as <- <- <-; by apply good_refl].
  destruct (find_pair _ _ _) as [[bc rc]|]; [|injection Hr as <- <- <-; by apply good_refl].
  destruct (pending_maker_reserved s !! uuid) as [l|] eqn:Hl; [|injection Hr as <- <- <-; by apply good_refl].
  pose proof (good_delete_pending uuid s Hs) as Hd. cbn zeta in Hr.
  destruct (sort_panics l); [by injection Hr as <- <- <-|].
  destruct (reserved_loop _ _ _ _ _ _ _ _) as [s2 a] eqn:Hloop. injection Hr as <- <- <-.
  change a with ([] ++ a). eapply good_trans; [exact Hd|].
  eapply reserved_loop_good; [apply Hd|exact Ho| |exact Hloop].
  rewrite sort_by_price_perm. by eapply node_pending.
Qed.

Lemma process_maker_connected_good env from msg s s' acts :
  node_ok s -> process_maker_connected env from msg s = (s', acts) -> good s s' acts.
Proof.
  intros Hs Hr. unfold process_maker_connected in Hr.
  destruct (mm2_internal_public_id env) as [our|]; [|injection Hr as <- <-; by apply good_refl].
  destruct (bool_decide _); [injection Hr as <- <-; by apply good_refl|].
  destruct (my_taker_orders s !! _) as [o|] eqn:Ho; [|injection Hr as <- <-; by apply good_refl].
  destruct (to_matches o !! _) as [m|] eqn:Hm; [|injection Hr as <- <-; by apply good_refl].
  destruct (negb _); [injection Hr as <- <-; by apply good_refl|]. injection Hr as <- <-.
  destruct (node_takers _ Hs _ _ Ho) as [Hu _ _ _ _ _].
  destruct Hs as [Hc Ht Hp]. split.
  - split; [done| |done]. cbn. intros v x [_ Hv]%lookup_delete_Some. by apply Ht.
  - intros v w. rewrite !count_cons. unfold left_bob, order_at. cbn. lia.
  - intros v. rewrite !count_cons. unfold left_alice. cbn [starts_alice]. rewrite Hu. cbn.
    rewrite lookup_delete. case_decide as E.
    + subst v. rewrite Ho. rewrite bool_decide_eq_true_2 by done. cbn. lia.
    + rewrite bool_decide_eq_false_2 by done. cbn. lia.
Qed.

Lemma handle_timed_out_maker_matches_good env iter s s' acts :
  node_ok s -> handle_timed_out_maker_matches env iter s = (s', acts) -> good s s' acts.
Proof.
  revert s s' acts. induction iter as [|u iter IH]; cbn [handle_timed_out_maker_matches]; intros s s' acts Hs Hr.
  { injection Hr as <- <-. by apply good_refl. }
  destruct (order_at s u) as [o|] eqn:Ho; [|by apply IH]. cbn zeta in Hr.
  destruct (handle_timed_out_maker_matches _ _ _) as [s2 a] eqn:Hrest. injection Hr as <- <-.
  destruct (node_order _ _ _ Hs Ho) as [_ Hok].
  assert (good s (put_order u (drop_timed_out_matches (now_ms env) o) s)
    (if bool_decide (size (mo_matches o) = size (mo_matches (drop_timed_out_matches (now_ms env) o)))
     then [] else [UpdateMakerOrder (drop_timed_out_matches (now_ms env) o)])) as Hg.
  { eapply good_put; [done|apply Ho|by apply order_ok_timed_out|done..|].
    case_bool_decide; repeat constructor. }
  eapply good_trans; [exact Hg|]. eapply IH; [apply Hg|exact Hrest].
Qed.

Lemma check_balance_for_maker_orders_good env iter s s' acts :
  node_ok s -> check_balance_for_maker_orders env iter s = (s', acts) -> good s s' acts.
Proof.
  revert s s' acts. induction iter as [|u iter IH]; cbn [check_balance_for_maker_orders]; intros s s' acts Hs Hr.
  { injection Hr as <- <-. by apply good_refl. }
  destruct (order_at s u) as [o|] eqn:Ho; [|by apply IH].
  destruct (_ || _); [by apply IH|]. cbn zeta in Hr.
  destruct (remove_and_cancel _ _ _ _ _) as [[b s2] a] eqn:Hrm.
  destruct (check_balance_for_maker_orders _ _ _) as [s3 a'] eqn:Hrest. injection Hr as <- <-.
  apply good_remove in Hrm as [Hg _]; [|done]. eapply good_trans; [exact Hg|].
  eapply IH; [apply Hg|exact Hrest].
Qed.

Lemma drop_expired_good expired s s' acts :
  node_ok s -> drop_expired expired s = (s', acts) -> good s s' acts.
Proof.
  revert s s' acts. induction expired as [|u l IH]; cbn [drop_expired]; intros s s' acts Hs Hr.
  { injection Hr as <- <-. by apply good_refl. }
  destruct (order_at s u) as [o|] eqn:Ho; [|by apply IH].
  destruct (expirable _ !! u); [|by apply IH].
  destruct (drop_expired _ _) as [s2 a] eqn:Hrest. injection Hr as <- <-.
  assert (good s (set_ctx (orders_remove u (maker_orders_ctx s)) s) (cancel_actions o MakerExpired)) as Hg.
  { apply good_shrink; [done|apply ctx_ok_orders_remove, Hs| |repeat constructor].
    cbn. intros v x [_ Hv]%lookup_delete_Some. done. }
  apply (good_trans _ _ _ (cancel_actions o MakerExpired) a Hg). eapply IH; [apply Hg|exact Hrest].
Qed.

Lemma set_max_good u o v s acts :
  node_ok s -> order_at s u = Some o -> (reserved_amount o <= v)%Q -> Forall quiet acts ->
  good s (put_order u (set_max_base_vol v o) s) acts.
Proof.
  intros Hs Ho Hv Hq. destruct (node_order _ _ _ Hs Ho) as [_ Hok].
  by eapply good_put; [done|apply Ho|apply order_ok_max|done..].
Qed.

Lemma kick_start_order_good env max_vol uuid s cancel s' acts :
  node_ok s -> (0 <= default (0 # 1) max_vol)%Q ->
  kick_start_order env max_vol uuid s = (cancel, s', acts) -> good s s' acts.
Proof.
  intros Hs Hv Hr. unfold kick_start_order in Hr.
  destruct (get_order _ _ _) as [o|] eqn:Hg; [|injection Hr as <- <- <-; by apply good_refl].
  apply get_order_at in Hg. destruct (find_pair _ _ _); [|injection Hr as <- <- <-; by apply good_refl].
  destruct max_vol as [v|]; [|injection Hr as <- <- <-; by apply good_refl].
  change (0 <= v)%Q in Hv. cbn zeta in Hr. destruct (node_order _ _ _ Hs Hg) as [_ Hok].
  set (o' := if num_lt v (available_amount o) then _ else o) in Hr.
  assert (forall acts, Forall quiet acts -> good s (put_order uuid o' s) acts) as Hput.
  { intros a Ha. unfold o'. destruct (num_lt v (available_amount o)).
    - apply set_max_good; [done|done| |done]. lra.
    - by eapply good_put. }
  destruct (num_lt (available_amount o') _); injection Hr as <- <- <-; apply Hput; repeat constructor.
Qed.

Lemma balance_updated_good env coin v iter s s' acts :
  node_ok s -> (0 <= v)%Q -> balance_updated env coin v iter s = (s', acts) -> good s s' acts.
Proof.
  intros Hs Hv. revert s s' acts Hs.
  induction iter as [|u iter IH]; cbn [balance_updated]; intros s s' acts Hs Hr.
  { injection Hr as <- <-. by apply good_refl. }
  destruct (order_at s u) as [o|] eqn:Ho; [|by apply IH].
  destruct (negb _); [by apply IH|]. cbn zeta in Hr.
  destruct (if num_lt v (min_base_vol o) then _ else _) as [[removed s1] a1] eqn:E1.
  assert (good s s1 a1 /\ forall x, order_at s1 u = Some x -> x = o) as [Hg1 Hsame].
  { destruct (num_lt v (min_base_vol o)).
    - unfold remove_and_cancel in E1.
      destruct (remove_order env u (maker_orders_ctx s)) as [r c] eqn:Er.
      pose proof (remove_order_spec _ _ _ _ _ Er (node_ctx _ Hs)) as (Hc & Hdel & _).
      assert (forall w x, orders c !! w = Some x -> order_at s w = Some x) as Hsub.
      { intros w x Hx. destruct Hdel as [E|E]; rewrite E in Hx; [|done].
        by apply lookup_delete_Some in Hx as [_ ?]. }
      destruct r; injection E1 as <- <- <-; (split; [apply good_shrink; [done..|repeat constructor]|]);
        intros x Hx%Hsub; congruence.
    - injection E1 as <- <- <-. split; [by apply good_refl|]. intros x Hx. congruence. }
  destruct (if negb removed && _ then _ else _) as [s2 a2] eqn:E2.
  destruct (balance_updated env coin v iter s2) as [s3 a3] eqn:E3. injection Hr as <- <-.
  assert (good s1 s2 a2) as Hg2.
  { destruct (negb removed && _); injection E2 as <- <-; [|apply good_refl, Hg1].
    case_bool_decide as Hin.
    - destruct Hin as [x Hx]. rewrite (Hsame x Hx) in Hx.
      apply set_max_good; [apply Hg1|done|lra|repeat constructor].
    - apply good_quiet; [apply Hg1|repeat constructor|intros; cbn; lia..]. }
  eapply good_trans; [exact Hg1|]. eapply good_trans; [exact Hg2|].
  eapply IH; [apply Hg2|exact E3].
Qed.

(** ** Updates *)

Lemma same_order_spec a b :
  same_order a b = true ->
  (max_base_vol a == max_base_vol b)%Q /\ (price a == price b)%Q /\
  mo_matches a = mo_matches b /\ started_swaps a = started_swaps b /\
  mo_uuid a = mo_uuid b /\ mo_base a = mo_base b.
Proof.
  unfold same_order, num_eq. intros [[[Hm Hn]%andb_true_iff Hp]%andb_true_iff He]%andb_true_iff.
  apply bool_decide_eq_true_1 in He. unfold with_numbers in He.
  apply Qeq_bool_iff in Hm. apply Qeq_bool_iff in Hp. injection He. intros. by split_and!.
Qed.

Lemma reserved_amount_eq a b :
  mo_matches a = mo_matches b -> reserved_amount a = reserved_amount b.
Proof. unfold reserved_amount. by intros ->. Qed.

(** A prepared update keeps the reserved amount covered and the price positive. *)
Lemma prepare_update_ok env req answers before msg v :
  prepare_update env req answers before = Some (Ok (msg, v)) ->
  (reserved_amount before < default (max_base_vol before) (new_max_volume msg))%Q /\
  (forall p, new_price msg = Some p -> (0 < p)%Q).
Proof.
  unfold prepare_update. destruct (has_ongoing_matches before); [done|].
  destruct (find_pair _ _ _) as [[bc rc]|]; [|done].
  destruct (mo_conf_settings before) as [conf|]; [|done]. cbn zeta. intros [= Hr].
  apply result_bind_ok in Hr as (p & Hp & Hr). apply result_bind_ok in Hr as (mv & _ & Hr).
  apply result_bind_ok in Hr as ([nv maxv] & Hv & Hr).
  destruct (num_le nv (reserved_amount before)) eqn:Hres; [done|].
  apply result_bind_ok in Hr as (_ & _ & Hr). injection Hr as <- <-.
  cbn [new_max_volume new_price]. unfold num_le in Hres. qbool. split.
  - assert (nv = default (max_base_vol before) maxv) as <-; [|lra].
    unfold choose_new_volume in Hv. destruct (default false (ur_max req)).
    + inv_ok; by simplify_eq/=.
    + destruct (ur_volume_delta req); [|by injection Hv as <- <-].
      destruct (num_le _ _); [done|]. inv_ok; by simplify_eq/=.
  - intros q Hq. rewrite Hq in Hp. apply result_bind_ok in Hp as (? & Hvp & _).
    unfold validate_price, num_le in Hvp. destruct (Qle_bool q (0 # 1)) eqn:E; [done|].
    by qbool.
Qed.

Lemma commit_update_good env0 env req answers before update saved s r s' acts :
  node_ok s -> prepare_update env0 req answers before = Some (Ok update) ->
  commit_update env req before update saved s = (r, s', acts) -> good s s' acts.
Proof.
  intros Hs Hp Hr. destruct update as [msg v]. apply prepare_update_ok in Hp as [Hmax Hpos].
  unfold commit_update in Hr.
  destruct (get_order _ _ _) as [o|] eqn:Hg; [|injection Hr as <- <- <-; by apply good_refl].
  apply get_order_at in Hg. destruct (negb (same_order o before)) eqn:Hsame;
    [injection Hr as <- <- <-; by apply good_refl|].
  apply negb_false_iff, same_order_spec in Hsame as (Em & Ep & Ematch & Est & Eu & Eb).
  destruct (node_order _ _ _ Hs Hg) as [_ Hok].
  pose proof (reserved_amount_eq _ _ Ematch) as Er. cbn zeta in Hr.
  destruct saved; injection Hr as <- <- <-.
  - eapply good_put; [done|apply Hg| |done..|repeat constructor].
    apply (order_ok_terms o); [done| |done|done|].
    + cbn [price apply_updated]. destruct (new_price msg) as [p|] eqn:E; [by apply Hpos|apply Hok].
    + cbn [max_base_vol apply_updated]. rewrite Er. destruct (new_max_volume msg); cbn in *; lra.
  - eapply good_put; [done|apply Hg| |done..|repeat constructor].
    pose proof (ok_price _ Hok). pose proof (ok_reserved_bounds _ Hok) as [_ Hres].
    apply (order_ok_terms o); [done|lra|done..|lra].
Qed.

(** ** Cancellations *)

Lemma good_takers_shrink t s acts :
  node_ok s -> (forall u o, t !! u = Some o -> my_taker_orders s !! u = Some o) ->
  Forall quiet acts -> good s (set_takers t s) acts.
Proof.
  intros [Hc Ht Hp] Hsub Hq. apply good_quiet; [|done| |].
  - split; [done| |done]. cbn. intros u o Hu%Hsub. by apply Ht.
  - intros *. unfold left_bob, order_at. cbn. lia.
  - intros u. unfold left_alice. cbn. destruct (t !! u) eqn:E; [|lia]. rewrite (Hsub _ _ E). lia.
Qed.

Lemma cancel_order_good env uuid s r s' acts :
  node_ok s -> cancel_order env uuid s = (r, s', acts) -> good s s' acts.
Proof.
  intros Hs Hr. unfold cancel_order in Hr. destruct (get_order _ _ _) as [o|].
  - destruct (negb _); [injection Hr as <- <- <-; by apply good_refl|].
    destruct (remove_and_cancel _ _ _ _ _) as [[b s2] a] eqn:E. injection Hr as <- <- <-.
    by apply good_remove in E as [? _].
  - destruct (my_taker_orders s !! uuid) as [o|]; [|injection Hr as <- <- <-; by apply good_refl].
    destruct (negb _); injection Hr as <- <- <-; [by apply good_refl|].
    apply good_takers_shrink; [done| |repeat constructor]. by intros u x [_ ?]%lookup_delete_Some.
Qed.

Lemma cancel_previous_good env base rel iter s s' acts :
  node_ok s -> cancel_previous_maker_orders env base rel iter s = (s', acts) -> good s s' acts.
Proof.
  revert s s' acts. induction iter as [|u iter IH]; cbn [cancel_previous_maker_orders]; intros s s' acts Hs Hr.
  { injection Hr as <- <-. by apply good_refl. }
  destruct (order_at s u) as [o|] eqn:Ho; [|by apply IH].
  destruct (if _ && _ then _ else _) as [s1 a1] eqn:E1.
  destruct (cancel_previous_maker_orders _ _ _ _ _) as [s2 a2] eqn:E2. injection Hr as <- <-.
  assert (good s s1 a1) as Hg.
  { destruct (_ && _); [|injection E1 as <- <-; by apply good_refl].
    destruct (remove_and_cancel _ _ _ _ _) as [[b s3] a] eqn:E. injection E1 as <- <-.
    by apply good_remove in E as [? _]. }
  eapply good_trans; [exact Hg|]. eapply IH; [apply Hg|exact E2].
Qed.

Lemma remove_orders_spec env uuids c :
  ctx_ok c ->
  ctx_ok (remove_orders env uuids c) /\
  forall u o, orders (remove_orders env uuids c) !! u = Some o -> orders c !! u = Some o.
Proof.
  revert c. induction uuids as [|u l IH]; cbn [remove_orders]; intros c Hc; [done|].
  destruct (remove_order env u c) as [r c'] eqn:E.
  apply remove_order_spec in E as (Hc' & Hdel & _); [|done].
  destruct (IH c' Hc') as [Hok Hsub]. split; [done|]. intros v o Hv%Hsub.
  destruct Hdel as [E|E]; rewrite E in Hv; [|done]. by apply lookup_delete_Some in Hv as [_ ?].
Qed.

Lemma foldr_delete_sub {A} (l : list (Uuid * A)) (m : gmap Uuid A) u x :
  foldr (fun p t => delete (fst p) t) m l !! u = Some x -> m !! u = Some x.
Proof.
  induction l as [|p l IH]; cbn [foldr]; [done|]. by intros [_ ?%IH]%lookup_delete_Some.
Qed.

Lemma quiet_cancels l : Forall quiet (l ≫= fun o => cancel_actions o MakerCancelled).
Proof. induction l; repeat constructor; done. Qed.

Lemma cancel_orders_by_good env by_ iter s r s' acts :
  node_ok s -> cancel_orders_by env by_ iter s = (r, s', acts) -> good s s' acts.
Proof.
  intros Hs Hr. unfold cancel_orders_by in Hr. cbn zeta in Hr.
  match type of Hr with context [remove_orders env ?l _] => set (us := l) in Hr end.
  match type of Hr with context [set_takers ?t _] => set (kept := t) in Hr end.
  injection Hr as <- <- <-.
  destruct (remove_orders_spec env us (maker_orders_ctx s) (node_ctx _ Hs)) as [Hok Hsub].
  eapply good_trans.
  - apply good_shrink; [done|exact Hok|exact Hsub|apply quiet_cancels].
  - apply good_takers_shrink; [by apply node_ok_ctx| |].
    + intros u o. apply foldr_delete_sub.
    + apply Forall_fmap, Forall_forall. done.
Qed.

(** ** New orders *)

Lemma good_add o s acts :
  node_ok s -> order_ok o -> Forall quiet acts -> SaveNewMakerOrder o ∈ acts ->
  good s (set_ctx (add_order o (maker_orders_ctx s)) s) acts.
Proof.
  intros Hs Hok Hq Hin. apply good_quiet; [|done| |].
  - apply node_ok_ctx; [done|]. apply ctx_ok_add; [apply Hs|done].
  - intros v u. unfold left_bob, order_at. cbn. rewrite lookup_insert. case_decide as E; [|lia].
    subst v. apply list_elem_of_split in Hin as (l & k & ->).
    rewrite count_app, count_cons. cbn [creates_maker]. rewrite (bool_decide_eq_true_2 (mo_uuid o = mo_uuid o)) by done.
    case_bool_decide; lia.
  - intros u. unfold left_alice. cbn. lia.
Qed.

Lemma maker_build_ok b now uuid key o :
  maker_build b now uuid key = Ok o -> (0 <= min_trading_vol (mb_base_coin b))%Q -> order_ok o.
Proof.
  intros Hb Hmin. unfold maker_build in Hb. destruct (bool_decide _); [done|].
  destruct (negb _); [done|]. cbn zeta in Hb. apply result_bind_ok in Hb as ([] & Hp & Hb).
  apply result_bind_ok in Hb as (min & _ & Hb). apply result_bind_ok in Hb as ([] & Hv & Hb).
  injection Hb as <-. apply order_ok_new; [| |done|done]; cbn [price max_base_vol].
  - unfold validate_price, num_le in Hp. destruct (Qle_bool _ _) eqn:E; [done|]. by qbool.
  - unfold validate_max_vol in Hv. apply result_bind_ok in Hv as (_ & _ & Hv).
    unfold num_lt in Hv. destruct (negb (Qle_bool _ _)) eqn:E; [done|]. qbool. lra.
Qed.

Lemma create_maker_order_good builder now uuid key subscribed saved s r s' acts :
  node_ok s -> (0 <= min_trading_vol (mb_base_coin builder))%Q ->
  create_maker_order builder now uuid key subscribed saved s = (r, s', acts) -> good s s' acts.
Proof.
  intros Hs Hmin Hr. unfold create_maker_order in Hr.
  destruct (maker_build _ _ _ _) as [o|e] eqn:Hb; [|injection Hr as <- <- <-; by apply good_refl].
  destruct (negb subscribed); [injection Hr as <- <- <-; by apply good_refl|].
  destruct (negb saved); injection Hr as <- <- <-.
  - apply good_quiet; [done|repeat constructor|intros; lia..].
  - apply good_add; [done|by eapply maker_build_ok|repeat constructor|set_solver].
Qed.

Lemma taker_build_ok b now uuid key o :
  taker_build b now uuid key = Some (Ok o) ->
  (0 <= min_trading_vol (tb_base_coin b))%Q -> (0 <= min_trading_vol (tb_rel_coin b))%Q ->
  taker_ok (tr_uuid (to_request o)) o.
Proof.
  intros Hb Hmb Hmr. unfold taker_build in Hb.
  destruct (bool_decide _); [done|].
  destruct (num_lt (tb_base_amount b) _) eqn:E1; [done|].
  destruct (num_lt (tb_rel_amount b) _) eqn:E2; [done|].
  destruct (bool_decide _); [done|]. destruct (negb (bool_decide _)) eqn:Ec; [done|].
  destruct (_ || _) eqn:E3; [done|]. apply orb_false_iff in E3 as [Eb Er].
  cbn zeta in Hb. destruct (num_lt (default _ _) _); [done|].
  destruct (num_lt _ (default _ _)); [done|].
  injection Hb as <-. unfold num_lt, num_eq in *. qbool.
  apply bool_decide_eq_true_1 in Ec. apply Qeq_bool_neq in Eb, Er.
  apply Qle_lt_or_eq in E1, E2. split; cbn.
  - done.
  - destruct E1; lra.
  - destruct E2; lra.
  - done.
  - rewrite map_size_empty. lia.
  - done.
Qed.

Lemma lp_auto_buy_good builder now uuid key subscribed saved s r s' acts :
  node_ok s -> (0 <= min_trading_vol (tb_base_coin builder))%Q ->
  (0 <= min_trading_vol (tb_rel_coin builder))%Q ->
  lp_auto_buy builder now uuid key subscribed saved s = Some (r, s', acts) -> good s s' acts.
Proof.
  intros Hs Hmb Hmr Hr. unfold lp_auto_buy in Hr.
  destruct (taker_build _ _ _ _) as [[o|e]|] eqn:Hb; [| |done];
    [|injection Hr as <- <- <-; by apply good_refl].
  destruct (negb subscribed); [injection Hr as <- <- <-; by apply good_refl|].
  cbn zeta in Hr. destruct (negb saved); injection Hr as <- <- <-.
  - apply good_quiet; [done|repeat constructor|intros; lia..].
  - apply good_quiet; [|repeat constructor| |].
    + destruct Hs as [Hc Ht Hp]. split; [done| |done]. cbn. intros u x.
      rewrite lookup_insert. case_decide as E; [|apply Ht]. intros [= <-]. subst u.
      by eapply taker_build_ok.
    + intros *. unfold left_bob, order_at. cbn. lia.
    + intros u. unfold left_alice. cbn [my_taker_orders set_takers]. rewrite lookup_insert, !count_cons.
      cbn [creates_taker]. case_decide as E; [|lia]. rewrite bool_decide_eq_true_2 by done. lia.
Qed.

(** *** Unmatched taker orders become maker orders *)

Lemma maker_order_from_taker_ok u o now : taker_ok u o -> order_ok (maker_order_from_taker o now).
Proof.
  intros [Hu Hb Hr _ _ _]. unfold maker_order_from_taker. cbn zeta.
  destruct (tr_action (to_request o)); apply order_ok_new; try done; cbn; try (by apply Qdiv_pos); lra.
Qed.

Lemma timed_out_takers_spec env iter c kept c' kept' acts :
  timed_out_takers env iter c kept = (c', kept', acts) ->
  ctx_ok c -> Forall (fun p => taker_ok (fst p) (snd p)) iter ->
  ctx_ok c' /\ Forall quiet acts /\
  (forall u o, kept' !! u = Some o -> kept !! u = Some o \/ (u, o) ∈ iter) /\
  (forall o u s, left_bob o u (set_ctx c' s)
     <= left_bob o u (set_ctx c s) + count (creates_maker o) acts)%nat /\
  (forall u, count (creates_taker u) acts = 0%nat).
Proof.
  revert c kept c' kept' acts.
  induction iter as [|[u o] iter IH]; cbn [timed_out_takers]; intros c kept c' kept' acts E Hc Hall.
  { injection E as <- <- <-. split_and!; [done|constructor|by left|intros; cbn; lia|done]. }
  apply Forall_cons in Hall as [Ho Hall]. cbn [fst snd] in Ho.
  destruct (_ <=? _).
  { apply IH in E as (Hc' & Hq & Hk & Hl & Ht); [|done|done]. split_and!; [done..| | |done].
    - intros v x [Hv|Hv]%Hk; [|right; by right].
      apply lookup_insert_Some in Hv as [[<- <-]|[_ ?]]; [right; by left|by left].
    - done. }
  destruct (_ || _).
  { destruct (timed_out_takers env iter c kept) as [[c1 k1] a1] eqn:E1. injection E as <- <- <-.
    apply IH in E1 as (Hc' & Hq & Hk & Hl & Ht); [|done|done]. split_and!; [done|by constructor| | |].
    - intros v x [Hv|Hv]%Hk; [by left|right; by right].
    - intros v w s. rewrite count_cons. cbn [creates_maker]. apply Hl.
    - intros v. rewrite count_cons. cbn [creates_taker]. apply Ht. }
  cbn zeta in E. set (mo := maker_order_from_taker o (now_ms env)) in *.
  assert (order_ok mo) as Hmo by by eapply maker_order_from_taker_ok.
  destruct (timed_out_takers env iter (add_order mo c) kept) as [[c1 k1] a1] eqn:E1.
  assert (ctx_ok (add_order mo c)) as Hadd by by apply ctx_ok_add.
  apply IH in E1 as (Hc' & Hq & Hk & Hl & Ht); [|done|done].
  set (notify := match find_pair env (mo_base mo) (mo_rel mo) with
                 | Some _ => [Broadcast (maker_orderbook_topic mo) (MsgMakerOrderCreated mo)
                                (mo_p2p_privkey mo)]
                 | None => [] end) in *.
  injection E as <- <- <-. split_and!; [done| | | |].
  - repeat constructor. apply Forall_app. split; [|done].
    unfold notify. destruct (find_pair _ _ _); repeat constructor.
  - intros v x [Hv|Hv]%Hk; [by left|right; by right].
  - intros v w s. rewrite !count_cons, count_app. cbn [creates_maker]. specialize (Hl v w s).
    assert (left_bob v w (set_ctx (add_order mo c) s)
      <= left_bob v w (set_ctx c s) + (if bool_decide (mo_uuid mo = v) then 1 else 0))%nat.
    { unfold left_bob, order_at. cbn [maker_orders_ctx set_ctx orders add_order]. rewrite lookup_insert.
      case_decide as Ev; [|destruct (bool_decide _); lia].
      rewrite (bool_decide_eq_true_2 (mo_uuid mo = v)) by done. destruct (bool_decide (w ∈ _)); lia. }
    lia.
  - intros v. rewrite !count_cons, count_app, Ht. cbn [creates_taker].
    unfold notify. destruct (find_pair _ _ _); done.
Qed.

Lemma handle_timed_out_taker_orders_good env s s' acts :
  node_ok s -> handle_timed_out_taker_orders env s = (s', acts) -> good s s' acts.
Proof.
  intros Hs Hr. unfold handle_timed_out_taker_orders in Hr.
  destruct (timed_out_takers _ _ _ _) as [[c kept] a] eqn:E. injection Hr as <- <-.
  apply timed_out_takers_spec in E as (Hc & Hq & Hk & Hl & Ht); [|apply Hs|].
  - apply good_quiet; [|done| |].
    + destruct Hs as [_ Hts Hp]. split; [done| |done]. cbn. intros u o [Hu|Hu]%Hk.
      * by rewrite lookup_empty in Hu.
      * by apply Hts, elem_of_map_to_list.
    + intros o u. apply (Hl o u s).
    + intros u. unfold left_alice. cbn. destruct (kept !! u) as [o|] eqn:Eu; [|lia].
      apply Hk in Eu as [Eu|Eu%elem_of_map_to_list]; [by rewrite lookup_empty in Eu|].
      rewrite Eu. lia.
  - apply Forall_forall. intros [u o] Hu%elem_of_map_to_list. by apply (node_takers _ Hs).
Qed.

(** ** Runs *)

Lemma node_step_good `{UnstableSort} s s' acts : node_step s s' acts -> node_ok s -> good s s' acts.
Proof.
  intros Hstep Hs. destruct Hstep.
  - by eapply create_maker_order_good.
  - by eapply lp_auto_buy_good.
  - by eapply process_taker_request_good.
  - by eapply process_taker_connect_good.
  - by eapply receive_maker_reserved_good.
  - by eapply process_pending_reserved_good.
  - by eapply process_maker_connected_good.
  - by eapply handle_timed_out_taker_orders_good.
  - by eapply handle_timed_out_maker_matches_good.
  - by eapply check_balance_for_maker_orders_good.
  - by eapply drop_expired_good.
  - by eapply kick_start_order_good.
  - match goal with H : remove_and_cancel _ _ _ _ _ = _ |- _ => by apply good_remove in H as [? _] end.
  - by eapply balance_updated_good.
  - by eapply commit_update_good.
  - by eapply cancel_order_good.
  - by eapply cancel_previous_good.
  - by eapply cancel_orders_by_good.
Qed.

Lemma run_good `{UnstableSort} s acts : run s acts -> good OrdermatchContext_new s acts.
Proof.
  induction 1 as [|s acts s' new Hrun IH Hstep].
  - apply good_refl, node_ok_new.
  - eapply good_trans; [exact IH|]. apply node_step_good; [done|apply IH].
Qed.
