(* ===== verification/OrderSwap.v ===== *)
(** * From a match to a swap (mm2_main/src/lp_ordermatch.rs)

    What [lp_connect_start_bob] and [lp_connected_alice] start when a match is
    connected: the settings of the swap, its lock time, and the choice between
    the legacy swaps of [maker_swap.rs] and [taker_swap.rs] and the state
    machines of the second protocol. *)

From S2P Require Import Prelude MmNumber DexFee Swap Ordermatch.
From S2P Require MakerSwap TakerSwap.

Open Scope Z_scope.

(** What starting a swap asks of the node: the active coins, its key, and a
    fresh secret (none when the generator fails). *)
Record StartEnv : Type := mkStartEnv {
  lp_coinfind : string -> option OrderCoin;
  se_persistent_pub : H264;
  generate_secret : option H256 }.

(** The fields that the two state machines are started with. *)
Record StateMachineStart : Type := mkStateMachine {
  sm_maker_coin : OrderCoin;
  sm_maker_volume : MmNumber;
  sm_secret : H256;
  sm_taker_coin : OrderCoin;
  sm_taker_volume : MmNumber;
  sm_conf_settings : SwapConfirmationsSettings;
  sm_uuid : Uuid;
  sm_p2p_keypair : option bytes;
  sm_secret_hash_algo : SecretHashAlgo;
  sm_lock_duration : Z;
  sm_other_p2p_pubkey : H264;
  sm_swap_version : Z }.

Inductive SwapStart (Legacy : Type) : Type :=
| LegacySwap (swap : Legacy)
| StateMachineSwap (machine : StateMachineStart).
Arguments LegacySwap {Legacy} swap.
Arguments StateMachineSwap {Legacy} machine.

Definition is_sha256 (a : SecretHashAlgo) : bool :=
  match a with SHA256 => true | DHASH160 => false end.

Definition detect_secret_hash_algo_v2 (maker_coin taker_coin : OrderCoin) : SecretHashAlgo :=
  if is_sha256 (secret_hash_algo_v2 maker_coin) || is_sha256 (secret_hash_algo_v2 taker_coin)
  then SHA256 else DHASH160.

(** The pairs that the second protocol is there for. *)
Definition state_machine_pair (maker_coin taker_coin : OrderCoin) : bool :=
  match coin_variant (oc_coin maker_coin), coin_variant (oc_coin taker_coin) with
  | UtxoCoinVariant, UtxoCoinVariant | EthCoinVariant, EthCoinVariant
  | UtxoCoinVariant, EthCoinVariant | EthCoinVariant, UtxoCoinVariant => true
  | _, _ => false
  end.

Section Start.
  Context `{DecimalConv}.

Definition start_maker_legacy_swap (maker_order : MakerOrder) (taker_pubkey : H256)
  (secret : H256) (maker_coin taker_coin : OrderCoin) (uuid : Uuid)
  (my_conf_settings : SwapConfirmationsSettings) (my_persistent_pub : H264)
  (maker_amount taker_amount : MmNumber) (locktime : Z) : MakerSwap.MakerSwap :=
  MakerSwap.MakerSwap_new taker_pubkey (to_decimal maker_amount) (to_decimal taker_amount)
    my_persistent_pub uuid (Some (mo_uuid maker_order)) my_conf_settings (oc_coin maker_coin)
    (oc_coin taker_coin) locktime (mo_p2p_privkey maker_order) secret.

Definition start_taker_legacy_swap (taker_order : TakerOrder) (maker_pubkey : H256)
  (maker_coin taker_coin : OrderCoin) (uuid : Uuid)
  (my_conf_settings : SwapConfirmationsSettings) (my_persistent_pub : H264)
  (maker_amount taker_amount : MmNumber) (locktime : Z) : TakerSwap.TakerSwap :=
  TakerSwap.TakerSwap_new maker_pubkey maker_amount taker_amount my_persistent_pub uuid
    (Some uuid) my_conf_settings (oc_coin maker_coin) (oc_coin taker_coin) locktime
    (to_p2p_privkey taker_order).

(** No swap is started when a coin is not active or there is no secret. *)
Definition lp_connect_start_bob (env : StartEnv) (maker_match : MakerMatch)
  (maker_order : MakerOrder) (taker_p2p_pubkey : H264) : option (SwapStart MakerSwap.MakerSwap) :=
  let uuid := tr_uuid (mm_request maker_match) in
  taker_coin ← lp_coinfind env (mo_rel maker_order);
  maker_coin ← lp_coinfind env (mo_base maker_order);
  let maker_amount := rv_base_amount (mm_reserved maker_match) in
  let taker_amount := rv_rel_amount (mm_reserved maker_match) in
  let my_conf_settings :=
    choose_maker_confs_and_notas (mo_conf_settings maker_order) (mm_request maker_match)
      maker_coin taker_coin in
  let atomic_locktime_v :=
    match tr_conf_settings (mm_request maker_match) with
    | Some _ =>
        V2 my_conf_settings
          (choose_taker_confs_and_notas (mm_request maker_match)
             (rv_conf_settings (mm_reserved maker_match)) maker_coin taker_coin)
    | None => V1
    end in
  let lock_time :=
    lp_atomic_locktime (order_base_orderbook_ticker maker_order)
      (order_rel_orderbook_ticker maker_order) atomic_locktime_v in
  secret ← generate_secret env;
  let legacy :=
    LegacySwap (start_maker_legacy_swap maker_order
      (tr_sender_pubkey (mm_request maker_match)) secret maker_coin taker_coin uuid
      my_conf_settings (se_persistent_pub env) maker_amount taker_amount lock_time) in
  if is_legacy (tr_swap_version (mm_request maker_match))
     || is_legacy (mo_swap_version maker_order)
  then Some legacy
  else if state_machine_pair maker_coin taker_coin
  then Some (StateMachineSwap
    (mkStateMachine maker_coin maker_amount secret taker_coin taker_amount my_conf_settings uuid
       (mo_p2p_privkey maker_order) (detect_secret_hash_algo_v2 maker_coin taker_coin) lock_time
       taker_p2p_pubkey (mo_swap_version maker_order)))
  else Some legacy.

Definition lp_connected_alice (env : StartEnv) (taker_order : TakerOrder)
  (taker_match : TakerMatch) (maker_p2p_pubkey : H264) : option (SwapStart TakerSwap.TakerSwap) :=
  let reserved := tm_reserved taker_match in
  let uuid := rv_taker_order_uuid reserved in
  taker_coin ← lp_coinfind env (taker_coin_ticker taker_order);
  maker_coin ← lp_coinfind env (maker_coin_ticker taker_order);
  let maker_amount := rv_base_amount reserved in
  let taker_amount := rv_rel_amount reserved in
  let my_conf_settings :=
    choose_taker_confs_and_notas (to_request taker_order) (rv_conf_settings reserved)
      maker_coin taker_coin in
  let atomic_locktime_v :=
    match rv_conf_settings reserved with
    | Some _ =>
        V2 my_conf_settings
          (choose_maker_confs_and_notas (rv_conf_settings reserved) (to_request taker_order)
             maker_coin taker_coin)
    | None => V1
    end in
  let locktime :=
    lp_atomic_locktime (maker_orderbook_ticker taker_order) (taker_orderbook_ticker taker_order)
      atomic_locktime_v in
  let legacy :=
    LegacySwap (start_taker_legacy_swap taker_order (rv_sender_pubkey reserved) maker_coin
      taker_coin uuid my_conf_settings (se_persistent_pub env) maker_amount taker_amount
      locktime) in
  if is_legacy (rv_swap_version reserved) || is_legacy (tr_swap_version (to_request taker_order))
  then Some legacy
  else
    taker_secret ← generate_secret env;
    if state_machine_pair maker_coin taker_coin
    then Some (StateMachineSwap
      (mkStateMachine maker_coin maker_amount taker_secret taker_coin taker_amount
         my_conf_settings uuid (to_p2p_privkey taker_order)
         (detect_secret_hash_algo_v2 maker_coin taker_coin) locktime maker_p2p_pubkey
         (tr_swap_version (to_request taker_order))))
    else Some legacy.

End Start.
