(* ===== verification/OrderTheorems.v ===== *)
(** * Theorems about order matching

    The properties of the matching of orders ([Ordermatch.v]), of the handlers
    of a node ([OrdermatchNode.v]) and of the swaps that a match starts
    ([OrderSwap.v]), each with a witness on concrete orders. *)

From Stdlib Require Import Sorting.Sorted.
From stdpp Require Import sorting.
From S2P Require Import Prelude MmNumber DexFee Swap Demo Ordermatch OrdermatchNode OrdermatchProps OrdermatchInv OrderSwap.
From S2P Require MakerSwap TakerSwap.

Open Scope Z_scope.

(** ** A sort by price *)

Definition price_le (a b : MakerReserved) : Prop := (rv_price a <= rv_price b)%Q.

#[export] Instance price_le_dec : RelDecision price_le.
Proof.
  intros a b. unfold Decision, price_le. destruct (Qle_bool (rv_price a) (rv_price b)) eqn:E.
  - left. by apply Qle_bool_iff.
  - right. intros H%Qle_bool_iff. congruence.
Defined.

#[export] Instance price_le_total : Total price_le.
Proof. intros a b. unfold price_le. destruct (Qlt_le_dec (rv_price b) (rv_price a)); [right|left]; lra. Qed.

#[export] Instance price_le_trans : Transitive price_le.
Proof. intros a b c. unfold price_le. intros. by eapply Qle_trans. Qed.

Definition merge_by_price : UnstableSort := {|
  sort_by_price := merge_sort price_le;
  sort_by_price_perm := merge_sort_Permutation price_le;
  sort_by_price_sorted := StronglySorted_merge_sort price_le |}.

(** ** Concrete orders *)

Definition demo_order_coin (name : string) : OrderCoin := {|
  oc_coin := demo_coin name;
  min_trading_vol := 1 # 100;
  required_confirmations := 1;
  secret_hash_algo_v2 := DHASH160;
  coin_protocol_info := fun _ => [1];
  is_coin_protocol_supported := fun _ _ _ _ => true |}.

Definition demo_maker_key : H256 := replicate 32 1.
Definition demo_taker_key : H256 := replicate 32 2.

Definition demo_env (key : H256) (now : Z) : Env := {|
  now_ms := now;
  mm2_internal_public_id := Some key;
  find_pair := fun base rel => Some (demo_order_coin base, demo_order_coin rel);
  live := fun _ => true;
  purge_expired := false |}.

Definition demo_order_conf : OrderConfirmationsSettings := mkOrderConf 3 true 2 false.

(** Ten KMD at 1/2 LTC each, at least one KMD. *)
Definition demo_maker_builder : MakerOrderBuilder := {|
  mb_max_base_vol := 10 # 1;
  mb_min_base_vol := Some (1 # 1);
  mb_price := 1 # 2;
  mb_base_coin := demo_order_coin "KMD";
  mb_rel_coin := demo_order_coin "LTC";
  mb_base_orderbook_ticker := None;
  mb_rel_orderbook_ticker := None;
  mb_conf_settings := Some demo_order_conf;
  mb_save_in_history := true;
  mb_swap_version := 1;
  mb_timeout_in_minutes := None |}.

(** Buys six KMD for at most 3.6 LTC. *)
Definition demo_taker_builder : TakerOrderBuilder := {|
  tb_base_coin := demo_order_coin "KMD";
  tb_rel_coin := demo_order_coin "LTC";
  tb_base_orderbook_ticker := None;
  tb_rel_orderbook_ticker := None;
  tb_base_amount := 6 # 1;
  tb_rel_amount := 36 # 10;
  tb_sender_pubkey := demo_taker_key;
  tb_action := Buy;
  tb_match_by := MatchAny;
  tb_order_type := GoodTillCancelled;
  tb_conf_settings := Some (mkOrderConf 1 true 4 true);
  tb_min_volume := None;
  tb_timeout := 30;
  tb_save_in_history := true;
  tb_swap_version := 1 |}.

Definition demo_maker_uuid : Uuid := [1].
Definition demo_taker_uuid : Uuid := [2].

Definition demo_maker : MakerOrder :=
  match maker_build demo_maker_builder 5 demo_maker_uuid [] with
  | Ok o => o
  | Err _ => maker_order_from_taker
      (mkTakerOrder 0 (mkRequest "" "" (0 # 1) (0 # 1) Buy [] [] MatchAny None None None 1)
         empty (0 # 1) FillOrKill 0 false None None None) 0
  end.

Definition demo_taker : TakerOrder :=
  match taker_build demo_taker_builder 6 demo_taker_uuid [] with
  | Some (Ok o) => o
  | _ => mkTakerOrder 0 (mkRequest "" "" (0 # 1) (0 # 1) Buy [] [] MatchAny None None None 1)
           empty (0 # 1) FillOrKill 0 false None None None
  end.

Definition demo_request : TakerRequest := broadcast_request demo_taker demo_taker_key.

(** The maker's node after [create_maker_order], after the request, and after
    the connect message. *)
Definition demo_s1 : OrdermatchContext :=
  snd (fst (create_maker_order demo_maker_builder 5 demo_maker_uuid [] true true
    OrdermatchContext_new)).

Definition demo_s2 : OrdermatchContext :=
  fst (process_taker_request (demo_env demo_maker_key 10) demo_taker_key demo_request
    [demo_maker_uuid] demo_s1).

Definition demo_taker_pub : H264 := 2 :: demo_taker_key.
Definition demo_maker_pub : H264 := 2 :: demo_maker_key.

Definition demo_connect : TakerConnect :=
  mkConnect demo_taker_uuid demo_maker_uuid H256_default H256_default.

Definition demo_s3 : OrdermatchContext :=
  fst (process_taker_connect (demo_env demo_maker_key 12) demo_taker_pub demo_connect demo_s2).

Lemma triple_eta {A B C} (x : A * B * C) : x = (fst (fst x), snd (fst x), snd x).
Proof. by destruct x as [[? ?] ?]. Qed.

Definition demo_acts1 : list Action :=
  snd (create_maker_order demo_maker_builder 5 demo_maker_uuid [] true true OrdermatchContext_new).

Definition demo_acts2 : list Action :=
  snd (process_taker_request (demo_env demo_maker_key 10) demo_taker_key demo_request
         [demo_maker_uuid] demo_s1).

Definition demo_acts3 : list Action :=
  snd (process_taker_connect (demo_env demo_maker_key 12) demo_taker_pub demo_connect demo_s2).

Lemma demo_run1 : @run merge_by_price demo_s1 ([] ++ demo_acts1).
Proof.
  eapply run_step; [apply run_new|].
  eapply StepCreateMaker; [|apply triple_eta]. by vm_compute.
Qed.

Lemma demo_run3 : @run merge_by_price demo_s3 ((([] ++ demo_acts1) ++ demo_acts2) ++ demo_acts3).
Proof.
  eapply run_step; [eapply run_step; [apply demo_run1|]|].
  - eapply StepTakerRequest. apply surjective_pairing.
  - eapply StepTakerConnect. apply surjective_pairing.
Qed.

(** ** Matching *)

Lemma ticker_is_default t ob : ticker_is t ob (default t ob) = true.
Proof.
  unfold ticker_is. destruct ob as [x|]; cbn.
  - by rewrite (bool_decide_eq_true_2 (Some x = Some x)), orb_true_r.
  - by rewrite bool_decide_eq_true_2.
Qed.

(** A request that was read from its broadcast, matched with an order and
    answered, is accepted by the taker. *)
Lemma answer_accepted t sender o b a our u bc rc :
  match_with_request o (broadcast_request t sender) = Matched b a ->
  (0 < price o)%Q ->
  can_match_with_uuid (broadcast_request t sender) u = true ->
  can_match_with_maker_pubkey (broadcast_request t sender) our = true ->
  order_base_orderbook_ticker o = maker_orderbook_ticker t ->
  order_rel_orderbook_ticker o = taker_orderbook_ticker t ->
  match_reserved t (received_reserved
    (make_reserved our (broadcast_request t sender) u o b a bc rc) our) = ReservedMatched.
Proof.
  intros Hm Hp Hu Hk Hb Hr. destruct (matched_terms _ _ _ _ Hm Hp) as (_ & _ & _ & _ & _ & Hterms).
  unfold can_match_with_uuid, can_match_with_maker_pubkey in Hu, Hk. cbn [tr_match_by broadcast_request] in Hu, Hk.
  unfold match_reserved. cbn [received_reserved make_reserved rv_maker_order_uuid rv_sender_pubkey
    rv_base rv_rel rv_base_amount rv_rel_amount].
  assert (match tr_match_by (to_request t) with
          | MatchAny => true
          | MatchOrders uuids => bool_decide (u ∈ uuids)
          | MatchPubkeys pubkeys => bool_decide (our ∈ pubkeys)
          end = true) as -> by by destruct (tr_match_by (to_request t)).
  cbn [negb tr_action broadcast_request tr_base_amount tr_rel_amount] in *. rewrite Hb, Hr.
  unfold maker_orderbook_ticker, taker_orderbook_ticker, base_orderbook_ticker, rel_orderbook_ticker.
  destruct (tr_action (to_request t)); destruct Hterms as [-> Hle];
    rewrite !ticker_is_default; unfold num_eq, num_le; cbn [andb];
    rewrite (proj2 (Qeq_bool_iff _ _) (Qeq_refl _));
    by rewrite (proj2 (Qle_bool_iff _ _) Hle).
Qed.

Lemma request_loop_answers env our req iter s s' acts topic rv key :
  request_loop env our req iter s = (s', acts) ->
  Broadcast topic (MsgMakerReserved rv) key ∈ acts ->
  exists u o b a bc rc m,
    order_at s u = Some o /\ match_with_request o req = Matched b a /\
    can_match_with_uuid req u = true /\
    rv = make_reserved our req u o b a bc rc /\
    order_at s' u = Some (set_matches (<[tr_uuid req := m]> (mo_matches o)) o) /\
    mm_reserved m = rv /\ mm_request m = req.
Proof.
  induction iter as [|u iter IH]; cbn [request_loop]; intros E Hin.
  { injection E as <- <-. by apply elem_of_nil in Hin. }
  destruct (negb (can_match_with_uuid req u)) eqn:Hu; [by apply IH|].
  destruct (order_at s u) as [o|] eqn:Ho; [|by apply IH].
  destruct (match_with_request o req) as [b a|] eqn:Hm; [|by apply IH].
  destruct (find_pair _ _ _) as [[bc rc]|]; [|injection E as <- <-; by apply elem_of_nil in Hin].
  cbn zeta in E. destruct (_ && _); [|injection E as <- <-; by apply elem_of_nil in Hin].
  injection E as <- <-. apply negb_false_iff in Hu.
  apply elem_of_cons in Hin as [[= -> -> ->]|Hin]; [|set_solver].
  exists u, o, b, a, bc, rc. eexists. do 4 (split; [done|]). split.
  - rewrite order_at_put. by rewrite decide_True.
  - done.
Qed.

(** A maker's answer is a trade that the taker accepts.  When a maker
    answers a taker's request with a reserved message, the amounts are at the
    price of the maker's order, within its minimum and what is available, and
    not worse for the taker than the request; the answer is what the maker
    stores with the order; and the taker's [match_reserved] accepts it, when both
    trade under the same orderbook tickers. *)
Theorem reserved_is_accepted `{UnstableSort} before env from iter s s' acts t sender our topic rv key :
  run s before ->
  mm2_internal_public_id env = Some our ->
  process_taker_request env from (broadcast_request t sender) iter s = (s', acts) ->
  Broadcast topic (MsgMakerReserved rv) key ∈ acts ->
  exists o o' m,
    order_at s (rv_maker_order_uuid rv) = Some o /\
    order_at s' (rv_maker_order_uuid rv) = Some o' /\
    mo_matches o' !! tr_uuid (to_request t) = Some m /\ mm_reserved m = rv /\
    (rv_rel_amount rv == rv_base_amount rv * price o)%Q /\
    (min_base_vol o <= rv_base_amount rv <= available_amount o)%Q /\
    (reserved_amount o' <= max_base_vol o')%Q /\
    match tr_action (to_request t) with
    | Buy => (rv_base_amount rv == tr_base_amount (to_request t))%Q /\
             (rv_rel_amount rv <= tr_rel_amount (to_request t))%Q
    | Sell => (rv_rel_amount rv == tr_base_amount (to_request t))%Q /\
              (tr_rel_amount (to_request t) <= rv_base_amount rv)%Q
    end /\
    (order_base_orderbook_ticker o = maker_orderbook_ticker t ->
     order_rel_orderbook_ticker o = taker_orderbook_ticker t ->
     match_reserved t (received_reserved rv our) = ReservedMatched).
Proof.
  intros [Hs _ _]%run_good Hour Hr Hin. pose proof (process_taker_request_good _ _ _ _ _ _ _ Hs Hr) as [Hs' _ _].
  unfold process_taker_request in Hr. rewrite Hour in Hr.
  destruct (bool_decide _); [injection Hr as <- <-; by apply elem_of_nil in Hin|].
  destruct (negb _) eqn:Hk; [injection Hr as <- <-; by apply elem_of_nil in Hin|].
  apply negb_false_iff in Hk.
  destruct (request_loop_answers _ _ _ _ _ _ _ _ _ _ Hr Hin)
    as (u & o & b & a & bc & rc & m & Ho & Hm & Hu & -> & Ho' & Hmr & _).
  destruct (node_order _ _ _ Hs Ho) as [_ Hok]. destruct (node_order _ _ _ Hs' Ho') as [_ Hok'].
  destruct (matched_terms _ _ _ _ Hm (ok_price _ Hok)) as (Ha & Hb & _ & Hmin & Hav & Hterms).
  do 3 eexists. split_and!; [exact Ho|exact Ho'|apply lookup_insert_eq|exact Hmr|done|done|done| | |].
  - by apply ok_reserved_bounds.
  - cbn in Hterms |- *. destruct (tr_action (to_request t)); destruct Hterms as [-> ?]; by split.
  - intros Hbt Hrt. apply (answer_accepted t sender o); try done. apply Hok.
Qed.

Definition demo_reserved : MakerReserved :=
  make_reserved demo_maker_key demo_request demo_maker_uuid demo_maker (6 # 1) (6 # 2)
    (demo_order_coin "KMD") (demo_order_coin "LTC").

Lemma reserved_is_accepted_witness :
  match_reserved demo_taker (received_reserved demo_reserved demo_maker_key) = ReservedMatched.
Proof.
  destruct (reserved_is_accepted _ (demo_env demo_maker_key 10) demo_taker_key [demo_maker_uuid]
    demo_s1 demo_s2 demo_acts2 demo_taker demo_taker_key demo_maker_key
    (maker_orderbook_topic demo_maker) demo_reserved None demo_run1 eq_refl)
    as (o & o' & m & Ho & _ & _ & _ & _ & _ & _ & _ & Haccepted).
  - apply surjective_pairing.
  - vm_compute. left.
  - apply Haccepted; vm_compute in Ho; injection Ho as <-; by vm_compute.
Defined.

(** ** Runs of a node *)

(** C25: an order is never sold twice.  In every run of a node, whatever
    requests, connects, updates, balance changes and cancellations come in
    whatever order, the amounts that the matches of a maker order hold are
    covered by its volume; the requests whose swap was started are distinct and
    are exactly those with a connected match, so what a started swap takes stays
    reserved. *)
Theorem no_overselling `{UnstableSort} s acts u o :
  run s acts -> order_at s u = Some o ->
  (0 <= reserved_amount o <= max_base_vol o)%Q /\
  (0 <= available_amount o <= max_base_vol o)%Q /\
  NoDup (started_swaps o) /\
  (forall r, r ∈ started_swaps o <->
     exists m, mo_matches o !! r = Some m /\ is_Some (mm_connect m) /\ is_Some (mm_connected m)).
Proof.
  intros [Hs _ _]%run_good Ho. destruct (node_order _ _ _ Hs Ho) as [_ Hok].
  destruct (ok_reserved_bounds _ Hok) as [H0 Hmax].
  split_and!; try done; [unfold available_amount; lra..|apply Hok|].
  intros r. rewrite (ok_started _ Hok). split.
  - intros (m & Hm & Hc). exists m. destruct (ok_matches _ Hok _ _ Hm) as (_ & _ & _ & Hiff).
    split_and!; [done|by apply Hiff|done].
  - intros (m & Hm & _ & Hc). by exists m.
Qed.

Lemma no_overselling_witness :
  exists o, order_at demo_s3 demo_maker_uuid = Some o /\ started_swaps o = [demo_taker_uuid] /\
    (0 <= reserved_amount o <= max_base_vol o)%Q.
Proof.
  eexists. split; [by vm_compute|]. split; [by vm_compute|].
  apply (no_overselling (H := merge_by_price) demo_s3 _ demo_maker_uuid _ demo_run3). by vm_compute.
Defined.

(** A match starts at most one swap.  In every run of a node, the maker
    swaps that were started for a request with an order are at most as many as
    the orders that were created with this uuid, and the taker swaps that were
    started for a taker order at most as many as the taker orders with its uuid:
    with fresh uuids, at most one, whatever messages are repeated. *)
Theorem swaps_started_once `{UnstableSort} s acts :
  run s acts ->
  (forall o u, (count (starts_bob o u) acts <= count (creates_maker o) acts)%nat) /\
  (forall u, (count (starts_alice u) acts <= count (creates_taker u) acts)%nat).
Proof.
  intros [_ Hb Ha]%run_good. split.
  - intros o u. specialize (Hb o u). unfold left_bob, order_at in Hb. cbn in Hb.
    rewrite lookup_empty in Hb. lia.
  - intros u. specialize (Ha u). unfold left_alice in Ha. cbn in Ha. rewrite lookup_empty in Ha. lia.
Qed.

Lemma swaps_started_once_witness :
  (count (starts_bob demo_maker_uuid demo_taker_uuid)
     ((([] ++ demo_acts1) ++ demo_acts2) ++ demo_acts3) = 1)%nat /\
  (1 <= count (creates_maker demo_maker_uuid) ((([] ++ demo_acts1) ++ demo_acts2) ++ demo_acts3))%nat.
Proof.
  destruct (swaps_started_once (H := merge_by_price) _ _ demo_run3) as [Hb _].
  split; [by vm_compute|]. apply (Hb demo_maker_uuid demo_taker_uuid).
Defined.

(** Every maker order of a node is watched: in every run, the balance loop
    of the base coin of each of its orders is running, so a loss of balance
    reaches the order. *)
Theorem orders_are_watched `{UnstableSort} s acts u o :
  run s acts -> order_at s u = Some o ->
  mo_base o ∈ balance_loops (maker_orders_ctx s) /\
  coin_has_active_maker_orders (mo_base o) (maker_orders_ctx s) = true.
Proof.
  intros [[Hc _ _] _ _]%run_good Ho.
  pose proof (ctx_tickers _ Hc _ _ Ho) as Ht. pose proof (ctx_counts _ Hc (mo_base o)) as Hn.
  pose proof (size_tickers_delete (mo_base o) u _ _ Ht) as Hs.
  rewrite decide_True in Hs by done. unfold coin_has_active_maker_orders.
  destruct (count_by_tickers _ !! mo_base o) as [[|n]|] eqn:E; cbn in Hn; try lia.
  split; [|done]. by eapply ctx_loops.
Qed.

Lemma orders_are_watched_witness : "KMD"%string ∈ balance_loops (maker_orders_ctx demo_s3).
Proof.
  assert (is_Some (order_at demo_s3 demo_maker_uuid)) as [o Ho] by (eexists; by vm_compute).
  destruct (orders_are_watched (H := merge_by_price) _ _ _ _ demo_run3 Ho) as [Hw _].
  assert (mo_base o = "KMD"%string) as <-; [|done].
  vm_compute in Ho. by injection Ho as <-.
Defined.

(** ** The choice of the taker *)

Lemma reserved_loop_first env our uuid o bc rc l s :
  (Forall (fun r => acceptable o bc rc r = false) l /\
   reserved_loop env our uuid o bc rc l s = (s, [])) \/
  exists l1 r l2,
    l = l1 ++ r :: l2 /\ Forall (fun r => acceptable o bc rc r = false) l1 /\
    acceptable o bc rc r = true /\
    let connect := mkConnect (rv_taker_order_uuid r) (rv_maker_order_uuid r) our
                     (rv_sender_pubkey r) in
    let o' := set_to_matches
      (<[rv_maker_order_uuid r := mkTakerMatch r connect None (now_ms env)]> (to_matches o)) o in
    reserved_loop env our uuid o bc rc l s =
      (set_takers (<[uuid := o']> (my_taker_orders s)) s,
       [Broadcast (taker_orderbook_topic o) (MsgTakerConnect connect) (to_p2p_privkey o);
        UpdateTakerOrder o']).
Proof.
  induction l as [|r l IH]; cbn [reserved_loop]; [by left|].
  destruct (acceptable o bc rc r) eqn:Ha.
  - right. exists [], r, l. by repeat split.
  - destruct IH as [[Hl E]|(l1 & r' & l2 & -> & Hl & Hr & E)].
    + left. split; [by constructor|done].
    + right. exists (r :: l1), r', l2. split; [done|]. split; [by constructor|]. by split.
Qed.

(** A taker connects to the cheapest acceptable maker, and to one only.  When
    the reserved messages of a taker order are processed, either some message
    is acceptable and the taker connects to an acceptable one with the lowest
    price among them, which becomes the only match of the order and satisfies
    the order's limits; or none is and nothing changes but the messages that are
    dropped. *)
Theorem taker_connects_to_cheapest `{UnstableSort} before env uuid s our o bc rc l :
  run s before ->
  mm2_internal_public_id env = Some our ->
  my_taker_orders s !! uuid = Some o ->
  find_pair env (maker_coin_ticker o) (taker_coin_ticker o) = Some (bc, rc) ->
  pending_maker_reserved s !! uuid = Some l ->
  sort_panics l = false ->
  exists s' acts, process_pending_reserved env uuid s = (s', false, acts) /\
  pending_maker_reserved s' !! uuid = None /\
  ((exists r o', r ∈ l /\ acceptable o bc rc r = true /\
     (forall r', r' ∈ l -> acceptable o bc rc r' = true -> rv_price r <= rv_price r')%Q /\
     match_reserved o r = ReservedMatched /\
     my_taker_orders s' = <[uuid := o']> (my_taker_orders s) /\
     to_request o' = to_request o /\
     (exists m, to_matches o' = {[rv_maker_order_uuid r := m]} /\ tm_reserved m = r /\
        cn_dest_pub_key (tm_connect m) = rv_sender_pubkey r /\
        acts = [Broadcast (taker_orderbook_topic o) (MsgTakerConnect (tm_connect m))
                  (to_p2p_privkey o); UpdateTakerOrder o'])) \/
   (Forall (fun r => acceptable o bc rc r = false) l /\ acts = [] /\
    my_taker_orders s' = my_taker_orders s /\ maker_orders_ctx s' = maker_orders_ctx s)).
Proof.
  intros [Hs _ _]%run_good Hour Ho Hp Hl Hsort. unfold process_pending_reserved.
  rewrite Hour, Ho, Hp, Hl. cbn zeta. rewrite Hsort.
  set (s1 := set_pending (delete uuid (pending_maker_reserved s)) s).
  destruct (reserved_loop_first env our uuid o bc rc (sort_by_price l) s1)
    as [[Hnone ->]|(l1 & r & l2 & El & Hl1 & Hr & E)].
  - do 2 eexists. split; [done|]. split; [apply lookup_delete_eq|]. right.
    split; [|done]. by rewrite sort_by_price_perm in Hnone.
  - cbn zeta in E. rewrite E. do 2 eexists. split; [done|]. split; [apply lookup_delete_eq|]. left.
    destruct (acceptable_spec _ _ _ _ Hr) as [Hempty Hmatch].
    exists r. eexists. split_and!; [| |  |done|done|done|].
    + rewrite <- (sort_by_price_perm l), El. set_solver.
    + done.
    + intros r' Hin Hacc. rewrite <- (sort_by_price_perm l), El in Hin.
      pose proof (sort_by_price_sorted l) as Hsorted. rewrite El in Hsorted.
      apply elem_of_app in Hin as [Hin|[->|Hin]%elem_of_cons].
      * rewrite Forall_forall in Hl1. by rewrite (Hl1 _ Hin) in Hacc.
      * lra.
      * apply StronglySorted_app_1_r in Hsorted.
        inversion_clear Hsorted as [|? ? _ Hall]. rewrite Forall_forall in Hall. by apply Hall.
    + eexists. cbn [to_matches set_to_matches]. rewrite Hempty. by rewrite insert_empty.
Qed.

(** A taker's node with the order and two answers, one dearer. *)
Definition demo_t1 : OrdermatchContext :=
  match lp_auto_buy demo_taker_builder 6 demo_taker_uuid [] true true OrdermatchContext_new with
  | Some r => snd (fst r)
  | None => OrdermatchContext_new
  end.

Definition demo_buy_acts : list Action :=
  match lp_auto_buy demo_taker_builder 6 demo_taker_uuid [] true true OrdermatchContext_new with
  | Some r => snd r
  | None => []
  end.

Definition demo_dear : MakerReserved :=
  mkReserved "KMD" "LTC" (6 # 1) (34 # 10) demo_taker_uuid [9] (replicate 32 9) H256_default
    (Some demo_order_conf) (Some [1]) (Some [1]) 1.

Definition demo_cheap : MakerReserved := received_reserved demo_reserved demo_maker_key.

Definition demo_t2 : OrdermatchContext :=
  snd (receive_maker_reserved (demo_env demo_taker_key 11) (replicate 32 9) demo_dear demo_t1).

Definition demo_t3 : OrdermatchContext :=
  snd (receive_maker_reserved (demo_env demo_taker_key 11) demo_maker_key demo_cheap demo_t2).

Lemma demo_taker_run : @run merge_by_price demo_t3 ((([] ++ demo_buy_acts) ++ []) ++ []).
Proof.
  eapply run_step; [eapply run_step; [eapply run_step; [apply run_new|]|]|].
  - eapply (StepCreateTaker _ demo_taker_builder 6 demo_taker_uuid [] true true (Ok demo_taker));
      by vm_compute.
  - eapply StepReceiveReserved. apply surjective_pairing.
  - eapply StepReceiveReserved. apply surjective_pairing.
Qed.

Lemma taker_connects_to_cheapest_witness :
  exists s' acts r o',
    @process_pending_reserved merge_by_price (demo_env demo_taker_key 14) demo_taker_uuid demo_t3
      = (s', false, acts) /\
    my_taker_orders s' = <[demo_taker_uuid := o']> (my_taker_orders demo_t3) /\
    (rv_price r <= rv_price demo_cheap)%Q /\ (rv_price demo_cheap < rv_price demo_dear)%Q.
Proof.
  destruct (taker_connects_to_cheapest (H := merge_by_price) _ (demo_env demo_taker_key 14)
    demo_taker_uuid demo_t3 demo_taker_key demo_taker (demo_order_coin "KMD")
    (demo_order_coin "LTC") [demo_dear; demo_cheap] demo_taker_run eq_refl ltac:(by vm_compute)
    eq_refl ltac:(by vm_compute) ltac:(by vm_compute))
    as (s' & acts & E & _ & [(r & o' & _ & _ & Hmin & _ & Et & _)|(Hnone & _)]).
  - exists s', acts, r, o'. split_and!; [done|done|apply Hmin|by vm_compute].
    + rewrite !elem_of_cons. auto.
    + by vm_compute.
  - rewrite !Forall_cons in Hnone. destruct Hnone as (Hd & _). by vm_compute in Hd.
Defined.

(** How reserved messages get lost.  When a coin of the order is not
    active as the messages of a taker order are processed, they are kept but
    every message that arrives later is only put with them and never processed.
    And one message with a zero base amount, which any peer can send, makes
    the processing of all of them panic when there are two or more. *)
Theorem reserved_messages_lost `{UnstableSort} env uuid s our o l :
  mm2_internal_public_id env = Some our ->
  my_taker_orders s !! uuid = Some o ->
  pending_maker_reserved s !! uuid = Some l -> l <> [] ->
  (find_pair env (maker_coin_ticker o) (taker_coin_ticker o) = None ->
     process_pending_reserved env uuid s = (s, false, []) /\
     forall env' from msg goes_on s',
       rv_taker_order_uuid msg = uuid ->
       receive_maker_reserved env' from msg s = (goes_on, s') ->
       goes_on = false /\ my_taker_orders s' = my_taker_orders s /\
       exists l', pending_maker_reserved s' !! uuid = Some l' /\ l' <> []) /\
  (is_Some (find_pair env (maker_coin_ticker o) (taker_coin_ticker o)) ->
   (2 <= length l)%nat -> (exists r, r ∈ l /\ rv_base_amount r == 0)%Q ->
     process_pending_reserved env uuid s =
       (set_pending (delete uuid (pending_maker_reserved s)) s, true, [])).
Proof.
  intros Hour Ho Hl Hne. unfold process_pending_reserved. rewrite Hour, Ho, Hl. split.
  - intros ->. split; [done|]. intros env' from msg goes_on s' <- Hr.
    unfold receive_maker_reserved in Hr. rewrite Ho in Hr.
    destruct (mm2_internal_public_id env'); [|injection Hr as <- <-; eauto].
    destruct (bool_decide _); injection Hr as <- <-; [by eauto|]. rewrite Hl. cbn [default].
    split_and!; [| done |].
    + apply negb_false_iff, Z.ltb_lt. rewrite length_app. destruct l; [done|]. cbn. lia.
    + exists (l ++ [msg]). split; [apply lookup_insert_eq|]. by destruct l.
  - intros [[bc rc] ->] Hlen (r & Hin & Hz). cbn zeta.
    assert (sort_panics l = true) as ->; [|done]. unfold sort_panics. apply andb_true_iff. split; [lia|].
    apply existsb_exists. exists r. split; [by apply list_elem_of_In|]. by apply Qeq_bool_iff.
Qed.

Definition demo_zero : MakerReserved :=
  mkReserved "KMD" "LTC" (0 # 1) (1 # 1) demo_taker_uuid [8] (replicate 32 8) H256_default
    (Some demo_order_conf) None None 1.

Definition demo_t4 : OrdermatchContext :=
  snd (receive_maker_reserved (demo_env demo_taker_key 11) (replicate 32 8) demo_zero demo_t3).

Lemma reserved_messages_lost_witness :
  @process_pending_reserved merge_by_price (demo_env demo_taker_key 14) demo_taker_uuid demo_t4 =
    (set_pending (delete demo_taker_uuid (pending_maker_reserved demo_t4)) demo_t4, true, []).
Proof.
  apply (reserved_messages_lost (H := merge_by_price) _ _ _ demo_taker_key demo_taker
    [demo_dear; demo_cheap; demo_zero]); [done|by vm_compute|by vm_compute|done|by eexists|cbn; lia|].
  exists demo_zero. split; [rewrite !elem_of_cons; auto|by vm_compute].
Defined.

(** ** Unmatched taker orders *)

Lemma num_lt_false a b : num_lt a b = false <-> (b <= a)%Q.
Proof. unfold num_lt. by rewrite negb_false_iff, Qle_bool_iff. Qed.

Lemma num_max_le a b c : (num_max a b <= c)%Q <-> (a <= c)%Q /\ (b <= c)%Q.
Proof.
  unfold num_max, num_le. destruct (Qle_bool a b) eqn:E; qbool; split; try lra.
Qed.

(** What the builder of taker orders checks. *)
Lemma taker_build_terms b now uuid key t :
  taker_build b now uuid key = Some (Ok t) ->
  let r := to_request t in
  tr_base_amount r = tb_base_amount b /\ tr_rel_amount r = tb_rel_amount b /\
  tr_action r = tb_action b /\
  tr_base r = oc_ticker (tb_base_coin b) /\ tr_rel r = oc_ticker (tb_rel_coin b) /\
  (min_trading_vol (tb_base_coin b) <= tr_base_amount r)%Q /\
  (min_trading_vol (tb_rel_coin b) <= tr_rel_amount r)%Q /\
  (min_trading_vol (tb_base_coin b) <= to_min_volume t)%Q /\
  (min_trading_vol (tb_rel_coin b) / (tr_rel_amount r / tr_base_amount r) <= to_min_volume t)%Q /\
  (to_min_volume t <= tr_base_amount r)%Q.
Proof.
  intros Hb. unfold taker_build in Hb. destruct (bool_decide _); [done|].
  destruct (num_lt (tb_base_amount b) _) eqn:E1; [done|].
  destruct (num_lt (tb_rel_amount b) _) eqn:E2; [done|].
  destruct (bool_decide _); [done|]. destruct (negb (bool_decide _)); [done|].
  destruct (_ || _); [done|]. cbn zeta in Hb.
  destruct (num_lt (default _ _) _) eqn:E3; [done|].
  destruct (num_lt _ (default _ _)) eqn:E4; [done|]. injection Hb as <-.
  apply num_lt_false in E1, E2, E3, E4. apply num_max_le in E3 as [E3 E3'].
  cbn. by split_and!.
Qed.

Lemma Qmul_div_cancel (a b : Q) : (0 < b)%Q -> (b * (a / b) == a)%Q.
Proof. intros. field. lra. Qed.

Lemma Qdiv_div_le (m a b v : Q) :
  (0 < a)%Q -> (0 < b)%Q -> (m / (a / b) <= v)%Q -> (m <= v / (b / a))%Q.
Proof.
  intros Ha Hb Hv.
  assert (v / (b / a) == v * (a / b))%Q as -> by (field; lra).
  assert (m == m / (a / b) * (a / b))%Q as -> by (field; lra).
  apply Qmult_le_compat_r; [done|]. apply Qlt_le_weak. by apply Qdiv_pos.
Qed.

Lemma Qdiv_le_compat (m v p : Q) : (0 < p)%Q -> (m <= v)%Q -> (m / p <= v / p)%Q.
Proof.
  intros Hp Hmv. unfold Qdiv. apply Qmult_le_compat_r; [done|].
  apply Qlt_le_weak, Qinv_lt_0_compat, Hp.
Qed.

Lemma min_vol_accepted mb mr v p :
  (mb <= v)%Q -> (mr / p <= v)%Q -> validate_and_get_min_vol mb mr (Some v) p = Ok v.
Proof.
  intros Hb Hr. unfold validate_and_get_min_vol. cbn [default].
  by rewrite (proj2 (num_lt_false _ _)) by by apply num_max_le.
Qed.

Lemma max_vol_accepted mb mr max v p :
  (v <= max)%Q -> (mb <= max)%Q -> (mr <= max * p)%Q ->
  validate_max_vol mb mr max (Some v) p = Ok tt.
Proof.
  intros Hv Hb Hr. unfold validate_max_vol.
  rewrite (proj2 (num_lt_false _ _)) by done. cbn [result_bind].
  rewrite (proj2 (num_lt_false _ _)) by done. by rewrite (proj2 (num_lt_false _ _)).
Qed.

Lemma price_accepted p : (0 < p)%Q -> validate_price p = Ok tt.
Proof.
  intros Hp. unfold validate_price, num_le. destruct (Qle_bool p (0 # 1)) eqn:E; [|done]. q_lra.
Qed.

(** An unmatched taker order keeps its terms as a maker order.  The maker
    order that a built taker order turns into offers what the taker would have
    given, for exactly the amount the taker asked for, under the same uuid; a buy
    is turned around with its confirmation settings; and the maker order's price,
    minimum and maximum volume pass the checks of the maker order builder, with
    the taker's own minimum volume expressed in the coin offered. *)
Theorem taker_order_as_maker b now uuid key t now' :
  taker_build b now uuid key = Some (Ok t) ->
  (0 <= min_trading_vol (tb_base_coin b))%Q -> (0 <= min_trading_vol (tb_rel_coin b))%Q ->
  let r := to_request t in
  let o := maker_order_from_taker t now' in
  let '(offered, asked) :=
    match tr_action r with
    | Sell => (tb_base_coin b, tb_rel_coin b)
    | Buy => (tb_rel_coin b, tb_base_coin b)
    end in
  mo_base o = oc_ticker offered /\ mo_rel o = oc_ticker asked /\ mo_uuid o = tr_uuid r /\
  max_base_vol o = match tr_action r with Sell => tr_base_amount r | Buy => tr_rel_amount r end /\
  (max_base_vol o * price o ==
     match tr_action r with Sell => tr_rel_amount r | Buy => tr_base_amount r end)%Q /\
  (min_base_vol o * price o ==
     match tr_action r with
     | Sell => to_min_volume t * (tr_rel_amount r / tr_base_amount r)
     | Buy => to_min_volume t
     end)%Q /\
  validate_price (price o) = Ok tt /\
  validate_and_get_min_vol (min_trading_vol offered) (min_trading_vol asked)
    (Some (min_base_vol o)) (price o) = Ok (min_base_vol o) /\
  validate_max_vol (min_trading_vol offered) (min_trading_vol asked) (max_base_vol o)
    (Some (min_base_vol o)) (price o) = Ok tt /\
  mo_conf_settings o =
    match tr_action r with Sell => tr_conf_settings r | Buy => reversed <$> tr_conf_settings r end /\
  mo_matches o = empty /\ started_swaps o = [].
Proof.
  intros Hb Hmb Hmr. pose proof (taker_build_ok _ _ _ _ _ Hb Hmb Hmr) as [_ Hbase Hrel _ _ _].
  pose proof (taker_build_terms _ _ _ _ _ Hb)
    as (_ & _ & _ & Eb & Er & Hb1 & Hr1 & Hm1 & Hm2 & Hm3).
  unfold maker_order_from_taker. cbn zeta.
  set (B := tr_base_amount (to_request t)) in *. set (R := tr_rel_amount (to_request t)) in *.
  destruct (tr_action (to_request t)); cbn [mo_base mo_rel mo_uuid max_base_vol min_base_vol price
    mo_conf_settings mo_matches started_swaps].
  - assert (0 < B / R)%Q as Hp by by apply Qdiv_pos. split_and!; try done.
    + by apply Qmul_div_cancel.
    + symmetry. by apply Qdiv_mul.
    + by apply price_accepted.
    + apply min_vol_accepted; [by apply Qdiv_div_le|by apply Qdiv_le_compat].
    + apply max_vol_accepted; [|done|by rewrite Qmul_div_cancel].
      apply Qle_trans with (B / (B / R))%Q; [by apply Qdiv_le_compat|].
      assert (B / (B / R) == R)%Q as -> by (field; lra). lra.
  - assert (0 < R / B)%Q as Hp by by apply Qdiv_pos. split_and!; try done.
    + by apply Qmul_div_cancel.
    + by apply price_accepted.
    + by apply min_vol_accepted.
    + apply max_vol_accepted; [done|done|by rewrite Qmul_div_cancel].
Qed.

Lemma taker_order_as_maker_witness :
  let o := maker_order_from_taker demo_taker 9 in
  (max_base_vol o * price o == 6 # 1)%Q /\ validate_price (price o) = Ok tt.
Proof.
  destruct (taker_order_as_maker demo_taker_builder 6 demo_taker_uuid [] demo_taker 9
    ltac:(by vm_compute) ltac:(by vm_compute) ltac:(by vm_compute))
    as (_ & _ & _ & _ & Hmax & _ & Hprice & _).
  by split.
Defined.

(** ** The swap of a match *)

(** The lock time does not depend on whose settings come first. *)
Lemma atomic_locktime_sym maker_coin taker_coin a b :
  lp_atomic_locktime maker_coin taker_coin (V2 a b) =
  lp_atomic_locktime maker_coin taker_coin (V2 b a).
Proof.
  unfold lp_atomic_locktime, lp_atomic_locktime_v2.
  by destruct (settings_require_notarization a), (settings_require_notarization b);
    rewrite ?orb_true_r, ?orb_false_r.
Qed.

(** What each side waits for: of the coin it receives, its own number of
    confirmations; for its own payment no more than the other side asks. *)
Definition confs_agree (maker taker : SwapConfirmationsSettings) : Prop :=
  maker_coin_confs maker <= maker_coin_confs taker /\
  taker_coin_confs taker <= taker_coin_confs maker /\
  (maker_coin_nota maker = true -> maker_coin_nota taker = true) /\
  (taker_coin_nota taker = true -> taker_coin_nota maker = true).

Lemma confs_agree_chosen c r bc rc bc' rc' :
  is_Some (tr_conf_settings r) ->
  confs_agree (choose_maker_confs_and_notas (Some c) r bc rc)
              (choose_taker_confs_and_notas r (Some c) bc' rc').
Proof.
  intros [s Hs]. unfold choose_maker_confs_and_notas, choose_taker_confs_and_notas. rewrite Hs.
  destruct c as [mb mbn mr mrn], s as [sb sbn sr srn]. unfold confs_agree.
  destruct (tr_action r), mbn, mrn, sbn, srn; cbn;
    repeat (match goal with |- context [?x <? ?y] => destruct (Z.ltb_spec x y) end; cbn);
    split_and!; (lia || done).
Qed.

(** The two sides of a swap that a match starts, compared field by field. *)
Definition same_swap `{DecimalConv} (maker : SwapStart MakerSwap.MakerSwap)
  (taker : SwapStart TakerSwap.TakerSwap) : Prop :=
  match maker, taker with
  | LegacySwap m, LegacySwap t =>
      MakerSwap.uuid m = TakerSwap.uuid t /\
      MakerSwap.payment_locktime m = TakerSwap.payment_locktime t /\
      MakerSwap.maker_amount m = to_decimal (TakerSwap.maker_amount t) /\
      MakerSwap.taker_amount m = to_decimal (TakerSwap.taker_amount t) /\
      confs_agree (MakerSwap.conf_settings m) (TakerSwap.conf_settings t)
  | StateMachineSwap m, StateMachineSwap t =>
      sm_uuid m = sm_uuid t /\ sm_lock_duration m = sm_lock_duration t /\
      sm_maker_volume m = sm_maker_volume t /\ sm_taker_volume m = sm_taker_volume t /\
      sm_secret_hash_algo m = sm_secret_hash_algo t /\
      confs_agree (sm_conf_settings m) (sm_conf_settings t)
  | _, _ => False
  end.

(** The two nodes know the coins of a pair as the same kinds of coins. *)
Definition same_kind (a b : OrderCoin) : Prop :=
  coin_variant (oc_coin a) = coin_variant (oc_coin b) /\
  secret_hash_algo_v2 a = secret_hash_algo_v2 b.

Definition coins_known (maker taker : StartEnv) (o : MakerOrder) (t : TakerOrder) : Prop :=
  (forall a b, lp_coinfind maker (mo_base o) = Some a ->
     lp_coinfind taker (maker_coin_ticker t) = Some b -> same_kind a b) /\
  (forall a b, lp_coinfind maker (mo_rel o) = Some a ->
     lp_coinfind taker (taker_coin_ticker t) = Some b -> same_kind a b).

Lemma same_kind_pair a b x y :
  same_kind a x -> same_kind b y ->
  state_machine_pair x y = state_machine_pair a b /\
  detect_secret_hash_algo_v2 x y = detect_secret_hash_algo_v2 a b.
Proof.
  unfold state_machine_pair, detect_secret_hash_algo_v2. by intros [-> ->] [-> ->].
Qed.

(** With settings on both sides the chosen ones do not depend on the coins. *)
Lemma choose_taker_coins r c x y x' y' :
  is_Some (tr_conf_settings r) ->
  choose_taker_confs_and_notas r (Some c) x y = choose_taker_confs_and_notas r (Some c) x' y'.
Proof. intros [s Hs]. unfold choose_taker_confs_and_notas. rewrite Hs. by destruct (tr_action r). Qed.

Lemma choose_maker_coins r c x y x' y' :
  choose_maker_confs_and_notas (Some c) r x y = choose_maker_confs_and_notas (Some c) r x' y'.
Proof. done. Qed.

(** C26: both sides of a match start the same swap.  When a maker's order [o] has
    answered a taker's request and both sides then start a swap for the match,
    they start the same kind of swap (legacy on one side exactly when legacy on
    the other), under the same uuid, for the same amounts and with the same
    lock time and secret hash algorithm; each side waits for as many
    confirmations of the other's payment as it asked for itself, and for its own
    payment for no more than the other side does; provided the order's settings
    and tickers did not change in between, both trade under the same orderbook
    tickers, and the coins are of the same kind. *)
Theorem match_starts_same_swap `{DecimalConv} me te t sender o o' c b a our u bc rc
  connect connected now tconnect tconnected now' pk pk' ms ts :
  let req := broadcast_request t sender in
  let rv := make_reserved our req u o b a bc rc in
  is_Some (tr_conf_settings (to_request t)) ->
  mo_conf_settings o = Some c ->
  mo_conf_settings o' = mo_conf_settings o -> mo_swap_version o' = mo_swap_version o ->
  order_base_orderbook_ticker o' = maker_orderbook_ticker t ->
  order_rel_orderbook_ticker o' = taker_orderbook_ticker t ->
  coins_known me te o' t ->
  lp_connect_start_bob me (mkMakerMatch req rv connect connected now) o' pk = Some ms ->
  lp_connected_alice te t (mkTakerMatch (received_reserved rv our) tconnect tconnected now') pk'
    = Some ts ->
  same_swap ms ts.
Proof.
  intros req rv Hconf Hc Hc' Hv Hb Hr [Hkb Hkr] Hm Ht.
  unfold lp_connect_start_bob, lp_connected_alice in Hm, Ht.
  cbn [mm_request mm_reserved tm_reserved] in Hm, Ht.
  destruct (lp_coinfind me (mo_rel o')) as [mtc|]; [|done].
  destruct (lp_coinfind me (mo_base o')) as [mmc|]; [|done].
  destruct (lp_coinfind te (taker_coin_ticker t)) as [ttc|]; [|done].
  destruct (lp_coinfind te (maker_coin_ticker t)) as [tmc|]; [|done].
  cbn [mbind option_bind] in Hm, Ht. cbn zeta in Hm, Ht.
  destruct (same_kind_pair _ _ _ _ (Hkb _ _ eq_refl eq_refl) (Hkr _ _ eq_refl eq_refl)) as [Ep Ea].
  assert (rv_conf_settings rv = Some c) as Erv by (cbn; by rewrite Hc).
  change (rv_conf_settings (received_reserved rv our)) with (rv_conf_settings rv) in Ht.
  change (choose_taker_confs_and_notas req) with (choose_taker_confs_and_notas (to_request t)) in Hm.
  change (choose_maker_confs_and_notas (mo_conf_settings o') req)
    with (choose_maker_confs_and_notas (mo_conf_settings o') (to_request t)) in Hm.
  change (tr_conf_settings req) with (tr_conf_settings (to_request t)) in Hm.
  change (tr_swap_version req) with (tr_swap_version (to_request t)) in Hm.
  change (rv_swap_version (received_reserved rv our)) with (mo_swap_version o) in Ht.
  rewrite Erv, (choose_maker_coins _ _ tmc ttc mmc mtc), atomic_locktime_sym, Ep, Ea in Ht.
  rewrite Erv, Hc', Hc, Hb, Hr, Hv, (choose_taker_coins _ _ mmc mtc tmc ttc Hconf) in Hm.
  pose proof (confs_agree_chosen c (to_request t) mmc mtc tmc ttc Hconf) as Hagree.
  destruct Hconf as [s Hs]. rewrite Hs in Hm.
  destruct (generate_secret me); [|done]. cbn [mbind option_bind] in Hm.
  destruct (is_legacy (tr_swap_version (to_request t))), (is_legacy (mo_swap_version o));
    cbn [orb] in Hm, Ht;
    [injection Hm as <-; injection Ht as <-; by split_and!..|].
  destruct (generate_secret te); [|done]. cbn [mbind option_bind] in Ht.
  destruct (state_machine_pair mmc mtc); injection Hm as <-; injection Ht as <-; by split_and!.
Qed.

Definition demo_start_env (key : H264) : StartEnv := {|
  lp_coinfind := fun ticker => Some (demo_order_coin ticker);
  se_persistent_pub := key;
  generate_secret := Some (replicate 32 4) |}.

Lemma match_starts_same_swap_witness :
  exists ms ts,
    @lp_connect_start_bob exact_decimal (demo_start_env demo_maker_pub)
      (mkMakerMatch demo_request demo_reserved None None 10) demo_maker demo_taker_pub = Some ms /\
    lp_connected_alice (demo_start_env demo_taker_pub) demo_taker
      (mkTakerMatch demo_cheap demo_connect None 14) demo_maker_pub = Some ts /\
    @same_swap exact_decimal ms ts.
Proof.
  destruct (lp_connect_start_bob (demo_start_env demo_maker_pub) _ _ _) as [ms|] eqn:Hm;
    [|by vm_compute in Hm].
  destruct (lp_connected_alice (demo_start_env demo_taker_pub) _ _ _) as [ts|] eqn:Ht;
    [|by vm_compute in Ht].
  exists ms, ts. split; [done|]. split; [done|].
  apply (match_starts_same_swap (demo_start_env demo_maker_pub) (demo_start_env demo_taker_pub)
    demo_taker demo_taker_key demo_maker demo_maker demo_order_conf (6 # 1) (6 # 2) demo_maker_key
    demo_maker_uuid (demo_order_coin "KMD") (demo_order_coin "LTC") None None 10 demo_connect None 14
    demo_taker_pub demo_maker_pub ms ts); [| | | | | | |exact Hm|exact Ht].
  - eexists. by vm_compute.
  - by vm_compute.
  - done.
  - done.
  - by vm_compute.
  - by vm_compute.
  - split; intros x y [= <-] [= <-]; by vm_compute.
Defined.

(** ** What a run of updates and expiries can do *)

(** An update that lowers the volume below the order's minimum passes (the
    minimum is only compared with the one of the request), and the next balance
    round cancels the order for lack of balance. *)
Lemma update_below_minimum :
  let req := mkUpdateReq demo_maker_uuid None None (Some (-19 # 2)) None None None None None in
  let answers := mkAnswers (Err (InternalError "not asked")) (Ok tt) (fun _ => Ok tt) in
  exists update,
    prepare_update (demo_env demo_maker_key 20) req answers demo_maker = Some (Ok update) /\
    let '(_, s, _) :=
      commit_update (demo_env demo_maker_key 21) req demo_maker update true demo_s1 in
    exists o, order_at s demo_maker_uuid = Some o /\
      (max_base_vol o < min_base_vol o)%Q /\
      exists reason topic key, snd (check_balance_for_maker_orders (demo_env demo_maker_key 22)
        [demo_maker_uuid] s) =
        [Broadcast topic (MsgMakerOrderCancelled demo_maker_uuid) key; DeleteMakerOrder o reason] /\
        reason = MakerInsufficientBalance.
Proof.
  cbn zeta. eexists. split; [by vm_compute|]. vm_compute. eexists. split; [done|]. split; [done|].
  do 3 eexists. by split.
Qed.

(** An order that expires leaves its ticker and its count behind: the balance
    loop of the coin runs on without any order. *)
Lemma expired_order_leaks :
  let builder := mkMakerBuilder (10 # 1) None (1 # 2) (demo_order_coin "KMD") (demo_order_coin "LTC")
    None None (Some demo_order_conf) true 1 (Some 1) in
  let s := snd (fst (create_maker_order builder 5 demo_maker_uuid [] true true
                       OrdermatchContext_new)) in
  let s' := fst (drop_expired [demo_maker_uuid] s) in
  orders (maker_orders_ctx s') = empty /\
  coin_has_active_maker_orders "KMD" (maker_orders_ctx s') = true /\
  balance_loops (maker_orders_ctx s') = {["KMD"%string]}.
Proof. by vm_compute. Qed.
