(* ===== verification/Orderbook.v ===== *)
(** * The order book (mm2_main/src/lp_ordermatch.rs, best_orders.rs, orderbook_depth.rs)

    [Orderbook] indexes the maker orders a node knows of, its own and those of
    other nodes.  A method is a function from the book to the next book; the
    mutations it asks of the trie store ([TrieOp]) are returned, as in the
    source, and applied by [TrieStore].  Logs and the streamed events are left
    out. *)

From S2P Require Import Prelude MmNumber DexFee Swap Ordermatch OrdermatchNode.

Open Scope Z_scope.

Notation H64 := (list Z).
Definition H64_default : H64 := replicate 8 0.

(** ** Order of iteration

    The order in which a [HashMap] or a [HashSet] is walked through. *)
Class HashOrder := {
  iter_map : forall {K} `{Countable K} {A}, gmap K A -> list (K * A);
  iter_map_perm : forall {K} `{Countable K} {A} (m : gmap K A), iter_map m ≡ₚ map_to_list m;
  iter_set : forall {K} `{Countable K}, gset K -> list K;
  iter_set_perm : forall {K} `{Countable K} (s : gset K), iter_set s ≡ₚ elements s }.

(** ** Items *)

Record OrderbookItem : Type := mkItem {
  oi_pubkey : string;
  oi_base : string;
  oi_rel : string;
  oi_price : MmNumber;
  oi_max_volume : MmNumber;
  oi_min_volume : MmNumber;
  oi_uuid : Uuid;
  oi_created_at : Z;
  oi_base_protocol_info : bytes;
  oi_rel_protocol_info : bytes;
  oi_conf_settings : option OrderConfirmationsSettings }.

#[export] Instance OrderbookItem_eq_dec : EqDecision OrderbookItem.
Proof. solve_decision. Defined.

Record OrderbookP2PItem : Type := mkP2PItem {
  pi_pubkey : string;
  pi_base : string;
  pi_rel : string;
  pi_price : MmNumber;
  pi_max_volume : MmNumber;
  pi_min_volume : MmNumber;
  pi_uuid : Uuid;
  pi_created_at : Z }.

Definition p2p_item (o : OrderbookItem) : OrderbookP2PItem :=
  mkP2PItem (oi_pubkey o) (oi_base o) (oi_rel o) (oi_price o) (oi_max_volume o) (oi_min_volume o)
    (oi_uuid o) (oi_created_at o).

Record BaseRelProtocolInfo : Type := mkProtocolInfo {
  info_base : bytes;
  info_rel : bytes }.

Definition BaseRelProtocolInfo_default : BaseRelProtocolInfo := mkProtocolInfo [] [].

Definition base_rel_proto_info (o : OrderbookItem) : BaseRelProtocolInfo :=
  mkProtocolInfo (oi_base_protocol_info o) (oi_rel_protocol_info o).

Definition from_p2p_and_info (o : OrderbookP2PItem) (proto_info : BaseRelProtocolInfo)
  (conf_info : option OrderConfirmationsSettings) : OrderbookItem := {|
  oi_pubkey := pi_pubkey o;
  oi_base := pi_base o;
  oi_rel := pi_rel o;
  oi_price := pi_price o;
  oi_max_volume := pi_max_volume o;
  oi_min_volume := pi_min_volume o;
  oi_uuid := pi_uuid o;
  oi_created_at := pi_created_at o;
  oi_base_protocol_info := info_base proto_info;
  oi_rel_protocol_info := info_rel proto_info;
  oi_conf_settings := conf_info |}.

Definition item_apply_updated (msg : MakerOrderUpdated) (o : OrderbookItem) : OrderbookItem := {|
  oi_pubkey := oi_pubkey o;
  oi_base := oi_base o;
  oi_rel := oi_rel o;
  oi_price := default (oi_price o) (new_price msg);
  oi_max_volume := default (oi_max_volume o) (new_max_volume msg);
  oi_min_volume := default (oi_min_volume o) (new_min_volume msg);
  oi_uuid := oi_uuid o;
  oi_created_at := oi_created_at o;
  oi_base_protocol_info := oi_base_protocol_info o;
  oi_rel_protocol_info := oi_rel_protocol_info o;
  oi_conf_settings := oi_conf_settings o |}.

Record MakerOrderCreated : Type := mkCreated {
  mc_uuid : Uuid;
  mc_base : string;
  mc_rel : string;
  mc_price : MmNumber;
  mc_max_volume : MmNumber;
  mc_min_volume : MmNumber;
  mc_created_at : Z;
  mc_conf_settings : OrderConfirmationsSettings;
  mc_timestamp : Z;
  mc_pair_trie_root : H64;
  mc_base_protocol_info : bytes;
  mc_rel_protocol_info : bytes }.

(** [From<(MakerOrderCreated, String)>] *)
Definition item_of_created (order : MakerOrderCreated) (pubkey : string) : OrderbookItem := {|
  oi_pubkey := pubkey;
  oi_base := mc_base order;
  oi_rel := mc_rel order;
  oi_price := mc_price order;
  oi_max_volume := mc_max_volume order;
  oi_min_volume := mc_min_volume order;
  oi_uuid := mc_uuid order;
  oi_created_at := mc_created_at order;
  oi_base_protocol_info := mc_base_protocol_info order;
  oi_rel_protocol_info := mc_rel_protocol_info order;
  oi_conf_settings := Some (mc_conf_settings order) |}.

(** The message of [maker_order_created_p2p_notify]; an order without
    confirmation settings panics. *)
Definition created_message (order : MakerOrder) (now : Z)
  (base_protocol_info rel_protocol_info : bytes) : option MakerOrderCreated :=
  match mo_conf_settings order with
  | None => None
  | Some conf_settings => Some {|
      mc_uuid := mo_uuid order;
      mc_base := order_base_orderbook_ticker order;
      mc_rel := order_rel_orderbook_ticker order;
      mc_price := price order;
      mc_max_volume := available_amount order;
      mc_min_volume := min_base_vol order;
      mc_created_at := now;
      mc_conf_settings := conf_settings;
      mc_timestamp := now;
      mc_pair_trie_root := H64_default;
      mc_base_protocol_info := base_protocol_info;
      mc_rel_protocol_info := rel_protocol_info |}
  end.

(** ** Orders by price

    A [BTreeSet] is its sorted list. *)
Record OrderedByPriceOrder : Type := mkOrdered {
  ob_price : MmNumber;
  ob_uuid : Uuid }.

Fixpoint bytes_cmp (a b : bytes) : comparison :=
  match a, b with
  | [], [] => Eq
  | [], _ => Lt
  | _, [] => Gt
  | x :: a, y :: b => match Z.compare x y with Eq => bytes_cmp a b | c => c end
  end.

(** The derived [Ord]: by price, then by uuid. *)
Definition ordered_cmp (a b : OrderedByPriceOrder) : comparison :=
  match Qcompare (ob_price a) (ob_price b) with
  | Eq => bytes_cmp (ob_uuid a) (ob_uuid b)
  | c => c
  end.

Fixpoint set_insert (x : OrderedByPriceOrder) (l : list OrderedByPriceOrder)
  : list OrderedByPriceOrder :=
  match l with
  | [] => [x]
  | y :: l' =>
      match ordered_cmp x y with
      | Lt => x :: l
      | Eq => l
      | Gt => y :: set_insert x l'
      end
  end.

Fixpoint set_remove (x : OrderedByPriceOrder) (l : list OrderedByPriceOrder)
  : list OrderedByPriceOrder :=
  match l with
  | [] => []
  | y :: l' =>
      match ordered_cmp x y with
      | Lt => l
      | Eq => l'
      | Gt => y :: set_remove x l'
      end
  end.

(** ** The book *)

Inductive TrieOp : Type :=
| ClearPair (pubkey alb_pair : string)
| TrieInsert (pubkey alb_pair : string) (uuid : Uuid) (order : OrderbookItem)
| TrieRemove (pubkey alb_pair : string) (uuid : Uuid)
| RemovePubkey (pubkey : string).

Notation Pair := (string * string)%type.

Record Orderbook : Type := mkBook {
  ordered : gmap Pair (list OrderedByPriceOrder);
  pairs_existing_for_base : gmap string (gset string);
  pairs_existing_for_rel : gmap string (gset string);
  unordered : gmap Pair (gset Uuid);
  order_set : gmap Uuid OrderbookItem;
  recently_cancelled : gmap Uuid string;
  my_p2p_pubkeys : gset string }.

Definition Orderbook_default : Orderbook := mkBook ∅ ∅ ∅ ∅ ∅ ∅ ∅.

Definition find_order_by_uuid_and_pubkey (uuid : Uuid) (from_pubkey : string) (b : Orderbook)
  : option OrderbookItem :=
  match order_set b !! uuid with
  | Some order => if bool_decide (oi_pubkey order = from_pubkey) then Some order else None
  | None => None
  end.

Definition find_order_by_uuid (uuid : Uuid) (b : Orderbook) : option OrderbookItem :=
  order_set b !! uuid.

Definition base_rel (o : OrderbookItem) : Pair := (oi_base o, oi_rel o).
Definition item_pair (o : OrderbookItem) : string := alb_ordered_pair (oi_base o) (oi_rel o).
Definition ordered_of (o : OrderbookItem) : OrderedByPriceOrder := mkOrdered (oi_price o) (oi_uuid o).

Definition index_insert_or_update_inner (order : OrderbookItem) (b : Orderbook) : Orderbook :=
  let pair_orders := default [] (ordered b !! base_rel order) in
  let existing := List.find (fun e => bool_decide (ob_uuid e = oi_uuid order)) pair_orders in
  let pair_orders :=
    match existing with Some exists_ => set_remove exists_ pair_orders | None => pair_orders end in
  mkBook
    (<[base_rel order := set_insert (ordered_of order) pair_orders]> (ordered b))
    (<[oi_base order := {[oi_rel order]} ∪ default ∅ (pairs_existing_for_base b !! oi_base order)]>
       (pairs_existing_for_base b))
    (<[oi_rel order := {[oi_base order]} ∪ default ∅ (pairs_existing_for_rel b !! oi_rel order)]>
       (pairs_existing_for_rel b))
    (<[base_rel order := {[oi_uuid order]} ∪ default ∅ (unordered b !! base_rel order)]>
       (unordered b))
    (<[oi_uuid order := order]> (order_set b))
    (recently_cancelled b) (my_p2p_pubkeys b).

(** An entry of the book that becomes empty is removed. *)
Definition drop_ordered (x : OrderedByPriceOrder) (l : list OrderedByPriceOrder)
  : option (list OrderedByPriceOrder) :=
  match set_remove x l with [] => None | l' => Some l' end.

Definition drop_unordered (uuid : Uuid) (s : gset Uuid) : option (gset Uuid) :=
  if decide (s ∖ {[uuid]} = ∅) then None else Some (s ∖ {[uuid]}).

Definition index_remove (uuid : Uuid) (b : Orderbook)
  : option (OrderbookItem * TrieOp) * Orderbook :=
  match order_set b !! uuid with
  | None => (None, b)
  | Some order =>
      let order_to_delete := mkOrdered (oi_price order) uuid in
      let b' :=
        mkBook
          (partial_alter (fun orders => orders ≫= drop_ordered order_to_delete) (base_rel order)
             (ordered b))
          (pairs_existing_for_base b) (pairs_existing_for_rel b)
          (partial_alter (fun orders => orders ≫= drop_unordered uuid) (base_rel order)
             (unordered b))
          (delete uuid (order_set b))
          (recently_cancelled b) (my_p2p_pubkeys b) in
      (Some (order, TrieRemove (oi_pubkey order) (item_pair order) uuid), b')
  end.

(** The operation of a removal that was made. *)
Definition removal_ops (r : option (OrderbookItem * TrieOp)) : list TrieOp :=
  match r with Some (_, op) => [op] | None => [] end.

(** [live] says whether an entry of [recently_cancelled], a timed map of a
    crate, has not expired. *)
Definition recently_cancelled_by (live : Uuid -> bool) (uuid : Uuid) (b : Orderbook)
  : option string :=
  if live uuid then recently_cancelled b !! uuid else None.

Definition index_insert_or_update (live : Uuid -> bool) (order : OrderbookItem) (b : Orderbook)
  : list TrieOp * Orderbook :=
  if bool_decide (recently_cancelled_by live (oi_uuid order) b = Some (oi_pubkey order))
  then ([], b)
  else if num_le (oi_max_volume order) (0 # 1) || num_le (oi_price order) (0 # 1)
          || num_lt (oi_min_volume order) (0 # 1)
  then let '(removed, b) := index_remove (oi_uuid order) b in (removal_ops removed, b)
  else ([TrieInsert (oi_pubkey order) (item_pair order) (oi_uuid order) order],
        index_insert_or_update_inner order b).

(** [str::split_once], at the first colon (character 58). *)
Fixpoint split_once (s : string) : option (string * string) :=
  match s with
  | EmptyString => None
  | String c s' =>
      if Ascii.eqb c (Ascii.ascii_of_nat 58) then Some (EmptyString, s')
      else match split_once s' with
           | Some (a, b) => Some (String c a, b)
           | None => None
           end
  end.

Definition remove_if_owned (pubkey : string) (b : Orderbook) (uuid : Uuid) : Orderbook :=
  match order_set b !! uuid with
  | Some order => if bool_decide (oi_pubkey order = pubkey) then snd (index_remove uuid b) else b
  | None => b
  end.

Section Handlers.
  Context `{HashOrder}.

Definition index_remove_pubkey_pair_orders (pubkey alb_pair : string) (b : Orderbook) : Orderbook :=
  match split_once alb_pair with
  | None => b
  | Some (base, rel) =>
      foldl (fun b pair =>
               foldl (remove_if_owned pubkey) b (iter_set (default ∅ (unordered b !! pair))))
        b [(base, rel); (rel, base)]
  end.

(** ** The handlers of the messages

    Each returns the book and the operations it sends to the trie store. *)

Definition process_maker_order_created (live : Uuid -> bool) (from_pubkey : string)
  (created_msg : MakerOrderCreated) (b : Orderbook) : list TrieOp * Orderbook :=
  index_insert_or_update live (item_of_created created_msg from_pubkey) b.

Inductive OrderbookP2PHandlerError : Type :=
| OrderNotFound (uuid : Uuid)
| P2PRequestError.

Definition process_maker_order_updated (live : Uuid -> bool) (from_pubkey : string)
  (updated_msg : MakerOrderUpdated) (b : Orderbook)
  : result OrderbookP2PHandlerError (list TrieOp * Orderbook) :=
  match find_order_by_uuid_and_pubkey (up_uuid updated_msg) from_pubkey b with
  | None => Err (OrderNotFound (up_uuid updated_msg))
  | Some order => Ok (index_insert_or_update live (item_apply_updated updated_msg order) b)
  end.

Definition set_cancelled (c : gmap Uuid string) (b : Orderbook) : Orderbook :=
  mkBook (ordered b) (pairs_existing_for_base b) (pairs_existing_for_rel b) (unordered b)
    (order_set b) c (my_p2p_pubkeys b).

Definition set_my_pubkeys (s : gset string) (b : Orderbook) : Orderbook :=
  mkBook (ordered b) (pairs_existing_for_base b) (pairs_existing_for_rel b) (unordered b)
    (order_set b) (recently_cancelled b) s.

Definition process_maker_order_cancelled (from_pubkey : string) (uuid : Uuid) (b : Orderbook)
  : list TrieOp * Orderbook :=
  let b := set_cancelled (<[uuid := from_pubkey]> (recently_cancelled b)) b in
  match order_set b !! uuid with
  | Some order =>
      if bool_decide (oi_pubkey order = from_pubkey)
      then let '(removed, b) := index_remove uuid b in (removal_ops removed, b)
      else ([], b)
  | None => ([], b)
  end.

(** *** Own orders; [key] is the public key in hex that belongs to the order's
    private key. *)

Definition insert_or_update_my_order (live : Uuid -> bool) (item : OrderbookItem)
  (key : option string) (b : Orderbook) : list TrieOp * Orderbook :=
  let '(ops, b) := index_insert_or_update live item b in
  (ops, match key with Some k => set_my_pubkeys ({[k]} ∪ my_p2p_pubkeys b) b | None => b end).

Definition delete_my_order (uuid : Uuid) (key : option string) (b : Orderbook)
  : list TrieOp * Orderbook :=
  let '(removed, b) := index_remove uuid b in
  (removal_ops removed,
   match key with Some k => set_my_pubkeys (my_p2p_pubkeys b ∖ {[k]}) b | None => b end).

Definition process_my_maker_order_updated (live : Uuid -> bool) (message : MakerOrderUpdated)
  (b : Orderbook) : list TrieOp * Orderbook :=
  match find_order_by_uuid (up_uuid message) b with
  | Some order => index_insert_or_update live (item_apply_updated message order) b
  | None => ([], b)
  end.

Definition is_my_order (order_pubkey : string) (my_pub : option string)
  (my_p2p_pubkeys : gset string) : bool :=
  bool_decide (my_pub = Some order_pubkey) || bool_decide (order_pubkey ∈ my_p2p_pubkeys).

(** *** States received from other nodes *)

Record ProcessTrieParams : Type := mkTrieParams {
  tp_pubkey : string;
  tp_alb_pair : string;
  tp_protocol_infos : gmap Uuid BaseRelProtocolInfo;
  tp_conf_infos : gmap Uuid OrderConfirmationsSettings }.

Definition received_item (params : ProcessTrieParams) (uuid : Uuid) (order : OrderbookP2PItem)
  : OrderbookItem :=
  from_p2p_and_info order
    (default BaseRelProtocolInfo_default (tp_protocol_infos params !! uuid))
    (tp_conf_infos params !! uuid).

Fixpoint insert_all (live : Uuid -> bool) (items : list OrderbookItem) (b : Orderbook)
  : list TrieOp * Orderbook :=
  match items with
  | [] => ([], b)
  | item :: items =>
      let '(ops, b) := index_insert_or_update live item b in
      let '(ops', b) := insert_all live items b in
      (ops ++ ops', b)
  end.

Definition process_pubkey_full_trie (live : Uuid -> bool)
  (new_trie_orders : list (Uuid * OrderbookP2PItem)) (params : ProcessTrieParams) (b : Orderbook)
  : list TrieOp * Orderbook :=
  let b := index_remove_pubkey_pair_orders (tp_pubkey params) (tp_alb_pair params) b in
  let '(ops, b) :=
    insert_all live (map (fun p => received_item params p.1 p.2) new_trie_orders) b in
  (ClearPair (tp_pubkey params) (tp_alb_pair params) :: ops, b).

(** [delta_orders] is a [HashMap]; its entries come in any order. *)
Fixpoint process_trie_delta (live : Uuid -> bool)
  (delta_orders : list (Uuid * option OrderbookP2PItem)) (params : ProcessTrieParams)
  (b : Orderbook) : list TrieOp * Orderbook :=
  match delta_orders with
  | [] => ([], b)
  | (uuid, maybe_order) :: rest =>
      let '(ops, b) :=
        match maybe_order with
        | Some order => index_insert_or_update live (received_item params uuid order) b
        | None => let '(removed, b) := index_remove uuid b in (removal_ops removed, b)
        end in
      let '(ops', b) := process_trie_delta live rest params b in
      (ops ++ ops', b)
  end.

(** The removals of [lp_ordermatch_loop]. *)
Fixpoint remove_all (uuids : list Uuid) (b : Orderbook) : list TrieOp * Orderbook :=
  match uuids with
  | [] => ([], b)
  | uuid :: uuids =>
      let '(removed, b) := index_remove uuid b in
      let '(ops, b) := remove_all uuids b in
      (removal_ops removed ++ ops, b)
  end.

(** ** Requests about the book *)

Record GetPubkeysOrdersRes : Type := mkPubkeysOrders {
  total_number_of_orders : nat;
  uuids_by_pubkey : gmap string (list (Uuid * OrderbookP2PItem));
  po_protocol_infos : gmap Uuid BaseRelProtocolInfo;
  po_conf_infos : gmap Uuid OrderConfirmationsSettings }.

(** The maps of protocol and confirmation data, filled as the source walks
    through the orders it answers. *)
Definition add_infos
  (acc : gmap Uuid BaseRelProtocolInfo * gmap Uuid OrderConfirmationsSettings) (o : OrderbookItem) :=
  (<[oi_uuid o := base_rel_proto_info o]> acc.1,
   match oi_conf_settings o with Some info => <[oi_uuid o := info]> acc.2 | None => acc.2 end).

Definition infos_of (l : list OrderbookItem)
  : gmap Uuid BaseRelProtocolInfo * gmap Uuid OrderConfirmationsSettings :=
  foldl add_infos (∅, ∅) l.

Definition add_by_pubkey (m : gmap string (list (Uuid * OrderbookP2PItem)))
  (p : Uuid * OrderbookItem) : gmap string (list (Uuid * OrderbookP2PItem)) :=
  let key := oi_pubkey p.2 in
  <[key := default [] (m !! key) ++ [(p.1, p2p_item p.2)]]> m.

Definition get_pubkeys_orders (b : Orderbook) (base rel : string) : GetPubkeysOrdersRes :=
  let asks := default ∅ (unordered b !! (base, rel)) in
  let bids := default ∅ (unordered b !! (rel, base)) in
  let orders :=
    omap (fun u => (u,.) <$> order_set b !! u) (iter_set asks ++ iter_set bids) in
  let infos := infos_of (map snd orders) in
  mkPubkeysOrders (size asks + size bids) (foldl add_by_pubkey ∅ orders) infos.1 infos.2.

Record PairDepth : Type := mkDepth { asks : nat; bids : nat }.

(** [process_orderbook_depth_p2p_request] *)
Definition orderbook_depth (b : Orderbook) (pairs : list Pair) : gmap Pair PairDepth :=
  list_to_map (rev (map (fun pair : Pair =>
    (pair, mkDepth (size (default ∅ (unordered b !! pair)))
             (size (default ∅ (unordered b !! (pair.2, pair.1)))))) pairs)).

(** *** Best orders *)

Inductive BestOrdersAction : Type := BestBuy | BestSell.

Record OrderbookP2PItemWithProof : Type := mkItemWithProof {
  ip_order : OrderbookP2PItem;
  ip_last_message_payload : bytes;
  ip_proof : list bytes }.

Definition orderbook_item_with_proof (o : OrderbookItem) : OrderbookP2PItemWithProof :=
  mkItemWithProof (p2p_item o) [] [].

Record BestOrdersP2PRes : Type := mkBestOrders {
  bo_orders : gmap string (list OrderbookP2PItemWithProof);
  bo_protocol_infos : gmap Uuid BaseRelProtocolInfo;
  bo_conf_infos : gmap Uuid OrderConfirmationsSettings }.

Definition volume_for (action : BestOrdersAction) (o : OrderbookItem) (volume : MmNumber) : MmNumber :=
  match action with BestBuy => volume | BestSell => (volume * oi_price o)%num end.

Fixpoint collect_best (b : Orderbook) (action : BestOrdersAction)
  (required_volume collected_volume : MmNumber) (orders : list OrderedByPriceOrder)
  : list OrderbookItem :=
  match orders with
  | [] => []
  | entry :: rest =>
      match order_set b !! ob_uuid entry with
      | None => collect_best b action required_volume collected_volume rest
      | Some o =>
          if num_lt required_volume (volume_for action o (oi_min_volume o))
          then collect_best b action required_volume collected_volume rest
          else
            let collected_volume := (collected_volume + volume_for action o (oi_max_volume o))%num in
            if num_le required_volume collected_volume then [o]
            else o :: collect_best b action required_volume collected_volume rest
      end
  end.

Definition collect_number (b : Orderbook) (number : nat) (orders : list OrderedByPriceOrder)
  : list OrderbookItem :=
  omap (fun entry => order_set b !! ob_uuid entry) (take number orders).

Definition search_pairs (action : BestOrdersAction) (coin : string) (b : Orderbook)
  : option (gset string) :=
  match action with
  | BestBuy => pairs_existing_for_base b !! coin
  | BestSell => pairs_existing_for_rel b !! coin
  end.

Definition pair_for (action : BestOrdersAction) (coin ticker : string) : Pair :=
  match action with BestBuy => (coin, ticker) | BestSell => (ticker, coin) end.

(** What both requests answer; [collect] is their choice of a pair's orders.
    The tickers come in any order, which the answer does not depend on. *)
Definition best_orders_response (collect : list OrderedByPriceOrder -> list OrderbookItem)
  (b : Orderbook) (coin : string) (action : BestOrdersAction) : option BestOrdersP2PRes :=
  match search_pairs action coin b with
  | None => None
  | Some tickers =>
      let found :=
        omap (fun ticker =>
                orders ← ordered b !! pair_for action coin ticker;
                Some (ticker, collect orders)) (elements tickers) in
      let infos := infos_of (found ≫= snd) in
      Some (mkBestOrders
              (list_to_map (map (fun p => (p.1, map orderbook_item_with_proof p.2)) found))
              infos.1 infos.2)
  end.

Definition process_best_orders_p2p_request (b : Orderbook) (coin : string)
  (action : BestOrdersAction) (required_volume : MmNumber) : option BestOrdersP2PRes :=
  best_orders_response (collect_best b action required_volume (0 # 1)) b coin action.

Definition process_best_orders_p2p_request_by_number (b : Orderbook) (coin : string)
  (action : BestOrdersAction) (number : nat) : option BestOrdersP2PRes :=
  best_orders_response (collect_number b number) b coin action.

End Handlers.
