(* ===== verification/OrderbookProps.v ===== *)
(** * Lemmas on the order book's index

    The sorted sets of orders, the invariant [index_ok] of a book and what the
    two index operations do to it and to the orders of each maker and pair. *)

From Stdlib Require Import Sorting.Sorted.
From S2P Require Import Prelude MmNumber DexFee Swap Ordermatch OrdermatchNode Orderbook.

Open Scope Z_scope.

(** ** The order by price and uuid *)

Lemma bytes_cmp_refl a : bytes_cmp a a = Eq.
Proof. induction a as [|x a IH]; [done|]. simpl. by rewrite Z.compare_refl. Qed.

Lemma bytes_cmp_eq a b : bytes_cmp a b = Eq -> a = b.
Proof.
  revert b. induction a as [|x a IH]; intros [|y b]; simpl; try done.
  destruct (Z.compare_spec x y); try done. intros ?%IH. by subst.
Qed.

Lemma bytes_cmp_antisym a b : bytes_cmp b a = CompOpp (bytes_cmp a b).
Proof.
  revert b. induction a as [|x a IH]; intros [|y b]; simpl; try done.
  rewrite Z.compare_antisym. destruct (Z.compare x y); simpl; auto.
Qed.

Lemma bytes_cmp_trans a b c : bytes_cmp a b = Lt -> bytes_cmp b c = Lt -> bytes_cmp a c = Lt.
Proof.
  revert b c. induction a as [|x a IH]; intros [|y b] [|z c]; simpl; try done.
  destruct (Z.compare_spec x y), (Z.compare_spec y z), (Z.compare_spec x z);
    try done; subst; try lia; eauto.
Qed.

Notation entry_lt := (fun a b => ordered_cmp a b = Lt).

Lemma ordered_cmp_refl a : ordered_cmp a a = Eq.
Proof.
  unfold ordered_cmp. rewrite (proj1 (Qeq_alt _ _) (Qeq_refl _)). apply bytes_cmp_refl.
Qed.

Lemma ordered_cmp_uuid a b : ordered_cmp a b = Eq -> ob_uuid a = ob_uuid b.
Proof. unfold ordered_cmp. case_match; try done. apply bytes_cmp_eq. Qed.

Lemma ordered_cmp_antisym a b : ordered_cmp b a = CompOpp (ordered_cmp a b).
Proof.
  unfold ordered_cmp. rewrite <- Qcompare_antisym, bytes_cmp_antisym.
  by destruct (Qcompare (ob_price a) (ob_price b)).
Qed.

Lemma ordered_cmp_lt a b :
  ordered_cmp a b = Lt <->
  (ob_price a < ob_price b)%Q \/
  (ob_price a == ob_price b)%Q /\ bytes_cmp (ob_uuid a) (ob_uuid b) = Lt.
Proof.
  unfold ordered_cmp. rewrite Qlt_alt, Qeq_alt.
  destruct (Qcompare (ob_price a) (ob_price b)); naive_solver.
Qed.

Lemma ordered_cmp_trans a b c :
  ordered_cmp a b = Lt -> ordered_cmp b c = Lt -> ordered_cmp a c = Lt.
Proof.
  rewrite !ordered_cmp_lt. intros [?|[? ?]] [?|[? ?]]; [left; lra..|right].
  split; [lra|]. by eapply bytes_cmp_trans.
Qed.

Lemma entry_lt_price a b : ordered_cmp a b = Lt -> (ob_price a <= ob_price b)%Q.
Proof. rewrite ordered_cmp_lt. intros [?|[? _]]; lra. Qed.

(** ** Sorted sets *)

Lemma set_insert_in x y l : y ∈ set_insert x l -> y = x \/ y ∈ l.
Proof.
  induction l as [|z l IH]; simpl; [set_solver|].
  case_match; set_solver.
Qed.

Lemma set_insert_old x y l : y ∈ l -> y ∈ set_insert x l.
Proof. induction l as [|z l IH]; simpl; [set_solver|]. case_match; set_solver. Qed.

(** A new uuid is put in. *)
Lemma set_insert_new x l :
  (forall y, y ∈ l -> ob_uuid y <> ob_uuid x) -> x ∈ set_insert x l.
Proof.
  induction l as [|z l IH]; simpl; [set_solver|]. intros Hl.
  destruct (ordered_cmp x z) eqn:E; [|set_solver..].
  apply ordered_cmp_uuid in E. destruct (Hl z); [set_solver|done].
Qed.

Lemma set_insert_sorted x l :
  StronglySorted entry_lt l -> StronglySorted entry_lt (set_insert x l).
Proof.
  induction 1 as [|z l Hl IH Hz]; simpl; [by repeat constructor|].
  destruct (ordered_cmp x z) eqn:E; constructor; auto.
  - by constructor.
  - constructor; [done|]. eapply Forall_impl; [exact Hz|]. intros y. by apply ordered_cmp_trans.
  - apply Forall_forall. intros y [->|Hy]%set_insert_in.
    + by rewrite ordered_cmp_antisym, E.
    + by eapply Forall_forall in Hz.
Qed.

Lemma set_remove_sub x y l : y ∈ set_remove x l -> y ∈ l.
Proof. induction l as [|z l IH]; simpl; [done|]. case_match; set_solver. Qed.

Lemma set_remove_sorted x l :
  StronglySorted entry_lt l -> StronglySorted entry_lt (set_remove x l).
Proof.
  induction 1 as [|z l Hl IH Hz]; simpl; [constructor|].
  destruct (ordered_cmp x z); [done|by constructor|].
  constructor; [done|]. apply Forall_forall. intros y ?%set_remove_sub. by eapply Forall_forall in Hz.
Qed.

(** An element of a sorted set is found and removed, and nothing else is. *)
Lemma set_remove_spec x l :
  StronglySorted entry_lt l -> x ∈ l -> forall y, y ∈ set_remove x l <-> y ∈ l /\ y <> x.
Proof.
  intros Hs. induction Hs as [|z l Hl IH Hz]; [set_solver|]. intros Hx y.
  assert (z ∉ l) as Hnz.
  { intros ?. eapply Forall_forall in Hz; [|done]. by rewrite ordered_cmp_refl in Hz. }
  apply elem_of_cons in Hx as [->|Hx]; simpl.
  - rewrite ordered_cmp_refl. set_solver.
  - assert (ordered_cmp x z = Gt) as ->.
    { eapply Forall_forall in Hz; [|done]. by rewrite ordered_cmp_antisym, Hz. }
    rewrite !elem_of_cons, (IH Hx). set_solver.
Qed.

(** ** The invariant of a book *)

(** The orders of one maker for one pair, by uuid: what a trie stands for. *)
Definition item_key (o : OrderbookItem) : string * string := (oi_pubkey o, item_pair o).

Definition maker_orders (m : gmap Uuid OrderbookItem) (k : string * string)
  : gmap Uuid OrderbookItem := filter (fun p => item_key p.2 = k) m.

Definition valid_item (o : OrderbookItem) : Prop :=
  (0 < oi_max_volume o)%Q /\ (0 < oi_price o)%Q /\ (0 <= oi_min_volume o)%Q.

Definition orders_at (b : Orderbook) (pr : Pair) : list OrderedByPriceOrder :=
  default [] (ordered b !! pr).

Definition uuids_at (b : Orderbook) (pr : Pair) : gset Uuid := default ∅ (unordered b !! pr).

Record index_ok (b : Orderbook) : Prop := mkIndexOk {
  io_key u o : order_set b !! u = Some o -> oi_uuid o = u;
  io_valid u o : order_set b !! u = Some o -> valid_item o;
  io_sorted pr : StronglySorted entry_lt (orders_at b pr);
  io_ordered pr x : x ∈ orders_at b pr <->
    exists o, order_set b !! ob_uuid x = Some o /\ base_rel o = pr /\ x = ordered_of o;
  io_unordered pr u : u ∈ uuids_at b pr <->
    exists o, order_set b !! u = Some o /\ base_rel o = pr;
  io_nonempty pr : ordered b !! pr <> Some [] /\ unordered b !! pr <> Some ∅;
  io_base u o : order_set b !! u = Some o ->
    oi_rel o ∈ default ∅ (pairs_existing_for_base b !! oi_base o);
  io_rel u o : order_set b !! u = Some o ->
    oi_base o ∈ default ∅ (pairs_existing_for_rel b !! oi_rel o) }.

Lemma index_ok_default : index_ok Orderbook_default.
Proof.
  split; unfold Orderbook_default, orders_at, uuids_at; simpl; intros.
  1,2,7,8: simplify_map_eq.
  - rewrite lookup_empty. constructor.
  - rewrite lookup_empty. setoid_rewrite lookup_empty. set_solver.
  - rewrite lookup_empty. setoid_rewrite lookup_empty. set_solver.
  - by rewrite !lookup_empty.
Qed.

(** Fields that no index operation reads. *)
Lemma index_ok_cancelled b c : index_ok b -> index_ok (set_cancelled c b).
Proof. intros []. by split. Qed.

Lemma index_ok_my_pubkeys b s : index_ok b -> index_ok (set_my_pubkeys s b).
Proof. intros []. by split. Qed.

#[export] Hint Resolve index_ok_default index_ok_cancelled index_ok_my_pubkeys : kdf.

(** *** Removing *)

Lemma orders_at_remove u b o pr :
  order_set b !! u = Some o ->
  orders_at (snd (index_remove u b)) pr =
    if decide (pr = base_rel o) then set_remove (mkOrdered (oi_price o) u) (orders_at b pr)
    else orders_at b pr.
Proof.
  intros Ho. unfold orders_at, index_remove. rewrite Ho. simpl. case_decide as Hpr; subst.
  - rewrite lookup_partial_alter_eq. destruct (ordered b !! base_rel o); simpl; [|done].
    unfold drop_ordered. by case_match.
  - by rewrite lookup_partial_alter_ne.
Qed.

Lemma uuids_at_remove u b o pr :
  order_set b !! u = Some o ->
  uuids_at (snd (index_remove u b)) pr =
    if decide (pr = base_rel o) then uuids_at b pr ∖ {[u]} else uuids_at b pr.
Proof.
  intros Ho. unfold uuids_at, index_remove. rewrite Ho. simpl. case_decide as Hpr; subst.
  - rewrite lookup_partial_alter_eq. destruct (unordered b !! base_rel o) as [s|]; simpl.
    + unfold drop_unordered. case_decide; simpl; set_solver.
    + set_solver.
  - by rewrite lookup_partial_alter_ne.
Qed.

Lemma order_set_remove u b : order_set (snd (index_remove u b)) = delete u (order_set b).
Proof.
  unfold index_remove. destruct (order_set b !! u) eqn:E; [done|].
  simpl. by rewrite delete_id.
Qed.

Lemma index_ok_remove u b : index_ok b -> index_ok (snd (index_remove u b)).
Proof.
  intros Hb. destruct (order_set b !! u) as [o|] eqn:Ho; cycle 1.
  { unfold index_remove. by rewrite Ho. }
  pose proof (io_key b Hb u o Ho) as Hu.
  split; rewrite ?order_set_remove.
  - intros v o' [? ?]%lookup_delete_Some. by apply (io_key b).
  - intros v o' [? ?]%lookup_delete_Some. by eapply (io_valid b).
  - intros pr. rewrite (orders_at_remove u b o pr Ho). pose proof (io_sorted b Hb pr).
    case_decide; [by apply set_remove_sorted|done].
  - intros pr x. rewrite (orders_at_remove u b o pr Ho). case_decide as Hpr.
    + subst pr. rewrite set_remove_spec, (io_ordered b Hb).
      * setoid_rewrite lookup_delete_Some. split.
        -- intros [(o' & Ho' & Hp & ->) Hne]. exists o'. repeat split; auto.
           intros Heq. rewrite <- Heq, Ho in Ho'. by simplify_eq.
        -- intros (o' & [Hne Ho'] & Hp & ->). split; [eauto|].
           intros Heq. apply Hne. symmetry. exact (f_equal ob_uuid Heq).
      * apply (io_sorted b Hb).
      * apply (io_ordered b Hb). exists o. repeat split; [done|]. unfold ordered_of. by rewrite Hu.
    + rewrite (io_ordered b Hb). setoid_rewrite lookup_delete_Some. split.
      * intros (o' & Ho' & Hp & ->). exists o'. repeat split; auto. intros Heq.
        rewrite <- Heq, Ho in Ho'. by simplify_eq.
      * intros (o' & [_ ?] & ? & ?). eauto.
  - intros pr v. rewrite (uuids_at_remove u b o pr Ho). setoid_rewrite lookup_delete_Some.
    case_decide as Hpr.
    + rewrite elem_of_difference, elem_of_singleton, (io_unordered b Hb). split.
      * intros [(o' & ? & ?) Hne]. exists o'. repeat split; auto.
      * intros (o' & [? ?] & ?). split; [eauto|auto].
    + rewrite (io_unordered b Hb). split; [|intros (o' & [_ ?] & ?); eauto].
      intros (o' & Ho' & Hp). exists o'. repeat split; auto. intros <-. congruence.
  - intros pr. pose proof (io_nonempty b Hb pr) as [Hn1 Hn2]. unfold index_remove. rewrite Ho. simpl.
    destruct (decide (pr = base_rel o)) as [->|Hpr].
    + rewrite !lookup_partial_alter_eq. split.
      * destruct (ordered b !! base_rel o) as [l|]; simpl; [|done].
        unfold drop_ordered. case_match; congruence.
      * destruct (unordered b !! base_rel o) as [s|]; simpl; [|done].
        unfold drop_unordered. case_decide; [done|]. congruence.
    + by rewrite !lookup_partial_alter_ne.
  - intros v o' [_ Ho']%lookup_delete_Some. unfold index_remove. rewrite Ho. simpl. by eapply (io_base b).
  - intros v o' [_ Ho']%lookup_delete_Some. unfold index_remove. rewrite Ho. simpl. by eapply (io_rel b).
Qed.

(** *** Inserting *)

(** The same order keeps its pair. *)
Definition keeps_pair (o : OrderbookItem) (b : Orderbook) : Prop :=
  forall o', order_set b !! oi_uuid o = Some o' -> base_rel o' = base_rel o.

Definition without_uuid (u : Uuid) (l : list OrderedByPriceOrder) : list OrderedByPriceOrder :=
  match List.find (fun e => bool_decide (ob_uuid e = u)) l with
  | Some e => set_remove e l
  | None => l
  end.

Lemma without_uuid_sorted u l :
  StronglySorted entry_lt l -> StronglySorted entry_lt (without_uuid u l).
Proof. intros ?. unfold without_uuid. case_match; [by apply set_remove_sorted|done]. Qed.

Lemma without_uuid_spec u l x :
  StronglySorted entry_lt l ->
  (forall a b, a ∈ l -> b ∈ l -> ob_uuid a = ob_uuid b -> a = b) ->
  x ∈ without_uuid u l <-> x ∈ l /\ ob_uuid x <> u.
Proof.
  intros Hs Hl. unfold without_uuid. case_match eqn:E.
  - apply List.find_some in E as [Hin%list_elem_of_In Hu%bool_decide_eq_true].
    rewrite set_remove_spec by done. subst u. split; intros [Hx Hne]; split; auto.
    by intros ->.
  - split; [|tauto]. intros Hx. split; [done|]. intros Hu.
    eapply List.find_none in E; [|by apply list_elem_of_In]. by rewrite bool_decide_eq_false in E.
Qed.

Lemma orders_at_insert o b pr :
  orders_at (index_insert_or_update_inner o b) pr =
    if decide (pr = base_rel o)
    then set_insert (ordered_of o) (without_uuid (oi_uuid o) (orders_at b pr))
    else orders_at b pr.
Proof.
  unfold orders_at, index_insert_or_update_inner. cbn [ordered].
  case_decide as Hpr; [|by rewrite lookup_insert_ne].
  subst pr. by rewrite lookup_insert_eq.
Qed.

Lemma uuids_at_insert o b pr :
  uuids_at (index_insert_or_update_inner o b) pr =
    if decide (pr = base_rel o) then {[oi_uuid o]} ∪ uuids_at b pr else uuids_at b pr.
Proof.
  unfold uuids_at, index_insert_or_update_inner. cbn [unordered].
  case_decide as Hpr; [|by rewrite lookup_insert_ne]. subst pr. by rewrite lookup_insert_eq.
Qed.

Lemma uuid_unique b pr x y :
  index_ok b -> x ∈ orders_at b pr -> y ∈ orders_at b pr -> ob_uuid x = ob_uuid y -> x = y.
Proof.
  intros Hb. rewrite !(io_ordered b Hb). intros (o & Ho & _ & ->) (o' & Ho' & _ & ->) Heq.
  rewrite Heq in Ho. congruence.
Qed.

Lemma set_insert_ne x l : set_insert x l <> [].
Proof. destruct l; simpl; [done|]. by case_match. Qed.

Lemma existing_pair_in (m : gmap string (gset string)) k v k' x :
  x ∈ default ∅ (m !! k') -> x ∈ default ∅ (<[k := {[v]} ∪ default ∅ (m !! k)]> m !! k').
Proof.
  destruct (decide (k = k')) as [<-|]; [rewrite lookup_insert_eq; simpl; set_solver|].
  by rewrite lookup_insert_ne.
Qed.

Lemma existing_pair_new (m : gmap string (gset string)) k v :
  v ∈ default ∅ (<[k := {[v]} ∪ default ∅ (m !! k)]> m !! k).
Proof. rewrite lookup_insert_eq. simpl. set_solver. Qed.

Lemma index_ok_insert o b :
  index_ok b -> valid_item o -> keeps_pair o b -> index_ok (index_insert_or_update_inner o b).
Proof.
  intros Hb Hv Hk. split.
  - intros u o'. cbn. intros [[<- <-]|[_ ?]]%lookup_insert_Some; [done|by apply (io_key b)].
  - intros u o'. cbn. intros [[<- <-]|[_ ?]]%lookup_insert_Some; [done|by eapply (io_valid b)].
  - intros pr. rewrite orders_at_insert. pose proof (io_sorted b Hb pr).
    case_decide; [|done]. by apply set_insert_sorted, without_uuid_sorted.
  - intros pr x. rewrite orders_at_insert. cbn. setoid_rewrite lookup_insert_Some.
    pose proof (without_uuid_spec (oi_uuid o) (orders_at b pr)) as Hw.
    specialize (fun x => Hw x (io_sorted b Hb pr)).
    specialize (fun x => Hw x (fun y z => uuid_unique b pr y z Hb)).
    case_decide as Hpr.
    + subst pr. split.
      * intros [->|[Hx Hne]%Hw]%set_insert_in; [naive_solver|].
        apply (io_ordered b Hb) in Hx as (o' & Ho' & Hp & ->). eauto 10.
      * intros (o' & [[Hu <-]|[Hu Ho']] & Hp & ->).
        -- apply set_insert_new. intros y [_ ?]%Hw. done.
        -- apply set_insert_old, Hw. split; [|done]. apply (io_ordered b Hb). eauto.
    + rewrite (io_ordered b Hb). split.
      * intros (o' & Ho' & Hp & ->). exists o'. repeat split; auto. right. split; [|done].
        intros Heq. apply Hpr. rewrite <- Hp. apply Hk. by rewrite Heq.
      * intros (o' & [[Hu <-]|[Hu Ho']] & Hp & ->); [done|eauto].
  - intros pr u. rewrite uuids_at_insert. cbn. setoid_rewrite lookup_insert_Some.
    case_decide as Hpr.
    + subst pr. rewrite elem_of_union, elem_of_singleton, (io_unordered b Hb). split.
      * intros [->|(o' & Ho' & Hp)]; [eauto 10|].
        destruct (decide (oi_uuid o = u)) as [<-|]; eauto 10.
      * intros (o' & [[<- <-]|[Hu Ho']] & Hp); [by left|eauto].
    + rewrite (io_unordered b Hb). split.
      * intros (o' & Ho' & Hp). exists o'. split; [|done]. right. split; [|done].
        intros Heq. apply Hpr. rewrite <- Hp. apply Hk. by rewrite Heq.
      * intros (o' & [[Hu <-]|[Hu Ho']] & Hp); [done|eauto].
  - intros pr. pose proof (io_nonempty b Hb pr). unfold index_insert_or_update_inner. cbn [ordered unordered].
    destruct (decide (base_rel o = pr)) as [<-|]; [|by rewrite !lookup_insert_ne].
    rewrite !lookup_insert_eq. split; intros [= Heq]; [by apply set_insert_ne in Heq|set_solver].
  - intros u o'. cbn. intros [[<- <-]|[_ Ho]]%lookup_insert_Some; [apply existing_pair_new|].
    by eapply existing_pair_in, (io_base b).
  - intros u o'. cbn. intros [[<- <-]|[_ Ho]]%lookup_insert_Some; [apply existing_pair_new|].
    by eapply existing_pair_in, (io_rel b).
Qed.

(** [index_insert_or_update] on each of its branches. *)
Variant update_spec (live : Uuid -> bool) (o : OrderbookItem) (b : Orderbook)
  : list TrieOp * Orderbook -> Prop :=
| UpdateIgnored :
    recently_cancelled_by live (oi_uuid o) b = Some (oi_pubkey o) ->
    update_spec live o b ([], b)
| UpdateRemoved :
    recently_cancelled_by live (oi_uuid o) b <> Some (oi_pubkey o) -> ~ valid_item o ->
    update_spec live o b (removal_ops (fst (index_remove (oi_uuid o) b)), snd (index_remove (oi_uuid o) b))
| UpdateInserted :
    recently_cancelled_by live (oi_uuid o) b <> Some (oi_pubkey o) -> valid_item o ->
    update_spec live o b
      ([TrieInsert (oi_pubkey o) (item_pair o) (oi_uuid o) o], index_insert_or_update_inner o b).

Lemma valid_item_test o :
  num_le (oi_max_volume o) (0 # 1) || num_le (oi_price o) (0 # 1)
    || num_lt (oi_min_volume o) (0 # 1) = false <-> valid_item o.
Proof.
  unfold num_le, num_lt, valid_item. rewrite !orb_false_iff, negb_false_iff, !Qle_bool_false, Qle_bool_true.
  tauto.
Qed.

Lemma index_update_spec live o b : update_spec live o b (index_insert_or_update live o b).
Proof.
  unfold index_insert_or_update. case_bool_decide; [by constructor|].
  destruct (num_le _ _ || _ || _) eqn:E.
  - destruct (index_remove (oi_uuid o) b) as [r b'] eqn:Er.
    replace (removal_ops r, b')
      with (removal_ops (fst (index_remove (oi_uuid o) b)), snd (index_remove (oi_uuid o) b)) by by rewrite Er.
    constructor; [done|]. rewrite <- valid_item_test. congruence.
  - constructor; [done|]. by apply valid_item_test.
Qed.

Lemma index_ok_update live o b :
  index_ok b -> keeps_pair o b -> index_ok (snd (index_insert_or_update live o b)).
Proof.
  intros Hb Hk. destruct (index_update_spec live o b); simpl; auto using index_ok_remove, index_ok_insert.
Qed.

#[export] Hint Resolve index_ok_remove index_ok_update : kdf.

(** ** The orders of each maker and pair

    [spec_op] is what an operation sent to the trie store means for the orders
    that the tries stand for. *)

Notation MakerOrders := (string * string -> gmap Uuid OrderbookItem).

Definition set_key (C : MakerOrders) (k : string * string) (m : gmap Uuid OrderbookItem)
  : MakerOrders := fun k' => if decide (k' = k) then m else C k'.

Definition spec_op (C : MakerOrders) (op : TrieOp) : MakerOrders :=
  match op with
  | ClearPair pubkey alb_pair => set_key C (pubkey, alb_pair) ∅
  | TrieInsert pubkey alb_pair uuid order =>
      set_key C (pubkey, alb_pair) (<[uuid := order]> (C (pubkey, alb_pair)))
  | TrieRemove pubkey alb_pair uuid =>
      set_key C (pubkey, alb_pair) (delete uuid (C (pubkey, alb_pair)))
  | RemovePubkey pubkey => fun k => if decide (k.1 = pubkey) then ∅ else C k
  end.

Definition spec_ops (ops : list TrieOp) (C : MakerOrders) : MakerOrders := foldl spec_op C ops.

Lemma spec_ops_app ops ops' C : spec_ops (ops ++ ops') C = spec_ops ops' (spec_ops ops C).
Proof. apply foldl_app. Qed.

Lemma spec_op_ext op C C' : (forall k, C k = C' k) -> forall k, spec_op C op k = spec_op C' op k.
Proof. intros HC k. destruct op; simpl; unfold set_key; case_decide; rewrite ?HC; auto. Qed.

Lemma spec_ops_ext ops C C' :
  (forall k, C k = C' k) -> forall k, spec_ops ops C k = spec_ops ops C' k.
Proof.
  revert C C'. induction ops as [|op ops IH]; intros C C' HC k; simpl; [done|].
  apply IH. by apply spec_op_ext.
Qed.

Lemma maker_orders_lookup m k u o :
  maker_orders m k !! u = Some o <-> m !! u = Some o /\ item_key o = k.
Proof. unfold maker_orders. by rewrite map_lookup_filter_Some. Qed.

Section Owner.

(** The items that ever reach the node.  A uuid belongs to one order, which
    keeps its maker and its pair. *)
Variable U : OrderbookItem -> Prop.

Definition one_owner : Prop :=
  forall o o', U o -> U o' -> oi_uuid o = oi_uuid o' ->
    oi_pubkey o = oi_pubkey o' /\ base_rel o = base_rel o'.

Definition all_known (m : gmap Uuid OrderbookItem) : Prop :=
  forall u o, m !! u = Some o -> U o /\ oi_uuid o = u.

Record book_ok (b : Orderbook) : Prop := mkBookOk {
  bk_index : index_ok b;
  bk_known : all_known (order_set b) }.

Hypothesis HU : one_owner.

Lemma same_key o o' : U o -> U o' -> oi_uuid o = oi_uuid o' -> item_key o = item_key o'.
Proof.
  intros Ho Ho' Hu. destruct (HU o o' Ho Ho' Hu) as [Hp Hb].
  unfold item_key, item_pair. unfold base_rel in Hb. congruence.
Qed.

Lemma known_keeps_pair o b : book_ok b -> U o -> keeps_pair o b.
Proof.
  intros Hb Ho o' Ho'. destruct (bk_known b Hb _ _ Ho') as [Hu' Huu].
  by apply (HU o' o Hu' Ho).
Qed.

Lemma book_ok_remove u b : book_ok b -> book_ok (snd (index_remove u b)).
Proof.
  intros [Hb Hk]. split; [auto with kdf|]. intros v o. rewrite order_set_remove.
  intros [_ ?]%lookup_delete_Some. by apply Hk.
Qed.

Lemma book_ok_update live o b : U o -> book_ok b -> book_ok (snd (index_insert_or_update live o b)).
Proof.
  intros Ho Hb. pose proof (known_keeps_pair o b Hb Ho) as Hkp.
  split; [apply index_ok_update; [apply Hb|done]|].
  destruct (index_update_spec live o b); simpl; [apply Hb|apply (book_ok_remove _ _ Hb)|].
  intros u o'. intros [[<- <-]|[_ ?]]%lookup_insert_Some; [done|by apply (bk_known b)].
Qed.

Lemma book_ok_cancelled c b : book_ok b -> book_ok (set_cancelled c b).
Proof. intros [? ?]. split; auto with kdf. Qed.

Lemma book_ok_my_pubkeys s b : book_ok b -> book_ok (set_my_pubkeys s b).
Proof. intros [? ?]. split; auto with kdf. Qed.

Lemma book_ok_default : book_ok Orderbook_default.
Proof. split; [auto with kdf|]. intros u o. simpl. by rewrite lookup_empty. Qed.

(** What the operations say happened to the orders is what happened. *)
Definition mirrors (b : Orderbook) (r : list TrieOp * Orderbook) : Prop :=
  forall k, maker_orders (order_set r.2) k = spec_ops r.1 (maker_orders (order_set b)) k.

Lemma mirrors_refl b : mirrors b ([], b).
Proof. done. Qed.

Lemma mirrors_trans b ops b' ops' b'' :
  mirrors b (ops, b') -> mirrors b' (ops', b'') -> mirrors b (ops ++ ops', b'').
Proof.
  intros H1 H2 k. specialize (H2 k). cbn [fst snd] in H2 |- *. rewrite spec_ops_app, H2.
  apply spec_ops_ext. exact H1.
Qed.

Lemma mirrors_remove u b :
  book_ok b -> mirrors b (removal_ops (fst (index_remove u b)), snd (index_remove u b)).
Proof.
  intros Hb k. simpl. rewrite order_set_remove.
  destruct (order_set b !! u) as [o|] eqn:Ho; cycle 1.
  { unfold index_remove. rewrite Ho, delete_id by done. done. }
  replace (removal_ops (fst (index_remove u b)))
    with [TrieRemove (oi_pubkey o) (item_pair o) u] by (unfold index_remove; by rewrite Ho).
  apply map_eq. intros v. apply option_eq. intros o'.
  simpl. unfold set_key. rewrite maker_orders_lookup, lookup_delete_Some. case_decide as Hk.
  - rewrite Hk, lookup_delete_Some, maker_orders_lookup. tauto.
  - rewrite maker_orders_lookup. split; [tauto|]. intros [? ?]. repeat split; auto.
    intros <-. apply Hk. unfold item_key in *. congruence.
Qed.

Lemma mirrors_insert o b :
  U o -> book_ok b ->
  mirrors b ([TrieInsert (oi_pubkey o) (item_pair o) (oi_uuid o) o], index_insert_or_update_inner o b).
Proof.
  intros Ho Hb k. apply map_eq. intros v. apply option_eq. intros o'.
  simpl. unfold set_key. rewrite maker_orders_lookup, lookup_insert_Some. case_decide as Hk.
  - subst k. rewrite lookup_insert_Some, maker_orders_lookup. split.
    + intros [[[<- <-]|[? ?]] ?]; auto.
    + intros [[<- <-]|[? [? ?]]]; auto.
  - rewrite maker_orders_lookup. split.
    + intros [[[<- <-]|[_ ?]] ?]; [done|tauto].
    + intros [Ho' Hk']. split; [|done]. right. split; [|done]. intros <-. apply Hk.
      destruct (bk_known b Hb _ _ Ho') as [? ?]. rewrite <- Hk'. by apply same_key.
Qed.

Lemma mirrors_update live o b : U o -> book_ok b -> mirrors b (index_insert_or_update live o b).
Proof.
  intros Ho Hb. destruct (index_update_spec live o b);
    [apply mirrors_refl|by apply mirrors_remove|by apply mirrors_insert].
Qed.

(** *** A maker's orders for a pair

    Tickers hold no colon, and a pair is named by its tickers in order. *)
Definition plain_tickers (o : OrderbookItem) : Prop :=
  split_once (oi_base o) = None /\ split_once (oi_rel o) = None.

Definition proper_pair (pr : string) : Prop :=
  exists a b, split_once pr = Some (a, b) /\ alb_ordered_pair a b = pr.

Lemma split_once_pair a b : split_once a = None -> split_once (a ++ ":" ++ b) = Some (a, b).
Proof.
  induction a as [|c a IH]; simpl; [done|].
  destruct (Ascii.eqb c _); [done|]. destruct (split_once a) as [[? ?]|]; [done|].
  intros _. simpl in IH. by rewrite IH.
Qed.

Lemma string_ltb_total a b : String.ltb a b = false -> String.ltb b a = false -> a = b.
Proof.
  unfold String.ltb. rewrite (String.compare_antisym b a).
  destruct (String.compare a b) eqn:E; simpl; try done. by intros; apply String.compare_eq_iff.
Qed.

Lemma alb_ordered_pair_sym a b : alb_ordered_pair a b = alb_ordered_pair b a.
Proof.
  unfold alb_ordered_pair.
  destruct (String.ltb a b) eqn:E1, (String.ltb b a) eqn:E2; try done.
  - unfold String.ltb in *. rewrite (String.compare_antisym b a) in E2.
    by destruct (String.compare a b).
  - by rewrite (string_ltb_total a b).
Qed.

Lemma proper_pair_of_item o : plain_tickers o -> proper_pair (item_pair o).
Proof.
  intros [Hb Hr]. unfold proper_pair, item_pair.
  assert (exists a b, alb_ordered_pair (oi_base o) (oi_rel o) = (a ++ ":" ++ b)%string /\
            split_once a = None /\ alb_ordered_pair a b = alb_ordered_pair (oi_base o) (oi_rel o))
    as (a & b & Heq & Ha & Hab).
  { unfold alb_ordered_pair at 1. destruct (String.ltb _ _); [eauto 10|].
    exists (oi_rel o), (oi_base o). repeat split; auto. apply alb_ordered_pair_sym. }
  exists a, b. split; [rewrite Heq; by apply split_once_pair|done].
Qed.

Lemma pair_cases o pr a b :
  plain_tickers o -> split_once pr = Some (a, b) -> alb_ordered_pair a b = pr ->
  item_pair o = pr <-> base_rel o = (a, b) \/ base_rel o = (b, a).
Proof.
  intros [Hb Hr] Hs Hpr. unfold item_pair, base_rel. split.
  - intros Heq. rewrite <- Heq in Hs. unfold alb_ordered_pair in Hs.
    destruct (String.ltb _ _); rewrite split_once_pair in Hs by done; naive_solver.
  - intros [[= -> ->]|[= -> ->]]; [done|]. by rewrite alb_ordered_pair_sym.
Qed.

Lemma remove_if_owned_ok pk u b : book_ok b -> book_ok (remove_if_owned pk b u).
Proof.
  intros Hb. unfold remove_if_owned. repeat case_match; auto using book_ok_remove.
Qed.

Lemma remove_if_owned_lookup pk u b v o :
  order_set (remove_if_owned pk b u) !! v = Some o <->
  order_set b !! v = Some o /\ ~ (v = u /\ oi_pubkey o = pk).
Proof.
  unfold remove_if_owned. destruct (order_set b !! u) as [o'|] eqn:Ho'.
  - case_bool_decide as Hpk.
    + rewrite order_set_remove, lookup_delete_Some. split.
      * intros [? ?]. split; [done|]. intros [? _]. congruence.
      * intros [Hv Hne]. split; [|done]. intros ->. apply Hne. split; congruence.
    + split; [|tauto]. intros Hv. split; [done|]. intros [-> ?]. congruence.
  - split; [|tauto]. intros Hv. split; [done|]. intros [-> ?]. congruence.
Qed.

Lemma remove_owned_ok pk l b : book_ok b -> book_ok (foldl (remove_if_owned pk) b l).
Proof. revert b. induction l; simpl; auto using remove_if_owned_ok. Qed.

Lemma remove_owned_lookup pk l b v o :
  order_set (foldl (remove_if_owned pk) b l) !! v = Some o <->
  order_set b !! v = Some o /\ ~ (v ∈ l /\ oi_pubkey o = pk).
Proof.
  revert b. induction l as [|u l IH]; intros b; simpl; [set_solver|].
  rewrite IH, remove_if_owned_lookup, elem_of_cons. tauto.
Qed.

Lemma remove_pair_lookup `{HashOrder} pk pr b v o :
  book_ok b ->
  order_set (foldl (remove_if_owned pk) b (iter_set (default ∅ (unordered b !! pr)))) !! v = Some o <->
  order_set b !! v = Some o /\ ~ (base_rel o = pr /\ oi_pubkey o = pk).
Proof.
  intros Hb. rewrite remove_owned_lookup, iter_set_perm, elem_of_elements.
  fold (uuids_at b pr). rewrite (io_unordered b (bk_index b Hb)). naive_solver.
Qed.

Lemma remove_pubkey_pair_ok `{HashOrder} pk pr b :
  book_ok b -> book_ok (index_remove_pubkey_pair_orders pk pr b).
Proof.
  intros Hb. unfold index_remove_pubkey_pair_orders. case_match; [|done]. case_match.
  simpl. auto using remove_owned_ok.
Qed.

Hypothesis HU_plain : forall o, U o -> plain_tickers o.

Lemma remove_pubkey_pair_lookup `{HashOrder} pk pr b v o :
  book_ok b -> proper_pair pr ->
  order_set (index_remove_pubkey_pair_orders pk pr b) !! v = Some o <->
  order_set b !! v = Some o /\ item_key o <> (pk, pr).
Proof.
  intros Hb (x & y & Hs & Hpr). unfold index_remove_pubkey_pair_orders. rewrite Hs. simpl.
  rewrite !remove_pair_lookup by auto using remove_owned_ok.
  split.
  - intros [[Ho H1] H2]. split; [done|]. intros [= Hpk Hk].
    destruct (bk_known b Hb _ _ Ho) as [Hu _].
    apply (pair_cases o pr x y (HU_plain o Hu) Hs Hpr) in Hk as [?|?]; auto.
  - intros [Ho Hk]. destruct (bk_known b Hb _ _ Ho) as [Hu _].
    pose proof (proj2 (pair_cases o pr x y (HU_plain o Hu) Hs Hpr)) as Hp.
    repeat split; [done|intros [Hbr <-]; apply Hk; unfold item_key; rewrite Hp; auto..].
Qed.

Lemma mirrors_clear `{HashOrder} pk pr b :
  book_ok b -> proper_pair pr ->
  mirrors b ([ClearPair pk pr], index_remove_pubkey_pair_orders pk pr b).
Proof.
  intros Hb Hpr k. apply map_eq. intros v. apply option_eq. intros o. simpl. unfold set_key.
  rewrite maker_orders_lookup, remove_pubkey_pair_lookup by done. case_decide as Hk.
  - subst k. rewrite lookup_empty. naive_solver.
  - rewrite maker_orders_lookup. split; [tauto|]. intros [? <-]. tauto.
Qed.

(** *** Several items *)

Definition step_ok (b : Orderbook) (r : list TrieOp * Orderbook) : Prop :=
  book_ok r.2 /\ mirrors b r.

Lemma step_ok_refl b : book_ok b -> step_ok b ([], b).
Proof. by split. Qed.

Lemma step_ok_app b ops b' ops' b'' :
  step_ok b (ops, b') -> step_ok b' (ops', b'') -> step_ok b (ops ++ ops', b'').
Proof. intros [_ ?] [? ?]. split; [done|]. by eapply mirrors_trans. Qed.

Lemma step_ok_update live o b : U o -> book_ok b -> step_ok b (index_insert_or_update live o b).
Proof. split; [by apply book_ok_update|by apply mirrors_update]. Qed.

Lemma step_ok_remove u b r b' :
  book_ok b -> index_remove u b = (r, b') -> step_ok b (removal_ops r, b').
Proof.
  intros Hb E. replace r with (fst (index_remove u b)) by by rewrite E.
  replace b' with (snd (index_remove u b)) by by rewrite E.
  split; [by apply book_ok_remove|by apply mirrors_remove].
Qed.

Lemma step_ok_insert_all live items b :
  Forall U items -> book_ok b -> step_ok b (insert_all live items b).
Proof.
  intros Hit. revert b. induction Hit as [|o items Ho _ IH]; intros b Hb; simpl;
    [by apply step_ok_refl|].
  pose proof (step_ok_update live o b Ho Hb) as H1.
  destruct (index_insert_or_update live o b) as [ops b1].
  specialize (IH b1 (proj1 H1)). destruct (insert_all live items b1) as [ops' b2].
  by eapply step_ok_app.
Qed.

Definition received_items (params : ProcessTrieParams) (l : list (Uuid * OrderbookP2PItem))
  : list OrderbookItem := map (fun p => received_item params p.1 p.2) l.

Lemma step_ok_full_trie `{HashOrder} live l params b :
  Forall U (received_items params l) -> proper_pair (tp_alb_pair params) -> book_ok b ->
  step_ok b (process_pubkey_full_trie live l params b).
Proof.
  intros Hl Hpr Hb. unfold process_pubkey_full_trie.
  pose proof (remove_pubkey_pair_ok (tp_pubkey params) (tp_alb_pair params) b Hb) as Hb1.
  pose proof (mirrors_clear (tp_pubkey params) _ b Hb Hpr) as Hm.
  set (b1 := index_remove_pubkey_pair_orders _ _ b) in *.
  pose proof (step_ok_insert_all live _ b1 Hl Hb1) as H2. unfold received_items in H2.
  destruct (insert_all live _ b1) as [ops b2]. by apply (step_ok_app b [ClearPair (tp_pubkey params) (tp_alb_pair params)] b1 ops b2).
Qed.

Definition delta_items (params : ProcessTrieParams) (l : list (Uuid * option OrderbookP2PItem))
  : list OrderbookItem :=
  omap (fun p => received_item params p.1 <$> p.2) l.

Lemma step_ok_delta live l params b :
  Forall U (delta_items params l) -> book_ok b ->
  step_ok b (process_trie_delta live l params b).
Proof.
  revert b. induction l as [|[u [o|]] l IH]; intros b Hl Hb; simpl in *; [by apply step_ok_refl|..].
  - apply Forall_cons in Hl as [Ho Hl].
    pose proof (step_ok_update live _ b Ho Hb) as H1.
    destruct (index_insert_or_update live _ b) as [ops b1].
    specialize (IH b1 Hl (proj1 H1)). destruct (process_trie_delta live l params b1) as [ops' b2].
    by eapply step_ok_app.
  - destruct (index_remove u b) as [r b1] eqn:E.
    pose proof (step_ok_remove u b r b1 Hb E) as H1.
    specialize (IH b1 Hl (proj1 H1)). destruct (process_trie_delta live l params b1) as [ops' b2].
    by eapply step_ok_app.
Qed.

Lemma step_ok_remove_all l b : book_ok b -> step_ok b (remove_all l b).
Proof.
  revert b. induction l as [|u l IH]; intros b Hb; simpl; [by apply step_ok_refl|].
  destruct (index_remove u b) as [r b1] eqn:E.
  pose proof (step_ok_remove u b r b1 Hb E) as H1.
  specialize (IH b1 (proj1 H1)). destruct (remove_all l b1) as [ops' b2]. by eapply step_ok_app.
Qed.

End Owner.
