(* ===== verification/TrieStore.v ===== *)
(** * The trie store and its synchronisation (mm2_main/src/lp_ordermatch.rs)

    Every node keeps, per maker's public key and pair of coins, a Merkle trie
    of the orders it knows of; the root is announced in keep-alive messages, and
    a node with another root asks for the difference or the whole trie.
    [TrieStore] keeps the roots, the known uuids and the history of changes.
    The tries themselves, their memory database and the encoding of an order are
    code of other crates: the parameters [TrieLib]. *)

From S2P Require Import Prelude MmNumber DexFee Swap Ordermatch OrdermatchNode Orderbook.

Open Scope Z_scope.

(** ** The tries *)

(** [TrieMut] is an open [TrieDBMut]; [trie_commit] is what its end of life
    writes: the database and the root. *)
Class TrieLib := {
  MemoryDB : Type;
  memory_db_default : MemoryDB;
  TrieMut : Type;
  trie_new : MemoryDB -> TrieMut;
  trie_from_existing : MemoryDB -> H64 -> result string TrieMut;
  trie_insert : bytes -> bytes -> TrieMut -> option string * TrieMut;
  trie_commit : TrieMut -> MemoryDB * H64;
  delta_trie_root : MemoryDB -> H64 -> list (bytes * option bytes) -> result string H64 * MemoryDB;
  trie_iter : MemoryDB -> H64 -> result string (list (bytes * bytes));
  purge : MemoryDB -> MemoryDB;
  hashed_null_node : H64;
  trie_state_bytes : OrderbookItem -> bytes }.

(** What the store relies on.  A trie is its contents, a map from keys to
    values; [root_of] is the root of a trie with these contents.  A root is a
    hash of 64 bits, so it stands for one trie only among those that occur, and
    the laws are stated for those.  [holds db l]: the tries [l] are in the
    database, each counted as often as it is in use. *)
Notation Contents := (gmap Uuid bytes).

Class TrieLaws `{TrieLib} := {
  root_of : Contents -> H64;
  occurs : Contents -> Prop;
  holds : MemoryDB -> list Contents -> Prop;
  root_of_inj c c' : occurs c -> occurs c' -> root_of c = root_of c' -> c = c';
  root_of_default c : occurs c -> root_of c <> H64_default;
  root_of_empty : root_of ∅ = hashed_null_node;
  occurs_empty : occurs ∅;
  holds_default : holds memory_db_default [];
  holds_sub db l l' : holds db l -> l' ⊆+ l -> holds db l';
  holds_purge db l : holds db l -> holds (purge db) l;
  holds_new db l k v : holds db l -> occurs {[k := v]} ->
    exists t db', trie_insert k v (trie_new db) = (None, t) /\
      trie_commit t = (db', root_of {[k := v]}) /\ holds db' ({[k := v]} :: l);
  holds_insert db l c k v : holds db (c :: l) -> occurs c -> occurs (<[k := v]> c) ->
    exists t t' db', trie_from_existing db (root_of c) = Ok t /\ trie_insert k v t = (None, t') /\
      trie_commit t' = (db', root_of (<[k := v]> c)) /\ holds db' (<[k := v]> c :: l);
  holds_delta db l c k : holds db (c :: l) -> occurs c -> occurs (delete k c) ->
    exists db', delta_trie_root db (root_of c) [(k, None)] = (Ok (root_of (delete k c)), db') /\
      holds db' (delete k c :: l);
  holds_iter db l c : holds db (c :: l) -> occurs c ->
    exists kvs, trie_iter db (root_of c) = Ok kvs /\ kvs ≡ₚ map_to_list c }.

(** ** Histories of changes *)

Record TrieDiff : Type := mkDiff {
  td_delta : list (Uuid * option OrderbookItem);
  td_next_root : H64 }.

(** A timed map of a crate, from a root to the change that was made of it.  An
    expired entry stays in the map for a while: a reader does not see it, and
    removing it returns nothing; [live] says which entries have not expired. *)
Notation TrieOrderHistory := (gmap H64 TrieDiff).

(** The [while let] of [insert_new_diff]: at most one round per entry. *)
Fixpoint remove_chain (fuel : nat) (live : H64 -> bool) (root : H64) (h : TrieOrderHistory)
  : TrieOrderHistory :=
  match fuel with
  | O => h
  | S fuel =>
      match h !! root with
      | None => h
      | Some diff =>
          if live root then remove_chain fuel live (td_next_root diff) (delete root h)
          else delete root h
      end
  end.

Definition insert_new_diff (live : H64 -> bool) (insert_at : H64) (diff : TrieDiff)
  (h : TrieOrderHistory) : TrieOrderHistory :=
  if bool_decide (insert_at = td_next_root diff) then h
  else
    match h !! td_next_root diff with
    | None => <[insert_at := diff]> h
    | Some old =>
        let h := delete (td_next_root diff) h in
        if live (td_next_root diff) then remove_chain (size h) live (td_next_root old) h
        else <[insert_at := diff]> h
    end.

(** ** The store *)

Record OrderbookPubkeyState : Type := mkPubkeyState {
  last_keep_alive : Z;
  order_pairs_trie_state_history : gmap string TrieOrderHistory;
  orders_uuids : gset (Uuid * string);
  trie_roots : gmap string H64 }.

Definition OrderbookPubkeyState_new (now : Z) : OrderbookPubkeyState :=
  mkPubkeyState now ∅ ∅ ∅.

Record TrieStore `{TrieLib} : Type := mkStore {
  pubkeys_state : gmap string OrderbookPubkeyState;
  memory_db : MemoryDB }.

Definition TrieStore_default `{TrieLib} : TrieStore := mkStore _ ∅ memory_db_default.

(** What the store asks of the outside while it applies operations: the clock,
    which changes of a history have not expired, and which histories, expired
    earlier, their timed map has thrown away. *)
Record TrieEnv : Type := mkTrieEnv {
  te_now_sec : Z;
  live_diff : string -> string -> H64 -> bool;
  history_dropped : string -> string -> bool }.

Section Store.
  Context `{TrieLib} `{HashOrder}.
  Variable env : TrieEnv.

Definition pubkey_state (state : gmap string OrderbookPubkeyState) (from_pubkey : string)
  : OrderbookPubkeyState :=
  default (OrderbookPubkeyState_new (te_now_sec env)) (state !! from_pubkey).

Definition order_pair_root (state : gmap string H64) (pair : string) : H64 :=
  default H64_default (state !! pair).

Definition get_trie_mut (db : MemoryDB) (root : H64) : result string TrieMut :=
  if bool_decide (root = H64_default) then Ok (trie_new db) else trie_from_existing db root.

Definition set_state (pubkey : string) (p : OrderbookPubkeyState) (db : MemoryDB) (s : TrieStore)
  : TrieStore := mkStore _ (<[pubkey := p]> (pubkeys_state s)) db.

(** [get_mut_unchecked] of the histories. *)
Definition stored_history (pubkey alb_pair : string) (p : OrderbookPubkeyState)
  : option TrieOrderHistory :=
  if history_dropped env pubkey alb_pair then None
  else order_pairs_trie_state_history p !! alb_pair.

Definition apply_insert (pubkey alb_pair : string) (uuid : Uuid) (order : OrderbookItem)
  (s : TrieStore) : TrieStore :=
  let p := pubkey_state (pubkeys_state s) pubkey in
  let prev_root := order_pair_root (trie_roots p) alb_pair in
  let uuids := {[(uuid, alb_pair)]} ∪ orders_uuids p in
  let with_root root histories :=
    mkPubkeyState (last_keep_alive p) histories uuids (<[alb_pair := root]> (trie_roots p)) in
  match get_trie_mut (memory_db s) prev_root with
  | Err _ =>
      set_state pubkey (with_root prev_root (order_pairs_trie_state_history p)) (memory_db s) s
  | Ok pair_trie =>
      let '(e, pair_trie) := trie_insert uuid (trie_state_bytes order) pair_trie in
      let '(db, root) := trie_commit pair_trie in
      match e with
      | Some _ => set_state pubkey (with_root root (order_pairs_trie_state_history p)) db s
      | None =>
          if bool_decide (prev_root = H64_default)
          then set_state pubkey (with_root root (order_pairs_trie_state_history p)) db s
          else
            let history := default ∅ (stored_history pubkey alb_pair p) in
            let history :=
              insert_new_diff (live_diff env pubkey alb_pair) prev_root
                (mkDiff [(uuid, Some order)] root) history in
            set_state pubkey
              (with_root root (<[alb_pair := history]> (order_pairs_trie_state_history p))) db s
      end
  end.

Definition apply_remove (pubkey alb_pair : string) (uuid : Uuid) (s : TrieStore) : TrieStore :=
  let p := pubkey_state (pubkeys_state s) pubkey in
  let old_state := order_pair_root (trie_roots p) alb_pair in
  let uuids := orders_uuids p ∖ {[(uuid, alb_pair)]} in
  let with_root root histories :=
    mkPubkeyState (last_keep_alive p) histories uuids (<[alb_pair := root]> (trie_roots p)) in
  if bool_decide (old_state = H64_default) || bool_decide (old_state = hashed_null_node)
  then set_state pubkey (with_root old_state (order_pairs_trie_state_history p)) (memory_db s) s
  else
    match delta_trie_root (memory_db s) old_state [(uuid, None)] with
    | (Err _, db) =>
        set_state pubkey (with_root old_state (order_pairs_trie_state_history p)) db s
    | (Ok root, db) =>
        let histories :=
          match stored_history pubkey alb_pair p with
          | None => delete alb_pair (order_pairs_trie_state_history p)
          | Some history =>
              <[alb_pair := insert_new_diff (live_diff env pubkey alb_pair) old_state
                              (mkDiff [(uuid, None)] root) history]>
                (order_pairs_trie_state_history p)
          end in
        set_state pubkey (with_root root histories) db s
    end.

Definition apply_clear_pair (pubkey alb_pair : string) (s : TrieStore) : TrieStore :=
  match pubkeys_state s !! pubkey with
  | None => s
  | Some p =>
      set_state pubkey
        (mkPubkeyState (last_keep_alive p)
           (delete alb_pair (order_pairs_trie_state_history p))
           (filter (fun x => x.2 <> alb_pair) (orders_uuids p))
           (delete alb_pair (trie_roots p))) (memory_db s) s
  end.

(** *** Applying operations in batches *)

Record Group : Type := mkGroup {
  g_clear : bool;
  g_inserts : list (Uuid * OrderbookItem);
  g_removes : list Uuid }.

Definition Group_default : Group := mkGroup false [] [].

Notation Groups := (gmap (string * string) Group).

Definition update_group (pubkey alb_pair : string) (f : Group -> Group) (m : Groups) : Groups :=
  <[(pubkey, alb_pair) := f (default Group_default (m !! (pubkey, alb_pair)))]> m.

Definition group_op (m : Groups) (op : TrieOp) : Groups :=
  match op with
  | ClearPair pubkey alb_pair =>
      update_group pubkey alb_pair (fun g => mkGroup true (g_inserts g) (g_removes g)) m
  | TrieInsert pubkey alb_pair uuid order =>
      update_group pubkey alb_pair
        (fun g => mkGroup (g_clear g) (g_inserts g ++ [(uuid, order)]) (g_removes g)) m
  | TrieRemove pubkey alb_pair uuid =>
      update_group pubkey alb_pair
        (fun g => mkGroup (g_clear g) (g_inserts g) (g_removes g ++ [uuid])) m
  | RemovePubkey _ => m
  end.

Definition removed_pubkeys (ops : list TrieOp) : gset string :=
  list_to_set (omap (fun op => match op with RemovePubkey pubkey => Some pubkey | _ => None end) ops).

Definition apply_group (s : TrieStore) (kg : (string * string) * Group) : TrieStore :=
  let '((pubkey, alb_pair), g) := kg in
  let s := if g_clear g then apply_clear_pair pubkey alb_pair s else s in
  let s := foldl (fun s p => apply_insert pubkey alb_pair p.1 p.2 s) s (g_inserts g) in
  foldl (fun s uuid => apply_remove pubkey alb_pair uuid s) s (g_removes g).

Definition remove_pubkey (s : TrieStore) (pubkey : string) : TrieStore :=
  mkStore _ (delete pubkey (pubkeys_state s)) (memory_db s).

Definition apply_ops (ops : list TrieOp) (s : TrieStore) : TrieStore :=
  let groups := foldl group_op ∅ ops in
  let s := foldl apply_group s (iter_map groups) in
  foldl remove_pubkey s (iter_set (removed_pubkeys ops)).

(** [clean_memory_loop] *)
Definition clean_memory (s : TrieStore) : TrieStore :=
  mkStore _ (pubkeys_state s) (purge (memory_db s)).

(** ** Keep-alive messages *)

Definition is_empty_root (root : H64) : bool :=
  bool_decide (root = H64_default) || bool_decide (root = hashed_null_node).

(** The messages of [broadcast_keep_alive_for_pub]: a topic and the root of its
    pair. *)
Definition keep_alive_messages (pubkey : string) (s : TrieStore)
  : list (string * gmap string H64) :=
  match pubkeys_state s !! pubkey with
  | None => []
  | Some state =>
      omap (fun p : string * H64 =>
              if is_empty_root p.2 then None
              else Some (("orbk/" ++ p.1)%string, {[p.1 := p.2]}))
        (iter_map (trie_roots state))
  end.

(** One round of the loop of [prepare_sync_request_for_keep_alive]. *)
Definition compare_root (i_am_relay : bool) (is_subscribed : string -> bool)
  (acc : gmap string H64 * gmap string H64) (p : string * H64)
  : gmap string H64 * gmap string H64 :=
  let '(roots, to_request) := acc in
  let '(alb_pair, trie_root) := p in
  if negb (is_subscribed ("orbk/" ++ alb_pair)%string) && negb i_am_relay then acc
  else if is_empty_root trie_root then acc
  else
    let actual_trie_root := order_pair_root roots alb_pair in
    (<[alb_pair := actual_trie_root]> roots,
     if bool_decide (actual_trie_root <> trie_root) then <[alb_pair := trie_root]> to_request
     else to_request).

(** The roots of the request [SyncPubkeyOrderbookState], if one is needed. *)
Definition prepare_sync_request_for_keep_alive (from_pubkey : string)
  (message_roots : gmap string H64) (i_am_relay : bool) (is_subscribed : string -> bool)
  (s : TrieStore) : option (gmap string H64) * TrieStore :=
  let p := pubkey_state (pubkeys_state s) from_pubkey in
  let '(roots, to_request) :=
    foldl (compare_root i_am_relay is_subscribed) (trie_roots p, ∅) (iter_map message_roots) in
  let p := mkPubkeyState (te_now_sec env) (order_pairs_trie_state_history p) (orders_uuids p) roots in
  (if bool_decide (to_request = ∅) then None else Some to_request,
   set_state from_pubkey p (memory_db s) s).

(** ** Answering a request *)

Inductive DeltaOrFullTrie (V : Type) : Type :=
| Delta (delta : gmap Uuid (option V))
| FullTrie (trie : list (Uuid * V)).
Arguments Delta {V} delta.
Arguments FullTrie {V} trie.

Inductive TrieDiffHistoryError : Type :=
| TrieDbError (e : string)
| TryFromBytesError
| GetterNoneForKeyFromTrie
| NoPairTrieRoot (alb_pair : string).

Local Open Scope result_scope.

(** [Uuid::from_slice] takes sixteen bytes. *)
Definition uuid_of_key (key : bytes) : result TrieDiffHistoryError Uuid :=
  if bool_decide (length key = 16%nat) then Ok key else Err TryFromBytesError.

Fixpoint full_trie_items {V} (getter : Uuid -> option V) (kvs : list (bytes * bytes))
  : result TrieDiffHistoryError (list (Uuid * V)) :=
  match kvs with
  | [] => Ok []
  | (key, _) :: rest =>
      let? key := uuid_of_key key in
      let? val := ok_or (getter key) GetterNoneForKeyFromTrie in
      let? items := full_trie_items getter rest in
      Ok ((key, val) :: items)
  end.

Definition get_full_trie {V} (trie_root : H64) (db : MemoryDB) (getter : Uuid -> option V)
  : result TrieDiffHistoryError (list (Uuid * V)) :=
  let? kvs := map_err TrieDbError (trie_iter db trie_root) in
  full_trie_items getter kvs.

(** [HashMap::extend] *)
Definition extend_delta (total : gmap Uuid (option OrderbookItem))
  (delta : list (Uuid * option OrderbookItem)) : gmap Uuid (option OrderbookItem) :=
  foldl (fun m p => <[p.1 := p.2]> m) total delta.

Definition history_get (live : H64 -> bool) (h : TrieOrderHistory) (root : H64) : option TrieDiff :=
  if live root then h !! root else None.

(** The [while let] of [from_history]; [None] when the fuel is too little. *)
Fixpoint follow_history (fuel : nat) (live : H64 -> bool) (h : TrieOrderHistory)
  (current_delta : TrieDiff) (total_delta : gmap Uuid (option OrderbookItem))
  : option (TrieDiff * gmap Uuid (option OrderbookItem)) :=
  match history_get live h (td_next_root current_delta) with
  | None => Some (current_delta, total_delta)
  | Some cur =>
      match fuel with
      | O => None
      | S fuel => follow_history fuel live h cur (extend_delta total_delta (td_delta cur))
      end
  end.

(** The outer option is the fuel's. *)
Definition from_history (fuel : nat) (live : H64 -> bool) (h : TrieOrderHistory)
  (from_hash actual_trie_root : H64) (db : MemoryDB) (getter : Uuid -> option OrderbookItem)
  : option (result TrieDiffHistoryError (DeltaOrFullTrie OrderbookItem)) :=
  let full := result_map FullTrie (get_full_trie actual_trie_root db getter) in
  match history_get live h from_hash with
  | None => Some full
  | Some delta =>
      match follow_history fuel live h delta (extend_delta ∅ (td_delta delta)) with
      | None => None
      | Some (current_delta, total_delta) =>
          Some (if bool_decide (td_next_root current_delta = actual_trie_root)
                then Ok (Delta total_delta) else full)
      end
  end.

Record SyncPubkeyOrderbookStateRes : Type := mkSyncRes {
  pair_orders_diff : gmap string (DeltaOrFullTrie OrderbookP2PItem);
  sy_protocol_infos : gmap Uuid BaseRelProtocolInfo;
  sy_conf_infos : gmap Uuid OrderConfirmationsSettings }.

(** The closure of [map_to]. *)
Definition on_each
  (infos : gmap Uuid BaseRelProtocolInfo * gmap Uuid OrderConfirmationsSettings)
  (p : Uuid * option OrderbookItem) :=
  match p.2 with
  | Some o => add_infos infos o
  | None => (delete p.1 infos.1, delete p.1 infos.2)
  end.

Definition diff_entries (d : DeltaOrFullTrie OrderbookItem) : list (Uuid * option OrderbookItem) :=
  match d with
  | Delta delta => iter_map delta
  | FullTrie trie => map (fun p => (p.1, Some p.2)) trie
  end.

Definition p2p_diff (d : DeltaOrFullTrie OrderbookItem) : DeltaOrFullTrie OrderbookP2PItem :=
  match d with
  | Delta delta => Delta (fmap (M := gmap Uuid) (fmap p2p_item) delta)
  | FullTrie trie => FullTrie (map (fun p => (p.1, p2p_item p.2)) trie)
  end.

(** The difference for one pair; [live_history] says which histories are seen. *)
Definition pair_diff (live_history : string -> bool) (pubkey : string)
  (state : OrderbookPubkeyState) (book : Orderbook) (db : MemoryDB) (alb_pair : string) (root : H64)
  : option (result TrieDiffHistoryError (DeltaOrFullTrie OrderbookItem)) :=
  match trie_roots state !! alb_pair with
  | None => Some (Err (NoPairTrieRoot alb_pair))
  | Some actual_pair_root =>
      let getter uuid := order_set book !! uuid in
      match (if live_history alb_pair then order_pairs_trie_state_history state !! alb_pair else None) with
      | Some history =>
          from_history (size history) (live_diff env pubkey alb_pair) history root actual_pair_root db
            getter
      | None => Some (result_map FullTrie (get_full_trie actual_pair_root db getter))
      end
  end.

Fixpoint pair_diffs (live_history : string -> bool) (pubkey : string)
  (state : OrderbookPubkeyState) (book : Orderbook) (db : MemoryDB) (pairs : list (string * H64))
  : option (result TrieDiffHistoryError (list (string * DeltaOrFullTrie OrderbookItem))) :=
  match pairs with
  | [] => Some (Ok [])
  | (alb_pair, root) :: rest =>
      match pair_diff live_history pubkey state book db alb_pair root with
      | None => None
      | Some (Err e) => Some (Err e)
      | Some (Ok delta) =>
          match pair_diffs live_history pubkey state book db rest with
          | Some (Ok deltas) => Some (Ok ((alb_pair, delta) :: deltas))
          | r => r
          end
      end
  end.

Definition process_sync_pubkey_orderbook_state (live_history : string -> bool) (book : Orderbook)
  (s : TrieStore) (pubkey : string) (roots : gmap string H64)
  : option (result TrieDiffHistoryError (option SyncPubkeyOrderbookStateRes)) :=
  match pubkeys_state s !! pubkey with
  | None => Some (Ok None)
  | Some state =>
      match pair_diffs live_history pubkey state book (memory_db s) (iter_map roots) with
      | None => None
      | Some (Err e) => Some (Err e)
      | Some (Ok deltas) =>
          let infos := foldl on_each (∅, ∅) (deltas ≫= fun d => diff_entries d.2) in
          Some (Ok (Some (mkSyncRes (list_to_map (map (fun d => (d.1, p2p_diff d.2)) deltas))
                            infos.1 infos.2)))
      end
  end.

(** ** What the asking node does with the answer *)

Definition apply_diff (live : Uuid -> bool) (from_pubkey : string)
  (response : SyncPubkeyOrderbookStateRes)
  (acc : list TrieOp * Orderbook) (p : string * DeltaOrFullTrie OrderbookP2PItem)
  : list TrieOp * Orderbook :=
  let '(ops, b) := acc in
  let params := mkTrieParams from_pubkey p.1 (sy_protocol_infos response) (sy_conf_infos response) in
  let '(pair_ops, b) :=
    match p.2 with
    | Delta delta => process_trie_delta live (iter_map delta) params b
    | FullTrie values => process_pubkey_full_trie live values params b
    end in
  (ops ++ pair_ops, b).

(** The rest of [process_orders_keep_alive], once the answer is there. *)
Definition process_sync_response (live : Uuid -> bool) (from_pubkey : string)
  (response : SyncPubkeyOrderbookStateRes) (b : Orderbook) : list TrieOp * Orderbook :=
  foldl (apply_diff live from_pubkey response) ([], b) (iter_map (pair_orders_diff response)).

(** ** Whole books

    The request [GetOrderbook] of a node that shows a pair for the first time,
    and what it does with the answer. *)

Record GetOrderbookPubkeyItem : Type := mkPubkeyItem {
  gi_last_keep_alive : Z;
  gi_last_signed_pubkey_payload : bytes;
  gi_orders : list (Uuid * OrderbookP2PItem) }.

Record GetOrderbookRes : Type := mkOrderbookRes {
  pubkey_orders : gmap string GetOrderbookPubkeyItem;
  go_protocol_infos : gmap Uuid BaseRelProtocolInfo;
  go_conf_infos : gmap Uuid OrderConfirmationsSettings }.

Inductive GetOrderbookError : Type :=
| OrderbookTooLarge
| PubkeyStateExpected (pubkey : string).

Definition MAX_ORDERS_NUMBER_IN_ORDERBOOK_RESPONSE : nat := 1000.

Fixpoint orders_to_send (states : gmap string OrderbookPubkeyState)
  (l : list (string * list (Uuid * OrderbookP2PItem)))
  : result GetOrderbookError (list (string * GetOrderbookPubkeyItem)) :=
  match l with
  | [] => Ok []
  | (pubkey, orders) :: rest =>
      let? state := ok_or (states !! pubkey) (PubkeyStateExpected pubkey) in
      let? items := orders_to_send states rest in
      Ok ((pubkey, mkPubkeyItem (last_keep_alive state) [] orders) :: items)
  end.

Definition process_get_orderbook_request (b : Orderbook) (s : TrieStore) (base rel : string)
  : result GetOrderbookError GetOrderbookRes :=
  let res := get_pubkeys_orders b base rel in
  if bool_decide (MAX_ORDERS_NUMBER_IN_ORDERBOOK_RESPONSE < total_number_of_orders res)%nat
  then Err OrderbookTooLarge
  else
    let? items := orders_to_send (pubkeys_state s) (iter_map (uuids_by_pubkey res)) in
    Ok (mkOrderbookRes (list_to_map items) (po_protocol_infos res) (po_conf_infos res)).

(** [usable] says that a key decodes to a public key, [banned] that it is
    banned. *)
Definition fill_pubkey (live : Uuid -> bool) (my_pub : option string) (usable banned : string -> bool)
  (alb_pair : string) (response : GetOrderbookRes)
  (acc : list TrieOp * Orderbook) (p : string * GetOrderbookPubkeyItem)
  : list TrieOp * Orderbook :=
  let '(ops, b) := acc in
  let '(pubkey, item) := p in
  if negb (usable pubkey) || is_my_order pubkey my_pub (my_p2p_pubkeys b) || banned pubkey then acc
  else
    let params := mkTrieParams pubkey alb_pair (go_protocol_infos response) (go_conf_infos response) in
    let '(pair_ops, b) := process_pubkey_full_trie live (gi_orders item) params b in
    (ops ++ pair_ops, b).

(** [request_and_fill_orderbook], once the answer is there. *)
Definition fill_orderbook (live : Uuid -> bool) (my_pub : option string)
  (usable banned : string -> bool) (base rel : string) (response : GetOrderbookRes) (b : Orderbook)
  : list TrieOp * Orderbook :=
  foldl (fill_pubkey live my_pub usable banned (alb_ordered_pair base rel) response) ([], b)
    (iter_map (pubkey_orders response)).

(** *** Subscriptions *)

Inductive OrderbookRequestingState : Type :=
| Requested
| NotRequested (subscribed_at : Z).

Definition ORDERBOOK_REQUESTING_TIMEOUT : Z := 60.

(** [subscribe_to_orderbook_topic]: the subscriptions, whether the topic is
    subscribed to now and whether the book is requested. *)
Definition subscribe_to_orderbook_topic (now : Z) (base rel : string) (request_orderbook : bool)
  (subs : gmap string OrderbookRequestingState)
  : gmap string OrderbookRequestingState * bool * bool :=
  let topic := orderbook_topic_from_base_rel base rel in
  match subs !! topic with
  | None => (<[topic := NotRequested now]> subs, true, request_orderbook)
  | Some Requested => (subs, false, false)
  | Some (NotRequested subscribed_at) =>
      let is_orderbook_filled := wrap 64 (subscribed_at + ORDERBOOK_REQUESTING_TIMEOUT) <? now in
      (subs, false, negb is_orderbook_filled && request_orderbook)
  end.

(** ** Silent makers

    The part of [lp_ordermatch_loop] that forgets makers without keep-alive. *)
Definition timed_out_pubkeys (my_pubsecp : string) (maker_order_timeout : Z) (b : Orderbook)
  (s : TrieStore) : list (string * OrderbookPubkeyState) :=
  List.filter (fun p : string * OrderbookPubkeyState =>
    negb (bool_decide (p.1 = my_pubsecp) || bool_decide (p.1 ∈ my_p2p_pubkeys b)
          || (te_now_sec env <? wrap 64 (last_keep_alive p.2 + maker_order_timeout))))
    (iter_map (pubkeys_state s)).

Definition remove_timed_out (my_pubsecp : string) (maker_order_timeout : Z) (b : Orderbook)
  (s : TrieStore) : list TrieOp * Orderbook :=
  let gone := timed_out_pubkeys my_pubsecp maker_order_timeout b s in
  let '(ops, b) :=
    remove_all (gone ≫= fun p => map fst (iter_set (orders_uuids p.2))) b in
  (ops ++ map (fun p => RemovePubkey p.1) gone, b).

End Store.

Arguments Delta {V} delta.
Arguments FullTrie {V} trie.
