(* ===== verification/TrieStoreProps.v ===== *)
(** * Lemmas on the trie store

    What a history of changes stands for, that its chains end, and the
    invariant [store_ok], by which a store keeps the tries of given orders. *)

From S2P Require Import Prelude MmNumber DexFee Swap Ordermatch OrdermatchNode Orderbook OrderbookProps TrieStore.

Open Scope Z_scope.

Definition bytes_of `{TrieLib} (m : gmap Uuid OrderbookItem) : Contents := trie_state_bytes <$> m.

(** The items that may reach a node: uuids are unique and of sixteen bytes,
    tickers hold no colon, and the roots of no two sets of them collide. *)
Record universe `{TrieLaws} (U : OrderbookItem -> Prop) : Prop := mkUniverse {
  un_owner : one_owner U;
  un_plain o : U o -> plain_tickers o;
  un_uuid o : U o -> length (oi_uuid o) = 16%nat;
  un_occurs m : all_known U m -> occurs (bytes_of m) }.

(** ** Changes *)

Definition apply_change {A} (f : OrderbookItem -> A) (m : gmap Uuid A)
  (p : Uuid * option OrderbookItem) : gmap Uuid A :=
  match p.2 with Some o => <[p.1 := f o]> m | None => delete p.1 m end.

(** A total delta replaces the entries it names. *)
Definition patch {A} (f : OrderbookItem -> A) (delta : gmap Uuid (option OrderbookItem))
  (m : gmap Uuid A) : gmap Uuid A :=
  merge (fun d x => match d with Some d => f <$> d | None => x end) delta m.

Lemma patch_lookup {A} (f : OrderbookItem -> A) delta m u :
  patch f delta m !! u = match delta !! u with Some d => f <$> d | None => m !! u end.
Proof. unfold patch. rewrite lookup_merge. by destruct (delta !! u), (m !! u). Qed.

Lemma patch_extend {A} (f : OrderbookItem -> A) l delta m :
  patch f (extend_delta delta l) m = foldl (apply_change f) (patch f delta m) l.
Proof.
  revert delta. induction l as [|[u d] l IH]; intros delta; [done|].
  cbn [extend_delta foldl]. fold (extend_delta (<[u := d]> delta) l). rewrite IH. f_equal.
  apply map_eq. intros v. unfold apply_change. cbn [fst snd].
  rewrite patch_lookup. destruct (decide (u = v)) as [<-|Hne].
  - rewrite lookup_insert_eq. destruct d; simpl; [by rewrite lookup_insert_eq|by rewrite lookup_delete_eq].
  - rewrite lookup_insert_ne by done. destruct d; simpl;
      [rewrite lookup_insert_ne by done|rewrite lookup_delete_ne by done]; by rewrite patch_lookup.
Qed.

Lemma patch_empty {A} (f : OrderbookItem -> A) m : patch f ∅ m = m.
Proof. apply map_eq. intros u. by rewrite patch_lookup, lookup_empty. Qed.

Lemma patch_fmap {A} (f : OrderbookItem -> A) delta m :
  f <$> patch id delta m = patch f delta (f <$> m).
Proof.
  apply map_eq. intros u. rewrite lookup_fmap, !patch_lookup, lookup_fmap.
  destruct (delta !! u) as [[o|]|]; done.
Qed.

(** ** The chains of a history *)

Lemma remove_chain_sub (fuel : nat) (live : H64 -> bool) (r : H64) (h : TrieOrderHistory) : remove_chain fuel live r h ⊆ h.
Proof.
  revert r h. induction fuel as [|fuel IH]; intros r h; simpl; [done|].
  case_match; [|done]. case_match; [|apply delete_subseteq].
  etrans; [apply IH|apply delete_subseteq].
Qed.

(** One round per entry is enough: more fuel removes nothing more. *)
Lemma remove_chain_fuel (n : nat) (live : H64 -> bool) (r : H64) (h : TrieOrderHistory) :
  (size h <= n)%nat -> remove_chain n live r h = remove_chain (size h) live r h.
Proof.
  revert r h. induction n as [|n IH]; intros r h Hn.
  - by replace (size h) with 0%nat by lia.
  - destruct (h !! r) as [d|] eqn:E.
    + pose proof (map_size_delete_Some r h (mk_is_Some _ _ E)) as Hs.
      assert (0 < size h)%nat as Hpos.
      { destruct (size h) eqn:E0; [|lia]. apply map_size_empty_inv in E0. subst. by rewrite lookup_empty in E. }
      destruct (size h) as [|k] eqn:Ek; [lia|]. simpl. rewrite E. destruct (live r); [|done].
      simpl in Hs. rewrite (IH _ (delete r h)) by lia. by rewrite Hs.
    + destruct (size h); simpl; by rewrite E.
Qed.

Definition ranked (rank : H64 -> nat) (h : TrieOrderHistory) : Prop :=
  forall r d, h !! r = Some d -> (rank (td_next_root d) < rank r)%nat.

Lemma ranked_sub (rank : H64 -> nat) (h h' : TrieOrderHistory) : ranked rank h -> h' ⊆ h -> ranked rank h'.
Proof. intros Hr Hs r d Hd. apply Hr. by eapply lookup_weaken. Qed.

Lemma ranked_insert (rank : H64 -> nat) (h : TrieOrderHistory) (at_ : H64) (d : TrieDiff) :
  ranked rank h -> h !! td_next_root d = None -> at_ <> td_next_root d ->
  exists rank', ranked rank' (<[at_ := d]> h).
Proof.
  intros Hr Hn Hne.
  exists (fun r => if decide (r = td_next_root d) then 0%nat else S (rank r)).
  intros r d' [[<- <-]|[_ Hd']]%lookup_insert_Some.
  - rewrite decide_True by done. rewrite decide_False by done. lia.
  - assert (r <> td_next_root d) by (intros ->; congruence).
    rewrite (decide_False (P := r = _)) by done. case_decide; [lia|]. apply Hr in Hd'. lia.
Qed.

(** Where [insert_new_diff] leaves a history. *)
Lemma insert_new_diff_cases (live : H64 -> bool) (at_ : H64) (d : TrieDiff) (h : TrieOrderHistory) :
  let h' := insert_new_diff live at_ d h in
  (h' ⊆ h /\ (at_ = td_next_root d \/ h' !! td_next_root d = None)) \/
  (at_ <> td_next_root d /\ h' = <[at_ := d]> (delete (td_next_root d) h)).
Proof.
  simpl. unfold insert_new_diff. case_bool_decide as Heq; [left; auto|].
  destruct (h !! td_next_root d) as [old|] eqn:E.
  - destruct (live _).
    + left. split; [etrans; [apply remove_chain_sub|apply delete_subseteq]|right].
      eapply (lookup_weaken_None _ (delete (td_next_root d) h)); [|apply remove_chain_sub].
      by rewrite lookup_delete_eq.
    + by right.
  - right. by rewrite delete_id.
Qed.

Lemma insert_new_diff_ranked (live : H64 -> bool) (at_ : H64) (d : TrieDiff) (h : TrieOrderHistory) (rank : H64 -> nat) :
  ranked rank h -> exists rank', ranked rank' (insert_new_diff live at_ d h).
Proof.
  intros Hr. destruct (insert_new_diff_cases live at_ d h) as [[Hs _]|[Hne ->]].
  - exists rank. by eapply ranked_sub.
  - eapply ranked_insert; [|by rewrite lookup_delete_eq|done].
    eapply ranked_sub; [exact Hr|apply delete_subseteq].
Qed.

(** The new root has no outgoing change. *)
Lemma insert_new_diff_head (live : H64 -> bool) (at_ : H64) (d : TrieDiff) (h : TrieOrderHistory) :
  h !! at_ = None -> insert_new_diff live at_ d h !! td_next_root d = None.
Proof.
  intros Hat. destruct (insert_new_diff_cases live at_ d h) as [[Hs [Heq|Hn]]|[Hne ->]]; [..|done|].
  - eapply lookup_weaken_None; [|exact Hs]. congruence.
  - rewrite lookup_insert_ne by done. by rewrite lookup_delete_eq.
Qed.

(** Following a ranked history visits an entry at most once. *)
Definition below (rank : H64 -> nat) (n : nat) (h : TrieOrderHistory) : TrieOrderHistory :=
  filter (fun p => (rank p.1 <= n)%nat) h.

Lemma below_size (rank : H64 -> nat) (n : nat) (h : TrieOrderHistory) : (size (below rank n h) <= size h)%nat.
Proof. apply map_subseteq_size, map_filter_subseteq. Qed.

Lemma below_smaller (rank : H64 -> nat) (n : nat) (h : TrieOrderHistory) (r : H64) (d : TrieDiff) :
  h !! r = Some d -> (rank r <= n)%nat -> (rank (td_next_root d) < rank r)%nat ->
  (size (below rank (rank (td_next_root d)) h) < size (below rank n h))%nat.
Proof.
  intros Hr Hn Hlt. apply map_subset_size. apply map_subset_alt. split.
  - apply map_subseteq_spec. intros r' d'. unfold below. rewrite !map_lookup_filter_Some. simpl.
    intros [? ?]. split; [done|lia].
  - exists r. split.
    + apply map_lookup_filter_None. right. intros x _. simpl. lia.
    + exists d. apply map_lookup_filter_Some. done.
Qed.

Lemma history_get_Some (live : H64 -> bool) (h : TrieOrderHistory) (r : H64) (d : TrieDiff) : history_get live h r = Some d -> h !! r = Some d.
Proof. unfold history_get. by case_match. Qed.

Lemma follow_history_ends (rank : H64 -> nat) (live : H64 -> bool) (h : TrieOrderHistory) (fuel : nat)
  (cur : TrieDiff) (total : gmap Uuid (option OrderbookItem)) :
  ranked rank h -> (size (below rank (rank (td_next_root cur)) h) <= fuel)%nat ->
  is_Some (follow_history fuel live h cur total).
Proof.
  intros Hr. revert cur total. induction fuel as [|fuel IH]; intros cur total Hf; simpl;
    destruct (history_get live h (td_next_root cur)) as [d|] eqn:E; eauto.
  - apply history_get_Some in E. exfalso.
    pose proof (below_smaller rank _ h _ d E (le_n _) (Hr _ _ E)). lia.
  - apply history_get_Some in E. apply IH.
    pose proof (below_smaller rank _ h _ d E (le_n _) (Hr _ _ E)). lia.
Qed.

(** ** The invariant of a store *)

Notation MakerOrders := (string * string -> gmap Uuid OrderbookItem).

Section Store.
Context {TL : TrieLib} {LW : TrieLaws} {HO : HashOrder}.
Variable U : OrderbookItem -> Prop.
Hypothesis HU : universe U.

Notation known := (all_known U).

Definition apply_delta (m : gmap Uuid OrderbookItem) (l : list (Uuid * option OrderbookItem))
  : gmap Uuid OrderbookItem := foldl (apply_change id) m l.

Definition orders_root (m : gmap Uuid OrderbookItem) : H64 := root_of (bytes_of m).

Definition diff_ok (r : H64) (d : TrieDiff) : Prop :=
  exists m, known m /\ orders_root m = r /\ known (apply_delta m (td_delta d)) /\
    td_next_root d = orders_root (apply_delta m (td_delta d)).

Record history_ok (h : TrieOrderHistory) (m : gmap Uuid OrderbookItem) : Prop := mkHistoryOk {
  ho_ranked : exists rank, ranked rank h;
  ho_diffs r d : h !! r = Some d -> diff_ok r d;
  ho_head : h !! orders_root m = None }.

Lemma history_ok_empty m : history_ok ∅ m.
Proof.
  split; [exists (fun _ => 0%nat)| |]; try intros r d; by rewrite lookup_empty.
Qed.

Lemma history_ok_insert live h m l :
  history_ok h m -> known m -> known (apply_delta m l) ->
  history_ok (insert_new_diff live (orders_root m) (mkDiff l (orders_root (apply_delta m l))) h)
    (apply_delta m l).
Proof.
  intros [[rank Hr] Hd Hh] Hm Hm'. split.
  - by eapply insert_new_diff_ranked.
  - intros r d. set (d0 := mkDiff l _).
    destruct (insert_new_diff_cases live (orders_root m) d0 h) as [[Hs _]|[_ ->]].
    + intros ?. apply Hd. by eapply lookup_weaken.
    + intros [[<- <-]|[_ [_ ?]%lookup_delete_Some]]%lookup_insert_Some; [|by apply Hd].
      exists m. auto.
  - by apply insert_new_diff_head.
Qed.

Lemma orders_root_inj m c :
  known m -> occurs c -> orders_root m = root_of c -> bytes_of m = c.
Proof. intros Hm Hc. apply root_of_inj; [by apply (un_occurs U HU)|done]. Qed.

Lemma orders_root_default m : known m -> orders_root m <> H64_default.
Proof. intros Hm. by apply root_of_default, (un_occurs U HU). Qed.

Lemma bytes_of_delta m l : bytes_of (apply_delta m l) = foldl (apply_change trie_state_bytes) (bytes_of m) l.
Proof.
  revert m. induction l as [|[u d] l IH]; intros m; simpl; [done|]. unfold apply_delta in IH.
  rewrite IH. f_equal. unfold apply_change, bytes_of. destruct d; simpl; [by rewrite fmap_insert|by rewrite fmap_delete].
Qed.

(** Following a history from a root computes the change from the contents of
    that root to the contents of the last one. *)
Lemma follow_history_sound fuel live h cur total m c cur' total' :
  (forall r d, h !! r = Some d -> diff_ok r d) ->
  known m -> td_next_root cur = orders_root m -> bytes_of m = patch trie_state_bytes total c ->
  follow_history fuel live h cur total = Some (cur', total') ->
  exists m', known m' /\ td_next_root cur' = orders_root m' /\
    bytes_of m' = patch trie_state_bytes total' c.
Proof.
  intros Hd. revert cur total m.
  induction fuel as [|fuel IH]; intros cur total m Hm Hcur Hp Hf; simpl in Hf;
    destruct (history_get live h (td_next_root cur)) as [d|] eqn:E; simplify_eq; eauto.
  apply history_get_Some, Hd in E as (m0 & Hm0 & Hr & Hm1 & Hn).
  assert (bytes_of m0 = bytes_of m) as Heq.
  { apply orders_root_inj; [done|by apply (un_occurs U HU)|]. by rewrite Hr. }
  eapply (IH d _ (apply_delta m0 (td_delta d))); eauto.
  by rewrite bytes_of_delta, patch_extend, <- Hp, Heq.
Qed.

(** A chain from the given root always ends, and the answer is a delta that
    turns the contents with that root into those of [m], or all of [m]. *)
Lemma from_history_sound live h m from_hash db getter :
  history_ok h m -> known m ->
  exists r, from_history (size h) live h from_hash (orders_root m) db getter = Some r /\
    ((exists d, r = Ok (Delta d) /\ from_hash <> orders_root m /\
        forall c, occurs c -> root_of c = from_hash -> patch trie_state_bytes d c = bytes_of m) \/
     r = result_map FullTrie (get_full_trie (orders_root m) db getter)).
Proof.
  intros [[rank Hrank] Hd Hh] Hm. unfold from_history.
  destruct (history_get live h from_hash) as [d|] eqn:E; [|eauto].
  pose proof E as Ed. apply history_get_Some in E.
  pose proof (below_size rank (rank (td_next_root d)) h) as Hsz.
  destruct (follow_history_ends rank live h (size h) d (extend_delta ∅ (td_delta d)) Hrank Hsz)
    as [[cur total] Hf].
  rewrite Hf. eexists; split; [done|]. case_bool_decide as Heq; [left|by right].
  exists total. split; [done|]. split; [intros ->; congruence|]. intros c Hc Hr.
  destruct (Hd _ _ E) as (m0 & Hm0 & Hr0 & Hm1 & Hn).
  assert (bytes_of m0 = c) as Hm0c by (apply (orders_root_inj m0 c Hm0 Hc); congruence).
  eapply follow_history_sound in Hf as (m' & Hm' & Hcur & Hp);
    [|exact Hd|exact Hm1|exact Hn|by rewrite bytes_of_delta, patch_extend, patch_empty, Hm0c].
  rewrite <- Hp. apply orders_root_inj; [done|by apply (un_occurs U HU)|].
  unfold orders_root in *. congruence.
Qed.

(** *** What a store keeps *)

Definition root_at (s : TrieStore) (k : string * string) : H64 :=
  match pubkeys_state s !! k.1 with
  | Some p => order_pair_root (trie_roots p) k.2
  | None => H64_default
  end.

Definition live_trie (s : TrieStore) (C : MakerOrders) (k : string * string) : option Contents :=
  if decide (root_at s k = H64_default) then None else Some (bytes_of (C k)).

Record store_ok (s : TrieStore) (C : MakerOrders) : Prop := mkStoreOk {
  so_known k : known (C k);
  so_root k : root_at s k = H64_default /\ C k = ∅ \/ root_at s k = orders_root (C k);
  so_db : exists (live : gmap (string * string) Contents) garbage,
    holds (memory_db s) ((map_to_list live).*2 ++ garbage) /\
    forall k, live !! k = live_trie s C k;
  so_uuids pk p u pr : pubkeys_state s !! pk = Some p ->
    (u, pr) ∈ orders_uuids p <-> is_Some (C (pk, pr) !! u);
  so_history pk p pr h : pubkeys_state s !! pk = Some p ->
    order_pairs_trie_state_history p !! pr = Some h ->
    history_ok h (C (pk, pr)) /\ root_at s (pk, pr) <> H64_default }.

Lemma store_ok_ext s C C' : (forall k, C k = C' k) -> store_ok s C -> store_ok s C'.
Proof.
  intros HC [H1 H2 (live & G & H3 & H3') H4 H5]. split.
  - intros k. by rewrite <- HC.
  - intros k. by rewrite <- HC.
  - exists live, G. split; [done|]. intros k. rewrite H3'. unfold live_trie. by rewrite HC.
  - intros. rewrite <- HC. by apply H4.
  - intros. rewrite <- HC. by eapply H5.
Qed.

Lemma store_ok_default : store_ok TrieStore_default (fun _ => ∅).
Proof.
  split; unfold root_at, live_trie, TrieStore_default; simpl.
  - intros k u o. by rewrite lookup_empty.
  - intros k. left. by rewrite lookup_empty.
  - exists ∅, []. rewrite map_to_list_empty. split; [apply holds_default|].
    intros k. unfold root_at. simpl. by rewrite !lookup_empty.
  - intros *. by rewrite lookup_empty.
  - intros *. by rewrite lookup_empty.
Qed.

(** The tries beside the one at [k]. *)
Definition others (s : TrieStore) (C : MakerOrders) (k : string * string) (l : list Contents) : Prop :=
  exists (live : gmap (string * string) Contents) garbage,
    l = (map_to_list live).*2 ++ garbage /\ live !! k = None /\
    forall k', k' <> k -> live !! k' = live_trie s C k'.

Lemma store_split s C k :
  store_ok s C -> exists l, others s C k l /\
    holds (memory_db s) (if decide (root_at s k = H64_default) then l else bytes_of (C k) :: l).
Proof.
  intros Hs. destruct (so_db s C Hs) as (live & G & Hh & Hl).
  exists ((map_to_list (delete k live)).*2 ++ G). split.
  - exists (delete k live), G. split; [done|]. split; [by rewrite lookup_delete_eq|].
    intros k' Hk'. by rewrite lookup_delete_ne.
  - pose proof (Hl k) as Hk. unfold live_trie in Hk. case_decide as Hd.
    + by rewrite delete_id.
    + apply (holds_sub _ _ _ Hh). rewrite <- (map_to_list_delete live k _ Hk). done.
Qed.

(** *** One pair changes *)

Lemma set_key_eq C k m : set_key C k m k = m.
Proof. unfold set_key. by rewrite decide_True. Qed.

Lemma set_key_ne C k m k' : k' <> k -> set_key C k m k' = C k'.
Proof. intros ?. unfold set_key. by rewrite decide_False. Qed.

Definition state_of (env : TrieEnv) (s : TrieStore) (pk : string) : OrderbookPubkeyState :=
  pubkey_state env (pubkeys_state s) pk.

Lemma root_at_state env s pk pr :
  root_at s (pk, pr) = order_pair_root (trie_roots (state_of env s pk)) pr.
Proof.
  unfold root_at, state_of, pubkey_state. simpl. destruct (pubkeys_state s !! pk); [done|].
  unfold order_pair_root. simpl. by rewrite lookup_empty.
Qed.

Lemma root_at_set pk p db s k :
  root_at (set_state pk p db s) k =
    if decide (k.1 = pk) then order_pair_root (trie_roots p) k.2 else root_at s k.
Proof.
  unfold root_at, set_state. simpl. case_decide as Hk.
  - subst pk. by rewrite lookup_insert_eq.
  - by rewrite lookup_insert_ne.
Qed.

Lemma state_uuids env s C pk u pr :
  store_ok s C -> (u, pr) ∈ orders_uuids (state_of env s pk) <-> is_Some (C (pk, pr) !! u).
Proof.
  intros Hs. unfold state_of, pubkey_state. destruct (pubkeys_state s !! pk) as [p|] eqn:E.
  - by apply (so_uuids s C Hs).
  - simpl. pose proof (so_root s C Hs (pk, pr)) as Hr. unfold root_at in Hr. simpl in Hr.
    rewrite E in Hr. destruct Hr as [[_ ->]|Hr].
    + rewrite lookup_empty. split; [set_solver|by intros []].
    + by destruct (orders_root_default (C (pk, pr)) (so_known s C Hs _)).
Qed.

Lemma state_history env s C pk pr h :
  store_ok s C -> order_pairs_trie_state_history (state_of env s pk) !! pr = Some h ->
  history_ok h (C (pk, pr)) /\ root_at s (pk, pr) <> H64_default.
Proof.
  intros Hs. unfold state_of, pubkey_state. destruct (pubkeys_state s !! pk) as [p|] eqn:E.
  - by apply (so_history s C Hs).
  - simpl. by rewrite lookup_empty.
Qed.

(** The orders of [(pk, pr)] become [m]; the rest of the maker's state and the
    other makers stay as they are.  [root] is the default where the pair has no
    trie any more. *)
Record pair_changed (env : TrieEnv) (s : TrieStore) (C : MakerOrders) (pk pr : string)
  (m : gmap Uuid OrderbookItem) (p : OrderbookPubkeyState) : Prop := mkPairChanged {
  pc_known : known m;
  pc_roots pr' : pr' <> pr ->
    order_pair_root (trie_roots p) pr' = order_pair_root (trie_roots (state_of env s pk)) pr';
  pc_uuids u pr' :
    (u, pr') ∈ orders_uuids p <->
      if decide (pr' = pr) then is_Some (m !! u) else (u, pr') ∈ orders_uuids (state_of env s pk);
  pc_history pr' h : order_pairs_trie_state_history p !! pr' = Some h ->
    if decide (pr' = pr)
    then history_ok h m /\ order_pair_root (trie_roots p) pr <> H64_default
    else order_pairs_trie_state_history (state_of env s pk) !! pr' = Some h }.

Lemma store_ok_changed env s C pk pr m p db l :
  store_ok s C -> pair_changed env s C pk pr m p -> others s C (pk, pr) l ->
  (order_pair_root (trie_roots p) pr = H64_default /\ m = ∅ /\ holds db l \/
   order_pair_root (trie_roots p) pr = orders_root m /\ holds db (bytes_of m :: l)) ->
  store_ok (set_state pk p db s) (set_key C (pk, pr) m).
Proof.
  intros Hs [Hm Hroots Huuids Hhist] (live & G & -> & Hlk & Hl) Hroot.
  assert (forall k, k <> (pk, pr) -> root_at (set_state pk p db s) k = root_at s k) as Hrest.
  { intros [pk' pr'] Hk. rewrite root_at_set. simpl. case_decide; [|done]. subst pk'.
    rewrite Hroots by congruence. by rewrite (root_at_state env). }
  assert (root_at (set_state pk p db s) (pk, pr) = order_pair_root (trie_roots p) pr) as Hat.
  { rewrite root_at_set. simpl. by rewrite decide_True. }
  split.
  - intros k. destruct (decide (k = (pk, pr))) as [->|Hk];
      [by rewrite set_key_eq|rewrite set_key_ne by done; by apply (so_known s C)].
  - intros k. destruct (decide (k = (pk, pr))) as [->|Hk].
    + rewrite set_key_eq, Hat. destruct Hroot as [(? & ? & _)|[? _]]; auto.
    + rewrite set_key_ne, Hrest by done. by apply (so_root s C).
  - destruct Hroot as [(Hd & -> & Hh)|[Hr Hh]].
    + exists live, G. split; [done|]. intros k. unfold live_trie.
      destruct (decide (k = (pk, pr))) as [->|Hk].
      * by rewrite Hat, decide_True.
      * rewrite Hrest, set_key_ne, (Hl k) by done. done.
    + exists (<[(pk, pr) := bytes_of m]> live), G. split.
      * apply (holds_sub _ _ _ Hh). by rewrite map_to_list_insert.
      * intros k. unfold live_trie. destruct (decide (k = (pk, pr))) as [->|Hk].
        -- rewrite lookup_insert_eq, Hat, set_key_eq, decide_False; [done|].
           rewrite Hr. by apply orders_root_default.
        -- rewrite lookup_insert_ne, Hrest, set_key_ne, (Hl k) by done. done.
  - intros pk' p' u pr'. unfold set_state. simpl. intros [[<- <-]|[Hne Hp']]%lookup_insert_Some.
    + rewrite Huuids. case_decide as Hpr.
      * subst pr'. by rewrite set_key_eq.
      * rewrite set_key_ne by congruence. by apply state_uuids.
    + rewrite set_key_ne by congruence. by eapply (so_uuids s C).
  - intros pk' p' pr' h. unfold set_state at 1. simpl.
    intros [[<- <-]|[Hne Hp']]%lookup_insert_Some Hh.
    + pose proof (Hhist _ _ Hh) as Hh'. case_decide as Hpr.
      * subst pr'. by rewrite set_key_eq, Hat.
      * rewrite set_key_ne, Hrest by congruence. by eapply state_history.
    + rewrite set_key_ne, Hrest by congruence. by eapply (so_history s C).
Qed.

(** *** The operations *)

Lemma known_insert u o m : known m -> U o -> oi_uuid o = u -> known (<[u := o]> m).
Proof. intros Hm ? ? v o' [[<- <-]|[_ ?]]%lookup_insert_Some; [done|by apply Hm]. Qed.

Lemma known_delete u m : known m -> known (delete u m).
Proof. intros Hm v o [_ ?]%lookup_delete_Some. by apply Hm. Qed.

Lemma known_empty : known ∅.
Proof. intros u o. by rewrite lookup_empty. Qed.

Lemma order_pair_root_insert m pr r pr' :
  order_pair_root (<[pr := r]> m) pr' = if decide (pr' = pr) then r else order_pair_root m pr'.
Proof.
  unfold order_pair_root. case_decide; subst; [by rewrite lookup_insert_eq|by rewrite lookup_insert_ne].
Qed.

Lemma stored_history_Some env pk pr p h :
  stored_history env pk pr p = Some h -> order_pairs_trie_state_history p !! pr = Some h.
Proof. unfold stored_history. by case_match. Qed.

Lemma inserted_changed env s C pk pr u o root hs :
  store_ok s C -> U o -> oi_uuid o = u -> root <> H64_default ->
  (forall h, hs !! pr = Some h -> history_ok h (<[u := o]> (C (pk, pr)))) ->
  (forall pr', pr' <> pr -> hs !! pr' = order_pairs_trie_state_history (state_of env s pk) !! pr') ->
  pair_changed env s C pk pr (<[u := o]> (C (pk, pr)))
    (mkPubkeyState (last_keep_alive (state_of env s pk)) hs
       ({[(u, pr)]} ∪ orders_uuids (state_of env s pk))
       (<[pr := root]> (trie_roots (state_of env s pk)))).
Proof.
  intros Hs Ho Hu Hr Hh Hh'. split; simpl.
  - by apply known_insert; [apply (so_known s C)|..].
  - intros pr' Hpr. by rewrite order_pair_root_insert, decide_False.
  - intros v pr'. rewrite elem_of_union, elem_of_singleton. case_decide as Hpr.
    + subst pr'. rewrite (state_uuids env s C) by done. rewrite lookup_insert_is_Some.
      destruct (decide (u = v)) as [->|]; [by split; auto|]. split; [|tauto].
      intros [[=]|]; [congruence|auto].
    + split; [|tauto]. intros [[=]|?]; [congruence|done].
  - intros pr' h Hl. case_decide as Hpr.
    + subst pr'. rewrite order_pair_root_insert, decide_True by done. auto.
    + by rewrite <- Hh'.
Qed.

Lemma apply_insert_ok env pk pr o s C :
  store_ok s C -> U o ->
  store_ok (apply_insert env pk pr (oi_uuid o) o s)
    (set_key C (pk, pr) (<[oi_uuid o := o]> (C (pk, pr)))).
Proof.
  intros Hs Ho. unfold apply_insert. fold (state_of env s pk). rewrite <- root_at_state.
  destruct (store_split s C (pk, pr) Hs) as (l & Hl & Hh).
  assert (known (<[oi_uuid o := o]> (C (pk, pr)))) as Hm
    by (apply known_insert; [apply (so_known s C Hs)|done..]).
  pose proof (un_occurs U HU _ Hm) as Hocc. pose proof (orders_root_default _ Hm) as Hrd.
  assert (bytes_of (<[oi_uuid o := o]> (C (pk, pr)))
          = <[oi_uuid o := trie_state_bytes o]> (bytes_of (C (pk, pr)))) as Hb
    by (unfold bytes_of; by rewrite fmap_insert).
  unfold get_trie_mut. case_bool_decide as Hd.
  - rewrite decide_True in Hh by done.
    assert (C (pk, pr) = ∅) as HC.
    { destruct (so_root s C Hs (pk, pr)) as [[_ ?]|Hr]; [done|].
      by destruct (orders_root_default (C (pk, pr)) (so_known s C Hs _)); congruence. }
    rewrite Hb in Hocc. rewrite HC in Hb, Hocc.
    replace (bytes_of ∅) with (∅ : Contents) in Hb, Hocc by by unfold bytes_of; rewrite fmap_empty.
    change (<[oi_uuid o := trie_state_bytes o]> (∅ : Contents)) with ({[oi_uuid o := trie_state_bytes o]} : Contents) in Hb, Hocc.
    destruct (holds_new _ _ _ _ Hh Hocc) as (t & db' & -> & -> & Hh').
    eapply store_ok_changed; [done| |done|].
    + apply inserted_changed; auto.
      * rewrite <- Hb, <- HC. unfold orders_root in Hrd. rewrite HC in Hrd |- *. exact Hrd.
      * intros h Hhist. destruct (state_history env s C pk pr h Hs Hhist) as [_ ?]. done.
    + right. rewrite HC. simpl. rewrite order_pair_root_insert, decide_True by done.
      unfold orders_root. by rewrite Hb.
  - rewrite decide_False in Hh by done.
    assert (root_at s (pk, pr) = orders_root (C (pk, pr))) as Hr
      by (destruct (so_root s C Hs (pk, pr)) as [[? _]|?]; done).
    rewrite Hr. unfold orders_root at 1.
    rewrite Hb in Hocc.
    destruct (holds_insert _ _ _ _ _ Hh (un_occurs U HU _ (so_known s C Hs _)) Hocc)
      as (t & t' & db' & -> & -> & -> & Hh').
    rewrite <- Hb in *. fold (orders_root (<[oi_uuid o := o]> (C (pk, pr)))).
    eapply store_ok_changed; [done| |done|].
    + apply inserted_changed; auto.
      * intros h. rewrite lookup_insert_eq. intros [= <-].
        apply (history_ok_insert _ _ (C (pk, pr)) [(oi_uuid o, Some o)]); [|by apply (so_known s C)|done].
        destruct (stored_history _ _ _ _) eqn:E; [|apply history_ok_empty].
        apply stored_history_Some in E. by eapply state_history in E as [? _].
      * intros pr' ?. by rewrite lookup_insert_ne.
    + right. simpl. by rewrite order_pair_root_insert, decide_True.
Qed.

Lemma removed_changed env s C pk pr u root hs :
  store_ok s C ->
  (forall h, hs !! pr = Some h -> history_ok h (delete u (C (pk, pr))) /\ root <> H64_default) ->
  (forall pr', pr' <> pr -> hs !! pr' = order_pairs_trie_state_history (state_of env s pk) !! pr') ->
  pair_changed env s C pk pr (delete u (C (pk, pr)))
    (mkPubkeyState (last_keep_alive (state_of env s pk)) hs
       (orders_uuids (state_of env s pk) ∖ {[(u, pr)]})
       (<[pr := root]> (trie_roots (state_of env s pk)))).
Proof.
  intros Hs Hh Hh'. split; simpl.
  - by apply known_delete, (so_known s C).
  - intros pr' Hpr. by rewrite order_pair_root_insert, decide_False.
  - intros v pr'. rewrite elem_of_difference, elem_of_singleton. case_decide as Hpr.
    + subst pr'. rewrite (state_uuids env s C) by done. rewrite lookup_delete_is_Some.
      split; [intros [? Hne]; split; [congruence|done]|intros [? ?]; split; [done|congruence]].
    + split; [intros [? _]; done|]. intros ?. split; [done|congruence].
  - intros pr' h Hl. case_decide as Hpr.
    + subst pr'. rewrite order_pair_root_insert, decide_True by done. auto.
    + by rewrite <- Hh'.
Qed.

Lemma empty_orders m : known m -> orders_root m = hashed_null_node -> m = ∅.
Proof.
  intros Hm Hr. rewrite <- root_of_empty in Hr. apply orders_root_inj in Hr; [|done|apply occurs_empty].
  by apply fmap_empty_inv in Hr.
Qed.

Lemma apply_remove_ok env pk pr u s C :
  store_ok s C ->
  store_ok (apply_remove env pk pr u s) (set_key C (pk, pr) (delete u (C (pk, pr)))).
Proof.
  intros Hs. unfold apply_remove. fold (state_of env s pk). rewrite <- root_at_state.
  destruct (store_split s C (pk, pr) Hs) as (l & Hl & Hh).
  pose proof (so_known s C Hs (pk, pr)) as Hm.
  destruct (bool_decide (root_at s (pk, pr) = H64_default)
            || bool_decide (root_at s (pk, pr) = hashed_null_node)) eqn:Hd.
  - assert (C (pk, pr) = ∅) as HC.
    { destruct (so_root s C Hs (pk, pr)) as [[_ ?]|Hr]; [done|].
      apply orb_true_iff in Hd as [Hd%bool_decide_eq_true|Hd%bool_decide_eq_true];
        [by destruct (orders_root_default _ Hm); congruence|].
      apply empty_orders; [done|congruence]. }
    eapply store_ok_changed; [done| |done|].
    + apply removed_changed; [done| |done]. intros h Hhist.
      eapply state_history in Hhist as [? ?]; [|done]. split; [|done]. by rewrite HC, delete_empty in *.
    + simpl. rewrite order_pair_root_insert, decide_True, HC, delete_empty by done.
      case_decide as Hdd; [left; auto|right].
      destruct (so_root s C Hs (pk, pr)) as [[? _]|Hr]; [done|]. by rewrite Hr, HC in *.
  - apply orb_false_iff in Hd as [Hd%bool_decide_eq_false Hnull%bool_decide_eq_false].
    rewrite decide_False in Hh by done.
    assert (root_at s (pk, pr) = orders_root (C (pk, pr))) as Hr
      by (destruct (so_root s C Hs (pk, pr)) as [[? _]|?]; done).
    assert (bytes_of (delete u (C (pk, pr))) = delete u (bytes_of (C (pk, pr)))) as Hb
      by (unfold bytes_of; by rewrite fmap_delete).
    pose proof (known_delete u _ Hm) as Hm'.
    pose proof (un_occurs U HU _ Hm') as Hocc. rewrite Hb in Hocc.
    destruct (holds_delta _ _ _ u Hh (un_occurs U HU _ Hm) Hocc) as (db' & Hdelta & Hh').
    rewrite Hr. unfold orders_root at 1. rewrite Hdelta. rewrite <- Hb in *.
    fold (orders_root (delete u (C (pk, pr)))).
    eapply store_ok_changed; [done| |done|].
    + apply removed_changed; [done|..].
      * intros h. destruct (stored_history _ _ _ _) as [h0|] eqn:E.
        -- rewrite lookup_insert_eq. intros [= <-]. split; [|by apply orders_root_default].
           apply (history_ok_insert _ _ (C (pk, pr)) [(u, None)]); [|done|done].
           apply stored_history_Some in E. by eapply state_history in E as [? _].
        -- by rewrite lookup_delete_eq.
      * intros pr' Hne. case_match; [by rewrite lookup_insert_ne|by rewrite lookup_delete_ne].
    + right. simpl. by rewrite order_pair_root_insert, decide_True.
Qed.

(** Where a whole pair, or a maker, is forgotten: its tries stay in the
    database as garbage. *)
Lemma store_ok_forget s C C' pks :
  store_ok s C ->
  (forall k, root_at (mkStore _ pks (memory_db s)) k = root_at s k /\ C' k = C k \/
             root_at (mkStore _ pks (memory_db s)) k = H64_default /\ C' k = ∅) ->
  (forall pk p u pr, pks !! pk = Some p -> (u, pr) ∈ orders_uuids p <-> is_Some (C' (pk, pr) !! u)) ->
  (forall pk p pr h, pks !! pk = Some p -> order_pairs_trie_state_history p !! pr = Some h ->
     history_ok h (C' (pk, pr)) /\ root_at (mkStore _ pks (memory_db s)) (pk, pr) <> H64_default) ->
  store_ok (mkStore _ pks (memory_db s)) C'.
Proof.
  intros Hs Hk Huuids Hhist. split; [..|done|done].
  - intros k. destruct (Hk k) as [[_ ->]|[_ ->]]; [by apply (so_known s C)|apply known_empty].
  - intros k. destruct (Hk k) as [[-> ->]|[-> ->]]; [by apply (so_root s C)|by left].
  - destruct (so_db s C Hs) as (live & G & Hh & Hl).
    exists (filter (fun p => root_at (mkStore _ pks (memory_db s)) p.1 <> H64_default) live), G.
    split.
    + apply (holds_sub _ _ _ Hh). apply submseteq_app; [|done].
      apply fmap_submseteq, map_to_list_submseteq, map_filter_subseteq.
    + intros k. apply option_eq. intros c. rewrite map_lookup_filter_Some. simpl. rewrite Hl.
      unfold live_trie. destruct (Hk k) as [[-> ->]|[-> ->]].
      * case_decide; naive_solver.
      * rewrite (decide_True (P := H64_default = H64_default)) by done. naive_solver.
Qed.

Lemma apply_clear_ok pk pr s C :
  store_ok s C -> store_ok (apply_clear_pair pk pr s) (set_key C (pk, pr) ∅).
Proof.
  intros Hs. unfold apply_clear_pair. destruct (pubkeys_state s !! pk) as [p|] eqn:E.
  - apply (store_ok_forget s C); [done|..].
    + intros k. unfold root_at. simpl. destruct (decide (k = (pk, pr))) as [->|Hk].
      * right. simpl. rewrite lookup_insert_eq, set_key_eq. simpl.
        unfold order_pair_root. by rewrite lookup_delete_eq.
      * left. rewrite set_key_ne by done. split; [|done]. destruct k as [pk' pr']. simpl.
        destruct (decide (pk' = pk)) as [->|]; [|by rewrite lookup_insert_ne].
        rewrite lookup_insert_eq, E. simpl. unfold order_pair_root.
        rewrite lookup_delete_ne; [done|congruence].
    + intros pk' p' u pr'. intros [[<- <-]|[Hne ?]]%lookup_insert_Some.
      * simpl. rewrite elem_of_filter. simpl. destruct (decide (pr' = pr)) as [->|].
        -- rewrite set_key_eq, lookup_empty. split; [tauto|by intros []].
        -- rewrite set_key_ne by congruence. rewrite (so_uuids s C Hs) by done. tauto.
      * rewrite set_key_ne by congruence. by apply (so_uuids s C Hs).
    + intros pk' p' pr' h. intros [[<- <-]|[Hne Hp]]%lookup_insert_Some.
      * simpl. intros [Hpr Hh]%lookup_delete_Some. rewrite set_key_ne by congruence.
        destruct (so_history s C Hs _ _ _ _ E Hh) as [? Hr]. split; [done|].
        unfold root_at in Hr |- *. simpl in *. rewrite lookup_insert_eq. rewrite E in Hr. simpl.
        unfold order_pair_root in *. by rewrite lookup_delete_ne.
      * intros Hh. rewrite set_key_ne by congruence.
        destruct (so_history s C Hs _ _ _ _ Hp Hh) as [? Hr]. split; [done|].
        unfold root_at in Hr |- *. simpl in *. by rewrite lookup_insert_ne.
  - eapply store_ok_ext; [|exact Hs]. intros k. destruct (decide (k = (pk, pr))) as [->|Hk].
    + rewrite set_key_eq. destruct (so_root s C Hs (pk, pr)) as [[_ ?]|Hr]; [done|].
      unfold root_at in Hr. simpl in Hr. rewrite E in Hr.
      by destruct (orders_root_default _ (so_known s C Hs (pk, pr))).
    + by rewrite set_key_ne.
Qed.

Lemma remove_pubkey_ok pk s C :
  store_ok s C -> store_ok (remove_pubkey s pk) (spec_op C (RemovePubkey pk)).
Proof.
  intros Hs. apply (store_ok_forget s C); [done|..]; simpl.
  - intros [pk' pr']. unfold root_at. simpl. case_decide as Hk.
    + right. subst pk'. by rewrite lookup_delete_eq.
    + left. by rewrite lookup_delete_ne.
  - intros pk' p u pr [? ?]%lookup_delete_Some. rewrite decide_False by done.
    by apply (so_uuids s C Hs).
  - intros pk' p pr h [? Hp]%lookup_delete_Some Hh. rewrite decide_False by done.
    destruct (so_history s C Hs _ _ _ _ Hp Hh) as [? Hr]. split; [done|].
    unfold root_at in *. simpl in *. by rewrite lookup_delete_ne.
Qed.

Lemma clean_memory_ok s C : store_ok s C -> store_ok (clean_memory s) C.
Proof.
  intros [H1 H2 (live & G & H3 & H3') H4 H5]. split; [done|done| |done|done].
  exists live, G. split; [by apply holds_purge|done].
Qed.

(** *** Batches *)

Definition inserted (m : gmap Uuid OrderbookItem) (l : list (Uuid * OrderbookItem))
  : gmap Uuid OrderbookItem := foldl (fun m p => <[p.1 := p.2]> m) m l.

Definition deleted (m : gmap Uuid OrderbookItem) (l : list Uuid) : gmap Uuid OrderbookItem :=
  foldl (fun m u => delete u m) m l.

Definition group_result (m : gmap Uuid OrderbookItem) (g : Group) : gmap Uuid OrderbookItem :=
  deleted (inserted (if g_clear g then ∅ else m) (g_inserts g)) (g_removes g).

Lemma inserts_ok env pk pr l s C :
  store_ok s C -> (forall p, p ∈ l -> U p.2 /\ oi_uuid p.2 = p.1) ->
  store_ok (foldl (fun s p => apply_insert env pk pr p.1 p.2 s) s l)
    (set_key C (pk, pr) (inserted (C (pk, pr)) l)).
Proof.
  revert s C. induction l as [|[u o] l IH]; intros s C Hs Hl; simpl.
  - eapply store_ok_ext; [|exact Hs]. intros k. unfold set_key. case_decide; by subst.
  - destruct (Hl (u, o)) as [Ho Hu]; [set_solver|]. simpl in Ho, Hu. subst u.
    eapply store_ok_ext; [|apply IH; [by apply apply_insert_ok|set_solver]].
    intros k. unfold set_key. by repeat case_decide.
Qed.

Lemma removes_ok env pk pr l s C :
  store_ok s C ->
  store_ok (foldl (fun s u => apply_remove env pk pr u s) s l)
    (set_key C (pk, pr) (deleted (C (pk, pr)) l)).
Proof.
  revert s C. induction l as [|u l IH]; intros s C Hs; simpl.
  - eapply store_ok_ext; [|exact Hs]. intros k. unfold set_key. case_decide; by subst.
  - eapply store_ok_ext; [|apply IH; by apply apply_remove_ok].
    intros k. unfold set_key. by repeat case_decide.
Qed.

Lemma apply_group_ok env k g s C :
  store_ok s C -> (forall p, p ∈ g_inserts g -> U p.2 /\ oi_uuid p.2 = p.1) ->
  store_ok (apply_group env s (k, g)) (set_key C k (group_result (C k) g)).
Proof.
  intros Hs Hg. destruct k as [pk pr]. simpl.
  set (s1 := if g_clear g then _ else s).
  assert (store_ok s1 (set_key C (pk, pr) (if g_clear g then ∅ else C (pk, pr)))) as H1.
  { subst s1. destruct (g_clear g); [by apply apply_clear_ok|].
    eapply store_ok_ext; [|exact Hs]. intros k. unfold set_key. case_decide; by subst. }
  eapply store_ok_ext; [|apply removes_ok, inserts_ok; [exact H1|exact Hg]].
  intros k. unfold set_key, group_result. by repeat case_decide.
Qed.

Definition grouped (groups : gmap (string * string) Group) (C : MakerOrders) : MakerOrders :=
  fun k => match groups !! k with Some g => group_result (C k) g | None => C k end.

Lemma apply_groups_ok env l s C :
  NoDup l.*1 -> store_ok s C ->
  (forall k g p, (k, g) ∈ l -> p ∈ g_inserts g -> U p.2 /\ oi_uuid p.2 = p.1) ->
  store_ok (foldl (apply_group env) s l) (grouped (list_to_map l) C).
Proof.
  revert s C. induction l as [|[k g] l IH]; intros s C Hnd Hs Hl; simpl in *.
  - eapply store_ok_ext; [|exact Hs]. intros k. unfold grouped. by rewrite lookup_empty.
  - apply NoDup_cons in Hnd as [Hk Hnd].
    eapply store_ok_ext; [|apply IH; [done|by apply apply_group_ok; [|set_solver]|set_solver]].
    intros k'. unfold grouped. destruct (decide (k' = k)) as [->|Hne].
    + rewrite lookup_insert_eq, set_key_eq, not_elem_of_list_to_map_1 by done. done.
    + by rewrite lookup_insert_ne, set_key_ne.
Qed.

Lemma remove_pubkeys_ok l s C :
  store_ok s C ->
  store_ok (foldl remove_pubkey s l) (fun k => if decide (k.1 ∈ l) then ∅ else C k).
Proof.
  revert s C. induction l as [|pk l IH]; intros s C Hs; simpl.
  - by eapply store_ok_ext; [|exact Hs].
  - eapply store_ok_ext; [|by apply IH, remove_pubkey_ok].
    intros k. simpl. repeat case_decide; set_solver.
Qed.

(** A batch is grouped, which changes the order of its operations; the result
    is that of the operations one after the other if no insertion follows the
    removal of the same order, and no clearing of a pair another operation of
    the pair. *)
Definition op_key (op : TrieOp) : option (string * string) :=
  match op with
  | ClearPair pk pr | TrieInsert pk pr _ _ | TrieRemove pk pr _ => Some (pk, pr)
  | RemovePubkey _ => None
  end.

Definition may_follow (pre : list TrieOp) (op : TrieOp) : Prop :=
  match op with
  | ClearPair pk pr => RemovePubkey pk ∉ pre /\ forall op', op' ∈ pre -> op_key op' <> Some (pk, pr)
  | TrieInsert pk pr u _ => RemovePubkey pk ∉ pre /\ TrieRemove pk pr u ∉ pre
  | TrieRemove _ _ _ | RemovePubkey _ => True
  end.

Definition batch_ok (ops : list TrieOp) : Prop :=
  (forall pre op post, ops = pre ++ op :: post -> may_follow pre op) /\
  (forall pk pr u o, TrieInsert pk pr u o ∈ ops -> U o /\ oi_uuid o = u).

Definition groups_of (ops : list TrieOp) : gmap (string * string) Group := foldl group_op ∅ ops.

Lemma groups_of_snoc ops op : groups_of (ops ++ [op]) = group_op (groups_of ops) op.
Proof. unfold groups_of. by rewrite foldl_app. Qed.

Lemma group_op_lookup m op k :
  group_op m op !! k =
    if decide (op_key op = Some k)
    then Some (let g := default Group_default (m !! k) in
               match op with
               | ClearPair _ _ => mkGroup true (g_inserts g) (g_removes g)
               | TrieInsert _ _ u o => mkGroup (g_clear g) (g_inserts g ++ [(u, o)]) (g_removes g)
               | TrieRemove _ _ u => mkGroup (g_clear g) (g_inserts g) (g_removes g ++ [u])
               | RemovePubkey _ => g
               end)
    else m !! k.
Proof.
  destruct op; cbn [group_op op_key]; unfold update_group;
    [case_decide as Hk;
       [injection Hk as <-; by rewrite lookup_insert_eq
       |rewrite lookup_insert_ne by congruence; done]..|by rewrite decide_False].
Qed.

Lemma groups_from_ops ops k g :
  groups_of ops !! k = Some g ->
  (exists op, op ∈ ops /\ op_key op = Some k) /\
  (forall p, p ∈ g_inserts g -> TrieInsert k.1 k.2 p.1 p.2 ∈ ops) /\
  (forall u, u ∈ g_removes g -> TrieRemove k.1 k.2 u ∈ ops).
Proof.
  revert g. induction ops as [|op ops IH] using rev_ind; intros g.
  { unfold groups_of. simpl. by rewrite lookup_empty. }
  rewrite groups_of_snoc, group_op_lookup. case_decide as Hk.
  - intros [= <-]. split; [exists op; set_solver|].
    assert (forall p, p ∈ g_inserts (default Group_default (groups_of ops !! k)) ->
              TrieInsert k.1 k.2 p.1 p.2 ∈ ops) as H1.
    { destruct (groups_of ops !! k) as [g0|] eqn:E; simpl; [|set_solver].
      by apply IH. }
    assert (forall u, u ∈ g_removes (default Group_default (groups_of ops !! k)) ->
              TrieRemove k.1 k.2 u ∈ ops) as H2.
    { destruct (groups_of ops !! k) as [g0|] eqn:E; simpl; [|set_solver].
      by apply IH. }
    destruct op; simpl in *; simplify_eq/=; set_solver.
  - intros Hg. destruct (IH g Hg) as ((op' & ? & ?) & ? & ?). split; [exists op'; set_solver|set_solver].
Qed.

Lemma inserted_snoc m l p : inserted m (l ++ [p]) = <[p.1 := p.2]> (inserted m l).
Proof. unfold inserted. by rewrite foldl_app. Qed.

Lemma deleted_snoc m l u : deleted m (l ++ [u]) = delete u (deleted m l).
Proof. unfold deleted. by rewrite foldl_app. Qed.

Lemma deleted_insert m l u o : u ∉ l -> deleted (<[u := o]> m) l = <[u := o]> (deleted m l).
Proof.
  revert m. induction l as [|v l IH]; intros m Hu; simpl; [done|].
  rewrite delete_insert_ne by set_solver. apply IH. set_solver.
Qed.

Lemma deleted_empty l : deleted ∅ l = ∅.
Proof. induction l as [|u l IH]; simpl; [done|]. by rewrite delete_empty. Qed.

Lemma elem_of_removed_pubkeys ops pk : pk ∈ removed_pubkeys ops <-> RemovePubkey pk ∈ ops.
Proof.
  unfold removed_pubkeys. rewrite elem_of_list_to_set, list_elem_of_omap. split.
  - intros (op & Hop & E). destruct op; naive_solver.
  - intros ?. eauto.
Qed.

Lemma spec_ops_snoc ops op C : spec_ops (ops ++ [op]) C = spec_op (spec_ops ops C) op.
Proof. by rewrite spec_ops_app. Qed.

Lemma grouping_harmless ops C k :
  (forall pre op post, ops = pre ++ op :: post -> may_follow pre op) ->
  spec_ops ops C k =
    if decide (k.1 ∈ removed_pubkeys ops) then ∅ else grouped (groups_of ops) C k.
Proof.
  induction ops as [|op ops IH] using rev_ind; intros Hok.
  { rewrite decide_False by set_solver. unfold grouped, groups_of. simpl. by rewrite lookup_empty. }
  assert (may_follow ops op) as Hop by (by apply (Hok ops op [])).
  specialize (IH (fun pre op' post E => Hok pre op' (post ++ [op]) ltac:(rewrite E, <- app_assoc; done))).
  rewrite spec_ops_snoc. unfold grouped. rewrite groups_of_snoc, group_op_lookup.
  assert (removed_pubkeys (ops ++ [op]) = removed_pubkeys ops ∪ removed_pubkeys [op]) as ->
    by (apply set_eq; intros pk; rewrite elem_of_union, !elem_of_removed_pubkeys; set_solver).
  destruct k as [pk pr]. simpl in IH |- *.
  destruct op as [pk' pr'|pk' pr' u o|pk' pr' u|pk']; simpl in Hop |- *;
    change (removed_pubkeys [ClearPair _ _]) with (∅ : gset string);
    change (removed_pubkeys [TrieInsert _ _ _ _]) with (∅ : gset string);
    change (removed_pubkeys [TrieRemove _ _ _]) with (∅ : gset string);
    rewrite ?union_empty_r_L; unfold set_key.
  - destruct (decide ((pk, pr) = (pk', pr'))) as [[= <- <-]|Hne].
    + rewrite (decide_True (P := Some _ = Some _)) by done. destruct Hop as [Hrm Hno].
      rewrite decide_False by (by rewrite elem_of_removed_pubkeys).
      destruct (groups_of ops !! (pk, pr)) as [g|] eqn:E; [|done].
      apply groups_from_ops in E as [(op' & Hin & Hk) _]. by destruct (Hno op').
    + rewrite (decide_False (P := Some _ = Some _)) by congruence. apply IH.
  - destruct (decide ((pk, pr) = (pk', pr'))) as [[= <- <-]|Hne].
    + rewrite (decide_True (P := Some _ = Some _)) by done. destruct Hop as [Hrm Hno].
      rewrite IH, !decide_False by (by rewrite elem_of_removed_pubkeys).
      unfold grouped, group_result. destruct (groups_of ops !! (pk, pr)) as [g|] eqn:E; simpl; [|done].
      rewrite inserted_snoc, deleted_insert; [done|]. intros Hu. apply Hno.
      by apply groups_from_ops in E as (_ & _ & ?); auto.
    + rewrite (decide_False (P := Some _ = Some _)) by congruence. apply IH.
  - destruct (decide ((pk, pr) = (pk', pr'))) as [[= <- <-]|Hne].
    + rewrite (decide_True (P := Some _ = Some _)) by done. rewrite IH. case_decide; [by rewrite delete_empty|].
      unfold grouped, group_result. destruct (groups_of ops !! (pk, pr)) as [g|]; simpl; [|done].
      by rewrite deleted_snoc.
    + rewrite (decide_False (P := Some _ = Some _)) by congruence. apply IH.
  - replace (removed_pubkeys [RemovePubkey pk']) with ({[pk']} : gset string) by set_solver.
    destruct (decide (pk = pk')) as [->|Hne].
    + by rewrite decide_True by set_solver.
    + rewrite IH. destruct (decide (pk ∈ removed_pubkeys ops)), (decide (pk ∈ removed_pubkeys ops ∪ {[pk']}));
        set_solver.
Qed.

Lemma iter_map_list_to_map {A} (m : gmap (string * string) A) : list_to_map (iter_map m) = m.
Proof.
  rewrite <- (list_to_map_to_list m) at 2. apply list_to_map_proper; [|by rewrite iter_map_perm].
  rewrite iter_map_perm. apply NoDup_fst_map_to_list.
Qed.

Lemma apply_ops_ok env ops s C :
  store_ok s C -> batch_ok ops -> store_ok (apply_ops env ops s) (spec_ops ops C).
Proof.
  intros Hs [Hord Hins]. unfold apply_ops. fold (groups_of ops).
  eapply store_ok_ext; [|apply remove_pubkeys_ok, apply_groups_ok; [|exact Hs|]].
  - intros k. rewrite iter_map_list_to_map, (grouping_harmless ops C k Hord).
    pose proof (iter_set_perm (removed_pubkeys ops)) as Hp.
    assert (k.1 ∈ iter_set (removed_pubkeys ops) <-> k.1 ∈ removed_pubkeys ops)
      by (rewrite Hp; apply elem_of_elements).
    destruct (decide (k.1 ∈ iter_set _)), (decide (k.1 ∈ removed_pubkeys ops)); tauto.
  - rewrite iter_map_perm. apply NoDup_fst_map_to_list.
  - intros k g p. rewrite iter_map_perm, elem_of_map_to_list. intros Hg Hp.
    apply groups_from_ops in Hg as (_ & Hg & _). eapply Hins. by apply Hg.
Qed.

(** *** Keep-alive messages and whole tries *)

(** A maker's state in which no pair has changed. *)
Lemma store_ok_touched env s C pk roots t :
  store_ok s C ->
  (forall pr, order_pair_root roots pr = order_pair_root (trie_roots (state_of env s pk)) pr) ->
  store_ok (set_state pk (mkPubkeyState t (order_pairs_trie_state_history (state_of env s pk))
                            (orders_uuids (state_of env s pk)) roots) (memory_db s) s) C.
Proof.
  intros Hs Hr.
  assert (forall k, root_at (set_state pk (mkPubkeyState t
      (order_pairs_trie_state_history (state_of env s pk)) (orders_uuids (state_of env s pk)) roots)
      (memory_db s) s) k = root_at s k) as Hat.
  { intros [pk' pr]. rewrite root_at_set. simpl. case_decide; [|done]. subst.
    by rewrite Hr, <- root_at_state. }
  split.
  - apply (so_known s C Hs).
  - intros k. rewrite Hat. by apply (so_root s C).
  - destruct (so_db s C Hs) as (live & G & Hh & Hl). exists live, G. split; [done|].
    intros k. unfold live_trie. rewrite Hat. apply Hl.
  - intros pk' p u pr. unfold set_state. simpl. intros [[<- <-]|[? ?]]%lookup_insert_Some.
    + simpl. by apply state_uuids.
    + by apply (so_uuids s C).
  - intros pk' p pr h. rewrite Hat. unfold set_state. simpl.
    intros [[<- <-]|[? ?]]%lookup_insert_Some Hh.
    + by eapply state_history.
    + by eapply (so_history s C).
Qed.

Definition wanted (relay : bool) (subscribed : string -> bool) (roots : gmap string H64)
  (pr : string) (r : H64) : Prop :=
  subscribed ("orbk/" ++ pr)%string || relay = true /\ is_empty_root r = false /\
  order_pair_root roots pr <> r.

Lemma compare_root_spec relay subscribed roots0 roots req pr r :
  (forall pr', order_pair_root roots pr' = order_pair_root roots0 pr') ->
  let '(roots', req') := compare_root relay subscribed (roots, req) (pr, r) in
  (forall pr', order_pair_root roots' pr' = order_pair_root roots0 pr') /\
  forall pr' r', req' !! pr' = Some r' <->
    (pr' = pr /\ r' = r /\ wanted relay subscribed roots0 pr r) \/
    (req !! pr' = Some r' /\ ~ (pr' = pr /\ wanted relay subscribed roots0 pr r)).
Proof.
  intros Hr. unfold compare_root, wanted.
  destruct (subscribed _), relay, (is_empty_root r); simpl;
    try (split; [done|]; intros pr' r'; naive_solver);
    (split;
     [intros pr'; rewrite order_pair_root_insert; case_decide; [by subst|done]
     |intros pr' r'; rewrite Hr; case_bool_decide;
      [rewrite lookup_insert_Some; destruct (decide (pr' = pr)); naive_solver|naive_solver]]).
Qed.

Lemma compare_roots_spec relay subscribed roots0 l roots req :
  NoDup l.*1 ->
  (forall pr', order_pair_root roots pr' = order_pair_root roots0 pr') ->
  let '(roots', req') := foldl (compare_root relay subscribed) (roots, req) l in
  (forall pr', order_pair_root roots' pr' = order_pair_root roots0 pr') /\
  forall pr' r', req' !! pr' = Some r' <->
    ((pr', r') ∈ l /\ wanted relay subscribed roots0 pr' r') \/
    (req !! pr' = Some r' /\ forall r, (pr', r) ∈ l -> ~ wanted relay subscribed roots0 pr' r).
Proof.
  revert roots req. induction l as [|[pr r] l IH]; intros roots req Hnd Hr; cbn [foldl].
  { split; [done|]. set_solver. }
  apply NoDup_cons in Hnd as [Hpr Hnd].
  pose proof (compare_root_spec relay subscribed roots0 roots req pr r Hr) as H1.
  destruct (compare_root _ _ _ _) as [roots1 req1]. destruct H1 as [Hr1 Hq1].
  specialize (IH roots1 req1 Hnd Hr1).
  destruct (foldl _ _ _) as [roots2 req2]. destruct IH as [Hr2 Hq2]. split; [done|].
  assert (forall r', (pr, r') ∉ l) as Hno
    by (intros r' Hin; apply Hpr, list_elem_of_fmap; by exists (pr, r')).
  intros pr' r'. rewrite Hq2, Hq1. setoid_rewrite elem_of_cons. split.
  - intros [[? ?]|[[(-> & -> & ?)|[? Hnw]] Hl]]; [tauto|tauto|]. right. split; [done|].
    intros r0 [[= -> ->]|?]; [tauto|auto].
  - intros [[[[= -> ->]|?] ?]|[? Hl]].
    + right. split; [tauto|]. intros r0 ?. by destruct (Hno r0).
    + tauto.
    + right. split; [|intros; apply Hl; tauto]. right. split; [done|]. intros [-> Hw].
      by apply (Hl r); [left|].
Qed.

(** What a node asks for after a keep-alive: the announced roots, of topics it
    follows, that are not its own. *)
Lemma prepare_sync_spec env pk msg relay subscribed s C :
  store_ok s C ->
  let '(request, s') := prepare_sync_request_for_keep_alive env pk msg relay subscribed s in
  store_ok s' C /\ (forall k, root_at s' k = root_at s k) /\
  forall pr r, default ∅ request !! pr = Some r <->
    msg !! pr = Some r /\ subscribed ("orbk/" ++ pr)%string || relay = true /\
    is_empty_root r = false /\ root_at s (pk, pr) <> r.
Proof.
  intros Hs. unfold prepare_sync_request_for_keep_alive. fold (state_of env s pk).
  pose proof (compare_roots_spec relay subscribed (trie_roots (state_of env s pk)) (iter_map msg)
    (trie_roots (state_of env s pk)) ∅) as Hspec.
  destruct (foldl _ _ _) as [roots req].
  destruct Hspec as [Hroots Hreq]; [rewrite iter_map_perm; apply NoDup_fst_map_to_list|done|].
  split; [by apply store_ok_touched|]. split.
  - intros [pk' pr]. rewrite root_at_set. simpl. case_decide; [|done]. subst.
    by rewrite Hroots, <- root_at_state.
  - intros pr r. replace (default ∅ _) with req by (case_bool_decide; by subst).
    rewrite Hreq, iter_map_perm, elem_of_map_to_list, lookup_empty, (root_at_state env).
    unfold wanted. naive_solver.
Qed.

(** A request that asks for nothing is not made. *)
Lemma prepare_sync_None env pk msg relay subscribed s :
  let request := fst (prepare_sync_request_for_keep_alive env pk msg relay subscribed s) in
  (forall pr r, default ∅ request !! pr <> Some r) -> request = None.
Proof.
  unfold prepare_sync_request_for_keep_alive. destruct (foldl _ _ _) as [roots req]. simpl.
  case_bool_decide as Hreq; [done|]. intros Hno. destruct Hreq. apply map_empty. intros pr.
  destruct (req !! pr) as [r|] eqn:E; [|done]. by destruct (Hno pr r).
Qed.

(** What a node announces. *)
Lemma keep_alive_announces pk pr s :
  is_empty_root (root_at s (pk, pr)) = false ->
  (("orbk/" ++ pr)%string, {[pr := root_at s (pk, pr)]}) ∈ keep_alive_messages pk s.
Proof.
  unfold keep_alive_messages, root_at. simpl.
  assert (is_empty_root H64_default = true) as Hd by by unfold is_empty_root; rewrite bool_decide_true.
  destruct (pubkeys_state s !! pk) as [p|]; [|congruence].
  unfold order_pair_root. destruct (trie_roots p !! pr) as [r|] eqn:Hr; simpl; [|congruence].
  intros He. apply list_elem_of_omap. exists (pr, r). split.
  - by rewrite iter_map_perm, elem_of_map_to_list.
  - simpl. by rewrite He.
Qed.

Lemma full_trie_items_ok (getter : Uuid -> option OrderbookItem) l :
  (forall u o, (u, o) ∈ l -> getter u = Some o /\ length u = 16%nat) ->
  full_trie_items getter (map (fun p => (p.1, trie_state_bytes p.2)) l) = Ok l.
Proof.
  induction l as [|[u o] l IH]; intros Hl; simpl; [done|].
  destruct (Hl u o) as [Hg Hu]; [set_solver|]. unfold uuid_of_key.
  rewrite bool_decide_true by done. simpl. rewrite Hg. simpl. by rewrite IH by set_solver.
Qed.

Lemma get_full_trie_ok s C k getter :
  store_ok s C -> root_at s k <> H64_default ->
  (forall u o, C k !! u = Some o -> getter u = Some o) ->
  exists l, get_full_trie (root_at s k) (memory_db s) getter = Ok l /\ l ≡ₚ map_to_list (C k).
Proof.
  intros Hs Hd Hg. destruct (store_split s C k Hs) as (l & _ & Hh).
  rewrite decide_False in Hh by done.
  destruct (so_root s C Hs k) as [[? _]|Hr]; [done|]. rewrite Hr.
  destruct (holds_iter _ _ _ Hh (un_occurs U HU _ (so_known s C Hs k))) as (kvs & Hiter & Hp).
  unfold get_full_trie, orders_root. rewrite Hiter. simpl.
  unfold bytes_of in Hp. rewrite map_to_list_fmap in Hp.
  apply Permutation_map_inv in Hp as (items & -> & Hp).
  exists items. split; [|by symmetry].
  replace (map _ items) with (map (fun p : Uuid * OrderbookItem => (p.1, trie_state_bytes p.2)) items)
    by (apply map_ext; by intros []).
  apply full_trie_items_ok. intros u o. rewrite <- Hp, elem_of_map_to_list. intros Ho.
  split; [by apply Hg|]. destruct (so_known s C Hs k u o Ho) as [HUo <-]. by apply (un_uuid U HU).
Qed.

End Store.
