(* ===== verification/OrderbookNode.v ===== *)
(** * The order book of a node and its trie store together

    [BookNode] holds the book, the trie store, the operations that the book
    has sent and the background worker has not applied yet
    ([spawn_trie_store_worker]), and the topics the node follows.  [book_step] are the steps of a node: a handler
    changes the book and sends operations; the worker applies a batch.
    [node_ok] says that the tries, once the batches that wait are applied, are
    those of the orders in the book. *)

From S2P Require Import Prelude MmNumber DexFee Swap Ordermatch OrdermatchNode Orderbook OrderbookProps TrieStore TrieStoreProps.

Open Scope Z_scope.

Record BookNode `{TrieLib} : Type := mkBookNode {
  bn_book : Orderbook;
  bn_store : TrieStore;
  bn_queue : list (list TrieOp);
  bn_subs : gmap string OrderbookRequestingState }.

Definition BookNode_default `{TrieLib} : BookNode := mkBookNode _ Orderbook_default TrieStore_default [] ∅.

(** An empty batch is not sent. *)
Definition enqueue (ops : list TrieOp) (q : list (list TrieOp)) : list (list TrieOp) :=
  match ops with [] => q | _ => q ++ [ops] end.

(** The handlers; [live] is as in [index_insert_or_update]. *)
Inductive BookInput : Type :=
| InCreated (live : Uuid -> bool) (from_pubkey : string) (msg : MakerOrderCreated)
| InUpdated (live : Uuid -> bool) (from_pubkey : string) (msg : MakerOrderUpdated)
| InCancelled (from_pubkey : string) (uuid : Uuid)
| InMyInsert (live : Uuid -> bool) (item : OrderbookItem) (key : option string)
| InMyDelete (uuid : Uuid) (key : option string)
| InMyUpdated (live : Uuid -> bool) (msg : MakerOrderUpdated)
| InSyncResponse (live : Uuid -> bool) (from_pubkey : string) (response : SyncPubkeyOrderbookStateRes)
| InOrderbook (live : Uuid -> bool) (my_pub : option string) (usable banned : string -> bool)
    (base rel : string) (response : GetOrderbookRes).

Section Node.
Context {TL : TrieLib} {HO : HashOrder}.

Definition handle_book (i : BookInput) (b : Orderbook) : list TrieOp * Orderbook :=
  match i with
  | InCreated live from_pubkey msg => process_maker_order_created live from_pubkey msg b
  | InUpdated live from_pubkey msg =>
      match process_maker_order_updated live from_pubkey msg b with Ok r => r | Err _ => ([], b) end
  | InCancelled from_pubkey uuid => process_maker_order_cancelled from_pubkey uuid b
  | InMyInsert live item key => insert_or_update_my_order live item key b
  | InMyDelete uuid key => delete_my_order uuid key b
  | InMyUpdated live msg => process_my_maker_order_updated live msg b
  | InSyncResponse live from_pubkey response => process_sync_response live from_pubkey response b
  | InOrderbook live my_pub usable banned base rel response =>
      fill_orderbook live my_pub usable banned base rel response b
  end.

Variable U : OrderbookItem -> Prop.

(** The whole tries and the changes of an answer are about orders of the maker
    and the pair they are given for; the answers of nodes that keep to the
    protocol are. *)
Definition items_of (from_pubkey pr : string) (l : list OrderbookItem) : Prop :=
  Forall (fun o => U o /\ item_key o = (from_pubkey, pr)) l /\ NoDup (map oi_uuid l).

Definition fair_diff (from_pubkey : string) (params : ProcessTrieParams) (pr : string)
  (d : DeltaOrFullTrie OrderbookP2PItem) : Prop :=
  match d with
  | FullTrie l => items_of from_pubkey pr (received_items params l)
  | Delta delta => forall u d, delta !! u = Some d ->
      match d with
      | Some o => let item := received_item params u o in
                  U item /\ item_key item = (from_pubkey, pr) /\ oi_uuid item = u
      | None => forall o, U o -> oi_uuid o = u -> item_key o = (from_pubkey, pr)
      end
  end.

(** What a node needs of an input: the items are among those of the universe. *)
Definition fair_input (i : BookInput) (b : Orderbook) : Prop :=
  match i with
  | InCreated _ from_pubkey msg => U (item_of_created msg from_pubkey)
  | InUpdated _ _ msg | InMyUpdated _ msg =>
      forall o, order_set b !! up_uuid msg = Some o -> U (item_apply_updated msg o)
  | InMyInsert _ item _ => U item
  | InCancelled _ _ | InMyDelete _ _ => True
  | InSyncResponse _ from_pubkey response =>
      forall pr d, pair_orders_diff response !! pr = Some d ->
        proper_pair pr /\
        fair_diff from_pubkey (mkTrieParams from_pubkey pr (sy_protocol_infos response)
                                 (sy_conf_infos response)) pr d
  | InOrderbook _ _ _ _ base rel response =>
      let pr := alb_ordered_pair base rel in
      proper_pair pr /\
      forall pk item, pubkey_orders response !! pk = Some item ->
        items_of pk pr (received_items (mkTrieParams pk pr (go_protocol_infos response)
                                          (go_conf_infos response)) (gi_orders item))
  end.

(** The topics that are subscribed to. *)
Definition is_subscribed (n : BookNode) (topic : string) : bool :=
  bool_decide (is_Some (bn_subs n !! topic)).

Inductive book_step (n : BookNode) : BookNode -> Prop :=
| StepHandle i ops b :
    fair_input i (bn_book n) ->
    handle_book i (bn_book n) = (ops, b) ->
    book_step n (mkBookNode _ b (bn_store n) (enqueue ops (bn_queue n)) (bn_subs n))
| StepWorker env ops q :
    bn_queue n = ops :: q ->
    book_step n (mkBookNode _ (bn_book n) (apply_ops env ops (bn_store n)) q (bn_subs n))
| StepKeepAlive env pk msg relay :
    book_step n (mkBookNode _ (bn_book n)
      (snd (prepare_sync_request_for_keep_alive env pk msg relay (is_subscribed n) (bn_store n)))
      (bn_queue n) (bn_subs n))
| StepCleanMemory : book_step n (mkBookNode _ (bn_book n) (clean_memory (bn_store n)) (bn_queue n) (bn_subs n))
| StepTimeOut env my_pubsecp timeout ops b :
    bn_queue n = [] ->
    remove_timed_out env my_pubsecp timeout (bn_book n) (bn_store n) = (ops, b) ->
    book_step n (mkBookNode _ b (bn_store n) (enqueue ops []) (bn_subs n))
| StepSubscribe topic state :
    book_step n (mkBookNode _ (bn_book n) (bn_store n) (bn_queue n) (<[topic := state]> (bn_subs n))).

Definition reachable : BookNode -> Prop := rtc book_step BookNode_default.

(** [process_orders_keep_alive], with [peer] as the node that is asked: a
    failed request, or an answer without a state, changes nothing more. *)
Definition process_orders_keep_alive (env peer_env : TrieEnv) (live_history : string -> bool)
  (live : Uuid -> bool) (i_am_relay : bool)
  (from_pubkey : string) (keep_alive : gmap string H64) (peer n : BookNode) : BookNode :=
  let '(to_request, s) :=
    prepare_sync_request_for_keep_alive env from_pubkey keep_alive i_am_relay (is_subscribed n)
      (bn_store n) in
  match to_request with
  | None => mkBookNode _ (bn_book n) s (bn_queue n) (bn_subs n)
  | Some roots =>
      match process_sync_pubkey_orderbook_state peer_env live_history (bn_book peer) (bn_store peer)
              from_pubkey roots with
      | Some (Ok (Some response)) =>
          let '(ops, b) := process_sync_response live from_pubkey response (bn_book n) in
          mkBookNode _ b s (enqueue ops (bn_queue n)) (bn_subs n)
      | _ => mkBookNode _ (bn_book n) s (bn_queue n) (bn_subs n)
      end
  end.

(** [request_and_fill_orderbook], with [peer] as the relay that answers. *)
Definition request_and_fill_orderbook (live : Uuid -> bool) (my_pub : option string)
  (usable banned : string -> bool) (base rel : string) (peer n : BookNode) : BookNode :=
  match process_get_orderbook_request (bn_book peer) (bn_store peer) base rel with
  | Err _ => n
  | Ok response =>
      let '(ops, b) := fill_orderbook live my_pub usable banned base rel response (bn_book n) in
      mkBookNode _ b (bn_store n) (enqueue ops (bn_queue n))
        (<[orderbook_topic_from_base_rel base rel := Requested]> (bn_subs n))
  end.

(** [subscribe_to_orderbook_topic] with the request it makes. *)
Definition follow_orderbook (now : Z) (live : Uuid -> bool) (my_pub : option string)
  (usable banned : string -> bool) (base rel : string) (request_orderbook : bool) (peer n : BookNode)
  : BookNode :=
  let '(subs, _, request) := subscribe_to_orderbook_topic now base rel request_orderbook (bn_subs n) in
  let n := mkBookNode _ (bn_book n) (bn_store n) (bn_queue n) subs in
  if request then request_and_fill_orderbook live my_pub usable banned base rel peer n else n.

(** The worker until nothing waits. *)
Definition run_worker (env : TrieEnv) (n : BookNode) : BookNode :=
  mkBookNode _ (bn_book n) (foldl (fun s ops => apply_ops env ops s) (bn_store n) (bn_queue n)) [] (bn_subs n).

End Node.

(** ** Batches that handlers send *)

Section Batches.
Context {TL : TrieLib} {LW : TrieLaws} {HO : HashOrder}.
Variable U : OrderbookItem -> Prop.
Hypothesis HU : universe U.

Definition op_uuid (op : TrieOp) : option Uuid :=
  match op with TrieInsert _ _ u _ | TrieRemove _ _ u => Some u | _ => None end.

(** Operations on distinct orders, with what they are applied to. *)
Definition op_of (P : string * string -> Uuid -> Prop) (op : TrieOp) : Prop :=
  match op with
  | TrieInsert pk pr u o => P (pk, pr) u /\ U o /\ oi_uuid o = u
  | TrieRemove pk pr u => P (pk, pr) u
  | _ => False
  end.

Definition simple_ops (P : string * string -> Uuid -> Prop) (ops : list TrieOp) : Prop :=
  Forall (op_of P) ops /\ NoDup (omap op_uuid ops).

Lemma simple_ops_nil P : simple_ops P [].
Proof. split; [done|constructor]. Qed.

Lemma op_of_weaken (P Q : string * string -> Uuid -> Prop) op :
  (forall k u, P k u -> Q k u) -> op_of P op -> op_of Q op.
Proof. intros HPQ. destruct op; simpl; naive_solver. Qed.

Lemma batch_ok_nil : batch_ok U [].
Proof. split; [by intros []|set_solver]. Qed.

Lemma simple_batch P ops : simple_ops P ops -> batch_ok U ops.
Proof.
  intros [Hops Hnd]. split.
  - intros pre op post ->. apply Forall_app in Hops as [Hpre [Hop _]%Forall_cons].
    rewrite omap_app in Hnd. destruct op; simpl in *; try done.
    assert (RemovePubkey pubkey ∉ pre) as Hno.
    { intros Hin. rewrite Forall_forall in Hpre. exact (Hpre _ Hin). }
    split; [done|]. intros Hin. apply NoDup_app in Hnd as (_ & Hnd & _).
    apply (Hnd uuid); [|set_solver]. apply list_elem_of_omap. by exists (TrieRemove pubkey alb_pair uuid).
  - intros pk pr u o Hin. eapply Forall_forall in Hops; [|done]. simpl in Hops. tauto.
Qed.

(** A cleared pair, then operations on it. *)
Lemma cleared_batch k ops :
  simple_ops (fun k' _ => k' = k) ops -> batch_ok U (ClearPair k.1 k.2 :: ops).
Proof.
  intros Hops. pose proof (simple_batch _ _ Hops) as [Hord Hins]. split.
  - intros [|op0 pre] op post E; simplify_eq/=; [split; [set_solver|set_solver]|].
    specialize (Hord pre op post eq_refl). destruct Hops as [Hall _].
    destruct op; simpl in *; try done.
    + apply Forall_app in Hall as [_ [Hop _]%Forall_cons]. done.
    + set_solver.
  - intros pk pr u o [?|?]%elem_of_cons; [done|eauto].
Qed.

Definition keys_of (ops : list TrieOp) (k : string * string) : Prop :=
  exists op, op ∈ ops /\ op_key op = Some k.

(** Batches about different makers or pairs can be joined. *)
Lemma batch_ok_app ops ops' :
  batch_ok U ops -> batch_ok U ops' -> (forall pk, RemovePubkey pk ∉ ops) ->
  (forall k, keys_of ops k -> keys_of ops' k -> False) -> batch_ok U (ops ++ ops').
Proof.
  intros [H1 H1'] [H2 H2'] Hno Hkeys. split.
  - intros pre op post E. apply app_eq_inv in E as [(l & -> & E)|(l & -> & E)].
    + destruct l as [|op' l]; simplify_eq/=.
      * rewrite app_nil_r in *. specialize (H2 [] op post eq_refl).
        destruct op; simpl in *; [split; [apply Hno|]|split; [apply Hno|]|done|done].
        -- intros op' Hin Hk. apply (Hkeys (pubkey, alb_pair)); [by exists op'|].
           eexists. split; [apply elem_of_cons; by left|done].
        -- intros Hin. apply (Hkeys (pubkey, alb_pair)); [by eexists|].
           eexists. split; [apply elem_of_cons; by left|done].
      * by apply (H1 pre op' l).
    + specialize (H2 l op post E). subst ops'.
      assert (forall k, op_key op = Some k -> keys_of (l ++ op :: post) k) as Hkop
        by (intros k ?; exists op; split; [set_solver|done]).
      destruct op; simpl in *; [| |done|done].
      * destruct H2 as [H2 H2k]. split; [rewrite elem_of_app; intros [?|?]; [by eapply Hno|done]|].
        intros op' [Hin|Hin]%elem_of_app Hk; [|by eapply H2k].
        apply (Hkeys (pubkey, alb_pair)); [by exists op'|by apply Hkop].
      * destruct H2 as [H2 H2k]. split; [rewrite elem_of_app; intros [?|?]; [by eapply Hno|done]|].
        intros [Hin|Hin]%elem_of_app; [|done].
        apply (Hkeys (pubkey, alb_pair)); [by eexists|by apply Hkop].
  - intros pk pr u o [?|?]%elem_of_app; eauto.
Qed.

(** *** What the index operations send *)

Definition owner_is (k : string * string) (u : Uuid) : Prop :=
  forall o, U o -> oi_uuid o = u -> item_key o = k.

Lemma removal_op u b :
  book_ok U b ->
  removal_ops (fst (index_remove u b)) = [] \/
  exists o, U o /\ oi_uuid o = u /\
    removal_ops (fst (index_remove u b)) = [TrieRemove (oi_pubkey o) (item_pair o) u].
Proof.
  intros Hb. unfold index_remove. destruct (order_set b !! u) as [o|] eqn:Ho; [right|by left].
  exists o. by destruct (bk_known _ b Hb _ _ Ho).
Qed.

Lemma update_op live o b :
  book_ok U b -> U o ->
  fst (index_insert_or_update live o b) = [] \/
  exists op, fst (index_insert_or_update live o b) = [op] /\
    op_of (fun k u => k = item_key o /\ u = oi_uuid o) op.
Proof.
  intros Hb Ho. destruct (index_update_spec live o b); simpl; [by left| |].
  - destruct (removal_op (oi_uuid o) b Hb) as [->|(o' & Ho' & Hu & ->)]; [by left|right].
    eexists. split; [done|]. split; [|done]. by apply (same_key U (un_owner U HU)).
  - right. eexists. split; [done|]. simpl. auto.
Qed.

Lemma simple_ops_cons P op ops u :
  op_of (fun k v => P k v /\ v = u) op -> simple_ops (fun k v => P k v /\ v <> u) ops ->
  simple_ops P (op :: ops).
Proof.
  intros Hop [Hops Hnd]. split.
  - constructor; [eapply op_of_weaken; [|exact Hop]; tauto|].
    eapply Forall_impl; [exact Hops|]. intros ? ?. eapply op_of_weaken; [|done]. tauto.
  - destruct op as [| pk pr v o|pk pr v|]; simpl in Hop; try done.
    all: assert (v = u) as -> by tauto; simpl; constructor; [|done].
    all: intros (op & Hin & Hu)%list_elem_of_omap; eapply Forall_forall in Hops; [|done].
    all: destruct op; simpl in *; simplify_eq; tauto.
Qed.

Lemma simple_ops_weaken (P Q : string * string -> Uuid -> Prop) ops :
  (forall k u, P k u -> Q k u) -> simple_ops P ops -> simple_ops Q ops.
Proof.
  intros HPQ [Hops Hnd]. split; [|done]. eapply Forall_impl; [exact Hops|].
  intros ? ?. by eapply op_of_weaken.
Qed.

(** One optional operation before others. *)
Lemma simple_ops_before P ops1 ops u :
  ops1 = [] \/ (exists op, ops1 = [op] /\ op_of (fun k v => P k v /\ v = u) op) ->
  simple_ops (fun k v => P k v /\ v <> u) ops -> simple_ops P (ops1 ++ ops).
Proof.
  intros [->|(op & -> & Hop)] Hops; simpl; [|by eapply simple_ops_cons].
  eapply simple_ops_weaken; [|exact Hops]. simpl. tauto.
Qed.

Lemma insert_all_ops live k l b :
  book_ok U b -> Forall (fun o => U o /\ item_key o = k) l -> NoDup (map oi_uuid l) ->
  simple_ops (fun k' u => k' = k /\ u ∈ map oi_uuid l) (fst (insert_all live l b)).
Proof.
  intros Hb Hl Hnd. revert b Hb. induction Hl as [|o l [Ho Hk] _ IH]; intros b Hb; simpl;
    [apply simple_ops_nil|].
  apply NoDup_cons in Hnd as [Hn Hnd].
  pose proof (update_op live o b Hb Ho) as Hop.
  pose proof (book_ok_update U (un_owner U HU) live o b Ho Hb) as Hb1.
  destruct (index_insert_or_update live o b) as [ops b1]. simpl in *.
  specialize (IH Hnd b1 Hb1). destruct (insert_all live l b1) as [ops' b2]. simpl in *.
  apply (simple_ops_before _ _ _ (oi_uuid o)).
  - destruct Hop as [->|(op & -> & Hop)]; [by left|right]. exists op. split; [done|].
    eapply op_of_weaken; [|exact Hop]. intros ? ? [-> ->]. set_solver.
  - eapply simple_ops_weaken; [|exact IH]. intros ? u [-> Hu]. split; [set_solver|].
    intros ->. by apply Hn.
Qed.

Lemma delta_ops live from_pubkey pr params l b :
  book_ok U b -> NoDup l.*1 ->
  (forall u d, (u, d) ∈ l ->
     match d with
     | Some o => let item := received_item params u o in
                 U item /\ item_key item = (from_pubkey, pr) /\ oi_uuid item = u
     | None => owner_is (from_pubkey, pr) u
     end) ->
  simple_ops (fun k u => k = (from_pubkey, pr) /\ u ∈ l.*1) (fst (process_trie_delta live l params b)).
Proof.
  intros Hb Hnd Hl. revert b Hb. induction l as [|[u d] l IH]; intros b Hb; simpl;
    [apply simple_ops_nil|].
  apply NoDup_cons in Hnd as [Hn Hnd].
  specialize (IH Hnd (fun u d Hin => Hl u d (list_elem_of_further _ _ _ Hin))).
  assert (forall P : string * string -> Uuid -> Prop, forall ops : list TrieOp,
            simple_ops (fun k v => k = (from_pubkey, pr) /\ v ∈ l.*1) ops ->
            simple_ops (fun k v => (k = (from_pubkey, pr) /\ v ∈ u :: l.*1) /\ v <> u) ops) as Hw.
  { intros _ ops. apply simple_ops_weaken. intros k v [-> Hv]. split; [set_solver|].
    intros ->. by apply Hn. }
  pose proof (Hl u d (list_elem_of_here _ _)) as Hd. destruct d as [o|].
  - destruct Hd as (Ho & Hk & Hu). pose proof (update_op live _ b Hb Ho) as Hop.
    pose proof (book_ok_update U (un_owner U HU) live _ b Ho Hb) as Hb1.
    destruct (index_insert_or_update live _ b) as [ops b1]. simpl in *.
    specialize (IH b1 Hb1). destruct (process_trie_delta live l params b1) as [ops' b2]. simpl in *.
    apply (simple_ops_before _ _ _ u); [|by apply (Hw (fun _ _ => True))].
    destruct Hop as [->|(op & -> & Hop)]; [by left|right]. exists op. split; [done|].
    eapply op_of_weaken; [|exact Hop]. intros ? ? [-> ->]. rewrite Hu. set_solver.
  - pose proof (removal_op u b Hb) as Hop.
    pose proof (book_ok_remove U u b Hb) as Hb1. destruct (index_remove u b) as [r b1]. simpl in *.
    specialize (IH b1 Hb1). destruct (process_trie_delta live l params b1) as [ops' b2]. simpl in *.
    apply (simple_ops_before _ _ _ u); [|by apply (Hw (fun _ _ => True))].
    destruct Hop as [->|(o & Ho & Hu & ->)]; [by left|right]. eexists. split; [done|]. simpl.
    split; [|done]. split; [by apply Hd|set_solver].
Qed.

(** *** What the handlers send *)

(** A handler changed the book as its operations say, and they are all about
    the maker and the pair [k]. *)
Record sent_ok (k : string * string) (b : Orderbook) (r : list TrieOp * Orderbook) : Prop :=
  mkSentOk {
    se_step : step_ok U b r;
    se_batch : batch_ok U r.1;
    se_keys : Forall (fun op => op_key op = Some k) r.1 }.

Lemma simple_keys k (P : string * string -> Uuid -> Prop) ops :
  (forall k' u, P k' u -> k' = k) -> simple_ops P ops -> Forall (fun op => op_key op = Some k) ops.
Proof.
  intros HP [Hops _]. eapply Forall_impl; [exact Hops|]. intros op.
  destruct op; simpl; try done; intros Hop; f_equal; eapply HP, Hop.
Qed.

Lemma full_trie_sent live l params b :
  book_ok U b -> proper_pair (tp_alb_pair params) ->
  items_of U (tp_pubkey params) (tp_alb_pair params) (received_items params l) ->
  sent_ok (tp_pubkey params, tp_alb_pair params) b (process_pubkey_full_trie live l params b).
Proof.
  intros Hb Hpr [Hl Hnd].
  assert (Forall U (received_items params l)) as HlU by (eapply Forall_impl; [exact Hl|by intros ? []]).
  pose proof (step_ok_full_trie U (un_owner U HU) (un_plain U HU) live l params b HlU Hpr Hb) as Hstep.
  revert Hstep. unfold process_pubkey_full_trie.
  pose proof (insert_all_ops live _ _ _ (remove_pubkey_pair_ok U (tp_pubkey params) (tp_alb_pair params) b Hb) Hl Hnd) as Hops.
  unfold received_items in Hops.
  destruct (insert_all live _ _) as [ops b']. simpl in Hops. intros Hstep. split; [done|..].
  - apply (cleared_batch (tp_pubkey params, tp_alb_pair params)).
    eapply simple_ops_weaken; [|exact Hops]. simpl. tauto.
  - simpl. constructor; [done|]. eapply simple_keys; [|exact Hops]. simpl. tauto.
Qed.

Lemma delta_sent live delta from_pubkey params pr b :
  book_ok U b -> fair_diff U from_pubkey params pr (Delta delta) ->
  sent_ok (from_pubkey, pr) b (process_trie_delta live (iter_map delta) params b).
Proof.
  intros Hb Hd. simpl in Hd.
  assert (NoDup (iter_map delta).*1) as Hnd by (rewrite iter_map_perm; apply NoDup_fst_map_to_list).
  assert (forall u d, (u, d) ∈ iter_map delta -> delta !! u = Some d) as Hin
    by (intros u d; by rewrite iter_map_perm, elem_of_map_to_list).
  pose proof (delta_ops live from_pubkey pr params (iter_map delta) b Hb Hnd
    (fun u d Hu => Hd u d (Hin u d Hu))) as Hops. split.
  - apply step_ok_delta; [apply HU| |done]. apply Forall_forall.
    intros o ([u d] & Hu & Ho)%list_elem_of_omap. apply Hin, Hd in Hu.
    destruct d as [d|]; simpl in *; [|done]. simplify_eq. tauto.
  - by eapply simple_batch.
  - eapply simple_keys; [|exact Hops]. simpl. tauto.
Qed.

(** Several of them, about different makers or pairs. *)
Lemma fold_sent {A} (F : list TrieOp * Orderbook -> A -> list TrieOp * Orderbook)
  (g : A -> Orderbook -> list TrieOp * Orderbook) (key : A -> string * string) l b :
  (forall acc a, F acc a = (acc.1 ++ (g a acc.2).1, (g a acc.2).2)) ->
  NoDup (map key l) -> book_ok U b ->
  (forall a b, a ∈ l -> book_ok U b -> sent_ok (key a) b (g a b)) ->
  let r := foldl F ([], b) l in
  step_ok U b r /\ batch_ok U r.1 /\
  Forall (fun op => exists a, a ∈ l /\ op_key op = Some (key a)) r.1.
Proof.
  intros HF. induction l as [|a l IH] using rev_ind; intros Hnd Hb Hg.
  { simpl. split; [by apply step_ok_refl|]. split; [apply batch_ok_nil|done]. }
  simpl. rewrite foldl_app. simpl. rewrite map_app in Hnd. apply NoDup_app in Hnd as (Hnd & Hdisj & _).
  destruct IH as (Hs & Hbt & Hk); [done|done|intros; apply Hg; set_solver|].
  rewrite HF. destruct (foldl F ([], b) l) as [ops b1]. simpl in *.
  destruct (Hg a b1) as [Hs2 Hbt2 Hk2]; [set_solver|apply Hs|].
  destruct (g a b1) as [ops2 b2]. simpl in *. split; [by eapply step_ok_app|]. split.
  - apply batch_ok_app; [done|done|..].
    + intros pk Hin. rewrite Forall_forall in Hk. by destruct (Hk _ Hin) as (? & _ & ?).
    + intros k (op & Hin & Hop) (op2 & Hin2 & Hop2). rewrite Forall_forall in Hk, Hk2.
      destruct (Hk _ Hin) as (a' & Ha' & Hop'). specialize (Hk2 _ Hin2).
      apply (Hdisj (key a')); [by apply list_elem_of_fmap_2|]. set_solver.
  - apply Forall_app. split; (eapply Forall_impl; [eassumption|]); [|set_solver].
    intros op (a' & ? & ?). exists a'. set_solver.
Qed.

(** *** Every handler *)

Definition sends (b : Orderbook) (r : list TrieOp * Orderbook) : Prop :=
  step_ok U b r /\ batch_ok U r.1.

Lemma update_sends live o b : book_ok U b -> U o -> sends b (index_insert_or_update live o b).
Proof.
  intros Hb Ho. split; [by apply step_ok_update; [apply HU|..]|].
  destruct (update_op live o b Hb Ho) as [->|(op & -> & Hop)]; [apply batch_ok_nil|].
  eapply simple_batch. split; [by constructor|]. destruct op; simpl; repeat constructor; set_solver.
Qed.

Lemma remove_sends u b r b' :
  book_ok U b -> index_remove u b = (r, b') -> sends b (removal_ops r, b').
Proof.
  intros Hb E. split; [by eapply step_ok_remove|]. simpl.
  pose proof (removal_op u b Hb) as Hop. rewrite E in Hop. simpl in Hop.
  destruct Hop as [->|(o & _ & _ & ->)]; [apply batch_ok_nil|].
  apply (simple_batch (fun _ _ => True)). repeat constructor. set_solver.
Qed.

Lemma sends_other b ops b' b'' :
  sends b (ops, b') -> index_ok b'' -> order_set b'' = order_set b' -> sends b (ops, b'').
Proof.
  intros [[[_ Hk] Hm] Hb] Hi Heq. split; [|done]. split; [split; [done|]|intros k]; simpl in *; rewrite Heq; [done|apply Hm].
Qed.

Lemma sends_before b b1 r :
  order_set b1 = order_set b -> sends b1 r -> sends b r.
Proof. intros Heq [[? Hm] ?]. split; [|done]. split; [done|]. intros k. rewrite <- Heq. apply Hm. Qed.

Lemma sends_refl b : book_ok U b -> sends b ([], b).
Proof. split; [by apply step_ok_refl|apply batch_ok_nil]. Qed.

Lemma handle_sends i b : book_ok U b -> fair_input U i b -> sends b (handle_book i b).
Proof.
  intros Hb Hi. destruct i; simpl in *.
  - by apply update_sends.
  - unfold process_maker_order_updated, find_order_by_uuid_and_pubkey.
    destruct (order_set b !! up_uuid msg) as [o|] eqn:Ho; [|by apply sends_refl].
    case_bool_decide; [|by apply sends_refl]. by apply update_sends; auto.
  - unfold process_maker_order_cancelled.
    set (b1 := set_cancelled _ b). assert (book_ok U b1) as Hb1 by by apply book_ok_cancelled.
    apply (sends_before b b1); [done|]. simpl.
    destruct (order_set b !! uuid) as [o|] eqn:Ho; [|by apply sends_refl].
    case_bool_decide; [|by apply sends_refl].
    destruct (index_remove uuid b1) as [r b2] eqn:E. by eapply remove_sends.
  - unfold insert_or_update_my_order. pose proof (update_sends live item b Hb Hi) as Hs.
    destruct (index_insert_or_update live item b) as [ops b1]. destruct key; [|done].
    eapply sends_other; [exact Hs| |done]. apply index_ok_my_pubkeys, Hs.
  - unfold delete_my_order. destruct (index_remove uuid b) as [r b1] eqn:E.
    pose proof (remove_sends _ _ _ _ Hb E) as Hs. destruct key; [|done].
    eapply sends_other; [exact Hs| |done]. apply index_ok_my_pubkeys, Hs.
  - unfold process_my_maker_order_updated, find_order_by_uuid.
    destruct (order_set b !! up_uuid msg) as [o|] eqn:Ho; [|by apply sends_refl].
    by apply update_sends; auto.
  - unfold process_sync_response.
    set (params pr := mkTrieParams from_pubkey pr (sy_protocol_infos response) (sy_conf_infos response)).
    destruct (fold_sent (apply_diff live from_pubkey response)
      (fun p b => match p.2 with
                  | Delta delta => process_trie_delta live (iter_map delta) (params p.1) b
                  | FullTrie values => process_pubkey_full_trie live values (params p.1) b
                  end) (fun p => (from_pubkey, p.1)) (iter_map (pair_orders_diff response)) b)
      as (? & ? & _); [| |done| |done].
    + intros [ops b1] [pr d]. unfold apply_diff. simpl.
      destruct d; [by destruct (process_trie_delta _ _ _ _)|by destruct (process_pubkey_full_trie _ _ _ _)].
    + rewrite iter_map_perm, <- (map_map fst (fun pr => (from_pubkey, pr))).
      apply NoDup_fmap_2; [by intros ?? [=]|]. apply NoDup_fst_map_to_list.
    + intros [pr d] b1. rewrite iter_map_perm, elem_of_map_to_list. intros Hpr Hb1.
      destruct (Hi pr d Hpr) as [Hproper Hd]. simpl. destruct d.
      * by apply delta_sent.
      * by apply (full_trie_sent live trie (params pr)).
  - unfold fill_orderbook. destruct Hi as [Hproper Hi].
    set (params pk := mkTrieParams pk (alb_ordered_pair base rel) (go_protocol_infos response)
                        (go_conf_infos response)).
    destruct (fold_sent (fill_pubkey live my_pub usable banned (alb_ordered_pair base rel) response)
      (fun p b => if negb (usable p.1) || is_my_order p.1 my_pub (my_p2p_pubkeys b) || banned p.1
                  then ([], b)
                  else process_pubkey_full_trie live (gi_orders p.2) (params p.1) b)
      (fun p => (p.1, alb_ordered_pair base rel)) (iter_map (pubkey_orders response)) b)
      as (? & ? & _); [| |done| |done].
    + intros [ops b1] [pk d]. unfold fill_pubkey. simpl. case_match; simpl; [by rewrite app_nil_r|].
      by destruct (process_pubkey_full_trie _ _ _ _).
    + rewrite iter_map_perm, <- (map_map fst (fun pk => (pk, alb_ordered_pair base rel))).
      apply NoDup_fmap_2; [by intros ?? [=]|]. apply NoDup_fst_map_to_list.
    + intros [pk item] b1. rewrite iter_map_perm, elem_of_map_to_list. intros Hpk Hb1. simpl.
      case_match.
      * split; [by apply step_ok_refl|apply batch_ok_nil|done].
      * apply (full_trie_sent live (gi_orders item) (params pk)); [done|done|]. by apply Hi.
Qed.

(** *** Silent makers *)

Lemma remove_all_lookup l b v o :
  order_set (remove_all l b).2 !! v = Some o <-> order_set b !! v = Some o /\ v ∉ l.
Proof.
  revert b. induction l as [|u l IH]; intros b; simpl; [set_solver|].
  pose proof (order_set_remove u b) as Hu. destruct (index_remove u b) as [r b1].
  specialize (IH b1). destruct (remove_all l b1) as [ops b2]. simpl in *.
  rewrite IH, Hu, lookup_delete_Some, elem_of_cons. naive_solver.
Qed.

Definition is_removal (op : TrieOp) : Prop :=
  match op with TrieRemove _ _ _ | RemovePubkey _ => True | _ => False end.

Lemma removals_batch ops : Forall is_removal ops -> batch_ok U ops.
Proof.
  intros Hops. split.
  - intros pre op post ->. apply Forall_app in Hops as [_ [Hop _]%Forall_cons]. by destruct op.
  - intros pk pr u o Hin. rewrite Forall_forall in Hops. by destruct (Hops _ Hin).
Qed.

Lemma remove_all_removals l b : Forall is_removal (remove_all l b).1.
Proof.
  revert b. induction l as [|u l IH]; intros b; simpl; [done|].
  assert (Forall is_removal (removal_ops (index_remove u b).1)) as Hu
    by (unfold index_remove; destruct (order_set b !! u); simpl; repeat constructor).
  destruct (index_remove u b) as [r b1]. specialize (IH b1).
  destruct (remove_all l b1) as [ops b2]. by apply Forall_app.
Qed.

(** Makers without orders are removed. *)
Lemma forget_makers C pks k :
  (forall k, k.1 ∈ pks -> C k = ∅) -> spec_ops (map RemovePubkey pks) C k = C k.
Proof.
  revert C. induction pks as [|pk pks IH]; intros C HC; simpl; [done|].
  assert (forall k, spec_op C (RemovePubkey pk) k = C k) as Hop.
  { intros k'. simpl. case_decide as Hk; [|done]. symmetry. apply HC. set_solver. }
  transitivity (spec_op C (RemovePubkey pk) k); [|apply Hop].
  apply (IH (spec_op C (RemovePubkey pk))). intros k' Hk'. rewrite Hop. apply HC. set_solver.
Qed.

Lemma timed_out_sends env my_pubsecp timeout b s :
  book_ok U b -> store_ok U s (maker_orders (order_set b)) ->
  sends b (remove_timed_out env my_pubsecp timeout b s).
Proof.
  intros Hb Hs. unfold remove_timed_out. set (gone := timed_out_pubkeys _ _ _ _ _).
  set (l := gone ≫= _). pose proof (step_ok_remove_all U l b Hb) as [Hb' Hm].
  pose proof (remove_all_removals l b) as Hops. pose proof (remove_all_lookup l b) as Hl.
  destruct (remove_all l b) as [ops b'] eqn:E. simpl in *.
  rewrite <- (map_map (fun p : string * OrderbookPubkeyState => p.1) RemovePubkey).
  split; [split; [done|]|].
  - intros k. simpl. rewrite spec_ops_app. rewrite (spec_ops_ext _ _ _ (fun k => eq_sym (Hm k))).
    rewrite forget_makers; [done|]. intros k' Hk'. apply map_empty. intros u.
    destruct (maker_orders (order_set b') k' !! u) as [o|] eqn:Ho; [|done]. exfalso.
    apply maker_orders_lookup in Ho as [Ho Hk]. apply Hl in Ho as [Ho Hn]. apply Hn.
    apply list_elem_of_fmap in Hk' as ([pk p] & Hpk & Hgone).
    apply list_elem_of_bind. exists (pk, p). split; [|done].
    unfold gone, timed_out_pubkeys in Hgone.
    apply list_elem_of_In, filter_In in Hgone as [Hin _]. apply list_elem_of_In in Hin.
    rewrite iter_map_perm, elem_of_map_to_list in Hin.
    apply list_elem_of_fmap. exists (u, k'.2). split; [done|].
    rewrite iter_set_perm, elem_of_elements. apply (so_uuids U s _ Hs pk p u k'.2 Hin).
    exists o. apply maker_orders_lookup. split; [done|]. rewrite Hk, (surjective_pairing k'). by rewrite Hpk.
  - apply removals_batch, Forall_app. split; [done|]. apply Forall_fmap.
    apply Forall_forall. by intros.
Qed.

(** ** The invariant of a node *)

(** [C] are the orders whose tries the store keeps; the batches that wait turn
    them into the orders of the book. *)
Record synced (n : BookNode) (C : MakerOrders) : Prop := mkSynced {
  sn_book : book_ok U (bn_book n);
  sn_store : store_ok U (bn_store n) C;
  sn_queue : Forall (batch_ok U) (bn_queue n);
  sn_orders k : spec_ops (concat (bn_queue n)) C k = maker_orders (order_set (bn_book n)) k }.

Definition node_ok (n : BookNode) : Prop := exists C, synced n C.

Lemma node_ok_default : node_ok BookNode_default.
Proof.
  exists (fun _ => ∅). split; simpl; [apply book_ok_default|by apply store_ok_default|done|].
  intros k. symmetry. apply map_filter_empty.
Qed.

Lemma node_ok_sends b s q C r subs :
  synced (mkBookNode _ b s q subs) C -> sends b r -> node_ok (mkBookNode _ r.2 s (enqueue r.1 q) subs).
Proof.
  intros [Hb Hs Hq Ho] [[Hb' Hm] Hops]. exists C. simpl in *. split; simpl; [done|done|..].
  - unfold enqueue. destruct r.1; [done|]. apply Forall_app. by split; [|constructor].
  - intros k. rewrite Hm.
    replace (concat (enqueue r.1 q)) with (concat q ++ r.1).
    + rewrite spec_ops_app. by apply spec_ops_ext.
    + unfold enqueue. destruct r.1; [by rewrite app_nil_r|]. rewrite concat_app. simpl.
      by rewrite app_nil_r.
Qed.

Lemma book_step_ok n n' : node_ok n -> book_step U n n' -> node_ok n'.
Proof.
  intros [C HC]. destruct n as [b s q subs]. pose proof HC as [Hb Hs Hq Ho]. simpl in *.
  intros Hstep. inversion Hstep; subst; simpl in *; subst.
  - pose proof (handle_sends i b Hb H) as Hr. rewrite H0 in Hr.
    by apply (node_ok_sends b s q C (ops, b0) subs).
  - apply Forall_cons in Hq as [Hop Hq]. exists (spec_ops ops C). split; simpl; [done| |done|].
    + by apply apply_ops_ok.
    + intros k. rewrite <- Ho. simpl. by rewrite spec_ops_app.
  - exists C. pose proof (prepare_sync_spec U HU env pk msg relay (is_subscribed (mkBookNode _ b s q subs)) s C Hs) as Hp.
    destruct (prepare_sync_request_for_keep_alive _ _ _ _ _ _). simpl. by split; [|apply Hp|..].
  - exists C. by split; [|apply clean_memory_ok|..].
  - assert (store_ok U s (maker_orders (order_set b))) as Hs' by (eapply store_ok_ext; [|exact Hs]; done).
    pose proof (timed_out_sends env my_pubsecp timeout b s Hb Hs') as Hr. rewrite H0 in Hr.
    by apply (node_ok_sends b s [] C (ops, b0) subs).
  - exists C. by split.
Qed.

Lemma reachable_ok n : reachable U n -> node_ok n.
Proof.
  unfold reachable. intros Hr. pattern n. revert n Hr.
  apply (rtc_ind_r _ BookNode_default); [apply node_ok_default|].
  intros n n' _ Hstep IH. by eapply book_step_ok.
Qed.

End Batches.
