(* ===== verification/OrderbookSync.v ===== *)
(** * Synchronisation of two nodes

    What a node answers to a request for a maker's orders, and what the asking
    node has after it. *)

From S2P Require Import Prelude MmNumber DexFee Swap Ordermatch OrdermatchNode Orderbook OrderbookProps TrieStore TrieStoreProps OrderbookNode.

Open Scope Z_scope.

(** ** The data sent beside the orders *)

Definition infos_for
  (infos : gmap Uuid BaseRelProtocolInfo * gmap Uuid OrderConfirmationsSettings) (o : OrderbookItem)
  : Prop :=
  infos.1 !! oi_uuid o = Some (base_rel_proto_info o) /\ infos.2 !! oi_uuid o = oi_conf_settings o.

Lemma add_infos_for l infos o :
  NoDup (map oi_uuid l) -> (forall o', o' ∈ l -> infos.2 !! oi_uuid o' = None) ->
  o ∈ l -> infos_for (foldl add_infos infos l) o.
Proof.
  assert (forall l infos o, oi_uuid o ∉ map oi_uuid l -> infos_for infos o ->
            infos_for (foldl add_infos infos l) o) as Hrest.
  { clear. induction l as [|o' l IH]; intros infos o Hn Hi; simpl; [done|]. simpl in Hn.
    apply not_elem_of_cons in Hn as [Hne Hn]. apply IH; [done|]. destruct Hi as [H1 H2].
    unfold add_infos. split; simpl; [by rewrite lookup_insert_ne|].
    destruct (oi_conf_settings o'); [by rewrite lookup_insert_ne|done]. }
  revert infos. induction l as [|o' l IH]; intros infos Hnd Hno Hin; [set_solver|].
  apply NoDup_cons in Hnd as [Hn Hnd]. simpl. apply elem_of_cons in Hin as [->|Hin].
  - apply Hrest; [done|]. unfold add_infos. split; simpl; [by rewrite lookup_insert_eq|].
    destruct (oi_conf_settings o'); [by rewrite lookup_insert_eq|]. apply Hno. set_solver.
  - apply IH; [done| |done]. intros o2 Ho2. unfold add_infos. simpl.
    assert (oi_uuid o' <> oi_uuid o2) by (intros Heq; apply Hn; rewrite Heq; by apply list_elem_of_fmap_2).
    destruct (oi_conf_settings o'); [rewrite lookup_insert_ne by done|]; apply Hno; set_solver.
Qed.

Lemma infos_of_for l o : NoDup (map oi_uuid l) -> o ∈ l -> infos_for (infos_of l) o.
Proof. intros. apply add_infos_for; [done| |done]. intros. apply lookup_empty. Qed.

(** With them the receiving node gets the same item. *)
Lemma received_item_same pk pr infos o :
  infos_for infos o -> received_item (mkTrieParams pk pr infos.1 infos.2) (oi_uuid o) (p2p_item o) = o.
Proof.
  intros [H1 H2]. unfold received_item. simpl. rewrite H1, H2. by destruct o.
Qed.

Definition as_p2p (o : OrderbookItem) : Uuid * OrderbookP2PItem := (oi_uuid o, p2p_item o).

Lemma received_items_same pk pr infos l :
  (forall o, o ∈ l -> infos_for infos o) ->
  received_items (mkTrieParams pk pr infos.1 infos.2) (map as_p2p l) = l.
Proof.
  intros Hl. unfold received_items. rewrite map_map. rewrite <- (map_id l) at 2.
  apply map_ext_in. intros o Ho. apply list_elem_of_In, Hl in Ho. by apply received_item_same.
Qed.

(** ** A whole trie replaces a maker's orders *)

Definition insert_of (o : OrderbookItem) : TrieOp :=
  TrieInsert (oi_pubkey o) (item_pair o) (oi_uuid o) o.

Lemma insert_inner_cancelled o b :
  recently_cancelled (index_insert_or_update_inner o b) = recently_cancelled b.
Proof. done. Qed.

Lemma remove_pair_cancelled `{HashOrder} pk pr b :
  recently_cancelled (index_remove_pubkey_pair_orders pk pr b) = recently_cancelled b.
Proof.
  assert (forall l b, recently_cancelled (foldl (remove_if_owned pk) b l) = recently_cancelled b) as Hl.
  { clear b. induction l as [|u l IH]; intros b; simpl; [done|]. rewrite IH.
    unfold remove_if_owned, index_remove. destruct (order_set b !! u) as [o|]; [|done]. by case_bool_decide. }
  unfold index_remove_pubkey_pair_orders. destruct (split_once pr) as [[x y]|]; [|done].
  simpl. by rewrite !Hl.
Qed.

Lemma insert_all_valid live l b :
  Forall valid_item l ->
  (forall o, o ∈ l -> recently_cancelled_by live (oi_uuid o) b <> Some (oi_pubkey o)) ->
  (insert_all live l b).1 = map insert_of l.
Proof.
  intros Hv. revert b. induction Hv as [|o l Ho _ IH]; intros b Hc; simpl; [done|].
  pose proof (index_update_spec live o b) as Hspec. inversion Hspec as [Hx|Hx Hy|Hx Hy Heq].
  - by destruct (Hc o (list_elem_of_here _ _)).
  - done.
  - specialize (IH (index_insert_or_update_inner o b)).
    destruct (insert_all live l _) as [ops b']. simpl in *. f_equal. apply IH. intros o' Ho'.
    unfold recently_cancelled_by. rewrite insert_inner_cancelled. apply Hc. set_solver.
Qed.

(** The operations of a whole trie, as what they mean. *)
Lemma spec_inserts k l C k' :
  Forall (fun o => item_key o = k) l ->
  spec_ops (map insert_of l) C k' =
    if decide (k' = k) then foldl (fun m o => <[oi_uuid o := o]> m) (C k) l else C k'.
Proof.
  intros Hl. revert C. induction Hl as [|o l Ho _ IH]; intros C; simpl.
  - by case_decide; subst.
  - rewrite IH. change (oi_pubkey o, item_pair o) with (item_key o). rewrite Ho.
    unfold set_key. rewrite (decide_True (P := k = k)) by done. by case_decide.
Qed.

Lemma inserted_all (m : gmap Uuid OrderbookItem) l :
  (forall u o, m !! u = Some o -> oi_uuid o = u) -> l ≡ₚ (map_to_list m).*2 ->
  foldl (fun m o => <[oi_uuid o := o]> m) ∅ l = m.
Proof.
  intros Hm Hl.
  assert (NoDup (map oi_uuid l)) as Hnd.
  { assert (map oi_uuid (map_to_list m).*2 = (map_to_list m).*1) as Heq.
    { rewrite <- list_fmap_compose. apply list_fmap_ext. intros i [u o] Hi.
      apply Hm, elem_of_map_to_list. by eapply list_elem_of_lookup_2. }
    rewrite Hl, Heq. apply NoDup_fst_map_to_list. }
  assert (forall l (m0 : gmap Uuid OrderbookItem), NoDup (map oi_uuid l) -> forall u o,
    foldl (fun m o => <[oi_uuid o := o]> m) m0 l !! u = Some o <->
    (o ∈ l /\ oi_uuid o = u) \/ (m0 !! u = Some o /\ u ∉ map oi_uuid l)) as Hf.
  { clear. induction l as [|o' l IH]; intros m0 Hnd u o; simpl; [set_solver|].
    apply NoDup_cons in Hnd as [Hn Hnd]. rewrite (IH _ Hnd), lookup_insert_Some. split.
    - intros [?|[[[<- <-]|[? ?]] ?]]; [set_solver|set_solver|]. right. set_solver.
    - intros [[[->|?]%elem_of_cons ?]|[? ?]]; [|set_solver|set_solver]. subst. set_solver. }
  apply map_eq. intros u. apply option_eq. intros o. rewrite Hf by done. rewrite lookup_empty. split.
  - intros [[Ho <-]|[? _]]; [|done]. rewrite Hl in Ho. apply list_elem_of_fmap in Ho as ([v o'] & -> & Hv).
    simpl. apply elem_of_map_to_list in Hv. by rewrite (Hm v o' Hv).
  - intros Ho. left. split; [|by apply Hm]. rewrite Hl. apply list_elem_of_fmap.
    exists (u, o). split; [done|]. by apply elem_of_map_to_list.
Qed.

Section Sync.
Context {TL : TrieLib} {LW : TrieLaws} {HO : HashOrder}.
Variable U : OrderbookItem -> Prop.
Hypothesis HU : universe U.

Notation orders_of n := (maker_orders (order_set (bn_book n))).

(** A node without waiting batches keeps the tries of its book. *)
Lemma idle_ok n :
  reachable U n -> bn_queue n = [] ->
  book_ok U (bn_book n) /\ store_ok U (bn_store n) (orders_of n).
Proof.
  intros Hr Hq. destruct (reachable_ok U HU n Hr) as [C [Hb Hs _ Ho]]. split; [done|].
  eapply store_ok_ext; [|exact Hs]. intros k. rewrite <- Ho, Hq. done.
Qed.

Lemma worker_reachable env n : reachable U n -> reachable U (run_worker env n).
Proof.
  unfold run_worker. destruct n as [b s q subs]. simpl. revert s. induction q as [|ops q IH]; intros s Hr; simpl; [done|].
  apply IH. eapply rtc_r; [exact Hr|]. by apply (StepWorker U (mkBookNode _ b s (ops :: q) subs) env).
Qed.

Lemma worker_book env n : bn_book (run_worker env n) = bn_book n.
Proof. done. Qed.

(** ** The answer *)

(** The orders under a key have this key, and they are valid. *)
Lemma maker_orders_key n k l :
  book_ok U (bn_book n) -> l ≡ₚ map_to_list (orders_of n k) ->
  Forall (fun o => U o /\ item_key o = k) l.*2 /\ NoDup (map oi_uuid l.*2) /\
  Forall valid_item l.*2 /\ map oi_uuid l.*2 = l.*1.
Proof.
  intros Hb Hl.
  assert (forall u o, (u, o) ∈ l -> order_set (bn_book n) !! u = Some o /\ item_key o = k) as Hin.
  { intros u o. rewrite Hl, elem_of_map_to_list. apply maker_orders_lookup. }
  assert (map oi_uuid l.*2 = l.*1) as Heq.
  { rewrite <- list_fmap_compose. apply list_fmap_ext. intros i [u o] Hi.
    apply list_elem_of_lookup_2, Hin in Hi as [Ho _]. simpl. by apply (io_key _ (bk_index U _ Hb)). }
  split; [|split; [|split; [|done]]].
  - apply Forall_forall. intros o ([u o'] & -> & Ho)%list_elem_of_fmap. simpl.
    apply Hin in Ho as [Ho Hk]. split; [|done]. by destruct (bk_known U _ Hb _ _ Ho).
  - rewrite Heq, Hl. apply NoDup_fst_map_to_list.
  - apply Forall_forall. intros o ([u o'] & -> & Ho)%list_elem_of_fmap. simpl.
    apply Hin in Ho as [Ho Hk]. by apply (io_valid _ (bk_index U _ Hb) u).
Qed.

Lemma nonempty_root n k :
  bn_queue n = [] -> reachable U n -> is_empty_root (root_at (bn_store n) k) = false ->
  root_at (bn_store n) k = orders_root (orders_of n k) /\ orders_of n k <> ∅.
Proof.
  intros Hq Hr He. destruct (idle_ok n Hr Hq) as [_ Hs].
  unfold is_empty_root in He. rewrite orb_false_iff, !bool_decide_eq_false in He.
  destruct He as [Hd Hn]. destruct (so_root U _ _ Hs k) as [[? _]|Hroot]; [done|].
  split; [done|]. intros E. apply Hn. rewrite Hroot, E. unfold orders_root, bytes_of.
  rewrite fmap_empty. apply root_of_empty.
Qed.

(** The request for the current root is answered with the whole trie. *)
Lemma current_root_full env live_history n pk pr :
  reachable U n -> bn_queue n = [] -> is_empty_root (root_at (bn_store n) (pk, pr)) = false ->
  exists state l, pubkeys_state (bn_store n) !! pk = Some state /\
    l ≡ₚ map_to_list (orders_of n (pk, pr)) /\
    pair_diff env live_history pk state (bn_book n) (memory_db (bn_store n)) pr
      (root_at (bn_store n) (pk, pr)) = Some (Ok (FullTrie l)).
Proof.
  intros Hr Hq He. destruct (idle_ok n Hr Hq) as [Hb Hs].
  destruct (nonempty_root n (pk, pr) Hq Hr He) as [Hroot _].
  assert (root_at (bn_store n) (pk, pr) <> H64_default) as Hd.
  { rewrite Hroot. by apply (orders_root_default U HU), (so_known U _ _ Hs). }
  destruct (get_full_trie_ok U HU (bn_store n) _ (pk, pr)
    (fun u => order_set (bn_book n) !! u) Hs Hd) as (l & Hfull & Hl).
  { intros u o Ho. by apply maker_orders_lookup in Ho as [? _]. }
  pose proof (so_history U _ _ Hs pk) as Hh. unfold root_at in Hd, Hfull, Hroot |- *. simpl in *.
  destruct (pubkeys_state (bn_store n) !! pk) as [state|] eqn:Hst; [|done].
  exists state, l. split; [done|]. split; [done|].
  unfold order_pair_root in *. unfold pair_diff.
  destruct (trie_roots state !! pr) as [r|] eqn:Hpr; [|done]. simpl in *.
  assert (result_map FullTrie (get_full_trie r (memory_db (bn_store n))
            (fun u => order_set (bn_book n) !! u)) = Ok (FullTrie l)) as Hres by by rewrite Hfull.
  destruct (live_history pr); [|by rewrite Hres].
  destruct (order_pairs_trie_state_history state !! pr) as [h|] eqn:Hhist; [|by rewrite Hres].
  destruct (Hh state pr h eq_refl Hhist) as [Hok _].
  unfold from_history. rewrite Hres. unfold history_get.
  rewrite Hroot, (ho_head _ _ _ Hok). by destruct (live_diff _ _ _ _).
Qed.

Lemma on_each_full l acc :
  foldl on_each acc (map (fun p : Uuid * OrderbookItem => (p.1, Some p.2)) l) = foldl add_infos acc l.*2.
Proof. revert acc. induction l as [|[u o] l IH]; intros acc; simpl; [done|]. apply IH. Qed.

Lemma iter_map_singleton {K} `{Countable K} {A} (k : K) (x : A) : iter_map {[k := x]} = [(k, x)].
Proof.
  apply Permutation_singleton_r. rewrite iter_map_perm. by rewrite map_to_list_singleton.
Qed.

(** The response to a request for the current root of one pair. *)
Lemma current_root_response env live_history n pk pr :
  reachable U n -> bn_queue n = [] -> is_empty_root (root_at (bn_store n) (pk, pr)) = false ->
  exists l infos,
    process_sync_pubkey_orderbook_state env live_history (bn_book n) (bn_store n) pk
      {[pr := root_at (bn_store n) (pk, pr)]} =
      Some (Ok (Some (mkSyncRes {[pr := FullTrie (map as_p2p l)]} infos.1 infos.2))) /\
    (forall o, o ∈ l -> infos_for infos o) /\
    l ≡ₚ (map_to_list (orders_of n (pk, pr))).*2.
Proof.
  intros Hr Hq He.
  destruct (current_root_full env live_history n pk pr Hr Hq He) as (state & l & Hst & Hl & Hd).
  destruct (idle_ok n Hr Hq) as [Hb _].
  destruct (maker_orders_key n _ l Hb Hl) as (_ & Hnd & _ & Hu).
  exists l.*2, (infos_of l.*2). split; [|split].
  - unfold process_sync_pubkey_orderbook_state. rewrite Hst, iter_map_singleton. cbn [pair_diffs].
    rewrite Hd. simpl. rewrite app_nil_r, on_each_full. unfold infos_of.
    replace (map (fun p => (p.1, p2p_item p.2)) l) with (map as_p2p l.*2); [done|].
    rewrite map_map. apply map_ext_in. intros [u o] Hin%list_elem_of_In. unfold as_p2p. simpl. f_equal.
    apply (io_key _ (bk_index U _ Hb)).
    by rewrite Hl, elem_of_map_to_list, maker_orders_lookup in Hin; destruct Hin.
  - intros o Ho. by apply infos_of_for.
  - by rewrite Hl.
Qed.

(** ** The asking node *)

(** A whole trie of valid orders that were not cancelled here becomes the
    maker's orders of the pair. *)
Lemma full_trie_replaces live l m pk pr infos b :
  book_ok U b -> proper_pair pr -> (forall o, o ∈ l -> infos_for infos o) ->
  Forall (fun o => U o /\ item_key o = (pk, pr)) l -> NoDup (map oi_uuid l) -> Forall valid_item l ->
  (forall u o, m !! u = Some o -> oi_uuid o = u) -> l ≡ₚ (map_to_list m).*2 ->
  (forall o, o ∈ l -> recently_cancelled_by live (oi_uuid o) b <> Some pk) ->
  let r := process_pubkey_full_trie live (map as_p2p l) (mkTrieParams pk pr infos.1 infos.2) b in
  sent_ok U (pk, pr) b r /\ r.1 <> [] /\
  forall k, maker_orders (order_set r.2) k =
    if decide (k = (pk, pr)) then m else maker_orders (order_set b) k.
Proof.
  intros Hb Hpr Hi Hl Hnd Hv Hm Hlm Hc. set (params := mkTrieParams _ _ _ _).
  pose proof (received_items_same pk pr infos l Hi) as Hsame. fold params in Hsame.
  assert (items_of U pk pr (received_items params (map as_p2p l))) as Hit by by rewrite Hsame.
  pose proof (full_trie_sent U HU live (map as_p2p l) params b Hb Hpr Hit) as Hsent.
  revert Hsent. unfold process_pubkey_full_trie. fold (received_items params (map as_p2p l)).
  rewrite Hsame.
  assert ((insert_all live l (index_remove_pubkey_pair_orders (tp_pubkey params) (tp_alb_pair params) b)).1
          = map insert_of l) as Hops.
  { apply insert_all_valid; [done|]. intros o Ho. unfold recently_cancelled_by.
    rewrite remove_pair_cancelled. rewrite Forall_forall in Hl. destruct (Hl o Ho) as [_ [= -> _]].
    by apply Hc. }
  destruct (insert_all _ _ _) as [ops b']. simpl in *. subst ops. intros Hsent.
  split; [done|]. split; [done|]. intros k. destruct (se_step _ _ _ _ Hsent) as [_ Hmir].
  specialize (Hmir k). simpl in Hmir. rewrite Hmir, (spec_inserts (pk, pr)).
  - unfold set_key. rewrite (decide_True (P := (pk, pr) = (pk, pr))) by done.
    case_decide; [|done]. by apply inserted_all.
  - eapply Forall_impl; [exact Hl|]. by intros ? [].
Qed.

Lemma orders_proper n k :
  book_ok U (bn_book n) -> orders_of n k <> ∅ -> proper_pair k.2.
Proof.
  intros Hb Hne. apply map_choose in Hne as (u & o & Ho).
  apply maker_orders_lookup in Ho as [Ho <-]. apply proper_pair_of_item.
  apply (un_plain U HU). by destruct (bk_known U _ Hb _ _ Ho).
Qed.

(** Where the response is about one whole trie, it is a fair input. *)
Lemma single_response_fair live pk pr l infos b :
  proper_pair pr -> (forall o, o ∈ l -> infos_for infos o) ->
  Forall (fun o => U o /\ item_key o = (pk, pr)) l -> NoDup (map oi_uuid l) ->
  fair_input U (InSyncResponse live pk (mkSyncRes {[pr := FullTrie (map as_p2p l)]} infos.1 infos.2)) b.
Proof.
  intros Hpr Hi Hl Hnd pr' d. cbn [pair_orders_diff]. intros [<- <-]%lookup_singleton_Some. split; [done|]. simpl.
  by rewrite received_items_same.
Qed.

(** One round: the announcement, the request, the answer, and the worker. *)
Lemma one_round env peer_env worker_env live_history live relay R Q pk pr :
  let r := root_at (bn_store R) (pk, pr) in
  let Q' := run_worker worker_env
              (process_orders_keep_alive env peer_env live_history live relay pk
                 {[pr := r]} R Q) in
  reachable U R -> reachable U Q -> bn_queue R = [] -> bn_queue Q = [] ->
  is_empty_root r = false -> is_subscribed Q ("orbk/" ++ pr)%string || relay = true ->
  root_at (bn_store Q) (pk, pr) <> r ->
  (forall u o, orders_of R (pk, pr) !! u = Some o ->
     recently_cancelled_by live u (bn_book Q) <> Some pk) ->
  reachable U Q' /\ bn_queue Q' = [] /\ root_at (bn_store Q') (pk, pr) = r /\
  forall k, orders_of Q' k = if decide (k = (pk, pr)) then orders_of R k else orders_of Q k.
Proof.
  intros r Q' HR HQ HqR HqQ He Hsub Hdiff Hcan.
  destruct (idle_ok Q HQ HqQ) as [HbQ HsQ]. destruct (idle_ok R HR HqR) as [HbR HsR].
  destruct (nonempty_root R (pk, pr) HqR HR He) as [Hroot Hne].
  pose proof (orders_proper R (pk, pr) HbR Hne) as Hpr. simpl in Hpr.
  assert (forall Q1, reachable U Q1 -> bn_queue Q1 = [] ->
            (forall k, orders_of Q1 k = if decide (k = (pk, pr)) then orders_of R k else orders_of Q k) ->
            root_at (bn_store Q1) (pk, pr) = r) as Hfinal.
  { intros Q1 HQ1 Hq1 Ho1. destruct (idle_ok Q1 HQ1 Hq1) as [_ Hs1].
    specialize (Ho1 (pk, pr)). rewrite decide_True in Ho1 by done.
    destruct (so_root U _ _ Hs1 (pk, pr)) as [[_ E]|E]; [congruence|]. unfold r. congruence. }
  assert (reachable U Q' /\ bn_queue Q' = [] /\
    forall k, orders_of Q' k = if decide (k = (pk, pr)) then orders_of R k else orders_of Q k)
    as (? & ? & ?); [|by auto].
  unfold Q', process_orders_keep_alive.
  pose proof (prepare_sync_spec U HU env pk {[pr := r]} relay (is_subscribed Q) (bn_store Q) _ HsQ) as Hp.
  pose proof (StepKeepAlive U Q env pk {[pr := r]} relay) as Hstep.
  destruct (prepare_sync_request_for_keep_alive _ _ _ _ _ _) as [request s]. simpl in Hstep.
  destruct Hp as (_ & _ & Hreq).
  assert (reachable U (mkBookNode _ (bn_book Q) s (bn_queue Q) (bn_subs Q))) as HQ1 by by eapply rtc_r.
  destruct request as [roots|]; cycle 1.
  { exfalso. assert ((default ∅ None : gmap string H64) !! pr = Some r) as Hx
      by (apply Hreq; by rewrite lookup_singleton_eq).
    simpl in Hx. by rewrite lookup_empty in Hx. }
  assert (roots = {[pr := r]}) as ->.
  { apply map_eq. intros pr'. apply option_eq. intros r'. simpl in Hreq. rewrite Hreq. split; [tauto|].
    intros [<- <-]%lookup_singleton_Some. by rewrite lookup_singleton_eq. }
  destruct (current_root_response peer_env live_history R pk pr HR HqR He) as (l & infos & Hres & Hi & Hl).
  fold r in Hres. rewrite Hres.
  destruct (maker_orders_key R (pk, pr) (map_to_list (orders_of R (pk, pr))) HbR) as (Hk & Hnd & Hv & _);
    [reflexivity|].
  rewrite <- Hl in Hk, Hnd, Hv.
  destruct (full_trie_replaces live l (orders_of R (pk, pr)) pk pr infos (bn_book Q))
    as (_ & Hops & Ho); try done.
  { intros u o [Ho _]%maker_orders_lookup. by apply (io_key _ (bk_index U _ HbR)). }
  { intros o Ho. rewrite Hl in Ho. apply list_elem_of_fmap in Ho as ([u o'] & -> & Hu).
    apply elem_of_map_to_list in Hu. simpl. pose proof Hu as [Hu' _]%maker_orders_lookup.
    rewrite (io_key _ (bk_index U _ HbR) _ _ Hu'). by eapply Hcan. }
  set (response := mkSyncRes _ _ _).
  assert (process_sync_response live pk response (bn_book Q) =
          process_pubkey_full_trie live (map as_p2p l) (mkTrieParams pk pr infos.1 infos.2) (bn_book Q))
    as Hpsr.
  { unfold process_sync_response. simpl. rewrite iter_map_singleton. simpl.
    by destruct (process_pubkey_full_trie _ _ _ _). }
  rewrite Hpsr. rewrite <- Hpsr in Ho. revert Hpsr Ho.
  destruct (process_pubkey_full_trie _ _ _ _) as [ops b] eqn:Ep. simpl in Hops. intros Hpsr. rewrite Hpsr. simpl. intros Ho.
  split; [|split; [done|]]; cycle 1.
  { intros k. simpl. rewrite (Ho k). by case_decide; subst. } apply worker_reachable. eapply rtc_r; [exact HQ1|].
  apply (StepHandle U (mkBookNode _ (bn_book Q) s (bn_queue Q) (bn_subs Q)) (InSyncResponse live pk response)); [|done].
  by apply single_response_fair.
Qed.

(** Any request is answered, with a change that turns what the asked root
    stands for into the current orders, or with all of them. *)
Lemma any_root_answer env live_history n pk pr from state :
  reachable U n -> bn_queue n = [] -> root_at (bn_store n) (pk, pr) <> H64_default ->
  pubkeys_state (bn_store n) !! pk = Some state ->
  exists answer,
    pair_diff env live_history pk state (bn_book n) (memory_db (bn_store n)) pr from =
      Some (Ok answer) /\
    match answer with
    | Delta d => from <> root_at (bn_store n) (pk, pr) /\
        forall c, occurs c -> root_of c = from ->
          patch trie_state_bytes d c = bytes_of (orders_of n (pk, pr))
    | FullTrie l => l ≡ₚ map_to_list (orders_of n (pk, pr))
    end.
Proof.
  intros Hr Hq Hd Hst. destruct (idle_ok n Hr Hq) as [Hb Hs].
  destruct (get_full_trie_ok U HU (bn_store n) _ (pk, pr)
    (fun u => order_set (bn_book n) !! u) Hs Hd) as (l & Hfull & Hl).
  { intros u o Ho. by apply maker_orders_lookup in Ho as [? _]. }
  pose proof (so_history U _ _ Hs pk state pr) as Hh.
  pose proof (so_root U _ _ Hs (pk, pr)) as Hroot.
  unfold root_at in Hroot, Hd, Hfull |- *. simpl in *. rewrite Hst in Hroot, Hd, Hfull |- *.
  unfold order_pair_root in *. unfold pair_diff.
  destruct (trie_roots state !! pr) as [r|] eqn:Hpr; [|done]. simpl in *.
  destruct Hroot as [[? _]|Hroot]; [done|].
  assert (result_map FullTrie (get_full_trie r (memory_db (bn_store n))
            (fun u => order_set (bn_book n) !! u)) = Ok (FullTrie l)) as Hres by by rewrite Hfull.
  destruct (live_history pr); cycle 1.
  { rewrite Hres. by exists (FullTrie l). }
  destruct (order_pairs_trie_state_history state !! pr) as [h|] eqn:Hhist; cycle 1.
  { rewrite Hres. by exists (FullTrie l). }
  destruct (Hh h Hst eq_refl) as [Hok _].
  destruct (from_history_sound U HU (live_diff env pk pr) h (orders_of n (pk, pr)) from
    (memory_db (bn_store n)) (fun u => order_set (bn_book n) !! u) Hok (so_known U _ _ Hs (pk, pr)))
    as (res & Hf & Hcase).
  rewrite <- Hroot in Hf, Hcase. rewrite Hf. destruct Hcase as [(d & -> & Hne & Hp)| ->].
  - exists (Delta d). auto.
  - rewrite Hres. by exists (FullTrie l).
Qed.

End Sync.
