(* ===== verification/OrderbookFetch.v ===== *)
(** * Fetching a whole book

    What a node answers to [GetOrderbook], and what the asking node has after
    it. *)

From S2P Require Import Prelude MmNumber DexFee Swap Ordermatch OrdermatchNode Orderbook OrderbookProps TrieStore TrieStoreProps OrderbookNode OrderbookSync.

Open Scope Z_scope.

(** ** Orders by maker *)

Definition by_maker (pk : string) (l : list (Uuid * OrderbookItem)) : list (Uuid * OrderbookItem) :=
  List.filter (fun p => bool_decide (oi_pubkey p.2 = pk)) l.

Definition as_sent (p : Uuid * OrderbookItem) : Uuid * OrderbookP2PItem := (p.1, p2p_item p.2).

Lemma add_by_pubkey_lookup l m pk :
  foldl add_by_pubkey m l !! pk =
    match by_maker pk l with
    | [] => m !! pk
    | l' => Some (default [] (m !! pk) ++ map as_sent l')
    end.
Proof.
  revert m. induction l as [|[u o] l IH]; intros m; simpl; [done|]. rewrite IH.
  unfold add_by_pubkey. simpl. case_bool_decide as Hpk.
  - subst pk. rewrite lookup_insert_eq. destruct (by_maker (oi_pubkey o) l); simpl; [done|].
    by rewrite <- app_assoc.
  - rewrite lookup_insert_ne by done. done.
Qed.

(** The orders of a pair that a request walks through. *)
Definition listed `{HashOrder} (b : Orderbook) (base rel : string) : list (Uuid * OrderbookItem) :=
  omap (fun u => (u,.) <$> order_set b !! u)
    (iter_set (uuids_at b (base, rel)) ++ iter_set (uuids_at b (rel, base))).

Lemma elem_of_listed `{HashOrder} b base rel u o :
  index_ok b ->
  (u, o) ∈ listed b base rel <->
  order_set b !! u = Some o /\ (base_rel o = (base, rel) \/ base_rel o = (rel, base)).
Proof.
  intros Hb. unfold listed. rewrite list_elem_of_omap. setoid_rewrite elem_of_app.
  split.
  - intros (v & Hv & Ho). apply fmap_Some in Ho as (o' & Ho & [= -> ->]). split; [done|].
    destruct Hv as [Hv|Hv]; rewrite iter_set_perm, elem_of_elements, (io_unordered b Hb) in Hv;
      destruct Hv as (o2 & Ho2 & Hp); assert (o2 = o') by congruence; subst; auto.
  - intros [Ho Hp]. exists u. rewrite Ho. split; [|done].
    destruct Hp; [left|right]; rewrite iter_set_perm, elem_of_elements, (io_unordered b Hb); eauto.
Qed.

Lemma listed_nodup `{HashOrder} b base rel :
  index_ok b -> base <> rel -> NoDup (listed b base rel).*1.
Proof.
  intros Hb Hne.
  assert (forall (l : list Uuid), NoDup l ->
    NoDup (omap (fun u => (u,.) <$> order_set b !! u) l).*1 /\
    forall u, u ∈ (omap (fun u => (u,.) <$> order_set b !! u) l).*1 -> u ∈ l) as Hl.
  { induction 1 as [|u l Hu _ [IH IHin]]; [split; [constructor|done]|]. cbn.
    destruct (order_set b !! u) as [o|]; simpl; [|set_solver]. split; [constructor; auto|set_solver]. }
  apply Hl, NoDup_app. split; [rewrite iter_set_perm; apply NoDup_elements|]. split.
  - intros u. rewrite !iter_set_perm, !elem_of_elements, !(io_unordered b Hb).
    intros (o & Ho & Hp) (o' & Ho' & Hp'). congruence.
  - rewrite iter_set_perm. apply NoDup_elements.
Qed.

Lemma plain_pair a b :
  split_once a = None -> split_once b = None -> proper_pair (alb_ordered_pair a b).
Proof.
  intros Ha Hb.
  exact (proper_pair_of_item (mkItem "" a b (0 # 1) (0 # 1) (0 # 1) [] 0 [] [] None) (conj Ha Hb)).
Qed.

(** A maker's part of them are its orders of the pair. *)
Lemma by_maker_orders `{HashOrder} b base rel pk :
  index_ok b -> base <> rel -> split_once base = None -> split_once rel = None ->
  (forall u o, order_set b !! u = Some o -> plain_tickers o) ->
  by_maker pk (listed b base rel) ≡ₚ
    map_to_list (maker_orders (order_set b) (pk, alb_ordered_pair base rel)).
Proof.
  intros Hb Hne Hbase Hrel Hplain. apply NoDup_Permutation.
  - apply NoDup_ListNoDup, List.NoDup_filter, NoDup_ListNoDup. by eapply NoDup_fmap_1, listed_nodup.
  - apply NoDup_map_to_list.
  - intros [u o]. unfold by_maker. rewrite list_elem_of_In, filter_In, <- list_elem_of_In.
    rewrite elem_of_listed by done. rewrite bool_decide_eq_true, elem_of_map_to_list, maker_orders_lookup.
    simpl. unfold item_key. destruct (plain_pair base rel Hbase Hrel) as (x & y & Hs & Hp).
    assert (order_set b !! u = Some o -> item_pair o = alb_ordered_pair base rel <->
              base_rel o = (base, rel) \/ base_rel o = (rel, base)) as Hcase.
    { intros Ho. rewrite (pair_cases o _ x y) by eauto.
      assert ((x, y) = (base, rel) \/ (x, y) = (rel, base)) as [[= -> ->]|[= -> ->]]; [|done|tauto].
      unfold alb_ordered_pair in Hs. destruct (String.ltb _ _); rewrite split_once_pair in Hs by done;
        naive_solver. }
    split.
    + intros [[Ho Hbr] <-]. split; [done|]. f_equal. by apply Hcase.
    + intros [Ho [= <- Hi]]. split; [|done]. split; [done|]. by apply Hcase.
Qed.


Section Fetch.
Context {TL : TrieLib} {LW : TrieLaws} {HO : HashOrder}.
Variable U : OrderbookItem -> Prop.
Hypothesis HU : universe U.

Notation orders_of n := (maker_orders (order_set (bn_book n))).

(** ** The answer *)

Definition pair_total (b : Orderbook) (base rel : string) : nat :=
  size (uuids_at b (base, rel)) + size (uuids_at b (rel, base)).

Lemma listed_orders b base rel :
  get_pubkeys_orders b base rel =
    mkPubkeysOrders (pair_total b base rel) (foldl add_by_pubkey ∅ (listed b base rel))
      (infos_of (map snd (listed b base rel))).1 (infos_of (map snd (listed b base rel))).2.
Proof. done. Qed.

(** The answer has, for every maker, its orders of the pair, and what makes
    the items complete. *)
Definition whole_book (n : BookNode) (base rel : string) (res : GetOrderbookRes) : Prop :=
  forall pk,
    match pubkey_orders res !! pk with
    | None => orders_of n (pk, alb_ordered_pair base rel) = ∅
    | Some item => exists l,
        gi_orders item = map as_p2p l /\ l <> [] /\
        l ≡ₚ (map_to_list (orders_of n (pk, alb_ordered_pair base rel))).*2 /\
        forall o, o ∈ l -> infos_for (go_protocol_infos res, go_conf_infos res) o
    end.

Lemma states_to_send states l :
  (forall pk orders, (pk, orders) ∈ l -> is_Some (states !! pk)) ->
  exists items, orders_to_send states l = Ok items /\ items.*1 = l.*1 /\
    forall pk orders, (pk, orders) ∈ l -> exists t, (pk, mkPubkeyItem t [] orders) ∈ items.
Proof.
  induction l as [|[pk orders] l IH]; intros Hl; simpl; [exists []; set_solver|].
  destruct (Hl pk orders) as [state Hst]; [set_solver|]. rewrite Hst. simpl.
  destruct IH as (items & -> & Hk & Hin); [set_solver|]. simpl. eexists. split; [done|].
  split; [cbn; f_equal; exact Hk|]. intros pk' orders' [[= -> ->]|Hx]%elem_of_cons.
  - eexists. by apply elem_of_cons; left.
  - destruct (Hin _ _ Hx) as [t ?]. exists t. set_solver.
Qed.

Lemma order_has_state s C pk pr u o :
  store_ok U s C -> C (pk, pr) !! u = Some o -> is_Some (pubkeys_state s !! pk).
Proof.
  intros Hs Ho. destruct (pubkeys_state s !! pk) as [p|] eqn:E; [by eexists|exfalso].
  destruct (so_root U s C Hs (pk, pr)) as [[_ Hc]|Hc].
  - by rewrite Hc, lookup_empty in Ho.
  - unfold root_at in Hc. simpl in Hc. rewrite E in Hc.
    by destruct (orders_root_default U HU _ (so_known U s C Hs (pk, pr))).
Qed.

Lemma whole_book_answer n base rel :
  reachable U n -> bn_queue n = [] -> base <> rel ->
  split_once base = None -> split_once rel = None ->
  if bool_decide (MAX_ORDERS_NUMBER_IN_ORDERBOOK_RESPONSE < pair_total (bn_book n) base rel)%nat
  then process_get_orderbook_request (bn_book n) (bn_store n) base rel = Err OrderbookTooLarge
  else exists res, process_get_orderbook_request (bn_book n) (bn_store n) base rel = Ok res /\
    whole_book n base rel res.
Proof.
  intros Hr Hq Hne Hbase Hrel. destruct (idle_ok U HU n Hr Hq) as [Hb Hs].
  pose proof (bk_index U _ Hb) as Hi.
  unfold process_get_orderbook_request. rewrite listed_orders. cbn zeta.
  cbn [total_number_of_orders uuids_by_pubkey po_protocol_infos po_conf_infos].
  case_bool_decide; [done|]. set (l := listed (bn_book n) base rel).
  assert (forall pk, by_maker pk l ≡ₚ map_to_list (orders_of n (pk, alb_ordered_pair base rel))) as Hby.
  { intros pk. apply by_maker_orders; auto. intros u o Ho. apply (un_plain U HU).
    by destruct (bk_known U _ Hb _ _ Ho). }
  assert (map oi_uuid (map snd l) = l.*1) as Huu.
  { rewrite map_map. apply map_ext_in. intros [u o] Ho%list_elem_of_In.
    apply elem_of_listed in Ho as [Ho _]; [|done]. by apply (io_key _ Hi). }
  destruct (states_to_send (pubkeys_state (bn_store n)) (iter_map (foldl add_by_pubkey ∅ l)))
    as (items & -> & Hk & Hin).
  { intros pk orders. rewrite iter_map_perm, elem_of_map_to_list, add_by_pubkey_lookup, lookup_empty.
    destruct (by_maker pk l) as [|[u o] l'] eqn:E; [done|]. intros _.
    apply (order_has_state _ _ pk (alb_ordered_pair base rel) u o Hs).
    apply elem_of_map_to_list. rewrite <- Hby, E. by left. }
  eexists. split; [done|]. intros pk. cbn [pubkey_orders go_protocol_infos go_conf_infos].
  assert (NoDup items.*1) as Hnd by (rewrite Hk, iter_map_perm; apply NoDup_fst_map_to_list).
  destruct (list_to_map items !! pk : option GetOrderbookPubkeyItem) as [item|] eqn:E.
  - apply elem_of_list_to_map_2 in E.
    assert (pk ∈ (iter_map (foldl add_by_pubkey ∅ l)).*1) as Hpk
      by (rewrite <- Hk; by apply (list_elem_of_fmap_2 fst items (pk, item))).
    apply list_elem_of_fmap in Hpk as ([pk' orders] & Heq & Ho). simpl in Heq. subst pk'.
    destruct (Hin _ _ Ho) as [t Ht].
    assert (item = mkPubkeyItem t [] orders) as ->.
    { apply elem_of_list_to_map in E, Ht; [|done..]. congruence. }
    rewrite iter_map_perm, elem_of_map_to_list, add_by_pubkey_lookup, lookup_empty in Ho.
    destruct (by_maker pk l) as [|x l'] eqn:El; [done|]. rewrite <- El in Ho. simplify_eq/=.
    exists (by_maker pk l).*2. split; [|split; [|split]].
    + rewrite map_map. apply map_ext_in. intros [u o] Hu%filter_In. destruct Hu as [Hu%list_elem_of_In _].
      apply elem_of_listed in Hu as [Hu _]; [|done]. unfold as_sent, as_p2p. simpl.
      by rewrite (io_key _ Hi _ _ Hu).
    + by rewrite El.
    + by rewrite Hby.
    + intros o Ho. rewrite <- surjective_pairing. apply infos_of_for; [rewrite Huu; by apply listed_nodup|].
      apply list_elem_of_fmap in Ho as (p & -> & Hp). apply list_elem_of_In in Hp.
      apply filter_In in Hp as [Hp _]. apply list_elem_of_In. by apply in_map.
  - apply not_elem_of_list_to_map in E. rewrite Hk in E. apply map_to_list_empty_iff.
    specialize (Hby pk). destruct (by_maker pk l) as [|x l'] eqn:El; [by apply Permutation_nil|].
    exfalso. apply E. apply list_elem_of_fmap. exists (pk, map as_sent (x :: l')). split; [done|].
    rewrite iter_map_perm, elem_of_map_to_list, add_by_pubkey_lookup, lookup_empty, El. done.
Qed.

(** ** The asking node *)

Definition accepted (my_pub : option string) (usable banned : string -> bool) (b : Orderbook)
  (pk : string) : bool :=
  usable pk && negb (is_my_order pk my_pub (my_p2p_pubkeys b)) && negb (banned pk).

Lemma index_remove_mine u b : my_p2p_pubkeys (index_remove u b).2 = my_p2p_pubkeys b.
Proof. unfold index_remove. by destruct (order_set b !! u). Qed.

Lemma index_remove_cancelled u b : recently_cancelled (index_remove u b).2 = recently_cancelled b.
Proof. unfold index_remove. by destruct (order_set b !! u). Qed.

Lemma insert_all_keeps live l b :
  let b' := (insert_all live l b).2 in
  recently_cancelled b' = recently_cancelled b /\ my_p2p_pubkeys b' = my_p2p_pubkeys b.
Proof.
  revert b. induction l as [|o l IH]; intros b; simpl; [done|].
  assert (recently_cancelled (index_insert_or_update live o b).2 = recently_cancelled b /\
          my_p2p_pubkeys (index_insert_or_update live o b).2 = my_p2p_pubkeys b) as [H1 H2].
  { destruct (index_update_spec live o b); simpl; auto using index_remove_mine, index_remove_cancelled. }
  destruct (index_insert_or_update live o b) as [ops b1]. specialize (IH b1).
  destruct (insert_all live l b1) as [ops' b2]. simpl in *. destruct IH. split; congruence.
Qed.

Lemma remove_pair_mine pk pr b :
  my_p2p_pubkeys (index_remove_pubkey_pair_orders pk pr b) = my_p2p_pubkeys b.
Proof.
  assert (forall l b, my_p2p_pubkeys (foldl (remove_if_owned pk) b l) = my_p2p_pubkeys b) as Hl.
  { clear b. induction l as [|u l IH]; intros b; simpl; [done|]. rewrite IH.
    unfold remove_if_owned. repeat case_match; auto using index_remove_mine. }
  unfold index_remove_pubkey_pair_orders. destruct (split_once pr) as [[x y]|]; [|done].
  simpl. by rewrite !Hl.
Qed.

Lemma full_trie_keeps live l params b :
  let b' := (process_pubkey_full_trie live l params b).2 in
  recently_cancelled b' = recently_cancelled b /\ my_p2p_pubkeys b' = my_p2p_pubkeys b.
Proof.
  unfold process_pubkey_full_trie.
  pose proof (insert_all_keeps live (map (fun p => received_item params p.1 p.2) l)
    (index_remove_pubkey_pair_orders (tp_pubkey params) (tp_alb_pair params) b)) as Hk.
  destruct (insert_all _ _ _) as [ops b']. simpl in *.
  by rewrite remove_pair_cancelled, remove_pair_mine in Hk.
Qed.

(** What [whole_book] says of one maker. *)
Definition good_item (n : BookNode) (pr : string) (res : GetOrderbookRes) (pk : string)
  (item : GetOrderbookPubkeyItem) : Prop :=
  exists l, gi_orders item = map as_p2p l /\ l ≡ₚ (map_to_list (orders_of n (pk, pr))).*2 /\
    forall o, o ∈ l -> infos_for (go_protocol_infos res, go_conf_infos res) o.

Lemma good_item_orders n k (l : list OrderbookItem) :
  book_ok U (bn_book n) -> l ≡ₚ (map_to_list (orders_of n k)).*2 ->
  Forall (fun o => U o /\ item_key o = k) l /\ NoDup (map oi_uuid l) /\ Forall valid_item l /\
  forall o, o ∈ l -> orders_of n k !! oi_uuid o = Some o.
Proof.
  intros Hb Hl. destruct (maker_orders_key U n k (map_to_list (orders_of n k)) Hb) as (H1 & H2 & H3 & _);
    [reflexivity|]. rewrite <- Hl in H1, H2, H3. split; [done|]. split; [done|]. split; [done|].
  intros o Ho. rewrite Hl in Ho. apply list_elem_of_fmap in Ho as ([u o'] & -> & Hu).
  apply elem_of_map_to_list in Hu. simpl. pose proof Hu as [Hu' _]%maker_orders_lookup.
  by rewrite (io_key _ (bk_index U _ Hb) _ _ Hu').
Qed.

Lemma fill_fold live my_pub usable banned R pr res b0 l ops b :
  book_ok U (bn_book R) -> proper_pair pr -> NoDup l.*1 ->
  (forall pk item, (pk, item) ∈ l -> good_item R pr res pk item) ->
  (forall pk u o, accepted my_pub usable banned b0 pk = true -> orders_of R (pk, pr) !! u = Some o ->
     recently_cancelled_by live u b0 <> Some pk) ->
  book_ok U b -> recently_cancelled b = recently_cancelled b0 -> my_p2p_pubkeys b = my_p2p_pubkeys b0 ->
  forall k, maker_orders (order_set (foldl (fill_pubkey live my_pub usable banned pr res) (ops, b) l).2) k =
    if decide (k.2 = pr /\ k.1 ∈ l.*1 /\ accepted my_pub usable banned b0 k.1 = true)
    then orders_of R k else maker_orders (order_set b) k.
Proof.
  intros HbR Hpr Hnd Hgood Hcan. revert ops b. induction l as [|[pk item] l IH]; intros ops b Hb Hrc Hmy k.
  { simpl. rewrite decide_False; [done|]. set_solver. }
  cbn [foldl fmap list_fmap fst] in *. apply NoDup_cons in Hnd as [Hn Hnd].
  specialize (IH Hnd (fun pk item Hin => Hgood pk item (list_elem_of_further _ _ _ Hin))).
  unfold fill_pubkey at 2.
  assert (negb (usable pk) || is_my_order pk my_pub (my_p2p_pubkeys b) || banned pk =
          negb (accepted my_pub usable banned b0 pk)) as ->.
  { unfold accepted. rewrite Hmy. by destruct (usable pk), (is_my_order _ _ _), (banned pk). }
  destruct (accepted my_pub usable banned b0 pk) eqn:Hacc; simpl; cycle 1.
  { rewrite IH by done. apply decide_ext. split; [set_solver|].
    intros (? & [Hk|?]%elem_of_cons & ?); [|done]. congruence. }
  destruct (Hgood pk item) as (items & Hit & Hp & Hinf); [by left|].
  destruct (good_item_orders R (pk, pr) items HbR Hp) as (Hkey & Hndi & Hv & Hlook).
  rewrite Hit.
  destruct (full_trie_replaces U HU live items (orders_of R (pk, pr)) pk pr
    (go_protocol_infos res, go_conf_infos res) b) as ([[Hb' _] _ _] & _ & Ho); try done.
  { intros u o [Ho _]%maker_orders_lookup. by apply (io_key _ (bk_index U _ HbR)). }
  { intros o Ho. unfold recently_cancelled_by. rewrite Hrc. apply (Hcan pk _ o Hacc). by apply Hlook. }
  pose proof (full_trie_keeps live (map as_p2p items)
    (mkTrieParams pk pr (go_protocol_infos res) (go_conf_infos res)) b) as [Hrc' Hmy'].
  simpl in Ho, Hb'. destruct (process_pubkey_full_trie _ _ _ _) as [ops' b']. simpl in *.
  rewrite IH by congruence. rewrite Ho. destruct (decide (k = (pk, pr))) as [->|Hk].
  - simpl. rewrite decide_False by tauto. rewrite decide_True; [done|]. set_solver.
  - apply decide_ext. destruct k as [pk' pr']. simpl. split; [set_solver|].
    intros (-> & [->|?]%elem_of_cons & ?); [done|done].
Qed.

(** One request, the answer, and the worker. *)
Lemma whole_book_round worker_env live my_pub usable banned base rel R Q :
  let pr := alb_ordered_pair base rel in
  let Q' := run_worker worker_env
              (request_and_fill_orderbook live my_pub usable banned base rel R Q) in
  reachable U R -> reachable U Q -> bn_queue R = [] -> base <> rel ->
  split_once base = None -> split_once rel = None ->
  (pair_total (bn_book R) base rel <= MAX_ORDERS_NUMBER_IN_ORDERBOOK_RESPONSE)%nat ->
  (forall pk u o, accepted my_pub usable banned (bn_book Q) pk = true ->
     orders_of R (pk, pr) !! u = Some o -> recently_cancelled_by live u (bn_book Q) <> Some pk) ->
  reachable U Q' /\
  forall k, orders_of Q' k =
    if decide (k.2 = pr /\ orders_of R k <> ∅ /\
               accepted my_pub usable banned (bn_book Q) k.1 = true)
    then orders_of R k else orders_of Q k.
Proof.
  intros pr Q' HR HQ HqR Hne Hbase Hrel Htot Hcan.
  destruct (idle_ok U HU R HR HqR) as [HbR _]. destruct (reachable_ok U HU Q HQ) as [? [HbQ _ _ _]].
  pose proof (whole_book_answer R base rel HR HqR Hne Hbase Hrel) as Hans.
  rewrite bool_decide_false in Hans by lia. destruct Hans as (res & Hres & Hbook). unfold whole_book in Hbook. fold pr in Hbook.
  assert (forall pk item, (pk, item) ∈ iter_map (pubkey_orders res) -> good_item R pr res pk item) as Hgood.
  { intros pk item. rewrite iter_map_perm, elem_of_map_to_list. intros Hi. pose proof (Hbook pk) as Hpk.
    rewrite Hi in Hpk. destruct Hpk as (l & ? & _ & ? & ?). by exists l. }
  assert (proper_pair pr) as Hpr by by apply plain_pair.
  unfold Q', request_and_fill_orderbook. rewrite Hres.
  assert (reachable U (let '(ops, b) := fill_orderbook live my_pub usable banned base rel res (bn_book Q) in
            mkBookNode _ b (bn_store Q) (enqueue ops (bn_queue Q))
              (<[orderbook_topic_from_base_rel base rel := Requested]> (bn_subs Q)))) as Hreach.
  { destruct (fill_orderbook _ _ _ _ _ _ _ _) as [ops b] eqn:E.
    eapply rtc_r; [eapply rtc_r; [exact HQ|]|eapply (StepSubscribe U (mkBookNode _ b (bn_store Q) _ (bn_subs Q)))].
    apply (StepHandle U Q (InOrderbook live my_pub usable banned base rel res)); [|done].
    simpl. fold pr. split; [done|]. intros pk item Hi.
    destruct (Hgood pk item) as (l & Hl & Hp & Hinf); [by rewrite iter_map_perm, elem_of_map_to_list|].
    rewrite Hl. rewrite (received_items_same pk pr (go_protocol_infos res, go_conf_infos res)) by done.
    by destruct (good_item_orders R (pk, pr) l HbR Hp) as (? & ? & _). }
  split; [by apply worker_reachable|]. intros k.
  transitivity (maker_orders (order_set (fill_orderbook live my_pub usable banned base rel res (bn_book Q)).2) k).
  { by destruct (fill_orderbook _ _ _ _ _ _ _ _). }
  unfold fill_orderbook. rewrite (fill_fold live my_pub usable banned R pr res (bn_book Q)); try done.
  - apply decide_ext. split.
    + intros (Hk & Hin & ?). split; [done|]. split; [|done]. destruct k as [pk pr']. simpl in *. subst pr'.
      rewrite iter_map_perm in Hin. apply list_elem_of_fmap in Hin as ([pk' item] & -> & Hi).
      apply elem_of_map_to_list in Hi. simpl. specialize (Hbook pk'). rewrite Hi in Hbook.
      destruct Hbook as (l & _ & Hl & Hp & _). intros E. rewrite E, map_to_list_empty in Hp.
      by apply Permutation_nil_r in Hp.
    + intros (Hk & Ho & ?). split; [done|]. split; [|done]. destruct k as [pk pr']. simpl in *. subst pr'.
      specialize (Hbook pk). destruct (pubkey_orders res !! pk) as [item|] eqn:E; [|done].
      rewrite iter_map_perm. apply list_elem_of_fmap. exists (pk, item). split; [done|].
      by apply elem_of_map_to_list.
  - rewrite iter_map_perm. apply NoDup_fst_map_to_list.
Qed.

End Fetch.
