(* ===== verification/BestOrders.v ===== *)
(** * The best orders of a book

    What [process_best_orders_p2p_request] chooses among the orders of a pair,
    which a book keeps sorted by price. *)

From Stdlib Require Import Sorting.Sorted.
From S2P Require Import Prelude MmNumber DexFee Swap Ordermatch OrdermatchNode Orderbook OrderbookProps TrieStore TrieStoreProps OrderbookNode OrderbookSync.

Open Scope Z_scope.

(** The orders of a pair, as the book lists them. *)
Definition offers (b : Orderbook) (pair : Pair) : list OrderbookItem :=
  omap (fun e => order_set b !! ob_uuid e) (orders_at b pair).

(** An order whose minimum is above the volume is passed over. *)
Definition may_fill (action : BestOrdersAction) (required : MmNumber) (o : OrderbookItem) : bool :=
  negb (num_lt required (volume_for action o (oi_min_volume o))).

Definition may_fill_all (action : BestOrdersAction) (required : MmNumber) (l : list OrderbookItem) :=
  List.filter (may_fill action required) l.

Definition total_volume (action : BestOrdersAction) (l : list OrderbookItem) : Q :=
  foldr (fun o v => volume_for action o (oi_max_volume o) + v)%Q (0 # 1)%Q l.

Lemma collect_best_spec b action required collected es :
  let l := collect_best b action required collected es in
  exists rest,
    may_fill_all action required (omap (fun e => order_set b !! ob_uuid e) es) = l ++ rest /\
    (rest = [] \/ (required <= collected + total_volume action l)%Q) /\
    forall l1 l2, l = l1 ++ l2 -> l1 <> [] -> l2 <> [] ->
      (collected + total_volume action l1 < required)%Q.
Proof.
  revert collected. induction es as [|e es IH]; intros collected; cbn -[total_volume].
  { exists []. split; [done|]. split; [by left|]. by intros [|? ?] l2. }
  destruct (order_set b !! ob_uuid e) as [o|]; [|apply IH].
  cbn -[total_volume]. unfold may_fill at 1. destruct (num_lt required _) eqn:Hmin; simpl.
  { apply IH. }
  destruct (num_le required _) eqn:Hle.
  - apply Qle_bool_iff in Hle. eexists. split; [done|]. split; [right; simpl; lra|].
    intros [|o1 l1] l2 E H1 H2; [done|]. simpl in E. injection E as _ E. symmetry in E.
    apply app_eq_nil in E as [_ ?]. done.
  - destruct (IH (collected + volume_for action o (oi_max_volume o))%num) as (rest & Hr & Hv & Hp).
    exists rest. unfold may_fill_all in *. rewrite Hr. split; [done|].
    assert (collected + volume_for action o (oi_max_volume o) < required)%Q as Hlt.
    { unfold num_le in Hle. apply Qnot_le_lt. intros H%Qle_bool_iff. congruence. }
    split; [destruct Hv; [by left|right; simpl; lra]|].
    intros [|o1 l1] l2 E H1 H2; [done|]. injection E as <- E. simpl.
    destruct l1 as [|o1 l1]; [simpl; lra|].
    specialize (Hp (o1 :: l1) l2 E). simpl in Hp |- *. assert (o1 :: l1 <> []) by done.
    specialize (Hp ltac:(done) H2). lra.
Qed.

(** What the request answers for a pair: cheapest first, and no more than what
    fills the volume. *)
Definition cheapest_first (l : list OrderbookItem) : Prop :=
  StronglySorted (fun a b => (oi_price a <= oi_price b)%Q) l.

Definition just_enough (action : BestOrdersAction) (required : MmNumber)
  (candidates l : list OrderbookItem) : Prop :=
  exists rest, candidates = l ++ rest /\
    (rest = [] \/ (required <= total_volume action l)%Q) /\
    forall l1 l2, l = l1 ++ l2 -> l1 <> [] -> l2 <> [] -> (total_volume action l1 < required)%Q.

Lemma collect_best_enough b action required pair :
  just_enough action required (may_fill_all action required (offers b pair))
    (collect_best b action required (0 # 1) (orders_at b pair)).
Proof.
  destruct (collect_best_spec b action required (0 # 1) (orders_at b pair)) as (rest & Hr & Hv & Hp).
  exists rest. split; [done|]. split.
  - destruct Hv as [|Hv]; [by left|right]. lra.
  - intros l1 l2 E H1 H2. specialize (Hp l1 l2 E H1 H2). lra.
Qed.

Section Book.
Variable b : Orderbook.
Hypothesis Hb : index_ok b.

Lemma entry_order pair e :
  e ∈ orders_at b pair ->
  exists o, order_set b !! ob_uuid e = Some o /\ base_rel o = pair /\ e = ordered_of o.
Proof. apply (io_ordered b Hb). Qed.

Lemma offers_map pair : map ordered_of (offers b pair) = orders_at b pair.
Proof.
  unfold offers. assert (forall e, e ∈ orders_at b pair ->
    exists o, order_set b !! ob_uuid e = Some o /\ e = ordered_of o) as He.
  { intros e (o & ? & _ & ?)%entry_order. eauto. }
  induction (orders_at b pair) as [|e es IH]; [done|]. cbn.
  destruct (He e) as (o & -> & ->); [by left|]. simpl. f_equal. apply IH. intros. apply He. by right.
Qed.

Lemma offers_sorted pair : cheapest_first (offers b pair).
Proof.
  pose proof (io_sorted b Hb pair) as Hs. rewrite <- offers_map in Hs.
  unfold cheapest_first. induction (offers b pair) as [|o l IH]; [constructor|].
  inversion Hs as [|? ? Hl Hall]; subst. constructor; [by apply IH|].
  apply Forall_forall. intros o' Ho'. rewrite Forall_forall in Hall.
  apply (entry_lt_price (ordered_of o) (ordered_of o')), Hall. by apply list_elem_of_fmap_2.
Qed.

Lemma elem_of_offers pair o :
  o ∈ offers b pair <-> order_set b !! oi_uuid o = Some o /\ base_rel o = pair.
Proof.
  unfold offers. rewrite list_elem_of_omap. split.
  - intros (e & He & Ho). apply entry_order in He as (o' & Ho' & Hp & ->).
    assert (o' = o) as <- by congruence. done.
  - intros [Ho Hp]. exists (ordered_of o). split; [|done]. apply (io_ordered b Hb). eauto.
Qed.

Lemma offers_nodup pair : NoDup (map oi_uuid (offers b pair)).
Proof.
  pose proof (io_sorted b Hb pair) as Hs. rewrite <- offers_map in Hs.
  assert (forall o, o ∈ offers b pair -> order_set b !! oi_uuid o = Some o) as Hin
    by (intros o; rewrite elem_of_offers; tauto).
  induction (offers b pair) as [|o l IH]; [constructor|].
  inversion Hs as [|? ? Hl Hall]; subst. constructor; [|apply IH; [done|intros; apply Hin; by right]].
  intros (o' & Hu & Ho')%list_elem_of_fmap.
  assert (o' = o) as ->.
  { pose proof (Hin o (list_elem_of_here _ _)) as H1. pose proof (Hin o' ltac:(by right)) as H2. congruence. }
  rewrite Forall_forall in Hall. specialize (Hall (ordered_of o)). rewrite ordered_cmp_refl in Hall.
  by discriminate Hall; apply list_elem_of_fmap_2.
Qed.

(** A ticker with offers is among those that the request searches. *)
Lemma offered_ticker action coin ticker :
  offers b (pair_for action coin ticker) <> [] ->
  exists tickers, search_pairs action coin b = Some tickers /\ ticker ∈ tickers.
Proof.
  intros Hne. destruct (offers b (pair_for action coin ticker)) as [|o l] eqn:E; [done|].
  assert (o ∈ offers b (pair_for action coin ticker)) as Ho by (rewrite E; by left).
  apply elem_of_offers in Ho as [Ho Hp].
  pose proof (io_base b Hb _ _ Ho) as H1. pose proof (io_rel b Hb _ _ Ho) as H2.
  unfold base_rel in Hp. destruct action; simpl in *; injection Hp as Hx Hy; rewrite Hx, Hy in *.
  - destruct (pairs_existing_for_base b !! coin); simpl in *; [eauto|set_solver].
  - destruct (pairs_existing_for_rel b !! coin); simpl in *; [eauto|set_solver].
Qed.

Lemma ordered_offers pair :
  ordered b !! pair = match offers b pair with [] => None | _ => Some (orders_at b pair) end.
Proof.
  pose proof (offers_map pair) as Hm. destruct (io_nonempty b Hb pair) as [Hne _].
  unfold orders_at in *. destruct (ordered b !! pair) as [es|]; simpl in *.
  - destruct (offers b pair); [|done]. simpl in Hm. by subst.
  - by destruct (offers b pair).
Qed.

Lemma pair_for_inj action coin t t' : pair_for action coin t = pair_for action coin t' -> t = t'.
Proof. by destruct action; intros [=]. Qed.

(** What both requests answer, for a choice among the offers of a pair. *)
Lemma response_spec collect coin action :
  (forall pair, collect (orders_at b pair) `sublist_of` offers b pair) ->
  match best_orders_response collect b coin action with
  | None => forall ticker, offers b (pair_for action coin ticker) = []
  | Some res => forall ticker,
      let chosen := collect (orders_at b (pair_for action coin ticker)) in
      bo_orders res !! ticker =
        match offers b (pair_for action coin ticker) with
        | [] => None
        | _ => Some (map orderbook_item_with_proof chosen)
        end /\
      forall o, o ∈ chosen -> infos_for (bo_protocol_infos res, bo_conf_infos res) o
  end.
Proof.
  intros Hsub. unfold best_orders_response.
  destruct (search_pairs action coin b) as [tickers|] eqn:Hs; cycle 1.
  { intros ticker. destruct (offers b (pair_for action coin ticker)) eqn:E; [done|].
    destruct (offered_ticker action coin ticker) as (? & ? & _); [by rewrite E|congruence]. }
  set (found := omap _ (elements tickers)).
  assert (forall t l, (t, l) ∈ found <->
    offers b (pair_for action coin t) <> [] /\ l = collect (orders_at b (pair_for action coin t))) as Hin.
  { intros t l. unfold found. rewrite list_elem_of_omap. setoid_rewrite elem_of_elements.
    setoid_rewrite ordered_offers. split.
    - intros (t' & Ht & Hl). destruct (offers b (pair_for action coin t')) eqn:E; simplify_eq/=.
      by rewrite E.
    - intros [Hne ->]. destruct (offered_ticker action coin t Hne) as (ts & Hts & Ht).
      exists t. split; [congruence|]. by destruct (offers b (pair_for action coin t)). }
  assert (NoDup found.*1) as Hnd.
  { unfold found. clear Hin found. pose proof (NoDup_elements tickers) as He.
    induction He as [|t ts Ht _ IH]; [constructor|]. cbn.
    destruct (ordered b !! pair_for action coin t); simpl; [|done]. constructor; [|done].
    intros (p & Hp & Hx)%list_elem_of_fmap. apply Ht.
    apply list_elem_of_omap in Hx as (t' & Ht' & Hx).
    destruct (ordered b !! pair_for action coin t'); simpl in Hx; [|done]. by simplify_eq/=. }
  assert (forall t l o, (t, l) ∈ found -> o ∈ l ->
            order_set b !! oi_uuid o = Some o /\ base_rel o = pair_for action coin t) as Ho.
  { intros t l o [_ ->]%Hin Ho. apply elem_of_offers. by eapply elem_of_sublist. }
  cbn zeta. intros ticker. set (chosen := collect (orders_at b (pair_for action coin ticker))). cbn [bo_orders bo_protocol_infos bo_conf_infos]. split.
  - set (m := map _ found). assert (NoDup m.*1) as Hnd'.
    { replace m.*1 with found.*1; [done|]. unfold m. rewrite <- list_fmap_compose.
      apply list_fmap_ext. by intros ? []. }
    destruct (offers b (pair_for action coin ticker)) as [|o l] eqn:E.
    + apply not_elem_of_list_to_map. intros ([t l] & -> & Hm)%list_elem_of_fmap.
      apply list_elem_of_fmap in Hm as ([t' l'] & [= -> ->] & Hf). apply Hin in Hf as [Hf _]. simpl in Hf, E. by rewrite E in Hf.
    + apply elem_of_list_to_map; [done|]. apply list_elem_of_fmap.
      exists (ticker, chosen). split; [done|]. apply Hin. by rewrite E.
  - intros o Hc. rewrite <- surjective_pairing. apply infos_of_for.
    + apply NoDup_fmap_2_strong.
      * intros o1 o2 Ho1 Ho2 Hu. apply list_elem_of_bind in Ho1 as ([t1 l1] & ? & Hf1), Ho2 as ([t2 l2] & ? & Hf2).
        destruct (Ho _ _ o1 Hf1) as [H1 _]; [done|]. destruct (Ho _ _ o2 Hf2) as [H2 _]; [done|]. congruence.
      * apply NoDup_bind.
        -- intros [t1 l1] [t2 l2] o' Hf1 Hf2 H1 H2. simpl in *.
           destruct (Ho _ _ _ Hf1 H1) as [_ Hp1]. destruct (Ho _ _ _ Hf2 H2) as [_ Hp2].
           assert (t1 = t2) as -> by (apply (pair_for_inj action coin); congruence).
           apply Hin in Hf1 as [_ ->], Hf2 as [_ ->]. done.
        -- intros [t l] [_ ->]%Hin. simpl. eapply sublist_NoDup; [|apply Hsub].
           by eapply NoDup_fmap_1, offers_nodup.
        -- by eapply NoDup_fmap_1.
    + apply list_elem_of_bind. exists (ticker, chosen). split; [done|]. apply Hin. split; [|done].
      intros E. pose proof (Hsub (pair_for action coin ticker)) as Hx. rewrite E in Hx.
      apply sublist_nil_r in Hx. unfold chosen in Hc. rewrite Hx in Hc. set_solver.
Qed.

Lemma collect_best_sublist action required pair :
  collect_best b action required (0 # 1) (orders_at b pair) `sublist_of` offers b pair.
Proof.
  destruct (collect_best_enough b action required pair) as (rest & Hr & _).
  transitivity (may_fill_all action required (offers b pair)).
  - rewrite Hr. by apply sublist_inserts_r.
  - clear Hr. unfold may_fill_all. induction (offers b pair) as [|o l IH]; simpl; [done|].
    by destruct (may_fill action required o); constructor.
Qed.

Lemma collect_number_offers number pair :
  collect_number b number (orders_at b pair) = take number (offers b pair).
Proof.
  unfold collect_number. rewrite <- offers_map, <- fmap_take.
  assert (forall o, o ∈ take number (offers b pair) -> order_set b !! oi_uuid o = Some o) as Hin.
  { intros o Ho. apply (elem_of_offers pair). apply elem_of_take in Ho as (i & Hi & _).
    by eapply list_elem_of_lookup_2. }
  induction (take number (offers b pair)) as [|o l IH]; [done|]. cbn.
  rewrite Hin by (by left). f_equal. apply IH. intros. apply Hin. by right.
Qed.

End Book.
