(* ===== verification/DemoBook.v ===== *)
(** * A small order book network

    Concrete instances of the parameters of the trie store, and two nodes that
    know a few orders, on which the theorems on the order book are used.  A trie
    is its contents and the database is the list of all of them; the root is a
    polynomial hash of eight bytes. *)

From S2P Require Import Prelude MmNumber DexFee Swap Ordermatch OrdermatchNode Orderbook OrderbookProps TrieStore TrieStoreProps OrderbookNode OrderbookSync.

Open Scope Z_scope.

Module DemoBook.

#[export] Instance hash_order : HashOrder := {|
  iter_map _ _ _ _ m := map_to_list m;
  iter_map_perm _ _ _ _ m := reflexivity _;
  iter_set _ _ _ s := elements s;
  iter_set_perm _ _ _ s := reflexivity _ |}.

(** ** Tries *)

Definition hash_bytes (l : bytes) : Z := foldl (fun h b => wrap 64 (h * 1099511628211 + b + 1)) 14695981039346656037 l.

Definition toy_root (c : Contents) : H64 :=
  le_split 8 (hash_bytes (map_to_list c ≫= fun p => p.1 ++ p.2)).

Definition find_root (db : list Contents) (root : H64) : option Contents :=
  List.find (fun c => bool_decide (toy_root c = root)) db.

Definition item_bytes (o : OrderbookItem) : bytes :=
  oi_uuid o ++ le_split 8 (Qnum (oi_price o)) ++ le_split 8 (Zpos (Qden (oi_price o))).

#[export] Instance toy_tries : TrieLib := {|
  MemoryDB := list Contents;
  memory_db_default := [];
  TrieMut := list Contents * Contents;
  trie_new db := (db, ∅);
  trie_from_existing db root :=
    match find_root db root with Some c => Ok (db, c) | None => Err "InvalidStateRoot"%string end;
  trie_insert k v t := (None, (t.1, <[k := v]> t.2));
  trie_commit t := (t.2 :: t.1, toy_root t.2);
  delta_trie_root db root l :=
    match find_root db root with
    | Some c =>
        let c' := foldl (fun c p => match p.2 with Some v => <[p.1 := v]> c | None => delete p.1 c end) c l in
        (Ok (toy_root c'), c' :: db)
    | None => (Err "InvalidStateRoot"%string, db)
    end;
  trie_iter db root :=
    match find_root db root with Some c => Ok (map_to_list c) | None => Err "InvalidStateRoot"%string end;
  purge db := db;
  hashed_null_node := toy_root ∅;
  trie_state_bytes := item_bytes |}.

(** ** Orders *)

Definition KMD : string := "KMD".
Definition BTC : string := "BTC".
Definition maker1 : string := "02aa".
Definition maker2 : string := "02bb".

Definition order (pk : string) (p v : MmNumber) (n : Z) : OrderbookItem := {|
  oi_pubkey := pk;
  oi_base := KMD;
  oi_rel := BTC;
  oi_price := p;
  oi_max_volume := v;
  oi_min_volume := (1 # 1)%Q;
  oi_uuid := replicate 16 n;
  oi_created_at := 1700000000;
  oi_base_protocol_info := [];
  oi_rel_protocol_info := [];
  oi_conf_settings := Some (mkOrderConf 1 false 1 false) |}.

Definition o1 : OrderbookItem := order maker1 (3 # 10) (5 # 1) 1.
Definition o1' : OrderbookItem := order maker1 (1 # 10) (5 # 1) 1.
Definition o2 : OrderbookItem := order maker1 (2 # 10) (4 # 1) 2.
Definition o3 : OrderbookItem := order maker2 (4 # 10) (3 # 1) 3.

Definition items : list OrderbookItem := [o1; o1'; o2; o3].

Definition known_item (o : OrderbookItem) : Prop := o ∈ items.

Definition add (o : option OrderbookItem) (m : gmap Uuid OrderbookItem) : gmap Uuid OrderbookItem :=
  match o with Some o => <[oi_uuid o := o]> m | None => m end.

(** Every set of these orders. *)
Definition all_maps : list (gmap Uuid OrderbookItem) :=
  a ← [None; Some o1; Some o1']; b ← [None; Some o2]; c ← [None; Some o3];
  [add a (add b (add c ∅))].

Definition all_contents : list Contents := map bytes_of all_maps.

Lemma roots_nodup : NoDup (map toy_root all_contents).
Proof. apply (bool_decide_unpack _). vm_compute. exact I. Qed.

Lemma roots_not_default : Forall (fun c => toy_root c <> H64_default) all_contents.
Proof. apply (bool_decide_unpack _). vm_compute. exact I. Qed.

Lemma toy_root_inj c c' :
  c ∈ all_contents -> c' ∈ all_contents -> toy_root c = toy_root c' -> c = c'.
Proof.
  intros [i Hi]%list_elem_of_lookup [j Hj]%list_elem_of_lookup Heq.
  pose proof roots_nodup as Hnd.
  assert (i = j) as <-; [|congruence].
  eapply (proj1 (NoDup_alt _) Hnd).
  - rewrite list_lookup_fmap, Hi. done.
  - rewrite list_lookup_fmap, Hj. simpl. by rewrite Heq.
Qed.

Definition in_db (db : list Contents) (l : list Contents) : Prop :=
  Forall (fun c => c ∈ all_contents) db /\ Forall (fun c => c ∈ db) l.

Lemma find_root_in db c :
  Forall (fun c => c ∈ all_contents) db -> c ∈ db -> find_root db (toy_root c) = Some c.
Proof.
  intros Hdb Hc. unfold find_root.
  destruct (List.find _ db) as [c'|] eqn:E.
  - apply find_some in E as [Hin E]. apply list_elem_of_In in Hin. apply bool_decide_eq_true in E.
    rewrite Forall_forall in Hdb. f_equal. apply toy_root_inj; auto.
  - eapply find_none in E; [|by apply list_elem_of_In]. by rewrite bool_decide_eq_false in E.
Qed.

Lemma in_db_cons db l c : in_db db l -> c ∈ all_contents -> in_db (c :: db) (c :: l).
Proof.
  intros [Hdb Hl] Hc. split; [by constructor|]. constructor; [by left|].
  eapply Forall_impl; [exact Hl|]. intros ? ?. by right.
Qed.

#[export] Instance toy_laws : TrieLaws.
Proof.
  refine {| root_of := toy_root; occurs c := c ∈ all_contents; holds := in_db |}.
  - apply toy_root_inj.
  - intros c Hc. pose proof roots_not_default as H. rewrite Forall_forall in H. auto.
  - done.
  - vm_compute. by left.
  - by split.
  - intros db l l' [Hdb Hl] Hsub. split; [done|]. rewrite Forall_forall in Hl |- *.
    intros c Hc. apply Hl. by apply (elem_of_submseteq l' l).
  - done.
  - intros db l k v Hdb Hc. eexists _, _. split; [done|]. split; [done|]. cbn -[toy_root].
    by apply in_db_cons.
  - intros db l c k v [Hdb [Hc0 Hl]%Forall_cons] Hc Hc'. eexists _, _, _. cbn -[toy_root find_root].
    rewrite find_root_in by done. split; [done|]. split; [done|]. split; [done|].
    by apply in_db_cons.
  - intros db l c k [Hdb [Hc0 Hl]%Forall_cons] Hc Hc'. eexists. cbn -[toy_root find_root].
    rewrite find_root_in by done. split; [done|]. by apply in_db_cons.
  - intros db l c [Hdb [Hc0 Hl]%Forall_cons] Hc. eexists. cbn -[toy_root find_root]. by rewrite find_root_in by done.
Defined.

Lemma known_uuid o : known_item o -> oi_uuid o ∈ [replicate 16 1; replicate 16 2; replicate 16 3].
Proof. unfold known_item, items. set_solver. Qed.

Lemma known_maps m : all_known known_item m -> m ∈ all_maps.
Proof.
  intros Hm.
  assert (m = add (m !! replicate 16 1) (add (m !! replicate 16 2) (add (m !! replicate 16 3) ∅))) as Heq.
  { assert (forall v (o : option OrderbookItem) (m0 : gmap Uuid OrderbookItem) u, o = m !! v ->
      add o m0 !! u = if decide (u = v /\ is_Some o) then o else m0 !! u) as Hadd.
    { intros v [o|] m0 u Ho; simpl.
      - destruct (Hm v o (eq_sym Ho)) as [_ <-]. case_decide as Hd.
        + destruct Hd as [-> _]. by rewrite lookup_insert_eq.
        + rewrite lookup_insert_ne; [done|]. intros <-. apply Hd. by eauto.
      - rewrite decide_False; [done|]. by intros [_ []]. }
    apply map_eq. intros u. rewrite !(Hadd _ _ _ _ eq_refl), lookup_empty.
    destruct (m !! u) as [o|] eqn:Ho.
    - destruct (Hm u o Ho) as [Hk <-]. apply known_uuid in Hk.
      do 3 (case_decide as Hd; [destruct Hd as [<- _]; by rewrite Ho|revert Hd]). intros H3 H2 H1. exfalso.
      rewrite !elem_of_cons in Hk. destruct Hk as [E|[E|[E|Hk]]]; [..|set_solver];
        [apply H1|apply H2|apply H3]; (split; [done|]); rewrite <- E, Ho; eauto.
    - do 3 (case_decide as Hd; [destruct Hd as [-> _]; congruence|clear Hd]). done. }
  assert (forall v, m !! replicate 16 v = None \/
            exists o, m !! replicate 16 v = Some o /\ o ∈ items /\ oi_uuid o = replicate 16 v) as Hcase.
  { intros v. destruct (m !! replicate 16 v) as [o|] eqn:Ho; [right|by left]. exists o.
    by destruct (Hm _ _ Ho). }
  assert (m !! replicate 16 1 ∈ [None; Some o1; Some o1']) as H1.
  { destruct (Hcase 1) as [->|(o & -> & Ho & Hu)]; [by left|].
    unfold items in Ho. repeat (apply elem_of_cons in Ho as [->|Ho]; [try done; set_solver|]). set_solver. }
  assert (m !! replicate 16 2 ∈ [None; Some o2]) as H2.
  { destruct (Hcase 2) as [->|(o & -> & Ho & Hu)]; [by left|].
    unfold items in Ho. repeat (apply elem_of_cons in Ho as [->|Ho]; [try done; set_solver|]). set_solver. }
  assert (m !! replicate 16 3 ∈ [None; Some o3]) as H3.
  { destruct (Hcase 3) as [->|(o & -> & Ho & Hu)]; [by left|].
    unfold items in Ho. repeat (apply elem_of_cons in Ho as [->|Ho]; [try done; set_solver|]). set_solver. }
  unfold all_maps. apply list_elem_of_bind. eexists; split; [|exact H1].
  apply list_elem_of_bind. eexists; split; [|exact H2].
  apply list_elem_of_bind. eexists; split; [|exact H3]. by apply list_elem_of_singleton.
Qed.

Lemma demo_universe : universe known_item.
Proof.
  split.
  - intros o o' Ho Ho'. unfold known_item, items in *. rewrite !elem_of_cons in Ho, Ho'.
    destruct Ho as [->|[->|[->|[->|Ho]]]], Ho' as [->|[->|[->|[->|Ho']]]]; set_solver.
  - intros o Ho. unfold known_item, items in Ho. rewrite !elem_of_cons in Ho.
    destruct Ho as [->|[->|[->|[->|Ho]]]]; [by split..|set_solver].
  - intros o Ho. unfold known_item, items in Ho. rewrite !elem_of_cons in Ho.
    destruct Ho as [->|[->|[->|[->|Ho]]]]; [done..|set_solver].
  - intros m Hm. change (bytes_of m ∈ map bytes_of all_maps). by apply list_elem_of_fmap_2, known_maps.
Qed.

(** ** Nodes *)

Definition env : TrieEnv := mkTrieEnv 1700000100 (fun _ _ _ => true) (fun _ _ => false).
Definition live (u : Uuid) : bool := true.

(** A handler, and what it sends. *)
Definition handled (i : BookInput) (n : BookNode) : BookNode :=
  let '(ops, b) := handle_book i (bn_book n) in mkBookNode _ b (bn_store n) (enqueue ops (bn_queue n)) (bn_subs n).

Lemma handled_reachable i n :
  reachable known_item n -> fair_input known_item i (bn_book n) ->
  reachable known_item (handled i n).
Proof.
  intros Hn Hi. eapply rtc_r; [exact Hn|]. unfold handled.
  destruct (handle_book i (bn_book n)) as [ops b] eqn:E. by eapply StepHandle.
Qed.

(** The first node knows the orders of both makers; the price of one of them
    has changed since the second node heard of it. *)
Definition nodeR0 : BookNode :=
  run_worker env (handled (InMyInsert live o3 None) (handled (InMyInsert live o2 None)
    (handled (InMyInsert live o1 None) BookNode_default))).

Definition price_change : MakerOrderUpdated :=
  mkUpdated (oi_uuid o1) (Some (1 # 10)%Q) None None None.

Definition nodeR_waiting : BookNode := handled (InUpdated live maker1 price_change) nodeR0.
Definition nodeR : BookNode := run_worker env nodeR_waiting.

(** The second node follows the pair. *)
Definition follower : BookNode :=
  mkBookNode _ Orderbook_default TrieStore_default [] {["orbk/BTC:KMD"%string := NotRequested 1700000000]}.

Definition nodeQ : BookNode := run_worker env (handled (InMyInsert live o1 None) follower).

Lemma known_in o : List.existsb (fun o' => bool_decide (o' = o)) items = true -> known_item o.
Proof.
  intros (o' & Hin & Ho)%existsb_exists. apply bool_decide_eq_true in Ho as ->.
  by apply list_elem_of_In.
Qed.

Lemma nodeR0_reachable : reachable known_item nodeR0.
Proof.
  apply worker_reachable. repeat apply handled_reachable; try (by apply known_in).
  apply rtc_refl.
Qed.

Lemma nodeR_waiting_reachable : reachable known_item nodeR_waiting.
Proof.
  apply handled_reachable; [apply nodeR0_reachable|]. intros o Ho. apply known_in.
  assert (o = o1) as -> by (vm_compute in Ho; by simplify_eq). done.
Qed.

Lemma nodeR_reachable : reachable known_item nodeR.
Proof. apply worker_reachable, nodeR_waiting_reachable. Qed.

Lemma nodeQ_reachable : reachable known_item nodeQ.
Proof.
  apply worker_reachable, handled_reachable; [|by apply known_in].
  eapply rtc_r; [apply rtc_refl|]. apply (StepSubscribe known_item BookNode_default).
Qed.

End DemoBook.
