(* ===== verification/OrderbookTheorems.v ===== *)
(** * Theorems about the order book and its synchronisation

    The properties of the book of a node ([Orderbook.v]), of the tries it keeps
    of it ([TrieStore.v]) and of two nodes that synchronise
    ([OrderbookNode.v]), each with a witness on the nodes of [DemoBook.v]. *)

From Stdlib Require Import Sorting.Sorted.
From S2P Require Import Prelude MmNumber DexFee Swap Ordermatch OrdermatchNode Orderbook OrderbookProps TrieStore TrieStoreProps OrderbookNode OrderbookSync OrderbookFetch BestOrders DemoBook.

Import DemoBook.
Open Scope Z_scope.

(** ** The book *)



(** A request for the best orders of a coin is answered, for every other
    coin with orders of the pair, with a prefix of the orders whose minimum does
    not exceed the volume, cheapest first; the prefix ends as soon as the volume
    is reached and only then, unless the orders end.  The request by number gets
    the cheapest [number] orders.  Both come with the protocol and confirmation
    data of every order, and no answer means that there is no order. *)
Theorem best_orders_cheapest {TL : TrieLib} {LW : TrieLaws} {HO : HashOrder} U n coin action
  (volume : MmNumber) (number : nat) (HU : universe U) (Hn : reachable U n) :
  let b := bn_book n in
  (forall pair, cheapest_first (offers b pair) /\
     forall o, o ∈ offers b pair <-> order_set b !! oi_uuid o = Some o /\ base_rel o = pair) /\
  match process_best_orders_p2p_request b coin action volume with
  | None => forall ticker, offers b (pair_for action coin ticker) = []
  | Some res => forall ticker, let all := offers b (pair_for action coin ticker) in
      exists chosen,
        bo_orders res !! ticker =
          (match all with [] => None | _ => Some (map orderbook_item_with_proof chosen) end) /\
        just_enough action volume (may_fill_all action volume all) chosen /\
        forall o, o ∈ chosen -> infos_for (bo_protocol_infos res, bo_conf_infos res) o
  end /\
  match process_best_orders_p2p_request_by_number b coin action number with
  | None => forall ticker, offers b (pair_for action coin ticker) = []
  | Some res => forall ticker, let all := offers b (pair_for action coin ticker) in
      bo_orders res !! ticker =
        (match all with [] => None | _ => Some (map orderbook_item_with_proof (take number all)) end) /\
      forall o, o ∈ take number all -> infos_for (bo_protocol_infos res, bo_conf_infos res) o
  end.
Proof.
  intros b. destruct (reachable_ok U HU n Hn) as [C [[Hb _] _ _ _]]. fold b in Hb.
  split; [split; [by apply offers_sorted|intros; by apply elem_of_offers]|]. split.
  - unfold process_best_orders_p2p_request.
    pose proof (response_spec b Hb (collect_best b action volume (0 # 1)) coin action
      (collect_best_sublist b action volume)) as Hr.
    destruct (best_orders_response _ _ _ _) as [res|]; [|exact Hr]. intros ticker.
    destruct (Hr ticker) as [H1 H2]. eexists. split; [exact H1|]. split; [|exact H2].
    apply collect_best_enough.
  - unfold process_best_orders_p2p_request_by_number.
    pose proof (response_spec b Hb (collect_number b number) coin action) as Hr.
    destruct (best_orders_response _ _ _ _) as [res|].
    + intros ticker. destruct Hr with (ticker := ticker) as [H1 H2].
      { intros pair. rewrite collect_number_offers by done. apply sublist_take. }
      by rewrite collect_number_offers in H1, H2.
    + apply Hr. intros pair. rewrite collect_number_offers by done. apply sublist_take.
Qed.

Lemma best_orders_cheapest_witness :
  (exists res, process_best_orders_p2p_request (bn_book nodeR) KMD BestBuy (6 # 1) = Some res /\
     forall ticker, exists chosen,
       bo_orders res !! ticker =
         (match offers (bn_book nodeR) (KMD, ticker) with
          | [] => None | _ => Some (map orderbook_item_with_proof chosen) end) /\
       just_enough BestBuy (6 # 1)
         (may_fill_all BestBuy (6 # 1) (offers (bn_book nodeR) (KMD, ticker))) chosen /\
       forall o, o ∈ chosen -> infos_for (bo_protocol_infos res, bo_conf_infos res) o) /\
  option_map (fun res => map (fun p => pi_uuid (ip_order p)) <$> bo_orders res !! BTC)
    (process_best_orders_p2p_request (bn_book nodeR) KMD BestBuy (6 # 1)) =
    Some (Some [oi_uuid o1; oi_uuid o2]).
Proof.
  split; [|vm_compute; reflexivity].
  destruct (best_orders_cheapest known_item nodeR KMD BestBuy (6 # 1) 2 demo_universe nodeR_reachable)
    as (_ & H & _).
  destruct (process_best_orders_p2p_request (bn_book nodeR) KMD BestBuy (6 # 1)) as [res|] eqn:E.
  - exists res. split; [reflexivity|exact H].
  - exfalso. vm_compute in E. discriminate E.
Defined.

(** ** The tries *)


Definition demo_pair : string := "BTC:KMD".


(** ** Two nodes *)

(** C28: one keep-alive message brings a node up to date.  A node that follows
    the pair, and whose root for a maker differs from the one that another node
    announces, asks for it, and once its worker is done it has exactly the
    maker's orders that the announcing node has and announces the same root;
    its other orders are as before, and the same message makes it ask for
    nothing more.  The announcing node still has the root it announced, both
    have no waiting batches, and none of the orders was cancelled lately at the
    asking node. *)
Theorem keep_alive_synchronises {TL : TrieLib} {LW : TrieLaws} {HO : HashOrder} U R Q
  env peer_env worker_env live_history live relay pk pr
  (HU : universe U) (HR : reachable U R) (HQ : reachable U Q)
  (HqR : bn_queue R = []) (HqQ : bn_queue Q = [])
  (Hroot : is_empty_root (root_at (bn_store R) (pk, pr)) = false)
  (Hfollow : is_subscribed Q ("orbk/" ++ pr)%string || relay = true)
  (Hdiff : root_at (bn_store Q) (pk, pr) <> root_at (bn_store R) (pk, pr))
  (Hcan : forall u o, maker_orders (order_set (bn_book R)) (pk, pr) !! u = Some o ->
     recently_cancelled_by live u (bn_book Q) <> Some pk) :
  let r := root_at (bn_store R) (pk, pr) in
  let round n := run_worker worker_env
    (process_orders_keep_alive env peer_env live_history live relay pk {[pr := r]} R n) in
  (("orbk/" ++ pr)%string, {[pr := r]}) ∈ keep_alive_messages pk (bn_store R) /\
  reachable U (round Q) /\
  root_at (bn_store (round Q)) (pk, pr) = r /\
  (forall k, maker_orders (order_set (bn_book (round Q))) k =
     if decide (k = (pk, pr)) then maker_orders (order_set (bn_book R)) k
     else maker_orders (order_set (bn_book Q)) k) /\
  fst (prepare_sync_request_for_keep_alive env pk {[pr := r]} relay (is_subscribed (round Q))
         (bn_store (round Q))) = None.
Proof.
  intros r round.
  destruct (one_round U HU env peer_env worker_env live_history live relay R Q pk pr
    HR HQ HqR HqQ Hroot Hfollow Hdiff Hcan) as (Hreach & Hq & Hr & Ho).
  fold (round Q) r in Hreach, Hq, Hr, Ho.
  split; [by apply keep_alive_announces|]. split; [done|]. split; [done|]. split; [exact Ho|].
  destruct (idle_ok U HU (round Q) Hreach Hq) as [_ Hs].
  pose proof (prepare_sync_spec U HU env pk {[pr := r]} relay (is_subscribed (round Q)) _ _ Hs) as Hp.
  pose proof (prepare_sync_None env pk {[pr := r]} relay (is_subscribed (round Q)) (bn_store (round Q))) as Hn.
  destruct (prepare_sync_request_for_keep_alive _ _ _ _ _ _) as [request s]. simpl in *.
  destruct Hp as (_ & _ & Hp). apply Hn. intros pr' r'. rewrite Hp.
  intros ([<- <-]%lookup_singleton_Some & _ & _ & Hne). by apply Hne.
Qed.

Definition demo_root : H64 := root_at (bn_store nodeR) (maker1, demo_pair).

Definition demo_round : BookNode :=
  run_worker env (process_orders_keep_alive env env (fun _ => true) live false maker1
    {[demo_pair := demo_root]} nodeR nodeQ).

Lemma keep_alive_synchronises_witness :
  (forall k, maker_orders (order_set (bn_book demo_round)) k =
     if decide (k = (maker1, demo_pair)) then maker_orders (order_set (bn_book nodeR)) k
     else maker_orders (order_set (bn_book nodeQ)) k) /\
  (map_to_list (order_set (bn_book demo_round))).*2 ≡ₚ [o1'; o2].
Proof.
  split.
  - destruct (keep_alive_synchronises known_item nodeR nodeQ env env env (fun _ => true) live false
      maker1 demo_pair demo_universe nodeR_reachable nodeQ_reachable eq_refl eq_refl)
      as (_ & _ & _ & H & _); [vm_compute; reflexivity..|vm_compute; discriminate| |exact H].
    intros u o _. unfold recently_cancelled_by. vm_compute. discriminate.
  - apply (bool_decide_unpack _). vm_compute. exact I.
Defined.


(** The root before the change of price, and what is answered for it. *)
Definition root_before : H64 := root_at (bn_store nodeR0) (maker1, demo_pair).



(** Fetching a whole book.  The relay's answer replaces, for every maker it
    has orders of in the pair and that the asking node accepts (a well-formed
    key that is neither its own nor banned), the maker's orders of the pair by
    the relay's, with all their data, and leaves every other order as it is. *)
Theorem whole_book_fetched {TL : TrieLib} {LW : TrieLaws} {HO : HashOrder} U R Q worker_env live
  my_pub usable banned base rel
  (HU : universe U) (HR : reachable U R) (HQ : reachable U Q) (HqR : bn_queue R = [])
  (Hpair : base <> rel /\ split_once base = None /\ split_once rel = None)
  (Hsize : (pair_total (bn_book R) base rel <= MAX_ORDERS_NUMBER_IN_ORDERBOOK_RESPONSE)%nat)
  (Hcan : forall pk u o, accepted my_pub usable banned (bn_book Q) pk = true ->
     maker_orders (order_set (bn_book R)) (pk, alb_ordered_pair base rel) !! u = Some o ->
     recently_cancelled_by live u (bn_book Q) <> Some pk) :
  let Q' := run_worker worker_env
    (request_and_fill_orderbook live my_pub usable banned base rel R Q) in
  reachable U Q' /\
  forall k, maker_orders (order_set (bn_book Q')) k =
    if decide (k.2 = alb_ordered_pair base rel /\
               maker_orders (order_set (bn_book R)) k <> ∅ /\
               accepted my_pub usable banned (bn_book Q) k.1 = true)
    then maker_orders (order_set (bn_book R)) k
    else maker_orders (order_set (bn_book Q)) k.
Proof. destruct Hpair as (? & ? & ?). by apply (whole_book_round U HU). Qed.

Definition demo_fetched : BookNode :=
  run_worker env (request_and_fill_orderbook live (Some maker2) (fun _ => true) (fun _ => false)
    KMD BTC nodeR nodeQ).

Lemma whole_book_fetched_witness :
  (forall k, maker_orders (order_set (bn_book demo_fetched)) k =
     if decide (k.2 = demo_pair /\ maker_orders (order_set (bn_book nodeR)) k <> ∅ /\
                accepted (Some maker2) (fun _ => true) (fun _ => false) (bn_book nodeQ) k.1 = true)
     then maker_orders (order_set (bn_book nodeR)) k
     else maker_orders (order_set (bn_book nodeQ)) k) /\
  (map_to_list (order_set (bn_book demo_fetched))).*2 ≡ₚ [o1'; o2].
Proof.
  split.
  - destruct (whole_book_fetched known_item nodeR nodeQ env live (Some maker2) (fun _ => true)
      (fun _ => false) KMD BTC demo_universe nodeR_reachable nodeQ_reachable eq_refl) as [_ H].
    + split; [|split]; [discriminate|vm_compute; reflexivity..].
    + vm_compute. lia.
    + intros pk u o _ _. unfold recently_cancelled_by. vm_compute. discriminate.
    + exact H.
  - apply (bool_decide_unpack _). vm_compute. exact I.
Defined.

(** When a request for a whole book fails.  A node without waiting batches
    refuses exactly the books of more than a thousand orders, and otherwise
    answers every maker's orders of the pair, each with its data. *)
Theorem whole_book_refused {TL : TrieLib} {LW : TrieLaws} {HO : HashOrder} U n base rel
  (HU : universe U) (Hn : reachable U n) (Hq : bn_queue n = [])
  (Hpair : base <> rel /\ split_once base = None /\ split_once rel = None) :
  if bool_decide (MAX_ORDERS_NUMBER_IN_ORDERBOOK_RESPONSE < pair_total (bn_book n) base rel)%nat
  then process_get_orderbook_request (bn_book n) (bn_store n) base rel = Err OrderbookTooLarge
  else exists res, process_get_orderbook_request (bn_book n) (bn_store n) base rel = Ok res /\
    whole_book n base rel res.
Proof. destruct Hpair as (? & ? & ?). by apply (whole_book_answer U HU). Qed.

(** The demo node answers two makers; a node whose worker has not yet applied
    a new maker's first order fails. *)
Definition nodeN : BookNode := handled (InMyInsert live o1 None) BookNode_default.

Lemma whole_book_refused_witness :
  (exists res, process_get_orderbook_request (bn_book nodeR) (bn_store nodeR) KMD BTC = Ok res /\
     whole_book nodeR KMD BTC res) /\
  process_get_orderbook_request (bn_book nodeN) (bn_store nodeN) KMD BTC =
    Err (PubkeyStateExpected maker1).
Proof.
  split; [|vm_compute; reflexivity].
  assert (KMD <> BTC /\ split_once KMD = None /\ split_once BTC = None) as Hpair
    by (split; [discriminate|split; vm_compute; reflexivity]).
  pose proof (whole_book_refused known_item nodeR KMD BTC demo_universe nodeR_reachable eq_refl Hpair) as H.
  rewrite bool_decide_false in H by (vm_compute; lia). exact H.
Defined.

(** ** Where the book and its synchronisation fall short *)

(** A node asks for the root that was announced, not for its own: when the
    maker's orders have changed since, the change that is answered is made of
    orders the asking node does not have. *)
Lemma stale_announcement_incomplete :
  let Q' := run_worker env (process_orders_keep_alive env env (fun _ => true) live false maker1
              {[demo_pair := root_before]} nodeR nodeQ) in
  (map_to_list (order_set (bn_book Q'))).*2 = [o1'] /\
  root_at (bn_store Q') (maker1, demo_pair) <> demo_root.
Proof. vm_compute. split; [reflexivity|discriminate]. Qed.

(** The message of a new order is not checked against the owner of an order
    with its uuid: it replaces the order, or removes it if it is not valid. *)
Lemma created_takes_over live from msg b :
  let o := item_of_created msg from in
  recently_cancelled_by live (mc_uuid msg) b <> Some from ->
  let order' := order_set (process_maker_order_created live from msg b).2 !! mc_uuid msg in
  (valid_item o -> order' = Some o) /\ (~ valid_item o -> order' = None).
Proof.
  intros o Hc. unfold process_maker_order_created. fold o.
  destruct (index_update_spec live o b); simpl; [done|..]; split; try done.
  - intros _. rewrite order_set_remove. apply lookup_delete_eq.
  - intros _. apply lookup_insert_eq.
Qed.
