(* ===== verification/StateMachine.v ===== *)
(** * Storable state machines (mm2_state_machine)

    The crate that runs the second swap protocol: a machine is in a state, a
    state's handler ([on_changed]) returns the next state, and before the
    next state's handler runs its event is stored, so that the machine can be
    recreated from its last event.  The typeclass [StorableStateMachine] is
    the trait of that name; [run] and [kickstart] are its two entry points.
    Then what holds of every such machine: [history] (any number of sessions,
    each cut anywhere), the safety rule [history_safe], the path of the stored
    events, and the end of a session. *)

From S2P Require Import Prelude Effects.

(** ** The logic of programs with a postcondition

    [wp G h p Q]: after the history [h], every call of [p] satisfies [G], and
    if [p] returns, its result satisfies [Q]. *)
Section Wp.
  Context {Call : Type} {answer : Call -> Type}.
  Notation Obs := (Obs answer).

Fixpoint wp {A} (G : list Obs -> Call -> Prop) (h : list Obs) (p : prog answer A)
  (Q : list Obs -> A -> Prop) : Prop :=
  match p with
  | Ret a => Q h a
  | Panic | OutOfFuel => True
  | Vis c k => G h c /\ forall x, wp G (h ++ [asked c x]) (k x) Q
  end.

Lemma wp_bind {A B} G h (p : prog answer A) (f : A -> prog answer B) Q :
  wp G h p (fun h' a => wp G h' (f a) Q) -> wp G h (prog_bind p f) Q.
Proof.
  revert h; induction p as [a| | |c k IH]; simpl; intros h Hp; try done.
  destruct Hp as [Hc Hk]. split; [done|]. intros x. by apply IH.
Qed.

Lemma wp_mono {A} G h (p : prog answer A) (Q R : list Obs -> A -> Prop) :
  (forall h' a, h `prefix_of` h' -> Q h' a -> R h' a) -> wp G h p Q -> wp G h p R.
Proof.
  revert h; induction p as [a| | |c k IH]; simpl; intros h HQ Hp; try done.
  - by apply HQ.
  - destruct Hp as [Hc Hk]. split; [done|]. intros x. eapply IH; [|done].
    intros h' a Hpre. apply HQ. etrans; [|done]. by apply prefix_app_r.
Qed.

(** A program whose calls are always allowed. *)
Lemma wp_only {A} (P : Call -> Prop) G h (p : prog answer A) (Q : list Obs -> A -> Prop) :
  (forall h' c, P c -> G h' c) -> only P p ->
  (forall h' a, h `prefix_of` h' -> Q h' a) -> wp G h p Q.
Proof.
  intros HPG. revert h; induction p as [a| | |c k IH]; simpl; intros h Ho HQ; try done.
  - by apply HQ.
  - destruct Ho as [Hc Hk]. split; [auto|]. intros x. apply IH; [apply Hk|].
    intros h' a Hpre. apply HQ. etrans; [|done]. by apply prefix_app_r.
Qed.

Lemma wp_guarded {A} G h (p : prog answer A) Q : wp G h p Q -> guarded G h p.
Proof.
  revert h; induction p as [a| | |c k IH]; simpl; intros h Hp; try done.
  destruct Hp as [Hc Hk]. split; [done|]. intros x. by apply IH.
Qed.

Lemma wp_runs {A} G h (p : prog answer A) Q tr a : wp G h p Q -> runs p tr a -> Q (h ++ tr) a.
Proof.
  revert h tr; induction p as [b| | |c k IH]; simpl; intros h tr Hp Hr; try done.
  - destruct Hr as [-> ->]. by rewrite app_nil_r.
  - destruct Hp as [_ Hk]. destruct Hr as (x & tr' & -> & Hr).
    specialize (IH x _ tr' (Hk x) Hr). by rewrite <- app_assoc in IH.
Qed.

Lemma wp_safe {A} G h (p : prog answer A) Q tr :
  wp G h p Q -> safe G h -> traces p tr -> safe G (h ++ tr).
Proof. intros Hp. by apply guarded_safe, (wp_guarded _ _ _ Q). Qed.

Lemma runs_safe {A} G h (p : prog answer A) Q tr a :
  wp G h p Q -> safe G h -> runs p tr a -> safe G (h ++ tr).
Proof. intros Hp Hs Hr. eapply wp_safe; [done..|]. by eapply runs_traces. Qed.

(** [prog_sim R p q]: the two programs make the same calls, and their results
    are related. *)
Inductive prog_sim {A B} (R : A -> B -> Prop) : prog answer A -> prog answer B -> Prop :=
| sim_ret a b : R a b -> prog_sim R (Ret a) (Ret b)
| sim_panic : prog_sim R Panic Panic
| sim_fuel : prog_sim R OutOfFuel OutOfFuel
| sim_vis c k k' : (forall x, prog_sim R (k x) (k' x)) -> prog_sim R (Vis c k) (Vis c k').

Lemma sim_bind {A B C} (R : B -> C -> Prop) (p : prog answer A) f g :
  (forall a, prog_sim R (f a) (g a)) -> prog_sim R (prog_bind p f) (prog_bind p g).
Proof. intros Hf. induction p; cbn [prog_bind]; by constructor || apply Hf. Qed.

Lemma sim_runs {A B} (R : A -> B -> Prop) p q tr b :
  prog_sim R p q -> runs q tr b -> exists a, runs p tr a /\ R a b.
Proof.
  intros Hs. revert tr; induction Hs as [a b' HR| | |c k k' _ IH]; intros tr; cbn [runs]; try done.
  - intros [-> ->]. by exists a.
  - intros (x & tr' & -> & Hr). apply IH in Hr as (a & Ha & HR). exists a. split; [|done].
    by exists x, tr'.
Qed.

End Wp.

(** Walks through two programs side by side. *)
Ltac walk_sim :=
  repeat lazymatch goal with
  | |- prog_sim _ (Ret _) (Ret _) => apply sim_ret
  | |- prog_sim _ (prog_bind ?p _) (prog_bind ?q _) => change q with p; apply sim_bind; intros ?
  | |- prog_sim _ (match ?x with _ => _ end) (match ?y with _ => _ end) =>
      change y with x; destruct x
  end.

(** ** State machines *)

(** [StateResult]: the result type of the machines is the unit. *)
Inductive StateResult (S Error : Type) : Type :=
| ChangeState (next : S)
| Finish
| StateError (e : Error).
Arguments ChangeState {S Error} next.
Arguments Finish {S Error}.
Arguments StateError {S Error} e.

(** What a handler ends with.  Every branch of a state's [on_changed] is
    [Self::change_state(next, machine).await], the only way to make the
    crate's [ChangeGuard]; a handler returns the next state and [on_changed]
    below performs the change.  A [LastState] has no next state. *)
Inductive Handled (S : Type) : Type :=
| change_state (next_state : S)
| last_state.
Arguments change_state {S} next_state.
Arguments last_state {S}.

(** The trait, with the storage behind it: [M] is the machine, [St] its
    storable states.  [initialize] is the handler of the initial state. *)
Class StorableStateMachine {Call : Type} (answer : Call -> Type) (M St Event Error : Type) := {
  get_event : St -> Event;
  initialize : M -> prog answer (Handled St);
  handle : M -> St -> prog answer (Handled St);
  acquire_reentrancy_lock : M -> prog answer (result Error unit);
  has_record_for : M -> prog answer (result Error bool);
  store_repr : M -> prog answer (result Error unit);
  store_event : M -> Event -> prog answer (result Error unit);
  mark_finished : M -> prog answer (result Error unit);
  spawn_reentrancy_lock_renew : M -> prog answer unit;
  init_additional_context : M -> prog answer unit;
  clean_up_context : M -> prog answer unit;
  on_event : M -> Event -> prog answer unit;
  on_kickstart_event : M -> Event -> prog answer unit }.

Section Machine.
  Context {Call : Type} {answer : Call -> Type} {M St Event Error : Type}.
  Context `{!StorableStateMachine answer M St Event Error}.
  Local Open Scope prog_scope.

(** [OnNewState::on_new_state] *)
Definition on_new_state (m : M) (state : St) : prog answer (result Error unit) :=
  let event := get_event state in
  do on_event m event;
  store_event m event.

Definition change_state_impl (m : M) (next_state : St) : prog answer (StateResult St Error) :=
  r <- on_new_state m next_state;
  Ret (match r with
       | Err e => StateError e
       | Ok _ => ChangeState next_state
       end).

(** The rest of [on_changed] after the handler. *)
Definition finish_state (m : M) (r : Handled St) : prog answer (StateResult St Error) :=
  match r with
  | change_state next_state => change_state_impl m next_state
  | last_state => Ret Finish
  end.

Definition on_changed (m : M) (s : St) : prog answer (StateResult St Error) :=
  r <- handle m s; finish_state m r.

Definition initialize_on_changed (m : M) : prog answer (StateResult St Error) :=
  r <- initialize m; finish_state m r.

Definition on_start (m : M) : prog answer (result Error unit) :=
  reentrancy_lock <- acquire_reentrancy_lock m;
  match reentrancy_lock with
  | Err e => Ret (Err e)
  | Ok _ =>
  record <- has_record_for m;
  match record with
  | Err e => Ret (Err e)
  | Ok found =>
  stored <- (if found then Ret (Ok tt) else store_repr m);
  match stored with
  | Err e => Ret (Err e)
  | Ok _ =>
  do spawn_reentrancy_lock_renew m;
  do init_additional_context m;
  Ret (Ok tt)
  end end end.

Definition on_finished (m : M) : prog answer (result Error unit) :=
  marked <- mark_finished m;
  match marked with
  | Err e => Ret (Err e)
  | Ok _ => do clean_up_context m; Ret (Ok tt)
  end.

(** The loop of [StateMachineTrait::run], entered with the result of the
    first state's [on_changed]; [fuel] bounds the states after it. *)
Fixpoint run_loop (fuel : nat) (m : M) (r : StateResult St Error)
  : prog answer (result Error unit) :=
  match r with
  | ChangeState next =>
      match fuel with
      | O => OutOfFuel
      | S fuel => r <- on_changed m next; run_loop fuel m r
      end
  | Finish => on_finished m
  | StateError e => Ret (Err e)
  end.

Definition run (fuel : nat) (m : M) (first : prog answer (StateResult St Error))
  : prog answer (result Error unit) :=
  started <- on_start m;
  match started with
  | Err e => Ret (Err e)
  | Ok _ => r <- first; run_loop fuel m r
  end.

Definition run_new (fuel : nat) (m : M) : prog answer (result Error unit) :=
  run fuel m (initialize_on_changed m).

(** [RestoredMachine::kickstart] *)
Definition kickstart (fuel : nat) (m : M) (from_state : St) : prog answer (result Error unit) :=
  do on_kickstart_event m (get_event from_state);
  run fuel m (on_changed m from_state).

(** The calls of the two programs around the loop. *)
Lemma on_start_only P m :
  only P (acquire_reentrancy_lock m) -> only P (has_record_for m) -> only P (store_repr m) ->
  only P (spawn_reentrancy_lock_renew m) -> only P (init_additional_context m) ->
  only P (on_start m).
Proof.
  intros H1 H2 H3 H4 H5. unfold on_start. apply only_bind; [done|intros [?|?]; [|done]].
  apply only_bind; [done|intros [[]|?]; [..|done]]; cbn [prog_bind];
    [|apply only_bind; [done|intros [?|?]; [|done]]];
    (apply only_bind; [done|intros ?]); (apply only_bind; [done|by intros ?]).
Qed.

Lemma on_finished_only P m :
  only P (mark_finished m) -> only P (clean_up_context m) -> only P (on_finished m).
Proof.
  intros H1 H2. unfold on_finished. apply only_bind; [done|intros [?|?]; [|done]].
  apply only_bind; [done|by intros ?].
Qed.

Lemma on_finished_runs m (tr : list (Obs answer)) u :
  runs (on_finished m) tr (Ok u) ->
  exists t1 t2 v, tr = t1 ++ t2 /\ runs (mark_finished m) t1 (Ok v) /\ runs (clean_up_context m) t2 tt.
Proof.
  unfold on_finished. intros (r & t1 & t2 & -> & Hm & Hr)%runs_bind.
  destruct r as [v|e]; [|by destruct Hr].
  apply runs_bind in Hr as ([] & t3 & t4 & -> & Hc & [-> _]). rewrite app_nil_r. by exists t1, t3, v.
Qed.

End Machine.

(** ** What is in the database *)

(** A journal tells which call stores which event, and which answers say
    that the event is stored. *)
Class Journal {Call : Type} (answer : Call -> Type) (Event : Type) := {
  stored_event : Call -> option Event;
  store_ok : forall c, answer c -> bool }.

Section Journal.
  Context {Call : Type} {answer : Call -> Type} {Event : Type} `{!Journal answer Event}.
  Notation Obs := (Obs answer).

Definition stores_nothing (c : Call) : Prop := stored_event c = None.

(** The event an observation stored for certain, and the event it may have
    stored: the process stopped, or the database failed, during the call. *)
Definition stored_obs (o : Obs) : list Event :=
  match o with
  | existT c (Some x) => if store_ok c x then option_list (stored_event c) else []
  | existT c None => []
  end.

Definition maybe_stored_obs (o : Obs) : list Event :=
  match stored_obs o with
  | [] => option_list (stored_event (obs_call o))
  | _ => []
  end.

Definition stored_of (tr : list Obs) : list Event := tr ≫= stored_obs.

(** The events of a session that are in the database afterwards. *)
Definition journaled (tr : list Obs) (evs : list Event) : Prop :=
  evs = stored_of tr \/ exists o, last tr = Some o /\ evs = stored_of tr ++ maybe_stored_obs o.

Lemma stored_obs_nothing o : stores_nothing (obs_call o) -> stored_obs o = [].
Proof. destruct o as [c [x|]]; unfold stores_nothing; simpl; [|done]. intros ->. by case_match. Qed.

Lemma maybe_nothing o : stores_nothing (obs_call o) -> maybe_stored_obs o = [].
Proof. intros Hn. unfold maybe_stored_obs. by rewrite stored_obs_nothing, Hn. Qed.

Lemma stored_of_app t1 t2 : stored_of (t1 ++ t2) = stored_of t1 ++ stored_of t2.
Proof. apply bind_app. Qed.

Lemma stored_of_nothing tr : Forall (fun o => stores_nothing (obs_call o)) tr -> stored_of tr = [].
Proof.
  induction 1 as [|o tr Ho _ IH]; [done|]. unfold stored_of in *. cbn [mbind list_bind].
  by rewrite stored_obs_nothing, IH.
Qed.

Lemma journaled_nil evs : journaled [] evs -> evs = [].
Proof. by intros [->|(o & [=] & _)]. Qed.

Lemma last_maybe tr o :
  Forall (fun o => stores_nothing (obs_call o)) tr -> last tr = Some o -> maybe_stored_obs o = [].
Proof.
  intros Htr Hl%last_Some_elem_of. apply maybe_nothing. rewrite Forall_forall in Htr. by apply Htr.
Qed.

Lemma journaled_nothing tr evs :
  Forall (fun o => stores_nothing (obs_call o)) tr -> journaled tr evs -> evs = [].
Proof.
  intros Htr [->|(o & Hl & ->)]; rewrite stored_of_nothing by done; [done|].
  by apply (last_maybe tr).
Qed.

(** What comes after a part without a doubtful store. *)
Lemma journaled_app t1 t2 evs :
  (forall o, last t1 = Some o -> maybe_stored_obs o = []) -> journaled (t1 ++ t2) evs ->
  exists evs', evs = stored_of t1 ++ evs' /\ journaled t2 evs'.
Proof.
  intros Hm [->|(o & Hl & ->)]; rewrite stored_of_app.
  - eexists; split; [done|by left].
  - rewrite <- app_assoc. eexists; split; [done|]. rewrite last_app in Hl.
    destruct (last t2) as [o2|] eqn:E2; [right; simplify_eq; by exists o|].
    left. by rewrite (Hm _ Hl), app_nil_r.
Qed.

Lemma journaled_elem tr evs e :
  journaled tr evs -> e ∈ evs ->
  exists o, o ∈ tr /\ stored_event (obs_call o) = Some e.
Proof.
  assert (forall o, e ∈ stored_obs o -> stored_event (obs_call o) = Some e) as Hs.
  { intros [c [x|]] He; simpl in *; [|by apply elem_of_nil in He].
    case_match; [|by apply elem_of_nil in He].
    destruct (stored_event c); simpl in *; [apply list_elem_of_singleton in He; by subst|].
    by apply elem_of_nil in He. }
  assert (forall o, e ∈ maybe_stored_obs o -> stored_event (obs_call o) = Some e) as Hm.
  { intros o He. unfold maybe_stored_obs in He. case_match; [|by apply elem_of_nil in He].
    destruct (stored_event _); simpl in *; [apply list_elem_of_singleton in He; by subst|].
    by apply elem_of_nil in He. }
  intros [->|(o & Hl & ->)] He; [|apply elem_of_app in He as [He|He]].
  1, 2: apply list_elem_of_bind in He as (o' & He & Ho); exists o'; auto.
  exists o. split; [by apply last_Some_elem_of|auto].
Qed.

End Journal.

(** ** What the operations of a machine do to the database *)

Class LawfulMachine {Call : Type} {answer : Call -> Type} {M St Event Error : Type}
  (SM : StorableStateMachine answer M St Event Error) (J : Journal answer Event) : Prop := {
  quiet_initialize m : only stores_nothing (initialize m);
  quiet_handle m s : only stores_nothing (handle m s);
  quiet_lock m : only stores_nothing (acquire_reentrancy_lock m);
  quiet_record m : only stores_nothing (has_record_for m);
  quiet_repr m : only stores_nothing (store_repr m);
  quiet_finished m : only stores_nothing (mark_finished m);
  quiet_renew m : only stores_nothing (spawn_reentrancy_lock_renew m);
  quiet_context m : only stores_nothing (init_additional_context m);
  quiet_clean_up m : only stores_nothing (clean_up_context m);
  quiet_event m e : only stores_nothing (on_event m e);
  quiet_kickstart m e : only stores_nothing (on_kickstart_event m e);
  store_event_journaled m e tr evs :
    traces (store_event m e) tr -> journaled tr evs -> evs = [] \/ evs = [e];
  store_event_ok m e tr u :
    runs (store_event m e) tr (Ok u) ->
    stored_of tr = [e] /\ forall o, last tr = Some o -> maybe_stored_obs o = [] }.

(** [follows R prev evs]: each event of [evs] is related to the one before it,
    the first one to [prev]. *)
Fixpoint follows {E} (R : option E -> E -> Prop) (prev : option E) (evs : list E) : Prop :=
  match evs with
  | [] => True
  | e :: evs => R prev e /\ follows R (Some e) evs
  end.

Definition last_or {E} (prev : option E) (evs : list E) : option E :=
  match last evs with Some e => Some e | None => prev end.

Lemma last_or_cons {E} (prev : option E) e evs : last_or prev (e :: evs) = last_or (Some e) evs.
Proof. unfold last_or. destruct evs as [|e' evs]; [done|]. rewrite last_cons_cons.
  destruct (last (e' :: evs)) eqn:El; [done|]. by apply last_None in El. Qed.

Lemma follows_app {E} (R : option E -> E -> Prop) prev l1 l2 :
  follows R prev (l1 ++ l2) <-> follows R prev l1 /\ follows R (last_or prev l1) l2.
Proof.
  revert prev; induction l1 as [|e l1 IH]; intros prev; simpl; [unfold last_or; simpl; tauto|].
  rewrite IH, last_or_cons. tauto.
Qed.

(** A property that every step keeps holds of the last event once it holds. *)
Lemma follows_keeps {E} (R : option E -> E -> Prop) (P : E -> Prop) prev l e0 e :
  (forall e e', P e -> R (Some e) e' -> P e') ->
  follows R prev l -> e0 ∈ l -> P e0 -> last l = Some e -> P e.
Proof.
  intros HP. revert prev e0; induction l as [|x l IH]; intros prev e0 Hf Hin H0 Hl; [by inversion Hin|].
  destruct Hf as [_ Hf]. destruct l as [|y l].
  - apply list_elem_of_singleton in Hin as ->. by simplify_eq/=.
  - rewrite last_cons_cons in Hl. apply elem_of_cons in Hin as [->|Hin].
    + eapply (IH (Some x) y); [done|by left| |done]. destruct Hf as [HR _]. by eapply HP.
    + by eapply IH.
Qed.

Section History.
  Context {Call : Type} {answer : Call -> Type} {M St Event Error RecreateError : Type}.
  Context `{SM : !StorableStateMachine answer M St Event Error} `{J : !Journal answer Event}.
  Context `{!LawfulMachine SM J}.
  Notation Obs := (Obs answer).
  Variable fuel : nat.
  (** [recreate_machine] on the representation stored for the machine [m]
      with the given events. *)
  Variable recreate : M -> list Event -> result RecreateError (M * St).

(** [history m h evs]: [h] is all that the swap started as [m] has done so
    far, [evs] the events in the database.  The last session may have been
    cut anywhere. *)
Inductive history (m : M) : list Obs -> list Event -> Prop :=
| history_new tr evs :
    traces (run_new fuel m) tr -> journaled tr evs -> history m tr evs
| history_restart h evs m' s tr evs' :
    history m h evs -> recreate m evs = Ok (m', s) ->
    traces (kickstart fuel m' s) tr -> journaled tr evs' ->
    history m (h ++ tr) (evs ++ evs').

(** What a node may run next, with all that was done and stored before. *)
Inductive session (m : M) : list Obs -> list Event -> M -> prog answer (result Error unit) -> Prop :=
| session_new : session m [] [] m (run_new fuel m)
| session_restart h evs m' s :
    history m h evs -> recreate m evs = Ok (m', s) -> session m h evs m' (kickstart fuel m' s).

Lemma session_history m h evs m' p tr evs' :
  session m h evs m' p -> traces p tr -> journaled tr evs' -> history m (h ++ tr) (evs ++ evs').
Proof. intros Hs Ht Hj. destruct Hs; [by constructor|by eapply history_restart]. Qed.

Lemma quiet_started m : only stores_nothing (on_start m).
Proof.
  apply on_start_only; [apply quiet_lock|apply quiet_record|apply quiet_repr|apply quiet_renew|].
  apply quiet_context.
Qed.

Lemma quiet_on_finished m : only stores_nothing (on_finished m).
Proof. apply on_finished_only; [apply quiet_finished|apply quiet_clean_up]. Qed.

Lemma quiet_traces {A} (p : prog answer A) tr evs :
  only stores_nothing p -> traces p tr -> journaled tr evs -> evs = [].
Proof. intros Ho Ht. by apply journaled_nothing, (only_traces _ p). Qed.

(** A part that stores nothing can be cut off in front. *)
Lemma journaled_quiet {A} (p : prog answer A) tr1 a tr2 evs :
  only stores_nothing p -> runs p tr1 a -> journaled (tr1 ++ tr2) evs -> journaled tr2 evs.
Proof.
  intros Ho Hr Hj. assert (Forall (fun o => stores_nothing (obs_call o)) tr1) as Hf.
  { eapply only_runs; eauto. }
  apply journaled_app in Hj as (evs' & -> & Hj); [by rewrite stored_of_nothing|].
  intros o. by apply last_maybe.
Qed.

Lemma stored_of_quiet {A} (p : prog answer A) tr a :
  only stores_nothing p -> runs p tr a -> stored_of tr = [].
Proof. intros Ho Hr. apply stored_of_nothing. by eapply only_runs. Qed.

Lemma change_journaled m s tr evs :
  traces (change_state_impl m s) tr -> journaled tr evs -> evs = [] \/ evs = [get_event s].
Proof.
  unfold change_state_impl, on_new_state. intros Ht Hj.
  apply traces_bind in Ht as [Ht|(r & t1 & t2 & -> & Hr & Ht)].
  - apply traces_bind in Ht as [Ht|(u & t1 & t2 & -> & Hr & Ht)].
    + left. by eapply quiet_traces; [apply quiet_event|..].
    + eapply journaled_quiet in Hj; [|apply quiet_event|done]. by eapply store_event_journaled.
  - simpl in Ht. subst. rewrite app_nil_r in Hj.
    apply runs_bind in Hr as (u & t1' & t2 & -> & Hr & Hs).
    eapply journaled_quiet in Hj; [|apply quiet_event|done].
    eapply store_event_journaled; [by eapply runs_traces|done].
Qed.

Lemma change_runs m s tr s' :
  runs (change_state_impl m s) tr (ChangeState s') ->
  s' = s /\ stored_of tr = [get_event s] /\ forall o, last tr = Some o -> maybe_stored_obs o = [].
Proof.
  unfold change_state_impl, on_new_state.
  intros (r & t1 & t2 & -> & Hr & [-> Heq])%runs_bind. rewrite app_nil_r.
  destruct r as [u|e]; [|done]. injection Heq as ->.
  apply runs_bind in Hr as (u' & t1' & t2 & -> & Hr & Hs).
  pose proof (stored_of_quiet _ _ _ (quiet_event _ _) Hr) as Hq.
  apply store_event_ok in Hs as [Hs Hm]. split; [done|].
  rewrite stored_of_app, Hq, Hs. split; [done|]. intros o Hl. rewrite last_app in Hl.
  destruct (last t2) eqn:E2; [by simplify_eq; apply Hm|]. apply last_None in E2 as ->. done.
Qed.

(** *** The path of the stored events *)

Section Path.
  Variable R : option Event -> Event -> Prop.
  Hypothesis initialize_R : forall m tr s,
    runs (initialize m) tr (change_state s) -> R None (get_event s).
  Hypothesis handle_R : forall m s tr s',
    runs (handle m s) tr (change_state s') -> R (Some (get_event s)) (get_event s').
  Hypothesis recreate_R : forall m evs m' s,
    recreate m evs = Ok (m', s) ->
    exists e, last evs = Some e /\ forall e', R (Some (get_event s)) e' -> R (Some e) e'.

(** A whole [on_changed]: a quiet handler, then the change of the state. *)
Definition moves (prev : option Event) (p : prog answer (Handled St)) : Prop :=
  only stores_nothing p /\ forall tr s, runs p tr (change_state s) -> R prev (get_event s).

Lemma initialize_moves m : moves None (initialize m).
Proof. split; [apply quiet_initialize|apply initialize_R]. Qed.

Lemma handle_moves m s : moves (Some (get_event s)) (handle m s).
Proof. split; [apply quiet_handle|apply handle_R]. Qed.

Lemma moves_traces prev p (m : M) (tr : list Obs) (evs : list Event) :
  moves prev p -> traces (prog_bind p (finish_state m)) tr -> journaled tr evs ->
  follows R prev evs.
Proof.
  intros [Hq HR] Ht Hj. apply traces_bind in Ht as [Ht|(r & t1 & t2 & -> & Hr & Ht)].
  { by eapply quiet_traces in Hj as ->. }
  eapply journaled_quiet in Hj; [|done..]. destruct r as [s|]; cbn [finish_state] in Ht.
  - eapply change_journaled in Ht as [->| ->]; [done| |done]. simpl. eauto.
  - simpl in Ht. subst. by apply journaled_nil in Hj as ->.
Qed.

Lemma moves_change prev p (m : M) (tr : list Obs) (s : St) :
  moves prev p -> runs (prog_bind p (finish_state m)) tr (ChangeState s) ->
  R prev (get_event s) /\ (exists t, runs p t (change_state s)) /\
  stored_of tr = [get_event s] /\ forall o, last tr = Some o -> maybe_stored_obs o = [].
Proof.
  intros [Hq HR] (r & t1 & t2 & -> & Hr & Hf)%runs_bind. destruct r as [s'|]; [|by destruct Hf].
  pose proof (stored_of_quiet _ _ _ Hq Hr) as Hs1.
  apply change_runs in Hf as (-> & Hs & Hm). split; [by eapply HR|].
  rewrite stored_of_app, Hs1, Hs. split; [by eexists|]. split; [done|].
  intros o Hl. rewrite last_app in Hl.
  destruct (last t2) eqn:E2; [by simplify_eq; apply Hm|]. by apply last_None in E2 as ->.
Qed.

Lemma moves_finish prev p (m : M) (tr : list Obs) :
  moves prev p -> runs (prog_bind p (finish_state m)) tr Finish ->
  runs p tr last_state /\ Forall (fun o => stores_nothing (obs_call o)) tr.
Proof.
  intros [Hq HR] (r & t1 & t2 & -> & Hr & Hf)%runs_bind. destruct r as [s'|].
  - apply runs_bind in Hf as (x & ? & ? & _ & _ & [_ Hx]). by destruct x.
  - destruct Hf as [-> _]. rewrite app_nil_r. split; [done|]. by eapply only_runs.
Qed.

Lemma loop_follows n m s tr evs :
  traces (run_loop n m (ChangeState s)) tr -> journaled tr evs ->
  follows R (Some (get_event s)) evs.
Proof.
  revert s tr evs; induction n as [|n IH]; intros s tr evs Ht Hj; cbn [run_loop] in Ht.
  { simpl in Ht. subst. by apply journaled_nil in Hj as ->. }
  pose proof (handle_moves m s) as Hmv. unfold on_changed in Ht.
  apply traces_bind in Ht as [Ht|(r & t1 & t2 & -> & Hr & Ht)]; [by eapply moves_traces|].
  destruct r as [s'| |e].
  - eapply moves_change in Hr as (HR & _ & Hs & Hm); [|done].
    apply journaled_app in Hj as (evs' & -> & Hj); [|done]. rewrite Hs. simpl. eauto.
  - eapply moves_finish in Hr as [_ Hn]; [|done].
    apply journaled_app in Hj as (evs' & -> & Hj); [|intros o; by apply last_maybe].
    rewrite stored_of_nothing by done. destruct n; cbn [run_loop] in Ht;
      (eapply quiet_traces in Hj as ->; [|apply quiet_on_finished|]; done).
  - destruct n; cbn [run_loop] in Ht; simpl in Ht; subst; rewrite app_nil_r in Hj;
      apply runs_traces in Hr; by eapply moves_traces.
Qed.

Lemma run_follows prev n (m : M) p (tr : list Obs) (evs : list Event) :
  moves prev p -> traces (run n m (prog_bind p (finish_state m))) tr -> journaled tr evs ->
  follows R prev evs.
Proof.
  intros Hmv Ht Hj. unfold run in Ht.
  apply traces_bind in Ht as [Ht|(st & t1 & t2 & -> & Hst & Ht)].
  { by eapply quiet_traces in Hj as ->; [|apply quiet_started|]. }
  eapply journaled_quiet in Hj; [|apply quiet_started|done].
  destruct st as [u|e]; [|simpl in Ht; subst; by apply journaled_nil in Hj as ->].
  apply traces_bind in Ht as [Ht|(r & t3 & t4 & -> & Hr & Ht)]; [by eapply moves_traces|].
  destruct r as [s'| |e].
  - eapply moves_change in Hr as (HR & _ & Hs & Hm); [|done].
    apply journaled_app in Hj as (evs' & -> & Hj); [|done]. rewrite Hs. simpl.
    split; [done|]. by eapply loop_follows.
  - eapply moves_finish in Hr as [_ Hn]; [|done].
    apply journaled_app in Hj as (evs' & -> & Hj); [|intros o; by apply last_maybe].
    rewrite stored_of_nothing by done. destruct n; cbn [run_loop] in Ht;
      (eapply quiet_traces in Hj as ->; [|apply quiet_on_finished|]; done).
  - destruct n; cbn [run_loop] in Ht; simpl in Ht; subst; rewrite app_nil_r in Hj;
      apply runs_traces in Hr; by eapply moves_traces.
Qed.

(** The events in the database are always a path of the machine. *)
Lemma history_follows m h evs : history m h evs -> follows R None evs.
Proof.
  induction 1 as [tr evs Ht Hj|h evs m' s tr evs' Hh IH Hrec Ht Hj].
  - eapply run_follows; [apply initialize_moves|done..].
  - apply follows_app. split; [done|]. apply recreate_R in Hrec as (e & Hl & HR).
    unfold last_or. rewrite Hl. unfold kickstart in Ht.
    apply traces_bind in Ht as [Ht|(u & t1 & t2 & -> & Hu & Ht)].
    { by eapply quiet_traces in Hj as ->; [|apply quiet_kickstart|]. }
    eapply journaled_quiet in Hj; [|apply quiet_kickstart|done].
    eapply run_follows in Hj; [|apply handle_moves|done].
    destruct evs' as [|e' evs']; [done|]. destruct Hj as [H1 H2]. split; auto.
Qed.
End Path.

(** The same for a relation that only the events of states are known to
    keep under recreation. *)
Section StatePath.
  Variable R : option Event -> Event -> Prop.
  Hypothesis initialize_R : forall m tr s,
    runs (initialize m) tr (change_state s) -> R None (get_event s).
  Hypothesis handle_R : forall m s tr s',
    runs (handle m s) tr (change_state s') -> R (Some (get_event s)) (get_event s').
  Hypothesis recreate_R : forall m evs m' s,
    recreate m evs = Ok (m', s) ->
    exists e, last evs = Some e /\
      forall s0 e', e = get_event s0 -> R (Some (get_event s)) e' -> R (Some e) e'.

Definition of_state (e : Event) : Prop := exists s, e = get_event s.

Definition state_step (prev : option Event) (e : Event) : Prop :=
  (forall p, prev = Some p -> of_state p) -> R prev e /\ of_state e.

Lemma follows_states prev evs :
  (forall p, prev = Some p -> of_state p) -> follows state_step prev evs -> follows R prev evs.
Proof.
  revert prev; induction evs as [|e evs IH]; intros prev Hp; [done|]. intros [Hs Hf].
  destruct (Hs Hp) as [HR He]. split; [done|]. apply IH; [|done]. by intros p [= <-].
Qed.

Lemma history_follows_states m h evs : history m h evs -> follows R None evs.
Proof.
  intros Hh. apply follows_states; [done|]. eapply history_follows; [..|done].
  - intros m0 tr s Hr _. split; [by eapply initialize_R|by exists s].
  - intros m0 s tr s' Hr _. split; [by eapply handle_R|by exists s'].
  - intros m0 evs0 m' s Hrec. apply recreate_R in Hrec as (e & Hl & He).
    exists e. split; [done|]. intros e' Hst Hof. destruct (Hof e eq_refl) as [s0 ->].
    destruct Hst as [HR Hof']; [intros p [= <-]; by exists s|]. by eauto.
Qed.
End StatePath.

(** *** Safety *)

Section Safety.
  (** What a history must show for the machine to be in a state, and the
      calls that are allowed after a history. *)
  Variable supports : list Obs -> St -> Prop.
  Variable G : list Obs -> Call -> Prop.
  (** The machines the rule is for. *)
  Variable wf : M -> Prop.

Definition entered (h : list Obs) (r : Handled St) : Prop :=
  forall s, r = change_state s -> supports h s.

  Hypothesis supports_mono : forall h h' s, h `prefix_of` h' -> supports h s -> supports h' s.
  Hypothesis quiet_allowed : forall m h,
    wp G h (on_start m) (fun _ _ => True) /\ wp G h (on_finished m) (fun _ _ => True) /\
    forall e, wp G h (on_event m e) (fun _ _ => True) /\
              wp G h (on_kickstart_event m e) (fun _ _ => True).
  Hypothesis store_allowed : forall m h s,
    supports h s -> wp G h (store_event m (get_event s)) (fun _ _ => True).
  Hypothesis stored_supported : forall h c e,
    G h c -> stored_event c = Some e -> exists s, e = get_event s /\ supports h s.
  Hypothesis initialize_wp : forall m h, wf m -> wp G h (initialize m) entered.
  Hypothesis handle_wp : forall m s h, wf m -> supports h s -> wp G h (handle m s) entered.
  Hypothesis recreate_supported : forall m evs m' s h,
    wf m -> recreate m evs = Ok (m', s) ->
    exists e, last evs = Some e /\ wf m' /\
      forall s0, e = get_event s0 -> supports h s0 -> supports h s.

Lemma change_wp m h s :
  supports h s ->
  wp G h (change_state_impl m s)
     (fun h' r => forall s', r = ChangeState s' -> supports h' s').
Proof.
  intros Hs. unfold change_state_impl, on_new_state. apply wp_bind, wp_bind.
  eapply wp_mono; [|apply quiet_allowed]. intros h1 [] H1 _.
  eapply wp_mono; [|apply store_allowed; by eapply supports_mono].
  intros h2 [u|e] H2 _ s' Heq; simplify_eq/=. eapply supports_mono; [|done]. by etrans.
Qed.

Lemma moves_wp m h p :
  wp G h p entered ->
  wp G h (prog_bind p (finish_state m)) (fun h' r => forall s', r = ChangeState s' -> supports h' s').
Proof.
  intros Hp. apply wp_bind. eapply wp_mono; [|done]. intros h' [s|] _ He; [|by intros s'].
  by apply change_wp, He.
Qed.

Lemma run_loop_wp n m r h :
  wf m -> (forall s, r = ChangeState s -> supports h s) ->
  wp G h (run_loop n m r) (fun _ _ => True).
Proof.
  intros Hm. revert r h; induction n as [|n IH]; intros [s| |e] h Hs; cbn [run_loop];
    try done; try by apply quiet_allowed.
  apply wp_bind. eapply wp_mono; [|by apply moves_wp, handle_wp; [|apply Hs]].
  intros h' r _ Hr. by apply IH.
Qed.

Lemma run_wp n m p h :
  wf m -> (forall h', h `prefix_of` h' -> wp G h' p entered) ->
  wp G h (run n m (prog_bind p (finish_state m))) (fun _ _ => True).
Proof.
  intros Hm Hp. unfold run. apply wp_bind. eapply wp_mono; [|apply quiet_allowed].
  intros h' [u|e] Hpre _; [|done]. apply wp_bind. eapply wp_mono; [|by apply moves_wp, Hp].
  intros h'' r _ Hr. by apply run_loop_wp.
Qed.

Lemma safe_stored h e :
  safe G h -> (exists o, o ∈ h /\ stored_event (obs_call o) = Some e) ->
  exists s, e = get_event s /\ supports h s.
Proof.
  intros Hs (o & (h1 & h2 & ->)%list_elem_of_split & Ho).
  destruct (stored_supported h1 (obs_call o) e) as (s & -> & Hsup); [by eapply Hs|done|].
  exists s. split; [done|]. eapply supports_mono; [|done]. by eexists.
Qed.

(** Every call of every history is allowed, and every event in the database
    is that of a state which the history supports. *)
Lemma history_safe m h evs :
  wf m -> history m h evs ->
  safe G h /\ forall e, e ∈ evs -> exists s, e = get_event s /\ supports h s.
Proof.
  intros Hm. induction 1 as [tr evs Ht Hj|h evs m' s tr evs' Hh [IHs IHe] Hrec Ht Hj].
  - assert (safe G tr) as Hs.
    { change tr with ([] ++ tr). eapply wp_safe; [|apply safe_nil|done].
      apply (run_wp fuel m); auto. }
    split; [done|]. intros e He. eapply safe_stored; [done..|]. by eapply journaled_elem.
  - destruct (recreate_supported m evs m' s h Hm Hrec) as (e & Hl & Hm' & Hsup).
    assert (supports h s) as Hs0.
    { destruct (IHe e) as (s0 & -> & Hs0); [by apply last_Some_elem_of|]. by eapply Hsup. }
    assert (safe G (h ++ tr)) as Hs.
    { eapply wp_safe; [|done|done]. unfold kickstart. apply wp_bind.
      eapply wp_mono; [|apply quiet_allowed]. intros h' [] Hpre _.
      apply (run_wp fuel m'); [done|]. intros h'' Hpre'. apply handle_wp; [done|].
      eapply supports_mono; [|done]. by etrans. }
    split; [done|]. intros e' [He|He]%elem_of_app.
    + apply IHe in He as (s1 & -> & Hs1). exists s1. split; [done|].
      eapply supports_mono; [|done]. by eexists.
    + eapply safe_stored; [done..|]. eapply journaled_elem in He as (o & Ho & Hst); [|done].
      exists o. split; [|done]. apply elem_of_app. by right.
Qed.
End Safety.
End History.

(** ** The end of a session *)

Section Ends.
  Context {Call : Type} {answer : Call -> Type} {M St Event Error : Type}.
  Context `{SM : !StorableStateMachine answer M St Event Error} `{J : !Journal answer Event}.
  Context `{!LawfulMachine SM J}.
  Notation Obs := (Obs answer).

(** A session that ends well has reached a last state, whose event is the
    last one stored, and has marked the swap as finished. *)
Lemma run_loop_ends n (m : M) (s : St) (tr : list Obs) u :
  runs (run_loop n m (ChangeState s)) tr (Ok u) ->
  exists s' t1 t2 t3, last_or (Some (get_event s)) (stored_of tr) = Some (get_event s') /\
    tr = t1 ++ t2 ++ t3 /\ runs (handle m s') t2 last_state /\ runs (on_finished m) t3 (Ok u).
Proof.
  revert s tr; induction n as [|n IH]; intros s tr Hr; cbn [run_loop] in Hr; [done|].
  pose proof (handle_moves (fun _ _ => True) (fun _ _ _ _ _ => I) m s) as Hmv.
  apply runs_bind in Hr as (r & t1 & t2 & -> & Hr & Hl). destruct r as [s'| |e].
  - eapply moves_change in Hr as (_ & _ & Hs & _); [|done].
    apply IH in Hl as (s'' & ta & tb & tc & Hl & -> & Hh & Hf).
    exists s'', (t1 ++ ta), tb, tc. rewrite stored_of_app, Hs. cbn [app].
    rewrite last_or_cons. split; [done|]. by rewrite <- app_assoc.
  - eapply moves_finish in Hr as [Hh Hn]; [|done].
    assert (runs (on_finished m) t2 (Ok u)) as Hl' by by destruct n.
    exists s, [], t1, t2. rewrite stored_of_app, (stored_of_nothing t1) by done.
    by erewrite stored_of_quiet; [|apply quiet_on_finished|].
  - destruct n; by destruct Hl.
Qed.

Lemma run_ends n (m : M) prev p (tr : list Obs) u :
  only stores_nothing p ->
  runs (run n m (prog_bind p (finish_state m))) tr (Ok u) ->
  (exists s t1 t2 t3, last_or prev (stored_of tr) = Some (get_event s) /\
    tr = t1 ++ t2 ++ t3 /\ runs (handle m s) t2 last_state /\ runs (on_finished m) t3 (Ok u)) \/
  (stored_of tr = [] /\ exists t1 t2 t3, tr = t1 ++ t2 ++ t3 /\ runs p t2 last_state /\
    runs (on_finished m) t3 (Ok u)).
Proof.
  intros Hq Hr. unfold run in Hr. apply runs_bind in Hr as (st & t1 & t2 & -> & Hst & Hr).
  destruct st as [v|e]; [|by destruct Hr].
  pose proof (stored_of_quiet _ _ _ (quiet_started m) Hst) as Hs0.
  assert (moves (fun _ _ => True) prev p) as Hmv by done.
  apply runs_bind in Hr as (r & t3 & t4 & -> & Hr & Hl). destruct r as [s'| |e].
  - left. eapply moves_change in Hr as (_ & _ & Hs & _); [|done].
    apply run_loop_ends in Hl as (s'' & ta & tb & tc & Hl & -> & Hh & Hf).
    exists s'', (t1 ++ t3 ++ ta), tb, tc.
    rewrite stored_of_app, Hs0. cbn [app]. rewrite stored_of_app, Hs. cbn [app].
    rewrite last_or_cons. split; [done|]. by rewrite <- !app_assoc.
  - right. eapply moves_finish in Hr as [Hh Hn]; [|done].
    assert (runs (on_finished m) t4 (Ok u)) as Hl' by by destruct n.
    rewrite !stored_of_app, Hs0, (stored_of_nothing t3) by done.
    split; [by erewrite stored_of_quiet; [|apply quiet_on_finished|]|]. by exists t1, t3, t4.
  - destruct n; by destruct Hl.
Qed.

(** States of lower rank, handlers that return: the machine returns. *)
Section Returns.
  Variable env : list Obs -> forall c, answer c -> Prop.
  Variable rank : St -> nat.
  Variable m : M.
  Hypothesis rank_lt : forall s tr s', runs (handle m s) tr (change_state s') -> (rank s' < rank s)%nat.
  Hypothesis handle_returns : forall s h, returns env h (handle m s).
  Hypothesis initialize_returns : forall h, returns env h (initialize m).
  Hypothesis start_returns : forall h, returns env h (on_start m).
  Hypothesis finish_returns : forall h, returns env h (on_finished m).
  Hypothesis event_returns : forall h e,
    returns env h (on_event m e) /\ returns env h (store_event m e) /\
    returns env h (on_kickstart_event m e).

Lemma change_returns h s : returns env h (change_state_impl m s).
Proof.
  unfold change_state_impl, on_new_state. apply returns_bind; [|done].
  apply returns_bind; [apply event_returns|]. intros. apply event_returns.
Qed.

Lemma moves_returns h p : returns env h p -> returns env h (prog_bind p (finish_state m)).
Proof. intros Hp. apply returns_bind; [done|]. intros tr [s|] _ _; [apply change_returns|done]. Qed.

Lemma run_loop_returns n r h :
  (forall s, r = ChangeState s -> (rank s < n)%nat) -> returns env h (run_loop n m r).
Proof.
  revert r h; induction n as [|n IH]; intros [s| |e] h Hn; cbn [run_loop]; try done.
  - by specialize (Hn s eq_refl); lia.
  - apply returns_bind; [by apply moves_returns|]. intros tr r Hr _. apply IH.
    intros s' ->. specialize (Hn s eq_refl).
    eapply (moves_change (fun _ _ => True) None) in Hr as (_ & (t & Ht) & _);
      [|by split; [apply quiet_handle|]].
    apply rank_lt in Ht. lia.
Qed.

Lemma run_returns n p h :
  only stores_nothing p -> (forall h, returns env h p) ->
  (forall t s, runs p t (change_state s) -> (rank s < n)%nat) ->
  returns env h (run n m (prog_bind p (finish_state m))).
Proof.
  intros Hq Hp Hn. unfold run. apply returns_bind; [done|]. intros tr [u|e] _ _; [|done].
  apply returns_bind; [by apply moves_returns|]. intros t r Hr _. apply run_loop_returns.
  intros s ->. eapply (moves_change (fun _ _ => True) None) in Hr as (_ & (t' & Ht) & _); [|done].
  by eapply Hn.
Qed.

Lemma kickstart_returns n s h :
  (rank s <= n)%nat -> returns env h (kickstart n m s).
Proof.
  intros Hn. unfold kickstart. apply returns_bind; [apply event_returns|]. intros ? ? _ _.
  apply run_returns; [apply quiet_handle|done|]. intros t s' Ht%rank_lt. lia.
Qed.
End Returns.

(** *** The end of a history *)

Section Outcome.
  Context {RecreateError : Type}.
  Variable fuel : nat.
  Variable recreate : M -> list Event -> result RecreateError (M * St).
  Hypothesis initialize_live : forall m tr, ~ runs (initialize m) tr last_state.
  Hypothesis recreate_live : forall m evs m' s tr,
    recreate m evs = Ok (m', s) -> ~ runs (handle m' s) tr last_state.

Lemma run_outcome n (m : M) p (tr : list Obs) u :
  only stores_nothing p -> (forall t, ~ runs p t last_state) ->
  runs (run n m (prog_bind p (finish_state m))) tr (Ok u) ->
  exists s t1 t2, last (stored_of tr) = Some (get_event s) /\ (exists t, runs (handle m s) t last_state) /\
    tr = t1 ++ t2 /\ runs (on_finished m) t2 (Ok u).
Proof.
  intros Hq Hlive [(s & t1 & t2 & t3 & Hl & -> & Hh & Hf)|(_ & t1 & t2 & t3 & _ & Hp & _)]%(run_ends _ _ None);
    [|by destruct (Hlive t2)|done].
  exists s, (t1 ++ t2), t3. rewrite <- app_assoc. split; [|by eauto].
  unfold last_or in Hl. by destruct (last _).
Qed.

(** A session that ends well has stored the event of a last state and has
    then marked the swap as finished and cleaned up. *)
Lemma session_outcome m h evs m' p (tr : list Obs) u :
  session fuel recreate m h evs m' p -> runs p tr (Ok u) ->
  exists s t1 t2, last (evs ++ stored_of tr) = Some (get_event s) /\
    (exists t, runs (handle m' s) t last_state) /\ tr = t1 ++ t2 /\ runs (on_finished m') t2 (Ok u).
Proof.
  intros [|h' evs' m'' s0 Hh Hrec] Hr.
  - apply run_outcome in Hr; [done|apply quiet_initialize|apply initialize_live].
  - unfold kickstart in Hr. apply runs_bind in Hr as (u' & ta & tb & -> & Ha & Hr).
    rewrite stored_of_app, (stored_of_quiet _ _ _ (quiet_kickstart _ _) Ha).
    apply run_outcome in Hr as (s & t1 & t2 & Hl & Hs & -> & Hf);
      [|apply quiet_handle|intros t; by eapply recreate_live].
    exists s, (ta ++ t1), t2. rewrite <- app_assoc, last_app. cbn [app]. by rewrite Hl.
Qed.
End Outcome.

(** A property of all calls of a machine. *)
Section Only.
  Variable P : Call -> Prop.
  Variable m : M.
  Hypothesis only_start : only P (on_start m).
  Hypothesis only_finished : only P (on_finished m).
  Hypothesis only_handle : forall s, only P (handle m s).
  Hypothesis only_event : forall e,
    only P (on_event m e) /\ only P (store_event m e) /\ only P (on_kickstart_event m e).

Lemma change_only p : only P p -> only P (prog_bind p (finish_state m)).
Proof.
  intros Hp. apply only_bind; [done|]. intros [s|]; [|done]. cbn [finish_state].
  unfold change_state_impl, on_new_state. apply only_bind; [|done].
  apply only_bind; [apply only_event|]. intros. apply only_event.
Qed.

Lemma run_only n p : only P p -> only P (run n m (prog_bind p (finish_state m))).
Proof.
  intros Hp. apply only_bind; [done|]. intros [u|e]; [|done].
  apply only_bind; [by apply change_only|]. clear u.
  induction n as [|n IH]; intros [s| |e]; cbn [run_loop]; try done.
  apply only_bind; [by apply change_only|done].
Qed.

Lemma kickstart_only n s : only P (kickstart n m s).
Proof. apply only_bind; [apply only_event|]. intros. by apply run_only. Qed.
End Only.

(** The same for all sessions, from the operations of the machines. *)
Section SessionOnly.
  Context {RecreateError : Type}.
  Variable fuel : nat.
  Variable recreate : M -> list Event -> result RecreateError (M * St).
  Variable P : M -> Call -> Prop.
  Hypothesis only_lock : forall m, only (P m) (acquire_reentrancy_lock m).
  Hypothesis only_record : forall m, only (P m) (has_record_for m) /\ only (P m) (store_repr m).
  Hypothesis only_renew : forall m, only (P m) (spawn_reentrancy_lock_renew m).
  Hypothesis only_context : forall m,
    only (P m) (init_additional_context m) /\ only (P m) (clean_up_context m).
  Hypothesis only_mark : forall m, only (P m) (mark_finished m).
  Hypothesis only_moves : forall m, only (P m) (initialize m) /\ forall s, only (P m) (handle m s).
  Hypothesis only_events : forall m e,
    only (P m) (on_event m e) /\ only (P m) (store_event m e) /\ only (P m) (on_kickstart_event m e).

Lemma session_only m h evs m' p : session fuel recreate m h evs m' p -> only (P m') p.
Proof.
  assert (forall m, only (P m) (on_start m)) as H1.
  { intros m0. apply on_start_only; [done|apply only_record|apply only_record|done|].
    apply only_context. }
  assert (forall m, only (P m) (on_finished m)) as H2.
  { intros m0. apply on_finished_only; [done|]. apply only_context. }
  intros [|h' evs' m1 s Hh Hr].
  - apply (run_only (P m) m); [done..|apply only_moves|done|apply only_moves].
  - apply (kickstart_only (P m1) m1); [done..|apply only_moves|done].
Qed.
End SessionOnly.
End Ends.
