(* ===== verification/SwapV2.v ===== *)
(** * What the two machines of the second swap protocol share

    [lp_swap/swap_v2_common.rs], the parts of [lp_swap.rs] for the second
    protocol (message store, topics, receiving), its messages
    ([komodefi.swap_v2.pb.rs]), the traits and argument structures of
    [coins/lp_coins.rs] that it uses, [ensure_tx_is_broadcasted], and the
    calls of its handlers, which include those of Swap.v. *)

From S2P Require Import Prelude MmNumber DexFee Effects Swap StateMachine.

Open Scope Z_scope.

(** ** Coins

    The associated types of [ParseCoinAssocTypes] with their parsers and
    [ToBytes], and the methods of the traits that only look at the coin.
    Parse errors are given as their rendered text. *)
Record CoinV2 : Type := mkCoinV2 {
  mm_coin : Coin;
  Address : Type;
  Pubkey : Type;
  CoinTx : Type;
  Preimage : Type;
  Sig : Type;
  parse_address : string -> result string Address;
  parse_pubkey : bytes -> result string Pubkey;
  parse_tx : bytes -> result string CoinTx;
  parse_preimage : bytes -> result string Preimage;
  parse_signature : bytes -> result string Sig;
  addr_to_string : Address -> string;
  pubkey_to_bytes : Pubkey -> bytes;
  coin_tx_hex : CoinTx -> bytes;
  tx_hash_as_bytes : CoinTx -> bytes;
  preimage_to_bytes : Preimage -> bytes;
  sig_to_bytes : Sig -> bytes;
  derive_htlc_pubkey_v2 : bytes -> Pubkey;
  derive_htlc_pubkey_v2_bytes : bytes -> bytes;
  taker_pubkey_bytes : option bytes;
  skip_taker_payment_spend_preimage : bool;
  platform_ticker : string }.

Definition coin_ticker (c : CoinV2) : string := ticker (mm_coin c).
Definition contract_address (c : CoinV2) : option bytes := swap_contract_address (mm_coin c).

(** What the recreation of a machine relies on: a coin parses what it has
    serialized. *)
Class LawfulCoin (c : CoinV2) : Prop := {
  parse_address_string a : parse_address c (addr_to_string c a) = Ok a;
  parse_pubkey_bytes p : parse_pubkey c (pubkey_to_bytes c p) = Ok p;
  parse_tx_hex t : parse_tx c (coin_tx_hex c t) = Ok t;
  parse_preimage_bytes p : parse_preimage c (preimage_to_bytes c p) = Ok p;
  parse_signature_bytes s : parse_signature c (sig_to_bytes c s) = Ok s }.

Record TxPreimageWithSig (c : CoinV2) : Type := mkPreimageWithSig {
  preimage : Preimage c;
  signature : Sig c }.
Arguments mkPreimageWithSig {c} _ _.
Arguments preimage {c} _.
Arguments signature {c} _.

Definition transaction_identifier {c : CoinV2} (t : CoinTx c) : TransactionIdentifier :=
  mkTxIdent (coin_tx_hex c t) (tx_hash_as_bytes c t).

Record StoredTxPreimage : Type := mkStoredPreimage {
  stp_preimage : bytes;
  stp_signature : bytes }.

Definition stored_preimage {c : CoinV2} (p : TxPreimageWithSig c) : StoredTxPreimage :=
  mkStoredPreimage (preimage_to_bytes c (preimage p)) (sig_to_bytes c (signature p)).

Inductive FundingTxSpend (c : CoinV2) : Type :=
| RefundedTimelock (tx : CoinTx c)
| RefundedSecret (tx : CoinTx c) (secret : bytes)
| TransferredToTakerPayment (tx : CoinTx c).
Arguments RefundedTimelock {c} tx.
Arguments RefundedSecret {c} tx secret.
Arguments TransferredToTakerPayment {c} tx.

Inductive SearchForFundingSpendErr : Type :=
| InvalidInputTx (e : string)
| FailedToProcessSpendTx (e : string)
| Rpc (e : string)
| FromBlockConversionErr (e : string)
| SearchInternal (e : string).

(** *** Arguments of the operations *)

Record SendMakerPaymentArgs (c : CoinV2) : Type := mkSendMakerPayment {
  smp_time_lock : Z;
  smp_taker_secret_hash : bytes;
  smp_maker_secret_hash : bytes;
  smp_amount : BigDecimal;
  smp_taker_pub : Pubkey c;
  smp_swap_unique_data : bytes }.

Record ValidateMakerPaymentArgs (c : CoinV2) : Type := mkValidateMakerPayment {
  vmp_maker_payment_tx : CoinTx c;
  vmp_time_lock : Z;
  vmp_taker_secret_hash : bytes;
  vmp_maker_secret_hash : bytes;
  vmp_amount : BigDecimal;
  vmp_maker_pub : Pubkey c;
  vmp_swap_unique_data : bytes }.

Record RefundMakerPaymentSecretArgs (c : CoinV2) : Type := mkRefundMakerSecret {
  rms_maker_payment_tx : CoinTx c;
  rms_time_lock : Z;
  rms_taker_secret_hash : bytes;
  rms_maker_secret_hash : bytes;
  rms_taker_secret : bytes;
  rms_taker_pub : Pubkey c;
  rms_swap_unique_data : bytes;
  rms_amount : BigDecimal }.

Inductive SwapTxTypeWithSecretHash : Type :=
| TakerOrMakerPayment (maker_secret_hash : bytes)
| TakerFundingType (taker_secret_hash : bytes)
| MakerPaymentV2 (maker_secret_hash taker_secret_hash : bytes)
| TakerPaymentV2 (maker_secret_hash taker_secret_hash : bytes).

Record RefundMakerPaymentTimelockArgs : Type := mkRefundMakerTimelock {
  rmt_payment_tx : bytes;
  rmt_time_lock : Z;
  rmt_taker_pub : bytes;
  rmt_tx_type_with_secret_hash : SwapTxTypeWithSecretHash;
  rmt_swap_unique_data : bytes;
  rmt_watcher_reward : bool;
  rmt_amount : BigDecimal }.

Record SpendMakerPaymentArgs (c : CoinV2) : Type := mkSpendMakerPayment {
  spm_maker_payment_tx : CoinTx c;
  spm_time_lock : Z;
  spm_taker_secret_hash : bytes;
  spm_maker_secret_hash : bytes;
  spm_maker_secret : bytes;
  spm_maker_pub : Pubkey c;
  spm_swap_unique_data : bytes;
  spm_amount : BigDecimal }.

Record SendTakerFundingArgs : Type := mkSendTakerFunding {
  sff_funding_time_lock : Z;
  sff_payment_time_lock : Z;
  sff_taker_secret_hash : bytes;
  sff_maker_secret_hash : bytes;
  sff_maker_pub : bytes;
  sff_dex_fee : DexFee;
  sff_premium_amount : BigDecimal;
  sff_trading_amount : BigDecimal;
  sff_swap_unique_data : bytes }.

Record RefundFundingSecretArgs (c : CoinV2) : Type := mkRefundFundingSecret {
  rfs_funding_tx : CoinTx c;
  rfs_funding_time_lock : Z;
  rfs_payment_time_lock : Z;
  rfs_maker_pubkey : Pubkey c;
  rfs_taker_secret : bytes;
  rfs_taker_secret_hash : bytes;
  rfs_maker_secret_hash : bytes;
  rfs_dex_fee : DexFee;
  rfs_premium_amount : BigDecimal;
  rfs_trading_amount : BigDecimal;
  rfs_swap_unique_data : bytes;
  rfs_watcher_reward : bool }.

Record RefundTakerPaymentArgs : Type := mkRefundTakerPayment {
  rtp_payment_tx : bytes;
  rtp_time_lock : Z;
  rtp_maker_pub : bytes;
  rtp_tx_type_with_secret_hash : SwapTxTypeWithSecretHash;
  rtp_swap_unique_data : bytes;
  rtp_watcher_reward : bool;
  rtp_dex_fee : DexFee;
  rtp_premium_amount : BigDecimal;
  rtp_trading_amount : BigDecimal }.

Record GenTakerFundingSpendArgs (c : CoinV2) : Type := mkGenFundingSpend {
  gfs_funding_tx : CoinTx c;
  gfs_maker_pub : Pubkey c;
  gfs_taker_pub : Pubkey c;
  gfs_funding_time_lock : Z;
  gfs_taker_secret_hash : bytes;
  gfs_taker_payment_time_lock : Z;
  gfs_maker_secret_hash : bytes }.

Record GenTakerPaymentSpendArgs (c : CoinV2) : Type := mkGenPaymentSpend {
  gps_taker_tx : CoinTx c;
  gps_time_lock : Z;
  gps_maker_secret_hash : bytes;
  gps_maker_pub : Pubkey c;
  gps_maker_address : Address c;
  gps_taker_pub : Pubkey c;
  gps_dex_fee : DexFee;
  gps_premium_amount : BigDecimal;
  gps_trading_amount : BigDecimal }.

Record ValidateTakerFundingArgs (c : CoinV2) : Type := mkValidateTakerFunding {
  vtf_funding_tx : CoinTx c;
  vtf_funding_time_lock : Z;
  vtf_payment_time_lock : Z;
  vtf_taker_secret_hash : bytes;
  vtf_maker_secret_hash : bytes;
  vtf_taker_pub : Pubkey c;
  vtf_dex_fee : DexFee;
  vtf_premium_amount : BigDecimal;
  vtf_trading_amount : BigDecimal;
  vtf_swap_unique_data : bytes }.

Arguments mkSendMakerPayment {c}.
Arguments mkValidateMakerPayment {c}.
Arguments mkRefundMakerSecret {c}.
Arguments mkSpendMakerPayment {c}.
Arguments mkRefundFundingSecret {c}.
Arguments mkGenFundingSpend {c}.
Arguments mkGenPaymentSpend {c}.
Arguments mkValidateTakerFunding {c}.

(** ** Messages *)

Record MakerNegotiation : Type := mkMakerNegotiation {
  mn_started_at : Z;
  mn_payment_locktime : Z;
  mn_secret_hash : bytes;
  mn_maker_coin_htlc_pub : bytes;
  mn_taker_coin_htlc_pub : bytes;
  mn_maker_coin_swap_contract : option bytes;
  mn_taker_coin_swap_contract : option bytes;
  mn_taker_coin_address : string }.

Record TakerNegotiationData : Type := mkTakerNegotiationData {
  tnd_started_at : Z;
  tnd_funding_locktime : Z;
  tnd_payment_locktime : Z;
  tnd_taker_secret_hash : bytes;
  tnd_maker_coin_htlc_pub : bytes;
  tnd_taker_coin_htlc_pub : bytes;
  tnd_maker_coin_swap_contract : option bytes;
  tnd_taker_coin_swap_contract : option bytes }.

Inductive TakerNegotiationAction : Type :=
| Continue (data : TakerNegotiationData)
| Abort (reason : string).

Record TakerNegotiation : Type := mkTakerNegotiation { action : option TakerNegotiationAction }.

Record MakerNegotiated : Type := mkMakerNegotiated {
  mnd_negotiated : bool;
  mnd_reason : option string }.

Record TakerFundingInfo : Type := mkTakerFundingInfo {
  fund_tx_bytes : bytes;
  fund_next_step_instructions : option bytes }.

Record TakerPaymentInfo : Type := mkTakerPaymentInfo {
  tpay_tx_bytes : bytes;
  tpay_next_step_instructions : option bytes }.

Record MakerPaymentInfo : Type := mkMakerPaymentInfo {
  mpay_tx_bytes : bytes;
  mpay_next_step_instructions : option bytes;
  funding_preimage_sig : bytes;
  funding_preimage_tx : bytes }.

Record TakerPaymentSpendPreimage : Type := mkTakerPaymentSpendPreimage {
  tsp_signature : bytes;
  tsp_tx_preimage : bytes }.

(** [swap_message::Inner] *)
Inductive SwapMessageInner : Type :=
| MsgMakerNegotiation (m : MakerNegotiation)
| MsgTakerNegotiation (m : TakerNegotiation)
| MsgMakerNegotiated (m : MakerNegotiated)
| MsgTakerFundingInfo (m : TakerFundingInfo)
| MsgMakerPaymentInfo (m : MakerPaymentInfo)
| MsgTakerPaymentInfo (m : TakerPaymentInfo)
| MsgTakerPaymentSpendPreimage (m : TakerPaymentSpendPreimage).

Record SwapMessage : Type := mkSwapMessage {
  inner : option SwapMessageInner;
  swap_uuid : bytes }.

Record SignedMessage : Type := mkSignedMessage {
  sgm_from : bytes;
  sgm_signature : bytes;
  sgm_payload : bytes }.

Record SwapV2MsgStore : Type := mkStoreV2 {
  st_maker_negotiation : option MakerNegotiation;
  st_taker_negotiation : option TakerNegotiation;
  st_maker_negotiated : option MakerNegotiated;
  st_taker_funding : option TakerFundingInfo;
  st_maker_payment : option MakerPaymentInfo;
  st_taker_payment : option TakerPaymentInfo;
  st_taker_payment_spend_preimage : option TakerPaymentSpendPreimage;
  st_accept_only_from : bytes }.

Definition SwapV2MsgStore_new (accept_only_from : bytes) : SwapV2MsgStore :=
  mkStoreV2 None None None None None None None accept_only_from.

Definition put_message (m : SwapMessageInner) (s : SwapV2MsgStore) : SwapV2MsgStore :=
  let '(mkStoreV2 mn tn md tf mp tp sp from) := s in
  match m with
  | MsgMakerNegotiation x => mkStoreV2 (Some x) tn md tf mp tp sp from
  | MsgTakerNegotiation x => mkStoreV2 mn (Some x) md tf mp tp sp from
  | MsgMakerNegotiated x => mkStoreV2 mn tn (Some x) tf mp tp sp from
  | MsgTakerFundingInfo x => mkStoreV2 mn tn md (Some x) mp tp sp from
  | MsgMakerPaymentInfo x => mkStoreV2 mn tn md tf (Some x) tp sp from
  | MsgTakerPaymentInfo x => mkStoreV2 mn tn md tf mp (Some x) sp from
  | MsgTakerPaymentSpendPreimage x => mkStoreV2 mn tn md tf mp tp (Some x) from
  end.

(** The getter closures that [recv_swap_v2_msg] is called with. *)
Inductive MsgKindV2 : Type :=
| KMakerNegotiation | KTakerNegotiation | KMakerNegotiated | KTakerFunding
| KMakerPaymentInfo | KTakerPaymentSpendPreimage.

Definition msg_type_v2 (k : MsgKindV2) : Type :=
  match k with
  | KMakerNegotiation => MakerNegotiation
  | KTakerNegotiation => TakerNegotiation
  | KMakerNegotiated => MakerNegotiated
  | KTakerFunding => TakerFundingInfo
  | KMakerPaymentInfo => MakerPaymentInfo
  | KTakerPaymentSpendPreimage => TakerPaymentSpendPreimage
  end.

Definition store_take_v2 (k : MsgKindV2) (s : SwapV2MsgStore)
  : option (msg_type_v2 k) * SwapV2MsgStore :=
  let '(mkStoreV2 mn tn md tf mp tp sp from) := s in
  match k with
  | KMakerNegotiation => (mn, mkStoreV2 None tn md tf mp tp sp from)
  | KTakerNegotiation => (tn, mkStoreV2 mn None md tf mp tp sp from)
  | KMakerNegotiated => (md, mkStoreV2 mn tn None tf mp tp sp from)
  | KTakerFunding => (tf, mkStoreV2 mn tn md None mp tp sp from)
  | KMakerPaymentInfo => (mp, mkStoreV2 mn tn md tf None tp sp from)
  | KTakerPaymentSpendPreimage => (sp, mkStoreV2 mn tn md tf mp tp None from)
  end.

(** What one poll of [recv_swap_v2_msg] does to the shared stores. *)
Definition poll_msg_v2 (uuid : Uuid) (k : MsgKindV2) (msgs : gmap Uuid SwapV2MsgStore)
  : option (msg_type_v2 k) * gmap Uuid SwapV2MsgStore :=
  match msgs !! uuid with
  | Some msg_store =>
      let '(m, msg_store') := store_take_v2 k msg_store in (m, <[uuid := msg_store']> msgs)
  | None => (None, msgs)
  end.

(** *** Incoming messages

    The decoders (prost, uuid) and the signature scheme (secp256k1). *)
Class P2PCodec := {
  uuid_from_str : string -> option Uuid;
  uuid_from_slice : bytes -> option Uuid;
  decode_signed : bytes -> option SignedMessage;
  decode_message : bytes -> option SwapMessage;
  public_key_from_slice : bytes -> option bytes;
  signature_from_compact : bytes -> option bytes;
  secp_verify : bytes -> bytes -> bytes -> bool }.

Inductive P2PProcessError : Type :=
| DecodeError
| UnexpectedSender (pubkey : bytes)
| InvalidSignature
| ValidationFailed (uuid_from_message uuid : Uuid).

Section Process.
  Context `{P2PCodec} `{SecretHasher}.
  Local Open Scope result_scope.

Definition process_swap_v2_msg (topic : string) (msg : bytes) (msgs : gmap Uuid SwapV2MsgStore)
  : result P2PProcessError (gmap Uuid SwapV2MsgStore) :=
  let? uuid := ok_or (uuid_from_str topic) DecodeError in
  match msgs !! uuid with
  | None => Ok msgs
  | Some msg_store =>
      let? signed_message := ok_or (decode_signed msg) DecodeError in
      let? pubkey := ok_or (public_key_from_slice (sgm_from signed_message)) DecodeError in
      let? _ := (if bool_decide (pubkey = st_accept_only_from msg_store) then Ok tt
                 else Err (UnexpectedSender pubkey)) in
      let? sig := ok_or (signature_from_compact (sgm_signature signed_message)) DecodeError in
      let? _ := (if secp_verify (sha256 (sgm_payload signed_message)) sig pubkey then Ok tt
                 else Err InvalidSignature) in
      let? swap_message := ok_or (decode_message (sgm_payload signed_message)) DecodeError in
      let? uuid_from_message := ok_or (uuid_from_slice (swap_uuid swap_message)) DecodeError in
      let? _ := (if bool_decide (uuid_from_message = uuid) then Ok tt
                 else Err (ValidationFailed uuid_from_message uuid)) in
      match inner swap_message with
      | Some m => Ok (<[uuid := put_message m msg_store]> msgs)
      | None => Err DecodeError
      end
  end.
End Process.

(** ** The context of a swap

    The parts of the node that a machine's [init_additional_context],
    [clean_up_context], [on_event] and [on_kickstart_event] change. *)

(** [swap_v2_topic]: the prefix and the rendered uuid. *)
Definition SWAP_V2_PREFIX : string := "swapv2".
Notation Topic := (string * Uuid)%type.
Definition swap_v2_topic (uuid : Uuid) : Topic := (SWAP_V2_PREFIX, uuid).

Inductive CtxOp : Type :=
| subscribe_to_topic (t : Topic)
| unsubscribe_from_topic (t : Topic)
| init_msg_v2_store (uuid : Uuid) (accept_only_from : bytes)
| remove_msg_v2_store (uuid : Uuid)
| insert_active_swap_v2 (uuid : Uuid) (info : ActiveSwapV2Info)
| remove_active_swap_v2 (uuid : Uuid)
| push_locked_amount (coin : string) (new_locked : LockedAmountInfo)
| retain_other_locked (coin : string) (uuid : Uuid).

Record NodeCtx : Type := mkNodeCtx {
  nc_topics : gset Topic;
  nc_msgs : gmap Uuid SwapV2MsgStore;
  nc_swaps : SwapsContext }.

Definition set_locked (f : gmap string (list LockedAmountInfo) -> gmap string (list LockedAmountInfo))
  (c : NodeCtx) : NodeCtx :=
  mkNodeCtx (nc_topics c) (nc_msgs c)
    (mkSwapsContext (running_swaps (nc_swaps c)) (active_swaps_v2_infos (nc_swaps c))
       (f (locked_amounts (nc_swaps c)))).

Definition set_active (f : gmap Uuid ActiveSwapV2Info -> gmap Uuid ActiveSwapV2Info) (c : NodeCtx)
  : NodeCtx :=
  mkNodeCtx (nc_topics c) (nc_msgs c)
    (mkSwapsContext (running_swaps (nc_swaps c)) (f (active_swaps_v2_infos (nc_swaps c)))
       (locked_amounts (nc_swaps c))).

Definition set_msgs (f : gmap Uuid SwapV2MsgStore -> gmap Uuid SwapV2MsgStore) (c : NodeCtx)
  : NodeCtx := mkNodeCtx (nc_topics c) (f (nc_msgs c)) (nc_swaps c).

Definition ctx_step (op : CtxOp) (c : NodeCtx) : NodeCtx :=
  match op with
  | subscribe_to_topic t => mkNodeCtx ({[ t ]} ∪ nc_topics c) (nc_msgs c) (nc_swaps c)
  | unsubscribe_from_topic t => mkNodeCtx (nc_topics c ∖ {[ t ]}) (nc_msgs c) (nc_swaps c)
  | init_msg_v2_store u from => set_msgs <[u := SwapV2MsgStore_new from]> c
  | remove_msg_v2_store u => set_msgs (delete u) c
  | insert_active_swap_v2 u info => set_active <[u := info]> c
  | remove_active_swap_v2 u => set_active (delete u) c
  | push_locked_amount coin l =>
      set_locked (fun m => <[coin := default [] (m !! coin) ++ [l]]> m) c
  | retain_other_locked coin u =>
      set_locked (alter (filter (fun l => lai_swap_uuid l <> u)) coin) c
  end.

(** ** The calls of a handler

    [MC] and [TC] are the two coins, [L] the event type of the legacy calls
    of Swap.v that are made here too ([common]: the clock, balances, fees,
    confirmations, when an HTLC can be refunded), [D] the stored
    representation and [E] the events of the machine.  Errors that the
    handlers only render are answered as their text. *)

Inductive SwapLockError : Type :=
| ErrorReadingTimestamp (e : string)
| ErrorWritingTimestamp (e : string)
| LockInternalError (e : string).

Inductive SwapStateMachineError : Type :=
| StorageError (e : string)
| SerdeError (e : string)
| SwapLockAlreadyAcquired
| SwapLock (e : SwapLockError).

Inductive SwapRecreateError : Type :=
| ReprEventsEmpty
| FailedToParseData (e : string)
| SwapAborted
| SwapCompleted
| SwapFinishedWithRefund.

Inductive CallV2 (MC TC : CoinV2) (L D E : Type) : Type :=
| common (c : Call L)
(* network *)
| take_msg_v2 (uuid : Uuid) (k : MsgKindV2)
| broadcast_swap_v2_msg_every (t : Topic) (m : SwapMessage) (interval_sec : Q)
    (p2p_privkey : option bytes)
(* coins *)
| my_addr
| get_tx_hex_by_hash (s : Side) (hash : bytes)
| send_raw_tx_bytes (s : Side) (raw : bytes)
| send_taker_funding (a : SendTakerFundingArgs)
| validate_taker_funding (a : ValidateTakerFundingArgs TC)
| refund_taker_funding_secret (a : RefundFundingSecretArgs TC)
| search_for_taker_funding_spend (tx : CoinTx TC) (from_block : Z) (secret_hash : bytes)
| gen_taker_funding_spend_preimage (a : GenTakerFundingSpendArgs TC) (swap_unique_data : bytes)
| validate_taker_funding_spend_preimage (a : GenTakerFundingSpendArgs TC) (p : TxPreimageWithSig TC)
| sign_and_send_taker_funding_spend (p : TxPreimageWithSig TC) (a : GenTakerFundingSpendArgs TC)
    (swap_unique_data : bytes)
| refund_combined_taker_payment (a : RefundTakerPaymentArgs)
| gen_taker_payment_spend_preimage (a : GenTakerPaymentSpendArgs TC) (swap_unique_data : bytes)
| validate_taker_payment_spend_preimage (a : GenTakerPaymentSpendArgs TC) (p : TxPreimageWithSig TC)
| sign_and_broadcast_taker_payment_spend (p : option (TxPreimageWithSig TC))
    (a : GenTakerPaymentSpendArgs TC) (secret swap_unique_data : bytes)
| find_taker_payment_spend_tx (taker_payment : CoinTx TC) (from_block wait_until : Z)
| extract_secret_v2 (secret_hash : bytes) (spend_tx : CoinTx TC)
| send_maker_payment_v2 (a : SendMakerPaymentArgs MC)
| validate_maker_payment_v2 (a : ValidateMakerPaymentArgs MC)
| refund_maker_payment_v2_timelock (a : RefundMakerPaymentTimelockArgs)
| refund_maker_payment_v2_secret (a : RefundMakerPaymentSecretArgs MC)
| spend_maker_payment_v2 (a : SpendMakerPaymentArgs MC)
(* the node *)
| context (op : CtxOp)
| spawn_lock_renew (uuid : Uuid)
| stream_event (uuid : Uuid) (e : E)
| swap_lock (uuid : Uuid) (ttl_sec : Q)
(* the database *)
| has_db_record_for (uuid : Uuid)
| insert_new_swap_v2 (uuid : Uuid) (repr : D)
| store_swap_event (uuid : Uuid) (e : E)
| mark_swap_as_finished (uuid : Uuid).

Definition answer_v2 {MC TC : CoinV2} {L D E : Type} (c : CallV2 MC TC L D E) : Type :=
  match c with
  | common _ _ _ _ _ c => answer c
  | take_msg_v2 _ _ _ _ _ _ k => option (msg_type_v2 k)
  | my_addr _ _ _ _ _ => Address TC
  | get_tx_hex_by_hash _ _ _ _ _ _ _ => result string bytes
  | send_raw_tx_bytes _ _ _ _ _ _ _ => result string string
  | send_taker_funding _ _ _ _ _ _ | refund_taker_funding_secret _ _ _ _ _ _
  | sign_and_send_taker_funding_spend _ _ _ _ _ _ _ _
  | refund_combined_taker_payment _ _ _ _ _ _
  | sign_and_broadcast_taker_payment_spend _ _ _ _ _ _ _ _ _ => result TransactionErr (CoinTx TC)
  | send_maker_payment_v2 _ _ _ _ _ _ | refund_maker_payment_v2_timelock _ _ _ _ _ _
  | refund_maker_payment_v2_secret _ _ _ _ _ _
  | spend_maker_payment_v2 _ _ _ _ _ _ => result TransactionErr (CoinTx MC)
  | validate_taker_funding _ _ _ _ _ _ | validate_maker_payment_v2 _ _ _ _ _ _
  | validate_taker_funding_spend_preimage _ _ _ _ _ _ _
  | validate_taker_payment_spend_preimage _ _ _ _ _ _ _ => result string unit
  | search_for_taker_funding_spend _ _ _ _ _ _ _ _ =>
      result SearchForFundingSpendErr (option (FundingTxSpend TC))
  | gen_taker_funding_spend_preimage _ _ _ _ _ _ _
  | gen_taker_payment_spend_preimage _ _ _ _ _ _ _ => result string (TxPreimageWithSig TC)
  | find_taker_payment_spend_tx _ _ _ _ _ _ _ _ => result string (CoinTx TC)
  | extract_secret_v2 _ _ _ _ _ _ _ => result string bytes
  | broadcast_swap_v2_msg_every _ _ _ _ _ _ _ _ _ | context _ _ _ _ _ _
  | spawn_lock_renew _ _ _ _ _ _ | stream_event _ _ _ _ _ _ _ => unit
  | swap_lock _ _ _ _ _ _ _ => result SwapLockError bool
  | has_db_record_for _ _ _ _ _ _ => result SwapStateMachineError bool
  | insert_new_swap_v2 _ _ _ _ _ _ _ | store_swap_event _ _ _ _ _ _ _
  | mark_swap_as_finished _ _ _ _ _ _ => result SwapStateMachineError unit
  end.

Arguments common {MC TC L D E} c.
Arguments take_msg_v2 {MC TC L D E} uuid k.
Arguments broadcast_swap_v2_msg_every {MC TC L D E} t m interval_sec p2p_privkey.
Arguments my_addr {MC TC L D E}.
Arguments get_tx_hex_by_hash {MC TC L D E} s hash.
Arguments send_raw_tx_bytes {MC TC L D E} s raw.
Arguments send_taker_funding {MC TC L D E} a.
Arguments validate_taker_funding {MC TC L D E} a.
Arguments refund_taker_funding_secret {MC TC L D E} a.
Arguments search_for_taker_funding_spend {MC TC L D E} tx from_block secret_hash.
Arguments gen_taker_funding_spend_preimage {MC TC L D E} a swap_unique_data.
Arguments validate_taker_funding_spend_preimage {MC TC L D E} a p.
Arguments sign_and_send_taker_funding_spend {MC TC L D E} p a swap_unique_data.
Arguments refund_combined_taker_payment {MC TC L D E} a.
Arguments gen_taker_payment_spend_preimage {MC TC L D E} a swap_unique_data.
Arguments validate_taker_payment_spend_preimage {MC TC L D E} a p.
Arguments sign_and_broadcast_taker_payment_spend {MC TC L D E} p a secret swap_unique_data.
Arguments find_taker_payment_spend_tx {MC TC L D E} taker_payment from_block wait_until.
Arguments extract_secret_v2 {MC TC L D E} secret_hash spend_tx.
Arguments send_maker_payment_v2 {MC TC L D E} a.
Arguments validate_maker_payment_v2 {MC TC L D E} a.
Arguments refund_maker_payment_v2_timelock {MC TC L D E} a.
Arguments refund_maker_payment_v2_secret {MC TC L D E} a.
Arguments spend_maker_payment_v2 {MC TC L D E} a.
Arguments context {MC TC L D E} op.
Arguments spawn_lock_renew {MC TC L D E} uuid.
Arguments stream_event {MC TC L D E} uuid e.
Arguments swap_lock {MC TC L D E} uuid ttl_sec.
Arguments has_db_record_for {MC TC L D E} uuid.
Arguments insert_new_swap_v2 {MC TC L D E} uuid repr.
Arguments store_swap_event {MC TC L D E} uuid e.
Arguments mark_swap_as_finished {MC TC L D E} uuid.

(** ** Shared programs *)

Definition SWAP_TX_VISIBILITY_GRACE_SECS : Q := 30 # 1.
Definition SWAP_TX_VISIBILITY_POLL_SECS : Q := 1.
Definition NEGOTIATE_SEND_INTERVAL : Q := 30 # 1.

Definition wait_until_ms (now milliseconds : Z) : Z := wrap 64 (now + milliseconds).

Section Common.
  Context {MC TC : CoinV2} {L D E : Type}.
  Notation M := (prog (@answer_v2 MC TC L D E)).
  Local Open Scope prog_scope.

(** A program over the calls of Swap.v, such as a balance check. *)
Fixpoint lift {A} (p : prog (@answer L) A) : M A :=
  match p with
  | Ret a => Ret a
  | Panic => Panic
  | OutOfFuel => OutOfFuel
  | Vis c k => Vis (common c : CallV2 MC TC L D E) (fun x => lift (k x))
  end.

Fixpoint recv_loop_v2 (fuel : nat) (uuid : Uuid) (k : MsgKindV2) (started timeout wait_until : Z)
  : M (result SwapError (msg_type_v2 k)) :=
  match fuel with
  | O => OutOfFuel
  | S fuel =>
      do call (common (sleep (1 # 1)));
      m <- call (take_msg_v2 uuid k);
      match m with
      | Some msg => Ret (Ok msg)
      | None =>
          now <- call (common now_sec);
          if now >? wait_until
          then Ret (Err (err "Timeout ({} > {})" [ArgNum (wrap 64 (now - started)); ArgNum timeout]))
          else recv_loop_v2 fuel uuid k started timeout wait_until
      end
  end.

Definition recv_swap_v2_msg (fuel : nat) (uuid : Uuid) (k : MsgKindV2) (timeout : Z)
  : M (result SwapError (msg_type_v2 k)) :=
  started <- call (common now_sec);
  let timeout := wrap 64 (BASIC_COMM_TIMEOUT + timeout) in
  let wait_until := wrap 64 (started + timeout) in
  recv_loop_v2 fuel uuid k started timeout wait_until.

(** The [repeatable!] future of [ensure_tx_is_broadcasted]: attempts until the
    next one would come after [until_ms], with one rebroadcast. *)
Fixpoint ensure_loop (fuel : nat) (s : Side) (hash raw : bytes) (did_rebroadcast : bool)
  (until_ms : Z) (poll_every_secs : Q) : M bool :=
  match fuel with
  | O => OutOfFuel
  | S fuel =>
      r <- call (get_tx_hex_by_hash s hash);
      match r with
      | Ok _ => Ret true
      | Err _ =>
          do (if did_rebroadcast then Ret tt
              else (_ <- call (send_raw_tx_bytes s raw); Ret tt));
          now <- call (common now_ms);
          if wait_until_ms now (Qfloor (poll_every_secs * 1000)) <? until_ms
          then do call (common (sleep poll_every_secs));
               ensure_loop fuel s hash raw true until_ms poll_every_secs
          else Ret false
      end
  end.

Definition ensure_tx_is_broadcasted (fuel : nat) (s : Side) (hash raw : bytes)
  (total_grace_secs poll_every_secs : Q) : M bool :=
  now <- call (common now_ms);
  ensure_loop fuel s hash raw false (wait_until_ms now (Qfloor (total_grace_secs * 1000)))
    poll_every_secs.

(** The loop that waits until an HTLC can be refunded, in the refund states of
    both machines. *)
Fixpoint wait_can_refund_v2 (fuel : nat) (s : Side) (locktime : Z) : M unit :=
  match fuel with
  | O => OutOfFuel
  | S fuel =>
      r <- call (common (can_refund_htlc s locktime));
      match r with
      | Ok CanRefundNow => Ret tt
      | Ok (HaveToWait to_sleep) =>
          do call (common (sleep (inject_Z to_sleep))); wait_can_refund_v2 fuel s locktime
      | Err _ => do call (common (sleep (30 # 1))); wait_can_refund_v2 fuel s locktime
      end
  end.

(** *** swap_v2_common.rs *)

(** [retries] is one: a second failed attempt is the last. *)
Fixpoint acquire_lock_loop (retries : nat) (uuid : Uuid) : M (result SwapStateMachineError unit) :=
  l <- call (swap_lock uuid (40 # 1));
  match l with
  | Err e => Ret (Err (SwapLock e))
  | Ok true => Ret (Ok tt)
  | Ok false =>
      match retries with
      | O => Ret (Err SwapLockAlreadyAcquired)
      | S retries => do call (common (sleep (40 # 1))); acquire_lock_loop retries uuid
      end
  end.

Definition acquire_reentrancy_lock_impl (uuid : Uuid) : M (result SwapStateMachineError unit) :=
  acquire_lock_loop 1 uuid.

Definition init_additional_context_impl (uuid : Uuid) (swap_info : ActiveSwapV2Info)
  (other_p2p_pubkey : bytes) : M unit :=
  do call (context (subscribe_to_topic (swap_v2_topic uuid)));
  do call (context (init_msg_v2_store uuid other_p2p_pubkey));
  call (context (insert_active_swap_v2 uuid swap_info)).

Definition clean_up_context_impl (uuid : Uuid) (maker_coin taker_coin : string) : M unit :=
  do call (context (unsubscribe_from_topic (swap_v2_topic uuid)));
  do call (context (remove_msg_v2_store uuid));
  do call (context (remove_active_swap_v2 uuid));
  do call (context (retain_other_locked maker_coin uuid));
  call (context (retain_other_locked taker_coin uuid)).

(** The event's table entry is read, the event appended and written back. *)
#[export] Instance journal_v2 : Journal (@answer_v2 MC TC L D E) E := {
  stored_event := fun c => match c with store_swap_event _ e => Some e | _ => None end;
  store_ok := fun c =>
    match c return answer_v2 c -> bool with
    | store_swap_event _ _ => fun x => is_ok x
    | _ => fun _ => false
    end }.

End Common.
