(* ===== verification/MakerSwapV2.v ===== *)
(** * The maker's side of the second swap protocol (lp_swap/maker_swap_v2.rs)

    [MakerSwapStateMachine], its states ([State]) and the events they are
    stored as ([Event]), the handler of each state, [recreate_machine], and
    the instance of [StorableStateMachine].  [MC] and [TC] are the maker's
    and the taker's coin; [fuel] bounds the rounds of the polling loops. *)

From S2P Require Import Prelude MmNumber DexFee Effects Swap StateMachine SwapV2.
From S2P Require MakerSwap.

Open Scope Z_scope.

(** ** Reasons and events

    A reason keeps the error that the source renders into its text. *)

Inductive MakerPaymentRefundReason : Type :=
| DidNotGetTakerPayment (e : string)
| FailedToParseTakerPayment (e : string)
| TakerPaymentNotConfirmedInTime (e : string)
| DidNotGetTakerPaymentSpendPreimage (e : SwapError)
| TakerPaymentSpendPreimageIsNotValid (e : string)
| TakerPaymentSpendNotConfirmedInTime (e : string)
| FailedToParseTakerPreimage (e : string)
| FailedToParseTakerSignature (e : string)
| TakerPaymentSpendBroadcastFailed (e : TransactionErr)
| TakerFundingNotSpentInTime
| TakerFundingReclaimedTimelock
| TakerFundingReclaimedSecret (secret : H256)
| ErrorOnTakerFundingSpendSearch (e : SearchForFundingSpendErr).

Inductive AbortReason : Type :=
| FailedToGetMakerCoinBlock (e : string)
| FailedToGetTakerCoinBlock (e : string)
| BalanceCheckFailure (e : CheckBalanceError)
| DidNotReceiveTakerNegotiation (e : SwapError)
| TakerAbortedNegotiation (e : string)
| ReceivedInvalidTakerNegotiation
| DidNotReceiveTakerFundingInfo (e : SwapError)
| FailedToParseTakerFunding (e : string)
| TakerFundingValidationFailed (e : string)
| FailedToGenerateFundingSpend (e : string)
| FailedToSendMakerPayment (e : TransactionErr)
| TooLargeStartedAtDiff (diff : Z)
| TakerProvidedInvalidFundingLocktime (locktime : Z)
| TakerProvidedInvalidPaymentLocktime (locktime : Z)
| FailedToParsePubkey (e : string)
| MakerPaymentRefundFailed (e : string)
| FailedToGetMakerPaymentFee (e : TradePreimageError)
| FailedToGetTakerPaymentSpendFee (e : TradePreimageError).

Record StoredNegotiationData : Type := mkStoredNegotiation {
  sn_taker_payment_locktime : Z;
  sn_taker_funding_locktime : Z;
  sn_maker_coin_htlc_pub_from_taker : bytes;
  sn_taker_coin_htlc_pub_from_taker : bytes;
  sn_maker_coin_swap_contract : option bytes;
  sn_taker_coin_swap_contract : option bytes;
  sn_taker_secret_hash : bytes }.

Module Event.

Inductive MakerSwapEvent : Type :=
| Initialized (maker_coin_start_block taker_coin_start_block : Z)
    (maker_payment_trade_fee taker_payment_spend_trade_fee : SavedTradeFee)
| WaitingForTakerFunding (maker_coin_start_block taker_coin_start_block : Z)
    (negotiation_data : StoredNegotiationData) (maker_payment_trade_fee : SavedTradeFee)
| TakerFundingReceived (maker_coin_start_block taker_coin_start_block : Z)
    (negotiation_data : StoredNegotiationData) (taker_funding : TransactionIdentifier)
    (maker_payment_trade_fee : SavedTradeFee)
| MakerPaymentSentFundingSpendGenerated (maker_coin_start_block taker_coin_start_block : Z)
    (negotiation_data : StoredNegotiationData) (maker_payment taker_funding : TransactionIdentifier)
    (funding_spend_preimage : StoredTxPreimage)
| MakerPaymentRefundRequired (maker_coin_start_block taker_coin_start_block : Z)
    (negotiation_data : StoredNegotiationData) (maker_payment : TransactionIdentifier)
    (reason : MakerPaymentRefundReason)
| MakerPaymentRefunded (maker_payment maker_payment_refund : TransactionIdentifier)
    (reason : MakerPaymentRefundReason)
| TakerPaymentReceived (maker_coin_start_block taker_coin_start_block : Z)
    (negotiation_data : StoredNegotiationData) (maker_payment taker_payment : TransactionIdentifier)
| TakerPaymentReceivedAndPreimageValidationSkipped
    (maker_coin_start_block taker_coin_start_block : Z)
    (negotiation_data : StoredNegotiationData) (maker_payment taker_payment : TransactionIdentifier)
| TakerPaymentSpent (maker_coin_start_block taker_coin_start_block : Z)
    (maker_payment taker_payment taker_payment_spend : TransactionIdentifier)
    (negotiation_data : StoredNegotiationData)
| Aborted (reason : AbortReason)
| Completed.

End Event.

(** ** The machine and what is stored of it

    The coins, the context, the storage and the abortable system of the
    source's structure are not fields here: the first are the parameters of
    the model, the others its calls. *)
Record MakerSwapStateMachine : Type := mkMachine {
  maker_volume : MmNumber;
  secret : H256;
  secret_hash_algo : SecretHashAlgo;
  started_at : Z;
  lock_duration : Z;
  taker_volume : MmNumber;
  taker_premium : MmNumber;
  conf_settings : SwapConfirmationsSettings;
  uuid : Uuid;
  p2p_topic : Topic;
  p2p_keypair : option bytes;
  taker_p2p_pubkey : H264;
  require_taker_funding_confirm_before_maker_payment : bool;
  require_taker_payment_spend_confirm : bool;
  swap_version : Z }.

Record MakerSwapDbRepr : Type := mkRepr {
  r_maker_coin : string;
  r_maker_volume : MmNumber;
  r_maker_secret : H256;
  r_maker_secret_hash : bytes;
  r_secret_hash_algo : SecretHashAlgo;
  r_started_at : Z;
  r_lock_duration : Z;
  r_taker_coin : string;
  r_taker_volume : MmNumber;
  r_taker_premium : MmNumber;
  r_dex_fee_amount : MmNumber;
  r_dex_fee_burn : MmNumber;
  r_conf_settings : SwapConfirmationsSettings;
  r_uuid : Uuid;
  r_p2p_keypair : option bytes;
  r_events : list Event.MakerSwapEvent;
  r_taker_p2p_pub : H264;
  r_swap_version : Z }.

(** [StateMachineDbRepr::add_event] *)
Definition add_event (event : Event.MakerSwapEvent) (r : MakerSwapDbRepr) : MakerSwapDbRepr :=
  mkRepr (r_maker_coin r) (r_maker_volume r) (r_maker_secret r) (r_maker_secret_hash r)
    (r_secret_hash_algo r) (r_started_at r) (r_lock_duration r) (r_taker_coin r)
    (r_taker_volume r) (r_taker_premium r) (r_dex_fee_amount r) (r_dex_fee_burn r)
    (r_conf_settings r) (r_uuid r) (r_p2p_keypair r) (r_events r ++ [event])
    (r_taker_p2p_pub r) (r_swap_version r).

Section Maker.
  Context `{SecretHasher} `{DecimalConv}.
  Variables MC TC : CoinV2.

Notation Call := (CallV2 MC TC MakerSwap.MakerSwapEvent MakerSwapDbRepr Event.MakerSwapEvent).
Notation M := (prog (@answer_v2 MC TC MakerSwap.MakerSwapEvent MakerSwapDbRepr Event.MakerSwapEvent)).

Definition taker_funding_required_confirmations (m : MakerSwapStateMachine) : Z :=
  if require_taker_funding_confirm_before_maker_payment m
  then Z.min (taker_coin_confs (conf_settings m)) 1
  else 0.

Definition taker_payment_conf_timeout (m : MakerSwapStateMachine) : Z :=
  wrap 64 (started_at m + wrap 64 (lock_duration m * 2) / 3).

Definition maker_payment_locktime (m : MakerSwapStateMachine) : Z :=
  wrap 64 (started_at m + wrap 64 (2 * lock_duration m)).

Definition secret_hash (m : MakerSwapStateMachine) : bytes :=
  hash_secret (secret_hash_algo m) (secret m).

Definition unique_data (m : MakerSwapStateMachine) : bytes := secret_hash m.

Definition dex_fee (m : MakerSwapStateMachine) : DexFee :=
  new_from_taker_coin (fee_coin (mm_coin TC)) (coin_ticker MC) (taker_volume m).

Definition dex_fee_updated (m : MakerSwapStateMachine) (taker_pub : bytes) : DexFee :=
  new_with_taker_pubkey (fee_coin (mm_coin TC)) (coin_ticker MC) (taker_volume m) taker_pub.

Definition to_db_repr (m : MakerSwapStateMachine) : MakerSwapDbRepr := {|
  r_maker_coin := coin_ticker MC;
  r_maker_volume := maker_volume m;
  r_maker_secret := secret m;
  r_maker_secret_hash := secret_hash m;
  r_secret_hash_algo := secret_hash_algo m;
  r_started_at := started_at m;
  r_lock_duration := lock_duration m;
  r_taker_coin := coin_ticker TC;
  r_taker_volume := taker_volume m;
  r_taker_premium := taker_premium m;
  r_dex_fee_amount := fee_amount (dex_fee m);
  r_dex_fee_burn := default (0 # 1) (burn_amount (dex_fee m));
  r_conf_settings := conf_settings m;
  r_uuid := uuid m;
  r_p2p_keypair := p2p_keypair m;
  r_events := [];
  r_taker_p2p_pub := taker_p2p_pubkey m;
  r_swap_version := swap_version m |}.

(** ** States *)

Record NegotiationData : Type := mkNegotiation {
  taker_payment_locktime : Z;
  taker_funding_locktime : Z;
  maker_coin_htlc_pub_from_taker : Pubkey MC;
  taker_coin_htlc_pub_from_taker : Pubkey TC;
  maker_coin_swap_contract : option bytes;
  taker_coin_swap_contract : option bytes;
  taker_secret_hash : bytes }.

Definition to_stored_data (n : NegotiationData) : StoredNegotiationData := {|
  sn_taker_payment_locktime := taker_payment_locktime n;
  sn_taker_funding_locktime := taker_funding_locktime n;
  sn_maker_coin_htlc_pub_from_taker := pubkey_to_bytes MC (maker_coin_htlc_pub_from_taker n);
  sn_taker_coin_htlc_pub_from_taker := pubkey_to_bytes TC (taker_coin_htlc_pub_from_taker n);
  sn_maker_coin_swap_contract := maker_coin_swap_contract n;
  sn_taker_coin_swap_contract := taker_coin_swap_contract n;
  sn_taker_secret_hash := taker_secret_hash n |}.

(** [map_err(|e| SwapRecreateError::FailedToParseData(e.to_string()))?] *)
Definition parsed {A} (r : result string A) : result SwapRecreateError A :=
  map_err FailedToParseData r.

Local Open Scope result_scope.

Definition from_stored_data (stored : StoredNegotiationData)
  : result SwapRecreateError NegotiationData :=
  let? maker_pub := parsed (parse_pubkey MC (sn_maker_coin_htlc_pub_from_taker stored)) in
  let? taker_pub := parsed (parse_pubkey TC (sn_taker_coin_htlc_pub_from_taker stored)) in
  Ok {| taker_payment_locktime := sn_taker_payment_locktime stored;
        taker_funding_locktime := sn_taker_funding_locktime stored;
        maker_coin_htlc_pub_from_taker := maker_pub;
        taker_coin_htlc_pub_from_taker := taker_pub;
        maker_coin_swap_contract := None;
        taker_coin_swap_contract := None;
        taker_secret_hash := sn_taker_secret_hash stored |}.

(** The storable states; the initial state [Initialize] has no data.  The two
    start blocks come first in every state that has them. *)
Inductive MakerState : Type :=
| Initialized (maker_coin_start_block taker_coin_start_block : Z)
    (maker_payment_trade_fee taker_payment_spend_trade_fee : SavedTradeFee)
| WaitingForTakerFunding (maker_coin_start_block taker_coin_start_block : Z)
    (negotiation_data : NegotiationData) (maker_payment_trade_fee : SavedTradeFee)
| TakerFundingReceived (maker_coin_start_block taker_coin_start_block : Z)
    (negotiation_data : NegotiationData) (taker_funding : CoinTx TC)
    (maker_payment_trade_fee : SavedTradeFee)
| MakerPaymentSentFundingSpendGenerated (maker_coin_start_block taker_coin_start_block : Z)
    (negotiation_data : NegotiationData) (taker_funding : CoinTx TC)
    (funding_spend_preimage : TxPreimageWithSig TC) (maker_payment : CoinTx MC)
| MakerPaymentRefundRequired (maker_coin_start_block taker_coin_start_block : Z)
    (negotiation_data : NegotiationData) (maker_payment : CoinTx MC)
    (reason : MakerPaymentRefundReason)
| MakerPaymentRefunded (maker_payment maker_payment_refund : CoinTx MC)
    (reason : MakerPaymentRefundReason)
| TakerPaymentReceived (maker_coin_start_block taker_coin_start_block : Z)
    (maker_payment : CoinTx MC) (taker_payment : CoinTx TC) (negotiation_data : NegotiationData)
| TakerPaymentReceivedAndPreimageValidationSkipped
    (maker_coin_start_block taker_coin_start_block : Z)
    (maker_payment : CoinTx MC) (taker_payment : CoinTx TC) (negotiation_data : NegotiationData)
| TakerPaymentSpent (maker_coin_start_block taker_coin_start_block : Z)
    (maker_payment : CoinTx MC) (taker_payment taker_payment_spend : CoinTx TC)
    (negotiation_data : NegotiationData)
| Aborted (reason : AbortReason)
| Completed.

(** [StorableState::get_event] of each state. *)
Definition get_event (s : MakerState) : Event.MakerSwapEvent :=
  match s with
  | Initialized b1 b2 fee1 fee2 => Event.Initialized b1 b2 fee1 fee2
  | WaitingForTakerFunding b1 b2 n fee =>
      Event.WaitingForTakerFunding b1 b2 (to_stored_data n) fee
  | TakerFundingReceived b1 b2 n funding fee =>
      Event.TakerFundingReceived b1 b2 (to_stored_data n) (transaction_identifier funding) fee
  | MakerPaymentSentFundingSpendGenerated b1 b2 n funding p payment =>
      Event.MakerPaymentSentFundingSpendGenerated b1 b2 (to_stored_data n)
        (transaction_identifier payment) (transaction_identifier funding) (stored_preimage p)
  | MakerPaymentRefundRequired b1 b2 n payment reason =>
      Event.MakerPaymentRefundRequired b1 b2 (to_stored_data n) (transaction_identifier payment)
        reason
  | MakerPaymentRefunded payment refund reason =>
      Event.MakerPaymentRefunded (transaction_identifier payment) (transaction_identifier refund)
        reason
  | TakerPaymentReceived b1 b2 payment tpayment n =>
      Event.TakerPaymentReceived b1 b2 (to_stored_data n) (transaction_identifier payment)
        (transaction_identifier tpayment)
  | TakerPaymentReceivedAndPreimageValidationSkipped b1 b2 payment tpayment n =>
      Event.TakerPaymentReceivedAndPreimageValidationSkipped b1 b2 (to_stored_data n)
        (transaction_identifier payment) (transaction_identifier tpayment)
  | TakerPaymentSpent b1 b2 payment tpayment spend n =>
      Event.TakerPaymentSpent b1 b2 (transaction_identifier payment)
        (transaction_identifier tpayment) (transaction_identifier spend) (to_stored_data n)
  | Aborted reason => Event.Aborted reason
  | Completed => Event.Completed
  end.

(** ** The handlers *)

Local Close Scope result_scope.
Local Open Scope prog_scope.

Variable fuel : nat.

Definition abort (reason : AbortReason) : M (Handled MakerState) :=
  Ret (change_state (Aborted reason)).

(** [MakerSwapPreparedParams] and the balance check of the legacy swap. *)
Definition check_balance (m : MakerSwapStateMachine)
  (maker_payment_trade_fee taker_payment_spend_trade_fee : TradeFee)
  : M (result CheckBalanceError BigDecimal) :=
  lift (MakerSwap.check_balance_for_maker_swap (coin_ticker MC) (coin_ticker TC)
          (maker_volume m) (Some (uuid m))
          (Some (MakerSwap.mkPrepared maker_payment_trade_fee taker_payment_spend_trade_fee))
          StartSwap).

(** [Initialize] *)
Definition initialize (m : MakerSwapStateMachine) : M (Handled MakerState) :=
  b1 <- call (common (current_block MakerSide));
  match b1 with
  | Err e => abort (FailedToGetMakerCoinBlock e)
  | Ok maker_coin_start_block =>
  b2 <- call (common (current_block TakerSide));
  match b2 with
  | Err e => abort (FailedToGetTakerCoinBlock e)
  | Ok taker_coin_start_block =>
  let preimage_value := Exact (to_decimal (maker_volume m)) in
  fee1 <- call (common (get_sender_trade_fee MakerSide preimage_value StartSwap));
  match fee1 with
  | Err e => abort (FailedToGetMakerPaymentFee e)
  | Ok maker_payment_trade_fee =>
  fee2 <- call (common (get_receiver_trade_fee TakerSide StartSwap));
  match fee2 with
  | Err e => abort (FailedToGetTakerPaymentSpendFee e)
  | Ok taker_payment_spend_trade_fee =>
  balance <- check_balance m maker_payment_trade_fee taker_payment_spend_trade_fee;
  match balance with
  | Err e => abort (BalanceCheckFailure e)
  | Ok _ =>
      Ret (change_state (Initialized maker_coin_start_block taker_coin_start_block
        (saved_from_trade_fee maker_payment_trade_fee)
        (saved_from_trade_fee taker_payment_spend_trade_fee)))
  end end end end end.

(** The message of the maker's negotiation. *)
Definition maker_negotiation_msg (m : MakerSwapStateMachine) (taker_coin_address : Address TC)
  : MakerNegotiation := {|
  mn_started_at := started_at m;
  mn_payment_locktime := maker_payment_locktime m;
  mn_secret_hash := secret_hash m;
  mn_maker_coin_htlc_pub := derive_htlc_pubkey_v2_bytes MC (unique_data m);
  mn_taker_coin_htlc_pub := derive_htlc_pubkey_v2_bytes TC (unique_data m);
  mn_maker_coin_swap_contract := contract_address MC;
  mn_taker_coin_swap_contract := contract_address TC;
  mn_taker_coin_address := addr_to_string TC taker_coin_address |}.

Definition broadcast (m : MakerSwapStateMachine) (msg : SwapMessageInner) (interval_sec : Q)
  : M unit :=
  call (broadcast_swap_v2_msg_every (p2p_topic m) (mkSwapMessage (Some msg) (uuid m)) interval_sec
          (p2p_keypair m)).

(** The checks on the taker's data, in the order of the source. *)
Definition check_taker_data (m : MakerSwapStateMachine) (d : TakerNegotiationData)
  : result AbortReason NegotiationData :=
  (let started_at_diff := abs_diff (started_at m) (tnd_started_at d) in
   let? _ := (if started_at_diff >? MAX_STARTED_AT_DIFF
              then Err (TooLargeStartedAtDiff started_at_diff) else Ok tt) in
   let expected_taker_funding_locktime :=
     wrap 64 (tnd_started_at d + wrap 64 (3 * lock_duration m)) in
   let? _ := (if negb (tnd_funding_locktime d =? expected_taker_funding_locktime)
              then Err (TakerProvidedInvalidFundingLocktime (tnd_funding_locktime d)) else Ok tt) in
   let expected_taker_payment_locktime := wrap 64 (tnd_started_at d + lock_duration m) in
   let? _ := (if negb (tnd_payment_locktime d =? expected_taker_payment_locktime)
              then Err (TakerProvidedInvalidPaymentLocktime (tnd_payment_locktime d)) else Ok tt) in
   let? taker_pub := map_err FailedToParsePubkey (parse_pubkey TC (tnd_taker_coin_htlc_pub d)) in
   let? maker_pub := map_err FailedToParsePubkey (parse_pubkey MC (tnd_maker_coin_htlc_pub d)) in
   Ok {| taker_payment_locktime := expected_taker_payment_locktime;
         taker_funding_locktime := expected_taker_funding_locktime;
         maker_coin_htlc_pub_from_taker := maker_pub;
         taker_coin_htlc_pub_from_taker := taker_pub;
         maker_coin_swap_contract := tnd_maker_coin_swap_contract d;
         taker_coin_swap_contract := tnd_taker_coin_swap_contract d;
         taker_secret_hash := tnd_taker_secret_hash d |})%result.

(** [Initialized] *)
Definition initialized_on_changed (m : MakerSwapStateMachine) (b1 b2 : Z) (fee : SavedTradeFee)
  : M (Handled MakerState) :=
  taker_coin_address <- call my_addr;
  do broadcast m (MsgMakerNegotiation (maker_negotiation_msg m taker_coin_address))
       NEGOTIATE_SEND_INTERVAL;
  r <- recv_swap_v2_msg fuel (uuid m) KTakerNegotiation NEGOTIATION_TIMEOUT_SEC;
  match r with
  | Err e => abort (DidNotReceiveTakerNegotiation e)
  | Ok taker_negotiation =>
  match action taker_negotiation with
  | None => abort ReceivedInvalidTakerNegotiation
  | Some (Abort reason) => abort (TakerAbortedNegotiation reason)
  | Some (Continue taker_data) =>
  match check_taker_data m taker_data with
  | Err reason => abort reason
  | Ok negotiation_data => Ret (change_state (WaitingForTakerFunding b1 b2 negotiation_data fee))
  end end end.

(** [WaitingForTakerFunding] *)
Definition waiting_for_taker_funding_on_changed (m : MakerSwapStateMachine) (b1 b2 : Z)
  (n : NegotiationData) (fee : SavedTradeFee) : M (Handled MakerState) :=
  do broadcast m (MsgMakerNegotiated (mkMakerNegotiated true None)) NEGOTIATE_SEND_INTERVAL;
  r <- recv_swap_v2_msg fuel (uuid m) KTakerFunding NEGOTIATION_TIMEOUT_SEC;
  match r with
  | Err e => abort (DidNotReceiveTakerFundingInfo e)
  | Ok taker_funding_info =>
  match parse_tx TC (fund_tx_bytes taker_funding_info) with
  | Err e => abort (FailedToParseTakerFunding e)
  | Ok taker_funding => Ret (change_state (TakerFundingReceived b1 b2 n taker_funding fee))
  end end.

Definition funding_validation_args (m : MakerSwapStateMachine) (n : NegotiationData)
  (taker_funding : CoinTx TC) : ValidateTakerFundingArgs TC := {|
  vtf_funding_tx := taker_funding;
  vtf_funding_time_lock := taker_funding_locktime n;
  vtf_payment_time_lock := taker_payment_locktime n;
  vtf_taker_secret_hash := taker_secret_hash n;
  vtf_maker_secret_hash := secret_hash m;
  vtf_taker_pub := taker_coin_htlc_pub_from_taker n;
  vtf_dex_fee := dex_fee_updated m (pubkey_to_bytes TC (taker_coin_htlc_pub_from_taker n));
  vtf_premium_amount := to_decimal (taker_premium m);
  vtf_trading_amount := to_decimal (taker_volume m);
  vtf_swap_unique_data := unique_data m |}.

Definition gen_funding_spend_args (m : MakerSwapStateMachine) (n : NegotiationData)
  (taker_funding : CoinTx TC) : GenTakerFundingSpendArgs TC := {|
  gfs_funding_tx := taker_funding;
  gfs_maker_pub := derive_htlc_pubkey_v2 TC (unique_data m);
  gfs_taker_pub := taker_coin_htlc_pub_from_taker n;
  gfs_funding_time_lock := taker_funding_locktime n;
  gfs_taker_secret_hash := taker_secret_hash n;
  gfs_taker_payment_time_lock := taker_payment_locktime n;
  gfs_maker_secret_hash := secret_hash m |}.

Definition send_payment_args (m : MakerSwapStateMachine) (n : NegotiationData)
  : SendMakerPaymentArgs MC := {|
  smp_time_lock := maker_payment_locktime m;
  smp_taker_secret_hash := taker_secret_hash n;
  smp_maker_secret_hash := secret_hash m;
  smp_amount := to_decimal (maker_volume m);
  smp_taker_pub := maker_coin_htlc_pub_from_taker n;
  smp_swap_unique_data := unique_data m |}.

(** The propagation or confirmation gate for the taker funding. *)
Definition funding_gate (m : MakerSwapStateMachine) (taker_funding : CoinTx TC)
  : M (result AbortReason unit) :=
  visible <- ensure_tx_is_broadcasted fuel TakerSide (tx_hash_as_bytes TC taker_funding)
               (coin_tx_hex TC taker_funding) SWAP_TX_VISIBILITY_GRACE_SECS
               SWAP_TX_VISIBILITY_POLL_SECS;
  let confirmations := taker_funding_required_confirmations m in
  if confirmations >? 0
  then
    r <- call (common (wait_for_confirmations TakerSide
           (mkConfirm (coin_tx_hex TC taker_funding) confirmations
              (taker_coin_nota (conf_settings m)) (maker_payment_locktime m) 10)));
    Ret (match r with
         | Err e => Err (TakerFundingValidationFailed
                           (String.append "Taker funding wasn't confirmed in time: " e))
         | Ok _ => Ok tt
         end)
  else if negb visible
  then Ret (Err (TakerFundingValidationFailed
    "Taker funding transaction is not visible on network even after fallback rebroadcast"))
  else Ret (Ok tt).

(** [TakerFundingReceived] *)
Definition taker_funding_received_on_changed (m : MakerSwapStateMachine) (b1 b2 : Z)
  (n : NegotiationData) (taker_funding : CoinTx TC) : M (Handled MakerState) :=
  v <- call (validate_taker_funding (funding_validation_args m n taker_funding));
  match v with
  | Err e => abort (TakerFundingValidationFailed e)
  | Ok _ =>
  gate <- funding_gate m taker_funding;
  match gate with
  | Err reason => abort reason
  | Ok _ =>
  p <- call (gen_taker_funding_spend_preimage (gen_funding_spend_args m n taker_funding)
               (unique_data m));
  match p with
  | Err e => abort (FailedToGenerateFundingSpend e)
  | Ok funding_spend_preimage =>
  payment <- call (send_maker_payment_v2 (send_payment_args m n));
  match payment with
  | Err e => abort (FailedToSendMakerPayment e)
  | Ok maker_payment =>
      Ret (change_state (MakerPaymentSentFundingSpendGenerated b1 b2 n taker_funding
                           funding_spend_preimage maker_payment))
  end end end end.

Definition refund_required (b1 b2 : Z) (n : NegotiationData) (maker_payment : CoinTx MC)
  (reason : MakerPaymentRefundReason) : M (Handled MakerState) :=
  Ret (change_state (MakerPaymentRefundRequired b1 b2 n maker_payment reason)).

(** The loop of [MakerPaymentSentFundingSpendGenerated]. *)
Fixpoint funding_spend_loop (fuel : nat) (wait_until b1 b2 : Z) (n : NegotiationData)
  (taker_funding : CoinTx TC) (maker_payment : CoinTx MC) : M (Handled MakerState) :=
  match fuel with
  | O => OutOfFuel
  | S fuel =>
  now <- call (common now_sec);
  if now >? wait_until
  then refund_required b1 b2 n maker_payment TakerFundingNotSpentInTime
  else
  search_result <- call (search_for_taker_funding_spend taker_funding b2 (taker_secret_hash n));
  match search_result with
  | Ok (Some (TransferredToTakerPayment taker_payment)) =>
      if skip_taker_payment_spend_preimage TC
      then Ret (change_state (TakerPaymentReceivedAndPreimageValidationSkipped b1 b2 maker_payment
                                taker_payment n))
      else Ret (change_state (TakerPaymentReceived b1 b2 maker_payment taker_payment n))
  | Ok (Some (RefundedTimelock _)) =>
      refund_required b1 b2 n maker_payment TakerFundingReclaimedTimelock
  | Ok (Some (RefundedSecret _ secret)) =>
      refund_required b1 b2 n maker_payment (TakerFundingReclaimedSecret secret)
  | Ok None | Err (Rpc _) =>
      do call (common (sleep (30 # 1)));
      funding_spend_loop fuel wait_until b1 b2 n taker_funding maker_payment
  | Err e => refund_required b1 b2 n maker_payment (ErrorOnTakerFundingSpendSearch e)
  end end.

(** [MakerPaymentSentFundingSpendGenerated] *)
Definition maker_payment_sent_on_changed (m : MakerSwapStateMachine) (b1 b2 : Z)
  (n : NegotiationData) (taker_funding : CoinTx TC) (p : TxPreimageWithSig TC)
  (maker_payment : CoinTx MC) : M (Handled MakerState) :=
  do broadcast m (MsgMakerPaymentInfo (mkMakerPaymentInfo (coin_tx_hex MC maker_payment) None
                    (sig_to_bytes TC (signature p)) (preimage_to_bytes TC (preimage p))))
       (600 # 1);
  let wait_until := wrap 64 (started_at m + wrap 64 (lock_duration m * 2) / 3) in
  funding_spend_loop fuel wait_until b1 b2 n taker_funding maker_payment.

Definition refund_secret_args (m : MakerSwapStateMachine) (n : NegotiationData)
  (maker_payment : CoinTx MC) (taker_secret : bytes) : RefundMakerPaymentSecretArgs MC := {|
  rms_maker_payment_tx := maker_payment;
  rms_time_lock := maker_payment_locktime m;
  rms_taker_secret_hash := taker_secret_hash n;
  rms_maker_secret_hash := secret_hash m;
  rms_taker_secret := taker_secret;
  rms_taker_pub := maker_coin_htlc_pub_from_taker n;
  rms_swap_unique_data := unique_data m;
  rms_amount := to_decimal (maker_volume m) |}.

Definition refund_timelock_args (m : MakerSwapStateMachine) (n : NegotiationData)
  (maker_payment : CoinTx MC) : RefundMakerPaymentTimelockArgs := {|
  rmt_payment_tx := coin_tx_hex MC maker_payment;
  rmt_time_lock := maker_payment_locktime m;
  rmt_taker_pub := pubkey_to_bytes MC (maker_coin_htlc_pub_from_taker n);
  rmt_tx_type_with_secret_hash := MakerPaymentV2 (secret_hash m) (taker_secret_hash n);
  rmt_swap_unique_data := unique_data m;
  rmt_watcher_reward := false;
  rmt_amount := to_decimal (maker_volume m) |}.

(** Both refunds end in the same way. *)
Definition refund_result (maker_payment : CoinTx MC) (reason : MakerPaymentRefundReason)
  (r : result TransactionErr (CoinTx MC)) : M (Handled MakerState) :=
  match r with
  | Err e => abort (MakerPaymentRefundFailed (get_plain_text_format e))
  | Ok maker_payment_refund =>
      Ret (change_state (MakerPaymentRefunded maker_payment maker_payment_refund reason))
  end.

(** [MakerPaymentRefundRequired] *)
Definition refund_required_on_changed (m : MakerSwapStateMachine) (n : NegotiationData)
  (maker_payment : CoinTx MC) (reason : MakerPaymentRefundReason) : M (Handled MakerState) :=
  match reason with
  | TakerFundingReclaimedSecret secret =>
      r <- call (refund_maker_payment_v2_secret (refund_secret_args m n maker_payment secret));
      refund_result maker_payment reason r
  | _ =>
      do wait_can_refund_v2 fuel MakerSide (maker_payment_locktime m);
      r <- call (refund_maker_payment_v2_timelock (refund_timelock_args m n maker_payment));
      refund_result maker_payment reason r
  end.

Definition payment_spend_args (m : MakerSwapStateMachine) (n : NegotiationData)
  (taker_payment : CoinTx TC) (maker_address : Address TC) : GenTakerPaymentSpendArgs TC := {|
  gps_taker_tx := taker_payment;
  gps_time_lock := taker_payment_locktime n;
  gps_maker_secret_hash := secret_hash m;
  gps_maker_pub := derive_htlc_pubkey_v2 TC (unique_data m);
  gps_maker_address := maker_address;
  gps_taker_pub := taker_coin_htlc_pub_from_taker n;
  gps_dex_fee := dex_fee_updated m (pubkey_to_bytes TC (taker_coin_htlc_pub_from_taker n));
  gps_premium_amount := (0 # 1);
  gps_trading_amount := to_decimal (taker_volume m) |}.

Definition taker_payment_confirmed (m : MakerSwapStateMachine) (taker_payment : CoinTx TC)
  : M (result string unit) :=
  call (common (wait_for_confirmations TakerSide
    (mkConfirm (coin_tx_hex TC taker_payment) (taker_coin_confs (conf_settings m))
       (taker_coin_nota (conf_settings m)) (taker_payment_conf_timeout m) 10))).

(** What both received states do with the answer of the spend. *)
Definition spend_result (b1 b2 : Z) (n : NegotiationData) (maker_payment : CoinTx MC)
  (taker_payment : CoinTx TC) (r : result TransactionErr (CoinTx TC)) : M (Handled MakerState) :=
  match r with
  | Err e => refund_required b1 b2 n maker_payment (TakerPaymentSpendBroadcastFailed e)
  | Ok taker_payment_spend =>
      Ret (change_state (TakerPaymentSpent b1 b2 maker_payment taker_payment taker_payment_spend n))
  end.

(** [TakerPaymentReceived].  The preimage is awaited with the point in time
    [taker_payment_conf_timeout] where a duration is asked for, as the source
    does. *)
Definition taker_payment_received_on_changed (m : MakerSwapStateMachine) (b1 b2 : Z)
  (maker_payment : CoinTx MC) (taker_payment : CoinTx TC) (n : NegotiationData)
  : M (Handled MakerState) :=
  c <- taker_payment_confirmed m taker_payment;
  match c with
  | Err e => refund_required b1 b2 n maker_payment (TakerPaymentNotConfirmedInTime e)
  | Ok _ =>
  r <- recv_swap_v2_msg fuel (uuid m) KTakerPaymentSpendPreimage (taker_payment_conf_timeout m);
  match r with
  | Err e => refund_required b1 b2 n maker_payment (DidNotGetTakerPaymentSpendPreimage e)
  | Ok preimage_data =>
  maker_address <- call my_addr;
  let gen_args := payment_spend_args m n taker_payment maker_address in
  match parse_preimage TC (tsp_tx_preimage preimage_data) with
  | Err e => refund_required b1 b2 n maker_payment (FailedToParseTakerPreimage e)
  | Ok preimage =>
  match parse_signature TC (tsp_signature preimage_data) with
  | Err e => refund_required b1 b2 n maker_payment (FailedToParseTakerSignature e)
  | Ok signature =>
  let tx_preimage := mkPreimageWithSig preimage signature in
  v <- call (validate_taker_payment_spend_preimage gen_args tx_preimage);
  match v with
  | Err e => refund_required b1 b2 n maker_payment (TakerPaymentSpendPreimageIsNotValid e)
  | Ok _ =>
  spend <- call (sign_and_broadcast_taker_payment_spend (Some tx_preimage) gen_args (secret m)
                   (unique_data m));
  spend_result b1 b2 n maker_payment taker_payment spend
  end end end end end.

(** [TakerPaymentReceivedAndPreimageValidationSkipped] *)
Definition preimage_skipped_on_changed (m : MakerSwapStateMachine) (b1 b2 : Z)
  (maker_payment : CoinTx MC) (taker_payment : CoinTx TC) (n : NegotiationData)
  : M (Handled MakerState) :=
  c <- taker_payment_confirmed m taker_payment;
  match c with
  | Err e => refund_required b1 b2 n maker_payment (TakerPaymentNotConfirmedInTime e)
  | Ok _ =>
  maker_address <- call my_addr;
  let gen_args := payment_spend_args m n taker_payment maker_address in
  spend <- call (sign_and_broadcast_taker_payment_spend None gen_args (secret m) []);
  spend_result b1 b2 n maker_payment taker_payment spend
  end.

(** [TakerPaymentSpent] *)
Definition taker_payment_spent_on_changed (m : MakerSwapStateMachine) (b1 b2 : Z)
  (maker_payment : CoinTx MC) (taker_payment_spend : CoinTx TC) (n : NegotiationData)
  : M (Handled MakerState) :=
  c <- (if require_taker_payment_spend_confirm m
        then call (common (wait_for_confirmations TakerSide
               (mkConfirm (coin_tx_hex TC taker_payment_spend) (taker_coin_confs (conf_settings m))
                  (taker_coin_nota (conf_settings m)) (maker_payment_locktime m) 10)))
        else Ret (Ok tt));
  match c with
  | Err e => refund_required b1 b2 n maker_payment (TakerPaymentSpendNotConfirmedInTime e)
  | Ok _ => Ret (change_state Completed)
  end.

(** [State::on_changed] of each state, up to the change of the state. *)
Definition handle (m : MakerSwapStateMachine) (s : MakerState) : M (Handled MakerState) :=
  match s with
  | Initialized b1 b2 fee _ => initialized_on_changed m b1 b2 fee
  | WaitingForTakerFunding b1 b2 n fee => waiting_for_taker_funding_on_changed m b1 b2 n fee
  | TakerFundingReceived b1 b2 n funding _ => taker_funding_received_on_changed m b1 b2 n funding
  | MakerPaymentSentFundingSpendGenerated b1 b2 n funding p payment =>
      maker_payment_sent_on_changed m b1 b2 n funding p payment
  | MakerPaymentRefundRequired _ _ n payment reason =>
      refund_required_on_changed m n payment reason
  | TakerPaymentReceived b1 b2 payment tpayment n =>
      taker_payment_received_on_changed m b1 b2 payment tpayment n
  | TakerPaymentReceivedAndPreimageValidationSkipped b1 b2 payment tpayment n =>
      preimage_skipped_on_changed m b1 b2 payment tpayment n
  | TakerPaymentSpent b1 b2 payment _ spend n =>
      taker_payment_spent_on_changed m b1 b2 payment spend n
  | MakerPaymentRefunded _ _ _ | Aborted _ | Completed => Ret last_state
  end.

(** ** The context *)

Definition MAKER_SWAP_V2_TYPE : Z := 1.

Definition init_additional_context (m : MakerSwapStateMachine) : M unit :=
  init_additional_context_impl (uuid m)
    (mkActiveSwapV2Info (coin_ticker MC) (coin_ticker TC) MAKER_SWAP_V2_TYPE) (taker_p2p_pubkey m).

Definition clean_up_context (m : MakerSwapStateMachine) : M unit :=
  clean_up_context_impl (uuid m) (coin_ticker MC) (coin_ticker TC).

Definition new_locked (m : MakerSwapStateMachine) (fee : SavedTradeFee) : LockedAmountInfo :=
  mkLockedAmountInfo (uuid m)
    (mkLockedAmount (coin_ticker MC) (maker_volume m) (Some (trade_fee_from_saved fee))).

Definition lock_maker_coin (m : MakerSwapStateMachine) (fee : SavedTradeFee) : M unit :=
  call (context (push_locked_amount (coin_ticker MC) (new_locked m fee))).

Definition release_maker_coin (m : MakerSwapStateMachine) : M unit :=
  call (context (retain_other_locked (coin_ticker MC) (uuid m))).

Definition on_event (m : MakerSwapStateMachine) (event : Event.MakerSwapEvent) : M unit :=
  do match event with
     | Event.Initialized _ _ maker_payment_trade_fee _ => lock_maker_coin m maker_payment_trade_fee
     | Event.MakerPaymentSentFundingSpendGenerated _ _ _ _ _ _ => release_maker_coin m
     | _ => Ret tt
     end;
  call (stream_event (uuid m) event).

Definition on_kickstart_event (m : MakerSwapStateMachine) (event : Event.MakerSwapEvent) : M unit :=
  match event with
  | Event.Initialized _ _ maker_payment_trade_fee _
  | Event.WaitingForTakerFunding _ _ _ maker_payment_trade_fee
  | Event.TakerFundingReceived _ _ _ _ maker_payment_trade_fee =>
      lock_maker_coin m maker_payment_trade_fee
  | _ => Ret tt
  end.

#[export] Instance maker_machine :
  StorableStateMachine (@answer_v2 MC TC MakerSwap.MakerSwapEvent MakerSwapDbRepr
    Event.MakerSwapEvent) MakerSwapStateMachine MakerState Event.MakerSwapEvent
    SwapStateMachineError := {
  StateMachine.get_event := get_event;
  StateMachine.initialize := initialize;
  StateMachine.handle := handle;
  StateMachine.acquire_reentrancy_lock := fun m => acquire_reentrancy_lock_impl (uuid m);
  StateMachine.has_record_for := fun m => call (has_db_record_for (uuid m));
  StateMachine.store_repr := fun m => call (insert_new_swap_v2 (uuid m) (to_db_repr m));
  StateMachine.store_event := fun m e => call (store_swap_event (uuid m) e);
  StateMachine.mark_finished := fun m => call (mark_swap_as_finished (uuid m));
  StateMachine.spawn_reentrancy_lock_renew := fun m => call (spawn_lock_renew (uuid m));
  StateMachine.init_additional_context := init_additional_context;
  StateMachine.clean_up_context := clean_up_context;
  StateMachine.on_event := on_event;
  StateMachine.on_kickstart_event := on_kickstart_event }.

(** ** Recreation *)

Local Open Scope result_scope.

Definition recreate_state (event : Event.MakerSwapEvent) : result SwapRecreateError MakerState :=
  match event with
  | Event.Initialized b1 b2 fee1 fee2 => Ok (Initialized b1 b2 fee1 fee2)
  | Event.WaitingForTakerFunding b1 b2 stored fee =>
      let? n := from_stored_data stored in
      Ok (WaitingForTakerFunding b1 b2 n fee)
  | Event.TakerFundingReceived b1 b2 stored taker_funding fee =>
      let? n := from_stored_data stored in
      let? funding := parsed (parse_tx TC (ti_tx_hex taker_funding)) in
      Ok (TakerFundingReceived b1 b2 n funding fee)
  | Event.MakerPaymentSentFundingSpendGenerated b1 b2 stored maker_payment taker_funding spend =>
      let? n := from_stored_data stored in
      let? funding := parsed (parse_tx TC (ti_tx_hex taker_funding)) in
      let? preimage := parsed (parse_preimage TC (stp_preimage spend)) in
      let? signature := parsed (parse_signature TC (stp_signature spend)) in
      let? payment := parsed (parse_tx MC (ti_tx_hex maker_payment)) in
      Ok (MakerPaymentSentFundingSpendGenerated b1 b2 n funding
            (mkPreimageWithSig preimage signature) payment)
  | Event.MakerPaymentRefundRequired b1 b2 stored maker_payment reason =>
      let? n := from_stored_data stored in
      let? payment := parsed (parse_tx MC (ti_tx_hex maker_payment)) in
      Ok (MakerPaymentRefundRequired b1 b2 n payment reason)
  | Event.TakerPaymentReceived b1 b2 stored maker_payment taker_payment =>
      let? payment := parsed (parse_tx MC (ti_tx_hex maker_payment)) in
      let? tpayment := parsed (parse_tx TC (ti_tx_hex taker_payment)) in
      let? n := from_stored_data stored in
      Ok (TakerPaymentReceived b1 b2 payment tpayment n)
  | Event.TakerPaymentReceivedAndPreimageValidationSkipped b1 b2 stored maker_payment
      taker_payment =>
      let? payment := parsed (parse_tx MC (ti_tx_hex maker_payment)) in
      let? tpayment := parsed (parse_tx TC (ti_tx_hex taker_payment)) in
      let? n := from_stored_data stored in
      Ok (TakerPaymentReceivedAndPreimageValidationSkipped b1 b2 payment tpayment n)
  | Event.TakerPaymentSpent b1 b2 maker_payment taker_payment taker_payment_spend stored =>
      let? payment := parsed (parse_tx MC (ti_tx_hex maker_payment)) in
      let? tpayment := parsed (parse_tx TC (ti_tx_hex taker_payment)) in
      let? spend := parsed (parse_tx TC (ti_tx_hex taker_payment_spend)) in
      let? n := from_stored_data stored in
      Ok (TakerPaymentSpent b1 b2 payment tpayment spend n)
  | Event.Aborted _ => Err SwapAborted
  | Event.Completed => Err SwapCompleted
  | Event.MakerPaymentRefunded _ _ _ => Err SwapFinishedWithRefund
  end.

(** The machine that [recreate_machine] builds. *)
Definition machine_of_repr (uuid : Uuid) (repr : MakerSwapDbRepr) : MakerSwapStateMachine := {|
  maker_volume := r_maker_volume repr;
  secret := r_maker_secret repr;
  secret_hash_algo := r_secret_hash_algo repr;
  started_at := r_started_at repr;
  lock_duration := r_lock_duration repr;
  taker_volume := r_taker_volume repr;
  taker_premium := r_taker_premium repr;
  conf_settings := r_conf_settings repr;
  uuid := uuid;
  p2p_topic := swap_v2_topic uuid;
  p2p_keypair := r_p2p_keypair repr;
  taker_p2p_pubkey := r_taker_p2p_pub repr;
  require_taker_funding_confirm_before_maker_payment := false;
  require_taker_payment_spend_confirm := true;
  swap_version := r_swap_version repr |}.

Definition recreate_machine (uuid : Uuid) (repr : MakerSwapDbRepr)
  : result SwapRecreateError (MakerSwapStateMachine * MakerState) :=
  match last (r_events repr) with
  | None => Err ReprEventsEmpty
  | Some event =>
      let? current_state := recreate_state event in
      Ok (machine_of_repr uuid repr, current_state)
  end.

(** The representation of the database: stored once, then extended. *)
Definition recreate (m : MakerSwapStateMachine) (events : list Event.MakerSwapEvent)
  : result SwapRecreateError (MakerSwapStateMachine * MakerState) :=
  recreate_machine (uuid m) (foldl (fun r e => add_event e r) (to_db_repr m) events).

End Maker.
