(* ===== verification/TakerSwapV2.v ===== *)
(** * The taker's side of the second swap protocol (lp_swap/taker_swap_v2.rs)

    [TakerSwapStateMachine], its states ([State]) and the events they are
    stored as ([Event]), the handler of each state, [recreate_machine], and
    the instance of [StorableStateMachine].  [MC] and [TC] are the maker's
    and the taker's coin; [fuel] bounds the rounds of the polling loops. *)

From S2P Require Import Prelude MmNumber DexFee Effects Swap StateMachine SwapV2.
From S2P Require TakerSwap.

Open Scope Z_scope.

(** ** Reasons and events

    A reason keeps the error that the source renders into its text. *)

Module Funding.

Inductive TakerFundingRefundReason : Type :=
| DidNotReceiveMakerPayment (e : SwapError)
| FailedToParseFundingSpendPreimg (e : string)
| FailedToParseFundingSpendSig (e : string)
| FailedToSendTakerPayment (e : TransactionErr)
| MakerPaymentValidationFailed (e : string)
| FundingSpendPreimageValidationFailed (e : string)
| FailedToParseMakerPayment (e : string)
| MakerPaymentNotConfirmedInTime (e : string).

End Funding.
Import Funding.

Inductive TakerPaymentRefundReason : Type :=
| MakerPaymentNotConfirmedInTime (e : string)
| MakerPaymentSpendNotConfirmedInTime (e : string)
| FailedToGenerateSpendPreimage (e : string)
| MakerDidNotSpendInTime (e : string).

Inductive AbortReason : Type :=
| FailedToGetMakerCoinBlock (e : string)
| FailedToGetTakerCoinBlock (e : string)
| BalanceCheckFailure (e : CheckBalanceError)
| DidNotReceiveMakerNegotiation (e : SwapError)
| TooLargeStartedAtDiff (diff : Z)
| FailedToParsePubkey (e : string)
| FailedToParseAddress (e : string)
| MakerProvidedInvalidLocktime (locktime : Z)
| SecretHashUnexpectedLen (len : Z)
| DidNotReceiveMakerNegotiated (e : SwapError)
| MakerDidNotNegotiate (reason : string)
| FailedToSendTakerFunding (e : TransactionErr)
| CouldNotExtractSecret (e : string)
| FailedToSpendMakerPayment (e : TransactionErr)
| TakerFundingRefundFailed (e : string)
| TakerPaymentRefundFailed (e : string)
| FailedToGetTakerPaymentFee (e : TradePreimageError)
| FailedToGetMakerPaymentSpendFee (e : TradePreimageError).

Record StoredNegotiationData : Type := mkStoredNegotiation {
  sn_maker_payment_locktime : Z;
  sn_maker_secret_hash : bytes;
  sn_taker_coin_maker_address : string;
  sn_maker_coin_htlc_pub_from_maker : bytes;
  sn_taker_coin_htlc_pub_from_maker : bytes;
  sn_maker_coin_swap_contract : option bytes;
  sn_taker_coin_swap_contract : option bytes }.

Module Event.

Inductive TakerSwapEvent : Type :=
| Initialized (maker_coin_start_block taker_coin_start_block : Z)
    (taker_payment_fee maker_payment_spend_fee : SavedTradeFee)
| Negotiated (maker_coin_start_block taker_coin_start_block : Z)
    (negotiation_data : StoredNegotiationData)
    (taker_payment_fee maker_payment_spend_fee : SavedTradeFee)
| TakerFundingSent (maker_coin_start_block taker_coin_start_block : Z)
    (negotiation_data : StoredNegotiationData) (taker_funding : TransactionIdentifier)
| TakerFundingRefundRequired (maker_coin_start_block taker_coin_start_block : Z)
    (negotiation_data : StoredNegotiationData) (taker_funding : TransactionIdentifier)
    (reason : TakerFundingRefundReason)
| MakerPaymentAndFundingSpendPreimgReceived (maker_coin_start_block taker_coin_start_block : Z)
    (negotiation_data : StoredNegotiationData) (taker_funding : TransactionIdentifier)
    (funding_spend_preimage : StoredTxPreimage) (maker_payment : TransactionIdentifier)
| TakerPaymentSent (maker_coin_start_block taker_coin_start_block : Z)
    (taker_payment maker_payment : TransactionIdentifier) (negotiation_data : StoredNegotiationData)
| TakerPaymentSentAndPreimageSendingSkipped (maker_coin_start_block taker_coin_start_block : Z)
    (taker_payment maker_payment : TransactionIdentifier) (negotiation_data : StoredNegotiationData)
| TakerPaymentRefundRequired (taker_payment : TransactionIdentifier)
    (negotiation_data : StoredNegotiationData) (reason : TakerPaymentRefundReason)
| MakerPaymentConfirmed (maker_coin_start_block taker_coin_start_block : Z)
    (maker_payment taker_funding : TransactionIdentifier)
    (funding_spend_preimage : StoredTxPreimage) (negotiation_data : StoredNegotiationData)
| TakerPaymentSpent (maker_coin_start_block taker_coin_start_block : Z)
    (maker_payment taker_payment taker_payment_spend : TransactionIdentifier)
    (negotiation_data : StoredNegotiationData)
| MakerPaymentSpent (maker_coin_start_block taker_coin_start_block : Z)
    (maker_payment taker_payment taker_payment_spend maker_payment_spend : TransactionIdentifier)
    (negotiation_data : StoredNegotiationData)
| TakerFundingRefunded (funding_tx funding_tx_refund : TransactionIdentifier)
    (reason : TakerFundingRefundReason)
| TakerPaymentRefunded (taker_payment taker_payment_refund : TransactionIdentifier)
    (reason : TakerPaymentRefundReason)
| Aborted (reason : AbortReason)
| Completed.

End Event.

(** ** The machine and what is stored of it

    As in MakerSwapV2.v, the coins, the context, the storage and the
    abortable system are not fields. *)
Record TakerSwapStateMachine : Type := mkMachine {
  started_at : Z;
  lock_duration : Z;
  maker_volume : MmNumber;
  taker_volume : MmNumber;
  taker_premium : MmNumber;
  secret_hash_algo : SecretHashAlgo;
  conf_settings : SwapConfirmationsSettings;
  uuid : Uuid;
  p2p_topic : Topic;
  p2p_keypair : option bytes;
  taker_secret : H256;
  maker_p2p_pubkey : H264;
  require_maker_payment_confirm_before_funding_spend : bool;
  require_maker_payment_spend_confirm : bool;
  swap_version : Z }.

Record TakerSwapDbRepr : Type := mkRepr {
  r_maker_coin : string;
  r_maker_volume : MmNumber;
  r_taker_secret : H256;
  r_taker_secret_hash : bytes;
  r_secret_hash_algo : SecretHashAlgo;
  r_started_at : Z;
  r_lock_duration : Z;
  r_taker_coin : string;
  r_taker_volume : MmNumber;
  r_taker_premium : MmNumber;
  r_dex_fee_amount : MmNumber;
  r_dex_fee_burn : MmNumber;
  r_conf_settings : SwapConfirmationsSettings;
  r_uuid : Uuid;
  r_p2p_keypair : option bytes;
  r_events : list Event.TakerSwapEvent;
  r_maker_p2p_pub : H264;
  r_swap_version : Z }.

(** [StateMachineDbRepr::add_event] *)
Definition add_event (event : Event.TakerSwapEvent) (r : TakerSwapDbRepr) : TakerSwapDbRepr :=
  mkRepr (r_maker_coin r) (r_maker_volume r) (r_taker_secret r) (r_taker_secret_hash r)
    (r_secret_hash_algo r) (r_started_at r) (r_lock_duration r) (r_taker_coin r)
    (r_taker_volume r) (r_taker_premium r) (r_dex_fee_amount r) (r_dex_fee_burn r)
    (r_conf_settings r) (r_uuid r) (r_p2p_keypair r) (r_events r ++ [event])
    (r_maker_p2p_pub r) (r_swap_version r).

Section Taker.
  Context `{SecretHasher} `{DecimalConv}.
  Variables MC TC : CoinV2.

Notation Call := (CallV2 MC TC TakerSwap.TakerSwapEvent TakerSwapDbRepr Event.TakerSwapEvent).
Notation M := (prog (@answer_v2 MC TC TakerSwap.TakerSwapEvent TakerSwapDbRepr Event.TakerSwapEvent)).

Definition maker_payment_conf_timeout (m : TakerSwapStateMachine) : Z :=
  wrap 64 (started_at m + lock_duration m / 3).

Definition taker_funding_locktime (m : TakerSwapStateMachine) : Z :=
  wrap 64 (started_at m + wrap 64 (lock_duration m * 3)).

Definition taker_payment_locktime (m : TakerSwapStateMachine) : Z :=
  wrap 64 (started_at m + lock_duration m).

Definition unique_data (m : TakerSwapStateMachine) : bytes := uuid m.

Definition taker_secret_hash (m : TakerSwapStateMachine) : bytes :=
  hash_secret (secret_hash_algo m) (taker_secret m).

Definition dex_fee (m : TakerSwapStateMachine) : DexFee :=
  match taker_pubkey_bytes TC with
  | Some taker_pub =>
      new_with_taker_pubkey (fee_coin (mm_coin TC)) (coin_ticker MC) (taker_volume m) taker_pub
  | None => new_from_taker_coin (fee_coin (mm_coin TC)) (coin_ticker MC) (taker_volume m)
  end.

Definition to_db_repr (m : TakerSwapStateMachine) : TakerSwapDbRepr := {|
  r_maker_coin := coin_ticker MC;
  r_maker_volume := maker_volume m;
  r_taker_secret := taker_secret m;
  r_taker_secret_hash := taker_secret_hash m;
  r_secret_hash_algo := secret_hash_algo m;
  r_started_at := started_at m;
  r_lock_duration := lock_duration m;
  r_taker_coin := coin_ticker TC;
  r_taker_volume := taker_volume m;
  r_taker_premium := taker_premium m;
  r_dex_fee_amount := fee_amount (dex_fee m);
  r_dex_fee_burn := default (0 # 1) (burn_amount (dex_fee m));
  r_conf_settings := conf_settings m;
  r_uuid := uuid m;
  r_p2p_keypair := p2p_keypair m;
  r_events := [];
  r_maker_p2p_pub := maker_p2p_pubkey m;
  r_swap_version := swap_version m |}.

(** ** States *)

Record NegotiationData : Type := mkNegotiation {
  maker_secret_hash : bytes;
  maker_payment_locktime : Z;
  maker_coin_htlc_pub_from_maker : Pubkey MC;
  taker_coin_htlc_pub_from_maker : Pubkey TC;
  maker_coin_swap_contract : option bytes;
  taker_coin_swap_contract : option bytes;
  taker_coin_maker_address : Address TC }.

Definition to_stored_data (n : NegotiationData) : StoredNegotiationData := {|
  sn_maker_payment_locktime := maker_payment_locktime n;
  sn_maker_secret_hash := maker_secret_hash n;
  sn_taker_coin_maker_address := addr_to_string TC (taker_coin_maker_address n);
  sn_maker_coin_htlc_pub_from_maker := pubkey_to_bytes MC (maker_coin_htlc_pub_from_maker n);
  sn_taker_coin_htlc_pub_from_maker := pubkey_to_bytes TC (taker_coin_htlc_pub_from_maker n);
  sn_maker_coin_swap_contract := maker_coin_swap_contract n;
  sn_taker_coin_swap_contract := taker_coin_swap_contract n |}.

(** [map_err(|e| SwapRecreateError::FailedToParseData(e.to_string()))?] *)
Definition parsed {A} (r : result string A) : result SwapRecreateError A :=
  map_err FailedToParseData r.

Local Open Scope result_scope.

Definition from_stored_data (stored : StoredNegotiationData)
  : result SwapRecreateError NegotiationData :=
  let? maker_pub := parsed (parse_pubkey MC (sn_maker_coin_htlc_pub_from_maker stored)) in
  let? taker_pub := parsed (parse_pubkey TC (sn_taker_coin_htlc_pub_from_maker stored)) in
  let? address := parsed (parse_address TC (sn_taker_coin_maker_address stored)) in
  Ok {| maker_secret_hash := sn_maker_secret_hash stored;
        maker_payment_locktime := sn_maker_payment_locktime stored;
        maker_coin_htlc_pub_from_maker := maker_pub;
        taker_coin_htlc_pub_from_maker := taker_pub;
        maker_coin_swap_contract := None;
        taker_coin_swap_contract := None;
        taker_coin_maker_address := address |}.

(** The storable states; the initial state [Initialize] has no data.  The two
    start blocks come first in every state that has them. *)
Inductive TakerState : Type :=
| Initialized (maker_coin_start_block taker_coin_start_block : Z)
    (taker_payment_fee maker_payment_spend_fee : SavedTradeFee)
| Negotiated (maker_coin_start_block taker_coin_start_block : Z)
    (negotiation_data : NegotiationData)
    (taker_payment_fee maker_payment_spend_fee : SavedTradeFee)
| TakerFundingSent (maker_coin_start_block taker_coin_start_block : Z)
    (taker_funding : CoinTx TC) (negotiation_data : NegotiationData)
| TakerFundingRefundRequired (maker_coin_start_block taker_coin_start_block : Z)
    (taker_funding : CoinTx TC) (negotiation_data : NegotiationData)
    (reason : TakerFundingRefundReason)
| MakerPaymentAndFundingSpendPreimgReceived (maker_coin_start_block taker_coin_start_block : Z)
    (negotiation_data : NegotiationData) (taker_funding : CoinTx TC)
    (funding_spend_preimage : TxPreimageWithSig TC) (maker_payment : CoinTx MC)
| TakerPaymentSent (maker_coin_start_block taker_coin_start_block : Z)
    (taker_payment : CoinTx TC) (maker_payment : CoinTx MC) (negotiation_data : NegotiationData)
| TakerPaymentSentAndPreimageSendingSkipped (maker_coin_start_block taker_coin_start_block : Z)
    (taker_payment : CoinTx TC) (maker_payment : CoinTx MC) (negotiation_data : NegotiationData)
| TakerPaymentRefundRequired (taker_payment : CoinTx TC) (negotiation_data : NegotiationData)
    (reason : TakerPaymentRefundReason)
| MakerPaymentConfirmed (maker_coin_start_block taker_coin_start_block : Z)
    (maker_payment : CoinTx MC) (taker_funding : CoinTx TC)
    (funding_spend_preimage : TxPreimageWithSig TC) (negotiation_data : NegotiationData)
| TakerPaymentSpent (maker_coin_start_block taker_coin_start_block : Z)
    (maker_payment : CoinTx MC) (taker_payment taker_payment_spend : CoinTx TC)
    (negotiation_data : NegotiationData)
| MakerPaymentSpent (maker_coin_start_block taker_coin_start_block : Z)
    (maker_payment : CoinTx MC) (taker_payment taker_payment_spend : CoinTx TC)
    (maker_payment_spend : CoinTx MC) (negotiation_data : NegotiationData)
| TakerFundingRefunded (funding_tx funding_refund_tx : CoinTx TC)
    (reason : TakerFundingRefundReason)
| TakerPaymentRefunded (taker_payment : CoinTx TC) (taker_payment_refund : TransactionIdentifier)
    (reason : TakerPaymentRefundReason)
| Aborted (reason : AbortReason)
| Completed.

(** [StorableState::get_event] of each state. *)
Definition get_event (s : TakerState) : Event.TakerSwapEvent :=
  match s with
  | Initialized b1 b2 fee1 fee2 => Event.Initialized b1 b2 fee1 fee2
  | Negotiated b1 b2 n fee1 fee2 => Event.Negotiated b1 b2 (to_stored_data n) fee1 fee2
  | TakerFundingSent b1 b2 funding n =>
      Event.TakerFundingSent b1 b2 (to_stored_data n) (transaction_identifier funding)
  | TakerFundingRefundRequired b1 b2 funding n reason =>
      Event.TakerFundingRefundRequired b1 b2 (to_stored_data n) (transaction_identifier funding)
        reason
  | MakerPaymentAndFundingSpendPreimgReceived b1 b2 n funding p mpayment =>
      Event.MakerPaymentAndFundingSpendPreimgReceived b1 b2 (to_stored_data n)
        (transaction_identifier funding) (stored_preimage p) (transaction_identifier mpayment)
  | TakerPaymentSent b1 b2 tpayment mpayment n =>
      Event.TakerPaymentSent b1 b2 (transaction_identifier tpayment)
        (transaction_identifier mpayment) (to_stored_data n)
  | TakerPaymentSentAndPreimageSendingSkipped b1 b2 tpayment mpayment n =>
      Event.TakerPaymentSentAndPreimageSendingSkipped b1 b2 (transaction_identifier tpayment)
        (transaction_identifier mpayment) (to_stored_data n)
  | TakerPaymentRefundRequired tpayment n reason =>
      Event.TakerPaymentRefundRequired (transaction_identifier tpayment) (to_stored_data n) reason
  | MakerPaymentConfirmed b1 b2 mpayment funding p n =>
      Event.MakerPaymentConfirmed b1 b2 (transaction_identifier mpayment)
        (transaction_identifier funding) (stored_preimage p) (to_stored_data n)
  | TakerPaymentSpent b1 b2 mpayment tpayment tspend n =>
      Event.TakerPaymentSpent b1 b2 (transaction_identifier mpayment)
        (transaction_identifier tpayment) (transaction_identifier tspend) (to_stored_data n)
  | MakerPaymentSpent b1 b2 mpayment tpayment tspend mspend n =>
      Event.MakerPaymentSpent b1 b2 (transaction_identifier mpayment)
        (transaction_identifier tpayment) (transaction_identifier tspend)
        (transaction_identifier mspend) (to_stored_data n)
  | TakerFundingRefunded funding refund reason =>
      Event.TakerFundingRefunded (transaction_identifier funding) (transaction_identifier refund)
        reason
  | TakerPaymentRefunded tpayment refund reason =>
      Event.TakerPaymentRefunded (transaction_identifier tpayment) refund reason
  | Aborted reason => Event.Aborted reason
  | Completed => Event.Completed
  end.

(** ** The handlers *)

Local Close Scope result_scope.
Local Open Scope prog_scope.

Variable fuel : nat.

Definition abort (reason : AbortReason) : M (Handled TakerState) :=
  Ret (change_state (Aborted reason)).

Definition payment_value_with_premium (m : TakerSwapStateMachine) : MmNumber :=
  (taker_volume m + taker_premium m)%Q.

(** [fee_to_send_dex_fee] of the prepared parameters. *)
Definition no_fee_to_send_dex_fee : TradeFee := mkTradeFee (platform_ticker TC) (0 # 1) false.

Definition check_balance (m : TakerSwapStateMachine)
  (taker_payment_fee maker_payment_spend_fee : TradeFee) : M (result CheckBalanceError unit) :=
  lift (TakerSwap.check_balance_for_taker_swap (mm_coin TC) (mm_coin MC)
          (payment_value_with_premium m) (Some (uuid m))
          (Some (TakerSwap.mkPrepared (total_spend_amount (dex_fee m)) no_fee_to_send_dex_fee
                   taker_payment_fee maker_payment_spend_fee)) StartSwap).

(** [Initialize] *)
Definition initialize (m : TakerSwapStateMachine) : M (Handled TakerState) :=
  b1 <- call (common (current_block MakerSide));
  match b1 with
  | Err e => abort (FailedToGetMakerCoinBlock e)
  | Ok maker_coin_start_block =>
  b2 <- call (common (current_block TakerSide));
  match b2 with
  | Err e => abort (FailedToGetTakerCoinBlock e)
  | Ok taker_coin_start_block =>
  let total_value_with_premium :=
    (payment_value_with_premium m + total_spend_amount (dex_fee m))%Q in
  let preimage_value := Exact (to_decimal total_value_with_premium) in
  fee1 <- call (common (get_sender_trade_fee TakerSide preimage_value StartSwap));
  match fee1 with
  | Err e => abort (FailedToGetTakerPaymentFee e)
  | Ok taker_payment_fee =>
  fee2 <- call (common (get_receiver_trade_fee MakerSide StartSwap));
  match fee2 with
  | Err e => abort (FailedToGetMakerPaymentSpendFee e)
  | Ok maker_payment_spend_fee =>
  balance <- check_balance m taker_payment_fee maker_payment_spend_fee;
  match balance with
  | Err e => abort (BalanceCheckFailure e)
  | Ok _ =>
      Ret (change_state (Initialized maker_coin_start_block taker_coin_start_block
        (saved_from_trade_fee taker_payment_fee) (saved_from_trade_fee maker_payment_spend_fee)))
  end end end end end.

Definition broadcast (m : TakerSwapStateMachine) (msg : SwapMessageInner) (interval_sec : Q)
  : M unit :=
  call (broadcast_swap_v2_msg_every (p2p_topic m) (mkSwapMessage (Some msg) (uuid m)) interval_sec
          (p2p_keypair m)).

(** The checks on the maker's data, in the order of the source. *)
Definition check_maker_data (m : TakerSwapStateMachine) (d : MakerNegotiation)
  : result AbortReason NegotiationData :=
  (let started_at_diff := abs_diff (started_at m) (mn_started_at d) in
   let? _ := (if started_at_diff >? MAX_STARTED_AT_DIFF
              then Err (TooLargeStartedAtDiff started_at_diff) else Ok tt) in
   let len := Z.of_nat (length (mn_secret_hash d)) in
   let? _ := (if negb ((len =? 20) || (len =? 32))
              then Err (SecretHashUnexpectedLen len) else Ok tt) in
   let expected_maker_payment_locktime :=
     wrap 64 (mn_started_at d + wrap 64 (2 * lock_duration m)) in
   let? _ := (if negb (mn_payment_locktime d =? expected_maker_payment_locktime)
              then Err (MakerProvidedInvalidLocktime (mn_payment_locktime d)) else Ok tt) in
   let? maker_pub := map_err FailedToParsePubkey (parse_pubkey MC (mn_maker_coin_htlc_pub d)) in
   let? taker_pub := map_err FailedToParsePubkey (parse_pubkey TC (mn_taker_coin_htlc_pub d)) in
   let? address := map_err FailedToParseAddress (parse_address TC (mn_taker_coin_address d)) in
   Ok {| maker_secret_hash := mn_secret_hash d;
         maker_payment_locktime := expected_maker_payment_locktime;
         maker_coin_htlc_pub_from_maker := maker_pub;
         taker_coin_htlc_pub_from_maker := taker_pub;
         maker_coin_swap_contract := mn_maker_coin_swap_contract d;
         taker_coin_swap_contract := mn_taker_coin_swap_contract d;
         taker_coin_maker_address := address |})%result.

(** The message of the taker's negotiation. *)
Definition taker_negotiation_msg (m : TakerSwapStateMachine) : TakerNegotiation :=
  mkTakerNegotiation (Some (Continue {|
    tnd_started_at := started_at m;
    tnd_funding_locktime := taker_funding_locktime m;
    tnd_payment_locktime := taker_payment_locktime m;
    tnd_taker_secret_hash := taker_secret_hash m;
    tnd_maker_coin_htlc_pub := derive_htlc_pubkey_v2_bytes MC (unique_data m);
    tnd_taker_coin_htlc_pub := derive_htlc_pubkey_v2_bytes TC (unique_data m);
    tnd_maker_coin_swap_contract := contract_address MC;
    tnd_taker_coin_swap_contract := contract_address TC |})).

(** [Initialized] *)
Definition initialized_on_changed (m : TakerSwapStateMachine) (b1 b2 : Z)
  (taker_payment_fee maker_payment_spend_fee : SavedTradeFee) : M (Handled TakerState) :=
  r <- recv_swap_v2_msg fuel (uuid m) KMakerNegotiation NEGOTIATION_TIMEOUT_SEC;
  match r with
  | Err e => abort (DidNotReceiveMakerNegotiation e)
  | Ok maker_negotiation =>
  match check_maker_data m maker_negotiation with
  | Err reason => abort reason
  | Ok negotiation_data =>
  do broadcast m (MsgTakerNegotiation (taker_negotiation_msg m)) NEGOTIATE_SEND_INTERVAL;
  r <- recv_swap_v2_msg fuel (uuid m) KMakerNegotiated NEGOTIATION_TIMEOUT_SEC;
  match r with
  | Err e => abort (DidNotReceiveMakerNegotiated e)
  | Ok maker_negotiated =>
      if negb (mnd_negotiated maker_negotiated)
      then abort (MakerDidNotNegotiate (default EmptyString (mnd_reason maker_negotiated)))
      else Ret (change_state (Negotiated b1 b2 negotiation_data taker_payment_fee
                                maker_payment_spend_fee))
  end end end.

Definition send_funding_args (m : TakerSwapStateMachine) (n : NegotiationData)
  : SendTakerFundingArgs := {|
  sff_funding_time_lock := taker_funding_locktime m;
  sff_payment_time_lock := taker_payment_locktime m;
  sff_taker_secret_hash := taker_secret_hash m;
  sff_maker_secret_hash := maker_secret_hash n;
  sff_maker_pub := pubkey_to_bytes TC (taker_coin_htlc_pub_from_maker n);
  sff_dex_fee := dex_fee m;
  sff_premium_amount := to_decimal (taker_premium m);
  sff_trading_amount := to_decimal (taker_volume m);
  sff_swap_unique_data := unique_data m |}.

(** [Negotiated] *)
Definition negotiated_on_changed (m : TakerSwapStateMachine) (b1 b2 : Z) (n : NegotiationData)
  : M (Handled TakerState) :=
  r <- call (send_taker_funding (send_funding_args m n));
  match r with
  | Err e => abort (FailedToSendTakerFunding e)
  | Ok taker_funding => Ret (change_state (TakerFundingSent b1 b2 taker_funding n))
  end.

Definition funding_refund_required (b1 b2 : Z) (taker_funding : CoinTx TC) (n : NegotiationData)
  (reason : TakerFundingRefundReason) : M (Handled TakerState) :=
  Ret (change_state (TakerFundingRefundRequired b1 b2 taker_funding n reason)).

(** [TakerFundingSent] *)
Definition taker_funding_sent_on_changed (m : TakerSwapStateMachine) (b1 b2 : Z)
  (taker_funding : CoinTx TC) (n : NegotiationData) : M (Handled TakerState) :=
  do broadcast m (MsgTakerFundingInfo (mkTakerFundingInfo (coin_tx_hex TC taker_funding) None))
       (600 # 1);
  r <- recv_swap_v2_msg fuel (uuid m) KMakerPaymentInfo NEGOTIATION_TIMEOUT_SEC;
  match r with
  | Err e => funding_refund_required b1 b2 taker_funding n (DidNotReceiveMakerPayment e)
  | Ok maker_payment_info =>
  match parse_tx MC (mpay_tx_bytes maker_payment_info) with
  | Err e => funding_refund_required b1 b2 taker_funding n (FailedToParseMakerPayment e)
  | Ok maker_payment =>
  match parse_preimage TC (funding_preimage_tx maker_payment_info) with
  | Err e => funding_refund_required b1 b2 taker_funding n (FailedToParseFundingSpendPreimg e)
  | Ok preimage_tx =>
  match parse_signature TC (funding_preimage_sig maker_payment_info) with
  | Err e => funding_refund_required b1 b2 taker_funding n (FailedToParseFundingSpendSig e)
  | Ok preimage_sig =>
      Ret (change_state (MakerPaymentAndFundingSpendPreimgReceived b1 b2 n taker_funding
                           (mkPreimageWithSig preimage_tx preimage_sig) maker_payment))
  end end end end.

Definition maker_payment_args (m : TakerSwapStateMachine) (n : NegotiationData)
  (maker_payment : CoinTx MC) : ValidateMakerPaymentArgs MC := {|
  vmp_maker_payment_tx := maker_payment;
  vmp_time_lock := maker_payment_locktime n;
  vmp_taker_secret_hash := taker_secret_hash m;
  vmp_maker_secret_hash := maker_secret_hash n;
  vmp_amount := to_decimal (maker_volume m);
  vmp_maker_pub := maker_coin_htlc_pub_from_maker n;
  vmp_swap_unique_data := unique_data m |}.

Definition funding_spend_args (m : TakerSwapStateMachine) (n : NegotiationData)
  (taker_funding : CoinTx TC) : GenTakerFundingSpendArgs TC := {|
  gfs_funding_tx := taker_funding;
  gfs_maker_pub := taker_coin_htlc_pub_from_maker n;
  gfs_taker_pub := derive_htlc_pubkey_v2 TC (unique_data m);
  gfs_funding_time_lock := taker_funding_locktime m;
  gfs_taker_secret_hash := taker_secret_hash m;
  gfs_taker_payment_time_lock := taker_payment_locktime m;
  gfs_maker_secret_hash := maker_secret_hash n |}.

Definition maker_payment_confirmed (m : TakerSwapStateMachine) (maker_payment : CoinTx MC)
  : M (result string unit) :=
  call (common (wait_for_confirmations MakerSide
    (mkConfirm (coin_tx_hex MC maker_payment) (maker_coin_confs (conf_settings m))
       (maker_coin_nota (conf_settings m)) (maker_payment_conf_timeout m) 10))).

(** The funding is turned into the payment, in two states. *)
Definition spend_funding (m : TakerSwapStateMachine) (b1 b2 : Z) (n : NegotiationData)
  (taker_funding : CoinTx TC) (p : TxPreimageWithSig TC) (maker_payment : CoinTx MC)
  : M (Handled TakerState) :=
  r <- call (sign_and_send_taker_funding_spend p (funding_spend_args m n taker_funding)
               (unique_data m));
  match r with
  | Err e => funding_refund_required b1 b2 taker_funding n (FailedToSendTakerPayment e)
  | Ok taker_payment =>
      if skip_taker_payment_spend_preimage TC
      then Ret (change_state (TakerPaymentSentAndPreimageSendingSkipped b1 b2 taker_payment
                                maker_payment n))
      else Ret (change_state (TakerPaymentSent b1 b2 taker_payment maker_payment n))
  end.

(** [MakerPaymentAndFundingSpendPreimgReceived] *)
Definition maker_payment_received_on_changed (m : TakerSwapStateMachine) (b1 b2 : Z)
  (n : NegotiationData) (taker_funding : CoinTx TC) (p : TxPreimageWithSig TC)
  (maker_payment : CoinTx MC) : M (Handled TakerState) :=
  v <- call (validate_maker_payment_v2 (maker_payment_args m n maker_payment));
  match v with
  | Err e => funding_refund_required b1 b2 taker_funding n (MakerPaymentValidationFailed e)
  | Ok _ =>
  v <- call (validate_taker_funding_spend_preimage (funding_spend_args m n taker_funding) p);
  match v with
  | Err e => funding_refund_required b1 b2 taker_funding n (FundingSpendPreimageValidationFailed e)
  | Ok _ =>
  visible <- ensure_tx_is_broadcasted fuel MakerSide (tx_hash_as_bytes MC maker_payment)
               (coin_tx_hex MC maker_payment) SWAP_TX_VISIBILITY_GRACE_SECS
               SWAP_TX_VISIBILITY_POLL_SECS;
  if negb visible
  then funding_refund_required b1 b2 taker_funding n (DidNotReceiveMakerPayment (err
         "Maker payment transaction is not visible on network even after fallback rebroadcast" []))
  else
  if require_maker_payment_confirm_before_funding_spend m
  then
    c <- maker_payment_confirmed m maker_payment;
    match c with
    | Err e => funding_refund_required b1 b2 taker_funding n (Funding.MakerPaymentNotConfirmedInTime e)
    | Ok _ => Ret (change_state (MakerPaymentConfirmed b1 b2 maker_payment taker_funding p n))
    end
  else spend_funding m b1 b2 n taker_funding p maker_payment
  end end.

Definition payment_refund_required (taker_payment : CoinTx TC) (n : NegotiationData)
  (reason : TakerPaymentRefundReason) : M (Handled TakerState) :=
  Ret (change_state (TakerPaymentRefundRequired taker_payment n reason)).

(** The wait for the maker payment that was not made before the funding was
    spent. *)
Definition late_confirmation (m : TakerSwapStateMachine) (maker_payment : CoinTx MC)
  : M (result string unit) :=
  if negb (require_maker_payment_confirm_before_funding_spend m)
  then maker_payment_confirmed m maker_payment
  else Ret (Ok tt).

Definition payment_spend_args (m : TakerSwapStateMachine) (n : NegotiationData)
  (taker_payment : CoinTx TC) : GenTakerPaymentSpendArgs TC := {|
  gps_taker_tx := taker_payment;
  gps_time_lock := taker_payment_locktime m;
  gps_maker_secret_hash := maker_secret_hash n;
  gps_maker_pub := taker_coin_htlc_pub_from_maker n;
  gps_maker_address := taker_coin_maker_address n;
  gps_taker_pub := derive_htlc_pubkey_v2 TC (unique_data m);
  gps_dex_fee := dex_fee m;
  gps_premium_amount := (0 # 1);
  gps_trading_amount := to_decimal (taker_volume m) |}.

(** The wait for the maker's spend of the taker payment, in two states. *)
Definition await_spend (m : TakerSwapStateMachine) (b1 b2 : Z) (taker_payment : CoinTx TC)
  (maker_payment : CoinTx MC) (n : NegotiationData) : M (Handled TakerState) :=
  r <- call (find_taker_payment_spend_tx taker_payment b2 (taker_payment_locktime m));
  match r with
  | Err e => payment_refund_required taker_payment n (MakerDidNotSpendInTime e)
  | Ok taker_payment_spend =>
      Ret (change_state (TakerPaymentSpent b1 b2 maker_payment taker_payment taker_payment_spend n))
  end.

(** [TakerPaymentSent] *)
Definition taker_payment_sent_on_changed (m : TakerSwapStateMachine) (b1 b2 : Z)
  (taker_payment : CoinTx TC) (maker_payment : CoinTx MC) (n : NegotiationData)
  : M (Handled TakerState) :=
  c <- late_confirmation m maker_payment;
  match c with
  | Err e => payment_refund_required taker_payment n (MakerPaymentNotConfirmedInTime e)
  | Ok _ =>
  p <- call (gen_taker_payment_spend_preimage (payment_spend_args m n taker_payment)
               (unique_data m));
  match p with
  | Err e => payment_refund_required taker_payment n (FailedToGenerateSpendPreimage e)
  | Ok preimage_sig =>
  do broadcast m (MsgTakerPaymentSpendPreimage (mkTakerPaymentSpendPreimage
                    (sig_to_bytes TC (signature preimage_sig))
                    (preimage_to_bytes TC (preimage preimage_sig)))) (600 # 1);
  await_spend m b1 b2 taker_payment maker_payment n
  end end.

(** [TakerPaymentSentAndPreimageSendingSkipped] *)
Definition preimage_skipped_on_changed (m : TakerSwapStateMachine) (b1 b2 : Z)
  (taker_payment : CoinTx TC) (maker_payment : CoinTx MC) (n : NegotiationData)
  : M (Handled TakerState) :=
  c <- late_confirmation m maker_payment;
  match c with
  | Err e => payment_refund_required taker_payment n (MakerPaymentNotConfirmedInTime e)
  | Ok _ => await_spend m b1 b2 taker_payment maker_payment n
  end.

Definition refund_funding_args (m : TakerSwapStateMachine) (taker_funding : CoinTx TC)
  (n : NegotiationData) : RefundFundingSecretArgs TC := {|
  rfs_funding_tx := taker_funding;
  rfs_funding_time_lock := taker_funding_locktime m;
  rfs_payment_time_lock := taker_payment_locktime m;
  rfs_maker_pubkey := taker_coin_htlc_pub_from_maker n;
  rfs_taker_secret := taker_secret m;
  rfs_taker_secret_hash := taker_secret_hash m;
  rfs_maker_secret_hash := maker_secret_hash n;
  rfs_dex_fee := dex_fee m;
  rfs_premium_amount := to_decimal (taker_premium m);
  rfs_trading_amount := to_decimal (taker_volume m);
  rfs_swap_unique_data := unique_data m;
  rfs_watcher_reward := false |}.

(** [TakerFundingRefundRequired] *)
Definition funding_refund_on_changed (m : TakerSwapStateMachine) (taker_funding : CoinTx TC)
  (n : NegotiationData) (reason : TakerFundingRefundReason) : M (Handled TakerState) :=
  r <- call (refund_taker_funding_secret (refund_funding_args m taker_funding n));
  match r with
  | Err e => abort (TakerFundingRefundFailed (get_plain_text_format e))
  | Ok funding_refund_tx =>
      Ret (change_state (TakerFundingRefunded taker_funding funding_refund_tx reason))
  end.

Definition refund_payment_args (m : TakerSwapStateMachine) (taker_payment : CoinTx TC)
  (n : NegotiationData) : RefundTakerPaymentArgs := {|
  rtp_payment_tx := coin_tx_hex TC taker_payment;
  rtp_time_lock := taker_payment_locktime m;
  rtp_maker_pub := pubkey_to_bytes TC (taker_coin_htlc_pub_from_maker n);
  rtp_tx_type_with_secret_hash := TakerPaymentV2 (maker_secret_hash n) (taker_secret_hash m);
  rtp_swap_unique_data := unique_data m;
  rtp_watcher_reward := false;
  rtp_dex_fee := dex_fee m;
  rtp_premium_amount := to_decimal (taker_premium m);
  rtp_trading_amount := to_decimal (taker_volume m) |}.

(** [TakerPaymentRefundRequired] *)
Definition payment_refund_on_changed (m : TakerSwapStateMachine) (taker_payment : CoinTx TC)
  (n : NegotiationData) (reason : TakerPaymentRefundReason) : M (Handled TakerState) :=
  do wait_can_refund_v2 fuel TakerSide (taker_payment_locktime m);
  r <- call (refund_combined_taker_payment (refund_payment_args m taker_payment n));
  match r with
  | Err e => abort (TakerPaymentRefundFailed (get_plain_text_format e))
  | Ok taker_payment_refund_tx =>
      Ret (change_state (TakerPaymentRefunded taker_payment
                           (transaction_identifier taker_payment_refund_tx) reason))
  end.

Definition spend_maker_payment_args (m : TakerSwapStateMachine) (n : NegotiationData)
  (maker_payment : CoinTx MC) (secret : bytes) : SpendMakerPaymentArgs MC := {|
  spm_maker_payment_tx := maker_payment;
  spm_time_lock := maker_payment_locktime n;
  spm_taker_secret_hash := taker_secret_hash m;
  spm_maker_secret_hash := maker_secret_hash n;
  spm_maker_secret := secret;
  spm_maker_pub := maker_coin_htlc_pub_from_maker n;
  spm_swap_unique_data := unique_data m;
  spm_amount := to_decimal (maker_volume m) |}.

(** [TakerPaymentSpent] *)
Definition taker_payment_spent_on_changed (m : TakerSwapStateMachine) (b1 b2 : Z)
  (maker_payment : CoinTx MC) (taker_payment taker_payment_spend : CoinTx TC) (n : NegotiationData)
  : M (Handled TakerState) :=
  e <- call (extract_secret_v2 (maker_secret_hash n) taker_payment_spend);
  match e with
  | Err e => abort (CouldNotExtractSecret e)
  | Ok secret =>
  r <- call (spend_maker_payment_v2 (spend_maker_payment_args m n maker_payment secret));
  match r with
  | Err e => abort (FailedToSpendMakerPayment e)
  | Ok maker_payment_spend =>
      Ret (change_state (MakerPaymentSpent b1 b2 maker_payment taker_payment taker_payment_spend
                           maker_payment_spend n))
  end end.

(** [MakerPaymentSpent] *)
Definition maker_payment_spent_on_changed (m : TakerSwapStateMachine) (taker_payment : CoinTx TC)
  (maker_payment_spend : CoinTx MC) (n : NegotiationData) : M (Handled TakerState) :=
  c <- (if require_maker_payment_spend_confirm m
        then call (common (wait_for_confirmations MakerSide
               (mkConfirm (coin_tx_hex MC maker_payment_spend) (maker_coin_confs (conf_settings m))
                  (maker_coin_nota (conf_settings m)) (taker_payment_locktime m) 10)))
        else Ret (Ok tt));
  match c with
  | Err e => payment_refund_required taker_payment n (MakerPaymentSpendNotConfirmedInTime e)
  | Ok _ => Ret (change_state Completed)
  end.

(** [State::on_changed] of each state, up to the change of the state. *)
Definition handle (m : TakerSwapStateMachine) (s : TakerState) : M (Handled TakerState) :=
  match s with
  | Initialized b1 b2 fee1 fee2 => initialized_on_changed m b1 b2 fee1 fee2
  | Negotiated b1 b2 n _ _ => negotiated_on_changed m b1 b2 n
  | TakerFundingSent b1 b2 funding n => taker_funding_sent_on_changed m b1 b2 funding n
  | TakerFundingRefundRequired _ _ funding n reason => funding_refund_on_changed m funding n reason
  | MakerPaymentAndFundingSpendPreimgReceived b1 b2 n funding p mpayment =>
      maker_payment_received_on_changed m b1 b2 n funding p mpayment
  | TakerPaymentSent b1 b2 tpayment mpayment n =>
      taker_payment_sent_on_changed m b1 b2 tpayment mpayment n
  | TakerPaymentSentAndPreimageSendingSkipped b1 b2 tpayment mpayment n =>
      preimage_skipped_on_changed m b1 b2 tpayment mpayment n
  | TakerPaymentRefundRequired tpayment n reason => payment_refund_on_changed m tpayment n reason
  | MakerPaymentConfirmed b1 b2 mpayment funding p n => spend_funding m b1 b2 n funding p mpayment
  | TakerPaymentSpent b1 b2 mpayment tpayment tspend n =>
      taker_payment_spent_on_changed m b1 b2 mpayment tpayment tspend n
  | MakerPaymentSpent _ _ _ tpayment _ mspend n => maker_payment_spent_on_changed m tpayment mspend n
  | TakerFundingRefunded _ _ _ | TakerPaymentRefunded _ _ _ | Aborted _ | Completed =>
      Ret last_state
  end.

(** ** The context *)

Definition TAKER_SWAP_V2_TYPE : Z := 2.

Definition init_additional_context (m : TakerSwapStateMachine) : M unit :=
  init_additional_context_impl (uuid m)
    (mkActiveSwapV2Info (coin_ticker MC) (coin_ticker TC) TAKER_SWAP_V2_TYPE) (maker_p2p_pubkey m).

Definition clean_up_context (m : TakerSwapStateMachine) : M unit :=
  clean_up_context_impl (uuid m) (coin_ticker MC) (coin_ticker TC).

Definition new_locked (m : TakerSwapStateMachine) (fee : SavedTradeFee) : LockedAmountInfo :=
  mkLockedAmountInfo (uuid m)
    (mkLockedAmount (coin_ticker TC)
       ((taker_volume m + total_spend_amount (dex_fee m)) + taker_premium m)%Q
       (Some (trade_fee_from_saved fee))).

Definition lock_taker_coin (m : TakerSwapStateMachine) (fee : SavedTradeFee) : M unit :=
  call (context (push_locked_amount (coin_ticker TC) (new_locked m fee))).

Definition release_taker_coin (m : TakerSwapStateMachine) : M unit :=
  call (context (retain_other_locked (coin_ticker TC) (uuid m))).

Definition on_event (m : TakerSwapStateMachine) (event : Event.TakerSwapEvent) : M unit :=
  do match event with
     | Event.Initialized _ _ taker_payment_fee _ => lock_taker_coin m taker_payment_fee
     | Event.TakerFundingSent _ _ _ _ => release_taker_coin m
     | _ => Ret tt
     end;
  call (stream_event (uuid m) event).

Definition on_kickstart_event (m : TakerSwapStateMachine) (event : Event.TakerSwapEvent) : M unit :=
  match event with
  | Event.Initialized _ _ taker_payment_fee _ | Event.Negotiated _ _ _ taker_payment_fee _ =>
      lock_taker_coin m taker_payment_fee
  | _ => Ret tt
  end.

#[export] Instance taker_machine :
  StorableStateMachine (@answer_v2 MC TC TakerSwap.TakerSwapEvent TakerSwapDbRepr
    Event.TakerSwapEvent) TakerSwapStateMachine TakerState Event.TakerSwapEvent
    SwapStateMachineError := {
  StateMachine.get_event := get_event;
  StateMachine.initialize := initialize;
  StateMachine.handle := handle;
  StateMachine.acquire_reentrancy_lock := fun m => acquire_reentrancy_lock_impl (uuid m);
  StateMachine.has_record_for := fun m => call (has_db_record_for (uuid m));
  StateMachine.store_repr := fun m => call (insert_new_swap_v2 (uuid m) (to_db_repr m));
  StateMachine.store_event := fun m e => call (store_swap_event (uuid m) e);
  StateMachine.mark_finished := fun m => call (mark_swap_as_finished (uuid m));
  StateMachine.spawn_reentrancy_lock_renew := fun m => call (spawn_lock_renew (uuid m));
  StateMachine.init_additional_context := init_additional_context;
  StateMachine.clean_up_context := clean_up_context;
  StateMachine.on_event := on_event;
  StateMachine.on_kickstart_event := on_kickstart_event }.

(** ** Recreation *)

Local Open Scope result_scope.

Definition recreate_state (event : Event.TakerSwapEvent) : result SwapRecreateError TakerState :=
  match event with
  | Event.Initialized b1 b2 fee1 fee2 => Ok (Initialized b1 b2 fee1 fee2)
  | Event.Negotiated b1 b2 stored fee1 fee2 =>
      let? n := from_stored_data stored in
      Ok (Negotiated b1 b2 n fee1 fee2)
  | Event.TakerFundingSent b1 b2 stored taker_funding =>
      let? funding := parsed (parse_tx TC (ti_tx_hex taker_funding)) in
      let? n := from_stored_data stored in
      Ok (TakerFundingSent b1 b2 funding n)
  | Event.TakerFundingRefundRequired b1 b2 stored taker_funding reason =>
      let? funding := parsed (parse_tx TC (ti_tx_hex taker_funding)) in
      let? n := from_stored_data stored in
      Ok (TakerFundingRefundRequired b1 b2 funding n reason)
  | Event.MakerPaymentAndFundingSpendPreimgReceived b1 b2 stored taker_funding spend
      maker_payment =>
      let? n := from_stored_data stored in
      let? funding := parsed (parse_tx TC (ti_tx_hex taker_funding)) in
      let? preimage := parsed (parse_preimage TC (stp_preimage spend)) in
      let? signature := parsed (parse_signature TC (stp_signature spend)) in
      let? mpayment := parsed (parse_tx MC (ti_tx_hex maker_payment)) in
      Ok (MakerPaymentAndFundingSpendPreimgReceived b1 b2 n funding
            (mkPreimageWithSig preimage signature) mpayment)
  | Event.TakerPaymentSent b1 b2 taker_payment maker_payment stored =>
      let? tpayment := parsed (parse_tx TC (ti_tx_hex taker_payment)) in
      let? mpayment := parsed (parse_tx MC (ti_tx_hex maker_payment)) in
      let? n := from_stored_data stored in
      Ok (TakerPaymentSent b1 b2 tpayment mpayment n)
  | Event.TakerPaymentSentAndPreimageSendingSkipped b1 b2 taker_payment maker_payment stored =>
      let? tpayment := parsed (parse_tx TC (ti_tx_hex taker_payment)) in
      let? mpayment := parsed (parse_tx MC (ti_tx_hex maker_payment)) in
      let? n := from_stored_data stored in
      Ok (TakerPaymentSentAndPreimageSendingSkipped b1 b2 tpayment mpayment n)
  | Event.TakerPaymentRefundRequired taker_payment stored reason =>
      let? tpayment := parsed (parse_tx TC (ti_tx_hex taker_payment)) in
      let? n := from_stored_data stored in
      Ok (TakerPaymentRefundRequired tpayment n reason)
  | Event.MakerPaymentConfirmed b1 b2 maker_payment taker_funding spend stored =>
      let? mpayment := parsed (parse_tx MC (ti_tx_hex maker_payment)) in
      let? funding := parsed (parse_tx TC (ti_tx_hex taker_funding)) in
      let? preimage := parsed (parse_preimage TC (stp_preimage spend)) in
      let? signature := parsed (parse_signature TC (stp_signature spend)) in
      let? n := from_stored_data stored in
      Ok (MakerPaymentConfirmed b1 b2 mpayment funding (mkPreimageWithSig preimage signature) n)
  | Event.TakerPaymentSpent b1 b2 maker_payment taker_payment taker_payment_spend stored =>
      let? mpayment := parsed (parse_tx MC (ti_tx_hex maker_payment)) in
      let? tpayment := parsed (parse_tx TC (ti_tx_hex taker_payment)) in
      let? tspend := parsed (parse_tx TC (ti_tx_hex taker_payment_spend)) in
      let? n := from_stored_data stored in
      Ok (TakerPaymentSpent b1 b2 mpayment tpayment tspend n)
  | Event.MakerPaymentSpent b1 b2 maker_payment taker_payment taker_payment_spend
      maker_payment_spend stored =>
      let? mpayment := parsed (parse_tx MC (ti_tx_hex maker_payment)) in
      let? tpayment := parsed (parse_tx TC (ti_tx_hex taker_payment)) in
      let? tspend := parsed (parse_tx TC (ti_tx_hex taker_payment_spend)) in
      let? mspend := parsed (parse_tx MC (ti_tx_hex maker_payment_spend)) in
      let? n := from_stored_data stored in
      Ok (MakerPaymentSpent b1 b2 mpayment tpayment tspend mspend n)
  | Event.Aborted _ => Err SwapAborted
  | Event.Completed => Err SwapCompleted
  | Event.TakerFundingRefunded _ _ _ => Err SwapFinishedWithRefund
  | Event.TakerPaymentRefunded _ _ _ => Err SwapFinishedWithRefund
  end.

(** The machine that [recreate_machine] builds. *)
Definition machine_of_repr (uuid : Uuid) (repr : TakerSwapDbRepr) : TakerSwapStateMachine := {|
  started_at := r_started_at repr;
  lock_duration := r_lock_duration repr;
  maker_volume := r_maker_volume repr;
  taker_volume := r_taker_volume repr;
  taker_premium := r_taker_premium repr;
  secret_hash_algo := r_secret_hash_algo repr;
  conf_settings := r_conf_settings repr;
  uuid := uuid;
  p2p_topic := swap_v2_topic uuid;
  p2p_keypair := r_p2p_keypair repr;
  taker_secret := r_taker_secret repr;
  maker_p2p_pubkey := r_maker_p2p_pub repr;
  require_maker_payment_confirm_before_funding_spend := true;
  require_maker_payment_spend_confirm := true;
  swap_version := r_swap_version repr |}.

Definition recreate_machine (uuid : Uuid) (repr : TakerSwapDbRepr)
  : result SwapRecreateError (TakerSwapStateMachine * TakerState) :=
  match last (r_events repr) with
  | None => Err ReprEventsEmpty
  | Some event =>
      let? current_state := recreate_state event in
      Ok (machine_of_repr uuid repr, current_state)
  end.

(** The representation of the database: stored once, then extended. *)
Definition recreate (m : TakerSwapStateMachine) (events : list Event.TakerSwapEvent)
  : result SwapRecreateError (TakerSwapStateMachine * TakerState) :=
  recreate_machine (uuid m) (foldl (fun r e => add_event e r) (to_db_repr m) events).

End Taker.
