(* ===== verification/SwapV2Env.v ===== *)
(** * Environments of the second swap protocol

    What both machines need of the shared programs: the calls they make, what
    a received message, a visible transaction or an elapsed lock time leaves
    in the history, and fair environments, whose clock (in milliseconds)
    advances at least as fast as the loops sleep. *)

From S2P Require Import Prelude MmNumber DexFee Effects Swap StateMachine SwapV2.

Open Scope Z_scope.

Section Env.
  Context {MC TC : CoinV2} {L D E : Type}.
  Notation Call := (CallV2 MC TC L D E).
  Notation answer := (@answer_v2 MC TC L D E).
  Notation Obs := (Obs answer).
  Notation M := (prog answer).

(** The calls of the shared programs. *)
Definition helper_call (c : Call) : Prop :=
  match c with
  | common _ | take_msg_v2 _ _ | get_tx_hex_by_hash _ _ | send_raw_tx_bytes _ _
  | swap_lock _ _ | context _ | stream_event _ _ | spawn_lock_renew _ | has_db_record_for _
  | insert_new_swap_v2 _ _ | mark_swap_as_finished _ => True
  | _ => False
  end.

(** The calls of the programs that a handler uses. *)
Definition polling_call (c : Call) : Prop :=
  match c with
  | common _ | take_msg_v2 _ _ | get_tx_hex_by_hash _ _ | send_raw_tx_bytes _ _ => True
  | _ => False
  end.

Lemma polling_helper (c : Call) : polling_call c -> helper_call c.
Proof. by destruct c. Qed.

(** The calls of a handler: neither the context nor the database. *)
Definition handler_call (c : Call) : Prop :=
  match c with
  | context _ | stream_event _ _ | spawn_lock_renew _ | swap_lock _ _ | has_db_record_for _
  | insert_new_swap_v2 _ _ | store_swap_event _ _ | mark_swap_as_finished _ => False
  | _ => True
  end.

Lemma polling_handler (c : Call) : polling_call c -> handler_call c.
Proof. by destruct c. Qed.

Lemma handler_stores_nothing (c : Call) : handler_call c -> stores_nothing c.
Proof. by destruct c. Qed.

Definition lock_call (c : Call) : Prop :=
  match c with common _ | swap_lock _ _ => True | _ => False end.

Lemma lift_polling {A} (p : prog (@Swap.answer L) A) : only polling_call (lift p : M A).
Proof. induction p as [| | |c k IH]; cbn [lift only]; try done. Qed.

Lemma recv_loop_polling n u k s t w :
  only polling_call (recv_loop_v2 n u k s t w : M (result SwapError (msg_type_v2 k))).
Proof.
  induction n as [|n IH]; [done|]. cbn [recv_loop_v2]. split; [done|]. intros [].
  split; [done|]. intros [x|]; [done|]. split; [done|]. intros now. cbn. by case_match.
Qed.

Lemma recv_polling fuel u k t :
  only polling_call (recv_swap_v2_msg fuel u k t : M (result SwapError (msg_type_v2 k))).
Proof. split; [done|]. intros. apply recv_loop_polling. Qed.

Lemma ensure_loop_polling n s hash raw b u q : only polling_call (ensure_loop n s hash raw b u q : M bool).
Proof.
  revert b; induction n as [|n IH]; intros b; [done|]. cbn [ensure_loop]. split; [done|].
  intros [x|e]; [done|]. cbn [prog_bind]. apply only_bind; [by destruct b|]. intros _.
  split; [done|]. intros now. cbn. case_match; [|done]. split; [done|]. intros _. apply IH.
Qed.

Lemma ensure_polling fuel s hash raw g q :
  only polling_call (ensure_tx_is_broadcasted fuel s hash raw g q : M bool).
Proof. split; [done|]. intros. apply ensure_loop_polling. Qed.

Lemma refund_wait_polling n s l : only polling_call (wait_can_refund_v2 n s l : M unit).
Proof.
  induction n as [|n IH]; [done|]. cbn [wait_can_refund_v2]. split; [done|].
  intros [[|w]|e]; [done|..]; cbn; by split.
Qed.

Lemma lock_only u : only lock_call (acquire_reentrancy_lock_impl u : M _).
Proof.
  split; [done|]. intros x. destruct x as [[|]|e]; [done| |done].
  split; [done|]. intros ?. split; [done|]. intros y. by destruct y as [[|]|e].
Qed.

Lemma lock_helper u : only helper_call (acquire_reentrancy_lock_impl u : M _).
Proof. apply (only_weaken lock_call), lock_only. by intros []. Qed.

Lemma init_context_helper u info p : only helper_call (init_additional_context_impl u info p : M unit).
Proof. done. Qed.

Lemma clean_up_helper u a b : only helper_call (clean_up_context_impl u a b : M unit).
Proof. done. Qed.

(** What the shared programs leave in the history. *)
Section Wp.
  Variable G : list Obs -> Call -> Prop.
  Hypothesis helper_allowed : forall h c, helper_call c -> G h c.

Lemma wp_helper {A} h (p : M A) : only helper_call p -> wp G h p (fun _ _ => True).
Proof. intros Hp. by apply (wp_only helper_call). Qed.

Lemma recv_loop_wp n h u k s t w :
  wp G h (recv_loop_v2 n u k s t w)
     (fun h' r => forall x, r = Ok x -> asked (take_msg_v2 u k) (Some x) ∈ h').
Proof.
  revert h; induction n as [|n IH]; intros h; [done|]. cbn [recv_loop_v2].
  split; [by apply helper_allowed|]. intros []. cbn [prog_bind].
  split; [by apply helper_allowed|]. intros [x|]; cbn [prog_bind].
  { intros x' [= ->]. apply elem_of_app. right. by left. }
  split; [by apply helper_allowed|]. intros now. cbn [prog_bind]. case_match; [done|]. apply IH.
Qed.

Lemma recv_wp fuel h u k t :
  wp G h (recv_swap_v2_msg fuel u k t)
     (fun h' r => forall x, r = Ok x -> asked (take_msg_v2 u k) (Some x) ∈ h').
Proof. split; [by apply helper_allowed|]. intros. apply recv_loop_wp. Qed.

Lemma ensure_loop_wp n h s hash raw b u q :
  wp G h (ensure_loop n s hash raw b u q)
     (fun h' r => r = true -> exists x, asked (get_tx_hex_by_hash s hash) (Ok x) ∈ h').
Proof.
  revert h b; induction n as [|n IH]; intros h b; [done|]. cbn [ensure_loop].
  split; [by apply helper_allowed|]. intros [x|e]; cbn [prog_bind].
  { intros _. exists x. apply elem_of_app. right. by left. }
  apply wp_bind. eapply wp_mono; [|apply wp_helper; by destruct b]. intros h' [] _ _.
  split; [by apply helper_allowed|]. intros now. cbn [prog_bind]. case_match; [|done].
  split; [by apply helper_allowed|]. intros []. apply IH.
Qed.

Lemma ensure_wp fuel h s hash raw g q :
  wp G h (ensure_tx_is_broadcasted fuel s hash raw g q)
     (fun h' r => r = true -> exists x, asked (get_tx_hex_by_hash s hash) (Ok x) ∈ h').
Proof. split; [by apply helper_allowed|]. intros. apply ensure_loop_wp. Qed.

Lemma refund_wait_wp n h s l :
  wp G h (wait_can_refund_v2 n s l)
     (fun h' _ => asked (common (can_refund_htlc s l)) (Ok CanRefundNow) ∈ h').
Proof.
  revert h; induction n as [|n IH]; intros h; [done|]. cbn [wait_can_refund_v2].
  split; [by apply helper_allowed|]. intros [[|w]|e]; cbn [prog_bind].
  { apply elem_of_app. right. by left. }
  all: split; [by apply helper_allowed|]; intros []; apply IH.
Qed.
End Wp.

(** ** The journal *)

Lemma helper_stores_nothing (c : Call) : helper_call c -> stores_nothing c.
Proof. by destruct c. Qed.

Lemma store_traces u (e : E) tr evs :
  traces (call (store_swap_event u e : Call)) tr -> journaled tr evs -> evs = [] \/ evs = [e].
Proof.
  intros [->|[->|(x & tr' & -> & Ht)]] Hj.
  - left. by eapply journaled_nil.
  - destruct Hj as [->|(o & [= <-] & ->)]; cbn; auto.
  - simpl in Ht. subst. destruct x as [y|y]; destruct Hj as [->|(o & [= <-] & ->)]; cbn; auto.
Qed.

Lemma store_runs u (e : E) (tr : list Obs) x :
  runs (call (store_swap_event u e : Call)) tr (Ok x) ->
  stored_of tr = [e] /\ forall o, last tr = Some o -> maybe_stored_obs o = [].
Proof. intros (y & tr' & -> & -> & <-). split; [done|]. by intros o [= <-]. Qed.

(** ** Fair environments *)

(** The least time, in milliseconds, that the clock can show next. *)
Definition clock_step (t : Z) (o : Obs) : Z :=
  match o with
  | existT c x =>
      match c return option (answer c) -> Z with
      | common c' =>
          match c' return option (Swap.answer c') -> Z with
          | now_sec => fun x => match x with Some s => Z.max t (s * 1000) | None => t end
          | now_ms => fun x => match x with Some ms => Z.max t ms | None => t end
          | sleep q => fun _ => t + Z.max 0 (Qfloor (q * 1000))
          | _ => fun _ => t
          end
      | _ => fun _ => t
      end x
  end.

Definition clock_floor (h : list Obs) : Z := foldl clock_step 0 h.

Lemma clock_floor_v2_snoc h o : clock_floor (h ++ [o]) = clock_step (clock_floor h) o.
Proof. unfold clock_floor. by rewrite foldl_app. Qed.

Lemma clock_floor_nonneg h : 0 <= clock_floor h.
Proof.
  induction h as [|[c x] h IH] using rev_ind; [done|]. rewrite clock_floor_v2_snoc.
  destruct c; cbn; try done. destruct c; cbn; try done; try (destruct x; lia); lia.
Qed.

Definition asks_refund (o : Obs) : bool :=
  match obs_call o with common (can_refund_htlc _ _) => true | _ => false end.

Definition refund_asks (h : list Obs) : nat := length (List.filter asks_refund h).

Lemma refund_asks_v2_snoc h o :
  refund_asks (h ++ [o]) = (refund_asks h + if asks_refund o then 1 else 0)%nat.
Proof.
  unfold refund_asks. rewrite List.filter_app, length_app. simpl. by destruct (asks_refund o).
Qed.

Section Fair.
  Variable fuel : nat.
  (** The number of queries after which a coin allows the refund, and a bound
      on the points in time (in seconds) that a machine waits for. *)
  Variable N : nat.
  Variable T : Z.

(** The seconds shown are those of the clock, rounded down. *)
Definition fair (h : list Obs) (c : Call) : answer c -> Prop :=
  match c return answer c -> Prop with
  | common c' =>
      match c' return Swap.answer c' -> Prop with
      | now_sec => fun x => 0 <= x < 2 ^ 62 /\ clock_floor h < x * 1000 + 1000
      | now_ms => fun x => 0 <= x < 2 ^ 62 /\ clock_floor h <= x
      | can_refund_htlc _ _ => fun x => (N <= refund_asks h)%nat -> x = Ok CanRefundNow
      | _ => fun _ => True
      end
  | _ => fun _ => True
  end.

Definition enough_fuel : Prop := 0 <= T < 2 ^ 61 /\ T + 100 < Z.of_nat fuel /\ (N < fuel)%nat.

Lemma recv_loop_v2_returns n h u k s t w :
  w * 1000 + 2000 <= clock_floor h + 1000 * Z.of_nat n -> (0 < n)%nat ->
  returns fair h (recv_loop_v2 n u k s t w).
Proof.
  revert h; induction n as [|n IH]; intros h Hn Hp; [lia|].
  cbn [recv_loop_v2]. intros [] _ x _. cbn [prog_bind]. destruct x as [x|]; [done|].
  intros now [Hb Hnow]. cbn [prog_bind]. rewrite !clock_floor_v2_snoc in Hnow.
  cbn [clock_step asked] in Hnow. change (Qfloor (1 * 1000)) with 1000 in Hnow.
  destruct (now >? w) eqn:Hw; [done|].
  apply IH; rewrite ?clock_floor_v2_snoc; cbn [clock_step asked];
    change (Qfloor (1 * 1000)) with 1000; lia.
Qed.

Lemma recv_v2_returns h u k t :
  0 <= t < 2 ^ 61 -> t + 95 < Z.of_nat fuel ->
  returns fair h (recv_swap_v2_msg fuel u k t).
Proof.
  intros Ht Hf started [Hs1 Hs2]. cbn [prog_bind].
  unfold BASIC_COMM_TIMEOUT. rewrite (wrap_id _ (90 + t)) by (unfold is_uint; lia).
  rewrite wrap_id by (unfold is_uint; lia).
  apply recv_loop_v2_returns; rewrite ?clock_floor_v2_snoc; cbn [clock_step asked]; lia.
Qed.

Lemma ensure_loop_returns n h s hash raw b u :
  u <= clock_floor h + 1000 * Z.of_nat n -> (0 < n)%nat ->
  returns fair h (ensure_loop n s hash raw b u SWAP_TX_VISIBILITY_POLL_SECS).
Proof.
  revert h b; induction n as [|n IH]; intros h b Hn Hp; [lia|].
  cbn [ensure_loop]. intros [x|e] _; [done|]. cbn [prog_bind]. apply returns_bind; [by destruct b|].
  intros tr [] Hr _ now [Hb Hnow]. cbn [prog_bind].
  assert (clock_floor ((h ++ [asked (get_tx_hex_by_hash s hash : Call) (Err e)]) ++ tr) = clock_floor h)
    as Hc.
  { destruct b; [destruct Hr as [-> _]; rewrite app_nil_r|destruct Hr as (x & ? & -> & -> & _)];
      rewrite !clock_floor_v2_snoc; done. }
  change (Qfloor (SWAP_TX_VISIBILITY_POLL_SECS * 1000)) with 1000.
  rewrite Hc in Hnow. unfold wait_until_ms. rewrite wrap_id by (unfold is_uint; lia).
  destruct (now + 1000 <? u) eqn:Hw; [|done]. intros [] _.
  assert (clock_floor h <= now) as Hle by done.
  apply IH; [|lia]. rewrite 2!clock_floor_v2_snoc, Hc. cbn [clock_step asked].
  change (Qfloor (SWAP_TX_VISIBILITY_POLL_SECS * 1000)) with 1000. lia.
Qed.

Lemma ensure_returns h s hash raw :
  31 <= Z.of_nat fuel ->
  returns fair h (ensure_tx_is_broadcasted fuel s hash raw SWAP_TX_VISIBILITY_GRACE_SECS
                    SWAP_TX_VISIBILITY_POLL_SECS).
Proof.
  intros Hf now [Hb Hnow]. cbn [prog_bind].
  change (Qfloor (SWAP_TX_VISIBILITY_GRACE_SECS * 1000)) with 30000.
  unfold wait_until_ms. rewrite wrap_id by (unfold is_uint; lia).
  apply ensure_loop_returns; rewrite ?clock_floor_v2_snoc; cbn; lia.
Qed.

Lemma refund_wait_returns n h s l :
  (N - refund_asks h < n)%nat -> returns fair h (wait_can_refund_v2 n s l).
Proof.
  revert h; induction n as [|n IH]; intros h Hn; [lia|].
  cbn [wait_can_refund_v2]. intros r Hr. cbn [prog_bind]. cbn [fair] in Hr.
  destruct r as [[|w]|e]; [done|..]; intros [] _; apply IH;
    rewrite !refund_asks_v2_snoc; cbn;
    (destruct (decide (N <= refund_asks h)%nat) as [Hle|Hle]; [by specialize (Hr Hle)|lia]).
Qed.

(** A program of the legacy protocol that returns whatever is answered. *)
Lemma lift_returns {A} h0 h (p : prog (@Swap.answer L) A) :
  returns (fun _ _ _ => True) h0 p -> returns fair h (lift p).
Proof.
  revert h0 h; induction p as [| | |c k IH]; intros h0 h Hp; cbn [lift returns]; try done.
  intros x _. by eapply IH, Hp.
Qed.

Lemma lock_returns h u : returns fair h (acquire_reentrancy_lock_impl u).
Proof.
  intros x _. destruct x as [[|]|e]; [done| |done]. intros ? _ y _. by destruct y as [[|]|e].
Qed.
End Fair.
End Env.

(** ** Walking through a handler *)

(** What a shared program of a handler asks. *)
Ltac polling_only :=
  first [ apply recv_polling | apply ensure_polling | apply refund_wait_polling | apply lift_polling ].

(** The calls of a handler. *)
Ltac walk_handler :=
  repeat lazymatch goal with
  | |- only _ (Ret _) => exact I
  | |- only _ (call _) => split; [done|by intros]
  | |- only _ (prog_bind (Ret _) _) => cbn [prog_bind]
  | |- only _ (prog_bind (call _) _) => apply only_bind; [split; [done|by intros]|intros ?]
  | |- only _ (prog_bind (match ?x with _ => _ end) _) => destruct x
  | |- only _ (prog_bind _ _) => apply only_bind; [|intros ?]
  | |- only _ (match ?x with _ => _ end) => destruct x
  | |- only _ _ => apply (only_weaken polling_call); [apply polling_handler|polling_only]
  end.

(** The postcondition of a shared program. *)
Ltac helper_wp :=
  first
    [ apply recv_wp | apply ensure_wp | apply refund_wait_wp
    | apply wp_helper; [|apply (only_weaken polling_call); [apply polling_helper|polling_only]] ].

(** One call or one branch at a time.  [free] shows that a call is allowed. *)
Ltac walk_wp free :=
  repeat lazymatch goal with
  | |- wp _ _ (Ret _) _ => cbn [wp]
  | |- wp _ _ (prog_bind (Ret _) _) _ => cbn [prog_bind]
  | |- wp _ _ (call _) _ => split; [free|intros ?; cbn [wp]]
  | |- wp _ _ (prog_bind (call _) _) _ => split; [free|intros ?; cbn [prog_bind]]
  | |- wp _ _ (prog_bind (if ?x then _ else _) _) _ => let Hx := fresh "Hx" in destruct x eqn:Hx
  | |- wp _ _ (prog_bind _ _) _ =>
      let h := fresh "h" in let r := fresh "r" in let Hpre := fresh "Hpre" in
      let Hq := fresh "Hq" in
      apply wp_bind; eapply wp_mono; [intros h r Hpre Hq|helper_wp; free]
  | |- wp _ _ (match ?x with _ => _ end) _ => let Hx := fresh "Hx" in destruct x eqn:Hx
  end.

(** A history is longer than another one, or contains an observation. *)
Ltac longer :=
  solve [repeat lazymatch goal with
  | Hp : ?x `prefix_of` ?h |- ?x `prefix_of` ?h => exact Hp
  | |- ?h `prefix_of` ?h => reflexivity
  | |- _ `prefix_of` _ ++ _ => apply prefix_app_r
  | Hp : ?x `prefix_of` ?h |- _ `prefix_of` ?h => etrans; [clear Hp|exact Hp]
  end].

Ltac seen :=
  solve [repeat first
    [ eassumption
    | apply elem_of_app; right; apply list_elem_of_singleton; reflexivity
    | apply elem_of_app; left
    | match goal with Hp : _ `prefix_of` ?h |- _ ∈ ?h => eapply elem_of_longer; [clear Hp|exact Hp] end ]].

(** Walks through a program of a [fair] environment; [tac] discharges the side
    conditions of the loops. *)
Ltac walk_returns_v2 tac :=
  repeat lazymatch goal with
  | |- returns _ _ (Ret _) => exact I
  | |- returns _ _ (call _) => intros ? ?; exact I
  | |- returns _ _ (prog_bind (Ret _) _) => cbn [prog_bind]
  | |- returns _ _ (prog_bind (call _) _) => intros ? ?; cbn [prog_bind]
  | |- returns _ _ (recv_swap_v2_msg ?fuel _ _ _) => apply (recv_v2_returns fuel); tac
  | |- returns _ _ (ensure_tx_is_broadcasted ?fuel _ _ _ _ _) => apply (ensure_returns fuel); tac
  | |- returns _ _ (wait_can_refund_v2 _ _ _) => apply refund_wait_returns; tac
  | |- returns _ _ (acquire_reentrancy_lock_impl _) => apply lock_returns
  | |- returns _ _ (prog_bind _ _) => apply returns_bind; [|intros ? ? ? ?]
  | |- returns _ _ (match ?x with _ => _ end) => destruct x
  end.
