(* ===== verification/MakerV2Props.v ===== *)
(** * The maker of the second protocol: recreation, storage and path

    A machine recreated from its last event ([maker_v2_recreate_last]), the laws of the
    machine that StateMachine.v asks for ([maker_lawful]), and the relation of
    consecutive events ([next_event]) that every handler respects. *)

From S2P Require Import Prelude MmNumber DexFee Effects Swap StateMachine SwapV2 SwapV2Env MakerSwapV2.
From S2P Require MakerSwap.

Open Scope Z_scope.

Section Props.
  Context `{SecretHasher} `{DecimalConv}.
  Variables MC TC : CoinV2.
  Context `{!LawfulCoin MC} `{!LawfulCoin TC}.
  Variable fuel : nat.

#[local] Instance machine : StorableStateMachine _ _ _ _ _ := maker_machine MC TC fuel.
  Local Notation State := (MakerState MC TC).
  Local Notation M :=
    (prog (@answer_v2 MC TC MakerSwap.MakerSwapEvent MakerSwapDbRepr Event.MakerSwapEvent)).

(** ** Recreation *)

(** What is lost of a state that is stored and restored: the swap contracts
    of the other side. *)
Definition forget_contracts (n : NegotiationData MC TC) : NegotiationData MC TC :=
  mkNegotiation MC TC (taker_payment_locktime _ _ n) (taker_funding_locktime _ _ n)
    (maker_coin_htlc_pub_from_taker _ _ n) (taker_coin_htlc_pub_from_taker _ _ n) None None
    (taker_secret_hash _ _ n).

Definition forget (s : State) : State :=
  match s with
  | WaitingForTakerFunding _ _ b1 b2 n fee => WaitingForTakerFunding _ _ b1 b2 (forget_contracts n) fee
  | TakerFundingReceived _ _ b1 b2 n t fee => TakerFundingReceived _ _ b1 b2 (forget_contracts n) t fee
  | MakerPaymentSentFundingSpendGenerated _ _ b1 b2 n t p mp =>
      MakerPaymentSentFundingSpendGenerated _ _ b1 b2 (forget_contracts n) t p mp
  | MakerPaymentRefundRequired _ _ b1 b2 n mp reason =>
      MakerPaymentRefundRequired _ _ b1 b2 (forget_contracts n) mp reason
  | TakerPaymentReceived _ _ b1 b2 mp tp n =>
      TakerPaymentReceived _ _ b1 b2 mp tp (forget_contracts n)
  | TakerPaymentReceivedAndPreimageValidationSkipped _ _ b1 b2 mp tp n =>
      TakerPaymentReceivedAndPreimageValidationSkipped _ _ b1 b2 mp tp (forget_contracts n)
  | TakerPaymentSpent _ _ b1 b2 mp tp sp n =>
      TakerPaymentSpent _ _ b1 b2 mp tp sp (forget_contracts n)
  | _ => s
  end.

(** Why a swap that has ended is not recreated. *)
Definition ended (s : State) : option SwapRecreateError :=
  match s with
  | Aborted _ _ _ => Some SwapAborted
  | Completed _ _ => Some SwapCompleted
  | MakerPaymentRefunded _ _ _ _ _ => Some SwapFinishedWithRefund
  | _ => None
  end.

Lemma maker_v2_from_to_stored n :
  from_stored_data MC TC (to_stored_data MC TC n) = Ok (forget_contracts n).
Proof. unfold from_stored_data, parsed. cbn. by rewrite !parse_pubkey_bytes. Qed.

Lemma maker_v2_recreate_get_event s :
  recreate_state MC TC (get_event MC TC s) =
    match ended s with Some e => Err e | None => Ok (forget s) end.
Proof.
  destruct s; cbn [get_event recreate_state]; rewrite ?maker_v2_from_to_stored; unfold parsed; cbn;
    rewrite ?parse_tx_hex, ?parse_preimage_bytes, ?parse_signature_bytes; try done.
  by destruct funding_spend_preimage.
Qed.

(** The fields that a recreated machine shares with the one that was stored:
    all but the topic, which is that of the uuid, and the two flags. *)
Definition recreated (m : MakerSwapStateMachine) : MakerSwapStateMachine :=
  mkMachine (maker_volume m) (secret m) (secret_hash_algo m) (started_at m) (lock_duration m)
    (taker_volume m) (taker_premium m) (conf_settings m) (uuid m) (swap_v2_topic (uuid m))
    (p2p_keypair m) (taker_p2p_pubkey m) false true (swap_version m).

Lemma maker_v2_stored_events evs r :
  r_events (foldl (fun r e => add_event e r) r evs) = r_events r ++ evs /\
  machine_of_repr (r_uuid r) (foldl (fun r e => add_event e r) r evs) = machine_of_repr (r_uuid r) r.
Proof.
  revert r; induction evs as [|e evs IH]; intros r; [by rewrite app_nil_r|]. cbn [foldl].
  destruct (IH (add_event e r)) as [-> Hm]. destruct r. cbn in *. by rewrite <- app_assoc.
Qed.

Lemma maker_v2_recreate_events m evs :
  recreate MC TC m evs =
    match last evs with
    | None => Err ReprEventsEmpty
    | Some e => (let? s := recreate_state MC TC e in Ok (recreated m, s))%result
    end.
Proof.
  unfold recreate, recreate_machine. destruct (maker_v2_stored_events evs (to_db_repr MC TC m)) as [-> Hm].
  cbn [r_events to_db_repr app]. cbn [r_uuid to_db_repr] in Hm. by rewrite Hm.
Qed.

Lemma maker_v2_recreate_last m evs s :
  last evs = Some (get_event MC TC s) ->
  recreate MC TC m evs =
    match ended s with Some e => Err e | None => Ok (recreated m, forget s) end.
Proof. intros Hl. rewrite maker_v2_recreate_events, Hl, maker_v2_recreate_get_event. by destruct (ended s). Qed.

Lemma maker_v2_recreate_ok m evs m' s :
  recreate MC TC m evs = Ok (m', s) ->
  m' = recreated m /\
  exists e, last evs = Some e /\ forall s0, e = get_event MC TC s0 -> ended s0 = None /\ s = forget s0.
Proof.
  rewrite maker_v2_recreate_events. destruct (last evs) as [e|]; [|done]. intros Hr. split.
  - destruct (recreate_state _ _ e); by simplify_eq/=.
  - exists e. split; [done|]. intros s0 ->. rewrite maker_v2_recreate_get_event in Hr.
    destruct (ended s0); by simplify_eq/=.
Qed.

(** ** Storage *)

Lemma funding_spend_loop_calls n w b1 b2 neg t mp :
  only handler_call (funding_spend_loop MC TC n w b1 b2 neg t mp).
Proof.
  induction n as [|n IH]; [done|]. cbn [funding_spend_loop]. unfold refund_required.
  walk_handler; apply IH.
Qed.

Lemma maker_v2_handle_calls m s : only handler_call (handle MC TC fuel m s).
Proof.
  destruct s; cbn [handle];
    unfold initialized_on_changed, waiting_for_taker_funding_on_changed,
      taker_funding_received_on_changed, maker_payment_sent_on_changed,
      refund_required_on_changed, taker_payment_received_on_changed, preimage_skipped_on_changed,
      taker_payment_spent_on_changed, funding_gate, taker_payment_confirmed, spend_result,
      refund_result, refund_required, broadcast, abort;
    walk_handler; apply funding_spend_loop_calls.
Qed.

Lemma maker_v2_initialize_calls m : only handler_call (MakerSwapV2.initialize MC TC m).
Proof. unfold MakerSwapV2.initialize, abort, check_balance. walk_handler. Qed.

(** Around the handlers only helper calls are made. *)
Lemma maker_v2_start_helper m : only helper_call (on_start m).
Proof. apply on_start_only; [apply lock_helper|by split|by split|by split|apply init_context_helper]. Qed.

Lemma maker_v2_finished_helper m : only helper_call (on_finished m).
Proof. apply on_finished_only; [by split|apply clean_up_helper]. Qed.

Lemma maker_v2_event_helper m e : only helper_call (MakerSwapV2.on_event MC TC m e).
Proof. by destruct e. Qed.

Lemma maker_v2_kickstart_helper m e : only helper_call (MakerSwapV2.on_kickstart_event MC TC m e).
Proof. by destruct e. Qed.

#[export] Instance maker_lawful : LawfulMachine machine journal_v2.
Proof.
  split; intros m; intros.
  - apply (only_weaken handler_call), maker_v2_initialize_calls. apply handler_stores_nothing.
  - apply (only_weaken handler_call), maker_v2_handle_calls. apply handler_stores_nothing.
  - apply (only_weaken helper_call), lock_helper. apply helper_stores_nothing.
  - by split.
  - by split.
  - by split.
  - by split.
  - done.
  - done.
  - apply (only_weaken helper_call), maker_v2_event_helper. apply helper_stores_nothing.
  - apply (only_weaken helper_call), maker_v2_kickstart_helper. apply helper_stores_nothing.
  - by apply (store_traces (uuid m) e tr evs).
  - by apply (store_runs (uuid m) e tr u).
Qed.

(** ** The path of the events *)

Definition forget_stored (n : StoredNegotiationData) : StoredNegotiationData :=
  mkStoredNegotiation (sn_taker_payment_locktime n) (sn_taker_funding_locktime n)
    (sn_maker_coin_htlc_pub_from_taker n) (sn_taker_coin_htlc_pub_from_taker n) None None
    (sn_taker_secret_hash n).

(** The start blocks and the negotiated terms do not change. *)
Definition same_swap (b1 b2 : Z) (n : StoredNegotiationData) (b1' b2' : Z)
  (n' : StoredNegotiationData) : Prop :=
  b1' = b1 /\ b2' = b2 /\ forget_stored n' = forget_stored n.

(** [TransitionFrom], with the data that the next state takes over. *)
Definition next_event (prev : option Event.MakerSwapEvent) (e : Event.MakerSwapEvent) : Prop :=
  match prev, e with
  | None, Event.Initialized _ _ _ _ => True
  | None, Event.Aborted _ => True
  | Some (Event.Initialized b1 b2 fee _), Event.WaitingForTakerFunding b1' b2' _ fee' =>
      b1' = b1 /\ b2' = b2 /\ fee' = fee
  | Some (Event.WaitingForTakerFunding b1 b2 n fee), Event.TakerFundingReceived b1' b2' n' _ fee' =>
      same_swap b1 b2 n b1' b2' n' /\ fee' = fee
  | Some (Event.TakerFundingReceived b1 b2 n t _),
    Event.MakerPaymentSentFundingSpendGenerated b1' b2' n' _ t' _ =>
      same_swap b1 b2 n b1' b2' n' /\ t' = t
  | Some (Event.Initialized _ _ _ _ | Event.WaitingForTakerFunding _ _ _ _
         | Event.TakerFundingReceived _ _ _ _ _), Event.Aborted _ => True
  | Some (Event.MakerPaymentSentFundingSpendGenerated b1 b2 n mp _ _),
    (Event.TakerPaymentReceived b1' b2' n' mp' _
    | Event.TakerPaymentReceivedAndPreimageValidationSkipped b1' b2' n' mp' _) =>
      same_swap b1 b2 n b1' b2' n' /\ mp' = mp
  | Some (Event.TakerPaymentReceived b1 b2 n mp tp
         | Event.TakerPaymentReceivedAndPreimageValidationSkipped b1 b2 n mp tp),
    Event.TakerPaymentSpent b1' b2' mp' tp' _ n' =>
      same_swap b1 b2 n b1' b2' n' /\ mp' = mp /\ tp' = tp
  | Some (Event.MakerPaymentSentFundingSpendGenerated b1 b2 n mp _ _
         | Event.TakerPaymentReceived b1 b2 n mp _
         | Event.TakerPaymentReceivedAndPreimageValidationSkipped b1 b2 n mp _
         | Event.TakerPaymentSpent b1 b2 mp _ _ n),
    Event.MakerPaymentRefundRequired b1' b2' n' mp' _ =>
      same_swap b1 b2 n b1' b2' n' /\ mp' = mp
  | Some (Event.TakerPaymentSpent _ _ _ _ _ _), Event.Completed => True
  | Some (Event.MakerPaymentRefundRequired _ _ _ mp reason),
    Event.MakerPaymentRefunded mp' _ reason' => mp' = mp /\ reason' = reason
  | Some (Event.MakerPaymentRefundRequired _ _ _ _ _),
    Event.Aborted (MakerPaymentRefundFailed _) => True
  | _, _ => False
  end.

Lemma maker_v2_initialize_next m tr s :
  runs (MakerSwapV2.initialize MC TC m) tr (change_state s) -> next_event None (get_event MC TC s).
Proof. unfold MakerSwapV2.initialize, abort. intros Hr. run_all Hr. Qed.

Lemma funding_spend_loop_next n w b1 b2 neg t p mp tr s :
  runs (funding_spend_loop MC TC n w b1 b2 neg t mp) tr (change_state s) ->
  next_event (Some (get_event MC TC (MakerPaymentSentFundingSpendGenerated _ _ b1 b2 neg t p mp)))
    (get_event MC TC s).
Proof.
  revert tr; induction n as [|n IH]; intros tr; [done|]. cbn [funding_spend_loop].
  unfold refund_required. intros Hr. run_all Hr; by eapply IH.
Qed.

Lemma maker_v2_handle_next m s tr s' :
  runs (handle MC TC fuel m s) tr (change_state s') ->
  next_event (Some (get_event MC TC s)) (get_event MC TC s').
Proof.
  destruct s; cbn [handle];
    unfold initialized_on_changed, waiting_for_taker_funding_on_changed,
      taker_funding_received_on_changed, maker_payment_sent_on_changed,
      refund_required_on_changed, taker_payment_received_on_changed, preimage_skipped_on_changed,
      taker_payment_spent_on_changed, spend_result, refund_result, refund_required, abort;
    intros Hr; run_all Hr.
  all: by eapply funding_spend_loop_next.
Qed.

Lemma maker_v2_recreate_next m evs m' s :
  recreate MC TC m evs = Ok (m', s) ->
  exists e, last evs = Some e /\ forall s0 e', e = get_event MC TC s0 ->
    next_event (Some (get_event MC TC s)) e' -> next_event (Some e) e'.
Proof.
  intros (_ & e & Hl & He)%maker_v2_recreate_ok. exists e. split; [done|]. intros s0 e' ->.
  destruct (He s0 eq_refl) as [Hend ->]. by destruct s0, e'.
Qed.

Lemma funding_spend_loop_live n w b1 b2 neg t mp tr :
  ~ runs (funding_spend_loop MC TC n w b1 b2 neg t mp) tr last_state.
Proof.
  revert tr; induction n as [|n IH]; intros tr; [by intros []|]. cbn [funding_spend_loop].
  unfold refund_required. intros Hr. run_all Hr; by eapply IH.
Qed.

(** Only the last states have no next state. *)
Lemma maker_v2_handle_live m s tr : runs (handle MC TC fuel m s) tr last_state -> is_Some (ended s).
Proof.
  destruct s; cbn [handle ended];
    unfold initialized_on_changed, waiting_for_taker_funding_on_changed,
      taker_funding_received_on_changed, maker_payment_sent_on_changed,
      refund_required_on_changed, taker_payment_received_on_changed, preimage_skipped_on_changed,
      taker_payment_spent_on_changed, spend_result, refund_result, refund_required, abort;
    intros Hr; try (by eexists); run_all Hr.
  all: by edestruct funding_spend_loop_live.
Qed.

Lemma maker_v2_initialize_live m tr : ~ runs (MakerSwapV2.initialize MC TC m) tr last_state.
Proof. unfold MakerSwapV2.initialize, abort. intros Hr. run_all Hr. Qed.

Lemma maker_v2_recreate_live m evs m' s tr :
  recreate MC TC m evs = Ok (m', s) -> ~ runs (handle MC TC fuel m' s) tr last_state.
Proof.
  rewrite maker_v2_recreate_events. destruct (last evs) as [e|]; [|done]. intros Hr Hl%maker_v2_handle_live.
  destruct e; cbn in Hr; unfold result_bind in Hr; repeat case_match; simplify_eq; by destruct Hl.
Qed.

(** ** Running on after a restart *)

Definition forget_handled (r : Handled State) : Handled State :=
  match r with
  | change_state s => change_state (forget s)
  | last_state => last_state
  end.

Definition same_but_contracts (r r' : Handled State) : Prop := forget_handled r = forget_handled r'.

Lemma funding_spend_loop_sim n w b1 b2 neg t mp :
  prog_sim same_but_contracts (funding_spend_loop MC TC n w b1 b2 neg t mp)
    (funding_spend_loop MC TC n w b1 b2 (forget_contracts neg) t mp).
Proof.
  induction n as [|n IH]; [constructor|]. cbn [funding_spend_loop]. unfold refund_required.
  walk_sim; first [apply IH|done].
Qed.

(** The handler does not look at the contracts that were lost. *)
Lemma maker_v2_handle_forget m s :
  prog_sim same_but_contracts (handle MC TC fuel m s) (handle MC TC fuel m (forget s)).
Proof.
  destruct s; cbn [handle forget];
    unfold initialized_on_changed, waiting_for_taker_funding_on_changed,
      taker_funding_received_on_changed, maker_payment_sent_on_changed,
      refund_required_on_changed, taker_payment_received_on_changed, preimage_skipped_on_changed,
      taker_payment_spent_on_changed, spend_result, refund_result, refund_required, abort;
    walk_sim; first [apply funding_spend_loop_sim|done].
Qed.

End Props.
