(* ===== verification/TakerV2Props.v ===== *)
(** * The taker of the second protocol: recreation, storage and path

    A machine recreated from its last event ([taker_v2_recreate_last]), the laws of the
    machine that StateMachine.v asks for ([taker_lawful]), and the relation of
    consecutive events ([next_event]) that every handler respects. *)

From S2P Require Import Prelude MmNumber DexFee Effects Swap StateMachine SwapV2 SwapV2Env TakerSwapV2.
From S2P Require TakerSwap.

Open Scope Z_scope.

Section Props.
  Context `{SecretHasher} `{DecimalConv}.
  Variables MC TC : CoinV2.
  Context `{!LawfulCoin MC} `{!LawfulCoin TC}.
  Variable fuel : nat.

#[local] Instance machine : StorableStateMachine _ _ _ _ _ := taker_machine MC TC fuel.
  Local Notation State := (TakerState MC TC).

(** ** Recreation *)

(** What is lost of a state that is stored and restored: the swap contracts
    of the other side. *)
Definition forget_contracts (n : NegotiationData MC TC) : NegotiationData MC TC :=
  mkNegotiation MC TC (maker_secret_hash _ _ n) (maker_payment_locktime _ _ n)
    (maker_coin_htlc_pub_from_maker _ _ n) (taker_coin_htlc_pub_from_maker _ _ n) None None
    (taker_coin_maker_address _ _ n).

Definition forget (s : State) : State :=
  match s with
  | Negotiated _ _ b1 b2 n f1 f2 => Negotiated _ _ b1 b2 (forget_contracts n) f1 f2
  | TakerFundingSent _ _ b1 b2 t n => TakerFundingSent _ _ b1 b2 t (forget_contracts n)
  | TakerFundingRefundRequired _ _ b1 b2 t n reason =>
      TakerFundingRefundRequired _ _ b1 b2 t (forget_contracts n) reason
  | MakerPaymentAndFundingSpendPreimgReceived _ _ b1 b2 n t p mp =>
      MakerPaymentAndFundingSpendPreimgReceived _ _ b1 b2 (forget_contracts n) t p mp
  | TakerPaymentSent _ _ b1 b2 tp mp n => TakerPaymentSent _ _ b1 b2 tp mp (forget_contracts n)
  | TakerPaymentSentAndPreimageSendingSkipped _ _ b1 b2 tp mp n =>
      TakerPaymentSentAndPreimageSendingSkipped _ _ b1 b2 tp mp (forget_contracts n)
  | TakerPaymentRefundRequired _ _ tp n reason =>
      TakerPaymentRefundRequired _ _ tp (forget_contracts n) reason
  | MakerPaymentConfirmed _ _ b1 b2 mp t p n =>
      MakerPaymentConfirmed _ _ b1 b2 mp t p (forget_contracts n)
  | TakerPaymentSpent _ _ b1 b2 mp tp ts n =>
      TakerPaymentSpent _ _ b1 b2 mp tp ts (forget_contracts n)
  | MakerPaymentSpent _ _ b1 b2 mp tp ts ms n =>
      MakerPaymentSpent _ _ b1 b2 mp tp ts ms (forget_contracts n)
  | _ => s
  end.

(** Why a swap that has ended is not recreated. *)
Definition ended (s : State) : option SwapRecreateError :=
  match s with
  | Aborted _ _ _ => Some SwapAborted
  | Completed _ _ => Some SwapCompleted
  | TakerFundingRefunded _ _ _ _ _ | TakerPaymentRefunded _ _ _ _ _ => Some SwapFinishedWithRefund
  | _ => None
  end.

Lemma taker_v2_from_to_stored n :
  from_stored_data MC TC (to_stored_data MC TC n) = Ok (forget_contracts n).
Proof.
  unfold from_stored_data, parsed. cbn. by rewrite !parse_pubkey_bytes, parse_address_string.
Qed.

Lemma taker_v2_recreate_get_event s :
  recreate_state MC TC (get_event MC TC s) =
    match ended s with Some e => Err e | None => Ok (forget s) end.
Proof.
  destruct s; cbn [get_event recreate_state]; rewrite ?taker_v2_from_to_stored; unfold parsed; cbn;
    rewrite ?parse_tx_hex, ?parse_preimage_bytes, ?parse_signature_bytes; try done.
  all: by destruct funding_spend_preimage.
Qed.

(** The fields that a recreated machine shares with the one that was stored:
    all but the topic, which is that of the uuid, and the two flags. *)
Definition recreated (m : TakerSwapStateMachine) : TakerSwapStateMachine :=
  mkMachine (started_at m) (lock_duration m) (maker_volume m) (taker_volume m) (taker_premium m)
    (secret_hash_algo m) (conf_settings m) (uuid m) (swap_v2_topic (uuid m)) (p2p_keypair m)
    (taker_secret m) (maker_p2p_pubkey m) true true (swap_version m).

Lemma taker_v2_stored_events evs r :
  r_events (foldl (fun r e => add_event e r) r evs) = r_events r ++ evs /\
  machine_of_repr (r_uuid r) (foldl (fun r e => add_event e r) r evs) = machine_of_repr (r_uuid r) r.
Proof.
  revert r; induction evs as [|e evs IH]; intros r; [by rewrite app_nil_r|]. cbn [foldl].
  destruct (IH (add_event e r)) as [-> Hm]. destruct r. cbn in *. by rewrite <- app_assoc.
Qed.

Lemma taker_v2_recreate_events m evs :
  recreate MC TC m evs =
    match last evs with
    | None => Err ReprEventsEmpty
    | Some e => (let? s := recreate_state MC TC e in Ok (recreated m, s))%result
    end.
Proof.
  unfold recreate, recreate_machine. destruct (taker_v2_stored_events evs (to_db_repr MC TC m)) as [-> Hm].
  cbn [r_events to_db_repr app]. cbn [r_uuid to_db_repr] in Hm. by rewrite Hm.
Qed.

Lemma taker_v2_recreate_last m evs s :
  last evs = Some (get_event MC TC s) ->
  recreate MC TC m evs =
    match ended s with Some e => Err e | None => Ok (recreated m, forget s) end.
Proof. intros Hl. rewrite taker_v2_recreate_events, Hl, taker_v2_recreate_get_event. by destruct (ended s). Qed.

Lemma taker_v2_recreate_ok m evs m' s :
  recreate MC TC m evs = Ok (m', s) ->
  m' = recreated m /\
  exists e, last evs = Some e /\ forall s0, e = get_event MC TC s0 -> ended s0 = None /\ s = forget s0.
Proof.
  rewrite taker_v2_recreate_events. destruct (last evs) as [e|]; [|done]. intros Hr. split.
  - destruct (recreate_state _ _ e); by simplify_eq/=.
  - exists e. split; [done|]. intros s0 ->. rewrite taker_v2_recreate_get_event in Hr.
    destruct (ended s0); by simplify_eq/=.
Qed.

(** ** Storage *)

Lemma taker_v2_handle_calls m s : only handler_call (handle MC TC fuel m s).
Proof.
  destruct s; cbn [handle];
    unfold initialized_on_changed, negotiated_on_changed, taker_funding_sent_on_changed,
      funding_refund_on_changed, maker_payment_received_on_changed, taker_payment_sent_on_changed,
      preimage_skipped_on_changed, payment_refund_on_changed, taker_payment_spent_on_changed,
      maker_payment_spent_on_changed, spend_funding, await_spend, late_confirmation,
      maker_payment_confirmed, funding_refund_required, payment_refund_required, broadcast, abort;
    walk_handler.
Qed.

Lemma taker_v2_initialize_calls m : only handler_call (TakerSwapV2.initialize MC TC m).
Proof. unfold TakerSwapV2.initialize, abort, check_balance. walk_handler. Qed.

(** Around the handlers only helper calls are made. *)
Lemma taker_v2_start_helper m : only helper_call (on_start m).
Proof. apply on_start_only; [apply lock_helper|by split|by split|by split|apply init_context_helper]. Qed.

Lemma taker_v2_finished_helper m : only helper_call (on_finished m).
Proof. apply on_finished_only; [by split|apply clean_up_helper]. Qed.

Lemma taker_v2_event_helper m e : only helper_call (TakerSwapV2.on_event MC TC m e).
Proof. by destruct e. Qed.

Lemma taker_v2_kickstart_helper m e : only helper_call (TakerSwapV2.on_kickstart_event MC TC m e).
Proof. by destruct e. Qed.

#[export] Instance taker_lawful : LawfulMachine machine journal_v2.
Proof.
  split; intros m; intros.
  - apply (only_weaken handler_call), taker_v2_initialize_calls. apply handler_stores_nothing.
  - apply (only_weaken handler_call), taker_v2_handle_calls. apply handler_stores_nothing.
  - apply (only_weaken helper_call), lock_helper. apply helper_stores_nothing.
  - by split.
  - by split.
  - by split.
  - by split.
  - done.
  - done.
  - apply (only_weaken helper_call), taker_v2_event_helper. apply helper_stores_nothing.
  - apply (only_weaken helper_call), taker_v2_kickstart_helper. apply helper_stores_nothing.
  - by apply (store_traces (uuid m) e tr evs).
  - by apply (store_runs (uuid m) e tr u).
Qed.

(** ** The path of the events *)

Definition forget_stored (n : StoredNegotiationData) : StoredNegotiationData :=
  mkStoredNegotiation (sn_maker_payment_locktime n) (sn_maker_secret_hash n)
    (sn_taker_coin_maker_address n) (sn_maker_coin_htlc_pub_from_maker n)
    (sn_taker_coin_htlc_pub_from_maker n) None None.

(** The start blocks and the negotiated terms do not change. *)
Definition same_swap (b1 b2 : Z) (n : StoredNegotiationData) (b1' b2' : Z)
  (n' : StoredNegotiationData) : Prop :=
  b1' = b1 /\ b2' = b2 /\ forget_stored n' = forget_stored n.

(** [TransitionFrom], with the data that the next state takes over. *)
Definition next_event (prev : option Event.TakerSwapEvent) (e : Event.TakerSwapEvent) : Prop :=
  match prev, e with
  | None, Event.Initialized _ _ _ _ => True
  | None, Event.Aborted _ => True
  | Some (Event.Initialized b1 b2 f1 f2), Event.Negotiated b1' b2' _ f1' f2' =>
      b1' = b1 /\ b2' = b2 /\ f1' = f1 /\ f2' = f2
  | Some (Event.Negotiated b1 b2 n _ _), Event.TakerFundingSent b1' b2' n' _ =>
      same_swap b1 b2 n b1' b2' n'
  | Some (Event.Initialized _ _ _ _ | Event.Negotiated _ _ _ _ _), Event.Aborted _ => True
  | Some (Event.TakerFundingSent b1 b2 n t),
    Event.MakerPaymentAndFundingSpendPreimgReceived b1' b2' n' t' _ _ =>
      same_swap b1 b2 n b1' b2' n' /\ t' = t
  | Some (Event.MakerPaymentAndFundingSpendPreimgReceived b1 b2 n t p mp),
    Event.MakerPaymentConfirmed b1' b2' mp' t' p' n' =>
      same_swap b1 b2 n b1' b2' n' /\ t' = t /\ p' = p /\ mp' = mp
  | Some (Event.TakerFundingSent b1 b2 n t
         | Event.MakerPaymentAndFundingSpendPreimgReceived b1 b2 n t _ _
         | Event.MakerPaymentConfirmed b1 b2 _ t _ n),
    Event.TakerFundingRefundRequired b1' b2' n' t' _ =>
      same_swap b1 b2 n b1' b2' n' /\ t' = t
  | Some (Event.MakerPaymentAndFundingSpendPreimgReceived b1 b2 n _ _ mp
         | Event.MakerPaymentConfirmed b1 b2 mp _ _ n),
    (Event.TakerPaymentSent b1' b2' _ mp' n'
    | Event.TakerPaymentSentAndPreimageSendingSkipped b1' b2' _ mp' n') =>
      same_swap b1 b2 n b1' b2' n' /\ mp' = mp
  | Some (Event.TakerPaymentSent b1 b2 tp mp n
         | Event.TakerPaymentSentAndPreimageSendingSkipped b1 b2 tp mp n),
    Event.TakerPaymentSpent b1' b2' mp' tp' _ n' =>
      same_swap b1 b2 n b1' b2' n' /\ mp' = mp /\ tp' = tp
  | Some (Event.TakerPaymentSpent b1 b2 mp tp ts n),
    Event.MakerPaymentSpent b1' b2' mp' tp' ts' _ n' =>
      same_swap b1 b2 n b1' b2' n' /\ mp' = mp /\ tp' = tp /\ ts' = ts
  | Some (Event.TakerPaymentSpent _ _ _ _ _ _),
    Event.Aborted (CouldNotExtractSecret _ | FailedToSpendMakerPayment _) => True
  | Some (Event.TakerPaymentSent _ _ tp _ n
         | Event.TakerPaymentSentAndPreimageSendingSkipped _ _ tp _ n
         | Event.MakerPaymentSpent _ _ _ tp _ _ n),
    Event.TakerPaymentRefundRequired tp' n' _ => forget_stored n' = forget_stored n /\ tp' = tp
  | Some (Event.MakerPaymentSpent _ _ _ _ _ _ _), Event.Completed => True
  | Some (Event.TakerFundingRefundRequired _ _ _ t reason),
    Event.TakerFundingRefunded t' _ reason' => t' = t /\ reason' = reason
  | Some (Event.TakerFundingRefundRequired _ _ _ _ _),
    Event.Aborted (TakerFundingRefundFailed _) => True
  | Some (Event.TakerPaymentRefundRequired tp _ reason),
    Event.TakerPaymentRefunded tp' _ reason' => tp' = tp /\ reason' = reason
  | Some (Event.TakerPaymentRefundRequired _ _ _), Event.Aborted (TakerPaymentRefundFailed _) => True
  | _, _ => False
  end.

Lemma taker_v2_initialize_next m tr s :
  runs (TakerSwapV2.initialize MC TC m) tr (change_state s) -> next_event None (get_event MC TC s).
Proof. unfold TakerSwapV2.initialize, abort. intros Hr. run_all Hr. Qed.

Lemma taker_v2_handle_next m s tr s' :
  runs (handle MC TC fuel m s) tr (change_state s') ->
  next_event (Some (get_event MC TC s)) (get_event MC TC s').
Proof.
  destruct s; cbn [handle];
    unfold initialized_on_changed, negotiated_on_changed, taker_funding_sent_on_changed,
      funding_refund_on_changed, maker_payment_received_on_changed, taker_payment_sent_on_changed,
      preimage_skipped_on_changed, payment_refund_on_changed, taker_payment_spent_on_changed,
      maker_payment_spent_on_changed, spend_funding, await_spend, funding_refund_required,
      payment_refund_required, abort;
    intros Hr; run_all Hr.
Qed.

Lemma taker_v2_recreate_next m evs m' s :
  recreate MC TC m evs = Ok (m', s) ->
  exists e, last evs = Some e /\ forall s0 e', e = get_event MC TC s0 ->
    next_event (Some (get_event MC TC s)) e' -> next_event (Some e) e'.
Proof.
  intros (_ & e & Hl & He)%taker_v2_recreate_ok. exists e. split; [done|]. intros s0 e' ->.
  destruct (He s0 eq_refl) as [Hend ->]. by destruct s0, e'.
Qed.

(** Only the last states have no next state. *)
Lemma taker_v2_handle_live m s tr : runs (handle MC TC fuel m s) tr last_state -> is_Some (ended s).
Proof.
  destruct s; cbn [handle ended];
    unfold initialized_on_changed, negotiated_on_changed, taker_funding_sent_on_changed,
      funding_refund_on_changed, maker_payment_received_on_changed, taker_payment_sent_on_changed,
      preimage_skipped_on_changed, payment_refund_on_changed, taker_payment_spent_on_changed,
      maker_payment_spent_on_changed, spend_funding, await_spend, funding_refund_required,
      payment_refund_required, abort;
    intros Hr; try (by eexists); run_all Hr.
Qed.

Lemma taker_v2_initialize_live m tr : ~ runs (TakerSwapV2.initialize MC TC m) tr last_state.
Proof. unfold TakerSwapV2.initialize, abort. intros Hr. run_all Hr. Qed.

Lemma taker_v2_recreate_live m evs m' s tr :
  recreate MC TC m evs = Ok (m', s) -> ~ runs (handle MC TC fuel m' s) tr last_state.
Proof.
  rewrite taker_v2_recreate_events. destruct (last evs) as [e|]; [|done]. intros Hr Hl%taker_v2_handle_live.
  destruct e; cbn in Hr; unfold result_bind in Hr; repeat case_match; simplify_eq; by destruct Hl.
Qed.

(** ** Running on after a restart *)

Definition forget_handled (r : Handled State) : Handled State :=
  match r with
  | change_state s => change_state (forget s)
  | last_state => last_state
  end.

Definition same_but_contracts (r r' : Handled State) : Prop := forget_handled r = forget_handled r'.

(** The handler does not look at the contracts that were lost. *)
Lemma taker_v2_handle_forget m s :
  prog_sim same_but_contracts (handle MC TC fuel m s) (handle MC TC fuel m (forget s)).
Proof.
  destruct s; cbn [handle forget];
    unfold initialized_on_changed, negotiated_on_changed, taker_funding_sent_on_changed,
      funding_refund_on_changed, maker_payment_received_on_changed, taker_payment_sent_on_changed,
      preimage_skipped_on_changed, payment_refund_on_changed, taker_payment_spent_on_changed,
      maker_payment_spent_on_changed, spend_funding, await_spend, funding_refund_required,
      payment_refund_required, abort;
    walk_sim; done.
Qed.

End Props.
