(* ===== verification/MakerV2Safety.v ===== *)
(** * Safety of the maker of the second protocol

    [good_call] says what must have happened before the calls that move money
    or reveal the secret, [supports] what the history shows when the machine
    is in a state; every handler keeps both, whatever is answered. *)

From S2P Require Import Prelude MmNumber DexFee Effects Swap StateMachine SwapV2 SwapV2Env MakerSwapV2 MakerV2Props.
From S2P Require MakerSwap.

Open Scope Z_scope.

Section Safety.
  Context `{SecretHasher} `{DecimalConv}.
  Variables MC TC : CoinV2.
  Context `{!LawfulCoin MC} `{!LawfulCoin TC}.
  Variable fuel : nat.
  (** The machine of the swap. *)
  Variable m0 : MakerSwapStateMachine.

#[local] Instance the_machine : StorableStateMachine _ _ _ _ _ := maker_machine MC TC fuel.
  Local Notation State := (MakerState MC TC).
  Local Notation Call := (CallV2 MC TC MakerSwap.MakerSwapEvent MakerSwapDbRepr Event.MakerSwapEvent).
  Local Notation answer := (@answer_v2 MC TC MakerSwap.MakerSwapEvent MakerSwapDbRepr Event.MakerSwapEvent).
  Local Notation Obs := (Obs answer).
  Local Notation got c x := (asked (answer := answer) c x) (only parsing).

(** ** What a history shows *)

(** The terms are those of a message of the taker that passed the checks. *)
Definition agreed (h : list Obs) (n : NegotiationData MC TC) : Prop :=
  exists d n', got (take_msg_v2 (uuid m0) KTakerNegotiation)
                   (Some (mkTakerNegotiation (Some (Continue d)))) ∈ h /\
    check_taker_data MC TC m0 d = Ok n' /\ forget_contracts MC TC n = forget_contracts MC TC n'.

(** The taker funding was validated and is on the network or confirmed. *)
Definition funded (h : list Obs) (n : NegotiationData MC TC) (t : CoinTx TC) : Prop :=
  got (validate_taker_funding (funding_validation_args MC TC m0 n t)) (Ok tt) ∈ h /\
  ((exists raw, got (get_tx_hex_by_hash TakerSide (tx_hash_as_bytes TC t)) (Ok raw) ∈ h) \/
   exists i, got (common (wait_for_confirmations TakerSide i)) (Ok tt) ∈ h /\
     cp_payment_tx i = coin_tx_hex TC t /\ 0 < cp_confirmations i).

Definition paid (h : list Obs) (n : NegotiationData MC TC) (p : CoinTx MC) : Prop :=
  got (send_maker_payment_v2 (send_payment_args MC TC m0 n)) (Ok p) ∈ h.

(** The taker payment spends a funding that was validated. *)
Definition taken_over (h : list Obs) (n : NegotiationData MC TC) (tp : CoinTx TC) : Prop :=
  exists t b, funded h n t /\
    got (search_for_taker_funding_spend t b (taker_secret_hash _ _ n))
        (Ok (Some (TransferredToTakerPayment tp))) ∈ h.

Definition confirmed (h : list Obs) (tp : CoinTx TC) : Prop :=
  got (common (wait_for_confirmations TakerSide
    (mkConfirm (coin_tx_hex TC tp) (taker_coin_confs (conf_settings m0))
       (taker_coin_nota (conf_settings m0)) (taker_payment_conf_timeout m0) 10))) (Ok tt) ∈ h.

(** The secret of the taker is known from a refund of the funding. *)
Definition reason_shown (h : list Obs) (n : NegotiationData MC TC) (r : MakerPaymentRefundReason)
  : Prop :=
  forall s, r = TakerFundingReclaimedSecret s ->
    exists t b tx, got (search_for_taker_funding_spend t b (taker_secret_hash _ _ n))
                       (Ok (Some (RefundedSecret tx s))) ∈ h.

Definition supports (h : list Obs) (s : State) : Prop :=
  match s with
  | WaitingForTakerFunding _ _ _ _ n _ | TakerFundingReceived _ _ _ _ n _ _ => agreed h n
  | MakerPaymentSentFundingSpendGenerated _ _ _ _ n t _ p => agreed h n /\ funded h n t /\ paid h n p
  | MakerPaymentRefundRequired _ _ _ _ n p reason => agreed h n /\ paid h n p /\ reason_shown h n reason
  | TakerPaymentReceived _ _ _ _ p tp n => agreed h n /\ paid h n p /\ taken_over h n tp
  | TakerPaymentReceivedAndPreimageValidationSkipped _ _ _ _ p tp n =>
      agreed h n /\ paid h n p /\ taken_over h n tp /\ skip_taker_payment_spend_preimage TC = true
  | TakerPaymentSpent _ _ _ _ p _ _ n => agreed h n /\ paid h n p
  | _ => True
  end.

(** ** The calls that are allowed *)

Definition good_call (h : list Obs) (c : Call) : Prop :=
  match c with
  | send_maker_payment_v2 a =>
      exists n t p, a = send_payment_args MC TC m0 n /\ agreed h n /\ funded h n t /\
        got (gen_taker_funding_spend_preimage (gen_funding_spend_args MC TC m0 n t) (unique_data m0))
            (Ok p) ∈ h
  | sign_and_broadcast_taker_payment_spend p a sec _ =>
      exists n tp addr, a = payment_spend_args MC TC m0 n tp addr /\ sec = secret m0 /\
        agreed h n /\ taken_over h n tp /\ confirmed h tp /\
        match p with
        | Some pre => got (validate_taker_payment_spend_preimage a pre) (Ok tt) ∈ h
        | None => skip_taker_payment_spend_preimage TC = true
        end
  | refund_maker_payment_v2_timelock a =>
      exists n p, a = refund_timelock_args MC TC m0 n p /\ agreed h n /\ paid h n p /\
        got (common (can_refund_htlc MakerSide (maker_payment_locktime m0))) (Ok CanRefundNow) ∈ h
  | refund_maker_payment_v2_secret a =>
      exists n p s, a = refund_secret_args MC TC m0 n p s /\ agreed h n /\ paid h n p /\
        exists t b tx, got (search_for_taker_funding_spend t b (taker_secret_hash _ _ n))
                           (Ok (Some (RefundedSecret tx s))) ∈ h
  | store_swap_event _ e => exists s, e = get_event MC TC s /\ supports h s
  | send_taker_funding _ | refund_taker_funding_secret _ | sign_and_send_taker_funding_spend _ _ _
  | refund_combined_taker_payment _ | spend_maker_payment_v2 _ => False
  | _ => True
  end.

(** The machines of the swap: the one it was started with and the recreated
    ones, which differ in the topic and the two flags. *)
Definition wf (m : MakerSwapStateMachine) : Prop :=
  exists tp f1 f2, m = mkMachine (maker_volume m0) (secret m0) (secret_hash_algo m0) (started_at m0)
    (lock_duration m0) (taker_volume m0) (taker_premium m0) (conf_settings m0) (uuid m0) tp
    (p2p_keypair m0) (taker_p2p_pubkey m0) f1 f2 (swap_version m0).

Lemma maker_v2_wf_self : wf m0.
Proof.
  exists (p2p_topic m0), (require_taker_funding_confirm_before_maker_payment m0),
    (require_taker_payment_spend_confirm m0). by destruct m0.
Qed.

(** ** More history shows more *)

Lemma maker_v2_agreed_mono h h' n : h `prefix_of` h' -> agreed h n -> agreed h' n.
Proof. intros Hp (d & n' & Hd & Hn). exists d, n'. split; [by eapply elem_of_longer|done]. Qed.

Lemma funded_mono h h' n t : h `prefix_of` h' -> funded h n t -> funded h' n t.
Proof.
  intros Hp [Hv Hs]. split; [by eapply elem_of_longer|].
  destruct Hs as [[raw Hr]|(i & Hi & Hc)]; [left; exists raw|right; exists i];
    eauto using elem_of_longer.
Qed.

Lemma maker_v2_paid_mono h h' n p : h `prefix_of` h' -> paid h n p -> paid h' n p.
Proof. intros Hp Hpaid. by eapply elem_of_longer. Qed.

Lemma taken_over_mono h h' n tp : h `prefix_of` h' -> taken_over h n tp -> taken_over h' n tp.
Proof. intros Hp (t & b & Hf & Hs). exists t, b. eauto using elem_of_longer, funded_mono. Qed.

Lemma reason_mono h h' n r : h `prefix_of` h' -> reason_shown h n r -> reason_shown h' n r.
Proof. intros Hp Hr s Hs. destruct (Hr s Hs) as (t & b & tx & Hx). eauto 10 using elem_of_longer. Qed.

Lemma maker_v2_supports_longer h h' s : h `prefix_of` h' -> supports h s -> supports h' s.
Proof.
  intros Hp. destruct s; cbn;
    intuition eauto using maker_v2_agreed_mono, funded_mono, maker_v2_paid_mono, taken_over_mono, reason_mono.
Qed.

Lemma maker_v2_supports_forget h s : supports h s -> supports h (forget MC TC s).
Proof. by destruct s. Qed.

Lemma maker_v2_helper_good h (c : Call) : helper_call c -> good_call h c.
Proof. by destruct c. Qed.

(** ** The handlers *)

Local Notation entered := (entered supports).
Local Ltac free := first [exact I | by apply maker_v2_helper_good].
Local Ltac walk := walk_wp free.
Local Ltac kept :=
  first [ eapply maker_v2_agreed_mono; [|eassumption]; longer | eapply funded_mono; [|eassumption]; longer
        | eapply maker_v2_paid_mono; [|eassumption]; longer | eapply taken_over_mono; [|eassumption]; longer
        | eapply reason_mono; [|eassumption]; longer ].
Local Ltac enter := unfold StateMachine.entered; intros ? [= <-]; cbn [supports].

Lemma maker_v2_initialize_ok m h : wf m -> wp good_call h (MakerSwapV2.initialize MC TC m) entered.
Proof. intros _. unfold MakerSwapV2.initialize, check_balance, abort. walk; by enter. Qed.

Lemma maker_v2_initialized_ok m h b1 b2 fee :
  wf m -> wp good_call h (initialized_on_changed MC TC fuel m b1 b2 fee) entered.
Proof.
  intros (tp & f1 & f2 & ->). unfold initialized_on_changed, broadcast, abort. walk; enter; try done.
  match goal with Ha : action ?a = Some (Continue ?d) |- _ =>
    destruct a; cbn in Ha; subst; exists d end.
  eexists. split; [exact (Hq _ eq_refl)|]. split; [eassumption|done].
Qed.

Lemma waiting_ok m h b1 b2 n fee :
  wf m -> agreed h n ->
  wp good_call h (waiting_for_taker_funding_on_changed MC TC fuel m b1 b2 n fee) entered.
Proof.
  intros _ Hn. unfold waiting_for_taker_funding_on_changed, broadcast, abort. walk; enter; try done.
  kept.
Qed.

Lemma gate_ok m h n t :
  wf m -> got (validate_taker_funding (funding_validation_args MC TC m0 n t)) (Ok tt) ∈ h ->
  wp good_call h (funding_gate MC TC fuel m t)
     (fun h' r => r = Ok tt -> funded h' n t).
Proof.
  intros _ Hv. unfold funding_gate. walk.
  - intros Hr. split; [seen|]. right. destruct x as [[]|]; [|by simpl in Hr]. eexists. split; [seen|].
    cbn. split; [done|]. lia.
  - done.
  - intros _. split; [seen|]. left. destruct r; [|done]. destruct (Hq eq_refl) as [raw Hraw].
    by exists raw.
Qed.

Lemma funding_received_ok m h b1 b2 n t :
  wf m -> agreed h n ->
  wp good_call h (taker_funding_received_on_changed MC TC fuel m b1 b2 n t) entered.
Proof.
  intros Hm Hn. pose proof Hm as (tp & f1 & f2 & ->).
  unfold taker_funding_received_on_changed, abort. walk; [|by enter].
  destruct a. apply wp_bind. eapply wp_mono; [|apply (gate_ok _ _ n t); [done|]; seen].
  intros h' g Hpre Hg. destruct g as [[]|]; [|by enter]. specialize (Hg eq_refl).
  walk; [..|by enter].
  - split.
    + eexists n, t, _. split; [done|]. split; [kept|].
      split; [kept|]. seen.
    + intros [p|e]; cbn; enter; [|done]. split; [kept|].
      split; [kept|]. unfold paid. seen.
Qed.

Lemma not_reclaimed h n r :
  (forall s, r <> TakerFundingReclaimedSecret s) -> reason_shown h n r.
Proof. intros Hr s ->. by destruct (Hr s). Qed.

Local Ltac refund := split; [kept|split; [kept|by apply not_reclaimed]].

Lemma funding_loop_ok k h w b1 b2 n t p :
  agreed h n -> funded h n t -> paid h n p ->
  wp good_call h (funding_spend_loop MC TC k w b1 b2 n t p) entered.
Proof.
  revert h; induction k as [|k IH]; intros h Hn Hf Hp; [done|]. cbn [funding_spend_loop].
  unfold refund_required. walk; try (enter; refund); try (apply IH; kept); enter.
  - split; [kept|]. split; [kept|]. intros s [= ->]. do 3 eexists. seen.
  - split; [kept|]. split; [kept|]. split; [|done]. do 2 eexists. split; [kept|seen].
  - split; [kept|]. split; [kept|]. do 2 eexists. split; [kept|seen].
Qed.

Lemma maker_v2_payment_sent_ok m h b1 b2 n t p mp :
  wf m -> agreed h n -> funded h n t -> paid h n mp ->
  wp good_call h (maker_payment_sent_on_changed MC TC fuel m b1 b2 n t p mp) entered.
Proof.
  intros _ Hn Hf Hp. unfold maker_payment_sent_on_changed, broadcast. walk.
  apply funding_loop_ok; kept.
Qed.

Lemma refund_required_ok m h n mp reason :
  wf m -> agreed h n -> paid h n mp -> reason_shown h n reason ->
  wp good_call h (refund_required_on_changed MC TC fuel m n mp reason) entered.
Proof.
  intros (tp & f1 & f2 & ->) Hn Hp Hr. unfold refund_required_on_changed, refund_result, abort.
  destruct reason.
  all: lazymatch goal with
  | |- context [refund_maker_payment_v2_secret] =>
      destruct (Hr _ eq_refl) as (t & b & tx & Hs);
      split; [eexists _, _, _; repeat split; [done..|exists t, b, tx; done]|];
      intros x; cbn [prog_bind]; walk; by enter
  | _ =>
      apply wp_bind; eapply wp_mono; [intros h' ? Hpre Hq|apply refund_wait_wp; free];
      split; [eexists _, _; split; [reflexivity|]; split; [kept|]; split; [kept|]; exact Hq|];
      intros x; cbn [prog_bind]; walk; by enter
  end.
Qed.

Lemma maker_v2_preimage_skipped_ok m h b1 b2 mp tp n :
  wf m -> agreed h n -> paid h n mp -> taken_over h n tp ->
  skip_taker_payment_spend_preimage TC = true ->
  wp good_call h (preimage_skipped_on_changed MC TC m b1 b2 mp tp n) entered.
Proof.
  intros (tpc & f1 & f2 & ->) Hn Hp Ht Hskip.
  unfold preimage_skipped_on_changed, taker_payment_confirmed, spend_result, refund_required. walk.
  - destruct a. split.
    + eexists _, _, _. split; [reflexivity|]. split; [done|]. split; [kept|]. split; [kept|].
      split; [unfold confirmed; seen|done].
    + intros r. cbn [prog_bind]. walk; enter; [by split; kept|refund].
  - enter. refund.
Qed.

Lemma maker_v2_payment_received_ok m h b1 b2 mp tp n :
  wf m -> agreed h n -> paid h n mp -> taken_over h n tp ->
  wp good_call h (taker_payment_received_on_changed MC TC fuel m b1 b2 mp tp n) entered.
Proof.
  intros (tpc & f1 & f2 & ->) Hn Hp Ht.
  unfold taker_payment_received_on_changed, taker_payment_confirmed, spend_result, refund_required.
  walk; try (enter; refund).
  destruct a as [], a3 as []. split.
  - eexists _, _, _. split; [reflexivity|]. split; [done|]. split; [kept|]. split; [kept|].
    split; [unfold confirmed; seen|seen].
  - intros r'. cbn [prog_bind]. walk; enter; [by split; kept|refund].
Qed.

Lemma maker_v2_payment_spent_ok m h b1 b2 mp sp n :
  wf m -> agreed h n -> paid h n mp ->
  wp good_call h (taker_payment_spent_on_changed MC TC m b1 b2 mp sp n) entered.
Proof.
  intros _ Hn Hp. unfold taker_payment_spent_on_changed, refund_required.
  walk; enter; try done; refund.
Qed.

Lemma maker_v2_handle_ok m s h : wf m -> supports h s -> wp good_call h (handle MC TC fuel m s) entered.
Proof.
  intros Hm Hs. destruct s; cbn [handle supports] in *; try (by intros ? ?).
  - by apply maker_v2_initialized_ok.
  - by apply waiting_ok.
  - by apply funding_received_ok.
  - destruct Hs as (? & ? & ?). by apply maker_v2_payment_sent_ok.
  - destruct Hs as (? & ? & ?). by apply refund_required_ok.
  - destruct Hs as (? & ? & ?). by apply maker_v2_payment_received_ok.
  - destruct Hs as (? & ? & ? & ?). by apply maker_v2_preimage_skipped_ok.
  - destruct Hs as (? & ?). by apply maker_v2_payment_spent_ok.
Qed.

(** ** All histories *)

Lemma maker_v2_quiet_ok m h :
  wp good_call h (on_start m) (fun _ _ => True) /\
  wp good_call h (on_finished m) (fun _ _ => True) /\
  (forall e, wp good_call h (StateMachine.on_event m e) (fun _ _ => True) /\
             wp good_call h (StateMachine.on_kickstart_event m e) (fun _ _ => True)).
Proof.
  repeat split; intros; apply wp_helper; try apply maker_v2_helper_good.
  - apply maker_v2_start_helper.
  - apply maker_v2_finished_helper.
  - apply maker_v2_event_helper.
  - apply maker_v2_kickstart_helper.
Qed.

Lemma maker_v2_history_ok h evs :
  history fuel (recreate MC TC) m0 h evs ->
  safe good_call h /\ forall e, e ∈ evs -> exists s, e = get_event MC TC s /\ supports h s.
Proof.
  intros Hh.
  refine (history_safe fuel (recreate MC TC) supports good_call wf _ _ _ _ _ _ _ m0 h evs _ Hh).
  - by intros; eapply maker_v2_supports_longer.
  - apply maker_v2_quiet_ok.
  - intros m h' s Hs. split; [by exists s|done].
  - intros h' c e Hg Hc. destruct c; try done. injection Hc as ->. done.
  - intros m h' Hm. by apply maker_v2_initialize_ok.
  - intros m s h' Hm. by apply maker_v2_handle_ok.
  - intros m evs' m' s h' (tp & f1 & f2 & ->) Hrec.
    apply (maker_v2_recreate_ok MC TC) in Hrec as (-> & e & Hl & He).
    exists e. split; [done|]. split; [do 3 eexists; reflexivity|].
    intros s0 Hs0 Hsup. destruct (He s0 Hs0) as [_ ->]. by apply maker_v2_supports_forget.
  - apply maker_v2_wf_self.
Qed.

End Safety.
