(* ===== verification/TakerV2Safety.v ===== *)
(** * Safety of the taker of the second protocol

    [good_call] says what must have happened before the calls that move money
    or give away what the maker needs, [supports] what the history shows when
    the machine is in a state; every handler keeps both, whatever is
    answered. *)

From S2P Require Import Prelude MmNumber DexFee Effects Swap StateMachine SwapV2 SwapV2Env TakerSwapV2 TakerV2Props.
From S2P Require TakerSwap.

Open Scope Z_scope.

Section Safety.
  Context `{SecretHasher} `{DecimalConv}.
  Variables MC TC : CoinV2.
  Context `{!LawfulCoin MC} `{!LawfulCoin TC}.
  Variable fuel : nat.
  (** The machine of the swap. *)
  Variable m0 : TakerSwapStateMachine.

#[local] Instance the_machine : StorableStateMachine _ _ _ _ _ := taker_machine MC TC fuel.
  Local Notation State := (TakerState MC TC).
  Local Notation Call := (CallV2 MC TC TakerSwap.TakerSwapEvent TakerSwapDbRepr Event.TakerSwapEvent).
  Local Notation answer := (@answer_v2 MC TC TakerSwap.TakerSwapEvent TakerSwapDbRepr Event.TakerSwapEvent).
  Local Notation Obs := (Obs answer).
  Local Notation got c x := (asked (answer := answer) c x) (only parsing).

(** ** What a history shows *)

(** The terms are those of a message of the maker that passed the checks, and
    the maker has accepted the negotiation. *)
Definition agreed (h : list Obs) (n : NegotiationData MC TC) : Prop :=
  (exists d n', got (take_msg_v2 (uuid m0) KMakerNegotiation) (Some d) ∈ h /\
    check_maker_data MC TC m0 d = Ok n' /\ forget_contracts MC TC n = forget_contracts MC TC n') /\
  exists r, got (take_msg_v2 (uuid m0) KMakerNegotiated) (Some r) ∈ h /\ mnd_negotiated r = true.

Definition funding_sent (h : list Obs) (n : NegotiationData MC TC) (t : CoinTx TC) : Prop :=
  got (send_taker_funding (send_funding_args MC TC m0 n)) (Ok t) ∈ h.

(** The maker payment was validated and is on the network. *)
Definition payment_valid (h : list Obs) (n : NegotiationData MC TC) (mp : CoinTx MC) : Prop :=
  got (validate_maker_payment_v2 (maker_payment_args MC TC m0 n mp)) (Ok tt) ∈ h /\
  exists raw, got (get_tx_hex_by_hash MakerSide (tx_hash_as_bytes MC mp)) (Ok raw) ∈ h.

Definition preimage_valid (h : list Obs) (n : NegotiationData MC TC) (t : CoinTx TC)
  (p : TxPreimageWithSig TC) : Prop :=
  got (validate_taker_funding_spend_preimage (funding_spend_args MC TC m0 n t) p) (Ok tt) ∈ h.

(** The maker payment was confirmed in time; the machines that the node starts
    and all recreated ones require it before the funding is spent. *)
Definition confirmed (h : list Obs) (mp : CoinTx MC) : Prop :=
  got (common (wait_for_confirmations MakerSide
    (mkConfirm (coin_tx_hex MC mp) (maker_coin_confs (conf_settings m0))
       (maker_coin_nota (conf_settings m0)) (maker_payment_conf_timeout m0) 10))) (Ok tt) ∈ h.

Definition confirmed_if_required (h : list Obs) (mp : CoinTx MC) : Prop :=
  require_maker_payment_confirm_before_funding_spend m0 = true -> confirmed h mp.

Definition taker_paid (h : list Obs) (n : NegotiationData MC TC) (tp : CoinTx TC) : Prop :=
  exists p t, funding_sent h n t /\
    got (sign_and_send_taker_funding_spend p (funding_spend_args MC TC m0 n t) (unique_data m0))
        (Ok tp) ∈ h.

(** The maker's spend of the taker payment was found. *)
Definition spend_found (h : list Obs) (tp ts : CoinTx TC) : Prop :=
  exists b, got (find_taker_payment_spend_tx tp b (taker_payment_locktime m0)) (Ok ts) ∈ h.

Definition supports (h : list Obs) (s : State) : Prop :=
  match s with
  | Negotiated _ _ _ _ n _ _ => agreed h n
  | TakerFundingSent _ _ _ _ t n | TakerFundingRefundRequired _ _ _ _ t n _
  | MakerPaymentAndFundingSpendPreimgReceived _ _ _ _ n t _ _ => agreed h n /\ funding_sent h n t
  | MakerPaymentConfirmed _ _ _ _ mp t p n =>
      agreed h n /\ funding_sent h n t /\ payment_valid h n mp /\ preimage_valid h n t p /\
      confirmed h mp
  | TakerPaymentSent _ _ _ _ tp mp n | TakerPaymentSentAndPreimageSendingSkipped _ _ _ _ tp mp n =>
      agreed h n /\ taker_paid h n tp /\ payment_valid h n mp /\ confirmed_if_required h mp
  | TakerPaymentRefundRequired _ _ tp n _ | MakerPaymentSpent _ _ _ _ _ tp _ _ n =>
      agreed h n /\ taker_paid h n tp
  | TakerPaymentSpent _ _ _ _ mp tp ts n =>
      agreed h n /\ taker_paid h n tp /\ payment_valid h n mp /\ spend_found h tp ts
  | _ => True
  end.

(** ** The calls that are allowed *)

Definition good_call (h : list Obs) (c : Call) : Prop :=
  match c with
  | send_taker_funding a => exists n, a = send_funding_args MC TC m0 n /\ agreed h n
  | sign_and_send_taker_funding_spend p a _ =>
      exists n t mp, a = funding_spend_args MC TC m0 n t /\ agreed h n /\ funding_sent h n t /\
        payment_valid h n mp /\ preimage_valid h n t p /\ confirmed_if_required h mp
  | broadcast_swap_v2_msg_every _ (mkSwapMessage (Some (MsgTakerPaymentSpendPreimage _)) _) _ _ =>
      exists n tp mp, agreed h n /\ taker_paid h n tp /\ payment_valid h n mp /\
        confirmed_if_required h mp
  | spend_maker_payment_v2 a =>
      exists n mp tp ts s, a = spend_maker_payment_args MC TC m0 n mp s /\ agreed h n /\
        payment_valid h n mp /\ taker_paid h n tp /\ spend_found h tp ts /\
        got (extract_secret_v2 (maker_secret_hash _ _ n) ts) (Ok s) ∈ h
  | refund_taker_funding_secret a =>
      exists n t, a = refund_funding_args MC TC m0 t n /\ agreed h n /\ funding_sent h n t
  | refund_combined_taker_payment a =>
      exists n tp, a = refund_payment_args MC TC m0 tp n /\ agreed h n /\ taker_paid h n tp /\
        got (common (can_refund_htlc TakerSide (taker_payment_locktime m0))) (Ok CanRefundNow) ∈ h
  | store_swap_event _ e => exists s, e = get_event MC TC s /\ supports h s
  | send_maker_payment_v2 _ | refund_maker_payment_v2_timelock _ | refund_maker_payment_v2_secret _
  | sign_and_broadcast_taker_payment_spend _ _ _ _ => False
  | _ => True
  end.

(** The machines of the swap: the one it was started with and the recreated
    ones, which differ in the topic and the two flags. *)
Definition wf (m : TakerSwapStateMachine) : Prop :=
  exists tp f1 f2, (f1 = true \/ f1 = require_maker_payment_confirm_before_funding_spend m0) /\
    m = mkMachine (started_at m0) (lock_duration m0) (maker_volume m0) (taker_volume m0)
      (taker_premium m0) (secret_hash_algo m0) (conf_settings m0) (uuid m0) tp (p2p_keypair m0)
      (taker_secret m0) (maker_p2p_pubkey m0) f1 f2 (swap_version m0).

Lemma taker_v2_wf_self : wf m0.
Proof.
  exists (p2p_topic m0), (require_maker_payment_confirm_before_funding_spend m0),
    (require_maker_payment_spend_confirm m0). split; [by right|]. by destruct m0.
Qed.

(** ** More history shows more *)

Lemma taker_v2_agreed_mono h h' n : h `prefix_of` h' -> agreed h n -> agreed h' n.
Proof.
  intros Hp [(d & n' & Hd & Hn) (r & Hr & Ht)]. split; [exists d, n'|exists r];
    (split; [by eapply elem_of_longer|done]).
Qed.

Lemma sent_mono h h' n t : h `prefix_of` h' -> funding_sent h n t -> funding_sent h' n t.
Proof. intros Hp Hs. by eapply elem_of_longer. Qed.

Lemma valid_mono h h' n mp : h `prefix_of` h' -> payment_valid h n mp -> payment_valid h' n mp.
Proof. intros Hp [Hv [raw Hr]]. split; [by eapply elem_of_longer|]. eauto using elem_of_longer. Qed.

Lemma preimage_mono h h' n t p : h `prefix_of` h' -> preimage_valid h n t p -> preimage_valid h' n t p.
Proof. intros Hp Hs. by eapply elem_of_longer. Qed.

Lemma confirmed_mono h h' mp : h `prefix_of` h' -> confirmed h mp -> confirmed h' mp.
Proof. intros Hp Hs. by eapply elem_of_longer. Qed.

Lemma required_mono h h' mp :
  h `prefix_of` h' -> confirmed_if_required h mp -> confirmed_if_required h' mp.
Proof. intros Hp Hs Hr. eapply confirmed_mono; [done|by apply Hs]. Qed.

Lemma taker_v2_paid_mono h h' n tp : h `prefix_of` h' -> taker_paid h n tp -> taker_paid h' n tp.
Proof. intros Hp (p & t & Ht & Hs). exists p, t. eauto using elem_of_longer, sent_mono. Qed.

Lemma found_mono h h' tp ts : h `prefix_of` h' -> spend_found h tp ts -> spend_found h' tp ts.
Proof. intros Hp [b Hb]. exists b. by eapply elem_of_longer. Qed.

Lemma taker_v2_supports_longer h h' s : h `prefix_of` h' -> supports h s -> supports h' s.
Proof.
  intros Hp. destruct s; cbn;
    intuition eauto using taker_v2_agreed_mono, sent_mono, valid_mono, preimage_mono, confirmed_mono,
      required_mono, taker_v2_paid_mono, found_mono.
Qed.

Lemma taker_v2_supports_forget h s : supports h s -> supports h (forget MC TC s).
Proof. by destruct s. Qed.

Lemma taker_v2_helper_good h (c : Call) : helper_call c -> good_call h c.
Proof. by destruct c. Qed.

(** ** The handlers *)

Local Notation entered := (entered supports).
Local Ltac free := first [exact I | by apply taker_v2_helper_good].
Local Ltac walk := walk_wp free.
Local Ltac kept :=
  first [ eapply taker_v2_agreed_mono; [|eassumption]; longer | eapply sent_mono; [|eassumption]; longer
        | eapply valid_mono; [|eassumption]; longer | eapply preimage_mono; [|eassumption]; longer
        | eapply confirmed_mono; [|eassumption]; longer | eapply required_mono; [|eassumption]; longer
        | eapply taker_v2_paid_mono; [|eassumption]; longer | eapply found_mono; [|eassumption]; longer ].
Local Ltac enter :=
  unfold StateMachine.entered; intros ? [= <-]; cbn [supports]; try done;
  repeat lazymatch goal with |- _ /\ _ => split end; try kept.

Lemma taker_v2_initialize_ok m h : wf m -> wp good_call h (TakerSwapV2.initialize MC TC m) entered.
Proof. intros _. unfold TakerSwapV2.initialize, check_balance, abort. walk; by enter. Qed.

Lemma taker_v2_initialized_ok m h b1 b2 f1 f2 :
  wf m -> wp good_call h (initialized_on_changed MC TC fuel m b1 b2 f1 f2) entered.
Proof.
  intros (tp & c1 & c2 & _ & ->). unfold initialized_on_changed, broadcast, abort.
  walk; enter; split.
  - do 2 eexists. split; [|split; [eassumption|done]]. specialize (Hq _ eq_refl). seen.
  - exists a1. split; [exact (Hq0 _ eq_refl)|]. by destruct (mnd_negotiated a1).
Qed.

Lemma negotiated_ok m h b1 b2 n :
  wf m -> agreed h n -> wp good_call h (negotiated_on_changed MC TC m b1 b2 n) entered.
Proof.
  intros (tp & c1 & c2 & _ & ->) Hn. unfold negotiated_on_changed, abort. split; [by exists n|].
  intros x. cbn [prog_bind]. walk; enter. unfold funding_sent. seen.
Qed.

Lemma funding_sent_ok m h b1 b2 t n :
  wf m -> agreed h n -> funding_sent h n t ->
  wp good_call h (taker_funding_sent_on_changed MC TC fuel m b1 b2 t n) entered.
Proof.
  intros _ Hn Ht. unfold taker_funding_sent_on_changed, broadcast, funding_refund_required.
  walk; enter.
Qed.

Lemma spend_funding_ok m h b1 b2 n t p mp :
  wf m -> agreed h n -> funding_sent h n t -> payment_valid h n mp -> preimage_valid h n t p ->
  confirmed_if_required h mp ->
  wp good_call h (spend_funding MC TC m b1 b2 n t p mp) entered.
Proof.
  intros (tp & c1 & c2 & _ & ->) Hn Ht Hv Hp Hc. unfold spend_funding, funding_refund_required.
  split; [by exists n, t, mp|]. intros x. cbn [prog_bind].
  walk; enter; try kept;
    exists p, t; (split; [kept|]); seen.
Qed.

Lemma taker_v2_payment_received_ok m h b1 b2 n t p mp :
  wf m -> agreed h n -> funding_sent h n t ->
  wp good_call h (maker_payment_received_on_changed MC TC fuel m b1 b2 n t p mp) entered.
Proof.
  intros Hm Hn Ht. pose proof Hm as (tp & c1 & c2 & Hc & ->).
  unfold maker_payment_received_on_changed, maker_payment_confirmed, funding_refund_required.
  walk; try by enter.
  all: destruct a, a0, r; try done; destruct (Hq eq_refl) as [raw Hraw].
  - destruct a1. enter; [split; [seen|exists raw; seen]|unfold preimage_valid; seen|unfold confirmed; seen].
  - apply spend_funding_ok; [done|kept|kept|split; [seen|by exists raw]|unfold preimage_valid; seen|].
    cbn in Hx2. intros Hreq. destruct Hc; congruence.
Qed.

Lemma late_ok m h mp :
  wf m -> confirmed_if_required h mp ->
  wp good_call h (late_confirmation MC TC m mp)
     (fun h' r => r = Ok tt -> h `prefix_of` h' /\ confirmed_if_required h' mp).
Proof.
  intros (tp & c1 & c2 & Hc & ->) Hr. unfold late_confirmation, maker_payment_confirmed. walk.
  - intros ->. split; [longer|]. intros _. unfold confirmed. seen.
  - done.
Qed.

Lemma await_ok m h b1 b2 tp mp n :
  wf m -> agreed h n -> taker_paid h n tp -> payment_valid h n mp ->
  wp good_call h (await_spend MC TC m b1 b2 tp mp n) entered.
Proof.
  intros (tpc & c1 & c2 & Hc & ->) Hn Hp Hv. unfold await_spend, payment_refund_required.
  walk; enter. exists b2. seen.
Qed.

Lemma taker_v2_payment_sent_ok m h b1 b2 tp mp n :
  wf m -> agreed h n -> taker_paid h n tp -> payment_valid h n mp -> confirmed_if_required h mp ->
  wp good_call h (taker_payment_sent_on_changed MC TC m b1 b2 tp mp n) entered.
Proof.
  intros Hm Hn Hp Hv Hr. unfold taker_payment_sent_on_changed, broadcast, payment_refund_required.
  apply wp_bind. eapply wp_mono; [|by apply late_ok]. intros h' [[]|e] Hpre Hq.
  - destruct (Hq eq_refl) as [_ Hc]. walk; [|by enter].
    split; [exists n, tp, mp; split_and!; kept|]. intros []. cbn [prog_bind].
    apply await_ok; [done|kept..].
  - walk. enter.
Qed.

Lemma taker_v2_preimage_skipped_ok m h b1 b2 tp mp n :
  wf m -> agreed h n -> taker_paid h n tp -> payment_valid h n mp -> confirmed_if_required h mp ->
  wp good_call h (preimage_skipped_on_changed MC TC m b1 b2 tp mp n) entered.
Proof.
  intros Hm Hn Hp Hv Hr. unfold preimage_skipped_on_changed, payment_refund_required.
  apply wp_bind. eapply wp_mono; [|by apply late_ok]. intros h' [[]|e] Hpre Hq.
  - apply await_ok; [done|kept..].
  - walk. enter.
Qed.

Lemma funding_refund_ok m h t n reason :
  wf m -> agreed h n -> funding_sent h n t ->
  wp good_call h (funding_refund_on_changed MC TC m t n reason) entered.
Proof.
  intros (tp & c1 & c2 & _ & ->) Hn Ht. unfold funding_refund_on_changed, abort.
  split; [by exists n, t|]. intros x. cbn [prog_bind]. walk; by enter.
Qed.

Lemma payment_refund_ok m h tp n reason :
  wf m -> agreed h n -> taker_paid h n tp ->
  wp good_call h (payment_refund_on_changed MC TC fuel m tp n reason) entered.
Proof.
  intros (tpc & c1 & c2 & _ & ->) Hn Hp. unfold payment_refund_on_changed, abort.
  apply wp_bind; eapply wp_mono; [intros h' ? Hpre Hq|apply refund_wait_wp; free].
  split; [exists n, tp; split_and!; [done|kept|kept|exact Hq]|].
  intros x. cbn [prog_bind]. walk; by enter.
Qed.

Lemma taker_v2_payment_spent_ok m h b1 b2 mp tp ts n :
  wf m -> agreed h n -> taker_paid h n tp -> payment_valid h n mp -> spend_found h tp ts ->
  wp good_call h (taker_payment_spent_on_changed MC TC m b1 b2 mp tp ts n) entered.
Proof.
  intros (tpc & c1 & c2 & _ & ->) Hn Hp Hv Hs. unfold taker_payment_spent_on_changed, abort.
  walk; [|by enter]. split; [exists n, mp, tp, ts, a; split_and!; [done|kept..|seen]|].
  intros y. cbn [prog_bind]. walk; enter.
Qed.

Lemma maker_spent_ok m h tp ms n :
  wf m -> agreed h n -> taker_paid h n tp ->
  wp good_call h (maker_payment_spent_on_changed MC TC m tp ms n) entered.
Proof.
  intros _ Hn Hp. unfold maker_payment_spent_on_changed, payment_refund_required. walk; enter.
Qed.

Lemma taker_v2_handle_ok m s h : wf m -> supports h s -> wp good_call h (handle MC TC fuel m s) entered.
Proof.
  intros Hm Hs. destruct s; cbn [handle supports] in *; try (by intros ? ?);
    [by apply taker_v2_initialized_ok|by apply negotiated_ok|destruct_and! Hs..].
  - by apply funding_sent_ok.
  - by apply funding_refund_ok.
  - by apply taker_v2_payment_received_ok.
  - by apply taker_v2_payment_sent_ok.
  - by apply taker_v2_preimage_skipped_ok.
  - by apply payment_refund_ok.
  - by apply spend_funding_ok; [..|intros _].
  - by apply taker_v2_payment_spent_ok.
  - by apply maker_spent_ok.
Qed.

(** ** All histories *)

Lemma taker_v2_quiet_ok m h :
  wp good_call h (on_start m) (fun _ _ => True) /\
  wp good_call h (on_finished m) (fun _ _ => True) /\
  (forall e, wp good_call h (StateMachine.on_event m e) (fun _ _ => True) /\
             wp good_call h (StateMachine.on_kickstart_event m e) (fun _ _ => True)).
Proof.
  repeat split; intros; apply wp_helper; try apply taker_v2_helper_good.
  - apply taker_v2_start_helper.
  - apply taker_v2_finished_helper.
  - apply taker_v2_event_helper.
  - apply taker_v2_kickstart_helper.
Qed.

Lemma taker_v2_history_ok h evs :
  history fuel (recreate MC TC) m0 h evs ->
  safe good_call h /\ forall e, e ∈ evs -> exists s, e = get_event MC TC s /\ supports h s.
Proof.
  intros Hh.
  refine (history_safe fuel (recreate MC TC) supports good_call wf _ _ _ _ _ _ _ m0 h evs _ Hh).
  - by intros; eapply taker_v2_supports_longer.
  - apply taker_v2_quiet_ok.
  - intros m h' s Hs. split; [by exists s|done].
  - intros h' c e Hg Hc. destruct c; try done. injection Hc as ->. done.
  - intros m h' Hm. by apply taker_v2_initialize_ok.
  - intros m s h' Hm. by apply taker_v2_handle_ok.
  - intros m evs' m' s h' (tp & f1 & f2 & _ & ->) Hrec.
    apply (taker_v2_recreate_ok MC TC) in Hrec as (-> & e & Hl & He).
    exists e. split; [done|]. split; [do 3 eexists; split; [by left|reflexivity]|].
    intros s0 Hs0 Hsup. destruct (He s0 Hs0) as [_ ->]. by apply taker_v2_supports_forget.
  - apply taker_v2_wf_self.
Qed.

End Safety.
