(* ===== verification/MakerV2Ends.v ===== *)
(** * The maker of the second protocol comes to an end

    In a [fair] environment every session returns ([maker_v2_session_returns]): the
    states have a rank that falls with every event, and every handler
    returns.  The wait for the taker's preimage is given a point in time as a
    duration ([preimage_wait]). *)

From S2P Require Import Prelude MmNumber DexFee Effects Swap StateMachine SwapV2 SwapV2Env MakerSwapV2 MakerV2Props.
From S2P Require MakerSwap.

Open Scope Z_scope.

Section Ends.
  Context `{SecretHasher} `{DecimalConv}.
  Variables MC TC : CoinV2.
  Context `{!LawfulCoin MC} `{!LawfulCoin TC}.
  Variable fuel N : nat.
  Variable T : Z.

#[local] Instance the_machine : StorableStateMachine _ _ _ _ _ := maker_machine MC TC fuel.
  Local Notation State := (MakerState MC TC).

(** The last point in time that the machine waits for. *)
Definition bounded (m : MakerSwapStateMachine) : Prop :=
  NEGOTIATION_TIMEOUT_SEC <= T /\ taker_payment_conf_timeout m <= T.

Definition rank (s : State) : nat :=
  match s with
  | Initialized _ _ _ _ _ _ => 9
  | WaitingForTakerFunding _ _ _ _ _ _ => 8
  | TakerFundingReceived _ _ _ _ _ _ _ => 7
  | MakerPaymentSentFundingSpendGenerated _ _ _ _ _ _ _ _ => 6
  | TakerPaymentReceived _ _ _ _ _ _ _ => 5
  | TakerPaymentReceivedAndPreimageValidationSkipped _ _ _ _ _ _ _ => 5
  | TakerPaymentSpent _ _ _ _ _ _ _ _ => 4
  | MakerPaymentRefundRequired _ _ _ _ _ _ _ => 3
  | MakerPaymentRefunded _ _ _ _ _ | Aborted _ _ _ | Completed _ _ => 0
  end.

Lemma maker_v2_rank_falls m s tr s' :
  runs (handle MC TC fuel m s) tr (change_state s') -> (rank s' < rank s)%nat.
Proof. intros Hr%maker_v2_handle_next. destruct s, s'; cbn in *; try done; lia. Qed.

Lemma maker_v2_check_balance_returns h m f1 f2 : returns (fair N) h (check_balance MC TC m f1 f2).
Proof.
  apply (lift_returns _ []).
  unfold MakerSwap.check_balance_for_maker_swap, check_my_coin_balance_for_swap,
    check_other_coin_balance_for_swap, check_platform_coin_balance_for_swap, read_locked.
  walk_returns_v2 idtac.
Qed.

Lemma funding_loop_returns n h w b1 b2 neg t mp :
  w * 1000 + 1000 <= clock_floor h + 30000 * (Z.of_nat n - 1) -> (0 < n)%nat ->
  returns (fair N) h (funding_spend_loop MC TC n w b1 b2 neg t mp).
Proof.
  revert h; induction n as [|n IH]; intros h Hn Hp; [lia|].
  cbn [funding_spend_loop]. intros now [Hb Hnow]. cbn [prog_bind].
  destruct (now >? w) eqn:Hw; [done|]. intros r _. cbn [prog_bind].
  unfold refund_required. walk_returns_v2 idtac; (apply IH; [|lia]); rewrite !clock_floor_v2_snoc;
    cbn [clock_step asked]; change (Qfloor ((30 # 1) * 1000)) with 30000; lia.
Qed.

Lemma maker_v2_handle_returns m s h :
  bounded m -> enough_fuel fuel N T -> returns (fair N) h (handle MC TC fuel m s).
Proof.
  intros [HT Hm] (HT1 & HT2 & HN). unfold NEGOTIATION_TIMEOUT_SEC in HT.
  assert (0 <= taker_payment_conf_timeout m) as Hw by (apply wrap_range; lia).
  destruct s; cbn [handle];
    unfold initialized_on_changed, waiting_for_taker_funding_on_changed,
      taker_funding_received_on_changed, maker_payment_sent_on_changed,
      refund_required_on_changed, taker_payment_received_on_changed, preimage_skipped_on_changed,
      taker_payment_spent_on_changed, funding_gate, taker_payment_confirmed, spend_result,
      refund_result, refund_required, broadcast, abort;
    walk_returns_v2 ltac:(unfold NEGOTIATION_TIMEOUT_SEC; try lia).
  apply funding_loop_returns; [|lia].
  match goal with |- context [clock_floor ?h] => pose proof (clock_floor_nonneg h) end.
  fold (taker_payment_conf_timeout m). lia.
Qed.

Lemma maker_v2_initialize_returns m h : returns (fair N) h (MakerSwapV2.initialize MC TC m).
Proof. unfold MakerSwapV2.initialize, abort. walk_returns_v2 idtac. apply maker_v2_check_balance_returns. Qed.

Lemma maker_v2_start_returns m h : returns (fair N) h (on_start m).
Proof.
  unfold on_start. apply returns_bind; [apply lock_returns|]. intros tr [u|e] _ _; [|done].
  intros r _. destruct r as [[|]|e]; [by walk_returns_v2 idtac| |done].
  intros st _. by destruct st; walk_returns_v2 idtac.
Qed.

Lemma maker_v2_finish_returns m h : returns (fair N) h (on_finished m).
Proof. intros r _. destruct r as [u|e]; [|done]. by walk_returns_v2 idtac. Qed.

Lemma maker_v2_event_returns m h e :
  returns (fair N) h (StateMachine.on_event m e) /\
  returns (fair N) h (StateMachine.store_event m e) /\
  returns (fair N) h (StateMachine.on_kickstart_event m e).
Proof. repeat split; by destruct e. Qed.

Lemma maker_v2_session_machine m h evs m' p :
  session fuel (recreate MC TC) m h evs m' p -> m' = m \/ m' = recreated m.
Proof.
  intros [|h' evs' m'' s Hh Hr]; [by left|]. apply (maker_v2_recreate_ok MC TC) in Hr as [-> _]. by right.
Qed.

Lemma maker_v2_session_returns m h evs m' p h' :
  bounded m -> enough_fuel fuel N T ->
  session fuel (recreate MC TC) m h evs m' p -> returns (fair N) h' p.
Proof.
  intros Hb Hf Hs. assert (bounded m') as Hb'.
  { by apply maker_v2_session_machine in Hs as [->| ->]. }
  assert (9 < fuel)%nat as Hn.
  { destruct Hb as [HT _], Hf as (_ & Hf & _). unfold NEGOTIATION_TIMEOUT_SEC in HT. lia. }
  destruct Hs as [|h0 evs0 m' s Hh Hr].
  - refine (run_returns (fair N) rank m (maker_v2_rank_falls m) (fun s h => maker_v2_handle_returns m s h Hb Hf)
      (fun h => maker_v2_start_returns m h) (maker_v2_finish_returns m) (maker_v2_event_returns m) fuel _ h'
      (quiet_initialize m) (maker_v2_initialize_returns m) _).
    intros t s _. destruct s; cbn; lia.
  - refine (kickstart_returns (fair N) rank m' (maker_v2_rank_falls m')
      (fun s h => maker_v2_handle_returns m' s h Hb' Hf) (fun h => maker_v2_start_returns m' h) (maker_v2_finish_returns m')
      (maker_v2_event_returns m') fuel s h' _).
    destruct s; cbn; lia.
Qed.

(** ** The wait for the preimage *)

Lemma recv_loop_elapsed n u k started timeout w tr e :
  runs (recv_loop_v2 n u k started timeout w :
          prog (@answer_v2 MC TC MakerSwap.MakerSwapEvent MakerSwapDbRepr Event.MakerSwapEvent) _)
    tr (Err e) ->
  exists now, asked (common now_sec) now ∈ tr /\ w < now.
Proof.
  revert tr; induction n as [|n IH]; intros tr; [done|]. cbn [recv_loop_v2]. intros Hr.
  run_step Hr. run_step Hr. destruct x0 as [msg|]; [by run_all Hr|]. run_step Hr.
  destruct (x0 >? w) eqn:Hw.
  - run_all Hr. exists x0. split; [do 2 right; by left|lia].
  - apply IH in Hr as (now & Hin & Hnow). exists now. split; [by do 3 right|done].
Qed.

Lemma preimage_wait m b1 b2 mp tp n tr s :
  0 <= started_at m < 2 ^ 60 -> 0 <= lock_duration m < 2 ^ 60 ->
  runs (handle MC TC fuel m (TakerPaymentReceived _ _ b1 b2 mp tp n)) tr (change_state s) ->
  (exists e, s = MakerPaymentRefundRequired _ _ b1 b2 n mp (DidNotGetTakerPaymentSpendPreimage e)) ->
  exists t0 t1, asked (common now_sec) t0 ∈ tr /\ asked (common now_sec) t1 ∈ tr /\
    (0 <= t0 < 2 ^ 62 -> t0 + 90 + started_at m + lock_duration m * 2 / 3 < t1).
Proof.
  intros Hst Hlk Hr (e & ->). cbn [handle] in Hr.
  unfold taker_payment_received_on_changed, spend_result, refund_required in Hr.
  run_step Hr. destruct a as [u|]; [|by run_all Hr].
  apply runs_bind in Hr as (r & ta & tb & -> & Ha & Hr). destruct r as [pre|e']; [by run_all Hr|].
  unfold recv_swap_v2_msg in Ha. run_step Ha. rename x into t0.
  apply recv_loop_elapsed in Ha as (t1 & Hin & Ht). exists t0, t1.
  split; [apply elem_of_app; right; by left|].
  split; [apply elem_of_app; right; right; apply elem_of_app; by left|]. intros Ht0.
  revert Ht. unfold taker_payment_conf_timeout, BASIC_COMM_TIMEOUT.
  assert (0 <= lock_duration m * 2 / 3 <= lock_duration m) as Hd.
  { Z.to_euclidean_division_equations; lia. }
  rewrite (wrap_id 64 (lock_duration m * 2)) by (unfold is_uint; lia).
  rewrite (wrap_id 64 (started_at m + _)) by (unfold is_uint; lia).
  rewrite (wrap_id 64 (90 + _)) by (unfold is_uint; lia).
  rewrite wrap_id by (unfold is_uint; lia). lia.
Qed.
End Ends.
