(* ===== verification/TakerV2Ends.v ===== *)
(** * The taker of the second protocol comes to an end

    In a [fair] environment every session returns ([taker_v2_session_returns]): the
    states have a rank that falls with every event, and every handler
    returns. *)

From S2P Require Import Prelude MmNumber DexFee Effects Swap StateMachine SwapV2 SwapV2Env TakerSwapV2 TakerV2Props.
From S2P Require TakerSwap.

Open Scope Z_scope.

Section Ends.
  Context `{SecretHasher} `{DecimalConv}.
  Variables MC TC : CoinV2.
  Context `{!LawfulCoin MC} `{!LawfulCoin TC}.
  Variable fuel N : nat.

#[local] Instance the_machine : StorableStateMachine _ _ _ _ _ := taker_machine MC TC fuel.
  Local Notation State := (TakerState MC TC).

Definition rank (s : State) : nat :=
  match s with
  | Initialized _ _ _ _ _ _ => 11
  | Negotiated _ _ _ _ _ _ _ => 10
  | TakerFundingSent _ _ _ _ _ _ => 9
  | MakerPaymentAndFundingSpendPreimgReceived _ _ _ _ _ _ _ _ => 8
  | MakerPaymentConfirmed _ _ _ _ _ _ _ _ => 7
  | TakerPaymentSent _ _ _ _ _ _ _ => 6
  | TakerPaymentSentAndPreimageSendingSkipped _ _ _ _ _ _ _ => 6
  | TakerPaymentSpent _ _ _ _ _ _ _ _ => 5
  | MakerPaymentSpent _ _ _ _ _ _ _ _ _ => 4
  | TakerFundingRefundRequired _ _ _ _ _ _ _ | TakerPaymentRefundRequired _ _ _ _ _ => 3
  | TakerFundingRefunded _ _ _ _ _ | TakerPaymentRefunded _ _ _ _ _ | Aborted _ _ _
  | Completed _ _ => 0
  end.

Lemma taker_v2_rank_falls m s tr s' :
  runs (handle MC TC fuel m s) tr (change_state s') -> (rank s' < rank s)%nat.
Proof. intros Hr%taker_v2_handle_next. destruct s, s'; cbn in *; try done; lia. Qed.

Lemma taker_v2_check_balance_returns h m f1 f2 : returns (fair N) h (check_balance MC TC m f1 f2).
Proof.
  apply (lift_returns _ []).
  unfold TakerSwap.check_balance_for_taker_swap, check_my_coin_balance_for_swap,
    check_other_coin_balance_for_swap, check_platform_coin_balance_for_swap, read_locked.
  walk_returns_v2 idtac.
Qed.

Lemma taker_v2_handle_returns m s h :
  enough_fuel fuel N NEGOTIATION_TIMEOUT_SEC -> returns (fair N) h (handle MC TC fuel m s).
Proof.
  intros (_ & HT & HN). unfold NEGOTIATION_TIMEOUT_SEC in HT.
  destruct s; cbn [handle];
    unfold initialized_on_changed, negotiated_on_changed, taker_funding_sent_on_changed,
      funding_refund_on_changed, maker_payment_received_on_changed, taker_payment_sent_on_changed,
      preimage_skipped_on_changed, payment_refund_on_changed, taker_payment_spent_on_changed,
      maker_payment_spent_on_changed, spend_funding, await_spend, late_confirmation,
      maker_payment_confirmed, funding_refund_required, payment_refund_required, broadcast, abort;
    walk_returns_v2 ltac:(unfold NEGOTIATION_TIMEOUT_SEC; try lia).
Qed.

Lemma taker_v2_initialize_returns m h : returns (fair N) h (TakerSwapV2.initialize MC TC m).
Proof. unfold TakerSwapV2.initialize, abort. walk_returns_v2 idtac. apply taker_v2_check_balance_returns. Qed.

Lemma taker_v2_start_returns m h : returns (fair N) h (on_start m).
Proof.
  unfold on_start. apply returns_bind; [apply lock_returns|]. intros tr [u|e] _ _; [|done].
  intros r _. destruct r as [[|]|e]; [by walk_returns_v2 idtac| |done].
  intros st _. by destruct st; walk_returns_v2 idtac.
Qed.

Lemma taker_v2_finish_returns m h : returns (fair N) h (on_finished m).
Proof. intros r _. destruct r as [u|e]; [|done]. by walk_returns_v2 idtac. Qed.

Lemma taker_v2_event_returns m h e :
  returns (fair N) h (StateMachine.on_event m e) /\
  returns (fair N) h (StateMachine.store_event m e) /\
  returns (fair N) h (StateMachine.on_kickstart_event m e).
Proof. repeat split; by destruct e. Qed.

Lemma taker_v2_session_machine m h evs m' p :
  session fuel (recreate MC TC) m h evs m' p -> m' = m \/ m' = recreated m.
Proof.
  intros [|h' evs' m'' s Hh Hr]; [by left|]. apply (taker_v2_recreate_ok MC TC) in Hr as [-> _]. by right.
Qed.

Lemma taker_v2_session_returns m h evs m' p h' :
  enough_fuel fuel N NEGOTIATION_TIMEOUT_SEC ->
  session fuel (recreate MC TC) m h evs m' p -> returns (fair N) h' p.
Proof.
  intros Hf Hs. assert (11 < fuel)%nat as Hn by (destruct Hf as (_ & Hf & _); unfold NEGOTIATION_TIMEOUT_SEC in Hf; lia).
  destruct Hs as [|h0 evs0 m' s Hh Hr].
  - refine (run_returns (fair N) rank m (taker_v2_rank_falls m) (fun s h => taker_v2_handle_returns m s h Hf)
      (fun h => taker_v2_start_returns m h) (taker_v2_finish_returns m) (taker_v2_event_returns m) fuel _ h'
      (quiet_initialize m) (taker_v2_initialize_returns m) _).
    intros t s _. destruct s; cbn; lia.
  - refine (kickstart_returns (fair N) rank m' (taker_v2_rank_falls m')
      (fun s h => taker_v2_handle_returns m' s h Hf) (fun h => taker_v2_start_returns m' h) (taker_v2_finish_returns m')
      (taker_v2_event_returns m') fuel s h' _).
    destruct s; cbn; lia.
Qed.

End Ends.
