(* ===== verification/SwapV2Context.v ===== *)
(** * The node's context under the swaps of the second protocol

    What the calls of a swap do to the topics, the message stores, the active
    swaps and the locked amounts of the node ([NodeCtx] of SwapV2.v): they
    concern this swap only ([only_own_frame]), and the clean-up leaves nothing
    of it ([clean_up_leaves_nothing]).  Then [process_swap_v2_msg] and the
    polls against it. *)

From S2P Require Import Prelude MmNumber DexFee Effects Swap StateMachine SwapV2 SwapV2Env.

Open Scope Z_scope.

(** The locked amounts of a coin. *)
Definition locked_of (c : NodeCtx) (coin : string) : list LockedAmountInfo :=
  default [] (locked_amounts (nc_swaps c) !! coin).

(** Nothing of the swap is left. *)
Definition nothing_left (u : Uuid) (maker_coin taker_coin : string) (c : NodeCtx) : Prop :=
  swap_v2_topic u ∉ nc_topics c /\ nc_msgs c !! u = None /\
  active_swaps_v2_infos (nc_swaps c) !! u = None /\
  (forall coin, coin = maker_coin \/ coin = taker_coin ->
     Forall (fun l => lai_swap_uuid l <> u) (locked_of c coin)).

(** The rest of the context is the same. *)
Record frame (u : Uuid) (c c' : NodeCtx) : Prop := {
  frame_topics t : t <> swap_v2_topic u -> t ∈ nc_topics c' <-> t ∈ nc_topics c;
  frame_msgs v : v <> u -> nc_msgs c' !! v = nc_msgs c !! v;
  frame_active v : v <> u ->
    active_swaps_v2_infos (nc_swaps c') !! v = active_swaps_v2_infos (nc_swaps c) !! v;
  frame_running : running_swaps (nc_swaps c') = running_swaps (nc_swaps c);
  frame_locked coin : filter (fun l => lai_swap_uuid l <> u) (locked_of c' coin) =
                      filter (fun l => lai_swap_uuid l <> u) (locked_of c coin) }.

#[export] Instance frame_preorder u : PreOrder (frame u).
Proof.
  split; [by intros c; split|]. intros c1 c2 c3 H1 H2. split; intros.
  - by rewrite (frame_topics _ _ _ H2), (frame_topics _ _ _ H1).
  - by rewrite (frame_msgs _ _ _ H2), (frame_msgs _ _ _ H1).
  - by rewrite (frame_active _ _ _ H2), (frame_active _ _ _ H1).
  - by rewrite (frame_running _ _ _ H2), (frame_running _ _ _ H1).
  - by rewrite (frame_locked _ _ _ H2), (frame_locked _ _ _ H1).
Qed.

(** The operation concerns the swap [u]. *)
Definition op_own (u : Uuid) (op : CtxOp) : Prop :=
  match op with
  | subscribe_to_topic t | unsubscribe_from_topic t => t = swap_v2_topic u
  | init_msg_v2_store v _ | remove_msg_v2_store v | insert_active_swap_v2 v _
  | remove_active_swap_v2 v | retain_other_locked _ v => v = u
  | push_locked_amount _ l => lai_swap_uuid l = u
  end.

Lemma locked_push c coin l coin' :
  locked_of (ctx_step (push_locked_amount coin l) c) coin' =
    locked_of c coin' ++ (if decide (coin = coin') then [l] else []).
Proof.
  unfold locked_of. cbn. case_decide as Hc; [subst; by rewrite lookup_insert_eq|].
  rewrite lookup_insert_ne by done. by rewrite app_nil_r.
Qed.

Lemma locked_retain c coin u coin' :
  locked_of (ctx_step (retain_other_locked coin u) c) coin' =
    if decide (coin = coin') then filter (fun l => lai_swap_uuid l <> u) (locked_of c coin')
    else locked_of c coin'.
Proof.
  unfold locked_of. cbn. case_decide as Hc; [subst; rewrite lookup_alter_eq|by rewrite lookup_alter_ne].
  by destruct (_ !! coin').
Qed.

Lemma own_frame u op c : op_own u op -> frame u c (ctx_step op c).
Proof.
  intros Ho. split; intros.
  - destruct op; cbn in *; subst; set_solver.
  - destruct op; cbn in *; subst; try done; [by rewrite lookup_insert_ne|by rewrite lookup_delete_ne].
  - destruct op; cbn in *; subst; try done; [by rewrite lookup_insert_ne|by rewrite lookup_delete_ne].
  - by destruct op.
  - destruct op; try done.
    + rewrite locked_push, filter_app. cbn in Ho. case_decide; [|by rewrite app_nil_r].
      rewrite filter_cons_False by tauto. by rewrite filter_nil, app_nil_r.
    + cbn in Ho. subst. rewrite locked_retain. case_decide; [|done].
      rewrite list_filter_filter. apply list_filter_iff. tauto.
Qed.

Section Trace.
  Context {MC TC : CoinV2} {L D E : Type}.
  Notation Call := (CallV2 MC TC L D E).
  Notation Obs := (Obs (@answer_v2 MC TC L D E)).

(** The effect of the calls of a trace. *)
Definition ctx_after (tr : list Obs) (c : NodeCtx) : NodeCtx :=
  foldl (fun c o => match obs_call o with context op => ctx_step op c | _ => c end) c tr.

Lemma ctx_after_app t1 t2 c : ctx_after (t1 ++ t2) c = ctx_after t2 (ctx_after t1 c).
Proof. apply foldl_app. Qed.

Definition own_call (u : Uuid) (c : Call) : Prop :=
  match c with context op => op_own u op | _ => True end.

Lemma own_trace_frame u tr c :
  Forall (fun o : Obs => own_call u (obs_call o)) tr -> frame u c (ctx_after tr c).
Proof.
  intros Htr. revert c; induction Htr as [|o tr Ho _ IH]; intros c; [reflexivity|].
  unfold ctx_after. cbn [foldl]. etrans; [|apply IH].
  destruct (obs_call o) eqn:Hc; try reflexivity. by apply own_frame.
Qed.

Lemma clean_up_leaves_nothing u a b tr c :
  runs (clean_up_context_impl u a b : prog (@answer_v2 MC TC L D E) unit) tr tt ->
  nothing_left u a b (ctx_after tr c).
Proof.
  unfold clean_up_context_impl. intros Hr. run_all Hr. destruct Hr as (? & ? & -> & -> & _).
  unfold nothing_left, ctx_after. cbn [foldl obs_call asked projT1].
  split; [cbn; set_solver|]. split; [cbn; by rewrite lookup_delete_eq|].
  split; [cbn; by rewrite lookup_delete_eq|]. intros coin Hcoin.
  rewrite !locked_retain. apply Forall_forall. intros l Hl.
  repeat case_decide; subst; rewrite ?list_elem_of_filter in Hl; naive_solver.
Qed.
End Trace.

(** ** The message stores *)

Section Mailbox.
  Context `{P2PCodec} `{SecretHasher}.

(** What happens to the stores: bytes come in on a topic from anyone, a swap
    polls, a swap opens or removes its store. *)
Inductive MailOpV2 : Type :=
| Incoming (topic : string) (msg : bytes)
| PollV2 (by_swap : Uuid) (k : MsgKindV2)
| OpenV2 (swap : Uuid) (from : bytes)
| RemoveV2 (swap : Uuid).

Definition mail_step_v2 (msgs : gmap Uuid SwapV2MsgStore) (op : MailOpV2) : gmap Uuid SwapV2MsgStore :=
  match op with
  | Incoming topic msg =>
      match process_swap_v2_msg topic msg msgs with Ok msgs' => msgs' | Err _ => msgs end
  | PollV2 u k => (poll_msg_v2 u k msgs).2
  | OpenV2 u from => <[u := SwapV2MsgStore_new from]> msgs
  | RemoveV2 u => delete u msgs
  end.

(** The message in the bytes, if [from] signed it for the swap [u] and it came
    on the topic of [u]. *)
Definition signed_for (u : Uuid) (from : bytes) (topic : string) (msg : bytes)
  : option SwapMessageInner :=
  u' ← uuid_from_str topic;
  sm ← decode_signed msg;
  key ← public_key_from_slice (sgm_from sm);
  sig ← signature_from_compact (sgm_signature sm);
  m ← decode_message (sgm_payload sm);
  u'' ← uuid_from_slice (swap_uuid m);
  if bool_decide (u' = u) && bool_decide (key = from) && bool_decide (u'' = u) &&
     secp_verify (sha256 (sgm_payload sm)) sig key
  then inner m else None.

(** The content of a message for one getter. *)
Definition payload_v2 (k : MsgKindV2) (m : SwapMessageInner) : option (msg_type_v2 k) :=
  match k return option (msg_type_v2 k) with
  | KMakerNegotiation => match m with MsgMakerNegotiation x => Some x | _ => None end
  | KTakerNegotiation => match m with MsgTakerNegotiation x => Some x | _ => None end
  | KMakerNegotiated => match m with MsgMakerNegotiated x => Some x | _ => None end
  | KTakerFunding => match m with MsgTakerFundingInfo x => Some x | _ => None end
  | KMakerPaymentInfo => match m with MsgMakerPaymentInfo x => Some x | _ => None end
  | KTakerPaymentSpendPreimage => match m with MsgTakerPaymentSpendPreimage x => Some x | _ => None end
  end.

#[export] Instance MsgKindV2_eq_dec : EqDecision MsgKindV2.
Proof. solve_decision. Defined.

(** The specification: whom the store of [u] listens to, and the newest
    message of the kind that this party signed since the last poll; nothing
    when the store is closed. *)
Definition newest_v2 (u : Uuid) (k : MsgKindV2) (acc : option (bytes * option (msg_type_v2 k)))
  (op : MailOpV2) : option (bytes * option (msg_type_v2 k)) :=
  match op with
  | Incoming topic msg =>
      match acc with
      | Some (from, old) =>
          match signed_for u from topic msg ≫= payload_v2 k with
          | Some x => Some (from, Some x)
          | None => acc
          end
      | None => None
      end
  | PollV2 u' k' =>
      if bool_decide (u' = u) && bool_decide (k' = k) then (fun a => (a.1, None)) <$> acc else acc
  | OpenV2 u' from => if bool_decide (u' = u) then Some (from, None) else acc
  | RemoveV2 u' => if bool_decide (u' = u) then None else acc
  end.

Definition read_store (k : MsgKindV2) (st : SwapV2MsgStore) : bytes * option (msg_type_v2 k) :=
  (st_accept_only_from st, (store_take_v2 k st).1).

Lemma read_put k m st :
  read_store k (put_message m st) =
    (st_accept_only_from st,
     match payload_v2 k m with Some x => Some x | None => (store_take_v2 k st).1 end).
Proof. by destruct st, m, k. Qed.

Lemma read_take k k' st :
  read_store k (store_take_v2 k' st).2 =
    (st_accept_only_from st, if decide (k' = k) then None else (store_take_v2 k st).1).
Proof. by destruct st, k, k'. Qed.

Lemma signed_other u u' from topic msg :
  uuid_from_str topic = Some u' -> u' <> u -> signed_for u from topic msg = None.
Proof.
  intros Hu Hne. unfold signed_for. rewrite Hu. cbn [mbind option_bind].
  rewrite (bool_decide_eq_false_2 _ Hne).
  destruct (decode_signed msg) as [sm|]; [cbn|done]. destruct (public_key_from_slice _); [cbn|done].
  destruct (signature_from_compact _); [cbn|done]. destruct (decode_message _); [cbn|done].
  by destruct (uuid_from_slice _).
Qed.

(** A message is taken for the swap exactly when the agreed party signed it. *)
Lemma process_lookup topic msg msgs u :
  mail_step_v2 msgs (Incoming topic msg) !! u =
    (fun st => match signed_for u (st_accept_only_from st) topic msg with
               | Some m => put_message m st
               | None => st
               end) <$> msgs !! u.
Proof.
  cbn [mail_step_v2]. destruct (uuid_from_str topic) as [u'|] eqn:Hu'.
  2: { unfold process_swap_v2_msg, signed_for. rewrite Hu'. cbn. by destruct (msgs !! u). }
  destruct (decide (u' = u)) as [->|Hne].
  2: { transitivity (msgs !! u).
       - unfold process_swap_v2_msg. rewrite Hu'. cbn [ok_or result_bind].
         destruct (msgs !! u') as [st|]; [|done]. unfold ok_or, result_bind.
         repeat case_match; simplify_eq; try done. by rewrite lookup_insert_ne.
       - destruct (msgs !! u) as [st|]; [|done]. cbn. by rewrite (signed_other u u'). }
  destruct (msgs !! u) as [st|] eqn:Hst; unfold process_swap_v2_msg, signed_for;
    rewrite Hu'; cbn [ok_or result_bind mbind option_bind]; rewrite Hst; [|done].
  rewrite (bool_decide_eq_true_2 (u = u)) by done. cbn [fmap option_fmap option_map andb].
  destruct (decode_signed msg) as [sm|]; cbn [ok_or result_bind mbind option_bind]; [|by rewrite Hst].
  destruct (public_key_from_slice _) as [key|]; cbn [ok_or result_bind mbind option_bind]; [|by rewrite Hst].
  case_bool_decide as Hk; cbn [ok_or result_bind andb].
  2: { rewrite Hst. destruct (signature_from_compact _); [cbn|done].
       destruct (decode_message _); [cbn|done]. by destruct (uuid_from_slice _). }
  destruct (signature_from_compact _) as [sig|]; cbn [ok_or result_bind mbind option_bind]; [|by rewrite Hst].
  destruct (secp_verify _ sig key); cbn [ok_or result_bind andb].
  2: { rewrite Hst. destruct (decode_message _) as [m|]; [cbn|done].
       destruct (uuid_from_slice _); [cbn|done]. by rewrite andb_false_r. }
  destruct (decode_message _) as [m|]; cbn [ok_or result_bind mbind option_bind]; [|by rewrite Hst].
  destruct (uuid_from_slice _) as [u''|]; cbn [ok_or result_bind mbind option_bind]; [|by rewrite Hst].
  case_bool_decide as Hm; cbn [ok_or result_bind andb]; [|by rewrite Hst].
  destruct (inner m); [|by rewrite Hst]. by rewrite lookup_insert_eq.
Qed.

Definition shows_v2 (u : Uuid) (k : MsgKindV2) (acc : option (bytes * option (msg_type_v2 k)))
  (msgs : gmap Uuid SwapV2MsgStore) : Prop := read_store k <$> msgs !! u = acc.

Lemma mail_step_shows_v2 u k acc msgs op :
  shows_v2 u k acc msgs -> shows_v2 u k (newest_v2 u k acc op) (mail_step_v2 msgs op).
Proof.
  unfold shows_v2. intros <-. destruct op as [topic msg|u' k'|u' from|u'].
  - rewrite process_lookup. cbn [newest_v2]. destruct (msgs !! u) as [st|]; [|done].
    cbn [fmap option_fmap option_map]. unfold read_store at 2.
    destruct (signed_for _ _ _ _) as [m|]; [|done]. cbn [mbind option_bind].
    rewrite read_put. by destruct (payload_v2 k m).
  - cbn [mail_step_v2 newest_v2]. unfold poll_msg_v2. destruct (decide (u' = u)) as [->|Hne].
    + rewrite (bool_decide_eq_true_2 (u = u)) by done. cbn [andb].
      destruct (msgs !! u) as [st|] eqn:Hst; cbn; [|rewrite Hst; by case_bool_decide].
      destruct (store_take_v2 k' st) as [x st'] eqn:E. cbn. rewrite lookup_insert_eq. cbn.
      replace st' with (store_take_v2 k' st).2 by by rewrite E.
      rewrite read_take. case_bool_decide; [by rewrite decide_True|]. by rewrite decide_False.
    + rewrite (bool_decide_eq_false_2 (u' = u)) by done. cbn [andb].
      destruct (msgs !! u') as [st|]; [|done]. destruct (store_take_v2 k' st). cbn.
      by rewrite lookup_insert_ne.
  - cbn. case_bool_decide; [subst; rewrite lookup_insert_eq; by destruct k|].
    by rewrite lookup_insert_ne.
  - cbn. case_bool_decide; [subst; by rewrite lookup_delete_eq|]. by rewrite lookup_delete_ne.
Qed.

(** What a poll reads, after any history of the stores. *)
Lemma poll_v2_newest msgs u k acc ops :
  shows_v2 u k acc msgs ->
  (poll_msg_v2 u k (foldl mail_step_v2 msgs ops)).1 = foldl (newest_v2 u k) acc ops ≫= snd.
Proof.
  revert msgs acc; induction ops as [|op ops IH]; intros msgs acc Hs.
  - cbn. unfold shows_v2 in Hs. subst acc. unfold poll_msg_v2.
    destruct (msgs !! u) as [st|]; [|done]. cbn. by destruct (store_take_v2 k st).
  - cbn. by apply IH, mail_step_shows_v2.
Qed.
End Mailbox.
