(* ===== verification/SwapV2Start.v ===== *)
(** * Starting the machines, and what a negotiation agrees on

    [start_maker_swap_state_machine] and [start_taker_swap_state_machine] of
    lp_ordermatch.rs on the fields of OrderSwap.v, and the two sides of a
    negotiation against each other: what one side funds is what the other
    side validates, and the lock times are ordered. *)

From S2P Require Import Prelude MmNumber DexFee Effects Swap Ordermatch OrderSwap StateMachine SwapV2.
From S2P Require MakerSwapV2 TakerSwapV2.

Open Scope Z_scope.

Definition start_maker_swap_state_machine (p : StateMachineStart) (now : Z)
  : MakerSwapV2.MakerSwapStateMachine := {|
  MakerSwapV2.started_at := now;
  MakerSwapV2.maker_volume := sm_maker_volume p;
  MakerSwapV2.secret := sm_secret p;
  MakerSwapV2.taker_volume := sm_taker_volume p;
  MakerSwapV2.taker_premium := (0 # 1);
  MakerSwapV2.conf_settings := sm_conf_settings p;
  MakerSwapV2.p2p_topic := swap_v2_topic (sm_uuid p);
  MakerSwapV2.uuid := sm_uuid p;
  MakerSwapV2.p2p_keypair := sm_p2p_keypair p;
  MakerSwapV2.secret_hash_algo := sm_secret_hash_algo p;
  MakerSwapV2.lock_duration := sm_lock_duration p;
  MakerSwapV2.taker_p2p_pubkey := sm_other_p2p_pubkey p;
  MakerSwapV2.require_taker_funding_confirm_before_maker_payment := false;
  MakerSwapV2.require_taker_payment_spend_confirm := true;
  MakerSwapV2.swap_version := sm_swap_version p |}.

Definition start_taker_swap_state_machine (p : StateMachineStart) (now : Z)
  : TakerSwapV2.TakerSwapStateMachine := {|
  TakerSwapV2.started_at := now;
  TakerSwapV2.lock_duration := sm_lock_duration p;
  TakerSwapV2.maker_volume := sm_maker_volume p;
  TakerSwapV2.taker_volume := sm_taker_volume p;
  TakerSwapV2.taker_premium := (0 # 1);
  TakerSwapV2.secret_hash_algo := sm_secret_hash_algo p;
  TakerSwapV2.conf_settings := sm_conf_settings p;
  TakerSwapV2.p2p_topic := swap_v2_topic (sm_uuid p);
  TakerSwapV2.uuid := sm_uuid p;
  TakerSwapV2.p2p_keypair := sm_p2p_keypair p;
  TakerSwapV2.taker_secret := sm_secret p;
  TakerSwapV2.maker_p2p_pubkey := sm_other_p2p_pubkey p;
  TakerSwapV2.require_maker_payment_confirm_before_funding_spend := true;
  TakerSwapV2.require_maker_payment_spend_confirm := true;
  TakerSwapV2.swap_version := sm_swap_version p |}.

(** The key that a coin sends is the one it uses. *)
Class LawfulKeys (c : CoinV2) : Prop := {
  parse_derived d : parse_pubkey c (derive_htlc_pubkey_v2_bytes c d) = Ok (derive_htlc_pubkey_v2 c d) }.

Section Negotiation.
  Context `{SecretHasher} `{DecimalConv}.
  Variables MC TC : CoinV2.
  Context `{!LawfulCoin TC} `{!LawfulKeys MC} `{!LawfulKeys TC}.

(** The two machines that a match starts, at their own times. *)
  Variables pm pt : StateMachineStart.
  Variables now_m now_t : Z.

Notation mk := (start_maker_swap_state_machine pm now_m).
Notation tk := (start_taker_swap_state_machine pt now_t).

(** Both have accepted the data of the other side: [nm] and [nt] are the terms
    that they go on with. *)
Definition negotiated (addr : Address TC) (nm : MakerSwapV2.NegotiationData MC TC)
  (nt : TakerSwapV2.NegotiationData MC TC) : Prop :=
  TakerSwapV2.check_maker_data MC TC tk (MakerSwapV2.maker_negotiation_msg MC TC mk addr) = Ok nt /\
  exists d, action (TakerSwapV2.taker_negotiation_msg MC TC tk) = Some (Continue d) /\
    MakerSwapV2.check_taker_data MC TC mk d = Ok nm.

(** A match fixes the same amounts and the same lock duration on both sides. *)
Definition same_match : Prop :=
  sm_maker_volume pm = sm_maker_volume pt /\ sm_taker_volume pm = sm_taker_volume pt /\
  sm_lock_duration pm = sm_lock_duration pt.

Lemma negotiated_terms addr nm nt :
  negotiated addr nm nt ->
  nt = TakerSwapV2.mkNegotiation MC TC (MakerSwapV2.secret_hash mk)
         (MakerSwapV2.maker_payment_locktime mk)
         (derive_htlc_pubkey_v2 MC (MakerSwapV2.unique_data mk))
         (derive_htlc_pubkey_v2 TC (MakerSwapV2.unique_data mk))
         (contract_address MC) (contract_address TC) addr /\
  nm = MakerSwapV2.mkNegotiation MC TC (TakerSwapV2.taker_payment_locktime tk)
         (TakerSwapV2.taker_funding_locktime tk)
         (derive_htlc_pubkey_v2 MC (TakerSwapV2.unique_data tk))
         (derive_htlc_pubkey_v2 TC (TakerSwapV2.unique_data tk))
         (contract_address MC) (contract_address TC) (TakerSwapV2.taker_secret_hash tk) /\
  abs_diff now_t now_m <= MAX_STARTED_AT_DIFF.
Proof.
  intros [Ht (d & [= <-] & Hm)].
  unfold TakerSwapV2.check_maker_data, MakerSwapV2.check_taker_data in *. cbn -[Z.mul wrap] in *.
  rewrite !parse_derived, parse_address_string in Ht. rewrite !parse_derived in Hm.
  destruct (abs_diff now_t now_m >? MAX_STARTED_AT_DIFF) eqn:Hd; [done|].
  destruct (abs_diff now_m now_t >? _); [done|]. cbn -[Z.mul wrap] in Ht, Hm.
  destruct (negb _) eqn:Hl in Ht; [done|]. cbn -[Z.mul wrap] in Ht.
  destruct (negb _) eqn:Ht1 in Ht; [done|]. cbn -[Z.mul wrap] in Ht.
  destruct (negb _) eqn:Hm1 in Hm; [done|]. cbn -[Z.mul wrap] in Hm.
  destruct (negb _) eqn:Hm2 in Hm; [done|]. cbn -[Z.mul wrap] in Hm.
  apply negb_false_iff, Z.eqb_eq in Ht1, Hm1, Hm2. rewrite <- Ht1 in Ht. rewrite <- Hm1, <- Hm2 in Hm.
  injection Ht as <-. injection Hm as <-. split; [done|]. split; [done|]. lia.
Qed.
End Negotiation.
