(* ===== verification/DemoV2.v ===== *)
(** * A concrete environment of the second protocol

    Coins whose transactions, keys and addresses are their own encoding, the
    two machines that a match starts, and [calm], the answers of an
    environment in which nothing goes wrong. *)

From S2P Require Import Prelude MmNumber DexFee Effects Swap StateMachine SwapV2 SwapV2Env SwapV2Start Demo.
From S2P Require Import Ordermatch OrderSwap.
From S2P Require MakerSwapV2 TakerSwapV2 MakerSwap TakerSwap.

Open Scope Z_scope.

Definition demo_coin_v2 (name : string) : CoinV2 := {|
  mm_coin := demo_coin name;
  Address := string;
  Pubkey := bytes;
  CoinTx := bytes;
  Preimage := bytes;
  Sig := bytes;
  parse_address := fun a => Ok a;
  parse_pubkey := fun b => Ok b;
  parse_tx := fun b => Ok b;
  parse_preimage := fun b => Ok b;
  parse_signature := fun b => Ok b;
  addr_to_string := fun a => a;
  pubkey_to_bytes := fun b => b;
  coin_tx_hex := fun b => b;
  tx_hash_as_bytes := fun b => take 1 b;
  preimage_to_bytes := fun b => b;
  sig_to_bytes := fun b => b;
  derive_htlc_pubkey_v2 := fun d => 2 :: d;
  derive_htlc_pubkey_v2_bytes := fun d => 2 :: d;
  taker_pubkey_bytes := Some [3];
  skip_taker_payment_spend_preimage := false;
  platform_ticker := name |}.

#[export] Instance demo_lawful name : LawfulCoin (demo_coin_v2 name).
Proof. by split. Qed.

#[export] Instance demo_lawful_keys name : LawfulKeys (demo_coin_v2 name).
Proof. by split. Qed.

#[export] Existing Instance demo_hasher.
#[export] Existing Instance exact_decimal.

Definition demo_MC : CoinV2 := demo_coin_v2 "KMD".
Definition demo_TC : CoinV2 := demo_coin_v2 "LTC".

Definition demo_order_coin (name : string) : OrderCoin :=
  mkOrderCoin (demo_coin name) (1 # 1) 1 SHA256 (fun _ => []) (fun _ _ _ _ => true).

Definition demo_start (secret other : Z) : StateMachineStart :=
  mkStateMachine (demo_order_coin "KMD") (10 # 1) (replicate 32 secret) (demo_order_coin "LTC")
    (20 # 1) demo_conf (replicate 16 1) None SHA256 7800 [other] 2.

Definition demo_maker_v2 : MakerSwapV2.MakerSwapStateMachine :=
  start_maker_swap_state_machine (demo_start 9 3) 1000000.
Definition demo_taker_v2 : TakerSwapV2.TakerSwapStateMachine :=
  start_taker_swap_state_machine (demo_start 8 2) 1000000.

Definition demo_taker_data : TakerNegotiationData :=
  match action (TakerSwapV2.taker_negotiation_msg demo_MC demo_TC demo_taker_v2) with
  | Some (Continue d) => d
  | _ => mkTakerNegotiationData 0 0 0 [] [] [] None None
  end.

Section Calm.
  Context {L D E : Type}.
  Notation Call := (CallV2 demo_MC demo_TC L D E).

Definition demo_msg_v2 (k : MsgKindV2) : msg_type_v2 k :=
  match k with
  | KMakerNegotiation => MakerSwapV2.maker_negotiation_msg demo_MC demo_TC demo_maker_v2 "maker"%string
  | KTakerNegotiation => mkTakerNegotiation (Some (Continue demo_taker_data))
  | KMakerNegotiated => mkMakerNegotiated true None
  | KTakerFunding => mkTakerFundingInfo [11; 1] None
  | KMakerPaymentInfo => mkMakerPaymentInfo [12; 1] None [5] [6]
  | KTakerPaymentSpendPreimage => mkTakerPaymentSpendPreimage [7] [8]
  end.

Definition side_fee (s : Side) : TradeFee :=
  mkTradeFee (match s with MakerSide => "KMD" | TakerSide => "LTC" end) (1 # 1000) false.

(** The clock shows the time since the sleeps, at least [now] seconds. *)
Definition calm_common (now : Z) (h : list (Obs (@answer_v2 demo_MC demo_TC L D E))) (c : Swap.Call L)
  : Swap.answer c :=
  match c return Swap.answer c with
  | now_sec => Z.max now (clock_floor h / 1000)
  | now_ms => Z.max (now * 1000) (clock_floor h)
  | get_sender_trade_fee s _ _ => Ok (side_fee s)
  | get_receiver_trade_fee s _ => Ok (side_fee s)
  | get_fee_to_send_taker_fee _ _ _ => Ok (side_fee TakerSide)
  | c => happy now c
  end.

Definition calm (now : Z) (h : list (Obs (@answer_v2 demo_MC demo_TC L D E))) (c : Call)
  : answer_v2 c :=
  match c return answer_v2 c with
  | common c' => calm_common now h c'
  | take_msg_v2 _ k => Some (demo_msg_v2 k)
  | my_addr => "maker"%string
  | get_tx_hex_by_hash _ _ => Ok [1]
  | send_raw_tx_bytes _ _ => Ok "hash"%string
  | send_taker_funding _ => Ok [11; 1]
  | refund_taker_funding_secret _ => Ok [14; 1]
  | sign_and_send_taker_funding_spend _ _ _ => Ok [13; 1]
  | refund_combined_taker_payment _ => Ok [15; 1]
  | sign_and_broadcast_taker_payment_spend _ _ _ _ => Ok [16; 1]
  | send_maker_payment_v2 _ => Ok [12; 1]
  | refund_maker_payment_v2_timelock _ => Ok [17; 1]
  | refund_maker_payment_v2_secret _ => Ok [17; 2]
  | spend_maker_payment_v2 _ => Ok [18; 1]
  | validate_taker_funding _ | validate_maker_payment_v2 _
  | validate_taker_funding_spend_preimage _ _ | validate_taker_payment_spend_preimage _ _ => Ok tt
  | search_for_taker_funding_spend _ _ _ => Ok (Some (TransferredToTakerPayment (c := demo_TC) [13; 1]))
  | gen_taker_funding_spend_preimage _ _ | gen_taker_payment_spend_preimage _ _ =>
      Ok (mkPreimageWithSig (c := demo_TC) [6] [5])
  | find_taker_payment_spend_tx _ _ _ => Ok [16; 1]
  | extract_secret_v2 _ _ => Ok (replicate 32 9)
  | broadcast_swap_v2_msg_every _ _ _ _ | context _ | spawn_lock_renew _ | stream_event _ _ => tt
  | swap_lock _ _ => Ok true
  | has_db_record_for _ => Ok false
  | insert_new_swap_v2 _ _ | store_swap_event _ _ | mark_swap_as_finished _ => Ok tt
  end.
End Calm.

(** What was done up to the first call that [f] picks. *)
Fixpoint up_to {Call : Type} {answer : Call -> Type} (f : Call -> bool) (h : list (Obs answer))
  : list (Obs answer) :=
  match h with
  | [] => []
  | o :: h => if f (obs_call o) then [o] else o :: up_to f h
  end.

Lemma up_to_split {Call : Type} {answer : Call -> Type} f (h : list (Obs answer)) :
  exists t, h = up_to f h ++ t.
Proof.
  induction h as [|o h [t IH]]; [by exists []|]. cbn [up_to]. destruct (f _); [by exists h|].
  exists t. cbn. by rewrite <- IH.
Qed.

Definition count_calls {Call : Type} {answer : Call -> Type} (f : Call -> bool)
  (h : list (Obs answer)) : nat := length (List.filter (fun o => f (obs_call o)) h).
