(* ===== verification/MakerV2Theorems.v ===== *)
(** * What is proved of the maker of the second protocol

    Over every behaviour of the coins, the network, the clock and the
    database, and every way the node can be stopped and restarted; and runs in
    a concrete environment. *)

From S2P Require Import Prelude MmNumber DexFee Effects Swap StateMachine SwapV2 SwapV2Env SwapV2Context SwapV2Start Demo DemoV2 MakerSwapV2 MakerV2Props MakerV2Safety MakerV2Ends.
From S2P Require MakerSwap.

Open Scope Z_scope.

Section Properties.
  Context `{SecretHasher} `{DecimalConv}.
  Variables MC TC : CoinV2.
  Context `{!LawfulCoin MC} `{!LawfulCoin TC}.
  Variable fuel : nat.

#[local] Instance maker_sm : StorableStateMachine _ _ _ _ _ := maker_machine MC TC fuel.

(** C7: whatever the coins, the network, the clock and the database answer, and
    however often the node is stopped and the machine recreated from its last
    event: the maker sends its payment only on terms that a message of the
    taker offered and that passed the checks, for a taker funding that was
    validated against these terms and seen on the network or confirmed, with a
    generated spend of this funding in hand; it reveals its secret only for a
    taker payment that spends such a funding, is confirmed, and whose spend was
    validated (or needs no preimage); it refunds only a payment it has sent,
    after the coin said that its lock time is over or with the secret that the
    taker showed by reclaiming the funding; and it stores only the events of
    states that all this supports. *)
Theorem maker_v2_money_safety m h evs :
  history fuel (recreate MC TC) m h evs -> safe (good_call MC TC m) h.
Proof. intros Hh. apply (maker_v2_history_ok MC TC fuel m h evs Hh). Qed.

(** *** The end of a session *)

Definition final_event (e : Event.MakerSwapEvent) : Prop :=
  match e with
  | Event.Aborted _ | Event.Completed | Event.MakerPaymentRefunded _ _ _ => True
  | _ => False
  end.

Definition payment_of (e : Event.MakerSwapEvent) : option TransactionIdentifier :=
  match e with
  | Event.MakerPaymentSentFundingSpendGenerated _ _ _ p _ _
  | Event.MakerPaymentRefundRequired _ _ _ p _ | Event.TakerPaymentReceived _ _ _ p _
  | Event.TakerPaymentReceivedAndPreimageValidationSkipped _ _ _ p _
  | Event.TakerPaymentSpent _ _ p _ _ _ => Some p
  | _ => None
  end.

(** How a swap ends whose payment is out. *)
Definition settled (p : TransactionIdentifier) (e : Event.MakerSwapEvent) : Prop :=
  match e with
  | Event.Completed | Event.Aborted (MakerPaymentRefundFailed _) => True
  | Event.MakerPaymentRefunded p' _ _ => p' = p
  | _ => False
  end.

Definition is_payment_spent (e : Event.MakerSwapEvent) : Prop :=
  match e with Event.TakerPaymentSpent _ _ _ _ _ _ => True | _ => False end.

Lemma maker_v2_settled_next p e e' :
  payment_of e = Some p \/ settled p e -> next_event (Some e) e' ->
  payment_of e' = Some p \/ settled p e'.
Proof. intros [Hp|Hp] Hn; destruct e, e'; naive_solver. Qed.

Lemma maker_v2_final_unpaid e p : final_event e -> payment_of e <> Some p.
Proof. by destruct e. Qed.

Lemma maker_v2_completed_after l e :
  follows next_event None (l ++ [Event.Completed]) -> e = Event.Completed ->
  exists e0, e0 ∈ l /\ is_payment_spent e0.
Proof.
  intros [_ [Hn _]]%follows_app _. unfold last_or in Hn.
  destruct (last l) as [e0|] eqn:Hl; [|done]. exists e0. split; [by apply last_Some_elem_of|].
  by destruct e0.
Qed.

Lemma maker_v2_last_state_final m s tr : runs (handle MC TC fuel m s) tr last_state -> final_event (get_event MC TC s).
Proof. intros Hr%maker_v2_handle_live. by destruct s, Hr. Qed.

Lemma maker_v2_finished_runs m tr u :
  runs (on_finished m) tr (Ok u) ->
  exists t, tr = asked (mark_swap_as_finished (uuid m)) (Ok tt) :: t /\
    runs (MakerSwapV2.clean_up_context MC TC m) t tt.
Proof.
  intros (t1 & t2 & [] & -> & (x & t & -> & -> & <-) & Hc)%on_finished_runs. by exists t2.
Qed.

Lemma maker_v2_history_path m h evs : history fuel (recreate MC TC) m h evs -> follows next_event None evs.
Proof.
  apply (history_follows_states fuel (recreate MC TC)).
  - intros m1 tr s. apply maker_v2_initialize_next.
  - intros m1 s tr s'. apply maker_v2_handle_next.
  - intros m1 evs1 m' s. apply (maker_v2_recreate_next MC TC).
Qed.

Lemma maker_v2_session_calls_own m h evs m' p :
  session fuel (recreate MC TC) m h evs m' p -> only (own_call (uuid m')) p.
Proof.
  apply (session_only fuel (recreate MC TC) (fun m => own_call (uuid m))); intros m1.
  - apply (only_weaken lock_call), lock_only. by intros [].
  - by repeat split.
  - by split.
  - by repeat split.
  - by split.
  - split; [apply (only_weaken handler_call), maker_v2_initialize_calls; by intros []|intros s].
    apply (only_weaken handler_call), maker_v2_handle_calls. by intros [].
  - intros e. split; [|split; [by split|]]; by destruct e; repeat split.
Qed.

(** C18: the events in the database are at any time a path of the transitions
    that the states declare, and each event takes over the start blocks, the
    terms (up to the swap contracts, which a restart loses), the funding and
    the payments from the one before it.  A session that ends well has stored
    the event of a last state, after a payment only that of a completed swap,
    of the refund of this payment, or of a refund that the coin refused;
    completed only after the taker payment was spent; the swap is marked as
    finished, and nothing of it is left in the node's context, where nothing
    else has changed. *)
Theorem maker_v2_path m h evs m' p :
  session fuel (recreate MC TC) m h evs m' p ->
  (forall tr evs', traces p tr -> journaled tr evs' -> follows next_event None (evs ++ evs')) /\
  (forall tr u, runs p tr (Ok u) ->
    exists e, last (evs ++ stored_of tr) = Some e /\ final_event e /\
      (forall e0 pay, e0 ∈ evs ++ stored_of tr -> payment_of e0 = Some pay -> settled pay e) /\
      (e = Event.Completed -> exists e0, e0 ∈ evs ++ stored_of tr /\ is_payment_spent e0) /\
      asked (mark_swap_as_finished (uuid m)) (Ok tt) ∈ tr /\
      forall c, nothing_left (uuid m) (coin_ticker MC) (coin_ticker TC) (ctx_after tr c) /\
        frame (uuid m) c (ctx_after tr c)).
Proof.
  intros Hs. assert (uuid m' = uuid m) as Hu.
  { by apply (maker_v2_session_machine MC TC fuel) in Hs as [->| ->]. }
  assert (forall tr evs', traces p tr -> journaled tr evs' -> follows next_event None (evs ++ evs'))
    as Hpath.
  { intros tr evs' Ht Hj. eapply maker_v2_history_path. by eapply session_history. }
  split; [done|]. intros tr u Hr.
  pose proof (Hpath tr _ (runs_traces _ _ _ Hr) (or_introl eq_refl)) as Hf.
  pose proof (maker_v2_session_calls_own _ _ _ _ _ Hs) as Ho.
  apply (session_outcome fuel (recreate MC TC)) with (tr := tr) (u := u) in Hs
    as (s & t1 & t2 & Hl & (t & Hlast) & -> & Hfin); [|apply maker_v2_initialize_live|apply maker_v2_recreate_live|done].
  change (StateMachine.get_event s) with (get_event MC TC s) in Hl.
  exists (get_event MC TC s). split; [done|]. apply maker_v2_last_state_final in Hlast. split; [done|].
  split.
  { intros e0 pay Hin Hp.
    destruct (follows_keeps next_event (fun e => payment_of e = Some pay \/ settled pay e) None _ e0 _
      (maker_v2_settled_next pay) Hf Hin (or_introl Hp) Hl) as [Hp'|Hp']; [|done].
    by destruct (maker_v2_final_unpaid _ pay Hlast). }
  split.
  { intros He. apply last_Some in Hl as [l Hl]. rewrite Hl, He in Hf.
    destruct (maker_v2_completed_after l _ Hf eq_refl) as (e0 & Hin & Hsp). exists e0.
    split; [|done]. rewrite Hl. apply elem_of_app. by left. }
  rewrite <- Hu. apply maker_v2_finished_runs in Hfin as (t3 & -> & Hclean).
  split; [apply elem_of_app; right; by left|]. intros c. split.
  - rewrite ctx_after_app. exact (clean_up_leaves_nothing _ _ _ t3 _ Hclean).
  - apply own_trace_frame. exact (only_runs _ _ _ _ Ho Hr).
Qed.
(** The maker that has seen the taker payment confirmed and gets no preimage
    for its spend gives up, and asks for its own refund, only when the time
    since it began to listen exceeds the swap's start time as a unix time, plus
    two thirds of the lock duration, plus 90 seconds: the point in time
    [taker_payment_conf_timeout] is passed as a duration.  With a start time of
    today that is half a century, long after both lock times. *)
Theorem maker_v2_preimage_wait m b1 b2 mp tp n tr r :
  0 <= started_at m < 2 ^ 60 -> 0 <= lock_duration m < 2 ^ 60 ->
  runs (handle MC TC fuel m (TakerPaymentReceived _ _ b1 b2 mp tp n)) tr
    (change_state (MakerPaymentRefundRequired _ _ b1 b2 n mp (DidNotGetTakerPaymentSpendPreimage r))) ->
  exists t0 t1, asked (common now_sec) t0 ∈ tr /\ asked (common now_sec) t1 ∈ tr /\
    (0 <= t0 < 2 ^ 62 -> t0 + 90 + started_at m + lock_duration m * 2 / 3 < t1).
Proof.
  intros Hs Hl Hr. eapply (preimage_wait MC TC fuel); [done..|exact Hr|]. by eexists.
Qed.
End Properties.

(** ** Witnesses: a swap that is stopped once *)

Section Witnesses.

Local Instance demo_sm : StorableStateMachine _ _ _ _ _ := maker_machine demo_MC demo_TC 100.

Local Notation Call := (CallV2 demo_MC demo_TC MakerSwap.MakerSwapEvent MakerSwapDbRepr Event.MakerSwapEvent).
Local Notation Obs := (Obs (@answer_v2 demo_MC demo_TC MakerSwap.MakerSwapEvent MakerSwapDbRepr
  Event.MakerSwapEvent)).

Definition is_send (c : Call) : bool := match c with send_maker_payment_v2 _ => true | _ => false end.
Definition is_spend (c : Call) : bool :=
  match c with sign_and_broadcast_taker_payment_spend _ _ _ _ => true | _ => false end.

(** The node is stopped when the payment is sent, before its event is stored;
    the second session starts from the event before. *)
Definition first_session : list Obs :=
  up_to is_send (exec (calm 1000000) [] (run_new 100 demo_maker_v2)).2.
Definition first_events : list Event.MakerSwapEvent := stored_of first_session.

Definition restored : MakerSwapStateMachine * MakerState demo_MC demo_TC :=
  match recreate demo_MC demo_TC demo_maker_v2 first_events with
  | Ok r => r
  | Err _ => (demo_maker_v2, Completed _ _)
  end.

Definition second_session : option (result SwapStateMachineError unit) * list Obs :=
  exec (calm 1000000) [] (kickstart 100 restored.1 restored.2).

Lemma maker_v2_first_history :
  history 100 (recreate demo_MC demo_TC) demo_maker_v2 first_session first_events.
Proof.
  constructor; [|by left]. unfold first_session.
  destruct (up_to_split is_send (exec (calm 1000000) [] (run_new 100 demo_maker_v2)).2) as [t Ht].
  apply (traces_prefix _ _ t). rewrite <- Ht. apply exec_traces.
Qed.

Lemma maker_v2_demo_restart :
  session 100 (recreate demo_MC demo_TC) demo_maker_v2 first_session first_events restored.1
    (kickstart 100 restored.1 restored.2).
Proof. apply session_restart; [apply maker_v2_first_history|by vm_compute]. Qed.

Lemma maker_v2_demo_history :
  history 100 (recreate demo_MC demo_TC) demo_maker_v2 (first_session ++ second_session.2)
    (first_events ++ stored_of second_session.2).
Proof. eapply session_history; [apply maker_v2_demo_restart|apply exec_traces|by left]. Qed.

(** The restored maker has not kept that it sent its payment: it sends it
    again. *)
Lemma maker_v2_money_safety_witness :
  safe (good_call demo_MC demo_TC demo_maker_v2) (first_session ++ second_session.2) /\
  count_calls is_send (first_session ++ second_session.2) = 2%nat /\
  count_calls is_spend (first_session ++ second_session.2) = 1%nat.
Proof.
  split; [|by vm_compute].
  apply (maker_v2_money_safety demo_MC demo_TC 100 _ _ _ maker_v2_demo_history).
Defined.

Lemma maker_v2_path_witness :
  follows next_event None (first_events ++ stored_of second_session.2) /\
  last (first_events ++ stored_of second_session.2) = Some Event.Completed /\
  asked (mark_swap_as_finished (uuid demo_maker_v2)) (Ok tt) ∈ second_session.2.
Proof.
  destruct (maker_v2_path demo_MC demo_TC 100 _ _ _ _ _ maker_v2_demo_restart) as [Hp He].
  split; [apply (Hp second_session.2); [apply exec_traces|by left]|]. split; [by vm_compute|].
  destruct (He second_session.2 tt) as (e & _ & _ & _ & _ & Hm & _); [|exact Hm].
  apply exec_fst. by vm_compute.
Defined.

(** No preimage comes; the clock jumps. *)
Definition late (h : list Obs) (c : Call) : answer_v2 c :=
  match c return answer_v2 c with
  | take_msg_v2 _ KTakerPaymentSpendPreimage => None
  | common now_sec => if (length h <? 3)%nat then 1000000 else 3000000
  | c => calm 1000000 h c
  end.

Definition demo_neg : NegotiationData demo_MC demo_TC :=
  mkNegotiation demo_MC demo_TC 1007800 1023400 [2] [2] None None (replicate 32 8).

Definition late_run := exec late [] (handle demo_MC demo_TC 100 demo_maker_v2
  (TakerPaymentReceived demo_MC demo_TC 100 100 [12; 1] [13; 1] demo_neg)).

Lemma maker_v2_preimage_wait_witness :
  exists t0 t1, asked (common now_sec) t0 ∈ late_run.2 /\ asked (common now_sec) t1 ∈ late_run.2 /\
    (0 <= t0 < 2 ^ 62 -> t0 + 90 + 1000000 + 7800 * 2 / 3 < t1).
Proof.
  eapply (maker_v2_preimage_wait demo_MC demo_TC 100 demo_maker_v2 100 100 [12; 1] [13; 1]
    demo_neg late_run.2 _ ltac:(by vm_compute) ltac:(by vm_compute)).
  apply exec_fst. vm_compute. reflexivity.
Defined.

End Witnesses.
