(* ===== verification/TakerV2Theorems.v ===== *)
(** * What is proved of the taker of the second protocol

    Over every behaviour of the coins, the network, the clock and the
    database, and every way the node can be stopped and restarted; and runs in
    a concrete environment. *)

From S2P Require Import Prelude MmNumber DexFee Effects Swap StateMachine SwapV2 SwapV2Env SwapV2Context SwapV2Start Demo DemoV2 TakerSwapV2 TakerV2Props TakerV2Safety TakerV2Ends.
From S2P Require TakerSwap.

Open Scope Z_scope.

Section Properties.
  Context `{SecretHasher} `{DecimalConv}.
  Variables MC TC : CoinV2.
  Context `{!LawfulCoin MC} `{!LawfulCoin TC}.
  Variable fuel : nat.

#[local] Instance taker_sm : StorableStateMachine _ _ _ _ _ := taker_machine MC TC fuel.

(** C8: whatever the coins, the network, the clock and the database answer, and
    however often the node is stopped and the machine recreated from its last
    event: the taker sends its funding only on terms that a message of the
    maker offered, that passed the checks and that the maker accepted; it
    spends the funding into the taker payment only with a preimage that was
    validated, for a maker payment that was validated and seen on the network,
    and confirmed where the machine requires it (the machines that the node
    starts do); it gives the maker the preimage of the last spend only for a
    taker payment it has sent in this way; it spends the maker payment only
    with the secret taken from the spend of its own payment; it reclaims with
    its secret only a funding it has sent, and refunds only a taker payment it
    has sent, after the coin said that its lock time is over; and it stores
    only the events of states that all this supports. *)
Theorem taker_v2_money_safety m h evs :
  history fuel (recreate MC TC) m h evs -> safe (good_call MC TC m) h.
Proof. intros Hh. apply (taker_v2_history_ok MC TC fuel m h evs Hh). Qed.

(** *** The end of a session *)

Definition final_event (e : Event.TakerSwapEvent) : Prop :=
  match e with
  | Event.Aborted _ | Event.Completed | Event.TakerFundingRefunded _ _ _
  | Event.TakerPaymentRefunded _ _ _ => True
  | _ => False
  end.

Definition payment_of (e : Event.TakerSwapEvent) : option TransactionIdentifier :=
  match e with
  | Event.TakerPaymentSent _ _ p _ _ | Event.TakerPaymentSentAndPreimageSendingSkipped _ _ p _ _
  | Event.TakerPaymentRefundRequired p _ _ | Event.TakerPaymentSpent _ _ _ p _ _
  | Event.MakerPaymentSpent _ _ _ p _ _ _ => Some p
  | _ => None
  end.

Definition funding_of (e : Event.TakerSwapEvent) : option TransactionIdentifier :=
  match e with
  | Event.TakerFundingSent _ _ _ f | Event.TakerFundingRefundRequired _ _ _ f _
  | Event.MakerPaymentAndFundingSpendPreimgReceived _ _ _ f _ _
  | Event.MakerPaymentConfirmed _ _ _ f _ _ => Some f
  | _ => None
  end.

(** How a swap ends whose payment is out. *)
Definition settled (p : TransactionIdentifier) (e : Event.TakerSwapEvent) : Prop :=
  match e with
  | Event.Completed
  | Event.Aborted (TakerPaymentRefundFailed _ | CouldNotExtractSecret _ | FailedToSpendMakerPayment _) =>
      True
  | Event.TakerPaymentRefunded p' _ _ => p' = p
  | _ => False
  end.

(** How a swap goes on whose funding is out. *)
Definition funded (f : TransactionIdentifier) (e : Event.TakerSwapEvent) : Prop :=
  funding_of e = Some f \/
  match e with
  | Event.TakerFundingRefunded f' _ _ => f' = f
  | Event.Aborted (TakerFundingRefundFailed _) => True
  | _ => exists p, payment_of e = Some p \/ settled p e
  end.

Definition funding_settled (f : TransactionIdentifier) (e : Event.TakerSwapEvent) : Prop :=
  match e with
  | Event.Completed | Event.TakerPaymentRefunded _ _ _
  | Event.Aborted (TakerFundingRefundFailed _ | TakerPaymentRefundFailed _ | CouldNotExtractSecret _
                  | FailedToSpendMakerPayment _) => True
  | Event.TakerFundingRefunded f' _ _ => f' = f
  | _ => False
  end.

Definition is_payment_spent (e : Event.TakerSwapEvent) : Prop :=
  match e with Event.MakerPaymentSpent _ _ _ _ _ _ _ => True | _ => False end.

Lemma taker_v2_settled_next p e e' :
  payment_of e = Some p \/ settled p e -> next_event (Some e) e' ->
  payment_of e' = Some p \/ settled p e'.
Proof.
  intros [Hp|Hp] Hn; destruct e, e'; cbn in *; try done; repeat case_match; naive_solver.
Qed.

Lemma funded_next f e e' : funded f e -> next_event (Some e) e' -> funded f e'.
Proof.
  unfold funded. intros [Hf|Hf] Hn; destruct e, e'; cbn in *; try done;
    repeat lazymatch goal with r : AbortReason |- _ => destruct r; cbn in *; try done end;
    first [naive_solver|destruct Hf as [p Hf]; right; exists p; by right].
Qed.

Lemma taker_v2_final_unpaid e p : final_event e -> payment_of e <> Some p.
Proof. by destruct e. Qed.

Lemma funded_final f e : funded f e -> final_event e -> funding_settled f e.
Proof.
  intros [Hf|Hf] He; destruct e; cbn in *; try done; try (by destruct Hf as [p []]).
  destruct reason; cbn in *; try done; by destruct Hf as [p []].
Qed.

Lemma taker_v2_completed_after l e :
  follows next_event None (l ++ [Event.Completed]) -> e = Event.Completed ->
  exists e0, e0 ∈ l /\ is_payment_spent e0.
Proof.
  intros [_ [Hn _]]%follows_app _. unfold last_or in Hn.
  destruct (last l) as [e0|] eqn:Hl; [|done]. exists e0. split; [by apply last_Some_elem_of|].
  by destruct e0.
Qed.

Lemma taker_v2_last_state_final m s tr : runs (handle MC TC fuel m s) tr last_state -> final_event (get_event MC TC s).
Proof. intros Hr%taker_v2_handle_live. by destruct s, Hr. Qed.

Lemma taker_v2_finished_runs m tr u :
  runs (on_finished m) tr (Ok u) ->
  exists t, tr = asked (mark_swap_as_finished (uuid m)) (Ok tt) :: t /\
    runs (TakerSwapV2.clean_up_context MC TC m) t tt.
Proof.
  intros (t1 & t2 & [] & -> & (x & t & -> & -> & <-) & Hc)%on_finished_runs. by exists t2.
Qed.

Lemma taker_v2_history_path m h evs : history fuel (recreate MC TC) m h evs -> follows next_event None evs.
Proof.
  apply (history_follows_states fuel (recreate MC TC)).
  - intros m1 tr s. apply taker_v2_initialize_next.
  - intros m1 s tr s'. apply taker_v2_handle_next.
  - intros m1 evs1 m' s. apply (taker_v2_recreate_next MC TC).
Qed.

Lemma taker_v2_session_calls_own m h evs m' p :
  session fuel (recreate MC TC) m h evs m' p -> only (own_call (uuid m')) p.
Proof.
  apply (session_only fuel (recreate MC TC) (fun m => own_call (uuid m))); intros m1.
  - apply (only_weaken lock_call), lock_only. by intros [].
  - by repeat split.
  - by split.
  - by repeat split.
  - by split.
  - split; [apply (only_weaken handler_call), taker_v2_initialize_calls; by intros []|intros s].
    apply (only_weaken handler_call), taker_v2_handle_calls. by intros [].
  - intros e. split; [|split; [by split|]]; by destruct e; repeat split.
Qed.

(** The events in the database are at any time a path of the transitions
    that the states declare, and each event takes over the start blocks, the
    terms (up to the swap contracts, which a restart loses), the funding and
    the payments from the one before it.  A session that ends well has stored
    the event of a last state: once a funding is out, a refund of this funding,
    the completed swap, a refund of the payment made from it, or an abort
    because a refund, the extraction of the secret or the spend of the maker
    payment failed; once a taker payment is out, only the latter ones, for this
    payment; completed only after the maker payment was spent.  The swap is
    marked as finished, and nothing of it is left in the node's context, where
    nothing else has changed. *)
Theorem taker_v2_path m h evs m' p :
  session fuel (recreate MC TC) m h evs m' p ->
  (forall tr evs', traces p tr -> journaled tr evs' -> follows next_event None (evs ++ evs')) /\
  (forall tr u, runs p tr (Ok u) ->
    exists e, last (evs ++ stored_of tr) = Some e /\ final_event e /\
      (forall e0 f, e0 ∈ evs ++ stored_of tr -> funding_of e0 = Some f -> funding_settled f e) /\
      (forall e0 pay, e0 ∈ evs ++ stored_of tr -> payment_of e0 = Some pay -> settled pay e) /\
      (e = Event.Completed -> exists e0, e0 ∈ evs ++ stored_of tr /\ is_payment_spent e0) /\
      asked (mark_swap_as_finished (uuid m)) (Ok tt) ∈ tr /\
      forall c, nothing_left (uuid m) (coin_ticker MC) (coin_ticker TC) (ctx_after tr c) /\
        frame (uuid m) c (ctx_after tr c)).
Proof.
  intros Hs. assert (uuid m' = uuid m) as Hu.
  { by apply (taker_v2_session_machine MC TC fuel) in Hs as [->| ->]. }
  assert (forall tr evs', traces p tr -> journaled tr evs' -> follows next_event None (evs ++ evs'))
    as Hpath.
  { intros tr evs' Ht Hj. eapply taker_v2_history_path. by eapply session_history. }
  split; [done|]. intros tr u Hr.
  pose proof (Hpath tr _ (runs_traces _ _ _ Hr) (or_introl eq_refl)) as Hf.
  pose proof (taker_v2_session_calls_own _ _ _ _ _ Hs) as Ho.
  apply (session_outcome fuel (recreate MC TC)) with (tr := tr) (u := u) in Hs
    as (s & t1 & t2 & Hl & (t & Hlast) & -> & Hfin); [|apply taker_v2_initialize_live|apply taker_v2_recreate_live|done].
  change (StateMachine.get_event s) with (get_event MC TC s) in Hl.
  exists (get_event MC TC s). split; [done|]. apply taker_v2_last_state_final in Hlast. split; [done|].
  split.
  { intros e0 f Hin Hp.
    apply (funded_final f); [|done].
    exact (follows_keeps next_event (funded f) None _ e0 _ (funded_next f) Hf Hin (or_introl Hp) Hl). }
  split.
  { intros e0 pay Hin Hp.
    destruct (follows_keeps next_event (fun e => payment_of e = Some pay \/ settled pay e) None _ e0 _
      (taker_v2_settled_next pay) Hf Hin (or_introl Hp) Hl) as [Hp'|Hp']; [|done].
    by destruct (taker_v2_final_unpaid _ pay Hlast). }
  split.
  { intros He. apply last_Some in Hl as [l Hl]. rewrite Hl, He in Hf.
    destruct (taker_v2_completed_after l _ Hf eq_refl) as (e0 & Hin & Hsp). exists e0.
    split; [|done]. rewrite Hl. apply elem_of_app. by left. }
  rewrite <- Hu. apply taker_v2_finished_runs in Hfin as (t3 & -> & Hclean).
  split; [apply elem_of_app; right; by left|]. intros c. split.
  - rewrite ctx_after_app. exact (clean_up_leaves_nothing _ _ _ t3 _ Hclean).
  - apply own_trace_frame. exact (only_runs _ _ _ _ Ho Hr).
Qed.

End Properties.

(** ** Witnesses: a swap that is stopped once *)

Section Witnesses.

Local Instance demo_sm : StorableStateMachine _ _ _ _ _ := taker_machine demo_MC demo_TC 100.

Local Notation Call := (CallV2 demo_MC demo_TC TakerSwap.TakerSwapEvent TakerSwapDbRepr Event.TakerSwapEvent).
Local Notation Obs := (Obs (@answer_v2 demo_MC demo_TC TakerSwap.TakerSwapEvent TakerSwapDbRepr
  Event.TakerSwapEvent)).

Definition is_send (c : Call) : bool :=
  match c with sign_and_send_taker_funding_spend _ _ _ => true | _ => false end.
Definition is_reclaim (c : Call) : bool :=
  match c with refund_taker_funding_secret _ => true | _ => false end.

(** The node is stopped when the taker payment is sent, before its event is
    stored; the second session starts from the event before, and the coin
    refuses to spend the funding again. *)
Definition spent_before (h : list Obs) (c : Call) : answer_v2 c :=
  match c return answer_v2 c with
  | sign_and_send_taker_funding_spend _ _ _ | refund_taker_funding_secret _ =>
      Err (Plain "inputs are spent")
  | c => calm 1000000 h c
  end.

Definition first_session : list Obs :=
  up_to is_send (exec (calm 1000000) [] (run_new 100 demo_taker_v2)).2.
Definition first_events : list Event.TakerSwapEvent := stored_of first_session.

Definition restored : TakerSwapStateMachine * TakerState demo_MC demo_TC :=
  match recreate demo_MC demo_TC demo_taker_v2 first_events with
  | Ok r => r
  | Err _ => (demo_taker_v2, Completed _ _)
  end.

Definition second_session : option (result SwapStateMachineError unit) * list Obs :=
  exec spent_before [] (kickstart 100 restored.1 restored.2).

Lemma taker_v2_first_history :
  history 100 (recreate demo_MC demo_TC) demo_taker_v2 first_session first_events.
Proof.
  constructor; [|by left]. unfold first_session.
  destruct (up_to_split is_send (exec (calm 1000000) [] (run_new 100 demo_taker_v2)).2) as [t Ht].
  apply (traces_prefix _ _ t). rewrite <- Ht. apply exec_traces.
Qed.

Lemma taker_v2_demo_restart :
  session 100 (recreate demo_MC demo_TC) demo_taker_v2 first_session first_events restored.1
    (kickstart 100 restored.1 restored.2).
Proof. apply session_restart; [apply taker_v2_first_history|by vm_compute]. Qed.

Lemma taker_v2_demo_history :
  history 100 (recreate demo_MC demo_TC) demo_taker_v2 (first_session ++ second_session.2)
    (first_events ++ stored_of second_session.2).
Proof. eapply session_history; [apply taker_v2_demo_restart|apply exec_traces|by left]. Qed.

(** The restored taker has not kept that it sent its payment: it tries to send
    it again, takes the refusal for a failed payment, tries to reclaim the
    funding with its secret, and gives up while its payment is out. *)
Lemma taker_v2_money_safety_witness :
  safe (good_call demo_MC demo_TC demo_taker_v2) (first_session ++ second_session.2) /\
  count_calls is_send (first_session ++ second_session.2) = 2%nat /\
  count_calls is_reclaim (first_session ++ second_session.2) = 1%nat.
Proof.
  split; [|by vm_compute].
  apply (taker_v2_money_safety demo_MC demo_TC 100 _ _ _ taker_v2_demo_history).
Defined.

Lemma taker_v2_path_witness :
  follows next_event None (first_events ++ stored_of second_session.2) /\
  last (first_events ++ stored_of second_session.2) = 
    Some (Event.Aborted (TakerFundingRefundFailed "inputs are spent")) /\
  asked (mark_swap_as_finished (uuid demo_taker_v2)) (Ok tt) ∈ second_session.2.
Proof.
  destruct (taker_v2_path demo_MC demo_TC 100 _ _ _ _ _ taker_v2_demo_restart) as [Hp He].
  split; [apply (Hp second_session.2); [apply exec_traces|by left]|]. split; [by vm_compute|].
  destruct (He second_session.2 tt) as (e & _ & _ & _ & _ & _ & Hm & _); [|exact Hm].
  apply exec_fst. by vm_compute.
Defined.

End Witnesses.
