(* ===== verification/SwapV2Theorems.v ===== *)
(** * What is proved of both sides of the second protocol

    That every session comes to an end in a fair environment, that a restart
    loses only the swap contracts, that the two sides of a negotiation fund
    and validate the same, and that a swap reads the newest message of its
    counterparty. *)

From S2P Require Import Prelude MmNumber DexFee Effects Swap Ordermatch OrderSwap StateMachine SwapV2 SwapV2Env SwapV2Context SwapV2Start Demo DemoV2.
From S2P Require MakerSwapV2 MakerV2Props MakerV2Ends TakerSwapV2 TakerV2Props TakerV2Ends.

Open Scope Z_scope.

Section Sessions.
  Context `{SecretHasher} `{DecimalConv}.
  Variables MC TC : CoinV2.
  Context `{!LawfulCoin MC} `{!LawfulCoin TC}.
  Variable fuel : nat.

#[local] Instance maker_sm : StorableStateMachine _ _ _ _ _ := MakerSwapV2.maker_machine MC TC fuel.
#[local] Instance taker_sm : StorableStateMachine _ _ _ _ _ := TakerSwapV2.taker_machine MC TC fuel.

(** C19: in a fair environment (the clock advances by what the loops sleep, the
    refund becomes possible after finitely many queries) every session of a
    maker and of a taker, new or recreated after any history, returns: no
    loop waits for ever, no state is entered twice, and nothing panics.  For
    the maker the fuel must reach [taker_payment_conf_timeout], the point in
    time that it takes for a duration. *)
Theorem v2_sessions_end N T :
  (forall m h evs m' p h', MakerV2Ends.bounded T m -> enough_fuel fuel N T ->
     session fuel (MakerSwapV2.recreate MC TC) m h evs m' p -> returns (fair N) h' p) /\
  (forall m h evs m' p h', enough_fuel fuel N NEGOTIATION_TIMEOUT_SEC ->
     session fuel (TakerSwapV2.recreate MC TC) m h evs m' p -> returns (fair N) h' p).
Proof.
  split; intros; [by eapply MakerV2Ends.maker_v2_session_returns|by eapply TakerV2Ends.taker_v2_session_returns].
Qed.

(** C17: a machine that the node has started is recreated from its database
    record as it was, in the state of its last event, which is the state that
    was left up to the addresses of the swap contracts; a swap that was
    aborted, completed or refunded is not recreated.  The handler of the
    recreated state asks the same and goes on to the same state, again up to
    these addresses. *)
Theorem v2_restart p now :
  (forall evs s, last evs = Some (MakerSwapV2.get_event MC TC s) ->
     let m := start_maker_swap_state_machine p now in
     MakerSwapV2.recreate MC TC m evs =
       match MakerV2Props.ended MC TC s with
       | Some e => Err e
       | None => Ok (m, MakerV2Props.forget MC TC s)
       end /\
     prog_sim (MakerV2Props.same_but_contracts MC TC) (MakerSwapV2.handle MC TC fuel m s)
       (MakerSwapV2.handle MC TC fuel m (MakerV2Props.forget MC TC s))) /\
  (forall evs s, last evs = Some (TakerSwapV2.get_event MC TC s) ->
     let m := start_taker_swap_state_machine p now in
     TakerSwapV2.recreate MC TC m evs =
       match TakerV2Props.ended MC TC s with
       | Some e => Err e
       | None => Ok (m, TakerV2Props.forget MC TC s)
       end /\
     prog_sim (TakerV2Props.same_but_contracts MC TC) (TakerSwapV2.handle MC TC fuel m s)
       (TakerSwapV2.handle MC TC fuel m (TakerV2Props.forget MC TC s))).
Proof.
  split; intros evs s Hl m.
  - split; [|apply MakerV2Props.maker_v2_handle_forget]. by rewrite (MakerV2Props.maker_v2_recreate_last _ _ m _ s).
  - split; [|apply TakerV2Props.taker_v2_handle_forget]. by rewrite (TakerV2Props.taker_v2_recreate_last _ _ m _ s).
Qed.
End Sessions.

Section Agreement.
  Context `{SecretHasher} `{DecimalConv}.
  Variables MC TC : CoinV2.
  Context `{!LawfulCoin MC} `{!LawfulCoin TC} `{!LawfulKeys MC} `{!LawfulKeys TC}.
  Variables pm pt : StateMachineStart.
  Variables now_m now_t : Z.

Local Notation mk := (start_maker_swap_state_machine pm now_m).
Local Notation tk := (start_taker_swap_state_machine pt now_t).

(** The taker looks its DEX fee up under the key that the maker knows it by. *)
Definition same_fee_key : Prop :=
  taker_pubkey_bytes TC =
    Some (pubkey_to_bytes TC (derive_htlc_pubkey_v2 TC (TakerSwapV2.unique_data tk))).

(** What one side pays is what the other one validates. *)
Definition same_maker_payment (sent : SendMakerPaymentArgs MC) (checked : ValidateMakerPaymentArgs MC)
  : Prop :=
  vmp_time_lock _ checked = smp_time_lock _ sent /\
  vmp_taker_secret_hash _ checked = smp_taker_secret_hash _ sent /\
  vmp_maker_secret_hash _ checked = smp_maker_secret_hash _ sent /\
  vmp_amount _ checked = smp_amount _ sent /\
  smp_taker_pub _ sent = derive_htlc_pubkey_v2 MC (TakerSwapV2.unique_data tk) /\
  vmp_maker_pub _ checked = derive_htlc_pubkey_v2 MC (MakerSwapV2.unique_data mk).

Definition same_funding (sent : SendTakerFundingArgs) (checked : ValidateTakerFundingArgs TC) : Prop :=
  vtf_funding_time_lock _ checked = sff_funding_time_lock sent /\
  vtf_payment_time_lock _ checked = sff_payment_time_lock sent /\
  vtf_taker_secret_hash _ checked = sff_taker_secret_hash sent /\
  vtf_maker_secret_hash _ checked = sff_maker_secret_hash sent /\
  vtf_premium_amount _ checked = sff_premium_amount sent /\
  vtf_trading_amount _ checked = sff_trading_amount sent /\
  sff_maker_pub sent =
    pubkey_to_bytes TC (derive_htlc_pubkey_v2 TC (MakerSwapV2.unique_data mk)) /\
  vtf_taker_pub _ checked = derive_htlc_pubkey_v2 TC (TakerSwapV2.unique_data tk) /\
  (same_fee_key -> vtf_dex_fee _ checked = sff_dex_fee sent).

Lemma fee_agrees :
  same_match pm pt -> same_fee_key ->
  MakerSwapV2.dex_fee_updated MC TC mk
    (pubkey_to_bytes TC (derive_htlc_pubkey_v2 TC (TakerSwapV2.unique_data tk))) =
  TakerSwapV2.dex_fee MC TC tk.
Proof.
  intros (_ & Hv & _) Hk. unfold MakerSwapV2.dex_fee_updated, TakerSwapV2.dex_fee.
  rewrite Hk. cbn. by rewrite Hv.
Qed.

(** C16: when both machines of a match accept the data that the other side
    sends, they have the same terms: the maker payment that the maker sends is
    the one that the taker validates, the funding that the taker sends is the
    one that the maker validates, both mean the same spend of the funding and
    the same spend of the taker payment (the DEX fee if the taker looks it up
    under the same key), although each side computes lock times, hashes, keys
    and amounts from its own data.  The clocks differ by at most
    [MAX_STARTED_AT_DIFF], and up to this minute each lock ends a full lock
    duration after the one before it (taker payment, maker payment, funding);
    the maker waits for the taker payment until a third of the duration before
    it unlocks. *)
Theorem v2_negotiation_agrees addr nm nt :
  same_match pm pt -> negotiated MC TC pm pt now_m now_t addr nm nt ->
  (forall tx, same_maker_payment (MakerSwapV2.send_payment_args MC TC mk nm)
                (TakerSwapV2.maker_payment_args MC TC tk nt tx)) /\
  (forall tx, same_funding (TakerSwapV2.send_funding_args MC TC tk nt)
                (MakerSwapV2.funding_validation_args MC TC mk nm tx)) /\
  (forall tx, MakerSwapV2.gen_funding_spend_args MC TC mk nm tx =
              TakerSwapV2.funding_spend_args MC TC tk nt tx) /\
  (forall tx, same_fee_key ->
     MakerSwapV2.payment_spend_args MC TC mk nm tx addr = TakerSwapV2.payment_spend_args MC TC tk nt tx) /\
  (let L := sm_lock_duration pm in
   0 <= now_m < 2 ^ 61 -> 0 <= now_t < 2 ^ 61 -> 0 <= L < 2 ^ 61 ->
   TakerSwapV2.taker_payment_locktime tk + L - 60 <= MakerSwapV2.maker_payment_locktime mk /\
   MakerSwapV2.maker_payment_locktime mk + L - 60 <= TakerSwapV2.taker_funding_locktime tk /\
   MakerSwapV2.taker_payment_conf_timeout mk + L / 3 - 60 <= TakerSwapV2.taker_payment_locktime tk).
Proof.
  intros Hmatch Hn. apply negotiated_terms in Hn as (-> & -> & Hd); [|done..].
  pose proof Hmatch as (Hmv & Htv & Hld). split_and!; intros.
  - unfold same_maker_payment. cbn -[wrap Z.mul]. by rewrite Hmv.
  - unfold same_funding. cbn -[wrap Z.mul]. rewrite Htv. split_and!; try done.
    intros Hk. exact (fee_agrees Hmatch Hk).
  - done.
  - unfold MakerSwapV2.payment_spend_args, TakerSwapV2.payment_spend_args.
    cbn [MakerSwapV2.taker_coin_htlc_pub_from_taker]. rewrite (fee_agrees Hmatch); [|done].
    cbn -[wrap Z.mul]. by rewrite Htv.
  - unfold abs_diff, MAX_STARTED_AT_DIFF, MAX_TIME_GAP_FOR_CONNECTED_PEER in Hd. subst L.
    unfold TakerSwapV2.taker_payment_locktime, MakerSwapV2.maker_payment_locktime,
      TakerSwapV2.taker_funding_locktime, MakerSwapV2.taker_payment_conf_timeout.
    cbn -[wrap Z.mul Z.div]. rewrite <- Hld. set (L := sm_lock_duration pm) in *.
    assert (0 <= L * 2 / 3 <= L + L /\ L * 2 / 3 + L / 3 <= L) as [Hq1 Hq2].
    { Z.to_euclidean_division_equations; lia. }
    rewrite (wrap_id 64 (L * 2)), (wrap_id 64 (2 * L)), (wrap_id 64 (L * 3)) by (unfold is_uint; lia).
    rewrite !wrap_id by (unfold is_uint; lia). lia.
Qed.
End Agreement.

(** Whatever bytes come in on any topic, and however the swaps of the node
    open, poll and remove their stores: a poll of a swap for a kind of message
    returns the newest message of this kind that came on the swap's topic,
    names the swap, and is signed by the party that the open store listens to,
    and none when there was none since the last poll or since the store was
    opened, or when it is closed. *)
Theorem v2_poll_newest `{P2PCodec} `{SecretHasher} msgs u k ops :
  (poll_msg_v2 u k (foldl mail_step_v2 msgs ops)).1 =
    foldl (newest_v2 u k) (read_store k <$> msgs !! u) ops ≫= snd.
Proof. by apply poll_v2_newest. Qed.

(** ** Witnesses *)

Section Witnesses.

Lemma v2_sessions_end_witness :
  enough_fuel (Z.to_nat 11000) 5 10000 /\
  (let _ := MakerSwapV2.maker_machine demo_MC demo_TC (Z.to_nat 11000) in
   returns (fair 5) [] (run_new (Z.to_nat 11000) (start_maker_swap_state_machine (demo_start 9 3) 100))) /\
  (let _ := TakerSwapV2.taker_machine demo_MC demo_TC (Z.to_nat 11000) in
   returns (fair 5) [] (run_new (Z.to_nat 11000) (start_taker_swap_state_machine (demo_start 8 2) 100))).
Proof.
  assert (enough_fuel (Z.to_nat 11000) 5 10000) as Hf by (unfold enough_fuel; lia).
  split; [done|]. split.
  - eapply (v2_sessions_end demo_MC demo_TC (Z.to_nat 11000) 5 10000); [|done|apply session_new].
    by split; vm_compute.
  - eapply (v2_sessions_end demo_MC demo_TC (Z.to_nat 11000) 5 10000); [|apply session_new].
    unfold enough_fuel, NEGOTIATION_TIMEOUT_SEC in *. lia.
Defined.

Definition demo_neg_m : MakerSwapV2.NegotiationData demo_MC demo_TC :=
  MakerSwapV2.mkNegotiation demo_MC demo_TC 1007830 1023430 (2 :: replicate 16 1) (2 :: replicate 16 1)
    None None (replicate 32 8).
Definition demo_neg_t : TakerSwapV2.NegotiationData demo_MC demo_TC :=
  TakerSwapV2.mkNegotiation demo_MC demo_TC (replicate 32 9) 1015600 (2 :: replicate 32 9)
    (2 :: replicate 32 9) None None "maker"%string.

Lemma v2_restart_witness :
  MakerSwapV2.recreate demo_MC demo_TC demo_maker_v2
    [MakerSwapV2.get_event demo_MC demo_TC
       (MakerSwapV2.TakerPaymentReceived demo_MC demo_TC 100 100 [12; 1] [13; 1] demo_neg_m)] =
    Ok (demo_maker_v2,
        MakerSwapV2.TakerPaymentReceived demo_MC demo_TC 100 100 [12; 1] [13; 1] demo_neg_m) /\
  TakerSwapV2.recreate demo_MC demo_TC demo_taker_v2
    [TakerSwapV2.get_event demo_MC demo_TC (TakerSwapV2.Completed demo_MC demo_TC)] = Err SwapCompleted.
Proof.
  destruct (v2_restart demo_MC demo_TC 100 (demo_start 9 3) 1000000) as [Hm _].
  destruct (v2_restart demo_MC demo_TC 100 (demo_start 8 2) 1000000) as [_ Ht].
  split.
  - exact (proj1 (Hm [_] (MakerSwapV2.TakerPaymentReceived demo_MC demo_TC 100 100 [12; 1] [13; 1]
      demo_neg_m) eq_refl)).
  - exact (proj1 (Ht [_] (TakerSwapV2.Completed demo_MC demo_TC) eq_refl)).
Defined.

(** Two nodes with clocks half a minute apart. *)
Lemma demo_negotiated :
  negotiated demo_MC demo_TC (demo_start 9 3) (demo_start 8 2) 1000000 1000030 "maker"%string
    demo_neg_m demo_neg_t.
Proof.
  split; [vm_compute; reflexivity|].
  exists (match action (TakerSwapV2.taker_negotiation_msg demo_MC demo_TC
             (start_taker_swap_state_machine (demo_start 8 2) 1000030)) with
          | Some (Continue d) => d
          | _ => demo_taker_data
          end).
  split; vm_compute; reflexivity.
Qed.

Lemma v2_negotiation_agrees_witness :
  (forall tx, same_maker_payment demo_MC (demo_start 9 3) (demo_start 8 2) 1000000 1000030
     (MakerSwapV2.send_payment_args demo_MC demo_TC demo_maker_v2 demo_neg_m)
     (TakerSwapV2.maker_payment_args demo_MC demo_TC
        (start_taker_swap_state_machine (demo_start 8 2) 1000030) demo_neg_t tx)) /\
  1007830 + 7800 - 60 <= 1015600.
Proof.
  destruct (v2_negotiation_agrees demo_MC demo_TC (demo_start 9 3) (demo_start 8 2) 1000000 1000030
    "maker"%string demo_neg_m demo_neg_t ltac:(by vm_compute) demo_negotiated)
    as (Hp & _ & _ & _ & Hw).
  split; [exact Hp|]. by apply Hw; vm_compute.
Defined.
End Witnesses.
