(* ===== verification/SwapWatcher.v ===== *)
(** * The swap watcher (lp_swap/swap_watcher.rs)

    A node that watches swaps of others: a taker's message makes it follow
    the taker's payment, spend the maker's payment with the revealed secret
    when the taker does not, and refund the taker's payment when nobody
    spends it.  The states with their handlers, the machine that runs them
    ([StateMachineTrait::run] of the crate mm2_state_machine), the watchers of
    a node with their lock, and the steps of such a node. *)

From S2P Require Import Prelude MmNumber Effects Swap StateMachine.
From S2P Require TakerSwap.

Open Scope Z_scope.

(** ** Data *)

Definition TAKER_SWAP_CONFIRMATIONS : Z := 1.
Definition TAKER_SWAP_ENTRY_TIMEOUT_SEC : Z := 21600.

Definition sixty_f64 : Q := 60.
Definition three_hundred_f64 : Q := 300.

Record WatcherConf : Type := mkWatcherConf {
  wait_taker_payment : Q;
  wait_maker_payment_spend_factor : Q;
  refund_start_factor : Q;
  search_interval : Q }.

Definition WatcherConf_default : WatcherConf :=
  mkWatcherConf sixty_f64 TakerSwap.default_watcher_maker_payment_spend_factor
    TakerSwap.default_watcher_refund_factor three_hundred_f64.

Record WatcherStateMachine : Type := mkWatcher {
  taker_coin : Coin;
  maker_coin : Coin;
  verified_pub : bytes;
  data : TakerSwapWatcherData;
  conf : WatcherConf;
  watcher_reward : bool }.

(** The cast [as u64] of a float: towards zero, saturating.  The factors are
    rationals here; for the defaults the product is exact. *)
Definition f64_as_u64 (q : Q) : Z := Z.max 0 (Z.min (2 ^ 64 - 1) (Qfloor q)).

Definition taker_locktime (m : WatcherStateMachine) : Z :=
  wrap 64 (wd_swap_started_at (data m) + wd_lock_duration (data m)).

(** [swap_started_at + (factor * lock_duration as f64) as u64] *)
Definition after_factor (factor : Q) (m : WatcherStateMachine) : Z :=
  wrap 64 (wd_swap_started_at (data m)
           + f64_as_u64 (factor * inject_Z (wd_lock_duration (data m)))).

Definition wait_for_maker_payment_spend_deadline (m : WatcherStateMachine) : Z :=
  after_factor (wait_maker_payment_spend_factor (conf m)) m.

Definition refund_start_time (m : WatcherStateMachine) : Z :=
  after_factor (refund_start_factor (conf m)) m.

Inductive WatcherSuccess : Type :=
| MakerPaymentSpent
| TakerPaymentRefunded
| MakerPaymentSpentByTaker
| TakerPaymentRefundedByTaker.

Inductive WatcherError : Type :=
| InvalidTakerFee (e : string)
| TakerPaymentNotConfirmed (e : string)
| InvalidTakerPayment (e : string)
| UnableToExtractSecret (e : string)
| MakerPaymentSpendFailed (e : string)
| MakerPaymentCouldNotBeFound (e : string)
| TakerPaymentRefundFailed (e : string).

Inductive StopReason : Type :=
| Finished (s : WatcherSuccess)
| Error (e : WatcherError).

Inductive WatcherState : Type :=
| ValidateTakerFee
| ValidateTakerPayment
| WaitForTakerPaymentSpend (taker_payment_hex : bytes)
| RefundTakerPayment
| SpendMakerPayment (secret : bytes)
| Stopped (stop_reason : StopReason).

(** The declared transitions ([TransitionFrom]). *)
Definition transition_from (s next : WatcherState) : bool :=
  match s, next with
  | ValidateTakerFee, ValidateTakerPayment
  | ValidateTakerPayment, WaitForTakerPaymentSpend _
  | WaitForTakerPaymentSpend _, SpendMakerPayment _
  | WaitForTakerPaymentSpend _, RefundTakerPayment => true
  | Stopped _, Stopped _ => false
  | _, Stopped _ => true
  | _, _ => false
  end.

Definition from_reason (r : StopReason) : WatcherState := Stopped r.

(** ** The calls of a watcher *)

Record WatcherValidateTakerFeeInput : Type := mkValidateTakerFee {
  wf_taker_fee_hash : bytes;
  wf_sender_pubkey : bytes;
  wf_min_block_number : Z;
  wf_lock_duration : Z }.

Record WatcherValidatePaymentInput : Type := mkWatcherValidatePayment {
  wv_payment_tx : bytes;
  wv_taker_payment_refund_preimage : bytes;
  wv_time_lock : Z;
  wv_taker_pub : bytes;
  wv_maker_pub : bytes;
  wv_secret_hash : bytes;
  wv_wait_until : Z;
  wv_confirmations : Z;
  wv_maker_coin : Coin }.

Record WatcherSearchForSwapTxSpendInput : Type := mkWatcherSearch {
  wse_time_lock : Z;
  wse_taker_pub : bytes;
  wse_maker_pub : bytes;
  wse_secret_hash : bytes;
  wse_tx : bytes;
  wse_search_from_block : Z;
  wse_watcher_reward : bool }.

Record SendMakerPaymentSpendPreimageInput : Type := mkSpendPreimage {
  sm_preimage : bytes;
  sm_secret_hash : bytes;
  sm_secret : bytes;
  sm_taker_pub : bytes;
  sm_watcher_reward : bool }.

(** Fee, taker payment and refund concern the taker coin, the spend and the
    search for it the maker coin.  [log_stopped] is the line [Stopped] logs. *)
Inductive WatcherCall : Type :=
| now_sec
| sleep (secs : Q)
| watcher_validate_taker_fee (a : WatcherValidateTakerFeeInput)
| get_tx_hex_by_hash (s : Side) (hash : bytes)
| wait_for_confirmations (a : ConfirmPaymentInput)
| watcher_validate_taker_payment (a : WatcherValidatePaymentInput)
| watcher_search_for_swap_tx_spend (a : WatcherSearchForSwapTxSpendInput)
| wait_for_htlc_tx_spend (a : WaitForHTLCTxSpendArgs)
| extract_secret (secret_hash spend_tx : bytes)
| send_maker_payment_spend_preimage (a : SendMakerPaymentSpendPreimageInput)
| can_refund_htlc (locktime : Z)
| send_taker_payment_refund_preimage (a : RefundPaymentArgs)
| broadcast_tx (s : Side) (t : Tx)
| log_stopped (uuid : Uuid) (r : StopReason).

Definition watcher_answer (c : WatcherCall) : Type :=
  match c with
  | now_sec => Z
  | sleep _ | broadcast_tx _ _ | log_stopped _ _ => unit
  | watcher_validate_taker_fee _ | wait_for_confirmations _
  | watcher_validate_taker_payment _ => result string unit
  | get_tx_hex_by_hash _ _ => result string bytes
  | watcher_search_for_swap_tx_spend _ => result string (option FoundSwapTxSpend)
  | wait_for_htlc_tx_spend _ => result TransactionErr Tx
  | extract_secret _ _ => result string bytes
  | send_maker_payment_spend_preimage _ | send_taker_payment_refund_preimage _ =>
      result TransactionErr Tx
  | can_refund_htlc _ => result string CanRefundHtlc
  end.

Notation W := (prog watcher_answer).

(** ** Handlers *)

(** [RepeatError]: the watcher only repeats a number of times. *)
Inductive RepeatError (E : Type) : Type :=
| AttemptsExceed (attempts : nat) (error : E).
Arguments AttemptsExceed {E} attempts error.

Section Retry.
  Local Open Scope prog_scope.

(** [Repeatable::poll] of a future that retries on an error, with a limit of
    attempts of which [current] have failed; the limit is positive. *)
Fixpoint retry_on_err {A E} (attempt : W (result E A)) (every : Q) (remaining current : nat)
  : W (result (RepeatError E) A) :=
  r <- attempt;
  match r with
  | Ok ready => Ret (Ok ready)
  | Err e =>
      match remaining with
      | O | S O => Ret (Err (AttemptsExceed (S current) e))
      | S remaining => do call (sleep every); retry_on_err attempt every remaining (S current)
      end
  end.
End Retry.

Section Handlers.
  (** How the display of a [RepeatError] renders the number of attempts. *)
  Variable show_nat : nat -> string.
  Variable fuel : nat.
  Variable m : WatcherStateMachine.
  Local Open Scope prog_scope.

Definition repeat_err_to_string (e : RepeatError string) : string :=
  match e with
  | AttemptsExceed attempts error =>
      ("Error " ++ error ++ " on retrying the future after " ++ show_nat attempts ++ " attempts")%string
  end.

Definition validate_fee_input : WatcherValidateTakerFeeInput :=
  mkValidateTakerFee (wd_taker_fee_hash (data m)) (verified_pub m)
    (wd_taker_coin_start_block (data m)) (wd_lock_duration (data m)).

Definition handle_validate_taker_fee : W WatcherState :=
  r <- retry_on_err (call (watcher_validate_taker_fee validate_fee_input))
         TAKER_FEE_VALIDATION_RETRY_DELAY_SECS TAKER_FEE_VALIDATION_ATTEMPTS 0;
  Ret (match r with
       | Ok _ => ValidateTakerPayment
       | Err e => from_reason (Error (InvalidTakerFee (repeat_err_to_string e)))
       end).

Definition spend_deadline : Z :=
  taker_payment_spend_deadline (wd_swap_started_at (data m)) (wd_lock_duration (data m)).

Definition confirmations : Z :=
  Z.min (wd_taker_payment_confirmations (data m)) TAKER_SWAP_CONFIRMATIONS.

Definition confirm_input (taker_payment_hex : bytes) : ConfirmPaymentInput :=
  mkConfirm taker_payment_hex confirmations
    (default false (wd_taker_payment_requires_nota (data m))) spend_deadline
    WAIT_CONFIRM_INTERVAL_SEC.

Definition validate_payment_input (taker_payment_hex : bytes) : WatcherValidatePaymentInput :=
  mkWatcherValidatePayment taker_payment_hex (wd_taker_payment_refund_preimage (data m))
    (taker_locktime m) (verified_pub m) (wd_maker_pub (data m)) (wd_secret_hash (data m))
    spend_deadline confirmations (maker_coin m).

Definition on_validate_taker_payment : W WatcherState :=
  do call (sleep (wait_taker_payment (conf m)));
  raw <- call (get_tx_hex_by_hash TakerSide (wd_taker_payment_hash (data m)));
  match raw with
  | Err e => Ret (from_reason (Error (InvalidTakerPayment e)))
  | Ok taker_payment_hex =>
  c <- call (wait_for_confirmations (confirm_input taker_payment_hex));
  match c with
  | Err e => Ret (from_reason (Error (TakerPaymentNotConfirmed e)))
  | Ok _ =>
  v <- call (watcher_validate_taker_payment (validate_payment_input taker_payment_hex));
  match v with
  | Err e => Ret (from_reason (Error (InvalidTakerPayment e)))
  | Ok _ => Ret (WaitForTakerPaymentSpend taker_payment_hex)
  end end end.

(** The time lock is narrowed to 32 bits. *)
Definition search_input (taker_payment_hex : bytes) : WatcherSearchForSwapTxSpendInput :=
  mkWatcherSearch (wrap 32 (taker_locktime m)) (verified_pub m) (wd_maker_pub (data m))
    (wd_secret_hash (data m)) taker_payment_hex (wd_taker_coin_start_block (data m))
    (watcher_reward m).

Definition maker_spend_args (maker_payment_hex : bytes) : WaitForHTLCTxSpendArgs :=
  mkWaitSpend maker_payment_hex (wd_secret_hash (data m)) (wait_for_maker_payment_spend_deadline m)
    (wd_maker_coin_start_block (data m)) None (search_interval (conf m)) (watcher_reward m).

(** Before the taker's lock time the taker is left to spend the maker payment
    itself; the result is the reason to stop, if any. *)
Definition leave_it_to_taker : W (option StopReason) :=
  raw <- call (get_tx_hex_by_hash MakerSide (wd_maker_payment_hash (data m)));
  match raw with
  | Err e => Ret (Some (Error (MakerPaymentCouldNotBeFound e)))
  | Ok maker_payment_hex =>
      r <- call (wait_for_htlc_tx_spend (maker_spend_args maker_payment_hex));
      Ret (if is_ok r then Some (Finished MakerPaymentSpentByTaker) else None)
  end.

Definition on_taker_payment_spent (t : Tx) : W WatcherState :=
  now <- call now_sec;
  stop <- (if now <? taker_locktime m then leave_it_to_taker else Ret None);
  match stop with
  | Some reason => Ret (from_reason reason)
  | None =>
      r <- call (extract_secret (wd_secret_hash (data m)) (tx_hex t));
      Ret (match r with
           | Ok secret => SpendMakerPayment secret
           | Err e => from_reason (Error (UnableToExtractSecret e))
           end)
  end.

Fixpoint handle_wait_for_taker_payment_spend (n : nat) (taker_payment_hex : bytes)
  : W WatcherState :=
  match n with
  | O => OutOfFuel
  | S n =>
      now <- call now_sec;
      if now >? refund_start_time m then Ret RefundTakerPayment
      else
        f <- call (watcher_search_for_swap_tx_spend (search_input taker_payment_hex));
        match f with
        | Ok (Some (Spent t)) => on_taker_payment_spent t
        | Ok (Some (Refunded _)) => Ret (from_reason (Finished TakerPaymentRefundedByTaker))
        | Ok None | Err _ =>
            do call (sleep (search_interval (conf m)));
            handle_wait_for_taker_payment_spend n taker_payment_hex
        end
  end.

Definition watcher_broadcast (s : Side) (t : Tx) : W unit :=
  if supports_tx_helper t then call (broadcast_tx s t) else Ret tt.

(** What follows a transaction of the watcher, in both states that send one. *)
Definition after_send (s : Side) (failed : string -> WatcherError) (success : WatcherSuccess)
  (r : result TransactionErr Tx) : W WatcherState :=
  match r with
  | Ok t =>
      do watcher_broadcast s t;
      Ret (from_reason (Finished success))
  | Err e =>
      do match get_tx e with Some t => watcher_broadcast s t | None => Ret tt end;
      Ret (from_reason (Error (failed (get_plain_text_format e))))
  end.

Definition spend_preimage_input (secret : bytes) : SendMakerPaymentSpendPreimageInput :=
  mkSpendPreimage (wd_maker_payment_spend_preimage (data m)) (wd_secret_hash (data m)) secret
    (verified_pub m) (watcher_reward m).

Definition handle_spend_maker_payment (secret : bytes) : W WatcherState :=
  r <- call (send_maker_payment_spend_preimage (spend_preimage_input secret));
  after_send MakerSide MakerPaymentSpendFailed MakerPaymentSpent r.

Definition watcher_refund_args : RefundPaymentArgs :=
  mkRefundPayment (wd_taker_payment_refund_preimage (data m)) (taker_locktime m) (verified_pub m)
    (wd_secret_hash (data m)) None [] (watcher_reward m).

Fixpoint watcher_wait_can_refund (n : nat) : W unit :=
  match n with
  | O => OutOfFuel
  | S n =>
      r <- call (can_refund_htlc (taker_locktime m));
      match r with
      | Ok CanRefundNow => Ret tt
      | Ok (HaveToWait to_sleep) => do call (sleep (inject_Z to_sleep)); watcher_wait_can_refund n
      | Err _ => do call (sleep (30 # 1)); watcher_wait_can_refund n
      end
  end.

Definition handle_refund_taker_payment : W WatcherState :=
  do watcher_wait_can_refund fuel;
  r <- call (send_taker_payment_refund_preimage watcher_refund_args);
  after_send TakerSide TakerPaymentRefundFailed TakerPaymentRefunded r.

(** [on_changed] of every state; the machine's error type is empty. *)
Definition watcher_on_changed (s : WatcherState) : W (StateResult WatcherState Empty_set) :=
  match s with
  | Stopped reason =>
      do call (log_stopped (wd_uuid (data m)) reason);
      Ret Finish
  | _ =>
      next <- match s with
              | ValidateTakerFee => handle_validate_taker_fee
              | ValidateTakerPayment => on_validate_taker_payment
              | WaitForTakerPaymentSpend hex => handle_wait_for_taker_payment_spend fuel hex
              | RefundTakerPayment => handle_refund_taker_payment
              | SpendMakerPayment secret => handle_spend_maker_payment secret
              | Stopped r => Ret (Stopped r)
              end;
      Ret (ChangeState next)
  end.

(** [StateMachineTrait::run] with the default [on_start] and [on_finished];
    [n] bounds the states. *)
Fixpoint run_machine (n : nat) (state : WatcherState) : W (result Empty_set unit) :=
  match n with
  | O => OutOfFuel
  | S n =>
      r <- watcher_on_changed state;
      match r with
      | ChangeState next => run_machine n next
      | Finish => Ret (Ok tt)
      | StateError e => Ret (Err e)
      end
  end.
End Handlers.

(** From the first state the machine enters at most five. *)
Definition watch (show_nat : nat -> string) (fuel : nat) (m : WatcherStateMachine)
  : W (result Empty_set unit) :=
  run_machine show_nat fuel m 5 ValidateTakerFee.

(** ** The watchers of a node *)

Inductive SwapWatcherMsg : Type :=
| TakerSwapWatcherMsg (d : TakerSwapWatcherData).

(** The two fields of [SwapsContext] that the watchers use: the stores of the
    node's own swaps, and the locked fee hashes with the time their entry
    expires. *)
Record WatchersCtx : Type := mkWatchersCtx {
  swap_msgs : gmap Uuid SwapMsgStore;
  taker_swap_watchers : gmap bytes Z }.

Definition set_watchers (ws : gmap bytes Z) (ctx : WatchersCtx) : WatchersCtx :=
  mkWatchersCtx (swap_msgs ctx) ws.

(** What a spawned watcher holds: its message, the key that signed it, and
    with them the lock of the fee hash.  [rw_since] is when it was spawned. *)
Record RunningWatcher : Type := mkRunning {
  rw_data : TakerSwapWatcherData;
  rw_pub : bytes;
  rw_since : Z }.

Definition rw_fee_hash (w : RunningWatcher) : bytes := wd_taker_fee_hash (rw_data w).

Definition valid_lock_duration (d : Z) : bool :=
  (d =? get_payment_locktime) || (d =? get_payment_locktime * 4) || (d =? get_payment_locktime * 10).

Section Watchers.
  (** Whether the map of the timed-map crate still shows, at the time [now],
      an entry that expires at [deadline]. *)
  Variable live : forall now deadline : Z, bool.

(** [insert_expirable] returns the entry it replaces unless that has expired. *)
Definition lock_taker (now : Z) (fee_hash : bytes) (ctx : WatchersCtx) : bool * WatchersCtx :=
  let previous := match taker_swap_watchers ctx !! fee_hash with
                  | Some deadline => live now deadline
                  | None => false
                  end in
  (negb previous,
   set_watchers (<[fee_hash := now + TAKER_SWAP_ENTRY_TIMEOUT_SEC]> (taker_swap_watchers ctx)) ctx).

(** [Drop for SwapWatcherLock] *)
Definition drop_lock (fee_hash : bytes) (ctx : WatchersCtx) : WatchersCtx :=
  set_watchers (delete fee_hash (taker_swap_watchers ctx)) ctx.

(** Up to the spawn: the watcher that is spawned, if any. *)
Definition spawn_taker_swap_watcher (now : Z) (watcher_data : TakerSwapWatcherData)
  (pub : bytes) (ctx : WatchersCtx) : option RunningWatcher * WatchersCtx :=
  if negb (valid_lock_duration (wd_lock_duration watcher_data)) then (None, ctx)
  else if bool_decide (is_Some (swap_msgs ctx !! wd_uuid watcher_data)) then (None, ctx)
  else
    let '(locked, ctx) := lock_taker now (wd_taker_fee_hash watcher_data) ctx in
    if negb locked then (None, ctx)
    else if negb (length (wd_taker_fee_hash watcher_data) =? 32)%nat
    then (None, drop_lock (wd_taker_fee_hash watcher_data) ctx)
    else (Some (mkRunning watcher_data pub now), ctx).

(** [process_watcher_msg] once the message is decoded, or not. *)
Definition process_watcher_msg (now : Z) (decoded : result string (SwapWatcherMsg * bytes))
  (ctx : WatchersCtx) : result string (option RunningWatcher) * WatchersCtx :=
  match decoded with
  | Err e => (Err e, ctx)
  | Ok (TakerSwapWatcherMsg d, pub) =>
      let '(w, ctx) := spawn_taker_swap_watcher now d pub ctx in (Ok w, ctx)
  end.

(** What the spawned future does before it drops the lock. *)
Definition start_machine (lp_coinfind : string -> result string (option Coin))
  (watcher_conf : option WatcherConf) (w : RunningWatcher) : option WatcherStateMachine :=
  match lp_coinfind (wd_taker_coin (rw_data w)) with
  | Ok (Some taker_coin) =>
      match lp_coinfind (wd_maker_coin (rw_data w)) with
      | Ok (Some maker_coin) =>
          if negb (is_supported_by_watchers taker_coin) || negb (is_supported_by_watchers maker_coin)
          then None
          else Some (mkWatcher taker_coin maker_coin (rw_pub w) (rw_data w)
                       (default WatcherConf_default watcher_conf) (is_eth maker_coin))
      | _ => None
      end
  | _ => None
  end.

Definition watcher_future (show_nat : nat -> string) (fuel : nat)
  (lp_coinfind : string -> result string (option Coin)) (watcher_conf : option WatcherConf)
  (w : RunningWatcher) : W unit :=
  match start_machine lp_coinfind watcher_conf w with
  | None => Ret tt
  | Some m => prog_bind (watch show_nat fuel m) (fun _ => Ret tt)
  end.

(** *** The steps of a node

    A message arrives, a watcher ends (its future returned or was aborted),
    or the node's own swaps change. *)

Record WatcherNode : Type := mkWatcherNode {
  wn_ctx : WatchersCtx;
  wn_running : list RunningWatcher }.

Inductive WatcherEvent : Type :=
| WatcherMessage (decoded : result string (SwapWatcherMsg * bytes))
| WatcherEnds (i : nat)
| OwnSwaps (msgs : gmap Uuid SwapMsgStore).

Definition watcher_node_step (now : Z) (e : WatcherEvent) (n : WatcherNode) : WatcherNode :=
  match e with
  | WatcherMessage decoded =>
      let '(r, ctx) := process_watcher_msg now decoded (wn_ctx n) in
      mkWatcherNode ctx (wn_running n ++ match r with Ok (Some w) => [w] | _ => [] end)
  | WatcherEnds i =>
      match wn_running n !! i with
      | Some w => mkWatcherNode (drop_lock (rw_fee_hash w) (wn_ctx n)) (delete i (wn_running n))
      | None => n
      end
  | OwnSwaps msgs => mkWatcherNode (mkWatchersCtx msgs (taker_swap_watchers (wn_ctx n))) (wn_running n)
  end.

Definition new_watcher_node : WatcherNode := mkWatcherNode (mkWatchersCtx empty empty) [].

Definition run_watcher_node (events : list (Z * WatcherEvent)) : WatcherNode :=
  foldl (fun n e => watcher_node_step e.1 e.2 n) new_watcher_node events.
End Watchers.
