(* ===== verification/SwapWatcherProps.v ===== *)
(** * What a watcher does and when it ends

    [good_watcher_call] says what must have happened before a watcher spends,
    refunds, rebroadcasts or stops for a reason, [shows] what the history
    shows when the machine is in a state; every handler keeps both, whatever
    is answered.  In a [fair_watcher] environment the machine stops. *)

From S2P Require Import Prelude MmNumber Effects Swap StateMachine SwapWatcher.

Open Scope Z_scope.

Section Safety.
  Variable show_nat : nat -> string.
  Variable fuel : nat.
  Variable m : WatcherStateMachine.
  Local Notation Obs := (Obs watcher_answer).
  Local Notation got c x := (asked (answer := watcher_answer) c x) (only parsing).

(** ** What a history shows *)

Definition is_transfer (c : WatcherCall) : Prop :=
  match c with
  | send_maker_payment_spend_preimage _ | send_taker_payment_refund_preimage _ => True
  | _ => False
  end.

Definition no_transfer (h : list Obs) : Prop := Forall (fun o => ~ is_transfer (obs_call o)) h.

Definition refuses_fee (o : Obs) : bool :=
  match o with
  | existT c x =>
      match c return option (watcher_answer c) -> bool with
      | watcher_validate_taker_fee _ =>
          fun x => match x with Some (Err _) => true | _ => false end
      | _ => fun _ => false
      end x
  end.

Definition fee_refusals (h : list Obs) : nat := length (List.filter refuses_fee h).

Definition fee_valid (h : list Obs) : Prop :=
  got (watcher_validate_taker_fee (validate_fee_input m)) (Ok tt) ∈ h.

Definition payment_confirmed (h : list Obs) (hex : bytes) : Prop :=
  got (get_tx_hex_by_hash TakerSide (wd_taker_payment_hash (data m))) (Ok hex) ∈ h /\
  got (wait_for_confirmations (confirm_input m hex)) (Ok tt) ∈ h.

(** The taker fee, and the taker payment that its hash names. *)
Definition checked (h : list Obs) (hex : bytes) : Prop :=
  fee_valid h /\ payment_confirmed h hex /\
  got (watcher_validate_taker_payment (validate_payment_input m hex)) (Ok tt) ∈ h.

Definition search_shows (h : list Obs) (hex : bytes) (f : FoundSwapTxSpend) : Prop :=
  got (watcher_search_for_swap_tx_spend (search_input m hex)) (Ok (Some f)) ∈ h.

Definition never_spent (h : list Obs) : Prop :=
  forall a t, got (watcher_search_for_swap_tx_spend a) (Ok (Some (Spent t))) ∉ h.

(** Nothing was moved and no spend of the taker payment was seen. *)
Definition untouched (h : list Obs) : Prop := no_transfer h /\ never_spent h.

(** The taker did not use its own turn: its lock time has passed, or the
    maker payment stayed unspent until the deadline. *)
Definition taker_late (h : list Obs) : Prop :=
  (exists now, got now_sec now ∈ h /\ taker_locktime m <= now) \/
  exists hex e, got (get_tx_hex_by_hash MakerSide (wd_maker_payment_hash (data m))) (Ok hex) ∈ h /\
    got (wait_for_htlc_tx_spend (maker_spend_args m hex)) (Err e) ∈ h.

(** The secret comes from a spend of the checked taker payment. *)
Definition secret_revealed (h : list Obs) (secret : bytes) : Prop :=
  exists hex t, checked h hex /\ search_shows h hex (Spent t) /\
    got (extract_secret (wd_secret_hash (data m)) (tx_hex t)) (Ok secret) ∈ h.

Definition refund_time (h : list Obs) : Prop :=
  exists hex now, checked h hex /\ got now_sec now ∈ h /\ refund_start_time m < now.

(** The answer to one of the watcher's own transfers. *)
Definition transferred (h : list Obs) (s : Side) (r : result TransactionErr Tx) : Prop :=
  match s with
  | MakerSide => exists secret, got (send_maker_payment_spend_preimage (spend_preimage_input m secret)) r ∈ h
  | TakerSide => got (send_taker_payment_refund_preimage (watcher_refund_args m)) r ∈ h
  end.

(** What has happened when the watcher stops for a reason. *)
Definition reason_shown (h : list Obs) (r : StopReason) : Prop :=
  match r with
  | Finished MakerPaymentSpent => exists t, transferred h MakerSide (Ok t)
  | Finished TakerPaymentRefunded => exists t, transferred h TakerSide (Ok t)
  | Finished MakerPaymentSpentByTaker =>
      no_transfer h /\ exists hex t,
        got (get_tx_hex_by_hash MakerSide (wd_maker_payment_hash (data m))) (Ok hex) ∈ h /\
        got (wait_for_htlc_tx_spend (maker_spend_args m hex)) (Ok t) ∈ h
  | Finished TakerPaymentRefundedByTaker =>
      no_transfer h /\ exists hex t, checked h hex /\ search_shows h hex (Refunded t)
  | Error (MakerPaymentSpendFailed s) =>
      exists e, s = get_plain_text_format e /\ transferred h MakerSide (Err e)
  | Error (TakerPaymentRefundFailed s) =>
      exists e, s = get_plain_text_format e /\ transferred h TakerSide (Err e)
  | Error (InvalidTakerFee _) => no_transfer h /\ fee_refusals h = TAKER_FEE_VALIDATION_ATTEMPTS
  | Error (TakerPaymentNotConfirmed e) =>
      no_transfer h /\ exists hex, got (wait_for_confirmations (confirm_input m hex)) (Err e) ∈ h
  | Error (InvalidTakerPayment e) =>
      no_transfer h /\
      (got (get_tx_hex_by_hash TakerSide (wd_taker_payment_hash (data m))) (Err e) ∈ h \/
       exists hex, got (watcher_validate_taker_payment (validate_payment_input m hex)) (Err e) ∈ h)
  | Error (UnableToExtractSecret e) =>
      no_transfer h /\
      exists t, got (extract_secret (wd_secret_hash (data m)) (tx_hex t)) (Err e) ∈ h
  | Error (MakerPaymentCouldNotBeFound e) =>
      no_transfer h /\
      got (get_tx_hex_by_hash MakerSide (wd_maker_payment_hash (data m))) (Err e) ∈ h
  end.

Definition shows (h : list Obs) (s : WatcherState) : Prop :=
  match s with
  | ValidateTakerFee => untouched h /\ fee_refusals h = 0%nat
  | ValidateTakerPayment => untouched h /\ fee_valid h
  | WaitForTakerPaymentSpend hex => untouched h /\ checked h hex
  | RefundTakerPayment => untouched h /\ refund_time h
  | SpendMakerPayment secret => no_transfer h /\ secret_revealed h secret /\ taker_late h
  | Stopped r => reason_shown h r
  end.

(** ** The calls that are allowed *)

Definition good_watcher_call (h : list Obs) (c : WatcherCall) : Prop :=
  match c with
  | watcher_validate_taker_payment a =>
      exists hex, a = validate_payment_input m hex /\ fee_valid h /\ payment_confirmed h hex
  | watcher_search_for_swap_tx_spend a => exists hex, a = search_input m hex /\ checked h hex
  | send_maker_payment_spend_preimage a =>
      no_transfer h /\
      exists secret, a = spend_preimage_input m secret /\ secret_revealed h secret /\ taker_late h
  | send_taker_payment_refund_preimage a =>
      untouched h /\ a = watcher_refund_args m /\ refund_time h /\
      got (can_refund_htlc (taker_locktime m)) (Ok CanRefundNow) ∈ h
  | broadcast_tx s t =>
      transferred h s (Ok t) \/ exists e, get_tx e = Some t /\ transferred h s (Err e)
  | log_stopped u r => u = wd_uuid (data m) /\ reason_shown h r
  | _ => True
  end.

Lemma no_transfer_snoc h o : no_transfer h -> ~ is_transfer (obs_call o) -> no_transfer (h ++ [o]).
Proof. intros Hh Ho. apply Forall_app. split; [done|by constructor]. Qed.

Definition finds_spend (o : Obs) : bool :=
  match o with
  | existT c x =>
      match c return option (watcher_answer c) -> bool with
      | watcher_search_for_swap_tx_spend _ =>
          fun x => match x with Some (Ok (Some (Spent _))) => true | _ => false end
      | _ => fun _ => false
      end x
  end.

Lemma never_spent_snoc h o : never_spent h -> finds_spend o = false -> never_spent (h ++ [o]).
Proof. intros Hh Ho a t [Hx| <-]%elem_of_snoc; [by eapply Hh|done]. Qed.

Lemma fee_refusals_snoc h o :
  fee_refusals (h ++ [o]) = (fee_refusals h + if refuses_fee o then 1 else 0)%nat.
Proof. unfold fee_refusals. rewrite List.filter_app, length_app. simpl. by destruct (refuses_fee o). Qed.

Lemma fee_valid_mono h h' : h `prefix_of` h' -> fee_valid h -> fee_valid h'.
Proof. intros Hp Hf. by eapply elem_of_longer. Qed.

Lemma checked_mono h h' hex : h `prefix_of` h' -> checked h hex -> checked h' hex.
Proof. intros Hp (Hf & (Hg & Hc) & Hv). repeat split; by eapply elem_of_longer. Qed.

Lemma secret_revealed_mono h h' s : h `prefix_of` h' -> secret_revealed h s -> secret_revealed h' s.
Proof.
  intros Hp (hex & t & Hc & Hs & Hx). exists hex, t.
  split; [by eapply checked_mono|]. split; by eapply elem_of_longer.
Qed.

Lemma refund_time_mono h h' : h `prefix_of` h' -> refund_time h -> refund_time h'.
Proof.
  intros Hp (hex & now & Hc & Hn & Ht). exists hex, now.
  split; [by eapply checked_mono|]. split; [by eapply elem_of_longer|done].
Qed.

Lemma transferred_mono h h' s r : h `prefix_of` h' -> transferred h s r -> transferred h' s r.
Proof. intros Hp. destruct s; [intros [x Hx]; exists x|intros Hx]; by eapply elem_of_longer. Qed.

(** ** The handlers *)

Local Notation good := (good_watcher_call).

Lemma untouched_snoc h o :
  untouched h -> ~ is_transfer (obs_call o) -> finds_spend o = false -> untouched (h ++ [o]).
Proof. intros [Ht Hs] Ho Hf. split; auto using no_transfer_snoc, never_spent_snoc. Qed.

(** Calls that neither move money nor find a spend. *)
Local Ltac calm :=
  repeat (apply untouched_snoc; [|by intros []|done]); try done.
Local Ltac still := repeat (apply no_transfer_snoc; [|by intros []]); try done.
Local Ltac long :=
  solve [ reflexivity | apply prefix_app_r; reflexivity
        | apply prefix_app_r, prefix_app_r; reflexivity
        | apply prefix_app_r, prefix_app_r, prefix_app_r; reflexivity
        | apply prefix_app_r, prefix_app_r, prefix_app_r, prefix_app_r; reflexivity ].
Local Ltac inside := rewrite ?elem_of_snoc; auto 10.
Local Ltac recheck := eapply checked_mono; [|eassumption]; long.
Local Ltac ask := split; [try exact I|intros ?; cbn [prog_bind]].

Lemma retry_fee_ok every n k h :
  untouched h -> fee_refusals h = k -> (0 < n)%nat ->
  wp good h (retry_on_err (call (watcher_validate_taker_fee (validate_fee_input m))) every n k)
    (fun h' r => untouched h' /\
       match r with Ok _ => fee_valid h' | Err _ => fee_refusals h' = (k + n)%nat end).
Proof.
  revert h k; induction n as [|n IH]; intros h k Hh Hk Hn; [lia|].
  cbn [retry_on_err]. split; [exact I|]. intros [[]|e]; cbn [prog_bind].
  - split; [calm|]. unfold fee_valid. inside.
  - destruct n as [|n].
    + split; [calm|]. rewrite fee_refusals_snoc. cbn. lia.
    + ask. eapply wp_mono; [|apply IH; [calm| |lia]].
      * intros h' r _ [Hh' Hr]. split; [done|]. destruct r; [done|]. lia.
      * rewrite !fee_refusals_snoc. cbn. lia.
Qed.

Lemma validate_taker_fee_ok h :
  shows h ValidateTakerFee -> wp good h (handle_validate_taker_fee show_nat m) shows.
Proof.
  intros (Ht & H0). apply wp_bind. eapply wp_mono; [|by apply retry_fee_ok; [|..|unfold TAKER_FEE_VALIDATION_ATTEMPTS; lia]].
  intros h' [[]|e] _ [Hh Hr]; cbn; [done|split; [apply Hh|done]].
Qed.

Lemma validate_taker_payment_ok h :
  shows h ValidateTakerPayment -> wp good h (on_validate_taker_payment m) shows.
Proof.
  intros (Ht & Hf). unfold on_validate_taker_payment. ask. ask.
  destruct x0 as [hex|e]; [|split; [still; apply Ht|left; inside]].
  ask. destruct x0 as [[]|e]; [|split; [still; apply Ht|exists hex; inside]].
  assert (Hc : payment_confirmed (((h ++ [asked (sleep (wait_taker_payment (conf m))) x]) ++
    [asked (get_tx_hex_by_hash TakerSide (wd_taker_payment_hash (data m))) (Ok hex)]) ++
    [asked (wait_for_confirmations (confirm_input m hex)) (Ok tt)]) hex) by (split; inside).
  split; [exists hex; split; [done|]; split; [|done]; eapply fee_valid_mono; [|done]; long|].
  intros [[]|e]; cbn [prog_bind wp shows reason_shown].
  - split; [calm|]. split; [eapply fee_valid_mono; [|done]; long|].
    split; [destruct Hc; split; inside|inside].
  - split; [still; apply Ht|]. right. exists hex. inside.
Qed.

Lemma leave_it_to_taker_ok h :
  no_transfer h ->
  wp good h (leave_it_to_taker m) (fun h' r => no_transfer h' /\
    match r with Some reason => reason_shown h' reason | None => taker_late h' end).
Proof.
  intros Ht. unfold leave_it_to_taker.
  ask. destruct x as [hex|e]; [|cbn; repeat split; [still..|inside]].
  ask. cbn [wp].
  match goal with |- no_transfer ?h' /\ _ => assert (no_transfer h') by still end.
  split; [done|]. destruct x as [t|e]; cbn.
  - split; [done|]. exists hex, t. split; inside.
  - right. exists hex, e. split; inside.
Qed.

Lemma on_taker_payment_spent_ok h hex t :
  no_transfer h -> checked h hex -> search_shows h hex (Spent t) ->
  wp good h (on_taker_payment_spent m t) shows.
Proof.
  intros Ht Hc Hs. unfold on_taker_payment_spent. ask.
  match goal with |- wp _ ?h1 _ _ => assert (Hn : no_transfer h1)
    by still;
    assert (Hl : h `prefix_of` h1) by long; set (h1' := h1) in * end.
  apply wp_bind. eapply (wp_mono _ _ _ (fun h' r => h1' `prefix_of` h' /\ no_transfer h' /\
    match r with Some reason => reason_shown h' reason | None => taker_late h' end)).
  - intros h' [reason|] _ (Hp & Hn' & Hr); [done|]. ask. cbn [wp].
    assert (Hp' : h `prefix_of` h') by by etrans.
    destruct x0 as [secret|e]; cbn.
    + split; [still|]. split.
      * exists hex, t. split; [eapply checked_mono; [|done]; by apply prefix_app_r|].
        split; [|inside]. eapply elem_of_longer; [done|by apply prefix_app_r].
      * destruct Hr as [(n & Hin & Hle)|(hx & e & H1 & H2)];
          [left; exists n|right; exists hx, e]; repeat split; inside.
    + split; [still|]. exists t. inside.
  - destruct (x <? taker_locktime m) eqn:Hx.
    + eapply wp_mono; [|by apply leave_it_to_taker_ok]. intros h' r Hp Hq. done.
    + cbn. split; [done|]. split; [done|]. left. exists x. split; [unfold h1'; inside|lia].
Qed.

Lemma wait_for_taker_payment_spend_ok n h hex :
  shows h (WaitForTakerPaymentSpend hex) ->
  wp good h (handle_wait_for_taker_payment_spend m n hex) shows.
Proof.
  revert h; induction n as [|n IH]; intros h [Hu Hc]; [exact I|].
  cbn [handle_wait_for_taker_payment_spend]. ask.
  destruct (x >? refund_start_time m) eqn:Hx; cbn [wp].
  { split; [calm|]. exists hex, x. split; [recheck|].
    split; [inside|lia]. }
  split; [exists hex; split; [done|]; recheck|].
  assert (Hagain : forall (r : result string (option FoundSwapTxSpend)) (u : unit),
    finds_spend (got (watcher_search_for_swap_tx_spend (search_input m hex)) r) = false ->
    wp good (((h ++ [got now_sec x]) ++
              [got (watcher_search_for_swap_tx_spend (search_input m hex)) r]) ++
              [got (sleep (search_interval (conf m))) u])
      (handle_wait_for_taker_payment_spend m n hex) shows).
  { intros r u Hr. apply IH. split; [|recheck].
    apply untouched_snoc; [|by intros []|done].
    apply untouched_snoc; [calm|by intros []|done]. }
  intros [[[t|t]|]|e]; cbn [prog_bind].
  - apply (on_taker_payment_spent_ok _ hex); [still; apply Hu|recheck|].
    unfold search_shows. inside.
  - cbn. split; [still; apply Hu|]. exists hex, t. split; [recheck|].
    unfold search_shows. inside.
  - split; [exact I|]. intros u. by apply Hagain.
  - split; [exact I|]. intros u. by apply Hagain.
Qed.

Lemma after_send_ok h s failed success r :
  transferred h s r ->
  (forall h', h `prefix_of` h' ->
     reason_shown h' match r with
                     | Ok _ => Finished success
                     | Err e => Error (failed (get_plain_text_format e))
                     end) ->
  wp good h (after_send s failed success r) shows.
Proof.
  intros Ht Hr. unfold after_send, watcher_broadcast.
  destruct r as [t|e].
  - destruct (supports_tx_helper t); [split; [by left|intros []]|]; apply Hr; long.
  - destruct (get_tx e) as [t|] eqn:He; [destruct (supports_tx_helper t)|];
      [split; [right; by exists e|intros []]|..]; apply Hr; long.
Qed.

Lemma spend_maker_payment_ok h secret :
  shows h (SpendMakerPayment secret) -> wp good h (handle_spend_maker_payment m secret) shows.
Proof.
  intros (Hn & Hs & Hl). split; [split; [done|]; by exists secret|]. intros r. cbn [prog_bind].
  set (h1 := h ++ _).
  assert (Ht : transferred h1 MakerSide r) by (exists secret; unfold h1; inside).
  apply after_send_ok; [done|]. intros h' Hp. eapply transferred_mono in Ht; [|done].
  destruct r; cbn; eauto.
Qed.

Lemma watcher_can_refund_ok n h :
  untouched h ->
  wp good h (watcher_wait_can_refund m n) (fun h' _ => untouched h' /\
    got (can_refund_htlc (taker_locktime m)) (Ok CanRefundNow) ∈ h').
Proof.
  revert h; induction n as [|n IH]; intros h Hu; [exact I|]. cbn [watcher_wait_can_refund].
  ask. destruct x as [[|w]|e]; [split; [calm|inside]|..]; (ask; apply IH; calm).
Qed.

Lemma refund_taker_payment_ok h :
  shows h RefundTakerPayment -> wp good h (handle_refund_taker_payment fuel m) shows.
Proof.
  intros [Hu Hr]. apply wp_bind. eapply wp_mono; [|by apply watcher_can_refund_ok].
  intros h1 _ Hp [Hu1 Hc]. split.
  { destruct Hu1. repeat split; auto. by eapply refund_time_mono. }
  intros r. cbn [prog_bind]. set (h2 := h1 ++ _).
  assert (Ht : transferred h2 TakerSide r) by (unfold h2; cbn; inside).
  apply after_send_ok; [done|]. intros h' Hp'. eapply transferred_mono in Ht; [|done].
  destruct r; cbn; eauto.
Qed.

Lemma watcher_on_changed_ok h s :
  shows h s ->
  wp good h (watcher_on_changed show_nat fuel m s) (fun h' r => forall s', r = ChangeState s' -> shows h' s').
Proof.
  intros Hs. assert (Hnext : forall p : W WatcherState, wp good h p shows ->
    wp good h (prog_bind p (fun next => Ret (ChangeState (Error:=Empty_set) next)))
      (fun h' r => forall s', r = ChangeState s' -> shows h' s')).
  { intros p Hp. apply wp_bind. eapply wp_mono; [|done]. by intros h' s' _ Hs' ? [= <-]. }
  destruct s; cbn [watcher_on_changed].
  - by apply Hnext, validate_taker_fee_ok.
  - by apply Hnext, validate_taker_payment_ok.
  - by apply Hnext, wait_for_taker_payment_spend_ok.
  - by apply Hnext, refund_taker_payment_ok.
  - by apply Hnext, spend_maker_payment_ok.
  - split; [done|]. by intros [] s' [=].
Qed.

Lemma watcher_run_ok n h s :
  shows h s -> wp good h (run_machine show_nat fuel m n s) (fun _ _ => True).
Proof.
  revert h s; induction n as [|n IH]; intros h s Hs; [exact I|]. cbn [run_machine].
  apply wp_bind. eapply wp_mono; [|by apply watcher_on_changed_ok].
  intros h' r _ Hr. destruct r; cbn; [|done..]. apply IH. by apply Hr.
Qed.

Lemma watch_ok : wp good [] (watch show_nat fuel m) (fun _ _ => True).
Proof.
  apply watcher_run_ok. repeat split; [by apply Forall_nil|]. intros a t Hx. by apply not_elem_of_nil in Hx.
Qed.
End Safety.

(** ** The end of a watcher

    An environment in which the clock starts at [t0] and advances at least as
    fast as the machine sleeps, and the coin allows the refund after at most
    [N] queries. *)

Definition watcher_clock_step (t : Z) (o : Obs watcher_answer) : Z :=
  match o with
  | existT c x =>
      match c return option (watcher_answer c) -> Z with
      | now_sec => fun x => default t x
      | sleep q => fun _ => t + Z.max 0 (Qfloor q)
      | _ => fun _ => t
      end x
  end.

Definition watcher_asks_refund (o : Obs watcher_answer) : bool :=
  match obs_call o with can_refund_htlc _ => true | _ => false end.

Definition watcher_refund_asks (h : list (Obs watcher_answer)) : nat :=
  length (List.filter watcher_asks_refund h).

Section Ends.
  Variable show_nat : nat -> string.
  Variable fuel : nat.
  Variable m : WatcherStateMachine.
  Variable t0 : Z.
  Variable N : nat.

Definition watcher_clock (h : list (Obs watcher_answer)) : Z := foldl watcher_clock_step t0 h.

Definition fair_watcher (h : list (Obs watcher_answer)) (c : WatcherCall) : watcher_answer c -> Prop :=
  match c return watcher_answer c -> Prop with
  | now_sec => fun x => watcher_clock h <= x
  | can_refund_htlc _ => fun x => (N <= watcher_refund_asks h)%nat -> x = Ok CanRefundNow
  | _ => fun _ => True
  end.

(** One round of the search takes at least a second. *)
Definition watcher_fuel_ok : Prop :=
  (1 <= search_interval (conf m))%Q /\ refund_start_time m + 1 - t0 < Z.of_nat fuel /\
  (N < fuel)%nat.

Lemma watcher_clock_snoc h o : watcher_clock (h ++ [o]) = watcher_clock_step (watcher_clock h) o.
Proof. unfold watcher_clock. by rewrite foldl_app. Qed.

Lemma watcher_refund_asks_snoc h o :
  watcher_refund_asks (h ++ [o]) = (watcher_refund_asks h + if watcher_asks_refund o then 1 else 0)%nat.
Proof.
  unfold watcher_refund_asks. rewrite List.filter_app, length_app. simpl.
  by destruct (watcher_asks_refund o).
Qed.

Lemma on_taker_payment_spent_returns h t : returns fair_watcher h (on_taker_payment_spent m t).
Proof.
  unfold on_taker_payment_spent, leave_it_to_taker. intros now _. cbn [prog_bind].
  destruct (now <? taker_locktime m); [|by intros r _].
  intros [hex|e] _; [|done]. intros [t'|e] _; [done|]. by intros r _.
Qed.

Lemma search_returns n h hex :
  (1 <= search_interval (conf m))%Q -> refund_start_time m + 1 - watcher_clock h < Z.of_nat n ->
  (0 < n)%nat -> returns fair_watcher h (handle_wait_for_taker_payment_spend m n hex).
Proof.
  intros Hi. assert (Hq : 1 <= Qfloor (search_interval (conf m))) by (by apply (Qfloor_resp_le 1)).
  revert h; induction n as [|n IH]; intros h Hn Hp; [lia|].
  cbn [handle_wait_for_taker_payment_spend]. intros now Hnow. cbn [prog_bind]. cbn in Hnow.
  destruct (now >? refund_start_time m) eqn:Hx; [done|].
  assert (Hagain : forall h', watcher_clock h' = now -> forall u,
    returns fair_watcher (h' ++ [asked (sleep (search_interval (conf m))) u])
      (handle_wait_for_taker_payment_spend m n hex)).
  { intros h' Hc u. apply IH; [|cbn in Hnow; lia]. rewrite watcher_clock_snoc, Hc. cbn -[Z.max Qfloor]. lia. }
  intros r _. cbn [prog_bind]. destruct r as [[[t|t]|]|e]; [apply on_taker_payment_spent_returns|done|..];
    (intros u _; apply Hagain; by rewrite !watcher_clock_snoc).
Qed.

Lemma watcher_wait_can_refund_returns n h :
  (N - watcher_refund_asks h < n)%nat -> returns fair_watcher h (watcher_wait_can_refund m n).
Proof.
  revert h; induction n as [|n IH]; intros h Hn; [lia|].
  cbn [watcher_wait_can_refund]. intros r Hr. cbn [prog_bind]. cbn [fair_watcher] in Hr.
  destruct r as [[|w]|e]; [done|..]; intros [] _; apply IH;
    rewrite !watcher_refund_asks_snoc; cbn;
    (destruct (decide (N <= watcher_refund_asks h)%nat) as [Hle|Hle]; [by specialize (Hr Hle)|lia]).
Qed.

Lemma retry_returns (every : Q) n k h a :
  returns fair_watcher h (retry_on_err (call (watcher_validate_taker_fee a)) every n k).
Proof.
  revert h k; induction n as [|[|n] IH]; intros h k; cbn [retry_on_err]; intros [[]|e] _; try done.
  cbn [prog_bind]. intros [] _. apply IH.
Qed.

Lemma after_send_returns h s f x r : returns fair_watcher h (after_send s f x r).
Proof.
  unfold after_send, watcher_broadcast. destruct r as [t|e]; [|destruct (get_tx e) as [t|]; [|done]];
    by destruct (supports_tx_helper t).
Qed.

(** The states a machine may still enter. *)
Definition states_left (s : WatcherState) : nat :=
  match s with
  | ValidateTakerFee => 5
  | ValidateTakerPayment => 4
  | WaitForTakerPaymentSpend _ => 3
  | RefundTakerPayment | SpendMakerPayment _ => 2
  | Stopped _ => 1
  end.

(** Time does not run back. *)
Lemma watcher_clock_mono h tr :
  answers_in fair_watcher h tr -> watcher_clock h <= watcher_clock (h ++ tr).
Proof.
  revert h; induction tr as [|[c [x|]] tr IH]; intros h; [by rewrite app_nil_r|..|done].
  intros [Hx Ht]. apply IH in Ht. rewrite <- app_assoc in Ht. etrans; [|exact Ht].
  rewrite watcher_clock_snoc. destruct c; cbn in *; lia.
Qed.

Lemma wait_loop_next n hex tr s :
  runs (handle_wait_for_taker_payment_spend m n hex) tr s ->
  transition_from (WaitForTakerPaymentSpend hex) s = true.
Proof.
  revert tr; induction n as [|n IH]; intros tr Hr; [done|].
  cbn [handle_wait_for_taker_payment_spend] in Hr.
  unfold on_taker_payment_spent, leave_it_to_taker in Hr.
  run_all Hr; try (by repeat case_match); eauto.
Qed.

Lemma after_send_next s f x r tr s' : runs (after_send s f x r) tr s' -> exists reason, s' = Stopped reason.
Proof. unfold after_send, watcher_broadcast. intros Hr. run_all Hr; by eexists. Qed.

(** The machine only takes declared transitions. *)
Lemma watcher_transitions s tr s' :
  runs (watcher_on_changed show_nat fuel m s) tr (ChangeState s') -> transition_from s s' = true.
Proof.
  destruct s; cbn [watcher_on_changed]; intros Hr; run_step Hr.
  - unfold handle_validate_taker_fee in *. run_step Hp. run_step Hp. run_step Hr. by destruct a0.
  - unfold on_validate_taker_payment in *. run_all Hp; by run_all Hr.
  - run_step Hr. by apply wait_loop_next in Hp.
  - unfold handle_refund_taker_payment in Hp. run_step Hr. run_all Hp.
    by apply after_send_next in Hp as [? ->].
  - unfold handle_spend_maker_payment in Hp. run_step Hr. run_all Hp.
    by apply after_send_next in Hp as [? ->].
  - by destruct Hr as [_ [=]].
Qed.

Lemma watcher_next s tr s' :
  runs (watcher_on_changed show_nat fuel m s) tr (ChangeState s') -> (states_left s' < states_left s)%nat.
Proof. intros Ht%watcher_transitions. destruct s, s'; cbn in *; try done; lia. Qed.

Lemma watcher_on_changed_returns h s :
  watcher_fuel_ok -> t0 <= watcher_clock h -> returns fair_watcher h (watcher_on_changed show_nat fuel m s).
Proof.
  intros (Hi & Hf & HN) Ht. destruct s; cbn [watcher_on_changed];
    try (apply returns_bind; [|by intros]).
  - apply returns_bind; [apply retry_returns|by intros].
  - unfold on_validate_taker_payment. intros [] _ [hex|e] _; [|done].
    intros [[]|e] _; [|done]. by intros [[]|e] _.
  - apply search_returns; [done|lia..].
  - apply returns_bind; [apply watcher_wait_can_refund_returns; lia|]. intros tr [] _ _ r _.
    apply after_send_returns.
  - intros r _. apply after_send_returns.
  - by intros [] _.
Qed.

Lemma watcher_run_returns n h s :
  watcher_fuel_ok -> t0 <= watcher_clock h -> (states_left s <= n)%nat ->
  returns fair_watcher h (run_machine show_nat fuel m n s).
Proof.
  intros Hf. revert h s; induction n as [|n IH]; intros h s Ht Hs; [destruct s; cbn in Hs; lia|].
  cbn [run_machine]. apply returns_bind; [by apply watcher_on_changed_returns|].
  intros tr r Hr Hin. destruct r as [s'| |e]; [|done..].
  apply IH.
  - etrans; [exact Ht|by apply watcher_clock_mono].
  - apply watcher_next in Hr. lia.
Qed.

(** The last thing a run does is to log why it stops. *)
Lemma watcher_run_logs n s tr r :
  runs (run_machine show_nat fuel m n s) tr r ->
  exists tr1 reason, tr = tr1 ++ [asked (log_stopped (wd_uuid (data m)) reason) tt] /\ r = Ok tt.
Proof.
  revert s tr; induction n as [|n IH]; intros s tr Hr; [done|]. cbn [run_machine] in Hr.
  apply runs_bind in Hr as (x & t1 & t2 & -> & Hx & Hr). destruct x as [s'| |[]].
  - apply IH in Hr as (tr1 & reason & -> & ->). exists (t1 ++ tr1), reason. by rewrite app_assoc.
  - destruct s as [| | | | |reason]; cbn [watcher_on_changed] in Hx;
      [apply runs_bind in Hx as (? & ? & ? & _ & _ & [_ [=]])..|].
    run_step Hx. destruct Hx as [-> _], Hr as [-> ->], x. by exists [], reason.
Qed.
End Ends.
