(* ===== verification/SwapWatcherTheorems.v ===== *)
(** * Properties of the swap watcher

    What a watcher may do and why it stops, that it stops, that a node runs
    one watcher per taker fee, and that the watcher and the taker mean the
    same payments and times.  Each property that has hypotheses is followed
    at the end by a concrete instance. *)

From S2P Require Import Prelude MmNumber DexFee Effects Swap Demo StateMachine TakerSwap TakerTheorems.
From S2P Require Import SwapWatcher SwapWatcherProps.

Open Scope Z_scope.

(** ** One watcher per taker fee *)

Section OneWatcher.
  (** The timed map shows an entry until it expires (timed-map crate). *)
  Variable live : forall now deadline : Z, bool.
  Hypothesis live_before : forall now deadline, now < deadline -> live now deadline = true.

(** The states of a node over time, under a condition on every step. *)
Inductive watchers_reach (ok : Z -> WatcherNode -> Prop) : Z -> WatcherNode -> Prop :=
| reach_new t : watchers_reach ok t new_watcher_node
| reach_step t n t' e :
    watchers_reach ok t n -> t <= t' -> ok t' n ->
    watchers_reach ok t' (watcher_node_step live t' e n).

(** Every running watcher is younger than the expiry of its lock. *)
Definition young (now : Z) (n : WatcherNode) : Prop :=
  Forall (fun w => now < rw_since w + TAKER_SWAP_ENTRY_TIMEOUT_SEC) (wn_running n).

(** A running watcher has a lock that is not older than it. *)
Definition locked (ctx : WatchersCtx) (now : Z) (w : RunningWatcher) : Prop :=
  rw_since w <= now /\
  exists deadline, taker_swap_watchers ctx !! rw_fee_hash w = Some deadline /\
    rw_since w + TAKER_SWAP_ENTRY_TIMEOUT_SEC <= deadline.

Definition sound_watcher (w : RunningWatcher) : Prop :=
  length (rw_fee_hash w) = 32%nat /\ valid_lock_duration (wd_lock_duration (rw_data w)) = true.

Record watchers_ok (now : Z) (n : WatcherNode) : Prop := {
  wo_distinct : NoDup (map rw_fee_hash (wn_running n));
  wo_locked : Forall (locked (wn_ctx n) now) (wn_running n);
  wo_sound : Forall sound_watcher (wn_running n) }.

Lemma locked_other ctx now now' w ws :
  locked ctx now w -> now <= now' ->
  ws !! rw_fee_hash w = taker_swap_watchers ctx !! rw_fee_hash w ->
  locked (set_watchers ws ctx) now' w.
Proof. intros (Hs & d & Hd & Hle) Hn Heq. split; [lia|]. exists d. cbn. by rewrite Heq. Qed.

Lemma locked_again ctx now now' w :
  locked ctx now w -> now <= now' ->
  locked (set_watchers (<[rw_fee_hash w := now' + TAKER_SWAP_ENTRY_TIMEOUT_SEC]>
    (taker_swap_watchers ctx)) ctx) now' w.
Proof.
  intros (Hs & _) Hn. split; [lia|]. exists (now' + TAKER_SWAP_ENTRY_TIMEOUT_SEC). cbn.
  rewrite lookup_insert_eq. split; [done|lia].
Qed.

(** Locking keeps the locks of the watchers that run. *)
Lemma lock_taker_locked ctx now now' fee ws :
  Forall (locked ctx now) ws -> now <= now' ->
  Forall (locked (lock_taker live now' fee ctx).2 now') ws.
Proof.
  intros Hl Hn. eapply Forall_impl; [exact Hl|]. intros w Hw. unfold lock_taker. cbn [snd].
  destruct (decide (fee = rw_fee_hash w)) as [->|Hne]; [by apply locked_again with now|].
  eapply locked_other; [done|done|]. by apply lookup_insert_ne.
Qed.

(** A young watcher's lock is live, so its fee hash cannot be locked again. *)
Lemma lock_taker_free ctx now n fee :
  Forall (locked ctx now) (wn_running n) -> young now n ->
  (lock_taker live now fee ctx).1 = true -> fee ∉ map rw_fee_hash (wn_running n).
Proof.
  unfold young. intros Hl Hy Hf Hin. apply list_elem_of_fmap in Hin as (w & -> & Hw).
  rewrite Forall_forall in Hl, Hy. destruct (Hl w Hw) as (_ & d & Hd & Hle).
  specialize (Hy w Hw). cbn in Hy, Hf. rewrite Hd, live_before in Hf; [done|lia].
Qed.

Lemma drop_lock_locked ctx now fee ws :
  Forall (locked ctx now) ws -> fee ∉ map rw_fee_hash ws -> Forall (locked (drop_lock fee ctx) now) ws.
Proof.
  rewrite !Forall_forall. intros Hl Hf w Hw. eapply locked_other; [by apply Hl|done|].
  apply lookup_delete_ne. intros ->. by apply Hf, list_elem_of_fmap_2.
Qed.

Lemma locked_later ctx now now' ws :
  Forall (locked ctx now) ws -> now <= now' -> Forall (locked ctx now') ws.
Proof.
  intros Hl Hn. eapply Forall_impl; [exact Hl|]. intros w (Hs & Hd). split; [lia|done].
Qed.

Lemma message_ok now now' n decoded :
  watchers_ok now n -> now <= now' -> young now' n ->
  watchers_ok now' (watcher_node_step live now' (WatcherMessage decoded) n).
Proof.
  intros [Hd Hl Hs] Hn Hy.
  assert (Hsame : watchers_ok now' (mkWatcherNode (wn_ctx n) (wn_running n ++ [])))
    by (rewrite app_nil_r; constructor; [done|by eapply locked_later|done]).
  cbn [watcher_node_step]. unfold process_watcher_msg.
  destruct decoded as [[[d] pub]|e]; [|done]. unfold spawn_taker_swap_watcher.
  destruct (valid_lock_duration _) eqn:Hv; [|done]. cbn [negb].
  destruct (bool_decide _); [done|].
  pose proof (lock_taker_locked _ _ now' (wd_taker_fee_hash d) _ Hl Hn) as Hl'.
  pose proof (lock_taker_free (wn_ctx n) now' n (wd_taker_fee_hash d)
    (locked_later _ _ _ _ Hl Hn) Hy) as Hfree.
  assert (Hnew : taker_swap_watchers (lock_taker live now' (wd_taker_fee_hash d) (wn_ctx n)).2
    !! wd_taker_fee_hash d = Some (now' + TAKER_SWAP_ENTRY_TIMEOUT_SEC)) by apply lookup_insert_eq.
  destruct (lock_taker _ _ _ _) as [[|] ctx]; cbn [negb fst snd] in *;
    [|rewrite app_nil_r; by constructor].
  specialize (Hfree eq_refl). destruct (length _ =? 32)%nat eqn:Hlen; cbn [negb].
  - constructor; cbn [wn_ctx wn_running].
    + rewrite map_app. apply NoDup_app. split; [done|]. split; [|apply NoDup_singleton].
      intros x Hx Hx'%list_elem_of_singleton. subst x. done.
    + apply Forall_app. split; [done|]. apply Forall_singleton. split; [cbn; lia|]. by exists (now' + TAKER_SWAP_ENTRY_TIMEOUT_SEC).
    + apply Forall_app. split; [done|]. apply Forall_singleton. split; [by apply Nat.eqb_eq|done].
  - rewrite app_nil_r. constructor; cbn; [done|by apply drop_lock_locked|done].
Qed.

Lemma ends_ok now now' n i :
  watchers_ok now n -> now <= now' -> watchers_ok now' (watcher_node_step live now' (WatcherEnds i) n).
Proof.
  intros [Hd Hl Hs] Hn. cbn [watcher_node_step].
  destruct (wn_running n !! i) as [w|] eqn:Hi; [|constructor; [done|by eapply locked_later|done]].
  apply delete_Permutation in Hi. constructor; cbn [wn_ctx wn_running].
  - rewrite Hi in Hd. cbn in Hd. by apply NoDup_cons in Hd as [_ Hd].
  - apply drop_lock_locked; [|rewrite Hi in Hd; cbn in Hd; by apply NoDup_cons in Hd as [Hw _]].
    eapply locked_later; [|done]. rewrite Hi in Hl. by inversion Hl.
  - rewrite Hi in Hs. by inversion Hs.
Qed.

Lemma watchers_reach_ok t n : watchers_reach young t n -> watchers_ok t n.
Proof.
  induction 1 as [t|t n t' e Hr IH Hn Hy]; [by constructor; constructor|].
  destruct e as [decoded|i|msgs]; [by eapply message_ok|by eapply ends_ok|].
  destruct IH as [Hd Hl Hs]. constructor; [done| |done].
  apply (Forall_impl _ _ _ Hl). intros w (Hs' & Hd'). split; [lia|done].
Qed.

(** As long as no watcher runs longer than the six hours after which its
    lock expires, a node never runs two watchers for one taker fee, whatever
    messages arrive, and every watcher it runs has a fee hash of 32 bytes and
    a lock duration of the three that the node knows. *)
Theorem one_watcher_per_fee t n :
  watchers_reach young t n ->
  NoDup (map rw_fee_hash (wn_running n)) /\ Forall sound_watcher (wn_running n).
Proof. intros [Hd _ Hs]%watchers_reach_ok. done. Qed.
End OneWatcher.

(** For the two longer lock durations a watcher with the default settings waits
    for the refund longer than its lock lasts. *)
Lemma lock_expires_early d :
  valid_lock_duration d = true -> d <> get_payment_locktime ->
  TAKER_SWAP_ENTRY_TIMEOUT_SEC < f64_as_u64 (default_watcher_refund_factor * inject_Z d).
Proof.
  unfold valid_lock_duration. rewrite !orb_true_iff, !Z.eqb_eq.
  by intros [[->| ->]| ->] Hne; vm_compute.
Qed.

(** ** The watcher and the taker *)

Section Taker.
  Context `{SecretHasher} `{DecimalConv}.

Definition is_started (e : TakerSwapEvent) : bool := match e with Started _ => true | _ => false end.

(** The times of a swap are those it was started with. *)
Lemma replay_times now evs s :
  Forall (fun e => is_started e = false) evs ->
  let d := swap_data s in let d' := swap_data (replay now evs s) in
  d_started_at d' = d_started_at d /\ d_lock_duration d' = d_lock_duration d /\
  d_taker_payment_lock d' = d_taker_payment_lock d.
Proof.
  intros Hevs. cbn zeta. revert s; induction Hevs as [|e evs He _ IH]; intros s; [done|].
  cbn [replay foldl]. change (foldl _ ?s0 evs) with (replay now evs s0).
  destruct (IH (apply_event now e s)) as (-> & -> & ->).
  destruct s as [? ? ? ? ? ? ? ? ? ? ? ? ? ? ? ? ? ? ? []]; destruct e; cbn in *; try done;
    by repeat case_match.
Qed.

Lemma start_times s tr s' next d :
  runs (start s) tr (s', (next, [Started d])) ->
  d_lock_duration d = payment_locktime s /\
  d_taker_payment_lock d = wrap 64 (d_started_at d + payment_locktime s).
Proof. unfold start. intros Hr. run_all Hr. Qed.

Lemma create_watcher_data_fields s pth msp trp tr w :
  runs (create_watcher_data s pth msp trp) tr w ->
  wd_swap_started_at w = d_started_at (swap_data s) /\
  wd_lock_duration w = d_lock_duration (swap_data s) /\
  wd_secret_hash w = TakerSwap.secret_hash (mutable s) /\
  wd_maker_pub w = other_maker_coin_htlc_pub (mutable s).
Proof. unfold create_watcher_data. intros Hr. run_all Hr. Qed.

(** The lock duration of a taker payment over lightning, which no watcher takes. *)
Definition lightning_locktime (taker_ticker : string) (version : AtomicLocktimeVersion) : bool :=
  match version with
  | V1 => false
  | V2 _ _ => str_contains "-lightning" taker_ticker
  end.

Lemma lp_atomic_locktime_cases mt tt v :
  lp_atomic_locktime mt tt v =
    (if lightning_locktime tt v then get_payment_locktime * 12
     else lp_atomic_locktime mt tt v) /\
  (lightning_locktime tt v = false -> valid_lock_duration (lp_atomic_locktime mt tt v) = true).
Proof.
  destruct v as [|my other]; cbn [lp_atomic_locktime lightning_locktime];
    unfold lp_atomic_locktime_v1, lp_atomic_locktime_v2; repeat case_match; done.
Qed.

(** No rounding and no saturation for a factor times a lock duration. *)
Lemma f64_as_u64_exact (factor : Q) n :
  0 <= Qnum factor -> 0 <= n -> Qnum factor * n < 2 ^ 64 ->
  f64_as_u64 (factor * inject_Z n) = Qfloor (factor * inject_Z n).
Proof.
  destruct factor as [a b]. cbn [Qnum]. intros Ha Hn Hlt. unfold f64_as_u64.
  assert (Hq : Qfloor ((a # b) * inject_Z n) = a * n / Z.pos (b * 1)) by done.
  rewrite Hq. pose proof (Z.div_pos (a * n) (Z.pos (b * 1))).
  pose proof (Z.div_le_upper_bound (a * n) (Z.pos (b * 1)) (a * n)). nia.
Qed.

(** A taker that was started with the lock time the two nodes computed, at
    any point of the swap, and a watcher with the default settings that got
    its message mean the same: the taker's lock time, the instants from which
    the restarted taker expects watchers to spend and to refund, the lock time
    and the hash of the payment the taker sends and of the refund it prepared.
    The key the watcher takes for the maker's is the one the payment was sent
    to only if the maker uses one key for both coins.  A node accepts the
    message's lock duration unless the taker coin is a lightning coin. *)
Theorem watcher_agrees_with_taker maker_ticker taker_ticker version s0 tr0 s1 next d now evs
    pth msp trp tr w tc mc pub reward :
  TakerSwap.payment_locktime s0 = lp_atomic_locktime maker_ticker taker_ticker version ->
  runs (start s0) tr0 (s1, (next, [Started d])) ->
  Forall (fun e => is_started e = false) evs ->
  let s := replay now (Started d :: evs) s1 in
  runs (create_watcher_data s pth msp trp) tr w ->
  let m := mkWatcher tc mc pub w WatcherConf_default reward in
  taker_locktime m = d_taker_payment_lock (swap_data s) /\
  wait_for_maker_payment_spend_deadline m =
    watcher_refund_time TakerSwap.default_watcher_maker_payment_spend_factor s /\
  refund_start_time m = watcher_refund_time TakerSwap.default_watcher_refund_factor s /\
  (forall hex r, let v := validate_payment_input m hex in let a := send_payment_args s r in
     wv_time_lock v = sp_time_lock a /\ wv_secret_hash v = sp_secret_hash a /\
     (wv_maker_pub v = sp_other_pubkey a <->
      other_maker_coin_htlc_pub (mutable s) = other_taker_coin_htlc_pub (mutable s))) /\
  (forall t, let p := taker_refund_preimage_args s t in
     rf_time_lock (watcher_refund_args m) = pre_time_lock p /\
     rf_maker_secret_hash (watcher_refund_args m) = pre_secret_hash p) /\
  valid_lock_duration (wd_lock_duration w) = negb (lightning_locktime taker_ticker version).
Proof.
  intros Hlock Hstart Hevs s Hw m.
  destruct (start_times _ _ _ _ _ Hstart) as [Hd Hl].
  assert (Hs : d_started_at (swap_data s) = d_started_at d /\
    d_lock_duration (swap_data s) = d_lock_duration d /\
    d_taker_payment_lock (swap_data s) = d_taker_payment_lock d)
    by apply (replay_times now evs (apply_event now (Started d) s1) Hevs).
  destruct Hs as (Hsa & Hsl & Hst).
  destruct (create_watcher_data_fields _ _ _ _ _ _ Hw) as (Hwa & Hwl & Hwh & Hwm).
  destruct (lp_atomic_locktime_cases maker_ticker taker_ticker version) as [Hc Hv].
  assert (Hrange : 0 <= wd_lock_duration w < 2 ^ 32).
  { rewrite Hwl, Hsl, Hd, Hlock. clear. destruct version as [|my other]; cbn [lp_atomic_locktime];
      unfold lp_atomic_locktime_v1, lp_atomic_locktime_v2; repeat case_match; by vm_compute. }
  assert (Hlk : taker_locktime m = d_taker_payment_lock (swap_data s)).
  { unfold taker_locktime. cbn [data m]. by rewrite Hwa, Hwl, Hst, Hl, Hsa, Hsl, Hd. }
  assert (Hf : forall f, 0 <= Qnum f <= 15 ->
    after_factor f m = watcher_refund_time f s).
  { intros f Hf. unfold after_factor, watcher_refund_time. cbn [data m].
    rewrite f64_as_u64_exact by nia. by rewrite Hwa, Hwl. }
  clearbody s. split; [done|]. split; [by apply Hf|]. split; [by apply Hf|]. split; [|split].
  - intros hex r. subst m. cbn -[taker_locktime]. by rewrite Hwh, Hwm, Hlk.
  - intros t. subst m. cbn -[taker_locktime]. by rewrite Hwh, Hlk.
  - rewrite Hwl, Hsl, Hd, Hlock. destruct (lightning_locktime taker_ticker version); [|by apply Hv].
    by rewrite Hc.
Qed.
End Taker.

(** ** A watcher of one swap *)

Section Watcher.
  Variable show_nat : nat -> string.
  Variable fuel : nat.
  Variable m : WatcherStateMachine.

(** C20: whatever the coins and the clock answer and wherever the watcher is
    interrupted: it validates the taker payment only when the fee was accepted
    and the transaction named by the message was confirmed; it searches only
    for spends of a validated payment; it spends the maker payment at most
    once, only with a secret extracted from a transaction that spends that
    payment, and only when the taker's lock time has passed or the taker let
    its own deadline pass; it refunds at most once and never after it saw a
    spend, only past the refund time and when the coin allows it; it
    rebroadcasts only its own transactions; and the reason it logs is true. *)
Theorem watcher_money_safety tr :
  traces (watch show_nat fuel m) tr -> safe (good_watcher_call m) tr.
Proof.
  intros Ht. eapply (wp_safe _ []); [apply watch_ok|apply safe_nil|exact Ht].
Qed.

(** C21: in a fair environment (the clock advances by what the watcher sleeps,
    the refund becomes possible after finitely many queries) a watcher stops,
    and every watcher that stops has logged a reason that is true as the last
    thing it did. *)
Theorem watcher_stops t0 N :
  watcher_fuel_ok fuel m t0 N ->
  returns (fair_watcher t0 N) [] (watch show_nat fuel m) /\
  forall tr r, runs (watch show_nat fuel m) tr r ->
    exists tr1 reason, tr = tr1 ++ [asked (log_stopped (wd_uuid (data m)) reason) tt] /\
      reason_shown m tr1 reason.
Proof.
  intros Hf. split; [apply watcher_run_returns; cbn; [done|lia..]|].
  intros tr r Hr. pose proof (watcher_run_logs _ _ _ _ _ _ _ Hr) as (tr1 & reason & -> & _).
  exists tr1, reason. split; [done|]. apply runs_traces in Hr.
  eapply (wp_safe _ []) in Hr; [|apply watch_ok|apply safe_nil].
  destruct (Hr tr1 (asked (log_stopped (wd_uuid (data m)) reason) tt) []) as [_ Hs]; [done|exact Hs].
Qed.
End Watcher.

(** ** Concrete runs *)

Module WatcherDemo.

Definition base : Coin := demo_coin "KMD".
Definition rel : Coin := demo_coin "LTC".

Definition message : TakerSwapWatcherData := {|
  wd_uuid := replicate 16 1; wd_secret_hash := replicate 20 5;
  wd_maker_payment_spend_preimage := [1; 2]; wd_taker_payment_refund_preimage := [3; 4];
  wd_swap_started_at := 1000000; wd_lock_duration := 7800;
  wd_taker_coin := "LTC"; wd_taker_fee_hash := replicate 32 6; wd_taker_payment_hash := replicate 32 7;
  wd_taker_coin_start_block := 100; wd_taker_payment_confirmations := 3;
  wd_taker_payment_requires_nota := Some true; wd_maker_coin := "KMD";
  wd_maker_pub := replicate 33 8; wd_maker_payment_hash := replicate 32 9;
  wd_maker_coin_start_block := 200 |}.

Definition machine : WatcherStateMachine :=
  mkWatcher rel base (replicate 33 2) message WatcherConf_default false.

Definition asks_search (o : Obs watcher_answer) : bool :=
  match obs_call o with watcher_search_for_swap_tx_spend _ => true | _ => false end.

(** The maker spends the taker payment once the watcher has searched [n]
    times; the taker does not spend the maker payment. *)
Definition oracle (n : nat) (h : list (Obs watcher_answer)) (c : WatcherCall) : watcher_answer c :=
  match c return watcher_answer c with
  | now_sec => watcher_clock 1000100 h
  | sleep _ | broadcast_tx _ _ | log_stopped _ _ => tt
  | watcher_validate_taker_fee _ | wait_for_confirmations _ | watcher_validate_taker_payment _ => Ok tt
  | get_tx_hex_by_hash _ h => Ok h
  | watcher_search_for_swap_tx_spend _ =>
      Ok (if (n <=? length (List.filter asks_search h))%nat then Some (Spent (demo_tx 4)) else None)
  | wait_for_htlc_tx_spend _ => Err (Plain "not spent")
  | extract_secret _ _ => Ok (replicate 32 3)
  | send_maker_payment_spend_preimage _ => Ok (demo_tx 5)
  | send_taker_payment_refund_preimage _ => Ok (demo_tx 6)
  | can_refund_htlc _ => Ok CanRefundNow
  end.

Definition show_nat (_ : nat) : string := "6".

(** The watcher spends the maker payment, and refunds the taker payment when
    nobody spends it. *)
Definition spend_run := exec (oracle 2) [] (watch show_nat 50 machine).
Definition refund_run := exec (oracle 1000) [] (watch show_nat 50 machine).

Definition last_reason (tr : list (Obs watcher_answer)) : option StopReason :=
  match last tr with
  | Some o => match obs_call o with log_stopped _ r => Some r | _ => None end
  | None => None
  end.

Lemma spend_run_reason : last_reason spend_run.2 = Some (Finished MakerPaymentSpent).
Proof. by vm_compute. Qed.

Lemma refund_run_reason : last_reason refund_run.2 = Some (Finished TakerPaymentRefunded).
Proof. by vm_compute. Qed.

Lemma spend_run_traces : traces (watch show_nat 50 machine) spend_run.2.
Proof. apply exec_traces. Qed.

(** A message for a long lock duration, and the same again six hours later. *)
Definition long_message : TakerSwapWatcherData := {|
  wd_uuid := replicate 16 1; wd_secret_hash := replicate 20 5;
  wd_maker_payment_spend_preimage := [1; 2]; wd_taker_payment_refund_preimage := [3; 4];
  wd_swap_started_at := 1000000; wd_lock_duration := 7800 * 4;
  wd_taker_coin := "BTC"; wd_taker_fee_hash := replicate 32 6; wd_taker_payment_hash := replicate 32 7;
  wd_taker_coin_start_block := 100; wd_taker_payment_confirmations := 3;
  wd_taker_payment_requires_nota := Some true; wd_maker_coin := "KMD";
  wd_maker_pub := replicate 33 8; wd_maker_payment_hash := replicate 32 9;
  wd_maker_coin_start_block := 200 |}.

Definition arrives (d : TakerSwapWatcherData) : WatcherEvent :=
  WatcherMessage (Ok (TakerSwapWatcherMsg d, replicate 33 2)).

(** Without the bound on the age of the watchers a second one is started. *)
Lemma second_watcher_starts :
  map rw_fee_hash (wn_running (run_watcher_node Z.ltb
    [(1000100, arrives long_message); (1000100 + 21601, arrives long_message)])) =
  [replicate 32 6; replicate 32 6].
Proof. by vm_compute. Qed.

Lemma one_swap_reach : watchers_reach Z.ltb young 1000200
  (run_watcher_node Z.ltb [(1000100, arrives message); (1000200, arrives message)]).
Proof.
  apply (reach_step _ _ 1000100 (run_watcher_node Z.ltb [(1000100, arrives message)])).
  - apply (reach_step _ _ 0 new_watcher_node 1000100 (arrives message)); [constructor|done|].
    by apply Forall_nil.
  - done.
  - apply Forall_singleton. by vm_compute.
Qed.

End WatcherDemo.

Import WatcherDemo.

Lemma watcher_money_safety_witness :
  last_reason spend_run.2 = Some (Finished MakerPaymentSpent) /\
  safe (good_watcher_call machine) spend_run.2.
Proof.
  split; [apply spend_run_reason|].
  apply (watcher_money_safety show_nat 50 machine), spend_run_traces.
Defined.

Lemma watcher_stops_witness :
  fst refund_run = Some (Ok tt) /\
  returns (fair_watcher 1011000 5) [] (watch show_nat 1000 machine) /\
  exists tr1 reason, refund_run.2 = tr1 ++ [asked (log_stopped (replicate 16 1) reason) tt] /\
    reason_shown machine tr1 reason.
Proof.
  split; [by vm_compute|]. split.
  - apply (watcher_stops show_nat 1000 machine 1011000 5). split; [by vm_compute|]. split; [by vm_compute|lia].
  - apply (watcher_stops show_nat 50 machine (1000100 + 20000) 5) with (r := Ok tt).
    + split; [by vm_compute|]. split; [by vm_compute|lia].
    + apply exec_fst. by vm_compute.
Defined.

Lemma one_watcher_per_fee_witness :
  NoDup (map rw_fee_hash (wn_running (run_watcher_node Z.ltb
    [(1000100, arrives message); (1000200, arrives message)]))).
Proof.
  apply (one_watcher_per_fee Z.ltb (fun now deadline Hlt => proj2 (Z.ltb_lt now deadline) Hlt)
    1000200), one_swap_reach.
Defined.

#[local] Existing Instance demo_hasher.
#[local] Existing Instance exact_decimal.

Lemma taker_demo_start : exists tr s1 next d, runs (start TakerDemo.taker) tr (s1, (next, [Started d])).
Proof. eexists _, _, _, _. eapply (exec_fst TakerDemo.oracle _ []). vm_compute. reflexivity. Qed.

Lemma watcher_agrees_with_taker_witness :
  exists s w, TakerSwap.payment_locktime TakerDemo.taker = 7800 /\
    taker_locktime (mkWatcher rel base (replicate 33 2) w WatcherConf_default false) =
      d_taker_payment_lock (swap_data s) /\
    valid_lock_duration (wd_lock_duration w) = true.
Proof.
  destruct taker_demo_start as (tr & s1 & next & d & Hr).
  pose (evs := [TakerFeeSent (mkTxIdent [1] [2]); MakerPaymentReceived (mkTxIdent [3] [4])]).
  assert (Hw : exists w, runs (create_watcher_data (replay 0 (Started d :: evs) s1) [5] [6] [7]) [] w)
    by (eexists; split; reflexivity).
  destruct Hw as [w Hw]. exists (replay 0 (Started d :: evs) s1), w. split; [done|].
  assert (Hevs : Forall (fun e => is_started e = false) evs) by repeat constructor.
  destruct (watcher_agrees_with_taker "KMD" "LTC" V1 TakerDemo.taker tr s1 next d 0 evs [5] [6] [7]
    [] w rel base (replicate 33 2) false eq_refl Hr Hevs Hw) as (Hl & _ & _ & _ & _ & Hv).
  split; [exact Hl|exact Hv].
Defined.
