(* ===== verification/Opcode.v ===== *)
(** * Script opcodes (mm2src/mm2_bitcoin/script/src/opcode.rs, flags.rs)

    The opcodes with their bytes, the order that the source derives from the
    discriminants, and the predicates on them; the interpreter flags that
    decide which opcodes are disabled. *)

From S2P Require Import Prelude.

Inductive Opcode : Type :=
| OP_0 | OP_PUSHBYTES_1 | OP_PUSHBYTES_2 | OP_PUSHBYTES_3 | OP_PUSHBYTES_4
| OP_PUSHBYTES_5 | OP_PUSHBYTES_6 | OP_PUSHBYTES_7 | OP_PUSHBYTES_8
| OP_PUSHBYTES_9 | OP_PUSHBYTES_10 | OP_PUSHBYTES_11 | OP_PUSHBYTES_12
| OP_PUSHBYTES_13 | OP_PUSHBYTES_14 | OP_PUSHBYTES_15 | OP_PUSHBYTES_16
| OP_PUSHBYTES_17 | OP_PUSHBYTES_18 | OP_PUSHBYTES_19 | OP_PUSHBYTES_20
| OP_PUSHBYTES_21 | OP_PUSHBYTES_22 | OP_PUSHBYTES_23 | OP_PUSHBYTES_24
| OP_PUSHBYTES_25 | OP_PUSHBYTES_26 | OP_PUSHBYTES_27 | OP_PUSHBYTES_28
| OP_PUSHBYTES_29 | OP_PUSHBYTES_30 | OP_PUSHBYTES_31 | OP_PUSHBYTES_32
| OP_PUSHBYTES_33 | OP_PUSHBYTES_34 | OP_PUSHBYTES_35 | OP_PUSHBYTES_36
| OP_PUSHBYTES_37 | OP_PUSHBYTES_38 | OP_PUSHBYTES_39 | OP_PUSHBYTES_40
| OP_PUSHBYTES_41 | OP_PUSHBYTES_42 | OP_PUSHBYTES_43 | OP_PUSHBYTES_44
| OP_PUSHBYTES_45 | OP_PUSHBYTES_46 | OP_PUSHBYTES_47 | OP_PUSHBYTES_48
| OP_PUSHBYTES_49 | OP_PUSHBYTES_50 | OP_PUSHBYTES_51 | OP_PUSHBYTES_52
| OP_PUSHBYTES_53 | OP_PUSHBYTES_54 | OP_PUSHBYTES_55 | OP_PUSHBYTES_56
| OP_PUSHBYTES_57 | OP_PUSHBYTES_58 | OP_PUSHBYTES_59 | OP_PUSHBYTES_60
| OP_PUSHBYTES_61 | OP_PUSHBYTES_62 | OP_PUSHBYTES_63 | OP_PUSHBYTES_64
| OP_PUSHBYTES_65 | OP_PUSHBYTES_66 | OP_PUSHBYTES_67 | OP_PUSHBYTES_68
| OP_PUSHBYTES_69 | OP_PUSHBYTES_70 | OP_PUSHBYTES_71 | OP_PUSHBYTES_72
| OP_PUSHBYTES_73 | OP_PUSHBYTES_74 | OP_PUSHBYTES_75 | OP_PUSHDATA1
| OP_PUSHDATA2 | OP_PUSHDATA4 | OP_1NEGATE | OP_RESERVED | OP_1 | OP_2 | OP_3
| OP_4 | OP_5 | OP_6 | OP_7 | OP_8 | OP_9 | OP_10 | OP_11 | OP_12 | OP_13
| OP_14 | OP_15 | OP_16 | OP_NOP | OP_VER | OP_IF | OP_NOTIF | OP_VERIF
| OP_VERNOTIF | OP_ELSE | OP_ENDIF | OP_VERIFY | OP_RETURN | OP_TOALTSTACK
| OP_FROMALTSTACK | OP_2DROP | OP_2DUP | OP_3DUP | OP_2OVER | OP_2ROT
| OP_2SWAP | OP_IFDUP | OP_DEPTH | OP_DROP | OP_DUP | OP_NIP | OP_OVER
| OP_PICK | OP_ROLL | OP_ROT | OP_SWAP | OP_TUCK | OP_CAT | OP_SUBSTR
| OP_LEFT | OP_RIGHT | OP_SIZE | OP_INVERT | OP_AND | OP_OR | OP_XOR
| OP_EQUAL | OP_EQUALVERIFY | OP_RESERVED1 | OP_RESERVED2 | OP_1ADD | OP_1SUB
| OP_2MUL | OP_2DIV | OP_NEGATE | OP_ABS | OP_NOT | OP_0NOTEQUAL | OP_ADD
| OP_SUB | OP_MUL | OP_DIV | OP_MOD | OP_LSHIFT | OP_RSHIFT | OP_BOOLAND
| OP_BOOLOR | OP_NUMEQUAL | OP_NUMEQUALVERIFY | OP_NUMNOTEQUAL | OP_LESSTHAN
| OP_GREATERTHAN | OP_LESSTHANOREQUAL | OP_GREATERTHANOREQUAL | OP_MIN
| OP_MAX | OP_WITHIN | OP_RIPEMD160 | OP_SHA1 | OP_SHA256 | OP_HASH160
| OP_HASH256 | OP_CODESEPARATOR | OP_CHECKSIG | OP_CHECKSIGVERIFY
| OP_CHECKMULTISIG | OP_CHECKMULTISIGVERIFY | OP_NOP1
| OP_CHECKLOCKTIMEVERIFY | OP_CHECKSEQUENCEVERIFY | OP_NOP4 | OP_NOP5
| OP_NOP6 | OP_NOP7 | OP_NOP8 | OP_NOP9 | OP_NOP10 | OP_CREATE | OP_CALL
| OP_SPEND | OP_SENDER.

(** [opcode as u8]. *)
Definition op_u8 (o : Opcode) : Z :=
  match o with
  | OP_0 => 0 | OP_PUSHBYTES_1 => 1 | OP_PUSHBYTES_2 => 2
  | OP_PUSHBYTES_3 => 3 | OP_PUSHBYTES_4 => 4 | OP_PUSHBYTES_5 => 5
  | OP_PUSHBYTES_6 => 6 | OP_PUSHBYTES_7 => 7 | OP_PUSHBYTES_8 => 8
  | OP_PUSHBYTES_9 => 9 | OP_PUSHBYTES_10 => 10 | OP_PUSHBYTES_11 => 11
  | OP_PUSHBYTES_12 => 12 | OP_PUSHBYTES_13 => 13 | OP_PUSHBYTES_14 => 14
  | OP_PUSHBYTES_15 => 15 | OP_PUSHBYTES_16 => 16 | OP_PUSHBYTES_17 => 17
  | OP_PUSHBYTES_18 => 18 | OP_PUSHBYTES_19 => 19 | OP_PUSHBYTES_20 => 20
  | OP_PUSHBYTES_21 => 21 | OP_PUSHBYTES_22 => 22 | OP_PUSHBYTES_23 => 23
  | OP_PUSHBYTES_24 => 24 | OP_PUSHBYTES_25 => 25 | OP_PUSHBYTES_26 => 26
  | OP_PUSHBYTES_27 => 27 | OP_PUSHBYTES_28 => 28 | OP_PUSHBYTES_29 => 29
  | OP_PUSHBYTES_30 => 30 | OP_PUSHBYTES_31 => 31 | OP_PUSHBYTES_32 => 32
  | OP_PUSHBYTES_33 => 33 | OP_PUSHBYTES_34 => 34 | OP_PUSHBYTES_35 => 35
  | OP_PUSHBYTES_36 => 36 | OP_PUSHBYTES_37 => 37 | OP_PUSHBYTES_38 => 38
  | OP_PUSHBYTES_39 => 39 | OP_PUSHBYTES_40 => 40 | OP_PUSHBYTES_41 => 41
  | OP_PUSHBYTES_42 => 42 | OP_PUSHBYTES_43 => 43 | OP_PUSHBYTES_44 => 44
  | OP_PUSHBYTES_45 => 45 | OP_PUSHBYTES_46 => 46 | OP_PUSHBYTES_47 => 47
  | OP_PUSHBYTES_48 => 48 | OP_PUSHBYTES_49 => 49 | OP_PUSHBYTES_50 => 50
  | OP_PUSHBYTES_51 => 51 | OP_PUSHBYTES_52 => 52 | OP_PUSHBYTES_53 => 53
  | OP_PUSHBYTES_54 => 54 | OP_PUSHBYTES_55 => 55 | OP_PUSHBYTES_56 => 56
  | OP_PUSHBYTES_57 => 57 | OP_PUSHBYTES_58 => 58 | OP_PUSHBYTES_59 => 59
  | OP_PUSHBYTES_60 => 60 | OP_PUSHBYTES_61 => 61 | OP_PUSHBYTES_62 => 62
  | OP_PUSHBYTES_63 => 63 | OP_PUSHBYTES_64 => 64 | OP_PUSHBYTES_65 => 65
  | OP_PUSHBYTES_66 => 66 | OP_PUSHBYTES_67 => 67 | OP_PUSHBYTES_68 => 68
  | OP_PUSHBYTES_69 => 69 | OP_PUSHBYTES_70 => 70 | OP_PUSHBYTES_71 => 71
  | OP_PUSHBYTES_72 => 72 | OP_PUSHBYTES_73 => 73 | OP_PUSHBYTES_74 => 74
  | OP_PUSHBYTES_75 => 75 | OP_PUSHDATA1 => 76 | OP_PUSHDATA2 => 77
  | OP_PUSHDATA4 => 78 | OP_1NEGATE => 79 | OP_RESERVED => 80 | OP_1 => 81
  | OP_2 => 82 | OP_3 => 83 | OP_4 => 84 | OP_5 => 85 | OP_6 => 86
  | OP_7 => 87 | OP_8 => 88 | OP_9 => 89 | OP_10 => 90 | OP_11 => 91
  | OP_12 => 92 | OP_13 => 93 | OP_14 => 94 | OP_15 => 95 | OP_16 => 96
  | OP_NOP => 97 | OP_VER => 98 | OP_IF => 99 | OP_NOTIF => 100
  | OP_VERIF => 101 | OP_VERNOTIF => 102 | OP_ELSE => 103 | OP_ENDIF => 104
  | OP_VERIFY => 105 | OP_RETURN => 106 | OP_TOALTSTACK => 107
  | OP_FROMALTSTACK => 108 | OP_2DROP => 109 | OP_2DUP => 110
  | OP_3DUP => 111 | OP_2OVER => 112 | OP_2ROT => 113 | OP_2SWAP => 114
  | OP_IFDUP => 115 | OP_DEPTH => 116 | OP_DROP => 117 | OP_DUP => 118
  | OP_NIP => 119 | OP_OVER => 120 | OP_PICK => 121 | OP_ROLL => 122
  | OP_ROT => 123 | OP_SWAP => 124 | OP_TUCK => 125 | OP_CAT => 126
  | OP_SUBSTR => 127 | OP_LEFT => 128 | OP_RIGHT => 129 | OP_SIZE => 130
  | OP_INVERT => 131 | OP_AND => 132 | OP_OR => 133 | OP_XOR => 134
  | OP_EQUAL => 135 | OP_EQUALVERIFY => 136 | OP_RESERVED1 => 137
  | OP_RESERVED2 => 138 | OP_1ADD => 139 | OP_1SUB => 140 | OP_2MUL => 141
  | OP_2DIV => 142 | OP_NEGATE => 143 | OP_ABS => 144 | OP_NOT => 145
  | OP_0NOTEQUAL => 146 | OP_ADD => 147 | OP_SUB => 148 | OP_MUL => 149
  | OP_DIV => 150 | OP_MOD => 151 | OP_LSHIFT => 152 | OP_RSHIFT => 153
  | OP_BOOLAND => 154 | OP_BOOLOR => 155 | OP_NUMEQUAL => 156
  | OP_NUMEQUALVERIFY => 157 | OP_NUMNOTEQUAL => 158 | OP_LESSTHAN => 159
  | OP_GREATERTHAN => 160 | OP_LESSTHANOREQUAL => 161
  | OP_GREATERTHANOREQUAL => 162 | OP_MIN => 163 | OP_MAX => 164
  | OP_WITHIN => 165 | OP_RIPEMD160 => 166 | OP_SHA1 => 167
  | OP_SHA256 => 168 | OP_HASH160 => 169 | OP_HASH256 => 170
  | OP_CODESEPARATOR => 171 | OP_CHECKSIG => 172 | OP_CHECKSIGVERIFY => 173
  | OP_CHECKMULTISIG => 174 | OP_CHECKMULTISIGVERIFY => 175 | OP_NOP1 => 176
  | OP_CHECKLOCKTIMEVERIFY => 177 | OP_CHECKSEQUENCEVERIFY => 178
  | OP_NOP4 => 179 | OP_NOP5 => 180 | OP_NOP6 => 181 | OP_NOP7 => 182
  | OP_NOP8 => 183 | OP_NOP9 => 184 | OP_NOP10 => 185 | OP_CREATE => 193
  | OP_CALL => 194 | OP_SPEND => 195 | OP_SENDER => 196
  end.

(** [Opcode::from_u8]. *)
Definition op_from_u8 (u : Z) : option Opcode :=
  match u with
  | 0 => Some OP_0 | 1 => Some OP_PUSHBYTES_1 | 2 => Some OP_PUSHBYTES_2
  | 3 => Some OP_PUSHBYTES_3 | 4 => Some OP_PUSHBYTES_4
  | 5 => Some OP_PUSHBYTES_5 | 6 => Some OP_PUSHBYTES_6
  | 7 => Some OP_PUSHBYTES_7 | 8 => Some OP_PUSHBYTES_8
  | 9 => Some OP_PUSHBYTES_9 | 10 => Some OP_PUSHBYTES_10
  | 11 => Some OP_PUSHBYTES_11 | 12 => Some OP_PUSHBYTES_12
  | 13 => Some OP_PUSHBYTES_13 | 14 => Some OP_PUSHBYTES_14
  | 15 => Some OP_PUSHBYTES_15 | 16 => Some OP_PUSHBYTES_16
  | 17 => Some OP_PUSHBYTES_17 | 18 => Some OP_PUSHBYTES_18
  | 19 => Some OP_PUSHBYTES_19 | 20 => Some OP_PUSHBYTES_20
  | 21 => Some OP_PUSHBYTES_21 | 22 => Some OP_PUSHBYTES_22
  | 23 => Some OP_PUSHBYTES_23 | 24 => Some OP_PUSHBYTES_24
  | 25 => Some OP_PUSHBYTES_25 | 26 => Some OP_PUSHBYTES_26
  | 27 => Some OP_PUSHBYTES_27 | 28 => Some OP_PUSHBYTES_28
  | 29 => Some OP_PUSHBYTES_29 | 30 => Some OP_PUSHBYTES_30
  | 31 => Some OP_PUSHBYTES_31 | 32 => Some OP_PUSHBYTES_32
  | 33 => Some OP_PUSHBYTES_33 | 34 => Some OP_PUSHBYTES_34
  | 35 => Some OP_PUSHBYTES_35 | 36 => Some OP_PUSHBYTES_36
  | 37 => Some OP_PUSHBYTES_37 | 38 => Some OP_PUSHBYTES_38
  | 39 => Some OP_PUSHBYTES_39 | 40 => Some OP_PUSHBYTES_40
  | 41 => Some OP_PUSHBYTES_41 | 42 => Some OP_PUSHBYTES_42
  | 43 => Some OP_PUSHBYTES_43 | 44 => Some OP_PUSHBYTES_44
  | 45 => Some OP_PUSHBYTES_45 | 46 => Some OP_PUSHBYTES_46
  | 47 => Some OP_PUSHBYTES_47 | 48 => Some OP_PUSHBYTES_48
  | 49 => Some OP_PUSHBYTES_49 | 50 => Some OP_PUSHBYTES_50
  | 51 => Some OP_PUSHBYTES_51 | 52 => Some OP_PUSHBYTES_52
  | 53 => Some OP_PUSHBYTES_53 | 54 => Some OP_PUSHBYTES_54
  | 55 => Some OP_PUSHBYTES_55 | 56 => Some OP_PUSHBYTES_56
  | 57 => Some OP_PUSHBYTES_57 | 58 => Some OP_PUSHBYTES_58
  | 59 => Some OP_PUSHBYTES_59 | 60 => Some OP_PUSHBYTES_60
  | 61 => Some OP_PUSHBYTES_61 | 62 => Some OP_PUSHBYTES_62
  | 63 => Some OP_PUSHBYTES_63 | 64 => Some OP_PUSHBYTES_64
  | 65 => Some OP_PUSHBYTES_65 | 66 => Some OP_PUSHBYTES_66
  | 67 => Some OP_PUSHBYTES_67 | 68 => Some OP_PUSHBYTES_68
  | 69 => Some OP_PUSHBYTES_69 | 70 => Some OP_PUSHBYTES_70
  | 71 => Some OP_PUSHBYTES_71 | 72 => Some OP_PUSHBYTES_72
  | 73 => Some OP_PUSHBYTES_73 | 74 => Some OP_PUSHBYTES_74
  | 75 => Some OP_PUSHBYTES_75 | 76 => Some OP_PUSHDATA1
  | 77 => Some OP_PUSHDATA2 | 78 => Some OP_PUSHDATA4 | 79 => Some OP_1NEGATE
  | 80 => Some OP_RESERVED | 81 => Some OP_1 | 82 => Some OP_2
  | 83 => Some OP_3 | 84 => Some OP_4 | 85 => Some OP_5 | 86 => Some OP_6
  | 87 => Some OP_7 | 88 => Some OP_8 | 89 => Some OP_9 | 90 => Some OP_10
  | 91 => Some OP_11 | 92 => Some OP_12 | 93 => Some OP_13 | 94 => Some OP_14
  | 95 => Some OP_15 | 96 => Some OP_16 | 97 => Some OP_NOP
  | 98 => Some OP_VER | 99 => Some OP_IF | 100 => Some OP_NOTIF
  | 101 => Some OP_VERIF | 102 => Some OP_VERNOTIF | 103 => Some OP_ELSE
  | 104 => Some OP_ENDIF | 105 => Some OP_VERIFY | 106 => Some OP_RETURN
  | 107 => Some OP_TOALTSTACK | 108 => Some OP_FROMALTSTACK
  | 109 => Some OP_2DROP | 110 => Some OP_2DUP | 111 => Some OP_3DUP
  | 112 => Some OP_2OVER | 113 => Some OP_2ROT | 114 => Some OP_2SWAP
  | 115 => Some OP_IFDUP | 116 => Some OP_DEPTH | 117 => Some OP_DROP
  | 118 => Some OP_DUP | 119 => Some OP_NIP | 120 => Some OP_OVER
  | 121 => Some OP_PICK | 122 => Some OP_ROLL | 123 => Some OP_ROT
  | 124 => Some OP_SWAP | 125 => Some OP_TUCK | 126 => Some OP_CAT
  | 127 => Some OP_SUBSTR | 128 => Some OP_LEFT | 129 => Some OP_RIGHT
  | 130 => Some OP_SIZE | 131 => Some OP_INVERT | 132 => Some OP_AND
  | 133 => Some OP_OR | 134 => Some OP_XOR | 135 => Some OP_EQUAL
  | 136 => Some OP_EQUALVERIFY | 137 => Some OP_RESERVED1
  | 138 => Some OP_RESERVED2 | 139 => Some OP_1ADD | 140 => Some OP_1SUB
  | 141 => Some OP_2MUL | 142 => Some OP_2DIV | 143 => Some OP_NEGATE
  | 144 => Some OP_ABS | 145 => Some OP_NOT | 146 => Some OP_0NOTEQUAL
  | 147 => Some OP_ADD | 148 => Some OP_SUB | 149 => Some OP_MUL
  | 150 => Some OP_DIV | 151 => Some OP_MOD | 152 => Some OP_LSHIFT
  | 153 => Some OP_RSHIFT | 154 => Some OP_BOOLAND | 155 => Some OP_BOOLOR
  | 156 => Some OP_NUMEQUAL | 157 => Some OP_NUMEQUALVERIFY
  | 158 => Some OP_NUMNOTEQUAL | 159 => Some OP_LESSTHAN
  | 160 => Some OP_GREATERTHAN | 161 => Some OP_LESSTHANOREQUAL
  | 162 => Some OP_GREATERTHANOREQUAL | 163 => Some OP_MIN
  | 164 => Some OP_MAX | 165 => Some OP_WITHIN | 166 => Some OP_RIPEMD160
  | 167 => Some OP_SHA1 | 168 => Some OP_SHA256 | 169 => Some OP_HASH160
  | 170 => Some OP_HASH256 | 171 => Some OP_CODESEPARATOR
  | 172 => Some OP_CHECKSIG | 173 => Some OP_CHECKSIGVERIFY
  | 174 => Some OP_CHECKMULTISIG | 175 => Some OP_CHECKMULTISIGVERIFY
  | 176 => Some OP_NOP1 | 177 => Some OP_CHECKLOCKTIMEVERIFY
  | 178 => Some OP_CHECKSEQUENCEVERIFY | 179 => Some OP_NOP4
  | 180 => Some OP_NOP5 | 181 => Some OP_NOP6 | 182 => Some OP_NOP7
  | 183 => Some OP_NOP8 | 184 => Some OP_NOP9 | 185 => Some OP_NOP10
  | 193 => Some OP_CREATE | 194 => Some OP_CALL | 195 => Some OP_SPEND
  | 196 => Some OP_SENDER
  | _ => None
  end.

Lemma op_from_to_u8 o : op_from_u8 (op_u8 o) = Some o.
Proof. by destruct o. Qed.

Lemma op_u8_range o : is_u8 (op_u8 o).
Proof. destruct o; by compute. Qed.

#[export] Instance op_u8_inj : Inj (=) (=) op_u8.
Proof.
  intros a b E. assert (Some a = Some b) as [= ->]; [|done].
  by rewrite <- (op_from_to_u8 a), <- (op_from_to_u8 b), E.
Qed.

#[export] Instance Opcode_eq_dec : EqDecision Opcode := fun a b =>
  match decide (op_u8 a = op_u8 b) with
  | left E => left (op_u8_inj a b E)
  | right N => right (fun E => N (f_equal op_u8 E))
  end.

Lemma op_to_from_u8 u o : op_from_u8 u = Some o -> op_u8 o = u.
Proof.
  destruct u as [|p|]; [by intros [= <-]| |done].
  do 8 (destruct p as [p|p|]; try (by intros [= <-])); done.
Qed.

(** The derived order of the enum is that of the discriminants. *)
Definition op_le (a b : Opcode) : bool := op_u8 a <=? op_u8 b.
Definition op_lt (a b : Opcode) : bool := op_u8 a <? op_u8 b.

(** [VerificationFlags] (flags.rs). *)
Record VerificationFlags : Type := mkFlags {
  none : bool;
  verify_p2sh : bool;
  verify_strictenc : bool;
  verify_dersig : bool;
  verify_low_s : bool;
  verify_nulldummy : bool;
  verify_sigpushonly : bool;
  verify_minimaldata : bool;
  verify_discourage_upgradable_nops : bool;
  verify_cleanstack : bool;
  verify_locktime : bool;
  verify_checksequence : bool;
  verify_witness : bool;
  verify_discourage_upgradable_witness_program : bool;
  verify_concat : bool;
  verify_split : bool;
  verify_and : bool;
  verify_or : bool;
  verify_xor : bool;
  verify_div : bool;
  verify_mod : bool;
  verify_bin2num : bool;
  verify_num2bin : bool }.

Definition is_disabled (flags : VerificationFlags) (o : Opcode) : bool :=
  match o with
  | OP_CAT => negb (verify_concat flags)
  | OP_SUBSTR => negb (verify_split flags)
  | OP_AND => negb (verify_and flags)
  | OP_OR => negb (verify_or flags)
  | OP_XOR => negb (verify_xor flags)
  | OP_DIV => negb (verify_div flags)
  | OP_MOD => negb (verify_mod flags)
  | OP_RIGHT => negb (verify_bin2num flags)
  | OP_LEFT => negb (verify_num2bin flags)
  | OP_INVERT | OP_2MUL | OP_2DIV | OP_MUL | OP_LSHIFT | OP_RSHIFT => true
  | _ => false
  end.

Definition is_countable (o : Opcode) : bool := op_lt OP_16 o.
Definition is_simple_push (o : Opcode) : bool := op_lt o OP_PUSHDATA1.
Definition is_push_value (o : Opcode) : bool := op_le OP_1NEGATE o && op_le o OP_16.
Definition is_within_op_n (o : Opcode) : bool := op_le OP_1 o && op_le o OP_16.

(** [decode_op_n] asserts that the opcode is within [OP_1..OP_16]. *)
Definition decode_op_n (o : Opcode) : option Z :=
  if is_within_op_n o then Some (op_u8 o - (op_u8 OP_1 - 1)) else None.

Lemma decode_op_n_range o n : decode_op_n o = Some n -> 1 <= n <= 16.
Proof. unfold decode_op_n. destruct o; vm_compute; intros [= <-]; done. Qed.

Lemma decode_op_n_some o : is_within_op_n o = true -> is_Some (decode_op_n o).
Proof. unfold decode_op_n. intros ->. eauto. Qed.
