(* ===== verification/Keys.v ===== *)
(** * Hashes, keys and signatures (mm2src/mm2_bitcoin/crypto, mm2src/mm2_bitcoin/keys)

    The hash compositions of [crypto/src/lib.rs], the public and private keys
    of [public.rs], [private.rs] and [keypair.rs] and the address hashes of
    [lib.rs].  The hash functions of the crates ripemd160, sha2, sha3 and
    groestl are the class [BitCrypto]; the secp256k1 crate is the class
    [Secp256k1] with the documented behaviour that the program relies on. *)

From S2P Require Import Prelude.
Local Open Scope result_scope.

(** ** The hash crates *)

Class BitCrypto := {
  ripemd160 : list Z -> list Z;
  sha256 : list Z -> list Z;
  keccak256 : list Z -> list Z;
  groestl512 : list Z -> list Z;
  ripemd160_length : forall b, length (ripemd160 b) = 20%nat;
  sha256_length : forall b, length (sha256 b) = 32%nat;
  keccak256_length : forall b, length (keccak256 b) = 32%nat;
  groestl512_length : forall b, length (groestl512 b) = 64%nat;
  ripemd160_ok : forall b, bytes_ok (ripemd160 b);
  sha256_ok : forall b, bytes_ok (sha256 b) }.

Inductive ChecksumType : Type := DSHA256 | DGROESTL512 | KECCAK256.

Section Crypto.
  Context `{BitCrypto}.

Definition dhash160 (input : list Z) : list Z := ripemd160 (sha256 input).
Definition dhash256 (input : list Z) : list Z := sha256 (sha256 input).
Definition dgroestl512 (input : list Z) : list Z := groestl512 (groestl512 input).

Definition checksum (data : list Z) (sum_type : ChecksumType) : list Z :=
  match sum_type with
  | DSHA256 => take 4 (dhash256 data)
  | DGROESTL512 => take 4 (dgroestl512 data)
  | KECCAK256 => take 4 (keccak256 data)
  end.

Lemma dhash160_length b : length (dhash160 b) = 20%nat.
Proof. apply ripemd160_length. Qed.

Lemma dhash256_length b : length (dhash256 b) = 32%nat.
Proof. apply sha256_length. Qed.

Lemma checksum_length d t : length (checksum d t) = 4%nat.
Proof.
  destruct t; simpl; rewrite length_take; unfold dhash256, dgroestl512;
    rewrite ?sha256_length, ?groestl512_length, ?keccak256_length; done.
Qed.
End Crypto.

(** ** Errors and address hashes (error.rs, lib.rs, address.rs) *)

Inductive Error : Type :=
| InvalidPublic
| InvalidSecret
| InvalidMessage
| InvalidSignature
| InvalidNetwork
| InvalidChecksum
| InvalidPrivate
| InvalidAddress
| FailedKeyGeneration
| WitnessHashMismatched.

Inductive AddressHashEnum : Type :=
| AddressHash (h : list Z)
| WitnessScriptHash (h : list Z).

Definition hash_to_vec (a : AddressHashEnum) : list Z :=
  match a with AddressHash h => h | WitnessScriptHash s => s end.
Definition is_address_hash (a : AddressHashEnum) : bool :=
  match a with AddressHash _ => true | _ => false end.
Definition is_witness_script_hash (a : AddressHashEnum) : bool :=
  match a with WitnessScriptHash _ => true | _ => false end.

Inductive AddressScriptType : Type := P2PKH | P2SH | P2WPKH | P2WSH.

(** ** The secp256k1 crate

    Of the errors of the crate the source tells three apart.  The laws: a key
    is read back from both of its encodings, 32 bytes are a message, a
    signature made with a secret key verifies under its public key and is not
    longer than 72 bytes. *)

Inductive SecpError : Type :=
| SecpInvalidPublicKey | SecpInvalidSecretKey | SecpInvalidMessage | SecpOther.

Class Secp256k1 := {
  PublicKey : Type;
  SecretKey : Type;
  SecpSignature : Type;
  SecpMessage : Type;
  pk_from_slice : list Z -> result SecpError PublicKey;
  pk_serialize : PublicKey -> list Z;
  pk_serialize_uncompressed : PublicKey -> list Z;
  pk_from_secret_key : SecretKey -> PublicKey;
  sk_from_slice : list Z -> result SecpError SecretKey;
  msg_from_slice : list Z -> result SecpError SecpMessage;
  sig_from_der : list Z -> result SecpError SecpSignature;
  sig_from_der_lax : list Z -> result SecpError SecpSignature;
  sig_serialize_der : SecpSignature -> list Z;
  normalize_s : SecpSignature -> SecpSignature;
  secp_verify : SecpMessage -> SecpSignature -> PublicKey -> bool;
  secp_sign_low_r : SecpMessage -> SecretKey -> SecpSignature;
  pk_roundtrip : forall p, pk_from_slice (pk_serialize p) = Ok p;
  pk_roundtrip_uncompressed : forall p, pk_from_slice (pk_serialize_uncompressed p) = Ok p;
  pk_serialize_length : forall p, length (pk_serialize p) = 33%nat;
  pk_uncompressed_length : forall p, length (pk_serialize_uncompressed p) = 65%nat;
  msg_from_slice_ok : forall m, length m = 32%nat -> is_ok (msg_from_slice m) = true;
  sign_low_r_verifies : forall m sk, exists sig,
    sig_from_der_lax (sig_serialize_der (secp_sign_low_r m sk)) = Ok sig /\
    secp_verify m (normalize_s sig) (pk_from_secret_key sk) = true;
  sig_from_der_ok : forall m sk,
    is_ok (sig_from_der (sig_serialize_der (secp_sign_low_r m sk))) = true;
  sig_der_length : forall m sk,
    (8 <= length (sig_serialize_der (secp_sign_low_r m sk)) <= 72)%nat }.

(** [From<SecpError> for Error]. *)
Definition error_from_secp (e : SecpError) : Error :=
  match e with
  | SecpInvalidPublicKey => InvalidPublic
  | SecpInvalidSecretKey => InvalidSecret
  | SecpInvalidMessage => InvalidMessage
  | SecpOther => InvalidSignature
  end.

(** ** Public keys (public.rs) *)

Inductive Public : Type :=
| Normal (h : list Z)
| Compressed (h : list Z).

(** The [Deref] of [Public]. *)
Definition pub_bytes (p : Public) : list Z :=
  match p with Normal h => h | Compressed h => h end.

Definition public_from_slice (data : list Z) : result Error Public :=
  if decide (length data = 33%nat) then Ok (Compressed data)
  else if decide (length data = 65%nat) then Ok (Normal data)
  else Err InvalidPublic.

(** What the lengths of the arrays inside say. *)
Definition public_ok (p : Public) : Prop :=
  match p with
  | Normal h => length h = 65%nat
  | Compressed h => length h = 33%nat
  end.

Definition compressed_unprefixed (p : Public) : option (list Z) :=
  match p with
  | Compressed h => Some (take 32 (drop 1 h))
  | Normal _ => None
  end.

Section Keys.
  Context `{BitCrypto} `{Secp256k1}.

Definition address_hash (p : Public) : list Z := dhash160 (pub_bytes p).

Definition public_verify (p : Public) (message signature : list Z) : result Error bool :=
  let? public := map_err error_from_secp (pk_from_slice (pub_bytes p)) in
  let? signature := map_err error_from_secp (sig_from_der_lax signature) in
  let signature := normalize_s signature in
  let? message := map_err error_from_secp (msg_from_slice message) in
  Ok (secp_verify message signature public).

(** ** Private keys and key pairs (private.rs, keypair.rs) *)

Record Private : Type := mkPrivate {
  prefix : Z;
  secret : list Z;
  compressed : bool;
  checksum_type : ChecksumType }.

Definition sign_low_r (p : Private) (message : list Z) : result Error (list Z) :=
  let? sk := map_err error_from_secp (sk_from_slice (secret p)) in
  let? m := map_err error_from_secp (msg_from_slice message) in
  Ok (sig_serialize_der (secp_sign_low_r m sk)).

Record KeyPair : Type := mkKeyPair { private : Private; public : Public }.

Definition from_private (private : Private) : result Error KeyPair :=
  let? s := map_err error_from_secp (sk_from_slice (secret private)) in
  let pub_key := pk_from_secret_key s in
  Ok (mkKeyPair private
        (if compressed private then Compressed (pk_serialize pub_key)
         else Normal (pk_serialize_uncompressed pub_key))).

(** [DisplayLayout for Private]. *)
Definition private_layout (p : Private) : list Z :=
  let result := [prefix p] ++ secret p ++ (if compressed p then [1] else []) in
  result ++ checksum result (checksum_type p).

Definition detect_checksum (data cs : list Z) : result Error ChecksumType :=
  if decide (cs = take 4 (dhash256 data)) then Ok DSHA256
  else if decide (cs = take 4 (dgroestl512 data)) then Ok DGROESTL512
  else if decide (cs = take 4 (keccak256 data)) then Ok KECCAK256
  else Err InvalidChecksum.

Definition private_from_layout (data : list Z) : result Error Private :=
  let len := length data in
  let? compressed := (if decide (len = 37%nat) then Ok false
                      else if decide (len = 38%nat) then Ok true
                      else Err InvalidPrivate) in
  if compressed && negb (nth (len - 5) data 0 =? 1) then Err InvalidPrivate
  else
    let? sum_type := detect_checksum (take (len - 4) data) (drop (len - 4) data) in
    Ok (mkPrivate (nth 0 data 0) (take 32 (drop 1 data)) compressed sum_type).

(** ** Lemmas *)

Lemma public_from_slice_bytes p : public_ok p -> public_from_slice (pub_bytes p) = Ok p.
Proof.
  destruct p as [h|h]; simpl; intros Hl; unfold public_from_slice; rewrite Hl; done.
Qed.

Lemma public_from_slice_inv d p :
  public_from_slice d = Ok p <-> public_ok p /\ pub_bytes p = d.
Proof.
  split.
  - unfold public_from_slice. case_matches; intros [= <-]; done.
  - intros [Hp <-]. by apply public_from_slice_bytes.
Qed.

Lemma pub_bytes_length p :
  public_ok p -> length (pub_bytes p) = 33%nat \/ length (pub_bytes p) = 65%nat.
Proof. destruct p; simpl; auto. Qed.

(** A key pair made from a private key: its signatures verify. *)
Lemma sign_low_r_ok kp p m :
  from_private p = Ok kp -> length m = 32%nat ->
  exists sig, sign_low_r (private kp) m = Ok sig /\
    public_verify (public kp) m sig = Ok true /\ (8 <= length sig <= 72)%nat.
Proof.
  unfold from_private, sign_low_r. intros Hk Hm.
  destruct (sk_from_slice (secret p)) as [sk|] eqn:Hsk; simpl in Hk; inv_ok. simpl.
  rewrite Hsk. simpl.
  pose proof (msg_from_slice_ok m Hm) as Hmsg.
  destruct (msg_from_slice m) as [msg|] eqn:Em; [|done]. simpl.
  eexists; split; [done|]. split; [|apply sig_der_length].
  destruct (sign_low_r_verifies msg sk) as (sig & Hsig & Hv).
  unfold public_verify. rewrite Hsig, Em. simpl.
  destruct (compressed p); simpl; rewrite ?pk_roundtrip, ?pk_roundtrip_uncompressed; simpl;
    by rewrite Hv.
Qed.

Lemma from_private_public_ok kp p : from_private p = Ok kp -> public_ok (public kp).
Proof.
  unfold from_private. intros Hk. inv_ok. simpl.
  destruct (compressed p); simpl; [apply pk_serialize_length|apply pk_uncompressed_length].
Qed.

Lemma private_layout_roundtrip p :
  length (secret p) = 32%nat -> checksum_type p = DSHA256 ->
  private_from_layout (private_layout p) = Ok p.
Proof.
  destruct p as [pre sec c ct]. simpl. intros Hs ->.
  unfold private_layout. cbn [prefix secret compressed checksum_type].
  set (body := [pre] ++ sec ++ (if c then [1] else [])).
  assert (Hb : length body = if c then 34%nat else 33%nat).
  { unfold body. rewrite !length_app, Hs. by destruct c. }
  assert (Hl : length (body ++ checksum body DSHA256) = if c then 38%nat else 37%nat).
  { rewrite length_app, Hb, checksum_length. by destruct c. }
  unfold private_from_layout. rewrite Hl.
  assert (Ht : take ((if c then 38 else 37) - 4) (body ++ checksum body DSHA256) = body).
  { apply take_app_exact. by destruct c. }
  assert (Hd : drop ((if c then 38 else 37) - 4) (body ++ checksum body DSHA256) =
               checksum body DSHA256).
  { apply drop_app_exact. by destruct c. }
  rewrite Ht, Hd.
  assert (Hdet : detect_checksum body (checksum body DSHA256) = Ok DSHA256).
  { unfold detect_checksum. simpl. by rewrite decide_True. }
  rewrite Hdet.
  assert (Htk : take 32 (drop 1 (body ++ checksum body DSHA256)) = sec).
  { unfold body at 1. simpl. rewrite <- !app_assoc. by apply take_app_exact. }
  assert (Hn : c = true -> nth 33 (body ++ checksum body DSHA256) 0 = 1).
  { intros ->. rewrite app_nth1 by (rewrite Hb; lia). unfold body. cbn [app nth].
    by rewrite app_nth2, Hs by lia. }
  assert (Hp : nth 0 (body ++ checksum body DSHA256) 0 = pre) by done.
  clearbody body. rewrite Htk, Hp. destruct c; cbn -[checksum nth]; [by rewrite Hn|done].
Qed.
End Keys.
