(* ===== verification/Script.v ===== *)
(** * Bitcoin scripts (mm2src/mm2_bitcoin/script/src)

    [num.rs], [builder.rs], [script.rs] and [stack.rs]: the numbers of
    scripts, the builder, the parser of instructions, the classification of
    scripts and what is read out of them, and the stack.  A panic (an index
    out of range, a failed assertion) is [None]. *)

From S2P Require Import Prelude Opcode Keys.
Local Open Scope result_scope.

(** ** Errors (error.rs) *)

Inductive Error : Type :=
| Unknown | EvalFalse | ReturnOpcode
| ScriptSize | PushSize | OpCount | StackSize | NumberOverflow
| NumberNotMinimallyEncoded | SigCount | PubkeyCount
| Verify | EqualVerify | CheckSigVerify | NumEqualVerify
| BadOpcode | DisabledOpcode (o : Opcode) | InvalidStackOperation
| InvalidAltstackOperation | UnbalancedConditional | InvalidSplitRange
| InvalidBitwiseOperation | DivisionByZero | ImpossibleEncoding
| NegativeLocktime | UnsatisfiedLocktime
| SignatureHashtype | SignatureDer | SignatureIllegalForkId
| SignatureMustUseForkId | Minimaldata | SignaturePushOnly | SignatureHighS
| SignatureNullDummy | PubkeyType | Cleanstack
| DiscourageUpgradableNops | DiscourageUpgradableWitnessProgram
| WitnessProgramWrongLength | WitnessProgramWitnessEmpty
| WitnessProgramMismatch | WitnessMalleated | WitnessMalleatedP2SH
| WitnessUnexpected | WitnessPubKeyType.

(** ** Numbers (num.rs)

    An [i64] is a [Z]; the operators wrap, because the build has no overflow
    checks, and a division by zero panics. *)

Definition wrap_i64 (z : Z) : Z := (z + 2 ^ 63) mod 2 ^ 64 - 2 ^ 63.
Definition is_i64 (z : Z) : Prop := - 2 ^ 63 <= z < 2 ^ 63.

(** A shift of an [i64]: the amount is taken modulo 64. *)
Definition shl_i64 (z n : Z) : Z := wrap_i64 (Z.shiftl z (n mod 64)).

Record Num : Type := mkNum { value : Z }.

Definition num_from_bool (b : bool) : Num := mkNum (Z.b2z b).
(** [From<u8>], [From<u32>], [From<i32>] and [From<i64>]. *)
Definition num_from (i : Z) : Num := mkNum i.
Definition num_from_usize (i : Z) : Num := mkNum (wrap_i64 i).
Definition num_to_u32 (n : Num) : Z := wrap 32 (value n).
Definition num_to_usize (n : Num) : Z := wrap 64 (value n).

(** The bytes of the loop [while absvalue > 0]; eight rounds empty a [u64]. *)
Fixpoint num_le_bytes (fuel : nat) (absvalue : Z) : list Z :=
  match fuel with
  | O => []
  | S fuel => if absvalue >? 0
              then wrap 8 absvalue :: num_le_bytes fuel (Z.shiftr absvalue 8)
              else []
  end.

(** [result[rlen - 1] |= 0x80]. *)
Fixpoint or_last (l : list Z) (m : Z) : list Z :=
  match l with
  | [] => []
  | [x] => [Z.lor x m]
  | x :: l => x :: or_last l m
  end.

Definition last_byte (l : list Z) : Z := List.last l 0.

Definition num_to_bytes (n : Num) : list Z :=
  if value n =? 0 then []
  else
    let negative := value n <? 0 in
    let absvalue := if negative then wrap 64 (wrap_i64 (- value n)) else value n in
    let result := num_le_bytes 8 absvalue in
    if negb (Z.land (last_byte result) 0x80 =? 0) then
      result ++ [if negative then 0x80 else 0]
    else if negative then or_last result 0x80
    else result.

(** [for (i, item) in data.iter().enumerate() { result |= item << (8 * i) }]. *)
Fixpoint num_or_bytes (i : nat) (data : list Z) (result : Z) : Z :=
  match data with
  | [] => result
  | item :: data => num_or_bytes (S i) data (Z.lor result (shl_i64 item (8 * Z.of_nat i)))
  end.

Definition num_from_slice (data : list Z) (require_minimal : bool) (max_size : nat)
  : result Error Num :=
  let len := length data in
  if (max_size <? len)%nat then Err NumberOverflow
  else if (len =? 0)%nat then Ok (num_from 0)
  else if require_minimal && (Z.land (last_byte data) 0x7f =? 0)
          && ((len <=? 1)%nat || (Z.land (nth (len - 2) data 0) 0x80 =? 0))
  then Err NumberNotMinimallyEncoded
  else
    let result := num_or_bytes 0 data 0 in
    if negb (Z.land (last_byte data) 0x80 =? 0) then
      Ok (num_from (wrap_i64 (- Z.land result
        (Z.lnot (shl_i64 0x80 (8 * (Z.of_nat len - 1)))))))
    else Ok (num_from result).

(** [iter().rev().skip_while(|x| *x == 0)] and back: the zeros at the end go. *)
Fixpoint skip_zeros (l : list Z) : list Z :=
  match l with
  | [] => []
  | x :: l' => if x =? 0 then skip_zeros l' else l
  end.

Definition num_minimally_encode (data : list Z) (max_size : nat) : result Error Num :=
  match data with
  | [] => num_from_slice data true max_size
  | _ =>
      let last := last_byte data in
      if negb (last =? 0) && negb (last =? 0x80) then num_from_slice data true max_size
      else if (length data =? 1)%nat then num_from_slice [] true max_size
      else if Z.land (nth (length data - 2) data 0) 0x80 =? 0x80
      then num_from_slice data true max_size
      else
        let data := rev (skip_zeros (rev (take (length data - 1) data))) in
        match data with
        | [] => num_from_slice [] true max_size
        | _ =>
            let second_last := last_byte data in
            num_from_slice
              (if Z.land second_last 0x80 =? 0x80 then data ++ [last]
               else or_last data last) true max_size
        end
  end.

Definition num_is_negative (n : Num) : bool := value n <? 0.
Definition num_is_zero (n : Num) : bool := value n =? 0.
Definition num_abs (n : Num) : Num :=
  if value n <? 0 then mkNum (wrap_i64 (- value n)) else n.
Definition num_bitand (a b : Num) : Num := mkNum (Z.land (value a) (value b)).
Definition num_add (a b : Num) : Num := mkNum (wrap_i64 (value a + value b)).
Definition num_sub (a b : Num) : Num := mkNum (wrap_i64 (value a - value b)).
Definition num_neg (a : Num) : Num := mkNum (wrap_i64 (- value a)).
(** [/] and [%] truncate; they panic on zero and on [i64::MIN / -1]. *)
Definition num_div (a b : Num) : option Num :=
  if (value b =? 0) || ((value a =? - 2 ^ 63) && (value b =? -1)) then None
  else Some (mkNum (Z.quot (value a) (value b))).
Definition num_rem (a b : Num) : option Num :=
  if (value b =? 0) || ((value a =? - 2 ^ 63) && (value b =? -1)) then None
  else Some (mkNum (Z.rem (value a) (value b))).

(** ** The builder (builder.rs)

    A [Builder] is the bytes pushed so far, [None] once a push panicked. *)

Notation Script := (list Z).
Definition Builder : Type := option (list Z).

Definition builder_default : Builder := Some [].

Definition push_opcode (opcode : Opcode) (b : Builder) : Builder :=
  data ← b; Some (data ++ [op_u8 opcode]).

Definition push_bool (value : bool) (b : Builder) : Builder :=
  data ← b; Some (data ++ [op_u8 (if value then OP_1 else OP_0)]).

Definition push_data (bytes : list Z) (b : Builder) : Builder :=
  data ← b;
  let len := Z.of_nat (length bytes) in
  if len <? op_u8 OP_PUSHDATA1 then Some (data ++ [wrap 8 len] ++ bytes)
  else if len <? 0x100 then Some (data ++ [op_u8 OP_PUSHDATA1; wrap 8 len] ++ bytes)
  else if len <? 0x10000 then
    Some (data ++ [op_u8 OP_PUSHDATA2; wrap 8 len; wrap 8 (Z.shiftr len 8)] ++ bytes)
  else if len <? 0x100000000 then
    Some (data ++ [op_u8 OP_PUSHDATA4; wrap 8 len; wrap 8 (Z.shiftr len 8);
                   wrap 8 (Z.shiftr len 16); wrap 8 (Z.shiftr len 24)] ++ bytes)
  else None.

Definition push_num (num : Num) (b : Builder) : Builder := push_data (num_to_bytes num) b.

Definition return_bytes (bytes : list Z) (b : Builder) : Builder :=
  data ← b;
  let len := Z.of_nat (length bytes) in
  if negb ((1 <=? len) && (len <=? 75)) then None
  else
    opcode ← op_from_u8 (wrap 8 (op_u8 OP_PUSHBYTES_1 + len - 1));
    Some (data ++ [op_u8 OP_RETURN; op_u8 opcode] ++ bytes).

Definition push_invalid_opcode (b : Builder) : Builder := data ← b; Some (data ++ [0xff]).

(** [into_script], [into_bytes]. *)
Definition into_script (b : Builder) : option Script := b.

Notation "b '|>' f" := (f b) (at level 50, left associativity, only parsing).

Definition build_p2pkh (address : AddressHashEnum) : option Script :=
  builder_default
  |> push_opcode OP_DUP
  |> push_opcode OP_HASH160
  |> push_data (hash_to_vec address)
  |> push_opcode OP_EQUALVERIFY
  |> push_opcode OP_CHECKSIG
  |> into_script.

Definition build_p2pk (pubkey : Public) : option Script :=
  builder_default
  |> push_data (pub_bytes pubkey)
  |> push_opcode OP_CHECKSIG
  |> into_script.

Definition build_p2sh (address : AddressHashEnum) : option Script :=
  builder_default
  |> push_opcode OP_HASH160
  |> push_data (hash_to_vec address)
  |> push_opcode OP_EQUAL
  |> into_script.

Definition build_p2wpkh (address_hash : AddressHashEnum) : option (result Keys.Error Script) :=
  match address_hash with
  | AddressHash wpkh_hash =>
      s ← (builder_default |> push_opcode OP_0 |> push_data wpkh_hash |> into_script);
      Some (Ok s)
  | WitnessScriptHash _ => Some (Err WitnessHashMismatched)
  end.

Definition build_p2wsh (address_hash : AddressHashEnum) : option (result Keys.Error Script) :=
  match address_hash with
  | WitnessScriptHash wsh_hash =>
      s ← (builder_default |> push_opcode OP_0 |> push_data wsh_hash |> into_script);
      Some (Ok s)
  | AddressHash _ => Some (Err WitnessHashMismatched)
  end.

Definition build_nulldata (bytes : list Z) : option Script :=
  builder_default |> push_opcode OP_RETURN |> push_data bytes |> into_script.

(** ** Scripts and their instructions (script.rs) *)

Record Instruction : Type := mkInstruction {
  opcode : Opcode;
  step : nat;
  data : option (list Z) }.

Definition get_opcode (s : Script) (position : nat) : option (result Error Opcode) :=
  u ← s !! position; Some (ok_or (op_from_u8 u) BadOpcode).

Definition script_take (s : Script) (offset : nat) (len : Z) : result Error (list Z) :=
  if Z.of_nat offset + len >? Z.of_nat (length s) then Err BadOpcode
  else Ok (take (Z.to_nat len) (drop offset s)).

(** [fold(0, |acc, (i, x)| acc + (x << (i * 8)))] of the first [size] bytes. *)
Fixpoint fold_usize (i : Z) (data : list Z) (acc : Z) : Z :=
  match data with
  | [] => acc
  | x :: data => fold_usize (i + 1) data (acc + Z.shiftl x (i * 8))
  end.

Definition read_usize (data : list Z) (size : nat) : result Error Z :=
  if (length data <? size)%nat then Err BadOpcode
  else Ok (fold_usize 0 (take size data) 0).

Definition is_pushdata (o : Opcode) : bool :=
  match o with OP_PUSHDATA1 | OP_PUSHDATA2 | OP_PUSHDATA4 => true | _ => false end.

Definition get_instruction_at (s : Script) (position : nat) : option (result Error Instruction) :=
  ropcode ← get_opcode s position;
  Some (let? opcode := ropcode in
  if is_pushdata opcode then
    let len := match opcode with OP_PUSHDATA1 => 1%nat | OP_PUSHDATA2 => 2%nat | _ => 4%nat end in
    let? slice := script_take s (position + 1) (Z.of_nat len) in
    let? n := read_usize slice len in
    let? bytes := script_take s (position + 1 + len) n in
    Ok (mkInstruction opcode (len + Z.to_nat n + 1) (Some bytes))
  else if op_le opcode OP_PUSHBYTES_75 then
    let? bytes := script_take s (position + 1) (op_u8 opcode) in
    Ok (mkInstruction opcode (Z.to_nat (op_u8 opcode) + 1) (Some bytes))
  else Ok (mkInstruction opcode 1 None)).

(** The iterator [Instructions]: after an error it is at the end. *)
Definition instructions_next (s : Script) (position : nat)
  : option (option (result Error Instruction) * nat) :=
  if (length s <=? position)%nat then Some (None, position)
  else
    i ← get_instruction_at s position;
    match i with
    | Ok x => Some (Some (Ok x), (position + step x)%nat)
    | Err e => Some (Some (Err e), length s)
    end.

(** Everything [iter()] yields from a position on; an instruction has at least
    one byte, so the length is enough fuel. *)
Fixpoint iter_from (fuel : nat) (s : Script) (position : nat)
  : option (list (result Error Instruction)) :=
  match fuel with
  | O => Some []
  | S fuel =>
      n ← instructions_next s position;
      match n with
      | (None, _) => Some []
      | (Some i, position') => rest ← iter_from fuel s position'; Some (i :: rest)
      end
  end.

Definition iter (s : Script) : option (list (result Error Instruction)) :=
  iter_from (length s) s 0.

(** [iter().enumerate().find_map(..)]. *)
Definition get_instruction (s : Script) (index : nat)
  : option (option (result Error Instruction)) :=
  l ← iter s; Some (l !! index).

(** The iterator [Opcodes] stays where it is after an error. *)
Definition opcodes_next (s : Script) (position : nat)
  : option (option (result Error Opcode) * nat) :=
  if (length s <=? position)%nat then Some (None, position)
  else
    i ← get_instruction_at s position;
    match i with
    | Ok x => Some (Some (Ok (opcode x)), (position + step x)%nat)
    | Err e => Some (Some (Err e), position)
    end.

Definition subscript (s : Script) (from : nat) : option Script :=
  if (from <=? length s)%nat then Some (drop from s) else None.

(** The loop of [find_and_delete]. *)
Fixpoint find_delete_loop (fuel : nat) (s data : list Z) (current : nat) (result : list Z)
  : list Z * nat :=
  match fuel with
  | O => (result, current)
  | S fuel =>
      if (current <? length s - length data)%nat then
        if decide (take (length data) (drop current s) = data)
        then find_delete_loop fuel s data (current + length data) result
        else find_delete_loop fuel s data (current + 1) (result ++ [nth current s 0])
      else (result, current)
  end.

Definition find_and_delete (s data : list Z) : Script :=
  let len := length data in
  let end_ := length s in
  if (end_ <? len)%nat || (len =? 0)%nat then s
  else
    let '(result, current) := find_delete_loop end_ s data 0 [] in
    result ++ drop current s.

(** The loop of [without_separators]. *)
Fixpoint without_separators_loop (fuel : nat) (s : Script) (pc : nat) (result : list Z)
  : option Script :=
  match fuel with
  | O => Some result
  | S fuel =>
      if (pc <? length s)%nat then
        i ← get_instruction_at s pc;
        match i with
        | Ok x =>
            without_separators_loop fuel s (pc + step x)
              (if decide (opcode x = OP_CODESEPARATOR) then result
               else result ++ take (step x) (drop pc s))
        | Err _ => without_separators_loop fuel s (pc + 1) (result ++ [nth pc s 0])
        end
      else Some result
  end.

Definition without_separators (s : Script) : option Script :=
  without_separators_loop (length s) s 0 [].

Fixpoint is_push_only_loop (fuel : nat) (s : Script) (pc : nat) : option bool :=
  match fuel with
  | O => Some true
  | S fuel =>
      if (pc <? length s)%nat then
        i ← get_instruction_at s pc;
        match i with
        | Ok x => if op_lt OP_16 (opcode x) then Some false
                  else is_push_only_loop fuel s (pc + step x)
        | Err _ => Some false
        end
      else Some true
  end.

Definition is_push_only (s : Script) : option bool := is_push_only_loop (length s) s 0.

(** ** Classification *)

Definition at_is (s : Script) (i : nat) (o : Opcode) : bool :=
  match s !! i with Some u => u =? op_u8 o | None => false end.

Definition is_pay_to_public_key_hash (s : Script) : bool :=
  (length s =? 25)%nat && at_is s 0 OP_DUP && at_is s 1 OP_HASH160
  && at_is s 2 OP_PUSHBYTES_20 && at_is s 23 OP_EQUALVERIFY && at_is s 24 OP_CHECKSIG.

Definition is_pay_to_public_key (s : Script) : bool :=
  match s with
  | [] => false
  | b :: _ =>
      if b =? op_u8 OP_PUSHBYTES_33 then (length s =? 35)%nat && at_is s 34 OP_CHECKSIG
      else if b =? op_u8 OP_PUSHBYTES_65 then (length s =? 67)%nat && at_is s 66 OP_CHECKSIG
      else false
  end.

Definition is_pay_to_script_hash (s : Script) : bool :=
  (length s =? 23)%nat && at_is s 0 OP_HASH160 && at_is s 1 OP_PUSHBYTES_20
  && at_is s 22 OP_EQUAL.

Definition is_pay_to_witness_key_hash (s : Script) : bool :=
  (length s =? 22)%nat && at_is s 0 OP_0 && at_is s 1 OP_PUSHBYTES_20.

Definition is_pay_to_witness_script_hash (s : Script) : bool :=
  (length s =? 34)%nat && at_is s 0 OP_0 && at_is s 1 OP_PUSHBYTES_32.

Definition parse_witness_program (s : Script) : option (Z * list Z) :=
  let len := length s in
  if (len <? 4)%nat || (42 <? len)%nat || negb (Z.of_nat len =? nth 1 s 0 + 2) then None
  else
    match op_from_u8 (nth 0 s 0) with
    | Some OP_0 => Some (0, drop 2 s)
    | Some x => if op_le OP_1 x && op_le x OP_16
                then Some (op_u8 x - op_u8 OP_1 + 1, drop 2 s) else None
    | None => None
    end.

(** [OP_0] or [OP_1..OP_16] as the number it stands for. *)
Definition multisig_n (o : result Error Opcode) : option Z :=
  match o with
  | Ok OP_0 => Some 0
  | Ok o => if is_within_op_n o then Some (op_u8 o - (op_u8 OP_1 - 1)) else None
  | Err _ => None
  end.

(** The loop over the keys; the counter has the type [u8] of [keylen]. *)
Fixpoint multisig_keys (fuel : nat) (s : Script) (pc : nat) (keys : Z) : option (option Z) :=
  match fuel with
  | O => Some (Some keys)
  | S fuel =>
      if (pc <? length s - 2)%nat then
        i ← get_instruction_at s pc;
        match i with
        | Ok x =>
            match opcode x with
            | OP_PUSHBYTES_33 | OP_PUSHBYTES_65 =>
                multisig_keys fuel s (pc + step x) (wrap 8 (keys + 1))
            | _ => Some None
            end
        | Err _ => Some None
        end
      else Some (Some keys)
  end.

Definition is_multisig_script (s : Script) : option bool :=
  if (length s <? 3)%nat then Some false
  else
    sig ← get_opcode s 0;
    key ← get_opcode s (length s - 2);
    match multisig_n sig, multisig_n key with
    | Some siglen, Some keylen =>
        if siglen >? keylen then Some false
        else if negb (at_is s (length s - 1) OP_CHECKMULTISIG) then Some false
        else
          keys ← multisig_keys (length s) s 1 0;
          Some (match keys with Some keys => keys =? keylen | None => false end)
    | _, _ => Some false
    end.

Definition is_null_data_script (s : Script) : option bool :=
  if negb (length s =? 0)%nat && at_is s 0 OP_RETURN then
    sub ← subscript s 1; is_push_only sub
  else Some false.

Inductive ScriptType : Type :=
| NonStandard | PubKey | PubKeyHash | ScriptHash | Multisig | NullData
| WitnessScript | WitnessKey | Taproot
| CallSender | CreateSender | Call | Create | ColdStaking
| CryptoCondition.

Definition script_type (s : Script) : option ScriptType :=
  if is_pay_to_public_key s then Some PubKey
  else if is_pay_to_public_key_hash s then Some PubKeyHash
  else if is_pay_to_script_hash s then Some ScriptHash
  else
    multisig ← is_multisig_script s;
    if (multisig : bool) then Some Multisig
    else
      null_data ← is_null_data_script s;
      Some (if (null_data : bool) then NullData
            else if is_pay_to_witness_key_hash s then WitnessKey
            else if is_pay_to_witness_script_hash s then WitnessScript
            else NonStandard).

Definition MAX_PUBKEYS_PER_MULTISIG : Z := 20.

Fixpoint sigops_loop (fuel : nat) (s : Script) (serialized_script : bool)
  (position : nat) (last_opcode : Opcode) (total : Z) : option Z :=
  match fuel with
  | O => Some total
  | S fuel =>
      n ← opcodes_next s position;
      match n with
      | (None, _) | (Some (Err _), _) => Some total
      | (Some (Ok opcode), position') =>
          add ← match opcode with
                | OP_CHECKSIG | OP_CHECKSIGVERIFY => Some 1
                | OP_CHECKMULTISIG | OP_CHECKMULTISIGVERIFY =>
                    if serialized_script && is_within_op_n last_opcode
                    then decode_op_n last_opcode
                    else Some MAX_PUBKEYS_PER_MULTISIG
                | _ => Some 0
                end;
          sigops_loop fuel s serialized_script position' opcode (total + add)
      end
  end.

Definition sigops_count (s : Script) (serialized_script : bool) : option Z :=
  sigops_loop (length s) s serialized_script 0 OP_0 0.

Definition num_signatures_required (s : Script) : option Z :=
  multisig ← is_multisig_script s;
  if (multisig : bool) then
    x ← s !! 0%nat;
    Some (if x =? op_u8 OP_0 then 0 else wrap 8 (x - op_u8 OP_1 + 1))
  else Some 1.

(** The [expect]s panic where the last instruction is missing, an error or
    without data. *)
Definition pay_to_script_hash_sigops (s prev_out : Script) : option Z :=
  if negb (is_pay_to_script_hash prev_out) then Some 0
  else
    push_only ← is_push_only s;
    if (length s =? 0)%nat || negb push_only then Some 0
    else
      l ← iter s;
      match last l with
      | Some (Ok (mkInstruction _ _ (Some script))) => sigops_count script true
      | _ => None
      end.

(** The messages of the source are shortened to their cause. *)
Definition extract_signature (s : Script) : option (result string (list Z)) :=
  i ← get_instruction s 0;
  Some match i with
       | Some (Ok instruction) =>
           match data instruction with
           | Some (b :: bytes) => Ok (b :: bytes)
           | _ => Err "No data at instruction 0"%string
           end
       | Some (Err _) => Err "Error on getting instruction 0"%string
       | None => Err "None instruction 0"%string
       end.

Definition does_script_spend_p2pk (s : Script) : option bool :=
  sig ← extract_signature s;
  i ← get_instruction s 1;
  Some (is_ok sig && match i with None => true | Some _ => false end).

Definition is_witness_commitment_script (s : list Z) : bool :=
  (36 <=? length s)%nat && at_is s 0 OP_RETURN
  && bool_decide (take 5 (drop 1 s) = [0x24; 0xAA; 0x21; 0xA9; 0xED]).

(** ** Destinations *)

Record ScriptAddress : Type := mkScriptAddress {
  kind : AddressScriptType;
  addr_hash : AddressHashEnum }.

Definition new_p2pkh (hash : AddressHashEnum) := mkScriptAddress P2PKH hash.
Definition new_p2sh (hash : AddressHashEnum) := mkScriptAddress P2SH hash.
Definition new_p2wpkh (hash : AddressHashEnum) := mkScriptAddress P2WPKH hash.
Definition new_p2wsh (hash : AddressHashEnum) := mkScriptAddress P2WSH hash.

(** [data.get(a..b).ok_or(InvalidAddress)] and the conversion to an array. *)
Definition get_range (s : Script) (a b : nat) : result Keys.Error (list Z) :=
  if (b <=? length s)%nat then Ok (take (b - a) (drop a s)) else Err InvalidAddress.

Section Destinations.
  Context `{BitCrypto}.

Fixpoint multisig_destinations (fuel : nat) (s : Script) (pc : nat)
  (addresses : list ScriptAddress) : option (result Keys.Error (list ScriptAddress)) :=
  match fuel with
  | O => Some (Ok addresses)
  | S fuel =>
      if (pc <? length s - 2)%nat then
        i ← get_instruction_at s pc;
        match i with
        | Ok (mkInstruction _ step (Some data)) =>
            match public_from_slice data with
            | Ok p => multisig_destinations fuel s (pc + step)
                        (addresses ++ [new_p2pkh (AddressHash (address_hash p))])
            | Err e => Some (Err e)
            end
        | _ => None
        end
      else Some (Ok addresses)
  end.

Definition extract_destinations (s : Script)
  : option (result Keys.Error (list ScriptAddress)) :=
  t ← script_type s;
  match t with
  | PubKey =>
      b ← s !! 0%nat;
      Some (let? public := public_from_slice
              (if b =? op_u8 OP_PUSHBYTES_33 then take 33 (drop 1 s)
               else take 65 (drop 1 s)) in
            Ok [new_p2pkh (AddressHash (address_hash public))])
  | PubKeyHash =>
      Some (let? hash := get_range s 3 23 in Ok [new_p2pkh (AddressHash hash)])
  | ScriptHash =>
      Some (let? hash := get_range s 2 22 in Ok [new_p2sh (AddressHash hash)])
  | Multisig => multisig_destinations (length s) s 1 []
  | WitnessScript =>
      Some (let? hash := get_range s 2 34 in Ok [new_p2wsh (WitnessScriptHash hash)])
  | WitnessKey =>
      Some (let? hash := get_range s 2 22 in Ok [new_p2wpkh (AddressHash hash)])
  | _ => Some (Ok [])
  end.
End Destinations.
