(* ===== verification/ScriptProps.v ===== *)
(** * Lemmas on scripts

    Numbers: the bytes of a number and back.  Scripts: what the builder
    pushes is what the parser yields, the parser never panics on a position
    inside the script, and a script parsed without an error is the
    concatenation of its instructions. *)

From S2P Require Import Prelude Opcode Keys Script.
Local Open Scope result_scope.

(** ** Signed integers *)

Lemma wrap_i64_id z : is_i64 z -> wrap_i64 z = z.
Proof. unfold is_i64, wrap_i64. intros. rewrite Z.mod_small; lia. Qed.

Lemma wrap_i64_high z : 2 ^ 63 <= z < 2 ^ 64 -> wrap_i64 z = z - 2 ^ 64.
Proof.
  intros. unfold wrap_i64. rewrite <- (Z.mod_add _ (-1)) by lia.
  rewrite Z.mod_small; lia.
Qed.

(** ** Lists of bytes *)

Lemma last_byte_snoc l x : last_byte (l ++ [x]) = x.
Proof. apply List.last_last. Qed.

Lemma or_last_snoc l x m : or_last (l ++ [x]) m = l ++ [Z.lor x m].
Proof.
  induction l as [|y l IH]; [done|]. simpl. destruct (l ++ [x]) eqn:E.
  { by destruct l. }
  by rewrite IH.
Qed.

Lemma bytes_ok_snoc l x : bytes_ok (l ++ [x]) <-> bytes_ok l /\ 0 <= x < 256.
Proof. rewrite Forall_app, Forall_singleton. done. Qed.

Lemma le_combine_snoc l x :
  le_combine (l ++ [x]) = le_combine l + 256 ^ Z.of_nat (length l) * x.
Proof.
  induction l as [|y l IH]; [cbn; lia|]. cbn [app le_combine length].
  rewrite IH, pow_256_S. lia.
Qed.

Lemma pow_256 n : 256 ^ Z.of_nat n = 2 ^ (8 * Z.of_nat n).
Proof. change 256 with (2 ^ 8). rewrite <- Z.pow_mul_r by lia. done. Qed.

Lemma pow_256_le m n : (m <= n)%nat -> 256 ^ Z.of_nat m <= 256 ^ Z.of_nat n.
Proof. intros. apply Z.pow_le_mono_r; lia. Qed.

(** ** The bytes of a number *)

Lemma num_le_bytes_spec fuel a :
  0 <= a < 256 ^ Z.of_nat fuel ->
  bytes_ok (num_le_bytes fuel a) /\ le_combine (num_le_bytes fuel a) = a /\
  (length (num_le_bytes fuel a) <= fuel)%nat /\
  (0 < a -> exists l x, num_le_bytes fuel a = l ++ [x] /\ 0 < x < 256).
Proof.
  revert a; induction fuel as [|fuel IH]; intros a Ha; cbn [num_le_bytes].
  { simpl in Ha. assert (a = 0) as -> by lia. split_and!; [constructor|done|done|lia]. }
  rewrite pow_256_S in Ha. destruct (a >? 0) eqn:E.
  2: { assert (a = 0) as -> by lia. split_and!; [constructor|done|simpl; lia|lia]. }
  rewrite Z.shiftr_div_pow2 by lia. change (2 ^ 8) with 256.
  assert (Hd : 0 <= a / 256 < 256 ^ Z.of_nat fuel).
  { split; [apply Z.div_pos; lia|apply Z.div_lt_upper_bound; lia]. }
  destruct (IH _ Hd) as (Hb & Hc & Hl & Hx). split_and!.
  - constructor; [|done]. apply wrap_range. lia.
  - cbn [le_combine]. rewrite Hc. unfold wrap. change (2 ^ 8) with 256.
    pose proof (Z.div_mod a 256). lia.
  - simpl. lia.
  - intros _. destruct (decide (0 < a / 256)) as [Hp|Hp].
    + destruct (Hx Hp) as (l & x & -> & ?). by exists (wrap 8 a :: l), x.
    + assert (H0 : a / 256 = 0) by lia. rewrite H0.
      exists [], (wrap 8 a). split; [by destruct fuel|].
      unfold wrap. change (2 ^ 8) with 256.
      pose proof (Z.div_mod a 256 ltac:(lia)). pose proof (Z.mod_pos_bound a 256 ltac:(lia)). lia.
Qed.

Lemma land_7f x : 0 <= x < 256 -> Z.land x 0x7f = x mod 128.
Proof. intros. change 0x7f with (Z.ones 7). by rewrite Z.land_ones. Qed.

Lemma land_80 x : 0 <= x < 256 -> Z.land x 0x80 = if 128 <=? x then 128 else 0.
Proof.
  intros Hx. change 0x80 with (2 ^ 7). apply Z.bits_inj'. intros n Hn.
  rewrite Z.land_spec. destruct (decide (n = 7)) as [->|].
  - rewrite Z.pow2_bits_true by lia. rewrite andb_true_r, Z.testbit_odd, Z.shiftr_div_pow2 by lia.
    change (2 ^ 7) with 128. destruct (128 <=? x) eqn:E.
    + assert (x / 128 = 1) as -> by (symmetry; apply (Z.div_unique _ _ _ (x - 128)); lia). done.
    + rewrite Z.div_small by lia. done.
  - rewrite Z.pow2_bits_false by lia. rewrite andb_false_r.
    destruct (_ <=? x); [by rewrite Z.pow2_bits_false by lia|by rewrite Z.bits_0].
Qed.

Lemma lor_80 x : 0 <= x < 128 -> Z.lor x 0x80 = x + 128.
Proof. intros. apply (lor_small_shift x 7 1); simpl; lia. Qed.

Lemma num_or_bytes_app d1 d2 i r :
  num_or_bytes i (d1 ++ d2) r = num_or_bytes (i + length d1) d2 (num_or_bytes i d1 r).
Proof.
  revert i r; induction d1 as [|x d1 IH]; intros i r; simpl; [by rewrite Nat.add_0_r|].
  rewrite IH. f_equal. lia.
Qed.

(** The bytes below the top one never reach the sign. *)
Lemma num_or_bytes_low data i r :
  bytes_ok data -> (i + length data <= 7)%nat -> 0 <= r < 256 ^ Z.of_nat i ->
  num_or_bytes i data r = r + 256 ^ Z.of_nat i * le_combine data.
Proof.
  revert i r; induction data as [|x data IH]; intros i r Hd Hl Hr; cbn [num_or_bytes le_combine].
  { lia. }
  apply Forall_cons_1 in Hd as [Hx Hd]. unfold is_uint in Hx. simpl in Hl.
  change (2 ^ 8) with 256 in Hx.
  pose proof (pow_256_S i) as HS. pose proof (pow_256_le (S i) 7 ltac:(lia)) as H7.
  change (256 ^ Z.of_nat 7) with (2 ^ 56) in H7.
  assert (Hs : shl_i64 x (8 * Z.of_nat i) = x * 256 ^ Z.of_nat i).
  { unfold shl_i64. rewrite Z.mod_small, Z.shiftl_mul_pow2, <- pow_256 by lia.
    apply wrap_i64_id. unfold is_i64. nia. }
  rewrite Hs, pow_256, lor_small_shift, <- pow_256 by (rewrite <- ?pow_256; lia).
  rewrite IH; [rewrite HS; lia|done|lia|rewrite HS; nia].
Qed.

Lemma num_or_bytes_spec data :
  bytes_ok data -> (length data <= 8)%nat ->
  num_or_bytes 0 data 0 = wrap_i64 (le_combine data).
Proof.
  intros Hd Hl. pose proof (le_combine_range _ Hd) as Hr.
  destruct (decide (length data = 8%nat)) as [E|].
  - destruct data as [|x d] using rev_ind; [done|]. rewrite length_app in E. simpl in E.
    apply bytes_ok_snoc in Hd as [Hd Hx].
    pose proof (le_combine_range _ Hd) as Hr'.
    assert (Hd7 : length d = 7%nat) by lia. rewrite Hd7 in Hr'.
    rewrite num_or_bytes_app, (num_or_bytes_low d) by (try done; simpl; lia).
    rewrite le_combine_snoc, Hd7. cbn [num_or_bytes].
    change (256 ^ Z.of_nat 7) with (2 ^ 56) in *. change (256 ^ Z.of_nat 0) with 1.
    rewrite Z.add_0_l, Z.mul_1_l. unfold shl_i64.
    change ((8 * Z.of_nat (0 + 7)) mod 64) with 56. rewrite Z.shiftl_mul_pow2 by lia.
    destruct (decide (x < 128)).
    + rewrite !wrap_i64_id by (unfold is_i64; lia). rewrite lor_small_shift by lia. lia.
    + rewrite !wrap_i64_high by lia.
      replace (x * 2 ^ 56 - 2 ^ 64) with ((x - 256) * 2 ^ 56) by lia.
      rewrite lor_small_shift by lia. lia.
  - rewrite num_or_bytes_low by (try done; simpl; lia).
    pose proof (pow_256_le (length data) 7 ltac:(lia)) as H7.
    change (256 ^ Z.of_nat 7) with (2 ^ 56) in H7. change (256 ^ Z.of_nat 0) with 1.
    rewrite wrap_i64_id by (unfold is_i64; lia). lia.
Qed.

(** Clearing the top bit of a number that has it. *)
Lemma clear_top k r :
  0 <= k -> 0 <= r < 2 ^ k -> Z.land (r + 2 ^ k) (Z.lnot (2 ^ k)) = r.
Proof.
  intros Hk Hr. rewrite <- (Z.mul_1_l (2 ^ k)) at 1.
  rewrite <- lor_small_shift, Z.mul_1_l by lia.
  rewrite <- Z.ldiff_land. apply Z.bits_inj'. intros n Hn.
  rewrite Z.ldiff_spec, Z.lor_spec.
  destruct (decide (n = k)) as [->|].
  - rewrite Z.pow2_bits_true by lia. simpl. rewrite andb_false_r.
    destruct (decide (r = 0)) as [->|]; [by rewrite Z.bits_0|].
    rewrite Z.bits_above_log2; [done|lia|]. apply Z.log2_lt_pow2; lia.
  - rewrite Z.pow2_bits_false by lia. by rewrite orb_false_r, andb_true_r.
Qed.

(** Reading bytes whose top one is [x]. *)
Lemma num_from_slice_snoc d x rm max :
  bytes_ok d -> 0 <= x < 256 -> (length d < 8)%nat -> (length d < max)%nat ->
  (rm = true -> x mod 128 = 0 -> exists d' y, d = d' ++ [y] /\ 128 <= y) ->
  num_from_slice (d ++ [x]) rm max =
    Ok (num_from (if 128 <=? x
                  then - (le_combine d + 256 ^ Z.of_nat (length d) * (x - 128))
                  else le_combine d + 256 ^ Z.of_nat (length d) * x)).
Proof.
  intros Hd Hx Hl Hm Hmin. unfold num_from_slice.
  assert (Hok : bytes_ok (d ++ [x])).
  { by apply bytes_ok_snoc. }
  pose proof (le_combine_range _ Hd) as Hr.
  rewrite last_byte_snoc, !length_app. simpl length.
  destruct (max <? _)%nat eqn:E1; [apply Nat.ltb_lt in E1; lia|].
  destruct (_ =? 0)%nat eqn:E2; [apply Nat.eqb_eq in E2; lia|].
  rewrite land_7f, (land_80 x) by lia.
  assert (Hc : rm && (x mod 128 =? 0) && ((length d + 1 <=? 1)%nat
     || (Z.land (nth (length d + 1 - 2) (d ++ [x]) 0) 0x80 =? 0)) = false).
  { destruct rm; [|done]. destruct (x mod 128 =? 0) eqn:E; [|done]. simpl.
    destruct Hmin as (d' & y & -> & Hy); [done|lia|].
    apply bytes_ok_snoc in Hd as [_ Hy'].
    rewrite length_app. simpl length.
    replace (length d' + 1 + 1 - 2)%nat with (length d') by lia.
    rewrite <- app_assoc, app_nth2, Nat.sub_diag by lia. cbn [nth app].
    rewrite land_80 by lia. apply orb_false_intro; [apply Nat.leb_gt; lia|].
    destruct (128 <=? y) eqn:?; [done|lia]. }
  rewrite Hc, num_or_bytes_spec by (try done; rewrite length_app; simpl; lia).
  rewrite le_combine_snoc. set (n := length d) in *.
  assert (Hn : (n < 8)%nat) by done.
  pose proof (pow_256_le n 7 ltac:(lia)) as H7. change (256 ^ Z.of_nat 7) with (2 ^ 56) in H7.
  destruct (128 <=? x) eqn:E.
  - cbn [negb Z.eqb]. f_equal. f_equal.
    replace (8 * (Z.of_nat (n + 1) - 1)) with (8 * Z.of_nat n) by lia.
    set (c := le_combine d) in *. set (p := 256 ^ Z.of_nat n) in *.
    assert (Hp : p = 2 ^ (8 * Z.of_nat n)) by apply pow_256.
    assert (Hsh : shl_i64 0x80 (8 * Z.of_nat n) = wrap_i64 (128 * p)).
    { unfold shl_i64. by rewrite Z.mod_small, Z.shiftl_mul_pow2, <- Hp by lia. }
    rewrite Hsh. assert (Hk : 128 * p = 2 ^ (7 + 8 * Z.of_nat n)).
    { rewrite Z.pow_add_r, <- Hp by lia. done. }
    destruct (decide (n = 7%nat)) as [En|].
    + assert (p = 2 ^ 56) as Hp7 by (rewrite Hp, En; done).
      clear Hp Hsh Hk H7. clearbody p. subst p.
      rewrite (wrap_i64_high (c + 2 ^ 56 * x)), (wrap_i64_high (128 * 2 ^ 56)) by lia.
      replace (Z.lnot (128 * 2 ^ 56 - 2 ^ 64)) with (Z.ones 63) by done.
      rewrite Z.land_ones by lia.
      replace (c + 2 ^ 56 * x - 2 ^ 64) with (c + 2 ^ 56 * (x - 128) + (-1) * 2 ^ 63) by lia.
      rewrite Z.mod_add, Z.mod_small by lia.
      apply wrap_i64_id. unfold is_i64. lia.
    + assert (p <= 2 ^ 48).
      { unfold p. change (2 ^ 48) with (256 ^ Z.of_nat 6). apply pow_256_le. lia. }
      rewrite (wrap_i64_id (128 * p)), (wrap_i64_id (c + p * x)) by (unfold is_i64; nia).
      replace (c + p * x) with (c + p * (x - 128) + 128 * p) by lia.
      rewrite Hk, clear_top by (rewrite <- ?Hk; nia).
      apply wrap_i64_id. unfold is_i64. nia.
  - cbn [negb Z.eqb]. f_equal. f_equal. apply wrap_i64_id. unfold is_i64. nia.
Qed.

Lemma num_to_from n rm max :
  - 2 ^ 63 < n < 2 ^ 63 -> (length (num_to_bytes (num_from n)) <= max)%nat ->
  num_from_slice (num_to_bytes (num_from n)) rm max = Ok (num_from n).
Proof.
  unfold num_to_bytes. cbn [value num_from]. intros Hn.
  destruct (n =? 0) eqn:E0.
  { intros _. assert (n = 0) as -> by lia. done. }
  set (a := if n <? 0 then wrap 64 (wrap_i64 (- n)) else n).
  assert (Ha : a = Z.abs n).
  { unfold a. destruct (n <? 0) eqn:E; [|lia].
    rewrite wrap_i64_id, wrap_id; unfold is_i64, is_uint; lia. }
  clearbody a. destruct (num_le_bytes_spec 8 a) as (Hb & Hc & Hl & Hx).
  { change (256 ^ Z.of_nat 8) with (2 ^ 64). lia. }
  destruct Hx as (l & x & El & Hx); [lia|]. rewrite El in *.
  rewrite length_app in Hl. simpl in Hl.
  pose proof (proj1 (bytes_ok_snoc _ _) Hb) as [Hbl _]. pose proof (le_combine_range _ Hbl) as Hr.
  rewrite last_byte_snoc, land_80, or_last_snoc by lia. rewrite le_combine_snoc in Hc.
  destruct (128 <=? x) eqn:E128; cbn [negb Z.eqb].
  - (* an eighth byte would make the value too large *)
    assert (Hl7 : (length l < 7)%nat).
    { destruct (decide (length l < 7)%nat); [done|].
      assert (length l = 7%nat) as H7 by lia. rewrite H7 in *.
      change (256 ^ Z.of_nat 7) with (2 ^ 56) in *. nia. }
    rewrite !length_app. simpl length. intros Hm.
    destruct (n <? 0) eqn:En; rewrite num_from_slice_snoc; rewrite ?length_app; simpl length;
      try lia.
    + cbn -[Z.pow le_combine]. f_equal. f_equal. rewrite le_combine_snoc. lia.
    + done.
    + intros _ _. exists l, x. split; [done|lia].
    + cbn -[Z.pow le_combine]. f_equal. f_equal. rewrite le_combine_snoc. lia.
    + done.
    + intros _ _. exists l, x. split; [done|lia].
  - destruct (n <? 0) eqn:En; rewrite ?length_app; simpl length; intros Hm.
    + rewrite lor_80 by lia. rewrite num_from_slice_snoc; try done; try lia.
      * destruct (128 <=? x + 128) eqn:?; [|lia]. f_equal. f_equal. lia.
      * intros _. replace (x + 128) with (x + 1 * 128) by lia.
        rewrite Z.mod_add, Z.mod_small by lia. lia.
    + rewrite num_from_slice_snoc; try done; try lia.
      * rewrite E128. f_equal. f_equal. lia.
      * intros _. rewrite Z.mod_small by lia. lia.
Qed.

(** ** What the builder pushes

    An [Action] is one push of the builder: an opcode without data or data. *)

Inductive Action : Type := AOp (o : Opcode) | AData (bytes : list Z).

Definition run_action (b : Builder) (a : Action) : Builder :=
  match a with
  | AOp o => push_opcode o b
  | AData bytes => push_data bytes b
  end.

Definition build (acts : list Action) : Builder := foldl run_action builder_default acts.

(** The opcode that announces [n] bytes and the bytes of the length. *)
Definition push_op (n : Z) : Opcode :=
  if n <? 76 then default OP_0 (op_from_u8 n)
  else if n <? 0x100 then OP_PUSHDATA1
  else if n <? 0x10000 then OP_PUSHDATA2
  else OP_PUSHDATA4.

Definition len_width (o : Opcode) : nat :=
  match o with OP_PUSHDATA1 => 1 | OP_PUSHDATA2 => 2 | OP_PUSHDATA4 => 4 | _ => 0 end.

Definition action_instr (a : Action) : Instruction :=
  match a with
  | AOp OP_0 => mkInstruction OP_0 1 (Some [])
  | AOp o => mkInstruction o 1 None
  | AData bytes =>
      let o := push_op (Z.of_nat (length bytes)) in
      mkInstruction o (len_width o + length bytes + 1) (Some bytes)
  end.

(** The bytes of an instruction. *)
Definition encode (i : Instruction) : list Z :=
  op_u8 (opcode i) ::
  match data i with
  | Some bytes => le_split (len_width (opcode i)) (Z.of_nat (length bytes)) ++ bytes
  | None => []
  end.

Definition action_ok (a : Action) : Prop :=
  match a with
  | AOp o => o = OP_0 \/ op_lt OP_PUSHDATA4 o = true
  | AData bytes => Z.of_nat (length bytes) < 2 ^ 32
  end.

Lemma push_op_small n : 0 <= n < 76 -> op_u8 (push_op n) = n /\ len_width (push_op n) = 0%nat
  /\ is_pushdata (push_op n) = false /\ op_le (push_op n) OP_PUSHBYTES_75 = true.
Proof.
  intros Hn. unfold push_op. destruct (n <? 76) eqn:E; [|lia].
  destruct n as [|p|p]; [done| |lia].
  do 7 (destruct p as [p|p|]; try lia; try by vm_compute).
Qed.

Lemma wrap_shiftr n k : 0 <= n -> 0 <= k -> wrap 8 (Z.shiftr n k) = (n / 2 ^ k) mod 256.
Proof. intros. unfold wrap. by rewrite Z.shiftr_div_pow2. Qed.

Lemma run_action_app a d :
  action_ok a -> run_action (Some d) a = Some (d ++ encode (action_instr a)).
Proof.
  destruct a as [o|bytes]; intros Ha.
  { simpl. unfold encode, action_instr. by destruct o. }
  cbn [run_action push_data mbind option_bind action_instr]. unfold encode. cbn [opcode data].
  cbn [action_ok] in Ha. set (n := Z.of_nat (length bytes)) in *.
  assert (0 <= n) by lia.
  change (op_u8 OP_PUSHDATA1) with 76.
  destruct (n <? 76) eqn:E1.
  { destruct (push_op_small n) as (-> & -> & _); [lia|]. cbn [le_split app].
    by rewrite wrap_id by (unfold is_uint; simpl; lia). }
  unfold push_op. rewrite E1. rewrite !wrap_shiftr by lia. unfold wrap.
  destruct (n <? 256) eqn:E2; [done|].
  destruct (n <? 65536) eqn:E3; [done|].
  destruct (n <? 4294967296) eqn:E4; [|change (2 ^ 32) with 4294967296 in Ha; lia].
  cbn [len_width le_split app]. by rewrite !Z.div_div by lia.
Qed.

Lemma build_app acts d :
  Forall action_ok acts ->
  foldl run_action (Some d) acts = Some (d ++ concat (map (fun a => encode (action_instr a)) acts)).
Proof.
  intros Ha; revert d; induction Ha as [|a acts Ha _ IH]; intros d; cbn [foldl map concat].
  { by rewrite app_nil_r. }
  by rewrite run_action_app, IH, app_assoc.
Qed.

(** ** What the parser reads *)

Lemma fold_usize_spec l i acc :
  0 <= i -> fold_usize i l acc = acc + 2 ^ (8 * i) * le_combine l.
Proof.
  revert i acc; induction l as [|x l IH]; intros i acc Hi; cbn [fold_usize le_combine]; [lia|].
  rewrite IH, Z.shiftl_mul_pow2 by lia.
  replace (8 * (i + 1)) with (8 * i + 8) by lia. rewrite Z.pow_add_r by lia.
  replace (i * 8) with (8 * i) by lia. lia.
Qed.

Lemma read_usize_spec l n : length l = n -> read_usize l n = Ok (le_combine l).
Proof.
  intros Hl. unfold read_usize. rewrite Hl, Nat.ltb_irrefl, take_ge by lia.
  rewrite fold_usize_spec by lia. simpl. f_equal. lia.
Qed.

Lemma script_take_app pre l rest n :
  length l = Z.to_nat n -> 0 <= n -> script_take (pre ++ l ++ rest) (length pre) n = Ok l.
Proof.
  intros Hl Hn. unfold script_take. rewrite !length_app.
  destruct (_ >? _) eqn:E; [apply Z.gtb_lt in E; lia|]. by rewrite drop_app_length, take_app_exact.
Qed.

(** An instruction as the parser makes it. *)
Definition instr_ok (i : Instruction) : Prop :=
  step i = length (encode i) /\
  match data i with
  | Some bytes =>
      if is_pushdata (opcode i)
      then Z.of_nat (length bytes) < 256 ^ Z.of_nat (len_width (opcode i))
      else op_le (opcode i) OP_PUSHBYTES_75 = true /\
           Z.of_nat (length bytes) = op_u8 (opcode i)
  | None => op_lt OP_PUSHDATA4 (opcode i) = true
  end.

Lemma action_instr_ok a : action_ok a -> instr_ok (action_instr a).
Proof.
  destruct a as [o|bytes]; intros Ha; unfold instr_ok.
  { destruct o; simpl; try done; destruct Ha as [?|?]; done. }
  cbn [action_instr step data opcode]. unfold encode. cbn [opcode data length].
  rewrite length_app, le_split_length. split; [lia|].
  cbn [action_ok] in Ha. set (n := Z.of_nat (length bytes)) in *.
  destruct (decide (n < 76)) as [Hn|Hn].
  { destruct (push_op_small n) as (-> & _ & -> & ->); [lia|]. done. }
  unfold push_op. destruct (n <? 76) eqn:E1; [lia|].
  destruct (n <? 256) eqn:E2; [simpl; lia|].
  destruct (n <? 65536) eqn:E3; [simpl; lia|].
  simpl. lia.
Qed.

Lemma op_le_75_width o : op_le o OP_PUSHBYTES_75 = true -> len_width o = 0%nat /\ is_pushdata o = false.
Proof. by destruct o. Qed.

Lemma op_gt_pushdata4 o : op_lt OP_PUSHDATA4 o = true ->
  is_pushdata o = false /\ op_le o OP_PUSHBYTES_75 = false.
Proof. by destruct o. Qed.

Lemma pushdata_width o : is_pushdata o = true ->
  match o with OP_PUSHDATA1 => 1%nat | OP_PUSHDATA2 => 2%nat | _ => 4%nat end = len_width o.
Proof. by destruct o. Qed.

Lemma get_instruction_at_encode pre i rest :
  instr_ok i -> get_instruction_at (pre ++ encode i ++ rest) (length pre) = Some (Ok i).
Proof.
  destruct i as [o st dt]. unfold instr_ok, encode. cbn [step opcode data].
  intros [Hst Hd]. unfold get_instruction_at, get_opcode.
  set (s := pre ++ (op_u8 o :: _) ++ rest).
  assert (Hop : s !! length pre = Some (op_u8 o)).
  { unfold s. cbn [app]. by apply list_lookup_middle. }
  assert (Hp1 : (length pre + 1)%nat = length (pre ++ [op_u8 o])) by (rewrite length_app; done).
  rewrite Hop. cbn [mbind option_bind]. rewrite op_from_to_u8. cbn [ok_or result_bind].
  destruct dt as [bytes|].
  - destruct (is_pushdata o) eqn:Ep.
    + rewrite pushdata_width by done. set (w := len_width o) in *.
      assert (Hlb : length (le_split w (Z.of_nat (length bytes))) = w) by apply le_split_length.
      set (lb := le_split w (Z.of_nat (length bytes))) in *.
      assert (Hs : s = (pre ++ [op_u8 o]) ++ lb ++ (bytes ++ rest)).
      { unfold s. cbn [app]. by rewrite <- !app_assoc. }
      assert (Hs' : s = ((pre ++ [op_u8 o]) ++ lb) ++ bytes ++ rest).
      { by rewrite <- app_assoc. }
      rewrite Hp1, Hs at 1. rewrite script_take_app by lia. cbn [result_bind].
      rewrite read_usize_spec by done. cbn [result_bind].
      unfold lb at 1 2. rewrite le_combine_split by lia.
      replace (length pre + 1 + w)%nat with (length ((pre ++ [op_u8 o]) ++ lb))
        by (rewrite !length_app, Hlb; done).
      rewrite Hs', script_take_app by lia. cbn [result_bind]. rewrite Nat2Z.id.
      do 2 f_equal. f_equal. rewrite Hst. cbn [length]. rewrite length_app. lia.
    + destruct Hd as [Hle Hlen]. rewrite Hle. destruct (op_le_75_width _ Hle) as [Hw _].
      assert (Hs : s = (pre ++ [op_u8 o]) ++ bytes ++ rest).
      { unfold s. rewrite Hw. cbn [app le_split]. by rewrite <- !app_assoc. }
      rewrite Hp1, Hs, script_take_app by lia. cbn [result_bind].
      do 2 f_equal. f_equal. rewrite Hst, Hw. cbn [length le_split app]. lia.
  - destruct (op_gt_pushdata4 _ Hd) as [-> ->]. do 2 f_equal. by rewrite Hst.
Qed.

Lemma encode_length_pos i : (0 < length (encode i))%nat.
Proof. unfold encode. simpl. lia. Qed.

Lemma iter_from_encode ins pre fuel :
  Forall instr_ok ins -> (length (concat (map encode ins)) <= fuel)%nat ->
  iter_from fuel (pre ++ concat (map encode ins)) (length pre) = Some (map Ok ins).
Proof.
  intros Hi; revert pre fuel; induction Hi as [|i ins Hi _ IH]; intros pre fuel Hf;
    cbn [map concat].
  { destruct fuel; [done|]. cbn [iter_from]. unfold instructions_next.
    rewrite app_nil_r, Nat.leb_refl. done. }
  cbn [map concat] in Hf. rewrite length_app in Hf. pose proof (encode_length_pos i).
  destruct fuel as [|fuel]; [lia|]. cbn [iter_from]. unfold instructions_next.
  rewrite !length_app. destruct (_ <=? _)%nat eqn:E; [apply Nat.leb_le in E; lia|].
  rewrite get_instruction_at_encode by done. cbn [mbind option_bind].
  replace (length pre + step i)%nat with (length (pre ++ encode i))
    by (rewrite length_app; by destruct Hi as [-> _]).
  rewrite app_assoc, IH by lia. done.
Qed.

Lemma iter_encode ins :
  Forall instr_ok ins -> iter (concat (map encode ins)) = Some (map Ok ins).
Proof. intros. by apply (iter_from_encode ins []). Qed.

Lemma build_iter acts :
  Forall action_ok acts ->
  exists s, build acts = Some s /\ iter s = Some (map (fun a => Ok (action_instr a)) acts).
Proof.
  intros Ha. unfold build, builder_default. rewrite build_app by done. eexists; split; [done|].
  cbn [app]. rewrite <- (map_map action_instr encode), iter_encode, map_map; [done|].
  apply Forall_map. eapply Forall_impl; [done|]. apply action_instr_ok.
Qed.

(** ** The parser on any bytes *)

Lemma script_take_ok s o n l :
  script_take s o n = Ok l -> 0 <= n ->
  l = take (Z.to_nat n) (drop o s) /\ Z.of_nat (length l) = n /\ (o + length l <= length s)%nat.
Proof.
  unfold script_take. destruct (_ >? _) eqn:E; [done|]. intros [= <-] Hn.
  rewrite Z.gtb_ltb in E. apply Z.ltb_ge in E.
  rewrite length_take, length_drop. split_and!; [done|lia|lia].
Qed.

Lemma get_opcode_ok s p o :
  get_opcode s p = Some (Ok o) -> s !! p = Some (op_u8 o).
Proof.
  unfold get_opcode. destruct (s !! p) as [u|] eqn:E; [|done]. cbn [mbind option_bind].
  destruct (op_from_u8 u) eqn:Eo; [|done]. intros [= <-]. by rewrite (op_to_from_u8 _ _ Eo).
Qed.

Lemma drop_cons s p (x : Z) : s !! p = Some x -> drop p s = x :: drop (p + 1) s.
Proof. intros H. rewrite (drop_S _ _ _ H). by rewrite Nat.add_1_r. Qed.

Lemma get_instruction_at_ok s p i :
  bytes_ok s -> get_instruction_at s p = Some (Ok i) ->
  instr_ok i /\ take (step i) (drop p s) = encode i /\ (p + step i <= length s)%nat.
Proof.
  intros Hs. unfold get_instruction_at.
  destruct (get_opcode s p) as [[o|]|] eqn:Eo; [|done..]. cbn [mbind option_bind result_bind].
  pose proof (get_opcode_ok _ _ _ Eo) as Hp. apply drop_cons in Hp as Hd.
  assert (p < length s)%nat by (by eapply lookup_lt_Some).
  intros [= Hi]. destruct (is_pushdata o) eqn:Ep.
  - rewrite pushdata_width in Hi by done. set (w := len_width o) in *.
    destruct (script_take s (p + 1) (Z.of_nat w)) as [slice|] eqn:E1; [|done].
    cbn [result_bind] in Hi. destruct (script_take_ok _ _ _ _ E1) as (Hsl & Hl & _); [lia|].
    rewrite read_usize_spec in Hi by lia. cbn [result_bind] in Hi.
    assert (Hok : bytes_ok slice) by (subst slice; by apply Forall_take, Forall_drop).
    pose proof (le_combine_range _ Hok) as Hr.
    destruct (script_take s (p + 1 + w) (le_combine slice)) as [bytes|] eqn:E2; [|done].
    cbn [result_bind] in Hi. destruct (script_take_ok _ _ _ _ E2) as (Hb & Hbl & Hle); [lia|].
    injection Hi as <-. unfold instr_ok, encode. cbn [step data opcode]. fold w.
    rewrite Ep, Hbl.
    assert (Hw : le_split w (le_combine slice) = slice).
    { replace w with (length slice) by lia. by apply le_split_combine. }
    rewrite Hw. replace (Z.of_nat w) with (Z.of_nat (length slice)) by lia.
    cbn [length]. rewrite length_app.
    split_and!; [lia|lia| |lia].
    replace (w + Z.to_nat (le_combine slice) + 1)%nat with (S (w + length bytes)) by lia.
    rewrite Hd. cbn [take]. f_equal. rewrite <- (take_drop w (drop (p + 1) s)).
    rewrite Nat2Z.id in Hsl. rewrite <- Hsl, drop_drop, take_app_add'; [|lia].
    f_equal. rewrite Hb at 2. f_equal. lia.
  - destruct (op_le o OP_PUSHBYTES_75) eqn:Ele.
    + pose proof (op_u8_range o) as Hr. unfold is_uint in Hr.
      destruct (script_take s (p + 1) (op_u8 o)) as [bytes|] eqn:E1; [|done].
      cbn [result_bind] in Hi. destruct (script_take_ok _ _ _ _ E1) as (Hb & Hbl & Hle); [lia|].
      injection Hi as <-. unfold instr_ok, encode. cbn [step data opcode].
      destruct (op_le_75_width _ Ele) as [-> ->]. cbn [le_split app length].
      split_and!; [lia|done|done| |lia].
      rewrite Hd. replace (Z.to_nat (op_u8 o) + 1)%nat with (S (Z.to_nat (op_u8 o))) by lia.
      cbn [take]. by rewrite <- Hb.
    + injection Hi as <-. unfold instr_ok, encode. cbn [step data opcode length].
      split_and!; [done| |by rewrite Hd|lia].
      destruct o; done.
Qed.

Lemma get_instruction_at_some s p : (p < length s)%nat -> is_Some (get_instruction_at s p).
Proof.
  intros Hp. unfold get_instruction_at, get_opcode.
  destruct (lookup_lt_is_Some_2 s p Hp) as [u ->]. simpl. eauto.
Qed.

(** What [iter] yields from a position on: instructions that cover the bytes,
    then nothing or one error. *)
Lemma iter_from_total fuel s p :
  bytes_ok s -> (length s - p <= fuel)%nat -> (p <= length s)%nat ->
  exists ins, Forall instr_ok ins /\
    ((iter_from fuel s p = Some (map Ok ins) /\ drop p s = concat (map encode ins)) \/
     exists e rest, iter_from fuel s p = Some (map Ok ins ++ [Err e]) /\ rest <> [] /\
       drop p s = concat (map encode ins) ++ rest).
Proof.
  intros Hs. revert p; induction fuel as [|fuel IH]; intros p Hf Hp.
  { exists []. split; [done|]. left. split; [done|]. by apply drop_ge; lia. }
  cbn [iter_from]. unfold instructions_next.
  destruct (length s <=? p)%nat eqn:E.
  { apply Nat.leb_le in E. exists []. split; [done|]. left. split; [done|]. by apply drop_ge; lia. }
  apply Nat.leb_gt in E.
  destruct (get_instruction_at_some s p E) as [[i|e] Hi]; rewrite Hi; cbn [mbind option_bind].
  - destruct (get_instruction_at_ok _ _ _ Hs Hi) as (Hok & Ht & Hle).
    pose proof (encode_length_pos i). destruct Hok as [Hst Hok'] eqn:Hok''. clear Hok''.
    destruct (IH (p + step i)%nat) as (ins & His & Hcases); [lia|lia|].
    assert (Hd : drop p s = encode i ++ drop (p + step i) s).
    { rewrite <- (take_drop (step i) (drop p s)), Ht, drop_drop. done. }
    exists (i :: ins). split; [by constructor|]. rewrite Hd.
    destruct Hcases as [[-> ->]|(e & rest & -> & Hne & ->)].
    + left. done.
    + right. exists e, rest. split_and!; [done|done|]. cbn [map concat]. by rewrite app_assoc.
  - exists []. split; [done|]. right. exists e, (drop p s). split_and!; [| |done].
    2: { intros Hd. apply (f_equal length) in Hd. rewrite length_drop in Hd. simpl in Hd. lia. }
    destruct fuel; [done|]. cbn [iter_from]. unfold instructions_next. by rewrite Nat.leb_refl.
Qed.

(** ** Classification of what the builder makes *)

Lemma get_opcode_some s p : (p < length s)%nat -> is_Some (get_opcode s p).
Proof.
  intros Hp. unfold get_opcode. destruct (lookup_lt_is_Some_2 s p Hp) as [u ->]. simpl. eauto.
Qed.

(** A script whose second byte does not push a key has no keys to count. *)
Lemma not_multisig s x :
  (3 < length s)%nat -> get_instruction_at s 1 = Some (Ok x) ->
  opcode x <> OP_PUSHBYTES_33 -> opcode x <> OP_PUSHBYTES_65 ->
  is_multisig_script s = Some false.
Proof.
  intros Hl Hx H33 H65. unfold is_multisig_script.
  destruct (_ <? 3)%nat; [done|].
  destruct (get_opcode_some s 0) as [a ->]; [lia|].
  destruct (get_opcode_some s (length s - 2)) as [b ->]; [lia|]. simpl.
  destruct (multisig_n a), (multisig_n b); try done.
  destruct (_ >? _); [done|]. destruct (negb _); [done|].
  destruct (length s) as [|k] eqn:E; [lia|]. cbn [multisig_keys]. rewrite E.
  destruct (1 <? S k - 2)%nat eqn:E1; [|apply Nat.ltb_ge in E1; lia].
  rewrite Hx. simpl. by destruct (opcode x).
Qed.

Lemma not_multisig_first s o :
  get_opcode s 0 = Some (Ok o) -> multisig_n (Ok o : result Error Opcode) = None ->
  is_multisig_script s = Some false.
Proof.
  intros Ho Hn. unfold is_multisig_script. destruct (_ <? 3)%nat eqn:E; [done|].
  rewrite Ho. cbn [mbind option_bind].
  destruct (get_opcode_some s (length s - 2)) as [b ->].
  { apply Nat.ltb_ge in E. lia. }
  by rewrite Hn.
Qed.

(** The constructors of the lists of a known length. *)
Ltac explode h H :=
  repeat (destruct h as [|? h]; [discriminate H|simpl in H; injection H as H]);
  destruct h; [clear H|discriminate H].

Section Built.
  Context `{BitCrypto}.

Lemma p2pkh_destination h :
  length h = 20%nat ->
  exists s, build_p2pkh (AddressHash h) = Some s /\
    extract_destinations s = Some (Ok [new_p2pkh (AddressHash h)]).
Proof. intros Hh. explode h Hh. eexists; split; [done|]. done. Qed.

Lemma p2sh_destination h :
  length h = 20%nat ->
  exists s, build_p2sh (AddressHash h) = Some s /\
    extract_destinations s = Some (Ok [new_p2sh (AddressHash h)]).
Proof. intros Hh. explode h Hh. eexists; split; [done|]. done. Qed.

Lemma p2wpkh_destination h :
  length h = 20%nat ->
  exists s, build_p2wpkh (AddressHash h) = Some (Ok s) /\
    extract_destinations s = Some (Ok [new_p2wpkh (AddressHash h)]).
Proof.
  intros Hh. explode h Hh. eexists; split; [done|].
  unfold extract_destinations, script_type.
  erewrite not_multisig; [done|simpl; lia|reflexivity|done|done].
Qed.

Lemma p2wsh_destination h :
  length h = 32%nat ->
  exists s, build_p2wsh (WitnessScriptHash h) = Some (Ok s) /\
    extract_destinations s = Some (Ok [new_p2wsh (WitnessScriptHash h)]).
Proof.
  intros Hh. explode h Hh. eexists; split; [done|].
  unfold extract_destinations, script_type.
  erewrite not_multisig; [done|simpl; lia|reflexivity|done|done].
Qed.

Lemma p2pk_destination p :
  public_ok p ->
  exists s, build_p2pk p = Some s /\
    extract_destinations s = Some (Ok [new_p2pkh (AddressHash (address_hash p))]).
Proof.
  destruct p as [h|h]; simpl; intros Hh; explode h Hh; eexists; (split; [done|]); done.
Qed.
End Built.

(** A script hash of the wrong kind is not built. *)
Lemma witness_hash_mismatch h :
  build_p2wpkh (WitnessScriptHash h) = Some (Err WitnessHashMismatched) /\
  build_p2wsh (AddressHash h) = Some (Err WitnessHashMismatched).
Proof. done. Qed.

(** Deleting a push misses an occurrence at the very end. *)
Lemma find_and_delete_misses_end x :
  x <> 7 -> find_and_delete [x; 7] [7] = [x; 7] /\ find_and_delete [7; x] [7] = [x].
Proof.
  intros Hx. unfold find_and_delete. simpl. rewrite decide_False by congruence. simpl.
  done.
Qed.
