(* ===== verification/Transaction.v ===== *)
(** * Bitcoin transactions (mm2src/mm2_bitcoin/chain/src/transaction.rs, constants.rs)

    The transaction with the fields of all the chains the program knows
    (witness, Zcash, proof of stake with [n_time], PoSV, Navcoin, Firo), its
    serialization, and the deserialization that tries one kind of transaction
    after the other.  Integers are [Z] of the width of their field, hashes and
    byte strings lists of bytes. *)

From S2P Require Import Prelude Keys Serialization.
Local Open Scope parser_scope.

Definition SEQUENCE_LOCKTIME_DISABLE_FLAG : Z := Z.shiftl 1 31.
Definition SEQUENCE_FINAL : Z := 0xffffffff.
Definition SEQUENCE_LOCKTIME_TYPE_FLAG : Z := Z.shiftl 1 22.
Definition SEQUENCE_LOCKTIME_MASK : Z := 0x0000ffff.
Definition LOCKTIME_THRESHOLD : Z := 500000000.

Definition WITNESS_MARKER : Z := 0.
Definition WITNESS_FLAG : Z := 1.
Definition MAX_LIST_SIZE : Z := 8192.

Notation "b '|>' f" := (f b) (at level 50, left associativity, only parsing).

(** The default value of a hash type of [n] bytes. *)
Definition zeros (n : nat) : list Z := replicate n 0.
Definition H256_default : list Z := zeros 32.
Definition H512_default : list Z := zeros 64.

(** ** The records *)

Record OutPoint : Type := mkOutPoint { op_hash : list Z; op_index : Z }.

Definition outpoint_null : OutPoint := mkOutPoint H256_default (2 ^ 32 - 1).
Definition outpoint_is_null (o : OutPoint) : bool :=
  forallb (fun b => b =? 0) (op_hash o) && (op_index o =? 2 ^ 32 - 1).

Record TransactionInput : Type := mkTransactionInput {
  previous_output : OutPoint;
  script_sig : list Z;
  sequence : Z;
  script_witness : list (list Z) }.

Definition input_coinbase (script_sig : list Z) : TransactionInput :=
  mkTransactionInput outpoint_null script_sig SEQUENCE_FINAL [].
Definition input_is_final (i : TransactionInput) : bool := sequence i =? SEQUENCE_FINAL.
Definition input_has_witness (i : TransactionInput) : bool :=
  match script_witness i with [] => false | _ => true end.

Record TransactionOutput : Type := mkTransactionOutput {
  out_value : Z;
  script_pubkey : list Z }.

Definition output_default : TransactionOutput := mkTransactionOutput 0xffffffffffffffff [].

Record ShieldedSpend : Type := mkShieldedSpend {
  sp_cv : list Z; sp_anchor : list Z; sp_nullifier : list Z; sp_rk : list Z;
  sp_zkproof : list Z; sp_spend_auth_sig : list Z }.

Record ShieldedOutput : Type := mkShieldedOutput {
  so_cv : list Z; so_cmu : list Z; so_ephemeral_key : list Z;
  so_enc_cipher_text : list Z; so_out_cipher_text : list Z; so_zkproof : list Z }.

Inductive JoinSplitProof : Type := PHGR (p : list Z) | Groth (p : list Z).

(** The arrays of two elements are pairs. *)
Record JoinSplit : Type := mkJoinSplit {
  v_pub_old : list Z; v_pub_new : list Z; js_anchor : list Z;
  nullifiers : list Z * list Z; commitments : list Z * list Z;
  js_ephemeral_key : list Z; random_seed : list Z; macs : list Z * list Z;
  js_zkproof : JoinSplitProof; ciphertexts : list Z * list Z }.

Inductive TxHashAlgo : Type := TxDSHA256 | TxSHA256.

Record Transaction : Type := mkTransaction {
  version : Z;
  n_time : option Z;
  overwintered : bool;
  version_group_id : Z;
  inputs : list TransactionInput;
  outputs : list TransactionOutput;
  lock_time : Z;
  expiry_height : Z;
  shielded_spends : list ShieldedSpend;
  shielded_outputs : list ShieldedOutput;
  join_splits : list JoinSplit;
  value_balance : Z;
  join_split_pubkey : list Z;
  join_split_sig : list Z;
  binding_sig : list Z;
  zcash : bool;
  posv : bool;
  str_d_zeel : option (list Z);
  tx_hash_algo : TxHashAlgo;
  v_extra_payload : option (list Z) }.

(** ** Methods *)

Definition tx_is_empty (t : Transaction) : bool :=
  match inputs t, outputs t with [], _ | _, [] => true | _, _ => false end.
Definition tx_is_null (t : Transaction) : bool :=
  existsb (fun i => outpoint_is_null (previous_output i)) (inputs t).
Definition is_coinbase (t : Transaction) : bool :=
  match inputs t with [i] => outpoint_is_null (previous_output i) | _ => false end.

Definition is_final (t : Transaction) : bool :=
  (lock_time t =? 0) || forallb input_is_final (inputs t).

Definition is_final_in_block (t : Transaction) (block_height block_time : Z) : bool :=
  if lock_time t =? 0 then true
  else
    let max_lock_time := if lock_time t <? LOCKTIME_THRESHOLD then block_height else block_time in
    if lock_time t <? max_lock_time then true
    else forallb input_is_final (inputs t).

Definition has_witness (t : Transaction) : bool := existsb input_has_witness (inputs t).

Fixpoint total_spends_loop (outs : list TransactionOutput) (result : Z) : Z :=
  match outs with
  | [] => result
  | o :: outs => if 2 ^ 64 - 1 - result <? out_value o then 2 ^ 64 - 1
                 else total_spends_loop outs (result + out_value o)
  end.
Definition total_spends (t : Transaction) : Z := total_spends_loop (outputs t) 0.

(** [first_output]; the error [TxHasNoOutputs] has no content. *)
Definition first_output (t : Transaction) : result string TransactionOutput :=
  ok_or (head (outputs t)) "Tx has no outputs"%string.

(** ** Serialization *)

Section Ser.
  Context `{ByteOrder}.

Definition append_u (n : nat) (z : Z) : Stream -> Stream := append (mk_uint n z).
Definition append_i (n : nat) (z : Z) : Stream -> Stream := append (mk_sint n z).
Definition append_h (n : nat) (bs : list Z) : Stream -> Stream := append (mk_hash n bs).
Definition append_bytes (bs : list Z) : Stream -> Stream := append (mk_Bytes bs).

#[export] Instance OutPoint_ser : Serializable OutPoint := {|
  ser o s := s |> append_h 32 (op_hash o) |> append_u 4 (op_index o);
  serialized_size _ := (32 + 4)%nat |}.

Definition input_ser (i : TransactionInput) (s : Stream) : Stream :=
  s |> append (previous_output i) |> append_bytes (script_sig i) |> append_u 4 (sequence i).

#[export] Instance TransactionInput_ser : Serializable TransactionInput := {|
  ser := input_ser;
  serialized_size := serialized_size_default input_ser |}.

#[export] Instance TransactionOutput_ser : Serializable TransactionOutput := {|
  ser o s := s |> append_u 8 (out_value o) |> append_bytes (script_pubkey o);
  serialized_size o := (8 + serialized_size (mk_Bytes (script_pubkey o)))%nat |}.

#[export] Instance ShieldedSpend_ser : Serializable ShieldedSpend := {|
  ser p s := s |> append_h 32 (sp_cv p) |> append_h 32 (sp_anchor p)
               |> append_h 32 (sp_nullifier p) |> append_h 32 (sp_rk p)
               |> append_h 192 (sp_zkproof p) |> append_h 64 (sp_spend_auth_sig p);
  serialized_size _ := (32 + 32 + 32 + 32 + 192 + 64)%nat |}.

#[export] Instance ShieldedOutput_ser : Serializable ShieldedOutput := {|
  ser o s := s |> append_h 32 (so_cv o) |> append_h 32 (so_cmu o)
               |> append_h 32 (so_ephemeral_key o) |> append_h 580 (so_enc_cipher_text o)
               |> append_h 80 (so_out_cipher_text o) |> append_h 192 (so_zkproof o);
  serialized_size _ := (32 + 32 + 32 + 580 + 80 + 192)%nat |}.

Definition proof_ser (p : JoinSplitProof) : Stream -> Stream :=
  match p with PHGR p => append_h 296 p | Groth p => append_h 192 p end.

Definition join_split_ser (j : JoinSplit) (s : Stream) : Stream :=
  s |> append_h 8 (v_pub_old j) |> append_h 8 (v_pub_new j) |> append_h 32 (js_anchor j)
    |> append_h 32 (fst (nullifiers j)) |> append_h 32 (snd (nullifiers j))
    |> append_h 32 (fst (commitments j)) |> append_h 32 (snd (commitments j))
    |> append_h 32 (js_ephemeral_key j) |> append_h 32 (random_seed j)
    |> append_h 32 (fst (macs j)) |> append_h 32 (snd (macs j))
    |> proof_ser (js_zkproof j)
    |> append_h 601 (fst (ciphertexts j)) |> append_h 601 (snd (ciphertexts j)).

#[export] Instance JoinSplit_ser : Serializable JoinSplit := {|
  ser := join_split_ser;
  serialized_size := serialized_size_default join_split_ser |}.

(** [header |= 1 << 31] of an [i32]. *)
Definition tx_header (version : Z) (overwintered : bool) : Z :=
  if overwintered then to_signed 32 (Z.lor (wrap 32 version) (2 ^ 31)) else version.

Definition append_opt {A} (f : A -> Stream -> Stream) (o : option A) (s : Stream) : Stream :=
  match o with Some a => f a s | None => s end.

Definition append_when (b : bool) (f : Stream -> Stream) (s : Stream) : Stream :=
  if b then f s else s.

(** Length and bytes, as [str_d_zeel] and [v_extra_payload] are written. *)
Definition append_var (bs : list Z) (s : Stream) : Stream :=
  s |> append (ci_of_len (length bs)) |> append_slice bs.

Definition is_nil {A} (l : list A) : bool := match l with [] => true | _ => false end.

Definition ser_shielded (t : Transaction) (s : Stream) : Stream :=
  s |> append_i 8 (value_balance t)
    |> append_list (shielded_spends t)
    |> append_list (shielded_outputs t).

Definition ser_expiry (t : Transaction) (s : Stream) : Stream :=
  s |> append_u 4 (expiry_height t)
    |> append_when (4 <=? version t) (ser_shielded t).

Definition ser_join_split_keys (t : Transaction) (s : Stream) : Stream :=
  s |> append_h 32 (join_split_pubkey t) |> append_h 64 (join_split_sig t).

Definition ser_join_splits (t : Transaction) (s : Stream) : Stream :=
  s |> append_list (join_splits t)
    |> append_when (negb (is_nil (join_splits t))) (ser_join_split_keys t).

Definition ser_zcash (t : Transaction) (s : Stream) : Stream :=
  s |> append_when ((version t =? 2) || overwintered t) (ser_join_splits t)
    |> append_when ((4 <=? version t) && overwintered t
         && negb (is_nil (shielded_outputs t) && is_nil (shielded_spends t)))
         (append_h 64 (binding_sig t)).

Definition tx_ser_plain (t : Transaction) (s : Stream) : Stream :=
  s |> append_i 4 (tx_header (version t) (overwintered t))
    |> append_when (overwintered t) (append_u 4 (version_group_id t))
    |> append_when (negb (posv t)) (append_opt (append_u 4) (n_time t))
    |> append_list (inputs t)
    |> append_list (outputs t)
    |> append_u 4 (lock_time t)
    |> append_when (posv t) (append_opt (append_u 4) (n_time t))
    |> append_when (overwintered t && (3 <=? version t)) (ser_expiry t)
    |> append_when (zcash t) (ser_zcash t)
    |> append_opt append_var (str_d_zeel t)
    |> append_opt (fun payload => append_when (negb (is_nil payload)) (append_var payload))
         (v_extra_payload t).

Definition append_witness (s : Stream) (i : TransactionInput) : Stream :=
  append_list (map mk_Bytes (script_witness i)) s.

Definition tx_ser_witness (t : Transaction) (s : Stream) : Stream :=
  let s := s |> append_i 4 (version t) |> append_u 1 WITNESS_MARKER |> append_u 1 WITNESS_FLAG
             |> append_list (inputs t) |> append_list (outputs t) in
  append_u 4 (lock_time t) (foldl append_witness s (inputs t)).

Definition tx_ser (t : Transaction) (s : Stream) : Stream :=
  if include_transaction_witness s && has_witness t then tx_ser_witness t s
  else tx_ser_plain t s.

#[export] Instance Transaction_ser : Serializable Transaction := {|
  ser := tx_ser;
  serialized_size := serialized_size_default tx_ser |}.

Definition tx_hash `{BitCrypto} (t : Transaction) : list Z :=
  let serialized := serialize t in
  match tx_hash_algo t with
  | TxDSHA256 => dhash256 serialized
  | TxSHA256 => sha256 serialized
  end.

Definition witness_hash `{BitCrypto} (t : Transaction) : list Z :=
  dhash256 (serialize_with_flags t SERIALIZE_TRANSACTION_WITNESS).

End Ser.

(** ** Deserialization *)

(** [std::str::from_utf8]: the well-formed byte sequences of the Unicode
    standard. *)
Definition cont_byte (b : Z) : bool := (0x80 <=? b) && (b <=? 0xBF).
Definition byte_in (lo hi b : Z) : bool := (lo <=? b) && (b <=? hi).

Fixpoint utf8_valid (fuel : nat) (bs : list Z) : bool :=
  match fuel, bs with
  | _, [] => true
  | O, _ => false
  | S fuel, b :: bs =>
      if byte_in 0 0x7F b then utf8_valid fuel bs
      else if byte_in 0xC2 0xDF b then
        match bs with c1 :: bs => cont_byte c1 && utf8_valid fuel bs | _ => false end
      else if byte_in 0xE0 0xEF b then
        match bs with
        | c1 :: c2 :: bs =>
            byte_in (if b =? 0xE0 then 0xA0 else 0x80) (if b =? 0xED then 0x9F else 0xBF) c1
            && cont_byte c2 && utf8_valid fuel bs
        | _ => false
        end
      else if byte_in 0xF0 0xF4 b then
        match bs with
        | c1 :: c2 :: c3 :: bs =>
            byte_in (if b =? 0xF0 then 0x90 else 0x80) (if b =? 0xF4 then 0x8F else 0xBF) c1
            && cont_byte c2 && cont_byte c3 && utf8_valid fuel bs
        | _ => false
        end
      else false
  end.

Definition from_utf8 (bs : list Z) : result Error (list Z) :=
  if utf8_valid (length bs) bs then Ok bs else Err MalformedData.

Definition p_lift {A} (x : result Error A) : parser A := fun r => (x, r).
Definition p_is_finished : parser bool := fun r => let '(b, r') := is_finished r in (Ok b, r').

(** [io::Read::read_to_end] of the reader. *)
Definition read_to_end : parser (list Z) := fun r =>
  (Ok (contents r), mkReader [] None (rd_chain r)).

Inductive TxType : Type := StandardWithWitness | ZcashTx | PosWithNTime | PosvWithNTime.

#[export] Instance TxType_eq_dec : EqDecision TxType.
Proof. solve_decision. Defined.

Definition uses_witness (t : TxType) : bool :=
  match t with StandardWithWitness | PosvWithNTime => true | _ => false end.

Section Deser.
  Context `{ByteOrder}.

Definition read_u (n : nat) : parser Z := v <~ read (uint n); p_ret (uint_val v).
Definition read_i (n : nat) : parser Z := v <~ read (sint n); p_ret (sint_val v).
Definition read_h (n : nat) : parser (list Z) := v <~ read (hash n); p_ret (hash_bytes v).
Definition read_bytes : parser (list Z) := v <~ read Bytes; p_ret (bytes_val v).

#[export] Instance OutPoint_deser : Deserializable OutPoint := {|
  deser := h <~ read_h 32; i <~ read_u 4; p_ret (mkOutPoint h i) |}.

#[export] Instance TransactionInput_deser : Deserializable TransactionInput := {|
  deser := o <~ read OutPoint; s <~ read_bytes; q <~ read_u 4;
           p_ret (mkTransactionInput o s q []) |}.

#[export] Instance TransactionOutput_deser : Deserializable TransactionOutput := {|
  deser := v <~ read_u 8; s <~ read_bytes; p_ret (mkTransactionOutput v s) |}.

#[export] Instance ShieldedSpend_deser : Deserializable ShieldedSpend := {|
  deser := cv <~ read_h 32; anchor <~ read_h 32; nullifier <~ read_h 32; rk <~ read_h 32;
           zkproof <~ read_h 192; spend_auth_sig <~ read_h 64;
           p_ret (mkShieldedSpend cv anchor nullifier rk zkproof spend_auth_sig) |}.

#[export] Instance ShieldedOutput_deser : Deserializable ShieldedOutput := {|
  deser := cv <~ read_h 32; cmu <~ read_h 32; ephemeral_key <~ read_h 32;
           enc <~ read_h 580; out <~ read_h 80; zkproof <~ read_h 192;
           p_ret (mkShieldedOutput cv cmu ephemeral_key enc out zkproof) |}.

Definition deserialize_join_split (use_groth : bool) : parser JoinSplit :=
  v_pub_old <~ read_h 8; v_pub_new <~ read_h 8; anchor <~ read_h 32;
  n0 <~ read_h 32; n1 <~ read_h 32; c0 <~ read_h 32; c1 <~ read_h 32;
  ephemeral_key <~ read_h 32; random_seed <~ read_h 32;
  m0 <~ read_h 32; m1 <~ read_h 32;
  zkproof <~ (if use_groth then p <~ read_h 192; p_ret (Groth p)
              else p <~ read_h 296; p_ret (PHGR p));
  t0 <~ read_h 601; t1 <~ read_h 601;
  p_ret (mkJoinSplit v_pub_old v_pub_new anchor (n0, n1) (c0, c1) ephemeral_key
           random_seed (m0, m1) zkproof (t0, t1)).

Fixpoint read_times {A} (n : nat) (p : parser A) : parser (list A) :=
  match n with
  | O => p_ret []
  | S n => a <~ p; l <~ read_times n p; p_ret (a :: l)
  end.

(** [input.script_witness = read_list_max(..)] for each input. *)
Fixpoint read_witnesses (ins : list TransactionInput) : parser (list TransactionInput) :=
  match ins with
  | [] => p_ret []
  | i :: ins =>
      w <~ read_list_max (A := Bytes) MAX_LIST_SIZE;
      l <~ read_witnesses ins;
      p_ret (mkTransactionInput (previous_output i) (script_sig i) (sequence i)
               (map bytes_val w) :: l)
  end.

(** [vec![0; len]] and [read_slice]. *)
Definition read_var : parser (list Z) :=
  len <~ read CompactInteger; read_slice (Z.to_nat (as_usize len)).

Definition p_when {A} (b : bool) (p : parser A) (a : A) : parser A := if b then p else p_ret a.

Definition read_inputs (overwintered : bool) (tx_type : TxType)
  : parser (list TransactionInput * bool) :=
  inputs <~ read_list_max MAX_LIST_SIZE;
  if is_nil inputs && negb overwintered && uses_witness tx_type
  then
    witness_flag <~ read_u 1;
    if negb (witness_flag =? WITNESS_FLAG) then p_err MalformedData
    else inputs <~ read_list_max MAX_LIST_SIZE; p_ret (inputs, true)
  else p_ret (inputs, false).

Definition read_shielded
  : parser (Z * list ShieldedSpend * list ShieldedOutput) :=
  value_balance <~ read_i 8;
  shielded_spends <~ read_list_max MAX_LIST_SIZE;
  shielded_outputs <~ read_list_max MAX_LIST_SIZE;
  p_ret (value_balance, shielded_spends, shielded_outputs).

Definition read_expiry (version : Z)
  : parser (Z * (Z * list ShieldedSpend * list ShieldedOutput)) :=
  expiry_height <~ read_u 4;
  rest <~ p_when (4 <=? version) read_shielded (0, [], []);
  p_ret (expiry_height, rest).

Definition read_join_splits (version : Z) : parser (list JoinSplit * list Z * list Z) :=
  len <~ read CompactInteger;
  if as_usize len >? 0 then
    if as_usize len >? MAX_LIST_SIZE then p_err MalformedData
    else
      join_splits <~ read_times (Z.to_nat (as_usize len)) (deserialize_join_split (2 <? version));
      join_split_pubkey <~ read_h 32;
      join_split_sig <~ read_h 64;
      p_ret (join_splits, join_split_pubkey, join_split_sig)
  else p_ret ([], H256_default, H512_default).

Definition no_join_splits : list JoinSplit * list Z * list Z := ([], H256_default, H512_default).

Definition read_zcash (version : Z) (overwintered no_shielded : bool)
  : parser ((list JoinSplit * list Z * list Z) * list Z) :=
  js <~ p_when ((version =? 2) || overwintered) (read_join_splits version) no_join_splits;
  binding_sig <~ p_when (overwintered && (4 <=? version) && negb no_shielded)
                   (read_h 64) H512_default;
  p_ret (js, binding_sig).

Definition read_some {A} (p : parser A) : parser (option A) := a <~ p; p_ret (Some a).

(** [deserialize_tx] from [lock_time] on. *)
Definition deserialize_from_lock_time (tx_type : TxType) (version : Z) (overwintered maybe_spark : bool)
  (version_group_id : Z) (n_time : option Z) (inputs : list TransactionInput)
  (outputs : list TransactionOutput) : parser Transaction :=
  lock_time <~ read_u 4;
  let posv := bool_decide (tx_type = PosvWithNTime) && negb maybe_spark in
  n_time <~ p_when posv (read_some (read_u 4)) n_time;
  sh <~ p_when (overwintered && (3 <=? version)) (read_expiry version) (0, (0, [], []));
  let '(expiry_height, (value_balance, shielded_spends, shielded_outputs)) := sh in
  let zcash := overwintered || bool_decide (tx_type = ZcashTx) in
  z <~ p_when zcash
         (read_zcash version overwintered
            (is_nil shielded_spends && is_nil shielded_outputs))
         (no_join_splits, H512_default);
  let '((join_splits, join_split_pubkey, join_split_sig), binding_sig) := z in
  str_d_zeel <~ (if bool_decide (tx_type = PosWithNTime) then
                   fin <~ p_is_finished;
                   if fin then p_ret None
                   else buf <~ read_var; s <~ p_lift (from_utf8 buf); p_ret (Some s)
                 else p_ret None);
  v_extra_payload <~ (if maybe_spark then
                        fin <~ p_is_finished;
                        if fin then p_ret None else read_some read_var
                      else p_ret None);
  p_ret (mkTransaction version n_time overwintered version_group_id inputs outputs
           lock_time expiry_height shielded_spends shielded_outputs join_splits
           value_balance join_split_pubkey join_split_sig binding_sig zcash posv
           str_d_zeel TxDSHA256 v_extra_payload).

(** [deserialize_tx] after the header. *)
Definition deserialize_body (tx_type : TxType) (version : Z) (overwintered maybe_spark : bool)
  : parser Transaction :=
  version_group_id <~ p_when overwintered (read_u 4) 0;
  n_time <~ p_when (bool_decide (tx_type = PosWithNTime)) (read_some (read_u 4)) None;
  ins <~ read_inputs overwintered tx_type;
  let '(inputs, read_witness) := ins in
  outputs <~ read_list_max MAX_LIST_SIZE;
  if is_nil outputs && uses_witness tx_type
  then p_err (Custom "Transaction has no output")
  else
    inputs <~ p_when read_witness (read_witnesses inputs) inputs;
    deserialize_from_lock_time tx_type version overwintered maybe_spark
      version_group_id n_time inputs outputs.

Definition deserialize_tx (tx_type : TxType) : parser Transaction :=
  header <~ read_i 4;
  let overwintered := negb (Z.shiftr header 31 =? 0) in
  let version := if overwintered then Z.land header 0x7FFFFFFF else header in
  let spark_version := Z.land header 0xFFFF in
  let maybe_spark := spark_version =? 3 in
  deserialize_body tx_type version overwintered maybe_spark.

(** [deserialize_tx(&mut Reader::from_read(buffer), tx_type)]. *)
Definition try_tx (buffer : list Z) (tx_type : TxType) : result Error Transaction :=
  fst (deserialize_tx tx_type (from_read buffer)).

Definition tx_from_buffer (buffer : list Z) : result Error Transaction :=
  match try_tx buffer PosvWithNTime with
  | Ok t => Ok t
  | Err _ =>
      match try_tx buffer StandardWithWitness with
      | Ok t => Ok t
      | Err _ =>
          match try_tx buffer PosWithNTime with
          | Ok t => Ok t
          | Err _ => try_tx buffer ZcashTx
          end
      end
  end.

#[export] Instance Transaction_deser : Deserializable Transaction := {|
  deser := buffer <~ read_to_end; p_lift (tx_from_buffer buffer) |}.

End Deser.
