(* ===== verification/TransactionProps.v ===== *)
(** * Lemmas on transactions

    [writes f bs]: the writer [f] appends the bytes [bs]; [reads p bs a]: the
    parser [p] makes [a] of the bytes [bs] and leaves the rest.  Both compose,
    so that the codec of a record follows from those of its fields. *)

From S2P Require Import Prelude Keys Serialization Transaction.
Local Open Scope parser_scope.

(** ** Writers and readers *)

Definition writes (f : Stream -> Stream) (bs : list Z) : Prop :=
  forall s, f s = append_slice bs s.

Definition reads {A} (p : parser A) (bs : list Z) (a : A) : Prop :=
  forall r rest, contents r = bs ++ rest ->
  exists r', p r = (Ok a, r') /\ contents r' = rest /\ rd_chain r' = rd_chain r.

(** The parser makes [a] of all that is left; it fails on all that is left. *)
Definition reads_end {A} (p : parser A) (bs : list Z) (a : A) : Prop :=
  forall r, contents r = bs -> exists r', p r = (Ok a, r').
Definition fails_on {A} (p : parser A) (bs : list Z) : Prop :=
  forall r, contents r = bs -> exists e r', p r = (Err e, r').

Lemma writes_comp f g b1 b2 :
  writes f b1 -> writes g b2 -> writes (fun s => g (f s)) (b1 ++ b2).
Proof. intros Hf Hg s. by rewrite Hf, Hg, append_slice_app. Qed.

Lemma writes_when b f bs :
  writes f bs -> writes (append_when b f) (if b then bs else []).
Proof.
  intros Hf s. unfold append_when. destruct b; [apply Hf|].
  unfold append_slice. rewrite app_nil_r. by destruct s.
Qed.

Lemma writes_opt {A} (f : A -> Stream -> Stream) (g : A -> list Z) o :
  (forall a, writes (f a) (g a)) ->
  writes (append_opt f o) (match o with Some a => g a | None => [] end).
Proof.
  intros Hf s. destruct o; simpl; [apply Hf|].
  unfold append_slice. rewrite app_nil_r. by destruct s.
Qed.

Lemma reads_ret {A} (a : A) : reads (p_ret a) [] a.
Proof. intros r rest Hc. by exists r. Qed.

Lemma reads_bind {A B} (p : parser A) (k : A -> parser B) b1 b2 a b :
  reads p b1 a -> reads (k a) b2 b -> reads (p_bind p k) (b1 ++ b2) b.
Proof.
  intros Hp Hk r rest Hc. rewrite <- app_assoc in Hc.
  destruct (Hp _ _ Hc) as (r1 & H1 & Hc1 & Hch1).
  destruct (Hk _ _ Hc1) as (r2 & H2 & Hc2 & Hch2).
  exists r2. rewrite (p_bind_ok _ _ _ _ _ H1). by rewrite Hch2.
Qed.

Lemma reads_bind_last {A B} (p : parser A) (f : A -> B) bs a :
  reads p bs a -> reads (x <~ p; p_ret (f x)) bs (f a).
Proof.
  intros Hp. rewrite <- (app_nil_r bs). eapply reads_bind; [done|apply reads_ret].
Qed.

Lemma reads_when {A} b (p : parser A) bs a a0 :
  (b = true -> reads p bs a) -> (b = false -> a = a0) ->
  reads (p_when b p a0) (if b then bs else []) a.
Proof. unfold p_when. destruct b; intros H1 H2; [by apply H1|]. rewrite H2 by done. apply reads_ret. Qed.

Lemma reads_to_end {A} (p : parser A) bs a : reads p bs a -> reads_end p bs a.
Proof.
  intros Hp r Hc. destruct (Hp r []) as (r' & ? & _); [by rewrite app_nil_r|]. eauto.
Qed.

Lemma reads_end_bind {A B} (p : parser A) (k : A -> parser B) b1 b2 a b :
  reads p b1 a -> reads_end (k a) b2 b -> reads_end (p_bind p k) (b1 ++ b2) b.
Proof.
  intros Hp Hk r Hc. destruct (Hp _ _ Hc) as (r1 & H1 & Hc1 & _).
  destruct (Hk _ Hc1) as (r2 & H2). exists r2. by rewrite (p_bind_ok _ _ _ _ _ H1).
Qed.

Lemma reads_end_skip {A B} (p : parser A) (k : A -> parser B) bs a b :
  reads p [] a -> reads_end (k a) bs b -> reads_end (p_bind p k) bs b.
Proof. apply reads_end_bind. Qed.

Lemma fails_bind {A B} (p : parser A) (k : A -> parser B) b1 b2 a :
  reads p b1 a -> fails_on (k a) b2 -> fails_on (p_bind p k) (b1 ++ b2).
Proof.
  intros Hp Hk r Hc. destruct (Hp _ _ Hc) as (r1 & H1 & Hc1 & _).
  destruct (Hk _ Hc1) as (e & r2 & H2). exists e, r2. by rewrite (p_bind_ok _ _ _ _ _ H1).
Qed.

Lemma fails_bind_first {A B} (p : parser A) (k : A -> parser B) bs :
  fails_on p bs -> fails_on (p_bind p k) bs.
Proof.
  intros Hp r Hc. destruct (Hp _ Hc) as (e & r1 & H1). exists e, r1.
  by rewrite (p_bind_err _ _ _ _ _ H1).
Qed.

Lemma codec_reads `{Codec A} (a : A) : valid a -> reads (read A) (serialize a) a.
Proof. intros Hv r rest Hc. by apply codec_read. Qed.

Lemma codec_writes `{Codec A} (a : A) : writes (append a) (serialize a).
Proof. intros s. apply codec_append. Qed.

Lemma writes_serialize `{Serializable A} (a : A) bs : writes (ser a) bs -> serialize a = bs.
Proof. intros Hw. unfold serialize, append. by rewrite Hw. Qed.

Section Fields.
  Context `{ByteOrder}.

Lemma writes_u n z : writes (append_u n z) (serialize (mk_uint n z)).
Proof. apply codec_writes. Qed.
Lemma writes_h n bs : writes (append_h n bs) bs.
Proof. done. Qed.
Lemma writes_bytes bs : writes (append_bytes bs) (serialize (mk_Bytes bs)).
Proof. apply codec_writes. Qed.
Lemma writes_i n z : writes (append_i n z) (serialize (mk_sint n z)).
Proof. done. Qed.
Lemma writes_list `{Codec A} (l : list A) : writes (append_list l) (serialize_list l).
Proof. intros s. unfold serialize_list, out. rewrite !append_list_spec. done. Qed.
Lemma writes_var bs : writes (append_var bs) (serialize (ci_of_len (length bs)) ++ bs).
Proof. apply (writes_comp (append (ci_of_len (length bs))) (append_slice bs)); [apply codec_writes|done]. Qed.

Lemma reads_u n z : 0 <= z < 256 ^ Z.of_nat n -> reads (read_u n) (serialize (mk_uint n z)) z.
Proof. intros. by eapply (reads_bind_last _ uint_val _ (mk_uint n z)), codec_reads. Qed.
Lemma reads_h n bs : length bs = n -> reads (read_h n) bs bs.
Proof.
  intros Hl. apply (reads_bind_last _ hash_bytes _ (mk_hash n bs)).
  exact (codec_reads (mk_hash n bs) Hl).
Qed.
Lemma reads_bytes bs : Z.of_nat (length bs) <= 65536 ->
  reads read_bytes (serialize (mk_Bytes bs)) bs.
Proof. intros. by eapply (reads_bind_last _ bytes_val _ (mk_Bytes bs)), codec_reads. Qed.

Lemma reads_slice bs : reads (read_slice (length bs)) bs bs.
Proof. intros r rest Hc. by apply read_slice_app. Qed.

Lemma to_signed_wrap w z : 0 < w -> - 2 ^ (w - 1) <= z < 2 ^ (w - 1) -> to_signed w (wrap w z) = z.
Proof.
  intros Hw Hz. unfold to_signed, wrap.
  assert (H2 : 2 ^ w = 2 * 2 ^ (w - 1)) by (rewrite <- Z.pow_succ_r by lia; f_equal; lia).
  destruct (decide (0 <= z)).
  - rewrite Z.mod_small by lia. destruct (z <? _) eqn:E; [done|lia].
  - rewrite <- (Z.mod_add _ 1), Z.mod_small by lia. destruct (_ <? _) eqn:E; lia.
Qed.

Lemma reads_i n z : (0 < n)%nat ->
  - 2 ^ (8 * Z.of_nat n - 1) <= z < 2 ^ (8 * Z.of_nat n - 1) ->
  reads (read_i n) (serialize (mk_sint n z)) z.
Proof.
  intros Hn Hz. unfold read_i. apply (reads_bind_last _ sint_val _ (mk_sint n z)).
  unfold read; simpl. set (w := wrap (8 * Z.of_nat n) z).
  assert (Hw : 0 <= w < 256 ^ Z.of_nat n).
  { change 256 with (2 ^ 8). rewrite <- Z.pow_mul_r by lia. apply wrap_range. lia. }
  change (serialize (mk_sint n z)) with (write_le n w).
  replace (mk_sint n z) with (mk_sint n (to_signed (8 * Z.of_nat n) (read_le (write_le n w)))).
  2: { rewrite read_write_le by done. f_equal. apply to_signed_wrap; lia. }
  apply (reads_bind_last _ (fun bs => mk_sint n (to_signed (8 * Z.of_nat n) (read_le bs)))).
  rewrite <- (write_le_length n w Hw) at 1. apply reads_slice.
Qed.

Lemma reads_n `{Codec A} (l : list A) :
  Forall valid l -> reads (read_n (length l)) (concat (map serialize l)) l.
Proof. intros Hl r rest Hc. by apply read_n_app. Qed.

Lemma serialize_list_eq `{Codec A} (l : list A) :
  serialize_list l = serialize (ci_of_len (length l)) ++ concat (map serialize l).
Proof. unfold serialize_list, out. by rewrite append_list_spec. Qed.

Lemma reads_list_max `{Codec A} (l : list A) max :
  Z.of_nat (length l) <= max -> max < 2 ^ 64 -> Forall valid l ->
  reads (read_list_max max) (serialize_list l) l.
Proof.
  intros Hl Hm Hv. rewrite serialize_list_eq. unfold read_list_max.
  eapply reads_bind; [apply codec_reads, ci_of_len_valid; lia|].
  unfold as_usize, ci_of_len; cbn [ci_val]. destruct (_ >? _) eqn:E; [apply Z.gtb_lt in E; lia|].
  rewrite Nat2Z.id. by apply reads_n.
Qed.

Lemma reads_var bs : Z.of_nat (length bs) < 2 ^ 64 ->
  reads read_var (serialize (ci_of_len (length bs)) ++ bs) bs.
Proof.
  intros Hl. eapply reads_bind; [by apply codec_reads, ci_of_len_valid|].
  unfold as_usize, ci_of_len; cbn [ci_val]. rewrite Nat2Z.id. apply reads_slice.
Qed.

Lemma fails_u n : (0 < n)%nat -> fails_on (read_u n) [].
Proof.
  intros Hn r Hc. destruct (read_slice_err n r) as (r' & Hr & _); [rewrite Hc; simpl; lia|].
  exists UnexpectedEnd, r'. unfold read_u, read; simpl. unfold p_bind. by rewrite Hr.
Qed.
End Fields.


(** The goal [codec_read] of a codec, as a [reads]. *)
Ltac intro_reads o Hv :=
  let r := fresh "r" in let rest := fresh "rest" in
  intros o r rest Hv; revert r rest;
  match goal with
  | |- forall r rest, contents r = ?bs ++ rest -> exists r', read ?A r = (Ok ?a, r') /\ _ =>
      change (reads (read A) bs a)
  end.

(** ** The codecs of the parts *)

Section Codecs.
  Context `{ByteOrder}.

Definition hash_ok (n : nat) (bs : list Z) : Prop := length bs = n.

Definition outpoint_ok (o : OutPoint) : Prop := hash_ok 32 (op_hash o) /\ is_u32 (op_index o).

Lemma writes_outpoint o :
  writes (ser o) (op_hash o ++ serialize (mk_uint 4 (op_index o))).
Proof. apply (writes_comp (append_h 32 _) (append_u 4 _)); [done|apply writes_u]. Qed.

#[export, program] Instance OutPoint_codec : Codec OutPoint := {| valid := outpoint_ok |}.
Next Obligation. intros o s. by rewrite (writes_serialize _ _ (writes_outpoint o)), writes_outpoint. Qed.
Next Obligation.
  intro_reads o Hv. destruct Hv as [Hh Hi]. rewrite (writes_serialize _ _ (writes_outpoint o)).
  eapply (reads_bind (read_h 32)); [by apply reads_h|].
  destruct o. by eapply (reads_bind_last (read_u 4)), reads_u.
Qed.
Next Obligation.
  intros o [Hh Hi]. rewrite (writes_serialize _ _ (writes_outpoint o)), length_app, Hh.
  rewrite <- (codec_size (mk_uint 4 _)) by (unfold valid; simpl; apply Hi). done.
Qed.

Definition input_ok (i : TransactionInput) : Prop :=
  outpoint_ok (previous_output i) /\ Z.of_nat (length (script_sig i)) <= 65536 /\
  is_u32 (sequence i).

Definition no_witness (i : TransactionInput) : TransactionInput :=
  mkTransactionInput (previous_output i) (script_sig i) (sequence i) [].

Lemma writes_input i :
  writes (ser i) (serialize (previous_output i) ++ serialize (mk_Bytes (script_sig i))
                  ++ serialize (mk_uint 4 (sequence i))).
Proof.
  rewrite app_assoc.
  apply (writes_comp (fun s => append_bytes _ (append _ s)) (append_u 4 _)); [|apply writes_u].
  apply (writes_comp (append _) (append_bytes _)); [apply codec_writes|apply writes_bytes].
Qed.

#[export, program] Instance TransactionInput_codec : Codec TransactionInput := {|
  valid i := input_ok i /\ script_witness i = [] |}.
Next Obligation. intros i s. by rewrite (writes_serialize _ _ (writes_input i)), writes_input. Qed.
Next Obligation.
  intro_reads i Hv. destruct Hv as [(Ho & Hs & Hq) Hw]. rewrite (writes_serialize _ _ (writes_input i)).
  eapply (reads_bind (read OutPoint)  _ _ _ (previous_output i)); [by apply codec_reads|].
  apply (reads_bind read_bytes _ _ _ (script_sig i)); [by apply reads_bytes|].
  destruct i; simpl in *; subst.
  by eapply (reads_bind_last (read_u 4) (fun q => mkTransactionInput _ _ q [])), reads_u.
Qed.
Next Obligation. done. Qed.

Lemma serialize_no_witness i : serialize (no_witness i) = serialize i.
Proof. by rewrite !(writes_serialize _ _ (writes_input _)). Qed.

Definition output_ok (o : TransactionOutput) : Prop :=
  is_u64 (out_value o) /\ Z.of_nat (length (script_pubkey o)) <= 65536.

Lemma writes_output o :
  writes (ser o) (serialize (mk_uint 8 (out_value o)) ++ serialize (mk_Bytes (script_pubkey o))).
Proof. apply (writes_comp (append_u 8 _) (append_bytes _)); [apply writes_u|apply writes_bytes]. Qed.

#[export, program] Instance TransactionOutput_codec : Codec TransactionOutput := {|
  valid := output_ok |}.
Next Obligation. intros o s. by rewrite (writes_serialize _ _ (writes_output o)), writes_output. Qed.
Next Obligation.
  intro_reads o Hv. destruct Hv as [Hv' Hs]. rewrite (writes_serialize _ _ (writes_output o)).
  eapply (reads_bind (read_u 8)); [by apply reads_u|].
  destruct o. by eapply (reads_bind_last read_bytes), reads_bytes.
Qed.
Next Obligation.
  intros o [Hv Hs]. rewrite (writes_serialize _ _ (writes_output o)), length_app.
  rewrite <- (codec_size (mk_uint 8 _)) by (unfold valid; simpl; apply Hv).
  rewrite <- (codec_size (mk_Bytes _)) by done. done.
Qed.

Definition spend_ok (p : ShieldedSpend) : Prop :=
  hash_ok 32 (sp_cv p) /\ hash_ok 32 (sp_anchor p) /\ hash_ok 32 (sp_nullifier p) /\
  hash_ok 32 (sp_rk p) /\ hash_ok 192 (sp_zkproof p) /\ hash_ok 64 (sp_spend_auth_sig p).

Definition spend_bytes (p : ShieldedSpend) : list Z :=
  sp_cv p ++ sp_anchor p ++ sp_nullifier p ++ sp_rk p ++ sp_zkproof p ++ sp_spend_auth_sig p.

Lemma writes_spend p : writes (ser p) (spend_bytes p).
Proof.
  intros s. destruct s. unfold spend_bytes, ser; simpl. unfold append_h, append, ser; simpl.
  unfold append_slice; simpl. by rewrite <- !app_assoc.
Qed.

#[export, program] Instance ShieldedSpend_codec : Codec ShieldedSpend := {| valid := spend_ok |}.
Next Obligation. intros o s. by rewrite (writes_serialize _ _ (writes_spend o)), writes_spend. Qed.
Next Obligation.
  intro_reads p Hv. destruct Hv as (H1 & H2 & H3 & H4 & H5 & H6). rewrite (writes_serialize _ _ (writes_spend p)).
  do 5 (eapply (reads_bind (read_h _)); [by apply reads_h|]).
  destruct p. by eapply (reads_bind_last (read_h 64)), reads_h.
Qed.
Next Obligation.
  intros p (H1 & H2 & H3 & H4 & H5 & H6). rewrite (writes_serialize _ _ (writes_spend p)).
  unfold spend_bytes. by rewrite !length_app, H1, H2, H3, H4, H5, H6.
Qed.

Definition shielded_output_ok (o : ShieldedOutput) : Prop :=
  hash_ok 32 (so_cv o) /\ hash_ok 32 (so_cmu o) /\ hash_ok 32 (so_ephemeral_key o) /\
  hash_ok 580 (so_enc_cipher_text o) /\ hash_ok 80 (so_out_cipher_text o) /\
  hash_ok 192 (so_zkproof o).

Definition shielded_output_bytes (o : ShieldedOutput) : list Z :=
  so_cv o ++ so_cmu o ++ so_ephemeral_key o ++ so_enc_cipher_text o
  ++ so_out_cipher_text o ++ so_zkproof o.

Lemma writes_shielded_output o : writes (ser o) (shielded_output_bytes o).
Proof.
  intros s. destruct s. unfold shielded_output_bytes, ser; simpl.
  unfold append_h, append, ser; simpl. unfold append_slice; simpl. by rewrite <- !app_assoc.
Qed.

#[export, program] Instance ShieldedOutput_codec : Codec ShieldedOutput := {|
  valid := shielded_output_ok |}.
Next Obligation.
  intros o s. by rewrite (writes_serialize _ _ (writes_shielded_output o)), writes_shielded_output.
Qed.
Next Obligation.
  intro_reads p Hv. destruct Hv as (H1 & H2 & H3 & H4 & H5 & H6).
  rewrite (writes_serialize _ _ (writes_shielded_output p)).
  do 5 (eapply (reads_bind (read_h _)); [by apply reads_h|]).
  destruct p. by eapply (reads_bind_last (read_h 192)), reads_h.
Qed.
Next Obligation.
  intros p (H1 & H2 & H3 & H4 & H5 & H6). rewrite (writes_serialize _ _ (writes_shielded_output p)).
  unfold shielded_output_bytes. by rewrite !length_app, H1, H2, H3, H4, H5, H6.
Qed.

Definition proof_bytes (p : JoinSplitProof) : list Z := match p with PHGR p | Groth p => p end.

Definition join_split_ok (use_groth : bool) (j : JoinSplit) : Prop :=
  hash_ok 8 (v_pub_old j) /\ hash_ok 8 (v_pub_new j) /\ hash_ok 32 (js_anchor j) /\
  hash_ok 32 (fst (nullifiers j)) /\ hash_ok 32 (snd (nullifiers j)) /\
  hash_ok 32 (fst (commitments j)) /\ hash_ok 32 (snd (commitments j)) /\
  hash_ok 32 (js_ephemeral_key j) /\ hash_ok 32 (random_seed j) /\
  hash_ok 32 (fst (macs j)) /\ hash_ok 32 (snd (macs j)) /\
  match js_zkproof j with
  | PHGR p => use_groth = false /\ hash_ok 296 p
  | Groth p => use_groth = true /\ hash_ok 192 p
  end /\
  hash_ok 601 (fst (ciphertexts j)) /\ hash_ok 601 (snd (ciphertexts j)).

Definition join_split_bytes (j : JoinSplit) : list Z :=
  v_pub_old j ++ v_pub_new j ++ js_anchor j ++ fst (nullifiers j) ++ snd (nullifiers j)
  ++ fst (commitments j) ++ snd (commitments j) ++ js_ephemeral_key j ++ random_seed j
  ++ fst (macs j) ++ snd (macs j) ++ proof_bytes (js_zkproof j)
  ++ fst (ciphertexts j) ++ snd (ciphertexts j).

Lemma writes_join_split j : writes (ser j) (join_split_bytes j).
Proof.
  intros s. destruct s. unfold join_split_bytes, ser; simpl. unfold join_split_ser.
  destruct (js_zkproof j); unfold proof_ser, append_h, append, ser; simpl;
    unfold append_slice; simpl; by rewrite <- !app_assoc.
Qed.

Lemma reads_join_split g j :
  join_split_ok g j -> reads (deserialize_join_split g) (join_split_bytes j) j.
Proof.
  destruct j as [a b c [d1 d2] [e1 e2] f h [m1 m2] z [t1 t2]].
  unfold join_split_ok, join_split_bytes. simpl. intros Hok. destruct_and! Hok.
  unfold deserialize_join_split.
  do 11 (eapply (reads_bind (read_h _)); [by apply reads_h|]).
  eapply reads_bind.
  { instantiate (1 := z). destruct z as [p|p]; destruct_and?; subst.
    - by eapply (reads_bind_last (read_h 296) PHGR), reads_h.
    - by eapply (reads_bind_last (read_h 192) Groth), reads_h. }
  eapply (reads_bind (read_h _)); [by apply reads_h|].
  eapply (reads_bind_last (read_h _) (fun t => mkJoinSplit _ _ _ _ _ _ _ _ _ (_, t))).
  by apply reads_h.
Qed.
End Codecs.

(** ** The bytes of a transaction *)

Section Tx.
  Context `{ByteOrder}.

Definition opt_bytes (o : option Z) : list Z :=
  match o with Some n => serialize (mk_uint 4 n) | None => [] end.
Definition var_bytes (bs : list Z) : list Z := serialize (ci_of_len (length bs)) ++ bs.

Definition shielded_bytes (t : Transaction) : list Z :=
  serialize (mk_sint 8 (value_balance t)) ++ serialize_list (shielded_spends t)
  ++ serialize_list (shielded_outputs t).

Definition expiry_bytes (t : Transaction) : list Z :=
  serialize (mk_uint 4 (expiry_height t)) ++ (if 4 <=? version t then shielded_bytes t else []).

Definition join_splits_bytes (t : Transaction) : list Z :=
  serialize (ci_of_len (length (join_splits t))) ++ concat (map join_split_bytes (join_splits t))
  ++ (if negb (is_nil (join_splits t)) then join_split_pubkey t ++ join_split_sig t else []).

Definition has_binding (t : Transaction) : bool :=
  (4 <=? version t) && overwintered t
  && negb (is_nil (shielded_outputs t) && is_nil (shielded_spends t)).

Definition zcash_bytes (t : Transaction) : list Z :=
  (if (version t =? 2) || overwintered t then join_splits_bytes t else [])
  ++ (if has_binding t then binding_sig t else []).

Definition payload_bytes (o : option (list Z)) : list Z :=
  match o with Some p => if negb (is_nil p) then var_bytes p else [] | None => [] end.

Definition plain_bytes (t : Transaction) : list Z :=
  serialize (mk_sint 4 (tx_header (version t) (overwintered t)))
  ++ (if overwintered t then serialize (mk_uint 4 (version_group_id t)) else [])
  ++ (if negb (posv t) then opt_bytes (n_time t) else [])
  ++ serialize_list (inputs t) ++ serialize_list (outputs t)
  ++ serialize (mk_uint 4 (lock_time t))
  ++ (if posv t then opt_bytes (n_time t) else [])
  ++ (if overwintered t && (3 <=? version t) then expiry_bytes t else [])
  ++ (if zcash t then zcash_bytes t else [])
  ++ (match str_d_zeel t with Some s => var_bytes s | None => [] end)
  ++ payload_bytes (v_extra_payload t).

Lemma writes_list_gen {A} `{Serializable A} (g : A -> list Z) l :
  (forall a, writes (ser a) (g a)) ->
  writes (append_list l) (serialize (ci_of_len (length l)) ++ concat (map g l)).
Proof.
  intros Hg s. unfold append_list, append at 1. rewrite codec_append, <- append_slice_app.
  generalize (append_slice (serialize (ci_of_len (length l))) s) as s0.
  induction l as [|a l IH]; intros s0; simpl.
  - unfold append_slice. rewrite app_nil_r. by destruct s0.
  - by rewrite IH, Hg, append_slice_app.
Qed.

Lemma writes_shielded t : writes (ser_shielded t) (shielded_bytes t).
Proof.
  intros s. unfold ser_shielded, shielded_bytes. by rewrite !writes_list, writes_i, !append_slice_app.
Qed.

Lemma writes_expiry t : writes (ser_expiry t) (expiry_bytes t).
Proof.
  apply (writes_comp (append_u 4 _) (append_when _ _)); [apply writes_u|].
  apply writes_when, writes_shielded.
Qed.

Lemma writes_join_splits t : writes (ser_join_splits t) (join_splits_bytes t).
Proof.
  unfold join_splits_bytes. rewrite app_assoc.
  apply (writes_comp (append_list _) (append_when _ _)).
  - apply writes_list_gen, writes_join_split.
  - by apply writes_when, (writes_comp (append_h 32 _) (append_h 64 _)).
Qed.

Lemma writes_zcash t : writes (ser_zcash t) (zcash_bytes t).
Proof.
  apply (writes_comp (append_when _ _) (append_when _ _)).
  - apply writes_when, writes_join_splits.
  - by apply writes_when.
Qed.

Lemma writes_plain t : writes (tx_ser_plain t) (plain_bytes t).
Proof.
  intros s. unfold tx_ser_plain, plain_bytes.
  rewrite writes_i, (writes_when _ _ _ (writes_u 4 (version_group_id t))).
  rewrite !(writes_when _ _ _ (writes_opt _ (fun n => serialize (mk_uint 4 n)) (n_time t) (writes_u 4))).
  rewrite !writes_list, writes_u.
  rewrite (writes_when _ _ _ (writes_expiry t)), (writes_when _ _ _ (writes_zcash t)).
  rewrite (writes_opt _ _ _ writes_var).
  rewrite (writes_opt _ (fun p => if negb (is_nil p) then var_bytes p else [])).
  2: { intros p. apply writes_when, writes_var. }
  by rewrite !append_slice_app.
Qed.

(** ** Reading a transaction back *)

Definition is_spark (version : Z) : bool := Z.land version 0xFFFF =? 3.

Definition has_n_time (ty : TxType) (version : Z) : bool :=
  match ty with PosWithNTime => true | PosvWithNTime => negb (is_spark version) | _ => false end.

(** The transactions that a kind of transaction describes: the integers fit,
    the lists are not too long, the hashes have their size, and what the kind
    and the version do not have is at its default. *)
Record wf_tx (ty : TxType) (t : Transaction) : Prop := {
  wf_version : 0 <= version t < 2 ^ 31;
  wf_group : if overwintered t then is_u32 (version_group_id t) else version_group_id t = 0;
  wf_inputs : Z.of_nat (length (inputs t)) <= MAX_LIST_SIZE /\ Forall input_ok (inputs t);
  wf_outputs : Z.of_nat (length (outputs t)) <= MAX_LIST_SIZE /\ Forall output_ok (outputs t);
  wf_nonempty : uses_witness ty = true ->
    (overwintered t = false -> inputs t <> []) /\ outputs t <> [];
  wf_lock_time : is_u32 (lock_time t);
  wf_n_time : if has_n_time ty (version t) then exists n, n_time t = Some n /\ is_u32 n
              else n_time t = None;
  wf_posv : posv t = bool_decide (ty = PosvWithNTime) && negb (is_spark (version t));
  wf_expiry : if overwintered t && (3 <=? version t) then is_u32 (expiry_height t)
              else expiry_height t = 0;
  wf_shielded : if overwintered t && (4 <=? version t)
    then - 2 ^ 63 <= value_balance t < 2 ^ 63 /\
         (Z.of_nat (length (shielded_spends t)) <= MAX_LIST_SIZE /\
          Forall spend_ok (shielded_spends t)) /\
         (Z.of_nat (length (shielded_outputs t)) <= MAX_LIST_SIZE /\
          Forall shielded_output_ok (shielded_outputs t))
    else value_balance t = 0 /\ shielded_spends t = [] /\ shielded_outputs t = [];
  wf_zcash : zcash t = overwintered t || bool_decide (ty = ZcashTx);
  wf_join_splits : if zcash t && ((version t =? 2) || overwintered t)
    then Z.of_nat (length (join_splits t)) <= MAX_LIST_SIZE /\
         Forall (join_split_ok (2 <? version t)) (join_splits t) /\
         (if is_nil (join_splits t)
          then join_split_pubkey t = H256_default /\ join_split_sig t = H512_default
          else hash_ok 32 (join_split_pubkey t) /\ hash_ok 64 (join_split_sig t))
    else join_splits t = [] /\ join_split_pubkey t = H256_default /\
         join_split_sig t = H512_default;
  wf_binding : if has_binding t then hash_ok 64 (binding_sig t) else binding_sig t = H512_default;
  wf_str : match str_d_zeel t with
           | Some s => ty = PosWithNTime /\ utf8_valid (length s) s = true /\
                       Z.of_nat (length s) < 2 ^ 64
           | None => ty = PosWithNTime -> v_extra_payload t = None
           end;
  wf_payload : match v_extra_payload t with
               | Some p => is_spark (version t) = true /\ p <> [] /\ Z.of_nat (length p) < 2 ^ 64
               | None => True
               end;
  wf_hash_algo : tx_hash_algo t = TxDSHA256 }.

Definition without_witness (t : Transaction) : Prop :=
  Forall (fun i => script_witness i = []) (inputs t).

Lemma tx_header_spec v ow :
  0 <= v < 2 ^ 31 ->
  - 2 ^ 31 <= tx_header v ow < 2 ^ 31 /\
  negb (Z.shiftr (tx_header v ow) 31 =? 0) = ow /\
  (if ow then Z.land (tx_header v ow) 0x7FFFFFFF else tx_header v ow) = v /\
  Z.land (tx_header v ow) 0xFFFF = Z.land v 0xFFFF.
Proof.
  intros Hv. unfold tx_header. destruct ow.
  - assert (E : to_signed 32 (Z.lor (wrap 32 v) (2 ^ 31)) = v - 2 ^ 31).
    { rewrite wrap_id by (unfold is_uint; lia). unfold to_signed.
      assert (Z.lor v (2 ^ 31) = v + 2 ^ 31) as ->.
      { rewrite <- (Z.mul_1_l (2 ^ 31)). apply lor_small_shift; lia. }
      change (2 ^ (32 - 1)) with (2 ^ 31). destruct (_ <? _) eqn:?; lia. }
    rewrite E. rewrite Z.shiftr_div_pow2 by lia.
    replace ((v - 2 ^ 31) / 2 ^ 31) with (-1).
    2: { apply (Z.div_unique _ _ _ v); lia. }
    change 0x7FFFFFFF with (Z.ones 31). change 0xFFFF with (Z.ones 16).
    rewrite !Z.land_ones by lia. split_and!; [lia|lia|done| |].
    + rewrite <- (Z.mod_add _ 1), Z.mod_small by lia. lia.
    + replace (v - 2 ^ 31) with (v + (- 2 ^ 15) * 2 ^ 16) by lia. by rewrite Z.mod_add by lia.
  - rewrite Z.shiftr_div_pow2, Z.div_small by lia. split_and!; [lia|lia|done..].
Qed.

Lemma p_is_finished_some r bs :
  contents r = bs -> bs <> [] -> exists r', p_is_finished r = (Ok false, r') /\ contents r' = bs.
Proof.
  intros Hc Hne. destruct (is_finished_spec r) as (Hf & Hr & _). unfold p_is_finished.
  destruct (is_finished r) as [b r']. simpl in *. exists r'. split; [|congruence].
  do 2 f_equal. rewrite Hf. apply bool_decide_eq_false_2. congruence.
Qed.

Lemma p_is_finished_none r :
  contents r = [] -> exists r', p_is_finished r = (Ok true, r') /\ contents r' = [].
Proof.
  intros Hc. destruct (is_finished_spec r) as (Hf & Hr & _). unfold p_is_finished.
  destruct (is_finished r) as [b r']. simpl in *. exists r'. split; [|congruence].
  do 2 f_equal. rewrite Hf. by apply bool_decide_eq_true_2.
Qed.

Lemma var_bytes_ne bs : var_bytes bs <> [].
Proof.
  unfold var_bytes. intros Hn. apply (f_equal length) in Hn. rewrite length_app in Hn.
  unfold serialize, append, out, ser in Hn; simpl in Hn.
  revert Hn. unfold append, ser; simpl.
  case_matches; unfold append_slice; simpl; rewrite ?length_app; simpl;
    try (rewrite write_le_spec by lia; rewrite le_split_length); lia.
Qed.

Lemma reads_inputs ty ow ins :
  Z.of_nat (length ins) <= MAX_LIST_SIZE -> Forall valid ins ->
  (uses_witness ty = true -> ow = false -> ins <> []) ->
  reads (read_inputs ow ty) (serialize_list ins) (ins, false).
Proof.
  intros Hl Hv Hne. rewrite <- (app_nil_r (serialize_list ins)).
  eapply reads_bind; [by apply reads_list_max|].
  destruct (is_nil ins && negb ow && uses_witness ty) eqn:E; [|apply reads_ret].
  apply andb_true_iff in E as [[E1 E2]%andb_true_iff E3]. apply negb_true_iff in E2.
  exfalso. apply (Hne E3 E2). by destruct ins.
Qed.

Lemma reads_shielded t :
  - 2 ^ 63 <= value_balance t < 2 ^ 63 ->
  Z.of_nat (length (shielded_spends t)) <= MAX_LIST_SIZE -> Forall spend_ok (shielded_spends t) ->
  Z.of_nat (length (shielded_outputs t)) <= MAX_LIST_SIZE ->
  Forall shielded_output_ok (shielded_outputs t) ->
  reads read_shielded (shielded_bytes t)
    (value_balance t, shielded_spends t, shielded_outputs t).
Proof.
  intros Hv Hs1 Hs2 Ho1 Ho2.
  eapply reads_bind; [apply reads_i; [lia|done]|].
  eapply reads_bind; [by apply reads_list_max|].
  apply (reads_bind_last _ (fun o => (_, _, o))). by apply reads_list_max.
Qed.

Lemma reads_expiry ty t :
  wf_tx ty t -> overwintered t && (3 <=? version t) = true ->
  reads (read_expiry (version t)) (expiry_bytes t)
    (expiry_height t, (value_balance t, shielded_spends t, shielded_outputs t)).
Proof.
  intros Hwf Hc. pose proof (wf_expiry _ _ Hwf) as He. pose proof (wf_shielded _ _ Hwf) as Hs.
  rewrite Hc in He. apply andb_true_iff in Hc as [Ho Hv]. rewrite Ho in Hs. cbn [andb] in Hs.
  eapply reads_bind; [by apply reads_u|].
  apply (reads_bind_last _ (fun x => (_, x))). apply reads_when.
  - intros Hv4. rewrite Hv4 in Hs. destruct_and! Hs. by apply reads_shielded.
  - intros Hv4. rewrite Hv4 in Hs. by destruct Hs as (-> & -> & ->).
Qed.

Lemma reads_times {A} (p : parser A) (g : A -> list Z) l :
  Forall (fun a => reads p (g a) a) l -> reads (read_times (length l) p) (concat (map g l)) l.
Proof.
  induction 1 as [|a l Ha _ IH]; [apply reads_ret|].
  eapply reads_bind; [done|]. by apply (reads_bind_last _ (cons a)).
Qed.

Lemma reads_join_splits ty t :
  wf_tx ty t -> zcash t && ((version t =? 2) || overwintered t) = true ->
  reads (read_join_splits (version t)) (join_splits_bytes t)
    (join_splits t, join_split_pubkey t, join_split_sig t).
Proof.
  intros Hwf Hc. pose proof (wf_join_splits _ _ Hwf) as Hj. rewrite Hc in Hj.
  destruct Hj as (Hl & Hv & Hk). unfold read_join_splits.
  assert (HM : MAX_LIST_SIZE < 2 ^ 64) by done.
  eapply reads_bind; [apply codec_reads, ci_of_len_valid; lia|].
  unfold as_usize, ci_of_len; cbn [ci_val]. rewrite Nat2Z.id.
  destruct (join_splits t) as [|j js] eqn:Ej; cbn [is_nil negb] in *.
  { simpl. destruct Hk as [-> ->]. apply reads_ret. }
  destruct (_ >? 0) eqn:E1; [|rewrite Z.gtb_ltb in E1; apply Z.ltb_ge in E1; simpl length in E1; lia].
  destruct (_ >? MAX_LIST_SIZE) eqn:E2; [apply Z.gtb_lt in E2; lia|].
  eapply reads_bind.
  { apply (reads_times _ join_split_bytes (j :: js)). eapply Forall_impl; [done|].
    intros a. apply reads_join_split. }
  destruct Hk as [Hk1 Hk2]. eapply reads_bind; [by apply reads_h|].
  apply (reads_bind_last _ (fun s => (_, _, s))). by apply reads_h.
Qed.

Lemma reads_zcash ty t :
  wf_tx ty t -> zcash t = true ->
  reads (read_zcash (version t) (overwintered t)
           (is_nil (shielded_spends t) && is_nil (shielded_outputs t)))
    (zcash_bytes t)
    ((join_splits t, join_split_pubkey t, join_split_sig t), binding_sig t).
Proof.
  intros Hwf Hz. pose proof (wf_binding _ _ Hwf) as Hb.
  eapply reads_bind.
  { apply reads_when.
    - intros Hc. apply (reads_join_splits ty); [done|]. by rewrite Hz.
    - intros Hc. pose proof (wf_join_splits _ _ Hwf) as Hj. rewrite Hz, Hc in Hj.
      by destruct Hj as (-> & -> & ->). }
  apply (reads_bind_last _ (fun b => (_, b))).
  replace (overwintered t && (4 <=? version t) &&
    negb (is_nil (shielded_spends t) && is_nil (shielded_outputs t))) with (has_binding t).
  2: { unfold has_binding. by rewrite (andb_comm (4 <=? _)), (andb_comm (is_nil (shielded_outputs t))). }
  apply reads_when.
  - intros E. rewrite E in Hb. by apply reads_h.
  - intros E. by rewrite E in Hb.
Qed.

Lemma reads_some {A} (p : parser A) bs a : reads p bs a -> reads (read_some p) bs (Some a).
Proof. apply reads_bind_last. Qed.

(** The two optional parts at the end of a transaction. *)
Lemma reads_tail {B} ty t (k : option (list Z) -> option (list Z) -> B) :
  wf_tx ty t ->
  reads_end
    (str_d_zeel <~ (if bool_decide (ty = PosWithNTime) then
                      fin <~ p_is_finished;
                      if fin then p_ret None
                      else buf <~ read_var; s <~ p_lift (from_utf8 buf); p_ret (Some s)
                    else p_ret None);
     v_extra_payload <~ (if is_spark (version t) then
                           fin <~ p_is_finished;
                           if fin then p_ret None else read_some read_var
                         else p_ret None);
     p_ret (k str_d_zeel v_extra_payload))
    (match str_d_zeel t with Some s => var_bytes s | None => [] end
     ++ payload_bytes (v_extra_payload t))
    (k (str_d_zeel t) (v_extra_payload t)).
Proof.
  intros Hwf. pose proof (wf_str _ _ Hwf) as Hs. pose proof (wf_payload _ _ Hwf) as Hp.
  assert (Hpay : forall str, reads_end
    (v_extra_payload <~ (if is_spark (version t) then
                           fin <~ p_is_finished;
                           if fin then p_ret None else read_some read_var
                         else p_ret None);
     p_ret (k str v_extra_payload)) (payload_bytes (v_extra_payload t))
    (k str (v_extra_payload t))).
  { intros str r Hc. destruct (v_extra_payload t) as [p|]; simpl in Hc.
    - destruct Hp as (-> & Hne & Hlen). destruct p as [|b p]; [done|]. cbn [is_nil negb] in Hc.
      destruct (p_is_finished_some _ _ Hc (var_bytes_ne _)) as (r1 & H1 & Hc1).
      destruct (reads_to_end _ _ _ (reads_some _ _ _ (reads_var (b :: p) Hlen)) r1 Hc1) as (r2 & H2).
      exists r2. unfold p_bind at 1 2. by rewrite H1, H2.
    - destruct (is_spark (version t)); [|eexists; done].
      destruct (p_is_finished_none _ Hc) as (r1 & H1 & _). exists r1.
      unfold p_bind at 1 2. by rewrite H1. }
  destruct (str_d_zeel t) as [s|].
  - destruct Hs as (-> & Hu & Hlen). rewrite bool_decide_eq_true_2 by done.
    intros r Hc.
    destruct (p_is_finished_some r _ Hc) as (r1 & H1 & Hc1).
    { intros Hn. apply (var_bytes_ne s). by apply app_eq_nil in Hn as [? _]. }
    destruct (reads_var s Hlen _ _ Hc1) as (r2 & H2 & Hc2 & _).
    destruct (Hpay (Some s) r2 Hc2) as (r3 & H3). exists r3.
    unfold p_bind at 1 2. rewrite H1. unfold p_bind at 1 2. rewrite H2.
    unfold p_lift, from_utf8. rewrite Hu. unfold p_ret at 1. done.
  - destruct (bool_decide_reflect (ty = PosWithNTime)) as [Ht|_].
    + specialize (Hs Ht). rewrite Hs in *. intros r Hc. simpl in Hc.
      destruct (p_is_finished_none _ Hc) as (r1 & H1 & Hc1).
      destruct (Hpay None r1 Hc1) as (r2 & H2). exists r2.
      unfold p_bind at 1 2. rewrite H1. unfold p_ret at 1. done.
    + intros r Hc. apply (Hpay None r Hc).
Qed.

Lemma reads_from_lock_time ty t :
  wf_tx ty t ->
  reads_end (deserialize_from_lock_time ty (version t) (overwintered t) (is_spark (version t))
      (version_group_id t) (if bool_decide (ty = PosWithNTime) then n_time t else None)
      (inputs t) (outputs t))
    (serialize (mk_uint 4 (lock_time t))
     ++ (if posv t then opt_bytes (n_time t) else [])
     ++ (if overwintered t && (3 <=? version t) then expiry_bytes t else [])
     ++ (if zcash t then zcash_bytes t else [])
     ++ (match str_d_zeel t with Some s => var_bytes s | None => [] end)
     ++ payload_bytes (v_extra_payload t)) t.
Proof.
  intros Hwf. pose proof (wf_n_time _ _ Hwf) as Hn. pose proof (wf_posv _ _ Hwf) as Hp.
  unfold deserialize_from_lock_time.
  eapply reads_end_bind; [by apply reads_u, wf_lock_time with ty|].
  rewrite <- Hp. eapply reads_end_bind.
  { instantiate (1 := n_time t). apply reads_when.
    - intros E. rewrite E in Hp. symmetry in Hp. apply andb_true_iff in Hp as [->%bool_decide_eq_true_1 Hsp].
      simpl in Hn. rewrite Hsp in Hn. destruct Hn as (n & -> & Hn).
      by apply reads_some, reads_u.
    - intros E. rewrite E in Hp. destruct ty; simpl in *; try done.
      symmetry in Hp. apply negb_false_iff in Hp. by rewrite Hp in Hn. }
  eapply reads_end_bind.
  { apply reads_when; [by eapply reads_expiry|]. intros E.
    pose proof (wf_expiry _ _ Hwf) as He. pose proof (wf_shielded _ _ Hwf) as Hs.
    rewrite E in He. destruct (overwintered t && (4 <=? version t)) eqn:E4.
    - exfalso. apply andb_true_iff in E4 as [E4 E5]. rewrite E4 in E. simpl in E. lia.
    - by destruct Hs as (-> & -> & ->); rewrite He. }
  cbn beta iota zeta. rewrite <- (wf_zcash _ _ Hwf).
  eapply reads_end_bind.
  { apply reads_when; [by eapply reads_zcash|]. intros E.
    pose proof (wf_join_splits _ _ Hwf) as Hj. rewrite E in Hj.
    destruct Hj as (-> & -> & ->). pose proof (wf_binding _ _ Hwf) as Hb.
    pose proof (wf_zcash _ _ Hwf) as Hz. rewrite E in Hz. symmetry in Hz.
    apply orb_false_iff in Hz as [Ho _]. unfold has_binding in Hb.
    rewrite Ho, andb_false_r in Hb. by rewrite Hb. }
  cbn beta iota zeta.
  pose proof (reads_tail ty t (fun s p => mkTransaction (version t) (n_time t) (overwintered t)
    (version_group_id t) (inputs t) (outputs t) (lock_time t) (expiry_height t)
    (shielded_spends t) (shielded_outputs t) (join_splits t) (value_balance t)
    (join_split_pubkey t) (join_split_sig t) (binding_sig t) (zcash t) (posv t) s TxDSHA256 p) Hwf)
    as Htail.
  pose proof (wf_hash_algo _ _ Hwf) as Ha. destruct t; simpl in *. by rewrite Ha.
Qed.

(** The header and what follows from it. *)
Lemma reads_header {B} v ow (k : Z -> bool -> bool -> parser B) bs (b : B) :
  0 <= v < 2 ^ 31 -> reads_end (k v ow (is_spark v)) bs b ->
  reads_end (header <~ read_i 4;
             k (if negb (Z.shiftr header 31 =? 0) then Z.land header 0x7FFFFFFF else header)
               (negb (Z.shiftr header 31 =? 0)) (Z.land header 0xFFFF =? 3))
    (serialize (mk_sint 4 (tx_header v ow)) ++ bs) b.
Proof.
  intros Hv Hk. destruct (tx_header_spec v ow Hv) as (Hr & Ho & Hver & Hs).
  eapply reads_end_bind; [apply reads_i; [lia|exact Hr]|].
  cbn beta. rewrite Ho, Hver, Hs. exact Hk.
Qed.

Lemma tx_reads_plain ty t :
  wf_tx ty t -> without_witness t -> reads_end (deserialize_tx ty) (plain_bytes t) t.
Proof.
  intros Hwf Hw. unfold deserialize_tx, plain_bytes.
  apply (reads_header _ _ (deserialize_body ty)); [by eapply wf_version|].
  pose proof (wf_group _ _ Hwf) as Hg. pose proof (wf_n_time _ _ Hwf) as Hn.
  pose proof (wf_posv _ _ Hwf) as Hp. destruct (wf_inputs _ _ Hwf) as [Hi1 Hi2].
  destruct (wf_outputs _ _ Hwf) as [Ho1 Ho2].
  assert (Hiv : Forall valid (inputs t)).
  { apply Forall_forall. intros i Hi. split; [by eapply Forall_forall in Hi2|].
    by eapply Forall_forall in Hw. }
  unfold deserialize_body. eapply reads_end_bind.
  { apply reads_when; intros E; rewrite E in Hg; [by apply reads_u|done]. }
  eapply reads_end_bind.
  { instantiate (1 := if bool_decide (ty = PosWithNTime) then n_time t else None).
    destruct (bool_decide_reflect (ty = PosWithNTime)) as [->|Hty].
    - simpl in Hn, Hp. destruct Hn as (n & -> & Hn). rewrite Hp. by apply reads_some, reads_u.
    - replace (if negb (posv t) then opt_bytes (n_time t) else []) with ([] : list Z).
      { apply reads_ret. }
      rewrite Hp. destruct ty; simpl in *; try done; try by rewrite Hn.
      destruct (is_spark (version t)); [by rewrite Hn|done]. }
  eapply reads_end_bind.
  { apply reads_inputs; [done|done|]. intros E1 E2. by apply (wf_nonempty _ _ Hwf). }
  cbn beta iota. eapply reads_end_bind; [by apply reads_list_max|].
  destruct (is_nil (outputs t) && uses_witness ty) eqn:E.
  { apply andb_true_iff in E as [E1 E2]. destruct (wf_nonempty _ _ Hwf E2) as [_ Hne].
    by destruct (outputs t). }
  exact (reads_from_lock_time ty t Hwf).
Qed.

(** ** The witness serialization *)

Definition witness_ok (i : TransactionInput) : Prop :=
  Z.of_nat (length (script_witness i)) <= MAX_LIST_SIZE /\
  Forall (fun w => Z.of_nat (length w) <= 65536) (script_witness i).

Definition witness_stack (i : TransactionInput) : list Z :=
  serialize_list (map mk_Bytes (script_witness i)).

Definition witness_bytes (t : Transaction) : list Z :=
  serialize (mk_sint 4 (version t))
  ++ (serialize (mk_uint 1 0) ++ serialize (mk_uint 1 1) ++ serialize_list (inputs t))
  ++ serialize_list (outputs t)
  ++ concat (map witness_stack (inputs t)) ++ serialize (mk_uint 4 (lock_time t)).

Lemma writes_witnesses ins s :
  foldl append_witness s ins = append_slice (concat (map witness_stack ins)) s.
Proof.
  revert s; induction ins as [|i ins IH]; intros s; simpl.
  { unfold append_slice. rewrite app_nil_r. by destruct s. }
  rewrite IH. unfold append_witness. by rewrite writes_list, append_slice_app.
Qed.

Lemma writes_witness t : writes (tx_ser_witness t) (witness_bytes t).
Proof.
  intros s. unfold tx_ser_witness, witness_bytes. cbn zeta.
  rewrite writes_i, !writes_u, !writes_list, writes_witnesses, !append_slice_app.
  by rewrite <- !app_assoc.
Qed.

Lemma reads_witnesses ins :
  Forall witness_ok ins ->
  reads (read_witnesses (map no_witness ins)) (concat (map witness_stack ins)) ins.
Proof.
  induction 1 as [|i ins [Hl Hw] _ IH]; [apply reads_ret|]. cbn [map read_witnesses concat].
  eapply reads_bind.
  { apply reads_list_max; [by rewrite length_map|done|].
    apply Forall_map. eapply Forall_impl; [done|]. done. }
  rewrite map_map, map_id. destruct i. simpl.
  by apply (reads_bind_last _ (cons _)).
Qed.

Lemma serialize_list_no_witness ins : serialize_list (map no_witness ins) = serialize_list ins.
Proof.
  rewrite !serialize_list_eq, length_map, map_map. do 2 f_equal.
Qed.

Lemma reads_inputs_witness ty ins :
  uses_witness ty = true ->
  Z.of_nat (length ins) <= MAX_LIST_SIZE -> Forall input_ok ins ->
  reads (read_inputs false ty)
    (serialize (mk_uint 1 0) ++ serialize (mk_uint 1 1) ++ serialize_list ins)
    (map no_witness ins, true).
Proof.
  intros Hty Hl Hi. unfold read_inputs.
  eapply reads_bind.
  { change (serialize (mk_uint 1 0)) with (serialize_list ([] : list TransactionInput)).
    by apply reads_list_max. }
  rewrite Hty. cbn [is_nil andb negb]. eapply reads_bind; [by apply reads_u|].
  cbn [negb Z.eqb WITNESS_FLAG]. rewrite <- serialize_list_no_witness.
  apply (reads_bind_last _ (fun l => (l, true))). apply reads_list_max; [by rewrite length_map|done|].
  apply Forall_map. eapply Forall_impl; [done|]. intros i Hok. by split.
Qed.

(** A transaction of the bitcoin kind has nothing after the lock time but the
    payload of Spark. *)
Lemma standard_tail t :
  wf_tx StandardWithWitness t -> overwintered t = false ->
  posv t = false /\ zcash t = false /\ str_d_zeel t = None /\ n_time t = None.
Proof.
  intros Hwf Ho. pose proof (wf_posv _ _ Hwf) as Hp. pose proof (wf_zcash _ _ Hwf) as Hz.
  pose proof (wf_str _ _ Hwf) as Hs. pose proof (wf_n_time _ _ Hwf) as Hn.
  rewrite Ho in Hz. simpl in *. split_and!; [done..| |done].
  destruct (str_d_zeel t); [|done]. by destruct Hs.
Qed.

Lemma tx_reads_witness ty t :
  wf_tx StandardWithWitness t -> overwintered t = false -> Forall witness_ok (inputs t) ->
  v_extra_payload t = None -> uses_witness ty = true ->
  (ty = PosvWithNTime -> is_spark (version t) = true) ->
  reads_end (deserialize_tx ty) (witness_bytes t) t.
Proof.
  intros Hwf Ho Hw Hp Hty Hsp. destruct (standard_tail t Hwf Ho) as (Hposv & Hz & Hs & Hn).
  destruct (wf_inputs _ _ Hwf) as [Hi1 Hi2]. destruct (wf_outputs _ _ Hwf) as [Ho1 Ho2].
  destruct (wf_nonempty _ _ Hwf eq_refl) as [_ Hne].
  unfold deserialize_tx, witness_bytes.
  change (mk_sint 4 (version t)) with (mk_sint 4 (tx_header (version t) false)).
  apply (reads_header _ _ (deserialize_body ty)); [by eapply wf_version|].
  unfold deserialize_body. eapply reads_end_skip; [apply reads_ret|].
  apply (reads_end_skip _ _ _ None).
  { destruct ty; try done; apply reads_ret. }
  eapply reads_end_bind; [by apply reads_inputs_witness|]. cbn beta iota.
  eapply reads_end_bind; [by apply reads_list_max|].
  destruct (outputs t) as [|o os] eqn:Eo; [done|]. cbn [is_nil andb]. rewrite <- Eo.
  eapply reads_end_bind; [by apply reads_witnesses|].
  assert (Hsame : wf_tx ty t).
  { destruct ty; try done. destruct Hwf. constructor; try done.
    - simpl in *. by rewrite (Hsp eq_refl).
    - by rewrite (Hsp eq_refl).
    - by rewrite Hs. }
  pose proof (reads_from_lock_time ty t Hsame) as Hr.
  rewrite Ho, Hposv, Hz, Hs, Hp, Hn in Hr. cbn [andb payload_bytes app] in Hr.
  pose proof (wf_group _ _ Hwf) as Hg. rewrite Ho in Hg. rewrite Hg in Hr.
  rewrite app_nil_r in Hr. by destruct (bool_decide (ty = PosWithNTime)).
Qed.

(** ** Failing as PoSV *)

(** Where nothing follows the lock time, a PoSV transaction is not read. *)
Lemma fails_posv_rest version ow group n_time ins outs lock :
  is_u32 lock ->
  fails_on (deserialize_from_lock_time PosvWithNTime version ow false group n_time ins outs)
    (serialize (mk_uint 4 lock)).
Proof.
  intros Hl. rewrite <- (app_nil_r (serialize _)).
  eapply fails_bind; [by apply reads_u|]. apply fails_bind_first, fails_bind_first, fails_u. lia.
Qed.

Lemma fails_posv_plain t :
  wf_tx StandardWithWitness t -> overwintered t = false -> without_witness t ->
  is_spark (version t) = false ->
  fails_on (deserialize_tx PosvWithNTime) (plain_bytes t).
Proof.
  intros Hwf Ho Hw Hsp. destruct (standard_tail t Hwf Ho) as (Hposv & Hz & Hs & Hn).
  pose proof (wf_payload _ _ Hwf) as Hp. rewrite Hsp in Hp.
  assert (v_extra_payload t = None) as Hpn by (destruct (v_extra_payload t); [by destruct Hp|done]).
  destruct (wf_inputs _ _ Hwf) as [Hi1 Hi2]. destruct (wf_outputs _ _ Hwf) as [Ho1 Ho2].
  destruct (wf_nonempty _ _ Hwf eq_refl) as [Hni Hno].
  unfold plain_bytes. rewrite Ho, Hposv, Hz, Hs, Hpn, Hn. cbn [andb payload_bytes app negb opt_bytes].
  rewrite app_nil_r.
  destruct (tx_header_spec (version t) false (wf_version _ _ Hwf)) as (Hr & Ho' & Hver & Hs').
  eapply fails_bind; [apply reads_i; [lia|exact Hr]|]. rewrite Ho', Hs', Hver.
  cbv zeta iota. change (Z.land (version t) 65535 =? 3) with (is_spark (version t)).
  rewrite Hsp. unfold deserialize_body.
  apply (fails_bind _ _ [] _ 0); [apply reads_ret|].
  apply (fails_bind _ _ [] _ None); [apply reads_ret|].
  eapply fails_bind.
  { apply reads_inputs; [done| |auto].
    apply Forall_forall. intros i Hi. split; [by eapply Forall_forall in Hi2|].
    by eapply Forall_forall in Hw. }
  cbn beta iota. eapply fails_bind; [by apply reads_list_max|].
  destruct (outputs t) as [|o os] eqn:Eo; [done|]. cbn [is_nil andb].
  apply fails_posv_rest. by eapply wf_lock_time.
Qed.

Lemma fails_posv_witness t :
  wf_tx StandardWithWitness t -> overwintered t = false -> Forall witness_ok (inputs t) ->
  is_spark (version t) = false ->
  fails_on (deserialize_tx PosvWithNTime) (witness_bytes t).
Proof.
  intros Hwf Ho Hw Hsp.
  destruct (wf_inputs _ _ Hwf) as [Hi1 Hi2]. destruct (wf_outputs _ _ Hwf) as [Ho1 Ho2].
  destruct (wf_nonempty _ _ Hwf eq_refl) as [Hni Hno].
  unfold witness_bytes. change (mk_sint 4 (version t)) with (mk_sint 4 (tx_header (version t) false)).
  destruct (tx_header_spec (version t) false (wf_version _ _ Hwf)) as (Hr & Ho' & Hver & Hs').
  eapply fails_bind; [apply reads_i; [lia|exact Hr]|]. rewrite Ho', Hs', Hver.
  cbv zeta iota. change (Z.land (version t) 65535 =? 3) with (is_spark (version t)).
  rewrite Hsp. unfold deserialize_body.
  apply (fails_bind _ _ [] _ 0); [apply reads_ret|].
  apply (fails_bind _ _ [] _ None); [apply reads_ret|].
  eapply fails_bind; [by apply reads_inputs_witness|].
  cbn beta iota. eapply fails_bind; [by apply reads_list_max|].
  destruct (outputs t) as [|o os] eqn:Eo; [done|]. cbn [is_nil andb].
  eapply fails_bind; [by apply reads_witnesses|].
  apply fails_posv_rest. by eapply wf_lock_time.
Qed.

(** ** All together *)

Lemma try_tx_ok bs ty t : reads_end (deserialize_tx ty) bs t -> try_tx bs ty = Ok t.
Proof.
  intros Hr. destruct (Hr (from_read bs)) as (r' & H'); [apply contents_new|].
  unfold try_tx. by rewrite H'.
Qed.

Lemma try_tx_err bs ty :
  fails_on (deserialize_tx ty) bs -> exists e, try_tx bs ty = Err e.
Proof.
  intros Hr. destruct (Hr (from_read bs)) as (e & r' & H'); [apply contents_new|].
  exists e. unfold try_tx. by rewrite H'.
Qed.

Lemma deserialize_buffer bs : deserialize Transaction bs = tx_from_buffer bs.
Proof.
  unfold deserialize, read; simpl. unfold p_bind, read_to_end, p_lift, from_read.
  unfold reader_new. rewrite contents_new. by destruct (tx_from_buffer bs).
Qed.

Lemma serialize_plain t : serialize t = plain_bytes t.
Proof. unfold serialize, append. change (ser t stream_new) with (tx_ser_plain t stream_new). by rewrite writes_plain. Qed.

Lemma serialize_flags_witness t :
  has_witness t = true -> serialize_with_flags t SERIALIZE_TRANSACTION_WITNESS = witness_bytes t.
Proof.
  intros Hw. unfold serialize_with_flags, append, ser; simpl. unfold tx_ser. rewrite Hw.
  change (include_transaction_witness _) with true. cbn [andb]. by rewrite writes_witness.
Qed.

Lemma plain_from_buffer t :
  overwintered t = false -> without_witness t ->
  wf_tx StandardWithWitness t \/ wf_tx PosvWithNTime t ->
  tx_from_buffer (plain_bytes t) = Ok t.
Proof.
  intros Ho Hw Hwf. unfold tx_from_buffer.
  assert (Hor : wf_tx PosvWithNTime t \/ (wf_tx StandardWithWitness t /\ is_spark (version t) = false)).
  { destruct Hwf as [Hwf|]; [|by left]. destruct (is_spark (version t)) eqn:E; [left|by right].
    destruct (standard_tail t Hwf Ho) as (Hposv & Hz & Hs & Hn).
    destruct Hwf. constructor; try done; simpl; by rewrite ?E, ?Hs. }
  destruct Hor as [Hp|[Hs Hsp]].
  - by rewrite (try_tx_ok _ _ t) by (by apply tx_reads_plain).
  - destruct (try_tx_err (plain_bytes t) PosvWithNTime) as [e ->]; [by apply fails_posv_plain|].
    by rewrite (try_tx_ok _ _ t) by (by apply tx_reads_plain).
Qed.

Lemma witness_from_buffer t :
  overwintered t = false -> wf_tx StandardWithWitness t -> Forall witness_ok (inputs t) ->
  v_extra_payload t = None ->
  tx_from_buffer (witness_bytes t) = Ok t.
Proof.
  intros Ho Hwf Hw Hp. unfold tx_from_buffer. destruct (is_spark (version t)) eqn:E.
  - by rewrite (try_tx_ok _ _ t) by (by apply tx_reads_witness).
  - destruct (try_tx_err (witness_bytes t) PosvWithNTime) as [e ->]; [by apply fails_posv_witness|].
    by rewrite (try_tx_ok _ _ t) by (by apply tx_reads_witness).
Qed.
End Tx.
