(* ===== verification/Sign.v ===== *)
(** * Signature hashes and signing
    (mm2src/mm2_bitcoin/script/src/sign.rs, verify.rs, mm2src/coins/utxo_signer/src)

    What a signature of an input covers for each of the four signature
    versions, the checks of signatures and lock times that the network makes,
    and the spends that the wallet signs with a key pair.  The crate
    blake2b_simd is the class [Blake2b].  Indexing an input out of range
    panics: [None]. *)

From Stdlib Require Import Ascii String.
From S2P Require Import Prelude Opcode Keys Script Serialization Transaction.
Local Open Scope result_scope.

(** The bytes of a byte string literal. *)
Definition b_str (s : string) : list Z :=
  map (fun c => Z.of_N (Ascii.N_of_ascii c)) (String.list_ascii_of_string s).

Definition ZCASH_PREVOUTS_HASH_PERSONALIZATION : list Z := b_str "ZcashPrevoutHash".
Definition ZCASH_SEQUENCE_HASH_PERSONALIZATION : list Z := b_str "ZcashSequencHash".
Definition ZCASH_OUTPUTS_HASH_PERSONALIZATION : list Z := b_str "ZcashOutputsHash".
Definition ZCASH_JOIN_SPLITS_HASH_PERSONALIZATION : list Z := b_str "ZcashJSplitsHash".
Definition ZCASH_SHIELDED_SPENDS_HASH_PERSONALIZATION : list Z := b_str "ZcashSSpendsHash".
Definition ZCASH_SHIELDED_OUTPUTS_HASH_PERSONALIZATION : list Z := b_str "ZcashSOutputHash".
Definition ZCASH_SIG_HASH_PERSONALIZATION : list Z := b_str "ZcashSigHash".

(** [Blake2b::new().hash_length(32).personal(personal)] over the input; the
    result has the 32 bytes asked for. *)
Class Blake2b := {
  blake_2b_256_personal : list Z -> list Z -> list Z;
  blake_length : forall i p, length (blake_2b_256_personal i p) = 32%nat }.

(** ** Signature hash types *)

Inductive SignatureVersion : Type := Base | WitnessV0 | ForkId | ForkIdRxd.

Inductive SighashBase : Type := SB_All | SB_None | SB_Single.

#[export] Instance SighashBase_eq_dec : EqDecision SighashBase.
Proof. solve_decision. Defined.

Definition sighash_base_u32 (b : SighashBase) : Z :=
  match b with SB_All => 1 | SB_None => 2 | SB_Single => 3 end.

Record Sighash : Type := mkSighash {
  base : SighashBase;
  anyone_can_pay : bool;
  fork_id : bool }.

Definition sighash_u32 (s : Sighash) : Z :=
  let b := sighash_base_u32 (base s) in
  let b := if anyone_can_pay s then Z.lor b 0x80 else b in
  if fork_id s then Z.lor b 0x40 else b.

Definition is_fork_version (v : SignatureVersion) : bool :=
  match v with ForkId | ForkIdRxd => true | _ => false end.

Definition sighash_is_defined (version : SignatureVersion) (u : Z) : bool :=
  let u := Z.land u (Z.lnot (if is_fork_version version then Z.lor 0x40 0x80 else 0x80)) in
  (1 <=? u) && (u <=? 3).

Definition sighash_from_u32 (version : SignatureVersion) (u : Z) : Sighash :=
  let anyone_can_pay := Z.land u 0x80 =? 0x80 in
  let fork_id := is_fork_version version && (Z.land u 0x40 =? 0x40) in
  let base := match Z.land u 0x1f with 2 => SB_None | 3 => SB_Single | _ => SB_All end in
  mkSighash base anyone_can_pay fork_id.

(** ** The transaction being signed *)

Record UnsignedTransactionInput : Type := mkUnsignedInput {
  u_previous_output : OutPoint;
  prev_script : Script;
  u_sequence : Z;
  amount : Z }.

Definition unsigned_from_input (i : TransactionInput) : UnsignedTransactionInput :=
  mkUnsignedInput (previous_output i) [] (sequence i) 0.

Inductive SignerHashAlgo : Type := SignerSHA256 | SignerDSHA256.

Definition signer_hash_algo (a : TxHashAlgo) : SignerHashAlgo :=
  match a with TxDSHA256 => SignerDSHA256 | TxSHA256 => SignerSHA256 end.
Definition tx_hash_algo_of (a : SignerHashAlgo) : TxHashAlgo :=
  match a with SignerDSHA256 => TxDSHA256 | SignerSHA256 => TxSHA256 end.

Record TransactionInputSigner : Type := mkSigner {
  s_version : Z;
  s_n_time : option Z;
  s_overwintered : bool;
  s_version_group_id : Z;
  consensus_branch_id : Z;
  s_expiry_height : Z;
  s_value_balance : Z;
  s_inputs : list UnsignedTransactionInput;
  s_outputs : list TransactionOutput;
  s_lock_time : Z;
  s_join_splits : list JoinSplit;
  s_shielded_spends : list ShieldedSpend;
  s_shielded_outputs : list ShieldedOutput;
  s_zcash : bool;
  s_posv : bool;
  s_str_d_zeel : option (list Z);
  hash_algo : SignerHashAlgo;
  s_v_extra_payload : option (list Z) }.

(** [From<Transaction> for TransactionInputSigner]. *)
Definition signer_from_tx (t : Transaction) : TransactionInputSigner :=
  mkSigner (version t) (n_time t) (overwintered t) (version_group_id t) 0
    (expiry_height t) (value_balance t) (map unsigned_from_input (inputs t)) (outputs t)
    (lock_time t) (join_splits t) (shielded_spends t) (shielded_outputs t) (zcash t)
    (posv t) (str_d_zeel t) (signer_hash_algo (tx_hash_algo t)) (v_extra_payload t).

Definition input_from_unsigned (i : UnsignedTransactionInput) : TransactionInput :=
  mkTransactionInput (u_previous_output i) [] (u_sequence i) [].

(** [From<TransactionInputSigner> for Transaction]. *)
Definition tx_from_signer (t : TransactionInputSigner) : Transaction :=
  mkTransaction (s_version t) (s_n_time t) (s_overwintered t) (s_version_group_id t)
    (map input_from_unsigned (s_inputs t)) (s_outputs t) (s_lock_time t)
    (s_expiry_height t) (s_shielded_spends t) (s_shielded_outputs t) (s_join_splits t)
    (s_value_balance t) H256_default H512_default H512_default (s_zcash t) (s_posv t)
    (s_str_d_zeel t) (tx_hash_algo_of (hash_algo t)) (s_v_extra_payload t).

(** [From<u8> for H256]: the first byte. *)
Definition h256_from_u8 (v : Z) : list Z := v :: zeros 31.

Definition append_all {A} (f : A -> Stream -> Stream) (l : list A) (s : Stream) : Stream :=
  foldl (fun s a => f a s) s l.

(** [BTreeSet] of byte arrays: sorted by [<=] on the bytes, without doubles. *)
Fixpoint bytes_lt (a b : list Z) : bool :=
  match a, b with
  | [], [] => false
  | [], _ => true
  | _, [] => false
  | x :: a, y :: b => (x <? y) || ((x =? y) && bytes_lt a b)
  end.

Fixpoint btree_insert (x : list Z) (l : list (list Z)) : list (list Z) :=
  match l with
  | [] => [x]
  | y :: l' => if bytes_lt x y then x :: l
               else if bytes_lt y x then y :: btree_insert x l'
               else l
  end.

(** [pos.checked_add(push_len)] within the script, or the end of the loop. *)
Definition skip_bytes (n : Z) (rest : list Z) : option (list Z) :=
  if n <=? Z.of_nat (length rest) then Some (drop (Z.to_nat n) rest) else None.

(** The loop of [sorted_push_refs_rxd] over what follows [pos]. *)
Fixpoint push_refs_loop (fuel : nat) (rest : list Z) (refs : list (list Z)) : list (list Z) :=
  match fuel, rest with
  | S fuel, opcode :: rest =>
      let continue n rest :=
        match skip_bytes n rest with
        | Some rest' => push_refs_loop fuel rest' refs
        | None => refs
        end in
      if (0x01 <=? opcode) && (opcode <=? 0x4b) then continue opcode rest
      else if opcode =? 0x4c then
        match rest with b0 :: rest => continue b0 rest | _ => refs end
      else if opcode =? 0x4d then
        match rest with
        | b0 :: b1 :: rest => continue (le_combine [b0; b1]) rest
        | _ => refs
        end
      else if opcode =? 0x4e then
        match rest with
        | b0 :: b1 :: b2 :: b3 :: rest => continue (le_combine [b0; b1; b2; b3]) rest
        | _ => refs
        end
      else if (opcode =? 0xd0) || (opcode =? 0xd1) || (opcode =? 0xd2) || (opcode =? 0xd3)
              || (opcode =? 0xd8) then
        match skip_bytes 36 rest with
        | Some rest' =>
            push_refs_loop fuel rest'
              (if (opcode =? 0xd0) || (opcode =? 0xd8)
               then btree_insert (take 36 rest) refs else refs)
        | None => refs
        end
      else push_refs_loop fuel rest refs
  | _, _ => refs
  end.

Definition sorted_push_refs_rxd (script_pubkey : list Z) : list (list Z) :=
  push_refs_loop (length script_pubkey) script_pubkey [].

Section Hashes.
  Context `{ByteOrder} `{BitCrypto} `{Blake2b}.

(** What a fresh stream holds after the appends. *)
Definition stream_of (f : Stream -> Stream) : list Z := out (f stream_new).

Definition compute_hash_prevouts (sighash : Sighash) (inputs : list UnsignedTransactionInput)
  : list Z :=
  if anyone_can_pay sighash then h256_from_u8 0
  else dhash256 (stream_of (append_all (fun i => append (u_previous_output i)) inputs)).

Definition compute_hash_sequence (sighash : Sighash) (inputs : list UnsignedTransactionInput)
  : list Z :=
  match base sighash with
  | SB_All =>
      if negb (anyone_can_pay sighash)
      then dhash256 (stream_of (append_all (fun i => append_u 4 (u_sequence i)) inputs))
      else h256_from_u8 0
  | _ => h256_from_u8 0
  end.

Definition compute_hash_outputs (sighash : Sighash) (input_index : nat)
  (outputs : list TransactionOutput) : list Z :=
  match base sighash, outputs !! input_index with
  | SB_All, _ => dhash256 (stream_of (append_all append outputs))
  | SB_Single, Some o => dhash256 (stream_of (append o))
  | _, _ => h256_from_u8 0
  end.

Definition append_output_data_summary_rxd (output : TransactionOutput) (s : Stream) : Stream :=
  let script_pubkey_hash := dhash256 (script_pubkey output) in
  let sorted_push_refs := sorted_push_refs_rxd (script_pubkey output) in
  let total_refs := wrap 32 (Z.of_nat (length sorted_push_refs)) in
  let refs_hash := if is_nil sorted_push_refs then h256_from_u8 0
                   else dhash256 (concat sorted_push_refs) in
  s |> append_u 8 (out_value output) |> append_h 32 script_pubkey_hash
    |> append_u 4 total_refs |> append_h 32 refs_hash.

Definition compute_hash_output_hashes_rxd (sighash : Sighash) (input_index : nat)
  (outputs : list TransactionOutput) : list Z :=
  match base sighash, outputs !! input_index with
  | SB_All, _ => dhash256 (stream_of (append_all append_output_data_summary_rxd outputs))
  | SB_Single, Some o => dhash256 (stream_of (append_output_data_summary_rxd o))
  | _, _ => h256_from_u8 0
  end.

Definition signature_hash_witness0 (self : TransactionInputSigner) (input_index : nat)
  (input_amount : Z) (script_pubkey : Script) (sighashtype : Z) (sighash : Sighash)
  : option (list Z) :=
  let hash_prevouts := compute_hash_prevouts sighash (s_inputs self) in
  let hash_sequence := compute_hash_sequence sighash (s_inputs self) in
  let hash_outputs := compute_hash_outputs sighash input_index (s_outputs self) in
  input ← s_inputs self !! input_index;
  Some (dhash256 (stream_of (fun s =>
    s |> append_i 4 (s_version self)
      |> append_h 32 hash_prevouts
      |> append_h 32 hash_sequence
      |> append (u_previous_output input)
      |> append_bytes script_pubkey
      |> append_u 8 input_amount
      |> append_u 4 (u_sequence input)
      |> append_h 32 hash_outputs
      |> append_u 4 (s_lock_time self)
      |> append_u 4 sighashtype))).

Definition single_out_of_range (self : TransactionInputSigner) (input_index : nat)
  (sighash : Sighash) : bool :=
  bool_decide (base sighash = SB_Single) && (length (s_outputs self) <=? input_index)%nat.

Definition signature_hash_fork_id (self : TransactionInputSigner) (input_index : nat)
  (input_amount : Z) (script_pubkey : Script) (sighashtype : Z) (sighash : Sighash)
  : option (list Z) :=
  if (length (s_inputs self) <=? input_index)%nat then Some (h256_from_u8 1)
  else if single_out_of_range self input_index sighash then Some (h256_from_u8 1)
  else signature_hash_witness0 self input_index input_amount script_pubkey sighashtype sighash.

Definition signature_hash_fork_id_rxd (self : TransactionInputSigner) (input_index : nat)
  (input_amount : Z) (script_pubkey : Script) (sighashtype : Z) (sighash : Sighash)
  : option (list Z) :=
  if (length (s_inputs self) <=? input_index)%nat then Some (h256_from_u8 1)
  else if single_out_of_range self input_index sighash then Some (h256_from_u8 1)
  else
    let hash_prevouts := compute_hash_prevouts sighash (s_inputs self) in
    let hash_sequence := compute_hash_sequence sighash (s_inputs self) in
    let hash_output_hashes := compute_hash_output_hashes_rxd sighash input_index (s_outputs self) in
    let hash_outputs := compute_hash_outputs sighash input_index (s_outputs self) in
    input ← s_inputs self !! input_index;
    Some (dhash256 (stream_of (fun s =>
      s |> append_i 4 (s_version self)
        |> append_h 32 hash_prevouts
        |> append_h 32 hash_sequence
        |> append (u_previous_output input)
        |> append_bytes script_pubkey
        |> append_u 8 input_amount
        |> append_u 4 (u_sequence input)
        |> append_h 32 hash_output_hashes
        |> append_h 32 hash_outputs
        |> append_u 4 (s_lock_time self)
        |> append_u 4 sighashtype))).

(** A digest of parts that the source leaves out where the flags say so. *)
Definition append_digest (cond : bool) (f : Stream -> Stream) (personal : list Z) : Stream -> Stream :=
  if cond then append_h 32 (blake_2b_256_personal (stream_of f) personal)
  else append_h 32 H256_default.

Definition append_spend_unsigned (spend : ShieldedSpend) (s : Stream) : Stream :=
  s |> append_h 32 (sp_cv spend) |> append_h 32 (sp_anchor spend)
    |> append_h 32 (sp_nullifier spend) |> append_h 32 (sp_rk spend)
    |> append_h 192 (sp_zkproof spend).

Definition signature_hash_overwintered (self : TransactionInputSigner) (input_index : nat)
  (script_pubkey : Script) (sighashtype : Z) (sighash : Sighash) : option (list Z) :=
  let personalization :=
    ZCASH_SIG_HASH_PERSONALIZATION
    ++ (if 3 <=? s_version self then le_split 4 (consensus_branch_id self) else []) in
  let all := negb (anyone_can_pay sighash) in
  let multi := negb (bool_decide (base sighash = SB_Single))
               && negb (bool_decide (base sighash = SB_None)) in
  let single := bool_decide (base sighash = SB_Single)
                && (input_index <? length (s_outputs self))%nat in
  input ← s_inputs self !! input_index;
  Some (blake_2b_256_personal (stream_of (fun s =>
    s |> append_i 4 (tx_header (s_version self) (s_overwintered self))
      |> append_u 4 (s_version_group_id self)
      |> append_digest all
           (append_all (fun i => append (u_previous_output i)) (s_inputs self))
           ZCASH_PREVOUTS_HASH_PERSONALIZATION
      |> append_digest (all && multi)
           (append_all (fun i => append_u 4 (u_sequence i)) (s_inputs self))
           ZCASH_SEQUENCE_HASH_PERSONALIZATION
      |> (if multi then append_digest true (append_all append (s_outputs self))
                          ZCASH_OUTPUTS_HASH_PERSONALIZATION
          else append_digest single
                 (append_opt append (s_outputs self !! input_index))
                 ZCASH_OUTPUTS_HASH_PERSONALIZATION)
      |> append_digest (negb (is_nil (s_join_splits self)))
           (append_all append (s_join_splits self)) ZCASH_JOIN_SPLITS_HASH_PERSONALIZATION
      |> append_digest (negb (is_nil (s_shielded_spends self)))
           (append_all append_spend_unsigned (s_shielded_spends self))
           ZCASH_SHIELDED_SPENDS_HASH_PERSONALIZATION
      |> append_digest (negb (is_nil (s_shielded_outputs self)))
           (append_all append (s_shielded_outputs self))
           ZCASH_SHIELDED_OUTPUTS_HASH_PERSONALIZATION
      |> append_u 4 (s_lock_time self)
      |> append_u 4 (s_expiry_height self)
      |> append_i 8 (s_value_balance self)
      |> append_u 4 sighashtype
      |> append (u_previous_output input)
      |> append_bytes script_pubkey
      |> append_u 8 (amount input)
      |> append_u 4 (u_sequence input))) personalization).

(** The inputs and outputs of the transaction that [signature_hash_original]
    serializes. *)
Definition original_inputs (self : TransactionInputSigner) (input_index : nat)
  (script_pubkey : Script) (sighash : Sighash) : option (list TransactionInput) :=
  if anyone_can_pay sighash then
    input ← s_inputs self !! input_index;
    Some [mkTransactionInput (u_previous_output input) script_pubkey (u_sequence input) []]
  else
    Some (imap (fun n input =>
      mkTransactionInput (u_previous_output input)
        (if (n =? input_index)%nat then script_pubkey else [])
        (match base sighash with
         | SB_Single | SB_None => if (n =? input_index)%nat then u_sequence input else 0
         | SB_All => u_sequence input
         end) []) (s_inputs self)).

Definition original_outputs (self : TransactionInputSigner) (input_index : nat)
  (sighash : Sighash) : list TransactionOutput :=
  match base sighash with
  | SB_All => s_outputs self
  | SB_Single =>
      imap (fun n out => if (n =? input_index)%nat then out else output_default)
        (take (input_index + 1) (s_outputs self))
  | SB_None => []
  end.

Definition original_tx (self : TransactionInputSigner) (inputs : list TransactionInput)
  (outputs : list TransactionOutput) : Transaction :=
  mkTransaction (s_version self) (if s_posv self then None else s_n_time self) false 0
    inputs outputs (s_lock_time self) 0 [] [] [] 0 H256_default H512_default H512_default
    (s_zcash self) (s_posv self) (s_str_d_zeel self) (tx_hash_algo_of (hash_algo self)) None.

Definition signature_hash_original (self : TransactionInputSigner) (input_index : nat)
  (script_pubkey : Script) (sighashtype : Z) (sighash : Sighash) : option (list Z) :=
  if (length (s_inputs self) <=? input_index)%nat then Some (h256_from_u8 1)
  else if (3 <=? s_version self) && s_overwintered self
  then signature_hash_overwintered self input_index script_pubkey sighashtype sighash
  else if single_out_of_range self input_index sighash then Some (h256_from_u8 1)
  else
    script_pubkey ← without_separators script_pubkey;
    inputs ← original_inputs self input_index script_pubkey sighash;
    let tx := original_tx self inputs (original_outputs self input_index sighash) in
    let out := stream_of (fun s => s |> append tx |> append_u 4 sighashtype) in
    Some (match hash_algo self with
          | SignerDSHA256 => dhash256 out
          | SignerSHA256 => sha256 out
          end).

Definition signature_hash (self : TransactionInputSigner) (input_index : nat)
  (input_amount : Z) (script_pubkey : Script) (sigversion : SignatureVersion)
  (sighashtype : Z) : option (list Z) :=
  let sighash := sighash_from_u32 sigversion sighashtype in
  match sigversion with
  | WitnessV0 =>
      signature_hash_witness0 self input_index input_amount script_pubkey sighashtype sighash
  | ForkId =>
      if fork_id sighash
      then signature_hash_fork_id self input_index input_amount script_pubkey sighashtype sighash
      else signature_hash_original self input_index script_pubkey sighashtype sighash
  | ForkIdRxd =>
      if fork_id sighash
      then signature_hash_fork_id_rxd self input_index input_amount script_pubkey sighashtype sighash
      else signature_hash_original self input_index script_pubkey sighashtype sighash
  | Base => signature_hash_original self input_index script_pubkey sighashtype sighash
  end.
End Hashes.

(** ** Checking signatures and lock times (verify.rs)

    [SignatureChecker] is a record of the trait's methods; [None] is a panic. *)

Record SignatureChecker : Type := mkChecker {
  check_signature : list Z -> Public -> Script -> Z -> SignatureVersion -> option bool;
  check_lock_time : Num -> option bool;
  check_sequence : Num -> option bool }.

Definition NoopSignatureChecker : SignatureChecker :=
  mkChecker (fun _ _ _ _ _ => Some false) (fun _ => Some false) (fun _ => Some false).

Record TransactionSignatureChecker : Type := mkTxChecker {
  signer : TransactionInputSigner;
  input_index : nat;
  input_amount : Z }.

(** ** Signing with a key pair (utxo_signer/src/with_key_pair.rs, sign_common.rs) *)

Definition SIGHASH_ALL : Z := 1.
Definition _SIGHASH_NONE : Z := 2.
Definition SIGHASH_SINGLE : Z := 3.

Inductive SignError : Type :=
| MismatchScript (script_type : string) (script prev_script : Script)
| InputIndexOutOfBound (len index : nat)
| UnspendableUTXO (script : Script)
| ErrorSigning (e : Keys.Error).

(** A computation that can panic or fail. *)
Definition pbind {E A B} (m : option (result E A)) (k : A -> option (result E B))
  : option (result E B) :=
  match m with
  | None => None
  | Some (Err e) => Some (Err e)
  | Some (Ok a) => k a
  end.
Notation "'let!' x ':=' m 'in' k" := (pbind m (fun x => k))
  (at level 10, x pattern, m at level 100, k at level 200).

(** The value of an expression that cannot fail, only panic. *)
Definition plift {E A} (m : option A) : option (result E A) := Ok <$> m.

Definition get_input (unsigned : TransactionInputSigner) (input_index : nat)
  : result SignError UnsignedTransactionInput :=
  ok_or (s_inputs unsigned !! input_index)
    (InputIndexOutOfBound (length (s_inputs unsigned)) input_index).

Definition sig_script (signature : list Z) (fork_id : Z) : list Z :=
  signature ++ [Z.lor 1 (wrap 8 fork_id)].

Definition script_sig_with_pub (public_key : Public) (fork_id : Z) (signature : list Z)
  : option (list Z) :=
  builder_default |> push_data (sig_script signature fork_id)
                  |> push_data (pub_bytes public_key).

Definition p2pk_spend_with_signature (unsigned_input : UnsignedTransactionInput)
  (fork_id : Z) (signature : list Z) : option TransactionInput :=
  script_sig ← (builder_default |> push_data (sig_script signature fork_id));
  Some (mkTransactionInput (u_previous_output unsigned_input) script_sig
          (u_sequence unsigned_input) []).

Definition p2pkh_spend_with_signature (unsigned_input : UnsignedTransactionInput)
  (public_key : Public) (fork_id : Z) (signature : list Z) : option TransactionInput :=
  script_sig ← script_sig_with_pub public_key fork_id signature;
  Some (mkTransactionInput (u_previous_output unsigned_input) script_sig
          (u_sequence unsigned_input) []).

Definition p2sh_spend_with_signature (unsigned_input : UnsignedTransactionInput)
  (redeem_script script_data : Script) (fork_id : Z) (signature : list Z)
  : option TransactionInput :=
  resulting_script ← (builder_default |> push_data (sig_script signature fork_id));
  redeem_part ← (builder_default |> push_data redeem_script);
  Some (mkTransactionInput (u_previous_output unsigned_input)
          ((if is_nil script_data then resulting_script else resulting_script ++ script_data)
           ++ redeem_part)
          (u_sequence unsigned_input) []).

Definition p2wpkh_spend_with_signature (unsigned_input : UnsignedTransactionInput)
  (public_key : Public) (fork_id : Z) (signature : list Z) : TransactionInput :=
  mkTransactionInput (u_previous_output unsigned_input) [] (u_sequence unsigned_input)
    [sig_script signature fork_id; pub_bytes public_key].

Definition complete_tx (unsigned : TransactionInputSigner) (signed_inputs : list TransactionInput)
  : Transaction :=
  mkTransaction (s_version unsigned) (s_n_time unsigned) (s_overwintered unsigned)
    (s_version_group_id unsigned) signed_inputs (s_outputs unsigned) (s_lock_time unsigned)
    (s_expiry_height unsigned) [] [] [] 0 H256_default H512_default H512_default
    (s_zcash unsigned) (s_posv unsigned) (s_str_d_zeel unsigned)
    (tx_hash_algo_of (hash_algo unsigned)) None.

Section Signing.
  Context `{ByteOrder} `{BitCrypto} `{Blake2b} `{Secp256k1}.

Definition tx_check_signature (self : TransactionSignatureChecker) (signature : list Z)
  (public : Public) (script_code : Script) (sighashtype : Z) (version : SignatureVersion)
  : option bool :=
  hash ← signature_hash (signer self) (input_index self) (input_amount self) script_code
           version sighashtype;
  Some (match public_verify public hash signature with Ok b => b | Err _ => false end).

Definition tx_check_lock_time (self : TransactionSignatureChecker) (lock_time : Num)
  : option bool :=
  let lock_time_u32 := num_to_u32 lock_time in
  let tx_lock_time := s_lock_time (signer self) in
  if ((LOCKTIME_THRESHOLD <=? tx_lock_time) && (lock_time_u32 <? LOCKTIME_THRESHOLD))
     || ((tx_lock_time <? LOCKTIME_THRESHOLD) && (LOCKTIME_THRESHOLD <=? lock_time_u32))
  then Some false
  else if value lock_time >? tx_lock_time then Some false
  else
    input ← s_inputs (signer self) !! input_index self;
    Some (negb (SEQUENCE_FINAL =? u_sequence input)).

Definition tx_check_sequence (self : TransactionSignatureChecker) (sequence : Num)
  : option bool :=
  input ← s_inputs (signer self) !! input_index self;
  let to_sequence := u_sequence input in
  Some (if wrap 32 (s_version (signer self)) <? 2 then false
  else if negb (Z.land to_sequence SEQUENCE_LOCKTIME_DISABLE_FLAG =? 0) then false
  else
    let locktime_mask := Z.lor SEQUENCE_LOCKTIME_TYPE_FLAG SEQUENCE_LOCKTIME_MASK in
    let to_sequence_masked := Z.land to_sequence locktime_mask in
    let sequence_masked := Z.land (value sequence) locktime_mask in
    if ((SEQUENCE_LOCKTIME_TYPE_FLAG <=? to_sequence_masked)
        && (sequence_masked <? SEQUENCE_LOCKTIME_TYPE_FLAG))
       || ((to_sequence_masked <? SEQUENCE_LOCKTIME_TYPE_FLAG)
           && (SEQUENCE_LOCKTIME_TYPE_FLAG <=? sequence_masked))
    then false
    else sequence_masked <=? to_sequence_masked).

Definition tx_signature_checker (self : TransactionSignatureChecker) : SignatureChecker :=
  mkChecker (tx_check_signature self) (tx_check_lock_time self) (tx_check_sequence self).

(** [TransactionInputSigner::signed_input]; the [unwrap] of the signature panics. *)
Definition signed_input (self : TransactionInputSigner) (keypair : KeyPair) (input_index : nat)
  (input_amount : Z) (script_pubkey : Script) (sigversion : SignatureVersion) (sighash : Z)
  : option TransactionInput :=
  hash ← signature_hash self input_index input_amount script_pubkey sigversion sighash;
  match sign_low_r (private keypair) hash with
  | Err _ => None
  | Ok signature =>
      script_sig ← (builder_default |> push_data (signature ++ [wrap 8 sighash]));
      unsigned_input ← s_inputs self !! input_index;
      Some (mkTransactionInput (u_previous_output unsigned_input) script_sig
              (u_sequence unsigned_input) [])
  end.

Definition signature_hash_to_sign (signer : TransactionInputSigner) (input_index : nat)
  (output_script : Script) (signature_version : SignatureVersion) (sighash_type fork_id : Z)
  : option (result SignError (list Z)) :=
  let! input := Some (get_input signer input_index) in
  plift (signature_hash signer input_index (amount input) output_script signature_version
           (Z.lor sighash_type fork_id)).

Definition sign_message (message : list Z) (key_pair : KeyPair) : result SignError (list Z) :=
  map_err ErrorSigning (sign_low_r (private key_pair) message).

Definition calc_and_sign_sighash (signer : TransactionInputSigner) (input_index : nat)
  (output_script : Script) (key_pair : KeyPair) (signature_version : SignatureVersion)
  (sighash_type fork_id : Z) : option (result SignError (list Z)) :=
  let! sighash := signature_hash_to_sign signer input_index output_script signature_version
                    sighash_type fork_id in
  Some (sign_message sighash key_pair).

Definition p2pk_spend (signer : TransactionInputSigner) (input_index : nat)
  (key_pair : KeyPair) (signature_version : SignatureVersion) (fork_id : Z)
  : option (result SignError TransactionInput) :=
  let! unsigned_input := Some (get_input signer input_index) in
  let! script := plift (build_p2pk (public key_pair)) in
  if decide (script <> prev_script unsigned_input) then
    Some (Err (MismatchScript "P2PK" script (prev_script unsigned_input)))
  else
    let! signature := calc_and_sign_sighash signer input_index script key_pair
                        signature_version SIGHASH_ALL fork_id in
    plift (p2pk_spend_with_signature unsigned_input fork_id signature).

Definition p2pkh_spend (signer : TransactionInputSigner) (input_index : nat)
  (key_pair : KeyPair) (signature_version : SignatureVersion) (fork_id : Z)
  : option (result SignError TransactionInput) :=
  let! unsigned_input := Some (get_input signer input_index) in
  let! script := plift (build_p2pkh (AddressHash (address_hash (public key_pair)))) in
  if decide (script <> prev_script unsigned_input) then
    Some (Err (MismatchScript "P2PKH" script (prev_script unsigned_input)))
  else
    let! signature := calc_and_sign_sighash signer input_index script key_pair
                        signature_version SIGHASH_ALL fork_id in
    plift (p2pkh_spend_with_signature unsigned_input (public key_pair) fork_id signature).

Definition p2sh_spend (signer : TransactionInputSigner) (input_index : nat)
  (key_pair : KeyPair) (script_data redeem_script : Script)
  (signature_version : SignatureVersion) (fork_id : Z)
  : option (result SignError TransactionInput) :=
  let! unsigned_input := Some (get_input signer input_index) in
  let! signature := calc_and_sign_sighash signer input_index redeem_script key_pair
                      signature_version SIGHASH_ALL fork_id in
  plift (p2sh_spend_with_signature unsigned_input redeem_script script_data fork_id signature).

Definition p2wpkh_spend (signer : TransactionInputSigner) (input_index : nat)
  (key_pair : KeyPair) (signature_version : SignatureVersion) (fork_id : Z)
  : option (result SignError TransactionInput) :=
  let! unsigned_input := Some (get_input signer input_index) in
  let! script_code := plift (build_p2pkh (AddressHash (address_hash (public key_pair)))) in
  let! script_pub_key := (r ← build_p2wpkh (AddressHash (address_hash (public key_pair)));
                          Some (map_err ErrorSigning r)) in
  if decide (script_pub_key <> prev_script unsigned_input) then
    Some (Err (MismatchScript "P2WPKH" script_pub_key (prev_script unsigned_input)))
  else
    let! signature := calc_and_sign_sighash signer input_index script_code key_pair
                        signature_version SIGHASH_ALL fork_id in
    Some (Ok (p2wpkh_spend_with_signature unsigned_input (public key_pair) fork_id signature)).

Definition sign_one (unsigned : TransactionInputSigner) (key_pair : KeyPair)
  (signature_version : SignatureVersion) (fork_id : Z) (i : nat)
  (input : UnsignedTransactionInput) : option (result SignError TransactionInput) :=
  t ← script_type (prev_script input);
  match t with
  | WitnessKey => p2wpkh_spend unsigned i key_pair WitnessV0 fork_id
  | PubKeyHash => p2pkh_spend unsigned i key_pair signature_version fork_id
  | PubKey => p2pk_spend unsigned i key_pair signature_version fork_id
  | _ => Some (Err (UnspendableUTXO (prev_script input)))
  end.

(** [collect] of the results stops at the first error. *)
Fixpoint sign_inputs (unsigned : TransactionInputSigner) (key_pair : KeyPair)
  (signature_version : SignatureVersion) (fork_id : Z) (i : nat)
  (inputs : list UnsignedTransactionInput) : option (result SignError (list TransactionInput)) :=
  match inputs with
  | [] => Some (Ok [])
  | input :: inputs =>
      let! signed := sign_one unsigned key_pair signature_version fork_id i input in
      let! rest := sign_inputs unsigned key_pair signature_version fork_id (S i) inputs in
      Some (Ok (signed :: rest))
  end.

Definition sign_tx (unsigned : TransactionInputSigner) (key_pair : KeyPair)
  (signature_version : SignatureVersion) (fork_id : Z) : option (result SignError Transaction) :=
  let! signed_inputs := sign_inputs unsigned key_pair signature_version fork_id 0
                          (s_inputs unsigned) in
  Some (Ok (complete_tx unsigned signed_inputs)).
End Signing.
