(* ===== verification/ScriptEngine.v ===== *)
(** * What the network makes of a script

    The interpreter of scripts is not part of the program: the nodes of the
    network run it.  [ScriptEngine] is its interface: what the documentation
    of the script language says of the opcodes that the swaps use.  A node
    reads a script instruction by instruction and keeps a stack and the
    conditionals it is inside of; [is_block] composes that, so that what a
    script accepts is computed from its parts.  [p2sh_accepts] is the rule for
    the outputs of the swaps, which pay to the hash of a script. *)

From S2P Require Import Prelude Opcode Keys Script ScriptProps Serialization Transaction Sign.
Local Open Scope Z_scope.

(** The stack has its top first; a conditional is true in the branch taken. *)
Record EvalState : Type := mkEval { stack : list (list Z); conds : list bool }.

Definition active (cs : list bool) : bool := forallb (fun b => b) cs.

(** A stack element as a condition: false is zero, also the negative zero. *)
Fixpoint cast_to_bool (v : list Z) : bool :=
  match v with
  | [] => false
  | [b] => negb (b =? 0) && negb (b =? 0x80)
  | b :: v => negb (b =? 0) || cast_to_bool v
  end.

Definition bool_element (b : bool) : list Z := if b then [1] else [].

(** The opcodes of the swaps that do nothing in a branch not taken. *)
Definition plain_op (o : Opcode) : bool :=
  match o with
  | OP_1 | OP_DROP | OP_SIZE | OP_EQUALVERIFY | OP_HASH160 | OP_CHECKSIG
  | OP_CHECKSIGVERIFY | OP_CHECKLOCKTIMEVERIFY => true
  | _ => false
  end.

(** The data that a script pushes. *)
Definition pushed_data (code : Script) : list (list Z) :=
  match iter code with
  | Some l => omap (fun i => match i with Ok i => data i | Err _ => None end) l
  | None => []
  end.

Definition op (o : Opcode) : Instruction := action_instr (AOp o).
Definition psh (d : list Z) : Instruction := action_instr (AData d).

(** What a node of the network does: [eval_step] executes one instruction
    ([None] fails the script), [check_sig] is the test of [OP_CHECKSIG] of a
    signature and a key ([None]: an encoding that fails the script). *)
Class ScriptEngine `{BitCrypto} `{Secp256k1} := {
  eval_step : SignatureChecker -> SignatureVersion -> Script -> Instruction ->
              EvalState -> option EvalState;
  check_sig : SignatureChecker -> SignatureVersion -> Script -> list Z -> list Z -> option bool;
  (* whether numbers have to be minimally encoded *)
  require_minimal : bool;

  step_data : forall ck sv code o n d st cs, (length d <= 520)%nat -> active cs = true ->
    eval_step ck sv code (mkInstruction o n (Some d)) (mkEval st cs) = Some (mkEval (d :: st) cs);
  step_data_skipped : forall ck sv code o n d st cs, (length d <= 520)%nat -> active cs = false ->
    eval_step ck sv code (mkInstruction o n (Some d)) (mkEval st cs) = Some (mkEval st cs);
  step_data_long : forall ck sv code o n d st cs, (520 < length d)%nat ->
    eval_step ck sv code (mkInstruction o n (Some d)) (mkEval st cs) = None;
  (* the small numbers push at most one byte *)
  step_small : forall ck sv code o n st cs st', op_lt OP_16 o = false -> active cs = true ->
    eval_step ck sv code (mkInstruction o n None) (mkEval st cs) = Some st' ->
    exists v, (length v <= 1)%nat /\ st' = mkEval (v :: st) cs;
  step_skipped : forall ck sv code o st cs, plain_op o = true -> active cs = false ->
    eval_step ck sv code (op o) (mkEval st cs) = Some (mkEval st cs);
  step_op_1 : forall ck sv code st cs, active cs = true ->
    eval_step ck sv code (op OP_1) (mkEval st cs) = Some (mkEval ([1] :: st) cs);
  step_if : forall ck sv code st cs,
    eval_step ck sv code (op OP_IF) (mkEval st cs) =
      if active cs then
        match st with
        | v :: st => Some (mkEval st (cast_to_bool v :: cs))
        | [] => None
        end
      else Some (mkEval st (false :: cs));
  step_else : forall ck sv code st cs,
    eval_step ck sv code (op OP_ELSE) (mkEval st cs) =
      match cs with c :: cs => Some (mkEval st (negb c :: cs)) | [] => None end;
  step_endif : forall ck sv code st cs,
    eval_step ck sv code (op OP_ENDIF) (mkEval st cs) =
      match cs with _ :: cs => Some (mkEval st cs) | [] => None end;
  step_drop : forall ck sv code st cs, active cs = true ->
    eval_step ck sv code (op OP_DROP) (mkEval st cs) =
      match st with _ :: st => Some (mkEval st cs) | [] => None end;
  step_size : forall ck sv code st cs, active cs = true ->
    eval_step ck sv code (op OP_SIZE) (mkEval st cs) =
      match st with
      | v :: st => Some (mkEval (num_to_bytes (num_from (Z.of_nat (length v))) :: v :: st) cs)
      | [] => None
      end;
  step_equalverify : forall ck sv code st cs, active cs = true ->
    eval_step ck sv code (op OP_EQUALVERIFY) (mkEval st cs) =
      match st with
      | a :: b :: st => if decide (a = b) then Some (mkEval st cs) else None
      | _ => None
      end;
  step_hash160 : forall ck sv code st cs, active cs = true ->
    eval_step ck sv code (op OP_HASH160) (mkEval st cs) =
      match st with v :: st => Some (mkEval (dhash160 v :: st) cs) | [] => None end;
  step_checksig : forall ck sv code st cs, active cs = true ->
    eval_step ck sv code (op OP_CHECKSIG) (mkEval st cs) =
      match st with
      | pub :: sig :: st =>
          b ← check_sig ck sv code sig pub; Some (mkEval (bool_element b :: st) cs)
      | _ => None
      end;
  step_checksigverify : forall ck sv code st cs, active cs = true ->
    eval_step ck sv code (op OP_CHECKSIGVERIFY) (mkEval st cs) =
      match st with
      | pub :: sig :: st =>
          b ← check_sig ck sv code sig pub; if (b : bool) then Some (mkEval st cs) else None
      | _ => None
      end;
  (* the lock time stays on the stack *)
  step_cltv : forall ck sv code st cs, active cs = true ->
    eval_step ck sv code (op OP_CHECKLOCKTIMEVERIFY) (mkEval st cs) =
      match st with
      | v :: _ =>
          match num_from_slice v require_minimal 5 with
          | Ok n => if num_is_negative n then None
                    else if decide (check_lock_time ck n = Some true)
                         then Some (mkEval st cs) else None
          | Err _ => None
          end
      | [] => None
      end;

  (* a signature is followed by its hash type; the script covered is the one
     executed, less the pushes of the signature itself *)
  check_sig_sound : forall ck sv code sig pub, check_sig ck sv code sig pub = Some true ->
    exists s ht p code', sig = s ++ [ht] /\ public_from_slice pub = Ok p /\
      check_signature ck s p code' ht sv = Some true /\
      (sig ∉ pushed_data code -> code' = code);
  check_sig_complete : forall ck sv code m sk ht p,
    let s := sig_serialize_der (secp_sign_low_r m sk) in
    sighash_is_defined sv ht = true -> public_ok p -> (s ++ [ht]) ∉ pushed_data code ->
    check_signature ck s p code ht sv = Some true ->
    check_sig ck sv code (s ++ [ht]) (pub_bytes p) = Some true }.

(** ** Executing a script *)

Section Exec.
  Context `{ScriptEngine}.
  Context (ck : SignatureChecker) (sv : SignatureVersion) (code : Script).

Fixpoint run (l : list Instruction) (st : EvalState) : option EvalState :=
  match l with
  | [] => Some st
  | i :: l => st' ← eval_step ck sv code i st; run l st'
  end.

Lemma run_app l1 l2 st : run (l1 ++ l2) st = (st' ← run l1 st; run l2 st').
Proof.
  revert st; induction l1 as [|i l1 IH]; intros st; [done|]. simpl.
  destruct (eval_step _ _ _ i st); [apply IH|done].
Qed.

(** A part of a script that leaves the conditionals as they are: [f] is what it
    does to the stack; in a branch not taken it does nothing. *)
Definition is_block (l : list Instruction) (f : list (list Z) -> option (list (list Z))) : Prop :=
  forall st cs,
    run l (mkEval st cs) =
      if active cs then st' ← f st; Some (mkEval st' cs) else Some (mkEval st cs).

(** One part after another, and the two branches of a conditional. *)
Definition f_then (f1 f2 : list (list Z) -> option (list (list Z))) (st : list (list Z)) :=
  st' ← f1 st; f2 st'.

Definition f_if (f1 f2 : list (list Z) -> option (list (list Z))) (st : list (list Z)) :=
  match st with
  | v :: st => if cast_to_bool v then f1 st else f2 st
  | [] => None
  end.

Lemma block_app l1 l2 f1 f2 :
  is_block l1 f1 -> is_block l2 f2 -> is_block (l1 ++ l2) (f_then f1 f2).
Proof.
  intros Hb1 Hb2 st cs. rewrite run_app, Hb1. destruct (active cs) eqn:E; simpl.
  - unfold f_then. destruct (f1 st); simpl; [|done]. by rewrite Hb2, E.
  - by rewrite Hb2, E.
Qed.

Lemma block_if l1 l2 f1 f2 :
  is_block l1 f1 -> is_block l2 f2 ->
  is_block (op OP_IF :: l1 ++ op OP_ELSE :: l2 ++ [op OP_ENDIF]) (f_if f1 f2).
Proof.
  intros Hb1 Hb2 st cs. unfold f_if. cbn [run]. rewrite step_if. destruct (active cs) eqn:E.
  - destruct st as [|v st]; [done|]. cbn [mbind option_bind].
    rewrite run_app, Hb1. unfold active at 1. cbn [forallb]. fold (active cs). rewrite E.
    destruct (cast_to_bool v); simpl.
    + destruct (f1 st) as [st'|]; [|done]. simpl. rewrite step_else. simpl.
      rewrite run_app, Hb2. simpl. by rewrite step_endif.
    + rewrite step_else. simpl. rewrite run_app, Hb2. unfold active. simpl. fold (active cs). rewrite E.
      destruct (f2 st) as [st'|]; [|done]. simpl. by rewrite step_endif.
  - cbn [mbind option_bind]. rewrite run_app, Hb1. simpl. rewrite step_else. simpl.
    rewrite run_app, Hb2. unfold active. simpl. fold (active cs). rewrite E. simpl.
    by rewrite step_endif.
Qed.

Lemma block_step i f :
  (forall st cs, active cs = true ->
     eval_step ck sv code i (mkEval st cs) = (st' ← f st; Some (mkEval st' cs))) ->
  (forall st cs, active cs = false ->
     eval_step ck sv code i (mkEval st cs) = Some (mkEval st cs)) ->
  is_block [i] f.
Proof.
  intros Ha Hi st cs. cbn [run]. destruct (active cs) eqn:E.
  - rewrite Ha by done. by destruct (f st).
  - by rewrite Hi.
Qed.

Lemma step_psh d st cs : (length d <= 520)%nat ->
  eval_step ck sv code (psh d) (mkEval st cs) =
    Some (mkEval (if active cs then d :: st else st) cs).
Proof.
  intros Hd. unfold psh, action_instr.
  destruct (active cs) eqn:E; [by rewrite step_data|by rewrite step_data_skipped].
Qed.

Lemma block_push d : (length d <= 520)%nat -> is_block [psh d] (fun st => Some (d :: st)).
Proof.
  intros Hd. apply block_step; intros st cs Hc; rewrite step_psh, Hc; done.
Qed.

(** The blocks of the swap scripts. *)

Definition cltv_ok (time_lock : Z) : bool :=
  match num_from_slice (le_split 4 time_lock) require_minimal 5 with
  | Ok n => negb (num_is_negative n) && bool_decide (check_lock_time ck n = Some true)
  | Err _ => false
  end.

Definition checksig (pub sig : list Z) : option (list Z) :=
  b ← check_sig ck sv code sig pub; Some (bool_element b).

Definition f_drop (st : list (list Z)) : option (list (list Z)) :=
  match st with _ :: st => Some st | [] => None end.

Lemma block_drop : is_block [op OP_DROP] f_drop.
Proof.
  apply block_step; intros st cs Hc; [rewrite step_drop by done; by destruct st|by apply step_skipped].
Qed.

Definition f_sig (pub : list Z) (st : list (list Z)) : option (list (list Z)) :=
  match st with sig :: st => r ← checksig pub sig; Some (r :: st) | [] => None end.

Lemma block_sig pub : (length pub <= 520)%nat ->
  is_block [psh pub; op OP_CHECKSIG] (f_sig pub).
Proof.
  intros Hp. change [psh pub; op OP_CHECKSIG] with ([psh pub] ++ [op OP_CHECKSIG]).
  intros st cs. rewrite run_app, (block_push pub Hp). destruct (active cs) eqn:E.
  - cbn [mbind option_bind run]. rewrite step_checksig by done.
    destruct st as [|sig st]; [done|]. unfold f_sig, checksig.
    by destruct (check_sig ck sv code sig pub).
  - cbn [mbind option_bind run]. by rewrite step_skipped.
Qed.

Definition f_sigverify (pub : list Z) (st : list (list Z)) : option (list (list Z)) :=
  match st with
  | sig :: st => b ← check_sig ck sv code sig pub; if (b : bool) then Some st else None
  | [] => None
  end.

Lemma block_sigverify pub : (length pub <= 520)%nat ->
  is_block [psh pub; op OP_CHECKSIGVERIFY] (f_sigverify pub).
Proof.
  intros Hp. change [psh pub; op OP_CHECKSIGVERIFY] with ([psh pub] ++ [op OP_CHECKSIGVERIFY]).
  intros st cs. rewrite run_app, (block_push pub Hp). destruct (active cs) eqn:E.
  - cbn [mbind option_bind run]. rewrite step_checksigverify by done.
    destruct st as [|sig st]; [done|]. unfold f_sigverify.
    destruct (check_sig ck sv code sig pub) as [[]|]; done.
  - cbn [mbind option_bind run]. by rewrite step_skipped.
Qed.

Definition refund_part (time_lock : Z) (pub : list Z) : list Instruction :=
  [psh (le_split 4 time_lock); op OP_CHECKLOCKTIMEVERIFY; op OP_DROP] ++ [psh pub; op OP_CHECKSIG].

Definition f_refund (time_lock : Z) (pub : list Z) (st : list (list Z)) :=
  if cltv_ok time_lock then f_sig pub st else None.

Lemma block_refund time_lock pub : (length pub <= 520)%nat ->
  is_block (refund_part time_lock pub)
    (f_refund time_lock pub).
Proof.
  intros Hp st cs. pose proof (block_sig pub Hp st cs) as Hsig. cbn [run] in Hsig.
  unfold refund_part. rewrite run_app.
  change ([psh (le_split 4 time_lock); op OP_CHECKLOCKTIMEVERIFY; op OP_DROP])
    with ([psh (le_split 4 time_lock)] ++ [op OP_CHECKLOCKTIMEVERIFY; op OP_DROP]).
  rewrite run_app, block_push by (rewrite le_split_length; lia).
  destruct (active cs) eqn:E; cbn [mbind option_bind run].
  - rewrite step_cltv by done. unfold f_refund, cltv_ok.
    destruct (num_from_slice _ _ _) as [n|e]; [|done].
    destruct (num_is_negative n); [done|]. simpl.
    destruct (decide (check_lock_time ck n = Some true)) as [Hl|Hl].
    + rewrite bool_decide_eq_true_2 by done. simpl. rewrite step_drop by done. simpl.
      by rewrite Hsig.
    + by rewrite bool_decide_eq_false_2.
  - rewrite step_skipped by done. simpl. rewrite step_skipped by done. simpl. by rewrite Hsig.
Qed.

Definition hash_part (hash : list Z) : list Instruction :=
  [op OP_SIZE; psh [32]; op OP_EQUALVERIFY; op OP_HASH160; psh hash; op OP_EQUALVERIFY].

Lemma size_is_32 n : 0 <= n -> num_to_bytes (num_from n) = [32] <-> n = 32.
Proof.
  intros Hn. split; [|by intros ->].
  unfold num_to_bytes. cbn [value num_from]. destruct (n =? 0) eqn:E0; [done|].
  destruct (n <? 0) eqn:E1; [lia|]. cbn [num_le_bytes].
  destruct (n >? 0) eqn:E2; [|rewrite Z.gtb_ltb in E2; lia].
  rewrite Z.shiftr_div_pow2 by lia. change (2 ^ 8) with 256.
  destruct (n / 256 >? 0) eqn:E3.
  - match goal with |- context [wrap 8 n :: ?l] => assert (l <> []) by done; set (tl := l) in * end.
    clearbody tl. destruct (negb _); intros Hx; apply (f_equal length) in Hx;
      rewrite ?length_app in Hx; simpl in Hx; destruct tl; simpl in *; try lia; done.
  - rewrite Z.gtb_ltb in E3. apply Z.ltb_ge in E3.
    assert (n / 256 = 0) by (pose proof (Z.div_pos n 256); lia).
    destruct (negb _); intros Hx; [discriminate Hx|]. injection Hx as Hx.
    unfold wrap in Hx. change (2 ^ 8) with 256 in Hx.
    pose proof (Z.div_mod n 256 ltac:(lia)). lia.
Qed.

Definition secret_ok (hash secret : list Z) : bool :=
  bool_decide (length secret = 32%nat /\ dhash160 secret = hash).

Definition f_hash (hash : list Z) (st : list (list Z)) : option (list (list Z)) :=
  match st with
  | secret :: st => if secret_ok hash secret then Some st else None
  | [] => None
  end.

Lemma block_hash hash : (length hash <= 520)%nat ->
  is_block (hash_part hash) (f_hash hash).
Proof.
  intros Hh st cs. unfold hash_part, f_hash, secret_ok. cbn [run].
  assert (H32 : (length [32%Z] <= 520)%nat) by (simpl; lia).
  destruct (active cs) eqn:E.
  - rewrite step_size by done. destruct st as [|secret st]; [done|]. cbn [mbind option_bind].
    rewrite step_psh, E by done.
    cbn [mbind option_bind]. rewrite step_equalverify by done.
    destruct (decide ([32] = _)) as [Hs|Hs].
    + symmetry in Hs. apply size_is_32 in Hs; [|lia].
      cbn [mbind option_bind]. rewrite step_hash160 by done. cbn [mbind option_bind].
      rewrite step_psh, E by done. cbn [mbind option_bind].
      rewrite step_equalverify by done. destruct (decide (hash = _)) as [Hd|Hd].
      * rewrite bool_decide_eq_true_2; [done|]. split; [lia|done].
      * rewrite bool_decide_eq_false_2; [done|]. intros [_ ?]. congruence.
    + rewrite bool_decide_eq_false_2; [done|]. intros [Hl _]. apply Hs. symmetry.
      apply size_is_32; lia.
  - repeat first [rewrite step_skipped by done | rewrite step_psh, E by done
                 | progress cbn [mbind option_bind]]. done.
Qed.
End Exec.

(** ** Whole scripts *)

Definition ok_instruction {E} (r : result E Instruction) : option Instruction :=
  match r with Ok i => Some i | Err _ => None end.

Section Scripts.
  Context `{ScriptEngine}.

(** The stack after a script; every conditional has to be closed. *)
Definition eval_script (ck : SignatureChecker) (sv : SignatureVersion) (s : Script)
  (st : list (list Z)) : option (list (list Z)) :=
  l ← iter s; ins ← mapM ok_instruction l; final ← run ck sv s ins (mkEval st []);
  if is_nil (conds final) then Some (stack final) else None.

Definition top_true (st : option (list (list Z))) : bool :=
  match st with Some (v :: _) => cast_to_bool v | _ => false end.

(** The outputs that pay to the hash of a script: the spender's script only
    pushes; its last push is a script with that hash that accepts the others. *)
Definition p2sh_accepts (ck : SignatureChecker) (sv : SignatureVersion) (hash : list Z)
  (script_sig : Script) : bool :=
  match is_push_only script_sig, eval_script ck sv script_sig [] with
  | Some true, Some (redeem :: st) =>
      bool_decide (dhash160 redeem = hash) && top_true (eval_script ck sv redeem st)
  | _, _ => false
  end.

Lemma mapM_ok acts :
  mapM (ok_instruction (E:=Script.Error)) (map (fun a => Ok (action_instr a)) acts) = Some (map action_instr acts).
Proof. by induction acts as [|a acts IH]; [|simpl; rewrite IH]. Qed.

Lemma eval_build acts s ck sv st :
  Forall action_ok acts -> build acts = Some s ->
  eval_script ck sv s st =
    (final ← run ck sv s (map action_instr acts) (mkEval st []);
     if is_nil (conds final) then Some (stack final) else None).
Proof.
  intros Ha Hs. destruct (build_iter acts Ha) as (s' & Hs' & Hi). simplify_eq.
  unfold eval_script. rewrite Hi. simpl. by rewrite mapM_ok.
Qed.

Lemma eval_block acts s ck sv f st :
  Forall action_ok acts -> build acts = Some s ->
  is_block ck sv s (map action_instr acts) f ->
  eval_script ck sv s st = f st.
Proof.
  intros Ha Hs Hb. rewrite (eval_build acts) by done. rewrite Hb. simpl.
  by destruct (f st).
Qed.
(** ** Scripts that only push *)

Definition is_push (i : Instruction) : Prop := op_lt OP_16 (opcode i) = false.

Lemma push_only_loop_iter fuel s pc l :
  is_push_only_loop fuel s pc = Some true -> iter_from fuel s pc = Some l ->
  exists ins, l = map Ok ins /\ Forall is_push ins.
Proof.
  revert pc l. induction fuel as [|fuel IH]; intros pc l; cbn [is_push_only_loop iter_from].
  { intros _ [= <-]. by exists []. }
  unfold instructions_next. destruct (pc <? length s)%nat eqn:E.
  - apply Nat.ltb_lt in E. rewrite (proj2 (Nat.leb_gt _ _)) by lia.
    destruct (get_instruction_at s pc) as [[i|e]|]; simpl; [|done..].
    destruct (op_lt OP_16 (opcode i)) eqn:Eo; [done|]. intros Hp.
    destruct (iter_from fuel s (pc + step i)) as [rest|] eqn:Er; [|done]. intros [= <-].
    destruct (IH _ _ Hp Er) as (ins & -> & Hi). exists (i :: ins). by split; [|constructor].
  - apply Nat.ltb_ge in E. rewrite (proj2 (Nat.leb_le _ _)) by lia. intros _ [= <-]. by exists [].
Qed.

Lemma push_only_iter s l :
  is_push_only s = Some true -> iter s = Some l -> exists ins, l = map Ok ins /\ Forall is_push ins.
Proof. apply push_only_loop_iter. Qed.

Lemma push_only_loop_encode fuel ins pre :
  Forall instr_ok ins -> Forall is_push ins ->
  is_push_only_loop fuel (pre ++ concat (map encode ins)) (length pre) = Some true.
Proof.
  intros Hi Hp. revert pre fuel. induction Hi as [|i ins Hi _ IH]; intros pre fuel;
    destruct fuel as [|fuel]; cbn [map concat is_push_only_loop]; try done.
  { by rewrite app_nil_r, Nat.ltb_irrefl. }
  inversion Hp as [|? ? Hi' Hp']; subst. pose proof (encode_length_pos i).
  rewrite (proj2 (Nat.ltb_lt _ _)) by (rewrite !length_app; lia).
  rewrite get_instruction_at_encode by done. cbn [mbind option_bind].
  rewrite Hi'. replace (length pre + step i)%nat with (length (pre ++ encode i))
    by (rewrite length_app; by destruct Hi as [-> _]).
  rewrite app_assoc. by apply IH.
Qed.

(** What is on the stack after pushes: pushed data or a small number. *)
Lemma run_pushes ck sv code ins st st' :
  Forall is_push ins -> run ck sv code ins (mkEval st []) = Some st' ->
  exists st2, st' = mkEval (st2 ++ st) [] /\
    Forall (fun v => (length v <= 1)%nat \/ exists i, i ∈ ins /\ data i = Some v) st2.
Proof.
  intros Hp. revert st. induction Hp as [|i ins Hi _ IH]; intros st; cbn [run].
  { intros [= <-]. by exists []. }
  destruct (eval_step ck sv code i (mkEval st [])) as [st1|] eqn:E; [|done]. simpl.
  assert (exists v, st1 = mkEval (v :: st) [] /\ ((length v <= 1)%nat \/ data i = Some v))
    as (v & -> & Hv).
  { destruct i as [o n [d|]]; cbn in *.
    - destruct (decide (length d <= 520)%nat).
      + rewrite step_data in E by done. simplify_eq. eauto.
      + rewrite step_data_long in E by lia. done.
    - apply step_small in E as (v & Hv & ->); eauto. }
  intros Hr. apply IH in Hr as (st2 & -> & H2). exists (st2 ++ [v]). rewrite <- app_assoc.
  split; [done|]. apply Forall_app; split.
  - eapply Forall_impl; [exact H2|]. intros x [?|(j & ? & ?)]; [by left|right]. exists j. split; [by right|done].
  - constructor; [|done]. destruct Hv; [by left|right]. exists i. split; [by left|done].
Qed.

(** The pushes of an action list, from the first pushed to the last. *)
Definition pushed (a : Action) : list Z :=
  match a with AData d => d | AOp OP_1 => [1] | AOp _ => [] end.

Definition push_action (a : Action) : Prop :=
  match a with AData d => (length d <= 520)%nat | AOp o => o = OP_0 \/ o = OP_1 end.

Lemma push_action_ok a : push_action a -> action_ok a /\ is_push (action_instr a).
Proof.
  destruct a as [o|d]; simpl.
  - intros [->| ->]; split; [by left|done|by right|done].
  - intros Hd. split; [lia|]. unfold is_push, op_lt. cbn [action_instr opcode].
    set (n := Z.of_nat (length d)).
    destruct (n <? 76) eqn:E.
    + destruct (push_op_small n) as (-> & _); [lia|]. apply Z.ltb_ge.
      change (op_u8 OP_16) with 96. lia.
    + unfold push_op. rewrite E. by repeat case_match.
Qed.

Lemma run_push_actions ck sv code acts st :
  Forall push_action acts ->
  run ck sv code (map action_instr acts) (mkEval st []) =
    Some (mkEval (rev (map pushed acts) ++ st) []).
Proof.
  intros Ha. revert st. induction Ha as [|a acts Ha _ IH]; intros st; [done|].
  cbn [map run rev]. rewrite <- app_assoc. cbn [app].
  assert (eval_step ck sv code (action_instr a) (mkEval st []) =
          Some (mkEval (pushed a :: st) [])) as ->; [|apply IH].
  destruct a as [o|d]; simpl in Ha.
  - destruct Ha as [-> | ->]; [by apply step_data; simpl; [lia|]|by apply step_op_1].
  - by apply step_data.
Qed.

Lemma p2sh_build ck sv hash acts redeem ss :
  Forall push_action acts -> (length redeem <= 520)%nat ->
  build (acts ++ [AData redeem]) = Some ss ->
  p2sh_accepts ck sv hash ss =
    bool_decide (dhash160 redeem = hash) && top_true (eval_script ck sv redeem (rev (map pushed acts))).
Proof.
  intros Ha Hr Hs.
  assert (Hp : Forall push_action (acts ++ [AData redeem])) by (apply Forall_app; split; [done|by constructor]).
  assert (Hok : Forall action_ok (acts ++ [AData redeem])).
  { eapply Forall_impl; [exact Hp|]. by intros a (? & ?)%push_action_ok. }
  unfold p2sh_accepts. rewrite (eval_build _ _ _ _ _ Hok Hs), run_push_actions by done.
  rewrite map_app, rev_app_distr. cbn [map rev app mbind option_bind conds is_nil stack].
  rewrite app_nil_r.
  assert (is_push_only ss = Some true) as ->; [|done].
  revert Hs. unfold build, builder_default. rewrite build_app by done. intros [= <-]. cbn [app].
  rewrite <- (map_map action_instr encode). apply (push_only_loop_encode _ _ []).
  - apply Forall_map. eapply Forall_impl; [exact Hok|]. apply action_instr_ok.
  - apply Forall_map. eapply Forall_impl; [exact Hp|]. by intros a (? & ?)%push_action_ok.
Qed.
End Scripts.
