(* ===== verification/HtlcScripts.v ===== *)
(** * The scripts of the swaps of UTXO coins
    (mm2src/coins/utxo/utxo_common.rs, swap_proto_v2_scripts.rs, lp_coins.rs)

    The scripts that the payments of the legacy protocol and of the upgraded
    protocol pay to, as the builder makes them, and what a node of the network
    makes of each on any stack. *)

From S2P Require Import Prelude SwapV2 Opcode Keys Script ScriptProps Serialization Transaction Sign ScriptEngine.
Local Open Scope Z_scope.

Section Scripts.
  Context `{BitCrypto}.

(** A secret hash of 32 bytes is the SHA256 of the secret. *)
Definition script_secret_hash (secret_hash : list Z) : list Z :=
  if (length secret_hash =? 32)%nat then ripemd160 secret_hash else secret_hash.

Definition payment_script (time_lock : Z) (secret_hash : list Z) (pub_0 pub_1 : Public)
  : option Script :=
  builder_default
  |> push_opcode OP_IF
  |> push_data (le_split 4 time_lock)
  |> push_opcode OP_CHECKLOCKTIMEVERIFY
  |> push_opcode OP_DROP
  |> push_data (pub_bytes pub_0)
  |> push_opcode OP_CHECKSIG
  |> push_opcode OP_ELSE
  |> push_opcode OP_SIZE
  |> push_data [32]
  |> push_opcode OP_EQUALVERIFY
  |> push_opcode OP_HASH160
  |> push_data (script_secret_hash secret_hash)
  |> push_opcode OP_EQUALVERIFY
  |> push_data (pub_bytes pub_1)
  |> push_opcode OP_CHECKSIG
  |> push_opcode OP_ENDIF
  |> into_script.

Definition dex_fee_script (uuid : list Z) (time_lock : Z) (watcher_pub sender_pub : Public)
  : option Script :=
  builder_default
  |> push_data uuid
  |> push_opcode OP_DROP
  |> push_opcode OP_IF
  |> push_data (le_split 4 time_lock)
  |> push_opcode OP_CHECKLOCKTIMEVERIFY
  |> push_opcode OP_DROP
  |> push_data (pub_bytes sender_pub)
  |> push_opcode OP_CHECKSIG
  |> push_opcode OP_ELSE
  |> push_data (pub_bytes watcher_pub)
  |> push_opcode OP_CHECKSIG
  |> push_opcode OP_ENDIF
  |> into_script.

Definition taker_funding_script (time_lock : Z) (taker_secret_hash : list Z)
  (taker_pub maker_pub : Public) : option Script :=
  builder_default
  |> push_opcode OP_IF
  |> push_data (le_split 4 time_lock)
  |> push_opcode OP_CHECKLOCKTIMEVERIFY
  |> push_opcode OP_DROP
  |> push_data (pub_bytes taker_pub)
  |> push_opcode OP_CHECKSIG
  |> push_opcode OP_ELSE
  |> push_opcode OP_IF
  |> push_data (pub_bytes taker_pub)
  |> push_opcode OP_CHECKSIGVERIFY
  |> push_data (pub_bytes maker_pub)
  |> push_opcode OP_CHECKSIG
  |> push_opcode OP_ELSE
  |> push_opcode OP_SIZE
  |> push_data [32]
  |> push_opcode OP_EQUALVERIFY
  |> push_opcode OP_HASH160
  |> push_data (script_secret_hash taker_secret_hash)
  |> push_opcode OP_EQUALVERIFY
  |> push_data (pub_bytes taker_pub)
  |> push_opcode OP_CHECKSIG
  |> push_opcode OP_ENDIF
  |> push_opcode OP_ENDIF
  |> into_script.

Definition taker_payment_script (time_lock : Z) (maker_secret_hash : list Z)
  (taker_pub maker_pub : Public) : option Script :=
  builder_default
  |> push_opcode OP_IF
  |> push_data (le_split 4 time_lock)
  |> push_opcode OP_CHECKLOCKTIMEVERIFY
  |> push_opcode OP_DROP
  |> push_data (pub_bytes taker_pub)
  |> push_opcode OP_CHECKSIG
  |> push_opcode OP_ELSE
  |> push_opcode OP_SIZE
  |> push_data [32]
  |> push_opcode OP_EQUALVERIFY
  |> push_opcode OP_HASH160
  |> push_data (script_secret_hash maker_secret_hash)
  |> push_opcode OP_EQUALVERIFY
  |> push_data (pub_bytes taker_pub)
  |> push_opcode OP_CHECKSIGVERIFY
  |> push_data (pub_bytes maker_pub)
  |> push_opcode OP_CHECKSIG
  |> push_opcode OP_ENDIF
  |> into_script.

Definition maker_payment_script (time_lock : Z) (maker_secret_hash taker_secret_hash : list Z)
  (maker_pub taker_pub : Public) : option Script :=
  builder_default
  |> push_opcode OP_IF
  |> push_data (le_split 4 time_lock)
  |> push_opcode OP_CHECKLOCKTIMEVERIFY
  |> push_opcode OP_DROP
  |> push_data (pub_bytes maker_pub)
  |> push_opcode OP_CHECKSIG
  |> push_opcode OP_ELSE
  |> push_opcode OP_IF
  |> push_opcode OP_SIZE
  |> push_data [32]
  |> push_opcode OP_EQUALVERIFY
  |> push_opcode OP_HASH160
  |> push_data (script_secret_hash maker_secret_hash)
  |> push_opcode OP_EQUALVERIFY
  |> push_data (pub_bytes taker_pub)
  |> push_opcode OP_CHECKSIG
  |> push_opcode OP_ELSE
  |> push_opcode OP_SIZE
  |> push_data [32]
  |> push_opcode OP_EQUALVERIFY
  |> push_opcode OP_HASH160
  |> push_data (script_secret_hash taker_secret_hash)
  |> push_opcode OP_EQUALVERIFY
  |> push_data (pub_bytes maker_pub)
  |> push_opcode OP_CHECKSIG
  |> push_opcode OP_ENDIF
  |> push_opcode OP_ENDIF
  |> into_script.

(** [SwapTxTypeWithSecretHash::redeem_script]. *)
Definition redeem_script (self : SwapTxTypeWithSecretHash) (time_lock : Z)
  (my_public other_public : Public) : option Script :=
  match self with
  | TakerOrMakerPayment maker_secret_hash =>
      payment_script time_lock maker_secret_hash my_public other_public
  | TakerFundingType taker_secret_hash =>
      taker_funding_script time_lock taker_secret_hash my_public other_public
  | MakerPaymentV2 maker_secret_hash taker_secret_hash =>
      maker_payment_script time_lock maker_secret_hash taker_secret_hash my_public other_public
  | TakerPaymentV2 maker_secret_hash _ =>
      taker_payment_script time_lock maker_secret_hash my_public other_public
  end.

Definition op_return_data (self : SwapTxTypeWithSecretHash) : list Z :=
  match self with
  | TakerOrMakerPayment maker_secret_hash => maker_secret_hash
  | TakerFundingType taker_secret_hash => taker_secret_hash
  | MakerPaymentV2 maker_secret_hash taker_secret_hash => maker_secret_hash ++ taker_secret_hash
  | TakerPaymentV2 maker_secret_hash _ => maker_secret_hash
  end.
End Scripts.

(** ** The scripts as instructions *)

Definition if_acts (a b : list Action) : list Action :=
  AOp OP_IF :: a ++ AOp OP_ELSE :: b ++ [AOp OP_ENDIF].
Definition refund_acts (time_lock : Z) (pub : Public) : list Action :=
  [AData (le_split 4 time_lock); AOp OP_CHECKLOCKTIMEVERIFY; AOp OP_DROP]
  ++ [AData (pub_bytes pub); AOp OP_CHECKSIG].
Definition hash_acts (hash : list Z) : list Action :=
  [AOp OP_SIZE; AData [32]; AOp OP_EQUALVERIFY; AOp OP_HASH160; AData hash; AOp OP_EQUALVERIFY].
Definition sig_acts (pub : Public) : list Action := [AData (pub_bytes pub); AOp OP_CHECKSIG].
Definition sigverify_acts (pub : Public) : list Action :=
  [AData (pub_bytes pub); AOp OP_CHECKSIGVERIFY].

(** What is asked of the arguments of a script: keys of their lengths and a
    secret hash that a stack element can hold. *)
Definition hash_fits (hash : list Z) : Prop := (length hash <= 520)%nat.

Section Acts.
  Context `{BitCrypto}.

Definition payment_acts tl sh p0 p1 : list Action :=
  if_acts (refund_acts tl p0) (hash_acts (script_secret_hash sh) ++ sig_acts p1).
Definition dex_fee_acts uuid tl watcher sender : list Action :=
  [AData uuid; AOp OP_DROP] ++ if_acts (refund_acts tl sender) (sig_acts watcher).
Definition taker_funding_acts tl sh taker maker : list Action :=
  if_acts (refund_acts tl taker)
    (if_acts (sigverify_acts taker ++ sig_acts maker)
             (hash_acts (script_secret_hash sh) ++ sig_acts taker)).
Definition taker_payment_acts tl sh taker maker : list Action :=
  if_acts (refund_acts tl taker)
    (hash_acts (script_secret_hash sh) ++ sigverify_acts taker ++ sig_acts maker).
Definition maker_payment_acts tl maker_sh taker_sh maker taker : list Action :=
  if_acts (refund_acts tl maker)
    (if_acts (hash_acts (script_secret_hash maker_sh) ++ sig_acts taker)
             (hash_acts (script_secret_hash taker_sh) ++ sig_acts maker)).

Definition redeem_acts (self : SwapTxTypeWithSecretHash) tl my other : list Action :=
  match self with
  | TakerOrMakerPayment sh => payment_acts tl sh my other
  | TakerFundingType sh => taker_funding_acts tl sh my other
  | MakerPaymentV2 msh tsh => maker_payment_acts tl msh tsh my other
  | TakerPaymentV2 msh _ => taker_payment_acts tl msh my other
  end.

Lemma redeem_script_acts self tl my other :
  redeem_script self tl my other = build (redeem_acts self tl my other).
Proof. by destruct self. Qed.

Lemma dex_fee_script_acts uuid tl w s :
  dex_fee_script uuid tl w s = build (dex_fee_acts uuid tl w s).
Proof. done. Qed.

Definition tx_type_fits (self : SwapTxTypeWithSecretHash) : Prop :=
  match self with
  | TakerOrMakerPayment sh | TakerFundingType sh | TakerPaymentV2 sh _ => hash_fits sh
  | MakerPaymentV2 msh tsh => hash_fits msh /\ hash_fits tsh
  end.

Lemma secret_hash_fits sh : hash_fits sh -> hash_fits (script_secret_hash sh).
Proof.
  unfold hash_fits, script_secret_hash. case_match; [|done]. rewrite ripemd160_length. lia.
Qed.

Lemma pub_fits p : public_ok p -> (length (pub_bytes p) <= 520)%nat.
Proof. intros Hp. destruct (pub_bytes_length p Hp); lia. Qed.

Lemma data_ok d : (length d <= 520)%nat -> action_ok (AData d).
Proof. simpl. lia. Qed.

Lemma if_acts_ok a b : Forall action_ok a -> Forall action_ok b -> Forall action_ok (if_acts a b).
Proof.
  intros Ha Hb. unfold if_acts.
  repeat first [apply Forall_cons; split|apply Forall_app; split|done|by right|constructor].
Qed.

Lemma app_acts_ok a b : Forall action_ok a -> Forall action_ok b -> Forall action_ok (a ++ b).
Proof. intros. by apply Forall_app. Qed.

Lemma refund_acts_ok tl p : public_ok p -> Forall action_ok (refund_acts tl p).
Proof.
  intros Hp%pub_fits. unfold refund_acts. cbn [app].
  assert (Hl : (length (le_split 4 tl) <= 520)%nat) by (rewrite le_split_length; lia).
  repeat (constructor; [first [by apply data_ok|by right]|]).
  constructor.
Qed.

Lemma sig_acts_ok p : public_ok p -> Forall action_ok (sig_acts p).
Proof. intros Hp%pub_fits%data_ok. constructor; [done|]. constructor; [by right|done]. Qed.

Lemma sigverify_acts_ok p : public_ok p -> Forall action_ok (sigverify_acts p).
Proof. intros Hp%pub_fits%data_ok. constructor; [done|]. constructor; [by right|done]. Qed.

Lemma hash_acts_ok sh : hash_fits sh -> Forall action_ok (hash_acts (script_secret_hash sh)).
Proof.
  intros Hs%secret_hash_fits%data_ok. unfold hash_acts.
  repeat (constructor; [first [by right|done]|]). constructor.
Qed.
End Acts.

(** ** What the scripts ask for

    The specification of a payment: the ways to spend it.  The top of the stack
    selects the way; then come the secret where one is asked for and a
    signature for each key. *)

Record Path : Type := mkPath {
  selector : list bool;
  after : option Z;
  secret_of : option (list Z);
  signers : list Public }.

Section Policy.
  Context `{BitCrypto}.

Definition policy (self : SwapTxTypeWithSecretHash) (time_lock : Z) (my other : Public)
  : list Path :=
  match self with
  | TakerOrMakerPayment sh =>
      [mkPath [true] (Some time_lock) None [my];
       mkPath [false] None (Some (script_secret_hash sh)) [other]]
  | TakerFundingType sh =>
      [mkPath [true] (Some time_lock) None [my];
       mkPath [false; true] None None [my; other];
       mkPath [false; false] None (Some (script_secret_hash sh)) [my]]
  | MakerPaymentV2 msh tsh =>
      [mkPath [true] (Some time_lock) None [my];
       mkPath [false; true] None (Some (script_secret_hash msh)) [other];
       mkPath [false; false] None (Some (script_secret_hash tsh)) [my]]
  | TakerPaymentV2 msh _ =>
      [mkPath [true] (Some time_lock) None [my];
       mkPath [false] None (Some (script_secret_hash msh)) [my; other]]
  end.
End Policy.

Fixpoint take_selectors (sel : list bool) (st : list (list Z)) : option (list (list Z)) :=
  match sel, st with
  | [], _ => Some st
  | b :: sel, v :: st => if Bool.eqb (cast_to_bool v) b then take_selectors sel st else None
  | _, [] => None
  end.

Create HintDb htlc.
#[export] Hint Constants Opaque : htlc.
#[export] Hint Resolve if_acts_ok app_acts_ok refund_acts_ok hash_acts_ok sig_acts_ok
  sigverify_acts_ok : htlc.

Section Accepts.
  Context `{ScriptEngine}.
  Context (ck : SignatureChecker) (sv : SignatureVersion) (code : Script).

Definition sig_ok (pub sig : list Z) : bool :=
  bool_decide (check_sig ck sv code sig pub = Some true).

Fixpoint sigs_ok (keys : list Public) (st : list (list Z)) : bool :=
  match keys, st with
  | [], _ => true
  | k :: keys, sig :: st => sig_ok (pub_bytes k) sig && sigs_ok keys st
  | _, [] => false
  end.

Definition lock_ok (after : option Z) : bool :=
  match after with Some time_lock => cltv_ok ck time_lock | None => true end.

Definition secret_sigs_ok (p : Path) (st : list (list Z)) : bool :=
  match secret_of p, st with
  | None, _ => sigs_ok (signers p) st
  | Some hash, secret :: st => secret_ok hash secret && sigs_ok (signers p) st
  | Some _, [] => false
  end.

Definition path_ok (p : Path) (st : list (list Z)) : bool :=
  match take_selectors (selector p) st with
  | Some st => lock_ok (after p) && secret_sigs_ok p st
  | None => false
  end.

(** ** The scripts as blocks *)

Definition redeem_fun (self : SwapTxTypeWithSecretHash) (tl : Z) (my other : Public)
  : list (list Z) -> option (list (list Z)) :=
  let refund := f_refund ck sv code tl (pub_bytes my) in
  let sig p := f_sig ck sv code (pub_bytes p) in
  let sigverify p := f_sigverify ck sv code (pub_bytes p) in
  let hash sh := f_hash (script_secret_hash sh) in
  match self with
  | TakerOrMakerPayment sh => f_if refund (f_then (hash sh) (sig other))
  | TakerFundingType sh =>
      f_if refund (f_if (f_then (sigverify my) (sig other)) (f_then (hash sh) (sig my)))
  | MakerPaymentV2 msh tsh =>
      f_if refund (f_if (f_then (hash msh) (sig other)) (f_then (hash tsh) (sig my)))
  | TakerPaymentV2 msh _ =>
      f_if refund (f_then (hash msh) (f_then (sigverify my) (sig other)))
  end.

Lemma if_acts_block a b f g :
  is_block ck sv code (map action_instr a) f -> is_block ck sv code (map action_instr b) g ->
  is_block ck sv code (map action_instr (if_acts a b)) (f_if f g).
Proof.
  intros Ha Hb. unfold if_acts. cbn [map]. rewrite map_app. cbn [map]. rewrite map_app.
  by apply block_if.
Qed.

Lemma acts_app_block a b f g :
  is_block ck sv code (map action_instr a) f -> is_block ck sv code (map action_instr b) g ->
  is_block ck sv code (map action_instr (a ++ b)) (f_then f g).
Proof. intros Ha Hb. rewrite map_app. by apply block_app. Qed.

Lemma refund_acts_block tl p : public_ok p ->
  is_block ck sv code (map action_instr (refund_acts tl p)) (f_refund ck sv code tl (pub_bytes p)).
Proof. intros Hp%pub_fits. exact (block_refund ck sv code tl (pub_bytes p) Hp). Qed.

Lemma sig_acts_block p : public_ok p ->
  is_block ck sv code (map action_instr (sig_acts p)) (f_sig ck sv code (pub_bytes p)).
Proof. intros Hp%pub_fits. exact (block_sig ck sv code (pub_bytes p) Hp). Qed.

Lemma sigverify_acts_block p : public_ok p ->
  is_block ck sv code (map action_instr (sigverify_acts p)) (f_sigverify ck sv code (pub_bytes p)).
Proof. intros Hp%pub_fits. exact (block_sigverify ck sv code (pub_bytes p) Hp). Qed.

Lemma hash_acts_block sh : hash_fits sh ->
  is_block ck sv code (map action_instr (hash_acts (script_secret_hash sh)))
    (f_hash (script_secret_hash sh)).
Proof. intros Hs%secret_hash_fits. exact (block_hash ck sv code _ Hs). Qed.

#[local] Hint Resolve if_acts_block acts_app_block refund_acts_block sig_acts_block
  sigverify_acts_block hash_acts_block : htlc.

Lemma redeem_block self tl my other :
  tx_type_fits self -> public_ok my -> public_ok other ->
  is_block ck sv code (map action_instr (redeem_acts self tl my other)) (redeem_fun self tl my other).
Proof.
  intros Hs Hm Ho. destruct self; cbn [tx_type_fits] in Hs; try destruct Hs as [Hs Ht];
    cbn [redeem_acts redeem_fun];
    unfold payment_acts, taker_funding_acts, taker_payment_acts, maker_payment_acts;
    auto 8 with htlc.
Qed.

Lemma redeem_acts_ok self tl my other :
  tx_type_fits self -> public_ok my -> public_ok other ->
  Forall action_ok (redeem_acts self tl my other).
Proof.
  intros Hs Hm Ho. destruct self; cbn [tx_type_fits] in Hs; try destruct Hs as [Hs Ht];
    cbn [redeem_acts];
    unfold payment_acts, taker_funding_acts, taker_payment_acts, maker_payment_acts;
    auto 8 with htlc.
Qed.

(** ** The scripts implement the policy *)

Lemma sig_true pub st :
  top_true (f_sig ck sv code (pub_bytes pub) st) = sigs_ok [pub] st.
Proof.
  unfold f_sig, checksig. simpl. destruct st as [|sig st]; [done|]. unfold sig_ok.
  destruct (check_sig ck sv code sig (pub_bytes pub)) as [[]|]; done.
Qed.

Lemma sigverify_true pub f st b :
  (forall st, top_true (f st) = sigs_ok b st) ->
  top_true (f_then (f_sigverify ck sv code (pub_bytes pub)) f st) = sigs_ok (pub :: b) st.
Proof.
  intros Hf. unfold f_then, f_sigverify. simpl. destruct st as [|sig st]; [done|]. unfold sig_ok.
  destruct (check_sig ck sv code sig (pub_bytes pub)) as [[]|]; simpl; [apply Hf|done..].
Qed.

Lemma refund_true tl pub st :
  top_true (f_refund ck sv code tl (pub_bytes pub) st) = cltv_ok ck tl && sigs_ok [pub] st.
Proof. unfold f_refund. destruct (cltv_ok ck tl); [apply sig_true|done]. Qed.

Lemma hash_true hash f st keys :
  (forall st, top_true (f st) = sigs_ok keys st) ->
  top_true (f_then (f_hash hash) f st) =
    match st with secret :: st => secret_ok hash secret && sigs_ok keys st | [] => false end.
Proof.
  intros Hf. unfold f_then, f_hash. destruct st as [|secret st]; [done|].
  destruct (secret_ok hash secret); simpl; [apply Hf|done].
Qed.

Lemma if_true f g st :
  top_true (f_if f g st) =
    match st with v :: st => if cast_to_bool v then top_true (f st) else top_true (g st)
             | [] => false end.
Proof. destruct st as [|v st]; [done|]. simpl. by destruct (cast_to_bool v). Qed.

Lemma redeem_fun_policy self tl my other st :
  top_true (redeem_fun self tl my other st) =
    existsb (fun p => path_ok p st) (policy self tl my other).
Proof.
  destruct self; cbn [redeem_fun policy]; rewrite if_true; unfold path_ok;
    (destruct st as [|v st]; [done|]); destruct (cast_to_bool v) eqn:Ev;
    cbn [existsb selector take_selectors after secret_of signers lock_ok secret_sigs_ok];
    rewrite Ev; cbn [Bool.eqb orb andb];
    rewrite ?orb_false_r, ?refund_true; try done;
    try (rewrite if_true; destruct st as [|w st]; [done|]; destruct (cast_to_bool w) eqn:Ew;
         cbn [Bool.eqb orb andb]; rewrite ?orb_false_r);
    rewrite ?(hash_true _ _ _ [my]), ?(hash_true _ _ _ [other]), ?(hash_true _ _ _ [my; other])
      by (intros; first [apply sig_true|apply sigverify_true; apply sig_true]);
    try done; apply sigverify_true, sig_true.
Qed.

Lemma redeem_script_some self tl my other :
  tx_type_fits self -> public_ok my -> public_ok other ->
  exists s, redeem_script self tl my other = Some s /\
    iter s = Some (map (fun a => Ok (action_instr a)) (redeem_acts self tl my other)).
Proof. intros. rewrite redeem_script_acts. apply build_iter, redeem_acts_ok; done. Qed.
End Accepts.
