(* ===== verification/UtxoHtlc.v ===== *)
(** * The payments of UTXO coins (mm2src/coins/utxo/utxo_common.rs)

    How a wallet of a UTXO coin makes, checks, spends and refunds the payments
    of the legacy swap protocol and prepares the spends of the watchers.  What
    comes from outside a call (the clock, the chain, the fee that the wallet
    estimates, its address) are the answers [Net].  A panic is [None]; the
    texts of errors are shortened to their cause. *)

From S2P Require Import Prelude MmNumber Swap SwapV2 Opcode Keys Script ScriptProps Serialization Transaction Sign HtlcScripts.
Local Open Scope Z_scope.
Local Open Scope result_scope.

Definition DEFAULT_SWAP_TX_SPEND_SIZE : Z := 496.
Definition DEFAULT_SWAP_VOUT : nat := 0.
Definition DEFAULT_SWAP_VIN : nat := 0.

(** ** The coin and what it asks the world *)

Inductive PrivKeyPolicy : Type :=
| Iguana (k : KeyPair)
| HDWallet (activated_key : KeyPair)
| Trezor
| WalletConnect (public_key : list Z).

(** The fields of [UtxoCoinFields] and of its [conf] that the payments use. *)
Record UtxoCoin : Type := mkUtxoCoin {
  c_ticker : string;
  c_tx_version : Z;
  c_overwintered : bool;
  c_version_group_id : Z;
  c_consensus_branch_id : Z;
  c_zcash : bool;
  c_is_pos : bool;
  c_is_posv : bool;
  c_signature_version : SignatureVersion;
  c_fork_id : Z;
  c_tx_hash_algo : TxHashAlgo;
  c_dust_amount : Z;
  c_decimals : Z;
  c_spv_conf : bool;
  c_native : bool;
  c_priv_key_policy : PrivKeyPolicy }.

Inductive TransactionErr : Type :=
| TxRecoverable (tx : Transaction) (e : string)
| Plain (e : string).

(** The answers to the calls: the clock, the median time of the chain, the fee
    of a spend ([get_htlc_spend_fee]), the wallet's own address, an import of
    an address into a native node and the broadcast of a transaction. *)
Record Net : Type := mkNet {
  now_sec : Z;
  current_mtp : result string Z;
  htlc_spend_fee : Swap.FeeApproxStage -> result string Z;
  single_addr : result string ScriptAddress;
  import_address : ScriptAddress -> result string unit;
  send_transaction : Transaction -> result string unit }.

(** [BigDecimal::to_u64] of the crate bigdecimal. *)
Class ToU64 := {
  to_u64 : BigDecimal -> option Z;
  to_u64_range : forall q z, to_u64 q = Some z -> is_u64 z }.

(** [10u64.pow(decimals)] wraps. *)
Definition sat_from_big_decimal `{ToU64} (amount : BigDecimal) (decimals : Z) : result string Z :=
  ok_or (to_u64 (amount * inject_Z (wrap 64 (10 ^ decimals)))%Q) "Could not get sat from amount"%string.

(** [u64::try_into::<u32>]. *)
Definition try_into_u32 (z : Z) : result string Z :=
  if is_uintb 32 z then Ok z else Err "out of range integral type conversion attempted"%string.

Definition try_plain {A} (r : result string A) : result TransactionErr A := map_err Plain r.

Definition keys_err (e : Keys.Error) : string := "keys error"%string.
Definition sign_err (e : SignError) : string := "signing error"%string.

(** [output_script] (utxo.rs); an address is its kind and its hash. *)
Definition output_script (address : ScriptAddress) : option (result Keys.Error Script) :=
  match kind address with
  | P2PKH => Ok <$> build_p2pkh (addr_hash address)
  | P2SH => Ok <$> build_p2sh (addr_hash address)
  | P2WPKH => build_p2wpkh (addr_hash address)
  | P2WSH => build_p2wsh (addr_hash address)
  end.

Definition output_script_plain (address : ScriptAddress) : option (result TransactionErr Script) :=
  r ← output_script address; Some (map_err (fun e => Plain (keys_err e)) r).

(** ** Keys *)

Definition derive_htlc_key_pair (coin : UtxoCoin) (swap_unique_data : list Z) : option KeyPair :=
  match c_priv_key_policy coin with
  | Iguana k => Some k
  | HDWallet activated_key => Some activated_key
  | Trezor | WalletConnect _ => None
  end.

(** The conversion to 33 bytes panics for an uncompressed key. *)
Definition derive_htlc_pubkey (coin : UtxoCoin) (swap_unique_data : list Z) : option (list Z) :=
  match c_priv_key_policy coin with
  | WalletConnect public_key => Some public_key
  | HDWallet _ | Iguana _ =>
      k ← derive_htlc_key_pair coin swap_unique_data;
      if decide (length (pub_bytes (public k)) = 33%nat) then Some (pub_bytes (public k)) else None
  | Trezor => None
  end.

Inductive P2SHSigner : Type := SignerKeyPair (k : KeyPair) | SignerWalletConnect.

Definition signer_try_from_coin (coin : UtxoCoin) (swap_unique_data : list Z)
  : option (result string P2SHSigner) :=
  match c_priv_key_policy coin with
  | Iguana _ | HDWallet _ =>
      k ← derive_htlc_key_pair coin swap_unique_data; Some (Ok (SignerKeyPair k))
  | Trezor => Some (Err "P2SH signing is not supported for Trezor"%string)
  | WalletConnect _ => Some (Ok SignerWalletConnect)
  end.

(** ** Lock times *)

Definition p2sh_tx_locktime (n : Net) (ticker : string) (htlc_locktime : Z) : result string Z :=
  let? lock_time :=
    (if decide (ticker = "KMD"%string)
     then Ok (wrap 32 (wrap 32 (now_sec n - 3600) + 2 * 777))
     else let? mtp := current_mtp n in Ok (wrap 32 (mtp - 1))) in
  Ok (Z.max lock_time htlc_locktime).

(** The second [Net] answers the calls of [p2sh_tx_locktime]. *)
Definition can_refund_htlc (coin : UtxoCoin) (n n' : Net) (locktime : Z)
  : result string Swap.CanRefundHtlc :=
  let now := now_sec n in
  if now <? locktime then
    let to_wait := wrap 64 (locktime - now + 1) in
    Ok (Swap.HaveToWait (Z.min to_wait 3600))
  else
    let? mtp := current_mtp n in
    let? locktime := p2sh_tx_locktime n' (c_ticker coin) (wrap 32 locktime) in
    if locktime <? mtp then Ok Swap.CanRefundNow
    else
      let to_wait := wrap 32 (locktime - mtp + 1) in
      Ok (Swap.HaveToWait (Z.min to_wait 3600)).

(** ** Spending a payment *)

Inductive LocktimeSetting : Type := CalcByHtlcLocktime (lock : Z) | UseExactLock (lock : Z).
Inductive NTimeSetting : Type := UseNow | UseValue (value : option Z).

Section Spends.
  Context `{ByteOrder} `{BitCrypto} `{Blake2b} `{Secp256k1}.
  (* [wallet_connect::sign_p2sh]: the wallet on the other side signs *)
  Context (wc_sign_p2sh : TransactionInputSigner -> Transaction -> Script -> Script ->
                          result string Transaction).

Definition p2sh_spending_tx_preimage (coin : UtxoCoin) (n : Net) (prev_tx : Transaction)
  (lock_time : LocktimeSetting) (set_n_time : NTimeSetting) (sequence : Z)
  (outputs : list TransactionOutput) : result string TransactionInputSigner :=
  let? prev_out := first_output prev_tx in
  let amount := out_value prev_out in
  let? lock_time := match lock_time with
                    | CalcByHtlcLocktime lock => p2sh_tx_locktime n (c_ticker coin) lock
                    | UseExactLock lock => Ok lock
                    end in
  let n_time := if c_is_pos coin
                then match set_n_time with
                     | UseNow => Some (wrap 32 (now_sec n))
                     | UseValue value => value
                     end
                else None in
  let str_d_zeel := if decide (c_ticker coin = "NAV"%string) then Some [] else None in
  Ok (mkSigner (c_tx_version coin) n_time (c_overwintered coin) (c_version_group_id coin)
        (c_consensus_branch_id coin) 0 0
        [mkUnsignedInput (mkOutPoint (tx_hash prev_tx) (Z.of_nat DEFAULT_SWAP_VOUT)) []
           sequence amount]
        outputs lock_time [] [] [] (c_zcash coin) (c_is_posv coin) str_d_zeel
        (signer_hash_algo (c_tx_hash_algo coin)) None).

Record P2SHSpendingTxInput : Type := mkP2SHInput {
  prev_transaction : Transaction;
  p_redeem_script : Script;
  p_outputs : list TransactionOutput;
  script_data : Script;
  p_sequence : Z;
  p_lock_time : Z;
  p_signer : P2SHSigner }.

Definition p2sh_spending_tx (coin : UtxoCoin) (n : Net) (input : P2SHSpendingTxInput)
  : option (result string Transaction) :=
  let! unsigned := Some (p2sh_spending_tx_preimage coin n (prev_transaction input)
                           (CalcByHtlcLocktime (p_lock_time input)) UseNow (p_sequence input)
                           (p_outputs input)) in
  match p_signer input with
  | SignerKeyPair key_pair =>
      signed ← p2sh_spend unsigned DEFAULT_SWAP_VIN key_pair (script_data input)
                 (p_redeem_script input) (c_signature_version coin) (c_fork_id coin);
      Some (let? signed_input := map_err sign_err signed in
            Ok (complete_tx unsigned [signed_input]))
  | SignerWalletConnect =>
      Some (wc_sign_p2sh unsigned (prev_transaction input) (p_redeem_script input)
              (script_data input))
  end.

(** [deserialize(tx)] and the hash algorithm of the coin. *)
Definition with_hash_algo (a : TxHashAlgo) (t : Transaction) : Transaction :=
  mkTransaction (version t) (n_time t) (overwintered t) (version_group_id t) (inputs t)
    (outputs t) (lock_time t) (expiry_height t) (shielded_spends t) (shielded_outputs t)
    (join_splits t) (value_balance t) (join_split_pubkey t) (join_split_sig t)
    (binding_sig t) (zcash t) (posv t) (str_d_zeel t) a (v_extra_payload t).

Definition deserialize_payment (coin : UtxoCoin) (tx : list Z) : result string Transaction :=
  let? t := map_err (fun _ => "Failed to deserialize transaction"%string)
              (deserialize Transaction tx) in
  Ok (with_hash_algo (c_tx_hash_algo coin) t).

(** The part that every spend of a payment ends with: the fee, the output to
    the wallet's address and the signed transaction. *)
Definition htlc_spend (coin : UtxoCoin) (n : Net) (stage : Swap.FeeApproxStage)
  (my_address : ScriptAddress) (prev_transaction : Transaction) (redeem_script script_data : Script)
  (sequence time_lock : Z) (signer : option (result string P2SHSigner))
  : option (result TransactionErr Transaction) :=
  let! prev_out := Some (try_plain (first_output prev_transaction)) in
  let payment_value := out_value prev_out in
  let! fee := Some (try_plain (htlc_spend_fee n stage)) in
  if payment_value <=? fee then
    Some (Err (Plain "HTLC spend fee is greater than transaction output"%string))
  else
    let! script_pubkey := output_script_plain my_address in
    let output := mkTransactionOutput (payment_value - fee) script_pubkey in
    s ← signer;
    let! signer := Some (try_plain s) in
    t ← p2sh_spending_tx coin n
          (mkP2SHInput prev_transaction redeem_script [output] script_data sequence time_lock signer);
    Some (try_plain t).

(** [send_transaction] of a signed transaction, which a failure gives back. *)
Definition send_signed (n : Net) (r : option (result TransactionErr Transaction))
  : option (result TransactionErr Transaction) :=
  let! transaction := r in
  Some (let? _ := map_err (TxRecoverable transaction) (send_transaction n transaction) in
        Ok transaction).

Definition keys_plain {A} (r : result Keys.Error A) : result TransactionErr A :=
  map_err (fun e => Plain (keys_err e)) r.

(** [send_maker_spends_taker_payment] and [send_taker_spends_maker_payment]:
    their code is the same. *)
Definition send_spends_payment (coin : UtxoCoin) (n : Net) (args : Swap.SpendPaymentArgs)
  : option (result TransactionErr Transaction) :=
  let! prev_transaction := Some (try_plain
         (deserialize_payment coin (Swap.spend_other_payment_tx args))) in
  let! _ := Some (try_plain (first_output prev_transaction)) in
  pubkey ← derive_htlc_pubkey coin (Swap.spend_swap_unique_data args);
  script_data ← (builder_default |> push_data (Swap.spend_secret args) |> push_opcode OP_0);
  let! time_lock := Some (try_plain (try_into_u32 (Swap.spend_time_lock args))) in
  let! other := Some (keys_plain (public_from_slice (Swap.spend_other_pubkey args))) in
  let! mine := Some (keys_plain (public_from_slice pubkey)) in
  redeem_script ← payment_script time_lock (Swap.spend_secret_hash args) other mine;
  let! my_address := Some (try_plain (single_addr n)) in
  send_signed n
    (htlc_spend coin n Swap.WithoutApprox my_address prev_transaction redeem_script script_data
       SEQUENCE_FINAL time_lock (signer_try_from_coin coin (Swap.spend_swap_unique_data args))).

(** [refund_htlc_payment], which both sides' refunds call. *)
Definition refund_htlc_payment (coin : UtxoCoin) (n : Net) (payment_tx : list Z) (time_lock : Z)
  (other_pubkey : list Z) (tx_type : SwapTxTypeWithSecretHash) (swap_unique_data : list Z)
  : option (result TransactionErr Transaction) :=
  let! my_address := Some (try_plain (single_addr n)) in
  let! prev_transaction := Some (try_plain (deserialize_payment coin payment_tx)) in
  let! _ := Some (try_plain (first_output prev_transaction)) in
  let! other_public := Some (keys_plain (public_from_slice other_pubkey)) in
  pubkey ← derive_htlc_pubkey coin swap_unique_data;
  script_data ← (builder_default |> push_opcode OP_1);
  let! time_lock := Some (try_plain (try_into_u32 time_lock)) in
  let! mine := Some (keys_plain (public_from_slice pubkey)) in
  redeem_script ← redeem_script tx_type time_lock mine other_public;
  send_signed n
    (htlc_spend coin n Swap.WithoutApprox my_address prev_transaction redeem_script script_data
       (SEQUENCE_FINAL - 1) time_lock (signer_try_from_coin coin swap_unique_data)).

(** ** The spends that the watchers complete *)

Definition create_maker_payment_spend_preimage (coin : UtxoCoin) (n : Net)
  (maker_payment_tx : list Z) (time_lock : Z) (maker_pub secret_hash swap_unique_data : list Z)
  : option (result TransactionErr Transaction) :=
  let! prev_transaction := Some (try_plain (deserialize_payment coin maker_payment_tx)) in
  let! _ := Some (try_plain (first_output prev_transaction)) in
  key_pair ← derive_htlc_key_pair coin swap_unique_data;
  script_data ← builder_default;
  let! maker_public := Some (keys_plain (public_from_slice maker_pub)) in
  redeem_script ← payment_script time_lock secret_hash maker_public (public key_pair);
  let! my_address := Some (try_plain (single_addr n)) in
  htlc_spend coin n Swap.WatcherPreimage my_address prev_transaction redeem_script script_data
    SEQUENCE_FINAL time_lock (Some (Ok (SignerKeyPair key_pair))).

Definition create_taker_payment_refund_preimage (coin : UtxoCoin) (n : Net)
  (taker_payment_tx : list Z) (time_lock : Z) (maker_pub secret_hash swap_unique_data : list Z)
  : option (result TransactionErr Transaction) :=
  let! prev_transaction := Some (try_plain (deserialize_payment coin taker_payment_tx)) in
  let! _ := Some (try_plain (first_output prev_transaction)) in
  key_pair ← derive_htlc_key_pair coin swap_unique_data;
  script_data ← (builder_default |> push_opcode OP_1);
  let! maker_public := Some (keys_plain (public_from_slice maker_pub)) in
  redeem_script ← payment_script time_lock secret_hash (public key_pair) maker_public;
  let! my_address := Some (try_plain (single_addr n)) in
  htlc_spend coin n Swap.WatcherPreimage my_address prev_transaction redeem_script script_data
    (SEQUENCE_FINAL - 1) time_lock (Some (Ok (SignerKeyPair key_pair))).

(** [instructions.next().ok_or(..)] and its data. *)
Definition instruction_data (i : option (result Script.Error Instruction)) : result TransactionErr (list Z) :=
  match i with
  | None => Err (Plain "Instruction not found"%string)
  | Some (Err _) => Err (Plain "script error"%string)
  | Some (Ok i) => ok_or (data i) (Plain "No data"%string)
  end.

Definition set_script_sig (i : TransactionInput) (script_sig : Script) : TransactionInput :=
  mkTransactionInput (previous_output i) script_sig (sequence i) (script_witness i).

Definition set_inputs (t : Transaction) (ins : list TransactionInput) : Transaction :=
  mkTransaction (version t) (n_time t) (overwintered t) (version_group_id t) ins
    (outputs t) (lock_time t) (expiry_height t) (shielded_spends t) (shielded_outputs t)
    (join_splits t) (value_balance t) (join_split_pubkey t) (join_split_sig t)
    (binding_sig t) (zcash t) (posv t) (str_d_zeel t) (tx_hash_algo t) (v_extra_payload t).

(** The instructions are both read before either's data is looked at. *)
Definition send_maker_payment_spend_preimage (n : Net) (preimage secret : list Z)
  : option (result TransactionErr Transaction) :=
  let! transaction := Some (try_plain (map_err (fun _ => "Failed to deserialize transaction"%string)
                              (deserialize Transaction preimage))) in
  match inputs transaction with
  | [] => Some (Err (Plain "Transaction doesn't have any input"%string))
  | input :: rest =>
      l ← iter (script_sig input);
      let! _ := Some (match l !! 0%nat with
                      | Some (Ok _) => Ok tt
                      | i => let? _ := instruction_data i in Ok tt
                      end) in
      let! _ := Some (match l !! 1%nat with
                      | Some (Ok _) => Ok tt
                      | i => let? _ := instruction_data i in Ok tt
                      end) in
      let! sig := Some (instruction_data (l !! 0%nat)) in
      let! redeem := Some (instruction_data (l !! 1%nat)) in
      script_data ← (builder_default |> push_data secret |> push_opcode OP_0);
      sig_part ← (builder_default |> push_data sig);
      redeem_part ← (builder_default |> push_data redeem);
      send_signed n (Some (Ok (set_inputs transaction
        (set_script_sig input (sig_part ++ script_data ++ redeem_part) :: rest))))
  end.

Definition send_taker_payment_refund_preimage (n : Net) (payment_tx : list Z)
  : option (result TransactionErr Transaction) :=
  send_signed n (Some (try_plain (map_err (fun _ => "Failed to deserialize transaction"%string)
                                   (deserialize Transaction payment_tx)))).
End Spends.
