(* ===== verification/F64.v ===== *)
(** * Rust's [f64]

    IEEE double precision numbers by the specification of the Standard Library
    ([SpecFloat]): rounding to nearest, ties to even. *)

From Stdlib Require Import SpecFloat.
From S2P Require Import Prelude.
Local Open Scope Z_scope.

Definition f64 : Type := spec_float.

Definition f64_mul : f64 -> f64 -> f64 := SFmul 53 1024.
Definition f64_div : f64 -> f64 -> f64 := SFdiv 53 1024.
Definition f64_sub : f64 -> f64 -> f64 := SFsub 53 1024.

(** [m * 2^e], rounded. *)
Definition f64_of (m e : Z) : f64 := binary_normalize 53 1024 m e false.

(** The cast of an integer. *)
Definition f64_of_u64 (z : Z) : f64 := f64_of z 0.

(** [a <= b]; false when one is not a number. *)
Definition f64_le (a b : f64) : bool := SFleb a b.

(** The cast [as u64]: towards zero, saturating; a NaN becomes zero. *)
Definition f64_to_u64 (f : f64) : Z :=
  match f with
  | S754_finite false m e => Z.min (2 ^ 64 - 1) (Z.shiftl (Zpos m) e)
  | S754_infinity false => 2 ^ 64 - 1
  | _ => 0
  end.

(** The doubles nearest to the literals of the source. *)
Definition f64_0_1 : f64 := f64_of 3602879701896397 (-55).
Definition f64_0_9 : f64 := f64_of 8106479329266893 (-53).
Definition f64_1_1 : f64 := f64_of 4953959590107546 (-52).
Definition f64_1 : f64 := f64_of 1 0.

Lemma f64_to_u64_range f : is_u64 (f64_to_u64 f).
Proof.
  unfold is_uint, f64_to_u64. destruct f as [s|[]| |[] m e]; try lia.
  assert (0 <= Z.shiftl (Zpos m) e) by (apply Z.shiftl_nonneg; lia). lia.
Qed.

Lemma f64_to_of_small : forallb (fun z => f64_to_u64 (f64_of_u64 z) =? z)
  [0; 1; 2; 3; 10; 496; 1000; 100000; 2 ^ 32 - 1; 2 ^ 53] = true.
Proof. vm_compute. reflexivity. Qed.

(** * Exact results of the arithmetic of [f64]

    Addition, rounding to an integer, and that products and sums of multiples of
    a quarter below [2^51] are exact: what the sizes of transactions need. *)

Definition f64_add : f64 -> f64 -> f64 := SFadd 53 1024.

(** [f.round() as u64]: half away from zero. *)
Definition f64_round_to_u64 (f : f64) : Z :=
  match f with
  | S754_finite false m e =>
      Z.min (2 ^ 64 - 1)
        (if 0 <=? e then Z.shiftl (Zpos m) e else Z.shiftr (Zpos m + Z.shiftl 1 (- e - 1)) (- e))
  | S754_infinity false => 2 ^ 64 - 1
  | _ => 0
  end.

Definition f64_0_25 : f64 := f64_of 1 (-2).
Definition f64_0_75 : f64 := f64_of 3 (-2).
Definition f64_2 : f64 := f64_of 2 0.
Definition f64_2_5 : f64 := f64_of 5 (-1).
Definition f64_100 : f64 := f64_of 100 0.

Lemma f64_round_range f : is_u64 (f64_round_to_u64 f).
Proof.
  unfold is_uint, f64_round_to_u64. destruct f as [s|[]| |[] m e]; try lia. split; [|lia].
  apply Z.min_glb; [lia|]. destruct (0 <=? e).
  - apply Z.shiftl_nonneg; lia.
  - apply Z.shiftr_nonneg. assert (0 <= Z.shiftl 1 (- e - 1)) by (apply Z.shiftl_nonneg; lia). lia.
Qed.

(** ** Digits and shifts *)

Lemma digits2_pos_spec p :
  2 ^ (Zpos (digits2_pos p) - 1) <= Zpos p < 2 ^ Zpos (digits2_pos p).
Proof.
  assert (forall n, 2 ^ Zpos (Pos.succ n) = 2 * 2 ^ Zpos n) as Hs
    by (intros n; rewrite Pos2Z.inj_succ, Z.pow_succ_r; lia).
  assert (forall n, 2 ^ (Zpos (Pos.succ n) - 1) = 2 * 2 ^ (Zpos n - 1)) as Hp
    by (intros n; rewrite <- Z.pow_succ_r by lia; f_equal; lia).
  induction p as [p IH|p IH|]; cbn [digits2_pos].
  - rewrite Hs, Hp.
    change (Zpos p~1) with (2 * Zpos p + 1).
    lia.
  - rewrite Hs, Hp.
    change (Zpos p~0) with (2 * Zpos p).
    lia.
  - lia.
Qed.

Lemma pow_xO n : 2 ^ Zpos n~0 = 2 ^ Zpos n * 2 ^ Zpos n.
Proof. rewrite <- Z.pow_add_r by lia. f_equal. lia. Qed.

Lemma pow_xI n : 2 ^ Zpos n~1 = 2 * (2 ^ Zpos n * 2 ^ Zpos n).
Proof. rewrite <- Z.pow_add_r, <- Z.pow_succ_r by lia. f_equal. lia. Qed.

Lemma shr_exact n m :
  SpecFloat.iter_pos shr_1 n (Build_shr_record (Zpos m * 2 ^ Zpos n) false false)
  = Build_shr_record (Zpos m) false false.
Proof.
  revert m. induction n as [n IH|n IH|]; intros m; cbn [SpecFloat.iter_pos].
  - replace (Zpos m * 2 ^ Zpos n~1) with (Zpos (xO (m * 2 ^ n * 2 ^ n))).
    + change (shr_1 _) with (Build_shr_record (Zpos (m * 2 ^ n * 2 ^ n)) false false).
      replace (Zpos (m * 2 ^ n * 2 ^ n)) with (Zpos (m * 2 ^ n) * 2 ^ Zpos n) by lia.
      rewrite IH. replace (Zpos (m * 2 ^ n)) with (Zpos m * 2 ^ Zpos n) by lia. apply IH.
    + rewrite pow_xI. lia.
  - replace (Zpos m * 2 ^ Zpos n~0) with (Zpos (m * 2 ^ n) * 2 ^ Zpos n).
    + rewrite IH. replace (Zpos (m * 2 ^ n)) with (Zpos m * 2 ^ Zpos n) by lia. apply IH.
    + rewrite pow_xO. lia.
  - replace (Zpos m * 2 ^ 1) with (Zpos (xO m)) by lia. done.
Qed.

(** ** Multiples of a quarter *)

(** [f] is [q / 4]; both sides are scaled by [2^1000]. *)
Definition quarters (f : f64) (q : Z) : Prop :=
  exists m e, f = S754_finite false m e /\ -60 <= e <= 60 /\ Zpos m * 2 ^ (e + 1000) = q * 2 ^ 998.

Lemma quarters_scale m e q :
  -400 <= e <= 400 -> Zpos m * 2 ^ (e + 1000) = q * 2 ^ 998 ->
  (0 <= e + 2 -> q = Zpos m * 2 ^ (e + 2)) /\ (e + 2 <= 0 -> Zpos m = q * 2 ^ (- 2 - e)).
Proof.
  intros He Hq. split; intros H.
  - replace (e + 1000) with (e + 2 + 998) in Hq by lia. rewrite Z.pow_add_r in Hq by lia.
    assert (0 < 2 ^ 998) by (apply Z.pow_pos_nonneg; lia). generalize dependent (2 ^ 998). nia.
  - replace 998 with (- 2 - e + (e + 1000)) in Hq by lia. rewrite (Z.pow_add_r 2 (- 2 - e)) in Hq by lia.
    assert (0 < 2 ^ (e + 1000)) by (apply Z.pow_pos_nonneg; lia).
    generalize dependent (2 ^ (e + 1000)). nia.
Qed.

Lemma shr_fexp_exact m e q :
  -300 <= e <= 300 -> 0 < q < 2 ^ 53 -> Zpos m * 2 ^ (e + 1000) = q * 2 ^ 998 ->
  exists m' e', shr_fexp 53 1024 (Zpos m) e loc_Exact = (Build_shr_record (Zpos m') false false, e') /\
    -300 <= e' <= 300 /\ Zpos m' * 2 ^ (e' + 1000) = q * 2 ^ 998 /\ Zpos m' < 2 ^ 53.
Proof.
  intros He Hq Hm. pose proof (digits2_pos_spec m) as Hd. unfold shr_fexp.
  cbn [Zdigits2 shr_record_of_loc]. set (d := digits2_pos m) in *.
  destruct (quarters_scale m e q) as [Hhi Hlo]; [lia|done|].
  assert (fexp 53 1024 (Zpos d + e) - e = Z.max (Zpos d - 53) (-1074 - e)) as ->
    by (unfold fexp, emin; lia).
  destruct (Z.max (Zpos d - 53) (-1074 - e)) as [|n|n] eqn:En; [| |].
  1, 3: exists m, e; split_and!; try done; try lia; assert (2 ^ Zpos d <= 2 ^ 53) by (apply Z.pow_le_mono_r; lia); lia.
  assert (Hn : Zpos d = Zpos n + 53) by lia.
  assert (Hmm : 2 ^ (Zpos n + 52) <= Zpos m) by (replace (Zpos n + 52) with (Zpos d - 1) by lia; lia).
  assert (Hbig : 2 ^ 53 <= 2 ^ (Zpos n + 52)) by (apply Z.pow_le_mono_r; lia).
  rewrite Z.pow_add_r in Hmm by lia.
  assert (1 <= 2 ^ Zpos n) by (apply (Z.pow_le_mono_r 2 0); lia).
  destruct (Z_le_gt_dec 0 (e + 2)) as [Hp|Hp].
  { assert (1 <= 2 ^ (e + 2)) by (apply (Z.pow_le_mono_r 2 0); lia). specialize (Hhi Hp).
    exfalso. rewrite Z.pow_add_r in Hbig by lia. assert (Zpos m <= q) by (rewrite Hhi; nia). lia. }
  assert (Hz : Zpos n <= - 2 - e).
  { destruct (Z_le_gt_dec (Zpos n) (- 2 - e)) as [|Hgt]; [done|].
    assert (2 ^ (- 2 - e) * 2 <= 2 ^ Zpos n).
    { rewrite Z.mul_comm, <- Z.pow_succ_r by lia. apply Z.pow_le_mono_r; lia. }
    rewrite Hlo in Hmm by lia. change (2 ^ 53) with (2 * 2 ^ 52) in Hq.
    assert (0 < 2 ^ (- 2 - e)) by (apply Z.pow_pos_nonneg; lia). exfalso.
    assert (q * 2 ^ (- 2 - e) < 2 * 2 ^ 52 * 2 ^ (- 2 - e)) by (apply Z.mul_lt_mono_pos_r; lia).
    assert (2 ^ (- 2 - e) * 2 * 2 ^ 52 <= 2 ^ Zpos n * 2 ^ 52) by (apply Z.mul_le_mono_nonneg_r; lia). lia. }
  assert (0 < 2 ^ (- 2 - e - Zpos n)) by (apply Z.pow_pos_nonneg; lia).
  exists (Z.to_pos (q * 2 ^ (- 2 - e - Zpos n))), (e + Zpos n).
  assert (Hm' : Zpos (Z.to_pos (q * 2 ^ (- 2 - e - Zpos n))) = q * 2 ^ (- 2 - e - Zpos n))
    by (apply Z2Pos.id; nia).
  split_and!; [|lia|lia| |].
  - unfold shr. rewrite Hlo by lia.
    replace (q * 2 ^ (- 2 - e)) with (Zpos (Z.to_pos (q * 2 ^ (- 2 - e - Zpos n))) * 2 ^ Zpos n);
      [by rewrite shr_exact|]. rewrite Hm', <- Z.mul_assoc, <- Z.pow_add_r by lia. do 2 f_equal. lia.
  - rewrite Hm', <- Z.mul_assoc, <- Z.pow_add_r by lia. do 2 f_equal. lia.
  - rewrite Hm'. destruct Hd as [_ Hd]. rewrite Hlo, Hn, Z.pow_add_r in Hd by lia.
    replace (- 2 - e) with (Zpos n + (- 2 - e - Zpos n)) in Hd by lia. rewrite Z.pow_add_r in Hd by lia.
    apply (Z.mul_lt_mono_pos_l (2 ^ Zpos n)); lia.
Qed.

Lemma quarters_range m e q :
  -300 <= e <= 300 -> 0 < q < 2 ^ 53 -> Zpos m * 2 ^ (e + 1000) = q * 2 ^ 998 -> Zpos m < 2 ^ 53 ->
  -60 <= e <= 60.
Proof.
  intros He Hq Hm Hlt. destruct (quarters_scale m e q) as [Hhi Hlo]; [lia|done|].
  destruct (Z_le_gt_dec 0 (e + 2)).
  - assert (2 ^ (e + 2) < 2 ^ 53) as H%Z.pow_lt_mono_r_iff by nia; lia.
  - assert (2 ^ (- 2 - e) < 2 ^ 53) as H%Z.pow_lt_mono_r_iff by nia; lia.
Qed.

Lemma round_exact m e q :
  -300 <= e <= 300 -> 0 < q < 2 ^ 53 -> Zpos m * 2 ^ (e + 1000) = q * 2 ^ 998 ->
  quarters (binary_round_aux 53 1024 false (Zpos m) e loc_Exact) q.
Proof.
  intros He Hq Hm. destruct (shr_fexp_exact m e q) as (m1 & e1 & E1 & He1 & Hm1 & _); [done..|].
  destruct (shr_fexp_exact m1 e1 q) as (m2 & e2 & E2 & He2 & Hm2 & Hl); [done..|].
  unfold binary_round_aux. rewrite E1. cbn [shr_m loc_of_shr_record round_nearest_even].
  rewrite E2. cbn [shr_m]. rewrite (proj2 (Z.leb_le _ _)) by lia. exists m2, e2.
  split_and!; try done; by apply (quarters_range m2 e2 q).
Qed.

Lemma shl_align_spec m e e' : exists m' e'', shl_align m e e' = (m', e'') /\ e'' <= e /\
  (e'' = e \/ e'' = e') /\ (e' <= e -> e'' = e') /\ Zpos m' = Zpos m * 2 ^ (e - e'').
Proof.
  unfold shl_align. destruct (e' - e) as [|d|d] eqn:E.
  - exists m, e. rewrite Z.sub_diag. split_and!; try done; [auto|lia|lia].
  - exists m, e. rewrite Z.sub_diag. split_and!; try done; [auto|lia|lia].
  - exists (Pos.iter xO m d), e'. split_and!; [done|lia|auto|done|].
    replace (e - e') with (Zpos d) by lia. clear. induction d using Pos.peano_ind.
    + simpl. lia.
    + rewrite Pos.iter_succ, Pos2Z.inj_succ, Z.pow_succ_r by lia.
      change (Zpos (xO (Pos.iter xO m d))) with (2 * Zpos (Pos.iter xO m d)). lia.
Qed.

Lemma scale_shift m m' e e' : e' <= e -> -300 <= e' -> Zpos m' = Zpos m * 2 ^ (e - e') ->
  Zpos m' * 2 ^ (e' + 1000) = Zpos m * 2 ^ (e + 1000).
Proof. intros He He' ->. rewrite <- Z.mul_assoc, <- Z.pow_add_r by lia. do 2 f_equal. lia. Qed.

Lemma normalize_exact m e q :
  -200 <= e <= 200 -> 0 < q < 2 ^ 53 -> Zpos m * 2 ^ (e + 1000) = q * 2 ^ 998 ->
  quarters (binary_normalize 53 1024 (Zpos m) e false) q.
Proof.
  intros He Hq Hm. cbn [binary_normalize]. unfold binary_round.
  destruct (shl_align_spec m e (fexp 53 1024 (Zpos (digits2_pos m) + e))) as (m' & e' & -> & Hle & Hor & _ & Hm').
  assert (-300 <= e' <= 300) by (destruct Hor as [-> | ->]; [lia|]; revert Hle; unfold fexp, emin; lia).
  apply round_exact; [done..|]. rewrite <- Hm. by apply scale_shift; try lia.
Qed.

Lemma quarters_of m e q :
  -200 <= e <= 200 -> 0 < q < 2 ^ 53 -> Zpos m * 2 ^ (e + 1000) = q * 2 ^ 998 ->
  quarters (f64_of (Zpos m) e) q.
Proof. exact (normalize_exact m e q). Qed.

Lemma quarters_u64 z : 0 < z < 2 ^ 51 -> quarters (f64_of_u64 z) (4 * z).
Proof.
  intros Hz. destruct z as [|p|]; [lia| |lia]. apply quarters_of; [lia|lia|].
  change (2 ^ (0 + 1000)) with (4 * 2 ^ 998). generalize (2 ^ 998). lia.
Qed.

Lemma quarters_0_75 : quarters f64_0_75 3.
Proof. apply quarters_of; [lia|lia|]. change (2 ^ 998) with (2 ^ (-2 + 1000)). generalize (2 ^ (-2 + 1000)). lia. Qed.

Lemma quarters_0_25 : quarters f64_0_25 1.
Proof. apply quarters_of; [lia|lia|]. change (2 ^ 998) with (2 ^ (-2 + 1000)). generalize (2 ^ (-2 + 1000)). lia. Qed.

(** ** Exact operations *)

Lemma quarters_mul f g p q r :
  quarters f p -> quarters g q -> p * q = 4 * r -> 0 < r < 2 ^ 53 -> quarters (f64_mul f g) r.
Proof.
  intros (m & e & -> & He & Hm) (m' & e' & -> & He' & Hm') Hpq Hr. unfold f64_mul, SFmul.
  apply round_exact; [lia|done|].
  apply (Z.mul_cancel_r _ _ (2 ^ 1000)); [lia|]. rewrite <- Z.mul_assoc, <- Z.pow_add_r by lia.
  replace (e + e' + 1000 + 1000) with ((e + 1000) + (e' + 1000)) by lia. rewrite Z.pow_add_r by lia.
  rewrite Pos2Z.inj_mul. change (2 ^ 1000) with (4 * 2 ^ 998).
  revert Hm Hm'. generalize (2 ^ (e + 1000)), (2 ^ (e' + 1000)), (2 ^ 998). intros a b S Hm Hm'.
  transitivity ((Zpos m * a) * (Zpos m' * b)); [ring|]. rewrite Hm, Hm'.
  transitivity (p * q * (S * S)); [ring|]. rewrite Hpq. ring.
Qed.

Lemma quarters_add f g p q :
  quarters f p -> quarters g q -> 0 < p + q < 2 ^ 53 -> quarters (f64_add f g) (p + q).
Proof.
  intros (m & e & -> & He & Hm) (m' & e' & -> & He' & Hm') Hpq. unfold f64_add, SFadd.
  destruct (shl_align_spec m e (Z.min e e')) as (n & k & -> & Hk & _ & Hor & Hn).
  destruct (shl_align_spec m' e' (Z.min e e')) as (n' & k' & -> & Hk' & _ & Hor' & Hn').
  cbn [fst cond_Zopp]. rewrite <- Pos2Z.inj_add. rewrite Hor in Hn by lia. rewrite Hor' in Hn' by lia.
  apply normalize_exact; [lia|done|].
  rewrite Pos2Z.inj_add, !Z.mul_add_distr_r, <- Hm, <- Hm'. f_equal; apply scale_shift; lia.
Qed.

Lemma quarters_to_u64 f z : quarters f (4 * z) -> 0 < z < 2 ^ 51 -> f64_to_u64 f = z.
Proof.
  intros (m & e & -> & He & Hm) Hz. unfold f64_to_u64.
  destruct (quarters_scale m e (4 * z)) as [Hhi Hlo]; [lia|done|].
  assert (Z.shiftl (Zpos m) e = z) as ->; [|lia].
  destruct (Z_le_gt_dec 0 e) as [Hp|Hp].
  - rewrite Z.shiftl_mul_pow2 by lia. rewrite Z.pow_add_r in Hhi by lia. lia.
  - rewrite <- (Z.opp_involutive e), <- Z.shiftr_opp_r, Z.opp_involutive, Z.shiftr_div_pow2 by lia.
    destruct (decide (e = -1)) as [->|].
    + specialize (Hhi ltac:(lia)).
      change (2 ^ (-1 + 2)) with 2 in Hhi. change (2 ^ - -1) with 2. replace (Zpos m) with (z * 2) by lia.
      apply Z.div_mul. lia.
    + rewrite Hlo by lia. replace (4 * z * 2 ^ (- 2 - e)) with (z * 2 ^ (- e)); [apply Z.div_mul, Z.pow_nonzero; lia|].
      replace (- e) with (2 + (- 2 - e)) by lia. rewrite Z.pow_add_r by lia. lia.
Qed.

(** [0.75 * b + 0.25 * (b + 4 * k)], cut to an integer. *)
Lemma weighted_size b k : 0 < b -> 0 < k -> b + 4 * k < 2 ^ 48 ->
  f64_to_u64 (f64_add (f64_mul f64_0_75 (f64_of_u64 b)) (f64_mul f64_0_25 (f64_of_u64 (b + 4 * k)))) = b + k.
Proof.
  intros Hb Hk Hs. apply quarters_to_u64; [|lia].
  replace (4 * (b + k)) with (3 * b + (b + 4 * k)) by lia. apply quarters_add; [| |lia].
  - apply quarters_mul with 3 (4 * b); [apply quarters_0_75|apply quarters_u64; lia|lia|lia].
  - apply quarters_mul with 1 (4 * (b + 4 * k)); [apply quarters_0_25|apply quarters_u64; lia|lia|lia].
Qed.
