(* ===== verification/UtxoValidate.v ===== *)
(** * Checking the payments of others (mm2src/coins/utxo/utxo_common.rs)

    How a wallet of a UTXO coin validates a payment, a fee and what a watcher
    is asked to watch, finds the spend of a payment and reads the secret out of
    it.  What the chain answers is the record [Chain]. *)

From Stdlib Require Import SpecFloat.
From S2P Require Import Prelude F64 MmNumber DexFee Effects Swap SwapWatcher SwapV2 Opcode Keys Script ScriptProps Serialization Transaction Sign HtlcScripts UtxoHtlc.
Local Open Scope Z_scope.
Local Open Scope result_scope.

Inductive ValidatePaymentError : Type :=
| InternalError (e : string)
| TxDeserializationError (e : string)
| InvalidParameter (e : string)
| WrongPaymentTx (e : string)
| NumConversion (e : string)
| TimelockOverflow
| CheckSignatureError (e : string)
| InvalidData (e : string)
| TransportError (e : string)
| SPVError (e : string).

Record RpcTransaction : Type := mkRpcTransaction {
  rpc_hex : list Z;
  rpc_height : option Z;
  rpc_confirmations : Z }.

Record SpentOutputInfo : Type := mkSpentOutput {
  spent_input : TransactionInput;
  spending_tx : Transaction }.

(** The answers of the chain; a transaction is asked for by its hash.  The calls
    that are repeated are numbered. *)
Record Chain : Type := mkChain {
  get_transaction_bytes : nat -> list Z -> result string (list Z);
  get_verbose_transaction : nat -> list Z -> result string RpcTransaction;
  get_block_count : result string Z;
  find_output_spend : list Z -> Script -> nat -> Z -> result string (option SpentOutputInfo);
  validate_spv_proof : Transaction -> Z -> result string unit }.

(** ** The secret of a spend *)

Section Extract.
  Context `{BitCrypto}.

Definition expected_secret_hash (secret_hash : list Z) : result string (list Z) :=
  if (length secret_hash =? 32)%nat then Ok (ripemd160 secret_hash)
  else if (length secret_hash =? 20)%nat then Ok secret_hash
  else Err "could not convert slice to array"%string.

(** The data of an instruction when it is the push of a secret. *)
Definition pushed_secret (expected : list Z) (i : result Script.Error Instruction)
  : option (list Z) :=
  match i with
  | Ok (mkInstruction OP_PUSHBYTES_32 _ (Some secret)) =>
      if decide (dhash160 secret = expected) then Some secret else None
  | _ => None
  end.

Fixpoint first_some {A B} (f : A -> option B) (l : list A) : option B :=
  match l with
  | [] => None
  | a :: l => match f a with Some b => Some b | None => first_some f l end
  end.

(** The loop over the inputs. *)
Fixpoint secret_of_inputs (expected : list Z) (ins : list TransactionInput)
  : option (option (list Z)) :=
  match ins with
  | [] => Some None
  | input :: ins =>
      l ← iter (script_sig input);
      match first_some (pushed_secret expected) l with
      | Some secret => Some (Some secret)
      | None => secret_of_inputs expected ins
      end
  end.

Definition extract_secret_v2 (secret_hash : list Z) (spend_tx : Transaction)
  : option (result string (list Z)) :=
  let! expected := Some (expected_secret_hash secret_hash) in
  secret ← secret_of_inputs expected (inputs spend_tx);
  Some (ok_or secret "Couldn't extract secret"%string).

Definition extract_secret `{ByteOrder} (secret_hash spend_tx : list Z)
  : option (result string (list Z)) :=
  let! tx := Some (map_err (fun _ => "Failed to deserialize transaction"%string)
                     (deserialize Transaction spend_tx)) in
  extract_secret_v2 secret_hash tx.
End Extract.

(** ** Making a payment: its outputs *)

Section Validate.
  Context `{ByteOrder} `{BitCrypto} `{Blake2b} `{Secp256k1} `{ToU64} `{DecimalConv}.

Record SwapPaymentOutputsResult : Type := mkSwapOutputs {
  payment_address : ScriptAddress;
  payment_outputs : list TransactionOutput }.

Definition generate_swap_payment_outputs (coin : UtxoCoin) (time_lock : Z)
  (my_pub other_pub : list Z) (amount : BigDecimal) (tx_type : SwapTxTypeWithSecretHash)
  : option (result string SwapPaymentOutputsResult) :=
  let! my_public := Some (map_err keys_err (public_from_slice my_pub)) in
  let! other_public := Some (map_err keys_err (public_from_slice other_pub)) in
  redeem_script ← redeem_script tx_type time_lock my_public other_public;
  let redeem_script_hash := dhash160 redeem_script in
  let! amount := Some (sat_from_big_decimal amount (c_decimals coin)) in
  htlc_script ← build_p2sh (AddressHash redeem_script_hash);
  op_return_script ←
    (builder_default |> push_opcode OP_RETURN
       |> push_data (if decide (c_ticker coin = "ARRR"%string) then redeem_script
                     else op_return_data tx_type));
  Some (Ok (mkSwapOutputs (new_p2sh (AddressHash redeem_script_hash))
              [mkTransactionOutput amount htlc_script; mkTransactionOutput 0 op_return_script])).

(** [dex_address] and [burn_address] of the coin are pay-to-public-key-hash
    addresses of the keys of the DEX. *)
Definition pkh_output (value : Z) (pubkey_hash : AddressHashEnum) : option TransactionOutput :=
  s ← build_p2pkh pubkey_hash; Some (mkTransactionOutput value s).

Definition generate_taker_fee_tx_outputs (coin : UtxoCoin)
  (dex_address burn_address : result string AddressHashEnum) (dex_fee : DexFee)
  : option (result string (list TransactionOutput)) :=
  match dex_fee with
  | NoFee => Some (Ok [])
  | DexFee.Standard _ | WithBurn _ _ _ =>
      let! dex_address := Some dex_address in
      let! burn_address := Some burn_address in
      let! fee_amount := Some (sat_from_big_decimal (to_decimal (fee_amount dex_fee))
                                 (c_decimals coin)) in
      fee_output ← pkh_output fee_amount dex_address;
      match dex_fee with
      | WithBurn _ burn_amount burn_destination =>
          let! burn_amount_u64 := Some (sat_from_big_decimal (to_decimal burn_amount)
                                          (c_decimals coin)) in
          burn_output ←
            match burn_destination with
            | KmdOpReturn =>
                s ← (builder_default |> push_opcode OP_RETURN);
                Some (mkTransactionOutput burn_amount_u64 s)
            | PreBurnAccount => pkh_output burn_amount_u64 burn_address
            end;
          Some (Ok [fee_output; burn_output])
      | _ => Some (Ok [fee_output])
      end
  end.

(** ** Validating a payment *)

Definition REWARD_MARGIN : f64 := f64_0_1.

Definition get_reward_lower_boundary (reward : Z) : Z :=
  f64_to_u64 (f64_mul (f64_of_u64 reward) (f64_sub f64_1 REWARD_MARGIN)).

Definition validate_watcher_reward (expected_reward actual_reward : Z) (is_exact : bool)
  : result ValidatePaymentError unit :=
  if is_exact then
    if negb (actual_reward =? expected_reward)
    then Err (WrongPaymentTx "Payment tx reward_amount arg is invalid") else Ok tt
  else if actual_reward <? get_reward_lower_boundary expected_reward
  then Err (WrongPaymentTx "Provided watcher reward is less than minimum acceptable") else Ok tt.

(** [retry_on_err] of four attempts. *)
Fixpoint retry_bytes (attempts n : nat) (chain : Chain) (hash : list Z) : result string (list Z) :=
  match get_transaction_bytes chain n hash, attempts with
  | Err _, S attempts => retry_bytes attempts (S n) chain hash
  | r, _ => r
  end.

Definition same_tx_bytes (tx : Transaction) (bytes : list Z) : bool :=
  bool_decide (serialize tx = bytes)
  || bool_decide (serialize_with_flags tx SERIALIZE_TRANSACTION_WITNESS = bytes).

Definition num_err {A} (r : result string A) : result ValidatePaymentError A := map_err NumConversion r.

Definition spv_check (coin : UtxoCoin) (chain : Chain) (tx : Transaction) (until confirmations : Z)
  : result ValidatePaymentError unit :=
  if negb (c_native coin) && c_spv_conf coin && negb (confirmations =? 0)
  then map_err SPVError (validate_spv_proof chain tx until) else Ok tt.

Definition validate_payment (coin : UtxoCoin) (chain : Chain) (tx : Transaction)
  (output_index : nat) (first_pub0 second_pub0 : Public) (tx_type : SwapTxTypeWithSecretHash)
  (amount : BigDecimal) (watcher_reward : option Swap.WatcherReward) (time_lock : Z)
  (try_spv_proof_until confirmations : Z) : option (result ValidatePaymentError unit) :=
  let! amount := Some (num_err (sat_from_big_decimal amount (c_decimals coin))) in
  expected_redeem ← redeem_script tx_type time_lock first_pub0 second_pub0;
  let! tx_from_rpc := Some (map_err TransportError (retry_bytes 3 0 chain (tx_hash tx))) in
  if negb (same_tx_bytes tx tx_from_rpc)
  then Some (Err (WrongPaymentTx "Provided payment tx doesn't match tx data from rpc"))
  else
    expected_script_pubkey ← build_p2sh (AddressHash (dhash160 expected_redeem));
    Some (
    let? actual_output := ok_or (outputs tx !! output_index)
                            (WrongPaymentTx "Payment tx has no outputs") in
    if negb (bool_decide (expected_script_pubkey = script_pubkey actual_output))
    then Err (WrongPaymentTx "Provided payment tx script pubkey doesn't match expected")
    else
      let? _ :=
        match watcher_reward with
        | Some reward =>
            let? expected_reward :=
              num_err (sat_from_big_decimal (Swap.wr_amount reward) (c_decimals coin)) in
            let actual_reward := wrap 64 (out_value actual_output - amount) in
            validate_watcher_reward expected_reward actual_reward false
        | None =>
            if negb (out_value actual_output =? amount)
            then Err (WrongPaymentTx "Provided payment tx output value doesn't match expected")
            else Ok tt
        end in
      spv_check coin chain tx try_spv_proof_until confirmations).

Definition deserialize_vp (coin : UtxoCoin) (tx : list Z) : result ValidatePaymentError Transaction :=
  map_err TxDeserializationError (deserialize_payment coin tx).

(** [validate_maker_payment] and [validate_taker_payment]: their code is the
    same. *)
Definition validate_swap_payment (coin : UtxoCoin) (chain : Chain)
  (input : Swap.ValidatePaymentInput) : option (result ValidatePaymentError unit) :=
  let! tx := Some (deserialize_vp coin (Swap.vp_payment_tx input)) in
  our ← derive_htlc_pubkey coin (Swap.vp_unique_swap_data input);
  let! our_pub := Some (map_err (fun e => InternalError (keys_err e)) (public_from_slice our)) in
  let! other_pub := Some (map_err (fun e => InvalidParameter (keys_err e))
                            (public_from_slice (Swap.vp_other_pub input))) in
  let! time_lock := Some (map_err (fun _ => TimelockOverflow)
                            (try_into_u32 (Swap.vp_time_lock input))) in
  validate_payment coin chain tx DEFAULT_SWAP_VOUT other_pub our_pub
    (TakerOrMakerPayment (Swap.vp_secret_hash input)) (Swap.vp_amount input)
    (Swap.vp_watcher_reward input) time_lock (Swap.vp_try_spv_proof_until input)
    (Swap.vp_confirmations input).

(** [validate_payment_spend_or_refund] *)
Definition validate_payment_spend_or_refund (coin : UtxoCoin) (n : Net)
  (payment_tx : list Z) : option (result ValidatePaymentError unit) :=
  let! payment_spend_tx := Some (deserialize_vp coin payment_tx) in
  let! my_address := Some (map_err InternalError (single_addr n)) in
  r ← output_script my_address;
  Some (
  let? expected_script_pubkey := map_err (fun e => InternalError (keys_err e)) r in
  let? output := ok_or (outputs payment_spend_tx !! DEFAULT_SWAP_VOUT)
                   (WrongPaymentTx "Payment tx has no outputs") in
  if negb (bool_decide (expected_script_pubkey = script_pubkey output))
  then Err (WrongPaymentTx "Provided payment tx script pubkey doesn't match expected")
  else Ok tt).

(** ** Finding a spend *)

Inductive FoundSpend : Type := SpentBy (tx : Transaction) | RefundedBy (tx : Transaction).

Definition search_for_swap_output_spend (coin : UtxoCoin) (chain : Chain) (time_lock : Z)
  (first_pub second_pub : Public) (secret_hash tx : list Z) (output_index : nat)
  (search_from_block : Z) : option (result string (option FoundSpend)) :=
  let! tx := Some (deserialize_payment coin tx) in
  if is_nil (outputs tx) then Some (Err "Transaction doesn't have any output"%string)
  else
    script ← payment_script time_lock secret_hash first_pub second_pub;
    expected_script_pubkey ← build_p2sh (AddressHash (dhash160 script));
    let! output := Some (ok_or (outputs tx !! output_index) "No output with index"%string) in
    if negb (bool_decide (script_pubkey output = expected_script_pubkey))
    then Some (Err "script_pubkey doesn't match expected"%string)
    else
      let! spend := Some (find_output_spend chain (tx_hash tx) (script_pubkey output)
                            output_index search_from_block) in
      match spend with
      | None => Some (Ok None)
      | Some spent_output_info =>
          l ← iter (script_sig (spent_input spent_output_info));
          let is_op k o := match l !! k with
                           | Some (Ok i) => bool_decide (opcode i = o)
                           | _ => false
                           end in
          Some (if is_op 2%nat OP_0 then Ok (Some (SpentBy (spending_tx spent_output_info)))
                else if is_op 1%nat OP_1 then Ok (Some (RefundedBy (spending_tx spent_output_info)))
                else Err "Couldn't find required instruction in script_sig"%string)
      end.

Definition search_for_swap_tx_spend_my (coin : UtxoCoin) (chain : Chain)
  (input : Swap.SearchForSwapTxSpendInput) (output_index : nat)
  : option (result string (option FoundSpend)) :=
  let! time_lock := Some (try_into_u32 (Swap.se_time_lock input)) in
  mine ← derive_htlc_pubkey coin (Swap.se_swap_unique_data input);
  let! my_pub := Some (map_err keys_err (public_from_slice mine)) in
  let! other_pub := Some (map_err keys_err (public_from_slice (Swap.se_other_pub input))) in
  search_for_swap_output_spend coin chain time_lock my_pub other_pub (Swap.se_secret_hash input)
    (Swap.se_tx input) output_index (Swap.se_search_from_block input).

Definition search_for_swap_tx_spend_other (coin : UtxoCoin) (chain : Chain)
  (input : Swap.SearchForSwapTxSpendInput) (output_index : nat)
  : option (result string (option FoundSpend)) :=
  let! time_lock := Some (try_into_u32 (Swap.se_time_lock input)) in
  let! other_pub := Some (map_err keys_err (public_from_slice (Swap.se_other_pub input))) in
  mine ← derive_htlc_pubkey coin (Swap.se_swap_unique_data input);
  let! my_pub := Some (map_err keys_err (public_from_slice mine)) in
  search_for_swap_output_spend coin chain time_lock other_pub my_pub (Swap.se_secret_hash input)
    (Swap.se_tx input) output_index (Swap.se_search_from_block input).

Definition watcher_search_for_swap_tx_spend (coin : UtxoCoin) (chain : Chain)
  (input : WatcherSearchForSwapTxSpendInput) (output_index : nat)
  : option (result string (option FoundSpend)) :=
  let! taker_pub := Some (map_err keys_err (public_from_slice (wse_taker_pub input))) in
  let! maker_pub := Some (map_err keys_err (public_from_slice (wse_maker_pub input))) in
  search_for_swap_output_spend coin chain (wse_time_lock input) taker_pub maker_pub
    (wse_secret_hash input) (wse_tx input) output_index (wse_search_from_block input).
End Validate.
