(* ===== verification/UtxoFee.v ===== *)
(** * Checking the fee of a taker (mm2src/coins/utxo/utxo_common.rs)

    That a transaction spends only what belongs to a key, the validation of the
    fee by the maker and by a watcher, and what a watcher checks of a taker
    payment. *)

From S2P Require Import Prelude MmNumber DexFee Effects Swap SwapWatcher SwapV2 Opcode Keys Script ScriptProps Serialization Transaction Sign HtlcScripts UtxoHtlc UtxoValidate.
Local Open Scope Z_scope.
Local Open Scope result_scope.

Definition set_input_amount (i : UnsignedTransactionInput) (a : Z) : UnsignedTransactionInput :=
  mkUnsignedInput (u_previous_output i) (prev_script i) (u_sequence i) a.

Definition set_signer_inputs (s : TransactionInputSigner) (branch : Z)
  (ins : list UnsignedTransactionInput) : TransactionInputSigner :=
  mkSigner (s_version s) (s_n_time s) (s_overwintered s) (s_version_group_id s) branch
    (s_expiry_height s) (s_value_balance s) ins (s_outputs s) (s_lock_time s) (s_join_splits s)
    (s_shielded_spends s) (s_shielded_outputs s) (s_zcash s) (s_posv s) (s_str_d_zeel s)
    (hash_algo s) (s_v_extra_payload s).

Section Fee.
  Context `{ByteOrder} `{BitCrypto} `{Blake2b} `{Secp256k1} `{ToU64} `{DecimalConv}.

(** [set_index_amount_from_prev_tx]: the amount of the spent output, from the
    chain. *)
Definition set_index_amount_from_prev_tx (chain : Chain) (signer : TransactionInputSigner)
  (idx : nat) : result string TransactionInputSigner :=
  let? input := ok_or (s_inputs signer !! idx) "Input index out of bounds"%string in
  let? bytes := get_transaction_bytes chain 0 (op_hash (u_previous_output input)) in
  let? prev_tx := map_err (fun _ => "Failed to deserialize prev tx"%string)
                    (deserialize Transaction bytes) in
  let? prev_output := ok_or (outputs prev_tx !! Z.to_nat (op_index (u_previous_output input)))
                        "Prev tx output index out of bounds"%string in
  Ok (set_signer_inputs signer (consensus_branch_id signer)
        (<[idx := set_input_amount input (out_value prev_output)]> (s_inputs signer))).

(** The signature without its last byte, the hash type. *)
Definition without_last (l : list Z) : list Z := take (length l - 1) l.

Definition der_ok {E} (err : E) (signature : list Z) : result E unit :=
  map_err (fun _ => err) (let? _ := sig_from_der (without_last signature) in Ok tt).

(** The loop over the two forms of the key. *)
Fixpoint verify_scripts (unsigned_tx : TransactionInputSigner) (index : nat)
  (version : SignatureVersion) (fork_id : Z) (expected_pubkey : Public) (signature : list Z)
  (scripts : list Script) : option (result ValidatePaymentError bool) :=
  match scripts with
  | [] => Some (Ok false)
  | pubkey_script :: scripts =>
      h ← signature_hash_to_sign unsigned_tx index pubkey_script version SIGHASH_ALL fork_id;
      match h with
      | Err _ => Some (Err (CheckSignatureError "Error calculating signature hash"))
      | Ok hash =>
          match public_verify expected_pubkey hash signature with
          | Ok true => Some (Ok true)
          | Ok false =>
              verify_scripts unsigned_tx index version fork_id expected_pubkey signature scripts
          | Err _ => Some (Err (CheckSignatureError "Error verifying signature"))
          end
      end
  end.

Definition verify_p2pk_input_pubkey (script : Script) (expected_pubkey : Public)
  (unsigned_tx : TransactionInputSigner) (index : nat) (version : SignatureVersion) (fork_id : Z)
  : option (result ValidatePaymentError bool) :=
  r ← extract_signature script;
  let! signature := Some (map_err CheckSignatureError r) in
  let! _ := Some (der_ok (CheckSignatureError "Signature parsing error") signature) in
  i1 ← get_instruction script 1;
  match i1 with
  | Some _ => Some (Err (TxDeserializationError "Unexpected instruction at position 2"))
  | None =>
      let! pubkey := Some (map_err (fun _ => InvalidData "Parsing expected pubkey error")
                             (pk_from_slice (pub_bytes expected_pubkey))) in
      c ← build_p2pk (Compressed (pk_serialize pubkey));
      u ← build_p2pk (Normal (pk_serialize_uncompressed pubkey));
      verify_scripts unsigned_tx index version fork_id expected_pubkey signature [c; u]
  end.

Definition instruction_pubkey (i : option (result Script.Error Instruction))
  : result string PublicKey :=
  match i with
  | Some (Ok instruction) =>
      match data instruction with
      | Some bytes => map_err (fun _ => "pubkey"%string) (pk_from_slice bytes)
      | None => Err "No data at instruction 1"%string
      end
  | Some (Err _) => Err "Error on getting instruction 1"%string
  | None => Err "None instruction 1"%string
  end.

Definition pubkey_from_script_sig (script : Script) : option (result string (list Z)) :=
  r ← extract_signature script;
  let! signature := Some r in
  let! _ := Some (der_ok "signature"%string signature) in
  i1 ← get_instruction script 1;
  let! pubkey := Some (instruction_pubkey i1) in
  i2 ← get_instruction script 2;
  Some match i2 with
       | None => Ok (pk_serialize pubkey)
       | Some _ => Err "Unexpected instruction at position 2"%string
       end.

Definition pubkey_from_witness_script (witness_script : list (list Z)) : result string (list Z) :=
  match witness_script with
  | [signature; key] =>
      if is_nil signature then Err "Empty signature data in witness script"%string
      else
        let? _ := der_ok "signature"%string signature in
        let? pubkey := map_err (fun _ => "pubkey"%string) (pk_from_slice key) in
        Ok (pk_serialize pubkey)
  | _ => Err "Invalid witness length"%string
  end.

(** [get_or_insert_with(|| tx.clone().into())]; the amounts set for earlier
    inputs stay. *)
Definition p2pk_signer (coin : UtxoCoin) (chain : Chain) (tx : Transaction) (idx : nat)
  (unsigned_tx : option TransactionInputSigner)
  : result ValidatePaymentError TransactionInputSigner :=
  let unsigned_tx := default (signer_from_tx tx) unsigned_tx in
  if s_overwintered unsigned_tx then
    let? t := map_err TxDeserializationError
                (set_index_amount_from_prev_tx chain unsigned_tx idx) in
    Ok (set_signer_inputs t (c_consensus_branch_id coin) (s_inputs t))
  else Ok unsigned_tx.

Fixpoint inputs_signed_loop (coin : UtxoCoin) (chain : Chain) (tx : Transaction)
  (expected_pub : list Z) (unsigned_tx : option TransactionInputSigner) (idx : nat)
  (ins : list TransactionInput) : option (result ValidatePaymentError bool) :=
  match ins with
  | [] => Some (Ok true)
  | input :: ins =>
      spends_p2pk ← (if input_has_witness input then Some false
                     else does_script_spend_p2pk (script_sig input));
      if (spends_p2pk : bool) then
        let! t := Some (p2pk_signer coin chain tx idx unsigned_tx) in
        let! ok := verify_p2pk_input_pubkey (script_sig input) (Compressed expected_pub) t idx
                     (c_signature_version coin) (c_fork_id coin) in
        if (ok : bool)
        then inputs_signed_loop coin chain tx expected_pub (Some t) (S idx) ins
        else Some (Ok false)
      else
        r ← (if input_has_witness input
             then Some (pubkey_from_witness_script (script_witness input))
             else pubkey_from_script_sig (script_sig input));
        let! pubkey := Some (map_err TxDeserializationError r) in
        if bool_decide (pubkey = expected_pub)
        then inputs_signed_loop coin chain tx expected_pub unsigned_tx (S idx) ins
        else Some (Ok false)
  end.

Definition check_all_utxo_inputs_signed_by_pub (coin : UtxoCoin) (chain : Chain)
  (tx : Transaction) (expected_pub : list Z) : option (result ValidatePaymentError bool) :=
  if negb (length expected_pub =? 33)%nat
  then Some (Err (TxDeserializationError "wrong length of the expected key"))
  else inputs_signed_loop coin chain tx expected_pub None 0 (inputs tx).

Definition is_tx_confirmed_before_block (chain : Chain) (tx : RpcTransaction) (block_number : Z)
  : result string bool :=
  match rpc_height tx with
  | Some confirmed_at => Ok (confirmed_at <=? block_number)
  | None =>
      if 0 <? rpc_confirmations tx then
        let? height := get_block_count chain in
        let confirmed_at := wrap 64 (height + 1 - rpc_confirmations tx) in
        Ok (confirmed_at <=? block_number)
      else Ok false
  end.

(** ** The fee as the maker sees it *)

Definition validate_out (coin : UtxoCoin) (tx : Transaction) (output_index : nat)
  (expected_script_pubkey : Script) (amount : MmNumber) (few : string)
  : result ValidatePaymentError unit :=
  let? amount_u64 := num_err (sat_from_big_decimal (to_decimal amount) (c_decimals coin)) in
  match outputs tx !! output_index with
  | Some out =>
      if negb (bool_decide (script_pubkey out = expected_script_pubkey))
      then Err (WrongPaymentTx "Provided output script_pubkey doesn't match expected")
      else if out_value out <? amount_u64 then Err (WrongPaymentTx few) else Ok tt
  | None => Err (WrongPaymentTx "Provided tx does not have the output")
  end.

Definition validate_dex_output (coin : UtxoCoin) (tx : Transaction) (output_index : nat)
  (dex_address : AddressHashEnum) (fee_amount : MmNumber)
  : option (result ValidatePaymentError unit) :=
  s ← build_p2pkh dex_address;
  Some (validate_out coin tx output_index s fee_amount "dex fee output value is less than expected").

Definition validate_burn_output (coin : UtxoCoin) (tx : Transaction) (output_index : nat)
  (burn_script_pubkey : Script) (burn_amount : MmNumber) : result ValidatePaymentError unit :=
  validate_out coin tx output_index burn_script_pubkey burn_amount
    "burn output value is less than expected".

Definition validate_fee (coin : UtxoCoin) (chain : Chain)
  (dex_address burn_address : result string AddressHashEnum) (tx : Transaction)
  (output_index : nat) (sender_pubkey : list Z) (dex_fee : DexFee) (min_block_number : Z)
  : option (result ValidatePaymentError unit) :=
  let! dex_address := Some (map_err InternalError dex_address) in
  let! burn_address := Some (map_err InternalError burn_address) in
  let! signed := check_all_utxo_inputs_signed_by_pub coin chain tx sender_pubkey in
  if negb signed
  then Some (Err (WrongPaymentTx "Taker payment does not belong to the verified public key"))
  else
    let! tx_from_rpc := Some (map_err TransportError (get_verbose_transaction chain 0 (tx_hash tx))) in
    let! early := Some (map_err InternalError
                          (is_tx_confirmed_before_block chain tx_from_rpc min_block_number)) in
    if (early : bool) then Some (Err (WrongPaymentTx "Fee tx confirmed before min_block"))
    else if negb (same_tx_bytes tx (rpc_hex tx_from_rpc))
    then Some (Err (WrongPaymentTx "Provided dex fee tx doesn't match tx data from rpc"))
    else
      match dex_fee with
      | NoFee => Some (Ok tt)
      | DexFee.Standard fee_amount => validate_dex_output coin tx output_index dex_address fee_amount
      | WithBurn fee_amount burn_amount burn_destination =>
          let! _ := validate_dex_output coin tx output_index dex_address fee_amount in
          burn_script_pubkey ←
            match burn_destination with
            | KmdOpReturn => builder_default |> push_opcode OP_RETURN |> into_script
            | PreBurnAccount => build_p2pkh burn_address
            end;
          Some (validate_burn_output coin tx (output_index + 1) burn_script_pubkey burn_amount)
      end.

(** ** What a watcher checks *)

(** The loop over the attempts to get the transaction. *)
Fixpoint fee_from_rpc (attempts n : nat) (chain : Chain) (hash : list Z)
  : result ValidatePaymentError RpcTransaction :=
  match get_verbose_transaction chain n hash, attempts with
  | Ok t, _ => Ok t
  | Err _, S attempts => fee_from_rpc attempts (S n) chain hash
  | Err e, O => Err (TransportError e)
  end.

Definition watcher_validate_taker_fee (coin : UtxoCoin) (n : Net) (chain : Chain)
  (dex_address : result string AddressHashEnum) (input : WatcherValidateTakerFeeInput)
  (output_index : nat) : option (result ValidatePaymentError unit) :=
  if negb (length (wf_taker_fee_hash input) =? 32)%nat
  then Some (Err (InternalError "Invalid taker_fee_hash length"))
  else
    let! tx_from_rpc := Some (fee_from_rpc 3 0 chain (wf_taker_fee_hash input)) in
    let! taker_fee_tx := Some (map_err (fun _ => TxDeserializationError "Failed to deserialize transaction")
                                 (deserialize Transaction (rpc_hex tx_from_rpc))) in
    let! signed := check_all_utxo_inputs_signed_by_pub coin chain taker_fee_tx (wf_sender_pubkey input) in
    if negb signed
    then Some (Err (WrongPaymentTx "Taker fee does not belong to the verified public key"))
    else
      let! early := Some (map_err InternalError
             (is_tx_confirmed_before_block chain tx_from_rpc (wf_min_block_number input))) in
      if (early : bool) then Some (Err (WrongPaymentTx "Fee tx confirmed before min_block"))
      else if wrap 32 (UtxoHtlc.now_sec n - lock_time taker_fee_tx) >? wrap 32 (wf_lock_duration input)
      then Some (Err (WrongPaymentTx "Taker fee is too old"))
      else
        let! dex_address := Some (map_err TxDeserializationError dex_address) in
        s ← build_p2pkh dex_address;
        Some match outputs taker_fee_tx !! output_index with
             | Some out =>
                 if negb (bool_decide (script_pubkey out = s))
                 then Err (WrongPaymentTx "Provided dex fee tx output script_pubkey doesn't match expected")
                 else Ok tt
             | None => Err (WrongPaymentTx "Provided dex fee tx does not have output")
             end.

Definition deserialize_watched (tx : list Z) : result ValidatePaymentError Transaction :=
  map_err (fun _ => TxDeserializationError "Failed to deserialize transaction")
    (deserialize Transaction tx).

Definition watcher_validate_taker_payment (coin : UtxoCoin) (chain : Chain)
  (input : WatcherValidatePaymentInput) : option (result ValidatePaymentError unit) :=
  let! taker_payment_tx := Some (deserialize_watched (wv_payment_tx input)) in
  let! refund_preimage := Some (deserialize_watched (wv_taker_payment_refund_preimage input)) in
  let! taker_pub := Some (map_err (fun e => InvalidParameter (keys_err e))
                            (public_from_slice (wv_taker_pub input))) in
  let! maker_pub := Some (map_err (fun e => InvalidParameter (keys_err e))
                            (public_from_slice (wv_maker_pub input))) in
  let! time_lock := Some (map_err (fun _ => TimelockOverflow) (try_into_u32 (wv_time_lock input))) in
  expected_redeem ← payment_script time_lock (wv_secret_hash input) taker_pub maker_pub;
  let! signed := check_all_utxo_inputs_signed_by_pub coin chain taker_payment_tx (wv_taker_pub input) in
  if negb signed
  then Some (Err (WrongPaymentTx "Taker payment does not belong to the verified public key"))
  else
    let! output := Some (ok_or (outputs taker_payment_tx !! DEFAULT_SWAP_VOUT)
                           (WrongPaymentTx "Payment tx has no outputs")) in
    expected ← build_p2sh (AddressHash (dhash160 expected_redeem));
    if negb (bool_decide (script_pubkey output = expected))
    then Some (Err (WrongPaymentTx "Payment tx locking script doesn't match expected"))
    else
      let! input0 := Some (ok_or (inputs refund_preimage !! DEFAULT_SWAP_VIN)
                             (WrongPaymentTx "Taker payment refund tx has no inputs")) in
      l ← iter (script_sig input0);
      Some (
      let? i := ok_or (last l) (WrongPaymentTx "Instruction not found") in
      let? instruction := map_err (fun _ => WrongPaymentTx "script error") i in
      let? redeem_script := ok_or (data instruction)
                              (WrongPaymentTx "No redeem script in the taker payment refund preimage") in
      if negb (bool_decide (expected_redeem = redeem_script))
      then Err (WrongPaymentTx "Taker payment tx locking script doesn't match with taker payment refund redeem script")
      else spv_check coin chain taker_payment_tx (wv_wait_until input) (wv_confirmations input)).
End Fee.
