(* ===== verification/UtxoV2.v ===== *)
(** * The payments of the second protocol on UTXO coins
    (mm2src/coins/utxo/utxo_common.rs)

    The funding of the taker and its spends, the payment that the taker turns
    it into and its spend, and the payment of the maker.  Two parties sign: a
    side makes a preimage, an unsigned transaction with one signature, the
    other validates it, adds its own signature and sends. *)

From Stdlib Require Import SpecFloat.
From S2P Require Import Prelude F64 MmNumber DexFee Effects Swap SwapWatcher SwapV2 Opcode Keys Script ScriptProps Serialization Transaction Sign HtlcScripts UtxoHtlc UtxoValidate.
Local Open Scope Z_scope.
Local Open Scope result_scope.

#[export] Instance OutPoint_eq_dec : EqDecision OutPoint.
Proof. solve_decision. Defined.
#[export] Instance TransactionInput_eq_dec : EqDecision TransactionInput.
Proof. solve_decision. Defined.
#[export] Instance TransactionOutput_eq_dec : EqDecision TransactionOutput.
Proof. solve_decision. Defined.
#[export] Instance ShieldedSpend_eq_dec : EqDecision ShieldedSpend.
Proof. solve_decision. Defined.
#[export] Instance ShieldedOutput_eq_dec : EqDecision ShieldedOutput.
Proof. solve_decision. Defined.
#[export] Instance JoinSplitProof_eq_dec : EqDecision JoinSplitProof.
Proof. solve_decision. Defined.
#[export] Instance JoinSplit_eq_dec : EqDecision JoinSplit.
Proof. solve_decision. Defined.
#[export] Instance TxHashAlgo_eq_dec : EqDecision TxHashAlgo.
Proof. solve_decision. Defined.
#[export] Instance Transaction_eq_dec : EqDecision Transaction.
Proof. solve_decision. Defined.

Inductive TxGenError : Type :=
| TxGenRpc (e : string)
| TxGenNumConversion (e : string)
| Signing (e : string)
| TxGenLegacy (e : string)
| LocktimeOverflow
| TxFeeTooHigh (fee_plus_dust funding_amount : Z)
| PrevTxIsNotValid (e : string)
| PrevOutputTooLow (prev_value : Z)
| TxGenOther (e : string).

Inductive ValidatePreimageError : Type :=
| FundingTxNoOutputs
| UnexpectedPreimageFee (expected actual : Z)
| InvalidCounterpartySignature
| InvalidPreimage (e : string)
| SignatureVerificationFailure (e : string)
| TxGenErr (e : TxGenError)
| PreimageLocktimeOverflow
| PreimageRpc (e : string).

Inductive ValidateSwapV2TxError : Type :=
| InvalidDestinationOrAmount (e : string)
| V2NumConversion (e : string)
| V2Rpc (e : string)
| V2Overflow
| V2Internal (e : string).

Inductive FundingSpendFeeSetting : Type := GetFromCoin | UseExactFee (fee : Z).

Record FundingSpendArgs : Type := mkFundingSpendArgs {
  fa_funding_tx : Transaction;
  fa_maker_pub : Public;
  fa_taker_pub : Public;
  fa_funding_time_lock : Z;
  fa_taker_secret_hash : list Z;
  fa_taker_payment_time_lock : Z;
  fa_maker_secret_hash : list Z }.

Record PaymentSpendArgs : Type := mkPaymentSpendArgs {
  pa_taker_tx : Transaction;
  pa_time_lock : Z;
  pa_maker_secret_hash : list Z;
  pa_maker_pub : Public;
  pa_maker_address : ScriptAddress;
  pa_taker_pub : Public;
  pa_dex_fee : DexFee }.

Record UtxoPreimage : Type := mkUtxoPreimage { pre_tx : Transaction; pre_signature : list Z }.

Definition gen_time_lock (z : Z) : result TxGenError Z := map_err (fun _ => LocktimeOverflow) (try_into_u32 z).
Definition val_time_lock (z : Z) : result ValidatePreimageError Z :=
  map_err (fun _ => PreimageLocktimeOverflow) (try_into_u32 z).

Definition sat_err (e : string) : ValidateSwapV2TxError := V2NumConversion e.

Section V2.
  Context `{ByteOrder} `{BitCrypto} `{Blake2b} `{Secp256k1} `{ToU64} `{DecimalConv}.

(** ** From the funding to the taker payment *)

Definition gen_taker_funding_spend_preimage (coin : UtxoCoin) (n : Net) (args : FundingSpendArgs)
  (n_time : NTimeSetting) (fee : FundingSpendFeeSetting)
  : option (result TxGenError TransactionInputSigner) :=
  let! payment_time_lock := Some (gen_time_lock (fa_taker_payment_time_lock args)) in
  payment_redeem_script ← taker_payment_script payment_time_lock (fa_maker_secret_hash args)
                            (fa_taker_pub args) (fa_maker_pub args);
  let! funding_out := Some (map_err (fun _ => PrevTxIsNotValid "Funding tx has no outputs")
                              (first_output (fa_funding_tx args))) in
  let funding_amount := out_value funding_out in
  let! fee := Some match fee with
                   | GetFromCoin => map_err TxGenRpc (htlc_spend_fee n Swap.WithoutApprox)
                   | UseExactFee f => Ok f
                   end in
  let fee_plus_dust := wrap 64 (fee + c_dust_amount coin) in
  if funding_amount <? fee_plus_dust
  then Some (Err (TxFeeTooHigh fee_plus_dust funding_amount))
  else
    payment_script_pubkey ← build_p2sh (AddressHash (dhash160 payment_redeem_script));
    let payment_output := mkTransactionOutput (wrap 64 (funding_amount - fee)) payment_script_pubkey in
    Some (map_err TxGenLegacy
      (p2sh_spending_tx_preimage coin n (fa_funding_tx args) (UseExactLock 0) n_time
         SEQUENCE_FINAL [payment_output])).

Definition gen_and_sign_taker_funding_spend_preimage (coin : UtxoCoin) (n : Net)
  (args : FundingSpendArgs) (htlc_keypair : KeyPair) : option (result TxGenError UtxoPreimage) :=
  let! funding_time_lock := Some (gen_time_lock (fa_funding_time_lock args)) in
  let! preimage := gen_taker_funding_spend_preimage coin n args UseNow GetFromCoin in
  redeem_script ← taker_funding_script funding_time_lock (fa_taker_secret_hash args)
                    (fa_taker_pub args) (fa_maker_pub args);
  sig ← calc_and_sign_sighash preimage DEFAULT_SWAP_VOUT redeem_script htlc_keypair
          (c_signature_version coin) SIGHASH_ALL (c_fork_id coin);
  let! signature := Some (map_err (fun e => Signing (sign_err e)) sig) in
  Some (Ok (mkUtxoPreimage (tx_from_signer preimage) signature)).

(** The signature of the other side over a preimage. *)
Definition verify_preimage (coin : UtxoCoin) (expected_preimage : TransactionInputSigner)
  (redeem_script : Script) (sig_hash_type : Z) (pub : Public) (preimage : UtxoPreimage)
  : option (result ValidatePreimageError unit) :=
  h ← signature_hash_to_sign expected_preimage DEFAULT_SWAP_VOUT redeem_script
        (c_signature_version coin) sig_hash_type (c_fork_id coin);
  let! sig_hash := Some (map_err (fun e => SignatureVerificationFailure (sign_err e)) h) in
  let! valid := Some (map_err (fun e => SignatureVerificationFailure (keys_err e))
                        (public_verify pub sig_hash (pre_signature preimage))) in
  if negb valid then Some (Err InvalidCounterpartySignature)
  else if decide (tx_from_signer expected_preimage <> pre_tx preimage)
  then Some (Err (InvalidPreimage "Preimage is not equal to expected"))
  else Some (Ok tt).

Definition validate_taker_funding_spend_preimage (coin : UtxoCoin) (n : Net)
  (gen_args : FundingSpendArgs) (preimage : UtxoPreimage)
  : option (result ValidatePreimageError unit) :=
  let! funding_out := Some (map_err (fun _ => FundingTxNoOutputs)
                              (first_output (fa_funding_tx gen_args))) in
  let funding_amount := out_value funding_out in
  let! payment_out := Some (map_err (fun _ => InvalidPreimage "Preimage has no outputs")
                              (first_output (pre_tx preimage))) in
  let payment_amount := out_value payment_out in
  if payment_amount >? funding_amount
  then Some (Err (InvalidPreimage "Preimage output larger than funding input"))
  else
    let! expected_fee := Some (map_err PreimageRpc (htlc_spend_fee n Swap.WithoutApprox)) in
    let actual_fee := funding_amount - payment_amount in
    let fee_div := f64_div (f64_of_u64 expected_fee) (f64_of_u64 actual_fee) in
    if negb (f64_le f64_0_9 fee_div && f64_le fee_div f64_1_1)
    then Some (Err (UnexpectedPreimageFee expected_fee actual_fee))
    else
      expected ← gen_taker_funding_spend_preimage coin n gen_args
                   (UseValue (n_time (pre_tx preimage))) (UseExactFee actual_fee);
      let! expected_preimage := Some (map_err TxGenErr expected) in
      let! funding_time_lock := Some (val_time_lock (fa_funding_time_lock gen_args)) in
      redeem_script ← taker_funding_script funding_time_lock (fa_taker_secret_hash gen_args)
                        (fa_taker_pub gen_args) (fa_maker_pub gen_args);
      verify_preimage coin expected_preimage redeem_script SIGHASH_ALL (fa_maker_pub gen_args) preimage.

(** A signer for a received preimage: the amount that it spends and the branch. *)
Definition preimage_signer (coin : UtxoCoin) (preimage : UtxoPreimage) (prev_tx : Transaction)
  : result TransactionErr (TransactionInputSigner * Z) :=
  let signer := signer_from_tx (pre_tx preimage) in
  match s_inputs signer with
  | [] => Err (Plain "Preimage doesn't have inputs")
  | payment_input :: rest =>
      let? prev_output := try_plain (first_output prev_tx) in
      let input := mkUnsignedInput (u_previous_output payment_input) (prev_script payment_input)
                     (u_sequence payment_input) (out_value prev_output) in
      Ok (mkSigner (s_version signer) (s_n_time signer) (s_overwintered signer)
            (s_version_group_id signer) (c_consensus_branch_id coin) (s_expiry_height signer)
            (s_value_balance signer) (input :: rest) (s_outputs signer) (s_lock_time signer)
            (s_join_splits signer) (s_shielded_spends signer) (s_shielded_outputs signer)
            (s_zcash signer) (s_posv signer) (s_str_d_zeel signer) (hash_algo signer)
            (s_v_extra_payload signer), out_value prev_output)
  end.

(** [(sighash | fork_id) as u8] after a signature. *)
Definition with_sighash (signature : list Z) (sighash fork_id : Z) : list Z :=
  signature ++ [wrap 8 (Z.lor sighash fork_id)].

(** The transaction of the signer with [script_sig] in its first input. *)
Definition finalize (signer : TransactionInputSigner) (script_sig : Script)
  : result TransactionErr Transaction :=
  let final_tx := tx_from_signer signer in
  match inputs final_tx with
  | [] => Err (Plain "Final tx doesn't have inputs")
  | input :: rest => Ok (set_inputs final_tx (set_script_sig input script_sig :: rest))
  end.

Definition sign_plain (r : result SignError (list Z)) : result TransactionErr (list Z) :=
  map_err (fun e => Plain (sign_err e)) r.

Definition sign_and_send_taker_funding_spend (coin : UtxoCoin) (n : Net) (preimage : UtxoPreimage)
  (gen_args : FundingSpendArgs) (htlc_keypair : KeyPair)
  : option (result TransactionErr Transaction) :=
  let! funding_time_lock := Some (try_plain (try_into_u32 (fa_funding_time_lock gen_args))) in
  redeem_script ← taker_funding_script funding_time_lock (fa_taker_secret_hash gen_args)
                    (fa_taker_pub gen_args) (fa_maker_pub gen_args);
  let! signer_ := Some (preimage_signer coin preimage (fa_funding_tx gen_args)) in
  let '(signer, _) := signer_ in
  sig ← calc_and_sign_sighash signer DEFAULT_SWAP_VOUT redeem_script htlc_keypair
          (c_signature_version coin) SIGHASH_ALL (c_fork_id coin);
  let! taker_signature := Some (sign_plain sig) in
  script_sig ← (builder_default
    |> push_data (with_sighash (pre_signature preimage) SIGHASH_ALL (c_fork_id coin))
    |> push_data (with_sighash taker_signature SIGHASH_ALL (c_fork_id coin))
    |> push_opcode OP_1
    |> push_opcode OP_0
    |> push_data redeem_script);
  let! final_tx := Some (finalize signer script_sig) in
  let! _ := (if c_native coin then
               let! payment_time_lock := Some (try_plain (try_into_u32 (fa_taker_payment_time_lock gen_args))) in
               payment_redeem_script ← taker_payment_script payment_time_lock
                 (fa_maker_secret_hash gen_args) (fa_taker_pub gen_args) (fa_maker_pub gen_args);
               Some (try_plain (import_address n
                 (new_p2sh (AddressHash (dhash160 payment_redeem_script)))))
             else Some (Ok tt)) in
  send_signed n (Some (Ok final_tx)).

(** ** From the taker payment to its spend *)

Definition gen_err {A} (r : result string A) : result TxGenError A := map_err TxGenOther r.

Definition sig_hash_type_of (dex_fee : DexFee) : Z :=
  match dex_fee with
  | DexFee.Standard _ => SIGHASH_SINGLE
  | WithBurn _ _ _ | NoFee => SIGHASH_ALL
  end.

(** [outputs[0].value + outputs[1].value]; [WithBurn] has made both. *)
Definition dex_fee_value (dex_fee : DexFee) (outputs : list TransactionOutput) : option Z :=
  match dex_fee, outputs with
  | WithBurn _ _ _, fee :: burn :: _ => Some (wrap 64 (out_value fee + out_value burn))
  | WithBurn _ _ _, _ => None
  | _, _ => Some 0
  end.

Definition gen_taker_payment_spend_preimage (coin : UtxoCoin) (n : Net)
  (dex_address burn_address : result string AddressHashEnum) (args : PaymentSpendArgs)
  (n_time : NTimeSetting) : option (result TxGenError TransactionInputSigner) :=
  outs ← generate_taker_fee_tx_outputs coin dex_address burn_address (pa_dex_fee args);
  let! outputs := Some (gen_err outs) in
  let! outputs :=
    match pa_dex_fee args with
    | WithBurn _ _ _ | NoFee =>
        s ← output_script (pa_maker_address args);
        let! script := Some (map_err (fun e => TxGenOther (keys_err e)) s) in
        let! tx_fee := Some (map_err TxGenRpc (htlc_spend_fee n Swap.WithoutApprox)) in
        dex_fee_value ← dex_fee_value (pa_dex_fee args) outputs;
        let! prev := Some (map_err PrevTxIsNotValid (first_output (pa_taker_tx args))) in
        let prev_value := out_value prev in
        let! rest := Some (ok_or (checked_sub prev_value dex_fee_value) (PrevOutputTooLow prev_value)) in
        let! maker_value := Some (ok_or (checked_sub rest tx_fee) (PrevOutputTooLow prev_value)) in
        Some (Ok (outputs ++ [mkTransactionOutput maker_value script]))
    | DexFee.Standard _ => Some (Ok outputs)
    end in
  Some (map_err TxGenLegacy
    (p2sh_spending_tx_preimage coin n (pa_taker_tx args) (UseExactLock 0) n_time SEQUENCE_FINAL outputs)).

Definition gen_and_sign_taker_payment_spend_preimage (coin : UtxoCoin) (n : Net)
  (dex_address burn_address : result string AddressHashEnum) (args : PaymentSpendArgs)
  (htlc_keypair : KeyPair) : option (result TxGenError UtxoPreimage) :=
  let! time_lock := Some (gen_time_lock (pa_time_lock args)) in
  let! preimage := gen_taker_payment_spend_preimage coin n dex_address burn_address args UseNow in
  redeem_script ← taker_payment_script time_lock (pa_maker_secret_hash args) (pa_taker_pub args)
                    (pa_maker_pub args);
  sig ← calc_and_sign_sighash preimage DEFAULT_SWAP_VOUT redeem_script htlc_keypair
          (c_signature_version coin) (sig_hash_type_of (pa_dex_fee args)) (c_fork_id coin);
  let! signature := Some (map_err (fun e => Signing (sign_err e)) sig) in
  Some (Ok (mkUtxoPreimage (tx_from_signer preimage) signature)).

Definition validate_taker_payment_spend_preimage (coin : UtxoCoin) (n : Net)
  (dex_address burn_address : result string AddressHashEnum) (gen_args : PaymentSpendArgs)
  (preimage : UtxoPreimage) : option (result ValidatePreimageError unit) :=
  expected ← gen_taker_payment_spend_preimage coin n dex_address burn_address gen_args
               (UseValue (n_time (pre_tx preimage)));
  let! expected_preimage := Some (map_err TxGenErr expected) in
  let! time_lock := Some (val_time_lock (pa_time_lock gen_args)) in
  redeem_script ← taker_payment_script time_lock (pa_maker_secret_hash gen_args)
                    (pa_taker_pub gen_args) (pa_maker_pub gen_args);
  verify_preimage coin expected_preimage redeem_script (sig_hash_type_of (pa_dex_fee gen_args))
    (pa_taker_pub gen_args) preimage.

Definition add_output (s : TransactionInputSigner) (o : TransactionOutput) : TransactionInputSigner :=
  mkSigner (s_version s) (s_n_time s) (s_overwintered s) (s_version_group_id s)
    (consensus_branch_id s) (s_expiry_height s) (s_value_balance s) (s_inputs s)
    (s_outputs s ++ [o]) (s_lock_time s) (s_join_splits s) (s_shielded_spends s)
    (s_shielded_outputs s) (s_zcash s) (s_posv s) (s_str_d_zeel s) (hash_algo s)
    (s_v_extra_payload s).

(** The output of the maker, where the taker has signed only the fee. *)
Definition add_maker_output (coin : UtxoCoin) (n : Net) (dex_fee : DexFee)
  (signer : TransactionInputSigner) (payment_value : Z)
  : option (result TransactionErr TransactionInputSigner) :=
  match dex_fee with
  | DexFee.Standard dex_fee =>
      let! dex_fee_sat := Some (try_plain (sat_from_big_decimal (to_decimal dex_fee) (c_decimals coin))) in
      let! miner_fee := Some (try_plain (htlc_spend_fee n Swap.WithoutApprox)) in
      if wrap 64 (wrap 64 (miner_fee + c_dust_amount coin) + dex_fee_sat) >? payment_value
      then Some (Err (Plain "Payment amount is too small to cover miner fee + dust + dex_fee_sat"))
      else
        let! maker_address := Some (try_plain (single_addr n)) in
        let! script := output_script_plain maker_address in
        Some (Ok (add_output signer
          (mkTransactionOutput (wrap 64 (wrap 64 (payment_value - miner_fee) - dex_fee_sat)) script)))
  | WithBurn _ _ _ | NoFee => Some (Ok signer)
  end.

Definition sign_and_broadcast_taker_payment_spend (coin : UtxoCoin) (n : Net)
  (preimage : UtxoPreimage) (gen_args : PaymentSpendArgs) (secret : list Z)
  (htlc_keypair : KeyPair) : option (result TransactionErr Transaction) :=
  let secret_hash := dhash160 secret in
  let! time_lock := Some (try_plain (try_into_u32 (pa_time_lock gen_args))) in
  redeem_script ← taker_payment_script time_lock secret_hash (pa_taker_pub gen_args)
                    (public htlc_keypair);
  let! signer_ := Some (preimage_signer coin preimage (pa_taker_tx gen_args)) in
  let '(signer, payment_value) := signer_ in
  let! signer := add_maker_output coin n (pa_dex_fee gen_args) signer payment_value in
  sig ← calc_and_sign_sighash signer DEFAULT_SWAP_VOUT redeem_script htlc_keypair
          (c_signature_version coin) SIGHASH_ALL (c_fork_id coin);
  let! maker_signature := Some (sign_plain sig) in
  script_sig ← (builder_default
    |> push_data (with_sighash maker_signature SIGHASH_ALL (c_fork_id coin))
    |> push_data (with_sighash (pre_signature preimage) (sig_hash_type_of (pa_dex_fee gen_args))
                    (c_fork_id coin))
    |> push_data secret
    |> push_opcode OP_0
    |> push_data redeem_script);
  let! final_tx := Some (finalize signer script_sig) in
  send_signed n (Some (Ok final_tx)).

(** ** Reclaiming and the payment of the maker *)

Definition refund_taker_funding_secret (wc_sign : TransactionInputSigner -> Transaction -> Script ->
    Script -> result string Transaction)
  (coin : UtxoCoin) (n : Net) (funding_tx : Transaction)
  (funding_time_lock : Z) (maker_pubkey : Public) (taker_secret taker_secret_hash swap_unique_data : list Z)
  : option (result TransactionErr Transaction) :=
  let! my_address := Some (try_plain (single_addr n)) in
  let! _ := Some (try_plain (first_output funding_tx)) in
  key_pair ← derive_htlc_key_pair coin swap_unique_data;
  script_data ← (builder_default |> push_data taker_secret |> push_opcode OP_0 |> push_opcode OP_0);
  let! time_lock := Some (try_plain (try_into_u32 funding_time_lock)) in
  redeem_script ← taker_funding_script time_lock taker_secret_hash (public key_pair) maker_pubkey;
  send_signed n
    (htlc_spend wc_sign coin n Swap.WithoutApprox my_address funding_tx redeem_script script_data
       SEQUENCE_FINAL time_lock (Some (Ok (SignerKeyPair key_pair)))).

Definition spend_maker_payment_v2 (wc_sign : TransactionInputSigner -> Transaction -> Script ->
    Script -> result string Transaction)
  (coin : UtxoCoin) (n : Net) (maker_payment_tx : Transaction) (payment_time_lock : Z)
  (maker_secret maker_secret_hash taker_secret_hash : list Z) (maker_pub : Public)
  (swap_unique_data : list Z) : option (result TransactionErr Transaction) :=
  let! my_address := Some (try_plain (single_addr n)) in
  let! _ := Some (try_plain (first_output maker_payment_tx)) in
  key_pair ← derive_htlc_key_pair coin swap_unique_data;
  script_data ← (builder_default |> push_data maker_secret |> push_opcode OP_1 |> push_opcode OP_0);
  let! time_lock := Some (try_plain (try_into_u32 payment_time_lock)) in
  redeem_script ← maker_payment_script time_lock maker_secret_hash taker_secret_hash maker_pub
                    (public key_pair);
  send_signed n
    (htlc_spend wc_sign coin n Swap.WithoutApprox my_address maker_payment_tx redeem_script
       script_data SEQUENCE_FINAL time_lock (Some (Ok (SignerKeyPair key_pair)))).

Definition refund_maker_payment_v2_secret (wc_sign : TransactionInputSigner -> Transaction -> Script ->
    Script -> result string Transaction)
  (coin : UtxoCoin) (n : Net) (maker_payment_tx : Transaction) (payment_time_lock : Z)
  (taker_secret maker_secret_hash taker_secret_hash : list Z) (taker_pub : Public)
  (swap_unique_data : list Z) : option (result TransactionErr Transaction) :=
  let! my_address := Some (try_plain (single_addr n)) in
  let! _ := Some (try_plain (first_output maker_payment_tx)) in
  key_pair ← derive_htlc_key_pair coin swap_unique_data;
  script_data ← (builder_default |> push_data taker_secret |> push_opcode OP_0 |> push_opcode OP_0);
  let! time_lock := Some (try_plain (try_into_u32 payment_time_lock)) in
  redeem_script ← maker_payment_script time_lock maker_secret_hash taker_secret_hash
                    (public key_pair) taker_pub;
  send_signed n
    (htlc_spend wc_sign coin n Swap.WithoutApprox my_address maker_payment_tx redeem_script
       script_data SEQUENCE_FINAL time_lock (Some (Ok (SignerKeyPair key_pair)))).

(** [validate_taker_funding]; the sum of the amounts is exact. *)
Definition validate_taker_funding (coin : UtxoCoin) (n : Net) (funding_tx : Transaction)
  (funding_time_lock : Z) (taker_secret_hash : list Z) (taker_pub : Public) (dex_fee : DexFee)
  (premium_amount trading_amount : BigDecimal) (swap_unique_data : list Z)
  : option (result ValidateSwapV2TxError unit) :=
  mine ← derive_htlc_pubkey coin swap_unique_data;
  let! maker_pub := Some (map_err (fun e => V2Internal (keys_err e)) (public_from_slice mine)) in
  let total_expected_amount :=
    (to_decimal (total_spend_amount dex_fee) + premium_amount + trading_amount)%Q in
  let! expected_amount_sat := Some (map_err sat_err
                                (sat_from_big_decimal total_expected_amount (c_decimals coin))) in
  let! time_lock := Some (map_err (fun _ => V2Overflow) (try_into_u32 funding_time_lock)) in
  redeem_script ← taker_funding_script time_lock taker_secret_hash taker_pub maker_pub;
  script ← build_p2sh (AddressHash (dhash160 redeem_script));
  let expected_output := mkTransactionOutput expected_amount_sat script in
  if decide (outputs funding_tx !! 0%nat <> Some expected_output)
  then Some (Err (InvalidDestinationOrAmount "unexpected first output"))
  else
    Some (if c_native coin
          then map_err V2Rpc (import_address n (new_p2sh (AddressHash (dhash160 redeem_script))))
          else Ok tt).
End V2.
