(* ===== verification/UtxoTxBuilder.v ===== *)
(** * Building the transactions of a UTXO wallet
    (mm2src/coins/utxo.rs, mm2src/coins/utxo/utxo_common.rs)

    The fee of a transaction, the interest of KMD and [UtxoTxBuilder], which
    chooses inputs, adds the change and repeats until the inputs pay for the
    outputs and the fee.  Sums and products of amounts wrap, as a release build
    has them.  [None] is a panic, or the loop that has run out of fuel. *)

From Stdlib Require Import QArith SpecFloat.
From S2P Require Import Prelude F64 MmNumber Swap Opcode Keys Script Serialization Transaction Sign UtxoHtlc UtxoV2.
Local Open Scope Z_scope.
Local Open Scope result_scope.

Definition KILO_BYTE : Z := 1000.
Definition MAX_DER_SIGNATURE_LEN : Z := 72.
Definition COMPRESSED_PUBKEY_LEN : Z := 33.
Definition P2PKH_OUTPUT_LEN : Z := 34.

(** ** Fees *)

Inductive FeeRate : Type :=
| RateDynamic
| RateFixedPerKb (satoshis : Z)
| RateFixedPerKbDingo (satoshis : Z).

Inductive ActualFeeRate : Type :=
| Dynamic (fee_rate : Z)
| FixedPerKb (fee_rate : Z)
| FixedPerKbDingo (fee_rate : Z).

Definition get_tx_fee (self : ActualFeeRate) (tx_size : Z) : Z :=
  match self with
  | Dynamic fee_rate | FixedPerKb fee_rate => wrap 64 (fee_rate * tx_size) / KILO_BYTE
  | FixedPerKbDingo fee_rate =>
      let tx_size_kb := if tx_size mod KILO_BYTE =? 0 then tx_size / KILO_BYTE
                        else tx_size / KILO_BYTE + 1 in
      wrap 64 (fee_rate * tx_size_kb)
  end.

Definition get_tx_fee_for_change (self : ActualFeeRate) (tx_size : Z) : Z :=
  match self with
  | Dynamic fee_rate | FixedPerKb fee_rate => wrap 64 (fee_rate * P2PKH_OUTPUT_LEN) / KILO_BYTE
  | FixedPerKbDingo fee_rate =>
      if tx_size mod KILO_BYTE + P2PKH_OUTPUT_LEN >? KILO_BYTE then fee_rate else 0
  end.

Definition get_tx_fee_with_relay_fee (fee_rate : ActualFeeRate) (tx_size : Z)
  (min_relay_fee_rate : option Z) : Z :=
  let tx_fee := get_tx_fee fee_rate tx_size in
  match min_relay_fee_rate with
  | Some min_relay_fee_rate =>
      let min_relay_tx_fee := get_tx_fee (Dynamic min_relay_fee_rate) tx_size in
      if tx_fee <? min_relay_tx_fee then min_relay_tx_fee else tx_fee
  | None => tx_fee
  end.

Definition increase_by_percent (num : Z) (percent : f64) : Z :=
  let percent := f64_mul (f64_div (f64_of_u64 num) f64_100) percent in
  wrap 64 (num + f64_round_to_u64 percent).

Definition increase_dynamic_fee_by_stage (base_percent : f64) (dynamic_fee : Z)
  (stage : FeeApproxStage) : Z :=
  match stage with
  | WithoutApprox => dynamic_fee
  | StartSwap | WatcherPreimage => increase_by_percent dynamic_fee base_percent
  | OrderIssue | OrderIssueMax => increase_by_percent dynamic_fee (f64_mul base_percent f64_2)
  | TradePreimage | TradePreimageMax =>
      increase_by_percent dynamic_fee (f64_mul base_percent f64_2_5)
  end.

(** ** What the builder asks *)

Inductive GenerateTxError : Type :=
| EmptyUtxoSet (required : Z)
| EmptyOutputs
| OutputValueLessThanDust (value dust : Z)
| DeductFeeFromOutputFailed (output_idx : nat) (output_value required : Z)
| NotEnoughUtxos (sum_utxos required : Z)
| GenTransport (e : string)
| GenInternal (e : string).

Inductive UtxoRpcError : Type :=
| RpcTransport (e : string)
| RpcResponseParseError (e : string)
| RpcInvalidResponse (e : string)
| RpcInternal (e : string).

(** [From<UtxoRpcError> for GenerateTxError]. *)
Definition gen_of_rpc (e : UtxoRpcError) : GenerateTxError :=
  match e with
  | RpcTransport rpc | RpcResponseParseError rpc => GenTransport rpc
  | RpcInvalidResponse error => GenTransport error
  | RpcInternal error => GenInternal error
  end.

Inductive FeePolicy : Type := SendExact | DeductFromOutput (i : nat).

Inductive AddressFormat : Type := FormatStandard | FormatSegwit | FormatCashAddress.

Record Address : Type := mkAddress {
  a_script : ScriptAddress;
  a_format : AddressFormat }.

Record UnspentInfo : Type := mkUnspent {
  un_outpoint : OutPoint;
  un_value : Z;
  un_height : option Z;
  un_script : Script }.

(** The settings of the coin that [UtxoCoin] does not have. *)
Record FeeConf : Type := mkFeeConf {
  fc_tx_fee : FeeRate;
  fc_force_min_relay_fee : bool;
  fc_tx_fee_volatility_percent : f64 }.

(** What is used of a transaction as a node describes it. *)
Record VerboseTx : Type := mkVerboseTx {
  vt_height : option Z;
  vt_locktime : Z;
  vt_confirmations : Z;
  vt_is_coinbase : bool }.

Inductive VerboseTransactionFrom : Type := FromCache (tx : VerboseTx) | FromRpc (tx : VerboseTx).

Definition to_inner (v : VerboseTransactionFrom) : VerboseTx :=
  match v with FromCache tx | FromRpc tx => tx end.

(** The answers to the calls of a build.  The ones of the loop are given per
    round: the clock, the median time of the chain, and the transactions that
    [get_verbose_transactions_from_cache_or_rpc] finds. *)
Record BuildNet : Type := mkBuildNet {
  bn_now : nat -> Z;
  bn_mtp : nat -> result UtxoRpcError Z;
  bn_prev_txs : nat -> gset (list Z) -> result UtxoRpcError (gmap (list Z) VerboseTransactionFrom);
  bn_estimate_fee_sat : result UtxoRpcError Z;
  bn_relay_fee : result UtxoRpcError BigDecimal }.

Definition now_sec_u32 (now : Z) : option Z := if is_uintb 32 now then Some now else None.

(** [now_sec_u32() - 3600 + 777 * 2]. *)
Definition kmd_lock_time (now : Z) : Z := wrap 32 (wrap 32 (now - 3600) + 777 * 2).

Definition get_fee_rate (conf : FeeConf) (n : BuildNet) : result UtxoRpcError ActualFeeRate :=
  match fc_tx_fee conf with
  | RateDynamic => let? fee_rate := bn_estimate_fee_sat n in Ok (Dynamic fee_rate)
  | RateFixedPerKb satoshis => Ok (FixedPerKb satoshis)
  | RateFixedPerKbDingo satoshis => Ok (FixedPerKbDingo satoshis)
  end.

Definition get_min_relay_rate `{ToU64} (coin : UtxoCoin) (conf : FeeConf) (n : BuildNet)
  : result UtxoRpcError (option Z) :=
  if fc_force_min_relay_fee conf then
    let? fee_dec := bn_relay_fee n in
    let? min_relay_fee_rate := map_err RpcInternal (sat_from_big_decimal fee_dec (c_decimals coin)) in
    Ok (Some min_relay_fee_rate)
  else Ok None.

Definition get_htlc_spend_fee `{ToU64} (coin : UtxoCoin) (conf : FeeConf) (n : BuildNet)
  (tx_size : Z) (stage : FeeApproxStage) : result UtxoRpcError Z :=
  let? fee_rate := get_fee_rate conf n in
  let fee_rate :=
    match fee_rate with
    | Dynamic dynamic_fee_rate =>
        Dynamic (increase_dynamic_fee_by_stage (fc_tx_fee_volatility_percent conf)
                   dynamic_fee_rate stage)
    | _ => fee_rate
    end in
  let? min_relay_fee_rate := get_min_relay_rate coin conf n in
  Ok (get_tx_fee_with_relay_fee fee_rate tx_size min_relay_fee_rate).

(** ** The interest of KMD *)

Inductive KmdRewardsNotAccruedReason : Type :=
| LocktimeNotSet
| LocktimeLessThanThreshold
| UtxoHeightGreaterThanEndOfEra
| UtxoAmountLessThanTen
| OneHourNotPassedYet
| TransactionInMempool.

Definition KOMODO_ENDOFERA : Z := 7777777.
Definition N_S7_HARDFORK_HEIGHT : Z := 3484958.
Definition MINUTES_PER_YEAR : Z := 525600.
Definition MINUTES_PER_AUR : Z := 20 * MINUTES_PER_YEAR.

Definition accrued_minutes (height minutes : Z) : Z :=
  let minutes := if minutes >? MINUTES_PER_YEAR then MINUTES_PER_YEAR else minutes in
  let minutes := if (1000000 <=? height) && (minutes >? 31 * 24 * 60) then 31 * 24 * 60
                 else minutes in
  minutes - 59.

Definition kmd_interest (height : option Z) (value lock_time current_time : Z)
  : result KmdRewardsNotAccruedReason Z :=
  if value <? 1000000000 then Err UtxoAmountLessThanTen
  else if lock_time =? 0 then Err LocktimeNotSet
  else if lock_time <? 500000000 then Err LocktimeLessThanThreshold
  else
    let? height := ok_or height TransactionInMempool in
    if KOMODO_ENDOFERA <=? height then Err UtxoHeightGreaterThanEndOfEra
    else if current_time <? lock_time then Err OneHourNotPassedYet
    else
      let minutes := (current_time - lock_time) / 60 in
      if minutes <? 60 then Err OneHourNotPassedYet
      else
        let minutes := accrued_minutes height minutes in
        Ok (if N_S7_HARDFORK_HEIGHT <=? height
            then wrap 64 (value / MINUTES_PER_AUR * minutes) / 500
            else wrap 64 (value / MINUTES_PER_AUR * minutes)).

Definition with_inputs (s : TransactionInputSigner) (ins : list UnsignedTransactionInput)
  : TransactionInputSigner :=
  mkSigner (s_version s) (s_n_time s) (s_overwintered s) (s_version_group_id s)
    (consensus_branch_id s) (s_expiry_height s) (s_value_balance s) ins (s_outputs s)
    (s_lock_time s) (s_join_splits s) (s_shielded_spends s) (s_shielded_outputs s)
    (s_zcash s) (s_posv s) (s_str_d_zeel s) (hash_algo s) (s_v_extra_payload s).

Definition with_outputs (s : TransactionInputSigner) (outs : list TransactionOutput)
  : TransactionInputSigner :=
  mkSigner (s_version s) (s_n_time s) (s_overwintered s) (s_version_group_id s)
    (consensus_branch_id s) (s_expiry_height s) (s_value_balance s) (s_inputs s) outs
    (s_lock_time s) (s_join_splits s) (s_shielded_spends s) (s_shielded_outputs s)
    (s_zcash s) (s_posv s) (s_str_d_zeel s) (hash_algo s) (s_v_extra_payload s).

Definition with_lock_time (s : TransactionInputSigner) (lock_time : Z) : TransactionInputSigner :=
  mkSigner (s_version s) (s_n_time s) (s_overwintered s) (s_version_group_id s)
    (consensus_branch_id s) (s_expiry_height s) (s_value_balance s) (s_inputs s) (s_outputs s)
    lock_time (s_join_splits s) (s_shielded_spends s) (s_shielded_outputs s)
    (s_zcash s) (s_posv s) (s_str_d_zeel s) (hash_algo s) (s_v_extra_payload s).

Definition is_kmd (coin : UtxoCoin) : bool := bool_decide (c_ticker coin = "KMD"%string).

(** [supports_interest] of every coin of the crate is [is_kmd]. *)
Definition supports_interest : UtxoCoin -> bool := is_kmd.

Definition prev_hash (i : UnsignedTransactionInput) : list Z := rev (op_hash (u_previous_output i)).

(** The loop over the inputs. *)
Fixpoint sum_interest (prev_txns : gmap (list Z) VerboseTransactionFrom) (lock_time : Z)
  (ins : list UnsignedTransactionInput) (interest : Z) : result GenerateTxError Z :=
  match ins with
  | [] => Ok interest
  | input :: ins =>
      let? tx := ok_or (prev_txns !! prev_hash input) (GenInternal "previous tx not found") in
      sum_interest prev_txns lock_time ins
        match kmd_interest (vt_height (to_inner tx)) (amount input) (vt_locktime (to_inner tx)) lock_time with
        | Ok output_interest => wrap 64 (interest + output_interest)
        | Err _ => interest
        end
  end.

Definition calc_interest_if_required (coin : UtxoCoin) (n : BuildNet) (round : nat)
  (unsigned : TransactionInputSigner)
  : option (result GenerateTxError (TransactionInputSigner * Z)) :=
  if negb (supports_interest coin) then Some (Ok (unsigned, 0))
  else
    let! mtp := Some (map_err gen_of_rpc (bn_mtp n round)) in
    let prev_hashes := list_to_set (map prev_hash (s_inputs unsigned)) in
    let! prev_txns := Some (map_err gen_of_rpc (bn_prev_txs n round prev_hashes)) in
    let! interest := Some (sum_interest prev_txns mtp (s_inputs unsigned) 0) in
    if interest =? 0 then
      now ← now_sec_u32 (bn_now n round);
      Some (Ok (with_lock_time unsigned (kmd_lock_time now), 0))
    else Some (Ok (with_lock_time unsigned mtp, interest)).

(** ** The builder *)

(** The fields that the caller sets; [t_tx] is the transaction to begin with. *)
Record UtxoTxBuilder : Type := mkTxBuilder {
  t_from : option Address;
  t_required_inputs : list UnspentInfo;
  t_available_inputs : list UnspentInfo;
  t_outputs : list TransactionOutput;
  t_fee_policy : FeePolicy;
  t_fee : option ActualFeeRate;
  t_gas_fee : option Z;
  t_tx : TransactionInputSigner;
  t_dust : option Z }.

(** The fields that [build] changes. *)
Record BuildState : Type := mkBuildState {
  bs_tx : TransactionInputSigner;
  bs_sum_inputs : Z;
  bs_sum_outputs : Z;
  bs_tx_fee_needed : Z;
  bs_interest : Z }.

Record AdditionalTxData : Type := mkTxData {
  received_by_me : Z;
  spent_by_me : Z;
  fee_amount : Z;
  kmd_rewards : option BigDecimal }.

Definition big_decimal_from_sat_unsigned (satoshis decimals : Z) : BigDecimal :=
  (inject_Z satoshis / inject_Z (wrap 64 (10 ^ decimals)))%Q.

Definition transaction_preimage (coin : UtxoCoin) (now : Z) : option TransactionInputSigner :=
  now ← now_sec_u32 now;
  let lock_time := if is_kmd coin then kmd_lock_time now else now in
  let str_d_zeel := if decide (c_ticker coin = "NAV"%string) then Some [] else None in
  let n_time := if c_is_pos coin || c_is_posv coin then Some now else None in
  Some (mkSigner (c_tx_version coin) n_time (c_overwintered coin) (c_version_group_id coin)
          (c_consensus_branch_id coin) 0 0 [] [] lock_time [] [] [] (c_zcash coin)
          (c_is_posv coin) str_d_zeel (signer_hash_algo (c_tx_hash_algo coin)) None).

(** [UtxoTxBuilder::new]. *)
Definition builder_new (coin : UtxoCoin) (single_addr : option Address) (now : Z)
  : option UtxoTxBuilder :=
  tx ← transaction_preimage coin now;
  Some (mkTxBuilder single_addr [] [] [] SendExact None None tx None).

Definition with_from_address (from : Address) (b : UtxoTxBuilder) : UtxoTxBuilder :=
  mkTxBuilder (Some from) (t_required_inputs b) (t_available_inputs b) (t_outputs b)
    (t_fee_policy b) (t_fee b) (t_gas_fee b) (t_tx b) (t_dust b).
Definition with_dust (dust_amount : Z) (b : UtxoTxBuilder) : UtxoTxBuilder :=
  mkTxBuilder (t_from b) (t_required_inputs b) (t_available_inputs b) (t_outputs b)
    (t_fee_policy b) (t_fee b) (t_gas_fee b) (t_tx b) (Some dust_amount).
Definition add_required_inputs (inputs : list UnspentInfo) (b : UtxoTxBuilder) : UtxoTxBuilder :=
  mkTxBuilder (t_from b) (t_required_inputs b ++ inputs) (t_available_inputs b) (t_outputs b)
    (t_fee_policy b) (t_fee b) (t_gas_fee b) (t_tx b) (t_dust b).
Definition add_available_inputs (inputs : list UnspentInfo) (b : UtxoTxBuilder) : UtxoTxBuilder :=
  mkTxBuilder (t_from b) (t_required_inputs b) (t_available_inputs b ++ inputs) (t_outputs b)
    (t_fee_policy b) (t_fee b) (t_gas_fee b) (t_tx b) (t_dust b).
Definition add_outputs (outputs : list TransactionOutput) (b : UtxoTxBuilder) : UtxoTxBuilder :=
  mkTxBuilder (t_from b) (t_required_inputs b) (t_available_inputs b) (t_outputs b ++ outputs)
    (t_fee_policy b) (t_fee b) (t_gas_fee b) (t_tx b) (t_dust b).
Definition with_fee_policy (new_policy : FeePolicy) (b : UtxoTxBuilder) : UtxoTxBuilder :=
  mkTxBuilder (t_from b) (t_required_inputs b) (t_available_inputs b) (t_outputs b)
    new_policy (t_fee b) (t_gas_fee b) (t_tx b) (t_dust b).
Definition with_fee (fee : ActualFeeRate) (b : UtxoTxBuilder) : UtxoTxBuilder :=
  mkTxBuilder (t_from b) (t_required_inputs b) (t_available_inputs b) (t_outputs b)
    (t_fee_policy b) (Some fee) (t_gas_fee b) (t_tx b) (t_dust b).
Definition with_gas_fee (gas_fee : Z) (b : UtxoTxBuilder) : UtxoTxBuilder :=
  mkTxBuilder (t_from b) (t_required_inputs b) (t_available_inputs b) (t_outputs b)
    (t_fee_policy b) (t_fee b) (Some gas_fee) (t_tx b) (t_dust b).
Definition with_transaction_input_signer (tx_input_signer : TransactionInputSigner)
  (b : UtxoTxBuilder) : UtxoTxBuilder :=
  mkTxBuilder (t_from b) (t_required_inputs b) (t_available_inputs b) (t_outputs b)
    (t_fee_policy b) (t_fee b) (t_gas_fee b) tx_input_signer (t_dust b).

Definition unsigned_of_unspent (utxo : UnspentInfo) : UnsignedTransactionInput :=
  mkUnsignedInput (un_outpoint utxo) (un_script utxo) SEQUENCE_FINAL (un_value utxo).

Definition dust (coin : UtxoCoin) (b : UtxoTxBuilder) : Z := default (c_dust_amount coin) (t_dust b).

Definition total_tx_fee_needed (b : UtxoTxBuilder) (tx_fee_needed : Z) : Z :=
  wrap 64 (tx_fee_needed + default 0 (t_gas_fee b)).

Definition sum_values (outs : list TransactionOutput) : Z :=
  foldl (fun total o => wrap 64 (total + out_value o)) 0 outs.

Definition required_amount (b : UtxoTxBuilder) (tx_fee_needed : Z) : Z :=
  match t_fee_policy b with
  | SendExact => wrap 64 (sum_values (t_outputs b) + total_tx_fee_needed b tx_fee_needed)
  | DeductFromOutput _ => sum_values (t_outputs b)
  end.

(** The loop over the available inputs. *)
Fixpoint take_available (amount total : Z) (utxos : list UnspentInfo) : list UnspentInfo * Z :=
  match utxos with
  | [] => ([], total)
  | utxo :: utxos =>
      if amount <=? total then ([], total)
      else
        let '(taken, total) := take_available amount (wrap 64 (total + un_value utxo)) utxos in
        (utxo :: taken, total)
  end.

Definition add_tx_inputs (b : UtxoTxBuilder) (amount : Z) : list UnsignedTransactionInput * Z :=
  let total := foldl (fun total u => wrap 64 (total + un_value u)) 0 (t_required_inputs b) in
  let '(taken, total) := take_available amount total (t_available_inputs b) in
  (map unsigned_of_unspent (t_required_inputs b ++ taken), total).

Definition add_tx_outputs (b : UtxoTxBuilder) : list TransactionOutput * Z :=
  (t_outputs b, sum_values (t_outputs b)).

Definition sum_received_by_me (change_script_pubkey : Script) (tx : TransactionInputSigner) : Z :=
  foldl (fun received_by_me o =>
           if decide (script_pubkey o = change_script_pubkey)
           then wrap 64 (received_by_me + out_value o) else received_by_me) 0 (s_outputs tx).

Definition tx_fee_fact (b : UtxoTxBuilder) (s : BuildState) : result GenerateTxError Z :=
  let? rest := ok_or (checked_sub (wrap 64 (bs_sum_inputs s + bs_interest s)) (default 0 (t_gas_fee b)))
                 (GenInternal "gas_fee underflow") in
  ok_or (checked_sub rest (bs_sum_outputs s)) (GenInternal "sum_outputs underflow").

Definition make_kmd_rewards_data (coin : UtxoCoin) (interest : Z) : option BigDecimal :=
  if supports_interest coin
  then Some (big_decimal_from_sat_unsigned interest (c_decimals coin)) else None.

(** The first opcode of an output that may be dust. *)
Definition is_op_return (script : Script) : option bool :=
  '(next, _) ← opcodes_next script 0;
  Some match next with Some (Ok OP_RETURN) => true | _ => false end.

Fixpoint not_dust_loop (dust : Z) (outs : list TransactionOutput)
  : option (result GenerateTxError unit) :=
  match outs with
  | [] => Some (Ok tt)
  | output :: outs =>
      op_return ← is_op_return (script_pubkey output);
      if negb op_return && (out_value output <? dust)
      then Some (Err (OutputValueLessThanDust (out_value output) dust))
      else not_dust_loop dust outs
  end.

Definition validate_not_dust (coin : UtxoCoin) (b : UtxoTxBuilder)
  : option (result GenerateTxError unit) := not_dust_loop (dust coin b) (t_outputs b).

Section Builder.
  Context `{ByteOrder} `{ToU64}.

Definition tx_size_in_v_bytes (from_addr_format : AddressFormat) (tx : Transaction) : Z :=
  let base_size := Z.of_nat (length (serialize tx)) in
  let n := Z.of_nat (length (inputs tx)) in
  let additional_len := 2 + MAX_DER_SIGNATURE_LEN + COMPRESSED_PUBKEY_LEN in
  match from_addr_format with
  | FormatSegwit =>
      let total_size := base_size + 4 + n * (additional_len + 1) in
      f64_to_u64 (f64_add (f64_mul f64_0_75 (f64_of_u64 base_size))
                    (f64_mul f64_0_25 (f64_of_u64 total_size)))
  | _ => base_size + n * additional_len
  end.

Definition update_tx_fee (from_addr_format : AddressFormat) (fee_rate : ActualFeeRate)
  (min_relay_fee_rate : option Z) (tx : TransactionInputSigner) : Z :=
  get_tx_fee_with_relay_fee fee_rate (tx_size_in_v_bytes from_addr_format (tx_from_signer tx))
    min_relay_fee_rate.

(** The transaction with the change, and the change. *)
Definition add_change (coin : UtxoCoin) (b : UtxoTxBuilder) (change_script_pubkey : Script)
  (s : BuildState) : TransactionInputSigner * Z :=
  let sum_output_with_fee :=
    wrap 64 (bs_sum_outputs s + total_tx_fee_needed b (bs_tx_fee_needed s)) in
  if bs_sum_inputs s <? sum_output_with_fee then (bs_tx s, 0)
  else
    let change := wrap 64 (wrap 64 (bs_sum_inputs s + bs_interest s) - sum_output_with_fee) in
    if change <? dust coin b then (bs_tx s, 0)
    else (with_outputs (bs_tx s)
            (s_outputs (bs_tx s) ++ [mkTransactionOutput change change_script_pubkey]), change).

(** The transaction with the output that pays the fee, and the fee. *)
Definition deduct_txfee_from_output (coin : UtxoCoin) (b : UtxoTxBuilder) (s : BuildState)
  : option (result GenerateTxError (TransactionInputSigner * Z)) :=
  match t_fee_policy b with
  | SendExact => Some (Ok (bs_tx s, 0))
  | DeductFromOutput i =>
      let tx_fee := total_tx_fee_needed b (bs_tx_fee_needed s) in
      let min_output := wrap 64 (tx_fee + dust coin b) in
      o ← s_outputs (bs_tx s) !! i;
      Some (if out_value o <? min_output
            then Err (DeductFeeFromOutputFailed i (out_value o) min_output)
            else Ok (with_outputs (bs_tx s)
                       (<[i := mkTransactionOutput (wrap 64 (out_value o - tx_fee)) (script_pubkey o)]>
                          (s_outputs (bs_tx s))), tx_fee))
  end.

(** One round of the loop; [true] leaves it. *)
Definition build_round (coin : UtxoCoin) (n : BuildNet) (b : UtxoTxBuilder)
  (format : AddressFormat) (change_script_pubkey : Script) (fee_rate : ActualFeeRate)
  (min_relay_fee_rate : option Z) (round : nat) (s : BuildState)
  : option (result GenerateTxError (bool * BuildState)) :=
  let required_amount_0 := required_amount b (bs_tx_fee_needed s) in
  let '(ins, sum_inputs) := add_tx_inputs b required_amount_0 in
  let '(outs, sum_outputs) := add_tx_outputs b in
  let tx := with_outputs (with_inputs (bs_tx s) ins) outs in
  let! r := calc_interest_if_required coin n round tx in
  let '(tx, interest) := r in
  let tx_fee_needed := if (round =? 0)%nat
                       then update_tx_fee format fee_rate min_relay_fee_rate tx
                       else bs_tx_fee_needed s in
  if sum_inputs <? required_amount_0
  then Some (Err (NotEnoughUtxos sum_inputs (required_amount b tx_fee_needed)))
  else
    let! r := deduct_txfee_from_output coin b
                (mkBuildState tx sum_inputs sum_outputs tx_fee_needed interest) in
    let '(tx, deducted) := r in
    let! sum_outputs := Some (ok_or (checked_sub sum_outputs deducted)
                                (GenInternal "sum_outputs underflow")) in
    let '(tx, change) := add_change coin b change_script_pubkey
                           (mkBuildState tx sum_inputs sum_outputs tx_fee_needed interest) in
    let sum_outputs := wrap 64 (sum_outputs + change) in
    let tx_fee_needed := update_tx_fee format fee_rate min_relay_fee_rate tx in
    Some (Ok (wrap 64 (sum_outputs + total_tx_fee_needed b tx_fee_needed)
                <=? wrap 64 (sum_inputs + interest),
              mkBuildState tx sum_inputs sum_outputs tx_fee_needed interest)).

Fixpoint build_loop (fuel : nat) (coin : UtxoCoin) (n : BuildNet) (b : UtxoTxBuilder)
  (format : AddressFormat) (change_script_pubkey : Script) (fee_rate : ActualFeeRate)
  (min_relay_fee_rate : option Z) (round : nat) (s : BuildState)
  : option (result GenerateTxError BuildState) :=
  match fuel with
  | O => None
  | S fuel =>
      let! r := build_round coin n b format change_script_pubkey fee_rate min_relay_fee_rate round s in
      let '(done, s) := r in
      if (done : bool) then Some (Ok s)
      else build_loop fuel coin n b format change_script_pubkey fee_rate min_relay_fee_rate (S round) s
  end.

(** More rounds than there are available inputs. *)
Definition build_fuel (b : UtxoTxBuilder) : nat := length (t_available_inputs b) + 2.

Definition output_script_gen (address : ScriptAddress) : option (result GenerateTxError Script) :=
  r ← output_script address; Some (map_err (fun e => GenInternal (keys_err e)) r).

Definition is_nil_both {A B} (l : list A) (k : list B) : bool := is_nil l && is_nil k.

Definition build (coin : UtxoCoin) (conf : FeeConf) (n : BuildNet) (b : UtxoTxBuilder)
  : option (result GenerateTxError (TransactionInputSigner * AdditionalTxData)) :=
  let! from := Some (ok_or (t_from b) (GenInternal "'from' address is not specified")) in
  let! change_script_pubkey := output_script_gen (a_script from) in
  let! actual_fee_rate := Some match t_fee b with
                               | Some fee => Ok fee
                               | None => map_err gen_of_rpc (get_fee_rate conf n)
                               end in
  if is_nil (t_outputs b) then Some (Err EmptyOutputs)
  else
    let! _ := validate_not_dust coin b in
    if is_nil_both (t_available_inputs b) (s_inputs (t_tx b))
    then Some (Err (EmptyUtxoSet (required_amount b 0)))
    else
      let! min_relay_fee_rate := Some (map_err gen_of_rpc (get_min_relay_rate coin conf n)) in
      let! s := build_loop (build_fuel b) coin n b (a_format from) change_script_pubkey
                  actual_fee_rate min_relay_fee_rate 0 (mkBuildState (t_tx b) 0 0 0 0) in
      let! fee_amount := Some (tx_fee_fact b s) in
      Some (Ok (bs_tx s, mkTxData (sum_received_by_me change_script_pubkey (bs_tx s))
                           (bs_sum_inputs s) fee_amount
                           (make_kmd_rewards_data coin (bs_interest s)))).

(** The input that spends [utxo], or a new one. *)
Fixpoint update_input (utxo : UnspentInfo) (ins : list UnsignedTransactionInput)
  : list UnsignedTransactionInput :=
  match ins with
  | [] => [unsigned_of_unspent utxo]
  | input :: ins =>
      if decide (u_previous_output input = un_outpoint utxo)
      then mkUnsignedInput (u_previous_output input) (un_script utxo) (u_sequence input)
             (un_value utxo) :: ins
      else input :: update_input utxo ins
  end.

Definition build_unchecked (b : UtxoTxBuilder) : result GenerateTxError TransactionInputSigner :=
  if is_nil_both (t_available_inputs b) (s_inputs (t_tx b))
  then Err (EmptyUtxoSet (sum_values (s_outputs (t_tx b))))
  else Ok (with_inputs (t_tx b)
             (foldl (fun ins utxo => update_input utxo ins) (s_inputs (t_tx b)) (t_available_inputs b))).
End Builder.
