(* ===== verification/UtxoBuilderProps.v ===== *)
(** * What a builder makes: sizes, fees and sums

    The size of an unsigned transaction, the fee as a monotone function of it,
    the interest of KMD, and one round of the loop of [build]. *)

From Stdlib Require Import SpecFloat.
From stdpp Require Import gmap.
From S2P Require Import Prelude F64 MmNumber Swap Opcode Keys Script Serialization Transaction TransactionProps Sign UtxoHtlc UtxoTxBuilder.
Local Open Scope Z_scope.
Local Open Scope result_scope.

(** ** Sums *)

Definition total {A} (f : A -> Z) (l : list A) : Z := foldr (fun a t => f a + t) 0 l.

Lemma total_app {A} (f : A -> Z) l k : total f (l ++ k) = total f l + total f k.
Proof. unfold total. induction l; simpl; lia. Qed.

Lemma total_nil {A} (f : A -> Z) : total f [] = 0.
Proof. done. Qed.

Lemma total_single {A} (f : A -> Z) a : total f [a] = f a.
Proof. unfold total. simpl. lia. Qed.

Lemma total_nonneg {A} (f : A -> Z) l : Forall (fun a => 0 <= f a) l -> 0 <= total f l.
Proof. unfold total. induction 1; simpl; lia. Qed.

Lemma total_prefix {A} (f : A -> Z) l k :
  Forall (fun a => 0 <= f a) k -> l `prefix_of` k -> total f l <= total f k.
Proof.
  intros Hk [l' ->]. rewrite total_app. apply Forall_app in Hk as [_ Hk].
  pose proof (total_nonneg f l' Hk). lia.
Qed.

Lemma total_map {A B} (g : A -> B) (f : B -> Z) l : total f (map g l) = total (fun a => f (g a)) l.
Proof. unfold total. induction l; simpl; lia. Qed.

Lemma wrapped_sum {A} (f : A -> Z) l acc :
  Forall (fun a => 0 <= f a) l -> 0 <= acc -> acc + total f l < 2 ^ 64 ->
  foldl (fun t a => wrap 64 (t + f a)) acc l = acc + total f l.
Proof.
  intros Hl. revert acc. induction Hl as [|a l Ha Hl IH]; intros acc Hacc Hs; simpl in *; [lia|].
  pose proof (total_nonneg f l Hl). rewrite wrap_id by (unfold is_uint; lia). rewrite IH; lia.
Qed.

Lemma total_insert {A} (f : A -> Z) l i a b :
  l !! i = Some a -> total f (<[i := b]> l) = total f l - f a + f b.
Proof.
  revert i. induction l as [|x l IH]; intros [|i] Hi; simplify_eq/=; [lia|].
  change (f x + total f (<[i := b]> l) = f x + total f l - f a + f b). rewrite (IH i Hi). lia.
Qed.

(** ** Sizes *)

Section Sizes.
  Context `{ByteOrder}.

Definition unsigned_size (s : TransactionInputSigner) : Z :=
  Z.of_nat (length (serialize (tx_from_signer s))).

Definition ci_size (n : nat) : nat := ci_serialized_length (ci_of_len n).

Lemma ci_size_length n : Z.of_nat n < 2 ^ 64 -> length (serialize (ci_of_len n)) = ci_size n.
Proof. intros Hn. by rewrite <- codec_size by (apply ci_of_len_valid; lia). Qed.

Lemma ci_size_mono n m : (n <= m)%nat -> (ci_size n <= ci_size m)%nat.
Proof.
  intros Hn. unfold ci_size, ci_serialized_length, ci_of_len; simpl.
  repeat case_match; lia.
Qed.

Definition outputs_size (outs : list TransactionOutput) : nat := length (serialize_list outs).
Definition inputs_size (ins : list UnsignedTransactionInput) : nat :=
  length (serialize_list (map input_from_unsigned ins)).

(** The part that neither inputs, outputs nor the lock time change. *)
Definition bare (s : TransactionInputSigner) : TransactionInputSigner :=
  with_lock_time (with_outputs (with_inputs s []) []) 0.
Definition frame (s : TransactionInputSigner) : nat := (length (serialize (tx_from_signer (bare s))) - 2)%nat.

Lemma unsigned_size_split s :
  is_u32 (s_lock_time s) ->
  length (serialize (tx_from_signer s))
  = (frame s + inputs_size (s_inputs s) + outputs_size (s_outputs s))%nat.
Proof.
  intros Hl. unfold frame, inputs_size, outputs_size.
  assert (Hu : forall z, is_u32 z -> length (serialize (mk_uint 4 z)) = 4%nat)
    by (intros z Hz; by rewrite <- (codec_size (mk_uint 4 z))).
  assert (He : length (serialize_list (@nil TransactionInput)) = 1%nat)
    by (rewrite serialize_list_eq, length_app, ci_size_length; done).
  assert (He' : length (serialize_list (@nil TransactionOutput)) = 1%nat)
    by (rewrite serialize_list_eq, length_app, ci_size_length; done).
  rewrite !serialize_plain. unfold plain_bytes, expiry_bytes, zcash_bytes, join_splits_bytes,
    shielded_bytes, has_binding, opt_bytes.
  cbn [tx_from_signer bare with_lock_time with_outputs with_inputs version overwintered
    version_group_id n_time inputs outputs lock_time posv zcash str_d_zeel v_extra_payload
    s_version s_n_time s_overwintered s_version_group_id s_inputs s_outputs s_lock_time s_posv
    s_zcash s_str_d_zeel s_v_extra_payload map expiry_height shielded_spends shielded_outputs
    join_splits value_balance join_split_pubkey join_split_sig binding_sig s_expiry_height
    s_shielded_spends s_shielded_outputs s_join_splits s_value_balance].
  rewrite !length_app, He, He', !Hu by (done || unfold is_uint; lia). lia.
Qed.

Lemma outputs_size_eq outs :
  Z.of_nat (length outs) < 2 ^ 64 ->
  outputs_size outs = (ci_size (length outs) + length (concat (map serialize outs)))%nat.
Proof. intros Hn. unfold outputs_size. by rewrite serialize_list_eq, length_app, ci_size_length. Qed.

Lemma inputs_size_eq ins :
  Z.of_nat (length ins) < 2 ^ 64 ->
  inputs_size ins
  = (ci_size (length ins) + length (concat (map serialize (map input_from_unsigned ins))))%nat.
Proof.
  intros Hn. unfold inputs_size. by rewrite serialize_list_eq, length_app, length_map, ci_size_length.
Qed.

Lemma outputs_size_grows outs o :
  Z.of_nat (length outs) + 1 < 2 ^ 64 -> (outputs_size outs <= outputs_size (outs ++ [o]))%nat.
Proof.
  intros Hn. rewrite !outputs_size_eq by (rewrite ?length_app; simpl; lia).
  rewrite map_app, concat_app, !length_app. simpl.
  pose proof (ci_size_mono (length outs) (length outs + 1)). lia.
Qed.

Lemma inputs_size_grows ins ins' :
  Z.of_nat (length ins') < 2 ^ 64 -> ins `prefix_of` ins' -> (inputs_size ins <= inputs_size ins')%nat.
Proof.
  intros Hn [k ->]. rewrite length_app in Hn. rewrite !inputs_size_eq by (rewrite ?length_app; lia).
  rewrite !map_app, concat_app, !length_app.
  pose proof (ci_size_mono (length ins) (length ins + length k)). lia.
Qed.

(** The value of an output has eight bytes. *)
Lemma outputs_size_scripts outs outs' :
  Z.of_nat (length outs) < 2 ^ 64 ->
  Forall (fun o => is_u64 (out_value o)) outs -> Forall (fun o => is_u64 (out_value o)) outs' ->
  map script_pubkey outs = map script_pubkey outs' -> outputs_size outs = outputs_size outs'.
Proof.
  intros Hn Ho Ho' Hs. pose proof (f_equal length Hs) as Hl. rewrite !length_map in Hl.
  rewrite !outputs_size_eq, Hl by lia. f_equal. clear Hn Hl.
  revert outs' Ho' Hs. induction Ho as [|o outs Hv Ho IH]; intros [|o' outs'] Ho' Hs; simplify_eq/=; [done|].
  apply Forall_cons in Ho' as [Hv' Ho'].
  rewrite !length_app, (IH outs') by done. f_equal.
  rewrite !(writes_serialize _ _ (writes_output _)), !length_app. f_equal; [|congruence].
  rewrite <- !(codec_size (mk_uint 8 _)) by (unfold valid; simpl; done). done.
Qed.
End Sizes.

(** ** Fees *)

Definition rate_of (r : ActualFeeRate) : Z :=
  match r with Dynamic z | FixedPerKb z | FixedPerKbDingo z => z end.

(** Rates that no product of the fee wraps for: under [2^32] per kilobyte. *)
Definition rate_ok (r : ActualFeeRate) : Prop := is_u32 (rate_of r).
Definition relay_ok (r : option Z) : Prop := match r with Some z => is_u32 z | None => True end.

Lemma get_tx_fee_spec r size : rate_ok r -> 0 <= size < 2 ^ 31 ->
  get_tx_fee r size = match r with
                      | Dynamic z | FixedPerKb z => z * size / 1000
                      | FixedPerKbDingo z => z * ((size + 999) / 1000)
                      end.
Proof.
  intros Hr Hs. unfold rate_ok, is_uint in Hr. destruct r as [z|z|z]; simpl in *; unfold KILO_BYTE.
  1,2: rewrite wrap_id; [done|unfold is_uint; nia].
  assert ((if size mod 1000 =? 0 then size / 1000 else size / 1000 + 1) = (size + 999) / 1000) as ->.
  { pose proof (Z.div_mod size 1000). pose proof (Z.mod_pos_bound size 1000).
    destruct (Z.eqb_spec (size mod 1000) 0).
    - apply (Z.div_unique _ _ _ 999); lia.
    - apply (Z.div_unique _ _ _ (size mod 1000 - 1)); lia. }
  assert (0 <= (size + 999) / 1000 < 2 ^ 31)
    by (split; [apply Z.div_pos; lia|apply Z.div_lt_upper_bound; lia]).
  rewrite wrap_id; [done|unfold is_uint; nia].
Qed.

Lemma get_tx_fee_mono r a b : rate_ok r -> 0 <= a <= b -> b < 2 ^ 31 ->
  0 <= get_tx_fee r a <= get_tx_fee r b /\ get_tx_fee r b < 2 ^ 54.
Proof.
  intros Hr Hab Hb. rewrite !get_tx_fee_spec by (done || lia).
  unfold rate_ok, is_uint in Hr. destruct r as [z|z|z]; simpl in Hr.
  1,2: split; [split; [apply Z.div_pos; nia|apply Z.div_le_mono; nia]|apply Z.div_lt_upper_bound; nia].
  assert (0 <= (a + 999) / 1000 <= (b + 999) / 1000)
    by (split; [apply Z.div_pos; lia|apply Z.div_le_mono; lia]).
  assert ((b + 999) / 1000 < 2 ^ 22) by (apply Z.div_lt_upper_bound; lia). nia.
Qed.

Lemma relay_fee_mono r relay a b : rate_ok r -> relay_ok relay -> 0 <= a <= b -> b < 2 ^ 31 ->
  0 <= get_tx_fee_with_relay_fee r a relay <= get_tx_fee_with_relay_fee r b relay /\
  get_tx_fee_with_relay_fee r b relay < 2 ^ 54.
Proof.
  intros Hr Hrel Hab Hb. pose proof (get_tx_fee_mono r a b Hr Hab Hb) as Hm.
  unfold get_tx_fee_with_relay_fee. destruct relay as [z|]; [|lia].
  pose proof (get_tx_fee_mono (Dynamic z) a b Hrel Hab Hb) as Hz.
  generalize dependent (get_tx_fee (Dynamic z) a). generalize dependent (get_tx_fee (Dynamic z) b).
  intros. repeat case_match; lia.
Qed.

(** The fee is that of the rate, or of the relay's when that is more. *)
Lemma relay_fee_max r relay size :
  get_tx_fee_with_relay_fee r size relay
  = Z.max (get_tx_fee r size) (match relay with Some z => get_tx_fee (Dynamic z) size | None => get_tx_fee r size end).
Proof. unfold get_tx_fee_with_relay_fee. destruct relay; [|lia]. case_match; lia. Qed.

(** ** The size that is paid for *)

(** What the signatures of [n] inputs add: 107 bytes each, or a quarter of 108
    and the four bytes of the marker when they are in the witness. *)
Definition signatures_size (format : AddressFormat) (n : nat) : Z :=
  match format with FormatSegwit => 1 + 27 * Z.of_nat n | _ => 107 * Z.of_nat n end.

Section VSize.
  Context `{ByteOrder}.

Lemma unsigned_size_pos s : is_u32 (s_lock_time s) -> Z.of_nat (length (s_outputs s)) < 2 ^ 64 ->
  0 < unsigned_size s.
Proof.
  intros Hl Hn. unfold unsigned_size. rewrite unsigned_size_split by done.
  rewrite (outputs_size_eq (s_outputs s)) by done.
  assert (1 <= ci_size (length (s_outputs s)))%nat; [|lia].
  unfold ci_size, ci_serialized_length. repeat case_match; lia.
Qed.

Lemma tx_size_in_v_bytes_exact format s :
  is_u32 (s_lock_time s) -> Z.of_nat (length (s_outputs s)) < 2 ^ 64 ->
  unsigned_size s + 4 + 108 * Z.of_nat (length (s_inputs s)) < 2 ^ 48 ->
  tx_size_in_v_bytes format (tx_from_signer s)
  = unsigned_size s + signatures_size format (length (s_inputs s)).
Proof.
  intros Hl Hn Hs. pose proof (unsigned_size_pos s Hl Hn) as Hp.
  unfold tx_size_in_v_bytes, signatures_size, MAX_DER_SIGNATURE_LEN, COMPRESSED_PUBKEY_LEN.
  fold (unsigned_size s). cbn [tx_from_signer inputs]. rewrite length_map. destruct format; [lia| |lia].
  replace (unsigned_size s + 4 + Z.of_nat (length (s_inputs s)) * (2 + 72 + 33 + 1))
    with (unsigned_size s + 4 * (1 + 27 * Z.of_nat (length (s_inputs s)))) by lia.
  apply weighted_size; lia.
Qed.

Lemma v_size_cong format s s' :
  unsigned_size s = unsigned_size s' -> s_inputs s = s_inputs s' ->
  tx_size_in_v_bytes format (tx_from_signer s) = tx_size_in_v_bytes format (tx_from_signer s').
Proof.
  unfold unsigned_size, tx_size_in_v_bytes. intros -> Hi. cbn [tx_from_signer inputs]. by rewrite Hi.
Qed.

(** [s'] is a transaction like [s] with more inputs or outputs. *)
Definition larger (s s' : TransactionInputSigner) : Prop :=
  unsigned_size s <= unsigned_size s' /\ (length (s_inputs s) <= length (s_inputs s'))%nat.

(** The sizes at which nothing overflows: two gigabytes. *)
Definition size_ok (s : TransactionInputSigner) : Prop :=
  is_u32 (s_lock_time s) /\ Z.of_nat (length (s_outputs s)) < 2 ^ 32 /\
  unsigned_size s + 4 + 108 * Z.of_nat (length (s_inputs s)) < 2 ^ 31.

Lemma update_tx_fee_mono format r relay s s' :
  rate_ok r -> relay_ok relay -> size_ok s' -> is_u32 (s_lock_time s) ->
  Z.of_nat (length (s_outputs s)) < 2 ^ 32 -> larger s s' ->
  0 <= update_tx_fee format r relay s <= update_tx_fee format r relay s' /\
  update_tx_fee format r relay s' < 2 ^ 54.
Proof.
  intros Hr Hrel (Hl' & Ho' & Hs') Hl Ho [Hle Hn]. unfold update_tx_fee.
  pose proof (unsigned_size_pos s Hl). rewrite !tx_size_in_v_bytes_exact by (done || lia).
  apply relay_fee_mono; try done; unfold signatures_size; destruct format; lia.
Qed.

Lemma larger_refl s : larger s s.
Proof. split; lia. Qed.

Lemma larger_trans a b c : larger a b -> larger b c -> larger a c.
Proof. intros [] []. split; lia. Qed.

(** Neither the lock time nor the values of the outputs count. *)
Lemma same_size s lock lock' outs outs' ins :
  is_u32 lock -> is_u32 lock' -> Z.of_nat (length outs) < 2 ^ 64 ->
  Forall (fun o => is_u64 (out_value o)) outs -> Forall (fun o => is_u64 (out_value o)) outs' ->
  map script_pubkey outs = map script_pubkey outs' ->
  unsigned_size (with_lock_time (with_outputs (with_inputs s ins) outs) lock)
  = unsigned_size (with_lock_time (with_outputs (with_inputs s ins) outs') lock').
Proof.
  intros Hl Hl' Hn Ho Ho' Hs. unfold unsigned_size. rewrite !unsigned_size_split by done.
  cbn [s_inputs s_outputs with_lock_time with_outputs with_inputs].
  by rewrite (outputs_size_scripts outs outs').
Qed.

(** More inputs and one more output. *)
Lemma larger_grows s lock lock' outs outs' o ins ins' :
  is_u32 lock -> is_u32 lock' ->
  Z.of_nat (length ins') < 2 ^ 64 -> Z.of_nat (length outs') + 1 < 2 ^ 64 ->
  Forall (fun o => is_u64 (out_value o)) outs -> Forall (fun o => is_u64 (out_value o)) outs' ->
  map script_pubkey outs = map script_pubkey outs' -> ins `prefix_of` ins' ->
  larger (with_lock_time (with_outputs (with_inputs s ins) outs) lock)
    (with_lock_time (with_outputs (with_inputs s ins') (outs' ++ [o])) lock').
Proof.
  intros Hl Hl' Hi Hn Ho Ho' Hs Hp. split.
  - unfold unsigned_size. rewrite !unsigned_size_split by done.
    cbn [s_inputs s_outputs with_lock_time with_outputs with_inputs].
    pose proof (f_equal length Hs) as Hlen. rewrite !length_map in Hlen.
    rewrite (outputs_size_scripts outs outs') by (done || lia).
    pose proof (outputs_size_grows outs' o Hn). pose proof (inputs_size_grows ins ins' Hi Hp).
    change (frame (with_lock_time (with_outputs (with_inputs s ins) outs) lock)) with (frame s).
    change (frame (with_lock_time (with_outputs (with_inputs s ins') (outs' ++ [o])) lock'))
      with (frame s). lia.
  - cbn [s_inputs with_lock_time with_outputs with_inputs]. by apply prefix_length.
Qed.
End VSize.

(** ** The interest of KMD *)

Lemma accrued_minutes_range h m : 60 <= m -> 1 <= accrued_minutes h m <= MINUTES_PER_YEAR.
Proof.
  intros Hm. unfold accrued_minutes, MINUTES_PER_YEAR. repeat case_match; bool_lia; try lia.
Qed.

Lemma kmd_interest_bound h v lt now i :
  is_u64 v -> kmd_interest h v lt now = Ok i -> 0 <= 20 * i <= v.
Proof.
  unfold is_uint, kmd_interest. intros Hv Hk.
  case_match; [done|]. case_match; [done|]. case_match; [done|]. destruct h as [h|]; [|done].
  cbn [ok_or result_bind] in Hk. case_match; [done|]. case_match; [done|].
  set (m := (now - lt) / 60) in *. destruct (Z.ltb_spec m 60) as [|Hm]; [done|].
  pose proof (accrued_minutes_range h m Hm) as Ha. set (a := accrued_minutes h m) in *.
  assert (Hd : 0 <= v / MINUTES_PER_AUR) by (apply Z.div_pos; unfold MINUTES_PER_AUR, MINUTES_PER_YEAR; lia).
  assert (Hd' : MINUTES_PER_AUR * (v / MINUTES_PER_AUR) <= v)
    by (apply Z.mul_div_le; unfold MINUTES_PER_AUR, MINUTES_PER_YEAR; lia).
  assert (Hb : 0 <= 20 * (v / MINUTES_PER_AUR * a) <= v)
    by (unfold MINUTES_PER_AUR in *; nia).
  rewrite wrap_id in Hk by (unfold is_uint; lia). destruct (N_S7_HARDFORK_HEIGHT <=? h); simplify_eq; [|done].
  assert (0 <= v / MINUTES_PER_AUR * a / 500 <= v / MINUTES_PER_AUR * a)
    by (split; [apply Z.div_pos; lia|apply Z.div_le_upper_bound; lia]). lia.
Qed.

Lemma sum_interest_bound txs lt ins acc i :
  Forall (fun x => is_u64 (amount x)) ins -> 0 <= acc -> 20 * acc + total amount ins < 20 * 2 ^ 64 ->
  sum_interest txs lt ins acc = Ok i -> acc <= i /\ 20 * i <= 20 * acc + total amount ins.
Proof.
  intros Hins. revert acc. induction Hins as [|x ins Hx Hins IH]; intros acc Hacc Hs Hi; simpl in *.
  { simplify_eq. lia. }
  destruct (txs !! prev_hash x) as [tx|]; [|done]. cbn [ok_or result_bind] in Hi.
  assert (0 <= total amount ins)
    by (apply total_nonneg; eapply Forall_impl; [exact Hins|]; unfold is_uint; simpl; lia).
  destruct (kmd_interest (vt_height (to_inner tx)) (amount x) (vt_locktime (to_inner tx)) lt) as [k|] eqn:Ek.
  - apply kmd_interest_bound in Ek; [|done]. rewrite wrap_id in Hi by (unfold is_uint; lia).
    apply IH in Hi; lia.
  - unfold is_uint in Hx. apply IH in Hi; lia.
Qed.

(** ** The inputs *)

Lemma take_available_spec amount acc l taken sum :
  Forall (fun u => is_u64 (un_value u)) l -> 0 <= acc -> acc + total un_value l < 2 ^ 64 ->
  take_available amount acc l = (taken, sum) ->
  taken `prefix_of` l /\ sum = acc + total un_value taken /\ (amount <= sum \/ taken = l) /\
  (forall p, p `prefix_of` taken -> p <> taken -> acc + total un_value p < amount).
Proof.
  intros Hl. revert acc taken sum. induction Hl as [|u l Hu Hl IH]; intros acc taken sum Hacc Hs Ht; simpl in *.
  { simplify_eq. split_and!; [done|simpl; lia|auto|]. by intros p ->%prefix_nil_inv. }
  destruct (Z.leb_spec amount acc).
  { simplify_eq. split_and!; [apply prefix_nil|simpl; lia|auto|]. by intros p ->%prefix_nil_inv. }
  unfold is_uint in Hu. assert (0 <= total un_value l)
    by (apply total_nonneg; eapply Forall_impl; [exact Hl|]; unfold is_uint; simpl; lia).
  rewrite wrap_id in Ht by (unfold is_uint; lia).
  destruct (take_available amount (acc + un_value u) l) as [taken' sum'] eqn:E. simplify_eq.
  apply IH in E as (Hp & Hsum & Hor & Hmin); [|lia|lia]. split_and!.
  - by apply prefix_cons.
  - simpl. lia.
  - destruct Hor as [| ->]; auto.
  - intros [|v p] Hpre Hne; simpl; [lia|].
    pose proof (prefix_cons_inv_1 _ _ _ _ Hpre) as ->. apply prefix_cons_inv_2 in Hpre.
    specialize (Hmin p Hpre). assert (p <> taken') by congruence. specialize (Hmin ltac:(done)). lia.
Qed.

(** The transaction with its inputs, outputs and lock time. *)
Definition tx_with (t : TransactionInputSigner) (ins : list UnsignedTransactionInput)
  (outs : list TransactionOutput) (lock : Z) : TransactionInputSigner :=
  with_lock_time (with_outputs (with_inputs t ins) outs) lock.

Lemma calc_interest_spec coin n round t ins outs lock t' i :
  Forall (fun x => is_u64 (amount x)) ins -> total amount ins < 2 ^ 64 ->
  is_u32 lock -> (forall r m, bn_mtp n r = Ok m -> is_u32 m) ->
  calc_interest_if_required coin n round (tx_with t ins outs lock) = Some (Ok (t', i)) ->
  (exists lock', t' = tx_with t ins outs lock' /\ is_u32 lock') /\ 0 <= 20 * i <= total amount ins.
Proof.
  intros Hins Hs Hl Hm Hc.
  assert (0 <= total amount ins)
    by (apply total_nonneg; eapply Forall_impl; [exact Hins|]; unfold is_uint; simpl; lia).
  unfold calc_interest_if_required in Hc. destruct (supports_interest coin); cbn [negb] in Hc.
  2: { simplify_eq. split; [by exists lock|lia]. }
  destruct (bn_mtp n round) as [m|] eqn:Em; [|done]. apply Hm in Em. cbn [map_err pbind] in Hc.
  destruct (bn_prev_txs n round _) as [txs|]; [|done]. cbn [map_err pbind] in Hc.
  destruct (sum_interest txs m _ 0) as [k|] eqn:Ek; [|done]. cbn [pbind] in Hc.
  change (s_inputs (tx_with t ins outs lock)) with ins in Ek.
  apply sum_interest_bound in Ek as [Hk1 Hk2]; [|done|lia|lia].
  destruct (Z.eqb_spec k 0).
  - destruct (now_sec_u32 (bn_now n round)) as [now|]; [|done]. simpl in Hc. simplify_eq.
    split; [|lia]. eexists; split; [done|]. apply wrap_range. lia.
  - simplify_eq. split; [by exists m|lia].
Qed.

(** ** The bounds under which no sum wraps *)

(** The largest transaction a build can make. *)
Definition full_tx (b : UtxoTxBuilder) (script : Script) : TransactionInputSigner :=
  tx_with (t_tx b) (map unsigned_of_unspent (t_required_inputs b ++ t_available_inputs b))
    (t_outputs b ++ [mkTransactionOutput 0 script]) 0.

Definition gas (b : UtxoTxBuilder) : Z := default 0 (t_gas_fee b).

(** Amounts under [2^62], rates under [2^32] per kilobyte, a transaction under
    two gigabytes and lock times that fit their field. *)
Record build_bounds `{ByteOrder} (coin : UtxoCoin) (n : BuildNet) (b : UtxoTxBuilder)
  (script : Script) (rate : ActualFeeRate) (relay : option Z) : Prop := mkBounds {
  bb_values : Forall (fun u => is_u64 (un_value u)) (t_required_inputs b ++ t_available_inputs b);
  bb_outputs : Forall (fun o => is_u64 (out_value o)) (t_outputs b);
  bb_inputs_total : total un_value (t_required_inputs b ++ t_available_inputs b) < 2 ^ 62;
  bb_outputs_total : total out_value (t_outputs b) < 2 ^ 62;
  bb_gas : 0 <= gas b < 2 ^ 61;
  bb_dust : 0 <= dust coin b < 2 ^ 61;
  bb_rate : rate_ok rate;
  bb_relay : relay_ok relay;
  bb_lock : is_u32 (s_lock_time (t_tx b));
  bb_mtp : forall r m, bn_mtp n r = Ok m -> is_u32 m;
  bb_size : size_ok (full_tx b script) }.

Section Round.
  Context `{ByteOrder} `{ToU64}.
  Context (coin : UtxoCoin) (n : BuildNet) (b : UtxoTxBuilder) (format : AddressFormat)
    (script : Script) (rate : ActualFeeRate) (relay : option Z).
  Context (Hb : build_bounds coin n b script rate relay).

Notation fee s := (update_tx_fee format rate relay s).
Notation ins_of taken := (map unsigned_of_unspent (t_required_inputs b ++ taken)).
Notation value_of taken := (total un_value (t_required_inputs b ++ taken)).

Lemma outs_nonneg : Forall (fun o => 0 <= out_value o) (t_outputs b).
Proof. eapply Forall_impl; [apply Hb|]. unfold is_uint. simpl. lia. Qed.

Lemma ins_nonneg : Forall (fun u => 0 <= un_value u) (t_required_inputs b ++ t_available_inputs b).
Proof. eapply Forall_impl; [apply Hb|]. unfold is_uint. simpl. lia. Qed.

Lemma sum_values_exact : sum_values (t_outputs b) = total out_value (t_outputs b).
Proof.
  unfold sum_values. rewrite wrapped_sum; [lia|apply outs_nonneg|lia|].
  pose proof (bb_outputs_total _ _ _ _ _ _ Hb). lia.
Qed.

Lemma outputs_total_range : 0 <= total out_value (t_outputs b) < 2 ^ 62.
Proof. split; [apply total_nonneg, outs_nonneg|apply Hb]. Qed.

Lemma value_of_range taken : taken `prefix_of` t_available_inputs b -> 0 <= value_of taken < 2 ^ 62.
Proof.
  intros Hp. assert (Hq : t_required_inputs b ++ taken `prefix_of` t_required_inputs b ++ t_available_inputs b)
    by by apply prefix_app.
  pose proof (total_prefix un_value _ _ ins_nonneg Hq). pose proof (bb_inputs_total _ _ _ _ _ _ Hb).
  split; [|lia]. apply total_nonneg. destruct Hq as [k Hk].
  pose proof ins_nonneg as Hn. rewrite Hk in Hn. by apply Forall_app in Hn as [Hn _].
Qed.

Lemma ins_of_amounts taken : taken `prefix_of` t_available_inputs b ->
  Forall (fun x => is_u64 (amount x)) (ins_of taken) /\ total amount (ins_of taken) = value_of taken.
Proof.
  intros [k Hk]. split; [|by rewrite total_map].
  apply Forall_map. pose proof (bb_values _ _ _ _ _ _ Hb) as Hv. rewrite Hk, app_assoc in Hv.
  by apply Forall_app in Hv as [Hv _].
Qed.

(** The amount that the inputs must reach. *)
Definition required (f : Z) : Z :=
  match t_fee_policy b with
  | SendExact => total out_value (t_outputs b) + (f + gas b)
  | DeductFromOutput _ => total out_value (t_outputs b)
  end.

Lemma required_amount_exact f : 0 <= f < 2 ^ 61 -> required_amount b f = required f.
Proof.
  intros Hf. pose proof outputs_total_range. pose proof (bb_gas _ _ _ _ _ _ Hb).
  unfold required_amount, required, total_tx_fee_needed. fold (gas b). rewrite sum_values_exact.
  destruct (t_fee_policy b); [|done]. by rewrite !wrap_id by (unfold is_uint; lia || rewrite wrap_id; unfold is_uint; lia).
Qed.

Lemma add_tx_inputs_spec R ins sum :
  add_tx_inputs b R = (ins, sum) ->
  exists taken, ins = ins_of taken /\ taken `prefix_of` t_available_inputs b /\ sum = value_of taken /\
    (R <= sum \/ taken = t_available_inputs b) /\
    (forall p, p `prefix_of` taken -> p <> taken -> value_of p < R).
Proof.
  unfold add_tx_inputs. pose proof ins_nonneg as Hn. apply Forall_app in Hn as [Hn1 Hn2].
  pose proof (bb_inputs_total _ _ _ _ _ _ Hb) as Ht. rewrite total_app in Ht.
  pose proof (total_nonneg un_value _ Hn1). pose proof (total_nonneg un_value _ Hn2).
  rewrite wrapped_sum by (done || lia). rewrite Z.add_0_l.
  destruct (take_available R _ _) as [taken s] eqn:E. intros [= <- <-].
  apply take_available_spec in E as (Hp & -> & Hor & Hmin); [|by eapply Forall_app, (bb_values _ _ _ _ _ _ Hb)|lia|lia].
  exists taken. rewrite total_app. split_and!; try done.
  intros p Hp' Hne. rewrite total_app. by apply Hmin.
Qed.

(** The outputs with the fee taken from the one that pays it. *)
Definition paying (f : Z) : option (list TransactionOutput) :=
  match t_fee_policy b with
  | SendExact => Some (t_outputs b)
  | DeductFromOutput i =>
      o ← t_outputs b !! i;
      if out_value o <? f + dust coin b then None
      else Some (<[i := mkTransactionOutput (out_value o - f) (script_pubkey o)]> (t_outputs b))
  end.

Definition deducted (f : Z) : Z :=
  match t_fee_policy b with SendExact => 0 | DeductFromOutput _ => f end.

Lemma paying_spec f outs : 0 <= f -> paying f = Some outs ->
  total out_value outs = total out_value (t_outputs b) - deducted f /\ 0 <= total out_value outs /\
  map script_pubkey outs = map script_pubkey (t_outputs b) /\
  Forall (fun o => is_u64 (out_value o)) outs.
Proof.
  intros Hf Hp. pose proof (bb_dust _ _ _ _ _ _ Hb). pose proof (bb_outputs _ _ _ _ _ _ Hb) as Ho.
  unfold paying, deducted in *. destruct (t_fee_policy b) as [|i].
  { simplify_eq. split_and!; [lia|apply total_nonneg, outs_nonneg|done|done]. }
  destruct (t_outputs b !! i) as [o|] eqn:Ei; simpl in Hp; [|done].
  destruct (Z.ltb_spec (out_value o) (f + dust coin b)); simplify_eq.
  assert (Hall : Forall (fun o => is_u64 (out_value o))
      (<[i:=mkTransactionOutput (out_value o - f) (script_pubkey o)]> (t_outputs b))).
  { apply Forall_insert; [done|]. pose proof (Forall_lookup_1 _ _ _ _ Ho Ei) as Hv.
    unfold is_uint in *. simpl in *. lia. }
  split_and!; [| | |done].
  - rewrite (total_insert _ _ _ _ _ Ei). simpl. lia.
  - apply total_nonneg. eapply Forall_impl; [exact Hall|]. unfold is_uint. simpl. lia.
  - rewrite list_fmap_insert. simpl. apply list_insert_id. by rewrite list_lookup_fmap, Ei.
Qed.

(** A transaction of the build: inputs, outputs of the known scripts and
    perhaps the change. *)
Lemma size_of_build taken outs tail lock :
  taken `prefix_of` t_available_inputs b -> is_u32 lock ->
  Forall (fun o => is_u64 (out_value o)) outs ->
  map script_pubkey outs = map script_pubkey (t_outputs b) ->
  (tail = [] \/ exists v, tail = [mkTransactionOutput v script] /\ is_u64 v) ->
  larger (tx_with (t_tx b) (ins_of taken) (outs ++ tail) lock) (full_tx b script) /\
  Z.of_nat (length (outs ++ tail)) < 2 ^ 32.
Proof.
  intros Hp Hl Ho Hs Ht. destruct (bb_size _ _ _ _ _ _ Hb) as (_ & Hlen & Hsize).
  cbn [full_tx tx_with with_lock_time with_outputs with_inputs s_outputs s_inputs] in Hlen, Hsize.
  rewrite length_app in Hlen. simpl in Hlen. pose proof (f_equal length Hs) as Hsl. rewrite !length_map in Hsl.
  assert (Hpi : ins_of taken `prefix_of` ins_of (t_available_inputs b))
    by (destruct Hp as [k ->]; exists (map unsigned_of_unspent k); by rewrite <- map_app, <- app_assoc).
  pose proof (unsigned_size_pos (full_tx b script)) as Hpos.
  cbn [full_tx tx_with with_lock_time with_outputs with_inputs s_outputs s_lock_time] in Hpos.
  rewrite length_app in Hpos. simpl in Hpos. specialize (Hpos ltac:(unfold is_uint; lia) ltac:(lia)).
  assert (Z.of_nat (length (ins_of (t_available_inputs b))) < 2 ^ 64) by lia.
  destruct Ht as [->|(v & -> & Hv)]; rewrite ?app_nil_r, ?length_app; simpl; (split; [|lia]).
  - by apply larger_grows; [done|unfold is_uint; lia|done|lia|done|apply Hb|done|done].
  - apply (larger_trans _ (tx_with (t_tx b) (ins_of (t_available_inputs b)) (outs ++ [mkTransactionOutput v script]) lock)).
    + split.
      * unfold unsigned_size, tx_with. rewrite !unsigned_size_split by done.
        cbn [s_inputs s_outputs with_lock_time with_outputs with_inputs].
        pose proof (inputs_size_grows _ _ ltac:(eassumption) Hpi).
        change (frame (with_lock_time (with_outputs (with_inputs (t_tx b) (ins_of taken)) (outs ++ [mkTransactionOutput v script])) lock)) with (frame (t_tx b)).
        change (frame (with_lock_time (with_outputs (with_inputs (t_tx b) (ins_of (t_available_inputs b))) (outs ++ [mkTransactionOutput v script])) lock)) with (frame (t_tx b)).
        lia.
      * by apply prefix_length.
    + split; [|done]. unfold full_tx, tx_with.
      rewrite (same_size (t_tx b) lock 0 _ (t_outputs b ++ [mkTransactionOutput 0 script])); [lia|done|unfold is_uint; lia| | | |].
      * rewrite length_app. simpl. lia.
      * apply Forall_app. split; [done|]. by apply Forall_singleton.
      * apply Forall_app. split; [apply Hb|]. apply Forall_singleton. unfold is_uint. simpl. lia.
      * by rewrite !map_app, Hs.
Qed.

Lemma fee_of_build taken outs tail lock :
  taken `prefix_of` t_available_inputs b -> is_u32 lock ->
  Forall (fun o => is_u64 (out_value o)) outs ->
  map script_pubkey outs = map script_pubkey (t_outputs b) ->
  (tail = [] \/ exists v, tail = [mkTransactionOutput v script] /\ is_u64 v) ->
  0 <= fee (tx_with (t_tx b) (ins_of taken) (outs ++ tail) lock) < 2 ^ 54.
Proof.
  intros Hp Hl Ho Hs Ht. destruct (size_of_build taken outs tail lock Hp Hl Ho Hs Ht) as [Hle Hlen].
  pose proof (update_tx_fee_mono format rate relay (tx_with (t_tx b) (ins_of taken) (outs ++ tail) lock) _
    (bb_rate _ _ _ _ _ _ Hb) (bb_relay _ _ _ _ _ _ Hb) (bb_size _ _ _ _ _ _ Hb) Hl Hlen Hle). lia.
Qed.

(** ** The fee and the change *)

Lemma total_fee_exact f : 0 <= f < 2 ^ 61 -> total_tx_fee_needed b f = f + gas b.
Proof.
  intros Hf. pose proof (bb_gas _ _ _ _ _ _ Hb). unfold total_tx_fee_needed. fold (gas b).
  apply wrap_id. unfold is_uint. lia.
Qed.

Lemma deduct_spec t ins lock sum_in sum_out f i t' d :
  0 <= f < 2 ^ 61 ->
  deduct_txfee_from_output coin b
    (mkBuildState (tx_with t ins (t_outputs b) lock) sum_in sum_out f i) = Some (Ok (t', d)) ->
  exists outs, paying (f + gas b) = Some outs /\ t' = tx_with t ins outs lock /\ d = deducted (f + gas b).
Proof.
  intros Hf. pose proof (bb_gas _ _ _ _ _ _ Hb). pose proof (bb_dust _ _ _ _ _ _ Hb).
  unfold deduct_txfee_from_output, paying, deducted. cbn [bs_tx bs_tx_fee_needed].
  rewrite total_fee_exact by done. destruct (t_fee_policy b) as [|k].
  { intros [= <- <-]. by exists (t_outputs b). }
  change (s_outputs (tx_with t ins (t_outputs b) lock)) with (t_outputs b).
  destruct (t_outputs b !! k) as [o|] eqn:Eo; cbn [mbind option_bind]; [|done].
  rewrite (wrap_id 64 (f + gas b + dust coin b)) by (unfold is_uint; lia).
  destruct (Z.ltb_spec (out_value o) (f + gas b + dust coin b)); [done|]. intros [= <- <-].
  pose proof (Forall_lookup_1 _ _ _ _ (bb_outputs _ _ _ _ _ _ Hb) Eo) as Hv. unfold is_uint in Hv; simpl in Hv.
  rewrite wrap_id by (unfold is_uint; lia). eexists; split; [done|]. done.
Qed.

Lemma add_change_spec t ins outs lock sum_in f i t' change :
  0 <= sum_in < 2 ^ 62 -> 0 <= i < 2 ^ 62 -> 0 <= f < 2 ^ 61 -> 0 <= total out_value outs < 2 ^ 62 ->
  add_change coin b script
    (mkBuildState (tx_with t ins outs lock) sum_in (total out_value outs) f i) = (t', change) ->
  exists tail, t' = tx_with t ins (outs ++ tail) lock /\
    total out_value (outs ++ tail) = total out_value outs + change /\ 0 <= change < 2 ^ 63 /\
    (tail = [] /\ (sum_in < total out_value outs + (f + gas b) \/
                  sum_in + i - (total out_value outs + (f + gas b)) < dust coin b) \/
     tail = [mkTransactionOutput (sum_in + i - (total out_value outs + (f + gas b))) script] /\
     total out_value outs + (f + gas b) <= sum_in /\
     dust coin b <= sum_in + i - (total out_value outs + (f + gas b))).
Proof.
  intros Hs Hi Hf Ho. pose proof (bb_gas _ _ _ _ _ _ Hb). pose proof (bb_dust _ _ _ _ _ _ Hb).
  unfold add_change. cbn [bs_tx bs_tx_fee_needed bs_sum_inputs bs_sum_outputs bs_interest].
  rewrite total_fee_exact by done. set (paid := total out_value outs + (f + gas b)).
  rewrite (wrap_id 64 paid) by (unfold is_uint; lia).
  destruct (Z.ltb_spec sum_in paid).
  { intros [= <- <-]. exists []. rewrite app_nil_r. split_and!; [done|lia..|]. left. auto. }
  rewrite (wrap_id 64 (sum_in + i)) by (unfold is_uint; lia).
  rewrite (wrap_id 64 (sum_in + i - paid)) by (unfold is_uint; lia).
  destruct (Z.ltb_spec (sum_in + i - paid) (dust coin b)).
  { intros [= <- <-]. exists []. rewrite app_nil_r. split_and!; [done|lia..|]. left. auto. }
  intros [= <- <-]. eexists. split; [done|]. rewrite total_app. simpl. split_and!; [lia..|]. right. auto.
Qed.

(** ** One round *)

(** What a round makes of a state with the fee [f]. *)
Definition made (round : nat) (f : Z) (s : BuildState) (done : bool) : Prop :=
  exists taken lock f0 outs tail,
    taken `prefix_of` t_available_inputs b /\ is_u32 lock /\
    bs_sum_inputs s = value_of taken /\ required f <= value_of taken /\
    (forall p, p `prefix_of` taken -> p <> taken -> value_of p < required f) /\
    0 <= 20 * bs_interest s <= value_of taken /\
    f0 = (if (round =? 0)%nat then fee (tx_with (t_tx b) (ins_of taken) (t_outputs b) lock) else f) /\
    0 <= f0 < 2 ^ 54 /\ paying (f0 + gas b) = Some outs /\
    bs_tx s = tx_with (t_tx b) (ins_of taken) (outs ++ tail) lock /\
    (tail = [] /\ (value_of taken < total out_value outs + (f0 + gas b) \/
                  value_of taken + bs_interest s - (total out_value outs + (f0 + gas b)) < dust coin b) \/
     tail = [mkTransactionOutput (value_of taken + bs_interest s - (total out_value outs + (f0 + gas b))) script] /\
     total out_value outs + (f0 + gas b) <= value_of taken /\
     dust coin b <= value_of taken + bs_interest s - (total out_value outs + (f0 + gas b))) /\
    bs_sum_outputs s = total out_value (outs ++ tail) /\ 0 <= bs_sum_outputs s < 2 ^ 63 + 2 ^ 62 /\
    bs_tx_fee_needed s = fee (bs_tx s) /\ 0 <= bs_tx_fee_needed s < 2 ^ 54 /\
    done = (bs_sum_outputs s + (bs_tx_fee_needed s + gas b) <=? value_of taken + bs_interest s).

(** The transaction of a state has the frame of the first one. *)
Definition framed (s : BuildState) : Prop :=
  exists ins outs lock, bs_tx s = tx_with (t_tx b) ins outs lock /\ is_u32 lock.

Lemma round_made round s done s' :
  framed s -> 0 <= bs_tx_fee_needed s < 2 ^ 54 ->
  build_round coin n b format script rate relay round s = Some (Ok (done, s')) ->
  made round (bs_tx_fee_needed s) s' done.
Proof.
  intros (ins0 & outs0 & lock0 & Htx & Hl0) Hf Hr. unfold build_round in Hr.
  rewrite required_amount_exact in Hr by lia. set (f := bs_tx_fee_needed s) in *.
  destruct (add_tx_inputs b (required f)) as [ins sum] eqn:Ei.
  apply add_tx_inputs_spec in Ei as (taken & -> & Hp & -> & Hor & Hmin).
  cbn [add_tx_outputs] in Hr. rewrite sum_values_exact, Htx in Hr.
  destruct (ins_of_amounts taken Hp) as [Ha Hat]. pose proof (value_of_range taken Hp) as Hv.
  change (with_outputs (with_inputs (tx_with (t_tx b) ins0 outs0 lock0) (ins_of taken)) (t_outputs b))
    with (tx_with (t_tx b) (ins_of taken) (t_outputs b) lock0) in Hr.
  destruct (calc_interest_if_required coin n round _) as [[[t' i]|]|] eqn:Ec; [|done..].
  apply calc_interest_spec in Ec as [(lock & -> & Hl) Hi]; [|done|lia|done|apply Hb].
  rewrite Hat in Hi. cbn [pbind] in Hr.
  set (f0 := if (round =? 0)%nat then _ else f) in Hr.
  assert (Hf0 : 0 <= f0 < 2 ^ 54).
  { unfold f0. destruct (round =? 0)%nat; [|done]. rewrite <- (app_nil_r (t_outputs b)).
    apply fee_of_build; auto. apply Hb. }
  destruct (Z.ltb_spec (value_of taken) (required f)) as [|Hreq]; [done|].
  destruct (deduct_txfee_from_output coin b _) as [[[t1 d]|]|] eqn:Ed; [|done..].
  apply deduct_spec in Ed as (outs & Hpay & -> & ->); [|lia]. cbn [pbind] in Hr.
  pose proof outputs_total_range as Hot. pose proof (bb_gas _ _ _ _ _ _ Hb) as Hg.
  destruct (paying_spec (f0 + gas b) outs ltac:(lia) Hpay) as (Hto & Hto0 & Hscr & Hou).
  unfold checked_sub in Hr. destruct (Z.leb_spec (deducted (f0 + gas b)) (total out_value (t_outputs b))); [|lia].
  cbn [ok_or pbind] in Hr. rewrite <- Hto in Hr.
  assert (Hto1 : total out_value outs < 2 ^ 62).
  { rewrite Hto. unfold deducted. destruct (t_fee_policy b); lia. }
  destruct (add_change coin b script _) as [t2 change] eqn:Ea.
  apply add_change_spec in Ea as (tail & -> & Htail & Hch & Hcase); [|done|lia|lia|lia].
  assert (Htl : tail = [] \/ exists v, tail = [mkTransactionOutput v script] /\ is_u64 v).
  { destruct Hcase as [[-> _]|[-> _]]; [auto|]. right. eexists; split; [done|].
    rewrite total_app in Htail. simpl in Htail. unfold is_uint. lia. }
  pose proof (fee_of_build taken outs tail lock Hp Hl Hou Hscr Htl) as Hfee.
  rewrite (wrap_id 64 (total out_value outs + change)) in Hr by (unfold is_uint; lia).
  rewrite <- Htail in Hr. rewrite total_fee_exact in Hr by lia.
  rewrite !wrap_id in Hr by (unfold is_uint; lia). injection Hr as <- <-.
  exists taken, lock, f0, outs, tail. cbn [bs_tx bs_sum_inputs bs_sum_outputs bs_interest bs_tx_fee_needed].
  split_and!; try done; lia.
Qed.

(** ** The next round *)

Lemma fee_le taken outs outs' tail' v lock lock' :
  taken `prefix_of` t_available_inputs b -> is_u32 lock -> is_u32 lock' ->
  Forall (fun o => is_u64 (out_value o)) outs -> Forall (fun o => is_u64 (out_value o)) outs' ->
  map script_pubkey outs = map script_pubkey (t_outputs b) ->
  map script_pubkey outs' = map script_pubkey (t_outputs b) -> is_u64 v ->
  (tail' = [] \/ exists v', tail' = [mkTransactionOutput v' script] /\ is_u64 v') ->
  fee (tx_with (t_tx b) (ins_of taken) (outs' ++ tail') lock')
  <= fee (tx_with (t_tx b) (ins_of taken) (outs ++ [mkTransactionOutput v script]) lock).
Proof.
  intros Hp Hl Hl' Ho Ho' Hs Hs' Hv Ht'.
  destruct (size_of_build taken outs [mkTransactionOutput v script] lock Hp Hl Ho Hs) as [[Hle Hn] Hlen]; [eauto|].
  destruct (size_of_build taken outs' tail' lock' Hp Hl' Ho' Hs' Ht') as [_ Hlen'].
  destruct (bb_size _ _ _ _ _ _ Hb) as (_ & _ & Hsize).
  rewrite length_app in Hlen. simpl in Hlen. cbn [s_inputs tx_with with_lock_time with_outputs with_inputs] in Hn.
  pose proof (unsigned_size_pos (tx_with (t_tx b) (ins_of taken) (outs ++ [mkTransactionOutput v script]) lock) Hl) as Hpos.
  cbn [tx_with with_lock_time with_outputs with_inputs s_outputs] in Hpos. rewrite length_app in Hpos. simpl in Hpos.
  apply update_tx_fee_mono; [apply Hb|apply Hb| |done|done|].
  { split_and!; [done|cbn [tx_with with_lock_time with_outputs with_inputs s_outputs]; rewrite length_app; simpl; lia|].
    cbn [tx_with with_lock_time with_outputs with_inputs s_inputs] in *. lia. }
  destruct Ht' as [->|(v' & -> & Hv')].
  - rewrite app_nil_r. apply larger_grows; [done|done| |lia|done|done|congruence|done].
    cbn [tx_with with_lock_time with_outputs with_inputs s_inputs] in *. lia.
  - split; [|done]. unfold tx_with.
    rewrite (same_size (t_tx b) lock' lock _ (outs ++ [mkTransactionOutput v script])); [lia|done..| | | |].
    + lia.
    + apply Forall_app. split; [done|]. by apply Forall_singleton.
    + apply Forall_app. split; [done|]. by apply Forall_singleton.
    + rewrite !map_app. simpl. by rewrite Hs, Hs'.
Qed.

Lemma paying_exact f outs : t_fee_policy b = SendExact -> paying f = Some outs -> outs = t_outputs b.
Proof. unfold paying. intros ->. congruence. Qed.

(** The inputs that just reach [R] are no more than those that reach [R']. *)
Lemma minimal_le (taken taken' : list UnspentInfo) R :
  taken `prefix_of` t_available_inputs b -> taken' `prefix_of` t_available_inputs b ->
  (forall p, p `prefix_of` taken -> p <> taken -> value_of p < R) -> R <= value_of taken' ->
  taken `prefix_of` taken'.
Proof.
  intros Hp Hp' Hmin HR. destruct (prefix_weak_total taken taken' _ Hp Hp') as [|Hpre]; [done|].
  destruct (Nat.eq_dec (length taken') (length taken)) as [He|He].
  - by rewrite (prefix_length_eq _ _ Hpre) by lia.
  - assert (taken' <> taken) by congruence. specialize (Hmin taken' Hpre ltac:(done)). lia.
Qed.

(** What [made] says of the value of the change. *)
Lemma tail_shape V i paid tail :
  (tail = [] /\ (V < paid \/ V + i - paid < dust coin b) \/
   tail = [mkTransactionOutput (V + i - paid) script] /\ paid <= V /\ dust coin b <= V + i - paid) ->
  0 <= V < 2 ^ 62 -> 0 <= 20 * i <= V -> 0 <= dust coin b -> 0 <= paid ->
  tail = [] \/ exists v, tail = [mkTransactionOutput v script] /\ is_u64 v.
Proof.
  intros [[-> _]|(-> & ? & ?)] HV Hi Hd Hpa; [auto|]. right. eexists; split; [done|]. unfold is_uint. lia.
Qed.

(** A round that did not end the loop leaves a transaction that the next round
    extends or ends with. *)
Lemma exact_progress r f s s' d :
  t_fee_policy b = SendExact -> (r = 0%nat -> f = 0) -> 0 <= f ->
  made r f s false -> made (S r) (bs_tx_fee_needed s) s' d ->
  d = true \/ (length (s_inputs (bs_tx s)) < length (s_inputs (bs_tx s')))%nat.
Proof.
  intros Hpol Hr0 Hf0 (taken & lock & f0 & outs & tail & Hp & Hl & Hsi & Hreq & Hmin & Hi & Ef0 & Hf0r & Hpay & Htx & Htail & Hso & Hsor & Hfn & Hfr & Hd).
  intros (taken' & lock' & f0' & outs' & tail' & Hp' & Hl' & Hsi' & Hreq' & Hmin' & Hi' & Ef0' & Hf0r' & Hpay' & Htx' & Htail' & Hso' & Hsor' & Hfn' & Hfr' & Hd').
  pose proof (bb_gas _ _ _ _ _ _ Hb) as Hg. pose proof (bb_dust _ _ _ _ _ _ Hb) as Hdu.
  pose proof outputs_total_range as Hot. pose proof (value_of_range taken Hp) as HV.
  pose proof (value_of_range taken' Hp') as HV'.
  apply paying_exact in Hpay as ->; [|done]. apply paying_exact in Hpay' as ->; [|done].
  simpl in Ef0'. subst f0'. unfold required in *. rewrite Hpol in *.
  symmetry in Hd. apply Z.leb_gt in Hd.
  set (S := total out_value (t_outputs b)) in *. set (f' := bs_tx_fee_needed s) in *.
  assert (Hff : f <= f').
  { destruct r as [|r]; [rewrite Hr0 by done; lia|]. simpl in Ef0. subst f0.
    destruct Htail as [[-> Hc]|(-> & Hc)]; rewrite Hso, (total_app out_value), ?total_nil, ?total_single in Hd; cbn [out_value] in Hd; fold S in Hd; lia. }
  assert (Hpre : taken `prefix_of` taken') by (apply (minimal_le _ _ (S + (f + gas b))); (done || lia)).
  destruct (Nat.lt_ge_cases (length taken) (length taken')) as [Hlt|Hge].
  { right. rewrite Htx, Htx'. cbn [s_inputs tx_with with_lock_time with_outputs with_inputs].
    rewrite !length_map, !length_app. lia. }
  left. assert (taken' = taken) as -> by (symmetry; apply prefix_length_eq; done || lia).
  rewrite Hd'. apply Z.leb_le.
  pose proof (tail_shape _ _ _ _ Htail HV Hi (proj1 Hdu) ltac:(lia)) as Hts.
  pose proof (tail_shape _ _ _ _ Htail' HV' Hi' (proj1 Hdu) ltac:(lia)) as Hts'.
  destruct Htail as [[-> Hc]|(-> & Hc)].
  { rewrite Hso, (total_app out_value), total_nil in Hd. fold S in Hd. lia. }
  assert (Hle : bs_tx_fee_needed s' <= f').
  { rewrite Hfn', Hfn, Htx, Htx'.
    destruct Hts as [|(v & [= <-] & Hv)]; [done|]. apply fee_le; try done; apply Hb. }
  destruct Htail' as [[-> Hc']|(-> & Hc')]; rewrite Hso', (total_app out_value), ?total_nil, ?total_single; cbn [out_value]; fold S; lia.
Qed.

Lemma fee_same ins outs outs' lock lock' :
  is_u32 lock -> is_u32 lock' -> Z.of_nat (length outs) < 2 ^ 64 ->
  Forall (fun o => is_u64 (out_value o)) outs -> Forall (fun o => is_u64 (out_value o)) outs' ->
  map script_pubkey outs = map script_pubkey outs' ->
  fee (tx_with (t_tx b) ins outs lock) = fee (tx_with (t_tx b) ins outs' lock').
Proof.
  intros Hl Hl' Hn Ho Ho' Hs. pose proof (same_size (t_tx b) lock lock' outs outs' ins) as E.
  specialize (E Hl Hl' Hn Ho Ho' Hs). unfold update_tx_fee. f_equal. by apply v_size_cong.
Qed.

Lemma outputs_count : Z.of_nat (length (t_outputs b)) < 2 ^ 32.
Proof.
  destruct (bb_size _ _ _ _ _ _ Hb) as (_ & Hlen & _).
  cbn [full_tx tx_with with_lock_time with_outputs with_inputs s_outputs] in Hlen.
  rewrite length_app in Hlen. lia.
Qed.

(** When an output pays the fee, the second round ends the loop. *)
Lemma deduct_second f s s' d i :
  t_fee_policy b = DeductFromOutput i -> made 0 f s false -> made 1 (bs_tx_fee_needed s) s' d -> d = true.
Proof.
  intros Hpol (taken & lock & f0 & outs & tail & Hp & Hl & Hsi & Hreq & Hmin & Hi & Ef0 & Hf0r & Hpay & Htx & Htail & Hso & Hsor & Hfn & Hfr & Hd).
  intros (taken' & lock' & f0' & outs' & tail' & Hp' & Hl' & Hsi' & Hreq' & Hmin' & Hi' & Ef0' & Hf0r' & Hpay' & Htx' & Htail' & Hso' & Hsor' & Hfn' & Hfr' & Hd').
  pose proof (bb_gas _ _ _ _ _ _ Hb) as Hg. pose proof (bb_dust _ _ _ _ _ _ Hb) as Hdu.
  pose proof outputs_total_range as Hot. pose proof (value_of_range taken Hp) as HV.
  destruct (paying_spec (f0 + gas b) outs ltac:(lia) Hpay) as (Hto & Hto0 & Hscr & Hou).
  destruct (paying_spec (f0' + gas b) outs' ltac:(lia) Hpay') as (Hto' & Hto0' & Hscr' & Hou').
  simpl in Ef0, Ef0'. subst f0'. unfold required, deducted in *. rewrite Hpol in *.
  assert (taken' = taken) as ->.
  { apply prefix_length_eq; [|apply prefix_length]; by eapply minimal_le. }
  symmetry in Hd. apply Z.leb_gt in Hd. rewrite Hd'. apply Z.leb_le.
  pose proof (tail_shape _ _ _ _ Htail HV Hi (proj1 Hdu) ltac:(lia)) as Hts.
  pose proof (tail_shape _ _ _ _ Htail' HV Hi' (proj1 Hdu) ltac:(lia)) as Hts'.
  destruct Htail as [[-> Hc]|(-> & Hc)].
  { exfalso. rewrite Hso, (total_app out_value), total_nil in Hd.
    assert (bs_tx_fee_needed s = f0) as He; [|lia].
    pose proof outputs_count. rewrite Hfn, Htx, Ef0, app_nil_r. symmetry.
    apply fee_same; [done|done|lia|apply Hb|done|done]. }
  assert (Hle : bs_tx_fee_needed s' <= bs_tx_fee_needed s).
  { rewrite Hfn', Hfn, Htx, Htx'.
    destruct Hts as [|(v & [= <-] & Hv)]; [done|]. by apply fee_le. }
  destruct Htail' as [[-> Hc']|(-> & Hc')]; rewrite Hso', (total_app out_value), ?total_nil, ?total_single; cbn [out_value]; lia.
Qed.

(** ** The loop *)

Notation round_of := (build_round coin n b format script rate relay).
Notation loop := (fun fuel r s => build_loop fuel coin n b format script rate relay r s).

Lemma made_state r f s d : made r f s d -> framed s /\ 0 <= bs_tx_fee_needed s < 2 ^ 54 /\
  (length (s_inputs (bs_tx s)) <= length (t_required_inputs b) + length (t_available_inputs b))%nat.
Proof.
  intros (taken & lock & f0 & outs & tail & Hp & Hl & _ & _ & _ & _ & _ & _ & _ & Htx & _ & _ & _ & _ & Hf & _).
  split_and!; [by eexists _, _, _|lia|lia|]. rewrite Htx.
  cbn [s_inputs tx_with with_lock_time with_outputs with_inputs]. rewrite length_map, length_app.
  apply prefix_length in Hp. lia.
Qed.

(** A loop that returns has ended with a round. *)
Lemma loop_made fuel r s s' :
  framed s -> 0 <= bs_tx_fee_needed s < 2 ^ 54 -> loop fuel r s = Some (Ok s') ->
  exists r' f, made r' f s' true.
Proof.
  revert r s. induction fuel as [|fuel IH]; intros r s Hfr Hf Hl; [done|]. cbn [build_loop] in Hl.
  destruct (round_of r s) as [[[d s1]|]|] eqn:Er; [|done..]. cbn [pbind] in Hl.
  apply round_made in Er; [|done..]. destruct d; simplify_eq.
  - by exists r, (bs_tx_fee_needed s).
  - destruct (made_state _ _ _ _ Er) as (Hfr1 & Hf1 & _).
    by apply (IH (S r) s1).
Qed.

(** Nothing in a round panics: the clock fits its type and the output that
    pays the fee exists. *)
Definition calls_ok : Prop :=
  (forall r, is_u32 (bn_now n r)) /\
  match t_fee_policy b with SendExact => True | DeductFromOutput i => (i < length (t_outputs b))%nat end.

Lemma round_returns r s : framed s -> calls_ok -> exists res, round_of r s = Some res.
Proof.
  intros (ins & outs & lock & Htx & Hl) [Hnow Hpol]. unfold build_round.
  destruct (add_tx_inputs b _) as [ins' sum]. cbn [add_tx_outputs]. rewrite Htx.
  change (with_outputs (with_inputs (tx_with (t_tx b) ins outs lock) ins') (t_outputs b))
    with (tx_with (t_tx b) ins' (t_outputs b) lock).
  set (t := tx_with (t_tx b) ins' (t_outputs b) lock).
  assert (exists res, calc_interest_if_required coin n r t = Some res /\
    forall t' i, res = Ok (t', i) -> s_outputs t' = t_outputs b) as (res & -> & Hres).
  { unfold calc_interest_if_required. destruct (supports_interest coin); cbn [negb].
    2: { eexists; split; [done|]. by intros t' i [= <- <-]. }
    destruct (bn_mtp n r); cbn [map_err pbind]; [|by eexists].
    destruct (bn_prev_txs n r _); cbn [map_err pbind]; [|by eexists].
    destruct (sum_interest _ _ _ 0) as [k|]; cbn [pbind]; [|by eexists].
    destruct (k =? 0); [|eexists; split; [done|]; by intros t' i [= <- <-]].
    unfold now_sec_u32. rewrite (proj2 (is_uintb_spec 32 (bn_now n r)) (Hnow r)).
    eexists; split; [done|]. by intros t' i [= <- <-]. }
  destruct res as [[t' i]|]; cbn [pbind]; [|by eexists]. specialize (Hres t' i eq_refl).
  destruct (sum <? _); [by eexists|].
  assert (forall si so f ii, exists res, deduct_txfee_from_output coin b (mkBuildState t' si so f ii) = Some res) as Hd.
  { intros si so f ii. unfold deduct_txfee_from_output. destruct (t_fee_policy b) as [|k]; [by eexists|].
    cbn [bs_tx]. rewrite Hres. destruct (lookup_lt_is_Some_2 (t_outputs b) k Hpol) as [o ->].
    cbn [mbind option_bind]. eauto. }
  edestruct Hd as [res ->]. destruct res as [[t1 d]|]; cbn [pbind]; [|by eexists].
  destruct (ok_or _ _); cbn [pbind]; [|by eexists].
  destruct (add_change coin b script _) as [t2 ch]. eauto.
Qed.

(** The rounds that are left are as many as the inputs that are not taken. *)
Lemma exact_loop_returns fuel r f s :
  t_fee_policy b = SendExact -> calls_ok -> (r = 0%nat -> f = 0) -> 0 <= f -> made r f s false ->
  (length (t_required_inputs b) + length (t_available_inputs b) < fuel + length (s_inputs (bs_tx s)))%nat ->
  exists res, loop fuel (S r) s = Some res.
Proof.
  intros Hpol Hc. revert r f s. induction fuel as [|fuel IH]; intros r f s Hr Hf Hm Hfu.
  { destruct (made_state _ _ _ _ Hm) as (_ & _ & Hlen). lia. }
  destruct (made_state _ _ _ _ Hm) as (Hfr & Hfe & _). cbn [build_loop].
  destruct (round_returns (S r) s Hfr Hc) as [[[d s1]|] Er]; rewrite Er; cbn [pbind]; [|by eexists].
  apply round_made in Er; [|done..]. destruct d; [by eexists|].
  destruct (exact_progress r f s s1 false Hpol Hr Hf Hm Er) as [|Hlt]; [done|].
  apply (IH (S r) (bs_tx_fee_needed s)); [done|lia|done|lia].
Qed.

Lemma loop_returns s : framed s -> bs_tx_fee_needed s = 0 -> calls_ok ->
  exists res, loop (build_fuel b) 0%nat s = Some res.
Proof.
  intros Hfr Hf Hc. unfold build_fuel. rewrite Nat.add_comm. cbn [Nat.add build_loop].
  destruct (round_returns 0 s Hfr Hc) as [[[d s1]|] Er]; rewrite Er; cbn [pbind]; [|by eexists].
  apply round_made in Er; [|done|lia]. destruct d; [by eexists|]. rewrite Hf in Er.
  destruct (made_state _ _ _ _ Er) as (Hfr1 & Hf1 & _).
  destruct (t_fee_policy b) as [|i] eqn:Hpol.
  - apply (exact_loop_returns (S (length (t_available_inputs b))) 0 0 s1); try done.
    destruct Er as (taken & lock & f0 & outs & tail & _ & _ & _ & _ & _ & _ & _ & _ & _ & Htx & _).
    rewrite Htx. cbn [s_inputs tx_with with_lock_time with_outputs with_inputs].
    rewrite length_map, length_app. lia.
  - destruct (round_returns 1 s1 Hfr1 Hc) as [[[d s2]|] Er1]; rewrite Er1; cbn [pbind]; [|by eexists].
    apply round_made in Er1; [|done..]. rewrite (deduct_second 0 s1 s2 d i Hpol Er Er1). by eexists.
Qed.
End Round.
