(* ===== verification/RecentlySpent.v ===== *)
(** * The unspent outputs of a wallet
    (mm2src/coins/utxo.rs, mm2src/coins/utxo/utxo_common.rs)

    [RecentlySpentOutPoints], the cache of what the wallet has spent and of its
    own outputs that replace it, the order in which unspent outputs are offered
    to a transaction, and the split into mature and immature ones.  A set
    ([HashSet]) is iterated in any order: the order is an argument. *)

From stdpp Require Import gmap.
From S2P Require Import Prelude MmNumber Script Serialization Transaction Sign UtxoHtlc UtxoV2 UtxoTxBuilder.
Local Open Scope Z_scope.
Local Open Scope result_scope.

#[export] Instance OutPoint_countable : Countable OutPoint.
Proof.
  exact (inj_countable' (fun o => (op_hash o, op_index o)) (fun '(h, i) => mkOutPoint h i)
           ltac:(by intros [])).
Defined.

#[export] Instance UnspentInfo_eq_dec : EqDecision UnspentInfo.
Proof. solve_decision. Defined.
#[export] Instance UnspentInfo_countable : Countable UnspentInfo.
Proof.
  exact (inj_countable' (fun u => (un_outpoint u, un_value u, un_height u, un_script u))
           (fun '(o, v, h, s) => mkUnspent o v h s) ltac:(by intros [])).
Defined.

Record CachedUnspentInfo : Type := mkCached { cu_outpoint : OutPoint; cu_value : Z }.

#[export] Instance CachedUnspentInfo_eq_dec : EqDecision CachedUnspentInfo.
Proof. solve_decision. Defined.
#[export] Instance CachedUnspentInfo_countable : Countable CachedUnspentInfo.
Proof.
  exact (inj_countable' (fun c => (cu_outpoint c, cu_value c)) (fun '(o, v) => mkCached o v)
           ltac:(by intros [])).
Defined.

Definition from_unspent_info (unspent : UnspentInfo) : CachedUnspentInfo :=
  mkCached (un_outpoint unspent) (un_value unspent).

Definition to_unspent_info (script : Script) (self : CachedUnspentInfo) : UnspentInfo :=
  mkUnspent (cu_outpoint self) (cu_value self) None script.

(** ** The cache *)

Notation cached_map := (gmap CachedUnspentInfo (gset CachedUnspentInfo)).

Record RecentlySpentOutPoints : Type := mkRecentlySpent {
  input_to_output_map : cached_map;
  output_to_input_map : cached_map;
  for_script_pubkey : Script }.

Definition recently_spent_new (for_script_pubkey : Script) : RecentlySpentOutPoints :=
  mkRecentlySpent ∅ ∅ for_script_pubkey.

(** The outputs to the wallet's own script, with their places. *)
Definition own_outputs (script : Script) (hash : list Z) (outs : list TransactionOutput)
  : list CachedUnspentInfo :=
  omap (fun '(i, o) =>
          if decide (script_pubkey o = script)
          then Some (mkCached (mkOutPoint hash (wrap 32 (Z.of_nat i))) (out_value o)) else None)
    (imap pair outs).

(** The body of the loop over [prev_inputs]: the spent [input] is taken from
    the outputs of [prev_input] and the new outputs are put there. *)
Definition replace_output (input : CachedUnspentInfo) (to_replace : gset CachedUnspentInfo)
  (acc : cached_map * gset CachedUnspentInfo) (prev_input : CachedUnspentInfo)
  : cached_map * gset CachedUnspentInfo :=
  let '(i2o, prev_inputs_spent) := acc in
  match i2o !! prev_input with
  | Some outputs =>
      (<[prev_input := (outputs ∖ {[input]}) ∪ to_replace]> i2o, {[prev_input]} ∪ prev_inputs_spent)
  | None => acc
  end.

Definition replace_outputs (o2i : cached_map) (to_replace : gset CachedUnspentInfo)
  (acc : cached_map * gset CachedUnspentInfo) (input : CachedUnspentInfo)
  : cached_map * gset CachedUnspentInfo :=
  match o2i !! input with
  | Some prev_inputs => foldl (replace_output input to_replace) acc (elements prev_inputs)
  | None => acc
  end.

Definition insert_all (keys : list CachedUnspentInfo) (v : gset CachedUnspentInfo) (m : cached_map)
  : cached_map := foldl (fun m k => <[k := v]> m) m keys.

Definition add_spent (self : RecentlySpentOutPoints) (ins : list UnspentInfo)
  (spend_tx_hash : list Z) (outs : list TransactionOutput) : RecentlySpentOutPoints :=
  let inputs : gset CachedUnspentInfo := list_to_set (map from_unspent_info ins) in
  let to_replace : gset CachedUnspentInfo :=
    list_to_set (own_outputs (for_script_pubkey self) spend_tx_hash outs) in
  let '(i2o, prev_inputs_spent) :=
    foldl (replace_outputs (output_to_input_map self) to_replace)
      (input_to_output_map self, ∅) (elements inputs) in
  let prev_inputs_spent := prev_inputs_spent ∪ inputs in
  mkRecentlySpent (insert_all (elements inputs) to_replace i2o)
    (insert_all (elements to_replace) prev_inputs_spent (output_to_input_map self))
    (for_script_pubkey self).

Definition is_cached (self : RecentlySpentOutPoints) (unspent : UnspentInfo) : Prop :=
  is_Some (input_to_output_map self !! from_unspent_info unspent).

#[export] Instance is_cached_dec self unspent : Decision (is_cached self unspent).
Proof. unfold is_cached. apply _. Defined.

(** What replaces the cached ones of [outputs]. *)
Definition replacements (self : RecentlySpentOutPoints) (outputs : gset UnspentInfo)
  : gset CachedUnspentInfo :=
  ⋃ (map (fun u => default ∅ (input_to_output_map self !! from_unspent_info u)) (elements outputs)).

(** [None] when the recursion is deeper than [fuel]. *)
Fixpoint replace_spent_outputs_with_cache (fuel : nat) (self : RecentlySpentOutPoints)
  (outputs : gset UnspentInfo) : option (gset UnspentInfo) :=
  match fuel with
  | O => None
  | S fuel =>
      let replacement_unspents := replacements self outputs in
      let outputs := filter (fun u => ~ is_cached self u) outputs in
      if decide (replacement_unspents = ∅) then Some outputs
      else replace_spent_outputs_with_cache fuel self
             (outputs ∪ set_map (to_unspent_info (for_script_pubkey self)) replacement_unspents)
  end.

(** The rounds of replacement that the cache needs: an output of the wallet
    that replaces another is not itself spent ([cache_ok]). *)
Definition CACHE_ROUNDS : nat := 2.

(** ** Order *)

Fixpoint unique_by_outpoint (seen : gset OutPoint) (l : list UnspentInfo) : list UnspentInfo :=
  match l with
  | [] => []
  | u :: l => if decide (un_outpoint u ∈ seen) then unique_by_outpoint seen l
              else u :: unique_by_outpoint ({[un_outpoint u]} ∪ seen) l
  end.

(** [sorted_unstable_by] of a comparison that never says [Equal]: the order of
    equal values is that of the list, which is any. *)
Fixpoint insert_by_value (u : UnspentInfo) (l : list UnspentInfo) : list UnspentInfo :=
  match l with
  | [] => [u]
  | v :: l' => if un_value v <? un_value u then v :: insert_by_value u l' else u :: l
  end.

Definition sort_dedup_unspents (unspents : list UnspentInfo) : list UnspentInfo :=
  foldr insert_by_value [] (unique_by_outpoint ∅ unspents).

(** The wallet locks the cache after the list has come from the node. *)
Definition get_all_unspent_ordered_list (set_order : gset UnspentInfo -> list UnspentInfo)
  (list_unspent : result UtxoRpcError (list UnspentInfo)) (recently_spent : RecentlySpentOutPoints)
  : option (result UtxoRpcError (list UnspentInfo)) :=
  let! unspents := Some list_unspent in
  unordered_unspents ← replace_spent_outputs_with_cache CACHE_ROUNDS recently_spent (list_to_set unspents);
  Some (Ok (sort_dedup_unspents (set_order unordered_unspents))).

(** ** Maturity *)

Definition can_tx_be_cached (tx : VerboseTx) : bool :=
  match vt_height tx with Some h => 0 <? h | None => false end.

Definition calc_actual_cached_tx_confirmations (tx : VerboseTx) (block_count : Z)
  : result UtxoRpcError Z :=
  let? tx_height := ok_or (vt_height tx) (RpcInternal "height of cached tx is unknown") in
  if tx_height =? 0 then Err (RpcInternal "height of cached tx is expected to be non-zero")
  else if block_count <? tx_height
  then Err (RpcInternal "actual block_count less than cached tx_height")
  else Ok (wrap 32 (wrap 64 (block_count - tx_height + 1))).

Definition is_unspent_mature (mature_confirmations : Z) (output : VerboseTx) : bool :=
  negb (vt_is_coinbase output) || (mature_confirmations <=? vt_confirmations output).

Definition set_height (tx : VerboseTx) (h : option Z) : VerboseTx :=
  mkVerboseTx h (vt_locktime tx) (vt_confirmations tx) (vt_is_coinbase tx).
Definition set_confirmations (tx : VerboseTx) (c : Z) : VerboseTx :=
  mkVerboseTx (vt_height tx) (vt_locktime tx) c (vt_is_coinbase tx).

Record MatureUnspentList : Type := mkMatureList {
  mature : list UnspentInfo;
  immature : list UnspentInfo }.

(** The transaction of an output, with its height and confirmations. *)
Definition unspent_tx_info (block_count : Z) (unspent : UnspentInfo) (tx_info : VerboseTransactionFrom)
  : VerboseTx :=
  match tx_info with
  | FromCache tx =>
      let tx := match un_height unspent with Some h => set_height tx (Some h) | None => tx end in
      match calc_actual_cached_tx_confirmations tx block_count with
      | Ok conf => set_confirmations tx conf
      | Err _ => tx
      end
  | FromRpc tx => match vt_height tx with None => set_height tx (un_height unspent) | Some _ => tx end
  end.

(** The result, and the transactions to cache. *)
Fixpoint identify_loop (mature_confirmations block_count : Z)
  (verbose_txs : gmap (list Z) VerboseTransactionFrom) (unspents : list UnspentInfo)
  (txs_to_cache : gmap (list Z) VerboseTx) (res : MatureUnspentList)
  : result UtxoRpcError (MatureUnspentList * gmap (list Z) VerboseTx) :=
  match unspents with
  | [] => Ok (res, txs_to_cache)
  | unspent :: unspents =>
      let tx_hash := rev (op_hash (un_outpoint unspent)) in
      let? tx_info := ok_or (verbose_txs !! tx_hash)
                        (RpcInternal "'get_verbose_transactions_from_cache_or_rpc' should have returned it") in
      let tx := unspent_tx_info block_count unspent tx_info in
      let txs_to_cache :=
        match tx_info with
        | FromRpc _ => if can_tx_be_cached tx then <[tx_hash := tx]> txs_to_cache else txs_to_cache
        | FromCache _ => txs_to_cache
        end in
      identify_loop mature_confirmations block_count verbose_txs unspents txs_to_cache
        (if is_unspent_mature mature_confirmations tx
         then mkMatureList (mature res ++ [unspent]) (immature res)
         else mkMatureList (mature res) (immature res ++ [unspent]))
  end.

Definition identify_mature_unspents (mature_confirmations : Z) (block_count : result UtxoRpcError Z)
  (verbose_txs : gset (list Z) -> result UtxoRpcError (gmap (list Z) VerboseTransactionFrom))
  (unspents : list UnspentInfo) : result UtxoRpcError (MatureUnspentList * gmap (list Z) VerboseTx) :=
  let? block_count := block_count in
  let? txs := verbose_txs (list_to_set (map (fun u => rev (op_hash (un_outpoint u))) unspents)) in
  identify_loop mature_confirmations block_count txs unspents ∅ (mkMatureList [] []).

Definition only_mature (l : MatureUnspentList) : list UnspentInfo := mature l.

Definition to_coin_balance (l : MatureUnspentList) (decimals : Z) : BigDecimal * BigDecimal :=
  let total := foldl (fun acc x => (acc + big_decimal_from_sat_unsigned (un_value x) decimals)%Q) 0%Q in
  (total (mature l), total (immature l)).

(** * What the cache of spent outputs keeps

    The invariant of [RecentlySpentOutPoints], that spending keeps it, and what
    the replacement of spent outputs gives under it. *)

Implicit Types (i k o p : CachedUnspentInfo) (R : gset CachedUnspentInfo) (m : cached_map).

(** ** The loop of [add_spent] as a loop over pairs *)

Definition pairs_of (o2i : cached_map) (inputs : list CachedUnspentInfo)
  : list (CachedUnspentInfo * CachedUnspentInfo) :=
  mjoin ((fun i => pair i <$> elements (default ∅ (o2i !! i))) <$> inputs).

Definition replace_pair R (acc : cached_map * gset CachedUnspentInfo)
  (ip : CachedUnspentInfo * CachedUnspentInfo) : cached_map * gset CachedUnspentInfo :=
  replace_output ip.1 R acc ip.2.

Lemma elem_of_pairs o2i inputs i k :
  (i, k) ∈ pairs_of o2i inputs <-> i ∈ inputs /\ exists ps, o2i !! i = Some ps /\ k ∈ ps.
Proof.
  unfold pairs_of. rewrite list_elem_of_join. split.
  - intros (l & Hl & Hin). apply list_elem_of_fmap in Hin as (i' & -> & Hi).
    apply list_elem_of_fmap in Hl as (k' & [= -> ->] & Hk). apply elem_of_elements in Hk.
    split; [done|]. destruct (o2i !! i') as [ps|]; [by exists ps|]. by apply elem_of_empty in Hk.
  - intros (Hi & ps & Hps & Hk). exists (pair i <$> elements (default ∅ (o2i !! i))). split.
    + apply list_elem_of_fmap. exists k. split; [done|]. by rewrite Hps, elem_of_elements.
    + apply list_elem_of_fmap. by exists i.
Qed.

Lemma replace_outputs_pairs o2i R inputs acc :
  foldl (replace_outputs o2i R) acc inputs = foldl (replace_pair R) acc (pairs_of o2i inputs).
Proof.
  revert acc. induction inputs as [|i inputs IH]; intros acc; [done|].
  change (pairs_of o2i (i :: inputs)) with
    ((pair i <$> elements (default ∅ (o2i !! i))) ++ pairs_of o2i inputs).
  rewrite foldl_app. cbn [foldl]. rewrite IH. f_equal. unfold replace_outputs.
  destruct (o2i !! i) as [ps|]; [change (default ∅ (Some ps)) with ps|by simpl; rewrite elements_empty].
  generalize (elements ps) as l. intros l. revert acc.
  induction l as [|p l IHl]; intros acc; [done|]. cbn [foldl fmap list_fmap]. apply IHl.
Qed.

(** What the loop makes of the map and of the set of earlier inputs. *)
Lemma replace_pairs_spec R L m0 :
  (forall i k, (i, k) ∈ L -> i ∉ R) ->
  let r := foldl (replace_pair R) (m0, ∅) L in
  (forall k, match m0 !! k, r.1 !! k with
             | None, None => True
             | Some outs0, Some outs => forall o, o ∈ outs <->
                 (o ∈ outs0 /\ (o, k) ∉ L) \/ (o ∈ R /\ exists i, (i, k) ∈ L)
             | _, _ => False
             end) /\
  (forall k, k ∈ r.2 <-> is_Some (m0 !! k) /\ exists i, (i, k) ∈ L).
Proof.
  induction L as [|[i p] L IH] using rev_ind; intros HR.
  { simpl. split; intros k.
    - destruct (m0 !! k); [|done]. intros o. set_solver.
    - set_solver. }
  rewrite foldl_app. cbn [foldl]. destruct IH as [IHm IHs].
  { intros i' k' Hin. apply (HR i' k'). set_solver. }
  assert (Hi : i ∉ R) by (apply (HR i p); set_solver).
  destruct (foldl (replace_pair R) (m0, ∅) L) as [m S] eqn:E. cbn [fst snd] in IHm, IHs.
  unfold replace_pair, replace_output. cbn [fst snd].
  pose proof (IHm p) as Hp. destruct (m !! p) as [outs|] eqn:Em; cbn [fst snd].
  - destruct (m0 !! p) as [outs0|] eqn:Em0; [|done]. split; intros k.
    + destruct (decide (k = p)) as [->|Hne].
      * rewrite Em0, lookup_insert_eq. intros o. specialize (Hp o). set_solver.
      * rewrite lookup_insert_ne by congruence. specialize (IHm k).
        destruct (m0 !! k), (m !! k); try done. intros o. specialize (IHm o). set_solver.
    + specialize (IHs k). rewrite elem_of_union, elem_of_singleton, IHs. split.
      * intros [->|[HS [i' Hi']]]; [rewrite Em0; set_solver|set_solver].
      * intros [HS [i' Hi']]. apply elem_of_app in Hi' as [Hi'|Hi']; [set_solver|].
        apply list_elem_of_singleton in Hi'. set_solver.
  - destruct (m0 !! p) as [outs0|] eqn:Em0; [done|]. split; intros k.
    + specialize (IHm k). destruct (m0 !! k) as [outs0|] eqn:Ek, (m !! k) as [outs|]; try done.
      assert (k <> p) by congruence. intros o. specialize (IHm o). set_solver.
    + specialize (IHs k). rewrite IHs. split; [set_solver|]. intros [HS [i' Hi']].
      split; [done|]. apply elem_of_app in Hi' as [Hi'|Hi']; [set_solver|].
      apply list_elem_of_singleton in Hi'. simplify_eq. rewrite Em0 in HS. by destruct HS.
Qed.

Lemma insert_all_lookup keys v m k :
  insert_all keys v m !! k = if decide (k ∈ keys) then Some v else m !! k.
Proof.
  unfold insert_all. revert m. induction keys as [|x keys IH]; intros m; cbn [foldl].
  { by rewrite decide_False by set_solver. }
  rewrite IH. destruct (decide (k ∈ keys)).
  - by rewrite decide_True by set_solver.
  - destruct (decide (k = x)) as [->|].
    + by rewrite lookup_insert_eq, decide_True by set_solver.
    + by rewrite lookup_insert_ne, decide_False by set_solver.
Qed.

Lemma insert_all_elements R v m k :
  insert_all (elements R) v m !! k = if decide (k ∈ R) then Some v else m !! k.
Proof. rewrite insert_all_lookup. repeat case_decide; set_solver. Qed.

(** ** The invariant *)

(** What replaces a spent output is not spent itself, and knows what it
    replaces. *)
Record cache_ok (c : RecentlySpentOutPoints) : Prop := mkCacheOk {
  co_live : forall k outs o, input_to_output_map c !! k = Some outs -> o ∈ outs ->
    input_to_output_map c !! o = None;
  co_back : forall k outs o, input_to_output_map c !! k = Some outs -> o ∈ outs ->
    exists ins, output_to_input_map c !! o = Some ins /\ k ∈ ins }.

Definition spends (ins : list UnspentInfo) : gset CachedUnspentInfo :=
  list_to_set (map from_unspent_info ins).
Definition makes (c : RecentlySpentOutPoints) (hash : list Z) (outs : list TransactionOutput)
  : gset CachedUnspentInfo := list_to_set (own_outputs (for_script_pubkey c) hash outs).

(** The outputs of a transaction are new: nothing knows its hash yet. *)
Definition fresh_for (c : RecentlySpentOutPoints) (ins : list UnspentInfo) (hash : list Z)
  (outs : list TransactionOutput) : Prop :=
  forall o, o ∈ makes c hash outs ->
    o ∉ spends ins /\ input_to_output_map c !! o = None /\ output_to_input_map c !! o = None.

Lemma cache_ok_new script : cache_ok (recently_spent_new script).
Proof. split; intros k outs o Hk; simpl in Hk; by rewrite lookup_empty in Hk. Qed.

(** The maps after a spend. *)
Lemma add_spent_lookup c ins hash outs :
  fresh_for c ins hash outs ->
  let c' := add_spent c ins hash outs in
  let I := spends ins in
  let R := makes c hash outs in
  for_script_pubkey c' = for_script_pubkey c /\
  exists m S,
    (forall k, input_to_output_map c' !! k = if decide (k ∈ I) then Some R else m !! k) /\
    (forall o, output_to_input_map c' !! o
               = if decide (o ∈ R) then Some (S ∪ I) else output_to_input_map c !! o) /\
    (forall k, match input_to_output_map c !! k, m !! k with
               | None, None => True
               | Some os, Some os' => forall o, o ∈ os' <->
                   (o ∈ os /\ ~ (o ∈ I /\ exists ps, output_to_input_map c !! o = Some ps /\ k ∈ ps)) \/
                   (o ∈ R /\ exists i, i ∈ I /\ exists ps, output_to_input_map c !! i = Some ps /\ k ∈ ps)
               | _, _ => False
               end) /\
    (forall k, k ∈ S <-> is_Some (input_to_output_map c !! k) /\
       exists i, i ∈ I /\ exists ps, output_to_input_map c !! i = Some ps /\ k ∈ ps).
Proof.
  intros Hfresh c' I R. unfold c', add_spent. fold (spends ins) (makes c hash outs). fold I R.
  rewrite replace_outputs_pairs.
  assert (Hpair : forall i k, (i, k) ∈ pairs_of (output_to_input_map c) (elements I) <->
            i ∈ I /\ exists ps, output_to_input_map c !! i = Some ps /\ k ∈ ps)
    by (intros i k; by rewrite elem_of_pairs, elem_of_elements).
  destruct (replace_pairs_spec R (pairs_of (output_to_input_map c) (elements I)) (input_to_output_map c))
    as [Hm HS].
  { intros i k [Hi _]%Hpair Hr. by apply (Hfresh i Hr). }
  destruct (foldl (replace_pair R) _ _) as [m S]. cbn [fst snd] in Hm, HS.
  cbn [input_to_output_map output_to_input_map for_script_pubkey]. split; [done|].
  exists m, S. split_and!.
  - intros k. apply insert_all_elements.
  - intros o. apply insert_all_elements.
  - intros k. specialize (Hm k). destruct (input_to_output_map c !! k), (m !! k); try done.
    intros o. rewrite Hm, Hpair. by setoid_rewrite Hpair.
  - intros k. rewrite HS. by setoid_rewrite Hpair.
Qed.

Lemma cache_ok_add c ins hash outs :
  cache_ok c -> fresh_for c ins hash outs -> cache_ok (add_spent c ins hash outs).
Proof.
  intros [Hlive Hback] Hfresh.
  destruct (add_spent_lookup c ins hash outs Hfresh) as (_ & m & S & Hi & Ho & Hm & HS).
  set (c' := add_spent c ins hash outs) in *. set (I := spends ins) in *. set (R := makes c hash outs) in *.
  assert (Hnew : forall o, o ∈ R -> input_to_output_map c' !! o = None).
  { intros o Hr. destruct (Hfresh o Hr) as (Hn & Hnone & _). rewrite Hi, decide_False by done.
    specialize (Hm o). rewrite Hnone in Hm. by destruct (m !! o). }
  split; intros k outs' o Hk Hin; rewrite Hi in Hk.
  - destruct (decide (k ∈ I)); simplify_eq; [by apply Hnew|].
    pose proof Hm as Hm'. specialize (Hm k). destruct (input_to_output_map c !! k) as [os|] eqn:Ek; rewrite Hk in Hm; [|done].
    apply Hm in Hin as [[Hos Hno]|[Hr _]]; [|by apply Hnew].
    destruct (Hback k os o Ek Hos) as (ps & Hps & Hkps).
    rewrite Hi, decide_False by (intros Hoi; apply Hno; eauto).
    specialize (Hm' o). rewrite (Hlive k os o Ek Hos) in Hm'. by destruct (m !! o).
  - rewrite Ho. destruct (decide (o ∈ R)) as [Hr|Hr].
    + eexists; split; [done|]. destruct (decide (k ∈ I)); [set_solver|]. apply elem_of_union_l, HS.
      specialize (Hm k). destruct (input_to_output_map c !! k) as [os|] eqn:Ek; rewrite Hk in Hm; [|done].
      split; [done|]. apply Hm in Hin as [[Hos _]|[_ Hi']]; [|done].
      destruct (Hback k os o Ek Hos) as (ps & Hps & _). destruct (Hfresh o Hr) as (_ & _ & Hno). congruence.
    + destruct (decide (k ∈ I)); simplify_eq; [done|].
      specialize (Hm k). destruct (input_to_output_map c !! k) as [os|] eqn:Ek; rewrite Hk in Hm; [|done].
      apply Hm in Hin as [[Hos _]|[Hr' _]]; [|done]. by apply (Hback k os).
Qed.

(** ** What is offered *)

Lemma elem_of_replacements c listed o :
  o ∈ replacements c listed <->
  exists v os, v ∈ listed /\ input_to_output_map c !! from_unspent_info v = Some os /\ o ∈ os.
Proof.
  unfold replacements. rewrite elem_of_union_list. split.
  - intros (X & HX & Ho). apply list_elem_of_fmap in HX as (v & -> & Hv). apply elem_of_elements in Hv.
    destruct (input_to_output_map c !! from_unspent_info v) as [os|] eqn:E; [by exists v, os|].
    by apply elem_of_empty in Ho.
  - intros (v & os & Hv & Hos & Ho). exists os. split; [|done]. apply list_elem_of_fmap.
    exists v. rewrite Hos. split; [done|]. by apply elem_of_elements.
Qed.

Lemma cached_of_cached script o : from_unspent_info (to_unspent_info script o) = o.
Proof. by destruct o. Qed.

Lemma replace_spent_spec c listed :
  cache_ok c ->
  exists res, replace_spent_outputs_with_cache CACHE_ROUNDS c listed = Some res /\
    forall u, u ∈ res <-> (u ∈ listed /\ ~ is_cached c u) \/
      exists o, o ∈ replacements c listed /\ u = to_unspent_info (for_script_pubkey c) o.
Proof.
  intros Hc. unfold CACHE_ROUNDS. cbn [replace_spent_outputs_with_cache].
  set (X := replacements c listed). destruct (decide (X = ∅)) as [Hx|Hx].
  { eexists; split; [done|]. intros u. rewrite elem_of_filter. set_solver. }
  set (listed' := filter _ listed ∪ set_map _ X).
  assert (Hno : forall u, u ∈ listed' -> ~ is_cached c u).
  { intros u Hu. apply elem_of_union in Hu as [Hu|Hu]; [by apply elem_of_filter in Hu as [Hu _]|].
    apply elem_of_map in Hu as (o & -> & Ho). apply elem_of_replacements in Ho as (v & os & _ & Hos & Ho).
    unfold is_cached. rewrite cached_of_cached, (co_live c Hc _ _ _ Hos Ho). by intros []. }
  rewrite decide_True.
  - eexists; split; [done|]. intros u. rewrite elem_of_filter. split.
    + intros [_ Hu]. apply elem_of_union in Hu as [Hu|Hu].
      * apply elem_of_filter in Hu. tauto.
      * apply elem_of_map in Hu as (o & -> & Ho). eauto.
    + intros Hu. assert (u ∈ listed') as Hin; [|split; [by apply Hno|done]].
      destruct Hu as [Hu|(o & Ho & ->)].
      * apply elem_of_union_l, elem_of_filter. tauto.
      * apply elem_of_union_r, elem_of_map. eauto.
  - apply set_eq. intros o. split; [|set_solver]. intros Ho. exfalso.
    apply elem_of_replacements in Ho as (v & os & Hv & Hos & _). apply (Hno v Hv). by exists os.
Qed.

(** ** A history of sends *)

Record Sent : Type := mkSent {
  sent_ins : list UnspentInfo;
  sent_hash : list Z;
  sent_outs : list TransactionOutput }.

(** The hash is that of no transaction that a send before made or spent. *)
Definition hash_new (h : list Sent) (e : Sent) : Prop :=
  (forall e', e' ∈ h -> sent_hash e' <> sent_hash e) /\
  (forall e' u, e' ∈ e :: h -> u ∈ sent_ins e' -> op_hash (un_outpoint u) <> sent_hash e).

(** Every send takes inputs that the cache offers. *)
Inductive history (script : Script) : list Sent -> RecentlySpentOutPoints -> Prop :=
| hist_new : history script [] (recently_spent_new script)
| hist_send h c e :
    history script h c -> hash_new h e -> Forall (fun u => ~ is_cached c u) (sent_ins e) ->
    history script (e :: h) (add_spent c (sent_ins e) (sent_hash e) (sent_outs e)).

Definition spent_in (h : list Sent) (o : CachedUnspentInfo) : Prop :=
  exists e, e ∈ h /\ o ∈ spends (sent_ins e).
Definition made_in (script : Script) (h : list Sent) (o : CachedUnspentInfo) : Prop :=
  exists e, e ∈ h /\ o ∈ own_outputs script (sent_hash e) (sent_outs e).

Lemma own_outputs_hash script hash outs o :
  o ∈ own_outputs script hash outs -> op_hash (cu_outpoint o) = hash.
Proof.
  unfold own_outputs. intros Ho. apply list_elem_of_omap in Ho as ([j x] & _ & Hx).
  by destruct (decide _); simplify_eq.
Qed.

Lemma spends_hash ins o :
  o ∈ spends ins -> exists u, u ∈ ins /\ op_hash (un_outpoint u) = op_hash (cu_outpoint o) /\ o = from_unspent_info u.
Proof.
  unfold spends. intros Ho. apply elem_of_list_to_set, list_elem_of_fmap in Ho as (u & -> & Hu). by exists u.
Qed.

Record history_ok (script : Script) (h : list Sent) (c : RecentlySpentOutPoints) : Prop := mkHistoryOk {
  ho_cache : cache_ok c;
  ho_script : for_script_pubkey c = script;
  ho_spent : forall k, is_Some (input_to_output_map c !! k) <-> spent_in h k;
  ho_back : forall o, is_Some (output_to_input_map c !! o) -> made_in script h o;
  ho_made : forall k os o, input_to_output_map c !! k = Some os -> o ∈ os -> made_in script h o;
  ho_kept : forall e v o, e ∈ h -> v ∈ spends (sent_ins e) ->
    o ∈ own_outputs script (sent_hash e) (sent_outs e) -> ~ spent_in h o ->
    exists os, input_to_output_map c !! v = Some os /\ o ∈ os }.

Lemma history_fresh script h c e :
  history_ok script h c -> hash_new h e -> fresh_for c (sent_ins e) (sent_hash e) (sent_outs e).
Proof.
  intros Hh [Hn1 Hn2] o Ho. unfold makes in Ho. apply elem_of_list_to_set, own_outputs_hash in Ho as Hhash.
  split_and!.
  - intros (u & Hu & Hop & _)%spends_hash. apply (Hn2 e u); [set_solver|done|congruence].
  - apply eq_None_not_Some. rewrite (ho_spent _ _ _ Hh). intros (e' & He' & (u & Hu & Hop & _)%spends_hash).
    apply (Hn2 e' u); [set_solver|done|congruence].
  - apply eq_None_not_Some. intros (e' & He' & Hm)%(ho_back _ _ _ Hh). apply own_outputs_hash in Hm.
    apply (Hn1 e' He'). congruence.
Qed.

Lemma spent_in_cons e h o : spent_in (e :: h) o <-> o ∈ spends (sent_ins e) \/ spent_in h o.
Proof. unfold spent_in. set_solver. Qed.

Lemma made_in_cons script e h o :
  made_in script (e :: h) o <-> o ∈ own_outputs script (sent_hash e) (sent_outs e) \/ made_in script h o.
Proof. unfold made_in. set_solver. Qed.

Lemma history_ok_send script h c e :
  history_ok script h c -> hash_new h e -> Forall (fun u => ~ is_cached c u) (sent_ins e) ->
  history_ok script (e :: h) (add_spent c (sent_ins e) (sent_hash e) (sent_outs e)).
Proof.
  intros Hh Hnew Hins. pose proof (history_fresh _ _ _ _ Hh Hnew) as Hfresh.
  destruct (add_spent_lookup c _ _ _ Hfresh) as (Hscr & m & S & Hi & Ho & Hm & HS).
  assert (Hmakes : forall o, o ∈ makes c (sent_hash e) (sent_outs e) <->
            o ∈ own_outputs script (sent_hash e) (sent_outs e)).
  { intros o. unfold makes. rewrite (ho_script _ _ _ Hh). apply elem_of_list_to_set. }
  assert (Hdom : forall k, is_Some (m !! k) <-> is_Some (input_to_output_map c !! k)).
  { intros k. specialize (Hm k). destruct (input_to_output_map c !! k), (m !! k); try done;
      split; intros [? ?]; eauto; done. }
  split.
  - apply cache_ok_add; [apply Hh|done].
  - rewrite Hscr. apply Hh.
  - intros k. rewrite Hi, spent_in_cons. destruct (decide _); [split; eauto|].
    rewrite Hdom, (ho_spent _ _ _ Hh). tauto.
  - intros o. rewrite Ho, made_in_cons, <- Hmakes. destruct (decide _); [auto|].
    intros Hs. right. by apply (ho_back _ _ _ Hh).
  - intros k os o. rewrite Hi, made_in_cons, <- Hmakes. intros Hk Hin.
    destruct (decide _); simplify_eq; [by left|]. specialize (Hm k).
    destruct (input_to_output_map c !! k) as [os0|] eqn:Ek; rewrite Hk in Hm; [|done].
    apply Hm in Hin as [[Hos _]|[Hr _]]; [|by left]. right. by apply (ho_made _ _ _ Hh k os0).
  - intros e' v o [->|He']%elem_of_cons Hv Hown Hns; rewrite Hi.
    + rewrite decide_True by done. eexists; split; [done|]. by apply Hmakes.
    + rewrite spent_in_cons in Hns.
      destruct (ho_kept _ _ _ Hh e' v o He' Hv Hown) as (os & Hos & Hin); [tauto|].
      rewrite decide_False.
      * specialize (Hm v). rewrite Hos in Hm. destruct (m !! v) as [os'|]; [|done].
        exists os'. split; [done|]. apply Hm. left. split; [done|]. tauto.
      * intros (u & Hu & _ & ->)%spends_hash.
        apply (proj1 (Forall_forall _ _) Hins u Hu). by exists os.
Qed.

Lemma history_invariant script h c : history script h c -> history_ok script h c.
Proof.
  induction 1 as [|h c e Hh IH Hnew Hins].
  - split; simpl; [apply cache_ok_new|done|..].
    + intros k. rewrite lookup_empty. split; [by intros []|]. intros (e & He & _). by apply elem_of_nil in He.
    + intros o. rewrite lookup_empty. by intros [].
    + intros k os o. by rewrite lookup_empty.
    + intros e v o He. by apply elem_of_nil in He.
  - by apply history_ok_send.
Qed.
