(* ===== verification/UtxoSend.v ===== *)
(** * Sending from a UTXO wallet
    (mm2src/coins/utxo.rs, mm2src/coins/utxo/utxo_common.rs)

    A transaction from the wallet's unspent outputs, signed, broadcast and
    noted in the cache; the payments of the legacy swap protocol; and the fees
    that a trade is told it will pay. *)

From Stdlib Require Import QArith SpecFloat.
From stdpp Require Import gmap.
From S2P Require Import Prelude F64 MmNumber DexFee Swap SwapV2 Opcode Keys Script Serialization Transaction Sign HtlcScripts UtxoHtlc UtxoValidate UtxoV2 UtxoTxBuilder UtxoBuilderProps RecentlySpent.
Local Open Scope Z_scope.
Local Open Scope result_scope.

(** What a send asks: [sn_list_unspent] of the node, the order of the set of
    outputs, and the maturity of coinbase outputs when the coin checks it. *)
Record SendNet : Type := mkSendNet {
  sn_net : Net;
  sn_build : BuildNet;
  sn_now : Z;
  sn_address : result string Address;
  sn_list_unspent : result UtxoRpcError (list UnspentInfo);
  sn_set_order : gset UnspentInfo -> list UnspentInfo;
  sn_check_maturity : option Z;
  sn_block_count : result UtxoRpcError Z;
  sn_verbose : gset (list Z) -> result UtxoRpcError (gmap (list Z) VerboseTransactionFrom) }.

Definition rpc_err (e : UtxoRpcError) : string :=
  match e with
  | RpcTransport e | RpcResponseParseError e | RpcInvalidResponse e | RpcInternal e => e
  end.

Definition gen_err (e : GenerateTxError) : string := "generate tx error"%string.

Definition get_unspent_ordered_list (sn : SendNet) (recently_spent : RecentlySpentOutPoints)
  : option (result UtxoRpcError (list UnspentInfo)) :=
  let! all := get_all_unspent_ordered_list (sn_set_order sn) (sn_list_unspent sn) recently_spent in
  Some match sn_check_maturity sn with
       | Some mature_confirmations =>
           let? r := identify_mature_unspents mature_confirmations (sn_block_count sn)
                       (sn_verbose sn) all in
           Ok (only_mature (fst r))
       | None => Ok all
       end.

Section Send.
  Context `{ByteOrder} `{BitCrypto} `{Blake2b} `{Secp256k1} `{ToU64} `{DecimalConv}.
  (* [wallet_connect::sign_p2pkh]: the wallet on the other side signs *)
  Context (wc_sign_p2pkh : TransactionInputSigner -> result string Transaction).

Definition spent_unspent (input : UnsignedTransactionInput) : UnspentInfo :=
  mkUnspent (u_previous_output input) (amount input) None (prev_script input).

Definition sign_with_policy (coin : UtxoCoin) (signature_version : SignatureVersion)
  (unsigned : TransactionInputSigner) : option (result TransactionErr Transaction) :=
  match c_priv_key_policy coin with
  | Iguana activated_key | HDWallet activated_key =>
      r ← sign_tx unsigned activated_key signature_version (c_fork_id coin);
      Some (try_plain (map_err sign_err r))
  | UtxoHtlc.WalletConnect _ => Some (try_plain (wc_sign_p2pkh unsigned))
  | UtxoHtlc.Trezor => Some (Err (Plain "Can't sign tx with trezor"))
  end.

Definition generate_tx (coin : UtxoCoin) (conf : FeeConf) (sn : SendNet)
  (unspents : list UnspentInfo) (required_inputs : option (list UnspentInfo))
  (fee_policy : FeePolicy) (outputs : list TransactionOutput)
  : option (result TransactionErr (Transaction * list UnspentInfo)) :=
  let! my_address := Some (try_plain (sn_address sn)) in
  b ← builder_new coin (Some my_address) (sn_now sn);
  let b := b |> add_available_inputs unspents |> add_outputs outputs |> with_fee_policy fee_policy in
  let b := match required_inputs with Some required => add_required_inputs required b | None => b end in
  r ← build coin conf (sn_build sn) b;
  let! built := Some (map_err (fun e => Plain (gen_err e)) r) in
  let unsigned := fst built in
  let spent_unspents := map spent_unspent (s_inputs unsigned) in
  let signature_version := match a_format my_address with
                           | FormatSegwit => WitnessV0
                           | _ => c_signature_version coin
                           end in
  let! signed := sign_with_policy coin signature_version unsigned in
  Some (Ok (signed, spent_unspents)).

(** The cache after the transaction was sent. *)
Definition generate_and_send_tx (coin : UtxoCoin) (conf : FeeConf) (sn : SendNet)
  (unspents : list UnspentInfo) (required_inputs : option (list UnspentInfo))
  (fee_policy : FeePolicy) (recently_spent : RecentlySpentOutPoints)
  (outs : list TransactionOutput)
  : option (result TransactionErr (Transaction * RecentlySpentOutPoints)) :=
  let! r := generate_tx coin conf sn unspents required_inputs fee_policy outs in
  let '(signed, spent_unspents) := r in
  let! _ := Some (map_err (TxRecoverable signed) (send_transaction (sn_net sn) signed)) in
  Some (Ok (signed, add_spent recently_spent spent_unspents (tx_hash signed) (outputs signed))).

Definition send_outputs_from_my_address (coin : UtxoCoin) (conf : FeeConf) (sn : SendNet)
  (recently_spent : RecentlySpentOutPoints) (outs : list TransactionOutput)
  : option (result TransactionErr (Transaction * RecentlySpentOutPoints)) :=
  let! _ := Some (try_plain (sn_address sn)) in
  r ← get_unspent_ordered_list sn recently_spent;
  let! unspents := Some (try_plain (map_err rpc_err r)) in
  generate_and_send_tx coin conf sn unspents None SendExact recently_spent outs.

Definition send_taker_fee (coin : UtxoCoin) (conf : FeeConf) (sn : SendNet)
  (dex_address burn_address : result string AddressHashEnum)
  (recently_spent : RecentlySpentOutPoints) (dex_fee : DexFee)
  : option (result TransactionErr (Transaction * RecentlySpentOutPoints)) :=
  r ← generate_taker_fee_tx_outputs coin dex_address burn_address dex_fee;
  let! outs := Some (try_plain r) in
  send_outputs_from_my_address coin conf sn recently_spent outs.

(** [send_maker_payment] and the end of [send_taker_payment], which pays the
    total with the watcher's reward. *)
Definition send_payment (coin : UtxoCoin) (conf : FeeConf) (sn : SendNet)
  (recently_spent : RecentlySpentOutPoints) (args : SendPaymentArgs) (amount : BigDecimal)
  : option (result TransactionErr (Transaction * RecentlySpentOutPoints)) :=
  pubkey ← derive_htlc_pubkey coin (sp_swap_unique_data args);
  let! time_lock := Some (try_plain (try_into_u32 (sp_time_lock args))) in
  let! _ := Some (keys_plain (public_from_slice pubkey)) in
  r ← generate_swap_payment_outputs coin time_lock pubkey (sp_other_pubkey args) amount
        (TakerOrMakerPayment (sp_secret_hash args));
  let! res := Some (try_plain r) in
  let! _ := Some (if c_native coin
                  then try_plain (import_address (sn_net sn) (payment_address res)) else Ok tt) in
  send_outputs_from_my_address coin conf sn recently_spent (payment_outputs res).

Definition send_maker_payment (coin : UtxoCoin) (conf : FeeConf) (sn : SendNet)
  (recently_spent : RecentlySpentOutPoints) (args : SendPaymentArgs)
  : option (result TransactionErr (Transaction * RecentlySpentOutPoints)) :=
  send_payment coin conf sn recently_spent args (sp_amount args).

Definition send_taker_payment (coin : UtxoCoin) (conf : FeeConf) (sn : SendNet)
  (recently_spent : RecentlySpentOutPoints) (args : SendPaymentArgs)
  : option (result TransactionErr (Transaction * RecentlySpentOutPoints)) :=
  let total_amount := match sp_watcher_reward args with
                      | Some reward => (sp_amount args + wr_amount reward)%Q
                      | None => sp_amount args
                      end in
  send_payment coin conf sn recently_spent args total_amount.

(** ** The fees of a trade *)

Inductive TradePreimageError : Type :=
| NotSufficientBalance (coin : string) (available required : BigDecimal)
| AmountIsTooSmall (amount threshold : BigDecimal)
| PreimageTransport (e : string)
| PreimageInternal (e : string).

Definition preimage_of_rpc (e : UtxoRpcError) : TradePreimageError :=
  match e with
  | RpcTransport rpc | RpcResponseParseError rpc => PreimageTransport rpc
  | RpcInvalidResponse error => PreimageTransport error
  | RpcInternal error => PreimageInternal error
  end.

Definition from_generate_tx_error (gen_tx_err : GenerateTxError) (coin : string) (decimals : Z)
  (is_upper_bound : bool) : TradePreimageError :=
  let sat z := big_decimal_from_sat_unsigned z decimals in
  match gen_tx_err with
  | EmptyUtxoSet required => NotSufficientBalance coin 0%Q (sat required)
  | EmptyOutputs => PreimageInternal "Couldn't generate tx with empty output set"
  | OutputValueLessThanDust value dust =>
      if is_upper_bound then
        if value =? 0 then NotSufficientBalance coin (sat value) (sat dust)
        else PreimageInternal "Output value (equal to the account balance) less than dust"
      else AmountIsTooSmall (sat value) (sat dust)
  | DeductFeeFromOutputFailed _ output_value required =>
      NotSufficientBalance coin (sat output_value) (sat required)
  | NotEnoughUtxos sum_utxos required => NotSufficientBalance coin (sat sum_utxos) (sat required)
  | GenTransport e => PreimageTransport e
  | GenInternal e => PreimageInternal e
  end.

(** [big_decimal_from_sat(total_fee as i64, ..)]. *)
Definition big_decimal_from_sat (satoshis decimals : Z) : BigDecimal :=
  (inject_Z satoshis / inject_Z (wrap 64 (10 ^ decimals)))%Q.

Definition is_max_stage (stage : FeeApproxStage) : bool :=
  match stage with TradePreimageMax | OrderIssueMax => true | _ => false end.

Definition is_upper_bound (fee_policy : FeePolicy) : bool :=
  match fee_policy with DeductFromOutput _ => true | SendExact => false end.

Definition preimage_trade_fee_required_to_send_outputs (coin : UtxoCoin) (conf : FeeConf)
  (sn : SendNet) (recently_spent : RecentlySpentOutPoints) (ticker : string)
  (outs : list TransactionOutput) (fee_policy : FeePolicy) (gas_fee : option Z)
  (stage : FeeApproxStage) : option (result TradePreimageError BigDecimal) :=
  let decimals := c_decimals coin in
  let! fee_rate := Some (map_err preimage_of_rpc (get_fee_rate conf (sn_build sn))) in
  let! my_address := Some (map_err PreimageInternal (sn_address sn)) in
  let actual_fee_rate :=
    match fee_rate with
    | Dynamic fee_rate =>
        Dynamic (increase_dynamic_fee_by_stage (fc_tx_fee_volatility_percent conf) fee_rate stage)
    | _ => fee_rate
    end in
  r ← get_unspent_ordered_list sn recently_spent;
  let! unspents := Some (map_err preimage_of_rpc r) in
  b ← builder_new coin (Some my_address) (sn_now sn);
  let b := b |> add_available_inputs unspents |> add_outputs outs |> with_fee_policy fee_policy
             |> with_fee actual_fee_rate in
  let b := match gas_fee with Some gas => with_gas_fee gas b | None => b end in
  r ← build coin conf (sn_build sn) b;
  let! built := Some (map_err (fun e => from_generate_tx_error e ticker decimals (is_upper_bound fee_policy)) r) in
  let '(tx, data) := built in
  let total_fee :=
    if (length (s_outputs tx) =? length outs)%nat && is_max_stage stage then
      let tx_size := match fee_rate with
                     | Dynamic _ => 0
                     | _ => Z.of_nat (length (serialize (tx_from_signer tx)))
                     end in
      wrap 64 (fee_amount data + get_tx_fee_for_change actual_fee_rate tx_size)
    else fee_amount data in
  Some (Ok (big_decimal_from_sat (to_signed 64 total_fee) decimals)).

Definition get_sender_trade_fee (coin : UtxoCoin) (conf : FeeConf) (sn : SendNet)
  (recently_spent : RecentlySpentOutPoints) (value : TradePreimageValue) (stage : FeeApproxStage)
  : option (result TradePreimageError TradeFee) :=
  let '(amount, fee_policy) := match value with
                               | UpperBound upper_bound => (upper_bound, DeductFromOutput 0)
                               | Exact amount => (amount, SendExact)
                               end in
  time_lock ← now_sec_u32 (sn_now sn);
  r ← generate_swap_payment_outputs coin time_lock (zeros 33) (zeros 33) amount
        (TakerOrMakerPayment (zeros 20));
  let! res := Some (map_err PreimageInternal r) in
  let! fee_amount := preimage_trade_fee_required_to_send_outputs coin conf sn recently_spent
                       (c_ticker coin) (payment_outputs res) fee_policy None stage in
  Some (Ok (mkTradeFee (c_ticker coin) fee_amount false)).

Definition get_receiver_trade_fee (coin : UtxoCoin) (conf : FeeConf) (n : BuildNet)
  : result TradePreimageError TradeFee :=
  let? amount_sat := map_err preimage_of_rpc
                       (get_htlc_spend_fee coin conf n DEFAULT_SWAP_TX_SPEND_SIZE WithoutApprox) in
  Ok (mkTradeFee (c_ticker coin) (big_decimal_from_sat_unsigned amount_sat (c_decimals coin)) true).

Definition get_fee_to_send_taker_fee (coin : UtxoCoin) (conf : FeeConf) (sn : SendNet)
  (dex_address burn_address : result string AddressHashEnum)
  (recently_spent : RecentlySpentOutPoints) (dex_fee : DexFee) (stage : FeeApproxStage)
  : option (result TradePreimageError TradeFee) :=
  r ← generate_taker_fee_tx_outputs coin dex_address burn_address dex_fee;
  let! outs := Some (map_err PreimageInternal r) in
  let! fee_amount := preimage_trade_fee_required_to_send_outputs coin conf sn recently_spent
                       (c_ticker coin) outs SendExact None stage in
  Some (Ok (mkTradeFee (c_ticker coin) fee_amount false)).
End Send.

(** * What a send takes and makes

    The inputs and outputs of a built and signed transaction, without any bound
    on the amounts, and the list of outputs that a send chooses from. *)

(** ** The list of unspent outputs *)

Lemma unique_by_outpoint_in seen l u : u ∈ unique_by_outpoint seen l -> u ∈ l.
Proof.
  revert seen. induction l as [|v l IH]; intros seen; simpl; [done|]. case_decide.
  - intros Hu. apply elem_of_cons. right. by eapply IH.
  - intros [->|Hu]%elem_of_cons; apply elem_of_cons; [by left|right; by eapply IH].
Qed.

Lemma insert_by_value_in v l u : u ∈ insert_by_value v l <-> u = v \/ u ∈ l.
Proof.
  induction l as [|w l IH]; simpl; [set_solver|]. case_match; rewrite ?elem_of_cons, ?IH; set_solver.
Qed.

Lemma sort_dedup_in l u : u ∈ sort_dedup_unspents l -> u ∈ l.
Proof.
  intros Hu. apply (unique_by_outpoint_in ∅). revert Hu. unfold sort_dedup_unspents.
  induction (unique_by_outpoint ∅ l) as [|v k IH]; [done|]. cbn [foldr]. rewrite insert_by_value_in, elem_of_cons.
  tauto.
Qed.

Lemma identify_loop_mature conf block txs l cache res r :
  identify_loop conf block txs l cache res = Ok r ->
  forall u, u ∈ mature (fst r) -> u ∈ mature res \/ u ∈ l.
Proof.
  revert cache res. induction l as [|v l IH]; intros cache res Hr u Hu; simpl in Hr.
  { simplify_eq. by left. }
  destruct (txs !! _) as [tx|]; [|done]. cbn [ok_or result_bind] in Hr.
  apply IH with (u := u) in Hr; [|done]. destruct (is_unspent_mature _ _); simpl in Hr; set_solver.
Qed.

(** [set_order] lists a set: nothing that is not in it. *)
Definition lists_set (set_order : gset UnspentInfo -> list UnspentInfo) : Prop :=
  forall X u, u ∈ set_order X -> u ∈ X.

(** No output that the cache knows as spent is offered. *)
Lemma unspents_not_cached sn c unspents :
  cache_ok c -> lists_set (sn_set_order sn) -> get_unspent_ordered_list sn c = Some (Ok unspents) ->
  Forall (fun u => ~ is_cached c u) unspents.
Proof.
  intros Hc Ho Hg. unfold get_unspent_ordered_list, get_all_unspent_ordered_list in Hg.
  destruct (sn_list_unspent sn) as [l|]; [|done]. cbn [pbind] in Hg.
  destruct (replace_spent_spec c (list_to_set l) Hc) as (res & Hres & Hin). rewrite Hres in Hg.
  cbn [mbind option_bind pbind] in Hg.
  assert (Hall : forall u, u ∈ sort_dedup_unspents (sn_set_order sn res) -> ~ is_cached c u).
  { intros u Hu%sort_dedup_in%Ho. apply Hin in Hu as [[_ Hu]|(o & Hor & ->)]; [done|].
    apply elem_of_replacements in Hor as (v & os & _ & Hos & Hoo).
    unfold is_cached. rewrite cached_of_cached, (co_live c Hc _ _ _ Hos Hoo). by intros []. }
  apply Forall_forall. intros u Hu. apply Hall. destruct (sn_check_maturity sn) as [conf|]; [|by simplify_eq].
  unfold identify_mature_unspents in Hg. destruct (sn_block_count sn) as [bc|]; [|done].
  cbn [result_bind] in Hg. destruct (sn_verbose sn _) as [txs|]; [|done]. cbn [result_bind] in Hg.
  destruct (identify_loop conf bc txs _ ∅ _) as [r|] eqn:E; [|done]. simplify_eq/=.
  eapply identify_loop_mature in E as [Hf|]; [by apply elem_of_nil in Hf|done|done].
Qed.

(** ** The inputs and outputs of a build *)

Lemma take_available_prefix amount acc l : (take_available amount acc l).1 `prefix_of` l.
Proof.
  revert acc. induction l as [|u l IH]; intros acc; simpl; [done|].
  destruct (amount <=? acc); [apply prefix_nil|]. specialize (IH (wrap 64 (acc + un_value u))).
  destruct (take_available amount _ l). by apply prefix_cons.
Qed.

(** Inputs from what was given, outputs that begin as they were given. *)
Definition built_from (b : UtxoTxBuilder) (script : Script) (tx : TransactionInputSigner) : Prop :=
  (exists taken, taken `prefix_of` t_available_inputs b /\
    s_inputs tx = map unsigned_of_unspent (t_required_inputs b ++ taken)) /\
  (t_fee_policy b = SendExact -> exists tail, s_outputs tx = t_outputs b ++ tail /\
    Forall (fun o => script_pubkey o = script) tail /\ (length tail <= 1)%nat).

Section Built.
  Context `{ByteOrder} `{ToU64}.

Lemma calc_interest_keeps coin n r t t' i :
  calc_interest_if_required coin n r t = Some (Ok (t', i)) ->
  s_inputs t' = s_inputs t /\ s_outputs t' = s_outputs t.
Proof.
  unfold calc_interest_if_required. destruct (supports_interest coin); cbn [negb]; [|by intros [= -> _]].
  destruct (bn_mtp n r); cbn [map_err pbind]; [|done].
  destruct (bn_prev_txs n r _); cbn [map_err pbind]; [|done].
  destruct (sum_interest _ _ _ 0) as [k|]; cbn [pbind]; [|done].
  destruct (k =? 0); [|by intros [= <- _]].
  destruct (now_sec_u32 _); cbn [mbind option_bind]; [|done]. by intros [= <- _].
Qed.

Lemma round_built coin n b format script rate relay r s d s' :
  build_round coin n b format script rate relay r s = Some (Ok (d, s')) -> built_from b script (bs_tx s').
Proof.
  unfold build_round. intros Hr. unfold add_tx_inputs in Hr.
  set (acc := foldl _ 0 (t_required_inputs b)) in Hr.
  pose proof (take_available_prefix (required_amount b (bs_tx_fee_needed s)) acc (t_available_inputs b)) as Hp.
  destruct (take_available _ acc _) as [taken sum]. cbn [fst] in Hp. cbn [add_tx_outputs] in Hr.
  destruct (calc_interest_if_required _ _ _ _) as [[[t1 i]|]|] eqn:Ei; [|done..].
  apply calc_interest_keeps in Ei as [Hin Hout]. simpl in Hin, Hout. cbn [pbind] in Hr.
  destruct (sum <? _); [done|]. destruct (deduct_txfee_from_output _ _ _) as [[[t2 dd]|]|] eqn:Ed; [|done..].
  cbn [pbind] in Hr. destruct (ok_or _ _) as [so|]; cbn [pbind] in Hr; [|done].
  destruct (add_change _ _ _ _) as [t3 ch] eqn:Ea. injection Hr as _ <-. cbn [bs_tx].
  assert (H2 : s_inputs t2 = s_inputs t1 /\ (t_fee_policy b = SendExact -> s_outputs t2 = s_outputs t1)).
  { unfold deduct_txfee_from_output in Ed. destruct (t_fee_policy b) as [|k]; [by simplify_eq|].
    cbn [bs_tx] in Ed. destruct (s_outputs t1 !! k) as [o|]; cbn [mbind option_bind] in Ed; [|done].
    destruct (_ <? _); simplify_eq. by split. }
  assert (H3 : s_inputs t3 = s_inputs t2 /\ exists tail, s_outputs t3 = s_outputs t2 ++ tail /\
             Forall (fun o => script_pubkey o = script) tail /\ (length tail <= 1)%nat).
  { unfold add_change in Ea. cbn [bs_tx bs_sum_inputs bs_sum_outputs bs_tx_fee_needed bs_interest] in Ea.
    repeat (destruct (_ <? _)); simplify_eq; (split; [done|]);
      [exists []; by rewrite app_nil_r; split_and!; [|done|simpl; lia]..|].
    eexists; split_and!; [done|by apply Forall_singleton|simpl; lia]. }
  destruct H2 as [H2 H2'], H3 as (H3 & tail & Ht & Hf & Hl). split.
  - exists taken. split; [done|]. congruence.
  - intros Hpol. exists tail. rewrite Ht, H2', Hout by done. done.
Qed.

Lemma loop_built fuel coin n b format script rate relay r s s' :
  build_loop fuel coin n b format script rate relay r s = Some (Ok s') -> built_from b script (bs_tx s').
Proof.
  revert r s. induction fuel as [|fuel IH]; intros r s Hl; [done|]. cbn [build_loop] in Hl.
  destruct (build_round _ _ _ _ _ _ _ _ _) as [[[d s1]|]|] eqn:Er; [|done..]. cbn [pbind] in Hl.
  destruct d; [|by eapply IH]. simplify_eq. by eapply round_built.
Qed.

Lemma build_built coin conf n b tx data :
  build coin conf n b = Some (Ok (tx, data)) ->
  exists from script, t_from b = Some from /\ output_script (a_script from) = Some (Ok script) /\
    built_from b script tx.
Proof.
  unfold build. destruct (t_from b) as [from|]; cbn [ok_or pbind]; [|done].
  unfold output_script_gen. destruct (output_script (a_script from)) as [[script|]|] eqn:Es; cbn; [|done..].
  destruct (match t_fee b with Some _ => _ | None => _ end) as [rate|]; cbn [pbind]; [|done].
  destruct (is_nil (t_outputs b)); [done|].
  destruct (validate_not_dust coin b) as [[[]|]|]; cbn [pbind]; [|done..].
  destruct (is_nil_both _ _); [done|].
  destruct (get_min_relay_rate coin conf n) as [relay|]; cbn [map_err pbind]; [|done].
  destruct (build_loop _ _ _ _ _ _ _ _ _ _) as [[s|]|] eqn:El; cbn [pbind]; [|done..].
  destruct (tx_fee_fact b s); cbn [pbind]; [|done]. intros [= <- _].
  exists from, script. split_and!; [done..|]. by eapply loop_built.
Qed.
End Built.

(** ** The signed transaction *)

Section Signed.
  Context `{ByteOrder} `{BitCrypto} `{Blake2b} `{Secp256k1} `{ToU64}.
  Context (wc_sign_p2pkh : TransactionInputSigner -> result string Transaction).

Lemma sign_one_output u kp v f i input r :
  s_inputs u !! i = Some input -> sign_one u kp v f i input = Some (Ok r) ->
  previous_output r = u_previous_output input /\ sequence r = u_sequence input.
Proof.
  intros Hi. unfold sign_one, p2wpkh_spend, p2pkh_spend, p2pk_spend, get_input. rewrite Hi.
  cbn [ok_or pbind]. intros Hs.
  destruct (script_type (prev_script input)) as [ty|]; cbn [mbind option_bind] in Hs; [|done].
  repeat match type of Hs with
         | context [pbind ?m _] => destruct m as [[?|]|]; cbn [pbind] in Hs; [|done..]
         | context [if ?c then _ else _] => destruct c; [done|]
         | context [match ?t with PubKey => _ | _ => _ end] => destruct t; try done
         end.
  all: unfold plift, p2pk_spend_with_signature, p2pkh_spend_with_signature, p2wpkh_spend_with_signature in Hs;
    repeat match type of Hs with
           | context [mbind _ ?m] => destruct m; cbn [mbind option_bind] in Hs; [|done]
           end; simplify_eq/=; done.
Qed.

Lemma sign_inputs_outputs u kp v f i ins rs :
  (forall j, ins !! j = s_inputs u !! (i + j)%nat) -> sign_inputs u kp v f i ins = Some (Ok rs) ->
  map previous_output rs = map u_previous_output ins.
Proof.
  revert i rs. induction ins as [|x ins IH]; intros i rs Hi Hs; simpl in Hs; [by simplify_eq|].
  destruct (sign_one u kp v f i x) as [[r|]|] eqn:Es; cbn [pbind] in Hs; [|done..].
  destruct (sign_inputs u kp v f (S i) ins) as [[k|]|] eqn:El; cbn [pbind] in Hs; [|done..].
  simplify_eq. simpl. f_equal.
  - eapply sign_one_output; [|exact Es]. specialize (Hi 0%nat). by rewrite Nat.add_0_r in Hi.
  - apply (IH (S i)); [|done]. intros j. specialize (Hi (S j)). simpl in Hi. rewrite Hi. f_equal. lia.
Qed.

Lemma sign_tx_keeps u kp v f t :
  sign_tx u kp v f = Some (Ok t) ->
  map previous_output (inputs t) = map u_previous_output (s_inputs u) /\ outputs t = s_outputs u.
Proof.
  unfold sign_tx. destruct (sign_inputs u kp v f 0 (s_inputs u)) as [[rs|]|] eqn:E; cbn [pbind]; [|done..].
  intros [= <-]. split; [|done]. by apply (sign_inputs_outputs u kp v f 0).
Qed.

(** The wallet signs with a key of its own. *)
Definition has_key (coin : UtxoCoin) : Prop :=
  match c_priv_key_policy coin with Iguana _ | HDWallet _ => True | _ => False end.

Lemma sign_with_policy_keeps coin v u t :
  has_key coin -> sign_with_policy wc_sign_p2pkh coin v u = Some (Ok t) ->
  map previous_output (inputs t) = map u_previous_output (s_inputs u) /\ outputs t = s_outputs u.
Proof.
  unfold has_key, sign_with_policy. destruct (c_priv_key_policy coin) as [k|k| |]; intros Hk; [| |done|done].
  all: destruct (sign_tx u k v (c_fork_id coin)) as [[t'|]|] eqn:E; [|done..];
    cbn [mbind option_bind]; intros [= <-]; by eapply sign_tx_keeps.
Qed.

(** ** A send *)

(** A send takes some of the offered outputs and makes the given ones, with at
    most one more that pays the change to the wallet. *)
Lemma send_outputs_takes coin conf sn c outs t c' :
  has_key coin -> send_outputs_from_my_address wc_sign_p2pkh coin conf sn c outs = Some (Ok (t, c')) ->
  exists unspents taken tail addr script,
    get_unspent_ordered_list sn c = Some (Ok unspents) /\ taken `prefix_of` unspents /\
    map previous_output (inputs t) = map un_outpoint taken /\
    sn_address sn = Ok addr /\ output_script (a_script addr) = Some (Ok script) /\
    outputs t = outs ++ tail /\ Forall (fun o => script_pubkey o = script) tail /\ (length tail <= 1)%nat /\
    c' = add_spent c (map (fun u => spent_unspent (unsigned_of_unspent u)) taken) (tx_hash t) (outputs t).
Proof.
  intros Hk. unfold send_outputs_from_my_address, generate_and_send_tx, generate_tx.
  destruct (sn_address sn) as [addr|] eqn:Ea; cbn [try_plain map_err pbind]; [|done].
  destruct (get_unspent_ordered_list sn c) as [[unspents|]|] eqn:Eu; [|done..].
  cbn [mbind option_bind map_err try_plain pbind].
  unfold builder_new. destruct (transaction_preimage coin (sn_now sn)) as [tx0|]; cbn [mbind option_bind]; [|done].
  set (b := with_fee_policy SendExact _).
  destruct (build coin conf (sn_build sn) b) as [[[u data]|]|] eqn:Eb; [|done..].
  cbn [mbind option_bind map_err pbind fst].
  destruct (sign_with_policy _ _ _ _) as [[signed|]|] eqn:Es; cbn [pbind]; [|done..].
  destruct (send_transaction _ _); cbn [map_err pbind]; [|done]. intros [= <- <-].
  apply sign_with_policy_keeps in Es as [Hin Hout]; [|done].
  apply build_built in Eb as (from & script & Hf & Hscr & (taken & Hp & Hins) & Hb).
  destruct (Hb eq_refl) as (tail & Ht & Htail). simpl in Hf, Hp, Hins, Ht. simplify_eq.
  exists unspents, taken, tail, from, script. rewrite Hin, Hout, Hins, Ht. split_and!; try done; try apply Htail.
  - rewrite map_map. done.
  - by rewrite map_map.
Qed.
End Signed.

(** ** What the other side validates *)

Section Validated.
  Context `{ByteOrder} `{BitCrypto} `{Blake2b} `{Secp256k1} `{ToU64} `{DecimalConv}.

(** The outputs of [generate_swap_payment_outputs] pass [validate_payment]. *)
Lemma made_payment_valid coin coin' chain tx my_pub other_pub my other amount ty tl res more until :
  generate_swap_payment_outputs coin tl my_pub other_pub amount ty = Some (Ok res) ->
  public_from_slice my_pub = Ok my -> public_from_slice other_pub = Ok other ->
  c_decimals coin' = c_decimals coin -> outputs tx = payment_outputs res ++ more ->
  get_transaction_bytes chain 0 (tx_hash tx) = Ok (serialize tx) ->
  validate_payment coin' chain tx DEFAULT_SWAP_VOUT my other ty amount None tl until 0 = Some (Ok tt).
Proof.
  intros Hg Hmy Hoth Hdec Hout Hbytes. unfold generate_swap_payment_outputs in Hg.
  rewrite Hmy, Hoth in Hg. cbn [map_err pbind] in Hg.
  destruct (redeem_script ty tl my other) as [redeem|] eqn:Er; [|done]. cbn [mbind option_bind] in Hg.
  destruct (sat_from_big_decimal amount (c_decimals coin)) as [sat|] eqn:Es; [|done]. cbn [pbind] in Hg.
  destruct (build_p2sh (AddressHash (dhash160 redeem))) as [htlc|] eqn:Eh; [|done]. cbn [mbind option_bind] in Hg.
  match type of Hg with mbind _ ?m = _ => destruct m as [ret|]; [|done] end.
  injection Hg as <-. cbn [payment_outputs app] in Hout.
  unfold validate_payment. rewrite Hdec, Es. cbn [num_err map_err pbind]. rewrite Er. cbn [mbind option_bind].
  unfold retry_bytes. rewrite Hbytes. cbn [map_err pbind].
  assert (same_tx_bytes tx (serialize tx) = true) as ->.
  { unfold same_tx_bytes. by rewrite bool_decide_eq_true_2. }
  cbn [negb]. rewrite Eh. cbn [mbind option_bind]. rewrite Hout. cbn. rewrite bool_decide_eq_true_2 by done.
  cbn. rewrite Z.eqb_refl. cbn. unfold spv_check. by rewrite andb_false_r.
Qed.
End Validated.
