(* ===== verification/UtxoSpendProps.v ===== *)
(** * What the network makes of the spends of the wallet

    The digests of signatures exist and are made for the transaction that is
    sent, so that a signature of the wallet is accepted; then each spend of a
    payment is followed through the program to the script it has to satisfy. *)

From S2P Require Import Prelude MmNumber Swap SwapV2 Opcode Keys Script ScriptProps Serialization Transaction Sign ScriptEngine HtlcScripts UtxoHtlc UtxoValidate UtxoFee UtxoV2.
Local Open Scope Z_scope.
Local Open Scope result_scope.

Lemma without_separators_some s : is_Some (without_separators s).
Proof.
  unfold without_separators. generalize (length s) at 1 as fuel, 0%nat as pc, (@nil Z) as r.
  induction fuel as [|fuel IH]; intros pc r; cbn [without_separators_loop]; [eauto|].
  destruct (pc <? length s)%nat eqn:E; [|eauto]. apply Nat.ltb_lt in E.
  destruct (get_instruction_at_some s pc E) as [[x|e] ->]; simpl; auto.
Qed.

(** ** Digests *)

Section Digest.
  Context `{ByteOrder} `{BitCrypto} `{Blake2b}.

Lemma h256_from_u8_length v : length (h256_from_u8 v) = 32%nat.
Proof. done. Qed.

Lemma witness0_some s i a code ty sh :
  (i < length (s_inputs s))%nat ->
  exists h, signature_hash_witness0 s i a code ty sh = Some h /\ length h = 32%nat.
Proof.
  intros Hi. unfold signature_hash_witness0.
  destruct (lookup_lt_is_Some_2 (s_inputs s) i Hi) as [x ->]. simpl.
  eexists; split; [done|apply dhash256_length].
Qed.

Lemma original_some s i code ty sh :
  (i < length (s_inputs s))%nat ->
  exists h, signature_hash_original s i code ty sh = Some h /\ length h = 32%nat.
Proof.
  intros Hi. unfold signature_hash_original, signature_hash_overwintered, original_inputs.
  destruct (lookup_lt_is_Some_2 (s_inputs s) i Hi) as [x ->].
  destruct (without_separators_some code) as [c ->].
  repeat case_match; simplify_eq/=; eexists; (split; [done|]);
    rewrite ?blake_length, ?dhash256_length, ?sha256_length; done.
Qed.

Lemma signature_hash_some s i a code v ty :
  (i < length (s_inputs s))%nat ->
  exists h, signature_hash s i a code v ty = Some h /\ length h = 32%nat.
Proof.
  intros Hi. unfold signature_hash, signature_hash_fork_id, signature_hash_fork_id_rxd.
  destruct (lookup_lt_is_Some_2 (s_inputs s) i Hi) as [x Hx]. rewrite Hx.
  destruct v; try case_match; rewrite ?(proj2 (Nat.leb_gt _ _) Hi);
    try (destruct (single_out_of_range _ _ _); [by eexists|]);
    eauto using original_some, witness0_some.
  simpl. eexists; split; [done|apply dhash256_length].
Qed.

(** A signature of one output stays when outputs are added after it. *)
Lemma single_add_output s o i a code v ty :
  (i < length (s_outputs s))%nat -> base (sighash_from_u32 v ty) = SB_Single ->
  signature_hash (add_output s o) i a code v ty = signature_hash s i a code v ty.
Proof.
  intros Hi Hb.
  assert (Ho : (s_outputs s ++ [o]) !! i = s_outputs s !! i) by (by apply lookup_app_l).
  assert (Ht : take (i + 1) (s_outputs s ++ [o]) = take (i + 1) (s_outputs s)).
  { rewrite take_app. replace (i + 1 - length (s_outputs s))%nat with 0%nat by lia.
    by rewrite app_nil_r. }
  assert (Hr : single_out_of_range (add_output s o) i (sighash_from_u32 v ty) =
               single_out_of_range s i (sighash_from_u32 v ty)).
  { unfold single_out_of_range. simpl. rewrite length_app. f_equal.
    rewrite !(proj2 (Nat.leb_gt _ _)); simpl; lia. }
  assert (Hl : (i <? length (s_outputs s ++ [o]))%nat = (i <? length (s_outputs s))%nat).
  { rewrite length_app, !(proj2 (Nat.ltb_lt _ _)); simpl; lia. }
  unfold signature_hash, signature_hash_fork_id, signature_hash_fork_id_rxd,
    signature_hash_original, signature_hash_witness0, signature_hash_overwintered,
    compute_hash_outputs, compute_hash_output_hashes_rxd, original_outputs, original_tx,
    original_inputs.
  rewrite Hr, Hb. cbn [s_outputs add_output s_inputs s_version s_overwintered].
  rewrite Ho, Ht, Hl. destruct v; reflexivity.
Qed.
End Digest.

(** ** Signatures of the wallet *)

Section Sigs.
  Context `{ByteOrder} `{BitCrypto} `{Blake2b} `{!Secp256k1} `{!ScriptEngine}.

(** The checker of a node for an input that spends an output of value [a]. *)
Definition checker_of (s : TransactionInputSigner) (i : nat) (a : Z) : SignatureChecker :=
  tx_signature_checker (mkTxChecker s i a).

(** A signature of [kp] over [m]: what the network checks of it. *)
Definition signs (kp : KeyPair) (m sig : list Z) : Prop :=
  exists msg sk, sig = sig_serialize_der (secp_sign_low_r msg sk) /\
    public_verify (public kp) m sig = Ok true.

Lemma sign_message_ok kp p m :
  from_private p = Ok kp -> length m = 32%nat ->
  exists sig, sign_message m kp = Ok sig /\ signs kp m sig.
Proof.
  intros Hk Hm. destruct (sign_low_r_ok kp p m Hk Hm) as (sig & Hs & Hv & _).
  exists sig. unfold sign_message. rewrite Hs. split; [done|].
  unfold sign_low_r in Hs. inv_ok. eexists _, _. split; [done|].
  done.
Qed.

Lemma calc_and_sign_ok s i x code kp p v ty fork :
  s_inputs s !! i = Some x -> from_private p = Ok kp ->
  exists h sig, calc_and_sign_sighash s i code kp v ty fork = Some (Ok sig) /\
    signature_hash s i (amount x) code v (Z.lor ty fork) = Some h /\ signs kp h sig.
Proof.
  intros Hx Hk. unfold calc_and_sign_sighash, signature_hash_to_sign, get_input. rewrite Hx. simpl.
  destruct (signature_hash_some s i (amount x) code v (Z.lor ty fork)) as (h & -> & Hh).
  { by eapply lookup_lt_Some. }
  destruct (sign_message_ok kp p h Hk Hh) as (sig & Hs & Hsig). simpl. rewrite Hs. eauto 6.
Qed.

(** A signature over the digest that the node computes is accepted. *)
Lemma check_sig_signed s i a code kp v ty h sig :
  signature_hash s i a code v ty = Some h -> signs kp h sig -> public_ok (public kp) ->
  sighash_is_defined v ty = true -> sig ++ [ty] ∉ pushed_data code ->
  check_sig (checker_of s i a) v code (sig ++ [ty]) (pub_bytes (public kp)) = Some true.
Proof.
  intros Hh (msg & sk & -> & Hv) Hp Hd Hn. apply check_sig_complete; try done.
  simpl. unfold tx_check_signature. simpl. by rewrite Hh; simpl; rewrite Hv.
Qed.
End Sigs.

(** ** The transaction that the network sees *)

(** What a node checks the signatures of a transaction against: the values come
    from the outputs that are spent, the branch from the rules of the chain. *)
Definition net_signer (branch : Z) (amounts : list Z) (t : Transaction) : TransactionInputSigner :=
  let s := signer_from_tx t in
  set_signer_inputs s branch (zip_with set_input_amount (s_inputs s) amounts).

Section Net.
  Context `{ByteOrder} `{BitCrypto} `{Blake2b} `{!Secp256k1} `{!ScriptEngine}.

(** Input [idx] of [t] may spend its output, which pays to the script hash
    [hash]; [amounts] are the values of the outputs that [t] spends. *)
Definition input_accepted (coin : UtxoCoin) (t : Transaction) (amounts : list Z) (idx : nat)
  (hash : list Z) : bool :=
  match inputs t !! idx, amounts !! idx with
  | Some i, Some a =>
      p2sh_accepts (checker_of (net_signer (c_consensus_branch_id coin) amounts t) idx a)
        (c_signature_version coin) hash (script_sig i)
  | _, _ => false
  end.
End Net.

(** Nothing in the signer that [complete_tx] leaves out. *)
Definition transparent (u : TransactionInputSigner) : Prop :=
  s_value_balance u = 0 /\ s_join_splits u = [] /\ s_shielded_spends u = [] /\
  s_shielded_outputs u = [] /\ s_v_extra_payload u = None.

Lemma hash_algo_back h : signer_hash_algo (tx_hash_algo_of h) = h.
Proof. by destruct h. Qed.

Lemma net_signer_complete u i a :
  transparent u -> s_inputs u = [set_input_amount (unsigned_from_input i) a] ->
  net_signer (consensus_branch_id u) [a] (complete_tx u [i]) = u.
Proof.
  destruct u. unfold transparent, net_signer, set_signer_inputs. simpl.
  intros (-> & -> & -> & -> & ->) ->. by rewrite hash_algo_back.
Qed.

Lemma set_input_amount_self x : set_input_amount x (amount x) = x.
Proof. by destruct x. Qed.

Section Spend.
  Context `{ByteOrder} `{BitCrypto} `{Blake2b} `{!Secp256k1} `{!ScriptEngine}.

Lemma p2sh_preimage_ok coin n prev o lk lock nt seq outs :
  first_output prev = Ok o ->
  match lk with CalcByHtlcLocktime l => p2sh_tx_locktime n (c_ticker coin) l | UseExactLock l => Ok l end = Ok lock ->
  exists u, p2sh_spending_tx_preimage coin n prev lk nt seq outs = Ok u /\
    s_inputs u = [mkUnsignedInput (mkOutPoint (tx_hash prev) 0) [] seq (out_value o)] /\
    s_outputs u = outs /\ s_lock_time u = lock /\
    consensus_branch_id u = c_consensus_branch_id coin /\ transparent u.
Proof.
  intros Ho Hl. unfold p2sh_spending_tx_preimage. rewrite Ho. simpl. rewrite Hl. simpl.
  eexists; split; [done|]. done.
Qed.

(** The script that spends: the signature, the data, the script spent. *)
Lemma p2sh_spend_ok u x kp p acts script_data redeem v fork :
  s_inputs u = [x] -> from_private p = Ok kp -> Forall action_ok acts ->
  build acts = Some script_data -> (length redeem <= 520)%nat ->
  exists sig h ss,
    p2sh_spend u 0 kp script_data redeem v fork =
      Some (Ok (mkTransactionInput (u_previous_output x) ss (u_sequence x) [])) /\
    build ((AData (sig_script sig fork) :: acts) ++ [AData redeem]) = Some ss /\
    signature_hash u 0 (amount x) redeem v (Z.lor SIGHASH_ALL fork) = Some h /\ signs kp h sig.
Proof.
  intros Hx Hk Ha Hb Hr. assert (Hx0 : s_inputs u !! 0%nat = Some x) by (by rewrite Hx).
  destruct (calc_and_sign_ok u 0 x redeem kp p v SIGHASH_ALL fork Hx0 Hk) as (h & sig & Hc & Hh & Hs).
  assert (Hl : action_ok (AData (sig_script sig fork))).
  { destruct Hs as (msg & sk & -> & _). pose proof (sig_der_length msg sk).
    simpl. unfold sig_script. rewrite length_app. simpl. lia. }
  assert (Hrd : action_ok (AData redeem)) by (simpl; lia).
  exists sig, h. unfold p2sh_spend, get_input. rewrite Hx0. simpl pbind. rewrite Hc. simpl pbind.
  unfold p2sh_spend_with_signature, plift.
  change (push_data (sig_script sig fork) builder_default) with (build [AData (sig_script sig fork)]).
  change (push_data redeem builder_default) with (build [AData redeem]).
  revert Hb. unfold build, builder_default. rewrite !build_app; try (by constructor); try done.
  2: { apply Forall_app; split; [by constructor|by constructor]. }
  intros [= <-]. simpl. eexists; split_and!; [done| |done|done].
  rewrite !map_app, !concat_app. simpl. rewrite !app_nil_r, <- app_assoc. f_equal. f_equal.
  destruct (concat _); simpl; by rewrite <- ?app_assoc, ?app_nil_r.
Qed.
End Spend.

(** ** Sizes of the scripts *)

Definition hash_short (sh : list Z) : Prop := length sh = 20%nat \/ length sh = 32%nat.

Definition tx_type_short (self : SwapTxTypeWithSecretHash) : Prop :=
  match self with
  | TakerOrMakerPayment sh | TakerFundingType sh | TakerPaymentV2 sh _ => hash_short sh
  | MakerPaymentV2 msh tsh => hash_short msh /\ hash_short tsh
  end.

Lemma tx_type_short_fits self : tx_type_short self -> tx_type_fits self.
Proof.
  unfold tx_type_short, tx_type_fits, hash_short, hash_fits.
  destruct self; intros Hs; try split; lia.
Qed.

Definition action_size (a : Action) : nat :=
  match a with AOp _ => 1 | AData d => 5 + length d end.

Lemma encode_size a : (length (encode (action_instr a)) <= action_size a)%nat.
Proof.
  destruct a as [o|d]; unfold encode, action_instr.
  { destruct o; simpl; lia. }
  cbn [opcode data length action_size]. rewrite length_app, le_split_length.
  unfold len_width. case_match; lia.
Qed.

Lemma build_size acts s :
  Forall action_ok acts -> build acts = Some s ->
  (length s <= sum_list (map action_size acts))%nat.
Proof.
  intros Ha. unfold build, builder_default. rewrite build_app by done. intros [= <-]. simpl. clear Ha.
  induction acts as [|a acts IH]; [done|]. cbn [map concat sum_list]. rewrite length_app.
  cbn [map sum_list_with]. unfold id at 1. pose proof (encode_size a). lia.
Qed.

Section Size.
  Context `{BitCrypto}.

Lemma script_hash_length sh : hash_short sh -> length (script_secret_hash sh) = 20%nat.
Proof.
  unfold hash_short, script_secret_hash. intros [Hl|Hl]; rewrite Hl; simpl; [done|apply ripemd160_length].
Qed.

Lemma redeem_size self tl my other redeem :
  tx_type_short self -> public_ok my -> public_ok other ->
  redeem_script self tl my other = Some redeem -> (length redeem <= 520)%nat.
Proof.
  intros Hs Hm Ho Hr. rewrite redeem_script_acts in Hr.
  etransitivity; [eapply build_size; [|done]|].
  { apply redeem_acts_ok; auto using tx_type_short_fits. }
  pose proof (pub_bytes_length my Hm). pose proof (pub_bytes_length other Ho).
  destruct self; cbn [tx_type_short redeem_acts] in *; try destruct Hs as [Hs Ht];
    unfold payment_acts, taker_funding_acts, taker_payment_acts, maker_payment_acts, if_acts,
      refund_acts, hash_acts, sig_acts, sigverify_acts;
    cbn [app map sum_list_with]; unfold id, action_size;
    rewrite ?script_hash_length, ?le_split_length by done; simpl; lia.
Qed.
End Size.

(** ** Spending a payment with a key pair *)

Section Htlc.
  Context `{ByteOrder} `{BitCrypto} `{Blake2b} `{!Secp256k1} `{!ScriptEngine}.
  Context (wc : TransactionInputSigner -> Transaction -> Script -> Script -> result string Transaction).

Lemma redeem_accepts self tl my other redeem ck sv st :
  tx_type_fits self -> public_ok my -> public_ok other ->
  redeem_script self tl my other = Some redeem ->
  top_true (eval_script ck sv redeem st) =
    existsb (fun p => path_ok ck sv redeem p st) (policy self tl my other).
Proof.
  intros Hs Hm Ho Hr. rewrite <- redeem_fun_policy. f_equal.
  rewrite redeem_script_acts in Hr.
  eapply eval_block; [|done|]; [by apply redeem_acts_ok|by apply redeem_block].
Qed.

(** The fork id of a coin is the bit of the hash types of forked chains. *)
Definition coin_signs (coin : UtxoCoin) : Prop :=
  c_fork_id coin = if is_fork_version (c_signature_version coin) then 0x40 else 0.

Lemma coin_signs_all coin : coin_signs coin ->
  0 <= c_fork_id coin < 256 /\
  sighash_is_defined (c_signature_version coin) (Z.lor SIGHASH_ALL (c_fork_id coin)) = true.
Proof. unfold coin_signs. by destruct (c_signature_version coin); intros ->. Qed.

(** A spend [t] that [kp] has signed: the network accepts what the script
    accepts, and the signature is good. *)
Definition spent_with (coin : UtxoCoin) (value : Z) (t : Transaction)
  (redeem : Script) (kp : KeyPair) (acts : list Action) (sig : list Z) (u : TransactionInputSigner)
  : Prop :=
  input_accepted coin t [value] 0 (dhash160 redeem) =
    top_true (eval_script (checker_of u 0 value) (c_signature_version coin) redeem
                (rev (map pushed acts) ++ [sig])) /\
  (sig ∉ pushed_data redeem ->
   check_sig (checker_of u 0 value) (c_signature_version coin) redeem sig
     (pub_bytes (public kp)) = Some true).

Lemma sig_script_all coin sig : coin_signs coin ->
  sig_script sig (c_fork_id coin) = sig ++ [Z.lor SIGHASH_ALL (c_fork_id coin)].
Proof. intros [Hf _]%coin_signs_all. unfold sig_script. by rewrite wrap_id. Qed.

Lemma signs_length kp h sig : signs kp h sig -> (8 <= length sig <= 72)%nat.
Proof. intros (msg & sk & -> & _). apply sig_der_length. Qed.

Lemma complete_accepted coin u x kp p acts script_data redeem value :
  coin_signs coin -> transparent u -> consensus_branch_id u = c_consensus_branch_id coin ->
  s_inputs u = [x] -> prev_script x = [] -> amount x = value ->
  from_private p = Ok kp -> Forall push_action acts -> build acts = Some script_data ->
  (length redeem <= 520)%nat ->
  exists i sig, p2sh_spend u 0 kp script_data redeem (c_signature_version coin) (c_fork_id coin)
      = Some (Ok i) /\ previous_output i = u_previous_output x /\ sequence i = u_sequence x /\
    spent_with coin value (complete_tx u [i]) redeem kp acts sig u.
Proof.
  intros Hc Ht Hb Hx Hps Hv Hk Ha Hd Hr.
  assert (Hok : Forall action_ok acts).
  { eapply Forall_impl; [exact Ha|]. by intros a (? & ?)%push_action_ok. }
  destruct (p2sh_spend_ok u x kp p acts script_data redeem (c_signature_version coin)
              (c_fork_id coin) Hx Hk Hok Hd Hr) as (sig & h & ss & Hsp & Hss & Hh & Hsig).
  eexists _, (sig_script sig (c_fork_id coin)). split; [exact Hsp|].
  split_and!; [done|done|]. unfold spent_with, input_accepted. cbn [inputs complete_tx script_sig lookup list_lookup].
  rewrite <- Hb, net_signer_complete; [|done|].
  2: { rewrite Hx. f_equal. destruct x; simpl in *. by subst. }
  split.
  - rewrite (p2sh_build _ _ _ (AData (sig_script sig (c_fork_id coin)) :: acts) redeem); try done.
    + by rewrite bool_decide_eq_true_2.
    + constructor; [|done]. pose proof (signs_length _ _ _ Hsig). simpl. unfold sig_script.
      rewrite length_app. simpl. lia.
  - rewrite sig_script_all by done. intros Hn. rewrite <- Hv.
    eapply check_sig_signed; [rewrite <- Hh; by subst|done|by eapply from_private_public_ok|by apply coin_signs_all|done].
Qed.

Lemma htlc_spend_ok coin n stage addr prev o redeem acts dat seq tl lock kp p fee script :
  coin_signs coin -> first_output prev = Ok o -> htlc_spend_fee n stage = Ok fee ->
  fee < out_value o -> output_script addr = Some (Ok script) ->
  p2sh_tx_locktime n (c_ticker coin) tl = Ok lock -> from_private p = Ok kp ->
  Forall push_action acts -> build acts = Some dat -> (length redeem <= 520)%nat ->
  exists t sig u, htlc_spend wc coin n stage addr prev redeem dat seq tl
      (Some (Ok (SignerKeyPair kp))) = Some (Ok t) /\
    map (fun i => (previous_output i, sequence i)) (inputs t) = [(mkOutPoint (tx_hash prev) 0, seq)] /\
    outputs t = [mkTransactionOutput (out_value o - fee) script] /\
    s_lock_time u = lock /\ map u_sequence (s_inputs u) = [seq] /\
    spent_with coin (out_value o) t redeem kp acts sig u.
Proof.
  intros Hc Ho Hf Hlt Hs Hl Hk Ha Hd Hr.
  destruct (p2sh_preimage_ok coin n prev o (CalcByHtlcLocktime tl) lock UseNow seq
              [mkTransactionOutput (out_value o - fee) script] Ho Hl)
    as (u & Hu & Hin & Hout & Hlk & Hb & Ht).
  destruct (complete_accepted coin u _ kp p acts dat redeem (out_value o) Hc Ht Hb Hin
              eq_refl eq_refl Hk Ha Hd Hr) as (i & sig & Hi & Hpo & Hse & Hsp).
  exists (complete_tx u [i]), sig, u. unfold htlc_spend. rewrite Ho, Hf. simpl.
  rewrite (proj2 (Z.leb_gt _ _) Hlt). unfold output_script_plain. rewrite Hs. simpl.
  unfold p2sh_spending_tx. cbn [prev_transaction p_lock_time p_sequence p_outputs p_signer script_data p_redeem_script].
  rewrite Hu. simpl pbind. unfold DEFAULT_SWAP_VIN. rewrite Hi. simpl.
  split_and!; [done| |by rewrite Hout|done|by rewrite Hin|apply Hsp].
  by rewrite Hpo, Hse.
Qed.
End Htlc.

(** ** Lock times in scripts

    A script number of four bytes is signed. *)

Lemma num_from_slice_minimal d m n :
  num_from_slice d true m = Ok n -> num_from_slice d false m = Ok n.
Proof. unfold num_from_slice. repeat case_match; simpl in *; done. Qed.

Lemma num_from_slice_any d rm m n :
  num_from_slice d rm m = Ok n -> num_from_slice d false m = Ok n.
Proof. destruct rm; [apply num_from_slice_minimal|done]. Qed.

Lemma le_split_4 z : 0 <= z < 2 ^ 32 ->
  le_split 4 z = le_split 3 z ++ [z / 2 ^ 24] /\ le_combine (le_split 3 z) = z mod 2 ^ 24.
Proof.
  intros Hz. split.
  - cbn [le_split app]. do 3 f_equal. rewrite !Z.div_div by lia.
    rewrite Z.mod_small; [done|]. split; [apply Z.div_pos; lia|apply Z.div_lt_upper_bound; lia].
  - cbn [le_split le_combine]. pose proof (Z.div_mod z 256). pose proof (Z.div_mod (z / 256) 256).
    pose proof (Z.div_mod (z / 256 / 256) 256). change (2 ^ 24) with (256 * (256 * 256)).
    rewrite !Z.rem_mul_r by lia. rewrite !Z.div_div by lia. lia.
Qed.

(** Its value; from 2^31 on it is taken for a negative number. *)
Lemma lock_time_num z : 0 <= z < 2 ^ 32 ->
  num_from_slice (le_split 4 z) false 5 = Ok (num_from (if z <? 2 ^ 31 then z else 2 ^ 31 - z)).
Proof.
  intros Hz. destruct (le_split_4 z Hz) as [-> Hc].
  pose proof (Z.div_pos z (2 ^ 24)). assert (z / 2 ^ 24 < 256) by (apply Z.div_lt_upper_bound; lia).
  rewrite num_from_slice_snoc; [|apply le_split_ok|lia|rewrite le_split_length; lia..|done].
  rewrite Hc, le_split_length. pose proof (Z.div_mod z (2 ^ 24) ltac:(lia)).
  pose proof (Z.mod_pos_bound z (2 ^ 24) ltac:(lia)).
  change (256 ^ Z.of_nat 3) with (2 ^ 24). change (2 ^ 24) with 16777216 in *. do 2 f_equal.
  destruct (128 <=? z / 16777216) eqn:E1; destruct (z <? 2 ^ 31) eqn:E2; lia.
Qed.

Lemma lock_time_num_strict z rm : 2 ^ 24 <= z < 2 ^ 31 ->
  num_from_slice (le_split 4 z) rm 5 = Ok (num_from z).
Proof.
  intros Hz. destruct (le_split_4 z) as [-> Hc]; [lia|].
  assert (1 <= z / 2 ^ 24) by (apply Z.div_le_lower_bound; lia).
  assert (z / 2 ^ 24 < 128) by (apply Z.div_lt_upper_bound; lia).
  rewrite num_from_slice_snoc; [|apply le_split_ok|lia|rewrite le_split_length; lia..|].
  - rewrite Hc, le_split_length. pose proof (Z.div_mod z (2 ^ 24) ltac:(lia)).
    pose proof (Z.mod_pos_bound z (2 ^ 24) ltac:(lia)).
    change (256 ^ Z.of_nat 3) with (2 ^ 24). change (2 ^ 24) with 16777216 in *. do 2 f_equal.
    destruct (128 <=? z / 16777216) eqn:E1; lia.
  - intros _. rewrite Z.mod_small; lia.
Qed.

Section Cltv.
  Context `{ByteOrder} `{BitCrypto} `{Blake2b} `{!Secp256k1} `{!ScriptEngine}.

Lemma cltv_ok_late ck tl : 2 ^ 31 < tl < 2 ^ 32 -> cltv_ok ck tl = false.
Proof.
  intros Ht. unfold cltv_ok. destruct (num_from_slice _ _ _) as [n|] eqn:E; [|done].
  apply num_from_slice_any in E. rewrite lock_time_num in E by lia.
  destruct (tl <? 2 ^ 31) eqn:E2; [lia|]. injection E as <-.
  unfold num_is_negative. simpl value. destruct (_ <? 0) eqn:E3; [done|lia].
Qed.

Lemma cltv_ok_reached u value tl :
  LOCKTIME_THRESHOLD <= tl < 2 ^ 31 -> tl <= s_lock_time u ->
  map u_sequence (s_inputs u) = [SEQUENCE_FINAL - 1] ->
  cltv_ok (checker_of u 0 value) tl = true.
Proof.
  unfold LOCKTIME_THRESHOLD. intros Ht Hl Hs. unfold cltv_ok.
  rewrite lock_time_num_strict by lia. unfold num_is_negative. cbn [Script.value num_from].
  rewrite (proj2 (Z.ltb_ge _ _)) by lia. apply bool_decide_eq_true_2.
  simpl. unfold tx_check_lock_time. cbn [signer input_index].
  unfold num_to_u32. cbn [Script.value num_from]. unfold LOCKTIME_THRESHOLD.
  rewrite wrap_id by (unfold is_uint; lia).
  rewrite (proj2 (Z.leb_le 500000000 (s_lock_time u))) by lia.
  rewrite (proj2 (Z.ltb_ge tl 500000000)) by lia.
  rewrite (proj2 (Z.ltb_ge (s_lock_time u) 500000000)) by lia. simpl.
  rewrite Z.gtb_ltb, (proj2 (Z.ltb_ge (s_lock_time u) tl)) by lia.
  destruct (s_inputs u) as [|x l]; [done|]. injection Hs as Hs _. simpl. by rewrite Hs.
Qed.

Lemma p2sh_tx_locktime_ge n ticker tl lock : p2sh_tx_locktime n ticker tl = Ok lock -> tl <= lock.
Proof. unfold p2sh_tx_locktime. intros. inv_ok. lia. Qed.
End Cltv.
