(* ===== verification/UtxoReadProps.v ===== *)
(** * What an accepted spend shows

    The other direction: what has to be true of a transaction that the network
    lets spend a payment, and what the program reads out of it. *)

From S2P Require Import Prelude MmNumber Swap SwapV2 Opcode Keys Script ScriptProps Serialization Transaction Sign ScriptEngine HtlcScripts UtxoHtlc UtxoValidate UtxoFee UtxoSpendProps.
Local Open Scope Z_scope.
Local Open Scope result_scope.

Section Read.
  Context `{ByteOrder} `{BitCrypto} `{Blake2b} `{!Secp256k1} `{!ScriptEngine}.

Lemma mapM_instructions ins :
  mapM (ok_instruction (E:=Script.Error)) (map Ok ins) = Some ins.
Proof. by induction ins as [|i ins IH]; [|simpl; rewrite IH]. Qed.

(** The pushes of a spend. *)
Definition pushed_by (ins : list Instruction) (v : list Z) : Prop :=
  (length v <= 1)%nat \/ exists i, i ∈ ins /\ data i = Some v.

Lemma p2sh_accepts_inv ck sv hash ss :
  p2sh_accepts ck sv hash ss = true ->
  exists ins redeem st, iter ss = Some (map Ok ins) /\ dhash160 redeem = hash /\
    Forall (pushed_by ins) st /\ top_true (eval_script ck sv redeem st) = true.
Proof.
  unfold p2sh_accepts. destruct (is_push_only ss) as [[]|] eqn:Ep; try done.
  destruct (eval_script ck sv ss []) as [[|redeem st]|] eqn:Ee; try done.
  intros [Hh%bool_decide_eq_true Ht]%andb_true_iff.
  unfold eval_script in Ee. destruct (iter ss) as [l|] eqn:Ei; [|done].
  destruct (push_only_iter ss l Ep Ei) as (ins & -> & Hi). simpl in Ee.
  rewrite mapM_instructions in Ee. simpl in Ee.
  destruct (run ck sv ss ins (mkEval [] [])) as [st'|] eqn:Er; [|done].
  destruct (run_pushes _ _ _ _ _ _ Hi Er) as (st2 & -> & Hst). simpl in Ee. injection Ee as Ee.
  rewrite app_nil_r in Ee. subst. inversion Hst; subst. exists ins, redeem, st. done.
Qed.

(** A valid signature of [k] over a digest of the transaction. *)
Definition signed_by (s : TransactionInputSigner) (idx : nat) (a : Z) (sv : SignatureVersion)
  (k : Public) : Prop :=
  exists sig ht code h, signature_hash s idx a code sv ht = Some h /\ public_verify k h sig = Ok true.

Lemma sig_ok_signed s idx a sv code k sig : public_ok k ->
  sig_ok (checker_of s idx a) sv code (pub_bytes k) sig = true -> signed_by s idx a sv k.
Proof.
  intros Hk Hs%bool_decide_eq_true. apply check_sig_sound in Hs as (s' & ht & p & code' & _ & Hp & Hc & _).
  rewrite public_from_slice_bytes in Hp by done. injection Hp as <-.
  simpl in Hc. unfold tx_check_signature in Hc. simpl in Hc.
  destruct (signature_hash s idx a code' sv ht) as [h|] eqn:E; [|done]. simpl in Hc.
  exists s', ht, code', h. split; [done|]. by destruct (public_verify k h s') as [[]|].
Qed.

Lemma sigs_ok_signed s idx a sv code ks st : Forall public_ok ks ->
  sigs_ok (checker_of s idx a) sv code ks st = true -> Forall (signed_by s idx a sv) ks.
Proof.
  intros Hk. revert st. induction Hk as [|k ks Hk _ IH]; intros st; [by constructor|].
  destruct st as [|sig st]; [done|]. cbn [sigs_ok]. intros [Hs Hr]%andb_true_iff.
  constructor; [by eapply sig_ok_signed|by eapply IH].
Qed.

Lemma cltv_ok_inv s idx a tl : 0 <= tl < 2 ^ 31 ->
  cltv_ok (checker_of s idx a) tl = true ->
  tl <= s_lock_time s /\ exists i, s_inputs s !! idx = Some i /\ u_sequence i <> SEQUENCE_FINAL.
Proof.
  intros Ht. unfold cltv_ok. destruct (num_from_slice _ _ _) as [n|] eqn:E; [|done].
  apply num_from_slice_any in E. rewrite lock_time_num in E by lia.
  rewrite (proj2 (Z.ltb_lt _ _)) in E by lia. injection E as <-.
  intros [_ Hc%bool_decide_eq_true]%andb_true_iff. simpl in Hc. unfold tx_check_lock_time in Hc.
  cbn [signer input_index Script.value num_from] in Hc. case_match; [done|]. case_match; [done|].
  destruct (s_inputs s !! idx) as [i|]; [|done]. simpl in Hc. injection Hc as Hc.
  split; [rewrite Z.gtb_ltb in *; lia|]. exists i. split; [done|]. intros Hx. by rewrite Hx in Hc.
Qed.

(** The conditions of a way to spend, for input [idx] of a transaction. *)
Definition path_taken (s : TransactionInputSigner) (idx : nat) (a : Z) (sv : SignatureVersion)
  (ins : list Instruction) (p : Path) : Prop :=
  (forall tl, after p = Some tl -> tl <= s_lock_time s /\
     exists i, s_inputs s !! idx = Some i /\ u_sequence i <> SEQUENCE_FINAL) /\
  (forall hash, secret_of p = Some hash -> exists i secret,
     i ∈ ins /\ data i = Some secret /\ length secret = 32%nat /\ dhash160 secret = hash) /\
  Forall (signed_by s idx a sv) (signers p).

Lemma take_selectors_suffix (P : list Z -> Prop) sel st st' :
  take_selectors sel st = Some st' -> Forall P st -> Forall P st'.
Proof.
  revert st. induction sel as [|b sel IH]; intros st; simpl; [by intros [= ->]|].
  destruct st as [|v st]; [done|]. destruct (Bool.eqb _ b); [|done].
  intros Ht Hf. inversion Hf; subst. eauto.
Qed.

Lemma path_ok_taken s idx a sv code ins p st :
  Forall public_ok (signers p) -> (forall tl, after p = Some tl -> 0 <= tl < 2 ^ 31) ->
  Forall (pushed_by ins) st ->
  path_ok (checker_of s idx a) sv code p st = true -> path_taken s idx a sv ins p.
Proof.
  intros Hk Hl Hp. unfold path_ok. destruct (take_selectors (selector p) st) as [st'|] eqn:E; [|done].
  pose proof (take_selectors_suffix _ _ _ _ E Hp) as Hp'. intros [Hlk Hs]%andb_true_iff.
  unfold secret_sigs_ok in Hs. split_and!.
  - intros tl Ht. rewrite Ht in Hlk. by apply cltv_ok_inv in Hlk; [|apply Hl].
  - intros hash Hh. rewrite Hh in Hs. destruct st' as [|secret st']; [done|].
    apply andb_true_iff in Hs as [[Hlen Hhash]%bool_decide_eq_true _].
    inversion Hp' as [|? ? [?|(i & ? & ?)] ?]; subst; [lia|]. by exists i, secret.
  - destruct (secret_of p) as [hash|]; [|by eapply sigs_ok_signed].
    destruct st' as [|secret st']; [done|]. apply andb_true_iff in Hs as [_ Hs].
    by eapply sigs_ok_signed.
Qed.

Lemma policy_keys self tl my other : public_ok my -> public_ok other ->
  Forall (fun p => Forall public_ok (signers p) /\ (forall t, after p = Some t -> t = tl))
    (policy self tl my other).
Proof.
  intros. destruct self; simpl; repeat constructor; simpl; try done; by intros ? [= ->].
Qed.

(** A spend of a payment took one of its ways, or found another script with the
    same hash. *)
Lemma accepted_takes s idx a sv ss self tl my other redeem :
  tx_type_fits self -> public_ok my -> public_ok other -> 0 <= tl < 2 ^ 31 ->
  redeem_script self tl my other = Some redeem ->
  p2sh_accepts (checker_of s idx a) sv (dhash160 redeem) ss = true ->
  (exists s', s' <> redeem /\ dhash160 s' = dhash160 redeem) \/
  exists ins p, iter ss = Some (map Ok ins) /\ p ∈ policy self tl my other /\
    path_taken s idx a sv ins p.
Proof.
  intros Hf Hm Ho Htl Hr Ha. apply p2sh_accepts_inv in Ha as (ins & s' & st & Hi & Hh & Hp & Ht).
  destruct (decide (s' = redeem)) as [->|]; [right|left; eauto].
  rewrite (redeem_accepts self tl my other) in Ht by done.
  apply existsb_exists in Ht as (p & Hin & Hok). apply list_elem_of_In in Hin.
  exists ins, p. split_and!; [done|done|].
  pose proof (policy_keys self tl my other Hm Ho) as Hpk. rewrite Forall_forall in Hpk.
  destruct (Hpk p Hin) as [Hks Haf].
  eapply path_ok_taken; [done| |done|done]. intros t Ht'. by rewrite (Haf t Ht').
Qed.
End Read.

(** ** The secret *)

Lemma iter_from_some fuel s p : is_Some (iter_from fuel s p).
Proof.
  revert p. induction fuel as [|fuel IH]; intros p; cbn [iter_from]; [eauto|].
  unfold instructions_next. destruct (length s <=? p)%nat eqn:E; [simpl; eauto|].
  apply Nat.leb_gt in E. destruct (get_instruction_at_some s p E) as [i ->]. simpl.
  destruct i as [i|e]; simpl; by match goal with |- context [iter_from fuel s ?q] => destruct (IH q) as [? ->] end.
Qed.

Lemma iter_instr_ok s l i : bytes_ok s -> iter s = Some l -> Ok i ∈ l -> instr_ok i.
Proof.
  intros Hs Hi Hin. destruct (iter_from_total (length s) s 0) as (ins & Hok & Hc); [done|lia|lia|].
  rewrite Forall_forall in Hok. unfold iter in Hi.
  destruct Hc as [[Hc _]|(e & rest & Hc & _)]; rewrite Hc in Hi; injection Hi as <-.
  - apply list_elem_of_fmap in Hin as (i' & [= ->] & ?). auto.
  - apply elem_of_app in Hin as [(i' & [= ->] & ?)%list_elem_of_fmap|Hin]; [auto|].
    by apply list_elem_of_singleton in Hin.
Qed.

(** A script that pushes 32 bytes in the shortest way. *)
Definition pushes_32_short (s : Script) : Prop :=
  forall l i d, iter s = Some l -> Ok i ∈ l -> data i = Some d -> length d = 32%nat ->
    opcode i = OP_PUSHBYTES_32.

Section Secret.
  Context `{BitCrypto}.

Lemma first_some_spec {A B} (f : A -> option B) l :
  match first_some f l with
  | Some b => exists a, a ∈ l /\ f a = Some b
  | None => forall a, a ∈ l -> f a = None
  end.
Proof.
  induction l as [|a l IH]; simpl; [by intros a Ha%elem_of_nil|].
  destruct (f a) as [b|] eqn:E.
  - exists a. split; [by left|done].
  - destruct (first_some f l) as [b|].
    + destruct IH as (a' & ? & ?). exists a'. split; [by right|done].
    + intros a' [->|?]%elem_of_cons; auto.
Qed.

Lemma pushed_secret_inv expected i secret :
  pushed_secret expected i = Some secret ->
  exists n, i = Ok (mkInstruction OP_PUSHBYTES_32 n (Some secret)) /\ dhash160 secret = expected.
Proof.
  unfold pushed_secret. repeat (case_match; try done). intros [= ->]. subst. eauto.
Qed.

Lemma secret_of_inputs_spec expected ins :
  match secret_of_inputs expected ins with
  | Some (Some secret) => exists input l n, input ∈ ins /\ iter (script_sig input) = Some l /\
      Ok (mkInstruction OP_PUSHBYTES_32 n (Some secret)) ∈ l /\ dhash160 secret = expected
  | Some None => forall input l i, input ∈ ins -> iter (script_sig input) = Some l -> i ∈ l ->
      pushed_secret expected i = None
  | None => False
  end.
Proof.
  induction ins as [|input ins IH]; cbn [secret_of_inputs]; [by intros ? ? ? ?%elem_of_nil|].
  destruct (iter_from_some (length (script_sig input)) (script_sig input) 0) as [l Hl].
  change (iter (script_sig input) = Some l) in Hl. rewrite Hl. simpl.
  pose proof (first_some_spec (pushed_secret expected) l) as Hf.
  destruct (first_some (pushed_secret expected) l) as [secret|].
  - destruct Hf as (i & Hi & (n & -> & Hh)%pushed_secret_inv). exists input, l, n.
    split_and!; [by left|done..].
  - destruct (secret_of_inputs expected ins) as [[secret|]|]; [| |done].
    + destruct IH as (input' & l' & n & Hin & ?). exists input', l', n. split; [by right|done].
    + intros input' l' i [->|Hin]%elem_of_cons Hl' Hi; [|by eapply IH]. simplify_eq. by apply Hf.
Qed.

Lemma expected_secret_hash_short sh :
  hash_short sh -> expected_secret_hash sh = Ok (script_secret_hash sh).
Proof.
  unfold hash_short, expected_secret_hash, script_secret_hash. intros [Hl|Hl]; rewrite Hl; done.
Qed.

(** The secret is found when some input pushes it in the shortest way. *)
Lemma extract_secret_found sh t input l i secret :
  hash_short sh -> Forall (fun i => bytes_ok (script_sig i)) (inputs t) ->
  input ∈ inputs t -> iter (script_sig input) = Some l -> Ok i ∈ l -> data i = Some secret ->
  opcode i = OP_PUSHBYTES_32 -> dhash160 secret = script_secret_hash sh ->
  exists s', extract_secret_v2 sh t = Some (Ok s') /\ length s' = 32%nat /\
    dhash160 s' = script_secret_hash sh.
Proof.
  intros Hs Hb Hin Hl Hi Hd Ho Hh. unfold extract_secret_v2.
  rewrite expected_secret_hash_short by done. simpl.
  pose proof (secret_of_inputs_spec (script_secret_hash sh) (inputs t)) as Hspec.
  destruct (secret_of_inputs _ _) as [[s'|]|]; [| |done].
  - destruct Hspec as (input' & l' & n & Hin' & Hl' & Hi' & Hh'). exists s'.
    split_and!; [done| |done]. rewrite Forall_forall in Hb.
    destruct (iter_instr_ok _ _ _ (Hb _ Hin') Hl' Hi') as [_ Ho']. simpl in Ho'. lia.
  - specialize (Hspec _ _ _ Hin Hl Hi). unfold pushed_secret in Hspec.
    destruct i as [o n d]. simpl in *. subst. by rewrite decide_True in Hspec.
Qed.
End Secret.

(** ** Spends that push data only *)

(** The data of an instruction that pushes. *)
Definition pushes (i : Instruction) (d : list Z) : Prop :=
  instr_ok i /\ is_push i /\ data i = Some d /\ (length d <= 520)%nat.

Section Pushes.
  Context `{ByteOrder} `{BitCrypto} `{Blake2b} `{!Secp256k1} `{!ScriptEngine}.

Lemma run_data_pushes ck sv code ins ds st :
  Forall2 pushes ins ds ->
  run ck sv code ins (mkEval st []) = Some (mkEval (rev ds ++ st) []).
Proof.
  intros Hp. revert st. induction Hp as [|i d ins ds (_ & _ & Hd & Hl) _ IH]; intros st; [done|].
  cbn [run rev]. destruct i as [o n x]. simpl in Hd. subst x.
  rewrite step_data by done. cbn [mbind option_bind]. by rewrite IH, <- app_assoc.
Qed.

(** Two spends that push the same data in different ways are the same for the
    network. *)
Lemma p2sh_accepts_pushes ck sv hash ins ds :
  Forall2 pushes ins ds ->
  p2sh_accepts ck sv hash (concat (map encode ins)) =
    match rev ds with
    | redeem :: st => bool_decide (dhash160 redeem = hash) && top_true (eval_script ck sv redeem st)
    | [] => false
    end.
Proof.
  intros Hp. unfold p2sh_accepts, eval_script.
  assert (Hok : Forall instr_ok ins) by (clear -Hp; induction Hp as [|? ? ? ? (? & _) _ IH]; by constructor).
  assert (Hpu : Forall is_push ins) by (clear -Hp; induction Hp as [|? ? ? ? (_ & ? & _) _ IH]; by constructor).
  pose proof (push_only_loop_encode (length (concat (map encode ins))) ins [] Hok Hpu) as Hpo.
  simpl in Hpo. unfold is_push_only. rewrite Hpo, iter_encode by done. cbn [mbind option_bind].
  rewrite mapM_instructions. cbn [mbind option_bind]. rewrite (run_data_pushes _ _ _ _ _ _ Hp).
  cbn [mbind option_bind conds is_nil stack]. rewrite app_nil_r. by destruct (rev ds).
Qed.
End Pushes.
