(* ===== verification/UtxoV2Props.v ===== *)
(** * The signatures of the two sides together

    A preimage that one side has made and signed is validated by the other
    side, which adds its own signature; the network accepts both. *)

From S2P Require Import Prelude F64 MmNumber DexFee Effects Swap SwapWatcher SwapV2 Opcode Keys Script ScriptProps Serialization Transaction Sign ScriptEngine HtlcScripts UtxoHtlc UtxoValidate UtxoFee UtxoV2 UtxoSpendProps.
Local Open Scope Z_scope.
Local Open Scope result_scope.

Section TwoSides.
  Context `{ByteOrder} `{BitCrypto} `{Blake2b} `{!Secp256k1} `{!ScriptEngine} `{ToU64} `{DecimalConv}.

(** A signer with the one input that a spend of [prev] has. *)
Definition spends_first (coin : UtxoCoin) (prev : Transaction) (e : TransactionInputSigner) : Prop :=
  exists o, first_output prev = Ok o /\
    s_inputs e = [mkUnsignedInput (mkOutPoint (tx_hash prev) 0) [] SEQUENCE_FINAL (out_value o)] /\
    consensus_branch_id e = c_consensus_branch_id coin.

Lemma preimage_signer_back coin prev e sig o :
  spends_first coin prev e -> first_output prev = Ok o ->
  preimage_signer coin (mkUtxoPreimage (tx_from_signer e) sig) prev = Ok (e, out_value o).
Proof.
  intros (o' & Ho' & Hi & Hb) Ho. rewrite Ho in Ho'. injection Ho' as <-. unfold preimage_signer. simpl. rewrite Hi, Ho. simpl.
  destruct e. simpl in *. subst. by rewrite hash_algo_back.
Qed.

(** The sent transaction as the network sees it. *)
Lemma finalize_ok coin prev e ss o :
  spends_first coin prev e -> first_output prev = Ok o ->
  exists t i, finalize e ss = Ok t /\ inputs t = [i] /\ script_sig i = ss /\
    previous_output i = mkOutPoint (tx_hash prev) 0 /\ outputs t = s_outputs e /\
    net_signer (c_consensus_branch_id coin) [out_value o] t = e.
Proof.
  intros (o' & Ho' & Hi & Hb) Ho. rewrite Ho in Ho'. injection Ho' as <-. unfold finalize. simpl. rewrite Hi. simpl.
  eexists _, _. split_and!; try done. unfold net_signer, set_signer_inputs. simpl.
  destruct e. simpl in *. subst. by rewrite hash_algo_back.
Qed.

Lemma spends_first_input coin prev e o :
  spends_first coin prev e -> first_output prev = Ok o ->
  exists x, s_inputs e !! 0%nat = Some x /\ amount x = out_value o.
Proof.
  intros (o' & Ho' & Hi & _) Ho. rewrite Hi. simpl. eexists; split; [done|]. simpl. congruence.
Qed.

Lemma with_sighash_all coin sig :
  coin_signs coin -> with_sighash sig SIGHASH_ALL (c_fork_id coin) =
    sig ++ [Z.lor SIGHASH_ALL (c_fork_id coin)].
Proof. unfold coin_signs. intros ->. by destruct (c_signature_version coin). Qed.

Lemma with_sighash_single coin sig :
  coin_signs coin -> with_sighash sig SIGHASH_SINGLE (c_fork_id coin) =
    sig ++ [Z.lor SIGHASH_SINGLE (c_fork_id coin)].
Proof. unfold coin_signs. intros ->. by destruct (c_signature_version coin). Qed.

Lemma coin_signs_single coin : coin_signs coin ->
  sighash_is_defined (c_signature_version coin) (Z.lor SIGHASH_SINGLE (c_fork_id coin)) = true /\
  base (sighash_from_u32 (c_signature_version coin) (Z.lor SIGHASH_SINGLE (c_fork_id coin))) = SB_Single.
Proof. unfold coin_signs. intros ->. by destruct (c_signature_version coin). Qed.

Lemma sig_push sig ty : (length sig <= 72)%nat -> push_action (AData (sig ++ [ty])).
Proof. simpl. rewrite length_app. simpl. lia. Qed.

(** The transaction of [e] with the given pushes and the script that it spends. *)
Lemma final_tx_accepted coin prev e o acts redeem :
  spends_first coin prev e -> first_output prev = Ok o ->
  Forall push_action acts -> (length redeem <= 520)%nat ->
  exists ss t i, build (acts ++ [AData redeem]) = Some ss /\ finalize e ss = Ok t /\
    inputs t = [i] /\ previous_output i = mkOutPoint (tx_hash prev) 0 /\ outputs t = s_outputs e /\
    input_accepted coin t [out_value o] 0 (dhash160 redeem) =
      top_true (eval_script (checker_of e 0 (out_value o)) (c_signature_version coin) redeem
                  (rev (map pushed acts))).
Proof.
  intros He Ho Ha Hr.
  destruct (build_iter (acts ++ [AData redeem])) as (ss & Hss & _).
  { apply Forall_app; split; [|constructor; [simpl; lia|done]].
    eapply Forall_impl; [exact Ha|]. by intros a (? & ?)%push_action_ok. }
  destruct (finalize_ok coin prev e ss o He Ho) as (t & i & Ht & Hi & Hs & Hp & Hout & Hn).
  exists ss, t, i. split_and!; try done. unfold input_accepted. rewrite Hi. cbn [lookup list_lookup].
  rewrite Hn, Hs, (p2sh_build _ _ _ acts redeem) by done. by rewrite bool_decide_eq_true_2.
Qed.

(** ** From the funding to the payment *)

Lemma gen_funding_spend_ok coin n args nt fee e :
  gen_taker_funding_spend_preimage coin n args nt fee = Some (Ok e) ->
  exists o f s, first_output (fa_funding_tx args) = Ok o /\
    match fee with GetFromCoin => htlc_spend_fee n Swap.WithoutApprox = Ok f | UseExactFee f' => f = f' end /\
    s_outputs e = [mkTransactionOutput (wrap 64 (out_value o - f)) s] /\
    wrap 64 (f + c_dust_amount coin) <= out_value o /\
    spends_first coin (fa_funding_tx args) e /\
    (forall n', gen_taker_funding_spend_preimage coin n' args (UseValue (s_n_time e)) (UseExactFee f) = Some (Ok e)).
Proof.
  unfold gen_taker_funding_spend_preimage.
  destruct (gen_time_lock (fa_taker_payment_time_lock args)) as [ptl|]; [|done]. cbn [pbind].
  destruct (taker_payment_script _ _ _ _) as [pr|]; [|done]. cbn [mbind option_bind].
  destruct (first_output (fa_funding_tx args)) as [o|] eqn:Eo; [|done]. cbn [map_err pbind].
  destruct (match fee with GetFromCoin => _ | UseExactFee f => _ end) as [f|] eqn:Ef; [|done].
  cbn [pbind]. destruct (out_value o <? _) eqn:El; [done|].
  destruct (build_p2sh _) as [s|]; [|done]. cbn [mbind option_bind].
  unfold p2sh_spending_tx_preimage. rewrite Eo. cbn [result_bind map_err].
  intros [= <-]. exists o, f, s. split_and!; try done.
  - destruct fee; [|by simplify_eq]. by destruct (htlc_spend_fee n Swap.WithoutApprox); simplify_eq/=.
  - lia.
  - exists o. done.
  - intros n'. simpl. rewrite El. simpl. by destruct (c_is_pos coin), nt.
Qed.

(** A preimage of the maker is made for its keys and carries its signature. *)
Lemma gen_and_sign_funding_inv coin n args kp p pre :
  from_private p = Ok kp ->
  gen_and_sign_taker_funding_spend_preimage coin n args kp = Some (Ok pre) ->
  exists tl e o redeem h,
    try_into_u32 (fa_funding_time_lock args) = Ok tl /\
    gen_taker_funding_spend_preimage coin n args UseNow GetFromCoin = Some (Ok e) /\
    first_output (fa_funding_tx args) = Ok o /\ spends_first coin (fa_funding_tx args) e /\
    taker_funding_script tl (fa_taker_secret_hash args) (fa_taker_pub args) (fa_maker_pub args) = Some redeem /\
    pre_tx pre = tx_from_signer e /\
    signature_hash e 0 (out_value o) redeem (c_signature_version coin)
      (Z.lor SIGHASH_ALL (c_fork_id coin)) = Some h /\ signs kp h (pre_signature pre).
Proof.
  intros Hk. unfold gen_and_sign_taker_funding_spend_preimage, gen_time_lock.
  destruct (try_into_u32 (fa_funding_time_lock args)) as [tl|]; [|done]. cbn [map_err pbind].
  destruct (gen_taker_funding_spend_preimage coin n args UseNow GetFromCoin) as [[e|]|] eqn:Eg; [|done..].
  cbn [pbind]. destruct (gen_funding_spend_ok _ _ _ _ _ _ Eg) as (o & f & s & Ho & _ & _ & _ & He & _).
  destruct (taker_funding_script _ _ _ _) as [redeem|] eqn:Er; [|done]. cbn [mbind option_bind].
  destruct (spends_first_input _ _ _ _ He Ho) as (x & Hx & Ha).
  destruct (calc_and_sign_ok e 0 x redeem kp p (c_signature_version coin) SIGHASH_ALL (c_fork_id coin) Hx Hk)
    as (h & sig & Hc & Hh & Hs).
  unfold DEFAULT_SWAP_VOUT. rewrite Hc. intros [= <-]. exists tl, e, o, redeem, h.
  rewrite <- Ha. done.
Qed.

(** The taker signs and sends: both signatures stand before the branch of the
    script that asks for both. *)
Lemma sign_and_send_funding_ok coin n args kp p e o tl redeem h sig_m :
  coin_signs coin -> from_private p = Ok kp -> public_ok (fa_maker_pub args) ->
  fa_taker_pub args = public kp -> hash_short (fa_taker_secret_hash args) ->
  try_into_u32 (fa_funding_time_lock args) = Ok tl ->
  is_u32 (fa_taker_payment_time_lock args) -> hash_short (fa_maker_secret_hash args) ->
  first_output (fa_funding_tx args) = Ok o -> spends_first coin (fa_funding_tx args) e ->
  taker_funding_script tl (fa_taker_secret_hash args) (fa_taker_pub args) (fa_maker_pub args) = Some redeem ->
  signature_hash e 0 (out_value o) redeem (c_signature_version coin)
    (Z.lor SIGHASH_ALL (c_fork_id coin)) = Some h ->
  (length sig_m <= 72)%nat ->
  (forall a, import_address n a = Ok tt) -> (forall t, send_transaction n t = Ok tt) ->
  exists t i sig_t,
    sign_and_send_taker_funding_spend coin n (mkUtxoPreimage (tx_from_signer e) sig_m) args kp = Some (Ok t) /\
    inputs t = [i] /\ previous_output i = mkOutPoint (tx_hash (fa_funding_tx args)) 0 /\
    outputs t = s_outputs e /\ signs kp h sig_t /\
    let ht := Z.lor SIGHASH_ALL (c_fork_id coin) in
    let ck := checker_of e 0 (out_value o) in
    input_accepted coin t [out_value o] 0 (dhash160 redeem) =
      sig_ok ck (c_signature_version coin) redeem (pub_bytes (fa_taker_pub args)) (sig_t ++ [ht]) &&
      sig_ok ck (c_signature_version coin) redeem (pub_bytes (fa_maker_pub args)) (sig_m ++ [ht]).
Proof.
  intros Hc Hk Hm Ht Hs Htl Hpl Hms Ho He Hr Hh Hl Himp Hsend.
  assert (Htp : public_ok (fa_taker_pub args)) by (rewrite Ht; by eapply from_private_public_ok).
  unfold sign_and_send_taker_funding_spend. rewrite Htl. cbn [try_plain map_err pbind].
  rewrite Hr. cbn [mbind option_bind]. rewrite (preimage_signer_back coin _ _ _ o He Ho). cbn [pbind].
  destruct (spends_first_input _ _ _ _ He Ho) as (x & Hx & Ha).
  destruct (calc_and_sign_ok e 0 x redeem kp p (c_signature_version coin) SIGHASH_ALL (c_fork_id coin) Hx Hk)
    as (h' & sig & Hcs & Hh' & Hsig). rewrite Ha, Hh in Hh'. injection Hh' as <-.
  unfold DEFAULT_SWAP_VOUT. rewrite Hcs. cbn [mbind option_bind sign_plain map_err pbind].
  rewrite !with_sighash_all by done. set (ht := Z.lor SIGHASH_ALL (c_fork_id coin)) in *.
  assert (Hrl : (length redeem <= 520)%nat).
  { eapply (redeem_size (TakerFundingType (fa_taker_secret_hash args))); [exact Hs|exact Htp|exact Hm|exact Hr]. }
  destruct (final_tx_accepted coin (fa_funding_tx args) e o
              [AData (sig_m ++ [ht]); AData (sig ++ [ht]); AOp OP_1; AOp OP_0] redeem He Ho)
    as (ss & t & i & Hss & Hf & Hi & Hp & Hout & Hacc); [|done|].
  { constructor; [by apply sig_push|]. constructor; [apply sig_push; apply signs_length in Hsig; lia|].
    constructor; [by right|]. constructor; [by left|done]. }
  match goal with |- context [push_data redeem ?b] =>
    change (push_data redeem b) with (build ([AData (sig_m ++ [ht]); AData (sig ++ [ht]); AOp OP_1; AOp OP_0] ++ [AData redeem])) end.
  rewrite Hss. cbn [mbind option_bind]. cbn [pre_signature]. rewrite Hf. cbn [pbind].
  exists t, i, sig. split; [|split_and!; try done].
  - destruct (c_native coin).
    + unfold try_into_u32 at 1. rewrite (proj2 (is_uintb_spec _ _) Hpl). cbn [try_plain map_err pbind].
      destruct (redeem_script_some (TakerPaymentV2 (fa_maker_secret_hash args) []) (fa_taker_payment_time_lock args) (fa_taker_pub args) (fa_maker_pub args)) as (pr & Hpr & _);
        [by apply (tx_type_short_fits (TakerPaymentV2 _ [])) |done|done|].
      simpl in Hpr. rewrite Hpr. cbn [mbind option_bind]. rewrite Himp. cbn [try_plain map_err pbind].
      unfold send_signed. cbn [pbind]. by rewrite Hsend.
    + cbn [pbind]. unfold send_signed. cbn [pbind]. by rewrite Hsend.
  - cbv zeta. rewrite Hacc.
    rewrite (redeem_accepts (TakerFundingType (fa_taker_secret_hash args)) tl (fa_taker_pub args) (fa_maker_pub args));
      [|by apply tx_type_short_fits|done..].
    cbn -[sig_ok]. by rewrite !andb_true_r, orb_false_r.
Qed.

Lemma verify_preimage_ok coin prev e o redeem ty pub pre h :
  spends_first coin prev e -> first_output prev = Ok o ->
  signature_hash e 0 (out_value o) redeem (c_signature_version coin) (Z.lor ty (c_fork_id coin)) = Some h ->
  public_verify pub h (pre_signature pre) = Ok true -> pre_tx pre = tx_from_signer e ->
  verify_preimage coin e redeem ty pub pre = Some (Ok tt).
Proof.
  intros (o' & Ho' & Hi & _) Ho Hh Hv Hp. rewrite Ho in Ho'. injection Ho' as <-.
  unfold verify_preimage, signature_hash_to_sign, get_input, DEFAULT_SWAP_VOUT. rewrite Hi.
  cbn [lookup list_lookup ok_or pbind amount]. rewrite Hh. cbn. rewrite Hv. cbn.
  rewrite decide_False; [done|]. intros Hne. by apply Hne.
Qed.

(** The taker accepts what the maker has made, when their fees are close. *)
Lemma validate_funding_preimage_ok coin nm nt args kp p pre f ft :
  from_private p = Ok kp -> fa_maker_pub args = public kp ->
  gen_and_sign_taker_funding_spend_preimage coin nm args kp = Some (Ok pre) ->
  htlc_spend_fee nm Swap.WithoutApprox = Ok f -> htlc_spend_fee nt Swap.WithoutApprox = Ok ft ->
  0 <= f -> 0 <= c_dust_amount coin -> f + c_dust_amount coin < 2 ^ 64 ->
  (forall o, first_output (fa_funding_tx args) = Ok o -> is_u64 (out_value o)) ->
  let ratio := f64_div (f64_of_u64 ft) (f64_of_u64 f) in
  f64_le f64_0_9 ratio && f64_le ratio f64_1_1 = true ->
  validate_taker_funding_spend_preimage coin nt args pre = Some (Ok tt).
Proof.
  intros Hk Hm Hg Hf Hft Hf0 Hd0 Hsum Hv ratio Hratio.
  destruct (gen_and_sign_funding_inv _ _ _ _ _ _ Hk Hg)
    as (tl & e & o & redeem & h & Htl & Hgen & Ho & He & Hr & Hp & Hh & Hs).
  destruct (gen_funding_spend_ok _ _ _ _ _ _ Hgen)
    as (o' & f' & s & Ho' & Hf' & Hout & Hle & _ & Hre).
  rewrite Ho in Ho'. injection Ho' as <-. rewrite Hf in Hf'. injection Hf' as <-.
  specialize (Hv o Ho). rewrite wrap_id in Hle by (unfold is_uint in *; lia).
  rewrite wrap_id in Hout by (unfold is_uint in *; lia).
  unfold validate_taker_funding_spend_preimage. rewrite Ho, Hp. cbn [map_err pbind].
  assert (first_output (tx_from_signer e) = Ok (mkTransactionOutput (out_value o - f) s)) as ->.
  { unfold first_output. simpl. by rewrite Hout. }
  cbn [map_err pbind out_value]. rewrite Z.gtb_ltb, (proj2 (Z.ltb_ge _ _)) by lia.
  rewrite Hft. cbn [map_err pbind]. replace (out_value o - (out_value o - f)) with f by lia.
  fold ratio. rewrite Hratio. cbn [negb n_time tx_from_signer]. rewrite Hre.
  cbn [mbind option_bind map_err pbind]. unfold val_time_lock. rewrite Htl. cbn [map_err pbind].
  rewrite Hr. cbn [mbind option_bind]. eapply verify_preimage_ok; eauto.
  rewrite Hm. by destruct Hs as (? & ? & _ & ?).
Qed.

(** ** From the payment to its spend *)

Lemma p2sh_exact_ok coin n prev nt outs e :
  p2sh_spending_tx_preimage coin n prev (UseExactLock 0) nt SEQUENCE_FINAL outs = Ok e ->
  (exists o, first_output prev = Ok o) /\ spends_first coin prev e /\ s_outputs e = outs /\
  forall n', p2sh_spending_tx_preimage coin n' prev (UseExactLock 0) (UseValue (s_n_time e)) SEQUENCE_FINAL outs = Ok e.
Proof.
  unfold p2sh_spending_tx_preimage. destruct (first_output prev) as [o|] eqn:Eo; [|done].
  cbn [result_bind]. intros [= <-]. split_and!; [eauto|by exists o|done|].
  intros n'. simpl. by destruct (c_is_pos coin), nt.
Qed.

(** What the taker makes, the maker makes too when it sees the same fee. *)
Lemma gen_payment_spend_ok coin n dex burn args nt e :
  gen_taker_payment_spend_preimage coin n dex burn args nt = Some (Ok e) ->
  (exists o, first_output (pa_taker_tx args) = Ok o) /\ spends_first coin (pa_taker_tx args) e /\
  (sig_hash_type_of (pa_dex_fee args) = SIGHASH_SINGLE -> (0 < length (s_outputs e))%nat) /\
  forall n', htlc_spend_fee n' Swap.WithoutApprox = htlc_spend_fee n Swap.WithoutApprox ->
    gen_taker_payment_spend_preimage coin n' dex burn args (UseValue (s_n_time e)) = Some (Ok e).
Proof.
  unfold gen_taker_payment_spend_preimage.
  destruct (generate_taker_fee_tx_outputs coin dex burn (pa_dex_fee args)) as [[outs|]|] eqn:Eg; [|done..].
  cbn [mbind option_bind gen_err map_err pbind].
  intros Hg.
  match type of Hg with context [pbind ?m _] => destruct m as [[outs'|]|] eqn:Em; [|done..] end.
  cbn [pbind] in Hg. injection Hg as Hg.
  destruct (p2sh_spending_tx_preimage coin n _ _ nt _ outs') as [e'|] eqn:Ep; [|done]. injection Hg as <-.
  destruct (p2sh_exact_ok _ _ _ _ _ _ Ep) as (Ho & Hs & Hout & Hre).
  split_and!; [done|done| |].
  - rewrite Hout. destruct (pa_dex_fee args); try done. intros _. injection Em as <-.
    unfold generate_taker_fee_tx_outputs in Eg.
    destruct dex as [d|]; [|done]. destruct burn as [b|]; [|done]. cbn [pbind] in Eg.
    destruct (sat_from_big_decimal _ _) as [z|]; [|done]. cbn [pbind] in Eg.
    destruct (pkh_output z d) as [out|]; [|done]. injection Eg as <-. simpl. lia.
  - intros n' Hf. rewrite Hf, Em. cbn [pbind]. by rewrite Hre.
Qed.

Lemma gen_and_sign_payment_inv coin n dex burn args kp p pre :
  from_private p = Ok kp ->
  gen_and_sign_taker_payment_spend_preimage coin n dex burn args kp = Some (Ok pre) ->
  exists tl e o redeem h,
    try_into_u32 (pa_time_lock args) = Ok tl /\
    gen_taker_payment_spend_preimage coin n dex burn args UseNow = Some (Ok e) /\
    first_output (pa_taker_tx args) = Ok o /\ spends_first coin (pa_taker_tx args) e /\
    taker_payment_script tl (pa_maker_secret_hash args) (pa_taker_pub args) (pa_maker_pub args) = Some redeem /\
    pre_tx pre = tx_from_signer e /\
    signature_hash e 0 (out_value o) redeem (c_signature_version coin)
      (Z.lor (sig_hash_type_of (pa_dex_fee args)) (c_fork_id coin)) = Some h /\
    signs kp h (pre_signature pre).
Proof.
  intros Hk. unfold gen_and_sign_taker_payment_spend_preimage, gen_time_lock.
  destruct (try_into_u32 (pa_time_lock args)) as [tl|]; [|done]. cbn [map_err pbind].
  destruct (gen_taker_payment_spend_preimage coin n dex burn args UseNow) as [[e|]|] eqn:Eg; [|done..].
  cbn [pbind]. destruct (gen_payment_spend_ok _ _ _ _ _ _ _ Eg) as ((o & Ho) & He & _ & _).
  destruct (taker_payment_script _ _ _ _) as [redeem|] eqn:Er; [|done]. cbn [mbind option_bind].
  destruct (spends_first_input _ _ _ _ He Ho) as (x & Hx & Ha).
  destruct (calc_and_sign_ok e 0 x redeem kp p (c_signature_version coin)
              (sig_hash_type_of (pa_dex_fee args)) (c_fork_id coin) Hx Hk) as (h & sig & Hc & Hh & Hs).
  unfold DEFAULT_SWAP_VOUT. rewrite Hc. intros [= <-]. exists tl, e, o, redeem, h.
  rewrite <- Ha. done.
Qed.

Lemma validate_payment_preimage_ok coin nt nm dex burn args kp p pre :
  from_private p = Ok kp -> pa_taker_pub args = public kp ->
  gen_and_sign_taker_payment_spend_preimage coin nt dex burn args kp = Some (Ok pre) ->
  htlc_spend_fee nm Swap.WithoutApprox = htlc_spend_fee nt Swap.WithoutApprox ->
  validate_taker_payment_spend_preimage coin nm dex burn args pre = Some (Ok tt).
Proof.
  intros Hk Ht Hg Hf.
  destruct (gen_and_sign_payment_inv _ _ _ _ _ _ _ _ Hk Hg)
    as (tl & e & o & redeem & h & Htl & Hgen & Ho & He & Hr & Hp & Hh & Hs).
  destruct (gen_payment_spend_ok _ _ _ _ _ _ _ Hgen) as (_ & _ & _ & Hre).
  unfold validate_taker_payment_spend_preimage. rewrite Hp. cbn [n_time tx_from_signer].
  rewrite (Hre nm Hf). cbn [mbind option_bind map_err pbind]. unfold val_time_lock. rewrite Htl.
  cbn [map_err pbind]. rewrite Hr. cbn [mbind option_bind]. eapply verify_preimage_ok; eauto.
  rewrite Ht. by destruct Hs as (? & ? & _ & ?).
Qed.

(** The output of the maker that the payment has to cover. *)
Definition adds_output (coin : UtxoCoin) (n : Net) (dex_fee : DexFee) (value : Z)
  (added : list TransactionOutput) : Prop :=
  match dex_fee with
  | DexFee.Standard fee => exists sat miner addr script,
      sat_from_big_decimal (to_decimal fee) (c_decimals coin) = Ok sat /\ 0 <= sat /\
      htlc_spend_fee n Swap.WithoutApprox = Ok miner /\ 0 <= miner /\ 0 <= c_dust_amount coin /\
      miner + c_dust_amount coin + sat <= value /\
      single_addr n = Ok addr /\ output_script addr = Some (Ok script) /\
      added = [mkTransactionOutput (value - miner - sat) script]
  | _ => added = []
  end.

Lemma add_maker_output_ok coin n prev dex_fee e o added :
  spends_first coin prev e -> first_output prev = Ok o -> is_u64 (out_value o) ->
  adds_output coin n dex_fee (out_value o) added ->
  (sig_hash_type_of dex_fee = SIGHASH_SINGLE -> (0 < length (s_outputs e))%nat) -> coin_signs coin ->
  exists e', add_maker_output coin n dex_fee e (out_value o) = Some (Ok e') /\
    spends_first coin prev e' /\ s_outputs e' = s_outputs e ++ added /\
    forall a code, let ty := Z.lor (sig_hash_type_of dex_fee) (c_fork_id coin) in
      signature_hash e' 0 a code (c_signature_version coin) ty =
      signature_hash e 0 a code (c_signature_version coin) ty.
Proof.
  intros He Ho Hv Ha Hl Hc. unfold add_maker_output, adds_output in *.
  destruct dex_fee as [|fee|]; cbn [sig_hash_type_of] in *.
  2: destruct Ha as (sat & miner & addr & script & -> & ? & -> & ? & ? & ? & Hs & Hsc & ->).
  1, 3: exists e; subst; by rewrite app_nil_r.
  cbn [try_plain map_err pbind]. unfold is_uint in Hv.
  rewrite !wrap_id by (unfold is_uint; rewrite ?wrap_id; unfold is_uint; lia).
  rewrite Z.gtb_ltb, (proj2 (Z.ltb_ge _ _)) by lia. rewrite Hs. cbn [try_plain map_err pbind].
  unfold output_script_plain. rewrite Hsc. cbn [mbind option_bind map_err pbind].
  eexists; split; [done|]. split_and!; [exact He|done|].
  intros a code. apply single_add_output; [by apply Hl|]. by apply coin_signs_single.
Qed.

(** The maker completes the spend with its secret. *)
Lemma sign_and_broadcast_ok coin n args kp p e o tl redeem sig_t secret added :
  coin_signs coin -> from_private p = Ok kp -> public_ok (pa_taker_pub args) ->
  pa_maker_pub args = public kp -> hash_short (pa_maker_secret_hash args) ->
  length secret = 32%nat -> dhash160 secret = script_secret_hash (pa_maker_secret_hash args) ->
  try_into_u32 (pa_time_lock args) = Ok tl ->
  first_output (pa_taker_tx args) = Ok o -> is_u64 (out_value o) -> spends_first coin (pa_taker_tx args) e ->
  taker_payment_script tl (pa_maker_secret_hash args) (pa_taker_pub args) (pa_maker_pub args) = Some redeem ->
  adds_output coin n (pa_dex_fee args) (out_value o) added ->
  (sig_hash_type_of (pa_dex_fee args) = SIGHASH_SINGLE -> (0 < length (s_outputs e))%nat) ->
  (length sig_t <= 72)%nat -> (forall t, send_transaction n t = Ok tt) ->
  exists t i sig_m e' h,
    sign_and_broadcast_taker_payment_spend coin n (mkUtxoPreimage (tx_from_signer e) sig_t) args secret kp = Some (Ok t) /\
    inputs t = [i] /\ previous_output i = mkOutPoint (tx_hash (pa_taker_tx args)) 0 /\
    outputs t = s_outputs e ++ added /\
    signature_hash e' 0 (out_value o) redeem (c_signature_version coin)
      (Z.lor SIGHASH_ALL (c_fork_id coin)) = Some h /\ signs kp h sig_m /\
    let ty := Z.lor (sig_hash_type_of (pa_dex_fee args)) (c_fork_id coin) in
    signature_hash e' 0 (out_value o) redeem (c_signature_version coin) ty =
      signature_hash e 0 (out_value o) redeem (c_signature_version coin) ty /\
    let ck := checker_of e' 0 (out_value o) in
    input_accepted coin t [out_value o] 0 (dhash160 redeem) =
      sig_ok ck (c_signature_version coin) redeem (pub_bytes (pa_taker_pub args)) (sig_t ++ [ty]) &&
      sig_ok ck (c_signature_version coin) redeem (pub_bytes (pa_maker_pub args))
        (sig_m ++ [Z.lor SIGHASH_ALL (c_fork_id coin)]).
Proof.
  intros Hc Hk Ht Hm Hs Hsl Hsh Htl Ho Hv He Hr Hadd Hlen Hl Hsend.
  assert (Hmp : public_ok (pa_maker_pub args)) by (rewrite Hm; by eapply from_private_public_ok).
  destruct (add_maker_output_ok _ _ _ _ _ _ _ He Ho Hv Hadd Hlen Hc) as (e' & Hadd' & He' & Hout & Hsame).
  unfold sign_and_broadcast_taker_payment_spend. rewrite Htl. cbn [try_plain map_err pbind].
  assert (taker_payment_script tl (dhash160 secret) (pa_taker_pub args) (public kp) = Some redeem) as ->.
  { rewrite <- Hm, <- Hr. unfold taker_payment_script. rewrite Hsh.
    unfold script_secret_hash at 1. by rewrite script_hash_length. }
  cbn [mbind option_bind]. rewrite (preimage_signer_back coin _ _ _ o He Ho). cbn [pbind].
  rewrite Hadd'. cbn [pbind].
  destruct (spends_first_input _ _ _ _ He' Ho) as (x & Hx & Ha).
  destruct (calc_and_sign_ok e' 0 x redeem kp p (c_signature_version coin) SIGHASH_ALL (c_fork_id coin) Hx Hk)
    as (h & sig & Hcs & Hh & Hsig). rewrite Ha in Hh.
  unfold DEFAULT_SWAP_VOUT. rewrite Hcs. cbn [mbind option_bind sign_plain map_err pbind].
  rewrite with_sighash_all by done.
  set (ty := Z.lor (sig_hash_type_of (pa_dex_fee args)) (c_fork_id coin)).
  assert (with_sighash sig_t (sig_hash_type_of (pa_dex_fee args)) (c_fork_id coin) = sig_t ++ [ty]) as Hty.
  { unfold ty. destruct (pa_dex_fee args); cbn [sig_hash_type_of];
      [by apply with_sighash_all|by apply with_sighash_single|by apply with_sighash_all]. }
  cbn [pre_signature]. rewrite Hty.
  set (ht := Z.lor SIGHASH_ALL (c_fork_id coin)) in *.
  assert (Hrl : (length redeem <= 520)%nat).
  { eapply (redeem_size (TakerPaymentV2 (pa_maker_secret_hash args) [])); [exact Hs|exact Ht|exact Hmp|exact Hr]. }
  destruct (final_tx_accepted coin (pa_taker_tx args) e' o
              [AData (sig ++ [ht]); AData (sig_t ++ [ty]); AData secret; AOp OP_0] redeem He' Ho)
    as (ss & t & i & Hss & Hf & Hi & Hp & Hout' & Hacc); [|done|].
  { constructor; [apply sig_push; apply signs_length in Hsig; lia|]. constructor; [by apply sig_push|].
    constructor; [simpl; lia|]. constructor; [by left|done]. }
  match goal with |- context [push_data redeem ?b] =>
    change (push_data redeem b) with (build ([AData (sig ++ [ht]); AData (sig_t ++ [ty]); AData secret; AOp OP_0] ++ [AData redeem])) end.
  rewrite Hss. cbn [mbind option_bind]. rewrite Hf. cbn [pbind]. unfold send_signed. cbn [pbind].
  rewrite Hsend. exists t, i, sig, e', h. split_and!; try done.
  - by rewrite Hout', Hout.
  - cbv zeta. rewrite Hacc.
    rewrite (redeem_accepts (TakerPaymentV2 (pa_maker_secret_hash args) []) tl (pa_taker_pub args) (pa_maker_pub args));
      [|by apply (tx_type_short_fits (TakerPaymentV2 _ []))|done..].
    cbn -[sig_ok secret_ok script_secret_hash]. rewrite andb_true_r, orb_false_r.
    unfold secret_ok. by rewrite bool_decide_eq_true_2.
Qed.
End TwoSides.
