(* ===== verification/DemoUtxo.v ===== *)
(** * A concrete world for the UTXO coins

    Hash functions, keys and an interpreter that satisfy their laws, so that the
    theorems about UTXO coins can be applied to values.  They are as simple as
    the laws allow: a hash cuts or fills its input, there are two keys, and a
    signature names its key and its message. *)

From Stdlib Require Import QArith.
From S2P Require Import Prelude MmNumber Swap SwapV2 Opcode Keys Script ScriptProps Serialization Transaction Sign ScriptEngine UtxoHtlc.
Local Open Scope Z_scope.

Definition resize (n : nat) (l : list Z) : list Z := take n (map (wrap 8) l ++ zeros n).

Lemma resize_length n l : length (resize n l) = n.
Proof.
  unfold resize. rewrite length_take, length_app, length_map. unfold zeros.
  rewrite length_replicate. lia.
Qed.

Lemma resize_ok n l : bytes_ok (resize n l).
Proof.
  unfold resize. apply Forall_take, Forall_app. split.
  - apply Forall_map, Forall_true. intros x. apply wrap_range. lia.
  - unfold zeros. apply Forall_replicate. unfold is_uint. lia.
Qed.

#[export] Instance demo_order : ByteOrder := std_byteorder.

#[export] Instance demo_crypto : BitCrypto := {|
  ripemd160 := resize 20;
  sha256 := resize 32;
  keccak256 := resize 32;
  groestl512 := resize 64;
  ripemd160_length := resize_length 20;
  sha256_length := resize_length 32;
  keccak256_length := resize_length 32;
  groestl512_length := resize_length 64;
  ripemd160_ok := resize_ok 20;
  sha256_ok := resize_ok 32 |}.

#[export] Instance demo_blake : Blake2b := {|
  blake_2b_256_personal := fun i p => resize 32 (p ++ i);
  blake_length := fun i p => resize_length 32 (p ++ i) |}.

(** ** Keys *)

Definition demo_pk_bytes (b : bool) : list Z := (if b then 2 else 3) :: zeros 32.
Definition demo_pk_long (b : bool) : list Z := 4 :: (if b then 2 else 3) :: zeros 63.

Definition demo_pk_from (l : list Z) : result SecpError bool :=
  if decide (l = demo_pk_bytes true \/ l = demo_pk_long true) then Ok true
  else if decide (l = demo_pk_bytes false \/ l = demo_pk_long false) then Ok false
  else Err SecpInvalidPublicKey.

Definition demo_sk_from (l : list Z) : result SecpError bool := Ok (bool_decide (head l = Some 1)).

Definition demo_msg_from (l : list Z) : result SecpError (list Z) :=
  if (length l =? 32)%nat then Ok l else Err SecpInvalidMessage.

Definition demo_sign (m : list Z) (b : bool) : list Z :=
  0x30 :: (if b then 2 else 3) :: resize 34 m.

Program Definition demo_secp_def : Secp256k1 := {|
  PublicKey := bool;
  SecretKey := bool;
  SecpSignature := list Z;
  SecpMessage := list Z;
  pk_from_slice := demo_pk_from;
  pk_serialize := demo_pk_bytes;
  pk_serialize_uncompressed := demo_pk_long;
  pk_from_secret_key := fun b => b;
  sk_from_slice := demo_sk_from;
  msg_from_slice := demo_msg_from;
  sig_from_der := Ok;
  sig_from_der_lax := Ok;
  sig_serialize_der := fun s => s;
  normalize_s := fun s => s;
  secp_verify := fun m s b => bool_decide (s = demo_sign m b);
  secp_sign_low_r := demo_sign |}.
Next Obligation. by intros []. Qed.
Next Obligation. by intros []. Qed.
Next Obligation. by intros []. Qed.
Next Obligation. by intros []. Qed.
Next Obligation. intros m Hm. unfold demo_msg_from. by rewrite Hm. Qed.
Next Obligation. intros m sk. eexists; split; [done|]. by apply bool_decide_eq_true_2. Qed.
Next Obligation. done. Qed.
Next Obligation. intros m sk. unfold demo_sign. simpl. rewrite resize_length. lia. Qed.
#[export] Instance demo_secp : Secp256k1 := demo_secp_def.

(** ** An interpreter *)

Definition demo_check_sig (ck : SignatureChecker) (sv : SignatureVersion) (code : Script)
  (sig pub : list Z) : option bool :=
  match public_from_slice pub, rev sig with
  | Ok p, ht :: s =>
      if sighash_is_defined sv ht
      then Some (bool_decide (check_signature ck (rev s) p code ht sv = Some true))
      else None
  | Ok _, [] => Some false
  | Err _, _ => None
  end.

Definition demo_cltv (ck : SignatureChecker) (st : list (list Z)) : bool :=
  match st with
  | v :: _ =>
      match num_from_slice v true 5 with
      | Ok n => if num_is_negative n then false else bool_decide (check_lock_time ck n = Some true)
      | Err _ => false
      end
  | [] => false
  end.

Definition demo_op (ck : SignatureChecker) (sv : SignatureVersion) (code : Script) (o : Opcode)
  (st : list (list Z)) : option (list (list Z)) :=
  match o, st with
  | OP_1, _ => Some ([1] :: st)
  | OP_DROP, _ :: st => Some st
  | OP_SIZE, v :: st => Some (num_to_bytes (num_from (Z.of_nat (length v))) :: v :: st)
  | OP_EQUALVERIFY, a :: b :: st => if decide (a = b) then Some st else None
  | OP_HASH160, v :: st => Some (dhash160 v :: st)
  | OP_CHECKSIG, pub :: sig :: st =>
      b ← demo_check_sig ck sv code sig pub; Some (bool_element b :: st)
  | OP_CHECKSIGVERIFY, pub :: sig :: st =>
      b ← demo_check_sig ck sv code sig pub; if (b : bool) then Some st else None
  | OP_CHECKLOCKTIMEVERIFY, _ => if demo_cltv ck st then Some st else None
  | _, _ => None
  end.

Definition demo_step (ck : SignatureChecker) (sv : SignatureVersion) (code : Script)
  (i : Instruction) (s : EvalState) : option EvalState :=
  let cs := conds s in
  let st := stack s in
  match data i, opcode i with
  | Some d, _ =>
      if (length d <=? 520)%nat
      then Some (mkEval (if active cs then d :: st else st) cs) else None
  | None, OP_IF =>
      if active cs then match st with
                        | v :: st => Some (mkEval st (cast_to_bool v :: cs))
                        | [] => None
                        end
      else Some (mkEval st (false :: cs))
  | None, OP_ELSE => match cs with c :: cs => Some (mkEval st (negb c :: cs)) | [] => None end
  | None, OP_ENDIF => match cs with _ :: cs => Some (mkEval st cs) | [] => None end
  | None, o => if active cs then st' ← demo_op ck sv code o st; Some (mkEval st' cs)
               else Some s
  end.

Lemma demo_check_sig_sound ck sv code sig pub :
  demo_check_sig ck sv code sig pub = Some true ->
  exists s ht p code', sig = s ++ [ht] /\ public_from_slice pub = Ok p /\
    check_signature ck s p code' ht sv = Some true /\
    (sig ∉ pushed_data code -> code' = code).
Proof.
  unfold demo_check_sig. destruct (public_from_slice pub) as [p|] eqn:Ep; [|done].
  destruct (rev sig) as [|ht s] eqn:Es; [done|].
  destruct (sighash_is_defined sv ht); [|done]. intros [= Hb%bool_decide_eq_true].
  exists (rev s), ht, p, code. split_and!; try done.
  rewrite <- (rev_involutive sig), Es. done.
Qed.

Lemma demo_check_sig_complete ck sv code (s : list Z) ht p :
  sighash_is_defined sv ht = true -> public_ok p ->
  check_signature ck s p code ht sv = Some true ->
  demo_check_sig ck sv code (s ++ [ht]) (pub_bytes p) = Some true.
Proof.
  intros Hd Hp Hc. unfold demo_check_sig. rewrite public_from_slice_bytes by done.
  rewrite rev_app_distr. simpl. rewrite Hd, rev_involutive. by rewrite bool_decide_eq_true_2.
Qed.

Program Definition demo_engine_def : ScriptEngine := {|
  eval_step := demo_step;
  check_sig := demo_check_sig;
  require_minimal := true |}.
Next Obligation.
  intros. unfold demo_step. simpl. by rewrite (proj2 (Nat.leb_le _ _)), H0 by lia.
Qed.
Next Obligation.
  intros. unfold demo_step. simpl. by rewrite (proj2 (Nat.leb_le _ _)), H0 by lia.
Qed.
Next Obligation.
  intros. unfold demo_step. simpl. by rewrite (proj2 (Nat.leb_gt _ _)) by lia.
Qed.
Next Obligation.
  intros ck sv code o n st cs st' Ho Hc. unfold demo_step. simpl. rewrite Hc.
  destruct o; try discriminate Ho; simpl; try done. intros [= <-]. exists [1]. simpl. split; [lia|done].
Qed.
Next Obligation. intros ck sv code o st cs Hp Hc. destruct o; try discriminate Hp; unfold demo_step; simpl; by rewrite Hc. Qed.
Next Obligation. intros. unfold demo_step. simpl. by rewrite H. Qed.
Next Obligation. done. Qed.
Next Obligation. done. Qed.
Next Obligation. done. Qed.
Next Obligation. intros. unfold demo_step. simpl. rewrite H. by destruct st. Qed.
Next Obligation. intros. unfold demo_step. simpl. rewrite H. by destruct st. Qed.
Next Obligation. intros. unfold demo_step. simpl. rewrite H. destruct st as [|a [|b st]]; simpl; try done. by case_decide. Qed.
Next Obligation. intros. unfold demo_step. simpl. rewrite H. by destruct st. Qed.
Next Obligation.
  intros. unfold demo_step. simpl. rewrite H. destruct st as [|a [|b st]]; simpl; try done.
  by destruct (demo_check_sig _ _ _ _ _).
Qed.
Next Obligation.
  intros. unfold demo_step. simpl. rewrite H. destruct st as [|a [|b st]]; simpl; try done.
  by destruct (demo_check_sig _ _ _ _ _) as [[]|].
Qed.
Next Obligation.
  intros. unfold demo_step. simpl. rewrite H. destruct st as [|v st]; simpl; [done|].
  destruct (num_from_slice v true 5) as [n|]; simpl; [|done].
  destruct (num_is_negative n); simpl; [done|]. case_decide; simpl.
  - by rewrite bool_decide_eq_true_2.
  - by rewrite bool_decide_eq_false_2.
Qed.
Next Obligation. exact demo_check_sig_sound. Qed.
Next Obligation. intros. by apply demo_check_sig_complete. Qed.
#[export] Instance demo_engine : ScriptEngine := demo_engine_def.

#[export] Program Instance demo_to_u64 : ToU64 := {|
  to_u64 := fun q => let z := Qround.Qfloor q in if is_uintb 64 z then Some z else None |}.
Next Obligation.
  intros q z. simpl. destruct (is_uintb 64 (Qround.Qfloor q)) eqn:E; [|done]. intros [= <-].
  by apply is_uintb_spec.
Qed.

(** ** Two wallets and a payment *)

Definition demo_private (b : bool) : Private := mkPrivate 188 ((if b then 1 else 0) :: zeros 31) true DSHA256.
Definition demo_public (b : bool) : Public := Compressed (demo_pk_bytes b).
Definition demo_pair (b : bool) : KeyPair := mkKeyPair (demo_private b) (demo_public b).

Lemma demo_pair_ok b : from_private (demo_private b) = Ok (demo_pair b).
Proof. by destruct b. Qed.

Definition demo_coin (b : bool) : UtxoCoin :=
  mkUtxoCoin "KMD" 4 true 0x892f2085 0x76b809bb true false false Base 0 TxDSHA256 1000 8 false false
    (Iguana (demo_pair b)).

Definition demo_address (b : bool) : ScriptAddress :=
  new_p2pkh (AddressHash (dhash160 (demo_pk_bytes b))).

Definition demo_script (b : bool) : Script :=
  default [] (build_p2pkh (AddressHash (dhash160 (demo_pk_bytes b)))).

Definition demo_net (b : bool) : Net :=
  mkNet 1700000000 (Ok 1699996000) (fun _ => Ok 1000) (Ok (demo_address b)) (fun _ => Ok tt) (fun _ => Ok tt).

Definition demo_secret : list Z := replicate 32 7.
Definition demo_hash : list Z := dhash160 demo_secret.

(** A transaction that pays 100000 to [script]. *)
Definition demo_payment (script : Script) : Transaction :=
  mkTransaction 4 None true 0x892f2085
    [mkTransactionInput (mkOutPoint (replicate 32 9) 0) [] SEQUENCE_FINAL []]
    [mkTransactionOutput 100000 script] 0 0 [] [] [] 0 H256_default H512_default H512_default
    true false None TxDSHA256 None.

#[export] Instance demo_decimal : DecimalConv := exact_decimal.
