(* ===== verification/UtxoTheorems.v ===== *)
(** * Properties of the payments of UTXO coins

    What may be done with a payment, that the wallet's own spends and refunds
    are accepted by the network, that the two sides' signatures fit together,
    and how the secret reaches the other side. *)

From Stdlib Require Import QArith.
From S2P Require Import Prelude F64 MmNumber DexFee Effects Swap SwapWatcher SwapV2 Opcode Keys Script ScriptProps Serialization Transaction TransactionProps Sign ScriptEngine HtlcScripts UtxoHtlc UtxoValidate UtxoFee UtxoV2 UtxoSpendProps UtxoReadProps UtxoV2Props DemoUtxo.
Local Open Scope Z_scope.
Local Open Scope result_scope.

(** ** What the wallet brings to a spend *)


Section Wallet.
  Context `{ByteOrder} `{BitCrypto} `{Blake2b} `{!Secp256k1} `{!ScriptEngine}.
  Context (wc : TransactionInputSigner -> Transaction -> Script -> Script -> result string Transaction).






End Wallet.

(** ** Who may spend a payment *)

Section Policy.
  Context `{ByteOrder} `{BitCrypto} `{Blake2b} `{!Secp256k1} `{!ScriptEngine}.

(** C13: the scripts of the payments implement their policy.  For each of the four
    types of payment the builder makes a script, and on any stack a node of the
    network accepts this script exactly when the stack takes one of the ways to
    spend that the policy lists: the selectors of the way, its lock time
    reached, its secret of 32 bytes and a signature of each of its keys. *)
Theorem htlc_policy self tl my other :
  tx_type_fits self -> public_ok my -> public_ok other ->
  exists redeem, redeem_script self tl my other = Some redeem /\
    forall ck sv st, top_true (eval_script ck sv redeem st) =
      existsb (fun p => path_ok ck sv redeem p st) (policy self tl my other).
Proof.
  intros Hs Hm Ho. destruct (redeem_script_some self tl my other Hs Hm Ho) as (redeem & Hr & _).
  exists redeem. split; [done|]. intros. by apply redeem_accepts.
Qed.


(** C37: a refund lock time from 2038 on, which is above 2^31, is read by the
    network as a negative number: whatever the stack, no way of the script that
    begins with the selector of the refund is accepted, by any checker at any
    time.  The payment can then only be spent with the secret. *)
Theorem refund_after_2038 self tl my other redeem ck sv v st :
  tx_type_fits self -> public_ok my -> public_ok other -> 2 ^ 31 < tl < 2 ^ 32 ->
  redeem_script self tl my other = Some redeem -> cast_to_bool v = true ->
  top_true (eval_script ck sv redeem (v :: st)) = false.
Proof.
  intros Hs Hm Ho Htl Hr Hv. rewrite (redeem_accepts self tl my other) by done.
  destruct self; cbn -[path_ok]; unfold path_ok; cbn [selector take_selectors];
    rewrite Hv; cbn [Bool.eqb]; simpl; by rewrite (cltv_ok_late ck tl Htl).
Qed.

(** ** The secret reaches the other side *)

(** C12: when the network lets a transaction spend a payment that is not a refund,
    because it is locked until an earlier time than the payment or its input is final,
    and pushes its data in the shortest way, as all spends of the program do, [extract_secret_v2] returns the secret, whatever other inputs the
    transaction has: the other side can spend its own payment.  The only other
    possibility is a second script with the same hash. *)
Theorem secret_extracted coin t amounts idx self tl my other redeem sh :
  self = TakerOrMakerPayment sh \/ (exists x, self = TakerPaymentV2 sh x) ->
  hash_short sh -> public_ok my -> public_ok other -> 0 <= tl < 2 ^ 31 ->
  redeem_script self tl my other = Some redeem ->
  lock_time t < tl \/ (exists i, inputs t !! idx = Some i /\ sequence i = SEQUENCE_FINAL) ->
  Forall (fun i => bytes_ok (script_sig i) /\ pushes_32_short (script_sig i)) (inputs t) ->
  input_accepted coin t amounts idx (dhash160 redeem) = true ->
  (exists s', s' <> redeem /\ dhash160 s' = dhash160 redeem) \/
  exists secret, extract_secret_v2 sh t = Some (Ok secret) /\ length secret = 32%nat /\
    dhash160 secret = script_secret_hash sh.
Proof.
  intros Hself Hs Hm Ho Htl Hr Hlt Hb. unfold input_accepted.
  destruct (inputs t !! idx) as [i|] eqn:Eidx; [|done].
  destruct (amounts !! idx) as [a|] eqn:Ea; [|done].
  pose proof (list_elem_of_lookup_2 _ _ _ Eidx) as Ei. intros Ha.
  assert (Hf : tx_type_fits self).
  { apply tx_type_short_fits. by destruct Hself as [-> |(? & ->)]. }
  apply (accepted_takes _ _ _ _ _ self tl my other) in Ha as [?|(ins & p & Hi & Hp & Ht)]; try done; [by left|].
  right. rewrite Forall_forall in Hb. destruct (Hb i Ei) as [_ Hshort].
  assert (Hcase : after p = Some tl \/ secret_of p = Some (script_secret_hash sh)).
  { destruct Hself as [-> |(? & ->)]; simpl in Hp; set_unfold; destruct Hp as [-> |[-> |[]]]; auto. }
  destruct Ht as (Hafter & Hsec & _). destruct Hcase as [Hc|Hc].
  { destruct (Hafter _ Hc) as [Hle (x & Hx & Hseq)].
    unfold net_signer, set_signer_inputs in Hle, Hx. simpl in Hle, Hx.
    destruct Hlt as [Hlt|(i' & [= ->] & Hfin)]; [lia|].
    rewrite lookup_zip_with, list_lookup_fmap, Eidx, Ea in Hx. injection Hx as <-. done. }
  destruct (Hsec _ Hc) as (x & secret & Hin & Hd & Hl & Hh).
  eapply (extract_secret_found sh t i _ x secret); [done| |done|exact Hi| |done| |done].
  - apply Forall_forall. intros j Hj. by apply Hb.
  - by apply list_elem_of_fmap_2.
  - eapply Hshort; [exact Hi| |done|done]. by apply list_elem_of_fmap_2.
Qed.

(** A spend with the secret, pushed as the program pushes it or with an opcode
    that counts the bytes in a byte of its own. *)
Definition secret_push (counted : bool) (secret : list Z) : Instruction :=
  if counted then mkInstruction OP_PUSHDATA1 34 (Some secret) else action_instr (AData secret).

Definition secret_spend (counted : bool) (sig secret redeem : list Z) : list Instruction :=
  [action_instr (AData sig); secret_push counted secret; action_instr (AOp OP_0);
   action_instr (AData redeem)].

Lemma data_pushes d : (length d <= 520)%nat -> pushes (action_instr (AData d)) d.
Proof.
  intros Hd. split_and!; [apply action_instr_ok; simpl; lia|by apply (push_action_ok (AData d))|done|done].
Qed.

Lemma secret_spend_pushes counted sig secret redeem :
  (length sig <= 73)%nat -> length secret = 32%nat -> (length redeem <= 520)%nat ->
  Forall2 pushes (secret_spend counted sig secret redeem) [sig; secret; []; redeem].
Proof.
  intros Hs Hl Hr. unfold secret_spend, secret_push.
  constructor; [apply data_pushes; lia|]. constructor.
  { destruct counted; [|apply data_pushes; lia]. split_and!; try done; [|simpl; lia].
    split; unfold encode; simpl; lia. }
  constructor; [by split_and!; try done; simpl; lia|].
  constructor; [by apply data_pushes|done].
Qed.

(** C38: the secret can be hidden from the other side.  A spend may push the secret
    with [OP_PUSHDATA1]; to the script this is the same spend, so the network
    accepts it whenever it accepts the usual one, but [extract_secret_v2], which
    looks for [OP_PUSHBYTES_32] only, does not find the secret in it while it
    finds it in the usual one. *)
Theorem secret_push_hidden ck sv hash sh sig secret redeem t t' :
  hash_short sh -> (length sig <= 73)%nat -> length sig <> 32%nat -> length secret = 32%nat ->
  (length redeem <= 520)%nat -> length redeem <> 32%nat -> dhash160 secret = script_secret_hash sh ->
  map script_sig (inputs t) = [concat (map encode (secret_spend true sig secret redeem))] ->
  map script_sig (inputs t') = [concat (map encode (secret_spend false sig secret redeem))] ->
  p2sh_accepts ck sv hash (concat (map encode (secret_spend true sig secret redeem))) =
    p2sh_accepts ck sv hash (concat (map encode (secret_spend false sig secret redeem))) /\
  extract_secret_v2 sh t = Some (Err "Couldn't extract secret"%string) /\
  extract_secret_v2 sh t' = Some (Ok secret).
Proof.
  intros Hs Hsl Hs32 Hl Hrl Hr32 Hh Ht Ht'.
  pose proof (secret_spend_pushes true sig secret redeem Hsl Hl Hrl) as Hp.
  pose proof (secret_spend_pushes false sig secret redeem Hsl Hl Hrl) as Hp'.
  split; [by rewrite (p2sh_accepts_pushes _ _ _ _ _ Hp), (p2sh_accepts_pushes _ _ _ _ _ Hp')|].
  assert (Hnot : forall d, (length d <= 520)%nat -> length d <> 32%nat ->
            pushed_secret (script_secret_hash sh) (Ok (action_instr (AData d))) = None).
  { intros d Hd Hd32. unfold pushed_secret, action_instr.
    destruct (push_op (Z.of_nat (length d))) eqn:Eo; try done. exfalso.
    assert (Hi : instr_ok (action_instr (AData d))) by (apply action_instr_ok; simpl; lia).
    destruct Hi as [_ Hi]. simpl in Hi. rewrite Eo in Hi. simpl in Hi. lia. }
  assert (Hins : forall c, iter (concat (map encode (secret_spend c sig secret redeem))) =
            Some (map Ok (secret_spend c sig secret redeem))).
  { intros c. apply iter_encode. pose proof (secret_spend_pushes c sig secret redeem Hsl Hl Hrl) as Hc.
    clear -Hc. induction Hc as [|? ? ? ? (? & _) _ IH]; by constructor. }
  unfold extract_secret_v2. rewrite expected_secret_hash_short by done. cbn [pbind].
  destruct (inputs t) as [|i [|? ?]]; try discriminate Ht.
  destruct (inputs t') as [|i' [|? ?]]; try discriminate Ht'.
  apply (f_equal (hd [])) in Ht, Ht'.
  change (script_sig i = concat (map encode (secret_spend true sig secret redeem))) in Ht.
  change (script_sig i' = concat (map encode (secret_spend false sig secret redeem))) in Ht'.
  cbn [secret_of_inputs]. rewrite Ht, Ht', !Hins. cbn [mbind option_bind].
  unfold secret_spend, secret_push. cbn [map first_some].
  rewrite !(Hnot sig), !(Hnot redeem) by (lia || done). cbn [pushed_secret action_instr].
  rewrite Hl. cbn. by rewrite decide_True.
Qed.
End Policy.

(** ** The two sides of the second protocol *)

Section V2.
  Context `{ByteOrder} `{BitCrypto} `{Blake2b} `{!Secp256k1} `{!ScriptEngine} `{ToU64} `{DecimalConv}.




(** ** Validation of a payment *)

(** C39: with a watcher reward, [validate_payment] accepts a payment of less than the
    amount.  It subtracts the amount from the value of the output to get the
    reward; for a smaller value the difference wraps around to nearly 2^64, more
    than any reward that is asked for.  So every output to the right script
    passes whatever its value below the amount. *)
Theorem underpaid_payment_valid coin chain tx my other ty amount sat reward reward_sat tl until redeem script value rest :
  sat_from_big_decimal amount (c_decimals coin) = Ok sat ->
  sat_from_big_decimal (Swap.wr_amount reward) (c_decimals coin) = Ok reward_sat ->
  redeem_script ty tl my other = Some redeem -> build_p2sh (AddressHash (dhash160 redeem)) = Some script ->
  outputs tx = mkTransactionOutput value script :: rest ->
  get_transaction_bytes chain 0 (tx_hash tx) = Ok (serialize tx) ->
  is_u64 value -> is_u64 sat -> value < sat ->
  get_reward_lower_boundary reward_sat <= 2 ^ 64 - sat ->
  validate_payment coin chain tx DEFAULT_SWAP_VOUT my other ty amount (Some reward) tl until 0 = Some (Ok tt).
Proof.
  intros Hs Hrs Hr Hb Hout Hbytes Hv Hsat Hlt Hbound. unfold validate_payment.
  rewrite Hs. cbn [num_err map_err pbind]. rewrite Hr. cbn [mbind option_bind].
  unfold retry_bytes. rewrite Hbytes. cbn [map_err pbind].
  assert (same_tx_bytes tx (serialize tx) = true) as ->.
  { unfold same_tx_bytes. by rewrite bool_decide_eq_true_2. }
  cbn [negb]. rewrite Hb. cbn [mbind option_bind]. rewrite Hout.
  cbn [DEFAULT_SWAP_VOUT lookup list_lookup ok_or result_bind script_pubkey].
  rewrite bool_decide_eq_true_2 by done. cbn [negb out_value]. rewrite Hrs. cbn [num_err map_err result_bind].
  assert (wrap 64 (value - sat) = 2 ^ 64 + value - sat) as ->.
  { unfold wrap, is_uint in *. rewrite <- (Z.mod_add _ 1), Z.mod_small by lia. lia. }
  unfold validate_watcher_reward. unfold is_uint in *.
  rewrite (proj2 (Z.ltb_ge _ _)) by lia. cbn [result_bind]. unfold spv_check. by rewrite andb_false_r.
Qed.

(** ** Transactions *)

End V2.

(** ** The properties on values *)


Definition demo_wc (u : TransactionInputSigner) (t : Transaction) (s s' : Script)
  : result string Transaction := Err "no wallet"%string.

(** The taker pays, the maker's wallet spends. *)
Definition demo_redeem : Script :=
  default [] (payment_script 1700000000 demo_hash (demo_public false) (demo_public true)).

Definition demo_prev : Transaction :=
  demo_payment (default [] (build_p2sh (AddressHash (dhash160 demo_redeem)))).

Definition demo_spend_args : Swap.SpendPaymentArgs :=
  Swap.mkSpendPayment (serialize demo_prev) 1700000000 (demo_pk_bytes false) demo_secret demo_hash
    None [] false.


Definition demo_refund_redeem : Script :=
  default [] (payment_script 1700000000 demo_hash (demo_public true) (demo_public false)).



Lemma htlc_policy_witness : exists redeem,
  redeem_script (TakerOrMakerPayment demo_hash) 1700000000 (demo_public true) (demo_public false) = Some redeem /\
  forall ck sv st, top_true (eval_script ck sv redeem st) =
    existsb (fun p => path_ok ck sv redeem p st)
      (policy (TakerOrMakerPayment demo_hash) 1700000000 (demo_public true) (demo_public false)).
Proof.
  apply (htlc_policy (TakerOrMakerPayment demo_hash) 1700000000 (demo_public true) (demo_public false)).
  - unfold tx_type_fits, hash_fits. vm_compute. repeat constructor.
  - reflexivity.
  - reflexivity.
Defined.

(** The spend of the witness above. *)
Definition sent (r : option (result TransactionErr Transaction)) : Transaction :=
  match r with Some (Ok t) => t | _ => demo_payment [] end.

Definition demo_spend : Transaction :=
  sent (send_spends_payment demo_wc (demo_coin true) (demo_net true) demo_spend_args).


Definition demo_late_redeem : Script :=
  default [] (payment_script 2200000000 demo_hash (demo_public true) (demo_public false)).

Lemma refund_after_2038_witness :
  top_true (eval_script (checker_of (signer_from_tx demo_spend) 0 100000) Base demo_late_redeem
              ([1] :: [[0x30]])) = false.
Proof.
  apply (refund_after_2038 (TakerOrMakerPayment demo_hash) 2200000000 (demo_public true)
    (demo_public false) demo_late_redeem).
  - unfold tx_type_fits, hash_fits. vm_compute. repeat constructor.
  - reflexivity.
  - reflexivity.
  - lia.
  - vm_compute. reflexivity.
  - reflexivity.
Defined.

Definition short_instruction (r : result Script.Error Instruction) : bool :=
  match r with
  | Ok (mkInstruction o _ (Some d)) =>
      negb (length d =? 32)%nat || bool_decide (o = OP_PUSHBYTES_32)
  | _ => true
  end.

Lemma short_check s l :
  iter s = Some l -> forallb short_instruction l = true -> pushes_32_short s.
Proof.
  intros Hi Hf l' i d Hi' Hin Hd Hl. rewrite Hi in Hi'. injection Hi' as <-.
  rewrite forallb_forall in Hf. apply list_elem_of_In, Hf in Hin. destruct i as [o n x]. simpl in *. subst x.
  rewrite Hl in Hin. by apply bool_decide_eq_true in Hin.
Qed.

Lemma secret_extracted_witness :
  (exists s', s' <> demo_redeem /\ dhash160 s' = dhash160 demo_redeem) \/
  exists secret, extract_secret_v2 demo_hash demo_spend = Some (Ok secret) /\ length secret = 32%nat /\
    dhash160 secret = script_secret_hash demo_hash.
Proof.
  apply (secret_extracted (demo_coin true) demo_spend [100000] 0 (TakerOrMakerPayment demo_hash)
    1700000000 (demo_public false) (demo_public true) demo_redeem demo_hash).
  - left. reflexivity.
  - left. vm_compute. reflexivity.
  - reflexivity.
  - reflexivity.
  - lia.
  - vm_compute. reflexivity.
  - right. eexists. split; vm_compute; reflexivity.
  - assert (He : exists i, inputs demo_spend = [i]) by (eexists; vm_compute; reflexivity).
    apply Forall_forall. intros i Hi. split.
    + assert (Hb : forallb (fun i => forallb (is_uintb 8) (script_sig i)) (inputs demo_spend) = true)
        by (vm_compute; reflexivity).
      rewrite forallb_forall in Hb. apply list_elem_of_In, Hb in Hi.
      apply Forall_forall. intros x Hx. rewrite forallb_forall in Hi.
      apply is_uintb_spec. apply Hi. by apply list_elem_of_In.
    + destruct (iter_from_some (length (script_sig i)) (script_sig i) 0) as [l Hl].
      apply (short_check _ l Hl).
      assert (Hb : forallb (fun i => match iter (script_sig i) with
                                     | Some l => forallb short_instruction l
                                     | None => false end) (inputs demo_spend) = true)
        by (vm_compute; reflexivity).
      rewrite forallb_forall in Hb. apply list_elem_of_In, Hb in Hi.
      change (iter (script_sig i) = Some l) in Hl. by rewrite Hl in Hi.
  - vm_compute. reflexivity.
Defined.

Definition with_script (t : Transaction) (s : Script) : Transaction :=
  set_inputs t (map (fun i => set_script_sig i s) (inputs t)).

Definition demo_sig : list Z := 0x30 :: zeros 70.
Definition hidden_script (counted : bool) : Script :=
  concat (map encode (secret_spend counted demo_sig demo_secret demo_redeem)).

Lemma secret_push_hidden_witness :
  p2sh_accepts (checker_of (signer_from_tx demo_spend) 0 100000) Base (dhash160 demo_redeem) (hidden_script true) =
    p2sh_accepts (checker_of (signer_from_tx demo_spend) 0 100000) Base (dhash160 demo_redeem) (hidden_script false) /\
  extract_secret_v2 demo_hash (with_script demo_spend (hidden_script true)) = Some (Err "Couldn't extract secret"%string) /\
  extract_secret_v2 demo_hash (with_script demo_spend (hidden_script false)) = Some (Ok demo_secret).
Proof.
  apply (secret_push_hidden (checker_of (signer_from_tx demo_spend) 0 100000) Base (dhash160 demo_redeem)
    demo_hash demo_sig demo_secret demo_redeem).
  - left. vm_compute. reflexivity.
  - apply Nat.leb_le. vm_compute. reflexivity.
  - vm_compute. discriminate.
  - vm_compute. reflexivity.
  - apply Nat.leb_le. vm_compute. reflexivity.
  - vm_compute. discriminate.
  - vm_compute. reflexivity.
  - vm_compute. reflexivity.
  - vm_compute. reflexivity.
Defined.











Definition demo_chain (t : Transaction) : Chain :=
  mkChain (fun _ _ => Ok (serialize t)) (fun _ _ => Err "not asked"%string) (Ok 1000)
    (fun _ _ _ _ => Ok None) (fun _ _ => Ok tt).

Lemma underpaid_payment_valid_witness :
  let paid := demo_payment (default [] (build_p2sh (AddressHash (dhash160 demo_refund_redeem)))) in
  validate_payment (demo_coin false) (demo_chain paid) paid 0 (demo_public true) (demo_public false)
    (TakerOrMakerPayment demo_hash) 1%Q (Some (Swap.mkWatcherReward (1 # 100)%Q false 0 false))
    1700000000 0 0 = Some (Ok tt).
Proof.
  intros paid.
  apply (underpaid_payment_valid (demo_coin false) (demo_chain paid) paid (demo_public true) (demo_public false)
    (TakerOrMakerPayment demo_hash) 1%Q 100000000 (Swap.mkWatcherReward (1 # 100)%Q false 0 false) 1000000
    1700000000 0 demo_refund_redeem (script_pubkey (hd output_default (outputs paid))) 100000 []).
  all: first [vm_compute; reflexivity | unfold is_uint; lia | vm_compute; discriminate].
Defined.


