(* ===== verification/UtxoBuilderTheorems.v ===== *)
(** * Properties of the transactions of a UTXO wallet

    That a built transaction balances and pays its fee, that building returns,
    that the cache of spent outputs never offers one again and keeps the change,
    and that sends do not conflict. *)

From Stdlib Require Import QArith SpecFloat.
From stdpp Require Import gmap.
From S2P Require Import Prelude F64 MmNumber DexFee Swap SwapV2 Opcode Keys Script Serialization Transaction Sign ScriptEngine HtlcScripts UtxoHtlc UtxoValidate UtxoV2 UtxoTxBuilder UtxoBuilderProps RecentlySpent UtxoSend DemoUtxo UtxoTheorems.
Local Open Scope Z_scope.
Local Open Scope result_scope.

(** What a build needs to know: the address of the change and its script, the
    rate of the fee and that of the relay. *)
Record build_ready `{ByteOrder} `{ToU64} (coin : UtxoCoin) (conf : FeeConf) (n : BuildNet)
  (b : UtxoTxBuilder) (from : Address) (script : Script) (rate : ActualFeeRate) (relay : option Z)
  : Prop := mkReady {
  br_from : t_from b = Some from;
  br_script : output_script (a_script from) = Some (Ok script);
  br_rate : match t_fee b with Some fee => fee = rate | None => get_fee_rate conf n = Ok rate end;
  br_relay : get_min_relay_rate coin conf n = Ok relay;
  br_bounds : build_bounds coin n b script rate relay }.

Section Builder.
  Context `{ByteOrder} `{ToU64}.

Lemma build_loop_of coin conf n b from script rate relay :
  build_ready coin conf n b from script rate relay ->
  build coin conf n b =
    (if is_nil (t_outputs b) then Some (Err EmptyOutputs)
     else let! _ := validate_not_dust coin b in
       if is_nil_both (t_available_inputs b) (s_inputs (t_tx b))
       then Some (Err (EmptyUtxoSet (required_amount b 0)))
       else let! s := build_loop (build_fuel b) coin n b (a_format from) script rate relay 0
                        (mkBuildState (t_tx b) 0 0 0 0) in
            let! fee_amount := Some (tx_fee_fact b s) in
            Some (Ok (bs_tx s, mkTxData (sum_received_by_me script (bs_tx s)) (bs_sum_inputs s)
                                 fee_amount (make_kmd_rewards_data coin (bs_interest s))))).
Proof.
  intros [Hf Hs Hr Hrel _]. unfold build. rewrite Hf. cbn [ok_or pbind].
  unfold output_script_gen. rewrite Hs. cbn [mbind option_bind map_err pbind].
  rewrite Hrel. cbn [map_err pbind].
  assert (match t_fee b with Some fee => Ok fee | None => map_err gen_of_rpc (get_fee_rate conf n) end = Ok rate) as ->
    by (destruct (t_fee b); [by rewrite Hr|by rewrite Hr]). done.
Qed.

Lemma framed_start b : is_u32 (s_lock_time (t_tx b)) -> framed b (mkBuildState (t_tx b) 0 0 0 0).
Proof.
  intros Hl. exists (s_inputs (t_tx b)), (s_outputs (t_tx b)), (s_lock_time (t_tx b)).
  split; [|done]. cbn [bs_tx]. by destruct (t_tx b).
Qed.

(** C31: a transaction that [build] makes balances.  Its inputs are the required
    ones and the first of the available ones; its outputs are the given ones (the
    fee taken from the one that pays it), and perhaps one more, of at least
    [dust], to the wallet.  What the inputs and the interest of KMD bring is
    exactly what the outputs, the gas and the fee take, the interest is at most a
    twentieth of the inputs, and the fee is at least that of the transaction's
    size at the rate of the wallet and at the rate of the relay. *)
Theorem built_transaction_pays coin conf n b from script rate relay tx data :
  build_ready coin conf n b from script rate relay ->
  build coin conf n b = Some (Ok (tx, data)) ->
  exists taken outs tail fee interest,
    taken `prefix_of` t_available_inputs b /\
    s_inputs tx = map unsigned_of_unspent (t_required_inputs b ++ taken) /\
    s_outputs tx = outs ++ tail /\ paying coin b fee = Some outs /\
    (tail = [] \/ exists change, tail = [mkTransactionOutput change script] /\ dust coin b <= change) /\
    0 <= 20 * interest <= total un_value (t_required_inputs b ++ taken) /\
    spent_by_me data = total un_value (t_required_inputs b ++ taken) /\
    spent_by_me data + interest = total out_value (s_outputs tx) + gas b + fee_amount data /\
    get_tx_fee rate (tx_size_in_v_bytes (a_format from) (tx_from_signer tx)) <= fee_amount data /\
    match relay with
    | Some z => get_tx_fee (Dynamic z) (tx_size_in_v_bytes (a_format from) (tx_from_signer tx)) <= fee_amount data
    | None => True
    end.
Proof.
  intros Hr Hbuild. rewrite (build_loop_of _ _ _ _ _ _ _ _ Hr) in Hbuild. destruct Hr as [_ _ _ _ Hb].
  destruct (is_nil (t_outputs b)); [done|].
  destruct (validate_not_dust coin b) as [[[]|]|]; cbn [pbind] in Hbuild; [|done..].
  destruct (is_nil_both _ _); [done|].
  destruct (build_loop _ _ _ _ _ _ _ _ _ _) as [[s|]|] eqn:El; cbn [pbind] in Hbuild; [|done..].
  eapply loop_made in El as (r & f & Hm); [|exact Hb|apply framed_start, Hb|simpl; lia].
  destruct Hm as (taken & lock & f0 & outs & tail & Hp & Hl & Hsi & Hreq & _ & Hi & _ & Hf0 & Hpay & Htx & Htail & Hso & Hsor & Hfee & Hfr & Hd).
  symmetry in Hd. apply Z.leb_le in Hd. pose proof (bb_gas _ _ _ _ _ _ Hb) as Hg.
  pose proof (value_of_range _ _ _ _ _ _ Hb taken Hp) as HV.
  unfold tx_fee_fact in Hbuild. fold (gas b) in Hbuild. rewrite Hsi, wrap_id in Hbuild by (unfold is_uint; lia).
  unfold checked_sub in Hbuild.
  destruct (Z.leb_spec (gas b) (total un_value (t_required_inputs b ++ taken) + bs_interest s)); [|lia].
  cbn [ok_or result_bind] in Hbuild.
  destruct (Z.leb_spec (bs_sum_outputs s) (total un_value (t_required_inputs b ++ taken) + bs_interest s - gas b)); [|lia].
  cbn [ok_or pbind] in Hbuild. injection Hbuild as <- <-. cbn [spent_by_me fee_amount].
  pose proof (relay_fee_max rate relay (tx_size_in_v_bytes (a_format from) (tx_from_signer (bs_tx s)))) as Hmax.
  unfold update_tx_fee in Hfee. rewrite <- Hfee in Hmax.
  assert (Htxo : total out_value (s_outputs (bs_tx s)) = bs_sum_outputs s) by (by rewrite Hso, Htx).
  exists taken, outs, tail, (f0 + gas b), (bs_interest s). rewrite Htxo.
  split_and!; try done; try lia; try (by rewrite Htx).
  - destruct Htail as [[-> _]|(-> & _ & Hdu)]; [by left|]. right. by eexists.
  - destruct relay; [lia|done].
Qed.

Lemma is_op_return_total script : exists r, is_op_return script = Some r.
Proof.
  unfold is_op_return, opcodes_next. destruct script as [|x l]; [by eexists|].
  cbn [length Nat.leb]. assert (exists i, get_instruction_at (x :: l) 0 = Some i) as [[i|e] ->]; [|by eexists..].
  unfold get_instruction_at, get_opcode. by eexists.
Qed.

(** C32: [build] returns.  Whatever the chain answers in each round, the loop
    ends, after at most two rounds more than there are available inputs; nothing
    panics when the clock fits its type and the output that is to pay the fee
    exists. *)
Theorem build_returns coin conf n b from script rate relay :
  build_ready coin conf n b from script rate relay -> calls_ok n b ->
  exists res, build coin conf n b = Some res.
Proof.
  intros Hr Hc. rewrite (build_loop_of _ _ _ _ _ _ _ _ Hr). destruct Hr as [_ _ _ _ Hb].
  destruct (is_nil (t_outputs b)); [by eexists|].
  assert (exists res, validate_not_dust coin b = Some res) as [res ->].
  { unfold validate_not_dust. generalize (dust coin b) as d. intros d.
    induction (t_outputs b) as [|o outs IH]; [by eexists|]. cbn [not_dust_loop].
    destruct (is_op_return_total (script_pubkey o)) as [r ->].
    cbn [mbind option_bind]. destruct (negb r && _); eauto. }
  destruct res as [[]|]; cbn [pbind]; [|by eexists]. destruct (is_nil_both _ _); [by eexists|].
  destruct (loop_returns coin n b (a_format from) script rate relay Hb (mkBuildState (t_tx b) 0 0 0 0)) as [res E];
    [apply framed_start, Hb|done|done|].
  rewrite E. destruct res as [s|]; cbn [pbind]; [|by eexists]. destruct (tx_fee_fact b s); cbn [pbind]; eauto.
Qed.
End Builder.

(** C33: what the cache of spent outputs offers.  After any history of sends, each
    with a new hash and with inputs that the cache offered, a list of outputs
    from the node is replaced, in the two rounds of [CACHE_ROUNDS], by one that
    holds no output that a send has spent, every other output of the list,
    nothing else than the wallet's own new outputs, and the change of every send
    that spent an output of the list, unless it is spent too. *)
Theorem cache_offers script h c listed :
  history script h c ->
  exists res, replace_spent_outputs_with_cache CACHE_ROUNDS c listed = Some res /\
    (forall u, u ∈ res -> ~ spent_in h (from_unspent_info u)) /\
    (forall u, u ∈ listed -> ~ spent_in h (from_unspent_info u) -> u ∈ res) /\
    (forall u, u ∈ res -> u ∈ listed \/
       exists o, made_in script h o /\ u = to_unspent_info script o) /\
    (forall e v o, e ∈ h -> v ∈ listed -> v ∈ sent_ins e ->
       o ∈ own_outputs script (sent_hash e) (sent_outs e) -> ~ spent_in h o ->
       to_unspent_info script o ∈ res).
Proof.
  intros Hh%history_invariant. destruct (replace_spent_spec c listed (ho_cache _ _ _ Hh)) as (res & Hres & Hin).
  rewrite (ho_script _ _ _ Hh) in Hin. exists res. split; [done|].
  assert (Hnew : forall o, o ∈ replacements c listed -> made_in script h o /\ ~ spent_in h o).
  { intros o (v & os & _ & Hos & Ho)%elem_of_replacements. split; [by eapply (ho_made _ _ _ Hh)|].
    rewrite <- (ho_spent _ _ _ Hh), (co_live c (ho_cache _ _ _ Hh) _ _ _ Hos Ho). by intros []. }
  split_and!.
  - intros u [[_ Hu]|(o & Ho & ->)]%Hin.
    + by rewrite <- (ho_spent _ _ _ Hh).
    + rewrite cached_of_cached. by apply Hnew.
  - intros u Hu Hs. apply Hin. left. split; [done|]. unfold is_cached. by rewrite (ho_spent _ _ _ Hh).
  - intros u [[Hu _]|(o & Ho & ->)]%Hin; [by left|]. right. exists o. split; [by apply Hnew|done].
  - intros e v o He Hv Hve Ho Hns. apply Hin. right. exists o. split; [|done].
    destruct (ho_kept _ _ _ Hh e (from_unspent_info v) o He) as (os & Hos & Hoo); [|done|done|].
    { unfold spends. apply elem_of_list_to_set, list_elem_of_fmap. by exists v. }
    apply elem_of_replacements. by exists v, os.
Qed.

Section Sends.
  Context `{ByteOrder} `{BitCrypto} `{Blake2b} `{Secp256k1} `{ToU64} `{DecimalConv}.
  Context (wc : TransactionInputSigner -> result string Transaction).

(** C34: sends do not conflict.  A wallet with a key of its own sends outputs after
    any history of sends: whatever the node still lists, no input of the new
    transaction was spent before, and the cache notes the transaction as the
    next send of the history, when its hash is new.  An output is told by
    its place and value, as the cache does. *)
Theorem sends_never_conflict coin conf sn script h c outs t c' :
  has_key coin -> lists_set (sn_set_order sn) -> history script h c ->
  send_outputs_from_my_address wc coin conf sn c outs = Some (Ok (t, c')) ->
  exists e, sent_hash e = tx_hash t /\ sent_outs e = outputs t /\
    map un_outpoint (sent_ins e) = map previous_output (inputs t) /\
    (forall u, u ∈ sent_ins e -> ~ spent_in h (from_unspent_info u)) /\
    (hash_new h e -> history script (e :: h) c').
Proof.
  intros Hk Ho Hh Hs. pose proof (history_invariant _ _ _ Hh) as Hok.
  apply send_outputs_takes in Hs as (unspents & taken & tail & addr & scr & Hu & Hp & Hin & _ & _ & _ & _ & _ & ->);
    [|done].
  pose proof (unspents_not_cached sn c unspents (ho_cache _ _ _ Hok) Ho Hu) as Hnc.
  destruct Hp as [k ->]. apply Forall_app in Hnc as [Hnc _].
  exists (mkSent (map (fun u => spent_unspent (unsigned_of_unspent u)) taken) (tx_hash t) (outputs t)).
  cbn [sent_hash sent_outs sent_ins].
  assert (Hf : Forall (fun u => ~ is_cached c u) (map (fun u => spent_unspent (unsigned_of_unspent u)) taken))
    by by apply Forall_map.
  split_and!; [done|done|by rewrite map_map, Hin| |].
  - intros u Hu'. rewrite <- (ho_spent _ _ _ Hok). by apply (proj1 (Forall_forall _ _) Hf).
  - intros Hn. by apply (hist_send script h c
      (mkSent (map (fun u => spent_unspent (unsigned_of_unspent u)) taken) (tx_hash t) (outputs t))).
Qed.

(** C35: a payment that one side sends is a payment that the other side accepts.
    When [send_maker_payment], or [send_taker_payment] with the reward in the
    amount, has sent a transaction, which the chain returns as it is, every
    wallet of the same coin that is given the same keys, hash, lock time and
    amount validates it, where no proof of inclusion is asked for. *)
Theorem sent_payment_is_valid coin conf sn c args amount t c' coin' chain until :
  has_key coin -> send_payment wc coin conf sn c args amount = Some (Ok (t, c')) ->
  c_decimals coin' = c_decimals coin -> get_transaction_bytes chain 0 (tx_hash t) = Ok (serialize t) ->
  exists pubkey my other, derive_htlc_pubkey coin (sp_swap_unique_data args) = Some pubkey /\
    public_from_slice pubkey = Ok my /\ public_from_slice (sp_other_pubkey args) = Ok other /\
    validate_payment coin' chain t DEFAULT_SWAP_VOUT my other
      (TakerOrMakerPayment (sp_secret_hash args)) amount None (sp_time_lock args) until 0 = Some (Ok tt).
Proof.
  intros Hk Hs Hdec Hbytes. unfold send_payment in Hs.
  destruct (derive_htlc_pubkey coin _) as [pubkey|] eqn:Ed; cbn [mbind option_bind] in Hs; [|done].
  destruct (try_into_u32 (sp_time_lock args)) as [tl|] eqn:Et; cbn [try_plain map_err pbind] in Hs; [|done].
  assert (tl = sp_time_lock args) as -> by (revert Et; unfold try_into_u32; destruct (is_uintb 32 _); congruence).
  destruct (public_from_slice pubkey) as [my|] eqn:Em; cbn [keys_plain map_err pbind] in Hs; [|done].
  destruct (generate_swap_payment_outputs coin _ _ _ _ _) as [[res|]|] eqn:Eg; cbn [mbind option_bind try_plain map_err pbind] in Hs; [|done..].
  assert (exists other, public_from_slice (sp_other_pubkey args) = Ok other) as [other Eo].
  { unfold generate_swap_payment_outputs in Eg. rewrite Em in Eg. cbn [map_err pbind] in Eg.
    destruct (public_from_slice (sp_other_pubkey args)); [by eexists|done]. }
  destruct (if c_native coin then _ else _); cbn [pbind] in Hs; [|done].
  apply send_outputs_takes in Hs as (unspents & taken & tail & addr & scr & _ & _ & _ & _ & _ & Hout & _); [|done].
  exists pubkey, my, other. split_and!; try done. by eapply made_payment_valid.
Qed.
End Sends.

(** ** Concrete inputs *)

Definition demo_utxo (k v : Z) : UnspentInfo :=
  mkUnspent (mkOutPoint (replicate 32 k) 0) v (Some 1000) (demo_script true).

(** A thousand satoshis per kilobyte, and as much from the relay. *)
Definition demo_conf : FeeConf := mkFeeConf (RateFixedPerKb 1000) true f64_0_1.

Definition demo_build_net : BuildNet :=
  mkBuildNet (fun _ => 1700000000) (fun _ => Ok 1699996000)
    (fun _ hs => Ok (list_to_map (map (fun h =>
       (h, FromRpc (mkVerboseTx (Some 3000000) 1690000000 10 false))) (elements hs))))
    (Ok 1000) (Ok (1 # 100000)%Q).

Definition demo_sender : Address := mkAddress (demo_address true) FormatStandard.

Definition demo_send_net : SendNet :=
  mkSendNet (demo_net true) demo_build_net 1700000000 (Ok demo_sender)
    (Ok [demo_utxo 1 60000; demo_utxo 2 2000000000]) elements None (Ok 100) (fun _ => Ok ∅).

Definition demo_builder (outs : list TransactionOutput) : UtxoTxBuilder :=
  match builder_new (demo_coin true) (Some demo_sender) 1700000000 with
  | Some b => b |> add_available_inputs [demo_utxo 1 60000; demo_utxo 2 2000000000] |> add_outputs outs
  | None => mkTxBuilder None [] [] [] SendExact None None (signer_from_tx (demo_payment [])) None
  end.

Definition demo_outs : list TransactionOutput := [mkTransactionOutput 1000000 (demo_script false)].

Lemma demo_ready : build_ready (demo_coin true) demo_conf demo_build_net (demo_builder demo_outs)
  demo_sender (demo_script true) (FixedPerKb 1000) (Some 1000).
Proof.
  split; try (vm_compute; reflexivity). split.
  - repeat constructor; unfold is_uint; simpl; lia.
  - repeat constructor; unfold is_uint; simpl; lia.
  - vm_compute. reflexivity.
  - vm_compute. reflexivity.
  - vm_compute. split; [discriminate|reflexivity].
  - vm_compute. split; [discriminate|reflexivity].
  - unfold rate_ok, is_uint. simpl. lia.
  - unfold relay_ok, is_uint. lia.
  - unfold is_uint. vm_compute. split; [discriminate|reflexivity].
  - intros r m [= <-]. unfold is_uint. lia.
  - split_and!; [unfold is_uint; vm_compute; split; [discriminate|reflexivity]|vm_compute; reflexivity..].
Qed.

Lemma built_transaction_pays_witness : exists tx data taken interest,
  build (demo_coin true) demo_conf demo_build_net (demo_builder demo_outs) = Some (Ok (tx, data)) /\
  s_inputs tx = map unsigned_of_unspent taken /\ 0 < interest /\
  spent_by_me data + interest = total out_value (s_outputs tx) + fee_amount data.
Proof.
  destruct (build (demo_coin true) demo_conf demo_build_net (demo_builder demo_outs)) as [[[tx data]|]|] eqn:E;
    [|vm_compute in E; discriminate E..].
  destruct (built_transaction_pays _ _ _ _ _ _ _ _ tx data demo_ready E)
    as (taken & outs & tail & fee & interest & _ & Hin & _ & _ & _ & _ & _ & Hsum & _).
  exists tx, data, taken, interest. split_and!; [done|exact Hin| |].
  - assert (total out_value (s_outputs tx) + fee_amount data - spent_by_me data > 0) as Hp.
    { vm_compute in E. injection E as <- <-. vm_compute. reflexivity. }
    unfold gas in Hsum. simpl in Hsum. lia.
  - unfold gas in Hsum. simpl in Hsum. lia.
Defined.

Lemma build_returns_witness :
  exists res, build (demo_coin true) demo_conf demo_build_net (demo_builder demo_outs) = Some res.
Proof.
  apply (build_returns (demo_coin true) demo_conf demo_build_net (demo_builder demo_outs) demo_sender
    (demo_script true) (FixedPerKb 1000) (Some 1000) demo_ready).
  split; [intros r; unfold is_uint; simpl; lia|exact I].
Defined.

(** One send has spent the first output. *)
Definition demo_sent : Sent :=
  mkSent [demo_utxo 1 60000] (replicate 32 5)
    [mkTransactionOutput 1000 (demo_script false); mkTransactionOutput 58000 (demo_script true)].

Definition demo_cache : RecentlySpentOutPoints :=
  add_spent (recently_spent_new (demo_script true)) (sent_ins demo_sent) (sent_hash demo_sent)
    (sent_outs demo_sent).

Lemma demo_sends : history (demo_script true) [demo_sent] demo_cache.
Proof.
  apply hist_send.
  - constructor.
  - split; [by intros e' He%elem_of_nil|].
    intros e' u ->%list_elem_of_singleton ->%list_elem_of_singleton. done.
  - apply Forall_singleton. intros [x Hx]. simpl in Hx. by rewrite lookup_empty in Hx.
Qed.

Lemma cache_offers_witness : exists res,
  replace_spent_outputs_with_cache CACHE_ROUNDS demo_cache {[demo_utxo 1 60000; demo_utxo 2 2000000000]} = Some res /\
  demo_utxo 1 60000 ∉ res /\
  mkUnspent (mkOutPoint (replicate 32 5) 1) 58000 None (demo_script true) ∈ res.
Proof.
  destruct (cache_offers (demo_script true) [demo_sent] demo_cache
    {[demo_utxo 1 60000; demo_utxo 2 2000000000]} demo_sends) as (res & Hres & Hno & _ & _ & Hchange).
  exists res. split_and!; [exact Hres| |].
  - intros Hin. apply (Hno _ Hin). exists demo_sent. split; [by apply list_elem_of_singleton|].
    unfold spends. by apply elem_of_list_to_set, list_elem_of_singleton.
  - apply (Hchange demo_sent (demo_utxo 1 60000) (mkCached (mkOutPoint (replicate 32 5) 1) 58000)).
    + by apply list_elem_of_singleton.
    + by apply elem_of_union_l, elem_of_singleton.
    + by apply list_elem_of_singleton.
    + apply (bool_decide_eq_true_1 _). vm_compute. reflexivity.
    + intros (e & ->%list_elem_of_singleton & (u & ->%list_elem_of_singleton & Hu & _)%spends_hash).
      discriminate Hu.
Defined.

Definition succeeds {E A} (r : option (result E A)) : bool :=
  match r with Some (Ok _) => true | _ => false end.

Lemma succeeds_inv {E A} (r : option (result E A)) : succeeds r = true -> exists a, r = Some (Ok a).
Proof. destruct r as [[a|]|]; [by exists a|done..]. Qed.

Lemma sends_never_conflict_witness : exists t c' e,
  send_outputs_from_my_address (fun _ => Err "no wallet"%string) (demo_coin true) demo_conf demo_send_net
    demo_cache demo_outs = Some (Ok (t, c')) /\
  map un_outpoint (sent_ins e) = map previous_output (inputs t) /\
  (forall u, u ∈ sent_ins e -> ~ spent_in [demo_sent] (from_unspent_info u)).
Proof.
  destruct (succeeds_inv (send_outputs_from_my_address (fun _ => Err "no wallet"%string) (demo_coin true)
    demo_conf demo_send_net demo_cache demo_outs)) as [[t c'] E]; [vm_compute; reflexivity|].
  destruct (sends_never_conflict (fun _ => Err "no wallet"%string) (demo_coin true) demo_conf demo_send_net
    (demo_script true) [demo_sent] demo_cache demo_outs t c') as (e & _ & _ & Hin & Hns & _).
  - exact I.
  - intros X u Hu. by apply elem_of_elements.
  - exact demo_sends.
  - exact E.
  - exists t, c', e. split_and!; [done|exact Hin|exact Hns].
Defined.

Definition demo_payment_args : SendPaymentArgs :=
  mkSendPayment 7800 1700000000 (demo_pk_bytes false) demo_hash (1 # 2)%Q None [] None None 0.

Lemma sent_payment_is_valid_witness : exists t c',
  send_payment (fun _ => Err "no wallet"%string) (demo_coin true) demo_conf demo_send_net demo_cache
    demo_payment_args (1 # 2)%Q = Some (Ok (t, c')) /\
  validate_payment (demo_coin false) (demo_chain t) t DEFAULT_SWAP_VOUT (demo_public true) (demo_public false)
    (TakerOrMakerPayment demo_hash) (1 # 2)%Q None 1700000000 0 0 = Some (Ok tt).
Proof.
  destruct (succeeds_inv (send_payment (fun _ => Err "no wallet"%string) (demo_coin true) demo_conf
    demo_send_net demo_cache demo_payment_args (1 # 2)%Q)) as [[t c'] E]; [vm_compute; reflexivity|].
  exists t, c'. split; [done|].
  destruct (sent_payment_is_valid (fun _ => Err "no wallet"%string) (demo_coin true) demo_conf demo_send_net
    demo_cache demo_payment_args (1 # 2)%Q t c' (demo_coin false) (demo_chain t) 0)
    as (pubkey & my & other & Hp & Hm & Ho & Hv); [exact I|exact E|reflexivity|reflexivity|].
  vm_compute in Hp. injection Hp as <-. vm_compute in Hm. injection Hm as <-.
  vm_compute in Ho. injection Ho as <-. exact Hv.
Defined.

(** ** What is said of the fee and does not hold *)

(** With one output of 0.001 to spend, the fee of a payment of 0.00099 is more
    than that of one of 0.000995: what is left of either is less than dust and
    goes to the fee. *)
Example sender_fee_not_monotone :
  let fee v := get_sender_trade_fee (demo_coin true) demo_conf
    (mkSendNet (demo_net true) demo_build_net 1700000000 (Ok demo_sender)
       (Ok [demo_utxo 1 100000]) elements None (Ok 100) (fun _ => Ok ∅))
    (recently_spent_new (demo_script true)) (Exact v) TradePreimageMax in
  match fee (99000 # 100000000)%Q, fee (99500 # 100000000)%Q with
  | Some (Ok f), Some (Ok f') => negb (Qle_bool (tf_amount f) (tf_amount f'))
  | _, _ => false
  end = true.
Proof. vm_compute. reflexivity. Qed.
